(* ===== verification/_CoqProject ===== *)
-Q . S2P
Prelude.v
Memory.v
Pmm.v
Vmm.v
VmmInv.v
VmmUser.v
VmmSpec.v
VmmBrk.v
VmmClone.v
VmmTasks.v
CString.v
Path.v
OrderedArray.v
Heap.v
HeapInv.v
HeapAlloc.v
HeapFree.v
HeapSpec.v
VmmHeap.v
DList.v
Mutex.v
Pipe.v
Time.v
Fd.v
Mount.v
Format.v
Sched.v
Net.v
NetSum.v
NetSend.v
NetArp.v
NetIcmp.v
NetRecv.v
Ata.v
Ext2.v
Ext2File.v
Ext2Dir.v
Ext2Path.v
Ext2Dents.v
DirBuf.v
FileSpec.v
Fat.v
FatRead.v
FatDir.v
FatEntries.v
FatTree.v
FatLookup.v
Initrd.v
FsMount.v
InitrdSpec.v
Elf.v
ElfLoad.v
ElfImage.v
ElfFile.v
ElfCorrect.v
Backtrace.v
Console.v
ConsoleSpec.v
ConsoleTerm.v
ConsoleOps.v
Keyboard.v
KeyboardSpec.v
Stdio.v
Eshell.v
EshellParse.v
EshellRun.v
