(* ===== verification/Prelude.v ===== *)
(** * exscapeOS: a verification development

    exscapeOS is a small operating system for i386 PCs, written in C: a preemptive kernel with
    virtual memory, a kernel heap, a VFS with FAT, ext2 and an initrd, an ATA driver, consoles, pipes,
    a network stack that answers ping, an ELF loader, and a few programs in user space.  The
    development models the kernel's C code as functions that can be executed and proves what
    they are for.  Paths below are relative to src/src/.

    ** How the code is modelled

    A function that cannot fail is a function; code that can is in the monad [res] of this file: it
    returns, panics (a failed [assert] counts), leaves what C defines (an access outside the object a
    pointer points into, NULL included, a use of freed memory) or runs out of the model's fuel.
    Code with a state is in [ST S] over it.  Integers are [Z]; where the code computes modulo
    2^8, 2^16 or 2^32 the model says so ([u8], [u16], [u32], and [s32], [schar] for signed ones).  A
    pointer into a buffer is an index or the rest of the buffer; an object of the kernel heap that the
    code shares by address is found by its address in a map, NULL being 0.  What other tasks,
    interrupts or the hardware do while the code waits is an argument: a list of events or a function
    [env] on the state.

    ** Parts, files and how they interact

    - Memory.v, OrderedArray.v, Heap.v (kernel/heap.c, kernel/ordered_array.c): the heap with its
      headers and footers in byte memory.  HeapInv.v is its invariant, HeapAlloc.v and HeapFree.v the
      steps of [heap_alloc] and [heap_free], HeapSpec.v what [kmalloc] and [kfree] promise.
    - Pmm.v (kernel/pmm.c): physical frames.  Vmm.v (kernel/vmm.c): page directories, user and kernel
      mappings, [task_mm], the break, [fork]'s copy.  VmmInv.v, VmmUser.v: page tables as maps and
      their invariant.  VmmSpec.v, VmmBrk.v, VmmClone.v: the operations on one address space.
      VmmTasks.v: all tasks together.  VmmHeap.v: the page table code implements the memory interface
      that Heap.v is proved against.
    - CString.v (lib/string.c), Path.v (lib/path.c), Format.v (lib/stdlib.c, lib/vsprintf.c): the
      library that the rest calls.
    - DList.v (kernel/list.c), Mutex.v (kernel/mutex.c), Pipe.v (kernel/pipe.c), Time.v
      (kernel/time.c).  Sched.v (kernel/task.c, kernel/timer.c) uses lists as sequences, which
      DList.v shows list.c implements.
    - Fd.v and Mount.v (kernel/vfs.c): descriptors and paths.  File systems are classes here
      ([FileSystems], and the operations of a mount point); [Vfs] in Ext2Dir.v is the
      way back from a file system into the VFS, for symbolic links.
    - Ata.v (kernel/ata.c, kernel/partition.c): disks.  Ext2.v, Ext2Dir.v (kernel/ext2.c): the file
      system over [ata_read]; Ext2File.v, Ext2Path.v, Ext2Dents.v: contents, paths and listings.
    - Fat.v, FatDir.v (kernel/fat/fat.c, kernel/fat/dir.c): FAT32 over [disk_read]; FatRead.v: the chain
      of clusters of a file and what reading it gives; FatEntries.v: the entries of a directory with
      long and short names; FatTree.v: listings; FatLookup.v: paths, open and stat.
    - Initrd.v, FsMount.v (kernel/initrd.c): the files in the image the boot loader provides, and
      mounting by its /etc/mounts; InitrdSpec.v: their theorems.
    - DirBuf.v: the buffers of directory entries that FAT and the initrd share.  FileSpec.v: a file as
      its data and a position; the class [FileSys] is what a file system promises of its reads and
      seeks, with instances for FAT and the initrd.
    - Net.v (kernel/net): the RTL8139 driver, ARP, IPv4 and ICMP; NetSum.v checksums, NetSend.v and
      NetIcmp.v the way out, NetArp.v the cache, NetRecv.v the way in.
    - Elf.v (kernel/elf.c): the program loader, over Vmm.v's page tables; ElfFile.v: the whole of
      [elf_load_int], with the file read through Mount.v and Fd.v; ElfLoad.v, ElfImage.v and
      ElfCorrect.v: the image of a program.  Backtrace.v (kernel/backtrace.c): symbol lookup.
    - Console.v (kernel/console.c): consoles and the screen; ConsoleSpec.v, ConsoleTerm.v and
      ConsoleOps.v: the terminal they implement.  Keyboard.v (kernel/keyboard.c, kernel/stdio.c,
      [getchar] of console.c): from scan codes to lines; KeyboardSpec.v and Stdio.v: its theorems.
    - Eshell.v (userspace/eshell): the shell, a program of user space, from a line to what the child executes;
      EshellParse.v: splitting into arguments; EshellRun.v: variables, redirections, patterns, and the whole.

    This file: outcomes and the state monad, machine integers, C arrays, the tactics ([run],
    [bool_to_prop]) and hint databases ([kernel_rw]) and the lemmas on lists all parts share.

    ** What the theorems show

    - Allocators: [kmalloc], [kfree], [pmm_alloc], [pmm_free], [vmm_alloc_user] and the rest keep
      their invariants, hand out what is free and change nothing else; tasks stay isolated under any
      sequence of allocations, forks and exits ([tasks_isolated]).
    - Refinement: lists refine sequences, the ARP cache a map, a console a terminal with scrollback,
      the page tables the memory of the heap, open files of FAT and the initrd a sequence of bytes
      with a position.
    - Concurrency: mutual exclusion over the interleavings of single memory accesses, packets
      processed exactly once, scheduling that is fair while no task is named to run next.
    - Files: reference counts of open files; path collapsing and lookup; ext2, FAT and initrd
      reads deliver the bytes the on-disk format defines; listings are complete, with the names of
      the format; mounting carries out the lines of /etc/mounts; disk writes are read back.
    - Programs: the loader builds the image the ELF file describes, with arguments and stack; the shell
      runs the program a line means ([eshell_command_correct]).
    - Input and output: what is typed is what [stdio_read] returns after editing; what is printed is
      what the screen shows.
    - Each theorem says in its comment for which inputs it holds; where the code does something else outside
      of them (a panic, lost data), that is part of the theorem or a theorem of its own.
    - Flaws the models showed are theorems too, or are listed with the findings: accesses past the end of a
      buffer, lost or stale data, assertions a user program can make fail.

    ** Bounds and fuel

    Loops that run over data recurse on the data.  Others carry fuel, chosen so that it cannot be the
    reason for a result: the theorems state outcomes [Ok], never "if it returns".  [heap_alloc]
    retries once after growing the heap (fuel 2); searches of bitmaps and arrays run as many rounds
    as there are elements; the page loops of Vmm.v run over the 1024 entries of a table or the pages
    of the range; tokenising and path loops have the length of the buffer, format strings theirs;
    the waits of the network code have the ticks the code allows (201 for ARP), sending the four
    descriptors and one more; disk transfers the number of sectors, with ten doublings for a chunk;
    directory searches one round for each byte, of FAT directories for each entry (the fuel is an argument, and
    [is_fat_dir] says that it is enough); FAT reads one round for each byte of the
    request and one more, FAT seeks one for each byte of the offset; a directory whose chain is cyclic, where the
    code hangs, is [NoFuel]; reading a line one round for each key that can still come; the loops of the
    shell one for each character, redirections the square of the number of arguments.

    ** Not modelled

    Assembly (boot, context switch, interrupt stubs), the port accesses of drivers beyond what Net.v,
    Ata.v, Time.v and Keyboard.v need, descriptor tables, PCI enumeration, the FPU, the serial port, the
    kernel shell and [kmain] are hardware set-up or glue that prints; the dispatch table of system
    calls only calls functions modelled here.  The other programs of user space and the patches to the
    C library are outside of the kernel.  Within the modelled files, each part's entry in the
    manifest names the functions that are left out. *)
From stdpp Require Export base numbers list gmap.
From Stdlib Require Export Lia.
#[global] Open Scope Z_scope.

(** ** Outcomes of a piece of kernel C code

    [Ok a]     the code returned [a];
    [Panic]    an [assert()] failed or [panic()] was called;
    [Undef]    the code read or wrote outside the object a pointer points into
               (or dereferenced NULL): behaviour C leaves undefined;
    [NoFuel]   the fuel of a loop of the model ran out. *)
Inductive res (A : Type) : Type :=
| Ok (a : A)
| Panic
| Undef
| NoFuel.
Arguments Ok {A} a.
Arguments Panic {A}.
Arguments Undef {A}.
Arguments NoFuel {A}.

#[global] Instance res_ret : MRet res := fun A a => Ok a.
#[global] Instance res_bind : MBind res := fun A B f m =>
  match m with
  | Ok a => f a
  | Panic => Panic
  | Undef => Undef
  | NoFuel => NoFuel
  end.
#[global] Instance res_fmap : FMap res := fun A B f m =>
  match m with
  | Ok a => Ok (f a)
  | Panic => Panic
  | Undef => Undef
  | NoFuel => NoFuel
  end.
#[global] Instance res_eq_dec {A} `{EqDecision A} : EqDecision (res A).
Proof. solve_decision. Defined.

(** ** Code that also changes a state *)
Definition ST (S A : Type) : Type := S -> res (A * S).
#[global] Instance st_ret {S} : MRet (ST S) := fun A a s => Ok (a, s).
#[global] Instance st_bind {S} : MBind (ST S) := fun A B f m s =>
  match m s with
  | Ok (a, s') => f a s'
  | Panic => Panic
  | Undef => Undef
  | NoFuel => NoFuel
  end.
Definition lift {S A} (r : res A) : ST S A := fun s =>
  match r with Ok a => Ok (a, s) | Panic => Panic | Undef => Undef | NoFuel => NoFuel end.
Definition gets {S A} (f : S -> A) : ST S A := fun s => Ok (f s, s).
Definition modify {S} (f : S -> S) : ST S () := fun s => Ok (tt, f s).

(** [kernutil.h]: [assert(b)] panics when [b] is false. *)
Definition assert (b : bool) : res () := if b then Ok tt else Panic.

(** The value of an option the code dereferences. *)
Definition deref {A} (o : option A) : res A :=
  match o with Some a => Ok a | None => Undef end.

(** ** Machine integers *)
Definition u8 (x : Z) : Z := x mod 2 ^ 8.
Definition u16 (x : Z) : Z := x mod 2 ^ 16.
Definition u32 (x : Z) : Z := x mod 2 ^ 32.
(** Reinterpretation of a value as a signed 32-bit integer. *)
Definition s32 (x : Z) : Z := (x + 2 ^ 31) mod 2 ^ 32 - 2 ^ 31.
(** A [char] of the i386 ABI is signed. *)
Definition schar (x : Z) : Z := (x + 2 ^ 7) mod 2 ^ 8 - 2 ^ 7.

(** ** C arrays: indexing by an integer, undefined outside the array *)
Definition aget {A} (l : list A) (i : Z) : res A :=
  if i <? 0 then Undef else deref (l !! Z.to_nat i).
Definition aset {A} (l : list A) (i : Z) (x : A) : res (list A) :=
  if (i <? 0) || (Z.of_nat (length l) <=? i) then Undef
  else Ok (<[Z.to_nat i := x]> l).
Definition zlen {A} (l : list A) : Z := Z.of_nat (length l).

(** [memcpy(dst + doff, src + soff, n)]: undefined unless both ranges are inside. *)
Definition blit {A} (dst : list A) (doff : Z) (src : list A) (soff n : Z) : res (list A) :=
  if (0 <=? n) && (0 <=? doff) && (doff + n <=? zlen dst) && (0 <=? soff) && (soff + n <=? zlen src)
  then Ok (take (Z.to_nat doff) dst ++ take (Z.to_nat n) (drop (Z.to_nat soff) src)
             ++ drop (Z.to_nat (doff + n)) dst)
  else Undef.

(** Results of system calls: a value, or [-errno]; the numbers are Newlib's. *)
Inductive errno :=
  EBADF | EPIPE | ENFILE | EMFILE | EFAULT | EACCES | EINVAL | ELOOP | EPERM | ENOTDIR | ENOENT | ERANGE | ESPIPE
| ECHILD | ESRCH | ENOEXEC | EIO | ENOMEM | ENAMETOOLONG | EISDIR.
#[export] Instance errno_eq_dec : EqDecision errno.
Proof. solve_decision. Defined.
Inductive ret := Val (n : Z) | Err (e : errno).
#[export] Instance ret_eq_dec : EqDecision ret.
Proof. solve_decision. Defined.

(** [count f n lo] is the number of [i] in [lo, lo + n) with [f i]. *)
Fixpoint count (f : Z -> bool) (n : nat) (lo : Z) : Z :=
  match n with
  | O => 0
  | S n => (if f lo then 1 else 0) + count f n (lo + 1)
  end.

(** [assert] in code with a state. *)
Definition ensure {S} (b : bool) : ST S () := lift (assert b).

Definition PAGE_SIZE : Z := 0x1000.
(** [heap.h] *)
Definition IS_PAGE_ALIGNED (x : Z) : bool := Z.land x 0xfff =? 0.
Definition byte_ok (x : Z) : Prop := 0 <= x < 256.

(** [bool_to_prop] rewrites the boolean tests of the code into arithmetic. *)
Ltac bool_to_prop :=
  repeat match goal with
  | H : (_ && _)%bool = true |- _ => apply andb_true_iff in H as [? ?]
  | H : (_ || _)%bool = false |- _ => apply orb_false_iff in H as [? ?]
  | H : negb _ = true |- _ => apply negb_true_iff in H
  | H : negb _ = false |- _ => apply negb_false_iff in H
  | H : (_ <? _) = true |- _ => apply Z.ltb_lt in H
  | H : (_ <? _) = false |- _ => apply Z.ltb_ge in H
  | H : (_ <=? _) = true |- _ => apply Z.leb_le in H
  | H : (_ <=? _) = false |- _ => apply Z.leb_gt in H
  | H : (_ =? _) = true |- _ => apply Z.eqb_eq in H
  | H : (_ =? _) = false |- _ => apply Z.eqb_neq in H
  end.

(** ** Lemmas on outcomes *)
Lemma bind_Ok {A B} (m : res A) (f : A -> res B) b :
  (m ≫= f) = Ok b <-> exists a, m = Ok a /\ f a = Ok b.
Proof. destruct m; unfold mbind; cbn; naive_solver. Qed.

Lemma assert_Ok b u : assert b = Ok u <-> b = true.
Proof. destruct b, u; unfold assert; naive_solver. Qed.

Lemma deref_Ok {A} (o : option A) a : deref o = Ok a <-> o = Some a.
Proof. destruct o; unfold deref; naive_solver. Qed.

Lemma st_bind_Ok {S A B} (m : ST S A) (f : A -> ST S B) s a s' :
  m s = Ok (a, s') -> (m ≫= f) s = f a s'.
Proof. intros H. unfold mbind, st_bind. by rewrite H. Qed.

Lemma st_bind_inv {S A B} (m : ST S A) (f : A -> ST S B) s r :
  (m ≫= f) s = Ok r -> exists a s', m s = Ok (a, s') /\ f a s' = Ok r.
Proof. unfold mbind, st_bind. destruct (m s) as [[a s']| | |]; naive_solver. Qed.

Lemma ensure_true {S} (b : bool) (s : S) : b = true -> ensure b s = Ok (tt, s).
Proof. by intros ->. Qed.

Lemma ensure_inv {S} (b : bool) (s s' : S) u : ensure b s = Ok (u, s') -> b = true /\ s' = s.
Proof. destruct b; [|done]. by intros [= _ ->]. Qed.

(** ** Lemmas on arrays *)
Lemma aget_Ok {A} (l : list A) i x :
  aget l i = Ok x <-> 0 <= i /\ l !! Z.to_nat i = Some x.
Proof.
  unfold aget. destruct (Z.ltb_spec i 0).
  - split; [done | lia].
  - rewrite deref_Ok. naive_solver lia.
Qed.

Lemma aget_bound {A} (l : list A) i x : aget l i = Ok x -> 0 <= i < zlen l.
Proof.
  intros [? ?%lookup_lt_Some]%aget_Ok. unfold zlen. lia.
Qed.

Lemma aget_is_Ok {A} (l : list A) i :
  0 <= i < zlen l -> exists x, aget l i = Ok x /\ l !! Z.to_nat i = Some x.
Proof.
  unfold zlen. intros. destruct (lookup_lt_is_Some_2 l (Z.to_nat i)) as [x Hx]; [lia|].
  exists x. split; [|done]. apply aget_Ok. split; [lia|done].
Qed.

Lemma aset_Ok {A} (l : list A) i x l' :
  aset l i x = Ok l' <-> 0 <= i < zlen l /\ l' = <[Z.to_nat i := x]> l.
Proof.
  unfold aset, zlen.
  destruct (Z.ltb_spec i 0), (Z.leb_spec (Z.of_nat (length l)) i); cbn; naive_solver lia.
Qed.

Lemma aset_in {A} (l : list A) i x :
  0 <= i < zlen l -> aset l i x = Ok (<[Z.to_nat i := x]> l).
Proof. intros. by apply aset_Ok. Qed.

Lemma zlen_insert {A} (l : list A) i x : zlen (<[i := x]> l) = zlen l.
Proof. unfold zlen. by rewrite length_insert. Qed.

Lemma zlen_nonneg {A} (l : list A) : 0 <= zlen l.
Proof. unfold zlen. lia. Qed.

Lemma zlen_app {A} (l k : list A) : zlen (l ++ k) = zlen l + zlen k.
Proof. unfold zlen. rewrite length_app. lia. Qed.

Lemma zlen_nil {A} : zlen (@nil A) = 0.
Proof. done. Qed.

Lemma zlen_cons {A} (x : A) l : zlen (x :: l) = 1 + zlen l.
Proof. unfold zlen. cbn. lia. Qed.

Lemma aget_mid {A} (l k : list A) x : aget (l ++ x :: k) (zlen l) = Ok x.
Proof. apply aget_Ok. unfold zlen. split; [lia|]. apply list_lookup_middle. lia. Qed.

Lemma aset_mid {A} (l k : list A) x y : aset (l ++ x :: k) (zlen l) y = Ok (l ++ y :: k).
Proof.
  rewrite aset_in by (rewrite zlen_app, zlen_cons; pose proof (zlen_nonneg l); pose proof (zlen_nonneg k); lia).
  unfold zlen. rewrite Nat2Z.id, insert_app_r_alt, Nat.sub_diag by lia. done.
Qed.

Lemma zlen_snoc {A} (l : list A) x : zlen (l ++ [x]) = zlen l + 1.
Proof. rewrite zlen_app. done. Qed.

Lemma exists_last_or_nil {A} (l : list A) : l = [] \/ exists k x, l = k ++ [x].
Proof. destruct l as [|x l _] using rev_ind; eauto. Qed.

Lemma blit_Ok {A} (dst src : list A) doff soff n :
  0 <= n -> 0 <= doff -> doff + n <= zlen dst -> 0 <= soff -> soff + n <= zlen src ->
  blit dst doff src soff n = Ok (take (Z.to_nat doff) dst ++ take (Z.to_nat n) (drop (Z.to_nat soff) src)
                                   ++ drop (Z.to_nat (doff + n)) dst).
Proof.
  intros. unfold blit.
  destruct (Z.leb_spec 0 n), (Z.leb_spec 0 doff), (Z.leb_spec (doff + n) (zlen dst)),
    (Z.leb_spec 0 soff), (Z.leb_spec (soff + n) (zlen src)); cbn; done || lia.
Qed.

Lemma blit_Undef {A} (dst src : list A) doff soff n :
  zlen dst < doff + n \/ zlen src < soff + n -> blit dst doff src soff n = Undef.
Proof.
  intros. unfold blit.
  destruct (Z.leb_spec 0 n), (Z.leb_spec 0 doff), (Z.leb_spec (doff + n) (zlen dst)),
    (Z.leb_spec 0 soff), (Z.leb_spec (soff + n) (zlen src)); cbn; done || lia.
Qed.

Lemma blit_zlen {A} (dst src d : list A) doff soff n : blit dst doff src soff n = Ok d -> zlen d = zlen dst.
Proof.
  unfold blit. case_match eqn:E; [|done]. intros [= <-]. bool_to_prop. unfold zlen in *.
  rewrite !length_app, !length_take, !length_drop. lia.
Qed.

Lemma Forall_snoc {A} (P : A -> Prop) l x : Forall P l -> P x -> Forall P (l ++ [x]).
Proof. intros. apply Forall_app. split; [done|]. by constructor. Qed.

(** ** Lemmas on machine integers *)
Lemma u32_small x : 0 <= x < 2 ^ 32 -> u32 x = x.
Proof. apply Z.mod_small. Qed.

Lemma u32_bound x : 0 <= u32 x < 2 ^ 32.
Proof. apply Z.mod_pos_bound. lia. Qed.

Lemma s32_small x : - 2 ^ 31 <= x < 2 ^ 31 -> s32 x = x.
Proof. intros. unfold s32. rewrite Z.mod_small; lia. Qed.

Lemma s32_bound x : - 2 ^ 31 <= s32 x < 2 ^ 31.
Proof. unfold s32. pose proof (Z.mod_pos_bound (x + 2 ^ 31) (2 ^ 32)). lia. Qed.

(** Masks of page-aligned addresses. *)
Lemma land_fff x : Z.land x 0xfff = x mod PAGE_SIZE.
Proof. change 0xfff with (Z.ones 12). by rewrite Z.land_ones. Qed.

Lemma IS_PAGE_ALIGNED_mod x : IS_PAGE_ALIGNED x = (x mod PAGE_SIZE =? 0).
Proof. unfold IS_PAGE_ALIGNED. by rewrite land_fff. Qed.

Lemma IS_PAGE_ALIGNED_true x : x mod PAGE_SIZE = 0 -> IS_PAGE_ALIGNED x = true.
Proof. rewrite IS_PAGE_ALIGNED_mod. intros ->. done. Qed.

(** [x & ~(2^k - 1)] on 32-bit values. *)
Lemma land_clear x k : 0 <= x < 2 ^ 32 -> 0 <= k <= 32 ->
  Z.land x (Z.shiftl (Z.ones (32 - k)) k) = x / 2 ^ k * 2 ^ k.
Proof.
  intros Hx Hk. assert (Hl : Z.land x (Z.shiftl (Z.ones (32 - k)) k) = Z.ldiff x (Z.ones k)).
  { apply Z.bits_inj'. intros n Hn. rewrite Z.land_spec, Z.ldiff_spec, Z.shiftl_spec by done.
    destruct (decide (n < k)).
    - rewrite (Z.ones_spec_low k), (Z.testbit_neg_r _ (n - k)) by lia. done.
    - rewrite (Z.ones_spec_high k) by lia. destruct (decide (n < 32)).
      + rewrite (Z.ones_spec_low (32 - k)) by lia. done.
      + rewrite <- (Z.mod_small x (2 ^ 32)), !Z.mod_pow2_bits_high by lia. done. }
  rewrite Hl, Z.ldiff_ones_r, Z.shiftl_mul_pow2, Z.shiftr_div_pow2 by lia. done.
Qed.
Lemma land_page x : 0 <= x < 2 ^ 32 -> Z.land x 0xfffff000 = x / PAGE_SIZE * PAGE_SIZE.
Proof. intros. by apply (land_clear x 12). Qed.

(** ** Counting *)

Lemma count_app f n m lo : count f (n + m) lo = count f n lo + count f m (lo + Z.of_nat n).
Proof.
  revert lo. induction n as [|n IH]; intros lo; cbn [count Nat.add].
  - by replace (lo + Z.of_nat 0) with lo by lia.
  - rewrite IH. replace (lo + 1 + Z.of_nat n) with (lo + Z.of_nat (S n)) by lia. lia.
Qed.

Lemma count_ext f g n lo :
  (forall i, lo <= i < lo + Z.of_nat n -> f i = g i) -> count f n lo = count g n lo.
Proof.
  revert lo. induction n as [|n IH]; intros lo H; cbn [count]; [done|].
  rewrite (H lo), (IH (lo + 1)) by (intros; apply H; lia) || lia. done.
Qed.

Lemma count_shift f n lo d : count (fun i => f (i + d)) n lo = count f n (lo + d).
Proof.
  revert lo. induction n as [|n IH]; intros lo; cbn [count]; [done|].
  rewrite IH. by replace (lo + 1 + d) with (lo + d + 1) by lia.
Qed.

Lemma count_bound f n lo : 0 <= count f n lo <= Z.of_nat n.
Proof. revert lo. induction n as [|n IH]; intros lo; cbn [count]; [lia|]. specialize (IH (lo + 1)). destruct (f lo); lia. Qed.

Lemma count_all f n lo : (forall i, lo <= i < lo + Z.of_nat n -> f i = true) -> count f n lo = Z.of_nat n.
Proof.
  revert lo. induction n as [|n IH]; intros lo H; cbn [count]; [done|].
  rewrite (H lo), IH by (intros; apply H; lia) || lia. lia.
Qed.

Lemma count_none f n lo : (forall i, lo <= i < lo + Z.of_nat n -> f i = false) -> count f n lo = 0.
Proof.
  revert lo. induction n as [|n IH]; intros lo H; cbn [count]; [done|].
  rewrite (H lo), IH by (intros; apply H; lia) || lia. lia.
Qed.

Lemma count_negb f n lo : count f n lo + count (fun i => negb (f i)) n lo = Z.of_nat n.
Proof. revert lo. induction n as [|n IH]; intros lo; cbn [count]; [done|]. specialize (IH (lo + 1)). destruct (f lo); cbn; lia. Qed.

Lemma count_pos f n lo : 0 < count f n lo -> exists i, lo <= i < lo + Z.of_nat n /\ f i = true.
Proof.
  revert lo. induction n as [|n IH]; intros lo; cbn [count]; [lia|]. destruct (f lo) eqn:E.
  - intros _. exists lo. split; [lia | done].
  - intros H. destruct (IH (lo + 1)) as (i & Hi & Hf); [lia|]. exists i. split; [lia | done].
Qed.

Lemma count_change f g n lo i : lo <= i < lo + Z.of_nat n -> f i = true -> g i = false ->
  (forall j, j <> i -> g j = f j) -> count g n lo = count f n lo - 1.
Proof.
  revert lo. induction n as [|n IH]; intros lo Hi Hf Hg Ho; [lia|]. cbn [count]. destruct (decide (lo = i)) as [->|].
  - rewrite Hf, Hg, (count_ext g f) by (intros; apply Ho; lia). lia.
  - rewrite IH, (Ho lo) by (done || lia). lia.
Qed.

(** ** Automation *)
Create HintDb kernel discriminated.
Create Rewrite HintDb kernel_rw.
#[export] Hint Rewrite @zlen_insert @zlen_app @zlen_cons @zlen_nil : kernel_rw.

(** [simp_res] turns hypotheses of the form [run = Ok _] into what each step returned. *)
Ltac simp_res :=
  repeat match goal with
  | H : mbind _ _ = Ok _ |- _ => apply bind_Ok in H as (? & ? & ?)
  | H : assert _ = Ok _ |- _ => apply assert_Ok in H
  | H : Ok _ = Ok _ |- _ => injection H as H; subst
  | H : mret _ = Ok _ |- _ => unfold mret, res_ret in H
  | H : Panic = Ok _ |- _ => discriminate H
  | H : Undef = Ok _ |- _ => discriminate H
  | H : NoFuel = Ok _ |- _ => discriminate H
  | H : deref _ = Ok _ |- _ => apply deref_Ok in H
  | x : () |- _ => destruct x
  end.

(** ** Runs of code with a state *)
(** [run H] replaces the first step of a run by its result. *)
Ltac run H := rewrite (st_bind_Ok _ _ _ _ _ H).

(** [ensure] with a condition that holds. *)
Ltac arith_true := rewrite ?Z.eqb_refl; first [done | apply Z.ltb_lt; lia | apply Z.leb_le; lia
  | apply negb_true_iff, Z.eqb_neq; lia | apply Z.eqb_eq; lia].
Ltac check := erewrite (st_bind_Ok (ensure _)) by (apply ensure_true; arith_true).
