(* ===== verification/Memory.v ===== *)
(** * Byte-addressed memory

    The kernel's address space as its code sees it: a byte at every address of a
    mapped page, [None] elsewhere (a page fault).  [uint8] and little-endian [uint32]
    accesses are undefined unless every byte they touch is mapped.  The kernel heap
    (src/src/kernel/heap.c) keeps its area headers and footers in such memory. *)
From S2P Require Import Prelude.

Definition mem : Type := Z -> option Z.

Definition ld8 (m : mem) (a : Z) : res Z := b ← deref (m a); Ok (u8 b).
Definition ld32 (m : mem) (a : Z) : res Z :=
  b0 ← ld8 m a; b1 ← ld8 m (a + 1); b2 ← ld8 m (a + 2); b3 ← ld8 m (a + 3);
  Ok (b0 + 2 ^ 8 * b1 + 2 ^ 16 * b2 + 2 ^ 24 * b3).

Definition upd8 (m : mem) (a v : Z) : mem := fun x => if x =? a then Some (u8 v) else m x.
Definition upd32 (m : mem) (a v : Z) : mem :=
  upd8 (upd8 (upd8 (upd8 m a v) (a + 1) (v / 2 ^ 8)) (a + 2) (v / 2 ^ 16)) (a + 3) (v / 2 ^ 24).

(** Every byte of [lo, hi) is mapped. *)
Definition mapped (m : mem) (lo hi : Z) : Prop := forall a, lo <= a < hi -> is_Some (m a).
(** The two memories hold the same bytes in [lo, hi). *)
Definition agree (lo hi : Z) (m m' : mem) : Prop := forall a, lo <= a < hi -> m' a = m a.

Definition present (m : mem) (a : Z) : bool := match m a with Some _ => true | None => false end.
Definition st8 (m : mem) (a v : Z) : res mem := if present m a then Ok (upd8 m a v) else Undef.
Definition st32 (m : mem) (a v : Z) : res mem :=
  if present m a && present m (a + 1) && present m (a + 2) && present m (a + 3)
  then Ok (upd32 m a v) else Undef.

(** The pages [a, a + n * PAGE_SIZE) filled with zeroes, and one page taken away. *)
Definition map_zero (m : mem) (lo hi : Z) : mem := fun x => if (lo <=? x) && (x <? hi) then Some 0 else m x.
Definition unmap (m : mem) (lo hi : Z) : mem := fun x => if (lo <=? x) && (x <? hi) then None else m x.

(** [memcpy(dst, src, n)], byte by byte from the first. *)
Fixpoint copy_bytes (n : nat) (m : mem) (dst src : Z) : res mem :=
  match n with
  | O => Ok m
  | S n => b ← ld8 m src; m ← st8 m dst b; copy_bytes n m (dst + 1) (src + 1)
  end.
(** [memset(p, v, n)] *)
Fixpoint fill_bytes (n : nat) (m : mem) (p v : Z) : res mem :=
  match n with
  | O => Ok m
  | S n => m ← st8 m p v; fill_bytes n m (p + 1) v
  end.

(** ** Lemmas *)
Lemma u8_bound x : 0 <= u8 x < 256.
Proof. apply Z.mod_pos_bound. lia. Qed.
Lemma u8_idem x : u8 (u8 x) = u8 x.
Proof. apply Z.mod_mod. lia. Qed.

Lemma ld8_ext m m' a : m' a = m a -> ld8 m' a = ld8 m a.
Proof. unfold ld8. by intros ->. Qed.
Lemma ld32_ext m m' a : agree a (a + 4) m m' -> ld32 m' a = ld32 m a.
Proof. intros H. unfold ld32. by rewrite !(ld8_ext m m') by (apply H; lia). Qed.

Lemma ld8_Ok m a v : ld8 m a = Ok v -> is_Some (m a) /\ 0 <= v < 256.
Proof. unfold ld8. destruct (m a); cbn; [|done]. intros [= <-]. split; [eauto | apply u8_bound]. Qed.
Lemma ld8_mapped m a : is_Some (m a) -> exists v, ld8 m a = Ok v.
Proof. intros [b Hb]. unfold ld8. rewrite Hb. cbn. eauto. Qed.

Lemma ld32_Ok m a v : ld32 m a = Ok v -> mapped m a (a + 4) /\ 0 <= v < 2 ^ 32.
Proof.
  unfold ld32. intros H. simp_res.
  repeat match goal with E : ld8 _ _ = Ok _ |- _ => apply ld8_Ok in E as [? ?] end.
  split; [|lia]. intros y Hy.
  assert (y = a \/ y = a + 1 \/ y = a + 2 \/ y = a + 3) as [->|[->|[->| ->]]] by lia; done.
Qed.
Lemma ld32_mapped m a : mapped m a (a + 4) -> exists v, ld32 m a = Ok v.
Proof.
  intros H. unfold ld32.
  destruct (ld8_mapped m a) as [? ->]; [apply H; lia|]. destruct (ld8_mapped m (a + 1)) as [? ->]; [apply H; lia|].
  destruct (ld8_mapped m (a + 2)) as [? ->]; [apply H; lia|]. destruct (ld8_mapped m (a + 3)) as [? ->]; [apply H; lia|].
  cbn. eauto.
Qed.

Lemma upd8_same m a v : upd8 m a v a = Some (u8 v).
Proof. unfold upd8. by rewrite Z.eqb_refl. Qed.
Lemma upd8_other m a v x : x <> a -> upd8 m a v x = m x.
Proof. intros. unfold upd8. by destruct (Z.eqb_spec x a). Qed.
Lemma upd32_other m a v x : x < a \/ a + 4 <= x -> upd32 m a v x = m x.
Proof. intros. unfold upd32. by rewrite !upd8_other by lia. Qed.

Lemma ld8_upd8 m a v : ld8 (upd8 m a v) a = Ok (u8 v).
Proof. unfold ld8. rewrite upd8_same. cbn. by rewrite u8_idem. Qed.

Lemma le32_split v : 0 <= v < 2 ^ 32 ->
  u8 v + 2 ^ 8 * u8 (v / 2 ^ 8) + 2 ^ 16 * u8 (v / 2 ^ 16) + 2 ^ 24 * u8 (v / 2 ^ 24) = v.
Proof. intros. unfold u8. Z.to_euclidean_division_equations. lia. Qed.

Lemma ld32_upd32 m a v : 0 <= v < 2 ^ 32 -> ld32 (upd32 m a v) a = Ok v.
Proof.
  intros Hv. unfold ld32, ld8, upd32.
  rewrite !(upd8_other _ (a + 3) _ a), !(upd8_other _ (a + 2) _ a), !(upd8_other _ (a + 1) _ a), upd8_same by lia.
  rewrite !(upd8_other _ (a + 3) _ (a + 1)), !(upd8_other _ (a + 2) _ (a + 1)), upd8_same by lia.
  rewrite !(upd8_other _ (a + 3) _ (a + 2)), upd8_same by lia. rewrite upd8_same. cbn [deref mbind res_bind].
  rewrite !u8_idem. f_equal. by apply le32_split.
Qed.

Lemma present_mapped m a : is_Some (m a) -> present m a = true.
Proof. intros [? H]. unfold present. by rewrite H. Qed.
Lemma st8_ok m a v : is_Some (m a) -> st8 m a v = Ok (upd8 m a v).
Proof. intros. unfold st8. by rewrite present_mapped. Qed.
Lemma st32_ok m a v : mapped m a (a + 4) -> st32 m a v = Ok (upd32 m a v).
Proof. intros H. unfold st32. by rewrite !present_mapped by (apply H; lia). Qed.

Lemma mapped_upd8 m a v lo hi : mapped m lo hi -> mapped (upd8 m a v) lo hi.
Proof. intros H x Hx. unfold upd8. destruct (x =? a); [eauto | by apply H]. Qed.
Lemma mapped_upd32 m a v lo hi : mapped m lo hi -> mapped (upd32 m a v) lo hi.
Proof. intros. unfold upd32. by repeat apply mapped_upd8. Qed.
Lemma mapped_sub m lo hi lo' hi' : mapped m lo hi -> lo <= lo' -> hi' <= hi -> mapped m lo' hi'.
Proof. intros H ? ? a ?. apply H. lia. Qed.
Lemma mapped_at m lo hi a : mapped m lo hi -> lo <= a < hi -> is_Some (m a).
Proof. intros H ?. by apply H. Qed.

Lemma agree_refl lo hi m : agree lo hi m m.
Proof. done. Qed.
Lemma agree_trans lo hi m1 m2 m3 : agree lo hi m1 m2 -> agree lo hi m2 m3 -> agree lo hi m1 m3.
Proof. intros H1 H2 a Ha. rewrite H2, H1 by done. done. Qed.
Lemma agree_sub lo hi lo' hi' m m' : agree lo hi m m' -> lo <= lo' -> hi' <= hi -> agree lo' hi' m m'.
Proof. intros H ? ? a ?. apply H. lia. Qed.
Lemma agree_upd8 m a v lo hi : a < lo \/ hi <= a -> agree lo hi m (upd8 m a v).
Proof. intros ? x ?. apply upd8_other. lia. Qed.
Lemma agree_upd32 m a v lo hi : a + 4 <= lo \/ hi <= a -> agree lo hi m (upd32 m a v).
Proof. intros ? x ?. apply upd32_other. lia. Qed.
Lemma agree_mapped m m' lo hi : agree lo hi m m' -> mapped m lo hi -> mapped m' lo hi.
Proof. intros H Hm x Hx. rewrite H by done. by apply Hm. Qed.

(** Copied forwards, a byte arrives unless the copy has already overwritten it. *)
Lemma copy_bytes_spec n m dst src :
  mapped m dst (dst + Z.of_nat n) -> mapped m src (src + Z.of_nat n) ->
  exists m', copy_bytes n m dst src = Ok m' /\
    (forall i, 0 <= i < Z.of_nat n -> src + i < dst \/ dst <= src -> ld8 m' (dst + i) = ld8 m (src + i)) /\
    (forall a, ~ dst <= a < dst + Z.of_nat n -> m' a = m a) /\
    (forall a, is_Some (m a) -> is_Some (m' a)).
Proof.
  revert m dst src. induction n as [|n IH]; intros m dst src Hd Hs; cbn [copy_bytes].
  - exists m. split_and!; try done. lia.
  - destruct (ld8_mapped m src) as [b Hb]; [apply Hs; lia|]. rewrite Hb. cbn [mbind res_bind].
    rewrite st8_ok by (apply Hd; lia). cbn [mbind res_bind].
    destruct (IH (upd8 m dst b) (dst + 1) (src + 1)) as (m' & Hrun & Hcp & Hout & Hmap).
    { apply mapped_upd8. eapply mapped_sub; [exact Hd | lia | lia]. }
    { apply mapped_upd8. eapply mapped_sub; [exact Hs | lia | lia]. }
    exists m'. split_and!; [done | | |].
    + intros i Hi Hdis. destruct (decide (i = 0)) as [->|].
      * rewrite !Z.add_0_r. rewrite (ld8_ext (upd8 m dst b)) by (apply Hout; lia).
        rewrite ld8_upd8, Hb. f_equal. apply ld8_Ok in Hb as [_ ?]. unfold u8. apply Z.mod_small. lia.
      * replace (dst + i) with (dst + 1 + (i - 1)) by lia. rewrite Hcp by lia.
        replace (src + 1 + (i - 1)) with (src + i) by lia. apply ld8_ext. apply upd8_other. lia.
    + intros a Ha. rewrite Hout by lia. apply upd8_other. lia.
    + intros a Ha. apply Hmap. unfold upd8. destruct (a =? dst); [eauto | done].
Qed.

#[export] Hint Resolve mapped_upd8 mapped_upd32 agree_refl : kernel.
