(* ===== verification/Pmm.v ===== *)
(** * The physical memory manager (src/src/kernel/pmm.c)

    One bit per 4 KiB frame in the bitmap [used_frames]; [pmm_init] builds it
    from the boot loader's memory map, [pmm_alloc]/[pmm_alloc_continuous] hand
    out frames and [pmm_free] takes them back.  The state of the component is
    the record [pmm]; the interrupt flag and the contents of physical memory
    ([zero_page_physical]) are part of it because the operations change them. *)
From S2P Require Import Prelude.

(** ** State *)
Record pmm := mk_pmm {
  used_frames : list Z;          (** the bitmap, one dword per 32 frames *)
  nframes : Z;
  last_allocated_frame : Z;
  mem_end_page : Z;
  intr : bool;                   (** the CPU's interrupt flag *)
  ram : Z -> Z                   (** physical memory, by byte address *)
}.

Definition set_used_frames (st : pmm) (uf : list Z) : pmm :=
  mk_pmm uf (nframes st) (last_allocated_frame st) (mem_end_page st) (intr st) (ram st).
Definition set_last (st : pmm) (a : Z) : pmm :=
  mk_pmm (used_frames st) (nframes st) a (mem_end_page st) (intr st) (ram st).
Definition set_intr (st : pmm) (b : bool) : pmm :=
  mk_pmm (used_frames st) (nframes st) (last_allocated_frame st) (mem_end_page st) b (ram st).
Definition set_ram (st : pmm) (m : Z -> Z) : pmm :=
  mk_pmm (used_frames st) (nframes st) (last_allocated_frame st) (mem_end_page st) (intr st) m.

(** [INTERRUPT_LOCK] remembers the flag and clears it; [INTERRUPT_UNLOCK] sets it
    again if it was set. *)
Definition INTERRUPT_LOCK (st : pmm) : bool * pmm := (intr st, set_intr st false).
Definition INTERRUPT_UNLOCK (reenable_interrupts : bool) (st : pmm) : pmm :=
  if reenable_interrupts then set_intr st true else st.

(** ** Bitmap primitives *)
Definition ARRAY_INDEX (a : Z) : Z := Z.shiftr a 5.
Definition OFFSET_INTO_DWORD (a : Z) : Z := Z.land a 31.
Definition FULL : Z := 0xffffffff.

Definition pmm_set_frame (phys_addr : Z) (st : pmm) : res pmm :=
  assert (negb (intr st)) ;;
  let frame_index := phys_addr / PAGE_SIZE in
  let index := ARRAY_INDEX frame_index in
  assert (index <=? nframes st / 32) ;;
  let offset := OFFSET_INTO_DWORD frame_index in
  w ← aget (used_frames st) index;
  assert (Z.land w (Z.shiftl 1 offset) =? 0) ;;
  uf ← aset (used_frames st) index (Z.lor w (Z.shiftl 1 offset));
  Ok (set_used_frames st uf).

Definition pmm_clear_frame (phys_addr : Z) (st : pmm) : res pmm :=
  assert (negb (intr st)) ;;
  let frame_index := phys_addr / PAGE_SIZE in
  let index := ARRAY_INDEX frame_index in
  assert (index <=? nframes st / 32) ;;
  let offset := OFFSET_INTO_DWORD frame_index in
  w ← aget (used_frames st) index;
  assert (negb (Z.land w (Z.shiftl 1 offset) =? 0)) ;;
  uf ← aset (used_frames st) index (Z.land w (u32 (Z.lnot (Z.shiftl 1 offset))));
  Ok (set_used_frames st uf).

Definition pmm_test_frame (phys_addr : Z) (st : pmm) : res bool :=
  assert (negb (intr st)) ;;
  let frame_index := phys_addr / PAGE_SIZE in
  let index := ARRAY_INDEX frame_index in
  assert (index <=? nframes st / 32) ;;
  let offset := OFFSET_INTO_DWORD frame_index in
  w ← aget (used_frames st) index;
  Ok (negb (Z.land w (Z.shiftl 1 offset) =? 0)).

(** ** Initialisation from the boot loader's memory map

    [memory_map_t] without its [size] member, which the code never reads. *)
Record memory_map := mk_memory_map {
  base_addr_low : Z;
  base_addr_high : Z;
  length_low : Z;
  length_high : Z;
  mtype : Z
}.

(** The page-aligned start of an entry: the first page of memory is ignored. *)
Definition entry_addr_lo (m : memory_map) : Z :=
  let addr_lo := base_addr_low m in
  let addr_lo := if addr_lo <? PAGE_SIZE then PAGE_SIZE else addr_lo in
  if negb (Z.land addr_lo 0xfff =? 0)
  then u32 (Z.land addr_lo 0xfffff000 + PAGE_SIZE) else addr_lo.

(** First pass: only [mem_end_page] grows. *)
Definition first_pass_entry (mem_end : Z) (m : memory_map) : Z :=
  if negb (mtype m =? 1) then mem_end
  else if negb (base_addr_high m =? 0) then mem_end
  else
    let addr_lo := entry_addr_lo m in
    let addr_hi := u32 (addr_lo + length_low m) in
    let addr_hi := if negb (Z.land addr_hi 0xfff =? 0)
                   then Z.land addr_hi 0xfffff000 else addr_hi in
    if mem_end <? addr_hi then addr_hi else mem_end.

(** The end of an entry as the second pass computes it. *)
Definition entry_addr_hi (m : memory_map) : Z :=
  let addr_hi := u32 (entry_addr_lo m + length_low m) in
  let addr_hi := if base_addr_low m <? PAGE_SIZE then u32 (addr_hi - PAGE_SIZE) else addr_hi in
  if negb (Z.land addr_hi 0xfff =? 0) then Z.land addr_hi 0xfffff000 else addr_hi.

(** [for (addr = addr_lo; addr < addr_hi; addr += PAGE_SIZE)], with the loop's
    assertion [addr < limit] when there is a memory map. *)
Fixpoint clear_range (fuel : nat) (addr addr_hi : Z) (limit : option Z) (st : pmm) : res pmm :=
  if addr <? addr_hi then
    match fuel with
    | O => NoFuel
    | S fuel =>
        assert (match limit with Some l => addr <? l | None => true end) ;;
        st ← pmm_clear_frame addr st;
        clear_range fuel (u32 (addr + PAGE_SIZE)) addr_hi limit st
    end
  else Ok st.


(** Fuel for the page loops: there are 2^20 pages, and a loop over [addr_lo, addr_hi)
    takes at most [addr_hi / PAGE_SIZE] steps. *)
Definition page_fuel (addr_hi : Z) : nat := S (Z.to_nat (addr_hi / PAGE_SIZE)).

Definition second_pass_entry (m : memory_map) (st : pmm) : res pmm :=
  if negb (mtype m =? 1) then Ok st
  else if negb (base_addr_high m =? 0) then Ok st
  else
    let addr_lo := entry_addr_lo m in
    let addr_hi := entry_addr_hi m in
    if addr_hi <=? addr_lo then Ok st
    else
      assert (IS_PAGE_ALIGNED addr_lo) ;;
      assert (IS_PAGE_ALIGNED addr_hi) ;;
      assert (base_addr_low m <=? addr_lo) ;;
      clear_range (page_fuel addr_hi) addr_lo addr_hi
        (Some (u32 (base_addr_low m + length_low m))) st.

Fixpoint second_pass (l : list memory_map) (st : pmm) : res pmm :=
  match l with
  | [] => Ok st
  | m :: l => st ← second_pass_entry m st; second_pass l st
  end.

(** [mmap] is [None] when GRUB gave no memory map (address or length 0). *)
Definition pmm_init (mmap : option (list memory_map)) (upper_mem : Z) (st : pmm) : res pmm :=
  let mem_end := Z.land (u32 (0x100000 + upper_mem * 1024)) 0xfffff000 in
  let mem_end := match mmap with
                 | Some l => foldl first_pass_entry mem_end l
                 | None => mem_end
                 end in
  let nf := mem_end / PAGE_SIZE in
  let st := mk_pmm (replicate (Z.to_nat (nf / 32 + 1)) FULL) nf FULL mem_end (intr st) (ram st) in
  let '(reenable, st) := INTERRUPT_LOCK st in
  st ← match mmap with
       | Some l => second_pass l st
       | None => clear_range (page_fuel mem_end) 0x100000 mem_end None st
       end;
  Ok (INTERRUPT_UNLOCK reenable st).

(** ** Allocation *)

(** [for (offset = 0; offset < 32; offset++)]: the first clear bit of a dword. *)
Fixpoint first_clear_bit (n : nat) (w offset : Z) : option Z :=
  match n with
  | O => None
  | S n => if Z.land w (Z.shiftl 1 offset) =? 0 then Some offset
           else first_clear_bit n w (offset + 1)
  end.

(** [for (; index < nframes / 32; index++)], [n] iterations left. *)
Fixpoint first_free_from (n : nat) (index : Z) (uf : list Z) : res Z :=
  match n with
  | O => Ok FULL
  | S n =>
      w ← aget uf index;
      if w =? FULL then first_free_from n (index + 1) uf
      else match first_clear_bit 32 w 0 with
           | Some offset => Ok (u32 ((index * 32 + offset) * PAGE_SIZE))
           | None => first_free_from n (index + 1) uf
           end
  end.

Definition pmm_first_free_frame (start_addr : Z) (st : pmm) : res Z :=
  assert (negb (intr st)) ;;
  let index := start_addr / PAGE_SIZE / 32 in
  let index := if negb (index =? 0) then index - 1 else index in
  first_free_from (Z.to_nat (nframes st / 32 - index)) index (used_frames st).

(** [zero_page.s]: fills the frame with zero bytes. *)
Definition zero_page_physical (phys_addr : Z) (m : Z -> Z) : Z -> Z :=
  fun a => if (phys_addr <=? a) && (a <? phys_addr + PAGE_SIZE) then 0 else m a.

Definition pmm_alloc (st : pmm) : res (Z * pmm) :=
  let '(reenable, st) := INTERRUPT_LOCK st in
  let st := if last_allocated_frame st =? FULL then set_last st 0 else st in
  phys_addr ← pmm_first_free_frame (last_allocated_frame st) st;
  if phys_addr =? FULL then Panic
  else
    let st := set_last st phys_addr in
    st ← pmm_set_frame phys_addr st;
    let st := set_ram st (zero_page_physical phys_addr (ram st)) in
    Ok (phys_addr, INTERRUPT_UNLOCK reenable st).

(** [for (i = 1; i < num_frames; i++)]: the first [i] whose frame is in use. *)
Fixpoint first_used_after (n : nat) (i start : Z) (st : pmm) : res (option Z) :=
  match n with
  | O => Ok None
  | S n =>
      b ← pmm_test_frame (u32 (start + i * PAGE_SIZE)) st;
      if b : bool then Ok (Some i) else first_used_after n (i + 1) start st
  end.

(** [while (!success)] *)
Fixpoint find_continuous (fuel : nat) (num_frames start : Z) (st : pmm) : res Z :=
  match fuel with
  | O => NoFuel
  | S fuel =>
      if mem_end_page st <? u32 (start + (num_frames - 1) * PAGE_SIZE) then Panic
      else
        o ← first_used_after (Z.to_nat (num_frames - 1)) 1 start st;
        match o with
        | Some i => find_continuous fuel num_frames (u32 (start + (i + 1) * PAGE_SIZE)) st
        | None => Ok start
        end
  end.

(** [for (i = 0; i < num_frames; i++) _pmm_set_frame(start + i * PAGE_SIZE)] *)
Fixpoint set_frames (n : nat) (i start : Z) (st : pmm) : res pmm :=
  match n with
  | O => Ok st
  | S n =>
      st ← pmm_set_frame (u32 (start + i * PAGE_SIZE)) st;
      set_frames n (i + 1) start st
  end.

Definition pmm_alloc_continuous (num_frames : Z) (st : pmm) : res (Z * pmm) :=
  if num_frames <? 2 then pmm_alloc st
  else
    let '(reenable, st) := INTERRUPT_LOCK st in
    start ← pmm_first_free_frame 0 st;
    start ← find_continuous (S (S (Z.to_nat (nframes st)))) num_frames start st;
    st ← set_frames (Z.to_nat num_frames) 0 start st;
    Ok (start, INTERRUPT_UNLOCK reenable st).

Definition pmm_free (phys_addr : Z) (st : pmm) : res pmm :=
  let '(reenable, st) := INTERRUPT_LOCK st in
  st ← pmm_clear_frame phys_addr st;
  let st := set_last st FULL in
  Ok (INTERRUPT_UNLOCK reenable st).

(** ** Accounting *)

(** [for (offset = 0; offset < 32; offset++)]: adds a page for every bit of [w]
    that is set ([v = true]) or clear ([v = false]). *)
Fixpoint add_bits (v : bool) (n : nat) (w offset acc : Z) : Z :=
  match n with
  | O => acc
  | S n => add_bits v n w (offset + 1)
             (if Bool.eqb (negb (Z.land w (Z.shiftl 1 offset) =? 0)) v
              then u32 (acc + PAGE_SIZE) else acc)
  end.

Fixpoint bytes_free_from (n : nat) (index unused : Z) (uf : list Z) : res Z :=
  match n with
  | O => Ok unused
  | S n =>
      w ← aget uf index;
      let unused :=
        if w =? 0 then u32 (unused + PAGE_SIZE * 32)
        else if w =? FULL then unused
        else add_bits false 32 w 0 unused in
      bytes_free_from n (index + 1) unused uf
  end.

Definition pmm_bytes_free (st : pmm) : res Z :=
  unused ← bytes_free_from (Z.to_nat (nframes st / 32)) 0 0 (used_frames st);
  assert (unused mod 4096 =? 0) ;;
  Ok unused.

Fixpoint bytes_used_from (n : nat) (index used : Z) (uf : list Z) : res Z :=
  match n with
  | O => Ok used
  | S n =>
      w ← aget uf index;
      let used :=
        if w =? 0 then used
        else if w =? FULL then u32 (used + 32 * 4096)
        else add_bits true 32 w 0 used in
      bytes_used_from n (index + 1) used uf
  end.

Definition pmm_bytes_used (st : pmm) : res Z :=
  bytes_used_from (Z.to_nat (nframes st / 32)) 0 0 (used_frames st).

(** ** Abstract view: the set of frames in use *)

(** Frame [i] is in use; frames outside the bitmap count as in use. *)
Definition frame_used (st : pmm) (i : Z) : bool :=
  if i <? 0 then true else
  match used_frames st !! Z.to_nat (i / 32) with
  | Some w => Z.testbit w (i mod 32)
  | None => true
  end.

(** Frames the allocators look at: the bitmap's last dword is never searched. *)
Definition searched (st : pmm) (i : Z) : Prop := 0 <= i < nframes st / 32 * 32.

(** The bitmap has one dword per 32 frames and one more, and the search hint
    never hides a free frame. *)
Record pmm_wf (st : pmm) : Prop := {
  wf_nframes : 0 <= nframes st < 2 ^ 20;
  wf_end : mem_end_page st = nframes st * PAGE_SIZE;
  wf_len : zlen (used_frames st) = nframes st / 32 + 1;
  wf_words : Forall (fun w => 0 <= w < 2 ^ 32) (used_frames st);
  wf_last : last_allocated_frame st = FULL \/
            (0 <= last_allocated_frame st < 2 ^ 32 /\
             forall i, 0 <= i < (last_allocated_frame st / PAGE_SIZE / 32 - 1) * 32 ->
                       frame_used st i = true)
}.

(** The state with frame [i] marked used or free. *)
Definition mark (i : Z) (b : bool) (st : pmm) : pmm :=
  set_used_frames st
    (alter (fun w => if b then Z.lor w (Z.shiftl 1 (i mod 32))
                     else Z.land w (u32 (Z.lnot (Z.shiftl 1 (i mod 32)))))
           (Z.to_nat (i / 32)) (used_frames st)).

(** Number of searched frames that are used ([v = true]) or free ([v = false]). *)
Definition frames_with (v : bool) (st : pmm) : Z :=
  count (fun i => Bool.eqb (frame_used st i) v) (Z.to_nat (nframes st / 32 * 32)) 0.

(** Frame [i] has a bit in the bitmap. *)
Definition in_map (st : pmm) (i : Z) : Prop := 0 <= i < (nframes st / 32 + 1) * 32.

(** ** Bits *)
Lemma land_bit w k : 0 <= k -> (Z.land w (Z.shiftl 1 k) =? 0) = negb (Z.testbit w k).
Proof.
  intros Hk. rewrite Z.shiftl_1_l.
  destruct (Z.testbit w k) eqn:E; cbn.
  - apply Z.eqb_neq. intros H0.
    assert (Z.testbit (Z.land w (2 ^ k)) k = true) as H
      by (rewrite Z.land_spec, E, Z.pow2_bits_true by lia; done).
    rewrite H0, Z.bits_0 in H. done.
  - apply Z.eqb_eq. apply Z.bits_inj'. intros n Hn.
    rewrite Z.land_spec, Z.bits_0, Z.pow2_bits_eqb by lia.
    destruct (Z.eqb_spec k n); [subst; by rewrite E | apply andb_false_r].
Qed.

Lemma ARRAY_INDEX_div a : ARRAY_INDEX a = a / 32.
Proof. unfold ARRAY_INDEX. by rewrite Z.shiftr_div_pow2. Qed.

Lemma OFFSET_mod a : OFFSET_INTO_DWORD a = a mod 32.
Proof. unfold OFFSET_INTO_DWORD. change 31 with (Z.ones 5). by rewrite Z.land_ones. Qed.

Lemma testbit_set w k j :
  0 <= k -> 0 <= j -> Z.testbit (Z.lor w (Z.shiftl 1 k)) j = (k =? j) || Z.testbit w j.
Proof. intros. rewrite Z.lor_spec, Z.shiftl_1_l, Z.pow2_bits_eqb by lia. apply orb_comm. Qed.

Lemma testbit_clear w k j :
  0 <= k -> 0 <= j < 32 ->
  Z.testbit (Z.land w (u32 (Z.lnot (Z.shiftl 1 k)))) j = negb (k =? j) && Z.testbit w j.
Proof.
  intros. unfold u32.
  rewrite Z.land_spec, Z.mod_pow2_bits_low, Z.lnot_spec, Z.shiftl_1_l, Z.pow2_bits_eqb by lia.
  apply andb_comm.
Qed.

Lemma word_set w k : 0 <= w < 2 ^ 32 -> 0 <= k < 32 -> 0 <= Z.lor w (Z.shiftl 1 k) < 2 ^ 32.
Proof.
  intros Hw Hk. split; [apply Z.lor_nonneg; rewrite Z.shiftl_1_l; lia|].
  destruct (decide (Z.lor w (Z.shiftl 1 k) = 0)) as [->|Hne]; [lia|].
  assert (0 <= Z.lor w (Z.shiftl 1 k)) by (apply Z.lor_nonneg; rewrite Z.shiftl_1_l; lia).
  apply Z.log2_lt_pow2; [lia|].
  rewrite Z.log2_lor by (rewrite ?Z.shiftl_1_l; lia).
  rewrite Z.shiftl_1_l, Z.log2_pow2 by lia.
  destruct (decide (w = 0)) as [->|]; [cbn; lia|].
  apply Z.max_lub_lt; [|lia]. apply Z.log2_lt_pow2; lia.
Qed.

Lemma word_clear w k : 0 <= w < 2 ^ 32 -> 0 <= Z.land w (u32 k) < 2 ^ 32.
Proof.
  intros Hw. pose proof (u32_bound k).
  split; [apply Z.land_nonneg; lia|].
  replace (Z.land w (u32 k)) with (Z.land (Z.land w (u32 k)) (Z.ones 32)).
  - rewrite Z.land_ones by lia. apply Z.mod_pos_bound. lia.
  - rewrite <- Z.land_assoc, (Z.land_ones (u32 k)), (Z.mod_small (u32 k)) by lia. done.
Qed.

Lemma in_map_div st i : in_map st i -> 0 <= i / 32 < nframes st / 32 + 1 /\ 0 <= i mod 32 < 32.
Proof. unfold in_map. intros. pose proof (Z.mod_pos_bound i 32). split; [|lia]. Z.to_euclidean_division_equations; lia. Qed.

Lemma frame_used_word st i w :
  0 <= i -> used_frames st !! Z.to_nat (i / 32) = Some w ->
  frame_used st i = Z.testbit w (i mod 32).
Proof. intros Hi Hw. unfold frame_used. rewrite Hw. by destruct (Z.ltb_spec i 0); [lia|]. Qed.

Lemma in_map_word st i :
  pmm_wf st -> in_map st i -> exists w, used_frames st !! Z.to_nat (i / 32) = Some w /\ 0 <= w < 2 ^ 32.
Proof.
  intros Hwf Hi%in_map_div.
  destruct (aget_is_Ok (used_frames st) (i / 32)) as (w & _ & Hw).
  { rewrite (wf_len _ Hwf). lia. }
  exists w. split; [done|]. exact (proj1 (Forall_lookup _ _) (wf_words _ Hwf) _ _ Hw).
Qed.

Lemma frame_used_in_map st i : pmm_wf st -> frame_used st i = false -> in_map st i.
Proof.
  intros Hwf. unfold frame_used, in_map.
  destruct (Z.ltb_spec i 0); [done|].
  destruct (used_frames st !! Z.to_nat (i / 32)) eqn:E; [|done].
  intros _. apply lookup_lt_Some in E.
  pose proof (wf_len _ Hwf) as Hl. unfold zlen in Hl.
  Z.to_euclidean_division_equations; lia.
Qed.

(** Marking one frame changes that frame and no other. *)
Lemma mark_used st i b j :
  pmm_wf st -> in_map st i ->
  frame_used (mark i b st) j = if decide (i = j) then b else frame_used st j.
Proof.
  intros Hwf Hi. pose proof (in_map_div _ _ Hi) as [Hd Hm].
  destruct (in_map_word st i Hwf Hi) as (w & Hw & Hw32).
  unfold frame_used at 1, mark. cbn [used_frames set_used_frames].
  destruct (Z.ltb_spec j 0).
  { rewrite decide_False by (unfold in_map in Hi; lia). unfold frame_used.
    by destruct (Z.ltb_spec j 0); [|lia]. }
  rewrite list_lookup_alter. pose proof (Z.mod_pos_bound j 32 ltac:(lia)).
  destruct (decide (Z.to_nat (i / 32) = Z.to_nat (j / 32))) as [Hij|Hij].
  - assert (i / 32 = j / 32) as Hij'
      by (apply Z2Nat.inj; [lia | apply Z.div_pos; lia | done]).
    rewrite (frame_used_word st j w) by (try rewrite <- Hij; done || lia).
    rewrite Hw. cbn.
    destruct b; rewrite ?testbit_set, ?testbit_clear by lia;
      destruct (Z.eqb_spec (i mod 32) (j mod 32)) as [He|He];
      destruct (decide (i = j)); cbn; try done;
      exfalso; try congruence; Z.to_euclidean_division_equations; lia.
  - rewrite decide_False by congruence. unfold frame_used.
    by destruct (Z.ltb_spec j 0); [lia|].
Qed.

Lemma mark_len st i b : zlen (used_frames (mark i b st)) = zlen (used_frames st).
Proof. unfold zlen, mark. cbn. by rewrite length_alter. Qed.

Lemma mark_words st i b :
  0 <= i mod 32 < 32 ->
  Forall (fun w => 0 <= w < 2 ^ 32) (used_frames st) ->
  Forall (fun w => 0 <= w < 2 ^ 32) (used_frames (mark i b st)).
Proof.
  intros Hm H. unfold mark. cbn [used_frames set_used_frames].
  apply Forall_alter; [done|]. intros w _ Hw.
  destruct b; [by apply word_set | by apply word_clear].
Qed.

Lemma lor_land_insert {A} (l : list A) (i : nat) w f :
  l !! i = Some w -> <[i := f w]> l = alter f i l.
Proof.
  intros H. apply list_eq. intros j. rewrite list_lookup_alter.
  destruct (decide (i = j)) as [<-|].
  - rewrite list_lookup_insert_eq by (by eapply lookup_lt_Some). by rewrite H.
  - by rewrite list_lookup_insert_ne.
Qed.

Lemma phys_in_map st a :
  pmm_wf st -> 0 <= a -> a / PAGE_SIZE / 32 <= nframes st / 32 -> in_map st (a / PAGE_SIZE).
Proof.
  intros Hwf Ha H. unfold in_map.
  assert (0 <= a / PAGE_SIZE) by (apply Z.div_pos; [done|unfold PAGE_SIZE; lia]).
  split; [done|]. Z.to_euclidean_division_equations; lia.
Qed.

(** The test the three bitmap primitives share: the index is in range exactly when
    the frame has a bit, and the dword read there decides [frame_used]. *)
Lemma bitmap_access st a :
  pmm_wf st -> 0 <= a ->
  let i := a / PAGE_SIZE in
  (in_map st i /\ (i / 32 <=? nframes st / 32) = true /\
   0 <= i / 32 < zlen (used_frames st) /\ 0 <= i mod 32 /\
   exists w, aget (used_frames st) (i / 32) = Ok w /\
             used_frames st !! Z.to_nat (i / 32) = Some w /\
             frame_used st i = Z.testbit w (i mod 32))
  \/ (~ in_map st i /\ (i / 32 <=? nframes st / 32) = false).
Proof.
  intros Hwf Ha i. destruct (Z.leb_spec (i / 32) (nframes st / 32)) as [Hle|Hgt].
  - left. pose proof (phys_in_map st a Hwf Ha Hle) as Hin. fold i in Hin.
    pose proof (in_map_div _ _ Hin) as [Hd Hm].
    destruct (in_map_word _ _ Hwf Hin) as (w & Hw & Hb).
    rewrite (wf_len _ Hwf). repeat (split; [done || lia|]).
    exists w. split_and!; [apply aget_Ok; split; [lia|done] | done |].
    apply frame_used_word; [unfold in_map in Hin; lia | done].
  - right. split; [|done]. intros ?%in_map_div. lia.
Qed.

(** What each bitmap primitive does, on every branch. *)
Lemma set_frame_spec st a :
  pmm_wf st -> 0 <= a -> intr st = false ->
  pmm_set_frame a st =
  if decide (in_map st (a / PAGE_SIZE)) then
    if frame_used st (a / PAGE_SIZE) then Panic else Ok (mark (a / PAGE_SIZE) true st)
  else Panic.
Proof.
  intros Hwf Ha Hi. unfold pmm_set_frame. rewrite Hi, ARRAY_INDEX_div, OFFSET_mod. cbn.
  destruct (bitmap_access st a Hwf Ha) as [(Hin & -> & Hb & Hm & w & -> & Hw & ->)|[Hout ->]]; cbn;
    [rewrite decide_True by done | by rewrite decide_False].
  rewrite land_bit by done. destruct (Z.testbit w _); cbn; [done|].
  rewrite aset_in by done. cbn. unfold mark.
  by rewrite (lor_land_insert _ _ w (fun w => Z.lor w (Z.shiftl 1 (a / PAGE_SIZE mod 32))) Hw).
Qed.

Lemma clear_frame_spec st a :
  pmm_wf st -> 0 <= a -> intr st = false ->
  pmm_clear_frame a st =
  if decide (in_map st (a / PAGE_SIZE)) then
    if frame_used st (a / PAGE_SIZE) then Ok (mark (a / PAGE_SIZE) false st) else Panic
  else Panic.
Proof.
  intros Hwf Ha Hi. unfold pmm_clear_frame. rewrite Hi, ARRAY_INDEX_div, OFFSET_mod. cbn.
  destruct (bitmap_access st a Hwf Ha) as [(Hin & -> & Hb & Hm & w & -> & Hw & ->)|[Hout ->]]; cbn;
    [rewrite decide_True by done | by rewrite decide_False].
  rewrite land_bit by done. destruct (Z.testbit w _); cbn; [|done].
  rewrite aset_in by done. cbn. unfold mark.
  by rewrite (lor_land_insert _ _ w
    (fun w => Z.land w (u32 (Z.lnot (Z.shiftl 1 (a / PAGE_SIZE mod 32))))) Hw).
Qed.

Lemma test_frame_spec st a :
  pmm_wf st -> 0 <= a -> intr st = false ->
  pmm_test_frame a st =
  if decide (in_map st (a / PAGE_SIZE)) then Ok (frame_used st (a / PAGE_SIZE)) else Panic.
Proof.
  intros Hwf Ha Hi. unfold pmm_test_frame. rewrite Hi, ARRAY_INDEX_div, OFFSET_mod. cbn.
  destruct (bitmap_access st a Hwf Ha) as [(Hin & -> & Hb & Hm & w & -> & Hw & ->)|[Hout ->]]; cbn;
    [rewrite decide_True by done | by rewrite decide_False].
  by rewrite land_bit, negb_involutive by done.
Qed.

(** ** Well-formedness is preserved by marking *)
Lemma mark_wf st i b :
  pmm_wf st -> in_map st i ->
  (b = false -> last_allocated_frame st = FULL) ->
  pmm_wf (mark i b st).
Proof.
  intros Hwf Hi Hlast. pose proof (in_map_div _ _ Hi) as [_ Hm].
  destruct Hwf as [H1 H2 H3 H4 H5] eqn:Hwf'. clear Hwf'.
  split; [exact H1 | exact H2 | by rewrite mark_len | by apply mark_words |].
  change (last_allocated_frame (mark i b st)) with (last_allocated_frame st).
  destruct b; [|left; auto].
  destruct H5 as [H5|[Hr H5]]; [by left|right]. split; [done|].
  intros j Hj. rewrite mark_used by done. case_decide; auto.
Qed.

Lemma wf_set_last_full st : pmm_wf st -> pmm_wf (set_last st FULL).
Proof. intros [? ? ? ? ?]. split; try done. by left. Qed.

Lemma wf_set_intr st b : pmm_wf st -> pmm_wf (set_intr st b).
Proof. intros [? ? ? ? ?]. by split. Qed.

Lemma wf_set_ram st m : pmm_wf st -> pmm_wf (set_ram st m).
Proof. intros [? ? ? ? ?]. by split. Qed.
#[export] Hint Resolve wf_set_last_full wf_set_intr wf_set_ram : kernel.

(** ** Searching the bitmap *)
Lemma first_clear_bit_Some n w o k :
  0 <= o -> first_clear_bit n w o = Some k ->
  o <= k < o + Z.of_nat n /\ Z.testbit w k = false /\
  forall j, o <= j < k -> Z.testbit w j = true.
Proof.
  revert o. induction n as [|n IH]; intros o Ho; cbn [first_clear_bit]; [done|].
  rewrite land_bit by done.
  destruct (Z.testbit w o) eqn:E; cbn.
  - intros (? & ? & Hall)%IH; [|lia]. split_and!; [lia | lia | done |].
    intros j Hj. destruct (decide (j = o)) as [->|]; [done|]. apply Hall. lia.
  - intros [= <-]. split_and!; [lia | lia | done | lia].
Qed.

Lemma first_clear_bit_None n w o :
  0 <= o -> first_clear_bit n w o = None ->
  forall j, o <= j < o + Z.of_nat n -> Z.testbit w j = true.
Proof.
  revert o. induction n as [|n IH]; intros o Ho; cbn [first_clear_bit]; [lia|].
  rewrite land_bit by done.
  destruct (Z.testbit w o) eqn:E; cbn; [|done].
  intros H j Hj. destruct (decide (j = o)) as [->|]; [done|].
  apply (IH (o + 1)); [lia | done | lia].
Qed.

Lemma FULL_bits j : 0 <= j < 32 -> Z.testbit FULL j = true.
Proof. intros. change FULL with (Z.ones 32). by apply Z.ones_spec_low. Qed.

Lemma dword_frames st k w :
  pmm_wf st -> 0 <= k -> aget (used_frames st) k = Ok w ->
  forall i, k * 32 <= i < (k + 1) * 32 -> frame_used st i = Z.testbit w (i - k * 32).
Proof.
  intros Hwf Hk [_ Hw]%aget_Ok i Hi.
  rewrite (frame_used_word st i w); [f_equal; Z.to_euclidean_division_equations; lia | lia |].
  by replace (i / 32) with k by (Z.to_euclidean_division_equations; lia).
Qed.

Lemma first_free_from_spec st n k :
  pmm_wf st -> 0 <= k -> k + Z.of_nat n <= nframes st / 32 ->
  (first_free_from n k (used_frames st) = Ok FULL /\
   forall i, k * 32 <= i < (k + Z.of_nat n) * 32 -> frame_used st i = true) \/
  (exists i, first_free_from n k (used_frames st) = Ok (i * PAGE_SIZE) /\
     k * 32 <= i < (k + Z.of_nat n) * 32 /\ frame_used st i = false /\
     forall j, k * 32 <= j < i -> frame_used st j = true).
Proof.
  intros Hwf. revert k. induction n as [|n IH]; intros k Hk Hn; cbn [first_free_from].
  { left. split; [done | lia]. }
  destruct (aget_is_Ok (used_frames st) k) as (w & Hw & _).
  { rewrite (wf_len _ Hwf). lia. }
  pose proof (dword_frames st k w Hwf Hk Hw) as Hfr.
  rewrite Hw. cbn [mbind res_bind].
  assert (Hnext : (forall i, k * 32 <= i < (k + 1) * 32 -> frame_used st i = true) ->
    (first_free_from n (k + 1) (used_frames st) = Ok FULL /\
     forall i, k * 32 <= i < (k + Z.of_nat (S n)) * 32 -> frame_used st i = true) \/
    (exists i, first_free_from n (k + 1) (used_frames st) = Ok (i * PAGE_SIZE) /\
     k * 32 <= i < (k + Z.of_nat (S n)) * 32 /\ frame_used st i = false /\
     forall j, k * 32 <= j < i -> frame_used st j = true)).
  { intros Hfull. destruct (IH (k + 1)) as [[? Hall]|(i & ? & ? & ? & Hall)]; [lia | lia | left | right].
    - split; [done|]. intros i Hi. destruct (decide (i < (k + 1) * 32)); [auto with lia | apply Hall; lia].
    - exists i. split_and!; [done | lia | lia | done |]. intros j Hj.
      destruct (decide (j < (k + 1) * 32)); [apply Hfull; lia | apply Hall; lia]. }
  destruct (Z.eqb_spec w FULL) as [->|Hne].
  { apply Hnext. intros i Hi. rewrite Hfr by lia. apply FULL_bits. lia. }
  destruct (first_clear_bit 32 w 0) as [o|] eqn:E.
  - right. apply first_clear_bit_Some in E as (? & ? & Hall); [|lia].
    exists (k * 32 + o). split_and!; [|lia|lia| |].
    + rewrite u32_small; [done|]. pose proof (wf_nframes _ Hwf). unfold PAGE_SIZE.
      Z.to_euclidean_division_equations; lia.
    + rewrite Hfr by lia. by replace (k * 32 + o - k * 32) with o by lia.
    + intros j Hj. rewrite Hfr by lia. apply Hall. lia.
  - apply Hnext. intros i Hi. rewrite Hfr by lia.
    apply (first_clear_bit_None 32 w 0); [lia | done | lia].
Qed.

Lemma first_free_frame_spec st start :
  pmm_wf st -> intr st = false -> 0 <= start < 2 ^ 32 ->
  (forall i, 0 <= i < (start / PAGE_SIZE / 32 - 1) * 32 -> frame_used st i = true) ->
  (pmm_first_free_frame start st = Ok FULL /\ forall i, searched st i -> frame_used st i = true) \/
  (exists i, pmm_first_free_frame start st = Ok (i * PAGE_SIZE) /\ searched st i /\
     frame_used st i = false /\ forall j, 0 <= j < i -> frame_used st j = true).
Proof.
  intros Hwf Hi Hs Hhint. unfold pmm_first_free_frame, searched. rewrite Hi. cbn [negb assert mbind res_bind].
  set (k0 := start / PAGE_SIZE / 32) in *.
  assert (0 <= k0) by (unfold k0, PAGE_SIZE; Z.to_euclidean_division_equations; lia).
  set (k := if negb (k0 =? 0) then k0 - 1 else k0).
  assert (0 <= k /\ forall i, 0 <= i < k * 32 -> frame_used st i = true) as [Hk Hpre].
  { unfold k. destruct (Z.eqb_spec k0 0); cbn [negb]; split; intros; try apply Hhint; lia. }
  destruct (decide (nframes st / 32 < k)) as [Hlt|Hge].
  { replace (Z.to_nat (nframes st / 32 - k)) with 0%nat by lia.
    left. split; [done|]. intros i Hr. apply Hpre. lia. }
  destruct (first_free_from_spec st (Z.to_nat (nframes st / 32 - k)) k)
    as [[-> Hall]|(i & -> & Hr & Hfree & Hall)]; [done | done | lia | left | right].
  - split; [done|]. intros i Hr. destruct (decide (i < k * 32)); [apply Hpre; lia | apply Hall; lia].
  - exists i. split_and!; [done | lia | lia | done |]. intros j Hj.
    destruct (decide (j < k * 32)); [apply Hpre; lia | apply Hall; lia].
Qed.

Lemma page_addr_neq_FULL i : (i * PAGE_SIZE =? FULL) = false.
Proof. apply Z.eqb_neq. unfold PAGE_SIZE, FULL. lia. Qed.

Lemma page_addr_div i : i * PAGE_SIZE / PAGE_SIZE = i.
Proof. apply Z.div_mul. done. Qed.

Lemma searched_in_map st i : searched st i -> in_map st i.
Proof. unfold searched, in_map. lia. Qed.

Lemma no_hint (P : Z -> Prop) i : 0 <= i < (0 / PAGE_SIZE / 32 - 1) * 32 -> P i.
Proof. change ((0 / PAGE_SIZE / 32 - 1) * 32) with (-32). lia. Qed.

(** The allocator's run on a well-formed state: the first free searched frame, or panic. *)
Lemma alloc_run st :
  pmm_wf st ->
  (pmm_alloc st = Panic /\ forall i, searched st i -> frame_used st i = true) \/
  (exists i, searched st i /\ frame_used st i = false /\
     (forall j, 0 <= j < i -> frame_used st j = true) /\
     pmm_alloc st = Ok (i * PAGE_SIZE,
       INTERRUPT_UNLOCK (intr st)
         (set_ram (mark i true (set_last (set_intr st false) (i * PAGE_SIZE)))
                  (zero_page_physical (i * PAGE_SIZE) (ram st))))).
Proof.
  intros Hwf. unfold pmm_alloc. cbn [INTERRUPT_LOCK].
  set (st0 := if last_allocated_frame (set_intr st false) =? FULL
              then set_last (set_intr st false) 0 else set_intr st false).
  assert (Hst0 : pmm_wf st0 /\ intr st0 = false /\ 0 <= last_allocated_frame st0 < 2 ^ 32 /\
    (forall i, 0 <= i < (last_allocated_frame st0 / PAGE_SIZE / 32 - 1) * 32 -> frame_used st0 i = true) /\
    (forall i, frame_used st0 i = frame_used st i) /\ nframes st0 = nframes st /\ ram st0 = ram st /\
    forall a, set_last st0 a = set_last (set_intr st false) a).
  { unfold st0. destruct Hwf as [H1 H2 H3 H4 H5].
    destruct (Z.eqb_spec (last_allocated_frame (set_intr st false)) FULL) as [He|He].
    - split_and!; try done; [split; try done; right; split; [done | apply no_hint] | apply no_hint].
    - destruct H5 as [?|[? ?]]; [done|]. split_and!; try done; try (cbn; lia). split; try done. by right; split. }
  destruct Hst0 as (Hwf0 & Hi0 & Hl0 & Hh0 & Hf & Hn & Hr & Hsl).
  destruct (first_free_frame_spec st0 (last_allocated_frame st0) Hwf0 Hi0 Hl0 Hh0)
    as [[-> Hall]|(i & -> & Hs & Hfree & Hall)]; [left | right]; unfold searched in *; rewrite Hn in *.
  - split; [done|]. intros i Hi. rewrite <- Hf. auto.
  - exists i. rewrite Hf in Hfree. split_and!; [lia | lia | done | intros; rewrite <- Hf; auto |].
    cbn [mbind res_bind]. rewrite page_addr_neq_FULL, Hsl.
    rewrite set_frame_spec; [| |unfold PAGE_SIZE; lia | done].
    2:{ destruct Hwf. split; try done. right. unfold PAGE_SIZE. cbn [last_allocated_frame set_last].
        split; [Z.to_euclidean_division_equations; lia|]. intros j Hj.
        replace (frame_used _ j) with (frame_used st0 j) by (rewrite Hf; done).
        apply Hall. Z.to_euclidean_division_equations; lia. }
    rewrite page_addr_div, decide_True by (apply searched_in_map; done).
    replace (frame_used _ i) with (frame_used st i) by done.
    by rewrite Hfree.
Qed.

Lemma unlock_fields b st :
  used_frames (INTERRUPT_UNLOCK b st) = used_frames st /\ nframes (INTERRUPT_UNLOCK b st) = nframes st /\
  last_allocated_frame (INTERRUPT_UNLOCK b st) = last_allocated_frame st /\
  mem_end_page (INTERRUPT_UNLOCK b st) = mem_end_page st /\ ram (INTERRUPT_UNLOCK b st) = ram st /\
  intr (INTERRUPT_UNLOCK b st) = b || intr st.
Proof. by destruct b. Qed.

Lemma unlock_used b st j : frame_used (INTERRUPT_UNLOCK b st) j = frame_used st j.
Proof. by destruct b. Qed.

Lemma unlock_wf b st : pmm_wf st -> pmm_wf (INTERRUPT_UNLOCK b st).
Proof. destruct b; [apply wf_set_intr | done]. Qed.
#[export] Hint Resolve unlock_wf : kernel.

Lemma wf_alloc_mark st i :
  pmm_wf st -> searched st i -> (forall j, 0 <= j < i -> frame_used st j = true) ->
  pmm_wf (set_last (set_intr st false) (i * PAGE_SIZE)).
Proof.
  intros [] Hs Hall. unfold searched in Hs. split; try done. right.
  cbn [last_allocated_frame set_last]. unfold PAGE_SIZE.
  split; [Z.to_euclidean_division_equations; lia|].
  intros j Hj. change (frame_used st j = true). apply Hall. Z.to_euclidean_division_equations; lia.
Qed.

Lemma pmm_alloc_spec st :
  pmm_wf st ->
  match pmm_alloc st with
  | Ok (a, st') =>
      exists i, a = i * PAGE_SIZE /\ searched st i /\ frame_used st i = false /\
        (forall j, 0 <= j < i -> frame_used st j = true) /\
        (forall j, frame_used st' j = if decide (i = j) then true else frame_used st j) /\
        (forall x, ram st' x = if decide (a <= x < a + PAGE_SIZE) then 0 else ram st x) /\
        intr st' = intr st /\ nframes st' = nframes st /\ pmm_wf st'
  | Panic => forall i, searched st i -> frame_used st i = true
  | Undef | NoFuel => False
  end.
Proof.
  intros Hwf. destruct (alloc_run st Hwf) as [[-> Hall]|(i & Hs & Hf & Hall & ->)]; [done|].
  set (st1 := set_last _ _).
  assert (Hwf1 : pmm_wf st1) by (by apply wf_alloc_mark).
  assert (Hin : in_map st1 i) by (by apply searched_in_map).
  exists i. split_and!; try done.
  - intros j. rewrite unlock_used.
    change (frame_used (set_ram (mark i true st1) _) j) with (frame_used (mark i true st1) j).
    by rewrite mark_used.
  - intros x. destruct (unlock_fields (intr st) (set_ram (mark i true st1)
      (zero_page_physical (i * PAGE_SIZE) (ram st)))) as (_ & _ & _ & _ & -> & _).
    cbn [ram set_ram]. unfold zero_page_physical.
    case_decide; destruct (Z.leb_spec (i * PAGE_SIZE) x), (Z.ltb_spec x (i * PAGE_SIZE + PAGE_SIZE));
      cbn; done || lia.
  - destruct (intr st) eqn:E; cbn; by rewrite ?E.
  - by destruct (intr st).
  - apply unlock_wf, wf_set_ram, mark_wf; done.
Qed.

(** C7: [pmm_alloc] either hands out the lowest-numbered free frame among the frames the
    bitmap search covers - marks exactly that frame used, zeroes it, restores the
    interrupt flag and keeps the allocator well-formed, whatever the search hint was -
    or panics, and then every such frame really is in use. *)
Theorem pmm_alloc_correct st :
  pmm_wf st ->
  match pmm_alloc st with
  | Ok (a, st') =>
      exists i, a = i * PAGE_SIZE /\ searched st i /\ frame_used st i = false /\
        (forall j, 0 <= j < i -> frame_used st j = true) /\
        (forall j, frame_used st' j = if decide (i = j) then true else frame_used st j) /\
        (forall x, ram st' x = if decide (a <= x < a + PAGE_SIZE) then 0 else ram st x) /\
        intr st' = intr st /\ pmm_wf st'
  | Panic => forall i, searched st i -> frame_used st i = true
  | Undef | NoFuel => False
  end.
Proof.
  intros Hwf. pose proof (pmm_alloc_spec st Hwf) as H. destruct (pmm_alloc st) as [[a st']| | |]; [|done..].
  destruct H as (i & ? & ? & ? & ? & ? & ? & ? & _ & ?). by exists i.
Qed.

Lemma pmm_free_spec st a :
  pmm_wf st -> 0 <= a ->
  match pmm_free a st with
  | Ok st' =>
      in_map st (a / PAGE_SIZE) /\ frame_used st (a / PAGE_SIZE) = true /\
      (forall j, frame_used st' j = if decide (a / PAGE_SIZE = j) then false else frame_used st j) /\
      last_allocated_frame st' = FULL /\ intr st' = intr st /\ ram st' = ram st /\ nframes st' = nframes st /\ pmm_wf st'
  | Panic => frame_used st (a / PAGE_SIZE) = false \/ ~ in_map st (a / PAGE_SIZE)
  | Undef | NoFuel => False
  end.
Proof.
  intros Hwf Ha. unfold pmm_free. cbn [INTERRUPT_LOCK].
  rewrite clear_frame_spec by auto with kernel.
  change (frame_used (set_intr st false) (a / PAGE_SIZE)) with (frame_used st (a / PAGE_SIZE)).
  case_decide as Hin; [|by right].
  destruct (frame_used st (a / PAGE_SIZE)) eqn:E; cbn [mbind res_bind]; [|by left].
  set (m := mark (a / PAGE_SIZE) false (set_intr st false)).
  assert (Hm : forall j, frame_used m j = if decide (a / PAGE_SIZE = j) then false else frame_used st j).
  { intros j. unfold m. rewrite mark_used by auto with kernel. done. }
  split_and!; try done.
  - intros j. rewrite unlock_used. change (frame_used m j = if decide (a / PAGE_SIZE = j) then false else frame_used st j). auto.
  - by destruct (intr st).
  - by destruct (intr st) eqn:Ei.
  - by destruct (intr st).
  - by destruct (intr st).
  - apply unlock_wf. replace (set_last m FULL) with (mark (a / PAGE_SIZE) false (set_last (set_intr st false) FULL)) by done.
    apply mark_wf; auto with kernel.
Qed.

(** C8: [pmm_free] accepts exactly the frames that are in use: it frees the frame holding
    the address and no other, keeps the allocator well-formed and drops the search hint;
    freeing a free frame (a double free) or an address beyond the bitmap panics. *)
Theorem pmm_free_correct st a :
  pmm_wf st -> 0 <= a ->
  match pmm_free a st with
  | Ok st' =>
      in_map st (a / PAGE_SIZE) /\ frame_used st (a / PAGE_SIZE) = true /\
      (forall j, frame_used st' j = if decide (a / PAGE_SIZE = j) then false else frame_used st j) /\
      last_allocated_frame st' = FULL /\ intr st' = intr st /\ ram st' = ram st /\ pmm_wf st'
  | Panic => frame_used st (a / PAGE_SIZE) = false \/ ~ in_map st (a / PAGE_SIZE)
  | Undef | NoFuel => False
  end.
Proof.
  intros Hwf Ha. pose proof (pmm_free_spec st a Hwf Ha) as H. destruct (pmm_free a st); [|done..].
  destruct H as (? & ? & ? & ? & ? & ? & _ & ?). done.
Qed.

(** ** Counting free frames *)
Lemma free_frame_exists st : 0 < frames_with false st -> exists i, searched st i /\ frame_used st i = false.
Proof.
  unfold frames_with, searched. intros H. set (f := fun i => Bool.eqb (frame_used st i) false) in *.
  pose proof (count_pos f _ _ H) as E.
  destruct E as (i & Hi & Hf). exists i. split; [lia|]. unfold f in Hf. by destruct (frame_used st i).
Qed.

(** With a free frame left, [pmm_alloc] succeeds and uses one frame up. *)
Lemma pmm_alloc_some st : pmm_wf st -> 0 < frames_with false st ->
  exists i st', pmm_alloc st = Ok (i * PAGE_SIZE, st') /\ searched st i /\ frame_used st i = false /\
    (forall j, frame_used st' j = if decide (i = j) then true else frame_used st j) /\
    (forall x, ram st' x = if decide (i * PAGE_SIZE <= x < i * PAGE_SIZE + PAGE_SIZE) then 0 else ram st x) /\
    intr st' = intr st /\ nframes st' = nframes st /\ pmm_wf st' /\ frames_with false st' = frames_with false st - 1.
Proof.
  intros Hwf Hf. pose proof (pmm_alloc_spec st Hwf) as H. destruct (free_frame_exists st Hf) as (k & Hk & Hkf).
  destruct (pmm_alloc st) as [[a st']| | |]; [|by rewrite H in Hkf | done..].
  destruct H as (i & -> & Hs & Hu & _ & Hm & Hr & Hi & Hn & Hw). exists i, st'. split_and!; try done.
  unfold frames_with. rewrite Hn. apply (count_change _ _ _ _ i); [unfold searched in Hs; lia | by rewrite Hu | |].
  - rewrite Hm. by case_decide.
  - intros j Hj. rewrite Hm. case_decide; [by subst | done].
Qed.

(** ** Runs of frames *)
Lemma first_used_after_free st n i start :
  pmm_wf st -> intr st = false ->
  first_used_after n i start st = Ok None ->
  forall k, i <= k < i + Z.of_nat n -> frame_used st (u32 (start + k * PAGE_SIZE) / PAGE_SIZE) = false.
Proof.
  intros Hwf Hi. revert i. induction n as [|n IH]; intros i; cbn [first_used_after]; [lia|].
  rewrite test_frame_spec by (done || apply u32_bound).
  case_decide; cbn [mbind res_bind]; [|done].
  destruct (frame_used st _) eqn:E; [done|].
  intros Hr k Hk. destruct (decide (k = i)) as [->|]; [done|].
  apply (IH (i + 1)); [done | lia].
Qed.

Lemma first_used_after_some st n i start j :
  first_used_after n i start st = Ok (Some j) -> i <= j < i + Z.of_nat n.
Proof.
  revert i. induction n as [|n IH]; intros i; cbn [first_used_after]; [done|].
  intros (b & _ & H)%bind_Ok. destruct b; [injection H as <-; lia|].
  apply IH in H. lia.
Qed.

Lemma first_used_after_total st n i start :
  pmm_wf st -> intr st = false ->
  match first_used_after n i start st with Ok _ | Panic => True | _ => False end.
Proof.
  intros Hwf Hi. revert i. induction n as [|n IH]; intros i; cbn [first_used_after]; [done|].
  rewrite test_frame_spec by (done || apply u32_bound).
  case_decide; cbn [mbind res_bind]; [|done]. destruct (frame_used st _); [done | apply IH].
Qed.

Lemma find_continuous_free fuel n start st a :
  pmm_wf st -> intr st = false -> 2 <= n ->
  find_continuous fuel n start st = Ok a ->
  forall k, 1 <= k < n -> frame_used st (u32 (a + k * PAGE_SIZE) / PAGE_SIZE) = false.
Proof.
  intros Hwf Hi Hn. revert start. induction fuel as [|fuel IH]; intros start; cbn [find_continuous]; [done|].
  destruct (_ <? _); [done|]. intros (o & Ho & H)%bind_Ok.
  destruct o as [j|]; [eauto|]. injection H as <-.
  intros k Hk. eapply first_used_after_free; [done | done | exact Ho | lia].
Qed.

(** The search for a run ends: every retry starts at least two frames further on. *)
Lemma find_continuous_total fuel n start st :
  pmm_wf st -> intr st = false -> 2 <= n -> 0 <= start <= mem_end_page st + PAGE_SIZE ->
  mem_end_page st + n * PAGE_SIZE < 2 ^ 32 ->
  mem_end_page st + PAGE_SIZE < start + 2 * PAGE_SIZE * Z.of_nat fuel ->
  match find_continuous fuel n start st with Ok _ | Panic => True | _ => False end.
Proof.
  intros Hwf Hi Hn Hs Hend. revert start Hs.
  induction fuel as [|fuel IH]; intros start Hs Hf; cbn [find_continuous]; [unfold PAGE_SIZE in *; lia|].
  rewrite u32_small by (unfold PAGE_SIZE in *; lia).
  destruct (Z.ltb_spec (mem_end_page st) (start + (n - 1) * PAGE_SIZE)); [done|].
  pose proof (first_used_after_total st (Z.to_nat (n - 1)) 1 start Hwf Hi) as Ht.
  destruct (first_used_after _ 1 start st) as [o| | |] eqn:E; try done. cbn [mbind res_bind].
  destruct o as [j|]; [|done]. apply first_used_after_some in E.
  rewrite u32_small by (unfold PAGE_SIZE in *; nia).
  apply IH; unfold PAGE_SIZE in *; nia.
Qed.

Lemma set_frames_spec n i start st st' :
  pmm_wf st -> intr st = false ->
  set_frames n i start st = Ok st' ->
  pmm_wf st' /\ intr st' = false /\ ram st' = ram st /\
  (forall k, i <= k < i + Z.of_nat n ->
     frame_used st (u32 (start + k * PAGE_SIZE) / PAGE_SIZE) = false /\
     frame_used st' (u32 (start + k * PAGE_SIZE) / PAGE_SIZE) = true) /\
  (forall j, (forall k, i <= k < i + Z.of_nat n -> u32 (start + k * PAGE_SIZE) / PAGE_SIZE <> j) ->
     frame_used st' j = frame_used st j) /\
  (forall j, frame_used st j = true -> frame_used st' j = true).
Proof.
  revert i st. induction n as [|n IH]; intros i st Hwf Hi; cbn [set_frames].
  { intros [= <-]. split_and!; try done; lia. }
  intros (s1 & Hs & Hrest)%bind_Ok.
  rewrite set_frame_spec in Hs by (done || apply u32_bound).
  case_decide as Hin; [|done]. destruct (frame_used st _) eqn:E; [done|]. injection Hs as <-.
  apply IH in Hrest as (Hwf' & Hi' & Hr & Hall & Hoth & Hmono); [| by apply mark_wf | done].
  assert (Hm : forall j, frame_used st j = true -> frame_used st' j = true).
  { intros j Hj. apply Hmono. rewrite mark_used by done. by case_decide. }
  split_and!; try done.
  - intros k Hk. destruct (decide (k = i)) as [->|].
    + split; [done|]. apply Hmono. rewrite mark_used by done. by rewrite decide_True.
    + destruct (Hall k) as [Hk1 Hk2]; [lia|]. split; [|done].
      rewrite mark_used in Hk1 by done. by case_decide.
  - intros j Hj. rewrite Hoth by (intros; apply Hj; lia).
    rewrite mark_used by done. rewrite decide_False; [done|]. apply Hj. lia.
Qed.

Lemma set_frames_total n i start st :
  pmm_wf st -> intr st = false ->
  match set_frames n i start st with Ok _ | Panic => True | _ => False end.
Proof.
  revert i st. induction n as [|n IH]; intros i st Hwf Hi; cbn [set_frames]; [done|].
  rewrite set_frame_spec by (done || apply u32_bound).
  case_decide as Hin; [|done]. destruct (frame_used st _); cbn [mbind res_bind]; [done|].
  apply IH; [by apply mark_wf | done].
Qed.

Lemma first_free_start_0 st :
  pmm_wf st -> intr st = false ->
  (pmm_first_free_frame 0 st = Ok FULL /\ forall i, searched st i -> frame_used st i = true) \/
  (exists i, pmm_first_free_frame 0 st = Ok (i * PAGE_SIZE) /\ searched st i /\
     frame_used st i = false).
Proof.
  intros Hwf Hi.
  destruct (first_free_frame_spec st 0 Hwf Hi) as [?|(i & ? & ? & ? & _)];
    [lia | apply (no_hint (fun i => frame_used st i = true)) | by left | right; by exists i].
Qed.

Lemma FULL_wrap k : 1 <= k -> k * PAGE_SIZE < 2 ^ 32 -> u32 (FULL + k * PAGE_SIZE) = k * PAGE_SIZE - 1.
Proof.
  intros Hk Hw. unfold u32, FULL. rewrite <- (Z.mod_small (k * PAGE_SIZE - 1) (2 ^ 32)) by (unfold PAGE_SIZE in *; lia).
  unfold PAGE_SIZE. replace (0xffffffff + k * 0x1000) with (k * 0x1000 - 1 + 1 * 2 ^ 32) by lia.
  by rewrite Z_mod_plus_full.
Qed.

(** The loop also ends when no frame is free and it starts from address 0xffffffff. *)
Lemma find_continuous_any_start st n start :
  pmm_wf st -> intr st = false -> 2 <= n -> mem_end_page st + n * PAGE_SIZE < 2 ^ 32 ->
  0 <= start <= mem_end_page st + PAGE_SIZE \/ start = FULL ->
  match find_continuous (S (S (Z.to_nat (nframes st)))) n start st with Ok _ | Panic => True | _ => False end.
Proof.
  intros Hwf Hi Hn Hfit Hstart. pose proof (wf_end _ Hwf). pose proof (wf_nframes _ Hwf).
  destruct Hstart as [Hr| ->]; [apply find_continuous_total; try done; unfold PAGE_SIZE in *; lia|].
  cbn [find_continuous]. rewrite FULL_wrap by (unfold PAGE_SIZE in *; lia).
  destruct (Z.ltb_spec (mem_end_page st) ((n - 1) * PAGE_SIZE - 1)); [done|].
  pose proof (first_used_after_total st (Z.to_nat (n - 1)) 1 FULL Hwf Hi) as Ht.
  destruct (first_used_after _ 1 FULL st) as [o| | |] eqn:E; try done. cbn [mbind res_bind].
  destruct o as [j|]; [|done]. apply first_used_after_some in E.
  rewrite FULL_wrap by (unfold PAGE_SIZE in *; lia).
  apply (find_continuous_total (S (Z.to_nat (nframes st)))); try done; unfold PAGE_SIZE in *; lia.
Qed.

(** when [pmm_alloc_continuous] returns [start], the [n] frames at
    [start, start + PAGE_SIZE, ...] were all free, are all used afterwards, and no other
    frame changed; the interrupt flag and the contents of memory are untouched. *)
Theorem pmm_alloc_continuous_sound st n start st' :
  pmm_wf st -> 2 <= n ->
  pmm_alloc_continuous n st = Ok (start, st') ->
  pmm_wf st' /\ intr st' = intr st /\ ram st' = ram st /\
  (forall k, 0 <= k < n ->
     frame_used st (u32 (start + k * PAGE_SIZE) / PAGE_SIZE) = false /\
     frame_used st' (u32 (start + k * PAGE_SIZE) / PAGE_SIZE) = true) /\
  (forall j, (forall k, 0 <= k < n -> u32 (start + k * PAGE_SIZE) / PAGE_SIZE <> j) ->
     frame_used st' j = frame_used st j).
Proof.
  intros Hwf Hn. unfold pmm_alloc_continuous.
  destruct (Z.ltb_spec n 2); [lia|]. cbn [INTERRUPT_LOCK]. intros Hrun. simp_res.
  match goal with Hs : set_frames _ _ _ _ = Ok _ |- _ =>
    apply set_frames_spec in Hs as (Hwf' & Hi' & Hr & Hall & Hoth & _); [|auto with kernel|done] end.
  rewrite !Z2Nat.id in * by lia.
  split_and!; auto with kernel.
  - destruct (intr st) eqn:E; cbn; congruence.
  - by destruct (intr st).
  - intros k Hk. rewrite unlock_used. apply (Hall k). lia.
  - intros j Hj. rewrite unlock_used. rewrite Hoth; [done|]. intros; apply Hj; lia.
Qed.

(** on a well-formed bitmap [pmm_alloc_continuous] always ends, with an address or a
    panic: the retry loop never runs more than [nframes + 2] times and no access leaves
    the bitmap, as long as the request plus the memory fits the address space. *)
Theorem pmm_alloc_continuous_terminates st n :
  pmm_wf st -> 2 <= n -> mem_end_page st + n * PAGE_SIZE < 2 ^ 32 ->
  match pmm_alloc_continuous n st with Ok _ | Panic => True | Undef | NoFuel => False end.
Proof.
  intros Hwf Hn Hfit. unfold pmm_alloc_continuous.
  destruct (Z.ltb_spec n 2); [lia|]. cbn [INTERRUPT_LOCK].
  set (s := set_intr st false). assert (Hs : pmm_wf s) by (by apply wf_set_intr).
  assert (Hf : exists a, pmm_first_free_frame 0 s = Ok a /\
                 (0 <= a <= mem_end_page s + PAGE_SIZE \/ a = FULL)).
  { destruct (first_free_start_0 s Hs eq_refl) as [[-> _]|(i & -> & Hi & _)]; eexists; split; eauto.
    left. unfold searched in Hi. rewrite (wf_end _ Hs). unfold PAGE_SIZE.
    Z.to_euclidean_division_equations; lia. }
  destruct Hf as (a & -> & Ha). cbn [mbind res_bind].
  pose proof (find_continuous_any_start s n a Hs eq_refl Hn Hfit Ha) as Hfc.
  destruct (find_continuous _ n a s) as [b| | |]; try done. cbn [mbind res_bind].
  pose proof (set_frames_total (Z.to_nat n) 0 b s Hs eq_refl) as Hsf.
  by destruct (set_frames _ 0 b s).
Qed.

(** ** Accounting *)
Lemma add_bits_count v n w o acc :
  0 <= o -> 0 <= acc -> acc + PAGE_SIZE * Z.of_nat n < 2 ^ 32 ->
  add_bits v n w o acc = acc + PAGE_SIZE * count (fun j => Bool.eqb (Z.testbit w j) v) n o.
Proof.
  revert o acc. induction n as [|n IH]; intros o acc Ho Ha Hb; cbn [add_bits count]; [lia|].
  rewrite land_bit, negb_involutive by done.
  destruct (Bool.eqb (Z.testbit w o) v).
  - rewrite u32_small by (unfold PAGE_SIZE in *; lia). rewrite IH; unfold PAGE_SIZE in *; lia.
  - rewrite IH by (unfold PAGE_SIZE in *; lia). lia.
Qed.

(** The frames of one dword, counted through its bits. *)
Lemma count_dword st v k w :
  pmm_wf st -> 0 <= k -> aget (used_frames st) k = Ok w ->
  count (fun i => Bool.eqb (frame_used st i) v) 32 (k * 32) =
  count (fun j => Bool.eqb (Z.testbit w j) v) 32 0.
Proof.
  intros Hwf Hk Hw. rewrite <- (Z.add_0_l (k * 32)), <- count_shift. apply count_ext.
  intros i Hi. by rewrite (dword_frames st k w Hwf Hk Hw), Z.add_simpl_r by lia.
Qed.

Lemma count_dwords st v n k :
  count (fun i => Bool.eqb (frame_used st i) v) (32 * S n) (k * 32) =
  count (fun i => Bool.eqb (frame_used st i) v) 32 (k * 32) +
  count (fun i => Bool.eqb (frame_used st i) v) (32 * n) ((k + 1) * 32).
Proof.
  replace (32 * S n)%nat with (32 + 32 * n)%nat by lia. rewrite count_app.
  do 2 f_equal. lia.
Qed.

Lemma bytes_free_from_spec st n k acc :
  pmm_wf st -> 0 <= k -> 0 <= acc -> k + Z.of_nat n <= nframes st / 32 ->
  acc + PAGE_SIZE * Z.of_nat (32 * n) < 2 ^ 32 ->
  bytes_free_from n k acc (used_frames st) =
  Ok (acc + PAGE_SIZE * count (fun i => Bool.eqb (frame_used st i) false) (32 * n) (k * 32)).
Proof.
  intros Hwf. revert k acc. induction n as [|n IH]; intros k acc Hk Ha Hn Hb; cbn [bytes_free_from].
  { f_equal. cbn. lia. }
  destruct (aget_is_Ok (used_frames st) k) as (w & Hw & _).
  { rewrite (wf_len _ Hwf). lia. }
  rewrite Hw, count_dwords, (count_dword st false k w Hwf Hk Hw). cbn [mbind res_bind].
  set (c := count _ 32 0). pose proof (count_bound (fun j => Bool.eqb (Z.testbit w j) false) 32 0) as Hc.
  assert (Hstep : (if w =? 0 then u32 (acc + PAGE_SIZE * 32)
                   else if w =? FULL then acc else add_bits false 32 w 0 acc) = acc + PAGE_SIZE * c).
  { destruct (Z.eqb_spec w 0) as [->|]; [|destruct (Z.eqb_spec w FULL) as [->|]].
    - unfold c. rewrite count_all by (intros; by rewrite Z.bits_0).
      rewrite u32_small; unfold PAGE_SIZE in *; lia.
    - unfold c. rewrite count_none by (intros; by rewrite FULL_bits). lia.
    - apply add_bits_count; [lia | lia | unfold PAGE_SIZE in *; lia]. }
  rewrite Hstep, IH; [f_equal; lia | lia | unfold PAGE_SIZE; lia | lia | unfold PAGE_SIZE in *; lia].
Qed.

Lemma bytes_used_from_spec st n k acc :
  pmm_wf st -> 0 <= k -> 0 <= acc -> k + Z.of_nat n <= nframes st / 32 ->
  acc + PAGE_SIZE * Z.of_nat (32 * n) < 2 ^ 32 ->
  bytes_used_from n k acc (used_frames st) =
  Ok (acc + PAGE_SIZE * count (fun i => Bool.eqb (frame_used st i) true) (32 * n) (k * 32)).
Proof.
  intros Hwf. revert k acc. induction n as [|n IH]; intros k acc Hk Ha Hn Hb; cbn [bytes_used_from].
  { f_equal. cbn. lia. }
  destruct (aget_is_Ok (used_frames st) k) as (w & Hw & _).
  { rewrite (wf_len _ Hwf). lia. }
  rewrite Hw, count_dwords, (count_dword st true k w Hwf Hk Hw). cbn [mbind res_bind].
  set (c := count _ 32 0). pose proof (count_bound (fun j => Bool.eqb (Z.testbit w j) true) 32 0) as Hc.
  assert (Hstep : (if w =? 0 then acc
                   else if w =? FULL then u32 (acc + 32 * 4096) else add_bits true 32 w 0 acc) = acc + PAGE_SIZE * c).
  { destruct (Z.eqb_spec w 0) as [->|]; [|destruct (Z.eqb_spec w FULL) as [->|]].
    - unfold c. rewrite count_none by (intros; by rewrite Z.bits_0). lia.
    - unfold c. rewrite count_all by (intros; by rewrite FULL_bits).
      rewrite u32_small; unfold PAGE_SIZE in *; lia.
    - apply add_bits_count; [lia | lia | unfold PAGE_SIZE in *; lia]. }
  rewrite Hstep, IH; [f_equal; lia | lia | unfold PAGE_SIZE; lia | lia | unfold PAGE_SIZE in *; lia].
Qed.

Lemma dwords_frames_nat st :
  pmm_wf st -> (32 * Z.to_nat (nframes st / 32))%nat = Z.to_nat (nframes st / 32 * 32).
Proof.
  intros Hwf. pose proof (wf_nframes _ Hwf).
  assert (0 <= nframes st / 32) by (apply Z.div_pos; lia). lia.
Qed.

(** [pmm_bytes_free] and [pmm_bytes_used] never panic, return exactly 4096 times the
    number of free (used) frames among the searched ones, and add up to all of them. *)
Theorem pmm_accounting st :
  pmm_wf st ->
  pmm_bytes_free st = Ok (PAGE_SIZE * frames_with false st) /\
  pmm_bytes_used st = Ok (PAGE_SIZE * frames_with true st) /\
  frames_with false st + frames_with true st = nframes st / 32 * 32.
Proof.
  intros Hwf. pose proof (wf_nframes _ Hwf) as Hn.
  assert (Hd : 0 <= nframes st / 32 < 2 ^ 15) by (Z.to_euclidean_division_equations; lia).
  unfold pmm_bytes_free, pmm_bytes_used, frames_with.
  rewrite bytes_free_from_spec, bytes_used_from_spec by (done || unfold PAGE_SIZE; lia).
  rewrite dwords_frames_nat by done. split_and!; [|done|].
  - cbn [mbind res_bind]. rewrite Z.add_0_l, (Z.mul_comm PAGE_SIZE).
    change 4096 with PAGE_SIZE. rewrite Z.mod_mul by done.
    cbn [Z.eqb assert mbind res_bind]. by rewrite Z.mul_comm.
  - rewrite (count_ext (fun i => Bool.eqb (frame_used st i) true)
      (fun i => negb (Bool.eqb (frame_used st i) false))) by (intros; by destruct (frame_used st _)).
    rewrite count_negb. lia.
Qed.

(** ** Initialisation *)

(** What the page loops of [pmm_init] leave: frames [a, h) free, the rest alone. *)
Record cleared (st st' : pmm) (a h : Z) (limit : option Z) : Prop := {
  cl_wf : pmm_wf st';
  cl_same : nframes st' = nframes st /\ intr st' = intr st /\
            last_allocated_frame st' = last_allocated_frame st /\ ram st' = ram st;
  cl_limit : forall i l, a <= i < h -> limit = Some l -> i * PAGE_SIZE < l;
  cl_frames : forall i, frame_used st' i = if (a <=? i) && (i <? h) then false else frame_used st i
}.

Lemma clear_range_spec fuel a h limit st :
  pmm_wf st -> intr st = false -> last_allocated_frame st = FULL ->
  0 <= a -> h * PAGE_SIZE < 2 ^ 32 -> h - a < Z.of_nat fuel ->
  match clear_range fuel (a * PAGE_SIZE) (h * PAGE_SIZE) limit st with
  | Ok st' => cleared st st' a h limit
  | Panic => True
  | Undef | NoFuel => False
  end.
Proof.
  revert a st. induction fuel as [|fuel IH]; intros a st Hwf Hi Hl Ha Hh Hf;
    cbn [clear_range]; destruct (Z.ltb_spec (a * PAGE_SIZE) (h * PAGE_SIZE)) as [Hlt|Hge].
  1: unfold PAGE_SIZE in *; lia.
  1,3: (split; [done | done | unfold PAGE_SIZE in *; lia |]; intros i;
    destruct (Z.leb_spec a i), (Z.ltb_spec i h); unfold PAGE_SIZE in *; cbn; lia || done).
  destruct (match limit with Some l => a * PAGE_SIZE <? l | None => true end) eqn:Elim; [|done].
  cbn [assert mbind res_bind]. rewrite clear_frame_spec by (done || unfold PAGE_SIZE; lia).
  rewrite Z.div_mul by done. case_decide as Hin; [|done].
  destruct (frame_used st a) eqn:Eu; [|done]. cbn [mbind res_bind].
  rewrite u32_small by (unfold PAGE_SIZE in *; lia).
  replace (a * PAGE_SIZE + PAGE_SIZE) with ((a + 1) * PAGE_SIZE) by lia.
  assert (Hm : pmm_wf (mark a false st)) by (by apply mark_wf).
  specialize (IH (a + 1) (mark a false st) Hm Hi Hl).
  destruct (clear_range fuel _ _ limit _) as [st'| | |]; try (apply IH; lia).
  destruct IH as [Hwf' Hsame Hlim Hfr]; [lia.. |]. split; [done | done | |].
  - intros i l Hil ->. destruct (decide (i = a)) as [->|]; [by bool_to_prop|].
    apply (Hlim i l); [lia|done].
  - intros i. rewrite Hfr, mark_used by done.
    destruct (Z.leb_spec (a + 1) i), (Z.ltb_spec i h), (Z.leb_spec a i);
      cbn; try lia; try done; case_decide; subst; unfold PAGE_SIZE in *; done || lia.
Qed.

(** A usable entry of the memory map, and a frame the second pass takes from it. *)
Definition usable (m : memory_map) : bool := (mtype m =? 1) && (base_addr_high m =? 0).
Definition in_entry (m : memory_map) (i : Z) : Prop :=
  usable m = true /\ entry_addr_lo m <= i * PAGE_SIZE < entry_addr_hi m.
Definition entry_ok (m : memory_map) : Prop :=
  0 <= base_addr_low m < 2 ^ 32 /\ 0 <= length_low m < 2 ^ 32.

Lemma align_down_hi x :
  0 <= x < 2 ^ 32 ->
  (if negb (Z.land x 0xfff =? 0) then Z.land x 0xfffff000 else x) = x / PAGE_SIZE * PAGE_SIZE.
Proof.
  intros Hx. rewrite land_fff, land_page by done.
  destruct (Z.eqb_spec (x mod PAGE_SIZE) 0) as [E|]; cbn; [|done].
  rewrite Z.mul_comm. by apply Z.div_exact.
Qed.

Lemma entry_hi_aligned m : exists h, entry_addr_hi m = h * PAGE_SIZE /\ 0 <= h < 2 ^ 20.
Proof.
  unfold entry_addr_hi. rewrite align_down_hi by (case_match; apply u32_bound).
  eexists. split; [done|]. set (x := if _ <? _ then _ else _).
  assert (0 <= x < 2 ^ 32) by (subst x; case_match; apply u32_bound).
  unfold PAGE_SIZE. Z.to_euclidean_division_equations; lia.
Qed.

Lemma entry_lo_aligned m :
  entry_ok m -> exists a, entry_addr_lo m = a * PAGE_SIZE /\ 0 <= a /\
                (base_addr_low m <= entry_addr_lo m -> 1 <= a).
Proof.
  intros [Hb _]. unfold entry_addr_lo.
  set (x := if base_addr_low m <? PAGE_SIZE then PAGE_SIZE else base_addr_low m).
  assert (Hx : PAGE_SIZE <= x < 2 ^ 32 /\ base_addr_low m <= x /\
               (base_addr_low m < PAGE_SIZE -> x = PAGE_SIZE))
    by (subst x; destruct (Z.ltb_spec (base_addr_low m) PAGE_SIZE); unfold PAGE_SIZE in *; lia).
  rewrite land_fff. destruct (Z.eqb_spec (x mod PAGE_SIZE) 0) as [E|E]; cbn [negb].
  - exists (x / PAGE_SIZE). unfold PAGE_SIZE in *. Z.to_euclidean_division_equations; lia.
  - rewrite land_page by (unfold PAGE_SIZE in *; lia). unfold u32.
    assert (Hq : 0 <= x / PAGE_SIZE < 2 ^ 20)
      by (unfold PAGE_SIZE in *; Z.to_euclidean_division_equations; lia).
    replace (x / PAGE_SIZE * PAGE_SIZE + PAGE_SIZE) with ((x / PAGE_SIZE + 1) * PAGE_SIZE) by lia.
    destruct (decide (x / PAGE_SIZE + 1 = 2 ^ 20)) as [He|Hne].
    + exists 0. rewrite He. change ((2 ^ 20 * PAGE_SIZE) mod 2 ^ 32) with 0.
      unfold PAGE_SIZE in *. Z.to_euclidean_division_equations; lia.
    + exists (x / PAGE_SIZE + 1). rewrite Z.mod_small by (unfold PAGE_SIZE in *; lia). lia.
Qed.

Lemma second_pass_entry_spec m st :
  pmm_wf st -> intr st = false -> last_allocated_frame st = FULL -> entry_ok m ->
  match second_pass_entry m st with
  | Ok st' => pmm_wf st' /\ intr st' = false /\ last_allocated_frame st' = FULL /\
              (forall i, frame_used st' i = false <-> in_entry m i \/ frame_used st i = false) /\
              (forall i, in_entry m i -> 1 <= i /\ base_addr_low m <= i * PAGE_SIZE <
                                         u32 (base_addr_low m + length_low m))
  | Panic => True
  | Undef | NoFuel => False
  end.
Proof.
  intros Hwf Hi Hl Hok. unfold second_pass_entry.
  assert (Hskip : (forall i, ~ in_entry m i) ->
    pmm_wf st /\ intr st = false /\ last_allocated_frame st = FULL /\
    (forall i, frame_used st i = false <-> in_entry m i \/ frame_used st i = false) /\
    (forall i, in_entry m i -> 1 <= i /\ base_addr_low m <= i * PAGE_SIZE <
                               u32 (base_addr_low m + length_low m))) by naive_solver.
  destruct (usable m) eqn:Eu; unfold usable in Eu.
  2: { apply andb_false_iff in Eu.
       destruct (mtype m =? 1) eqn:E1, (base_addr_high m =? 0) eqn:E2; cbn;
         try apply Hskip; unfold in_entry, usable; rewrite ?E1, ?E2; naive_solver. }
  apply andb_true_iff in Eu as [Eu1 Eu2]. rewrite Eu1, Eu2. cbn [negb].
  assert (Hus : usable m = true) by (unfold usable; by rewrite Eu1, Eu2).
  destruct (Z.leb_spec (entry_addr_hi m) (entry_addr_lo m)).
  { apply Hskip. unfold in_entry. lia. }
  destruct (entry_lo_aligned m Hok) as (a & Ea & Ha & Ha1).
  destruct (entry_hi_aligned m) as (h & Eh & Hh).
  destruct (IS_PAGE_ALIGNED (entry_addr_lo m)), (IS_PAGE_ALIGNED (entry_addr_hi m)); try done.
  cbn [assert mbind res_bind]. destruct (Z.leb_spec (base_addr_low m) (entry_addr_lo m)); [|done].
  cbn [assert mbind res_bind]. rewrite Ea, Eh in *.
  pose proof (clear_range_spec (page_fuel (h * PAGE_SIZE)) a h
    (Some (u32 (base_addr_low m + length_low m))) st Hwf Hi Hl Ha) as Hc.
  destruct (clear_range _ _ _ _ st) as [st'| | |];
    try (apply Hc; unfold page_fuel; rewrite ?Z.div_mul by done; unfold PAGE_SIZE in *; lia).
  destruct Hc as [Hwf' (_ & Hi' & Hl' & _) Hlim Hfr].
  1,2: unfold page_fuel; rewrite ?Z.div_mul by done; unfold PAGE_SIZE in *; lia.
  assert (Hin : forall i, in_entry m i <-> a <= i < h)
    by (intros i; unfold in_entry; rewrite Ea, Eh; unfold PAGE_SIZE; naive_solver lia).
  split_and!; [done | congruence | congruence | |].
  - intros i. rewrite Hin, Hfr.
    destruct (Z.leb_spec a i), (Z.ltb_spec i h); cbn; naive_solver lia.
  - intros i Hr%Hin. pose proof (Hlim i _ Hr eq_refl). unfold PAGE_SIZE in *. lia.
Qed.

Lemma second_pass_spec l st :
  pmm_wf st -> intr st = false -> last_allocated_frame st = FULL -> Forall entry_ok l ->
  match second_pass l st with
  | Ok st' => pmm_wf st' /\ intr st' = false /\
              (forall i, frame_used st' i = false <->
                         (exists m, m ∈ l /\ in_entry m i) \/ frame_used st i = false) /\
              (forall m i, m ∈ l -> in_entry m i ->
                 1 <= i /\ base_addr_low m <= i * PAGE_SIZE < u32 (base_addr_low m + length_low m))
  | Panic => True
  | Undef | NoFuel => False
  end.
Proof.
  revert st. induction l as [|m l IH]; intros st Hwf Hi Hl Hok; cbn [second_pass].
  { split_and!; [done | done | |]; intros; set_solver. }
  inversion Hok as [|? ? Hm Hrest]; subst.
  pose proof (second_pass_entry_spec m st Hwf Hi Hl Hm) as Hs.
  destruct (second_pass_entry m st) as [s1| | |]; try done. cbn [mbind res_bind].
  destruct Hs as (Hwf1 & Hi1 & Hl1 & Hf1 & Hb1).
  specialize (IH s1 Hwf1 Hi1 Hl1 Hrest). destruct (second_pass l s1) as [s2| | |]; try done.
  destruct IH as (Hwf2 & Hi2 & Hf2 & Hb2). split_and!; [done | done | |].
  - intros i. rewrite Hf2, Hf1. setoid_rewrite elem_of_cons. naive_solver.
  - intros m' i [->|Hin]%elem_of_cons; eauto.
Qed.

(** The bitmap before the second pass: every frame is in use. *)
Lemma fresh_bitmap nf fl r :
  0 <= nf < 2 ^ 20 ->
  let st := mk_pmm (replicate (Z.to_nat (nf / 32 + 1)) FULL) nf FULL (nf * PAGE_SIZE) fl r in
  pmm_wf st /\ forall i, frame_used st i = true.
Proof.
  intros Hn st. split.
  - split; [done | done | | | by left].
    + cbn. unfold zlen. rewrite length_replicate.
      Z.to_euclidean_division_equations; lia.
    + apply Forall_replicate. unfold FULL. lia.
  - intros i. unfold frame_used. destruct (Z.ltb_spec i 0); [done|].
    destruct (_ !! _) eqn:E; [|done]. cbn in E.
    apply lookup_replicate in E as [-> _]. apply FULL_bits. apply Z.mod_pos_bound. lia.
Qed.

Lemma mem_end_aligned l x :
  (exists k, x = k * PAGE_SIZE /\ 0 <= k < 2 ^ 20) ->
  exists k, foldl first_pass_entry x l = k * PAGE_SIZE /\ 0 <= k < 2 ^ 20.
Proof.
  revert x. induction l as [|m l IH]; intros x Hx; cbn [foldl]; [done|].
  apply IH. unfold first_pass_entry. rewrite align_down_hi by apply u32_bound.
  pose proof (u32_bound (entry_addr_lo m + length_low m)).
  repeat case_match; try done.
  exists (u32 (entry_addr_lo m + length_low m) / PAGE_SIZE).
  split; [done|]. unfold PAGE_SIZE. Z.to_euclidean_division_equations; lia.
Qed.

(** Pages of an aligned region above the first page: exactly the pages inside it. *)
Lemma in_entry_aligned m i :
  usable m = true -> 0 <= i -> PAGE_SIZE <= base_addr_low m -> base_addr_low m mod PAGE_SIZE = 0 ->
  0 <= length_low m -> base_addr_low m + length_low m < 2 ^ 32 ->
  in_entry m i <->
  base_addr_low m <= i * PAGE_SIZE /\ (i + 1) * PAGE_SIZE <= base_addr_low m + length_low m.
Proof.
  intros Hu Hi Hb Hal Hlen Hsum. unfold in_entry, entry_addr_hi, entry_addr_lo.
  destruct (Z.ltb_spec (base_addr_low m) PAGE_SIZE); [lia|].
  rewrite (land_fff (base_addr_low m)), Hal. cbn [negb Z.eqb].
  rewrite u32_small by (unfold PAGE_SIZE in *; lia).
  rewrite align_down_hi by (unfold PAGE_SIZE in *; lia).
  unfold PAGE_SIZE in *. split; [intros [_ ?] | intros ?; split; [done|]];
    Z.to_euclidean_division_equations; lia.
Qed.

(** with a memory map, [pmm_init] either panics (an assertion on an entry failed) or
    builds a well-formed bitmap in which a frame is free exactly when the second pass took
    it from a usable entry; such a frame starts inside that entry, is never frame 0, and
    for a page-aligned entry above the first page the free frames are exactly the whole
    pages inside it.  No loop runs away and no access leaves the bitmap. *)
Theorem pmm_init_mmap_correct l upper_mem st :
  Forall entry_ok l ->
  match pmm_init (Some l) upper_mem st with
  | Ok st' =>
      pmm_wf st' /\ intr st' = intr st /\
      (forall i, frame_used st' i = false <-> exists m, m ∈ l /\ in_entry m i) /\
      (forall i, frame_used st' i = false -> exists m, m ∈ l /\ usable m = true /\
         1 <= i /\ base_addr_low m <= i * PAGE_SIZE < u32 (base_addr_low m + length_low m)) /\
      (forall m i, m ∈ l -> usable m = true -> 0 <= i ->
         PAGE_SIZE <= base_addr_low m -> base_addr_low m mod PAGE_SIZE = 0 ->
         base_addr_low m + length_low m < 2 ^ 32 ->
         base_addr_low m <= i * PAGE_SIZE ->
         (i + 1) * PAGE_SIZE <= base_addr_low m + length_low m -> frame_used st' i = false)
  | Panic => True
  | Undef | NoFuel => False
  end.
Proof.
  intros Hok. unfold pmm_init.
  destruct (mem_end_aligned l (Z.land (u32 (0x100000 + upper_mem * 1024)) 0xfffff000)) as (k & -> & Hk).
  { rewrite land_page by apply u32_bound. eexists. split; [done|].
    pose proof (u32_bound (0x100000 + upper_mem * 1024)). unfold PAGE_SIZE.
    Z.to_euclidean_division_equations; lia. }
  rewrite Z.div_mul by done. cbn [INTERRUPT_LOCK intr set_intr].
  destruct (fresh_bitmap k false (ram st) Hk) as [Hwf Hall]. set (s := set_intr _ false).
  change (mk_pmm _ _ _ _ false _) with s in Hwf, Hall.
  pose proof (second_pass_spec l s Hwf eq_refl eq_refl Hok) as Hs.
  destruct (second_pass l s) as [s2| | |]; try done. cbn [mbind res_bind].
  destruct Hs as (Hwf2 & Hi2 & Hf2 & Hb2).
  assert (Hf : forall i, frame_used s2 i = false <-> exists m, m ∈ l /\ in_entry m i)
    by (intros i; rewrite Hf2, Hall; naive_solver).
  split_and!.
  - unfold INTERRUPT_UNLOCK. destruct (intr st); eauto with kernel.
  - unfold INTERRUPT_UNLOCK. by destruct (intr st).
  - intros i. rewrite unlock_used. apply Hf.
  - intros i. rewrite unlock_used. intros (m & Hm & Hin)%Hf.
    exists m. pose proof (Hb2 m i Hm Hin). destruct Hin. naive_solver.
  - intros m i Hm Hu Hi Hb Hal Hsum Hlo Hhi. rewrite unlock_used. apply Hf.
    exists m. split; [done|]. rewrite Forall_forall in Hok. destruct (Hok m Hm).
    apply in_entry_aligned; auto; lia.
Qed.

(** without a memory map, [pmm_init] frees exactly the frames from 1 MB up to the end
    of the memory GRUB reported. *)
Theorem pmm_init_no_mmap_correct upper_mem st :
  match pmm_init None upper_mem st with
  | Ok st' =>
      pmm_wf st' /\ intr st' = intr st /\
      forall i, frame_used st' i = false <-> 0x100000 <= i * PAGE_SIZE < mem_end_page st'
  | Panic => True
  | Undef | NoFuel => False
  end.
Proof.
  unfold pmm_init. destruct (mem_end_aligned [] (Z.land (u32 (0x100000 + upper_mem * 1024)) 0xfffff000))
    as (k & Ek & Hk).
  { rewrite land_page by apply u32_bound. eexists. split; [done|].
    pose proof (u32_bound (0x100000 + upper_mem * 1024)). unfold PAGE_SIZE.
    Z.to_euclidean_division_equations; lia. }
  cbn [foldl] in Ek. rewrite Ek, Z.div_mul by done. cbn [INTERRUPT_LOCK intr set_intr].
  destruct (fresh_bitmap k false (ram st) Hk) as [Hwf Hall]. set (s := set_intr _ false).
  change (mk_pmm _ _ _ _ false _) with s in Hwf, Hall. change 0x100000 with (256 * PAGE_SIZE).
  pose proof (clear_range_spec (page_fuel (k * PAGE_SIZE)) 256 k None s Hwf eq_refl eq_refl) as Hc.
  destruct (clear_range _ _ _ None s) as [s2| | |];
    try (apply Hc; unfold page_fuel; rewrite ?Z.div_mul by done; unfold PAGE_SIZE in *; lia).
  destruct Hc as [Hwf2 (Hnf & Hi2 & _) _ Hf2];
    [lia | unfold PAGE_SIZE; lia | unfold page_fuel; rewrite Z.div_mul by done; lia |].
  cbn [mbind res_bind]. split_and!.
  - unfold INTERRUPT_UNLOCK. destruct (intr st); eauto with kernel.
  - unfold INTERRUPT_UNLOCK. by destruct (intr st).
  - intros i. rewrite unlock_used, Hf2, Hall.
    replace (mem_end_page (INTERRUPT_UNLOCK (intr st) s2)) with (k * PAGE_SIZE)
      by (change k with (nframes s); rewrite <- Hnf, <- (wf_end _ Hwf2); by destruct (intr st)).
    unfold PAGE_SIZE. destruct (Z.leb_spec 256 i), (Z.ltb_spec i k); cbn; naive_solver lia.
Qed.

Lemma first_free_start_lowest st i :
  pmm_wf st -> intr st = false -> searched st i ->
  (forall j, 0 <= j < i -> frame_used st j = true) -> frame_used st i = false ->
  pmm_first_free_frame 0 st = Ok (i * PAGE_SIZE).
Proof.
  intros Hwf Hi Hs Hlow H0.
  destruct (first_free_frame_spec st 0 Hwf Hi) as [[_ Hall]|(i' & -> & Hs' & Hf' & Hlow')];
    [lia | apply (no_hint (fun i => frame_used st i = true)) | |].
  - rewrite (Hall i Hs) in H0. done.
  - do 2 f_equal. destruct (Z.lt_total i i') as [Hc|[|Hc]]; [|done|]; unfold searched in *.
    + rewrite (Hlow' i) in H0; done || lia.
    + rewrite (Hlow i') in Hf'; done || lia.
Qed.

(** [pmm_alloc_continuous] does not find every free run.  After a mismatch it resumes
    one frame past the used one without testing that frame, so when the first free frame
    is followed by two used ones and a free one, a request for two frames panics
    whatever free memory follows. *)
Theorem pmm_alloc_continuous_misses_run st i :
  pmm_wf st -> searched st i -> (i + 3) * PAGE_SIZE <= mem_end_page st ->
  (forall j, 0 <= j < i -> frame_used st j = true) -> frame_used st i = false ->
  frame_used st (i + 1) = true -> frame_used st (i + 2) = true -> frame_used st (i + 3) = false ->
  pmm_alloc_continuous 2 st = Panic.
Proof.
  intros Hwf Hs Hend Hlow H0 H1 H2 H3. unfold pmm_alloc_continuous.
  cbn [Z.ltb Z.compare Pos.compare Pos.compare_cont INTERRUPT_LOCK].
  set (s := set_intr st false). assert (Hws : pmm_wf s) by (by apply wf_set_intr).
  rewrite (first_free_start_lowest s i Hws) by done. cbn [mbind res_bind].
  assert (Hu : forall d, 0 <= d <= 3 -> u32 (i * PAGE_SIZE + d * PAGE_SIZE) = (i + d) * PAGE_SIZE).
  { intros. rewrite <- Z.mul_add_distr_r. pose proof (wf_nframes _ Hwf). pose proof (wf_end _ Hwf).
    unfold searched in Hs. apply u32_small; unfold PAGE_SIZE in *; lia. }
  assert (Ht : forall d, 0 <= d <= 3 -> pmm_test_frame ((i + d) * PAGE_SIZE) s = Ok (frame_used st (i + d))).
  { intros d Hd. pose proof (frame_used_in_map st _ Hwf H3) as Hin. unfold in_map, searched in *.
    rewrite test_frame_spec by (done || unfold PAGE_SIZE; lia). rewrite Z.div_mul by done.
    rewrite decide_True by (unfold in_map; cbn; lia). done. }
  assert (Hf : find_continuous (S (S (Z.to_nat (nframes s)))) 2 (i * PAGE_SIZE) s = Ok ((i + 2) * PAGE_SIZE)).
  { cbn [find_continuous first_used_after Z.to_nat Z.sub Z.add Z.opp Pos.to_nat].
    change (Z.to_nat (2 - 1)) with 1%nat. change (2 - 1) with 1. change (1 + 1) with 2.
    change (mem_end_page s) with (mem_end_page st). cbn [first_used_after].
    rewrite (Hu 1), (Ht 1), H1 by lia. cbn [mbind res_bind].
    destruct (Z.ltb_spec (mem_end_page st) ((i + 1) * PAGE_SIZE)); [unfold PAGE_SIZE in *; lia|].
    change (1 + 1) with 2. rewrite (Hu 2) by lia.
    replace ((i + 2) * PAGE_SIZE + 1 * PAGE_SIZE) with (i * PAGE_SIZE + 3 * PAGE_SIZE) by lia.
    rewrite (Hu 3), (Ht 3), H3 by lia.
    by destruct (Z.ltb_spec (mem_end_page st) ((i + 3) * PAGE_SIZE)); [unfold PAGE_SIZE in *; lia|]. }
  rewrite Hf. cbn [mbind res_bind]. change (Z.to_nat 2) with 2%nat. cbn [set_frames].
  rewrite Z.mul_0_l, Z.add_0_r. replace ((i + 2) * PAGE_SIZE) with (i * PAGE_SIZE + 2 * PAGE_SIZE) by lia.
  rewrite (Hu 2), set_frame_spec by (done || unfold searched, PAGE_SIZE in *; lia).
  rewrite Z.div_mul by done. change (frame_used s) with (frame_used st). rewrite H2. by case_decide.
Qed.

(** [pmm_init] can free a frame that is not wholly inside the region.  The start of an
    unaligned region is rounded up but its end is computed from the rounded start, so for
    a region whose length is a multiple of the page size the last frame taken always
    reaches past the region's end. *)
Theorem pmm_init_overruns_unaligned m :
  usable m = true -> PAGE_SIZE <= base_addr_low m -> base_addr_low m mod PAGE_SIZE <> 0 ->
  0 < length_low m -> length_low m mod PAGE_SIZE = 0 ->
  base_addr_low m + length_low m + PAGE_SIZE < 2 ^ 32 ->
  exists i, in_entry m i /\ base_addr_low m + length_low m < (i + 1) * PAGE_SIZE.
Proof.
  intros Hu Hb Hal Hlen Hlm Hsum. unfold in_entry, entry_addr_hi, entry_addr_lo.
  destruct (Z.ltb_spec (base_addr_low m) PAGE_SIZE); [lia|].
  rewrite (land_fff (base_addr_low m)), (land_page (base_addr_low m)) by (unfold PAGE_SIZE in *; lia).
  destruct (Z.eqb_spec (base_addr_low m mod PAGE_SIZE) 0); [done|]. cbn [negb].
  assert (Hr : base_addr_low m / PAGE_SIZE * PAGE_SIZE <= base_addr_low m)
    by (rewrite Z.mul_comm; apply Z.mul_div_le; done).
  assert (0 <= base_addr_low m / PAGE_SIZE) by (apply Z.div_pos; unfold PAGE_SIZE in *; lia).
  rewrite !(u32_small (_ / _ * _ + _)) by (unfold PAGE_SIZE in *; lia).
  rewrite u32_small, align_down_hi by (unfold PAGE_SIZE in *; lia).
  exists (base_addr_low m / PAGE_SIZE + length_low m / PAGE_SIZE). split; [split; [done|]|];
    unfold PAGE_SIZE in *; Z.to_euclidean_division_equations; lia.
Qed.

(** ** Witnesses *)

(** A small machine: 64 frames, frames 1 and 2 in use. *)
Definition demo : pmm := mk_pmm [6; 0; FULL] 64 FULL 0x40000 true (fun _ => 7).

Lemma demo_wf : pmm_wf demo.
Proof.
  split; [cbn; lia | done | done | apply Forall_lookup; intros [|[|[|]]] w; cbn; intros [= <-]; unfold FULL; lia | by left].
Qed.

Definition demo_map : list memory_map :=
  [mk_memory_map 0 0 0x9f000 0 1; mk_memory_map 0xf0000 0 0x10000 0 2;
   mk_memory_map 0x100000 0 0x40000 0 1].

Lemma pmm_alloc_witness :
  exists st', pmm_alloc demo = Ok (0, st') /\ frame_used st' 0 = true /\ ram st' 4095 = 0 /\
  match pmm_alloc demo with
  | Ok (a, st') => exists i, a = i * PAGE_SIZE /\ searched demo i /\ frame_used demo i = false /\
        (forall j, 0 <= j < i -> frame_used demo j = true) /\
        (forall j, frame_used st' j = if decide (i = j) then true else frame_used demo j) /\
        (forall x, ram st' x = if decide (a <= x < a + PAGE_SIZE) then 0 else ram demo x) /\
        intr st' = intr demo /\ pmm_wf st'
  | Panic => forall i, searched demo i -> frame_used demo i = true
  | Undef | NoFuel => False
  end.
Proof.
  eexists. split; [vm_compute; reflexivity|]. split; [reflexivity|]. split; [reflexivity|].
  exact (pmm_alloc_correct demo demo_wf).
Defined.

Lemma pmm_free_witness :
  exists st', pmm_free 0x1234 demo = Ok st' /\ frame_used st' 1 = false /\
  match pmm_free 0x1234 demo with
  | Ok st' =>
      in_map demo (0x1234 / PAGE_SIZE) /\ frame_used demo (0x1234 / PAGE_SIZE) = true /\
      (forall j, frame_used st' j = if decide (0x1234 / PAGE_SIZE = j) then false else frame_used demo j) /\
      last_allocated_frame st' = FULL /\ intr st' = intr demo /\ ram st' = ram demo /\ pmm_wf st'
  | Panic => frame_used demo (0x1234 / PAGE_SIZE) = false \/ ~ in_map demo (0x1234 / PAGE_SIZE)
  | Undef | NoFuel => False
  end.
Proof.
  eexists. split; [vm_compute; reflexivity|]. split; [reflexivity|].
  exact (pmm_free_correct demo 0x1234 demo_wf ltac:(lia)).
Defined.

(** Frames 0 to 2 free, 3 to 12 in use, and the interrupt flag already clear. *)
Definition demo2 : pmm := mk_pmm [0x1ff8; 0; FULL] 64 FULL 0x40000 false (fun _ => 7).

Lemma demo2_wf : pmm_wf demo2.
Proof.
  split; [cbn; lia | done | done | apply Forall_lookup; intros [|[|[|]]] w; cbn; intros [= <-]; unfold FULL; lia | by left].
Qed.

Lemma pmm_alloc_continuous_witness :
  exists st', pmm_alloc_continuous 3 demo2 = Ok (0, st') /\ intr st' = false /\
    frame_used st' 2 = true.
Proof.
  eexists. split; [vm_compute; reflexivity|]. split; [|reflexivity].
  eapply (pmm_alloc_continuous_sound demo2 3 0); [exact demo2_wf | lia | vm_compute; reflexivity].
Defined.

Lemma pmm_alloc_continuous_terminates_witness :
  match pmm_alloc_continuous 40 demo2 with Ok _ | Panic => True | Undef | NoFuel => False end.
Proof.
  apply (pmm_alloc_continuous_terminates demo2 40); [exact demo2_wf | lia | vm_compute; reflexivity].
Defined.

Lemma pmm_accounting_witness :
  pmm_bytes_free demo = Ok (62 * 4096) /\ pmm_bytes_free demo = Ok (PAGE_SIZE * frames_with false demo).
Proof. split; [reflexivity | apply (pmm_accounting demo demo_wf)]. Defined.

Lemma pmm_init_mmap_witness :
  exists st', pmm_init (Some demo_map) 0x100 demo = Ok st' /\ pmm_wf st' /\
    frame_used st' 0 = true /\ frame_used st' 1 = false /\ frame_used st' 0xf0 = true /\
    frame_used st' 0x13f = false.
Proof.
  pose proof (pmm_init_mmap_correct demo_map 0x100 demo
    ltac:(unfold entry_ok; apply Forall_lookup; intros [|[|[|]]] m; cbn; intros [= <-]; cbn; lia)) as H.
  destruct (pmm_init (Some demo_map) 0x100 demo) as [st'| | |] eqn:E; [|vm_compute in E; discriminate E..].
  exists st'. split; [done|]. split; [apply H|].
  vm_compute in E. injection E as <-. vm_compute. auto.
Defined.

Lemma pmm_alloc_continuous_misses_witness : pmm_alloc_continuous 2 demo = Panic.
Proof.
  apply (pmm_alloc_continuous_misses_run demo 0);
    [exact demo_wf | vm_compute; split; congruence | vm_compute; congruence | lia | reflexivity..].
Defined.

Lemma pmm_init_overruns_witness :
  exists i, in_entry (mk_memory_map 0x1800 0 0x2000 0 1) i /\ 0x3800 < (i + 1) * PAGE_SIZE.
Proof.
  apply (pmm_init_overruns_unaligned (mk_memory_map 0x1800 0 0x2000 0 1));
    vm_compute; congruence || reflexivity.
Defined.
