(* ===== verification/Vmm.v ===== *)
(** * The virtual memory manager (src/src/kernel/vmm.c)

    Page directories and page tables are objects of the kernel heap, found by their
    addresses: every directory points to the same tables for kernel space, so a table is
    shared by address.  Physical memory and the frames in use are Pmm.v's; its [intr] is the
    CPU's interrupt flag.  A [task_mm] is found by its address as well, its [areas] list is
    [None] for a kernel task.

    [kmalloc] is the class [KernelAlloc]: it returns addresses that are not NULL and not in
    use, and a page-aligned physical address with [kmalloc_ap] (the kernel heap of Heap.v;
    all its page tables are created by [init_paging], so that it does not call back here for
    a new one).  The memory [kmalloc_ap] gives for a table is the table itself. *)
From S2P Require Import Prelude Pmm.

Record page_t := mk_page {
  present : Z; rw : Z; user : Z; pwt : Z; pcd : Z; accessed : Z; dirty : Z; pat : Z; global : Z; guard : Z; avail : Z;
  frame : Z
}.
#[export] Instance page_eq_dec : EqDecision page_t.
Proof. solve_decision. Defined.
(** [*(uint32 * )page == 0] *)
Definition page0 : page_t := mk_page 0 0 0 0 0 0 0 0 0 0 0 0.
Abbreviation page_table := (Z -> page_t).

Record page_directory := mk_pd {
  tables_physical : Z -> Z;
  tables : Z -> Z;
  physical_address : Z
}.

Record vm_area := mk_area { a_start : Z; a_stop : Z; a_writable : bool }.
#[export] Instance vm_area_eq_dec : EqDecision vm_area.
Proof. solve_decision. Defined.
Record task_mm := mk_mm {
  areas : option (list vm_area);
  text_start : Z;
  text_end : Z;
  brk_start : Z;
  brk : Z;
  initial_brk : Z;
  mm_directory : Z;
  user_stack_guard_page : Z;
  frames_used : Z
}.

Record vmm := mk_vmm {
  pm : pmm;
  dirs : gmap Z page_directory;
  ptables : gmap Z page_table;
  pagedirs : list Z;
  mms : gmap Z task_mm;
  kernel_directory : Z;
  current_directory : Z;
  cr3 : Z;
  current_mm : Z;                (** [current_task->mm] *)
  privilege : Z                  (** [current_task->privilege] *)
}.
Abbreviation VM := (ST vmm).

Definition USER_STACK_START : Z := 0xbffff000.
Definition USER_STACK_SIZE : Z := 64 * 1024.
Definition USER_STACK_SIZE_MAX : Z := 8 * 1024 * 1024.
Definition USER_STACK_GROW_SIZE : Z := 128 * 1024.
Definition IS_USER_SPACE (addr : Z) : bool := (0x10000000 <=? addr) && (addr <? 0xc0000000).
Definition IS_KERNEL_SPACE (addr : Z) : bool := negb (IS_USER_SPACE addr).
Definition CHECK_ACCESS_READ (addr len : Z) : bool := IS_USER_SPACE addr && IS_USER_SPACE (u32 (addr + len)).

(** What [kmalloc] returns for a directory, a table and a [task_mm]. *)
Class KernelAlloc := {
  kmalloc_addr : vmm -> Z;
  kmalloc_phys : vmm -> Z;
  placement_address : vmm -> Z;  (** where the next allocation before the heap exists is placed *)
  kmalloc_not_null s : kmalloc_addr s <> 0;
  kmalloc_dir s : dirs s !! kmalloc_addr s = None;
  kmalloc_table s : ptables s !! kmalloc_addr s = None;
  kmalloc_mm s : mms s !! kmalloc_addr s = None;
  kmalloc_aligned s : 0 <= kmalloc_phys s < 2 ^ 32 /\ kmalloc_phys s mod PAGE_SIZE = 0
}.

(** ** Access to the state *)
Definition set_pm (p : pmm) (s : vmm) : vmm :=
  mk_vmm p (dirs s) (ptables s) (pagedirs s) (mms s) (kernel_directory s) (current_directory s) (cr3 s) (current_mm s) (privilege s).
Definition set_dirs (f : gmap Z page_directory -> gmap Z page_directory) (s : vmm) : vmm :=
  mk_vmm (pm s) (f (dirs s)) (ptables s) (pagedirs s) (mms s) (kernel_directory s) (current_directory s) (cr3 s) (current_mm s) (privilege s).
Definition set_ptables (f : gmap Z page_table -> gmap Z page_table) (s : vmm) : vmm :=
  mk_vmm (pm s) (dirs s) (f (ptables s)) (pagedirs s) (mms s) (kernel_directory s) (current_directory s) (cr3 s) (current_mm s) (privilege s).
Definition set_pagedirs (f : list Z -> list Z) (s : vmm) : vmm :=
  mk_vmm (pm s) (dirs s) (ptables s) (f (pagedirs s)) (mms s) (kernel_directory s) (current_directory s) (cr3 s) (current_mm s) (privilege s).
Definition set_mms (f : gmap Z task_mm -> gmap Z task_mm) (s : vmm) : vmm :=
  mk_vmm (pm s) (dirs s) (ptables s) (pagedirs s) (f (mms s)) (kernel_directory s) (current_directory s) (cr3 s) (current_mm s) (privilege s).
Definition set_current (d c : Z) (s : vmm) : vmm :=
  mk_vmm (pm s) (dirs s) (ptables s) (pagedirs s) (mms s) (kernel_directory s) d c (current_mm s) (privilege s).

Definition get_dir (d : Z) : VM page_directory := m ← gets dirs; lift (deref (m !! d)).
Definition put_dir (d : Z) (pd : page_directory) : VM () := modify (set_dirs (insert d pd)).
Definition get_table (t : Z) : VM page_table := m ← gets ptables; lift (deref (m !! t)).
Definition get_mm (a : Z) : VM task_mm := m ← gets mms; lift (deref (m !! a)).
Definition put_mm (a : Z) (x : task_mm) : VM () := modify (set_mms (insert a x)).

Definition upd {A} (f : Z -> A) (i : Z) (x : A) : Z -> A := fun j => if j =? i then x else f j.

(** A [page_t *] is a table and an index into it. *)
Definition get_page (p : Z * Z) : VM page_t := t ← get_table p.1; mret (t p.2).
Definition put_page (p : Z * Z) (x : page_t) : VM () :=
  t ← get_table p.1; modify (set_ptables (insert p.1 (upd t p.2 x))).

(** A call into the physical memory manager. *)
Definition on_pmm {A} (f : pmm -> res (A * pmm)) : VM A := fun s =>
  match f (pm s) with
  | Ok (a, p) => Ok (a, set_pm p s)
  | Panic => Panic
  | Undef => Undef
  | NoFuel => NoFuel
  end.
Definition on_pmm_ (f : pmm -> res pmm) : VM () := on_pmm (fun p => q ← f p; Ok (tt, q)).

Definition interrupts_enabled : VM bool := gets (fun s => intr (pm s)).
Definition set_interrupts (b : bool) : VM () := modify (fun s => set_pm (set_intr (pm s) b) s).
Definition vlocked {A} (body : VM A) : VM A :=
  reenable_interrupts ← interrupts_enabled;
  set_interrupts false ;;
  a ← body;
  (if reenable_interrupts : bool then set_interrupts true else mret tt) ;;
  mret a.

(** [for (x = lo; x < hi; x += PAGE_SIZE)]: the number of rounds. *)
Definition pages_between (lo hi : Z) : nat := Z.to_nat ((hi - lo + PAGE_SIZE - 1) / PAGE_SIZE).

Section Ops.
Context `{KernelAlloc}.

(** ** Page tables *)
Definition vmm_create_page_table (pt_index dir : Z) : VM () :=
  b ← interrupts_enabled; ensure (negb b) ;;
  pd ← get_dir dir;
  ensure (tables pd pt_index =? 0) ;;
  t ← gets kmalloc_addr; phys ← gets kmalloc_phys;
  modify (set_ptables (insert t (fun _ => page0))) ;;
  put_dir dir (mk_pd (upd (tables_physical pd) pt_index (Z.lor phys 7)) (upd (tables pd) pt_index t) (physical_address pd)) ;;
  if IS_KERNEL_SPACE (u32 (pt_index * 4096 * 1024)) then
    k ← gets kernel_directory;
    ensure (dir =? k) ;;
    ds ← gets pagedirs;
    (** for another directory in the list the code panics, saying that this is untested *)
    if forallb (fun d => (d =? k) || (d =? 0) || (d =? dir)) ds then mret tt else lift Panic
  else mret tt.

Definition vmm_get_page (virtual dir : Z) : VM (Z * Z) :=
  ensure (negb (dir =? 0)) ;;
  let pt_index := virtual / 4096 / 1024 in
  let pt_offset := (virtual / 4096) mod 1024 in
  vlocked (
    pd ← get_dir dir;
    if tables pd pt_index =? 0 then vmm_create_page_table pt_index dir else mret tt) ;;
  pd ← get_dir dir;
  mret (tables pd pt_index, pt_offset).

(** The fields [_vmm_map] and [_vmm_set_guard] assign. *)
Definition mapped_page (phys : Z) (kernelmode writable : bool) (virtual : Z) (p : page_t) : page_t :=
  mk_page 1 (if writable then 1 else 0) (if kernelmode then 0 else 1) (pwt p) (pcd p) (accessed p) (dirty p) (pat p)
    (if IS_KERNEL_SPACE virtual then 1 else global p) (guard p) (avail p) (phys / PAGE_SIZE).
Definition guarded_page (g : bool) (p : page_t) : page_t :=
  mk_page (if g then 0 else 1) (rw p) (user p) (pwt p) (pcd p) (accessed p) (dirty p) (pat p) (global p)
    (if g then 1 else 0) (avail p) (frame p).

Definition vmm_map (virtual phys dir : Z) (kernelmode writable : bool) : VM () :=
  ensure (negb (dir =? 0)) ;;
  page ← vmm_get_page virtual dir;
  vlocked (
    p ← get_page page;
    ensure (bool_decide (p = page0)) ;;
    put_page page (mapped_page phys kernelmode writable virtual p)).
Definition vmm_map_kernel (virtual phys : Z) (writable : bool) : VM () :=
  k ← gets kernel_directory; vmm_map virtual phys k true writable.

Definition vmm_unmap (virtual dir : Z) : VM () :=
  ensure (negb (dir =? 0)) ;;
  page ← vmm_get_page virtual dir;
  p ← get_page page;
  ensure ((present p =? 1) || (guard p =? 1)) ;;
  put_page page page0.

Definition vmm_get_phys (virtual dir : Z) : VM Z :=
  ensure (negb (dir =? 0)) ;;
  page ← vmm_get_page virtual dir;
  p ← get_page page;
  mret (u32 (frame p * PAGE_SIZE + Z.land virtual 0xfff)).

Definition vmm_free (virtual dir : Z) : VM () :=
  ensure (negb (dir =? 0)) ;;
  phys ← vmm_get_phys virtual dir;
  on_pmm_ (pmm_free phys) ;;
  vmm_unmap virtual dir.

Definition vmm_set_guard_to (virtual dir : Z) (g : bool) : VM () :=
  ensure (negb (dir =? 0)) ;;
  page ← vmm_get_page virtual dir;
  vlocked (
    p ← get_page page;
    ensure (present p =? (if g then 1 else 0)) ;;
    ensure (guard p =? (if g then 0 else 1)) ;;
    put_page page (guarded_page g p)).
Definition vmm_set_guard (virtual dir : Z) : VM () := vmm_set_guard_to virtual dir true.
Definition vmm_clear_guard (virtual dir : Z) : VM () := vmm_set_guard_to virtual dir false.

(** ** Allocating for the kernel *)
Fixpoint map_continuous (n : nat) (addr phys : Z) (writable : bool) : VM () :=
  match n with
  | O => mret tt
  | S n => vmm_map_kernel addr phys writable ;; map_continuous n (addr + PAGE_SIZE) (u32 (phys + PAGE_SIZE)) writable
  end.
Fixpoint map_any (n : nat) (addr ret : Z) (writable : bool) : VM Z :=
  match n with
  | O => mret ret
  | S n =>
      phys ← on_pmm pmm_alloc;
      vmm_map_kernel addr phys writable ;;
      map_any n (addr + PAGE_SIZE) (if ret =? 0 then phys else ret) writable
  end.
Definition vmm_alloc_kernel (start_virtual end_virtual : Z) (continuous_physical writable : bool) : VM Z :=
  ensure (start_virtual <? end_virtual) ;;
  ensure (Z.land start_virtual 0xfff =? 0) ;;
  ensure (Z.land end_virtual 0xfff =? 0) ;;
  ensure (Z.land (end_virtual - start_virtual) 0xfff =? 0) ;;
  if continuous_physical then
    ret ← on_pmm (pmm_alloc_continuous ((end_virtual - start_virtual) / PAGE_SIZE));
    map_continuous (pages_between start_virtual end_virtual) start_virtual ret writable ;;
    mret ret
  else map_any (pages_between start_virtual end_virtual) start_virtual 0 writable.

(** ** Areas of a task *)

(** The loop of [_vmm_store_area]: [None] when no area was extended. *)
Fixpoint extend_area (start_virtual end_virtual : Z) (writable : bool) (l : list vm_area) : res (option (list vm_area)) :=
  match l with
  | [] => Ok None
  | a :: l =>
      if (a_start a =? end_virtual) && Bool.eqb (a_writable a) writable
      then Ok (Some (mk_area start_virtual (a_stop a) (a_writable a) :: l))
      else if (a_stop a =? start_virtual) && Bool.eqb (a_writable a) writable
      then Ok (Some (mk_area (a_start a) end_virtual (a_writable a) :: l))
      else if ((a_start a <=? start_virtual) && (start_virtual <? a_stop a)) ||
              ((a_start a <? end_virtual) && (end_virtual <? a_stop a)) then Panic
      else o ← extend_area start_virtual end_virtual writable l; Ok (option_map (cons a) o)
  end.
Definition with_areas (l : list vm_area) (x : task_mm) : task_mm :=
  mk_mm (Some l) (text_start x) (text_end x) (brk_start x) (brk x) (initial_brk x) (mm_directory x)
    (user_stack_guard_page x) (frames_used x).
Definition add_frames (n : Z) (x : task_mm) : task_mm :=
  mk_mm (areas x) (text_start x) (text_end x) (brk_start x) (brk x) (initial_brk x) (mm_directory x)
    (user_stack_guard_page x) (u32 (frames_used x + n)).
Definition with_brk (b : Z) (x : task_mm) : task_mm :=
  mk_mm (areas x) (text_start x) (text_end x) (brk_start x) b (initial_brk x) (mm_directory x)
    (user_stack_guard_page x) (frames_used x).
Definition with_guard_page (g : Z) (x : task_mm) : task_mm :=
  mk_mm (areas x) (text_start x) (text_end x) (brk_start x) (brk x) (initial_brk x) (mm_directory x) g (frames_used x).

Definition vmm_store_area (start_virtual end_virtual mm : Z) (writable : bool) : VM () :=
  ensure (negb (mm =? 0)) ;;
  x ← get_mm mm;
  match areas x with
  | None => lift Panic
  | Some l =>
      vlocked (
        o ← lift (extend_area start_virtual end_virtual writable l);
        put_mm mm (with_areas (match o with Some l' => l' | None => l ++ [mk_area start_virtual end_virtual writable] end) x))
  end.

Fixpoint map_user (n : nat) (addr mm : Z) (writable : bool) : VM () :=
  match n with
  | O => mret tt
  | S n =>
      phys ← on_pmm pmm_alloc;
      x ← get_mm mm;
      put_mm mm (add_frames 1 x) ;;
      vmm_map addr phys (mm_directory x) false writable ;;
      map_user n (addr + PAGE_SIZE) mm writable
  end.
Definition vmm_alloc_user (start_virtual end_virtual mm : Z) (writable : bool) : VM () :=
  ensure (start_virtual <? end_virtual) ;;
  ensure (Z.land start_virtual 0xfff =? 0) ;;
  ensure (Z.land end_virtual 0xfff =? 0) ;;
  ensure (Z.land (end_virtual - start_virtual) 0xfff =? 0) ;;
  ensure (negb (mm =? 0)) ;;
  map_user (pages_between start_virtual end_virtual) start_virtual mm writable ;;
  vmm_store_area start_virtual end_virtual mm writable.

(** [for (i = lo; i < hi; i += PAGE_SIZE) { vmm_free(i, dir); mm->frames_used--; }] *)
Fixpoint unmap_user (n : nat) (i dir : Z) (mm : option Z) : VM () :=
  match n with
  | O => mret tt
  | S n =>
      vmm_free i dir ;;
      (match mm with Some mm => x ← get_mm mm; put_mm mm (add_frames (-1) x) | None => mret tt end) ;;
      unmap_user n (i + PAGE_SIZE) dir mm
  end.

(** The loop of [vmm_resize_area]: the area found, with the ones before it. *)
Fixpoint find_area (start_virtual new_end : Z) (l : list vm_area) : res (option (list vm_area * vm_area * list vm_area)) :=
  match l with
  | [] => Ok None
  | a :: l =>
      assert (negb (a_stop a =? new_end)) ;;
      if (a_start a <=? start_virtual) && (start_virtual <? a_stop a) then Ok (Some ([], a, l))
      else o ← find_area start_virtual new_end l; Ok (option_map (fun '(l1, x, l2) => (a :: l1, x, l2)) o)
  end.
Definition vmm_resize_area (start_virtual new_end_virtual mm : Z) : VM () :=
  ensure (u32 (start_virtual + PAGE_SIZE) <=? new_end_virtual) ;;
  ensure (negb (mm =? 0)) ;;
  x ← get_mm mm;
  match areas x with
  | None => lift Panic
  | Some l =>
      o ← lift (find_area start_virtual new_end_virtual l);
      match o with
      | None => mret tt
      | Some (l1, a, l2) =>
          if a_stop a <? new_end_virtual then vmm_alloc_user (a_stop a) new_end_virtual mm (a_writable a)
          else
            unmap_user (pages_between new_end_virtual (a_stop a)) new_end_virtual (mm_directory x) (Some mm) ;;
            y ← get_mm mm;
            put_mm mm (with_areas (l1 ++ mk_area (a_start a) new_end_virtual (a_writable a) :: l2) y)
      end
  end.

Fixpoint free_areas (l : list vm_area) (dir : Z) : VM () :=
  match l with
  | [] => mret tt
  | a :: l => unmap_user (pages_between (a_start a) (a_stop a)) (a_start a) dir None ;; free_areas l dir
  end.
Definition vmm_destroy_task_mm (mm : Z) : VM () :=
  ensure (negb (mm =? 0)) ;;
  vlocked (
    x ← get_mm mm;
    (match areas x with Some l => free_areas l (mm_directory x) | None => mret tt end) ;;
    modify (set_mms (delete mm))).

(** [vmm_check_access_write]: writable areas only, and the end of the range inside the area. *)
Definition vmm_check_access_write (addr len : Z) : VM bool :=
  p ← gets privilege; ensure (p =? 3) ;;
  mm ← gets current_mm; ensure (negb (mm =? 0)) ;;
  x ← get_mm mm;
  l ← lift (deref (areas x));
  vlocked (mret (existsb (fun a => a_writable a && ((a_start a <=? addr) && (addr <? a_stop a)) && (u32 (addr + len) <? a_stop a)) l)).

(** ** Cloning *)
Definition copy_page_physical (src dst : Z) (m : Z -> Z) : Z -> Z :=
  fun x => if (dst <=? x) && (x <? dst + PAGE_SIZE) then m (src + (x - dst)) else m x.

Definition with_frame (f : Z) (p : page_t) : page_t :=
  mk_page (present p) (rw p) (user p) (pwt p) (pcd p) (accessed p) (dirty p) (pat p) (global p) (guard p) (avail p) f.

(** [for (j = 0; j < 1024; j++)] over the entries of one table. *)
Fixpoint clone_entries (n : nat) (j parent_table child_table child_mm : Z) : VM () :=
  match n with
  | O => mret tt
  | S n =>
      p ← get_page (parent_table, j);
      (if negb (frame p =? 0) then
         phys ← on_pmm pmm_alloc;
         x ← get_mm child_mm;
         put_mm child_mm (add_frames 1 x) ;;
         on_pmm_ (fun q => Ok (set_ram q (copy_page_physical (frame p * PAGE_SIZE) phys (ram q)))) ;;
         put_page (child_table, j) (with_frame (phys / PAGE_SIZE) p)
       else mret tt) ;;
      clone_entries n (j + 1) parent_table child_table child_mm
  end.
(** [for (i = 0; i < 1024; i++)] over the tables. *)
Fixpoint clone_tables (n : nat) (i parent_dir child_dir child_mm : Z) : VM () :=
  match n with
  | O => mret tt
  | S n =>
      pd ← get_dir parent_dir;
      (if IS_KERNEL_SPACE (i * 1024 * PAGE_SIZE) then
         cd ← get_dir child_dir;
         put_dir child_dir (mk_pd (upd (tables_physical cd) i (tables_physical pd i)) (upd (tables cd) i (tables pd i)) (physical_address cd))
       else if tables pd i =? 0 then mret tt
       else
         vmm_create_page_table i child_dir ;;
         cd ← get_dir child_dir;
         clone_entries 1024 0 (tables pd i) (tables cd i) child_mm) ;;
      clone_tables n (i + 1) parent_dir child_dir child_mm
  end.
Definition clone_user_page_directory (parent_dir child_mm : Z) : VM Z :=
  ensure (negb (parent_dir =? 0)) ;;
  ensure (negb (child_mm =? 0)) ;;
  child_dir ← gets kmalloc_addr; new_dir_phys ← gets kmalloc_phys;
  put_dir child_dir (mk_pd (fun _ => 0) (fun _ => 0) 0) ;;
  vlocked (
    clone_tables 1024 0 parent_dir child_dir child_mm ;;
    modify (set_pagedirs (fun l => l ++ [child_dir]))) ;;
  (** [tables_physical] is the first member of the structure: its offset is 0. *)
  cd ← get_dir child_dir;
  put_dir child_dir (mk_pd (tables_physical cd) (tables cd) (u32 (new_dir_phys + 0))) ;;
  mret child_dir.

Definition mm0 : task_mm := mk_mm None 0 0 0 0 0 0 0 0.
Definition vmm_clone_mm (parent_mm : Z) : VM Z :=
  ensure (negb (parent_mm =? 0)) ;;
  x ← get_mm parent_mm;
  match areas x with
  | None => lift Panic
  | Some l =>
      child_mm ← gets kmalloc_addr;
      put_mm child_mm (with_areas l mm0) ;;
      d ← clone_user_page_directory (mm_directory x) child_mm;
      c ← get_mm child_mm;
      put_mm child_mm (mk_mm (areas c) (text_start c) (text_end c) (brk_start c) (brk c) (initial_brk c) d
                         (user_stack_guard_page c) (frames_used c)) ;;
      mret child_mm
  end.

(** ** Directories of tasks *)
Definition create_user_page_dir : VM Z :=
  dir ← gets kmalloc_addr; new_dir_phys ← gets kmalloc_phys;
  vlocked (
    k ← gets kernel_directory;
    kd ← get_dir k;
    put_dir dir kd ;;
    modify (set_pagedirs (fun l => l ++ [dir]))) ;;
  d ← get_dir dir;
  put_dir dir (mk_pd (tables_physical d) (tables d) (u32 (new_dir_phys + 0))) ;;
  mret dir.

(** The first element equal to [x] is taken out ([list_remove_first]). *)
Fixpoint remove_one (x : Z) (l : list Z) : list Z :=
  match l with [] => [] | y :: l => if y =? x then l else y :: remove_one x l end.

Fixpoint free_tables (n : nat) (i : Z) (d k : page_directory) : VM () :=
  match n with
  | O => mret tt
  | S n =>
      (if (tables d i =? 0) || (tables d i =? tables k i) then mret tt
       else t ← get_table (tables d i); modify (set_ptables (delete (tables d i)))) ;;
      free_tables n (i + 1) d k
  end.
Definition destroy_user_page_dir (dir : Z) : VM () :=
  ensure (negb (dir =? 0)) ;;
  k ← gets kernel_directory;
  ensure (negb (dir =? k)) ;;
  vlocked (
    d ← get_dir dir; kd ← get_dir k;
    free_tables 1024 0 d kd ;;
    modify (set_pagedirs (remove_one dir)) ;;
    modify (set_dirs (delete dir))).

Definition switch_page_directory (dir : Z) : VM () :=
  vlocked (
    d ← get_dir dir;
    c ← gets cr3;
    modify (set_current dir c) ;;
    ensure (Z.land (physical_address d) 0xfff =? 0) ;;
    modify (set_current dir (physical_address d))).

Definition vmm_create_user_mm : VM Z :=
  mm ← gets kmalloc_addr;
  put_mm mm (with_areas [] mm0) ;;
  d ← create_user_page_dir;
  put_mm mm (mk_mm (Some []) 0 0 0 0 0 d 0 0) ;;
  vmm_alloc_user (USER_STACK_START - (USER_STACK_SIZE + PAGE_SIZE)) (USER_STACK_START + PAGE_SIZE) mm true ;;
  vmm_set_guard (USER_STACK_START - (USER_STACK_SIZE + PAGE_SIZE)) d ;;
  x ← get_mm mm;
  put_mm mm (with_guard_page (USER_STACK_START - (USER_STACK_SIZE + PAGE_SIZE)) x) ;;
  mret mm.
Definition vmm_create_kernel_mm : VM Z :=
  mm ← gets kmalloc_addr;
  d ← gets current_directory;
  put_mm mm (mk_mm None 0 0 0 0 0 d 0 0) ;;
  mret mm.

(** ** The break *)
Definition sbrk (delta : Z) : VM Z :=
  p ← gets privilege; ensure (p =? 3) ;;
  mm ← gets current_mm; ensure (negb (mm =? 0)) ;;
  x ← get_mm mm;
  let prev_brk := brk x in
  ensure (IS_PAGE_ALIGNED prev_brk) ;;
  if delta =? 0 then mret prev_brk
  else if 0 <? delta then
    let new_end := u32 (prev_brk + delta) in
    let new_end := if IS_PAGE_ALIGNED new_end then new_end else u32 (Z.land new_end 0xfffff000 + PAGE_SIZE) in
    ensure (new_end <? USER_STACK_START - USER_STACK_SIZE_MAX) ;;
    vmm_alloc_user prev_brk new_end mm true ;;
    y ← get_mm mm;
    put_mm mm (with_brk new_end y) ;;
    ensure (IS_PAGE_ALIGNED new_end) ;;
    mret prev_brk
  else
    let decr := u32 (- delta) in
    if decr <? PAGE_SIZE then mret prev_brk
    else
      let decr := if Z.land decr 0xfff =? 0 then decr else Z.land decr 0xfffff000 in
      ensure (0 <? decr) ;;
      ensure (initial_brk x <=? u32 (prev_brk - decr)) ;;
      ensure (IS_PAGE_ALIGNED (u32 (prev_brk - decr))) ;;
      vmm_resize_area (brk_start x) (u32 (prev_brk - decr)) mm ;;
      y ← get_mm mm;
      put_mm mm (with_brk (u32 (prev_brk - decr)) y) ;;
      mret prev_brk.

(** The page fault handler, given the address in CR2; a fault it cannot handle panics. *)
Definition page_fault_handler (faulting_address esp : Z) : VM Z :=
  mm ← gets current_mm; p ← gets privilege;
  if negb (p =? 3) || (mm =? 0) then lift Panic
  else
    x ← get_mm mm;
    let g := user_stack_guard_page x in
    if negb ((g <=? faulting_address) && (faulting_address <=? u32 (g + PAGE_SIZE))) then lift Panic
    else
      let old_size := u32 (USER_STACK_START - g - PAGE_SIZE) in
      let new_size := u32 (old_size + USER_STACK_GROW_SIZE) in
      ensure (Z.land old_size 0xfff =? 0) ;;
      ensure (Z.land new_size 0xfff =? 0) ;;
      if USER_STACK_SIZE_MAX <=? new_size then lift Panic
      else
        vmm_alloc_user (u32 (USER_STACK_START - (new_size + PAGE_SIZE))) (u32 (USER_STACK_START - (old_size + PAGE_SIZE))) mm true ;;
        vmm_clear_guard (u32 (USER_STACK_START - (old_size + PAGE_SIZE))) (mm_directory x) ;;
        vmm_set_guard (u32 (USER_STACK_START - (new_size + PAGE_SIZE))) (mm_directory x) ;;
        y ← get_mm mm;
        put_mm mm (with_guard_page (u32 (USER_STACK_START - (new_size + PAGE_SIZE))) y) ;;
        mret esp.

(** ** Setting up paging *)
Definition set_kernel_directory (d : Z) (s : vmm) : vmm :=
  mk_vmm (pm s) (dirs s) (ptables s) (pagedirs s) (mms s) d (current_directory s) (cr3 s) (current_mm s) (privilege s).

Fixpoint create_tables (n : nat) (index dir : Z) : VM () :=
  match n with
  | O => mret tt
  | S n => vmm_create_page_table index dir ;; create_tables n (index + 1) dir
  end.
(** [while (addr < placement_address + PAGE_SIZE)]: the tables created on the way are placed
    at [placement_address], so the loop follows it. *)
Fixpoint map_image (fuel : nat) (addr start_text end_text : Z) : VM () :=
  match fuel with
  | O => lift NoFuel
  | S fuel =>
      pa ← gets placement_address;
      if addr <? u32 (pa + PAGE_SIZE) then
        vmm_map_kernel addr addr (negb ((start_text <=? addr) && (addr <? end_text))) ;;
        on_pmm_ (pmm_set_frame addr) ;;
        map_image fuel (u32 (addr + PAGE_SIZE)) start_text end_text
      else mret tt
  end.
(** [init_paging], up to the creation of the kernel heap (Heap.v's [heap_create]); [dir] is
    set up by [kmalloc_a] where virtual and physical addresses are the same. *)
Definition init_paging (fuel : nat) (mmap : option (list memory_map)) (upper_mem start_text end_text : Z) : VM () :=
  on_pmm_ (pmm_init mmap upper_mem) ;;
  modify (set_pagedirs (fun _ => [])) ;;
  dir ← gets kmalloc_addr;
  modify (set_kernel_directory dir) ;;
  put_dir dir (mk_pd (fun _ => 0) (fun _ => 0) dir) ;;
  modify (set_pagedirs (fun l => l ++ [dir])) ;;
  vlocked (
    create_tables 64 (0xc0000000 / PAGE_SIZE / 1024) dir ;;
    let start_text := if negb (Z.land start_text 0xfff =? 0) then Z.land start_text 0xfffff000 else start_text in
    let end_text := if negb (Z.land end_text 0xfff =? 0) then u32 (Z.land end_text 0xfffff000 + PAGE_SIZE) else end_text in
    map_image fuel 0x100000 start_text end_text) ;;
  vmm_map 0xb8000 0xb8000 dir true true ;;
  vmm_map 0 0 dir true false ;;
  vmm_set_guard 0 dir ;;
  switch_page_directory dir.
End Ops.
