(* ===== verification/VmmInv.v ===== *)
(** * The virtual memory manager: page tables as maps, and their invariant

    [walk s d v] is the page table entry of the virtual address [v] in the directory [d], all
    zero where there is no table.  [pt_wf] is the structure of directories and tables: kernel
    space is shared by all directories, user space by none.  [frames_wf] ties the entries to
    the physical memory manager: a frame behind a user page is in use, and behind no other.
    The lemmas say what the page table primitives of Vmm.v do to [walk]. *)
From S2P Require Import Prelude Pmm Vmm.

Definition PT (v : Z) : Z := v / 4096 / 1024.
Definition PO (v : Z) : Z := (v / 4096) mod 1024.
Definition vpn (v : Z) : Z := v / PAGE_SIZE.
Definition kernel_index (i : Z) : Prop := 0 <= i < 1024 /\ IS_KERNEL_SPACE (u32 (i * 4096 * 1024)) = true.

Definition walk (s : vmm) (d v : Z) : page_t :=
  match dirs s !! d with
  | Some pd => match ptables s !! tables pd (PT v) with Some t => t (PO v) | None => page0 end
  | None => page0
  end.

(** The structure; the directories and indexes with [K] share kernel space already. *)
Record pt_wf_at (K : Z -> Z -> Prop) (s : vmm) : Prop := {
  pt_null : dirs s !! 0 = None /\ ptables s !! 0 = None;
  pt_def d pd i : dirs s !! d = Some pd -> tables pd i = 0 \/ is_Some (ptables s !! tables pd i);
  pt_kernel_dir : is_Some (dirs s !! kernel_directory s);
  pt_kernel d pd kd i : dirs s !! d = Some pd -> dirs s !! kernel_directory s = Some kd -> K d i -> kernel_index i ->
    tables pd i = tables kd i;
  pt_no_user kd i : dirs s !! kernel_directory s = Some kd -> ~ kernel_index i -> tables kd i = 0;
  pt_inj d1 pd1 i1 d2 pd2 i2 : dirs s !! d1 = Some pd1 -> dirs s !! d2 = Some pd2 ->
    tables pd1 i1 = tables pd2 i2 -> tables pd1 i1 <> 0 -> i1 = i2 /\ (d1 = d2 \/ kernel_index i1)
}.
Definition pt_wf : vmm -> Prop := pt_wf_at (fun _ _ => True).

Record frames_wf (s : vmm) : Prop := {
  fw_pmm : pmm_wf (pm s);
  fw_zero : frame_used (pm s) 0 = true;
  fw_used d v : IS_USER_SPACE v = true -> frame (walk s d v) <> 0 ->
    searched (pm s) (frame (walk s d v)) /\ frame_used (pm s) (frame (walk s d v)) = true;
  fw_inj d1 v1 d2 v2 : IS_USER_SPACE v1 = true -> IS_USER_SPACE v2 = true ->
    frame (walk s d1 v1) = frame (walk s d2 v2) -> frame (walk s d1 v1) <> 0 -> d1 = d2 /\ vpn v1 = vpn v2;
  fw_page0 d v : IS_USER_SPACE v = true -> frame (walk s d v) = 0 -> walk s d v = page0
}.
Record vm_wf (s : vmm) : Prop := { wf_pt : pt_wf s; wf_frames : frames_wf s; wf_mm : mms s !! 0 = None }.

(** Two states that differ in physical memory, page table entries and [task_mm]s only; a
    directory may have got new tables. *)
Definition tables_kept (m m' : gmap Z page_directory) : Prop := forall d pd, m !! d = Some pd ->
  exists pd', m' !! d = Some pd' /\ forall i, tables pd i <> 0 -> tables pd' i = tables pd i.
Lemma tables_kept_refl m : tables_kept m m.
Proof. intros d pd Hd. by exists pd. Qed.
#[export] Hint Resolve tables_kept_refl : core.
Lemma tables_kept_insert m d pd pd' : m !! d = Some pd -> (forall i, tables pd i <> 0 -> tables pd' i = tables pd i) -> tables_kept m (<[d := pd']> m).
Proof.
  intros Hd Ht d' q Hq. destruct (decide (d = d')) as [<-|]; [|rewrite lookup_insert_ne by done; by exists q].
  rewrite lookup_insert_eq. exists pd'. rewrite Hd in Hq. injection Hq as <-. done.
Qed.
Record same_dirs (s s' : vmm) : Prop := {
  sd_dirs d : is_Some (dirs s' !! d) <-> is_Some (dirs s !! d);
  sd_tables : tables_kept (dirs s) (dirs s');
  sd_pagedirs : pagedirs s' = pagedirs s;
  sd_kernel : kernel_directory s' = kernel_directory s;
  sd_current : current_directory s' = current_directory s;
  sd_cr3 : cr3 s' = cr3 s;
  sd_mm : current_mm s' = current_mm s;
  sd_privilege : privilege s' = privilege s
}.
#[export] Instance same_dirs_preorder : PreOrder same_dirs.
Proof.
  split.
  - by intros s.
  - intros s1 s2 s3 [A1 At A2 A3 A4 A5 A6 A7] [B1 Bt B2 B3 B4 B5 B6 B7].
    split; [intros d; by rewrite B1, A1 | | congruence..].
    intros d pd Hd. destruct (At d pd Hd) as (pd1 & H1 & T1), (Bt d pd1 H1) as (pd2 & H2 & T2). exists pd2. split; [done|].
    intros i Hi. rewrite T2, T1 by (rewrite ?T1; done). done.
Qed.

(** The same address spaces. *)
Record view_eq (s s' : vmm) : Prop := {
  ve_pm : pm s' = pm s; ve_mms : mms s' = mms s; ve_dirs : same_dirs s s';
  ve_walk d w : walk s' d w = walk s d w
}.
(** The entry of [v] in [d] is set to [p], and nothing else changes; in kernel space all
    directories have the same entry. *)
Definition sees (s : vmm) (d v d' : Z) : Prop := is_Some (dirs s !! d') /\ (d' = d \/ IS_USER_SPACE v = false).
Record entry_set (d v : Z) (p : page_t) (s s' : vmm) : Prop := {
  es_pm : pm s' = pm s; es_mms : mms s' = mms s; es_dirs : same_dirs s s';
  es_hit d' w : sees s d v d' -> vpn w = vpn v -> walk s' d' w = p;
  es_miss d' w : ~ (sees s d v d' /\ vpn w = vpn v) -> walk s' d' w = walk s d' w
}.

(** ** Interrupts *)
Definition irq (b : bool) (s : vmm) : vmm := set_pm (set_intr (pm s) b) s.
Lemma irq_same s : irq (intr (pm s)) s = s.
Proof. by destruct s as [[] ?????????]. Qed.
Lemma irq_irq b c s : irq b (irq c s) = irq b s.
Proof. done. Qed.

Lemma vlocked_ok {A} (body : VM A) s a s1 :
  body (irq false s) = Ok (a, s1) -> intr (pm s1) = false -> vlocked body s = Ok (a, irq (intr (pm s)) s1).
Proof.
  intros Hb Hi. unfold vlocked, interrupts_enabled, set_interrupts. run (eq_refl : gets (fun s => intr (pm s)) s = Ok _).
  erewrite (st_bind_Ok (modify _)) by done. fold (irq false s). run Hb. destruct (intr (pm s)).
  - by erewrite (st_bind_Ok (modify _)) by done.
  - erewrite (st_bind_Ok (mret _)) by done. rewrite <- Hi, irq_same. done.
Qed.

(** ** Addresses *)
Lemma vpn_PT_PO v w : PT v = PT w -> PO v = PO w -> vpn v = vpn w.
Proof. unfold PT, PO, vpn, PAGE_SIZE. intros. Z.to_euclidean_division_equations; lia. Qed.
Lemma PT_PO_vpn v w : vpn v = vpn w -> PT v = PT w /\ PO v = PO w.
Proof. unfold PT, PO, vpn, PAGE_SIZE. by intros ->. Qed.

Lemma user_space v : IS_USER_SPACE v = true <-> 0x10000000 <= v < 0xc0000000.
Proof. unfold IS_USER_SPACE. rewrite andb_true_iff, Z.leb_le, Z.ltb_lt. done. Qed.
Lemma user_index v : IS_USER_SPACE v = true -> ~ kernel_index (PT v).
Proof.
  rewrite user_space. intros H. unfold kernel_index, IS_KERNEL_SPACE. rewrite negb_true_iff. intros [_ E].
  assert (E' : IS_USER_SPACE (u32 (PT v * 4096 * 1024)) = true).
  { apply user_space. rewrite u32_small; unfold PT; Z.to_euclidean_division_equations; lia. }
  congruence.
Qed.
Lemma user_index_range v : IS_USER_SPACE v = true -> 0 <= PT v < 1024.
Proof. rewrite user_space. unfold PT. intros. Z.to_euclidean_division_equations; lia. Qed.
Lemma kernel_index_space v : 0 <= v < 2 ^ 32 -> IS_USER_SPACE v = false -> kernel_index (PT v).
Proof.
  intros Hv Hu. unfold kernel_index, IS_KERNEL_SPACE. split; [unfold PT; Z.to_euclidean_division_equations; lia|]. apply negb_true_iff.
  destruct (IS_USER_SPACE (u32 _)) eqn:E; [|done]. apply user_space in E.
  assert (IS_USER_SPACE v = true); [|congruence]. apply user_space.
  rewrite u32_small in E by (unfold PT; Z.to_euclidean_division_equations; lia).
  unfold PT in E; Z.to_euclidean_division_equations; lia.
Qed.
Lemma user_vpn v w : vpn v = vpn w -> IS_USER_SPACE v = true -> IS_USER_SPACE w = true.
Proof. rewrite !user_space. unfold vpn, PAGE_SIZE. intros. Z.to_euclidean_division_equations; lia. Qed.

(** ** Lookups *)
Lemma walk_vpn s d v w : vpn v = vpn w -> walk s d v = walk s d w.
Proof. intros [E1 E2]%PT_PO_vpn. unfold walk. by rewrite E1, E2. Qed.
Lemma walk_none s d v : dirs s !! d = None -> walk s d v = page0.
Proof. intros H. unfold walk. by rewrite H. Qed.

Lemma walk_at s d pd t v : dirs s !! d = Some pd -> ptables s !! tables pd (PT v) = Some t -> walk s d v = t (PO v).
Proof. intros H1 H2. unfold walk. by rewrite H1, H2. Qed.

Section Structure.
Context (K : Z -> Z -> Prop).

Lemma pt_table s d pd i : pt_wf_at K s -> dirs s !! d = Some pd -> tables pd i <> 0 -> exists t, ptables s !! tables pd i = Some t.
Proof. intros W Hd Ht. destruct (pt_def _ _ W d pd i Hd) as [|[t Ht']]; [done | eauto]. Qed.

(** ** Changing an entry *)
Lemma put_page_ok s d pd t v p : pt_wf_at K s -> dirs s !! d = Some pd -> ptables s !! tables pd (PT v) = Some t ->
  IS_USER_SPACE v = true \/ (0 <= v < 2 ^ 32 /\ forall d', K d' (PT v)) ->
  exists s', put_page (tables pd (PT v), PO v) p s = Ok (tt, s') /\ pt_wf_at K s' /\ dirs s' = dirs s /\ entry_set d v p s s'.
Proof.
  intros W Hd Ht Hor. eexists. split.
  { unfold put_page, get_table. cbn [fst snd]. erewrite (st_bind_Ok (_ ≫= _)).
    2: { erewrite (st_bind_Ok (gets _)) by done. rewrite Ht. done. }
    done. }
  destruct W as [W1 W2 W3 W4 W5 W6]. split.
  { split; cbn; [| |done | intros; eauto..].
    - split; [apply W1|]. rewrite lookup_insert_ne; [apply W1|]. intros E. rewrite E, (proj2 W1) in Ht. done.
    - intros d' pd' i Hd'. destruct (W2 d' pd' i Hd') as [|[t' Ht']]; [by left|right].
      destruct (decide (tables pd (PT v) = tables pd' i)) as [<-|]; [rewrite lookup_insert_eq | rewrite lookup_insert_ne by done]; eauto. }
  split; [done|]. split; try done; intros d' w; unfold walk; cbn.
  - intros [[pd' Hd'] Hs] [-> ->]%PT_PO_vpn. rewrite Hd'. assert (tables pd' (PT v) = tables pd (PT v)) as ->.
    { destruct (decide (d' = d)) as [->|]; [congruence|]. destruct Hs as [|Hu]; [done|]. destruct Hor as [|[Hv HK]]; [congruence|].
      destruct W3 as [kd Hkd]. pose proof (kernel_index_space v Hv Hu). by rewrite (W4 d' pd' kd), (W4 d pd kd). }
    rewrite lookup_insert_eq. unfold upd. by rewrite Z.eqb_refl.
  - intros Hne. destruct (dirs s !! d') as [pd'|] eqn:Hd'; [|done].
    destruct (decide (tables pd (PT v) = tables pd' (PT w))) as [E|]; [|by rewrite lookup_insert_ne].
    assert (Hz : tables pd (PT v) <> 0) by (intros E0; rewrite E0, (proj2 W1) in Ht; done).
    destruct (W6 d pd (PT v) d' pd' (PT w) Hd Hd' E Hz) as [EP Hs].
    rewrite <- E, lookup_insert_eq, Ht. unfold upd. destruct (Z.eqb_spec (PO w) (PO v)) as [EO|]; [|done].
    destruct Hne. split; [|by apply vpn_PT_PO]. split; [eauto|]. destruct Hs as [->|Hk]; [by left|right].
    destruct (IS_USER_SPACE v) eqn:Hu; [|done]. by destruct (user_index _ Hu).
Qed.

(** ** Creating a table *)
Lemma insert_dir_dom (m : gmap Z page_directory) d pd pd' d' : m !! d = Some pd -> is_Some (<[d := pd']> m !! d') <-> is_Some (m !! d').
Proof. intros H. destruct (decide (d = d')) as [<-|]; [rewrite lookup_insert_eq, H; split; eauto | by rewrite lookup_insert_ne]. Qed.

Lemma create_table_wf s d pd i t ph : pt_wf_at K s -> dirs s !! d = Some pd -> d <> kernel_directory s -> ~ kernel_index i ->
  tables pd i = 0 -> t <> 0 -> ptables s !! t = None ->
  let s' := set_dirs (insert d (mk_pd ph (upd (tables pd) i t) (physical_address pd))) (set_ptables (insert t (fun _ => page0)) s) in
  pt_wf_at K s' /\ view_eq s s'.
Proof.
  intros W Hd Hk Hi Hz Ht0 Ht s'. destruct W as [W1 W2 W3 W4 W5 W6].
  assert (Hsub : forall d' pd' j, dirs s' !! d' = Some pd' -> (d' = d /\ j = i /\ tables pd' j = t) \/
            (~ (d' = d /\ j = i) /\ exists pd0, dirs s !! d' = Some pd0 /\ tables pd' j = tables pd0 j)).
  { intros d' pd' j. cbn. destruct (decide (d' = d)) as [->|]; [rewrite lookup_insert_eq | rewrite lookup_insert_ne by done; intros; right; split; [naive_solver | eauto]].
    intros [= <-]. cbn. unfold upd. destruct (Z.eqb_spec j i); [by left | right]. split; [naive_solver | eauto]. }
  assert (Hfresh : forall d' pd' j, dirs s !! d' = Some pd' -> tables pd' j <> t).
  { intros d' pd' j Hd' <-. destruct (W2 d' pd' j Hd') as [|[x Hx]]; [done | congruence]. }
  assert (Hkd : forall kd, dirs s' !! kernel_directory s = Some kd -> dirs s !! kernel_directory s = Some kd).
  { intros kd. cbn. by rewrite lookup_insert_ne. }
  split; [split|split].
  - cbn. rewrite !lookup_insert_ne; [done | congruence | intros ->; rewrite (proj1 W1) in Hd; done].
  - intros d' pd' j Hd'. cbn. destruct (Hsub d' pd' j Hd') as [(-> & -> & ->)|(_ & pd0 & H0 & ->)]; [right; rewrite lookup_insert_eq; eauto|].
    rewrite lookup_insert_ne by (symmetry; eauto). eauto.
  - cbn. by rewrite lookup_insert_ne.
  - intros d' pd' kd j Hd' H' HK Hj. apply Hkd in H'. destruct (Hsub d' pd' j Hd') as [(-> & -> & _)|(_ & pd0 & H0 & ->)]; eauto. done.
  - intros kd j H'%Hkd. eauto.
  - intros d1 p1 i1 d2 p2 i2 H1 H2. destruct (Hsub d1 p1 i1 H1) as [(-> & -> & ->)|(_ & q1 & G1 & ->)], (Hsub d2 p2 i2 H2) as [(-> & -> & ->)|(_ & q2 & G2 & ->)];
      [by auto | intros E; exfalso; by apply (Hfresh d2 q2 i2) | intros E; exfalso; by apply (Hfresh d1 q1 i1) | eauto].
  - done.
  - done.
  - split; try done; [intros d'; cbn; by apply insert_dir_dom with pd|]. apply tables_kept_insert with pd; [done|].
    intros j Hj. cbn. unfold upd. by destruct (Z.eqb_spec j i) as [->|].
  - intros d' w. unfold walk. destruct (dirs s' !! d') as [pd'|] eqn:Hd'.
    + destruct (Hsub d' pd' (PT w) Hd') as [(-> & Ei & ->)|(_ & pd0 & H0 & ->)]; cbn.
      * rewrite lookup_insert_eq, Hd, Ei, Hz, (proj2 W1). done.
      * rewrite lookup_insert_ne, H0; [done|]. symmetry. eauto.
    + destruct (dirs s !! d') eqn:E; [|done]. exfalso.
      assert (is_Some (dirs s' !! d')) as [? ?]; [|congruence]. apply insert_dir_dom with pd; eauto.
Qed.

Context `{KernelAlloc}.

Lemma create_page_table_ok s d pd i : pt_wf_at K s -> dirs s !! d = Some pd -> d <> kernel_directory s -> 0 <= i < 1024 -> ~ kernel_index i ->
  tables pd i = 0 -> intr (pm s) = false ->
  exists s' pd', vmm_create_page_table i d s = Ok (tt, s') /\ dirs s' !! d = Some pd' /\ tables pd' i <> 0 /\
    (forall j, j <> i -> tables pd' j = tables pd j) /\ (forall d', d' <> d -> dirs s' !! d' = dirs s !! d') /\
    pt_wf_at K s' /\ view_eq s s'.
Proof.
  intros W Hd Hk Hi0 Hi Hz Hirq.
  pose proof (create_table_wf s d pd i (kmalloc_addr s) (upd (tables_physical pd) i (Z.lor (kmalloc_phys s) 7)) W Hd Hk Hi Hz
    (kmalloc_not_null s) (kmalloc_table s)) as [W' V].
  eexists _, _. split.
  { unfold vmm_create_page_table, interrupts_enabled. erewrite (st_bind_Ok (gets _)) by done. rewrite Hirq. check.
    erewrite (st_bind_Ok (get_dir d)). 2: { unfold get_dir. erewrite (st_bind_Ok (gets _)) by done. rewrite Hd. done. }
    rewrite Hz. check. do 2 (erewrite (st_bind_Ok (gets _)) by done). erewrite (st_bind_Ok (modify _)) by done.
    unfold put_dir. erewrite (st_bind_Ok (modify _)) by done.
    destruct (IS_KERNEL_SPACE _) eqn:E; [by destruct Hi | done]. }
  cbn [dirs set_dirs set_ptables]. rewrite lookup_insert_eq. split_and!; [done | | | | exact W' | exact V].
  - cbn. unfold upd. rewrite Z.eqb_refl. apply kmalloc_not_null.
  - intros j Hj. cbn. unfold upd. by destruct (Z.eqb_spec j i).
  - intros d' Hd'. by rewrite lookup_insert_ne.
Qed.

Lemma get_dir_ok s d pd : dirs s !! d = Some pd -> get_dir d s = Ok (pd, s).
Proof. intros Hd. unfold get_dir. erewrite (st_bind_Ok (gets _)) by done. by rewrite Hd. Qed.
Lemma get_page_at s t x j : ptables s !! t = Some x -> get_page (t, j) s = Ok (x j, s).
Proof.
  intros Ht. unfold get_page, get_table. cbn [fst snd]. erewrite (st_bind_Ok (_ ≫= _)); [done|].
  erewrite (st_bind_Ok (gets _)) by done. by rewrite Ht.
Qed.

Lemma pt_wf_irq b s : pt_wf_at K s -> pt_wf_at K (irq b s).
Proof. by intros []. Qed.
Lemma view_eq_irq b s s' : view_eq (irq b s) s' -> view_eq s (irq (intr (pm s)) s').
Proof.
  intros [V1 V2 [] V4]. split; [|done | by split | done]. cbn. rewrite V1. cbn. by destruct (pm s).
Qed.
Lemma entry_set_view d v p s s1 s' : view_eq s s1 -> entry_set d v p s1 s' -> entry_set d v p s s'.
Proof.
  intros [A1 A2 A3 A4] [B1 B2 B3 B4 B5]. assert (Hs : forall d', sees s1 d v d' <-> sees s d v d').
  { intros d'. unfold sees. by rewrite (sd_dirs _ _ A3). }
  split; [congruence.. | by etrans | |].
  - intros d' w ?%Hs. eauto.
  - intros d' w Hn. rewrite <- A4. apply B5. by rewrite Hs.
Qed.
Lemma entry_set_irq d v p s s' : entry_set d v p (irq false s) s' -> entry_set d v p s (irq (intr (pm s)) s').
Proof.
  intros [V1 V2 [] V4 V5]. split; [|done | by split | done..]. cbn. rewrite V1. cbn. by destruct (pm s).
Qed.

(** [_vmm_get_page] creates the table when it has to; no entry changes. *)
Lemma vmm_get_page_ok s d pd v : pt_wf_at K s -> dirs s !! d = Some pd ->
  tables pd (PT v) <> 0 \/ (IS_USER_SPACE v = true /\ d <> kernel_directory s) ->
  exists s' pd' t, vmm_get_page v d s = Ok ((tables pd' (PT v), PO v), s') /\ dirs s' !! d = Some pd' /\
    ptables s' !! tables pd' (PT v) = Some t /\ t (PO v) = walk s d v /\ pt_wf_at K s' /\ view_eq s s'.
Proof.
  intros W Hd Hor. assert (Hd0 : d <> 0) by (intros ->; rewrite (proj1 (pt_null _ _ W)) in Hd; done).
  assert (exists s' pd', vmm_get_page v d s = Ok ((tables pd' (PT v), PO v), s') /\ dirs s' !! d = Some pd' /\
    tables pd' (PT v) <> 0 /\ pt_wf_at K s' /\ view_eq s s') as (s' & pd' & Hrun & Hd' & Ht & W' & V).
  { destruct (decide (tables pd (PT v) = 0)) as [Ez|Hz].
    - destruct Hor as [|[Hu Hk]]; [done|].
      destruct (create_page_table_ok (irq false s) d pd (PT v) (pt_wf_irq _ _ W) Hd Hk (user_index_range _ Hu) (user_index _ Hu) Ez eq_refl)
        as (s1 & pd1 & Hc & Hd1 & Ht1 & _ & _ & W1 & V1).
      exists (irq (intr (pm s)) s1), pd1. split_and!; [|done | done | by apply pt_wf_irq | by eapply view_eq_irq].
      unfold vmm_get_page. check. erewrite (st_bind_Ok (vlocked _)).
      2: { apply vlocked_ok; [|by rewrite (ve_pm _ _ V1)]. run (get_dir_ok (irq false s) d pd Hd). fold (PT v). rewrite Ez. exact Hc. }
      run (get_dir_ok (irq (intr (pm s)) s1) d pd1 Hd1). done.
    - exists s, pd. split_and!; [|done..]. unfold vmm_get_page. check. erewrite (st_bind_Ok (vlocked _)).
      2: { apply vlocked_ok; [|by instantiate (1 := irq false s)]. run (get_dir_ok (irq false s) d pd Hd). fold (PT v). apply Z.eqb_neq in Hz as ->. done. }
      rewrite irq_irq, irq_same. run (get_dir_ok s d pd Hd). done. }
  destruct (pt_table s' d pd' (PT v) W' Hd' Ht) as (t & Ht'). exists s', pd', t. split_and!; try done.
  rewrite <- (ve_walk _ _ V). symmetry. by apply walk_at with pd'.
Qed.

(** What the operations on one page have in common: find the entry, change it. *)
Definition reaches (s : vmm) (d v : Z) : Prop :=
  (IS_USER_SPACE v = true /\ d <> kernel_directory s /\ is_Some (dirs s !! d)) \/
  (0 <= v < 2 ^ 32 /\ (forall d', K d' (PT v)) /\ exists pd, dirs s !! d = Some pd /\ tables pd (PT v) <> 0).
Lemma reaches_dir s d v : pt_wf_at K s -> reaches s d v -> exists pd, dirs s !! d = Some pd /\ d <> 0 /\
  (tables pd (PT v) <> 0 \/ (IS_USER_SPACE v = true /\ d <> kernel_directory s)) /\
  (IS_USER_SPACE v = true \/ (0 <= v < 2 ^ 32 /\ forall d', K d' (PT v))).
Proof.
  intros W Hr. assert (Hd0 : forall pd, dirs s !! d = Some pd -> d <> 0) by (intros pd Hd ->; rewrite (proj1 (pt_null _ _ W)) in Hd; done).
  destruct Hr as [(Hu & Hk & [pd Hd])|(Hv & HK & pd & Hd & Ht)]; exists pd; split_and!; eauto.
Qed.

Lemma vmm_map_ok s d v phys km wr : pt_wf_at K s -> reaches s d v -> walk s d v = page0 ->
  exists s', vmm_map v phys d km wr s = Ok (tt, s') /\ pt_wf_at K s' /\ entry_set d v (mapped_page phys km wr v page0) s s'.
Proof.
  intros W Hr Hw. destruct (reaches_dir s d v W Hr) as (pd & Hd & Hd0 & Hor & Hor').
  destruct (vmm_get_page_ok s d pd v W Hd Hor) as (s1 & pd1 & t & Hg & Hd1 & Ht & Et & W1 & V1).
  destruct (put_page_ok (irq false s1) d pd1 t v (mapped_page phys km wr v page0) (pt_wf_irq _ _ W1) Hd1 Ht Hor') as (s2 & Hp & W2 & _ & E2).
  exists (irq (intr (pm s1)) s2). split_and!; [|by apply pt_wf_irq | eapply entry_set_view; [done | by apply entry_set_irq]].
  unfold vmm_map. check. run Hg. apply vlocked_ok; [|by rewrite (es_pm _ _ _ _ _ E2)].
  run (get_page_at (irq false s1) _ t (PO v) Ht). rewrite Et, Hw. erewrite (st_bind_Ok (ensure _)) by done. exact Hp.
Qed.

Lemma vmm_unmap_ok s d v : pt_wf_at K s -> reaches s d v -> present (walk s d v) = 1 \/ guard (walk s d v) = 1 ->
  exists s', vmm_unmap v d s = Ok (tt, s') /\ pt_wf_at K s' /\ entry_set d v page0 s s'.
Proof.
  intros W Hr Hw. destruct (reaches_dir s d v W Hr) as (pd & Hd & Hd0 & Hor & Hor').
  destruct (vmm_get_page_ok s d pd v W Hd Hor) as (s1 & pd1 & t & Hg & Hd1 & Ht & Et & W1 & V1).
  destruct (put_page_ok s1 d pd1 t v page0 W1 Hd1 Ht Hor') as (s2 & Hp & W2 & _ & E2).
  exists s2. split_and!; [|done | by eapply entry_set_view].
  unfold vmm_unmap. check. run Hg. run (get_page_at s1 _ t (PO v) Ht). rewrite Et.
  erewrite (st_bind_Ok (ensure _)); [exact Hp|]. apply ensure_true. by destruct Hw as [-> | ->]; rewrite ?orb_true_r.
Qed.

Lemma vmm_get_phys_ok s d v : pt_wf_at K s -> reaches s d v ->
  exists s', vmm_get_phys v d s = Ok (u32 (frame (walk s d v) * PAGE_SIZE + v mod PAGE_SIZE), s') /\ pt_wf_at K s' /\ view_eq s s'.
Proof.
  intros W Hr. destruct (reaches_dir s d v W Hr) as (pd & Hd & Hd0 & Hor & Hor').
  destruct (vmm_get_page_ok s d pd v W Hd Hor) as (s1 & pd1 & t & Hg & Hd1 & Ht & Et & W1 & V1).
  exists s1. split_and!; [|done..].
  unfold vmm_get_phys. check. run Hg. run (get_page_at s1 _ t (PO v) Ht). by rewrite Et, land_fff.
Qed.

Lemma vmm_set_guard_ok s d v (g : bool) : pt_wf_at K s -> reaches s d v ->
  present (walk s d v) = (if g then 1 else 0) -> guard (walk s d v) = (if g then 0 else 1) ->
  exists s', vmm_set_guard_to v d g s = Ok (tt, s') /\ pt_wf_at K s' /\ entry_set d v (guarded_page g (walk s d v)) s s'.
Proof.
  intros W Hr Hp Hg0. destruct (reaches_dir s d v W Hr) as (pd & Hd & Hd0 & Hor & Hor').
  destruct (vmm_get_page_ok s d pd v W Hd Hor) as (s1 & pd1 & t & Hg & Hd1 & Ht & Et & W1 & V1).
  destruct (put_page_ok (irq false s1) d pd1 t v (guarded_page g (walk s d v)) (pt_wf_irq _ _ W1) Hd1 Ht Hor') as (s2 & Hp' & W2 & _ & E2).
  exists (irq (intr (pm s1)) s2). split_and!; [|by apply pt_wf_irq | eapply entry_set_view; [done | by apply entry_set_irq]].
  unfold vmm_set_guard_to. check. run Hg. apply vlocked_ok; [|by rewrite (es_pm _ _ _ _ _ E2)].
  run (get_page_at (irq false s1) _ t (PO v) Ht). rewrite Et, Hp, Hg0. do 2 check. exact Hp'.
Qed.
End Structure.
