(* ===== verification/VmmUser.v ===== *)
(** * The virtual memory manager: user address spaces

    [space s d v] is what a user task with directory [d] finds at the address [v]: the page's
    access bits and the byte.  [grown] and [shrunk] say what allocating and freeing a range of
    pages does; the loops of Vmm.v compose them page by page. *)
From S2P Require Import Prelude Pmm Vmm VmmInv.

Definition space (s : vmm) (d v : Z) : option (page_t * Z) :=
  let p := walk s d v in
  if frame p =? 0 then None else Some (with_frame 0 p, ram (pm s) (frame p * PAGE_SIZE + v mod PAGE_SIZE)).

(** The entry of a page of user memory. *)
Definition user_page (f : Z) (wr : bool) : page_t := mk_page 1 (if wr then 1 else 0) 1 0 0 0 0 0 0 0 0 f.

Record grown (d lo hi : Z) (wr : bool) (s s' : vmm) : Prop := {
  g_dirs : same_dirs s s';
  g_intr : intr (pm s') = intr (pm s);
  g_other d' v : ~ (d' = d /\ lo <= v < hi) -> walk s' d' v = walk s d' v;
  g_new v : lo <= v < hi -> exists f, walk s' d v = user_page f wr /\ frame_used (pm s) f = false /\ frame_used (pm s') f = true;
  g_zero v : lo <= v < hi -> ram (pm s') (frame (walk s' d v) * PAGE_SIZE + v mod PAGE_SIZE) = 0;
  g_used j : frame_used (pm s) j = true -> frame_used (pm s') j = true;
  g_ram x : frame_used (pm s) (x / PAGE_SIZE) = true -> ram (pm s') x = ram (pm s) x;
  g_free : frames_with false (pm s') = frames_with false (pm s) - (hi - lo) / PAGE_SIZE
}.

(** ** Pages *)
Lemma page_byte f v : (f * PAGE_SIZE + v mod PAGE_SIZE) / PAGE_SIZE = f.
Proof. unfold PAGE_SIZE. Z.to_euclidean_division_equations; lia. Qed.
Lemma vpn_range v a : a mod PAGE_SIZE = 0 -> vpn v = vpn a <-> a <= v < a + PAGE_SIZE.
Proof. unfold vpn, PAGE_SIZE. intros. split; intros; Z.to_euclidean_division_equations; lia. Qed.

Lemma es_user d v p s s' : IS_USER_SPACE v = true -> is_Some (dirs s !! d) -> entry_set d v p s s' ->
  forall d' w, walk s' d' w = if decide (d' = d /\ vpn w = vpn v) then p else walk s d' w.
Proof.
  intros Hu Hd [_ _ _ Hh Hm] d' w. case_decide as Hc.
  - destruct Hc as [-> Hw]. apply Hh; [|done]. split; [done | by left].
  - apply Hm. intros [[_ [->|]] ?]; [by apply Hc | congruence].
Qed.

(** ** The frames behind the pages *)
Lemma frames_wf_map d v p f s s' : frames_wf s -> IS_USER_SPACE v = true ->
  (forall d' w, walk s' d' w = if decide (d' = d /\ vpn w = vpn v) then p else walk s d' w) ->
  frame p = f -> searched (pm s) f -> frame_used (pm s) f = false -> pmm_wf (pm s') -> nframes (pm s') = nframes (pm s) ->
  (forall j, frame_used (pm s') j = if decide (f = j) then true else frame_used (pm s) j) -> frames_wf s'.
Proof.
  intros [F1 F2 F3 F4 F5] Hu Hw Hf Hs Hfree Hp Hn Hmark. assert (Hf0 : f <> 0) by congruence.
  assert (Hin : forall j, searched (pm s') j <-> searched (pm s) j) by (intros; unfold searched; by rewrite Hn).
  assert (Hold : forall d' w, IS_USER_SPACE w = true -> frame (walk s d' w) <> f).
  { intros d' w Hw' E. destruct (F3 d' w Hw') as [_ Hx]; [congruence|]. congruence. }
  split; [done | rewrite Hmark; by case_decide | | |].
  - intros d' w Hw'. rewrite Hw, Hmark, Hin. case_decide.
    + by rewrite Hf, decide_True.
    + intros Hz. destruct (F3 d' w Hw' Hz) as [H1 H2]. by rewrite H2; case_decide.
  - intros d1 v1 d2 v2 H1 H2. rewrite !Hw. do 2 case_decide; intros E Hz.
    + destruct_and!. subst. split; congruence.
    + exfalso. apply (Hold d2 v2); [done | congruence].
    + exfalso. apply (Hold d1 v1); [done | congruence].
    + eauto.
  - intros d' w Hw'. rewrite Hw. case_decide; [congruence | eauto].
Qed.

Lemma frames_wf_unmap d v s s' : frames_wf s -> IS_USER_SPACE v = true ->
  (forall d' w, walk s' d' w = if decide (d' = d /\ vpn w = vpn v) then page0 else walk s d' w) ->
  frame (walk s d v) <> 0 -> pmm_wf (pm s') -> nframes (pm s') = nframes (pm s) ->
  (forall j, frame_used (pm s') j = if decide (frame (walk s d v) = j) then false else frame_used (pm s) j) -> frames_wf s'.
Proof.
  intros [F1 F2 F3 F4 F5] Hu Hw Hf Hp Hn Hmark.
  assert (Hin : forall j, searched (pm s') j <-> searched (pm s) j) by (intros; unfold searched; by rewrite Hn).
  split; [done | rewrite Hmark; by case_decide | | |].
  - intros d' w Hw'. rewrite Hw. case_decide as Hc; [done|]. intros Hz. rewrite Hin, Hmark. destruct (F3 d' w Hw' Hz).
    case_decide as E; [|done]. destruct (F4 d v d' w Hu Hw' E Hf). by destruct Hc.
  - intros d1 v1 d2 v2 H1 H2. rewrite !Hw. do 2 case_decide; cbn; [done | congruence.. | eauto].
  - intros d' w Hw'. rewrite Hw. case_decide; [done | eauto].
Qed.

(** An entry that keeps its frame: flags only. *)
Lemma frames_wf_flags d v p s s' : frames_wf s -> IS_USER_SPACE v = true ->
  (forall d' w, walk s' d' w = if decide (d' = d /\ vpn w = vpn v) then p else walk s d' w) ->
  frame p = frame (walk s d v) -> frame p <> 0 -> pm s' = pm s -> frames_wf s'.
Proof.
  intros [F1 F2 F3 F4 F5] Hu Hw Hf Hz Hp.
  assert (Hfr : forall d' w, frame (walk s' d' w) = frame (walk s d' w)).
  { intros d' w. rewrite Hw. case_decide as Hc; [|done]. destruct Hc as [-> E]. by rewrite Hf, (walk_vpn s d w v). }
  split; rewrite ?Hp; [done | done | intros; rewrite Hfr in *; eauto | intros; rewrite !Hfr in *; eauto |].
  intros d' w Hw'. rewrite Hw. case_decide; [done | eauto].
Qed.

(** ** Growing *)
Lemma grown_nil d a wr s : grown d a a wr s s.
Proof. split; try done; try (intros; lia). rewrite Z.sub_diag. change (0 / PAGE_SIZE) with 0. lia. Qed.

Lemma grown_app d lo mid hi wr s s1 s2 : lo <= mid <= hi -> lo mod PAGE_SIZE = 0 -> mid mod PAGE_SIZE = 0 -> hi mod PAGE_SIZE = 0 ->
  grown d lo mid wr s s1 -> grown d mid hi wr s1 s2 -> grown d lo hi wr s s2.
Proof.
  intros Hm A1 A2 A3 [B1 B2 B3 B4 B5 B6 B7 B8] [C1 C2 C3 C4 C5 C6 C7 C8].
  assert (Hold : forall v, lo <= v < mid -> walk s2 d v = walk s1 d v) by (intros; apply C3; lia).
  split; [by etrans | congruence | | | | eauto | |].
  - intros d' v Hn. rewrite C3, B3; [done|..]; intros [-> ?]; apply Hn; (split; [done | lia]).
  - intros v Hv. destruct (decide (v < mid)).
    + rewrite Hold by lia. destruct (B4 v) as (f & ? & ? & ?); [lia|]. exists f. eauto.
    + destruct (C4 v) as (f & ? & Hf & ?); [lia|]. exists f. split_and!; [done | | done].
      destruct (frame_used (pm s) f) eqn:E; [|done]. by rewrite B6 in Hf.
  - intros v Hv. destruct (decide (v < mid)); [|apply C5; lia].
    rewrite Hold by lia. rewrite C7; [apply B5; lia|]. rewrite page_byte. destruct (B4 v) as (f & -> & _ & ?); [lia | done].
  - intros x Hx. rewrite C7; [by apply B7|]. by apply B6.
  - rewrite C8, B8. unfold PAGE_SIZE in *. Z.to_euclidean_division_equations; lia.
Qed.

Section Loops.
Context `{KernelAlloc}.

Lemma on_pmm_ok {A} (f : pmm -> res (A * pmm)) s a q : f (pm s) = Ok (a, q) -> on_pmm f s = Ok (a, set_pm q s).
Proof. intros E. unfold on_pmm. by rewrite E. Qed.
Lemma get_mm_ok s mm x : mms s !! mm = Some x -> get_mm mm s = Ok (x, s).
Proof. intros E. unfold get_mm. erewrite (st_bind_Ok (gets _)) by done. by rewrite E. Qed.

(** The directory of a user task. *)
Definition user_dir (s : vmm) (d : Z) : Prop := d <> kernel_directory s /\ is_Some (dirs s !! d).
Lemma user_dir_same s s' d : same_dirs s s' -> user_dir s d -> user_dir s' d.
Proof. intros S [H1 H2]. split; [by rewrite (sd_kernel _ _ S) | by apply (sd_dirs _ _ S)]. Qed.
Lemma user_reaches K s d v : user_dir s d -> IS_USER_SPACE v = true -> reaches K s d v.
Proof. intros [? ?] ?. by left. Qed.

Lemma user_mapped phys wr v : IS_USER_SPACE v = true -> mapped_page phys false wr v page0 = user_page (phys / PAGE_SIZE) wr.
Proof. intros Hu. unfold mapped_page, IS_KERNEL_SPACE. by rewrite Hu. Qed.

(** One page: a frame is taken, zeroed and mapped. *)
Lemma page_grown s d a wr i q s' : frames_wf s -> user_dir s d -> IS_USER_SPACE a = true -> a mod PAGE_SIZE = 0 ->
  searched (pm s) i -> frame_used (pm s) i = false -> (forall j, frame_used q j = if decide (i = j) then true else frame_used (pm s) j) ->
  (forall x, ram q x = if decide (i * PAGE_SIZE <= x < i * PAGE_SIZE + PAGE_SIZE) then 0 else ram (pm s) x) ->
  intr q = intr (pm s) -> nframes q = nframes (pm s) -> pmm_wf q -> frames_with false q = frames_with false (pm s) - 1 ->
  pm s' = q -> same_dirs s s' ->
  (forall d' w, walk s' d' w = if decide (d' = d /\ vpn w = vpn a) then user_page i wr else walk s d' w) ->
  grown d a (a + PAGE_SIZE) wr s s' /\ frames_wf s'.
Proof.
  intros F Hd Hu Ha Hs Hi Hq Hr Hirq Hn Hwf Hfree <- S Hw. split; [split|].
  - done.
  - done.
  - intros d' v Hv. rewrite Hw, decide_False; [done|]. by rewrite vpn_range.
  - intros v Hv%vpn_range; [|done]. exists i. by rewrite Hw, Hq, !decide_True.
  - intros v Hv%vpn_range; [|done]. rewrite Hw, decide_True by done. cbn. rewrite Hr, decide_True; [done|].
    pose proof (Z.mod_pos_bound v PAGE_SIZE). unfold PAGE_SIZE in *. lia.
  - intros j Hj. rewrite Hq, Hj. by case_decide.
  - intros x Hx. rewrite Hr, decide_False; [done|]. intros Hx'.
    assert (x / PAGE_SIZE = i) by (unfold PAGE_SIZE in *; Z.to_euclidean_division_equations; lia). congruence.
  - rewrite Hfree. unfold PAGE_SIZE. Z.to_euclidean_division_equations; lia.
  - by apply frames_wf_map with d a (user_page i wr) i s.
Qed.

Lemma add_frames_add n m x : add_frames n (add_frames m x) = add_frames (m + n) x.
Proof. unfold add_frames. cbn. f_equal. unfold u32. rewrite Zplus_mod_idemp_l. f_equal. lia. Qed.

Lemma frames_wf_mms s m q : frames_wf s -> pm s = q -> frames_wf (set_mms m (set_pm q s)).
Proof. intros [F1 F2 F3 F4 F5] <-. by split. Qed.

Lemma map_user_ok n s mm x a wr : vm_wf s -> mms s !! mm = Some x -> user_dir s (mm_directory x) ->
  a mod PAGE_SIZE = 0 -> 0x10000000 <= a -> a + Z.of_nat n * PAGE_SIZE <= 0xc0000000 ->
  (forall v, a <= v < a + Z.of_nat n * PAGE_SIZE -> walk s (mm_directory x) v = page0) ->
  Z.of_nat n <= frames_with false (pm s) ->
  exists s', map_user n a mm wr s = Ok (tt, s') /\ vm_wf s' /\
    mms s' = (if n is O then mms s else <[mm := add_frames (Z.of_nat n) x]> (mms s)) /\
    grown (mm_directory x) a (a + Z.of_nat n * PAGE_SIZE) wr s s'.
Proof.
  revert s x a. induction n as [|n IH]; intros s x a W Hx Hd Ha H1 H2 Hw Hfree; cbn [map_user].
  { exists s. split_and!; [done..|]. replace (a + _) with a by lia. apply grown_nil. }
  set (d := mm_directory x) in *. assert (Hu : IS_USER_SPACE a = true) by (apply user_space; unfold PAGE_SIZE in *; lia).
  destruct (pmm_alloc_some (pm s)) as (i & q & Hq & Hs & Hi & Q1 & Q2 & Q3 & Q4 & Q5 & Q6); [apply W | lia |].
  run (on_pmm_ok pmm_alloc s _ _ Hq). run (get_mm_ok (set_pm q s) mm x Hx). unfold put_mm.
  erewrite (st_bind_Ok (modify _)) by done. set (s1 := set_mms _ _).
  assert (P1 : pt_wf s1) by (by destruct (wf_pt _ W)).
  assert (Hd1 : user_dir s1 d) by exact Hd.
  assert (Hw1 : walk s1 d a = page0) by (apply Hw; unfold PAGE_SIZE; lia).
  destruct (vmm_map_ok (fun _ _ => True) s1 d a (i * PAGE_SIZE) false wr P1 (user_reaches _ _ _ _ Hd1 Hu) Hw1) as (s2 & Hrun & P2 & E2).
  run Hrun. rewrite user_mapped, Z.div_mul in E2 by done.
  pose proof (es_user _ _ _ _ _ Hu (proj2 Hd1) E2) as Hes.
  destruct (page_grown s d a wr i q s2 (wf_frames _ W) Hd Hu Ha Hs Hi Q1 Q2 Q3 Q4 Q5 Q6 (es_pm _ _ _ _ _ E2)) as [G2 F2].
  { destruct (es_dirs _ _ _ _ _ E2). by split. } { exact Hes. }
  assert (Hm2 : mms s2 = <[mm := add_frames 1 x]> (mms s)) by exact (es_mms _ _ _ _ _ E2).
  destruct (IH s2 (add_frames 1 x) (a + PAGE_SIZE)) as (s3 & Hr3 & W3 & M3 & G3).
  - split; [done | done|]. rewrite Hm2, lookup_insert_ne; [apply W|]. intros ->. by rewrite (wf_mm _ W) in Hx.
  - by rewrite Hm2, lookup_insert_eq.
  - exact (user_dir_same _ _ _ (g_dirs _ _ _ _ _ _ G2) Hd).
  - unfold PAGE_SIZE in *. Z.to_euclidean_division_equations; lia.
  - unfold PAGE_SIZE in *. lia.
  - unfold PAGE_SIZE in *. lia.
  - intros v Hv. cbn [mm_directory add_frames]. rewrite (g_other _ _ _ _ _ _ G2) by (unfold PAGE_SIZE in *; lia). apply Hw. unfold PAGE_SIZE in *. lia.
  - rewrite (g_free _ _ _ _ _ _ G2). replace (a + PAGE_SIZE - a) with PAGE_SIZE by lia. rewrite Z.div_same by done. lia.
  - exists s3. split_and!; [done | done | |].
    + rewrite M3, Hm2. destruct n; [done|]. by rewrite add_frames_add, insert_insert_eq; do 3 f_equal; lia.
    + replace (a + Z.of_nat (S n) * PAGE_SIZE) with (a + PAGE_SIZE + Z.of_nat n * PAGE_SIZE) by lia.
      eapply grown_app; [..|exact G2 | exact G3]; unfold PAGE_SIZE in *; [lia|..]; Z.to_euclidean_division_equations; lia.
Qed.

(** ** Freeing *)
Record shrunk (d lo hi : Z) (s s' : vmm) : Prop := {
  sh_dirs : same_dirs s s';
  sh_intr : intr (pm s') = intr (pm s);
  sh_other d' v : ~ (d' = d /\ lo <= v < hi) -> walk s' d' v = walk s d' v;
  sh_gone v : lo <= v < hi -> walk s' d v = page0;
  sh_used j : frame_used (pm s') j = true <->
    frame_used (pm s) j = true /\ forall v, lo <= v < hi -> frame (walk s d v) <> j;
  sh_ram : ram (pm s') = ram (pm s);
  sh_free : frames_with false (pm s') = frames_with false (pm s) + (hi - lo) / PAGE_SIZE
}.

Lemma shrunk_nil d a s : shrunk d a a s s.
Proof. split; try done; try (intros; lia). - intros j. split; [intros; split; [done | lia] | by intros []]. - rewrite Z.sub_diag. change (0 / PAGE_SIZE) with 0. lia. Qed.

Lemma shrunk_app d lo mid hi s s1 s2 : lo <= mid <= hi -> lo mod PAGE_SIZE = 0 -> mid mod PAGE_SIZE = 0 -> hi mod PAGE_SIZE = 0 ->
  shrunk d lo mid s s1 -> shrunk d mid hi s1 s2 -> shrunk d lo hi s s2.
Proof.
  intros Hm A1 A2 A3 [B1 B2 B3 B4 B5 B6 B7] [C1 C2 C3 C4 C5 C6 C7].
  assert (Hold : forall v, mid <= v < hi -> walk s1 d v = walk s d v) by (intros; apply B3; lia).
  split; [by etrans | congruence | | | | congruence |].
  - intros d' v Hn. rewrite C3, B3; [done|..]; intros [-> ?]; apply Hn; (split; [done | lia]).
  - intros v Hv. destruct (decide (v < mid)); [|apply C4; lia]. rewrite C3 by lia. apply B4. lia.
  - intros j. rewrite C5, B5. split.
    + intros [[U1 U2] U3]. split; [done|]. intros v Hv. destruct (decide (v < mid)); [apply U2; lia|].
      rewrite <- Hold by lia. apply U3. lia.
    + intros [U1 U2]. split_and!; [done | intros; apply U2; lia|]. intros v Hv. rewrite Hold by lia. apply U2. lia.
  - rewrite C7, B7. unfold PAGE_SIZE in *. Z.to_euclidean_division_equations; lia.
Qed.

(** A page that can be given back. *)
Definition freeable (p : page_t) : Prop := frame p <> 0 /\ (present p = 1 \/ guard p = 1).

Lemma frames_freed st st' i : searched st i -> nframes st' = nframes st -> frame_used st i = true ->
  (forall j, frame_used st' j = if decide (i = j) then false else frame_used st j) ->
  frames_with false st' = frames_with false st + 1.
Proof.
  intros Hs Hn Hu Hm. unfold frames_with. rewrite Hn.
  enough (E : count (fun k => eqb (frame_used st k) false) (Z.to_nat (nframes st / 32 * 32)) 0 =
              count (fun k => eqb (frame_used st' k) false) (Z.to_nat (nframes st / 32 * 32)) 0 - 1) by lia.
  apply count_change with i; [unfold searched in Hs; lia | | by rewrite Hu|].
  - rewrite Hm. by case_decide.
  - intros j Hj. rewrite Hm. by case_decide.
Qed.

Lemma vmm_free_ok s d v : vm_wf s -> user_dir s d -> IS_USER_SPACE v = true -> v mod PAGE_SIZE = 0 -> freeable (walk s d v) ->
  exists s', vmm_free v d s = Ok (tt, s') /\ vm_wf s' /\ mms s' = mms s /\ shrunk d v (v + PAGE_SIZE) s s'.
Proof.
  intros W Hd Hu Ha [Hf Hp]. destruct (fw_used _ (wf_frames _ W) d v Hu Hf) as [Hs Huse].
  assert (Hd0 : d <> 0) by (intros ->; destruct Hd as [_ [? E]]; by rewrite (proj1 (pt_null _ _ (wf_pt _ W))) in E).
  destruct (vmm_get_phys_ok (fun _ _ => True) s d v (wf_pt _ W) (user_reaches _ _ _ _ Hd Hu)) as (s1 & Hg & P1 & V1).
  set (f := frame (walk s d v)) in *.
  assert (Ephys : u32 (f * PAGE_SIZE + v mod PAGE_SIZE) = f * PAGE_SIZE).
  { rewrite Ha, Z.add_0_r. apply u32_small. pose proof (wf_nframes _ (fw_pmm _ (wf_frames _ W))). unfold searched, PAGE_SIZE in *.
    Z.to_euclidean_division_equations; lia. }
  rewrite Ephys in Hg. assert (Ef : f * PAGE_SIZE / PAGE_SIZE = f) by by apply Z.div_mul.
  assert (Hnn : 0 <= f * PAGE_SIZE) by (unfold searched, PAGE_SIZE in *; lia).
  pose proof (pmm_free_spec (pm s1) (f * PAGE_SIZE)) as Hfree. rewrite Ef, (ve_pm _ _ V1) in Hfree. specialize (Hfree (fw_pmm _ (wf_frames _ W)) Hnn).
  destruct (pmm_free (f * PAGE_SIZE) (pm s)) as [q| | |] eqn:Eq; [| destruct Hfree as [|Hin]; [congruence | destruct Hin; unfold in_map, searched in *; lia] | done..].
  destruct Hfree as (_ & _ & Q1 & _ & Q3 & Q4 & Q5 & Q6).
  set (s2 := set_pm q s1). assert (P2 : pt_wf s2) by (by destruct P1).
  assert (Hd2 : user_dir s2 d) by exact (user_dir_same _ _ _ (ve_dirs _ _ V1) Hd).
  assert (Hw2 : walk s2 d v = walk s d v) by exact (ve_walk _ _ V1 d v).
  destruct (vmm_unmap_ok (fun _ _ => True) s2 d v P2 (user_reaches _ _ _ _ Hd2 Hu)) as (s3 & Hrun & P3 & E3); [by rewrite Hw2|].
  pose proof (es_user _ _ _ _ _ Hu (proj2 Hd2) E3) as Hes.
  assert (Hes' : forall d' w, walk s3 d' w = if decide (d' = d /\ vpn w = vpn v) then page0 else walk s d' w).
  { intros d' w. rewrite Hes. case_decide; [done | exact (ve_walk _ _ V1 d' w)]. }
  assert (Epm : pm s3 = q) by exact (es_pm _ _ _ _ _ E3).
  exists s3. split_and!.
  - unfold vmm_free. check. run Hg. erewrite (st_bind_Ok (on_pmm_ _)); [exact Hrun|].
    unfold on_pmm_. apply on_pmm_ok. rewrite (ve_pm _ _ V1), Eq. done.
  - split; [done | | by rewrite (es_mms _ _ _ _ _ E3), (ve_mms _ _ V1 : mms s2 = mms s); apply W].
    apply frames_wf_unmap with d v s; rewrite ?Epm; try done. apply W.
  - rewrite (es_mms _ _ _ _ _ E3). exact (ve_mms _ _ V1).
  - split; rewrite ?Epm; try done.
    + trans s2; [by destruct (ve_dirs _ _ V1) | exact (es_dirs _ _ _ _ _ E3)].
    + intros d' w Hw. rewrite Hes', decide_False; [done|]. by rewrite vpn_range.
    + intros w Hw%vpn_range; [|done]. by rewrite Hes', decide_True.
    + intros j. rewrite Q1. fold f. split.
      * case_decide as Hj; [done|]. intros Hj'. split; [done|]. intros w Hw%vpn_range; [|done]. by rewrite (walk_vpn s d w v).
      * intros [Hj Hn]. rewrite decide_False; [done|]. apply (Hn v). unfold PAGE_SIZE. lia.
    + replace (v + PAGE_SIZE - v) with PAGE_SIZE by lia. rewrite Z.div_same by done. by apply frames_freed with f.
Qed.

(** [frames_used] after [n] pages, for the loops that keep count. *)
Definition counted (n : nat) (k : Z) (mm : option Z) (m : gmap Z task_mm) : gmap Z task_mm :=
  match mm with
  | Some mm => if n is O then m else alter (add_frames (k * Z.of_nat n)) mm m
  | None => m
  end.

Lemma unmap_user_ok n s d a mm : vm_wf s -> user_dir s d -> (forall b, mm = Some b -> is_Some (mms s !! b)) ->
  a mod PAGE_SIZE = 0 -> 0x10000000 <= a -> a + Z.of_nat n * PAGE_SIZE <= 0xc0000000 ->
  (forall v, a <= v < a + Z.of_nat n * PAGE_SIZE -> freeable (walk s d v)) ->
  exists s', unmap_user n a d mm s = Ok (tt, s') /\ vm_wf s' /\ mms s' = counted n (-1) mm (mms s) /\
    shrunk d a (a + Z.of_nat n * PAGE_SIZE) s s'.
Proof.
  revert s a. induction n as [|n IH]; intros s a W Hd Hmm Ha H1 H2 Hw; cbn [unmap_user].
  { exists s. split_and!; [done | done | by destruct mm |]. replace (a + _) with a by lia. apply shrunk_nil. }
  destruct (vmm_free_ok s d a W Hd) as (s1 & R1 & W1 & M1 & S1); [apply user_space; unfold PAGE_SIZE in *; lia | done | apply Hw; unfold PAGE_SIZE; lia|].
  run R1.
  assert (exists s2, (match mm with Some b => x ← get_mm b; put_mm b (add_frames (-1) x) | None => mret tt end) s1 = Ok (tt, s2) /\
            vm_wf s2 /\ mms s2 = counted 1 (-1) mm (mms s) /\ shrunk d a (a + PAGE_SIZE) s s2) as (s2 & R2 & W2 & M2 & S2).
  { destruct mm as [b|]; [|by exists s1]. destruct (Hmm b eq_refl) as [x Hx]. rewrite <- M1 in Hx.
    eexists. split; [run (get_mm_ok s1 b x Hx); done|]. destruct W1 as [P1 F1 Z1]. split_and!.
    - split; [by destruct P1 | by destruct F1 |]. cbn. rewrite lookup_insert_ne; [done|]. intros ->. congruence.
    - cbn. rewrite M1 in *. apply map_eq. intros k. destruct (decide (b = k)) as [<-|].
      + by rewrite lookup_insert_eq, lookup_alter_eq, Hx.
      + by rewrite lookup_insert_ne, lookup_alter_ne.
    - destruct S1 as [[] ? ? ? ? ? ?]. by split. }
  run R2. destruct (IH s2 (a + PAGE_SIZE)) as (s3 & R3 & W3 & M3 & S3).
  - done.
  - exact (user_dir_same _ _ _ (sh_dirs _ _ _ _ _ S2) Hd).
  - intros b ->. rewrite M2. cbn. destruct (Hmm b eq_refl) as [x Hx]. rewrite lookup_alter_eq, Hx. eauto.
  - unfold PAGE_SIZE in *. Z.to_euclidean_division_equations; lia.
  - unfold PAGE_SIZE in *. lia.
  - unfold PAGE_SIZE in *. lia.
  - intros v Hv. rewrite (sh_other _ _ _ _ _ S2) by (unfold PAGE_SIZE in *; lia). apply Hw. unfold PAGE_SIZE in *. lia.
  - exists s3. split_and!; [done | done | |].
    + rewrite M3, M2. destruct mm as [b|]; [|done]. cbn. destruct n; [done|]. rewrite alter_alter_eq.
      apply alter_ext. intros x _. cbn. rewrite add_frames_add. f_equal. lia.
    + replace (a + Z.of_nat (S n) * PAGE_SIZE) with (a + PAGE_SIZE + Z.of_nat n * PAGE_SIZE) by lia.
      eapply shrunk_app; [..|exact S2 | exact S3]; unfold PAGE_SIZE in *; [lia|..]; Z.to_euclidean_division_equations; lia.
Qed.
End Loops.
