(* ===== verification/VmmSpec.v ===== *)
(** * The virtual memory manager: the memory of a task

    [mm_wf] ties the areas of a [task_mm] to its page tables: exactly the pages of the areas
    are mapped, with the access the area says.  The theorems say what the operations of a task
    (allocating, freeing, the break, the growing stack, [fork]) do to its own address space,
    and that they do nothing to any other. *)
From stdpp Require Import infinite.
From S2P Require Import Prelude Pmm Vmm VmmInv VmmUser.
#[local] Open Scope Z_scope.

Definition in_area (v : Z) (a : vm_area) : Prop := a_start a <= v < a_stop a.
Definition covers (l : list vm_area) (v : Z) (b : bool) : Prop := exists a, a ∈ l /\ in_area v a /\ a_writable a = b.
Definition area_wf (a : vm_area) : Prop :=
  a_start a mod PAGE_SIZE = 0 /\ a_stop a mod PAGE_SIZE = 0 /\ 0x10000000 <= a_start a < a_stop a /\ a_stop a <= 0xc0000000.
Definition apart (a b : vm_area) : Prop := a_stop a <= a_start b \/ a_stop b <= a_start a.
Fixpoint disjoint_areas (l : list vm_area) : Prop :=
  match l with [] => True | a :: l => Forall (apart a) l /\ disjoint_areas l end.

Record mm_wf (s : vmm) (x : task_mm) (l : list vm_area) : Prop := {
  mw_areas : areas x = Some l;
  mw_dir : user_dir s (mm_directory x);
  mw_wf : Forall area_wf l;
  mw_disjoint : disjoint_areas l;
  mw_page v b : covers l v b -> freeable (walk s (mm_directory x) v) /\ rw (walk s (mm_directory x) v) = (if b then 1 else 0);
  mw_only v : IS_USER_SPACE v = true -> frame (walk s (mm_directory x) v) <> 0 -> exists b, covers l v b
}.

(** ** Areas *)
Lemma apart_sym a b : apart a b -> apart b a.
Proof. unfold apart. lia. Qed.

Lemma disjoint_mid l1 a l2 : disjoint_areas (l1 ++ a :: l2) <-> disjoint_areas (l1 ++ l2) /\ Forall (apart a) (l1 ++ l2).
Proof.
  induction l1 as [|b l1 IH]; cbn; [tauto|]. rewrite IH, Forall_cons, !Forall_app, Forall_cons.
  pose proof (apart_sym a b). pose proof (apart_sym b a). tauto.
Qed.

(** The area that grows by [lo, hi) on one of its sides. *)
Definition joined (lo hi : Z) (wr : bool) (a a' : vm_area) : Prop :=
  a_writable a = wr /\ ((a_start a = hi /\ a' = mk_area lo (a_stop a) wr) \/ (a_stop a = lo /\ a' = mk_area (a_start a) hi wr)).

Lemma extend_area_spec lo hi wr l : lo < hi -> Forall (fun a => hi <= a_start a \/ a_stop a <= lo) l ->
  exists o, extend_area lo hi wr l = Ok o /\
    match o with
    | None => True
    | Some l' => exists l1 a a' l2, l = l1 ++ a :: l2 /\ l' = l1 ++ a' :: l2 /\ joined lo hi wr a a'
    end.
Proof.
  intros Hlt. induction 1 as [|a l Ha Hl IH]; cbn [extend_area]; [by exists None|].
  destruct ((a_start a =? hi) && _) eqn:E1.
  { bool_to_prop. apply eqb_prop in H0. eexists. split; [done|]. exists [], a, (mk_area lo (a_stop a) wr), l.
    rewrite H0. split_and!; [done..|]. split; [done | by left]. }
  destruct ((a_stop a =? lo) && _) eqn:E2.
  { bool_to_prop. apply eqb_prop in H0. eexists. split; [done|]. exists [], a, (mk_area (a_start a) hi wr), l.
    rewrite H0. split_and!; [done..|]. split; [done | by right]. }
  destruct ((_ && _) || (_ && _)) eqn:E3.
  { exfalso. apply orb_true_iff in E3. destruct E3; bool_to_prop; lia. }
  destruct IH as (o & -> & Ho). exists (option_map (cons a) o). split; [done|]. destruct o as [l'|]; [|done].
  destruct Ho as (l1 & b & b' & l2 & -> & -> & Hj). cbn. by exists (a :: l1), b, b', l2.
Qed.

(** The list [_vmm_store_area] leaves. *)
Definition stored (lo hi : Z) (wr : bool) (l : list vm_area) (o : option (list vm_area)) : list vm_area :=
  match o with Some l' => l' | None => l ++ [mk_area lo hi wr] end.

Lemma joined_facts lo hi wr a a' : lo < hi -> joined lo hi wr a a' -> area_wf a -> lo mod PAGE_SIZE = 0 -> hi mod PAGE_SIZE = 0 ->
  0x10000000 <= lo -> hi <= 0xc0000000 ->
  area_wf a' /\ (forall b, apart a b -> hi <= a_start b \/ a_stop b <= lo -> area_wf b -> apart a' b) /\
  (forall v, in_area v a' <-> in_area v a \/ lo <= v < hi) /\ a_writable a' = wr.
Proof.
  unfold joined, area_wf, apart, in_area. intros Hlt [Hw [[E ->]|[E ->]]] Ha H1 H2 H3 H4; cbn; split_and!; try lia; try done.
Qed.

Lemma stored_spec lo hi wr l o : lo < hi -> lo mod PAGE_SIZE = 0 -> hi mod PAGE_SIZE = 0 -> 0x10000000 <= lo -> hi <= 0xc0000000 ->
  Forall (fun a => hi <= a_start a \/ a_stop a <= lo) l -> Forall area_wf l -> disjoint_areas l ->
  match o with
  | None => True
  | Some l' => exists l1 a a' l2, l = l1 ++ a :: l2 /\ l' = l1 ++ a' :: l2 /\ joined lo hi wr a a'
  end ->
  Forall area_wf (stored lo hi wr l o) /\ disjoint_areas (stored lo hi wr l o) /\
  (forall v b, covers (stored lo hi wr l o) v b <-> covers l v b \/ (lo <= v < hi /\ b = wr)).
Proof.
  intros Hlt H1 H2 H3 H4 Hap Hwf Hd Ho. destruct o as [l'|]; cbn [stored].
  - destruct Ho as (l1 & a & a' & l2 & -> & -> & Hj). apply Forall_app in Hwf as [Hw1 [Hwa Hw2]%Forall_cons].
    apply Forall_app in Hap as [Hp1 [Hpa Hp2]%Forall_cons]. apply disjoint_mid in Hd as [Hd Hap].
    destruct (joined_facts lo hi wr a a' Hlt Hj Hwa H1 H2 H3 H4) as (F1 & F2 & F3 & F4). split_and!.
    + apply Forall_app. split; [done|]. by constructor.
    + apply disjoint_mid. split; [done|]. pose proof (Forall_app_2 _ _ _ Hw1 Hw2) as Hw. pose proof (Forall_app_2 _ _ _ Hp1 Hp2) as Hp.
      rewrite Forall_forall in Hap, Hw, Hp |- *. eauto.
    + intros v b. unfold covers. setoid_rewrite elem_of_app. setoid_rewrite elem_of_cons.
      destruct Hj as [Hwr _]. clear - F3 F4 Hwr. split.
      * intros (c & [Hc|[->|Hc]] & Hin & Hb); [left; by eauto 8 | | left; by eauto 8].
        apply F3 in Hin as [Hin|Hin]; [left; exists a; split_and!; [by auto | done | congruence] | right; split; [done | congruence]].
      * intros [(c & [Hc|[->|Hc]] & Hin & Hb)|[Hin ->]]; [by eauto 8 | exists a'; split_and!; [by auto | apply F3; by left | congruence] | by eauto 8
          | exists a'; split_and!; [by auto | apply F3; by right | done]].
  - split_and!.
    + apply Forall_app. split; [done|]. constructor; [|done]. unfold area_wf. cbn. lia.
    + apply disjoint_mid. rewrite app_nil_r. split; [done|]. eapply Forall_impl; [exact Hap|]. unfold apart. cbn. lia.
    + intros v b. unfold covers. setoid_rewrite elem_of_app. setoid_rewrite list_elem_of_singleton. split.
      * intros (c & [Hc| ->] & Hin & Hb); [left; by eauto | right; by split].
      * intros [(c & Hc & Hin & Hb)|[Hin ->]]; [by eauto | exists (mk_area lo hi wr); by auto].
Qed.

(** ** Allocating *)
Lemma wf_set_mms s f : vm_wf s -> f (mms s) !! 0 = None -> vm_wf (set_mms f s).
Proof. intros [P F Z] H0. split; [by destruct P | by destruct F | done]. Qed.
Lemma grown_set_mms d lo hi wr s s' f : grown d lo hi wr s s' -> grown d lo hi wr s (set_mms f s').
Proof. intros [[] ? ? ? ? ? ? ?]. by split. Qed.
Lemma shrunk_set_mms d lo hi s s' f : shrunk d lo hi s s' -> shrunk d lo hi s (set_mms f s').
Proof. intros [[] ? ? ? ? ? ?]. by split. Qed.

Lemma not_free_page0 s d v : frames_wf s -> IS_USER_SPACE v = true -> ~ (frame (walk s d v) <> 0) -> walk s d v = page0.
Proof. intros F Hu Hn. apply (fw_page0 _ F); [done|]. destruct (decide (frame (walk s d v) = 0)); [done | by destruct Hn]. Qed.

Section Tasks.
Context `{KernelAlloc}.

Lemma mm_not_null s mm x : vm_wf s -> mms s !! mm = Some x -> mm <> 0.
Proof. intros W Hx ->. by rewrite (wf_mm _ W) in Hx. Qed.

Lemma vmm_store_area_ok s mm x l lo hi wr : mms s !! mm = Some x -> mm <> 0 -> areas x = Some l -> lo < hi ->
  Forall (fun a => hi <= a_start a \/ a_stop a <= lo) l ->
  exists o, vmm_store_area lo hi mm wr s = Ok (tt, set_mms (insert mm (with_areas (stored lo hi wr l o) x)) s) /\
    extend_area lo hi wr l = Ok o /\
    match o with
    | None => True
    | Some l' => exists l1 a a' l2, l = l1 ++ a :: l2 /\ l' = l1 ++ a' :: l2 /\ joined lo hi wr a a'
    end.
Proof.
  intros Hx Hm Hl Hlt Hap. destruct (extend_area_spec lo hi wr l Hlt Hap) as (o & Ho & Hspec). exists o. split; [|done].
  unfold vmm_store_area. check. run (get_mm_ok s mm x Hx). rewrite Hl. erewrite vlocked_ok.
  - instantiate (1 := set_mms (insert mm (with_areas (stored lo hi wr l o) x)) (irq false s)). by destruct s as [[] ?????????].
  - rewrite Ho. done.
  - done.
Qed.

Lemma pages_exact lo hi : lo mod PAGE_SIZE = 0 -> hi mod PAGE_SIZE = 0 -> lo <= hi ->
  Z.of_nat (pages_between lo hi) = (hi - lo) / PAGE_SIZE /\ lo + Z.of_nat (pages_between lo hi) * PAGE_SIZE = hi.
Proof. unfold pages_between, PAGE_SIZE. intros. Z.to_euclidean_division_equations; lia. Qed.

Lemma vmm_alloc_user_ok s mm x l lo hi wr : vm_wf s -> mms s !! mm = Some x -> mm_wf s x l ->
  lo mod PAGE_SIZE = 0 -> hi mod PAGE_SIZE = 0 -> 0x10000000 <= lo < hi -> hi <= 0xc0000000 ->
  Forall (fun a => hi <= a_start a \/ a_stop a <= lo) l -> (hi - lo) / PAGE_SIZE <= frames_with false (pm s) ->
  exists s' l', let x' := with_areas l' (add_frames ((hi - lo) / PAGE_SIZE) x) in
    vmm_alloc_user lo hi mm wr s = Ok (tt, s') /\ vm_wf s' /\ mms s' = <[mm := x']> (mms s) /\ mm_wf s' x' l' /\
    (forall v b, covers l' v b <-> covers l v b \/ (lo <= v < hi /\ b = wr)) /\
    (exists o, extend_area lo hi wr l = Ok o /\ l' = stored lo hi wr l o) /\ grown (mm_directory x) lo hi wr s s'.
Proof.
  intros W Hx M A1 A2 B1 B2 Hap Hfree. pose proof (mm_not_null s mm x W Hx) as Hm. destruct (pages_exact lo hi A1 A2 ltac:(lia)) as [En Ehi].
  remember (pages_between lo hi) as n eqn:Hnp. assert (n <> O) by (intros ->; lia).
  destruct (map_user_ok n s mm x lo wr W Hx (mw_dir _ _ _ M) A1 ltac:(lia) ltac:(lia)) as (s1 & R1 & W1 & M1 & G1).
  { intros v Hv. apply not_free_page0; [apply W | apply user_space; lia|]. intros Hf.
    destruct (mw_only _ _ _ M v) as (b & a & Ha & Hin & _); [apply user_space; lia | done|].
    eapply Forall_forall in Ha; [|exact Hap]. cbn in Ha. unfold in_area in Hin. lia. }
  { by rewrite En. }
  rewrite Ehi, En in *. assert (M2 : mms s1 = <[mm := add_frames ((hi - lo) / PAGE_SIZE) x]> (mms s)) by (destruct n; [done | exact M1]). clear M1.
  set (k := (hi - lo) / PAGE_SIZE) in *.
  destruct (vmm_store_area_ok s1 mm (add_frames k x) l lo hi wr) as (o & R2 & Hext & Ho);
    [by rewrite M2, lookup_insert_eq | done | exact (mw_areas _ _ _ M) | lia | done|].
  destruct (stored_spec lo hi wr l o ltac:(lia) A1 A2 ltac:(lia) B2 Hap (mw_wf _ _ _ M) (mw_disjoint _ _ _ M) Ho) as (L1 & L2 & L3).
  eexists _, (stored lo hi wr l o). cbv zeta. split_and!.
  - unfold vmm_alloc_user. check. rewrite !land_fff.
    do 3 (erewrite (st_bind_Ok (ensure _)) by (apply ensure_true, Z.eqb_eq; unfold PAGE_SIZE in *; Z.to_euclidean_division_equations; lia)).
    check. rewrite <- Hnp. run R1. exact R2.
  - apply wf_set_mms; [done|]. rewrite lookup_insert_ne by done. apply W1.
  - cbn. rewrite M2. apply insert_insert_eq.
  - assert (Hold : forall v, ~ (lo <= v < hi) -> walk s1 (mm_directory x) v = walk s (mm_directory x) v).
    { intros v Hv. apply (g_other _ _ _ _ _ _ G1). by intros []. }
    split; [done | exact (user_dir_same _ _ _ (g_dirs _ _ _ _ _ _ G1) (mw_dir _ _ _ M)) | done | done | |]; cbn [mm_directory with_areas add_frames].
    + intros v b Hc. change (walk (set_mms _ s1)) with (walk s1). destruct (decide (lo <= v < hi)) as [Hin|Hn].
      * apply L3 in Hc as [(a & Ha & Hc & _)|[_ ->]].
        { eapply Forall_forall in Ha; [|exact Hap]. cbn in Ha. unfold in_area in Hc. lia. }
        destruct (g_new _ _ _ _ _ _ G1 v Hin) as (f & -> & Hf & _). cbn. split; [|done]. split; [|by left]. cbn.
        intros ->. rewrite (fw_zero _ (wf_frames _ W)) in Hf. done.
      * rewrite Hold by done. apply L3 in Hc as [Hc|[? _]]; [|done]. by apply M.
    + intros v Hu. change (walk (set_mms _ s1)) with (walk s1). destruct (decide (lo <= v < hi)) as [Hin|Hn].
      * intros _. exists wr. apply L3. by right.
      * rewrite Hold by done. intros Hf. destruct (mw_only _ _ _ M v Hu Hf) as [b Hb]. exists b. apply L3. by left.
  - exact L3.
  - by exists o.
  - by apply grown_set_mms.
Qed.

(** What the tasks see of it. *)
Lemma grown_space d lo hi wr s s' d' v : frames_wf s -> grown d lo hi wr s s' -> IS_USER_SPACE v = true ->
  ~ (d' = d /\ lo <= v < hi) -> space s' d' v = space s d' v.
Proof.
  intros F G Hu Hn. unfold space. rewrite (g_other _ _ _ _ _ _ G) by done. destruct (Z.eqb_spec (frame (walk s d' v)) 0) as [|Hf]; [done|].
  rewrite (g_ram _ _ _ _ _ _ G); [done|]. rewrite page_byte. by apply F.
Qed.
Lemma grown_space_new d lo hi wr s s' v : frames_wf s -> grown d lo hi wr s s' -> lo <= v < hi ->
  space s' d v = Some (user_page 0 wr, 0).
Proof.
  intros F G Hv. unfold space. rewrite (g_zero _ _ _ _ _ _ G) by done. destruct (g_new _ _ _ _ _ _ G v Hv) as (f & -> & Hf & _). cbn.
  destruct (Z.eqb_spec f 0) as [->|]; [|done]. by rewrite (fw_zero _ F) in Hf.
Qed.
Lemma shrunk_space d lo hi s s' d' v : shrunk d lo hi s s' -> ~ (d' = d /\ lo <= v < hi) -> space s' d' v = space s d' v.
Proof. intros S Hn. unfold space. by rewrite (sh_other _ _ _ _ _ S), (sh_ram _ _ _ _ _ S). Qed.

(** C3: [vmm_alloc_user] gives a task fresh zeroed pages at [lo, hi): the task finds zero bytes
    there with the access asked for, every other byte of every address space is as before, the
    frames come from the free ones, and areas and frame count follow. *)
Theorem vmm_alloc_user_correct s mm x l lo hi wr : vm_wf s -> mms s !! mm = Some x -> mm_wf s x l ->
  lo mod PAGE_SIZE = 0 -> hi mod PAGE_SIZE = 0 -> 0x10000000 <= lo < hi -> hi <= 0xc0000000 ->
  Forall (fun a => hi <= a_start a \/ a_stop a <= lo) l -> (hi - lo) / PAGE_SIZE <= frames_with false (pm s) ->
  exists s' l', let x' := with_areas l' (add_frames ((hi - lo) / PAGE_SIZE) x) in
    vmm_alloc_user lo hi mm wr s = Ok (tt, s') /\ vm_wf s' /\ mms s' = <[mm := x']> (mms s) /\ mm_wf s' x' l' /\
    (forall v b, covers l' v b <-> covers l v b \/ (lo <= v < hi /\ b = wr)) /\
    (forall v, lo <= v < hi -> space s' (mm_directory x) v = Some (user_page 0 wr, 0)) /\
    (forall d v, IS_USER_SPACE v = true -> ~ (d = mm_directory x /\ lo <= v < hi) -> space s' d v = space s d v) /\
    (forall d v, IS_USER_SPACE v = false -> walk s' d v = walk s d v) /\
    frames_with false (pm s') = frames_with false (pm s) - (hi - lo) / PAGE_SIZE /\ intr (pm s') = intr (pm s).
Proof.
  intros W Hx M A1 A2 B1 B2 Hap Hfree.
  destruct (vmm_alloc_user_ok s mm x l lo hi wr W Hx M A1 A2 B1 B2 Hap Hfree) as (s' & l' & R & W' & E & M' & C & _ & G).
  exists s', l'. cbv zeta. split_and!; try done.
  - intros v. by apply (grown_space_new _ _ _ _ s _ v (wf_frames _ W) G).
  - intros d v. by apply (grown_space _ _ _ _ s _ d v (wf_frames _ W) G).
  - intros d v Hk. apply (g_other _ _ _ _ _ _ G). intros [_ Hv]. rewrite (proj2 (user_space v)) in Hk by lia. done.
  - apply G.
  - apply G.
Qed.

(** ** Freeing *)
Definition area_pages (l : list vm_area) : Z := foldr (fun a n => (a_stop a - a_start a) / PAGE_SIZE + n) 0 l.
Record freed (d : Z) (l : list vm_area) (s s' : vmm) : Prop := {
  fr_dirs : same_dirs s s';
  fr_intr : intr (pm s') = intr (pm s);
  fr_other d' v : ~ (d' = d /\ exists b, covers l v b) -> walk s' d' v = walk s d' v;
  fr_gone v b : covers l v b -> walk s' d v = page0;
  fr_ram : ram (pm s') = ram (pm s);
  fr_free : frames_with false (pm s') = frames_with false (pm s) + area_pages l
}.

Lemma covers_cons a l v b : covers (a :: l) v b <-> (in_area v a /\ a_writable a = b) \/ covers l v b.
Proof.
  unfold covers. setoid_rewrite elem_of_cons. split.
  - intros (c & [->|Hc] & Hin & Hb); [by left | right; eauto].
  - intros [[Hin Hb]|(c & Hc & Hin & Hb)]; eauto 8.
Qed.

Lemma free_areas_ok l d s : vm_wf s -> user_dir s d -> Forall area_wf l -> disjoint_areas l ->
  (forall v b, covers l v b -> freeable (walk s d v)) ->
  exists s', free_areas l d s = Ok (tt, s') /\ vm_wf s' /\ mms s' = mms s /\ freed d l s s'.
Proof.
  revert s. induction l as [|a l IH]; intros s W Hd Hwf Hdis Hf; cbn [free_areas].
  { exists s. split_and!; try done. split; try done; [|unfold area_pages; cbn; lia]. by intros v b (a & Ha%elem_of_nil & _). }
  apply Forall_cons in Hwf as [(A1 & A2 & A3 & A4) Hwf]. destruct Hdis as [Hap Hdis].
  destruct (pages_exact (a_start a) (a_stop a) A1 A2 ltac:(lia)) as [En Ehi].
  destruct (unmap_user_ok (pages_between (a_start a) (a_stop a)) s d (a_start a) None W Hd) as (s1 & R1 & W1 & M1 & S1); [done | done | lia | lia | |].
  { intros v Hv. rewrite Ehi in Hv. apply (Hf v (a_writable a)). apply covers_cons. by left. }
  rewrite Ehi in S1. run R1.
  assert (Hout : forall v b, covers l v b -> ~ in_area v a).
  { intros v b (c & Hc & Hin & _) Hin'. eapply Forall_forall in Hc; [|exact Hap]. unfold apart, in_area in *. lia. }
  assert (Hsame : forall v b, covers l v b -> walk s1 d v = walk s d v).
  { intros v b Hc. apply (sh_other _ _ _ _ _ S1). intros [_ ?]. by apply (Hout v b). }
  destruct (IH s1 W1) as (s2 & R2 & W2 & M2 & G2).
  - exact (user_dir_same _ _ _ (sh_dirs _ _ _ _ _ S1) Hd).
  - done.
  - done.
  - intros v b Hc. rewrite (Hsame v b) by done. apply (Hf v b). apply covers_cons. by right.
  - exists s2. split_and!; [done | done | by rewrite M2, M1 |]. destruct S1 as [B1 B2 B3 B4 B5 B6 B7], G2 as [C1 C2 C3 C4 C5 C6].
    split; [by etrans | congruence | | | congruence |].
    + intros d' v Hn. rewrite C3, B3; [done | |]; intros [-> Hc]; apply Hn; (split; [done|]).
      * exists (a_writable a). apply covers_cons. by left.
      * destruct Hc as [b Hc]. exists b. apply covers_cons. by right.
    + intros v b [[Hin _]|Hc]%covers_cons; [|by apply C4 with b]. rewrite C3; [by apply B4|]. intros [_ [b' Hc]]. by apply (Hout v b').
    + rewrite C6, B7. unfold area_pages. cbn [foldr]. lia.
Qed.

Lemma frames_wf_irq b s : frames_wf s -> frames_wf (irq b s).
Proof. intros [[]]. split; [by split | done..]. Qed.
Lemma wf_irq b s : vm_wf s -> vm_wf (irq b s).
Proof. intros [[] ? ?]. split; [done | by apply frames_wf_irq | done]. Qed.

Lemma vmm_destroy_task_mm_ok s mm x l : vm_wf s -> mms s !! mm = Some x -> mm_wf s x l ->
  exists s', vmm_destroy_task_mm mm s = Ok (tt, s') /\ vm_wf s' /\ mms s' = delete mm (mms s) /\ same_dirs s s' /\
    (forall v, IS_USER_SPACE v = true -> walk s' (mm_directory x) v = page0) /\
    (forall d v, d <> mm_directory x -> walk s' d v = walk s d v) /\ ram (pm s') = ram (pm s) /\
    frames_with false (pm s') = frames_with false (pm s) + area_pages l /\ intr (pm s') = intr (pm s).
Proof.
  intros W Hx M. pose proof (mm_not_null s mm x W Hx) as Hm. destruct M as [M1 M2 M3 M4 M5 M6].
  destruct (free_areas_ok l (mm_directory x) (irq false s) (wf_irq _ _ W) M2 M3 M4) as (s1 & R1 & W1 & E1 & G1).
  { intros v b Hc. by apply (M5 v b). }
  exists (irq (intr (pm s)) (set_mms (delete mm) s1)). split_and!.
  - unfold vmm_destroy_task_mm. check. apply vlocked_ok; [|exact (fr_intr _ _ _ _ G1)].
    run (get_mm_ok (irq false s) mm x Hx). rewrite M1. run R1. done.
  - apply wf_irq, wf_set_mms; [done|]. rewrite lookup_delete_ne by done. apply W1.
  - cbn. by rewrite E1.
  - by destruct (fr_dirs _ _ _ _ G1).
  - intros v Hu. change (walk (irq _ _)) with (walk s1). apply (fw_page0 _ (wf_frames _ W1)); [done|].
    destruct (decide (frame (walk s (mm_directory x) v) = 0)) as [Hz|Hz].
    + destruct (decide (walk s1 (mm_directory x) v = page0)) as [->|Hne]; [done|]. rewrite (fr_other _ _ _ _ G1); [exact Hz|].
      intros [_ [b Hc]]. apply Hne. by apply (fr_gone _ _ _ _ G1 v b).
    + destruct (M6 v Hu Hz) as [b Hb]. by rewrite (fr_gone _ _ _ _ G1 v b).
  - intros d v Hd. change (walk (irq _ _)) with (walk s1). by rewrite (fr_other _ _ _ _ G1) by (by intros []).
  - exact (fr_ram _ _ _ _ G1).
  - exact (fr_free _ _ _ _ G1).
  - done.
Qed.

(** [vmm_destroy_task_mm] gives back every frame of the task: nothing is left of its user
    space, and no other address space changes. *)
Theorem vmm_destroy_task_mm_correct s mm x l : vm_wf s -> mms s !! mm = Some x -> mm_wf s x l ->
  exists s', vmm_destroy_task_mm mm s = Ok (tt, s') /\ vm_wf s' /\ mms s' = delete mm (mms s) /\
    (forall v, IS_USER_SPACE v = true -> space s' (mm_directory x) v = None) /\
    (forall d v, d <> mm_directory x -> space s' d v = space s d v) /\
    frames_with false (pm s') = frames_with false (pm s) + area_pages l /\ intr (pm s') = intr (pm s).
Proof.
  intros W Hx M. destruct (vmm_destroy_task_mm_ok s mm x l W Hx M) as (s' & R & W' & E & S & Hg & Ho & Hr & Hf & Hi).
  exists s'. split_and!; try done.
  - intros v Hu. unfold space. by rewrite Hg.
  - intros d v Hd. unfold space. by rewrite Ho, Hr.
Qed.
End Tasks.

(** ** A concrete machine

    The kernel's directory at 1 and a task with the directory 2: a page of its program at
    0x10000000 in frame 1, and the guard page of its stack in frame 2.  Both directories have the
    kernel's table for address 0, with its guard page. *)
#[export] Instance demo_alloc : KernelAlloc.
Proof.
  refine {| kmalloc_addr s := fresh ({[0]} ∪ dom (dirs s) ∪ dom (ptables s) ∪ dom (mms s)); kmalloc_phys _ := 0x400000; placement_address _ := 0 |}.
  1-4: intros s; pose proof (is_fresh ({[0]} ∪ dom (dirs s) ∪ dom (ptables s) ∪ dom (mms s))) as Hf; set (x := fresh _) in *;
    rewrite !elem_of_union, elem_of_singleton, !elem_of_dom in Hf.
  - intros E. apply Hf. auto.
  - apply eq_None_not_Some. intros E. apply Hf. auto.
  - apply eq_None_not_Some. intros E. apply Hf. auto.
  - apply eq_None_not_Some. intros E. apply Hf. auto.
  - done.
Defined.

Definition demo_guard : Z := 0xbffee000.
Definition demo_kernel : page_directory := mk_pd (fun _ => 0) (upd (fun _ => 0) 0 6) 0.
Definition demo_dir : page_directory := mk_pd (fun _ => 0) (upd (upd (upd (fun _ => 0) 0 6) 64 3) 767 4) 0.
Definition demo_mm : task_mm :=
  mk_mm (Some [mk_area 0x10000000 0x10001000 true; mk_area demo_guard (demo_guard + PAGE_SIZE) true]) 0 0 0x10000000 0x10001000 0x10000000 2 demo_guard 2.
Definition demo : vmm := mk_vmm (mk_pmm [7; 0; 0; 0] 96 FULL (96 * PAGE_SIZE) true (fun x => x mod 251))
  {[1 := demo_kernel; 2 := demo_dir]}
  {[3 := upd (fun _ => page0) 0 (user_page 1 true); 4 := upd (fun _ => page0) 1006 (guarded_page true (user_page 2 true));
    6 := upd (fun _ => page0) 0 (guarded_page true (mapped_page 0 true false 0 page0))]}
  [1; 2] {[5 := demo_mm]} 1 2 0 5 3.

Lemma demo_dirs d pd : dirs demo !! d = Some pd -> (d = 1 /\ pd = demo_kernel) \/ (d = 2 /\ pd = demo_dir).
Proof. cbn. rewrite lookup_insert_Some, lookup_singleton_Some. intros [[<- <-]|[_ [<- <-]]]; auto. Qed.
Lemma demo_tables i : (i = 64 /\ tables demo_dir i = 3) \/ (i = 767 /\ tables demo_dir i = 4) \/ (i = 0 /\ tables demo_dir i = 6) \/
  (i <> 64 /\ i <> 767 /\ i <> 0 /\ tables demo_dir i = 0).
Proof. cbn. unfold upd. destruct (Z.eqb_spec i 767), (Z.eqb_spec i 64), (Z.eqb_spec i 0); subst; tauto || lia. Qed.
Lemma demo_kernel_tables i : (i = 0 /\ tables demo_kernel i = 6) \/ (i <> 0 /\ tables demo_kernel i = 0).
Proof. cbn. unfold upd. destruct (Z.eqb_spec i 0); subst; auto. Qed.
Lemma demo_table_3 : ptables demo !! 3 = Some (upd (fun _ => page0) 0 (user_page 1 true)).
Proof. done. Qed.
Lemma demo_table_4 : ptables demo !! 4 = Some (upd (fun _ => page0) 1006 (guarded_page true (user_page 2 true))).
Proof. done. Qed.
Lemma demo_walk d v : IS_USER_SPACE v = true -> walk demo d v = if decide (d = 2 /\ vpn v = 0x10000) then user_page 1 true
  else if decide (d = 2 /\ vpn v = 0xbffee) then guarded_page true (user_page 2 true) else page0.
Proof.
  intros Hu%user_space. assert (Hv : PT v * 1024 + PO v = vpn v /\ 0 <= PO v < 1024 /\ 0x10000 <= vpn v)
    by (unfold PT, PO, vpn, PAGE_SIZE; Z.to_euclidean_division_equations; lia).
  unfold walk. destruct (dirs demo !! d) as [pd|] eqn:Hd.
  - apply demo_dirs in Hd as [[-> ->]|[-> ->]].
    + destruct (demo_kernel_tables (PT v)) as [[E _]|[_ ->]]; [lia|]. by rewrite !decide_False by lia.
    + destruct (demo_tables (PT v)) as [[E ->]|[[E ->]|[[E ->]|(N1 & N2 & N3 & ->)]]]; rewrite ?demo_table_3, ?demo_table_4; unfold upd; [| |lia|].
      * destruct (Z.eqb_spec (PO v) 0); [by rewrite decide_True by lia | by rewrite !decide_False by lia].
      * rewrite (decide_False (P := 2 = 2 /\ vpn v = 0x10000)) by lia. destruct (Z.eqb_spec (PO v) 1006); [by rewrite decide_True by lia | by rewrite decide_False by lia].
      * by rewrite !decide_False by lia.
  - rewrite !decide_False; [done | intros [-> _]; done | intros [-> _]; done].
Qed.

Lemma demo_vm_wf : vm_wf demo.
Proof.
  assert (Hk : forall kd, dirs demo !! kernel_directory demo = Some kd -> kd = demo_kernel) by (intros kd [[_ ->]|[? _]]%demo_dirs; done).
  split; [split|split|done].
  - done.
  - intros d pd i Hd. apply demo_dirs in Hd as [[-> ->]|[-> ->]].
    + destruct (demo_kernel_tables i) as [[_ ->]|[_ ->]]; [right; by eexists | by left].
    + destruct (demo_tables i) as [[_ ->]|[[_ ->]|[[_ ->]|(_ & _ & _ & ->)]]]; [right; by eexists | right; by eexists | right; by eexists | by left].
  - by eexists.
  - intros d pd kd i Hd ->%Hk _ Hi. apply demo_dirs in Hd as [[-> ->]|[-> ->]]; [done|].
    destruct (demo_tables i) as [[-> _]|[[-> _]|[[-> _]|(_ & _ & ? & ->)]]]; [by destruct Hi | by destruct Hi | done |].
    destruct (demo_kernel_tables i) as [[? _]|[_ ->]]; done.
  - intros kd i ->%Hk Hi. destruct (demo_kernel_tables i) as [[-> _]|[_ ->]]; [|done]. by destruct Hi.
  - intros d1 p1 i1 d2 p2 i2 H1 H2. apply demo_dirs in H1 as [[-> ->]|[-> ->]], H2 as [[-> ->]|[-> ->]];
      [destruct (demo_kernel_tables i1) as [[-> ->]|[_ ->]], (demo_kernel_tables i2) as [[-> ->]|[_ ->]]
      |destruct (demo_kernel_tables i1) as [[-> ->]|[_ ->]], (demo_tables i2) as [[-> ->]|[[-> ->]|[[-> ->]|(_ & _ & _ & ->)]]]
      |destruct (demo_tables i1) as [[-> ->]|[[-> ->]|[[-> ->]|(_ & _ & _ & ->)]]], (demo_kernel_tables i2) as [[-> ->]|[_ ->]]
      |destruct (demo_tables i1) as [[-> ->]|[[-> ->]|[[-> ->]|(_ & _ & _ & ->)]]], (demo_tables i2) as [[-> ->]|[[-> ->]|[[-> ->]|(_ & _ & _ & ->)]]]];
      try done; intros _ _; (split; [done|]); try (by left); by right.
  - split; [done | done | done | by repeat constructor | by left].
  - done.
  - intros d v Hu. rewrite demo_walk by done. repeat case_decide; [split; done.. | done].
  - intros d1 v1 d2 v2 H1 H2. rewrite !demo_walk by done. repeat case_decide; cbn; try done; intros; destruct_and!; split; congruence.
  - intros d v Hu. rewrite demo_walk by done. by repeat case_decide.
Qed.

Lemma demo_mm_wf : mm_wf demo demo_mm [mk_area 0x10000000 0x10001000 true; mk_area demo_guard (demo_guard + PAGE_SIZE) true].
Proof.
  split.
  - done.
  - split; [done | by eexists].
  - unfold demo_guard, PAGE_SIZE. repeat constructor; done.
  - split_and!; [|done..]. apply Forall_singleton. by left.
  - intros v b (a & Ha & Hin & <-). unfold in_area in Hin. rewrite !elem_of_cons, elem_of_nil in Ha.
    destruct Ha as [->|[->|[]]]; cbn in Hin |- *; unfold demo_guard, PAGE_SIZE in Hin; rewrite demo_walk by (apply user_space; lia).
    + rewrite decide_True by (split; [done|]; unfold vpn, PAGE_SIZE; Z.to_euclidean_division_equations; lia). by split; [split; [|left]|].
    + assert (vpn v = 0xbffee) by (unfold vpn, PAGE_SIZE; Z.to_euclidean_division_equations; lia).
      rewrite decide_False, decide_True by lia. by split; [split; [|right]|].
  - intros v Hu. rewrite demo_walk by done. cbn [mm_directory demo_mm]. repeat case_decide; [| |done]; intros _; exists true; destruct_and!.
    + exists (mk_area 0x10000000 0x10001000 true). split_and!; [set_solver | | done]. unfold in_area, vpn, PAGE_SIZE in *. cbn. Z.to_euclidean_division_equations; lia.
    + exists (mk_area demo_guard (demo_guard + PAGE_SIZE) true). split_and!; [set_solver | | done]. unfold in_area, vpn, demo_guard, PAGE_SIZE in *. cbn. Z.to_euclidean_division_equations; lia.
Qed.

Lemma vmm_alloc_user_correct_witness : exists s', vmm_alloc_user 0x10001000 0x10003000 5 true demo = Ok (tt, s') /\
  space s' 2 0x10002abc = Some (user_page 0 true, 0) /\ space s' 2 0x10000abc = space demo 2 0x10000abc /\ frames_with false (pm s') = 91.
Proof.
  destruct (vmm_alloc_user_correct demo 5 demo_mm _ 0x10001000 0x10003000 true demo_vm_wf eq_refl demo_mm_wf) as
    (s' & l' & R & _ & _ & _ & _ & Hn & Ho & _ & Hf & _); [done | done | done | done | | done |].
  { repeat constructor; cbn; unfold demo_guard; lia. }
  exists s'. split_and!; [exact R | apply (Hn 0x10002abc); done | apply (Ho 2 0x10000abc); [done | cbn; lia] | rewrite Hf; reflexivity].
Defined.

Lemma vmm_destroy_task_mm_correct_witness : exists s', vmm_destroy_task_mm 5 demo = Ok (tt, s') /\
  space demo 2 0x10000abc <> None /\ space s' 2 0x10000abc = None /\ frames_with false (pm s') = 95.
Proof.
  destruct (vmm_destroy_task_mm_correct demo 5 demo_mm _ demo_vm_wf eq_refl demo_mm_wf) as (s' & R & _ & _ & Hn & _ & Hf & _).
  exists s'. split_and!; [exact R | vm_compute; discriminate | apply (Hn 0x10000abc); done | rewrite Hf; reflexivity].
Defined.
