(* ===== verification/VmmBrk.v ===== *)
(** * The virtual memory manager: the break and the growing stack

    [vmm_resize_area], [sbrk] and the page fault handler on a task whose memory is well formed
    (VmmSpec.v's [mm_wf]). *)
From S2P Require Import Prelude Pmm Vmm VmmInv VmmUser VmmSpec.

(** ** Shrinking an area *)
Lemma find_area_spec start ne l a : a ∈ l -> in_area start a -> a_stop a <> ne -> disjoint_areas l ->
  Forall (fun c => a_stop c <> ne \/ c = a) l -> Forall area_wf l ->
  exists l1 l2, l = l1 ++ a :: l2 /\ find_area start ne l = Ok (Some (l1, a, l2)).
Proof.
  intros Ha Hin Hne. induction l as [|c l IH]; [by apply elem_of_nil in Ha|]. intros [Hap Hd] [Hc Hl]%Forall_cons [Hwc Hwl]%Forall_cons.
  cbn [find_area]. assert ((a_stop c =? ne) = false) as -> by (apply Z.eqb_neq; destruct Hc as [| -> ]; done). cbn.
  destruct ((a_start c <=? start) && (start <? a_stop c)) eqn:E.
  - bool_to_prop. assert (c = a) as ->; [|by exists [], l]. apply elem_of_cons in Ha as [ -> |Ha]; [done|].
    eapply Forall_forall in Ha as Ha'; [|exact Hap]. unfold in_area, apart in *. exfalso. lia.
  - apply elem_of_cons in Ha as [ -> |Ha].
    { exfalso. unfold in_area in Hin. apply andb_false_iff in E as []; bool_to_prop; lia. }
    destruct (IH Ha Hd Hl Hwl) as (l1 & l2 & -> & ->). by exists (c :: l1), l2.
Qed.

Lemma covers_mid l1 a l2 v b : covers (l1 ++ a :: l2) v b <-> (in_area v a /\ a_writable a = b) \/ covers (l1 ++ l2) v b.
Proof.
  unfold covers. setoid_rewrite elem_of_app. setoid_rewrite elem_of_cons. split.
  - intros (c & [Hc|[ -> |Hc]] & Hin & Hb); eauto 8.
  - intros [[Hin Hb]|(c & [Hc|Hc] & Hin & Hb)]; eauto 8.
Qed.

Section Brk.
Context `{KernelAlloc}.

Lemma vmm_resize_area_ok s mm x l a start ne : vm_wf s -> mms s !! mm = Some x -> mm_wf s x l ->
  a ∈ l -> in_area start a -> 0 <= start -> start + PAGE_SIZE <= ne < a_stop a -> ne mod PAGE_SIZE = 0 ->
  let k := (a_stop a - ne) / PAGE_SIZE in
  exists s' l', let x' := with_areas l' (add_frames (- k) x) in
    vmm_resize_area start ne mm s = Ok (tt, s') /\ vm_wf s' /\ mms s' = <[mm := x']> (mms s) /\ mm_wf s' x' l' /\
    (forall v b, covers l' v b <-> covers l v b /\ ~ (ne <= v < a_stop a)) /\ shrunk (mm_directory x) ne (a_stop a) s s'.
Proof.
  intros W Hx M Ha Hin H0 Hne Hal k. pose proof (mm_not_null s mm x W Hx) as Hm.
  pose proof M as [M1 M2 M3 M4 M5 M6]. eapply Forall_forall in Ha as Hwa; [|exact M3]. destruct Hwa as (A1 & A2 & A3 & A4).
  unfold in_area in Hin.
  destruct (find_area_spec start ne l a Ha Hin ltac:(lia) M4) as (l1 & l2 & El & Hfind); [|done|].
  { apply Forall_forall. intros c Hc. destruct (decide (a_stop c = ne)) as [E|]; [right | by left].
    destruct (decide (c = a)); [done|]. exfalso. apply list_elem_of_split in Hc as (k1 & k2 & E').
    rewrite E' in M4. apply disjoint_mid in M4 as [_ Hap]. rewrite E' in Ha.
    assert (Ha' : a ∈ k1 ++ k2) by (rewrite elem_of_app, elem_of_cons in *; naive_solver).
    eapply Forall_forall in Ha'; [|exact Hap]. assert (Hwc : area_wf c).
    { eapply Forall_forall; [exact M3|]. rewrite E'. apply elem_of_app. right. apply elem_of_cons. by left. }
    unfold apart, area_wf, PAGE_SIZE in *. lia. }
  destruct (pages_exact ne (a_stop a) Hal A2 ltac:(lia)) as [En Ehi].
  destruct (unmap_user_ok (pages_between ne (a_stop a)) s (mm_directory x) ne (Some mm) W M2) as (s1 & R1 & W1 & E1 & S1); [| done | unfold PAGE_SIZE in *; lia | lia | |].
  { intros b [= <-]. by rewrite Hx. }
  { intros v Hv. rewrite Ehi in Hv. apply (M5 v (a_writable a)). exists a. split_and!; [done | unfold in_area, PAGE_SIZE in *; lia | done]. }
  rewrite Ehi in S1. set (n := pages_between ne (a_stop a)) in *. assert (Hn : n <> O) by (intros E; rewrite E in *; lia).
  assert (E2 : mms s1 = <[mm := add_frames (- k) x]> (mms s)).
  { rewrite E1. unfold counted. destruct n as [|n']; [done|]. replace (-1 * Z.of_nat (S n')) with (- k) by lia.
    apply map_eq. intros j. destruct (decide (mm = j)) as [<-|]; [by rewrite lookup_alter_eq, lookup_insert_eq, Hx | by rewrite lookup_alter_ne, lookup_insert_ne]. }
  set (a' := mk_area (a_start a) ne (a_writable a)). set (l' := l1 ++ a' :: l2).
  assert (Hcov : forall v b, covers l' v b <-> covers l v b /\ ~ (ne <= v < a_stop a)).
  { intros v b. unfold l'. rewrite El, !covers_mid. rewrite El in M4. apply disjoint_mid in M4 as [_ Hap].
    assert (Hother : covers (l1 ++ l2) v b -> ~ in_area v a).
    { intros (c & Hc & Hinc & _). eapply Forall_forall in Hc; [|exact Hap]. unfold apart, in_area in *. lia. }
    unfold in_area in *. cbn. unfold PAGE_SIZE in *. split.
    - intros [[Hv Hb]|Hc]; [split; [left; split; [lia | done] | lia]|]. split; [by right|]. specialize (Hother Hc). lia.
    - intros [[[Hv Hb]|Hc] Hnv]; [left; split; [lia | done] | by right]. }
  exists (set_mms (insert mm (with_areas l' (add_frames (- k) x))) s1), l'. cbv zeta. split_and!.
  - unfold vmm_resize_area. rewrite u32_small by (unfold PAGE_SIZE in *; lia). do 2 check. run (get_mm_ok s mm x Hx). rewrite M1, Hfind.
    erewrite (st_bind_Ok (lift _)) by done. cbv beta iota.
    rewrite (proj2 (Z.ltb_ge (a_stop a) ne)) by lia. fold n. run R1.
    erewrite (st_bind_Ok (get_mm mm)) by (apply get_mm_ok; by rewrite E2, lookup_insert_eq). done.
  - apply wf_set_mms; [done|]. rewrite lookup_insert_ne by done. apply W1.
  - cbn. rewrite E2. apply insert_insert_eq.
  - assert (Hold : forall v, ~ (ne <= v < a_stop a) -> walk s1 (mm_directory x) v = walk s (mm_directory x) v).
    { intros v Hv. apply (sh_other _ _ _ _ _ S1). by intros []. }
    split; [done | exact (user_dir_same _ _ _ (sh_dirs _ _ _ _ _ S1) M2) | | | |]; cbn [mm_directory with_areas add_frames]; change (walk (set_mms _ s1)) with (walk s1).
    + rewrite El in M3. apply Forall_app in M3 as [F1 [_ F2]%Forall_cons]. apply Forall_app. split; [done|]. constructor; [|done].
      unfold area_wf, in_area, PAGE_SIZE in *. cbn. lia.
    + rewrite El in M4. apply disjoint_mid in M4 as [D1 D2]. apply disjoint_mid. split; [done|]. eapply Forall_impl; [exact D2|].
      unfold apart. cbn. intros c. unfold in_area, PAGE_SIZE in *. lia.
    + intros v b [Hc Hv]%Hcov. rewrite Hold by done. by apply M5.
    + intros v Hu Hf. destruct (decide (ne <= v < a_stop a)) as [Hv|Hv]; [by rewrite (sh_gone _ _ _ _ _ S1) in Hf|].
      rewrite Hold in Hf by done. destruct (M6 v Hu Hf) as [b Hb]. exists b. by apply Hcov.
  - exact Hcov.
  - by apply shrunk_set_mms.
Qed.

(** ** The break *)
Definition round_page (z : Z) : Z := (z + PAGE_SIZE - 1) / PAGE_SIZE * PAGE_SIZE.

Lemma mm_wf_brk s x l b : mm_wf s x l -> mm_wf s (with_brk b x) l.
Proof. by intros []. Qed.
Lemma mm_wf_mms s f x l : mm_wf s x l -> mm_wf (set_mms f s) x l.
Proof. by intros []. Qed.

Lemma round_up z : 0 <= z -> round_page z < 2 ^ 32 ->
  (if IS_PAGE_ALIGNED (u32 z) then u32 z else u32 (Z.land (u32 z) 0xfffff000 + PAGE_SIZE)) = round_page z.
Proof.
  intros H0 H1. assert (z <= round_page z) by (unfold round_page, PAGE_SIZE; Z.to_euclidean_division_equations; lia).
  rewrite u32_small, IS_PAGE_ALIGNED_mod by lia. destruct (Z.eqb_spec (z mod PAGE_SIZE) 0).
  - unfold round_page, PAGE_SIZE in *. Z.to_euclidean_division_equations; lia.
  - rewrite land_page by lia. rewrite u32_small; unfold round_page, PAGE_SIZE in *; Z.to_euclidean_division_equations; lia.
Qed.

(** The task that makes the call. *)
Record on_cpu (s : vmm) (mm : Z) (x : task_mm) (l : list vm_area) : Prop := {
  run_wf : vm_wf s; run_priv : privilege s = 3; run_mm : current_mm s = mm; run_task : mms s !! mm = Some x; run_areas : mm_wf s x l
}.

Lemma on_cpu_put s s1 mm x l y : vm_wf s -> mms s !! mm = Some x -> privilege s1 = 3 -> current_mm s1 = mm -> vm_wf s1 -> mm_wf s1 y l ->
  on_cpu (set_mms (insert mm y) s1) mm y l.
Proof.
  intros W Hx Hp Hc W1 M. pose proof (mm_not_null s mm x W Hx). split; [|done | done | cbn; by rewrite lookup_insert_eq | by apply mm_wf_mms].
  apply wf_set_mms; [done|]. rewrite lookup_insert_ne by done. apply W1.
Qed.

Lemma sbrk_grow_ok s mm x l delta : on_cpu s mm x l -> brk x mod PAGE_SIZE = 0 -> 0x10000000 <= brk x -> 0 < delta ->
  let ne := round_page (brk x + delta) in ne < USER_STACK_START - USER_STACK_SIZE_MAX ->
  Forall (fun a => ne <= a_start a \/ a_stop a <= brk x) l -> (ne - brk x) / PAGE_SIZE <= frames_with false (pm s) ->
  exists s' l', let x' := with_brk ne (with_areas l' (add_frames ((ne - brk x) / PAGE_SIZE) x)) in
    sbrk delta s = Ok (brk x, s') /\ on_cpu s' mm x' l' /\ mms s' = <[mm := x']> (mms s) /\
    (forall v b, covers l' v b <-> covers l v b \/ (brk x <= v < ne /\ b = true)) /\
    (exists o, extend_area (brk x) ne true l = Ok o /\ l' = stored (brk x) ne true l o) /\
    grown (mm_directory x) (brk x) ne true s s'.
Proof.
  intros [W Hp Hc Hx M] Hal Hlo Hdelta ne Hne Hap Hfree. pose proof (mm_not_null s mm x W Hx) as Hm.
  assert (Hne' : brk x < ne /\ ne mod PAGE_SIZE = 0) by (unfold ne, round_page, PAGE_SIZE; Z.to_euclidean_division_equations; lia).
  unfold USER_STACK_START, USER_STACK_SIZE_MAX in Hne. destruct Hne' as [Hlt Hal'].
  destruct (vmm_alloc_user_ok s mm x l (brk x) ne true W Hx M Hal Hal' ltac:(lia) ltac:(lia) Hap Hfree) as (s1 & l' & R & W1 & E & M' & C & O & G).
  set (y := with_areas l' (add_frames ((ne - brk x) / PAGE_SIZE) x)) in *.
  exists (set_mms (insert mm (with_brk ne y)) s1), l'. cbv zeta. split_and!.
  - unfold sbrk. do 2 (erewrite (st_bind_Ok (gets _)) by done; rewrite ?Hp, ?Hc; check).
    run (get_mm_ok s mm x Hx). erewrite (st_bind_Ok (ensure _)) by (apply ensure_true; by apply IS_PAGE_ALIGNED_true).
    rewrite (proj2 (Z.eqb_neq delta 0)), (proj2 (Z.ltb_lt 0 delta)) by lia. cbv zeta. rewrite round_up by (fold ne; lia). fold ne.
    unfold USER_STACK_START, USER_STACK_SIZE_MAX. check. run R.
    erewrite (st_bind_Ok (get_mm mm)) by (apply get_mm_ok; by rewrite E, lookup_insert_eq).
    erewrite (st_bind_Ok (put_mm _ _)) by done. erewrite (st_bind_Ok (ensure _)) by (apply ensure_true; by apply IS_PAGE_ALIGNED_true). done.
  - apply on_cpu_put with s x; try done; [by rewrite (sd_privilege _ _ (g_dirs _ _ _ _ _ _ G)) | by rewrite (sd_mm _ _ (g_dirs _ _ _ _ _ _ G)) | by apply mm_wf_brk].
  - cbn. rewrite E. apply insert_insert_eq.
  - done.
  - done.
  - by apply grown_set_mms.
Qed.

Lemma sbrk_shrink_ok s mm x l a delta : on_cpu s mm x l -> brk x mod PAGE_SIZE = 0 -> a ∈ l -> in_area (brk_start x) a -> a_stop a = brk x ->
  - 2 ^ 31 <= delta <= - PAGE_SIZE ->
  let k := (- delta) / PAGE_SIZE in
  brk_start x + PAGE_SIZE <= brk x - k * PAGE_SIZE -> initial_brk x <= brk x - k * PAGE_SIZE ->
  exists s' l', let x' := with_brk (brk x - k * PAGE_SIZE) (with_areas l' (add_frames (- k) x)) in
    sbrk delta s = Ok (brk x, s') /\ on_cpu s' mm x' l' /\ mms s' = <[mm := x']> (mms s) /\
    (forall v b, covers l' v b <-> covers l v b /\ ~ (brk x - k * PAGE_SIZE <= v < brk x)) /\
    shrunk (mm_directory x) (brk x - k * PAGE_SIZE) (brk x) s s'.
Proof.
  intros [W Hp Hc Hx M] Hal Ha Hin Hstop Hd k Hbs Hib. pose proof (mm_not_null s mm x W Hx) as Hm.
  eapply Forall_forall in Ha as Hwa; [|exact (mw_wf _ _ _ M)]. destruct Hwa as (A1 & A2 & A3 & A4).
  set (ne := brk x - k * PAGE_SIZE) in *. assert (Hk : 0 < k) by (unfold k, PAGE_SIZE in *; Z.to_euclidean_division_equations; lia).
  assert (Hal' : ne mod PAGE_SIZE = 0) by (unfold ne, PAGE_SIZE in *; Z.to_euclidean_division_equations; lia).
  assert (Hr : brk_start x + PAGE_SIZE <= ne < a_stop a) by (unfold ne, PAGE_SIZE in *; lia).
  assert (Hk' : (brk x - ne) / PAGE_SIZE = k) by (replace (brk x - ne) with (k * PAGE_SIZE) by (unfold ne; lia); by apply Z.div_mul).
  destruct (vmm_resize_area_ok s mm x l a (brk_start x) ne W Hx M Ha Hin ltac:(unfold in_area in Hin; lia) Hr Hal') as (s1 & l' & R & W1 & E & M' & C & S).
  rewrite Hstop, Hk' in *. set (y := with_areas l' (add_frames (- k) x)) in *.
  exists (set_mms (insert mm (with_brk ne y)) s1), l'. cbv zeta. split_and!.
  - unfold sbrk. do 2 (erewrite (st_bind_Ok (gets _)) by done; rewrite ?Hp, ?Hc; check).
    run (get_mm_ok s mm x Hx). erewrite (st_bind_Ok (ensure _)) by (apply ensure_true; by apply IS_PAGE_ALIGNED_true).
    rewrite (proj2 (Z.eqb_neq delta 0)), (proj2 (Z.ltb_ge 0 delta)) by (unfold PAGE_SIZE in *; lia). cbv zeta.
    rewrite (u32_small (- delta)) by (unfold PAGE_SIZE in *; lia). rewrite (proj2 (Z.ltb_ge (- delta) PAGE_SIZE)) by lia.
    assert ((if Z.land (- delta) 0xfff =? 0 then - delta else Z.land (- delta) 0xfffff000) = k * PAGE_SIZE) as ->.
    { rewrite land_fff, land_page by (unfold PAGE_SIZE in *; lia). fold k. destruct (Z.eqb_spec (- delta mod PAGE_SIZE) 0); [|done].
      unfold k, PAGE_SIZE in *. Z.to_euclidean_division_equations; lia. }
    fold ne. rewrite (u32_small ne) by (unfold in_area, PAGE_SIZE in *; lia).
    erewrite (st_bind_Ok (ensure _)) by (apply ensure_true, Z.ltb_lt; unfold PAGE_SIZE; lia). check.
    erewrite (st_bind_Ok (ensure _)) by (apply ensure_true; by apply IS_PAGE_ALIGNED_true). run R.
    erewrite (st_bind_Ok (get_mm mm)) by (apply get_mm_ok; by rewrite E, lookup_insert_eq). done.
  - apply on_cpu_put with s x; try done; [by rewrite (sd_privilege _ _ (sh_dirs _ _ _ _ _ S)) | by rewrite (sd_mm _ _ (sh_dirs _ _ _ _ _ S)) | by apply mm_wf_brk].
  - cbn. rewrite E. apply insert_insert_eq.
  - done.
  - by apply shrunk_set_mms.
Qed.

(** ** Growing the stack *)
Lemma guard_wf s s' d v p : vm_wf s -> user_dir s d -> IS_USER_SPACE v = true -> pt_wf s' -> entry_set d v p s s' ->
  frame p = frame (walk s d v) -> frame p <> 0 -> vm_wf s'.
Proof.
  intros W [_ Hd] Hu P E Hf Hz. split; [done | | rewrite (es_mms _ _ _ _ _ E); apply W].
  apply frames_wf_flags with d v p s; [apply W | done | by apply es_user | done | done | apply E].
Qed.
Lemma guard_mm s s' d v p x l : mm_wf s x l -> mm_directory x = d -> IS_USER_SPACE v = true -> entry_set d v p s s' ->
  frame p = frame (walk s d v) -> rw p = rw (walk s d v) -> present p = 1 \/ guard p = 1 -> mm_wf s' x l.
Proof.
  intros [M1 M2 M3 M4 M5 M6] <- Hu E Hf Hr Hp. pose proof (es_user _ _ _ _ _ Hu (proj2 M2) E) as Hw.
  split; [done | exact (user_dir_same _ _ _ (es_dirs _ _ _ _ _ E) M2) | done | done | |].
  - intros w b Hc. destruct (M5 w b Hc) as [[F1 F2] F3]. rewrite Hw. case_decide as Hd; [|done]. destruct Hd as [_ Hv].
    rewrite (walk_vpn s _ w v Hv) in F1, F3. split; [split; [congruence | done] | congruence].
  - intros w Hu'. rewrite Hw. case_decide as Hd; [|by apply M6]. destruct Hd as [_ Hv]. rewrite Hf, <- (walk_vpn s _ w v Hv). by apply M6.
Qed.
Lemma guard_space s s' d v p d' w : IS_USER_SPACE v = true -> is_Some (dirs s !! d) -> entry_set d v p s s' -> frame p = frame (walk s d v) ->
  ~ (d' = d /\ vpn w = vpn v) -> space s' d' w = space s d' w.
Proof.
  intros Hu Hd E Hf Hn. unfold space. rewrite (es_user _ _ _ _ _ Hu Hd E), decide_False, (es_pm _ _ _ _ _ E) by done. done.
Qed.

Lemma guard_step s x l v (b : bool) : vm_wf s -> mm_wf s x l -> let d := mm_directory x in IS_USER_SPACE v = true ->
  present (walk s d v) = (if b then 1 else 0) -> guard (walk s d v) = (if b then 0 else 1) -> frame (walk s d v) <> 0 ->
  exists s', vmm_set_guard_to v d b s = Ok (tt, s') /\ vm_wf s' /\ mm_wf s' x l /\ same_dirs s s' /\ mms s' = mms s /\ pm s' = pm s /\
    (forall d' w, walk s' d' w = if decide (d' = d /\ vpn w = vpn v) then guarded_page b (walk s d v) else walk s d' w) /\
    (forall d' w, ~ (d' = d /\ vpn w = vpn v) -> space s' d' w = space s d' w).
Proof.
  intros W M d Hu Hp Hg Hf. pose proof (mw_dir _ _ _ M) as Hd.
  destruct (vmm_set_guard_ok (fun _ _ => True) s d v b (wf_pt _ W) (user_reaches _ _ _ _ Hd Hu) Hp Hg) as (s' & R & P & E).
  exists s'. split_and!; [done | by apply (guard_wf s s' d v (guarded_page b (walk s d v))) | | apply E | apply E | apply E | exact (es_user _ _ _ _ _ Hu (proj2 Hd) E) |].
  - apply (guard_mm s s' d v (guarded_page b (walk s d v))); try done. destruct b; cbn; auto.
  - intros d' w. by apply (guard_space s s' d v (guarded_page b (walk s d v)) d' w Hu (proj2 Hd) E).
Qed.

(** What [page_fault_handler] does when the fault is on the guard page. *)
Definition GROW : Z := USER_STACK_GROW_SIZE.
Lemma stack_sizes g : 0 <= g < 2 ^ 32 -> g mod PAGE_SIZE = 0 -> g < USER_STACK_START -> USER_STACK_START - g - PAGE_SIZE + GROW < USER_STACK_SIZE_MAX ->
  let old := u32 (USER_STACK_START - g - PAGE_SIZE) in let new := u32 (old + USER_STACK_GROW_SIZE) in
  Z.land old 0xfff = 0 /\ Z.land new 0xfff = 0 /\ new < USER_STACK_SIZE_MAX /\
  u32 (USER_STACK_START - (new + PAGE_SIZE)) = g - GROW /\ u32 (USER_STACK_START - (old + PAGE_SIZE)) = g.
Proof.
  unfold GROW, USER_STACK_START, USER_STACK_SIZE_MAX, USER_STACK_GROW_SIZE, PAGE_SIZE. cbv zeta. intros H0 H1 H2 H3.
  assert (Hg : g <= 0xbffff000 - 4096) by (Z.to_euclidean_division_equations; lia).
  rewrite (u32_small (0xbffff000 - g - 4096)) by lia. rewrite (u32_small (0xbffff000 - g - 4096 + _)) by lia.
  rewrite !land_fff. unfold PAGE_SIZE. rewrite !u32_small by lia. split_and!; [Z.to_euclidean_division_equations; lia.. | lia | lia | lia].
Qed.

(** a fault on the guard page below the stack of a task makes its stack grow by 128 kiB:
    the old guard page becomes a usable page with the bytes it had, zeroed pages follow below
    it, the lowest of them is the new guard page, and no other byte of any task changes. *)
Theorem page_fault_grows_stack s mm x l addr esp : on_cpu s mm x l ->
  let g := user_stack_guard_page x in let d := mm_directory x in let ng := g - GROW in
  0x10000000 + GROW <= g < USER_STACK_START -> g mod PAGE_SIZE = 0 -> g <= addr <= g + PAGE_SIZE ->
  USER_STACK_START - g - PAGE_SIZE + GROW < USER_STACK_SIZE_MAX ->
  present (walk s d g) = 0 -> guard (walk s d g) = 1 -> frame (walk s d g) <> 0 ->
  Forall (fun a => g <= a_start a \/ a_stop a <= ng) l -> GROW / PAGE_SIZE <= frames_with false (pm s) ->
  exists s' x' l', page_fault_handler addr esp s = Ok (esp, s') /\ on_cpu s' mm x' l' /\ user_stack_guard_page x' = ng /\
    (forall v b, covers l' v b <-> covers l v b \/ (ng <= v < g /\ b = true)) /\
    present (walk s' d ng) = 0 /\ guard (walk s' d ng) = 1 /\
    (forall v, ng + PAGE_SIZE <= v < g -> space s' d v = Some (user_page 0 true, 0)) /\
    (forall v, g <= v < g + PAGE_SIZE -> space s' d v = option_map (fun '(p, b) => (guarded_page false p, b)) (space s d v)) /\
    (forall d' v, IS_USER_SPACE v = true -> ~ (d' = d /\ ng <= v < g + PAGE_SIZE) -> space s' d' v = space s d' v).
Proof.
  intros [W Hp Hc Hx M] g d ng Hg Hal Haddr Hmax Hpr Hgu Hfr Hap Hfree. pose proof (mm_not_null s mm x W Hx) as Hm.
  unfold USER_STACK_START in Hg. assert (EG : GROW = 32 * PAGE_SIZE) by done.
  assert (Hng : ng mod PAGE_SIZE = 0) by (unfold ng; rewrite EG, Zminus_mod, Hal, Z.mod_mul by done; done).
  destruct (stack_sizes g ltac:(lia) Hal ltac:(unfold USER_STACK_START; lia) Hmax) as (Z1 & Z2 & Z3 & Z4 & Z5). fold ng in Z4.
  change GROW with 0x20000 in *. change PAGE_SIZE with 0x1000 in EG.
  assert (Hf' : (g - ng) / PAGE_SIZE <= frames_with false (pm s)) by (replace (g - ng) with 0x20000 by (unfold ng; lia); done).
  destruct (vmm_alloc_user_ok s mm x l ng g true W Hx M Hng Hal ltac:(lia) ltac:(lia) Hap Hf') as (s1 & l' & R & W1 & E & M1 & C & _ & G).
  set (y := with_areas l' _) in *. fold d in G.
  assert (Hug : IS_USER_SPACE g = true) by (apply user_space; lia). assert (Hun : IS_USER_SPACE ng = true) by (apply user_space; lia).
  assert (Hwg : walk s1 d g = walk s d g) by (apply (g_other _ _ _ _ _ _ G); lia).
  destruct (guard_step s1 y l' g false W1 M1 Hug) as (s2 & R2 & W2 & M2 & S2 & E2 & P2 & Hw2 & Sp2); [change (mm_directory y) with d; by rewrite Hwg..|].
  destruct (g_new _ _ _ _ _ _ G ng ltac:(lia)) as (f & Hwn & Hff & _). assert (Hf0 : f <> 0) by (intros ->; by rewrite (fw_zero _ (wf_frames _ W)) in Hff).
  change (mm_directory y) with d in *.
  assert (Hwn2 : walk s2 d ng = user_page f true) by (rewrite Hw2, decide_False; [done|]; rewrite vpn_range by done; unfold PAGE_SIZE; lia).
  destruct (guard_step s2 y l' ng true W2 M2 Hun) as (s3 & R3 & W3 & M3 & S3 & E3 & P3 & Hw3 & Sp3); [change (mm_directory y) with d; by rewrite Hwn2..|].
  change (mm_directory y) with d in *. rewrite Hwn2 in Hw3. rewrite Hwg in Hw2.
  assert (S13 : same_dirs s s3) by (trans s1; [apply G|]; by trans s2).
  set (z := with_guard_page ng y). exists (set_mms (insert mm z) s3), z, l'. split_and!.
  - unfold page_fault_handler. do 2 (erewrite (st_bind_Ok (gets _)) by done). rewrite Hp, Hc, (proj2 (Z.eqb_neq mm 0)) by done. cbn [negb orb Z.eqb Pos.eqb].
    run (get_mm_ok s mm x Hx). cbv zeta. fold g. rewrite (u32_small (g + PAGE_SIZE)) by (unfold PAGE_SIZE; lia).
    rewrite (proj2 (Z.leb_le g addr)), (proj2 (Z.leb_le addr (g + PAGE_SIZE))) by lia. cbn [negb andb].
    rewrite Z1, Z2. do 2 check. rewrite (proj2 (Z.leb_gt _ _) Z3), Z4, Z5. fold d. run R. unfold vmm_clear_guard, vmm_set_guard.
    run R2. run R3. erewrite (st_bind_Ok (get_mm mm)) by (apply get_mm_ok; by rewrite E3, E2, E, lookup_insert_eq). done.
  - apply on_cpu_put with s x; try done; [by rewrite (sd_privilege _ _ S13) | by rewrite (sd_mm _ _ S13) | by destruct M3].
  - done.
  - done.
  - change (walk (set_mms _ s3)) with (walk s3). by rewrite Hw3, decide_True.
  - change (walk (set_mms _ s3)) with (walk s3). by rewrite Hw3, decide_True.
  - intros v Hv. change (space (set_mms _ s3)) with (space s3).
    rewrite Sp3, Sp2 by (rewrite vpn_range by done; unfold PAGE_SIZE in *; lia).
    apply (grown_space_new _ _ _ _ s _ v (wf_frames _ W) G). unfold PAGE_SIZE in *. lia.
  - intros v Hv. change (space (set_mms _ s3)) with (space s3). rewrite Sp3 by (rewrite vpn_range by done; unfold PAGE_SIZE in *; lia).
    apply vpn_range in Hv as Hv'; [|done]. unfold space. rewrite Hw2, decide_True, P2, (walk_vpn s d v g Hv') by done.
    cbn [frame guarded_page with_frame]. destruct (Z.eqb_spec (frame (walk s d g)) 0); [done|]. cbn.
    rewrite (g_ram _ _ _ _ _ _ G); [done|]. rewrite page_byte. by apply (fw_used _ (wf_frames _ W)).
  - intros d' v Hu Hn. change (space (set_mms _ s3)) with (space s3).
    rewrite Sp3, Sp2 by (rewrite vpn_range by done; intros [-> ?]; apply Hn; unfold PAGE_SIZE in *; split; [done | lia]).
    apply (grown_space _ _ _ _ s _ d' v (wf_frames _ W) G); [done|]. intros [-> ?]. apply Hn. unfold PAGE_SIZE in *. split; [done | lia].
Qed.

(** ** Growing and shrinking the break *)
Lemma extend_at_end lo hi wr l1 a l2 : disjoint_areas (l1 ++ a :: l2) -> Forall area_wf (l1 ++ a :: l2) ->
  Forall (fun c => hi < a_start c \/ a_stop c <= lo) (l1 ++ a :: l2) -> lo < hi -> a_stop a = lo -> a_writable a = wr ->
  extend_area lo hi wr (l1 ++ a :: l2) = Ok (Some (l1 ++ mk_area (a_start a) hi wr :: l2)).
Proof.
  intros Hd Hw Hap Hlt Ea Hwr. induction l1 as [|c l1 IH]; cbn [app extend_area] in *.
  - apply Forall_cons in Hap as [Ha _], Hw as [Hwa _]. unfold area_wf in Hwa. rewrite (proj2 (Z.eqb_neq (a_start a) hi)) by lia. cbn [andb].
    rewrite Ea, Z.eqb_refl, Hwr, eqb_reflx. done.
  - apply Forall_cons in Hap as [Hc Hap], Hw as [Hwc Hw]. destruct Hd as [Hd1 Hd].
    assert (Hac : apart c a) by (eapply Forall_forall; [exact Hd1|]; apply elem_of_app; right; apply elem_of_cons; by left).
    apply Forall_app in Hw as Hw'. destruct Hw' as [_ [Hwa _]%Forall_cons]. unfold apart, area_wf in *.
    rewrite (proj2 (Z.eqb_neq (a_start c) hi)), (proj2 (Z.eqb_neq (a_stop c) lo)) by lia. cbn [andb].
    destruct ((_ && _) || (_ && _)) eqn:E3; [exfalso; apply orb_true_iff in E3; destruct E3; bool_to_prop; lia|].
    rewrite IH by done. done.
Qed.

(** asking [sbrk] for [k] pages gives the old break and [k] zeroed, writable pages from
    there; giving them back makes every address space, the break, the areas, the frame count and
    the number of free frames what they were. *)
Theorem sbrk_round_trip s mm x l a k : on_cpu s mm x l -> let d := mm_directory x in let ne := brk x + k * PAGE_SIZE in
  0 < k -> k * PAGE_SIZE < 2 ^ 31 -> brk x mod PAGE_SIZE = 0 -> 0x10000000 <= brk x -> ne < USER_STACK_START - USER_STACK_SIZE_MAX ->
  Forall (fun c => ne < a_start c \/ a_stop c <= brk x) l -> k <= frames_with false (pm s) ->
  a ∈ l -> in_area (brk_start x) a -> a_stop a = brk x -> a_writable a = true ->
  brk_start x + PAGE_SIZE <= brk x -> initial_brk x <= brk x -> 0 <= frames_used x < 2 ^ 32 ->
  exists s1 s2 x2 l2,
    sbrk (k * PAGE_SIZE) s = Ok (brk x, s1) /\
    (forall v, brk x <= v < ne -> space s1 d v = Some (user_page 0 true, 0)) /\
    (forall d' v, IS_USER_SPACE v = true -> ~ (d' = d /\ brk x <= v < ne) -> space s1 d' v = space s d' v) /\
    sbrk (- (k * PAGE_SIZE)) s1 = Ok (ne, s2) /\
    (forall d' v, IS_USER_SPACE v = true -> space s2 d' v = space s d' v) /\
    frames_with false (pm s2) = frames_with false (pm s) /\
    on_cpu s2 mm x2 l2 /\ brk x2 = brk x /\ frames_used x2 = frames_used x /\ (forall v b, covers l2 v b <-> covers l v b).
Proof.
  intros Hr d ne Hk Hk31 Hal Hlo Hne Hap Hfree Ha Hin Hstop Hwr Hbs Hib Hfu.
  assert (Eup : round_page (brk x + k * PAGE_SIZE) = ne) by (unfold round_page, ne, PAGE_SIZE in *; Z.to_euclidean_division_equations; lia).
  assert (Ek : (ne - brk x) / PAGE_SIZE = k) by (replace (ne - brk x) with (k * PAGE_SIZE) by (unfold ne; lia); by apply Z.div_mul).
  assert (Hlt : brk x < ne) by (unfold ne, PAGE_SIZE; lia).
  assert (Hap' : Forall (fun c => ne <= a_start c \/ a_stop c <= brk x) l) by (eapply Forall_impl; [exact Hap|]; cbn; lia).
  pose proof (sbrk_grow_ok s mm x l (k * PAGE_SIZE) Hr Hal Hlo ltac:(unfold PAGE_SIZE; lia)) as Hgrow. cbv zeta in Hgrow. rewrite Eup, Ek in Hgrow.
  destruct (Hgrow Hne Hap' Hfree) as (s1 & l1 & R1 & Hr1 & E1 & C1 & (o & Ho & El) & G1). clear Hgrow.
  set (x1 := with_brk ne _) in *. pose proof (run_areas _ _ _ _ Hr) as M. apply list_elem_of_split in Ha as (k1 & k2 & ->).
  rewrite extend_at_end in Ho by (done || apply M). injection Ho as <-. cbn [stored] in El.
  assert (Hal1 : ne mod PAGE_SIZE = 0) by (unfold ne; rewrite Z.mod_add; done).
  assert (Edr : - - (k * PAGE_SIZE) / PAGE_SIZE = k) by (rewrite Z.opp_involutive; by apply Z.div_mul).
  pose proof (sbrk_shrink_ok s1 mm x1 l1 (mk_area (a_start a) ne true) (- (k * PAGE_SIZE)) Hr1 Hal1) as Hs. cbv zeta in Hs. rewrite Edr in Hs.
  assert (Ebk : brk x1 - k * PAGE_SIZE = brk x) by (cbn; unfold ne; lia). rewrite Ebk in Hs.
  destruct Hs as (s2 & l2 & R2 & Hr2 & E2 & C2 & S2); [| unfold in_area in *; cbn; lia | done | unfold PAGE_SIZE in *; lia | done | done |].
  { rewrite El. apply elem_of_app. right. apply elem_of_cons. by left. }
  exists s1, s2, (with_brk (brk x) (with_areas l2 (add_frames (- k) x1))), l2.
  pose proof (wf_frames _ (run_wf _ _ _ _ Hr)) as F. split_and!; try done.
  - intros v Hv. by apply (grown_space_new _ _ _ _ s _ v F G1).
  - intros d' v Hu Hn. by apply (grown_space _ _ _ _ s _ d' v F G1).
  - intros d' v Hu. destruct (decide (d' = d /\ brk x <= v < ne)) as [[-> Hv]|Hn].
    + unfold space. rewrite (sh_gone _ _ _ _ _ S2) by (cbn; lia). cbn. enough (walk s d v = page0) as -> by done.
      apply not_free_page0; [done | done|]. intros Hf. destruct (mw_only _ _ _ M v Hu Hf) as (b & c & Hc & Hinc & _).
      eapply Forall_forall in Hc; [|exact Hap]. unfold in_area in Hinc. cbn in Hc. lia.
    + rewrite (shrunk_space _ _ _ _ _ d' v S2 Hn). by apply (grown_space _ _ _ _ s _ d' v F G1).
  - rewrite (sh_free _ _ _ _ _ S2), (g_free _ _ _ _ _ _ G1). cbn [brk x1 with_brk]. rewrite Ek. lia.
  - cbn. unfold u32. rewrite Zplus_mod_idemp_l. replace (frames_used x + k + - k) with (frames_used x) by lia. by apply Z.mod_small.
  - intros v b. rewrite C2, C1. cbn [brk x1 with_brk]. split; [intros [[|[]] ?]; tauto|]. intros Hc. split; [by left|]. intros Hv.
    destruct Hc as (c & Hc & Hinc & _). eapply Forall_forall in Hc; [|exact Hap]. unfold in_area in Hinc. cbn in Hc. lia.
Qed.

(** a task cannot give back all of its heap: [sbrk] down to the break the task started with
    is allowed by [sbrk]'s own check, and then stops the system in [vmm_resize_area]. *)
Theorem sbrk_to_initial_panics s mm x l : on_cpu s mm x l -> brk x mod PAGE_SIZE = 0 -> brk_start x mod PAGE_SIZE = 0 ->
  initial_brk x = brk_start x -> 0 <= brk_start x -> brk_start x < brk x -> brk x < 2 ^ 31 ->
  sbrk (brk_start x - brk x) s = Panic.
Proof.
  intros [W Hp Hc Hx M] Hal Hal' Hib H0 Hlt Hlim. pose proof (mm_not_null s mm x W Hx) as Hm.
  assert (HP : PAGE_SIZE <= brk x - brk_start x) by (unfold PAGE_SIZE in *; Z.to_euclidean_division_equations; lia).
  unfold sbrk. do 2 (erewrite (st_bind_Ok (gets _)) by done; rewrite ?Hp, ?Hc; check).
  run (get_mm_ok s mm x Hx). erewrite (st_bind_Ok (ensure _)) by (apply ensure_true; by apply IS_PAGE_ALIGNED_true).
  rewrite (proj2 (Z.eqb_neq (brk_start x - brk x) 0)), (proj2 (Z.ltb_ge 0 (brk_start x - brk x))) by lia. cbv zeta.
  rewrite (u32_small (- (brk_start x - brk x))) by lia. rewrite (proj2 (Z.ltb_ge _ PAGE_SIZE)) by lia.
  rewrite land_fff. replace (- (brk_start x - brk x)) with (brk x - brk_start x) by lia. rewrite Zminus_mod, Hal, Hal'.
  change ((0 - 0) mod PAGE_SIZE =? 0) with true. cbv iota.
  replace (brk x - (brk x - brk_start x)) with (brk_start x) by lia. rewrite (u32_small (brk_start x)) by lia. unfold PAGE_SIZE in HP. do 2 check.
  erewrite (st_bind_Ok (ensure _)) by (apply ensure_true; by apply IS_PAGE_ALIGNED_true).
  unfold vmm_resize_area. rewrite (u32_small (brk_start x + PAGE_SIZE)) by (unfold PAGE_SIZE; lia).
  rewrite (proj2 (Z.leb_gt (brk_start x + PAGE_SIZE) (brk_start x))) by (unfold PAGE_SIZE; lia). done.
Qed.
End Brk.

Lemma demo_on_cpu : on_cpu demo 5 demo_mm [mk_area 0x10000000 0x10001000 true; mk_area demo_guard (demo_guard + PAGE_SIZE) true].
Proof. split; [exact demo_vm_wf | done | done | done | exact demo_mm_wf]. Qed.

Lemma page_fault_grows_stack_witness : exists s', page_fault_handler (demo_guard + 0x800) 77 demo = Ok (77, s') /\
  space demo 2 (demo_guard - 0x800) = None /\ space s' 2 (demo_guard - 0x800) = Some (user_page 0 true, 0).
Proof.
  destruct (page_fault_grows_stack demo 5 demo_mm _ (demo_guard + 0x800) 77 demo_on_cpu) as (s' & x' & l' & R & _ & _ & _ & _ & _ & Hn & _).
  - done.
  - done.
  - done.
  - done.
  - done.
  - done.
  - done.
  - repeat constructor; cbn; unfold demo_guard, GROW, USER_STACK_GROW_SIZE; lia.
  - done.
  - exists s'. split_and!; [exact R | reflexivity | apply (Hn (demo_guard - 0x800)); clear; vm_compute; split; [discriminate | reflexivity]].
Defined.

Lemma sbrk_round_trip_witness : exists s1 s2, sbrk 0x3000 demo = Ok (0x10001000, s1) /\ sbrk (-0x3000) s1 = Ok (0x10004000, s2) /\
  frames_with false (pm s2) = frames_with false (pm demo).
Proof.
  destruct (sbrk_round_trip demo 5 demo_mm _ (mk_area 0x10000000 0x10001000 true) 3 demo_on_cpu) as (s1 & s2 & x2 & l2 & R1 & _ & _ & R2 & _ & Hf & _).
  1-5: done.
  - repeat constructor; cbn; unfold demo_guard; lia.
  - done.
  - by left.
  - done.
  - done.
  - done.
  - done.
  - done.
  - done.
  - exists s1, s2. split_and!; [exact R1 | exact R2 | exact Hf].
Defined.

Lemma sbrk_to_initial_panics_witness : sbrk (-0x1000) demo = Panic.
Proof. apply (sbrk_to_initial_panics demo 5 demo_mm _ demo_on_cpu); done. Defined.
