(* ===== verification/VmmClone.v ===== *)
(** * The virtual memory manager: cloning an address space

    [clone_user_page_directory] and [vmm_clone_mm], the memory side of [fork].  [cloned p c lo
    hi] says that the pages [lo, hi) of the child directory [c] have the contents of the
    parent's ([p]), in frames of their own; the two loops compose it page by page. *)
From S2P Require Import Prelude Pmm Vmm VmmInv VmmUser VmmSpec.

(** The pages that are copied. *)
Definition copied (s : vmm) (p k : Z) : bool := IS_USER_SPACE (k * PAGE_SIZE) && negb (frame (walk s p (k * PAGE_SIZE)) =? 0).
Definition copies (s : vmm) (p lo hi : Z) : Z := count (copied s p) (Z.to_nat (hi - lo)) lo.

Record cloned (p c lo hi : Z) (s s' : vmm) : Prop := {
  cl_dirs : same_dirs s s';
  cl_intr : intr (pm s') = intr (pm s);
  cl_other d v : ~ (d = c /\ lo <= vpn v < hi) -> walk s' d v = walk s d v;
  cl_space v : lo <= vpn v < hi -> IS_USER_SPACE v = true -> space s' c v = space s p v;
  cl_kernel v : lo <= vpn v < hi -> IS_USER_SPACE v = false -> walk s' c v = walk s p v;
  cl_used j : frame_used (pm s) j = true -> frame_used (pm s') j = true;
  cl_ram x : frame_used (pm s) (x / PAGE_SIZE) = true -> ram (pm s') x = ram (pm s) x;
  cl_free : frames_with false (pm s') = frames_with false (pm s) - copies s p lo hi
}.

Lemma copies_app s p lo mid hi : lo <= mid <= hi -> copies s p lo hi = copies s p lo mid + copies s p mid hi.
Proof.
  intros H. unfold copies. replace (Z.to_nat (hi - lo)) with (Z.to_nat (mid - lo) + Z.to_nat (hi - mid))%nat by lia.
  rewrite count_app. by replace (lo + Z.of_nat (Z.to_nat (mid - lo))) with mid by lia.
Qed.
Lemma copies_ext s s' p lo hi : (forall v, IS_USER_SPACE v = true -> walk s' p v = walk s p v) -> copies s' p lo hi = copies s p lo hi.
Proof.
  intros H. apply count_ext. intros k _. unfold copied. destruct (IS_USER_SPACE (k * PAGE_SIZE)) eqn:E; [|done]. by rewrite H.
Qed.
Lemma copies_bound s p lo hi : 0 <= copies s p lo hi.
Proof. apply count_bound. Qed.
Lemma copies_one s p k : copies s p k (k + 1) = if copied s p k then 1 else 0.
Proof. unfold copies. replace (Z.to_nat (k + 1 - k)) with 1%nat by lia. cbn [count]. lia. Qed.
Lemma copies_none s p lo hi : (forall k, lo <= k < hi -> copied s p k = false) -> copies s p lo hi = 0.
Proof. intros H. apply count_none. intros k Hk. apply H. lia. Qed.

Lemma cloned_nil p c a s : cloned p c a a s s.
Proof. split; try done; try (intros; lia). unfold copies. rewrite Z.sub_diag. change (Z.to_nat 0) with 0%nat. cbn [count]. lia. Qed.

Lemma cloned_app p c lo mid hi s s1 s2 : frames_wf s -> frames_wf s1 -> p <> c -> lo <= mid <= hi ->
  cloned p c lo mid s s1 -> cloned p c mid hi s1 s2 -> cloned p c lo hi s s2.
Proof.
  intros F F1 Hpc Hm [A1 A2 A3 A4 A5 A6 A7 A8] [B1 B2 B3 B4 B5 B6 B7 B8].
  assert (Hp : forall v, walk s1 p v = walk s p v) by (intros v; apply A3; by intros []).
  split; [by etrans | congruence | | | | eauto | |].
  - intros d v Hn. rewrite B3, A3; [done|..]; intros [-> ?]; apply Hn; (split; [done | lia]).
  - intros v Hv Hu. destruct (decide (vpn v < mid)).
    + rewrite <- A4 by (done || lia). unfold space. rewrite B3 by lia. destruct (Z.eqb_spec (frame (walk s1 c v)) 0) as [|Hz]; [done|].
      rewrite B7; [done|]. rewrite page_byte. by apply F1.
    + rewrite B4 by (done || lia). unfold space. rewrite Hp. destruct (Z.eqb_spec (frame (walk s p v)) 0) as [|Hz]; [done|].
      rewrite A7; [done|]. rewrite page_byte. by apply F.
  - intros v Hv Hk. destruct (decide (vpn v < mid)); [rewrite B3 by lia; apply A5; (done || lia)|]. rewrite B5, Hp by (done || lia). done.
  - intros x Hx. rewrite B7; [by apply A7|]. by apply A6.
  - rewrite B8, A8, (copies_ext s s1 p mid hi), (copies_app s p lo mid hi) by (done || lia). lia.
Qed.

(** A range where nothing has to be done. *)
Lemma cloned_same p c lo hi s : (forall v, lo <= vpn v < hi -> walk s c v = walk s p v /\ frame (walk s p v) = 0) -> cloned p c lo hi s s.
Proof.
  intros H. split; try done.
  - intros v Hv _. destruct (H v Hv) as [E Ez]. unfold space. by rewrite E, Ez.
  - intros v Hv _. by apply H.
  - rewrite copies_none; [lia|]. intros k Hk. unfold copied. rewrite (proj2 (H (k * PAGE_SIZE) ltac:(unfold vpn; rewrite Z.div_mul by done; lia))).
    apply andb_false_r.
Qed.

Lemma space_kept s s' d v : frames_wf s -> IS_USER_SPACE v = true -> walk s' d v = walk s d v ->
  (forall x, frame_used (pm s) (x / PAGE_SIZE) = true -> ram (pm s') x = ram (pm s) x) -> space s' d v = space s d v.
Proof.
  intros F Hu Hw Hr. unfold space. rewrite Hw. destruct (Z.eqb_spec (frame (walk s d v)) 0) as [|Hz]; [done|].
  rewrite Hr; [done|]. rewrite page_byte. by apply F.
Qed.

Lemma vpn_page k : vpn (k * PAGE_SIZE) = k.
Proof. by apply Z.div_mul. Qed.

(** ** One page *)
Lemma copy_wf q r : pmm_wf q -> pmm_wf (set_ram q r).
Proof. by intros []. Qed.

Lemma copy_byte src i m o : 0 <= o < PAGE_SIZE -> copy_page_physical src (i * PAGE_SIZE) m (i * PAGE_SIZE + o) = m (src + o).
Proof.
  intros Ho. unfold copy_page_physical. rewrite (proj2 (Z.leb_le _ _)), (proj2 (Z.ltb_lt _ _)) by lia. cbn. f_equal. lia.
Qed.
Lemma copy_else src i m x : x / PAGE_SIZE <> i -> copy_page_physical src (i * PAGE_SIZE) m x = m x.
Proof.
  intros Hx. unfold copy_page_physical. destruct (Z.leb_spec (i * PAGE_SIZE) x), (Z.ltb_spec x (i * PAGE_SIZE + PAGE_SIZE)); cbn; try done.
  destruct Hx. unfold PAGE_SIZE in *. Z.to_euclidean_division_equations; lia.
Qed.

(** The state after a frame [i] was taken, the page copied into it and entered at [k] in [c]. *)
Lemma page_cloned s s' p c k i q : frames_wf s -> p <> c -> IS_USER_SPACE (k * PAGE_SIZE) = true ->
  let e := walk s p (k * PAGE_SIZE) in frame e <> 0 -> searched (pm s) i -> frame_used (pm s) i = false ->
  (forall j, frame_used q j = if decide (i = j) then true else frame_used (pm s) j) ->
  (forall x, ram q x = if decide (i * PAGE_SIZE <= x < i * PAGE_SIZE + PAGE_SIZE) then 0 else ram (pm s) x) ->
  intr q = intr (pm s) -> nframes q = nframes (pm s) -> pmm_wf q -> frames_with false q = frames_with false (pm s) - 1 ->
  pm s' = set_ram q (copy_page_physical (frame e * PAGE_SIZE) (i * PAGE_SIZE) (ram q)) -> same_dirs s s' ->
  (forall d' w, walk s' d' w = if decide (d' = c /\ vpn w = k) then with_frame i e else walk s d' w) ->
  cloned p c k (k + 1) s s' /\ frames_wf s'.
Proof.
  intros F Hpc Hu e He Hs Hi Q1 Q2 Q3 Q4 Q5 Q6 Hpm S Hw.
  pose proof (vpn_page k) as Hk.
  destruct (fw_used _ F p _ Hu He) as [Hsf Huf]. fold e in Hsf, Huf.
  assert (Hram : forall x, frame_used (pm s) (x / PAGE_SIZE) = true -> ram (pm s') x = ram (pm s) x).
  { intros x Hx. rewrite Hpm. cbn [ram set_ram]. rewrite copy_else by congruence. rewrite Q2, decide_False; [done|]. intros Hx'.
    assert (x / PAGE_SIZE = i) by (unfold PAGE_SIZE in *; Z.to_euclidean_division_equations; lia). congruence. }
  split; [split|].
  - done.
  - rewrite Hpm. exact Q3.
  - intros d v Hn. rewrite Hw, decide_False; [done|]. intros [-> E]. apply Hn. split; [done | lia].
  - intros v Hv _. assert (Ev : vpn v = k) by lia. unfold space. rewrite Hw, decide_True by done. cbn [frame with_frame].
    rewrite (walk_vpn s p v (k * PAGE_SIZE)) by congruence. fold e.
    rewrite (proj2 (Z.eqb_neq i 0)) by (intros ->; by rewrite (fw_zero _ F) in Hi). rewrite (proj2 (Z.eqb_neq (frame e) 0)) by done.
    rewrite Hpm. cbn [ram set_ram]. rewrite copy_byte by (apply Z.mod_pos_bound; done).
    rewrite Q2, decide_False; [done|]. intros Hx. assert (frame e = i); [|congruence].
    pose proof (Z.mod_pos_bound v PAGE_SIZE ltac:(done)). unfold PAGE_SIZE in *. lia.
  - intros v Hv Hk'. rewrite (user_vpn (k * PAGE_SIZE) v) in Hk'; [done | rewrite Hk; lia | done].
  - intros j Hj. rewrite Hpm. cbn. change (frame_used (set_ram q _) j) with (frame_used q j). rewrite Q1, Hj. by case_decide.
  - done.
  - rewrite Hpm, copies_one. change (frames_with false (set_ram q _)) with (frames_with false q). rewrite Q6. unfold copied.
    fold e. rewrite Hu, (proj2 (Z.eqb_neq (frame e) 0)) by done. done.
  - apply frames_wf_map with c (k * PAGE_SIZE) (with_frame i e) i s; rewrite ?Hpm; try done; [|by apply copy_wf].
    intros d' w. rewrite Hw, Hk. done.
Qed.

Lemma add_frames_0 x : 0 <= frames_used x < 2 ^ 32 -> add_frames 0 x = x.
Proof. intros Hx. unfold add_frames. rewrite Z.add_0_r, u32_small by done. by destruct x. Qed.

Section Clone.
Context `{KernelAlloc}.
Context (K : Z -> Z -> Prop).

(** One round of the loop over a table's entries. *)
Lemma clone_entry_ok s p c pd cd i j cm x : pt_wf_at K s -> frames_wf s -> p <> c -> dirs s !! p = Some pd -> dirs s !! c = Some cd ->
  tables pd i <> 0 -> tables cd i <> 0 -> let k := i * 1024 + j in 0 <= j < 1024 -> IS_USER_SPACE (k * PAGE_SIZE) = true ->
  walk s c (k * PAGE_SIZE) = page0 -> copies s p k (k + 1) <= frames_with false (pm s) ->
  mms s !! cm = Some x -> 0 <= frames_used x < 2 ^ 32 ->
  exists s', (forall f : () -> VM (), (e ← get_page (tables pd i, j);
       (if negb (frame e =? 0) then
         phys ← on_pmm pmm_alloc;
         y ← get_mm cm;
         put_mm cm (add_frames 1 y) ;;
         on_pmm_ (fun q => Ok (set_ram q (copy_page_physical (frame e * PAGE_SIZE) phys (ram q)))) ;;
         put_page (tables cd i, j) (with_frame (phys / PAGE_SIZE) e)
        else mret tt) ≫= f) s = f tt s') /\
    pt_wf_at K s' /\ frames_wf s' /\ dirs s' = dirs s /\ mms s' = <[cm := add_frames (copies s p k (k + 1)) x]> (mms s) /\
    cloned p c k (k + 1) s s'.
Proof.
  intros P F Hpc Hp Hc Htp Htc k Hj Hu Hw0 Hfree Hx Hb.
  assert (EPT : PT (k * PAGE_SIZE) = i /\ PO (k * PAGE_SIZE) = j)
    by (unfold PT, PO, k; change PAGE_SIZE with 4096; rewrite Z.div_mul by done; Z.to_euclidean_division_equations; lia).
  destruct EPT as [EP EO]. destruct (pt_table K s p pd i P Hp Htp) as [tp Hptp].
  assert (Etp : tp j = walk s p (k * PAGE_SIZE)) by (symmetry; rewrite <- EO; apply walk_at with pd; [done | by rewrite EP]).
  set (e := walk s p (k * PAGE_SIZE)) in *. rewrite copies_one in Hfree |- *. unfold copied in *. rewrite Hu in *. fold e in Hfree |- *. cbn [andb] in *.
  destruct (Z.eqb_spec (frame e) 0) as [Hz|Hz]; cbn [negb] in *.
  { exists s. split_and!; [|done | done | done | by rewrite add_frames_0, insert_id |].
    - intros f. run (get_page_at s _ tp j Hptp). rewrite Etp, Hz. done.
    - apply cloned_same. intros v Hv. rewrite (walk_vpn s c v (k * PAGE_SIZE)), (walk_vpn s p v (k * PAGE_SIZE)) by (rewrite vpn_page; lia).
      fold e. rewrite Hw0. split; [|done]. symmetry. by apply (fw_page0 _ F). }
  destruct (pmm_alloc_some (pm s)) as (f & q & Hq & Hs & Hf & Q1 & Q2 & Q3 & Q4 & Q5 & Q6); [apply F | lia |].
  set (s1 := set_pm (set_ram q (copy_page_physical (frame e * PAGE_SIZE) (f * PAGE_SIZE) (ram q))) (set_mms (insert cm (add_frames 1 x)) (set_pm q s))).
  assert (P1 : pt_wf_at K s1) by (by destruct P). destruct (pt_table K s1 c cd i P1 Hc Htc) as [tc Hptc]. rewrite <- EP in Hptc.
  destruct (put_page_ok K s1 c cd tc (k * PAGE_SIZE) (with_frame f e) P1 Hc Hptc (or_introl Hu)) as (s2 & R2 & P2 & D2 & E2). rewrite EP, EO in R2.
  pose proof (es_user _ _ _ _ _ Hu (ltac:(eauto) : is_Some (dirs s1 !! c)) E2) as Hw. 
  destruct (page_cloned s s2 p c k f q F Hpc Hu Hz Hs Hf Q1 Q2 Q3 Q4 Q5 Q6 (es_pm _ _ _ _ _ E2)) as [C2 F2].
  { by destruct (es_dirs _ _ _ _ _ E2). } { intros d' w. rewrite Hw, vpn_page. done. }
  exists s2. split_and!; [|done | done | done | exact (es_mms _ _ _ _ _ E2) | done].
  intros g. run (get_page_at s _ tp j Hptp). rewrite Etp. fold e. rewrite (proj2 (Z.eqb_neq (frame e) 0)) by done. cbn [negb].
  erewrite (st_bind_Ok _ g); [done|]. run (on_pmm_ok pmm_alloc s _ _ Hq). run (get_mm_ok (set_pm q s) cm x Hx).
  erewrite (st_bind_Ok (put_mm _ _)) by done. erewrite (st_bind_Ok (on_pmm_ _)) by done. rewrite Z.div_mul by done. exact R2.
Qed.

Lemma frames_bound n x : 0 <= frames_used (add_frames n x) < 2 ^ 32.
Proof. apply u32_bound. Qed.

Lemma clone_entries_ok n s p c pd cd i j cm x : pt_wf_at K s -> frames_wf s -> p <> c -> dirs s !! p = Some pd -> dirs s !! c = Some cd ->
  tables pd i <> 0 -> tables cd i <> 0 -> 0 <= j -> j + Z.of_nat n <= 1024 ->
  (forall k, i * 1024 <= k < (i + 1) * 1024 -> IS_USER_SPACE (k * PAGE_SIZE) = true) ->
  let lo := i * 1024 + j in let hi := lo + Z.of_nat n in
  (forall k, lo <= k < hi -> walk s c (k * PAGE_SIZE) = page0) -> copies s p lo hi <= frames_with false (pm s) ->
  mms s !! cm = Some x -> 0 <= frames_used x < 2 ^ 32 ->
  exists s', clone_entries n j (tables pd i) (tables cd i) cm s = Ok (tt, s') /\
    pt_wf_at K s' /\ frames_wf s' /\ dirs s' = dirs s /\ mms s' = <[cm := add_frames (copies s p lo hi) x]> (mms s) /\ cloned p c lo hi s s'.
Proof.
  intros P F Hpc Hp Hc Htp Htc. revert s j x P F Hp Hc. induction n as [|n IH]; intros s j x P F Hp Hc Hj Hn Hu lo hi Hw0 Hfree Hx Hb; cbn [clone_entries].
  { exists s. unfold hi. replace (lo + Z.of_nat 0) with lo by lia. pose proof (cloned_nil p c lo s) as Cn.
    split_and!; try done. rewrite copies_none by lia. by rewrite add_frames_0, insert_id. }
  assert (Hsplit : copies s p lo hi = copies s p lo (lo + 1) + copies s p (lo + 1) hi) by (apply copies_app; lia).
  pose proof (copies_bound s p lo (lo + 1)). pose proof (copies_bound s p (lo + 1) hi).
  destruct (clone_entry_ok s p c pd cd i j cm x P F Hpc Hp Hc Htp Htc ltac:(lia)) as (s1 & R1 & P1 & F1 & D1 & M1 & C1);
    [apply Hu; lia | apply Hw0; lia | fold lo; lia | done | done |]. fold lo in M1, C1.
  destruct (IH s1 (j + 1) (add_frames (copies s p lo (lo + 1)) x)) as (s2 & R2 & P2 & F2 & D2 & M2 & C2); rewrite ?D1; try done || lia.
  - intros k Hk. rewrite (cl_other _ _ _ _ _ _ C1) by (rewrite vpn_page; lia). apply Hw0. lia.
  - replace (i * 1024 + (j + 1)) with (lo + 1) by lia. replace (lo + 1 + Z.of_nat n) with hi by lia.
    rewrite (cl_free _ _ _ _ _ _ C1), (copies_ext s s1) by (intros v _; apply (cl_other _ _ _ _ _ _ C1); by intros []). lia.
  - by rewrite M1, lookup_insert_eq.
  - apply frames_bound.
  - replace (i * 1024 + (j + 1)) with (lo + 1) in * by lia. replace (lo + 1 + Z.of_nat n) with hi in * by lia.
    exists s2. split_and!; [rewrite R1; exact R2 | done | done | congruence | |].
    + rewrite M2, M1, insert_insert_eq, add_frames_add, (copies_ext s s1 p (lo + 1) hi), Hsplit; [done|].
      intros v _. apply (cl_other _ _ _ _ _ _ C1). by intros [].
    + eapply cloned_app; [exact F | exact F1 | done | | exact C1 | exact C2]. lia.
Qed.
End Clone.

(** ** The tables *)
Definition linked (c i : Z) (d j : Z) : Prop := d <> c \/ j < i.
Lemma pt_wf_mono (K K' : Z -> Z -> Prop) s : (forall d i, K' d i -> kernel_index i -> K d i) -> pt_wf_at K s -> pt_wf_at K' s.
Proof. intros HK [W1 W2 W3 W4 W5 W6]. split; eauto. Qed.

Lemma PT_vpn v i : PT v = i <-> i * 1024 <= vpn v < (i + 1) * 1024.
Proof. unfold PT, vpn, PAGE_SIZE. split; intros; Z.to_euclidean_division_equations; lia. Qed.

Lemma kernel_not_user v : kernel_index (PT v) -> IS_USER_SPACE v = false.
Proof. intros Hk. destruct (IS_USER_SPACE v) eqn:E; [|done]. by destruct (user_index _ E). Qed.

Lemma frames_wf_same s s' : frames_wf s -> pm s' = pm s -> (forall d v, IS_USER_SPACE v = true -> walk s' d v = walk s d v) -> frames_wf s'.
Proof.
  intros [F1 F2 F3 F4 F5] Hp Hw. split; rewrite ?Hp; [done | done | intros d v Hu; rewrite Hw by done; eauto | | intros d v Hu; rewrite Hw by done; eauto].
  intros d1 v1 d2 v2 H1 H2. rewrite !Hw by done. eauto.
Qed.

Lemma link_table_ok s p c pd cd ph i : pt_wf_at (linked c i) s -> frames_wf s -> p <> c -> c <> kernel_directory s ->
  dirs s !! p = Some pd -> dirs s !! c = Some cd -> tables cd i = 0 -> kernel_index i ->
  let s' := set_dirs (insert c (mk_pd ph (upd (tables cd) i (tables pd i)) (physical_address cd))) s in
  pt_wf_at (linked c (i + 1)) s' /\ frames_wf s' /\ cloned p c (i * 1024) ((i + 1) * 1024) s s'.
Proof.
  intros W F Hpc Hck Hp Hc Hcz Hi s'. pose proof W as [W1 W2 W3 W4 W5 W6].
  assert (Hsub : forall d pd' j, dirs s' !! d = Some pd' -> (d = c /\ j = i /\ tables pd' j = tables pd i) \/
            (~ (d = c /\ j = i) /\ exists pd0, dirs s !! d = Some pd0 /\ tables pd' j = tables pd0 j)).
  { intros d' pd' j. cbn. destruct (decide (d' = c)) as [->|]; [rewrite lookup_insert_eq | rewrite lookup_insert_ne by done; intros; right; split; [naive_solver | eauto]].
    intros [= <-]. cbn. unfold upd. destruct (Z.eqb_spec j i); [by left | right]. split; [naive_solver | eauto]. }
  assert (Hkd : forall kd, dirs s' !! kernel_directory s = Some kd -> dirs s !! kernel_directory s = Some kd).
  { intros kd. cbn. by rewrite lookup_insert_ne. }
  assert (Hwalk : forall d v, walk s' d v = if decide (d = c /\ PT v = i) then walk s p v else walk s d v).
  { intros d v. unfold walk at 1. destruct (dirs s' !! d) as [pd'|] eqn:Hd.
    - destruct (Hsub d pd' (PT v) Hd) as [(-> & E & ->)|(Hn & pd0 & H0 & ->)].
      + rewrite decide_True by done. unfold walk. by rewrite Hp, E.
      + rewrite decide_False by done. unfold walk. by rewrite H0.
    - cbn in Hd. destruct (decide (d = c)) as [->|]; [by rewrite lookup_insert_eq in Hd|]. rewrite lookup_insert_ne in Hd by done.
      rewrite decide_False by naive_solver. by rewrite walk_none. }
  assert (Huser : forall d v, IS_USER_SPACE v = true -> walk s' d v = walk s d v).
  { intros d v Hu. rewrite Hwalk, decide_False; [done|]. intros [_ <-]. by rewrite kernel_not_user in Hu. }
  split_and!; [split| |split].
  - cbn. split; [|apply W1]. rewrite lookup_insert_ne; [apply W1|]. intros ->. by rewrite (proj1 W1) in Hc.
  - intros d pd' j Hd. destruct (Hsub d pd' j Hd) as [(-> & -> & ->)|(_ & pd0 & H0 & ->)]; [by apply (W2 p)|]. by apply (W2 d).
  - cbn. by rewrite lookup_insert_ne.
  - intros d pd' kd j Hd H'%Hkd HK Hj. destruct (Hsub d pd' j Hd) as [(-> & -> & ->)|(Hn & pd0 & H0 & ->)].
    + apply (W4 p); try done. by left.
    + apply (W4 d); try done. destruct HK as [|Hlt]; [by left|]. destruct (decide (d = c)) as [->|]; [right | by left].
      assert (j <> i) by (intros ->; by apply Hn). lia.
  - intros kd j H'%Hkd. eauto.
  - intros d1 p1 i1 d2 p2 i2 H1 H2. destruct (Hsub d1 p1 i1 H1) as [(-> & -> & ->)|(_ & q1 & G1 & ->)], (Hsub d2 p2 i2 H2) as [(-> & -> & ->)|(_ & q2 & G2 & ->)].
    + by auto.
    + intros E Hz. destruct (W6 p pd i d2 q2 i2 Hp G2 E Hz) as [-> _]. by auto.
    + intros E Hz. destruct (W6 d1 q1 i1 p pd i G1 Hp E Hz) as [-> _]. by auto.
    + eauto.
  - by apply frames_wf_same with s.
  - split; try done; [intros d; cbn; by apply insert_dir_dom with cd|]. apply tables_kept_insert with cd; [done|].
    intros j Hj. cbn. unfold upd. by destruct (Z.eqb_spec j i) as [->|].
  - done.
  - intros d v Hn. rewrite Hwalk, decide_False; [done|]. by rewrite PT_vpn.
  - intros v Hv%PT_vpn Hu. subst i. by rewrite kernel_not_user in Hu.
  - intros v Hv%PT_vpn _. by rewrite Hwalk, decide_True.
  - done.
  - done.
  - rewrite copies_none; [change (pm s') with (pm s); lia|]. intros k Hk. unfold copied. rewrite kernel_not_user; [done|].
    rewrite <- (vpn_page k) in Hk. apply PT_vpn in Hk as ->. done.
Qed.

Lemma cloned_view p c lo hi s s1 s' : view_eq s s1 -> cloned p c lo hi s1 s' -> cloned p c lo hi s s'.
Proof.
  intros [V1 V2 V3 V4] [C1 C2 C3 C4 C5 C6 C7 C8]. rewrite V1 in *. split; try done.
  - by etrans.
  - intros d v Hn. by rewrite C3, V4.
  - intros v Hv Hu. rewrite C4 by done. unfold space. by rewrite V4, V1.
  - intros v Hv Hu. by rewrite C5, V4.
  - rewrite C8. by rewrite (copies_ext s s1).
Qed.

Lemma kernel_index_dec i : 0 <= i < 1024 -> (if IS_KERNEL_SPACE (i * 1024 * PAGE_SIZE) then kernel_index i else
  ~ kernel_index i /\ forall k, i * 1024 <= k < (i + 1) * 1024 -> IS_USER_SPACE (k * PAGE_SIZE) = true).
Proof.
  intros Hi. unfold kernel_index. rewrite u32_small by lia. replace (i * 4096 * 1024) with (i * 1024 * PAGE_SIZE) by (unfold PAGE_SIZE; lia).
  destruct (IS_KERNEL_SPACE _) eqn:E; [done|]. split; [by intros [_ ?]|]. intros k Hk.
  unfold IS_KERNEL_SPACE in E. apply negb_false_iff, user_space in E. apply user_space. unfold PAGE_SIZE in *. lia.
Qed.

Section Directory.
Context `{KernelAlloc}.

(** One round of the loop over the tables. *)
Lemma clone_table_ok s p c pd cd i cm x : pt_wf_at (linked c i) s -> frames_wf s -> p <> c -> c <> kernel_directory s -> intr (pm s) = false ->
  dirs s !! p = Some pd -> dirs s !! c = Some cd -> 0 <= i < 1024 -> (forall j, i <= j -> tables cd j = 0) ->
  let lo := i * 1024 in let hi := (i + 1) * 1024 in copies s p lo hi <= frames_with false (pm s) ->
  mms s !! cm = Some x -> 0 <= frames_used x < 2 ^ 32 ->
  exists s' cd', (forall f : () -> VM (), (pd ← get_dir p;
      (if IS_KERNEL_SPACE (i * 1024 * PAGE_SIZE) then
         cd ← get_dir c;
         put_dir c (mk_pd (upd (tables_physical cd) i (tables_physical pd i)) (upd (tables cd) i (tables pd i)) (physical_address cd))
       else if tables pd i =? 0 then mret tt
       else
         vmm_create_page_table i c ;;
         cd ← get_dir c;
         clone_entries 1024 0 (tables pd i) (tables cd i) cm) ≫= f) s = f tt s') /\
    pt_wf_at (linked c (i + 1)) s' /\ frames_wf s' /\ dirs s' !! c = Some cd' /\ (forall j, i + 1 <= j -> tables cd' j = 0) /\
    (forall d, d <> c -> dirs s' !! d = dirs s !! d) /\ mms s' = <[cm := add_frames (copies s p lo hi) x]> (mms s) /\ cloned p c lo hi s s'.
Proof.
  intros W F Hpc Hck Hirq Hp Hc Hi Hz lo hi Hfree Hx Hb. pose proof (kernel_index_dec i Hi) as Hk.
  destruct (IS_KERNEL_SPACE (i * 1024 * PAGE_SIZE)) eqn:EK.
  - destruct (link_table_ok s p c pd cd (upd (tables_physical cd) i (tables_physical pd i)) i W F Hpc Hck Hp Hc (Hz i ltac:(lia)) Hk) as (W' & F' & C').
    eexists _, _. split_and!; [| exact W' | exact F' | by cbn; rewrite lookup_insert_eq | | | | exact C'].
    + intros f. run (get_dir_ok s p pd Hp). by erewrite (st_bind_Ok _ f) by (run (get_dir_ok s c cd Hc); done).
    + intros j Hj. cbn. unfold upd. destruct (Z.eqb_spec j i); [lia | apply Hz; lia].
    + intros d Hd. cbn. by rewrite lookup_insert_ne.
    + cbn. rewrite copies_none; [by rewrite add_frames_0, insert_id|]. intros k Hkk. unfold copied. rewrite kernel_not_user; [done|].
      rewrite <- (vpn_page k) in Hkk. apply PT_vpn in Hkk as ->. done.
  - destruct Hk as [Hk Hu].
    assert (W' : pt_wf_at (linked c (i + 1)) s).
    { eapply pt_wf_mono; [|exact W]. intros d j [|Hj] Hkj; [by left|]. destruct (decide (d = c)); [right | by left].
      assert (j <> i) by (by intros ->). lia. }
    assert (Hc0 : forall v, lo <= vpn v < hi -> walk s c v = page0).
    { intros v Hv%PT_vpn. unfold walk. by rewrite Hc, Hv, Hz, (proj2 (pt_null _ _ W)) by lia. }
    destruct (Z.eqb_spec (tables pd i) 0) as [Ez|Htp].
    + assert (Hp0 : forall v, lo <= vpn v < hi -> walk s p v = page0).
      { intros v Hv%PT_vpn. unfold walk. by rewrite Hp, Hv, Ez, (proj2 (pt_null _ _ W)). }
      exists s, cd. split_and!; try done.
      * intros f. run (get_dir_ok s p pd Hp). by rewrite Ez.
      * intros j Hj. apply Hz. lia.
      * rewrite copies_none; [by rewrite add_frames_0, insert_id|]. intros k Hkk. unfold copied. rewrite Hp0 by (rewrite vpn_page; done). apply andb_false_r.
      * apply cloned_same. intros v Hv. by rewrite Hp0, Hc0.
    + destruct (create_page_table_ok _ s c cd i W' Hc Hck Hi Hk (Hz i ltac:(lia)) Hirq) as (s1 & cd1 & R1 & Hc1 & Ht1 & Hj1 & Hd1 & W1 & V1).
      assert (F1 : frames_wf s1) by (apply frames_wf_same with s; [done | apply V1 | intros; apply V1]).
      assert (E1 : copies s1 p lo hi = copies s p lo hi) by (apply copies_ext; intros; apply V1).
      destruct (clone_entries_ok _ 1024 s1 p c pd cd1 i 0 cm x W1 F1 Hpc) as (s2 & R2 & W2 & F2 & D2 & M2 & C2); rewrite ?(ve_mms _ _ V1), ?(ve_pm _ _ V1); try done.
      * by rewrite Hd1.
      * intros k Hkk. rewrite (ve_walk _ _ V1). apply Hc0. rewrite vpn_page. lia.
      * replace (i * 1024 + 0 + Z.of_nat 1024) with hi by (unfold hi; lia). replace (i * 1024 + 0) with lo by (unfold lo; lia). by rewrite E1.
      * replace (i * 1024 + 0 + Z.of_nat 1024) with hi in * by (unfold hi; lia). replace (i * 1024 + 0) with lo in * by (unfold lo; lia).
        exists s2, cd1. split_and!; [|done | done | by rewrite D2 | | | by rewrite M2, E1, (ve_mms _ _ V1) | by apply cloned_view with s1].
        -- intros f. run (get_dir_ok s p pd Hp). rewrite (proj2 (Z.eqb_neq _ _) Htp).
           erewrite (st_bind_Ok _ f); [done|]. run R1. run (get_dir_ok s1 c cd1 Hc1). exact R2.
        -- intros j Hj. rewrite Hj1 by lia. apply Hz. lia.
        -- intros d Hd. rewrite D2. by apply Hd1.
Qed.

Lemma clone_tables_ok n s p c pd cd i cm x : pt_wf_at (linked c i) s -> frames_wf s -> p <> c -> c <> kernel_directory s -> intr (pm s) = false ->
  dirs s !! p = Some pd -> dirs s !! c = Some cd -> 0 <= i -> i + Z.of_nat n <= 1024 -> (forall j, i <= j -> tables cd j = 0) ->
  let lo := i * 1024 in let hi := (i + Z.of_nat n) * 1024 in copies s p lo hi <= frames_with false (pm s) ->
  mms s !! cm = Some x -> 0 <= frames_used x < 2 ^ 32 ->
  exists s' cd', clone_tables n i p c cm s = Ok (tt, s') /\
    pt_wf_at (linked c (i + Z.of_nat n)) s' /\ frames_wf s' /\ dirs s' !! c = Some cd' /\ (forall j, i + Z.of_nat n <= j -> tables cd' j = 0) /\
    (forall d, d <> c -> dirs s' !! d = dirs s !! d) /\ mms s' = <[cm := add_frames (copies s p lo hi) x]> (mms s) /\ cloned p c lo hi s s'.
Proof.
  intros W F Hpc. revert s cd i x W F. induction n as [|n IH]; intros s cd i x W F Hck Hirq Hp Hc Hi Hn Hz lo hi Hfree Hx Hb; cbn [clone_tables].
  { exists s, cd. unfold hi. replace (i + Z.of_nat 0) with i by lia. pose proof (cloned_nil p c lo s) as Cn.
    split_and!; try done. rewrite copies_none by lia. by rewrite add_frames_0, insert_id. }
  set (mid := (i + 1) * 1024).
  assert (Hsplit : copies s p lo hi = copies s p lo mid + copies s p mid hi) by (apply copies_app; lia).
  pose proof (copies_bound s p lo mid). pose proof (copies_bound s p mid hi).
  destruct (clone_table_ok s p c pd cd i cm x W F Hpc Hck Hirq Hp Hc ltac:(lia) Hz) as (s1 & cd1 & R1 & W1 & F1 & Hc1 & Hz1 & D1 & M1 & C1);
    [fold lo mid; lia | done | done |]. fold lo mid in M1, C1.
  assert (Ew : copies s1 p mid hi = copies s p mid hi) by (apply copies_ext; intros v _; apply (cl_other _ _ _ _ _ _ C1); by intros []).
  destruct (IH s1 cd1 (i + 1) (add_frames (copies s p lo mid) x)) as (s2 & cd2 & R2 & W2 & F2 & Hc2 & Hz2 & D2 & M2 & C2); try done || lia.
  - by rewrite (sd_kernel _ _ (cl_dirs _ _ _ _ _ _ C1)).
  - by rewrite (cl_intr _ _ _ _ _ _ C1).
  - by rewrite D1.
  - fold mid. replace ((i + 1 + Z.of_nat n) * 1024) with hi by lia. rewrite (cl_free _ _ _ _ _ _ C1), Ew. lia.
  - by rewrite M1, lookup_insert_eq.
  - apply frames_bound.
  - fold mid in M2, C2. replace (i + 1 + Z.of_nat n) with (i + Z.of_nat (S n)) in * by lia. fold hi in M2, C2.
    exists s2, cd2. split_and!; [rewrite R1; exact R2 | done | done | done | done | | |].
    + intros d Hd. by rewrite D2, D1.
    + by rewrite M2, M1, insert_insert_eq, add_frames_add, Ew, Hsplit.
    + eapply cloned_app; [exact F | exact F1 | done | | exact C1 | exact C2]. lia.
Qed.
End Directory.

(** ** The whole directory *)
#[local] Opaque copies.
Definition empty_dir : page_directory := mk_pd (fun _ => 0) (fun _ => 0) 0.

Lemma new_dir_ok s c : pt_wf s -> frames_wf s -> c <> 0 -> dirs s !! c = None ->
  let s' := set_dirs (insert c empty_dir) s in
  pt_wf_at (linked c 0) s' /\ frames_wf s' /\ c <> kernel_directory s' /\ (forall d v, walk s' d v = walk s d v).
Proof.
  intros W F Hc0 Hc s'. pose proof W as [W1 W2 W3 W4 W5 W6].
  assert (Hck : c <> kernel_directory s) by (intros ->; destruct W3 as [? E]; congruence).
  assert (Hsub : forall d pd, dirs s' !! d = Some pd -> (d = c /\ pd = empty_dir) \/ (d <> c /\ dirs s !! d = Some pd)).
  { intros d pd. cbn. destruct (decide (d = c)) as [->|]; [rewrite lookup_insert_eq | rewrite lookup_insert_ne by done; auto]. intros [= <-]. by left. }
  assert (Hw : forall d v, walk s' d v = walk s d v).
  { intros d v. unfold walk. cbn. destruct (decide (d = c)) as [->|]; [|by rewrite lookup_insert_ne].
    rewrite lookup_insert_eq, Hc. cbn. by rewrite (proj2 W1). }
  assert (Hkd : dirs s' !! kernel_directory s = dirs s !! kernel_directory s) by (cbn; by rewrite lookup_insert_ne).
  split_and!; [split| by apply frames_wf_same with s | done | done].
  - cbn. rewrite lookup_insert_ne by done. done.
  - intros d pd i Hd. destruct (Hsub d pd Hd) as [[-> ->]|[_ H0]]; [by left | by apply (W2 d)].
  - cbn. by rewrite lookup_insert_ne.
  - intros d pd kd i Hd Hk HK Hi. change (kernel_directory s') with (kernel_directory s) in Hk. rewrite Hkd in Hk.
    destruct (Hsub d pd Hd) as [[-> _]|[_ H0]]; [|by apply (W4 d)]. destruct HK as [|Hlt]; [done|]. destruct Hi as [? _]. lia.
  - intros kd i Hk. change (kernel_directory s') with (kernel_directory s) in Hk. rewrite Hkd in Hk. eauto.
  - intros d1 p1 i1 d2 p2 i2 H1 H2. destruct (Hsub d1 p1 H1) as [[-> ->]|[_ G1]]; [done|].
    destruct (Hsub d2 p2 H2) as [[-> ->]|[_ G2]]; [by intros -> | eauto].
Qed.

(** [list_append(pagedirs, c)] and [c->physical_address = a] *)
Lemma set_physical_ok s c cd (Hc0 : c <> 0) a b : pt_wf s -> dirs s !! c = Some cd ->
  let s' := set_dirs (insert c (mk_pd (tables_physical cd) (tables cd) a)) (irq b (set_pagedirs (fun l => l ++ [c]) s)) in
  pt_wf s' /\ (forall d v, walk s' d v = walk s d v).
Proof.
  intros P Hc s'. split.
  - destruct P as [A1 A2 A3 A4 A5 A6].
    assert (Hsub : forall d q, dirs s' !! d = Some q -> exists q0, dirs s !! d = Some q0 /\ tables q = tables q0).
    { intros d q. cbn. destruct (decide (d = c)) as [->|]; [rewrite lookup_insert_eq | rewrite lookup_insert_ne by done; eauto]. intros [= <-]. by exists cd. }
    split.
    + split; [|apply A1]. cbn. rewrite lookup_insert_ne; [apply A1 | done].
    + intros d q i Hd. destruct (Hsub d q Hd) as (q0 & H0 & ->). by apply (A2 d).
    + apply insert_dir_dom with cd; done.
    + intros d q kd i Hd Hk HK Hi. destruct (Hsub d q Hd) as (q0 & H0 & ->), (Hsub _ kd Hk) as (q1 & H1 & ->). by apply (A4 d).
    + intros kd i Hk Hi. destruct (Hsub _ kd Hk) as (q1 & H1 & ->). by apply A5.
    + intros d1 q1 i1 d2 q2 i2 H1 H2. destruct (Hsub _ _ H1) as (r1 & G1 & ->), (Hsub _ _ H2) as (r2 & G2 & ->). by apply A6.
  - intros d v. unfold walk. cbn. destruct (decide (d = c)) as [->|]; [by rewrite lookup_insert_eq, Hc | by rewrite lookup_insert_ne].
Qed.

(** A store by a task with directory [d]. *)
Definition poke (s : vmm) (d v b : Z) : vmm :=
  set_pm (set_ram (pm s) (upd (ram (pm s)) (frame (walk s d v) * PAGE_SIZE + v mod PAGE_SIZE) b)) s.
Lemma poke_isolated s d v b d' w : frames_wf s -> IS_USER_SPACE v = true -> IS_USER_SPACE w = true -> d' <> d ->
  frame (walk s d v) <> 0 -> space (poke s d v b) d' w = space s d' w.
Proof.
  intros F Hv Hw Hd Hf. unfold space, poke. change (walk (set_pm _ s)) with (walk s). cbn [pm set_pm ram set_ram].
  destruct (Z.eqb_spec (frame (walk s d' w)) 0); [done|]. unfold upd. destruct (Z.eqb_spec (frame (walk s d' w) * PAGE_SIZE + w mod PAGE_SIZE) (frame (walk s d v) * PAGE_SIZE + v mod PAGE_SIZE)) as [E|]; [|done].
  assert (Ef : frame (walk s d' w) = frame (walk s d v)) by (rewrite <- (page_byte _ w), E; apply page_byte).
  by destruct (fw_inj _ F d' w d v Hw Hv Ef).
Qed.

Lemma vpn_bound v : 0 <= v < 2 ^ 32 <-> 0 <= vpn v < 1024 * 1024.
Proof. unfold vpn, PAGE_SIZE. split; intros; Z.to_euclidean_division_equations; lia. Qed.

Section Fork.
Context `{KernelAlloc}.

Lemma clone_directory_ok s p cm x : vm_wf s -> is_Some (dirs s !! p) -> mms s !! cm = Some x -> 0 <= frames_used x < 2 ^ 32 ->
  copies s p 0 (1024 * 1024) <= frames_with false (pm s) ->
  exists s' c, clone_user_page_directory p cm s = Ok (c, s') /\ dirs s !! c = None /\ is_Some (dirs s' !! c) /\ vm_wf s' /\
    mms s' = <[cm := add_frames (copies s p 0 (1024 * 1024)) x]> (mms s) /\
    pagedirs s' = pagedirs s ++ [c] /\ kernel_directory s' = kernel_directory s /\ intr (pm s') = intr (pm s) /\
    (forall v, IS_USER_SPACE v = true -> space s' c v = space s p v) /\
    (forall v, 0 <= v < 2 ^ 32 -> IS_USER_SPACE v = false -> walk s' c v = walk s p v) /\
    (forall d v, d <> c -> walk s' d v = walk s d v) /\
    (forall d v, d <> c -> IS_USER_SPACE v = true -> space s' d v = space s d v) /\
    frames_with false (pm s') = frames_with false (pm s) - copies s p 0 (1024 * 1024) /\ (forall d, d <> c -> dirs s' !! d = dirs s !! d).
Proof.
  intros W [pd Hp] Hx Hb Hfree. pose proof W as [P F Z0]. set (c := kmalloc_addr s).
  assert (Hc : dirs s !! c = None) by apply kmalloc_dir. assert (Hpc : p <> c) by (intros ->; congruence).
  assert (Hp0 : p <> 0) by (intros ->; by rewrite (proj1 (pt_null _ _ P)) in Hp).
  assert (Hcm0 : cm <> 0) by (intros ->; congruence).
  destruct (new_dir_ok s c P F (kmalloc_not_null s) Hc) as (P1 & F1 & Hck & Hw1). set (s1 := set_dirs _ s) in *.
  assert (E1 : copies (irq false s1) p 0 (1024 * 1024) = copies s p 0 (1024 * 1024)) by (apply copies_ext; intros; apply Hw1).
  assert (Hsp1 : forall d v, space s1 d v = space s d v) by (intros d v; unfold space; rewrite Hw1; exact eq_refl).
  destruct (clone_tables_ok 1024 (irq false s1) p c pd empty_dir 0 cm x (pt_wf_irq _ _ _ P1)) as (s2 & cd & R2 & W2 & F2 & Hc2 & _ & D2 & M2 & C2);
    [apply frames_wf_irq; exact F1 | exact Hpc | exact Hck | exact eq_refl | cbn; rewrite lookup_insert_ne by exact (not_eq_sym Hpc); exact Hp | cbn; rewrite lookup_insert_eq; exact eq_refl
    | vm_compute; discriminate | vm_compute; discriminate | exact (fun _ _ => eq_refl) | | exact Hx | exact Hb |].
  { change ((0 + Z.of_nat 1024) * 1024) with (1024 * 1024). change (0 * 1024) with 0. rewrite E1. exact Hfree. }
  change ((0 + Z.of_nat 1024) * 1024) with (1024 * 1024) in *. change (0 * 1024) with 0 in *. change (0 + Z.of_nat 1024) with 1024 in W2.
  assert (P2 : pt_wf s2) by (eapply pt_wf_mono; [|exact W2]; intros d i _ [Hi _]; right; lia).
  destruct (set_physical_ok s2 c cd (kmalloc_not_null s) (u32 (kmalloc_phys s + 0)) (intr (pm s1)) P2 Hc2) as [P3 Hw3].
  set (s3 := set_dirs _ (irq _ _)) in *.
  assert (Hr : ram (pm s3) = ram (pm s2)) by exact eq_refl.
  exists s3, c. split_and!; [ | exact Hc | | | | | | exact eq_refl | | | | | |].
  - unfold clone_user_page_directory. do 2 (erewrite (st_bind_Ok (ensure _)) by (apply ensure_true, negb_true_iff, Z.eqb_neq; assumption)).
    do 2 (erewrite (st_bind_Ok (gets _)) by exact eq_refl). erewrite (st_bind_Ok (put_dir _ _)) by exact eq_refl.
    erewrite (st_bind_Ok (vlocked _)).
    2: { apply vlocked_ok; [run R2; exact eq_refl | exact (cl_intr _ _ _ _ _ _ C2)]. }
    erewrite (st_bind_Ok (get_dir c)) by (apply get_dir_ok; exact Hc2). exact eq_refl.
  - cbn. rewrite lookup_insert_eq. eexists. exact eq_refl.
  - split; [exact P3 | apply frames_wf_same with (irq (intr (pm s1)) s2); [apply frames_wf_irq; exact F2 | exact eq_refl | intros; apply Hw3] |].
    change (mms s3) with (mms s2). rewrite M2, lookup_insert_ne by exact Hcm0. exact Z0.
  - change (mms s3) with (mms s2). rewrite M2, E1. exact eq_refl.
  - change (pagedirs s2 ++ [c] = pagedirs s ++ [c]). rewrite (sd_pagedirs _ _ (cl_dirs _ _ _ _ _ _ C2)). exact eq_refl.
  - exact (sd_kernel _ _ (cl_dirs _ _ _ _ _ _ C2)).
  - intros v Hu. unfold space at 1. rewrite Hw3, Hr. fold (space s2 c v). rewrite (cl_space _ _ _ _ _ _ C2); [exact (Hsp1 p v) | | exact Hu].
    apply vpn_bound. apply user_space in Hu. lia.
  - intros v Hv Hk. rewrite Hw3, (cl_kernel _ _ _ _ _ _ C2); [apply Hw1 | apply vpn_bound; exact Hv | exact Hk].
  - intros d v Hd. rewrite Hw3, (cl_other _ _ _ _ _ _ C2) by (intros [E _]; exact (Hd E)). apply Hw1.
  - intros d v Hd Hu. unfold space at 1. rewrite Hw3, Hr. fold (space s2 d v). rewrite <- (Hsp1 d v). apply space_kept; [exact F1 | exact Hu | | exact (cl_ram _ _ _ _ _ _ C2)].
    rewrite (cl_other _ _ _ _ _ _ C2) by (intros [E _]; exact (Hd E)). exact eq_refl.
  - change (frames_with false (pm s3)) with (frames_with false (pm s2)). rewrite (cl_free _ _ _ _ _ _ C2), E1. exact eq_refl.
  - intros d Hd. change (dirs s3) with (<[c := mk_pd (tables_physical cd) (tables cd) (u32 (kmalloc_phys s + 0))]> (dirs s2)).
    rewrite lookup_insert_ne, D2 by (assumption || exact (not_eq_sym Hd)). cbn. rewrite lookup_insert_ne by exact (not_eq_sym Hd). exact eq_refl.
Qed.

Lemma space_flags s s' d d' v : space s' d' v = space s d v ->
  (frame (walk s' d' v) <> 0 <-> frame (walk s d v) <> 0) /\
  (frame (walk s d v) <> 0 -> present (walk s' d' v) = present (walk s d v) /\ guard (walk s' d' v) = guard (walk s d v) /\ rw (walk s' d' v) = rw (walk s d v)).
Proof.
  unfold space. destruct (Z.eqb_spec (frame (walk s' d' v)) 0), (Z.eqb_spec (frame (walk s d v)) 0); try done.
  destruct (walk s' d' v), (walk s d v). cbn in *. intros [=]. subst. by split.
Qed.

Lemma covers_user l v b : Forall area_wf l -> covers l v b -> IS_USER_SPACE v = true.
Proof.
  intros Hl (a & Ha & Hin & _). eapply Forall_forall in Ha; [|exact Hl]. apply user_space. unfold area_wf, in_area in *. lia.
Qed.

Lemma vmm_clone_mm_ok s parent x l : vm_wf s -> mms s !! parent = Some x -> mm_wf s x l ->
  let p := mm_directory x in let N := copies s p 0 (1024 * 1024) in N <= frames_with false (pm s) ->
  exists s' child c, let y := mk_mm (Some l) 0 0 0 0 0 c 0 (u32 N) in
    vmm_clone_mm parent s = Ok (child, s') /\ vm_wf s' /\ mms s !! child = None /\ mms s' = <[child := y]> (mms s) /\
    dirs s !! c = None /\ pagedirs s' = pagedirs s ++ [c] /\ mm_wf s' y l /\
    (forall v, IS_USER_SPACE v = true -> space s' c v = space s p v) /\
    (forall v, 0 <= v < 2 ^ 32 -> IS_USER_SPACE v = false -> walk s' c v = walk s p v) /\
    (forall d v, d <> c -> IS_USER_SPACE v = true -> space s' d v = space s d v) /\
    (forall d v, d <> c -> walk s' d v = walk s d v) /\ (forall d, user_dir s d -> user_dir s' d) /\
    frames_with false (pm s') = frames_with false (pm s) - N /\ intr (pm s') = intr (pm s).
Proof.
  intros W Hx M p N HN. pose proof (mm_not_null s parent x W Hx) as Hm. pose proof M as [M1 M2 M3 M4 M5 M6]. fold p in M2, M5, M6.
  set (child := kmalloc_addr s). assert (Hch : mms s !! child = None) by apply kmalloc_mm. set (z := with_areas l mm0).
  set (s1 := set_mms (insert child z) s). assert (W1 : vm_wf s1).
  { apply wf_set_mms; [exact W|]. rewrite lookup_insert_ne by apply kmalloc_not_null. apply W. }
  assert (EN : copies s1 p 0 (1024 * 1024) = N) by (apply copies_ext; exact (fun _ _ => eq_refl)).
  destruct (clone_directory_ok s1 p child z W1 (proj2 M2)) as (s2 & c & R2 & Hc & Hc2 & W2 & E2 & Pd & Kd & I2 & Su & Sk & Wo & So & Fr & Hds);
    [apply lookup_insert_eq | exact (conj (Z.le_refl 0) eq_refl) | rewrite EN; exact HN |]. rewrite EN in E2, Fr. clear EN. clearbody N.
  change (dirs s1) with (dirs s) in Hc. assert (Hpc : p <> c) by (intros Ep; destruct M2 as [_ [? E]]; rewrite Ep in E; rewrite E in Hc; discriminate Hc).
  assert (Ez : mms s2 !! child = Some (add_frames N z)) by (rewrite E2; apply lookup_insert_eq).
  set (y := mk_mm (Some l) 0 0 0 0 0 c 0 (u32 N)). set (s3 := set_mms (insert child y) s2).
  assert (W3 : vm_wf s3) by (apply wf_set_mms; [exact W2|]; rewrite lookup_insert_ne by apply kmalloc_not_null; apply W2).
  assert (Sd : forall d, user_dir s d -> user_dir s3 d).
  { intros d [Hk [q Hq]]. assert (d <> c) by (intros ->; rewrite Hc in Hq; discriminate Hq). split; [change (d <> kernel_directory s2); rewrite Kd; exact Hk|].
    change (is_Some (dirs s2 !! d)). rewrite Hds by assumption. exists q. exact Hq. }
  assert (Hfl : forall v, IS_USER_SPACE v = true -> _) by (intros v Hv; exact (space_flags s s2 p c v (Su v Hv))).
  exists s3, child, c. cbv zeta. fold y. split_and!; [|exact W3 | exact Hch | | exact Hc | exact Pd | | exact Su | exact Sk | exact So | exact Wo | exact Sd | exact Fr | exact I2].
  - unfold vmm_clone_mm. erewrite (st_bind_Ok (ensure _)) by (apply ensure_true, negb_true_iff, Z.eqb_neq; exact Hm).
    run (get_mm_ok s parent x Hx). rewrite M1. erewrite (st_bind_Ok (gets _)) by exact eq_refl. erewrite (st_bind_Ok (put_mm _ _)) by exact eq_refl.
    run R2. run (get_mm_ok s2 child _ Ez). exact eq_refl.
  - change (mms s3) with (insert child y (mms s2)). rewrite E2. change (mms s1) with (insert child z (mms s)). rewrite !insert_insert_eq. exact eq_refl.
  - split; [exact eq_refl | | exact M3 | exact M4 | |]; change (mm_directory y) with c; change (walk s3) with (walk s2).
    + split; [|exact Hc2]. intros Ek. destruct (pt_kernel_dir _ _ (wf_pt _ W)) as [kd Hk]. change (kernel_directory s3) with (kernel_directory s2) in Ek.
      rewrite Kd in Ek. change (kernel_directory s1) with (kernel_directory s) in Ek. rewrite <- Ek, Hc in Hk. discriminate Hk.
    + intros v b Hcv. pose proof (covers_user l v b M3 Hcv) as Hu. destruct (M5 v b Hcv) as [[F1 F2] F3], (Hfl v Hu) as [G1 G2].
      destruct (G2 F1) as (Ep & Eg & Er). split; [split; [by apply G1 | rewrite Ep, Eg; exact F2] | rewrite Er; exact F3].
    + intros v Hu Hf. apply M6; [exact Hu|]. by apply (Hfl v Hu).
Qed.

(** C4: [vmm_clone_mm] gives the child a copy of the parent's memory: the same areas, the same
    bytes with the same access in frames of its own, the kernel's tables shared; the parent and
    every other task keep theirs, and a store by parent or child is not seen by the other. The
    break, the guard page and the text bounds of the child are left zero. *)
Theorem vmm_clone_mm_correct s parent x l : vm_wf s -> mms s !! parent = Some x -> mm_wf s x l ->
  let p := mm_directory x in let N := copies s p 0 (1024 * 1024) in N <= frames_with false (pm s) ->
  exists s' child c, let y := mk_mm (Some l) 0 0 0 0 0 c 0 (u32 N) in
    vmm_clone_mm parent s = Ok (child, s') /\ vm_wf s' /\ mms s !! child = None /\ mms s' = <[child := y]> (mms s) /\
    dirs s !! c = None /\ pagedirs s' = pagedirs s ++ [c] /\ mm_wf s' y l /\
    (forall v, IS_USER_SPACE v = true -> space s' c v = space s p v) /\
    (forall v, 0 <= v < 2 ^ 32 -> IS_USER_SPACE v = false -> walk s' c v = walk s p v) /\
    (forall d v, d <> c -> IS_USER_SPACE v = true -> space s' d v = space s d v) /\
    (forall v w b, IS_USER_SPACE v = true -> IS_USER_SPACE w = true -> frame (walk s p v) <> 0 ->
      space (poke s' p v b) c w = space s' c w /\ space (poke s' c v b) p w = space s' p w) /\
    frames_with false (pm s') = frames_with false (pm s) - N /\ intr (pm s') = intr (pm s).
Proof.
  intros W Hx M p N HN. destruct (vmm_clone_mm_ok s parent x l W Hx M HN) as (s' & child & c & R & W' & Hch & E & Hc & Pd & M' & Su & Sk & So & Wo & _ & Fr & I').
  assert (Hpc : p <> c) by (intros Ep; destruct (mw_dir _ _ _ M) as [_ [? E']]; fold p in E'; rewrite Ep in E'; rewrite E' in Hc; discriminate Hc).
  exists s', child, c. cbv zeta. split_and!; [exact R | exact W' | exact Hch | exact E | exact Hc | exact Pd | exact M' | exact Su | exact Sk | exact So | | exact Fr | exact I'].
  intros v w b Hv Hw Hf. pose proof (wf_frames _ W') as F'. split.
  - apply poke_isolated; [exact F' | exact Hv | exact Hw | exact (not_eq_sym Hpc) |]. rewrite Wo; [exact Hf | exact Hpc].
  - apply poke_isolated; [exact F' | exact Hv | exact Hw | exact Hpc |]. apply (space_flags s s' p c v (Su v Hv)). exact Hf.
Qed.
End Fork.

Lemma demo_not_copied k : k <> 0x10000 -> k <> 0xbffee -> copied demo 2 k = false.
Proof.
  intros H1 H2. unfold copied. destruct (IS_USER_SPACE (k * PAGE_SIZE)) eqn:Eu; [|exact eq_refl].
  rewrite demo_walk by exact Eu. rewrite vpn_page, !decide_False by lia. exact eq_refl.
Qed.
Lemma demo_copies : copies demo 2 0 (1024 * 1024) = 2.
Proof.
  rewrite (copies_app _ _ 0 0x10000), (copies_app _ _ 0x10000 0x10001), (copies_app _ _ 0x10001 0xbffee), (copies_app _ _ 0xbffee 0xbffef) by lia.
  rewrite !copies_one. rewrite (copies_none demo 2 0), (copies_none demo 2 0x10001), (copies_none demo 2 0xbffef);
    [vm_compute; reflexivity | | |]; intros k Hk; apply demo_not_copied; lia.
Qed.

Lemma vmm_clone_mm_correct_witness : exists s' child c, vmm_clone_mm 5 demo = Ok (child, s') /\
  space s' c 0x10000abc = space demo 2 0x10000abc /\ space s' 2 0x10000abc = space demo 2 0x10000abc /\ frames_with false (pm s') = 91.
Proof.
  destruct (vmm_clone_mm_correct demo 5 demo_mm _ demo_vm_wf eq_refl demo_mm_wf) as (s' & child & c & R & _ & _ & _ & Hc & _ & _ & Su & _ & So & _ & Hf & _).
  { change (mm_directory demo_mm) with 2. rewrite demo_copies. done. }
  exists s', child, c. change (mm_directory demo_mm) with 2 in *. rewrite demo_copies in Hf. split_and!; [exact R | apply (Su 0x10000abc); reflexivity | | exact Hf].
  apply (So 2 0x10000abc); [|reflexivity]. intros <-. discriminate Hc.
Defined.
