(* ===== verification/VmmTasks.v ===== *)
(** * The virtual memory manager: all tasks together

    [tasks_wf] is the invariant of the whole system: every user task's areas describe its page
    tables, and no two tasks share a directory.  Allocating, freeing and forking, in any order,
    keep it and change the memory of no other task.  Also here: the check of the system calls
    on buffers given by a task, and what a forked child's [sbrk] does. *)
From S2P Require Import Prelude Pmm Vmm VmmInv VmmUser VmmSpec VmmBrk VmmClone.

Record tasks_wf (s : vmm) : Prop := {
  tw_wf : vm_wf s;
  tw_mm mm x l : mms s !! mm = Some x -> areas x = Some l -> mm_wf s x l;
  tw_dirs mm1 x1 l1 mm2 x2 l2 : mms s !! mm1 = Some x1 -> areas x1 = Some l1 -> mms s !! mm2 = Some x2 -> areas x2 = Some l2 ->
    mm_directory x1 = mm_directory x2 -> mm1 = mm2
}.

(** What a task, or the kernel for it, does with its memory. *)
Inductive task_op := Alloc (lo hi : Z) (wr : bool) | Destroy | Fork.
Definition enabled (s : vmm) (x : task_mm) (l : list vm_area) (o : task_op) : Prop :=
  match o with
  | Alloc lo hi wr => lo mod PAGE_SIZE = 0 /\ hi mod PAGE_SIZE = 0 /\ 0x10000000 <= lo < hi /\ hi <= 0xc0000000 /\
      Forall (fun a => hi <= a_start a \/ a_stop a <= lo) l /\ (hi - lo) / PAGE_SIZE <= frames_with false (pm s)
  | Destroy => True
  | Fork => copies s (mm_directory x) 0 (1024 * 1024) <= frames_with false (pm s)
  end.

Lemma mm_wf_other s s' x l : mm_wf s x l -> (forall d, user_dir s d -> user_dir s' d) ->
  (forall v, walk s' (mm_directory x) v = walk s (mm_directory x) v) -> mm_wf s' x l.
Proof. intros [M1 M2 M3 M4 M5 M6] Hd Hw. split; try done; [by apply Hd | |]; intros v; rewrite Hw; eauto. Qed.

Section Isolation.
Context `{KernelAlloc}.

Definition run_op (mm : Z) (o : task_op) : VM () :=
  match o with
  | Alloc lo hi wr => vmm_alloc_user lo hi mm wr
  | Destroy => vmm_destroy_task_mm mm
  | Fork => _ ← vmm_clone_mm mm; mret tt
  end.

(** A sequence of such operations, each where it is possible. *)
Inductive runs : vmm -> list (Z * task_op) -> vmm -> Prop :=
| runs_nil s : runs s [] s
| runs_cons s mm x l o s1 ops s' : mms s !! mm = Some x -> areas x = Some l -> enabled s x l o -> run_op mm o s = Ok (tt, s1) ->
    runs s1 ops s' -> runs s ((mm, o) :: ops) s'.

(** A task [y] is entered at [m], for the first time or anew. *)
Lemma tasks_put s s' m y k : tasks_wf s -> vm_wf s' -> mms s' = <[m := y]> (mms s) -> mm_wf s' y k -> (forall d, user_dir s d -> user_dir s' d) ->
  (forall m' z k', m' <> m -> mms s !! m' = Some z -> areas z = Some k' ->
    mm_directory z <> mm_directory y /\ forall v, walk s' (mm_directory z) v = walk s (mm_directory z) v) -> tasks_wf s'.
Proof.
  intros [W TM TD] W' E M Hd Ho.
  assert (Hcase : forall m' z k', mms s' !! m' = Some z -> areas z = Some k' -> (m' = m /\ z = y /\ k' = k) \/ (m' <> m /\ mms s !! m' = Some z)).
  { intros m' z k'. rewrite E, lookup_insert_Some. pose proof (mw_areas _ _ _ M). intros [[<- <-]|[? ?]] Hk; [left; naive_solver | right; naive_solver]. }
  split; [done | |].
  - intros m' z k' Hz Hk. destruct (Hcase m' z k' Hz Hk) as [(-> & -> & ->)|[Hm Hz']]; [done|].
    apply mm_wf_other with s; [by apply TM with m' | done | by apply (Ho m' z k')].
  - intros m1 z1 k1 m2 z2 k2 H1 K1 H2 K2 Ed. destruct (Hcase _ _ _ H1 K1) as [(-> & -> & ->)|[N1 G1]], (Hcase _ _ _ H2 K2) as [(-> & -> & ->)|[N2 G2]];
      [done | exfalso; by apply (Ho m2 z2 k2) | exfalso; by apply (Ho m1 z1 k1) | by apply (TD m1 z1 k1 m2 z2 k2)].
Qed.

Definition others_kept (s s' : vmm) (mm : Z) : Prop := forall m z k, m <> mm -> mms s !! m = Some z -> areas z = Some k ->
  mms s' !! m = Some z /\ forall v, IS_USER_SPACE v = true -> space s' (mm_directory z) v = space s (mm_directory z) v.

Lemma other_dir s mm x l m z k : tasks_wf s -> mms s !! mm = Some x -> areas x = Some l -> m <> mm -> mms s !! m = Some z -> areas z = Some k ->
  mm_directory z <> mm_directory x.
Proof. intros T Hx Hl Hm Hz Hk Ed. apply Hm. by apply (tw_dirs _ T m z k mm x l). Qed.

Lemma alloc_step s mm x l lo hi wr : tasks_wf s -> mms s !! mm = Some x -> areas x = Some l -> enabled s x l (Alloc lo hi wr) ->
  exists s', vmm_alloc_user lo hi mm wr s = Ok (tt, s') /\ tasks_wf s' /\ others_kept s s' mm.
Proof.
  intros T Hx Hl (A1 & A2 & B1 & B2 & Hap & Hfree). pose proof (tw_wf _ T) as W.
  destruct (vmm_alloc_user_ok s mm x l lo hi wr W Hx (tw_mm _ T mm x l Hx Hl) A1 A2 B1 B2 Hap Hfree) as (s' & l' & R & W' & E & M' & _ & _ & G).
  exists s'. split_and!; [exact R | eapply tasks_put; [exact T | exact W' | exact E | exact M' | intros d; apply user_dir_same, G |] |].
  - intros m z k Hm Hz Hk. pose proof (other_dir s mm x l m z k T Hx Hl Hm Hz Hk) as Hd. split; [exact Hd|]. intros v. apply (g_other _ _ _ _ _ _ G). by intros [].
  - intros m z k Hm Hz Hk. pose proof (other_dir s mm x l m z k T Hx Hl Hm Hz Hk) as Hd. split; [by rewrite E, lookup_insert_ne|].
    intros v Hu. apply (grown_space _ _ _ _ s _ _ v (wf_frames _ W) G Hu). by intros [].
Qed.

Lemma destroy_step s mm x l : tasks_wf s -> mms s !! mm = Some x -> areas x = Some l ->
  exists s', vmm_destroy_task_mm mm s = Ok (tt, s') /\ tasks_wf s' /\ others_kept s s' mm.
Proof.
  intros T Hx Hl. destruct (vmm_destroy_task_mm_ok s mm x l (tw_wf _ T) Hx (tw_mm _ T mm x l Hx Hl)) as (s' & R & W' & E & S & _ & Ho & Hr & _).
  exists s'. split_and!; [exact R | split; [exact W' | |] |].
  - intros m z k Hz Hk. rewrite E, lookup_delete_Some in Hz. destruct Hz as [Hm Hz]. apply mm_wf_other with s; [by apply (tw_mm _ T m) | intros d; by apply user_dir_same|].
    intros v. apply Ho. apply (other_dir s mm x l m z k); auto.
  - intros m1 z1 k1 m2 z2 k2 H1 K1 H2 K2. rewrite E, lookup_delete_Some in H1, H2. destruct H1, H2. by apply (tw_dirs _ T m1 z1 k1 m2 z2 k2).
  - intros m z k Hm Hz Hk. split; [by rewrite E, lookup_delete_ne by congruence|]. intros v Hu. unfold space. by rewrite Ho, Hr by by apply (other_dir s mm x l m z k).
Qed.

Lemma fork_step s mm x l : tasks_wf s -> mms s !! mm = Some x -> areas x = Some l -> enabled s x l Fork ->
  exists s' child, vmm_clone_mm mm s = Ok (child, s') /\ tasks_wf s' /\ others_kept s s' mm.
Proof.
  intros T Hx Hl He. cbn [enabled] in He.
  destruct (vmm_clone_mm_ok s mm x l (tw_wf _ T) Hx (tw_mm _ T mm x l Hx Hl) He) as (s' & child & c & R & W' & Hch & E & Hc & _ & M' & _ & _ & So & Wo & Sd & _ & _).
  clear He. set (N := u32 _) in *. clearbody N.
  assert (Hne : forall m z k, mms s !! m = Some z -> areas z = Some k -> mm_directory z <> c).
  { intros m z k Hz Hk Ed. destruct (mw_dir _ _ _ (tw_mm _ T m z k Hz Hk)) as [_ [? Hd]]. rewrite Ed, Hc in Hd. discriminate Hd. }
  exists s', child. split_and!; [exact R | eapply tasks_put; [exact T | exact W' | exact E | exact M' | exact Sd |] |].
  - intros m z k _ Hz Hk. pose proof (Hne m z k Hz Hk) as Hd. split; [exact Hd|]. intros v. by apply Wo.
  - intros m z k _ Hz Hk. split; [rewrite E, lookup_insert_ne; [done | intros <-; congruence]|]. intros v Hu. apply So; [by apply (Hne m z k) | done].
Qed.

Lemma task_step_ok s mm x l o : tasks_wf s -> mms s !! mm = Some x -> areas x = Some l -> enabled s x l o ->
  exists s', run_op mm o s = Ok (tt, s') /\ tasks_wf s' /\ others_kept s s' mm.
Proof.
  intros T Hx Hl He. destruct o; [by apply alloc_step with x l | by apply destroy_step with x l |].
  destruct (fork_step s mm x l T Hx Hl He) as (s' & child & R & T' & Ho). exists s'. split_and!; [unfold run_op; by run R | done | done].
Qed.

(** C5: from a well-formed system, every sequence of allocations, forks and ends of tasks leaves it well formed,
    and the address space of a task that takes no part in it as it was (there is at least one such task). *)
Theorem tasks_isolated s ops s' mm x l : tasks_wf s -> runs s ops s' -> mms s !! mm = Some x -> areas x = Some l ->
  Forall (fun o => o.1 <> mm) ops ->
  tasks_wf s' /\ mms s' !! mm = Some x /\ forall v, IS_USER_SPACE v = true -> space s' (mm_directory x) v = space s (mm_directory x) v.
Proof.
  intros T R Hx Hl Hops. induction R as [s|s m y k o s1 ops s' Hy Hk He Hrun R IH]; [done|].
  apply Forall_cons in Hops as [Hm Hops]. destruct (task_step_ok s m y k o T Hy Hk He) as (s1' & R1 & T1 & Ho).
  rewrite Hrun in R1. injection R1 as <-. destruct (Ho mm x l) as [Hx1 Hs1]; [by apply not_eq_sym | done | done|].
  destruct (IH T1 Hx1 Hops) as (T2 & Hx2 & Hs2). split_and!; [done | done|]. intros v Hu. rewrite Hs2, Hs1 by done. done.
Qed.
End Isolation.

(** ** Buffers of system calls *)
Lemma access_run s mm x l addr len : on_cpu s mm x l -> vmm_check_access_write addr len s =
  Ok (existsb (fun a => a_writable a && ((a_start a <=? addr) && (addr <? a_stop a)) && (u32 (addr + len) <? a_stop a)) l, s).
Proof.
  intros [W Hp Hc Hx M]. pose proof (mm_not_null s mm x W Hx) as Hm. unfold vmm_check_access_write.
  do 2 (erewrite (st_bind_Ok (gets _)) by done; rewrite ?Hp, ?Hc; check). run (get_mm_ok s mm x Hx). rewrite (mw_areas _ _ _ M).
  erewrite (st_bind_Ok (lift _)) by done. rewrite (vlocked_ok _ _ _ (irq false s) eq_refl eq_refl). by rewrite irq_irq, irq_same.
Qed.

(** when [addr + len] does not overflow, a range that [vmm_check_access_write] accepts is
    inside one writable area: every byte of it is mapped in the task's own directory for writing. *)
Theorem check_access_write_sound s mm x l addr len : on_cpu s mm x l -> 0 <= addr -> 0 <= len -> addr + len < 2 ^ 32 ->
  exists b, vmm_check_access_write addr len s = Ok (b, s) /\
    (b = true <-> exists a, a ∈ l /\ a_writable a = true /\ a_start a <= addr < a_stop a /\ addr + len < a_stop a) /\
    (b = true -> forall v, addr <= v < addr + len -> space s (mm_directory x) v <> None /\ rw (walk s (mm_directory x) v) = 1).
Proof.
  intros Hr H0 H1 H2. eexists. split; [by apply access_run with mm x|]. rewrite u32_small by lia.
  assert (Hiff : existsb (fun a => a_writable a && ((a_start a <=? addr) && (addr <? a_stop a)) && (addr + len <? a_stop a)) l = true <->
    exists a, a ∈ l /\ a_writable a = true /\ a_start a <= addr < a_stop a /\ addr + len < a_stop a).
  { rewrite existsb_exists. split; intros (a & Ha & Hb); exists a; rewrite list_elem_of_In in *; [bool_to_prop; split_and!; (done || lia) |].
    destruct Hb as (-> & [Hb1 Hb2] & Hb3). split; [done|]. cbn. rewrite (proj2 (Z.leb_le _ _) Hb1), (proj2 (Z.ltb_lt _ _) Hb2), (proj2 (Z.ltb_lt _ _) Hb3). done. }
  split; [exact Hiff|]. intros (a & Ha & Hw & Hin & He)%Hiff v Hv. destruct (mw_page _ _ _ (run_areas _ _ _ _ Hr) v true) as [[Hf _] Hrw].
  { exists a. split_and!; [done | unfold in_area; lia | done]. }
  split; [|done]. unfold space. by rewrite (proj2 (Z.eqb_neq _ _) Hf).
Qed.

(** a length near 2^32 makes [addr + len] wrap around to the start of the area: all of
    CHECK_ACCESS_WRITE accepts a range that leaves the area and the user's half of memory. *)
Theorem check_access_write_wraps s mm x l a addr : on_cpu s mm x l -> a ∈ l -> a_writable a = true -> a_start a < addr < a_stop a ->
  let len := 2 ^ 32 - (addr - a_start a) in
  0 <= len < 2 ^ 32 /\ CHECK_ACCESS_READ addr len = true /\ vmm_check_access_write addr len s = Ok (true, s) /\ 2 ^ 32 <= addr + len.
Proof.
  intros Hr Ha Hw Hin len. eapply Forall_forall in Ha as Hwf; [|exact (mw_wf _ _ _ (run_areas _ _ _ _ Hr))]. destruct Hwf as (_ & _ & A3 & A4).
  assert (E : u32 (addr + len) = a_start a).
  { unfold len, u32. replace (addr + (2 ^ 32 - (addr - a_start a))) with (a_start a + 1 * 2 ^ 32) by lia. rewrite Z.mod_add by done. apply Z.mod_small. lia. }
  split_and!; [lia | lia | | |lia].
  - unfold CHECK_ACCESS_READ. rewrite E. apply andb_true_iff. split; apply user_space; lia.
  - rewrite (access_run s mm x l) by done. rewrite E. do 2 f_equal. apply existsb_exists. exists a. rewrite <- list_elem_of_In. split; [done|].
    rewrite Hw, (proj2 (Z.leb_le _ _)), !(proj2 (Z.ltb_lt _ _)) by lia. done.
Qed.

(** ** The break of a forked child *)
Section Child.
Context `{KernelAlloc}.

Lemma vlocked_panic {A} (body : VM A) s : body (irq false s) = Panic -> vlocked body s = Panic.
Proof.
  intros Hb. unfold vlocked, interrupts_enabled, set_interrupts. erewrite (st_bind_Ok (gets _)) by done.
  erewrite (st_bind_Ok (modify _)) by done. unfold mbind at 1, st_bind at 1. fold (irq false s). by rewrite Hb.
Qed.

Lemma walk_table s d v : pt_wf s -> walk s d v <> page0 -> exists pd, dirs s !! d = Some pd /\ tables pd (PT v) <> 0.
Proof.
  intros P. unfold walk. destruct (dirs s !! d) as [pd|]; [|done]. intros Hw. exists pd. split; [done|]. intros E.
  by rewrite E, (proj2 (pt_null _ _ P)) in Hw.
Qed.

(** [vmm_clone_mm] leaves the child's break at 0, so the child's first request for memory
    maps from address 0, which is the kernel's guard page there: the system stops. *)
Theorem fork_child_sbrk_panics s mm x l delta : on_cpu s mm x l -> brk x = 0 ->
  walk s (mm_directory x) 0 <> page0 -> 0 < frames_with false (pm s) ->
  0 < delta -> round_page delta < USER_STACK_START - USER_STACK_SIZE_MAX -> sbrk delta s = Panic.
Proof.
  intros [W Hp Hc Hx M] Hb Hw Hfree Hdelta Hlim. pose proof (mm_not_null s mm x W Hx) as Hm.
  destruct (walk_table s (mm_directory x) 0 (wf_pt _ W) Hw) as (pd & Hd & Ht).
  assert (Hne : 0 < round_page delta /\ round_page delta mod PAGE_SIZE = 0) by (unfold round_page, PAGE_SIZE; Z.to_euclidean_division_equations; lia).
  unfold USER_STACK_START, USER_STACK_SIZE_MAX in Hlim. destruct (pages_exact 0 (round_page delta)) as [_ En]; [done | lia | lia |].
  unfold sbrk. do 2 (erewrite (st_bind_Ok (gets _)) by done; rewrite ?Hp, ?Hc; check).
  run (get_mm_ok s mm x Hx). rewrite Hb. erewrite (st_bind_Ok (ensure _)) by done.
  rewrite (proj2 (Z.eqb_neq delta 0)), (proj2 (Z.ltb_lt 0 delta)) by lia. cbv zeta. rewrite round_up by (rewrite ?Z.add_0_l; lia). rewrite Z.add_0_l.
  unfold USER_STACK_START, USER_STACK_SIZE_MAX. check. unfold mbind at 1, st_bind at 1. enough (vmm_alloc_user 0 (round_page delta) mm true s = Panic) as -> by done.
  unfold vmm_alloc_user. check. rewrite !land_fff.
  do 3 (erewrite (st_bind_Ok (ensure _)) by (apply ensure_true, Z.eqb_eq; unfold PAGE_SIZE in *; Z.to_euclidean_division_equations; lia)). check.
  destruct (pages_between 0 (round_page delta)) as [|n]; [lia|]. cbn [map_user].
  destruct (pmm_alloc_some (pm s)) as (i & q & Hq & _); [apply W | done |].
  unfold mbind at 1, st_bind at 1. run (on_pmm_ok pmm_alloc s _ _ Hq). run (get_mm_ok (set_pm q s) mm x Hx).
  erewrite (st_bind_Ok (put_mm _ _)) by done. set (s1 := set_mms _ _). unfold mbind at 1, st_bind at 1.
  assert (P1 : pt_wf s1) by (by destruct (wf_pt _ W)).
  destruct (vmm_get_page_ok _ s1 (mm_directory x) pd 0 P1 Hd (or_introl Ht)) as (s2 & pd2 & t & R2 & Hd2 & Ht2 & Et & P2 & V2).
  enough (vmm_map 0 (i * PAGE_SIZE) (mm_directory x) false true s1 = Panic) as -> by done.
  unfold vmm_map. erewrite (st_bind_Ok (ensure _)).
  2: { apply ensure_true, negb_true_iff, Z.eqb_neq. intros E. rewrite E, (proj1 (pt_null _ _ (wf_pt _ W))) in Hd. done. }
  run R2. apply vlocked_panic. run (get_page_at (irq false s2) _ t (PO 0) Ht2). rewrite Et. change (walk s1) with (walk s).
  by rewrite bool_decide_false.
Qed.
End Child.

(** ** On the concrete machine *)
Lemma demo_tasks : tasks_wf demo.
Proof.
  assert (Hone : forall mm x, mms demo !! mm = Some x -> mm = 5 /\ x = demo_mm) by (intros mm x Hx; cbn in Hx; by apply lookup_singleton_Some in Hx as [<- <-]).
  split; [exact demo_vm_wf | |].
  - intros mm x l [-> ->]%Hone [= <-]. exact demo_mm_wf.
  - intros mm1 x1 l1 mm2 x2 l2 [-> _]%Hone _ [-> _]%Hone _ _. done.
Qed.
Lemma demo_fork : enabled demo demo_mm [mk_area 0x10000000 0x10001000 true; mk_area demo_guard (demo_guard + PAGE_SIZE) true] Fork.
Proof. unfold enabled. change (mm_directory demo_mm) with 2. rewrite demo_copies. done. Qed.

Lemma check_access_write_sound_witness : vmm_check_access_write 0x10000100 0x100 demo = Ok (true, demo) /\ rw (walk demo 2 0x10000180) = 1.
Proof.
  destruct (check_access_write_sound demo 5 demo_mm _ 0x10000100 0x100 demo_on_cpu) as (b & R & Hb & Hs); [done.. |].
  assert (b = true) as ->.
  { apply Hb. exists (mk_area 0x10000000 0x10001000 true). split_and!; [by left | done..]. }
  split; [exact R|]. apply (Hs eq_refl 0x10000180). done.
Defined.

Lemma check_access_write_wraps_witness : vmm_check_access_write 0x10000800 0xfffff800 demo = Ok (true, demo).
Proof.
  apply (check_access_write_wraps demo 5 demo_mm _ (mk_area 0x10000000 0x10001000 true) 0x10000800 demo_on_cpu); [by left | done | done].
Defined.

Lemma tasks_isolated_witness : exists s ops s', ops <> [] /\ runs s ops s' /\ space s' 2 0x10000abc = space s 2 0x10000abc.
Proof.
  destruct (fork_step demo 5 demo_mm _ demo_tasks eq_refl eq_refl demo_fork) as (s1 & child & R1 & T1 & _).
  destruct (vmm_clone_mm_ok demo 5 demo_mm _ demo_vm_wf eq_refl demo_mm_wf demo_fork) as (s1' & child' & c & R1' & _ & Hch & E & _ & _ & _ & _ & _ & _ & Wo & _).
  rewrite R1 in R1'. injection R1' as <- <-. assert (Hne : child <> 5) by (intros ->; discriminate Hch).
  destruct (destroy_step s1 child _ _ T1 ltac:(rewrite E; apply lookup_insert_eq) eq_refl) as (s2 & R2 & _ & _).
  assert (Hr : runs s1 [(child, Destroy)] s2).
  { econstructor; [rewrite E; apply lookup_insert_eq | reflexivity | exact I | exact R2 | constructor]. }
  exists s1, [(child, Destroy)], s2. split_and!; [discriminate | exact Hr |].
  apply (tasks_isolated s1 [(child, Destroy)] s2 5 demo_mm (default [] (areas demo_mm)) T1 Hr); [rewrite E, lookup_insert_ne by exact Hne; reflexivity | reflexivity | by repeat constructor | reflexivity].
Defined.

(** The child of the concrete task, when it runs. *)
Definition set_current_mm (mm : Z) (s : vmm) : vmm :=
  mk_vmm (pm s) (dirs s) (ptables s) (pagedirs s) (mms s) (kernel_directory s) (current_directory s) (cr3 s) mm (privilege s).
Lemma run_child s mm x l : vm_wf s -> privilege s = 3 -> mms s !! mm = Some x -> mm_wf s x l -> on_cpu (set_current_mm mm s) mm x l.
Proof.
  intros [[] [[]] ?] Hp Hx []. split; [|done | done | done | by split]. split; [by split | | done]. split; [by split | done..].
Qed.
Lemma fork_child_sbrk_panics_witness : exists s child, vmm_clone_mm 5 demo = Ok (child, s) /\
  (privilege s = 3 -> sbrk 0x1000 (set_current_mm child s) = Panic).
Proof.
  destruct (vmm_clone_mm_ok demo 5 demo_mm _ demo_vm_wf eq_refl demo_mm_wf demo_fork) as (s & child & c & R & W & Hch & E & _ & _ & M & _ & Sk & _ & _ & _ & Fr & _).
  change (mm_directory demo_mm) with 2 in *. rewrite demo_copies in *. exists s, child. split; [exact R|]. intros Hp.
  eapply (fork_child_sbrk_panics (set_current_mm child s) child).
  - apply run_child; [exact W | exact Hp | rewrite E; apply lookup_insert_eq | exact M].
  - exact eq_refl.
  - change (walk (set_current_mm child s)) with (walk s). cbn [mm_directory]. rewrite Sk; [vm_compute; discriminate | clear; vm_compute; split; [discriminate | reflexivity] | reflexivity].
  - cbn [pm set_current_mm]. rewrite Fr. vm_compute. reflexivity.
  - exact eq_refl.
  - vm_compute. reflexivity.
Defined.
