(* ===== verification/CString.v ===== *)
(** * The C string library (src/src/lib/string.c)

    A [char *] is modelled by the list of the bytes (0 to 255) from the address it
    points to up to the end of the object it points into: reading past the end of
    that list is [Undef].  A function that writes through a pointer returns the
    changed list; a function that returns a pointer into its argument returns the
    offset from it ([None] for NULL). *)
From S2P Require Import Prelude.
From stdpp Require Import strings.
#[local] Open Scope Z_scope.

(** The bytes of a string literal, with its terminator. *)
Fixpoint chars (s : string) : list Z :=
  match s with
  | String.EmptyString => []
  | String.String a s => Z.of_nat (Ascii.nat_of_ascii a) :: chars s
  end.
Definition lit (s : string) : list Z := chars s ++ [0].

(** [*s] and [s + n] *)
Definition load (s : list Z) : res Z := deref (head s).
Definition padd (s : list Z) (n : Z) : list Z := drop (Z.to_nat n) s.

Definition isspace (c : Z) : bool :=
  (c =? 32) || (c =? 10) || (c =? 9) || (c =? 11) || (c =? 12) || (c =? 13).

Definition tolower (c : Z) : Z :=
  if (65 <=? c) && (c <=? 90) then Z.lor c 0x20 else c.

(** ** Length, copying and concatenation *)
Fixpoint strlen_from (s : list Z) (len : Z) : res Z :=
  match s with
  | [] => Undef
  | c :: s => if c =? 0 then Ok len else strlen_from s (len + 1)
  end.
Definition strlen (s : list Z) : res Z := strlen_from s 0.

Fixpoint strcpy (s1 s2 : list Z) : res (list Z) :=
  match s1, s2 with
  | d :: s1, c :: s2 =>
      if c =? 0 then Ok (0 :: s1) else r ← strcpy s1 s2; Ok (c :: r)
  | _, _ => Undef
  end.

(** [memcpy(dst, src, n)] (implemented in assembly): copies [n] bytes. *)
Fixpoint memcpy (dst src : list Z) (n : nat) : res (list Z) :=
  match n, dst, src with
  | O, _, _ => Ok dst
  | S n, _ :: dst, c :: src => r ← memcpy dst src n; Ok (c :: r)
  | S _, _, _ => Undef
  end.

(** Writing at [dst + off]. *)
Definition store_at (dst : list Z) (off : Z) (w : list Z -> res (list Z)) : res (list Z) :=
  r ← w (padd dst off); Ok (take (Z.to_nat off) dst ++ r).

Definition strlcpy (dst src : list Z) (size : Z) : res (list Z * Z) :=
  len ← strlen src;
  if len + 1 <=? size then
    dst ← strcpy dst src;
    Ok (dst, len)
  else if size =? 0 then Ok (dst, len)
  else
    dst ← memcpy dst src (Z.to_nat (size - 1));
    dst ← aset dst (size - 1) 0;
    Ok (dst, len).

Definition strlcat (dst src : list Z) (size : Z) : res (list Z * Z) :=
  used ← strlen dst;
  length ← strlen src;
  if (0 <? size) && (used <? size - 1) then
    let copy := if size - used <=? length then size - used - 1 else length in
    dst ← store_at dst used (fun d => memcpy d src (Z.to_nat copy));
    dst ← aset dst (used + copy) 0;
    Ok (dst, used + length)
  else Ok (dst, used + length).

(** [kmalloc(len + 1)] returns a block of that size, whose bytes are [fresh]. *)
Definition strdup (fresh : list Z) (s : option (list Z)) : res (option (list Z)) :=
  match s with
  | None => Ok None
  | Some s => len ← strlen s; '(d, _) ← strlcpy fresh s (len + 1); Ok (Some d)
  end.

(** ** Comparison *)
Definition byte_order (c1 c2 : Z) : Z := if c1 <? c2 then -1 else 1.

Fixpoint strcmp (s1 s2 : list Z) : res Z :=
  match s1, s2 with
  | c1 :: s1, c2 :: s2 =>
      if c1 =? c2 then if c1 =? 0 then Ok 0 else strcmp s1 s2
      else Ok (byte_order c1 c2)
  | _, _ => Undef
  end.

Fixpoint stricmp (s1 s2 : list Z) : res Z :=
  match s1, s2 with
  | c1 :: s1, c2 :: s2 =>
      if tolower c1 =? tolower c2 then if c1 =? 0 then Ok 0 else stricmp s1 s2
      else Ok (byte_order c1 c2)
  | _, _ => Undef
  end.

Definition byte_cmp (c1 c2 : Z) : Z := if c1 <? c2 then -1 else if c2 <? c1 then 1 else 0.

(** [while (n-- > 0 && f( *s1) == f( *s2))] of [strncmp] and [strnicmp]. *)
Fixpoint strn_loop (f : Z -> Z) (n : nat) (s1 s2 : list Z) : res Z :=
  match s1, s2 with
  | c1 :: s1, c2 :: s2 =>
      match n with
      | O => Ok (byte_cmp c1 c2)
      | S n =>
          if f c1 =? f c2 then
            if (Nat.eqb n 0) || (c1 =? 0) then Ok 0 else strn_loop f n s1 s2
          else Ok (byte_cmp c1 c2)
      end
  | _, _ => Undef
  end.
Definition strn_entry (f : Z -> Z) (s1 s2 : option (list Z)) (n : nat) : res Z :=
  match n, s1, s2 with
  | S _, Some s1, Some s2 => strn_loop f n s1 s2
  | _, _, _ => Ok 0
  end.
Definition strncmp : option (list Z) -> option (list Z) -> nat -> res Z := strn_entry (fun c => c).
Definition strnicmp : option (list Z) -> option (list Z) -> nat -> res Z := strn_entry tolower.

Fixpoint memcmp (us1 us2 : list Z) (count : nat) : res Z :=
  match count with
  | O => Ok 0
  | S count =>
      match us1, us2 with
      | c1 :: us1, c2 :: us2 =>
          if negb (c1 =? c2) then Ok (byte_order c1 c2) else memcmp us1 us2 count
      | _, _ => Undef
      end
  end.

(** ** Searching *)
Fixpoint strchr_from (s : list Z) (c off : Z) : res (option Z) :=
  match s with
  | [] => Undef
  | x :: s =>
      if negb (x =? 0) && negb (x =? c) then strchr_from s c (off + 1)
      else if x =? c then Ok (Some off) else Ok None
  end.
Definition strchr (s : list Z) (c_ : Z) : res (option Z) := strchr_from s (u8 c_) 0.

(** [while (p > s && *p != c) p--], [p] the offset from [s]. *)
Fixpoint strrchr_from (s : list Z) (c : Z) (p : nat) : res (option Z) :=
  x ← aget s (Z.of_nat p);
  match p with
  | O => if x =? c then Ok (Some 0) else Ok None
  | S q => if x =? c then Ok (Some (Z.of_nat p)) else strrchr_from s c q
  end.
Definition strrchr (s : list Z) (c_ : Z) : res (option Z) :=
  len ← strlen s;
  if len =? 0 then Ok None else strrchr_from s (u8 c_) (Z.to_nat (len - 1)).

(** [while ( *p1 != 0 && *p2 != 0 && *p1 != *p2) p1++]: also the distance walked. *)
Fixpoint strstr_skip (p1 : list Z) (c2 : Z) (k : Z) : res (list Z * Z) :=
  match p1 with
  | [] => Undef
  | c1 :: p1' =>
      if negb (c1 =? 0) && negb (c2 =? 0) && negb (c1 =? c2) then strstr_skip p1' c2 (k + 1)
      else Ok (p1, k)
  end.
(** [while ( *p2 != 0 && *p1 == *p2) p1++, p2++] *)
Fixpoint strstr_run (p1 p2 : list Z) (k : Z) {struct p2} : res (list Z * list Z * Z) :=
  match p2 with
  | [] => Undef
  | c2 :: p2' =>
      if c2 =? 0 then Ok (p1, p2, k)
      else match p1 with
           | [] => Undef
           | c1 :: p1' =>
               if c1 =? c2 then strstr_run p1' p2' (k + 1) else Ok (p1, p2, k)
           end
  end.
(** [while (1)]; every round but the last one advances [p1], so the haystack's
    size bounds the rounds. *)
Fixpoint strstr_loop (fuel : nat) (p1 : list Z) (off : Z) (needle : list Z) : res (option Z) :=
  match fuel with
  | O => NoFuel
  | S fuel =>
      c2 ← load needle;
      '(p1, k) ← strstr_skip p1 c2 0;
      c1 ← load p1;
      if (c1 =? 0) || (c2 =? 0) then Ok None
      else
        '(p1', p2', k') ← strstr_run p1 needle 0;
        c2' ← load p2';
        if c2' =? 0 then Ok (Some (off + k))
        else strstr_loop fuel p1' (off + k + k') needle
  end.
Definition strstr (haystack needle : list Z) : res (option Z) :=
  c ← load needle;
  if c =? 0 then Ok (Some 0)
  else strstr_loop (S (length haystack)) haystack 0 needle.

(** ** Spans and tokens *)

(** The loop of [strcspn] ([stop = true]) and [strspn] ([stop = false]). *)
Fixpoint span_from (stop : bool) (sc1 s2 : list Z) (k : Z) : res Z :=
  match sc1 with
  | [] => Undef
  | c :: sc1 =>
      if c =? 0 then Ok k
      else
        o ← strchr s2 c;
        if Bool.eqb (match o with Some _ => true | None => false end) stop then Ok k
        else span_from stop sc1 s2 (k + 1)
  end.
Definition strcspn (s1 s2 : list Z) : res Z := span_from true s1 s2 0.
Definition strspn (s1 s2 : list Z) : res Z := span_from false s1 s2 0.

(** [*lasts] points into the tokenised buffer or at the literal [""]. *)
Inductive tokptr := PBuf (off : Z) | PEmpty.

(** [buf] is the buffer being tokenised; [s] is [Some off] on the first call. *)
Definition strtok_r (buf : list Z) (s : option Z) (delimiters : list Z) (lasts : tokptr)
  : res (list Z * option Z * tokptr) :=
  let sbegin := match s with Some o => PBuf o | None => lasts end in
  match sbegin with
  | PEmpty =>
      n ← strspn (lit "") delimiters;
      c ← load (padd (lit "") n);
      if c =? 0 then Ok (buf, None, PEmpty) else Undef
  | PBuf o =>
      n ← strspn (padd buf o) delimiters;
      let o := o + n in
      c ← load (padd buf o);
      if c =? 0 then Ok (buf, None, PEmpty)
      else
        m ← strcspn (padd buf o) delimiters;
        let send := o + m in
        c ← load (padd buf send);
        if negb (c =? 0) then
          buf ← aset buf send 0;
          Ok (buf, Some o, PBuf (send + 1))
        else Ok (buf, Some o, PBuf send)
  end.

(** [while (isspace( *str)) str++] *)
Fixpoint skip_space (s : list Z) (k : Z) : res Z :=
  match s with
  | [] => Undef
  | c :: s => if isspace c then skip_space s (k + 1) else Ok k
  end.
(** [while (end > str && isspace( *end)) end--], [end] the offset from [str]. *)
Fixpoint back_space (s : list Z) (e : nat) : res Z :=
  match e with
  | O => Ok 0
  | S e' => c ← aget s (Z.of_nat e);
            if isspace c then back_space s e' else Ok (Z.of_nat e)
  end.
(** The changed string and the offset of the returned pointer. *)
Definition trim (str : list Z) : res (list Z * Z) :=
  len ← strlen str;
  if len =? 0 then Ok (str, 0)
  else
    k ← skip_space str 0;
    c ← load (padd str k);
    if c =? 0 then Ok (str, k)
    else
      len ← strlen (padd str k);
      e ← back_space (padd str k) (Z.to_nat (len - 1));
      str ← aset str (k + e + 1) 0;
      Ok (str, k).

(** ** Abstract strings *)

(** The object [b] holds the C string [s]: its bytes up to the first zero byte. *)
Definition char_ok (c : Z) : Prop := 0 < c < 256.
Definition cstr (b s : list Z) : Prop :=
  exists rest, b = s ++ 0 :: rest /\ Forall char_ok s.

(** [mem c s] *)
Definition has (s : list Z) (c : Z) : bool := existsb (Z.eqb c) s.

(** The maximal runs of [s] without a delimiter, in order; [cur] is the run being read. *)
Fixpoint fields_from (d s cur : list Z) : list (list Z) :=
  match s with
  | [] => match cur with [] => [] | _ => [cur] end
  | c :: s =>
      if has d c then match cur with [] => fields_from d s [] | _ => cur :: fields_from d s [] end
      else fields_from d s (cur ++ [c])
  end.
Definition fields (d s : list Z) : list (list Z) := fields_from d s [].

(** Lexicographic order on unsigned bytes. *)
Fixpoint lex (s t : list Z) : comparison :=
  match s, t with
  | [], [] => Eq
  | [], _ :: _ => Lt
  | _ :: _, [] => Gt
  | c :: s, d :: t => match c ?= d with Eq => lex s t | r => r end
  end.

(** ** Lemmas on strings in memory *)
Lemma cstr_nil b : cstr (0 :: b) [].
Proof. exists b. by split. Qed.

Lemma cstr_cons c b s : char_ok c -> cstr b s -> cstr (c :: b) (c :: s).
Proof. intros Hc (r & -> & Hs). exists r. by split; [|constructor]. Qed.

Lemma cstr_inv b s :
  cstr b s ->
  (s = [] /\ exists r, b = 0 :: r) \/
  (exists c b' s', b = c :: b' /\ s = c :: s' /\ char_ok c /\ cstr b' s').
Proof.
  intros (r & -> & Hs). destruct s as [|c s]; [left; eauto|right].
  inversion Hs; subst. exists c, (s ++ 0 :: r), s. split_and!; try done. by exists r.
Qed.

Lemma cstr_app u b s : Forall char_ok u -> cstr b s -> cstr (u ++ b) (u ++ s).
Proof. induction 1; intros; cbn; [done|]. apply cstr_cons; auto. Qed.

Lemma cstr_drop b u s : cstr b (u ++ s) -> cstr (drop (length u) b) s.
Proof.
  intros (r & -> & Hs). rewrite <- app_assoc, drop_app_length.
  exists r. split; [done|]. by apply Forall_app in Hs as [_ ?].
Qed.

Lemma cstr_chars b s : cstr b s -> Forall char_ok s.
Proof. by intros (r & -> & Hs). Qed.

Lemma lit_cstr s : Forall char_ok (chars s) -> cstr (lit s) (chars s).
Proof. intros. by exists []. Qed.

Lemma lit_check s : forallb (fun c => (0 <? c) && (c <? 256)) (chars s) = true -> cstr (lit s) (chars s).
Proof.
  intros H. apply lit_cstr, Forall_forall. intros c Hc. rewrite forallb_forall in H.
  specialize (H c (proj1 (list_elem_of_In _ _) Hc)). unfold char_ok. bool_to_prop. lia.
Qed.

Lemma zlen_take_drop {A} (l : list A) (n : nat) : (n <= length l)%nat -> zlen l = Z.of_nat n + zlen (drop n l).
Proof. intros. unfold zlen. rewrite length_drop. lia. Qed.

(** Induction on a string in memory, one character at a time. *)
Lemma cstr_rect_prop (P : list Z -> list Z -> Prop) :
  (forall r, P (0 :: r) []) ->
  (forall c b s, char_ok c -> cstr b s -> P b s -> P (c :: b) (c :: s)) ->
  forall b s, cstr b s -> P b s.
Proof.
  intros H0 H1 b s. revert b. induction s as [|c s IH]; intros b Hb;
    apply cstr_inv in Hb as [(? & r & ->)|(c' & b' & s' & -> & ? & Hc & Hb)]; simplify_eq; auto.
Qed.

Lemma cstr_unique b s t : cstr b s -> cstr b t -> s = t.
Proof.
  intros Hs. revert t. pattern b, s. revert b s Hs. apply cstr_rect_prop.
  - intros r t [(-> & _)|(c & b' & t' & ? & -> & Hc & _)]%cstr_inv; [done|].
    unfold char_ok in Hc. simplify_eq; lia.
  - intros c b s Hc _ IH t [(-> & r & ?)|(d & b' & t' & ? & -> & Hd & Ht)]%cstr_inv;
      unfold char_ok in *; simplify_eq; [lia|]. f_equal; auto.
Qed.

(** ** strlen *)
Lemma strlen_from_spec b s k : cstr b s -> strlen_from b k = Ok (k + zlen s).
Proof.
  intros H. revert k. pattern b, s. revert b s H. apply cstr_rect_prop; cbn.
  - intros r k. f_equal. unfold zlen. cbn. lia.
  - intros c b s Hc _ IH k. unfold char_ok in Hc. destruct (Z.eqb_spec c 0); [lia|].
    rewrite IH, zlen_cons. f_equal. lia.
Qed.

Lemma strlen_spec b s : cstr b s -> strlen b = Ok (zlen s).
Proof. intros. unfold strlen. by rewrite (strlen_from_spec b s). Qed.

(** ** Copying *)
Lemma strcpy_spec dst src s :
  cstr src s -> zlen s < zlen dst ->
  strcpy dst src = Ok (s ++ 0 :: drop (S (length s)) dst).
Proof.
  intros H. revert dst. pattern src, s. revert src s H. apply cstr_rect_prop.
  - intros r [|d dst] Hd; unfold zlen in Hd; cbn in *; [lia|done].
  - intros c b s Hc _ IH [|d dst] Hd; unfold zlen in *; cbn in *; [lia|].
    unfold char_ok in Hc. destruct (Z.eqb_spec c 0); [lia|].
    rewrite IH by lia. done.
Qed.

Lemma memcpy_spec dst src n :
  (n <= length dst)%nat -> (n <= length src)%nat ->
  memcpy dst src n = Ok (take n src ++ drop n dst).
Proof.
  revert dst src. induction n as [|n IH]; intros [|d dst] [|c src] Hd Hs; cbn in *; try lia; try done.
  rewrite IH by lia. done.
Qed.

Lemma cstr_len b s : cstr b s -> (length s < length b)%nat.
Proof. intros (r & -> & _). rewrite length_app. cbn. lia. Qed.

Lemma take_cstr b s n : cstr b s -> (n <= length s)%nat -> take n b = take n s.
Proof. intros (r & -> & _) Hn. by rewrite take_app_le. Qed.

(** [strlcpy] stores the longest prefix that fits, terminated, and nothing beyond it. *)
Lemma strlcpy_spec dst src s size :
  cstr src s -> 0 < size <= zlen dst ->
  strlcpy dst src size =
  Ok (take (Z.to_nat (size - 1)) s ++ 0 :: drop (S (Nat.min (Z.to_nat (size - 1)) (length s))) dst, zlen s).
Proof.
  intros Hs Hsz. unfold strlcpy. rewrite (strlen_spec _ _ Hs). cbn [mbind res_bind].
  unfold zlen in *. destruct (Z.leb_spec (Z.of_nat (length s) + 1) size).
  - rewrite (strcpy_spec dst src s Hs) by (unfold zlen; lia). cbn [mbind res_bind].
    rewrite take_ge, Nat.min_r by lia. done.
  - destruct (Z.eqb_spec size 0); [lia|]. pose proof (cstr_len _ _ Hs).
    rewrite memcpy_spec by lia. cbn [mbind res_bind].
    rewrite (take_cstr src s) by (done || lia). rewrite Nat.min_l by lia.
    destruct (drop (Z.to_nat (size - 1)) dst) as [|x r] eqn:E.
    { apply (f_equal length) in E. rewrite length_drop in E. cbn in E. lia. }
    pose proof (aset_mid (take (Z.to_nat (size - 1)) s) r x 0) as Ha.
    unfold zlen in Ha. rewrite length_take in Ha.
    replace (Z.of_nat (Z.to_nat (size - 1) `min` length s)) with (size - 1) in Ha by lia.
    rewrite Ha. cbn [mbind res_bind]. do 3 f_equal.
    replace (S (Z.to_nat (size - 1))) with (Z.to_nat (size - 1) + 1)%nat by lia.
    rewrite <- drop_drop, E. done.
Qed.

Lemma strlcpy_cstr dst src s size d n :
  cstr src s -> 0 < size <= zlen dst -> strlcpy dst src size = Ok (d, n) ->
  cstr d (take (Z.to_nat (size - 1)) s) /\ zlen d = zlen dst.
Proof.
  intros Hs Hsz. rewrite (strlcpy_spec _ _ _ _ Hs Hsz). intros [= <- <-].
  pose proof (cstr_len _ _ Hs). split.
  - eexists. split; [done|]. apply Forall_take. by eapply cstr_chars.
  - unfold zlen in *. rewrite length_app, length_take. cbn [length]. rewrite length_drop. lia.
Qed.

(** [strlcat] appends the longest prefix of the source that fits in [size] bytes. *)
Lemma strlcat_spec d r src s size :
  Forall char_ok d -> cstr src s -> zlen d < size <= zlen (d ++ 0 :: r) ->
  let room := Z.to_nat (size - 1 - zlen d) in
  strlcat (d ++ 0 :: r) src size =
  Ok (d ++ take room s ++ 0 :: drop (Nat.min room (length s)) r, zlen d + zlen s).
Proof.
  intros Hd Hs Hsz room. unfold strlcat.
  rewrite (strlen_spec (d ++ 0 :: r) d), (strlen_spec _ _ Hs) by (by exists r). cbn [mbind res_bind].
  pose proof (zlen_nonneg d). destruct (Z.ltb_spec 0 size); [|lia]. cbn [andb].
  destruct (Z.ltb_spec (zlen d) (size - 1)).
  2: { by replace room with 0%nat by lia. }
  set (copy := if size - zlen d <=? zlen s then size - zlen d - 1 else zlen s).
  assert (Hc : copy = Z.of_nat (Nat.min room (length s))).
  { unfold copy, room, zlen in *. destruct (Z.leb_spec (size - Z.of_nat (length d)) (Z.of_nat (length s))); lia. }
  pose proof (cstr_len _ _ Hs). rewrite zlen_app, zlen_cons in Hsz.
  unfold store_at, padd. replace (Z.to_nat (zlen d)) with (length d) by (unfold zlen; lia).
  rewrite drop_app_length, take_app_length, Hc, Nat2Z.id.
  rewrite memcpy_spec by (cbn [length]; unfold room, zlen in *; lia). cbn [mbind res_bind].
  rewrite (take_cstr src s) by (done || lia). rewrite app_assoc.
  replace (take (Nat.min room (length s)) s) with (take room s)
    by (destruct (decide (room <= length s)%nat); [by rewrite Nat.min_l | by rewrite Nat.min_r, !take_ge by lia]).
  destruct (drop (Nat.min room (length s)) (0 :: r)) as [|x r'] eqn:E.
  { apply (f_equal length) in E. rewrite length_drop in E. cbn [length] in E. unfold room, zlen in *. lia. }
  pose proof (aset_mid (d ++ take room s) r' x 0) as Ha.
  rewrite zlen_app in Ha. unfold zlen at 2 in Ha. rewrite length_take in Ha. rewrite Ha.
  cbn [mbind res_bind]. rewrite <- app_assoc. do 5 f_equal.
  apply (f_equal (drop 1)) in E. rewrite drop_drop, Nat.add_comm in E. cbn in E. by rewrite drop_0 in E.
Qed.

(** ** Comparison *)
Lemma strcmp_spec b1 b2 s t :
  cstr b1 s -> cstr b2 t ->
  strcmp b1 b2 = Ok (match lex s t with Eq => 0 | Lt => -1 | Gt => 1 end).
Proof.
  intros Hs. revert b2 t. pattern b1, s. revert b1 s Hs. apply cstr_rect_prop; cbn [strcmp].
  - intros r b2 t [(-> & r' & ->)|(d & b & t' & -> & -> & Hd & _)]%cstr_inv; unfold char_ok in *; [done|].
    cbn [strcmp]. destruct (Z.eqb_spec 0 d); [lia|]. unfold byte_order. by destruct (Z.ltb_spec 0 d); [|lia].
  - intros c b s Hc _ IH b2 t [(-> & r' & ->)|(d & b' & t' & -> & -> & Hd & Ht)]%cstr_inv;
      unfold char_ok in *; cbn [strcmp lex].
    + destruct (Z.eqb_spec c 0); [lia|]. unfold byte_order. by destruct (Z.ltb_spec c 0); [lia|].
    + unfold byte_order. destruct (Z.eqb_spec c d) as [->|]; [rewrite Z.compare_refl|].
      * destruct (Z.eqb_spec d 0); [lia|]. auto.
      * destruct (Z.compare_spec c d), (Z.ltb_spec c d); done || lia.
Qed.

Lemma lex_refl s : lex s s = Eq.
Proof. induction s as [|c s IH]; cbn; [done|]. by rewrite Z.compare_refl. Qed.

Lemma lex_eq s t : lex s t = Eq <-> s = t.
Proof.
  split; [|by intros ->; apply lex_refl]. revert t.
  induction s as [|c s IH]; intros [|d t]; cbn; try done.
  destruct (Z.compare_spec c d); try done. intros ?%IH. by subst.
Qed.

Lemma lex_antisym s t : lex t s = CompOpp (lex s t).
Proof.
  revert t. induction s as [|c s IH]; intros [|d t]; cbn; try done.
  rewrite (Z.compare_antisym c d). destruct (c ?= d); cbn; auto.
Qed.

Lemma lex_trans s t u : lex s t = Lt -> lex t u = Lt -> lex s u = Lt.
Proof.
  revert t u. induction s as [|c s IH]; intros [|d t] [|e u]; cbn; try done.
  destruct (Z.compare_spec c d), (Z.compare_spec d e), (Z.compare_spec c e); try done; try lia.
  intros. by eapply IH.
Qed.

Lemma strcmp_eq_0 b1 b2 s t :
  cstr b1 s -> cstr b2 t -> strcmp b1 b2 = Ok (if decide (s = t) then 0 else if lex s t is Lt then -1 else 1).
Proof.
  intros Hs Ht. rewrite (strcmp_spec _ _ _ _ Hs Ht). case_decide as H.
  - subst. by rewrite lex_refl.
  - destruct (lex s t) eqn:E; try done. by apply lex_eq in E.
Qed.

(** ** Searching for a character *)
Fixpoint index_of (s : list Z) (c : Z) (k : Z) : option Z :=
  match s with
  | [] => None
  | x :: s => if x =? c then Some k else index_of s c (k + 1)
  end.

Lemma strchr_from_spec b s c k : char_ok c -> cstr b s -> strchr_from b c k = Ok (index_of s c k).
Proof.
  intros Hc Hs. revert k. pattern b, s. revert b s Hs.
  apply cstr_rect_prop; cbn [strchr_from index_of]; unfold char_ok in *.
  - intros r k. by destruct (Z.eqb_spec 0 c); [lia|].
  - intros x b s Hx _ IH k. destruct (Z.eqb_spec x 0); [lia|].
    destruct (Z.eqb_spec x c); cbn; auto.
Qed.

Lemma strchr_spec b s c : char_ok c -> cstr b s -> strchr b c = Ok (index_of s c 0).
Proof.
  intros Hc Hs. unfold strchr. rewrite (strchr_from_spec b s) by
    (done || unfold u8, char_ok in *; rewrite Z.mod_small; lia).
  unfold u8. rewrite Z.mod_small by (unfold char_ok in Hc; lia). done.
Qed.

Lemma index_of_has s c k : index_of s c k = None <-> has s c = false.
Proof.
  revert k. unfold has. induction s as [|x s IH]; intros k; cbn; [done|].
  rewrite Z.eqb_sym. destruct (c =? x); cbn; [split; done|]. apply IH.
Qed.

Lemma has_elem s c : has s c = true <-> c ∈ s.
Proof.
  unfold has. rewrite existsb_exists. setoid_rewrite Z.eqb_eq. rewrite list_elem_of_In. naive_solver.
Qed.

(** [strrchr] finds the last occurrence. *)
Lemma strrchr_from_spec b c p :
  (p < length b)%nat ->
  match strrchr_from b c p with
  | Ok (Some k) => 0 <= k <= Z.of_nat p /\ b !! Z.to_nat k = Some c /\
                   forall j, k < j <= Z.of_nat p -> b !! Z.to_nat j <> Some c
  | Ok None => forall j, 0 <= j <= Z.of_nat p -> b !! Z.to_nat j <> Some c
  | _ => False
  end.
Proof.
  induction p as [|p IH]; intros Hp; cbn [strrchr_from].
  1: destruct (aget_is_Ok b (Z.of_nat 0)) as (x & -> & Hx); [unfold zlen; lia|].
  2: destruct (aget_is_Ok b (Z.of_nat (S p))) as (x & -> & Hx); [unfold zlen; lia|].
  all: rewrite Nat2Z.id in Hx; cbn [mbind res_bind]; destruct (Z.eqb_spec x c) as [->|].
  - split_and!; try done; try lia.
  - intros j Hj. replace (Z.to_nat j) with 0%nat by lia. rewrite Hx. congruence.
  - split; [lia|]. split; [by rewrite Nat2Z.id | lia].
  - specialize (IH ltac:(lia)). destruct (strrchr_from b c p) as [[k|]| | |]; try done.
    + destruct IH as (? & ? & Hlast). split_and!; try done; try lia. intros j Hj.
      destruct (decide (j = Z.of_nat (S p))) as [->|]; [rewrite Nat2Z.id, Hx; congruence | apply Hlast; lia].
    + intros j Hj.
      destruct (decide (j = Z.of_nat (S p))) as [->|]; [rewrite Nat2Z.id, Hx; congruence | apply IH; lia].
Qed.

Lemma strrchr_spec b s c :
  char_ok c -> cstr b s ->
  (strrchr b c = Ok None /\ c ∉ s) \/
  (exists u v, strrchr b c = Ok (Some (zlen u)) /\ s = u ++ c :: v /\ c ∉ v).
Proof.
  intros Hc Hs. unfold strrchr. rewrite (strlen_spec _ _ Hs). cbn [mbind res_bind].
  destruct (Z.eqb_spec (zlen s) 0) as [H0|H0].
  { left. split; [done|]. destruct s; [set_solver|]. rewrite zlen_cons in H0. pose proof (zlen_nonneg s). lia. }
  replace (u8 c) with c by (unfold u8, char_ok in *; rewrite Z.mod_small; lia).
  pose proof (cstr_len _ _ Hs) as Hlen. pose proof (zlen_nonneg s). unfold zlen in *.
  pose proof (strrchr_from_spec b c (Z.to_nat (Z.of_nat (length s) - 1)) ltac:(lia)) as H1.
  assert (Hb : forall j, (j < length s)%nat -> b !! j = s !! j)
    by (intros; destruct Hs as (r & -> & _); by rewrite lookup_app_l).
  destruct (strrchr_from _ _ _) as [[k|]| | |]; try done; [right|left].
  - destruct H1 as (Hk & Hx & Hlast). rewrite Hb in Hx by lia.
    exists (take (Z.to_nat k) s), (drop (S (Z.to_nat k)) s).
    rewrite length_take, Nat.min_l, Z2Nat.id by lia. split_and!; [done | by rewrite take_drop_middle |].
    intros [i Hi]%list_elem_of_lookup_1. rewrite lookup_drop in Hi. pose proof (lookup_lt_Some _ _ _ Hi).
    apply (Hlast (k + 1 + Z.of_nat i)); [lia|]. rewrite Hb by lia. rewrite <- Hi. f_equal. lia.
  - split; [done|]. intros [i Hi]%list_elem_of_lookup_1. pose proof (lookup_lt_Some _ _ _ Hi).
    apply (H1 (Z.of_nat i)); [lia|]. by rewrite Nat2Z.id, Hb.
Qed.

(** ** Spans *)
Fixpoint take_while (p : Z -> bool) (s : list Z) : list Z :=
  match s with
  | [] => []
  | c :: s => if p c then c :: take_while p s else []
  end.
Fixpoint drop_while (p : Z -> bool) (s : list Z) : list Z :=
  match s with
  | [] => []
  | c :: s' => if p c then drop_while p s' else s
  end.

Lemma take_drop_while p s : take_while p s ++ drop_while p s = s.
Proof. induction s as [|c s IH]; cbn; [done|]. destruct (p c); cbn; [by rewrite IH|done]. Qed.

Lemma take_while_all p s : Forall (fun c => p c = true) (take_while p s).
Proof. induction s as [|c s IH]; cbn; [constructor|]. destruct (p c) eqn:E; [by constructor|constructor]. Qed.

Lemma drop_while_head p s : match drop_while p s with [] => True | c :: _ => p c = false end.
Proof. induction s as [|c s IH]; cbn; [done|]. by destruct (p c) eqn:E. Qed.

Lemma span_from_spec stop b s db d k :
  cstr b s -> cstr db d ->
  span_from stop b db k = Ok (k + zlen (take_while (fun c => negb (Bool.eqb (has d c) stop)) s)).
Proof.
  intros Hs Hd. revert k. pattern b, s. revert b s Hs.
  apply cstr_rect_prop; cbn [span_from take_while].
  - intros r k. cbn. f_equal. unfold zlen. cbn. lia.
  - intros c b s Hc _ IH k. destruct (Z.eqb_spec c 0); [unfold char_ok in Hc; lia|].
    rewrite (strchr_spec db d) by done. cbn [mbind res_bind].
    destruct (index_of d c 0) as [i|] eqn:E.
    + assert (has d c = true) as -> by (destruct (has d c) eqn:F; [done|]; apply (index_of_has _ _ 0) in F; congruence).
      destruct stop; cbn; [f_equal; unfold zlen; cbn; lia|]. rewrite IH, zlen_cons. f_equal. lia.
    + apply index_of_has in E. rewrite E.
      destruct stop; cbn; [rewrite IH, zlen_cons; f_equal; lia|]. f_equal. unfold zlen. cbn. lia.
Qed.

Lemma strspn_spec b s db d : cstr b s -> cstr db d -> strspn b db = Ok (zlen (take_while (has d) s)).
Proof.
  intros Hs Hd. unfold strspn. rewrite (span_from_spec _ _ _ _ _ _ Hs Hd), Z.add_0_l. do 2 f_equal.
  clear. induction s as [|c s IH]; cbn; [done|]. rewrite IH. by destruct (has d c).
Qed.

Lemma strcspn_spec b s db d :
  cstr b s -> cstr db d -> strcspn b db = Ok (zlen (take_while (fun c => negb (has d c)) s)).
Proof.
  intros Hs Hd. unfold strcspn. rewrite (span_from_spec _ _ _ _ _ _ Hs Hd), Z.add_0_l. do 2 f_equal.
  clear. induction s as [|c s IH]; cbn; [done|]. rewrite IH. by destruct (has d c).
Qed.

(** ** Tokens *)
Lemma fields_skip d s : fields d (drop_while (has d) s) = fields d s.
Proof. unfold fields. induction s as [|c s IH]; cbn; [done|]. destruct (has d c) eqn:E; [done|]. cbn. by rewrite E. Qed.

Lemma fields_from_cur d t s cur :
  Forall (fun c => has d c = false) t -> fields_from d (t ++ s) cur = fields_from d s (cur ++ t).
Proof.
  intros H. revert cur. induction H as [|c t Hc _ IH]; intros cur; cbn; [by rewrite app_nil_r|].
  rewrite Hc, IH, <- app_assoc. done.
Qed.

(** The first field of a string that starts with a non-delimiter. *)
Lemma fields_run d t w :
  t <> [] -> Forall (fun c => has d c = false) t ->
  match w with [] => True | c :: _ => has d c = true end ->
  fields d (t ++ w) = t :: fields d (tail w).
Proof.
  intros Ht Hall Hw. unfold fields. rewrite fields_from_cur by done. cbn [app].
  destruct w as [|c w]; cbn; destruct t; try done. by rewrite Hw.
Qed.

(** The pointer [o] into [buf] holds the string [s]. *)
Definition at_ptr (buf : list Z) (o : Z) (s : list Z) : Prop :=
  0 <= o /\ cstr (drop (Z.to_nat o) buf) s.

Lemma at_ptr_app buf o u s : at_ptr buf o (u ++ s) -> at_ptr buf (o + zlen u) s.
Proof.
  intros [Ho H]. split; [unfold zlen; lia|]. apply cstr_drop in H. rewrite drop_drop in H.
  replace (Z.to_nat (o + zlen u)) with (Z.to_nat o + length u)%nat by (unfold zlen; lia). done.
Qed.

Lemma at_ptr_split buf o s :
  at_ptr buf o s -> exists u r, buf = u ++ s ++ 0 :: r /\ zlen u = o /\ Forall char_ok s.
Proof.
  intros (Ho & r & Hr & Hs). exists (take (Z.to_nat o) buf), r. split_and!; [|..|done].
  - by rewrite <- Hr, take_drop.
  - unfold zlen. rewrite length_take. apply (f_equal length) in Hr.
    rewrite length_drop, length_app in Hr. cbn in Hr. lia.
Qed.

Lemma at_ptr_intro u s r : Forall char_ok s -> at_ptr (u ++ s ++ 0 :: r) (zlen u) s.
Proof.
  intros Hs. split; [apply zlen_nonneg|]. unfold zlen. rewrite Nat2Z.id, drop_app_length. by exists r.
Qed.

Lemma load_at buf o s : at_ptr buf o s -> load (padd buf o) = Ok (match s with [] => 0 | c :: _ => c end).
Proof.
  intros (u & r & -> & <- & _)%at_ptr_split. unfold padd, load, zlen.
  rewrite Nat2Z.id, drop_app_length. by destruct s.
Qed.

(** What remains to be tokenised, as [*lasts] sees it. *)
Definition pending (buf : list Z) (l : tokptr) (s : list Z) : Prop :=
  match l with PBuf o => at_ptr buf o s | PEmpty => s = [] end.

(** One call of [strtok_r] takes the next field off the pending string. *)
Lemma strtok_r_step buf first db d lasts s :
  cstr db d -> pending buf (match first with Some o => PBuf o | None => lasts end) s ->
  match fields d s with
  | [] => exists buf' l', strtok_r buf first db lasts = Ok (buf', None, l') /\ buf' = buf /\ l' = PEmpty
  | t :: ts =>
      exists buf' o l' s', strtok_r buf first db lasts = Ok (buf', Some o, l') /\
        at_ptr buf' o t /\ pending buf' l' s' /\ fields d s' = ts /\
        zlen buf' = zlen buf
  end.
Proof.
  intros Hd Hp. unfold strtok_r. set (sb := match first with Some o => PBuf o | None => lasts end) in *.
  destruct sb as [o|]; cbn in Hp.
  2: { subst s. cbn. eauto. }
  rewrite (strspn_spec _ s db d) by (done || apply Hp). cbn [mbind res_bind].
  rewrite <- (take_drop_while (has d) s) in Hp. apply at_ptr_app in Hp.
  rewrite <- fields_skip. pose proof (drop_while_head (has d) s) as Hh.
  set (o1 := o + _) in *. set (v := drop_while (has d) s) in *. clearbody o1 v.
  rewrite (load_at _ _ _ Hp). cbn [mbind res_bind].
  destruct v as [|c v]; [cbn; eauto|].
  assert (Hc : char_ok c) by (apply at_ptr_split in Hp as (? & ? & _ & _ & Hall); by inversion Hall).
  destruct (Z.eqb_spec c 0); [unfold char_ok in Hc; lia|].
  rewrite (strcspn_spec _ (c :: v) db d) by (done || apply Hp). cbn [mbind res_bind].
  set (nd := fun x => negb (has d x)). set (t := take_while nd (c :: v)). set (w := drop_while nd (c :: v)).
  assert (Ht : t <> []) by (unfold t, nd; cbn; by rewrite Hh).
  assert (Htw : c :: v = t ++ w) by (unfold t, w; by rewrite take_drop_while).
  assert (Hall : Forall (fun x => has d x = false) t).
  { eapply Forall_impl; [apply (take_while_all nd)|]. intros x. unfold nd. by destruct (has d x). }
  assert (Hw : match w with [] => True | x :: _ => has d x = true end).
  { pose proof (drop_while_head nd (c :: v)) as H. fold w in H. unfold nd in H.
    destruct w; [done|]. by apply negb_false_iff. }
  clearbody t w. rewrite Htw, (fields_run d t w) by done.
  rewrite Htw in Hp. pose proof (at_ptr_app _ _ _ _ Hp) as Hpw. rewrite (load_at _ _ _ Hpw).
  cbn [mbind res_bind]. apply at_ptr_split in Hp as (u & r & -> & <- & Hok).
  apply Forall_app in Hok as [Hokt Hokw]. destruct w as [|x w]; cbn [Z.eqb negb].
  - exists ((u ++ (t ++ []) ++ 0 :: r)), (zlen u), (PBuf (zlen u + zlen t)), [].
    rewrite app_nil_r in *. split_and!; [done | by apply at_ptr_intro | done..].
  - inversion Hokw; subst. destruct (Z.eqb_spec x 0); [unfold char_ok in *; lia|]. cbn [negb].
    rewrite <- zlen_app. replace (u ++ (t ++ x :: w) ++ 0 :: r) with ((u ++ t) ++ x :: (w ++ 0 :: r))
      by (by rewrite <- !app_assoc).
    rewrite aset_mid. cbn [mbind res_bind]. eexists _, _, _, w. split_and!; [done | | |done |].
    + rewrite <- app_assoc. by apply at_ptr_intro.
    + cbn [pending]. replace ((u ++ t) ++ 0 :: w ++ 0 :: r) with ((u ++ t ++ [0]) ++ w ++ 0 :: r)
        by (by rewrite <- !app_assoc).
      replace (zlen (u ++ t) + 1) with (zlen (u ++ t ++ [0])) by (rewrite !zlen_app; unfold zlen; cbn; lia).
      by apply at_ptr_intro.
    + autorewrite with kernel_rw. done.
Qed.

(** The idiom [for (t = strtok_r(buf, d, &p); t; t = strtok_r(NULL, d, &p))], collecting
    the tokens. *)
Fixpoint read_str (s : list Z) : res (list Z) :=
  match s with
  | [] => Undef
  | c :: s => if c =? 0 then Ok [] else r ← read_str s; Ok (c :: r)
  end.
Fixpoint tokens (fuel : nat) (buf : list Z) (s : option Z) (delimiters : list Z) (lasts : tokptr)
  : res (list (list Z)) :=
  match fuel with
  | O => NoFuel
  | S fuel =>
      '(buf, token, lasts) ← strtok_r buf s delimiters lasts;
      match token with
      | None => Ok []
      | Some o => t ← read_str (padd buf o); ts ← tokens fuel buf None delimiters lasts; Ok (t :: ts)
      end
  end.

Lemma read_str_spec b s : cstr b s -> read_str b = Ok s.
Proof.
  revert b s. apply cstr_rect_prop; cbn [read_str]; [done|].
  intros c b s Hc _ ->. unfold char_ok in Hc. by destruct (Z.eqb_spec c 0); [lia|].
Qed.

Lemma fields_from_len d s cur : (length (fields_from d s cur) <= length s + (if cur is [] then 0 else 1))%nat.
Proof.
  revert cur. induction s as [|c s IH]; intros [|x cur]; cbn; try lia.
  - pose proof (IH []). pose proof (IH [c]). destruct (has d c); cbn in *; lia.
  - pose proof (IH []). pose proof (IH (x :: cur ++ [c])). destruct (has d c); cbn in *; lia.
Qed.

Lemma fields_len d s : (length (fields d s) <= length s)%nat.
Proof. pose proof (fields_from_len d s []) as H. cbn in H. unfold fields. lia. Qed.

Lemma tokens_pending fuel buf first db d lasts s :
  cstr db d -> pending buf (match first with Some o => PBuf o | None => lasts end) s ->
  (length (fields d s) < fuel)%nat -> tokens fuel buf first db lasts = Ok (fields d s).
Proof.
  intros Hd. remember (fields d s) as fs eqn:Hfs. revert buf first lasts s fuel Hfs.
  induction fs as [|t ts IH]; intros buf first lasts s [|fuel] Hfs Hp Hf; cbn in Hf; try lia;
    cbn [tokens]; pose proof (strtok_r_step buf first db d lasts s Hd Hp) as Hs; rewrite <- Hfs in Hs.
  - by destruct Hs as (buf' & l' & -> & _).
  - destruct Hs as (buf' & o & l' & s' & -> & Ht & Hp' & Hts & _). cbn [mbind res_bind].
    rewrite (read_str_spec _ t) by apply Ht. cbn [mbind res_bind].
    rewrite (IH buf' None l' s' fuel) by (done || lia). done.
Qed.

(** ** Trimming *)
Definition strip (s : list Z) : list Z :=
  reverse (drop_while isspace (reverse (drop_while isspace s))).

Lemma skip_space_spec b s k : cstr b s -> skip_space b k = Ok (k + zlen (take_while isspace s)).
Proof.
  intros H. revert k. pattern b, s. revert b s H. apply cstr_rect_prop; cbn [skip_space take_while].
  - intros r k. cbn. f_equal. unfold zlen. cbn. lia.
  - intros c b s Hc _ IH k. destruct (isspace c); [rewrite IH, zlen_cons; f_equal; lia|].
    f_equal. unfold zlen. cbn. lia.
Qed.

(** Walking back from the last character keeps the string up to its last non-space. *)
Lemma back_space_spec b c u v :
  isspace c = false -> Forall (fun x => isspace x = true) v -> (length (u ++ c :: v) <= length b)%nat ->
  take (length (u ++ c :: v)) b = u ++ c :: v ->
  back_space b (length u + length v) = Ok (zlen u).
Proof.
  intros Hc Hv Hl Hb. assert (Hat : forall i x, (u ++ c :: v) !! i = Some x -> b !! i = Some x).
  { intros i x Hi. rewrite <- Hb in Hi. by apply lookup_take_Some in Hi as [? _]. }
  clear Hb Hl. induction v as [|x v IH] using rev_ind.
  - cbn. rewrite Nat.add_0_r. unfold zlen. destruct (length u) as [|n] eqn:E; cbn [back_space]; [done|].
    assert (Hn : aget b (Z.of_nat (S n)) = Ok c).
    { apply aget_Ok. split; [lia|]. rewrite Nat2Z.id. apply Hat. rewrite <- E. by apply list_lookup_middle. }
    rewrite Hn. cbn [mbind res_bind]. by rewrite Hc.
  - rewrite length_app. cbn [length]. rewrite Nat.add_1_r, Nat.add_succ_r. cbn [back_space].
    apply Forall_app in Hv as [Hv Hx]. inversion Hx as [|? ? Hx' _]; subst.
    assert (Hn : aget b (Z.of_nat (S (length u + length v))) = Ok x).
    { apply aget_Ok. split; [lia|]. rewrite Nat2Z.id. apply Hat.
      replace (u ++ c :: v ++ [x]) with ((u ++ c :: v) ++ [x]) by (by rewrite <- app_assoc).
      apply list_lookup_middle. rewrite length_app. cbn. lia. }
    rewrite Hn. cbn [mbind res_bind]. rewrite Hx'. apply IH; [done|]. intros i y Hi. apply Hat.
    replace (u ++ c :: v ++ [x]) with ((u ++ c :: v) ++ [x]) by (by rewrite <- app_assoc).
    by apply lookup_app_l_Some.
Qed.

Lemma strip_shape s c t :
  drop_while isspace s = c :: t ->
  exists u x v, c :: t = u ++ x :: v /\ isspace x = false /\
                Forall (fun y => isspace y = true) v /\ strip s = u ++ [x].
Proof.
  intros E. pose proof (drop_while_head isspace s) as Hc. rewrite E in Hc.
  unfold strip. rewrite E. set (r := reverse (c :: t)).
  pose proof (take_drop_while isspace r) as Hr. pose proof (take_while_all isspace r) as Ha.
  pose proof (drop_while_head isspace r) as Hh.
  destruct (drop_while isspace r) as [|x w] eqn:Ew.
  - rewrite app_nil_r in Hr. rewrite Hr in Ha. unfold r in Ha.
    rewrite Forall_reverse in Ha. inversion Ha. congruence.
  - exists (reverse w), x, (reverse (take_while isspace r)). split_and!; [|done|..].
    + rewrite <- (reverse_involutive (c :: t)). fold r. rewrite <- Hr at 1.
      rewrite reverse_app, reverse_cons, <- app_assoc. done.
    + by apply Forall_reverse.
    + by rewrite reverse_cons.
Qed.

(** ** Substring search *)

(** [n] occurs in [s] at position [i]. *)
Definition occurs (n s : list Z) (i : nat) : Prop := take (length n) (drop i s) = n.

Lemma strstr_skip_spec b s c k :
  char_ok c -> cstr b s ->
  exists u s' b', s = u ++ s' /\ strstr_skip b c k = Ok (b', k + zlen u) /\ cstr b' s' /\
    (c ∉ u) /\ match s' with [] => True | x :: _ => x = c end.
Proof.
  intros Hc Hs. revert k. pattern b, s. revert b s Hs. apply cstr_rect_prop; cbn [strstr_skip].
  - intros r k. exists [], [], (0 :: r). cbn. split_and!; try done; [|apply cstr_nil|set_solver].
    do 2 f_equal. unfold zlen. cbn. lia.
  - intros x b s Hx Hs IH k. unfold char_ok in *.
    destruct (Z.eqb_spec x 0), (Z.eqb_spec c 0), (Z.eqb_spec x c) as [->|Hxc]; try lia; cbn.
    + exists [], (c :: s), (c :: b). cbn. split_and!; try done; [|by apply cstr_cons|set_solver].
      do 2 f_equal. unfold zlen. cbn. lia.
    + destruct (IH (k + 1)) as (u & s' & b' & -> & -> & Hb & Hu & Hh).
      exists (x :: u), s', b'. rewrite zlen_cons. split_and!; try done; [do 2 f_equal; lia | set_solver].
Qed.

Lemma strstr_run_spec b s nb n k :
  cstr b s -> cstr nb n ->
  exists w s' n' b' nb', s = w ++ s' /\ n = w ++ n' /\ cstr b' s' /\ cstr nb' n' /\
    strstr_run b nb k = Ok (b', nb', k + zlen w) /\
    match n', s' with d :: _, x :: _ => x <> d | _, _ => True end.
Proof.
  intros Hs Hn. revert b s k Hs. pattern nb, n. revert nb n Hn. apply cstr_rect_prop; cbn [strstr_run].
  - intros r b s k Hs. exists [], s, [], b, (0 :: r).
    replace (k + zlen (@nil Z)) with k by (rewrite zlen_nil; lia).
    split_and!; try done; apply cstr_nil.
  - intros d nb n Hd Hn IH b s k Hs. destruct (Z.eqb_spec d 0); [unfold char_ok in *; lia|].
    assert (Hstop : (k + zlen (@nil Z)) = k) by (rewrite zlen_nil; lia).
    destruct (cstr_inv _ _ Hs) as [(-> & r & ->)|(x & b' & s' & -> & -> & Hx & Hs')].
    + destruct (Z.eqb_spec 0 d); [unfold char_ok in *; lia|].
      exists [], [], (d :: n), (0 :: r), (d :: nb). rewrite Hstop. split_and!; try done. by apply cstr_cons.
    + destruct (Z.eqb_spec x d) as [->|].
      * destruct (IH b' s' (k + 1) Hs') as (w & s'' & n'' & bb & nbb & -> & -> & ? & ? & -> & ?).
        exists (d :: w), s'', n'', bb, nbb. rewrite zlen_cons, Z.add_assoc. by split_and!.
      * exists [], (x :: s'), (d :: n), (x :: b'), (d :: nb). rewrite Hstop. split_and!; try done. by apply cstr_cons.
Qed.

Lemma occurs_head c n s i : occurs (c :: n) s i -> s !! i = Some c.
Proof.
  unfold occurs. intros H. apply (f_equal head) in H. cbn in H.
  destruct (drop i s) as [|x r] eqn:E; [done|]. cbn in H. injection H as ->.
  by rewrite <- (Nat.add_0_r i), <- lookup_drop, E.
Qed.

Lemma occurs_app_r u n s i : occurs n (u ++ s) (length u + i) <-> occurs n s i.
Proof. unfold occurs. rewrite <- drop_drop, drop_app_length. done. Qed.

(** After a partial match of a needle whose first character does not recur, no
    occurrence starts inside what was already read. *)
Lemma occurs_skipped c n u w x n' s' i :
  c ∉ u -> c ∉ n -> c :: n = w ++ x :: n' -> match s' with [] => True | y :: _ => y <> x end ->
  occurs (c :: n) (u ++ w ++ s') i -> (length u + length w <= i)%nat.
Proof.
  intros Hu Hn Hw Hs Ho. destruct (decide (i < length u)%nat) as [Hlt|Hge].
  { apply occurs_head in Ho. rewrite lookup_app_l in Ho by done. by apply list_elem_of_lookup_2 in Ho. }
  replace i with (length u + (i - length u))%nat in Ho |- * by lia. rewrite occurs_app_r in Ho.
  destruct (i - length u)%nat as [|j]; [exfalso|].
  - rewrite Hw in Ho. unfold occurs in Ho. rewrite drop_0, length_app, take_app_add in Ho. simplify_list_eq.
    destruct s' as [|y s']; cbn in *; simplify_eq.
  - destruct (decide (S j < length w)%nat) as [Hj|]; [exfalso|lia].
    apply occurs_head in Ho. rewrite lookup_app_l in Ho by done.
    destruct w as [|d w]; [cbn in Hj; lia|]. cbn in Hw, Ho. injection Hw as -> ->.
    apply Hn. apply elem_of_app. left. by apply list_elem_of_lookup_2 in Ho.
Qed.

Lemma strstr_loop_spec fuel b s off nb c n :
  cstr b s -> cstr nb (c :: n) -> (length s < fuel)%nat ->
  match strstr_loop fuel b off nb with
  | Ok (Some k) => exists i, k = off + Z.of_nat i /\ occurs (c :: n) s i /\
                     (c ∉ n -> forall j, occurs (c :: n) s j -> (i <= j)%nat)
  | Ok None => c ∉ n -> forall j, ~ occurs (c :: n) s j
  | _ => False
  end.
Proof.
  intros Hs Hn. revert b s off Hs. induction fuel as [|fuel IH]; intros b s off Hs Hf; [lia|]. cbn [strstr_loop].
  assert (Hc : char_ok c) by (apply cstr_chars in Hn; by inversion Hn).
  assert (Hl : load nb = Ok c) by (by destruct Hn as (r & -> & _)). rewrite Hl. cbn [mbind res_bind].
  destruct (strstr_skip_spec b s c 0 Hc Hs) as (u & s1 & b1 & -> & -> & Hb1 & Hu & Hh). cbn [mbind res_bind].
  destruct s1 as [|x s1].
  { assert (load b1 = Ok 0) as -> by (by destruct Hb1 as (r & -> & _)). cbn.
    intros _ j Ho%occurs_head. rewrite app_nil_r in Ho. by apply list_elem_of_lookup_2 in Ho. }
  subst x. assert (load b1 = Ok c) as -> by (by destruct Hb1 as (r & -> & _)). cbn [mbind res_bind].
  destruct (Z.eqb_spec c 0); [unfold char_ok in Hc; lia|]. cbn [orb].
  destruct (strstr_run_spec b1 (c :: s1) nb (c :: n) 0 Hb1 Hn)
    as (w & s2 & n2 & b2 & nb2 & Es & En & Hb2 & Hn2 & -> & Hd). cbn [mbind res_bind].
  rewrite !Z.add_0_l. rewrite Es in *. destruct n2 as [|d n2].
  - assert (load nb2 = Ok 0) as -> by (by destruct Hn2 as (r & -> & _)). cbn.
    rewrite app_nil_r in En. exists (length u). split_and!; [done | |].
    + rewrite <- (Nat.add_0_r (length u)), occurs_app_r, En. unfold occurs. by rewrite drop_0, take_app_length.
    + intros _ j Ho%occurs_head. destruct (decide (length u <= j)%nat); [done|].
      rewrite lookup_app_l in Ho by lia. by apply list_elem_of_lookup_2 in Ho.
  - assert (Hdok : char_ok d) by (apply cstr_chars in Hn2; by inversion Hn2).
    assert (load nb2 = Ok d) as -> by (by destruct Hn2 as (r & -> & _)). cbn [mbind res_bind].
    destruct (Z.eqb_spec d 0); [unfold char_ok in Hdok; lia|].
    assert (Hw : (0 < length w)%nat) by (destruct w; [cbn in *; simplify_eq; by destruct Hd | cbn; lia]).
    assert (Hlen : (length s2 < fuel)%nat) by (rewrite !length_app in Hf; lia).
    specialize (IH b2 s2 (off + zlen u + zlen w) Hb2 Hlen).
    pose proof (fun j Hcn => occurs_skipped c n u w d n2 s2 j Hu Hcn En Hd) as Hskip.
    destruct (strstr_loop _ _ _ _) as [[k|]| | |]; try done.
    + destruct IH as (i & -> & Ho & Hmin). exists (length u + length w + i)%nat. split_and!.
      * unfold zlen. lia.
      * by rewrite app_assoc, <- length_app, occurs_app_r.
      * intros Hcn j Hj. pose proof (Hskip j Hcn Hj). rewrite app_assoc in Hj.
        replace j with (length (u ++ w) + (j - length (u ++ w)))%nat in Hj by (rewrite length_app; lia).
        apply occurs_app_r, Hmin in Hj; [|done]. rewrite length_app in Hj. lia.
    + intros Hcn j Hj. pose proof (Hskip j Hcn Hj). rewrite app_assoc in Hj.
      replace j with (length (u ++ w) + (j - length (u ++ w)))%nat in Hj by (rewrite length_app; lia).
      apply occurs_app_r in Hj. by apply IH in Hj.
Qed.

(** ** Bounded comparison *)
Lemma strn_loop_zero f n b1 b2 s t :
  (forall c, char_ok c -> f c <> f 0) -> cstr b1 s -> cstr b2 t ->
  exists r, strn_loop f (S n) b1 b2 = Ok r /\
    (f = (fun c => c) -> r = 0 <-> take (S n) s = take (S n) t) /\
    (map f (take (S n) s) = map f (take (S n) t) -> r = 0).
Proof.
  intros Hf Hs. revert n b2 t. pattern b1, s. revert b1 s Hs. apply cstr_rect_prop.
  - intros r n b2 t [(-> & r' & ->)|(d & b & t' & -> & -> & Hd & _)]%cstr_inv; cbn [strn_loop].
    + rewrite Z.eqb_refl, orb_true_r. eexists. split_and!; done.
    + destruct (Z.eqb_spec (f 0) (f d)) as [E|_]; [by apply Hf in Hd|].
      unfold byte_cmp, char_ok in *. destruct (Z.ltb_spec 0 d); [|lia]. eexists. split_and!; done.
  - intros c b s Hc _ IH n b2 t [(-> & r' & ->)|(d & b' & t' & -> & -> & Hd & Ht)]%cstr_inv; cbn [strn_loop].
    + destruct (Z.eqb_spec (f c) (f 0)) as [E|_]; [by apply Hf in Hc|].
      unfold byte_cmp, char_ok in *. destruct (Z.ltb_spec c 0), (Z.ltb_spec 0 c); try lia.
      eexists. split_and!; done.
    + cbn [take map]. destruct (Z.eqb_spec (f c) (f d)) as [E|E].
      * destruct (Z.eqb_spec c 0); [unfold char_ok in *; lia|]. rewrite orb_false_r.
        destruct n as [|n]; cbn [Nat.eqb].
        { exists 0. split; [done|]. split; [|done]. intros ->. cbn in E. by subst. }
        destruct (IH n b' t' Ht) as (r & -> & H1 & H2). exists r. split; [done|]. split.
        -- intros Hid. rewrite H1 by done. subst f. cbn in E. subst d.
           split; [by intros -> | by intros [= ->]].
        -- intros [= _ H]. auto.
      * eexists. split; [done|]. split; [intros ->|congruence]. cbn in E. unfold byte_cmp.
        destruct (Z.ltb_spec c d), (Z.ltb_spec d c); split; intros; simplify_eq; done || lia.
Qed.

Lemma strncmp_zero b1 b2 s t n :
  cstr b1 s -> cstr b2 t ->
  exists r, strncmp (Some b1) (Some b2) n = Ok r /\ (r = 0 <-> take n s = take n t).
Proof.
  intros Hs Ht. destruct n as [|n]; [by exists 0|].
  destruct (strn_loop_zero (fun c => c) n b1 b2 s t) as (r & H & H1 & _); try done.
  { unfold char_ok. lia. }
  exists r. split; [exact H | by apply H1].
Qed.

Lemma tolower_idem c : char_ok c -> tolower (tolower c) = tolower c.
Proof.
  intros Hc. unfold char_ok in Hc. unfold tolower at 2 3.
  destruct (Z.leb_spec 65 c), (Z.leb_spec c 90); cbn [andb].
  2-4: unfold tolower; destruct (Z.leb_spec 65 c), (Z.leb_spec c 90); done || lia.
  assert (Hall : forallb (fun x => tolower (Z.lor x 32) =? Z.lor x 32) (seqZ 65 26) = true) by reflexivity.
  rewrite forallb_forall in Hall. apply Z.eqb_eq, Hall, list_elem_of_In, elem_of_seqZ. lia.
Qed.

Lemma stricmp_zero b1 b2 s t :
  cstr b1 s -> cstr b2 t -> exists r, stricmp b1 b2 = Ok r /\ (r = 0 <-> map tolower s = map tolower t).
Proof.
  assert (Hl : forall c, char_ok c -> 0 < tolower c).
  { intros c Hc. unfold tolower, char_ok in *. case_match; [|lia]. pose proof (Z.lor_nonneg c 32).
    assert (Z.lor c 32 <> 0) by (intros E%Z.lor_eq_0_iff; lia). lia. }
  intros Hs. revert b2 t. pattern b1, s. revert b1 s Hs. apply cstr_rect_prop; cbn [stricmp].
  - intros r b2 t [(-> & r' & ->)|(d & b & t' & -> & -> & Hd & _)]%cstr_inv; [by exists 0|].
    change (tolower 0) with 0. specialize (Hl d Hd). destruct (Z.eqb_spec 0 (tolower d)); [lia|].
    eexists. split; [done|]. unfold byte_order. split; [|done]. by destruct (0 <? d).
  - intros c b s Hc _ IH b2 t [(-> & r' & ->)|(d & b' & t' & -> & -> & Hd & Ht)]%cstr_inv; cbn [stricmp map].
    + change (tolower 0) with 0. specialize (Hl c Hc). destruct (Z.eqb_spec (tolower c) 0); [lia|].
      eexists. split; [done|]. unfold byte_order. split; [|done]. by destruct (c <? 0).
    + destruct (Z.eqb_spec (tolower c) (tolower d)) as [E|E].
      * destruct (Z.eqb_spec c 0); [unfold char_ok in *; lia|].
        destruct (IH b' t' Ht) as (r & -> & Hr). exists r. split; [done|]. rewrite Hr, E. split; [by intros -> | by intros [= ->]].
      * eexists. split; [done|]. unfold byte_order. split; [by destruct (c <? d) | congruence].
Qed.

Lemma memcmp_zero l k n :
  (n <= length l)%nat -> (n <= length k)%nat ->
  exists r, memcmp l k n = Ok r /\ (r = 0 <-> take n l = take n k).
Proof.
  revert l k. induction n as [|n IH]; intros [|c l] [|d k] Hl Hk; cbn in *; try lia; try by exists 0.
  destruct (Z.eqb_spec c d) as [->|Hne]; cbn.
  - destruct (IH l k) as (r & -> & Hr); [lia..|]. exists r. split; [done|]. rewrite Hr. split; [by intros -> | by intros [= ->]].
  - eexists. split; [done|]. unfold byte_order. split; [by destruct (c <? d) | congruence].
Qed.

(** ** The properties *)

(** C15: tokenising a string with [strtok_r], first with the string and then with NULL until
    it returns NULL, ends and delivers exactly the maximal delimiter-free substrings, in
    order, for every string and every set of delimiters. *)
Theorem strtok_r_fields buf s delims d :
  cstr buf s -> cstr delims d ->
  tokens (S (length s)) buf (Some 0) delims PEmpty = Ok (fields d s).
Proof.
  intros Hs Hd. apply tokens_pending; [done | by split|]. pose proof (fields_len d s). lia.
Qed.

(** [strstr] always returns; a pointer it returns is an occurrence of the needle; and
    for a needle whose first character does not recur in it, it is the first occurrence,
    and NULL means there is none. *)
Theorem strstr_correct hb h nb n :
  cstr hb h -> cstr nb n ->
  match strstr hb nb with
  | Ok (Some k) => exists i, k = Z.of_nat i /\ occurs n h i /\
      (match n with [] => True | c :: n' => c ∉ n' end -> forall j, occurs n h j -> (i <= j)%nat)
  | Ok None => match n with [] => False | c :: n' => c ∉ n' -> forall j, ~ occurs n h j end
  | _ => False
  end.
Proof.
  intros Hh Hn. unfold strstr. destruct n as [|c n].
  - assert (load nb = Ok 0) as -> by (by destruct Hn as (r & -> & _)). cbn.
    exists 0%nat. split_and!; try done. lia.
  - assert (load nb = Ok c) as -> by (by destruct Hn as (r & -> & _)). cbn [mbind res_bind].
    assert (char_ok c) by (apply cstr_chars in Hn; by inversion Hn).
    destruct (Z.eqb_spec c 0); [unfold char_ok in *; lia|].
    pose proof (cstr_len _ _ Hh).
    pose proof (strstr_loop_spec (S (length hb)) hb h 0 nb c n Hh Hn ltac:(lia)) as H1.
    destruct (strstr_loop _ _ _ _) as [[k|]| | |]; try done.
Qed.

(** [strstr] misses an occurrence that overlaps a failed partial match: it resumes after
    the characters already read, so the needle [ccd] is not found in [cccd]. *)
Theorem strstr_misses_overlap c d :
  char_ok c -> char_ok d -> c <> d ->
  occurs [c; c; d] [c; c; c; d] 1 /\ strstr [c; c; c; d; 0] [c; c; d; 0] = Ok None.
Proof.
  intros Hc Hd Hne. split; [done|]. unfold char_ok in *.
  assert ((c =? 0) = false) as Hc0 by (by apply Z.eqb_neq; lia).
  assert ((d =? 0) = false) as Hd0 by (by apply Z.eqb_neq; lia).
  assert ((c =? d) = false) as Hcd by (by apply Z.eqb_neq).
  assert ((d =? c) = false) as Hdc by (by apply Z.eqb_neq; lia).
  unfold strstr, load.
  repeat (progress (cbn -[Z.eqb]; rewrite ?Hc0, ?Hd0, ?Hcd, ?Hdc, ?Z.eqb_refl)). done.
Qed.

(** C37: [strlcpy] and [strlcat] never write past [size] bytes of the destination, always
    leave it terminated, hold the longest prefix of the result that fits, and return the length
    of the whole result, so that truncation can be detected.  The destination holds a string shorter than [size], which is then not 0. *)
Theorem strlcpy_strlcat_bounded dst d r src s size :
  dst = d ++ 0 :: r -> Forall char_ok d -> cstr src s -> zlen d < size <= zlen dst ->
  (exists dst', strlcpy dst src size = Ok (dst', zlen s) /\
     cstr dst' (take (Z.to_nat (size - 1)) s) /\ zlen dst' = zlen dst /\
     drop (Z.to_nat size) dst' = drop (Z.to_nat size) dst) /\
  (exists dst', strlcat dst src size = Ok (dst', zlen (d ++ s)) /\
     cstr dst' (take (Z.to_nat (size - 1)) (d ++ s)) /\ zlen dst' = zlen dst /\
     drop (Z.to_nat size) dst' = drop (Z.to_nat size) dst).
Proof.
  intros -> Hd Hs Hsz. pose proof (cstr_chars _ _ Hs) as Hsok. pose proof (zlen_nonneg d). split.
  - rewrite (strlcpy_spec _ _ s) by (done || lia). eexists. split; [done|].
    set (n := Z.to_nat (size - 1)). split; [|split].
    + eexists. split; [done|]. by apply Forall_take.
    + unfold zlen in *. rewrite length_app, length_take. cbn [length]. rewrite length_drop. lia.
    + rewrite drop_app_ge by (rewrite length_take; lia). rewrite length_take.
      replace (Z.to_nat size - n `min` length s)%nat with (S (n - n `min` length s)) by lia.
      cbn [drop]. rewrite drop_drop. f_equal. lia.
  - rewrite (strlcat_spec d r _ s) by done. rewrite zlen_app.
    set (room := Z.to_nat (size - 1 - zlen d)). eexists. split; [done|]. split; [|split].
    + rewrite take_app_ge by (unfold zlen in *; lia).
      replace (Z.to_nat (size - 1) - length d)%nat with room by (unfold room, zlen; lia).
      rewrite app_assoc. eexists. split; [done|]. apply Forall_app. split; [done|]. by apply Forall_take.
    + unfold zlen in *. rewrite !length_app, length_take in *. cbn [length] in *. rewrite length_drop. lia.
    + rewrite !drop_app_ge by (rewrite ?length_take; unfold room, zlen in *; lia). rewrite length_take.
      replace (Z.to_nat size - length d)%nat with (S room) by (unfold room, zlen in *; lia).
      replace (S room - room `min` length s)%nat with (S (room - room `min` length s)) by lia.
      cbn [drop]. rewrite drop_drop. f_equal. lia.
Qed.

(** [trim] always returns, and the string at the returned pointer is the argument without
    its leading and trailing white space. *)
Theorem trim_correct b s :
  cstr b s -> exists b' k, trim b = Ok (b', k) /\ at_ptr b' k (strip s) /\ zlen b' = zlen b.
Proof.
  intros Hs. unfold trim. rewrite (strlen_spec _ _ Hs). cbn [mbind res_bind].
  destruct (Z.eqb_spec (zlen s) 0) as [H0|H0].
  { destruct s; [|rewrite zlen_cons in H0; pose proof (zlen_nonneg s); lia].
    exists b, 0. split_and!; try done. }
  rewrite (skip_space_spec _ _ _ Hs), Z.add_0_l. cbn [mbind res_bind].
  assert (Hp : at_ptr b (0 + zlen (take_while isspace s)) (drop_while isspace s)).
  { apply at_ptr_app. rewrite take_drop_while. by split. }
  rewrite Z.add_0_l in Hp. set (k := zlen (take_while isspace s)) in *. rewrite (load_at _ _ _ Hp). cbn [mbind res_bind].
  destruct (drop_while isspace s) as [|c t] eqn:E.
  { cbn. exists b, k. split; [done|]. split; [|done]. unfold strip. by rewrite E. }
  destruct (strip_shape _ _ _ E) as (u & x & v & Eu & Hx & Hv & ->). rewrite Eu in Hp.
  rewrite (strlen_spec (padd b k) (u ++ x :: v)) by apply Hp.
  apply at_ptr_split in Hp as (w & r & -> & Hk & Hok). clearbody k. subst k.
  assert ((c =? 0) = false) as -> by (rewrite <- Eu in Hok; inversion Hok; unfold char_ok in *; lia).
  cbn [mbind res_bind].
  replace (Z.to_nat (zlen (u ++ x :: v) - 1)) with (length u + length v)%nat
    by (unfold zlen; rewrite length_app; cbn; lia).
  unfold padd. replace (Z.to_nat (zlen w)) with (length w) by (unfold zlen; lia). rewrite drop_app_length.
  rewrite (back_space_spec _ x u v) by
    (done || rewrite ?take_app_length, ?length_app; cbn; lia || done). cbn [mbind res_bind].
  destruct (v ++ 0 :: r) as [|y r'] eqn:Ey; [by destruct v|].
  replace (w ++ (u ++ x :: v) ++ 0 :: r) with ((w ++ u ++ [x]) ++ y :: r')
    by (rewrite <- Ey, <- !app_assoc; done).
  replace (zlen w + zlen u + 1) with (zlen (w ++ u ++ [x])) by (rewrite !zlen_app; unfold zlen; cbn; lia).
  rewrite aset_mid. eexists _, _. split_and!; [done | | by autorewrite with kernel_rw].
  replace ((w ++ u ++ [x]) ++ 0 :: r') with (w ++ (u ++ [x]) ++ 0 :: r') by (by rewrite <- !app_assoc).
  apply at_ptr_intro. apply Forall_app in Hok as [? Hok]. inversion Hok. by apply Forall_app; split; [|constructor].
Qed.

(** ** Witnesses *)
Lemma strtok_r_witness :
  tokens 11 (lit "//a/bc///d") (Some 0) (lit "/") PEmpty = Ok [chars "a"; chars "bc"; chars "d"].
Proof.
  exact (strtok_r_fields (lit "//a/bc///d") (chars "//a/bc///d") (lit "/") (chars "/")
    ltac:(by apply lit_check) ltac:(by apply lit_check)).
Defined.

Lemma strstr_witness :
  strstr (lit "hello kernel") (lit "kern") = Ok (Some 6) /\
  exists i, 6 = Z.of_nat i /\ occurs (chars "kern") (chars "hello kernel") i.
Proof.
  split; [reflexivity|].
  pose proof (strstr_correct (lit "hello kernel") (chars "hello kernel") (lit "kern") (chars "kern")
    ltac:(by apply lit_check) ltac:(by apply lit_check)) as H.
  vm_compute (strstr _ _) in H. destruct H as (i & ? & ? & _). by exists i.
Defined.

Lemma strstr_misses_witness : strstr (lit "aaab") (lit "aab") = Ok None.
Proof. exact (proj2 (strstr_misses_overlap 97 98 ltac:(unfold char_ok; lia) ltac:(unfold char_ok; lia) ltac:(lia))). Defined.

Lemma strlcpy_strlcat_witness :
  exists dst', strlcat (chars "ab" ++ 0 :: [7; 7; 7; 7]) (lit "cdef") 5 = Ok (dst', 6) /\ cstr dst' (chars "abcd").
Proof.
  destruct (strlcpy_strlcat_bounded (chars "ab" ++ 0 :: [7; 7; 7; 7]) (chars "ab") [7; 7; 7; 7]
    (lit "cdef") (chars "cdef") 5) as [_ (dst' & H1 & H2 & _)];
    [reflexivity | repeat constructor; vm_compute; done | by apply lit_check | vm_compute; done |].
  by exists dst'.
Defined.

Lemma trim_witness : exists b' k, trim (lit "  a b ") = Ok (b', k) /\ at_ptr b' k (chars "a b").
Proof.
  destruct (trim_correct (lit "  a b ") (chars "  a b ") ltac:(by apply lit_check)) as (b' & k & H & Hp & _).
  by exists b', k.
Defined.
