(* ===== verification/Path.v ===== *)
(** * Path manipulation (src/src/lib/path.c)

    Paths are C strings edited in place in a caller's buffer: [path_join] appends the
    components of a relative path, [path_collapse_dots] removes [.] and [..],
    [path_dirname] and [path_basename] keep the two parts of a path.  The abstract
    view of an absolute path is the list of its components. *)
From S2P Require Import Prelude CString.
From stdpp Require Import strings.
#[local] Open Scope Z_scope.

Definition PATH_MAX : Z := 1023.
Definition SLASH : Z := 47.

(** [path[path_len - 1]], with [size_t] arithmetic: for an empty path the index is
    outside the buffer. *)
Definition path_dirname (path : list Z) : res (list Z) :=
  path_len ← strlen path;
  c ← aget path (path_len - 1);
  path ← (if c =? SLASH then aset path (path_len - 1) 0 else Ok path);
  p ← strrchr path SLASH;
  path ← match p with Some p => aset path p 0 | None => Ok path end;
  c ← aget path 0;
  if c =? 0 then strcpy path (lit "/") else Ok path.

(** [__path_join]: appends one component; NULL pointers are [None]. *)
Definition __path_join (path right : option (list Z)) : res (option (list Z) * bool) :=
  match path, right with
  | Some path, Some rgt =>
      rlen ← strlen rgt;
      if 255 <? rlen then Ok (Some path, false)
      else
        sl ← strchr rgt SLASH;
        match sl with
        | Some _ => Ok (Some path, false)
        | None =>
            c1 ← strcmp rgt (lit ".");
            if c1 =? 0 then Ok (Some path, true)
            else
              c2 ← strcmp rgt (lit "..");
              if c2 =? 0 then path ← path_dirname path; Ok (Some path, true)
              else
                path_len ← strlen path;
                pc ← aget path (path_len - 1);
                rc ← aget rgt 0;
                path ← (if negb (pc =? SLASH) && negb (rc =? SLASH) then
                          path ← aset path path_len SLASH;
                          aset path (path_len + 1) 0
                        else Ok path);
                l1 ← strlen path;
                l2 ← strlen rgt;
                let trunc := PATH_MAX <? l1 + l2 in
                '(path, _) ← strlcat path rgt PATH_MAX;
                Ok (Some path, negb trunc)
        end
  | _, _ => Ok (path, false)
  end.

(** The loop of [path_join]: [tok] and [lasts] are [strtok_r]'s arguments. *)
Fixpoint join_loop (fuel : nat) (path : list Z) (buf : list Z) (tok : option Z) (lasts : tokptr)
  : res (list Z * bool) :=
  match fuel with
  | O => NoFuel
  | S fuel =>
      '(buf, token, lasts) ← strtok_r buf tok (lit "/") lasts;
      match token with
      | None => Ok (path, true)
      | Some o =>
          '(path', ok) ← __path_join (Some path) (Some (padd buf o));
          path ← deref path';
          if ok : bool then join_loop fuel path buf None lasts else Ok (path, false)
      end
  end.

Definition path_join (path right : list Z) : res (list Z * bool) :=
  let buf := replicate (Z.to_nat (PATH_MAX + 1)) 0 in
  '(buf, _) ← strlcpy buf right (PATH_MAX + 1);
  join_loop (S (length buf)) path buf (Some 0) PEmpty.

(** The loop of [path_collapse_dots]: tokenises [path] and joins into [buf]; the result
    of [path_join] is ignored. *)
Fixpoint collapse_loop (fuel : nat) (buf path : list Z) (tok : option Z) (lasts : tokptr)
  : res (list Z * list Z) :=
  match fuel with
  | O => NoFuel
  | S fuel =>
      '(path, token, lasts) ← strtok_r path tok (lit "/") lasts;
      match token with
      | None => Ok (buf, path)
      | Some o =>
          '(buf, _) ← path_join buf (padd path o);
          collapse_loop fuel buf path None lasts
      end
  end.

Definition path_collapse_dots (path : list Z) : res (list Z * bool) :=
  c ← load path;
  if negb (c =? SLASH) then Ok (path, false)
  else
    let buf := replicate (Z.to_nat (PATH_MAX + 1)) 0 in
    buf ← strcpy buf (lit "/");
    '(buf, path) ← collapse_loop (S (length path)) buf path (Some 0) PEmpty;
    path ← strcpy path buf;
    Ok (path, true).

(** [p + 1] is not a valid pointer when [strrchr] found no slash. *)
Definition path_basename (path : list Z) : res (list Z) :=
  path_len ← strlen path;
  c ← aget path (path_len - 1);
  if (c =? SLASH) && (path_len =? 1) then Ok path
  else
    path ← (if c =? SLASH then aset path (path_len - 1) 0 else Ok path);
    p ← strrchr path SLASH;
    match p with
    | None => Undef
    | Some p =>
        '(tmp, _) ← strlcpy (replicate 256 0) (padd path (p + 1)) 256;
        '(path, _) ← strlcpy path tmp 256;
        Ok path
    end.

(** ** Abstract paths *)

(** A file name: not empty, no slash, at most 255 characters. *)
Definition name_ok (t : list Z) : Prop :=
  t <> [] /\ Forall char_ok t /\ (SLASH ∉ t) /\ zlen t <= 255.

(** The text of the absolute path with the given components. *)
Definition render (comps : list (list Z)) : list Z :=
  match comps with [] => [SLASH] | _ => concat (map (cons SLASH) comps) end.

(** The effect of one component of a relative path. *)
Definition step (comps : list (list Z)) (t : list Z) : list (list Z) :=
  if decide (t = chars ".") then comps
  else if decide (t = chars "..") then removelast comps
  else comps ++ [t].
Definition resolve : list (list Z) -> list (list Z) -> list (list Z) := foldl step.

(** Characters a list of components takes, with one slash each. *)
Definition size (comps : list (list Z)) : Z := zlen (concat (map (cons SLASH) comps)).

(** ** Text of paths *)
Lemma render_snoc comps t : render (comps ++ [t]) = concat (map (cons SLASH) comps) ++ SLASH :: t.
Proof.
  assert (H : render (comps ++ [t]) = concat (map (cons SLASH) (comps ++ [t]))) by (by destruct comps).
  rewrite H, map_app, concat_app. cbn. by rewrite app_nil_r.
Qed.

Lemma size_snoc comps t : size (comps ++ [t]) = size comps + 1 + zlen t.
Proof. unfold size. rewrite map_app, concat_app, zlen_app. cbn. rewrite app_nil_r, zlen_cons. lia. Qed.

Lemma render_size comps : zlen (render comps) = Z.max 1 (size comps) \/ comps <> [] /\ zlen (render comps) = size comps.
Proof. destruct comps; [by left | by right]. Qed.

Lemma name_len t : name_ok t -> 1 <= zlen t.
Proof. intros [H _]. destruct t; [done|]. rewrite zlen_cons. pose proof (zlen_nonneg t). lia. Qed.

Lemma concat_ok comps : Forall name_ok comps -> Forall char_ok (concat (map (cons SLASH) comps)).
Proof.
  induction 1 as [|t l (_ & Ht & _) _ IH]; cbn; [constructor|]. constructor; [done|]. by apply Forall_app.
Qed.

Lemma render_ok comps : Forall name_ok comps -> Forall char_ok (render comps).
Proof. intros H. destruct comps; [by repeat constructor|]. by apply concat_ok. Qed.

Lemma removelast_snoc {A} (l : list A) x : removelast (l ++ [x]) = l.
Proof. apply removelast_last. Qed.

Lemma last_slash_unique (u v u' v' : list Z) (x : Z) :
  u ++ x :: v = u' ++ x :: v' -> x ∉ v -> x ∉ v' -> u = u' /\ v = v'.
Proof.
  revert u'. induction u as [|y u IH]; intros [|z u'] E Hv Hv'; cbn in E;
    injection E; intros; subst.
  - done.
  - exfalso. apply Hv. set_solver.
  - exfalso. apply Hv'. set_solver.
  - clear E. match goal with H : u ++ _ = _ |- _ => rename H into E end.
    destruct (IH u' E Hv Hv') as [-> ->]. done.
Qed.

Lemma strrchr_last b u v : char_ok SLASH -> cstr b (u ++ SLASH :: v) -> SLASH ∉ v -> strrchr b SLASH = Ok (Some (zlen u)).
Proof.
  intros Hc Hb Hv. destruct (strrchr_spec b _ SLASH Hc Hb) as [[_ Hn]|(u' & v' & -> & E & Hv')].
  - exfalso. apply Hn. set_solver.
  - by destruct (last_slash_unique _ _ _ _ _ E Hv Hv') as [-> _].
Qed.

Lemma slash_ok : char_ok SLASH.
Proof. unfold char_ok, SLASH. lia. Qed.
#[local] Hint Resolve slash_ok : core.

(** The last character of a text that ends with a name is not a slash. *)
Lemma name_last t : name_ok t -> exists t0 x, t = t0 ++ [x] /\ x <> SLASH.
Proof.
  intros (Hne & _ & Hs & _). destruct t as [|x t0 _] using rev_ind; [done|].
  exists t0, x. split; [done|]. intros ->. apply Hs. set_solver.
Qed.

Lemma aget_last P t r :
  name_ok t -> exists x, aget (P ++ t ++ 0 :: r) (zlen (P ++ t) - 1) = Ok x /\ (x =? SLASH) = false.
Proof.
  intros (t0 & x & -> & Hx)%name_last. exists x. split; [|by apply Z.eqb_neq].
  rewrite !zlen_app. unfold zlen. cbn. apply aget_Ok. split; [lia|].
  replace (P ++ (t0 ++ [x]) ++ 0 :: r) with ((P ++ t0) ++ x :: 0 :: r) by (by rewrite <- !app_assoc).
  apply list_lookup_middle. rewrite length_app. lia.
Qed.

Lemma concat_head comps : comps <> [] -> exists w, concat (map (cons SLASH) comps) = SLASH :: w.
Proof. destruct comps; [done|]. cbn. eauto. Qed.

(** ** path_dirname: drops the last component *)
Lemma dirname_spec b comps :
  cstr b (render comps) -> Forall name_ok comps ->
  exists b', path_dirname b = Ok b' /\ cstr b' (render (removelast comps)) /\ zlen b' = zlen b.
Proof.
  intros Hb Hall. destruct comps as [|t comps _] using rev_ind.
  { destruct Hb as (r & -> & _). exists (SLASH :: 0 :: r). split; [done|]. split; [|done].
    cbn. exists r. by split; [|repeat constructor]. }
  rewrite removelast_snoc. apply Forall_app in Hall as [Hc Ht]. inversion Ht as [|? ? Hname _]; subst.
  rewrite render_snoc in Hb. set (P := concat _) in *.
  unfold path_dirname. rewrite (strlen_spec _ _ Hb). cbn [mbind res_bind].
  pose proof (strrchr_last b P t slash_ok Hb) as Hr. destruct Hb as (r & -> & Hok).
  destruct (aget_last (P ++ [SLASH]) t r Hname) as (x & Hx & Hne).
  rewrite <- !app_assoc in Hx. cbn [app] in Hx. rewrite <- app_assoc. cbn [app].
  rewrite Hx. cbn [mbind res_bind]. rewrite Hne. cbn [mbind res_bind].
  rewrite <- app_assoc in Hr. cbn [app] in Hr. rewrite Hr by apply Hname. cbn [mbind res_bind].
  rewrite aset_mid. cbn [mbind res_bind]. destruct (decide (comps = [])) as [->|Hcne].
  - cbn in P. subst P. cbn [app]. pose proof (name_len _ Hname).
    change (aget (0 :: t ++ 0 :: r) 0) with (Ok 0). cbn [mbind res_bind Z.eqb].
    rewrite (strcpy_spec _ (lit "/") (chars "/")) by
      first [by apply (lit_check "/") | change (zlen (chars "/")) with 1; rewrite zlen_cons, zlen_app, zlen_cons; pose proof (zlen_nonneg r); lia].
    eexists. split; [done|]. split.
    + eexists. split; [done|]. by repeat constructor.
    + cbn [length chars app]. rewrite !zlen_cons. unfold zlen in *. rewrite length_drop. cbn [length].
      rewrite length_app. cbn [length]. lia.
  - destruct (concat_head comps Hcne) as [w Hw]. fold P in Hw.
    eexists. rewrite Hw at 1. change (aget ((SLASH :: w) ++ 0 :: t ++ 0 :: r) 0) with (Ok SLASH).
    cbn [mbind res_bind Z.eqb SLASH]. split; [done|]. split; [|by autorewrite with kernel_rw].
    replace (render comps) with P by (by destruct comps). exists (t ++ 0 :: r). split; [done|].
    by apply Forall_app in Hok as [? _].
Qed.

(** ** path_join: one component *)

(** Appending to a text [d]: what fits in [PATH_MAX - 1] characters is kept. *)
Lemma append_name d r rb t :
  Forall char_ok d -> cstr rb t -> zlen d < PATH_MAX -> PATH_MAX < zlen (d ++ 0 :: r) ->
  exists b', strlcat (d ++ 0 :: r) rb PATH_MAX = Ok (b', zlen d + zlen t) /\
    cstr b' (take (Z.to_nat (PATH_MAX - 1)) (d ++ t)) /\ zlen b' = zlen (d ++ 0 :: r).
Proof.
  intros Hd Ht Hfit Hlen. pose proof (zlen_nonneg t). pose proof (zlen_nonneg d).
  rewrite (strlcat_spec d r rb t) by (done || unfold PATH_MAX in *; lia).
  eexists. split; [done|]. split.
  - rewrite take_app_ge by (unfold zlen, PATH_MAX in *; lia).
    replace (Z.to_nat (PATH_MAX - 1) - length d)%nat with (Z.to_nat (PATH_MAX - 1 - zlen d))
      by (unfold zlen; lia).
    rewrite app_assoc. eexists. split; [done|]. apply Forall_app. split; [done|].
    apply Forall_take. by eapply cstr_chars.
  - autorewrite with kernel_rw in *. unfold zlen in *. rewrite length_drop, length_take. lia.
Qed.

(** The slash [__path_join] puts between the two parts. *)
Lemma add_slash comps r :
  Forall name_ok comps -> zlen (render comps) + 1 < zlen (render comps ++ 0 :: r) ->
  exists pc d r',
    aget (render comps ++ 0 :: r) (zlen (render comps) - 1) = Ok pc /\
    d = concat (map (cons SLASH) comps) ++ [SLASH] /\
    (if negb (pc =? SLASH) && true then
       path ← aset (render comps ++ 0 :: r) (zlen (render comps)) SLASH;
       aset path (zlen (render comps) + 1) 0
     else Ok (render comps ++ 0 :: r)) = Ok (d ++ 0 :: r') /\
    zlen (d ++ 0 :: r') = zlen (render comps ++ 0 :: r).
Proof.
  intros Hall Hlen. destruct comps as [|t comps _] using rev_ind.
  { exists SLASH, [SLASH], r. by split_and!. }
  apply Forall_app in Hall as [Hc Ht]. inversion Ht as [|? ? Hname _]; subst. rewrite render_snoc in *.
  set (P := concat (map _ comps)) in *.
  destruct (aget_last (P ++ [SLASH]) t r Hname) as (x & Hx & Hne).
  rewrite <- !app_assoc in Hx. cbn [app] in Hx.
  rewrite map_app, concat_app. cbn [map concat]. rewrite app_nil_r. fold P.
  destruct r as [|y r]; [exfalso; autorewrite with kernel_rw in Hlen; lia|].
  exists x, ((P ++ SLASH :: t) ++ [SLASH]), r. split_and!.
  - rewrite <- app_assoc. exact Hx.
  - done.
  - rewrite Hne. cbn [negb andb]. rewrite aset_mid. cbn [mbind res_bind].
    replace ((P ++ SLASH :: t) ++ SLASH :: y :: r) with (((P ++ SLASH :: t) ++ [SLASH]) ++ y :: r)
      by (by rewrite <- app_assoc).
    replace (zlen (P ++ SLASH :: t) + 1) with (zlen ((P ++ SLASH :: t) ++ [SLASH]))
      by (rewrite (zlen_app _ [SLASH]); done). apply aset_mid.
  - autorewrite with kernel_rw. lia.
Qed.

Lemma slash_text_len comps : zlen (concat (map (cons SLASH) comps) ++ [SLASH]) = size comps + 1.
Proof. rewrite zlen_app. done. Qed.

(** The general case of [__path_join]: a name that is neither [.] nor [..]. *)
Lemma join_name_text b comps rb t :
  cstr b (render comps) -> Forall name_ok comps -> cstr rb t -> name_ok t ->
  t <> chars "." -> t <> chars ".." -> PATH_MAX < zlen b -> size comps + 1 < PATH_MAX ->
  exists b', __path_join (Some b) (Some rb) = Ok (Some b', negb (PATH_MAX <? size comps + 1 + zlen t)) /\
    cstr b' (take (Z.to_nat (PATH_MAX - 1)) (concat (map (cons SLASH) comps) ++ SLASH :: t)) /\
    zlen b' = zlen b.
Proof.
  intros Hb Hall Hr Hname Ht1 Ht2 Hbl Hfit. unfold __path_join.
  destruct Hname as (Hne & Hok & Hns & Hlen). rewrite (strlen_spec _ _ Hr). cbn [mbind res_bind].
  destruct (Z.ltb_spec 255 (zlen t)); [lia|]. rewrite (strchr_spec _ _ _ slash_ok Hr). cbn [mbind res_bind].
  replace (index_of t SLASH 0) with (@None Z)
    by (symmetry; apply index_of_has; destruct (has t SLASH) eqn:E; [by apply has_elem in E | done]).
  rewrite (strcmp_eq_0 rb (lit ".") t (chars ".") Hr) by (by apply lit_check). cbn [mbind res_bind].
  rewrite decide_False by done.
  replace ((if lex t (chars ".") is Lt then -1 else 1) =? 0) with false by (by destruct (lex t (chars "."))).
  rewrite (strcmp_eq_0 rb (lit "..") t (chars "..") Hr) by (by apply lit_check). cbn [mbind res_bind].
  rewrite decide_False by done.
  replace ((if lex t (chars "..") is Lt then -1 else 1) =? 0) with false by (by destruct (lex t (chars ".."))).
  rewrite (strlen_spec _ _ Hb). cbn [mbind res_bind]. destruct Hb as (r & -> & Hrok).
  assert (Hrs : zlen (render comps) <= size comps + 1)
    by (destruct (render_size comps) as [->|[_ ->]]; pose proof (zlen_nonneg (concat (map (cons SLASH) comps))); unfold size; lia).
  destruct (add_slash comps r Hall) as (pc & d & r' & -> & Hd & Hs & Hl); [unfold PATH_MAX in *; lia|].
  cbn [mbind res_bind]. assert (Hrc : exists c, aget rb 0 = Ok c /\ negb (c =? SLASH) = true).
  { destruct t as [|c t]; [done|]. destruct Hr as (r0 & -> & _). exists c. split; [done|].
    apply negb_true_iff, Z.eqb_neq. intros ->. apply Hns. set_solver. }
  destruct Hrc as (c & Hc1 & Hc2). rewrite Hc1. cbn [mbind res_bind]. rewrite Hc2, Hs. cbn [mbind res_bind].
  assert (Hdok : Forall char_ok d) by (subst d; apply Forall_snoc; [by apply concat_ok | done]).
  rewrite (strlen_spec _ d) by (by exists r'). cbn [mbind res_bind].
  assert (Hdl : zlen d = size comps + 1) by (subst d; apply slash_text_len).
  destruct (append_name d r' rb t Hdok Hr) as (b' & -> & Hb' & Hlb); [lia | lia|]. cbn [mbind res_bind].
  exists b'. rewrite Hdl. split_and!; [done | | congruence]. subst d. by rewrite <- app_assoc in Hb'.
Qed.

Lemma join_one_spec b comps rb t :
  cstr b (render comps) -> Forall name_ok comps -> cstr rb t -> name_ok t ->
  PATH_MAX < zlen b -> size comps + 1 + zlen t <= PATH_MAX - 1 ->
  exists b', __path_join (Some b) (Some rb) = Ok (Some b', true) /\
    cstr b' (render (step comps t)) /\ zlen b' = zlen b.
Proof.
  intros Hb Hall Hr Hname Hbl Hfit. pose proof (name_len _ Hname) as Hlen1.
  assert (Hdots : chars "." <> chars "..") by done.
  unfold step. destruct (decide (t = chars ".")) as [->|Ht1]; [|destruct (decide (t = chars "..")) as [->|Ht2]].
  - unfold __path_join. rewrite (strlen_spec _ _ Hr). cbn [mbind res_bind].
    rewrite (strchr_spec _ _ _ slash_ok Hr). cbn [mbind res_bind].
    rewrite (strcmp_eq_0 rb (lit ".") _ (chars ".") Hr) by (by apply lit_check). by eexists.
  - unfold __path_join. rewrite (strlen_spec _ _ Hr). cbn [mbind res_bind].
    rewrite (strchr_spec _ _ _ slash_ok Hr). cbn [mbind res_bind].
    rewrite (strcmp_eq_0 rb (lit ".") _ (chars ".") Hr) by (by apply lit_check).
    rewrite (strcmp_eq_0 rb (lit "..") _ (chars "..") Hr) by (by apply lit_check). cbn.
    destruct (dirname_spec b comps Hb Hall) as (b' & -> & ? & ?). by eexists.
  - destruct (join_name_text b comps rb t) as (b' & -> & Hb' & Hl); try done; [lia|].
    destruct (Z.ltb_spec PATH_MAX (size comps + 1 + zlen t)); [lia|]. exists b'. split_and!; try done.
    rewrite render_snoc. rewrite take_ge in Hb'; [done|]. rewrite length_app. cbn [length].
    unfold size, zlen in Hfit. lia.
Qed.

(** ** Components of a text *)
Definition split (s : list Z) : list (list Z) := fields [SLASH] s.

(** A run of characters without a slash; [name_ok] but for the length. *)
Definition part_ok (t : list Z) : Prop := t <> [] /\ Forall char_ok t /\ SLASH ∉ t.

Lemma has_slash c : has [SLASH] c = (c =? SLASH).
Proof. unfold has. cbn. by rewrite orb_false_r. Qed.

Lemma fields_parts s cur :
  Forall char_ok s -> Forall char_ok cur -> (SLASH ∉ cur) -> Forall part_ok (fields_from [SLASH] s cur).
Proof.
  intros Hs. revert cur. induction Hs as [|c s Hc Hs IH]; intros cur Hcur Hn; cbn [fields_from].
  - destruct cur; [constructor | constructor; [done|constructor]].
  - rewrite has_slash. destruct (Z.eqb_spec c SLASH) as [->|Hne].
    + destruct cur as [|x cur]; [by apply IH; [constructor | set_solver]|].
      constructor; [done|]. apply IH; [constructor | set_solver].
    + apply IH; [by apply Forall_snoc | set_solver].
Qed.

Lemma split_parts s : Forall char_ok s -> Forall part_ok (split s).
Proof. intros. apply fields_parts; [done | constructor | set_solver]. Qed.

Lemma split_names s : Forall char_ok s -> Forall (fun t => zlen t <= 255) (split s) -> Forall name_ok (split s).
Proof.
  intros Hs%split_parts Hl. eapply Forall_impl; [apply Forall_and; split; [exact Hs | exact Hl]|].
  intros t [(? & ? & ?) ?]. by split_and!.
Qed.

Lemma size_cons t ts : size (t :: ts) = 1 + zlen t + size ts.
Proof. unfold size. cbn. rewrite zlen_cons, zlen_app. lia. Qed.

Lemma size_nonneg comps : 0 <= size comps.
Proof. apply zlen_nonneg. Qed.

Lemma fields_size s cur :
  size (fields_from [SLASH] s cur) <= zlen s + 1 + zlen cur /\
  (cur <> [] \/ match s with c :: _ => c = SLASH | [] => True end ->
   size (fields_from [SLASH] s cur) <= zlen s + (if cur is [] then 0 else 1 + zlen cur)).
Proof.
  revert cur. induction s as [|c s IH]; intros cur; cbn [fields_from].
  - change (size []) with 0. destruct cur; [cbn; change (size []) with 0; unfold zlen; cbn; lia|].
    rewrite size_cons. change (size []) with 0. unfold zlen. cbn [length]. lia.
  - rewrite has_slash, zlen_cons. destruct (Z.eqb_spec c SLASH) as [->|Hne].
    + pose proof (proj1 (IH [])) as H. rewrite zlen_nil in H. destruct cur; rewrite ?size_cons, ?zlen_nil; lia.
    + pose proof (proj1 (IH (cur ++ [c]))) as H. rewrite zlen_app, zlen_cons, zlen_nil in H.
      split; [lia|]. intros [Hc|Hc]; [|done]. destruct cur; [done|lia].
Qed.

Lemma split_size s : size (split s) <= zlen s + 1.
Proof. pose proof (proj1 (fields_size s [])) as H. rewrite zlen_nil in H. unfold split, fields. lia. Qed.

Lemma split_size_abs s : head s = Some SLASH -> size (split s) <= zlen s.
Proof.
  intros H. pose proof (proj2 (fields_size s [])) as Hf. unfold split, fields.
  destruct s; [done|]. injection H as ->. specialize (Hf (or_intror eq_refl)). by rewrite Z.add_0_r in Hf.
Qed.

Lemma split_name t : name_ok t -> split t = [t].
Proof.
  intros (Hne & _ & Hs & _). unfold split.
  rewrite <- (app_nil_r t) at 1. rewrite (fields_run [SLASH] t []); try done.
  apply Forall_forall. intros c Hc. rewrite has_slash. apply Z.eqb_neq. by intros ->.
Qed.

Lemma split_concat comps : Forall name_ok comps -> split (concat (map (cons SLASH) comps)) = comps.
Proof.
  induction 1 as [|t comps (Hne & _ & Hs & _) _ IH]; [done|]. cbn [map concat app].
  transitivity (split (t ++ concat (map (cons SLASH) comps))); [done|]. unfold split in *.
  assert (Forall (fun c => has [SLASH] c = false) t) as Hno.
  { apply Forall_forall. intros c Hc. rewrite has_slash. apply Z.eqb_neq. by intros ->. }
  rewrite fields_run; [|done|done|by destruct comps].
  f_equal. destruct comps as [|u comps]; [done|]. cbn [map concat app tail]. exact IH.
Qed.

Lemma split_render comps : Forall name_ok comps -> split (render comps) = comps.
Proof. intros Hc. destruct comps as [|t comps]; [done|]. by apply split_concat. Qed.

Lemma step_ok comps t :
  Forall name_ok comps -> name_ok t -> Forall name_ok (step comps t) /\ size (step comps t) <= size comps + 1 + zlen t.
Proof.
  intros Hc Ht. pose proof (name_len _ Ht). unfold step. repeat case_decide.
  - split; [done|lia].
  - destruct comps as [|x l _] using rev_ind; [split; [done|cbn [removelast]; lia]|].
    rewrite removelast_snoc, size_snoc. pose proof (zlen_nonneg x).
    split; [by apply Forall_app in Hc as [? _]|lia].
  - rewrite size_snoc. split; [by apply Forall_snoc|lia].
Qed.

Lemma slash_lit : cstr (lit "/") [SLASH].
Proof. by apply (lit_check "/"). Qed.

(** ** path_join: a whole relative path *)
Lemma join_loop_spec fuel b comps buf first lasts s :
  cstr b (render comps) -> Forall name_ok comps -> PATH_MAX < zlen b ->
  pending buf (match first with Some o => PBuf o | None => lasts end) s ->
  Forall name_ok (split s) -> size comps + size (split s) <= PATH_MAX - 1 ->
  (length (split s) < fuel)%nat ->
  exists b', join_loop fuel b buf first lasts = Ok (b', true) /\
    cstr b' (render (resolve comps (split s))) /\ zlen b' = zlen b.
Proof.
  remember (split s) as fs eqn:Hfs. unfold split in Hfs. revert b comps buf first lasts s fuel Hfs.
  induction fs as [|t ts IH]; intros b comps buf first lasts s [|fuel] Hfs Hb Hc Hbl Hp Hnames Hsz Hf;
    cbn in Hf; try lia; cbn [join_loop];
    pose proof (strtok_r_step buf first (lit "/") [SLASH] lasts s slash_lit Hp) as Hs; rewrite <- Hfs in Hs.
  - destruct Hs as (buf' & l' & -> & _). by exists b.
  - destruct Hs as (buf' & o & l' & s' & -> & Ht & Hp' & Hts & _). cbn [mbind res_bind].
    inversion Hnames as [|? ? Hname Hrest]; subst. rewrite size_cons in Hsz.
    pose proof (size_nonneg (fields [SLASH] s')).
    destruct (join_one_spec b comps (padd buf' o) t) as (b1 & -> & Hb1 & Hl1); try done; [apply Ht | lia|].
    cbn [mbind res_bind deref]. destruct (step_ok comps t Hc Hname) as [Hc1 Hs1].
    destruct (IH b1 (step comps t) buf' None l' s' fuel) as (b' & -> & Hb' & Hl'); try done; try lia.
    exists b'. split_and!; [done | done | lia].
Qed.

Lemma path_join_spec b comps rb s :
  cstr b (render comps) -> Forall name_ok comps -> PATH_MAX < zlen b ->
  cstr rb s -> Forall name_ok (split s) -> zlen s <= PATH_MAX -> size comps + size (split s) <= PATH_MAX - 1 ->
  exists b', path_join b rb = Ok (b', true) /\
    cstr b' (render (resolve comps (split s))) /\ zlen b' = zlen b.
Proof.
  intros Hb Hc Hbl Hr Hn Hsl Hsz. unfold path_join.
  set (buf := replicate (Z.to_nat (PATH_MAX + 1)) 0).
  assert (Hbuf : zlen buf = PATH_MAX + 1) by (unfold buf, zlen; rewrite length_replicate; unfold PATH_MAX; lia).
  rewrite (strlcpy_spec buf rb s) by (done || rewrite Hbuf; unfold PATH_MAX; lia). cbn [mbind res_bind].
  rewrite Z.add_simpl_r, take_ge by (unfold zlen in *; lia).
  apply join_loop_spec; try done.
  - split; [done|]. cbn [Z.to_nat]. rewrite drop_0. eexists. split; [done|]. by eapply cstr_chars.
  - pose proof (fields_len [SLASH] s). rewrite length_app. cbn [length]. unfold split. lia.
Qed.

(** ** path_collapse_dots *)
Lemma resolve_ok comps fs :
  Forall name_ok comps -> Forall name_ok fs ->
  Forall name_ok (resolve comps fs) /\ size (resolve comps fs) <= size comps + size fs.
Proof.
  revert comps. induction fs as [|t fs IH]; intros comps Hc Hf; cbn.
  - split; [done|]. pose proof (size_nonneg []). lia.
  - inversion Hf; subst. rewrite size_cons. destruct (step_ok comps t) as [Hn1 Hz1]; try done.
    destruct (IH (step comps t)) as [Hn2 Hz2]; try done. split; [done|]. unfold resolve in *. lia.
Qed.

Lemma collapse_loop_spec fuel buf comps path first lasts s :
  cstr buf (render comps) -> Forall name_ok comps -> PATH_MAX < zlen buf ->
  pending path (match first with Some o => PBuf o | None => lasts end) s ->
  Forall name_ok (split s) -> size comps + size (split s) <= PATH_MAX - 1 ->
  (length (split s) < fuel)%nat ->
  exists buf' path', collapse_loop fuel buf path first lasts = Ok (buf', path') /\
    cstr buf' (render (resolve comps (split s))) /\ zlen path' = zlen path.
Proof.
  remember (split s) as fs eqn:Hfs. unfold split in Hfs. revert buf comps path first lasts s fuel Hfs.
  induction fs as [|t ts IH]; intros buf comps path first lasts s [|fuel] Hfs Hb Hc Hbl Hp Hnames Hsz Hf;
    cbn in Hf; try lia; cbn [collapse_loop];
    pose proof (strtok_r_step path first (lit "/") [SLASH] lasts s slash_lit Hp) as Hs; rewrite <- Hfs in Hs.
  - destruct Hs as (path' & l' & -> & -> & _). by exists buf, path.
  - destruct Hs as (path' & o & l' & s' & -> & Ht & Hp' & Hts & Hpl). cbn [mbind res_bind].
    inversion Hnames as [|? ? Hname Hrest]; subst. rewrite size_cons in Hsz.
    pose proof (size_nonneg (fields [SLASH] s')). pose proof (size_nonneg comps).
    destruct (path_join_spec buf comps (padd path' o) t) as (b1 & -> & Hb1 & Hl1); try done.
    { apply Ht. } { rewrite split_name by done. by constructor. } { lia. }
    { rewrite split_name, size_cons by done. change (size []) with 0. lia. }
    cbn [mbind res_bind]. rewrite (split_name t) in Hb1 by done. destruct (step_ok comps t Hc Hname) as [Hc1 Hs1].
    destruct (IH b1 (step comps t) path' None l' s' fuel) as (buf' & p' & -> & Hb' & Hl'); try done; try lia.
    exists buf', p'. split_and!; [done | done | lia].
Qed.

Lemma fresh_buf : exists r, strcpy (replicate (Z.to_nat (PATH_MAX + 1)) 0) (lit "/") = Ok (SLASH :: 0 :: r) /\
  zlen (SLASH :: 0 :: r) = PATH_MAX + 1.
Proof.
  rewrite (strcpy_spec _ (lit "/") [SLASH] slash_lit).
  - eexists. split; [done|]. rewrite !zlen_cons. unfold zlen. rewrite length_drop, length_replicate. unfold PATH_MAX. cbn [length]. lia.
  - unfold zlen. rewrite length_replicate. cbn. unfold PATH_MAX. lia.
Qed.

Definition no_dots (t : list Z) : Prop := t <> chars "." /\ t <> chars "..".

Lemma resolve_app comps fs : Forall no_dots fs -> resolve comps fs = comps ++ fs.
Proof.
  revert comps. induction fs as [|t fs IH]; intros comps Hf; [by rewrite app_nil_r|].
  apply Forall_cons in Hf as [[H1 H2] Hf]. unfold resolve. cbn [foldl]. fold (resolve (step comps t) fs).
  unfold step. rewrite !decide_False by done. rewrite IH by done. by rewrite <- app_assoc.
Qed.

Lemma resolve_no_dots comps fs : Forall no_dots comps -> Forall no_dots (resolve comps fs).
Proof.
  revert comps. induction fs as [|t fs IH]; intros comps Hc; cbn; [done|]. apply IH.
  unfold step. repeat case_decide; [done | | by apply Forall_snoc].
  destruct comps as [|x l _] using rev_ind; [done|]. rewrite removelast_snoc. by apply Forall_app in Hc as [? _].
Qed.

Lemma path_collapse_dots_spec b s :
  cstr b s -> head s = Some SLASH -> zlen s < PATH_MAX -> Forall (fun t => zlen t <= 255) (split s) ->
  exists b', path_collapse_dots b = Ok (b', true) /\
    cstr b' (render (resolve [] (split s))) /\ zlen b' = zlen b /\
    Forall no_dots (resolve [] (split s)) /\ zlen (render (resolve [] (split s))) <= zlen s.
Proof.
  intros Hb Hh Hlen Hparts. unfold path_collapse_dots.
  pose proof (split_names s (cstr_chars _ _ Hb) Hparts) as Hn. pose proof (split_size_abs s Hh) as Hsz.
  assert (load b = Ok SLASH) as ->
    by (destruct Hb as (r & -> & _); destruct s; [done|]; by injection Hh as ->).
  cbn [mbind res_bind Z.eqb SLASH negb Pos.eqb]. destruct fresh_buf as (r0 & -> & Hr0). cbn [mbind res_bind].
  destruct (collapse_loop_spec (S (length b)) (SLASH :: 0 :: r0) [] b (Some 0) PEmpty s)
    as (buf' & p' & -> & Hbuf & Hpl); try done.
  { exists r0. by split; [|repeat constructor]. } { lia. } { change (size []) with 0. unfold PATH_MAX in *. lia. }
  { pose proof (fields_len [SLASH] s). pose proof (cstr_len _ _ Hb). unfold split. lia. }
  cbn [mbind res_bind]. destruct (resolve_ok [] (split s)) as [Hok Hrs]; [constructor | done|].
  assert (Hout : zlen (render (resolve [] (split s))) <= zlen s).
  { destruct s as [|c s']; [done|]. rewrite (zlen_cons c s') in *. pose proof (zlen_nonneg s').
    change (size []) with 0 in Hrs. destruct (render_size (resolve [] (split (c :: s')))) as [->|[_ ->]]; lia. }
  pose proof (cstr_len _ _ Hb). rewrite (strcpy_spec p' buf' _ Hbuf) by (unfold zlen in *; lia).
  cbn [mbind res_bind]. eexists. split; [done|]. split_and!; [| | by apply resolve_no_dots; constructor | done].
  - eexists. split; [done|]. by apply render_ok.
  - autorewrite with kernel_rw. unfold zlen in *. rewrite length_drop. lia.
Qed.

(** ** The properties *)

(** C11: [path_collapse_dots] on an absolute path (components of at most 255 characters, total
    shorter than [PATH_MAX]) returns true and leaves, in the same buffer, the path obtained
    by resolving [.] and [..] component by component; the result contains neither, and is
    never longer than the input. *)
Theorem path_collapse_dots_correct b s :
  cstr b s -> head s = Some SLASH -> zlen s < PATH_MAX -> Forall (fun t => zlen t <= 255) (split s) ->
  exists b', path_collapse_dots b = Ok (b', true) /\
    cstr b' (render (resolve [] (split s))) /\ zlen b' = zlen b /\
    Forall no_dots (resolve [] (split s)) /\ zlen (render (resolve [] (split s))) <= zlen s.
Proof. apply path_collapse_dots_spec. Qed.

(** [path_join] applied to a buffer that holds an absolute path resolves the components
    of its second argument one after the other, as long as they fit in [PATH_MAX - 1]. *)
Theorem path_join_correct b comps rb s :
  cstr b (render comps) -> Forall name_ok comps -> PATH_MAX < zlen b ->
  cstr rb s -> Forall (fun t => zlen t <= 255) (split s) ->
  size comps + zlen s + 1 < PATH_MAX ->
  exists b', path_join b rb = Ok (b', true) /\
    cstr b' (render (resolve comps (split s))) /\ zlen b' = zlen b.
Proof.
  intros Hb Hc Hbl Hr Hl Hsz. pose proof (split_size s). pose proof (size_nonneg comps).
  apply (path_join_spec b comps rb s); try done; [|lia..].
  apply split_names; [by eapply cstr_chars | done].
Qed.

(** [path_join] reports success although it dropped a character: the truncation test
    allows a text of [PATH_MAX] characters, while [strlcat] keeps [PATH_MAX - 1]. *)
Theorem path_join_silent_truncation b comps rb t :
  cstr b (render comps) -> Forall name_ok comps -> cstr rb t -> name_ok t -> no_dots t ->
  PATH_MAX < zlen b -> size comps + 1 + zlen t = PATH_MAX ->
  exists b' s', path_join b rb = Ok (b', true) /\ cstr b' s' /\
    zlen s' = PATH_MAX - 1 /\ zlen (render (resolve comps (split t))) = PATH_MAX.
Proof.
  intros Hb Hc Hr Ht [Hd1 Hd2] Hbl Hsz. pose proof (name_len _ Ht).
  assert (Hst : step comps t = comps ++ [t]) by (unfold step; by rewrite !decide_False).
  unfold path_join. set (buf := replicate (Z.to_nat (PATH_MAX + 1)) 0).
  assert (Hbuf : zlen buf = PATH_MAX + 1) by (unfold buf, zlen; rewrite length_replicate; unfold PATH_MAX; lia).
  pose proof (size_nonneg comps).
  rewrite (strlcpy_spec buf rb t) by (done || rewrite Hbuf; unfold PATH_MAX; lia). cbn [mbind res_bind].
  rewrite Z.add_simpl_r, take_ge by (unfold zlen in *; lia).
  set (buf1 := t ++ _). assert (Hp : pending buf1 (PBuf 0) t).
  { split; [done|]. eexists. split; [done|]. apply Ht. }
  assert (exists n, length buf1 = S n) as [n ->]
    by (unfold buf1; rewrite length_app; cbn [length]; rewrite Nat.add_succ_r; eauto).
  cbn [join_loop].
  pose proof (strtok_r_step buf1 (Some 0) (lit "/") [SLASH] PEmpty t slash_lit Hp) as Hs.
  fold (split t) in Hs. rewrite split_name in Hs |- * by done.
  destruct Hs as (buf' & o & l' & s' & -> & Hat & Hp' & Hts & _). cbn [mbind res_bind].
  destruct (join_name_text b comps (padd buf' o) t) as (b1 & -> & Hb1 & Hl1); try done; [apply Hat | lia|].
  rewrite Hsz, Z.ltb_irrefl. cbn [negb mbind res_bind deref].
  pose proof (strtok_r_step buf' None (lit "/") [SLASH] l' s' slash_lit Hp') as Hs. rewrite Hts in Hs.
  destruct Hs as (? & ? & -> & _). cbn [mbind res_bind].
  eexists _, _. split; [done|]. split; [exact Hb1|]. rewrite <- render_snoc. cbn [resolve foldl]. rewrite Hst.
  assert (Hrl : zlen (render (comps ++ [t])) = PATH_MAX).
  { destruct (render_size (comps ++ [t])) as [->|[_ ->]]; rewrite size_snoc; unfold PATH_MAX in *; lia. }
  split; [|done]. unfold zlen in *. rewrite length_take. lia.
Qed.

Lemma strlcpy_fits dst src s size :
  cstr src s -> zlen s < size -> zlen s < zlen dst ->
  strlcpy dst src size = Ok (s ++ 0 :: drop (S (length s)) dst, zlen s).
Proof.
  intros Hs Hsz Hd. unfold strlcpy. rewrite (strlen_spec _ _ Hs). cbn [mbind res_bind].
  destruct (Z.leb_spec (zlen s + 1) size); [|lia]. by rewrite (strcpy_spec dst src s Hs Hd).
Qed.

(** [path_dirname] and [path_basename] split an absolute path into the path of all
    components but the last and the last component, in place; the root is its own
    directory and its own base name. *)
Theorem path_dirname_basename b comps t :
  cstr b (render (comps ++ [t])) -> Forall name_ok comps -> name_ok t ->
  (exists b', path_dirname b = Ok b' /\ cstr b' (render comps) /\ zlen b' = zlen b) /\
  (exists b', path_basename b = Ok b' /\ cstr b' t /\ zlen b' = zlen b) /\
  path_dirname (lit "/") = Ok (lit "/") /\ path_basename (lit "/") = Ok (lit "/").
Proof.
  intros Hb Hc Ht. split_and!; [..|done|done].
  { destruct (dirname_spec b (comps ++ [t])) as (b' & ? & Hb' & ?); [done | by apply Forall_snoc|].
    rewrite removelast_snoc in Hb'. by exists b'. }
  rewrite render_snoc in Hb. set (P := concat _) in *. unfold path_basename.
  rewrite (strlen_spec _ _ Hb). cbn [mbind res_bind].
  pose proof (strrchr_last b P t slash_ok Hb) as Hr. destruct Hb as (r & -> & Hok).
  destruct (aget_last (P ++ [SLASH]) t r Ht) as (x & Hx & Hne).
  rewrite <- !app_assoc in *. cbn [app] in *. rewrite Hx. cbn [mbind res_bind]. rewrite Hne. cbn [mbind res_bind andb].
  destruct Ht as (Htne & Htok & Hns & Hlen). rewrite Hr by done. cbn [mbind res_bind].
  assert (Hcs : cstr (padd (P ++ SLASH :: t ++ 0 :: r) (zlen P + 1)) t).
  { unfold padd. replace (Z.to_nat (zlen P + 1)) with (length (P ++ [SLASH])) by (unfold zlen; rewrite length_app; cbn; lia).
    replace (P ++ SLASH :: t ++ 0 :: r) with ((P ++ [SLASH]) ++ t ++ 0 :: r) by (by rewrite <- app_assoc).
    rewrite drop_app_length. by exists r. }
  rewrite (strlcpy_fits _ _ t) by (done || unfold zlen in *; rewrite ?length_replicate; lia). cbn [mbind res_bind].
  rewrite (strlcpy_fits _ _ t); [| by eexists | lia |
    autorewrite with kernel_rw; pose proof (zlen_nonneg P); pose proof (zlen_nonneg r); lia].
  eexists. split; [done|]. split; [by eexists|]. autorewrite with kernel_rw.
  unfold zlen. rewrite length_drop, length_app. cbn [length]. rewrite length_app. cbn [length]. lia.
Qed.

(** [path_basename] of a path without a slash goes through the NULL pointer that
    [strrchr] returned. *)
Theorem path_basename_relative_undefined b t :
  cstr b t -> part_ok t -> path_basename b = Undef.
Proof.
  intros Hb (Hne & Hok & Hns). unfold path_basename. rewrite (strlen_spec _ _ Hb). cbn [mbind res_bind].
  destruct t as [|x t0 _] using rev_ind; [done|]. assert (Hx : (x =? SLASH) = false).
  { apply Z.eqb_neq. intros ->. apply Hns. set_solver. }
  destruct (strrchr_spec b _ SLASH slash_ok Hb) as [[Hr _]|(u & v & _ & E & _)].
  2: { exfalso. apply Hns. rewrite E. set_solver. }
  assert (aget b (zlen (t0 ++ [x]) - 1) = Ok x) as ->.
  { destruct Hb as (r & -> & _). rewrite zlen_app. change (zlen [x]) with 1. apply aget_Ok. unfold zlen.
    split; [lia|]. rewrite <- app_assoc. apply list_lookup_middle. lia. }
  cbn [mbind res_bind]. rewrite Hx. cbn [andb mbind res_bind]. by rewrite Hr.
Qed.

(** Joining a component that is too long changes nothing. *)
Lemma join_loop_too_long fuel b buf first lasts s t ts :
  pending buf (match first with Some o => PBuf o | None => lasts end) s ->
  split s = t :: ts -> 255 < zlen t -> join_loop (S fuel) b buf first lasts = Ok (b, false).
Proof.
  intros Hp Hs Ht. cbn [join_loop].
  pose proof (strtok_r_step buf first (lit "/") [SLASH] lasts s slash_lit Hp) as H1.
  fold (split s) in H1. rewrite Hs in H1. destruct H1 as (buf' & o & l' & s' & -> & Hat & _).
  cbn [mbind res_bind]. unfold __path_join. rewrite (strlen_spec _ t) by apply Hat. cbn [mbind res_bind].
  by destruct (Z.ltb_spec 255 (zlen t)); [|lia].
Qed.

Lemma path_join_too_long b rb t :
  cstr rb t -> part_ok t -> 255 < zlen t <= PATH_MAX -> path_join b rb = Ok (b, false).
Proof.
  intros Hr (Hne & Hok & Hns) Hl. unfold path_join. set (buf := replicate (Z.to_nat (PATH_MAX + 1)) 0).
  assert (Hbuf : zlen buf = PATH_MAX + 1) by (unfold buf, zlen; rewrite length_replicate; unfold PATH_MAX; lia).
  rewrite (strlcpy_fits buf rb t) by (done || lia). cbn [mbind res_bind].
  apply (join_loop_too_long _ _ _ _ _ t t []); [| |lia].
  - split; [done|]. by eexists.
  - unfold split. rewrite <- (app_nil_r t) at 1. apply (fields_run [SLASH] t []); try done.
    apply Forall_forall. intros c Hc. rewrite has_slash. apply Z.eqb_neq. by intros ->.
Qed.

(** [path_collapse_dots] ignores the result of [path_join]: a leading component of more
    than 255 characters silently disappears and the function still returns true. *)
Theorem path_collapse_dots_drops_long b s t fs :
  cstr b s -> head s = Some SLASH -> zlen s < PATH_MAX ->
  split s = t :: fs -> 255 < zlen t -> Forall (fun t => zlen t <= 255) fs ->
  exists b', path_collapse_dots b = Ok (b', true) /\ cstr b' (render (resolve [] fs)).
Proof.
  intros Hb Hh Hlen Hs Ht Hfs. unfold path_collapse_dots.
  pose proof (split_size_abs s Hh) as Hsz. pose proof (split_parts s (cstr_chars _ _ Hb)) as Hparts.
  rewrite Hs in Hparts, Hsz. inversion Hparts as [|? ? Hpt Hpfs]; subst. rewrite size_cons in Hsz.
  assert (load b = Ok SLASH) as ->
    by (destruct Hb as (r & -> & _); destruct s; [done|]; by injection Hh as ->).
  cbn [mbind res_bind Z.eqb SLASH negb Pos.eqb]. destruct fresh_buf as (r0 & -> & Hr0). cbn [mbind res_bind collapse_loop].
  pose proof (strtok_r_step b (Some 0) (lit "/") [SLASH] PEmpty s slash_lit ltac:(by split)) as H1.
  fold (split s) in H1. rewrite Hs in H1. destruct H1 as (p1 & o & l1 & s1 & -> & Hat & Hp1 & Hs1 & Hl1).
  cbn [mbind res_bind]. pose proof (size_nonneg fs).
  rewrite (path_join_too_long _ _ t) by (done || apply Hat || lia). cbn [mbind res_bind].
  assert (Hn : Forall name_ok fs).
  { eapply Forall_impl; [apply Forall_and; split; [exact Hpfs | exact Hfs]|]. intros x [(? & ? & ?) ?]. by split_and!. }
  destruct (collapse_loop_spec (length b) (SLASH :: 0 :: r0) [] p1 None l1 s1)
    as (buf' & p' & -> & Hbuf & Hpl); try done.
  { exists r0. by split; [|repeat constructor]. } { lia. }
  { unfold split. by rewrite Hs1. } { unfold split. rewrite Hs1. change (size []) with 0. lia. }
  { unfold split. rewrite Hs1. pose proof (fields_len [SLASH] s) as Hfl. fold (split s) in Hfl.
    rewrite Hs in Hfl. cbn in Hfl. pose proof (cstr_len _ _ Hb). lia. }
  unfold split in Hbuf. rewrite Hs1 in Hbuf. cbn [mbind res_bind].
  destruct (resolve_ok [] fs) as [Hok Hrs]; [constructor | done|]. change (size []) with 0 in Hrs.
  pose proof (cstr_len _ _ Hb). rewrite (strcpy_spec p' buf' _ Hbuf).
  - cbn [mbind res_bind]. eexists. split; [done|]. eexists. split; [done|]. by apply render_ok.
  - destruct (render_size (resolve [] fs)) as [->|[_ ->]]; unfold zlen in *; lia.
Qed.

(** ** Witnesses *)
Lemma path_collapse_dots_witness :
  exists b', path_collapse_dots (lit "/a/b/../c/./d") = Ok (b', true) /\ cstr b' (chars "/a/c/d").
Proof.
  destruct (path_collapse_dots_correct (lit "/a/b/../c/./d") (chars "/a/b/../c/./d"))
    as (b' & H1 & H2 & _); [by apply lit_check | reflexivity | vm_compute; reflexivity | |].
  - repeat (constructor; [vm_compute; discriminate|]). constructor.
  - by exists b'.
Defined.

Definition demo_buf : list Z := chars "/a" ++ replicate 1022 0.

Lemma demo_buf_holds : cstr demo_buf (render [chars "a"]).
Proof. exists (replicate 1021 0). split; [reflexivity|]. repeat constructor; lia. Qed.

Lemma a_ok : Forall name_ok [chars "a"].
Proof. constructor; [|constructor]. split_and!; [done | repeat constructor; lia | set_solver | vm_compute; discriminate]. Qed.

Lemma path_join_witness :
  exists b', path_join demo_buf (lit "../x//y") = Ok (b', true) /\ cstr b' (chars "/x/y").
Proof.
  destruct (path_join_correct demo_buf [chars "a"] (lit "../x//y") (chars "../x//y"))
    as (b' & H1 & H2 & _);
    [exact demo_buf_holds | exact a_ok | vm_compute; reflexivity | by apply lit_check | | vm_compute; reflexivity |].
  - repeat (constructor; [vm_compute; discriminate|]). constructor.
  - by exists b'.
Defined.

(** A directory whose path takes 1018 characters; a name of four more does not fit. *)
Definition deep : list (list Z) := replicate 509 (chars "a").

Lemma path_join_truncation_witness :
  exists b' s', path_join (render deep ++ 0 :: replicate 10 0) (lit "abcd") = Ok (b', true) /\ cstr b' s' /\
    zlen s' = PATH_MAX - 1.
Proof.
  destruct (path_join_silent_truncation (render deep ++ 0 :: replicate 10 0) deep (lit "abcd") (chars "abcd"))
    as (b' & s' & H1 & H2 & H3 & _).
  - exists (replicate 10 0). split; [reflexivity|]. apply render_ok.
    apply Forall_replicate. exact (Forall_inv a_ok).
  - apply Forall_replicate. exact (Forall_inv a_ok).
  - by apply lit_check.
  - split_and!; [done | repeat constructor; lia | vm_compute; set_solver | vm_compute; discriminate].
  - by split.
  - vm_compute. reflexivity.
  - vm_compute. reflexivity.
  - by exists b', s'.
Defined.

Lemma path_dirname_basename_witness :
  exists b', path_basename demo_buf = Ok b' /\ cstr b' (chars "a").
Proof.
  destruct (path_dirname_basename demo_buf [] (chars "a")) as (_ & (b' & H1 & H2 & _) & _);
    [exact demo_buf_holds | constructor | exact (Forall_inv a_ok) |]. by exists b'.
Defined.

Lemma path_basename_undefined_witness : path_basename (lit "foo") = Undef.
Proof.
  apply (path_basename_relative_undefined (lit "foo") (chars "foo")); [by apply lit_check|].
  split_and!; [done | repeat constructor; lia | vm_compute; set_solver].
Defined.

Lemma path_collapse_dots_drops_witness :
  exists b', path_collapse_dots (chars "/" ++ replicate 256 97 ++ lit "/b") = Ok (b', true) /\ cstr b' (chars "/b").
Proof.
  destruct (path_collapse_dots_drops_long (chars "/" ++ replicate 256 97 ++ lit "/b")
    (chars "/" ++ replicate 256 97 ++ chars "/b") (replicate 256 97) [chars "b"]) as (b' & H1 & H2).
  - exists []. split; [reflexivity|]. apply Forall_app; split; [repeat constructor; lia|].
    apply Forall_app; split; [apply Forall_replicate; unfold char_ok; lia | repeat constructor; lia].
  - reflexivity.
  - vm_compute. reflexivity.
  - vm_compute. reflexivity.
  - vm_compute. reflexivity.
  - constructor; [vm_compute; discriminate | constructor].
  - by exists b'.
Defined.
