(* ===== verification/OrderedArray.v ===== *)
(** * The ordered array (src/src/kernel/ordered_array.c)

    A fixed-capacity array of pointers kept sorted by insertion; the kernel heap
    indexes its free areas with two of them.  [array] is the memory the array lives
    in: [create_ordered_array] gets one element more than [max_size] from [kmalloc],
    [place_ordered_array] is given the memory by its caller. *)
From S2P Require Import Prelude.
From Stdlib Require Import Sorted.

Record ordered_array := mk_oa {
  array : list Z;
  size : Z;
  max_size : Z;
  less_than : option (Z -> Z -> bool)     (** a function pointer, [None] for NULL *)
}.

Definition standard_lessthan_predicate (a b : Z) : bool := a <? b.

(** [kmalloc] returned [block], of [max_size + 1] elements. *)
Definition create_ordered_array (block : list Z) (max : Z) (lt : option (Z -> Z -> bool)) : ordered_array :=
  mk_oa (replicate (Z.to_nat max) 0 ++ drop (Z.to_nat max) block) 0 max lt.

(** The memory at [addr]. *)
Definition place_ordered_array (addr : list Z) (max : Z) (lt : option (Z -> Z -> bool)) : ordered_array :=
  mk_oa (replicate (Z.to_nat max) 0 ++ drop (Z.to_nat max) addr) 0 max lt.

(** [while (i < size && less_than(array[i], item)) i++], [n] the elements left. *)
Fixpoint find_pos (n : nat) (i : Z) (lt : Z -> Z -> bool) (item : Z) (arr : list Z) : res Z :=
  match n with
  | O => Ok i
  | S n => x ← aget arr i; if lt x item then find_pos n (i + 1) lt item arr else Ok i
  end.

(** [while (i < size) { i++; tmp2 = array[i]; array[i] = tmp; tmp = tmp2; }] *)
Fixpoint shift_up (n : nat) (i tmp : Z) (arr : list Z) : res (list Z) :=
  match n with
  | O => Ok arr
  | S n =>
      let i := i + 1 in
      tmp2 ← aget arr i;
      arr ← aset arr i tmp;
      shift_up n i tmp2 arr
  end.

Definition insert_ordered_array (item : Z) (a : ordered_array) : res ordered_array :=
  match less_than a with
  | None => Panic
  | Some lt =>
      assert (u32 (size a + 1) <=? max_size a) ;;
      i ← find_pos (Z.to_nat (size a)) 0 lt item (array a);
      arr ← (if i =? size a then aset (array a) (size a) item
             else
               tmp ← aget (array a) i;
               arr ← aset (array a) i item;
               shift_up (Z.to_nat (size a - i)) i tmp arr);
      Ok (mk_oa arr (u32 (size a + 1)) (max_size a) (less_than a))
  end.

Definition lookup_ordered_array (i : Z) (a : ordered_array) : res Z :=
  assert (i <? size a) ;; aget (array a) i.

Definition update_ordered_array (i item : Z) (a : ordered_array) : res ordered_array :=
  assert (i <? size a) ;;
  arr ← aset (array a) i item;
  Ok (mk_oa arr (size a) (max_size a) (less_than a)).

(** [for (i = 0; i < size; i++) if (lookup_ordered_array(i, array) == item)]: the first
    such [i]. *)
Fixpoint index_loop (n : nat) (i item : Z) (a : ordered_array) : res (option Z) :=
  match n with
  | O => Ok None
  | S n => x ← lookup_ordered_array i a;
           if x =? item then Ok (Some i) else index_loop n (i + 1) item a
  end.
Definition indexof_ordered_array (item : Z) (a : ordered_array) : res Z :=
  o ← index_loop (Z.to_nat (s32 (size a))) 0 item a;
  Ok (match o with Some i => i | None => -1 end).

(** [while (i < size) { array[i] = array[i+1]; i++; }] *)
Fixpoint shift_down (n : nat) (i : Z) (arr : list Z) : res (list Z) :=
  match n with
  | O => Ok arr
  | S n => x ← aget arr (i + 1); arr ← aset arr i x; shift_down n (i + 1) arr
  end.
Definition remove_ordered_array (i : Z) (a : ordered_array) : res ordered_array :=
  arr ← shift_down (Z.to_nat (size a - i)) i (array a);
  Ok (mk_oa arr (u32 (size a - 1)) (max_size a) (less_than a)).

Definition remove_ordered_array_item (item : Z) (a : ordered_array) : res ordered_array :=
  o ← index_loop (Z.to_nat (size a)) 0 item a;
  match o with
  | Some i => remove_ordered_array i a
  | None => Ok a
  end.

(** ** What the array represents *)

(** What the array promises needs the predicate to be a strict weak order. *)
Class StrictWeakOrder (lt : Z -> Z -> bool) : Prop := {
  lt_irrefl : forall a, lt a a = false;
  lt_trans : forall a b c, lt a b = true -> lt b c = true -> lt a c = true;
  ge_trans : forall a b c, lt b a = false -> lt c b = false -> lt c a = false
}.

#[export] Instance standard_order : StrictWeakOrder standard_lessthan_predicate.
Proof. unfold standard_lessthan_predicate. split; intros *; rewrite ?Z.ltb_lt, ?Z.ltb_ge; lia. Qed.

(** The elements. *)
Definition elems (a : ordered_array) : list Z := take (Z.to_nat (size a)) (array a).

Definition sorted (lt : Z -> Z -> bool) : list Z -> Prop := StronglySorted (fun x y => lt y x = false).

(** The memory holds [max_size] elements and the one past them that
    [remove_ordered_array] reads. *)
Record oa_wf (a : ordered_array) : Prop := {
  oa_size : 0 <= size a <= max_size a;
  oa_max : max_size a < 2 ^ 31;
  oa_room : max_size a < zlen (array a)
}.

Lemma elems_split a : oa_wf a -> exists r, array a = elems a ++ r /\ zlen (elems a) = size a /\ r <> [].
Proof.
  intros [Hs _ Hr]. exists (drop (Z.to_nat (size a)) (array a)). unfold elems, zlen in *.
  rewrite take_drop, length_take. split_and!; [done | lia |].
  intros E%(f_equal length). rewrite length_drop in E. cbn in E. lia.
Qed.

(** Where the search loop stops. *)
Lemma find_pos_spec lt item l1 l2 r :
  Forall (fun x => lt x item = true) l1 ->
  exists m1 m2, l1 ++ l2 = m1 ++ m2 /\ Forall (fun x => lt x item = true) m1 /\
    match m2 with [] => True | y :: _ => lt y item = false end /\
    find_pos (length l2) (zlen l1) lt item (l1 ++ l2 ++ r) = Ok (zlen m1).
Proof.
  revert l1. induction l2 as [|x l2 IH]; intros l1 Hl1; cbn [length find_pos].
  - exists l1, []. by split_and!.
  - cbn [app]. rewrite aget_mid. cbn [mbind res_bind]. destruct (lt x item) eqn:E.
    + destruct (IH (l1 ++ [x])) as (m1 & m2 & Hm & H1 & H2 & H3); [by apply Forall_snoc|].
      exists m1, m2. rewrite <- app_assoc in Hm, H3. rewrite zlen_snoc in H3. by split_and!.
    + exists l1, (x :: l2). by split_and!.
Qed.

Lemma shift_up_spec l x tmp m y r :
  shift_up (S (length m)) (zlen l) tmp (l ++ x :: m ++ y :: r) = Ok (l ++ x :: tmp :: m ++ r).
Proof.
  revert l x tmp. induction m as [|z m IH]; intros l x tmp; cbn [length app].
  - cbn [shift_up]. rewrite <- (zlen_snoc l x). change (l ++ x :: y :: r) with (l ++ [x] ++ y :: r).
    rewrite app_assoc, aget_mid. cbn [mbind res_bind]. rewrite aset_mid. cbn [mbind res_bind].
    by rewrite <- app_assoc.
  - cbn [shift_up]. rewrite <- (zlen_snoc l x).
    change (l ++ x :: z :: m ++ y :: r) with (l ++ [x] ++ z :: m ++ y :: r).
    rewrite app_assoc, aget_mid. cbn [mbind res_bind]. rewrite aset_mid. cbn [mbind res_bind].
    pose proof (IH (l ++ [x]) tmp z) as H. cbn [shift_up] in H. rewrite H. by rewrite <- app_assoc.
Qed.

Lemma shift_down_spec l x m y r :
  shift_down (S (length m)) (zlen l) (l ++ x :: m ++ y :: r) =
  Ok (l ++ (m ++ [y]) ++ y :: r).
Proof.
  revert l x. induction m as [|z m IH]; intros l x; cbn [length app].
  - cbn [shift_down]. rewrite <- (zlen_snoc l x). change (l ++ x :: y :: r) with (l ++ [x] ++ y :: r).
    rewrite app_assoc, aget_mid. cbn [mbind res_bind]. rewrite <- app_assoc. cbn [app].
    by rewrite aset_mid.
  - remember (S (length m)) as n. cbn [shift_down]. rewrite <- (zlen_snoc l x).
    change (l ++ x :: z :: m ++ y :: r) with (l ++ [x] ++ z :: m ++ y :: r).
    rewrite app_assoc, aget_mid. cbn [mbind res_bind]. rewrite <- app_assoc. cbn [app]. rewrite aset_mid.
    cbn [mbind res_bind]. change (l ++ z :: z :: m ++ y :: r) with (l ++ [z] ++ z :: m ++ y :: r).
    rewrite app_assoc, (zlen_snoc l x), <- (zlen_snoc l z). subst n. rewrite IH. by rewrite <- app_assoc.
Qed.

(** ** Inserting *)
Lemma insert_spec a lt item :
  oa_wf a -> less_than a = Some lt -> size a < max_size a ->
  exists a' l1 l2, insert_ordered_array item a = Ok a' /\ oa_wf a' /\
    elems a = l1 ++ l2 /\ elems a' = l1 ++ item :: l2 /\ size a' = size a + 1 /\
    max_size a' = max_size a /\ less_than a' = less_than a /\
    Forall (fun x => lt x item = true) l1 /\ match l2 with [] => True | y :: _ => lt y item = false end.
Proof.
  intros Hwf Hlt Hroom. unfold insert_ordered_array. rewrite Hlt.
  destruct (elems_split a Hwf) as (r & Ha & Hl & Hr). destruct Hwf as [Hs Hm Hz].
  rewrite u32_small by lia. destruct (Z.leb_spec (size a + 1) (max_size a)); [|lia]. cbn [assert mbind res_bind].
  destruct (find_pos_spec lt item [] (elems a) r) as (l1 & l2 & He & H1 & H2 & H3); [constructor|].
  cbn [app] in He, H3. rewrite zlen_nil in H3.
  replace (Z.to_nat (size a)) with (length (elems a)) by (unfold zlen in Hl; lia).
  rewrite Ha, H3. cbn [mbind res_bind]. destruct r as [|y r]; [done|].
  assert (Hel : zlen (elems a) = zlen l1 + zlen l2) by (by rewrite He, zlen_app).
  set (a' := mk_oa (l1 ++ item :: l2 ++ r) (size a + 1) (max_size a) (Some lt)).
  assert (Hres : exists arr, (if zlen l1 =? size a then aset (elems a ++ y :: r) (size a) item
             else tmp ← aget (elems a ++ y :: r) (zlen l1);
                  arr ← aset (elems a ++ y :: r) (zlen l1) item;
                  shift_up (Z.to_nat (size a - zlen l1)) (zlen l1) tmp arr) = Ok (array a') /\ arr = array a').
  { eexists. split; [|done]. rewrite He. destruct l2 as [|z l2].
    - rewrite zlen_nil in Hel. destruct (Z.eqb_spec (zlen l1) (size a)); [|lia].
      rewrite app_nil_r. cbn [a' array app]. replace (size a) with (zlen l1) by lia. apply aset_mid.
    - rewrite zlen_cons in Hel. pose proof (zlen_nonneg l2).
      destruct (Z.eqb_spec (zlen l1) (size a)); [lia|]. rewrite <- app_assoc. cbn [app].
      rewrite aget_mid. cbn [mbind res_bind]. rewrite aset_mid. cbn [mbind res_bind].
      replace (Z.to_nat (size a - zlen l1)) with (S (length l2)) by (unfold zlen in *; lia).
      apply shift_up_spec. }
  destruct Hres as (arr & -> & _). cbn [mbind res_bind]. exists a', l1, l2.
  assert (Hel' : elems a' = l1 ++ item :: l2).
  { unfold elems. cbn [a' size array]. rewrite app_comm_cons, app_assoc.
    replace (Z.to_nat (size a + 1)) with (length (l1 ++ item :: l2))
      by (rewrite length_app; cbn [length]; unfold zlen in *; lia). by rewrite take_app_length. }
  split_and!; try done. split; cbn; [lia | done |]. rewrite Ha in Hz. autorewrite with kernel_rw in *. lia.
Qed.

Lemma sorted_insert lt item l1 l2 `{!StrictWeakOrder lt} :
  sorted lt (l1 ++ l2) -> Forall (fun x => lt x item = true) l1 ->
  match l2 with [] => True | y :: _ => lt y item = false end -> sorted lt (l1 ++ item :: l2).
Proof.
  intros Hs H1 H2. induction H1 as [|x l1 Hx H1 IH]; cbn in *.
  - constructor; [done|]. destruct l2 as [|y l2]; [constructor|]. inversion Hs as [|? ? _ Hy]; subst.
    constructor; [done|]. eapply Forall_impl; [exact Hy|]. intros z Hz. by eapply ge_trans.
  - inversion Hs as [|? ? Hs' Hall]; subst. constructor; [by apply IH|].
    apply Forall_app in Hall as [Ha Hb]. apply Forall_app. split; [done|]. constructor; [|done].
    destruct (lt item x) eqn:E; [|done]. pose proof (lt_trans _ _ _ Hx E). by rewrite lt_irrefl in H.
Qed.

Lemma sorted_remove lt l1 x l2 : sorted lt (l1 ++ x :: l2) -> sorted lt (l1 ++ l2).
Proof.
  induction l1 as [|y l1 IH]; cbn; intros H; inversion H as [|? ? H' Hall]; subst; [done|].
  constructor; [by apply IH|]. apply Forall_app in Hall as [? Hb]. inversion Hb. by apply Forall_app.
Qed.

(** ** Removing and looking up *)
Lemma remove_spec a l1 x l2 :
  oa_wf a -> elems a = l1 ++ x :: l2 ->
  exists a', remove_ordered_array (zlen l1) a = Ok a' /\ oa_wf a' /\ elems a' = l1 ++ l2 /\
    size a' = size a - 1 /\ max_size a' = max_size a /\ less_than a' = less_than a.
Proof.
  intros Hwf He. destruct (elems_split a Hwf) as (r & Ha & Hl & Hr). destruct Hwf as [Hs Hm Hz].
  destruct r as [|y r]; [done|]. unfold remove_ordered_array. rewrite He in Ha, Hl.
  autorewrite with kernel_rw in Hl. pose proof (zlen_nonneg l1). pose proof (zlen_nonneg l2).
  replace (Z.to_nat (size a - zlen l1)) with (S (length l2)) by (unfold zlen in *; lia).
  rewrite Ha, <- app_assoc. cbn [app]. rewrite shift_down_spec. cbn [mbind res_bind].
  rewrite u32_small by lia. eexists. split; [done|]. split_and!; try done.
  - split; cbn; [lia | done |]. rewrite Ha in Hz. autorewrite with kernel_rw in *. lia.
  - unfold elems. cbn [size array]. replace (Z.to_nat (size a - 1)) with (length (l1 ++ l2))
      by (rewrite length_app; unfold zlen in *; lia).
    rewrite <- (app_assoc l2), (app_assoc l1 l2), take_app_length. done.
Qed.

Lemma index_loop_spec n l1 a item :
  oa_wf a -> (exists l2, elems a = l1 ++ l2 /\ length l2 = n) -> item ∉ l1 ->
  (index_loop n (zlen l1) item a = Ok None /\ item ∉ elems a) \/
  (exists m1 m2, index_loop n (zlen l1) item a = Ok (Some (zlen m1)) /\ elems a = m1 ++ item :: m2 /\ item ∉ m1).
Proof.
  intros Hwf. revert l1. induction n as [|n IH]; intros l1 (l2 & He & Hn) Hl1; cbn [index_loop].
  - destruct l2; [|done]. left. rewrite He. split; [done|]. by rewrite app_nil_r.
  - destruct l2 as [|x l2]; [done|]. destruct (elems_split a Hwf) as (r & Ha & Hl & _).
    unfold lookup_ordered_array. rewrite He in Hl, Ha. autorewrite with kernel_rw in Hl. pose proof (zlen_nonneg l2).
    destruct (Z.ltb_spec (zlen l1) (size a)); [|lia]. cbn [assert mbind res_bind].
    rewrite Ha, <- app_assoc. cbn [app]. rewrite aget_mid. cbn [mbind res_bind].
    destruct (Z.eqb_spec x item) as [->|Hne]; [right; by exists l1, l2|].
    rewrite <- (zlen_snoc l1 x). apply IH; [|set_solver]. exists l2. rewrite He, <- app_assoc. cbn in *. split; [done|lia].
Qed.

Lemma index_loop_elems a item :
  oa_wf a ->
  (index_loop (Z.to_nat (size a)) 0 item a = Ok None /\ item ∉ elems a) \/
  (exists m1 m2, index_loop (Z.to_nat (size a)) 0 item a = Ok (Some (zlen m1)) /\
     elems a = m1 ++ item :: m2 /\ item ∉ m1).
Proof.
  intros Hwf. destruct (elems_split a Hwf) as (r & _ & Hl & _).
  apply (index_loop_spec _ [] a item Hwf); [|set_solver]. exists (elems a). split; [done|]. unfold zlen in Hl. lia.
Qed.

(** ** The properties *)

(** inserting into an array with room keeps it sorted by any strict weak order, adds
    exactly the new item (after every smaller one and before every other), and stays
    within the memory of the array. *)
Theorem insert_ordered_array_sorted a lt item `{!StrictWeakOrder lt} :
  oa_wf a -> less_than a = Some lt -> size a < max_size a -> sorted lt (elems a) ->
  exists a', insert_ordered_array item a = Ok a' /\ oa_wf a' /\ less_than a' = Some lt /\
    sorted lt (elems a') /\ elems a' ≡ₚ item :: elems a /\ size a' = size a + 1.
Proof.
  intros Hwf Hlt Hr Hs. destruct (insert_spec a lt item Hwf Hlt Hr)
    as (a' & l1 & l2 & Hi & Hwf' & He & He' & Hsz & _ & Hl & H1 & H2).
  exists a'. split_and!; try done; try congruence.
  - rewrite He'. apply sorted_insert; try done. by rewrite <- He.
  - rewrite He', He. by rewrite Permutation_middle.
Qed.

(** removing an item takes out its first occurrence and nothing else, so the array stays
    sorted; an absent item leaves the array as it is; [indexof_ordered_array] finds that
    first occurrence or returns -1. *)
Theorem remove_item_first a lt item :
  oa_wf a -> sorted lt (elems a) ->
  exists a', remove_ordered_array_item item a = Ok a' /\ oa_wf a' /\ sorted lt (elems a') /\
    (((item ∉ elems a) /\ a' = a /\ indexof_ordered_array item a = Ok (-1)) \/
     (exists l1 l2, elems a = l1 ++ item :: l2 /\ (item ∉ l1) /\ elems a' = l1 ++ l2 /\
        indexof_ordered_array item a = Ok (zlen l1))).
Proof.
  intros Hwf Hs. unfold remove_ordered_array_item, indexof_ordered_array.
  rewrite s32_small by (destruct Hwf; lia).
  destruct (index_loop_elems a item Hwf) as [[-> Hn]|(l1 & l2 & -> & He & Hn)]; cbn [mbind res_bind].
  - exists a. split_and!; try done. by left.
  - destruct (remove_spec a l1 item l2 Hwf He) as (a' & -> & Hwf' & He' & _).
    exists a'. split_and!; try done; [|right; by exists l1, l2].
    rewrite He'. rewrite He in Hs. by eapply sorted_remove.
Qed.

(** removing an item just inserted restores the array's contents: among equal items the
    new one comes first. *)
Theorem insert_remove_roundtrip a lt item `{!StrictWeakOrder lt} :
  oa_wf a -> less_than a = Some lt -> size a < max_size a ->
  exists a' a'', insert_ordered_array item a = Ok a' /\ remove_ordered_array_item item a' = Ok a'' /\
    elems a'' = elems a.
Proof.
  intros Hwf Hlt Hr. destruct (insert_spec a lt item Hwf Hlt Hr)
    as (a' & l1 & l2 & Hi & Hwf' & He & He' & _ & _ & _ & H1 & _). exists a'.
  assert (Hn : item ∉ l1).
  { intros Hin. rewrite Forall_forall in H1. specialize (H1 _ Hin). by rewrite lt_irrefl in H1. }
  unfold remove_ordered_array_item.
  destruct (index_loop_elems a' item Hwf') as [[_ Habs]|(m1 & m2 & -> & Hm & Hn')].
  { exfalso. apply Habs. rewrite He'. set_solver. }
  assert (m1 = l1 /\ m2 = l2) as [-> ->].
  { rewrite He' in Hm. revert m1 Hm Hn'. clear -Hn. induction l1 as [|x l1 IH]; intros [|y m1] Hm Hn'; cbn in Hm.
    - by injection Hm.
    - injection Hm as -> _. set_solver.
    - injection Hm as -> _. set_solver.
    - injection Hm as -> Hm. destruct (IH ltac:(set_solver) m1 Hm ltac:(set_solver)) as [-> ->]. done. }
  destruct (remove_spec a' l1 item l2 Hwf' Hm) as (a'' & Hrm & _ & He'' & _). exists a''.
  cbn [mbind res_bind].
  split_and!; [done | done | congruence].
Qed.

(** [remove_ordered_array] does not check its index: past the last element it removes
    nothing and still shrinks the array, dropping its last element; on an empty array the
    size wraps around to 2^32 - 1. *)
Theorem remove_ordered_array_unchecked a i :
  oa_wf a -> size a <= i ->
  remove_ordered_array i a =
    Ok (mk_oa (array a) (if size a =? 0 then 2 ^ 32 - 1 else size a - 1) (max_size a) (less_than a)).
Proof.
  intros [Hs Hm _] Hi. unfold remove_ordered_array. replace (Z.to_nat (size a - i)) with 0%nat by lia.
  cbn [shift_down mbind res_bind]. destruct (Z.eqb_spec (size a) 0) as [->|]; [done|].
  by rewrite u32_small by lia.
Qed.

(** ** Witnesses *)
Definition demo_oa : ordered_array :=
  mk_oa [3; 5; 5; 9; 0; 0; 0; 0; 77] 4 8 (Some standard_lessthan_predicate).

Lemma demo_oa_wf : oa_wf demo_oa.
Proof. split; vm_compute; intuition congruence. Qed.

Lemma demo_oa_sorted : sorted standard_lessthan_predicate (elems demo_oa).
Proof. repeat constructor. Qed.

Lemma insert_ordered_array_witness :
  exists a', insert_ordered_array 5 demo_oa = Ok a' /\ elems a' = [3; 5; 5; 5; 9] /\
    sorted standard_lessthan_predicate (elems a').
Proof.
  destruct (insert_ordered_array_sorted demo_oa standard_lessthan_predicate 5 demo_oa_wf eq_refl eq_refl
    demo_oa_sorted) as (a' & H & _ & _ & Hs & _).
  exists a'. split; [exact H|]. split; [|exact Hs]. vm_compute in H. by injection H as <-.
Defined.

Lemma remove_item_witness :
  exists a', remove_ordered_array_item 5 demo_oa = Ok a' /\ sorted standard_lessthan_predicate (elems a').
Proof.
  destruct (remove_item_first demo_oa standard_lessthan_predicate 5 demo_oa_wf demo_oa_sorted)
    as (a' & H & _ & Hs & _). by exists a'.
Defined.

Lemma insert_remove_witness :
  exists a' a'', insert_ordered_array 5 demo_oa = Ok a' /\ remove_ordered_array_item 5 a' = Ok a'' /\
    elems a'' = [3; 5; 5; 9].
Proof. exact (insert_remove_roundtrip demo_oa standard_lessthan_predicate 5 demo_oa_wf eq_refl eq_refl). Defined.

Lemma remove_unchecked_witness :
  exists a', remove_ordered_array 7 demo_oa = Ok a' /\ elems a' = [3; 5; 5].
Proof.
  eexists. split; [apply (remove_ordered_array_unchecked demo_oa 7 demo_oa_wf); vm_compute; discriminate | reflexivity].
Defined.
