(* ===== verification/Heap.v ===== *)
(** * The kernel heap (src/src/kernel/heap.c)

    The heap is a run of areas in the address space, each an [area_header_t] (12 bytes:
    size, type, magic), the caller's bytes and an [area_footer_t] (8 bytes: magic, pointer
    to the header).  Two ordered arrays index the free and the used areas by size.  Headers
    and footers are read from and written to byte memory (Memory.v), where the code puts
    them; the two index arrays are OrderedArray.v's, one element longer than [max_size] for
    the element past the end that removing reads.

    [heap_create] is called once, for the kernel heap: [heap == kheap] holds in every call,
    and the branches for a heap of user space, which has none, are left out.

    [vmm_alloc_kernel] and [vmm_free] appear here as what they promise the heap: zeroed pages
    at addresses not mapped before, as long as there are free frames, and a page taken away
    (Vmm.v has their code). *)
From S2P Require Import Prelude Memory OrderedArray CString.

Definition HEAP_MAGIC : Z := 0xabcdef12.
Definition AREA_USED : Z := 0.
Definition AREA_FREE : Z := 1.
Definition HEADER_SIZE : Z := 12.      (** sizeof(area_header_t) *)
Definition FOOTER_SIZE : Z := 8.       (** sizeof(area_footer_t) *)
Definition HEAP_INDEX_SIZE : Z := 0x10000.
Definition KHEAP_START : Z := 0xc0000000.
Definition KHEAP_MAX_ADDR : Z := 0xcffff000.
Definition KHEAP_INITIAL_SIZE : Z := 0x90000.
Definition KHEAP_MIN_GROWTH : Z := 0x8000.
Definition KHEAP_MAX_WASTE : Z := 0x120000.
Definition MAX_TRACED_ALLOCATIONS : Z := 1024.
Definition BACKTRACE_MAX : Z := 16.
Definition LEAK_INFO_SIZE : Z := 108.  (** sizeof(struct leak_info) *)
Definition HEAP_T_SIZE : Z := 60.      (** sizeof(heap_t) *)
Definition PAGE_DIRECTORY_SIZE : Z := 8196.  (** sizeof(page_directory_t) *)


Record heap_t := mk_heap {
  start_address : Z;
  end_address : Z;
  min_address : Z;
  max_address : Z;
  supervisor : Z;
  readonly : Z;
  free_index : ordered_array;
  used_index : ordered_array;
  rightmost_area : Z
}.

Record leak_info := mk_leak {
  bt : list Z;
  allocation : Z;
  allocator_pid : Z;
  allocator_name : list Z;
  leak_size : Z
}.

(** [kheap] is [None] until [heap_create] has run; [leaks] is the table [leak_info] points
    to and its address, [None] while no trace runs; [frames] counts the free frames. *)
Record hstate := mk_hs {
  memory : mem;
  frames : Z;
  hirq : bool;
  kheap : option heap_t;
  leaks : option (Z * list leak_info);
  placement_address : Z
}.
Abbreviation HM := (ST hstate).

Definition set_memory (m : mem) (s : hstate) : hstate :=
  mk_hs m (frames s) (hirq s) (kheap s) (leaks s) (placement_address s).
Definition set_space (m : mem) (n : Z) (s : hstate) : hstate :=
  mk_hs m n (hirq s) (kheap s) (leaks s) (placement_address s).
Definition set_hirq (b : bool) (s : hstate) : hstate :=
  mk_hs (memory s) (frames s) b (kheap s) (leaks s) (placement_address s).
Definition set_kheap (h : heap_t) (s : hstate) : hstate :=
  mk_hs (memory s) (frames s) (hirq s) (Some h) (leaks s) (placement_address s).
Definition set_leaks (l : option (Z * list leak_info)) (s : hstate) : hstate :=
  mk_hs (memory s) (frames s) (hirq s) (kheap s) l (placement_address s).
Definition set_placement (p : Z) (s : hstate) : hstate :=
  mk_hs (memory s) (frames s) (hirq s) (kheap s) (leaks s) p.

Definition with_end (e : Z) (h : heap_t) : heap_t :=
  mk_heap (start_address h) e (min_address h) (max_address h) (supervisor h) (readonly h)
    (free_index h) (used_index h) (rightmost_area h).
Definition with_free (a : ordered_array) (h : heap_t) : heap_t :=
  mk_heap (start_address h) (end_address h) (min_address h) (max_address h) (supervisor h) (readonly h)
    a (used_index h) (rightmost_area h).
Definition with_used (a : ordered_array) (h : heap_t) : heap_t :=
  mk_heap (start_address h) (end_address h) (min_address h) (max_address h) (supervisor h) (readonly h)
    (free_index h) a (rightmost_area h).
Definition with_rightmost (r : Z) (h : heap_t) : heap_t :=
  mk_heap (start_address h) (end_address h) (min_address h) (max_address h) (supervisor h) (readonly h)
    (free_index h) (used_index h) r.

(** ** Access to the state *)
Definition the_heap : HM heap_t := o ← gets kheap; lift (deref o).
Definition put_heap (f : heap_t -> heap_t) : HM () := h ← the_heap; modify (set_kheap (f h)).
Definition rd8 (a : Z) : HM Z := m ← gets memory; lift (ld8 m a).
Definition rd32 (a : Z) : HM Z := m ← gets memory; lift (ld32 m a).
Definition wr8 (a v : Z) : HM () := m ← gets memory; m ← lift (st8 m a v); modify (set_memory m).
Definition wr32 (a v : Z) : HM () := m ← gets memory; m ← lift (st32 m a v); modify (set_memory m).

(** The fields of the header at [h] and of the footer at [f]. *)
Definition header_size (h : Z) : HM Z := rd32 h.
Definition header_type (h : Z) : HM Z := rd8 (u32 (h + 4)).
Definition header_magic (h : Z) : HM Z := rd32 (u32 (h + 8)).
Definition footer_magic (f : Z) : HM Z := rd32 f.
Definition footer_header (f : Z) : HM Z := rd32 (u32 (f + 4)).
Definition set_header_size (h v : Z) : HM () := wr32 h v.
Definition set_header_type (h v : Z) : HM () := wr8 (u32 (h + 4)) v.
Definition set_header_magic (h v : Z) : HM () := wr32 (u32 (h + 8)) v.
Definition set_footer_magic (f v : Z) : HM () := wr32 f v.
Definition set_footer_header (f v : Z) : HM () := wr32 (u32 (f + 4)) v.

Definition FOOTER_FROM_HEADER (h : Z) : HM Z := s ← header_size h; mret (u32 (h + s - FOOTER_SIZE)).

(** [header->magic == HEAP_MAGIC && header->type == AREA_FREE] *)
Definition is_free_header (h : Z) : HM bool :=
  mg ← header_magic h;
  if mg =? HEAP_MAGIC then t ← header_type h; mret (t =? AREA_FREE) else mret false.
(** [footer->magic == HEAP_MAGIC && footer->header == header] *)
Definition is_footer_of (f h : Z) : HM bool :=
  mg ← footer_magic f;
  if mg =? HEAP_MAGIC then fh ← footer_header f; mret (fh =? h) else mret false.

(** [INTERRUPT_LOCK; body; INTERRUPT_UNLOCK] *)
Definition heap_locked {A} (body : HM A) : HM A :=
  reenable_interrupts ← gets hirq;
  modify (set_hirq false) ;;
  a ← body;
  (if reenable_interrupts : bool then modify (set_hirq true) else mret tt) ;;
  mret a.

(** ** The address space *)
Fixpoint map_pages (n : nat) (a : Z) : HM () :=
  match n with
  | O => mret tt
  | S n =>
      k ← gets frames; m ← gets memory;
      ensure (0 <? k) ;;
      ensure (negb (present m a)) ;;
      modify (set_space (map_zero m a (a + PAGE_SIZE)) (k - 1)) ;;
      map_pages n (a + PAGE_SIZE)
  end.
Definition vmm_alloc_kernel (start_virtual end_virtual : Z) : HM () :=
  ensure (start_virtual <? end_virtual) ;;
  ensure (IS_PAGE_ALIGNED start_virtual) ;;
  ensure (IS_PAGE_ALIGNED end_virtual) ;;
  map_pages (Z.to_nat ((end_virtual - start_virtual) / PAGE_SIZE)) start_virtual.
Definition vmm_free (virtual : Z) : HM () :=
  k ← gets frames; m ← gets memory;
  ensure (present m virtual) ;;
  let page := virtual / PAGE_SIZE * PAGE_SIZE in
  modify (set_space (unmap m page (page + PAGE_SIZE)) (k + 1)).

(** ** The index *)

(** [area_header_t_less_than], which the index arrays hold a pointer to, reads both sizes;
    a header that is not mapped counts as empty. *)
Definition size_at (m : mem) (h : Z) : Z := match ld32 m h with Ok s => s | _ => 0 end.
Definition area_header_t_less_than (m : mem) (a b : Z) : bool := size_at m a <? size_at m b.
Definition with_lt (m : mem) (a : ordered_array) : ordered_array :=
  mk_oa (array a) (size a) (max_size a) (Some (area_header_t_less_than m)).

Definition insert_free (h : Z) : HM () :=
  hp ← the_heap; m ← gets memory;
  a ← lift (insert_ordered_array h (with_lt m (free_index hp)));
  put_heap (with_free a).
Definition insert_used (h : Z) : HM () :=
  hp ← the_heap; m ← gets memory;
  a ← lift (insert_ordered_array h (with_lt m (used_index hp)));
  put_heap (with_used a).
Definition remove_free (h : Z) : HM () :=
  hp ← the_heap; a ← lift (remove_ordered_array_item h (free_index hp)); put_heap (with_free a).
Definition remove_used (h : Z) : HM () :=
  hp ← the_heap; a ← lift (remove_ordered_array_item h (used_index hp)); put_heap (with_used a).

(** ** Checks *)
Fixpoint used_bytes_loop (n : nat) (i used : Z) (index : ordered_array) : HM Z :=
  match n with
  | O => mret used
  | S n =>
      h ← lift (lookup_ordered_array i index);
      s ← header_size h;
      used_bytes_loop n (i + 1) (u32 (used + s)) index
  end.
Definition kheap_used_bytes : HM Z :=
  o ← gets kheap;
  match o with
  | None => mret 0
  | Some h => used_bytes_loop (Z.to_nat (size (used_index h))) 0 0 (used_index h)
  end.

(** One index of [validate_heap_index], whose areas are of type [type]. *)
Fixpoint validate_loop (n : nat) (i type : Z) (index : ordered_array) : HM () :=
  match n with
  | O => mret tt
  | S n =>
      h ← lift (lookup_ordered_array i index);
      f ← FOOTER_FROM_HEADER h;
      t ← header_type h; ensure (t =? type) ;;
      mg ← header_magic h; ensure (mg =? HEAP_MAGIC) ;;
      fm ← footer_magic f; ensure (fm =? HEAP_MAGIC) ;;
      fh ← footer_header f; ensure (fh =? h) ;;
      validate_loop n (i + 1) type index
  end.
Definition validate_heap_index : HM () :=
  heap_locked (
    h ← the_heap;
    validate_loop (Z.to_nat (size (used_index h))) 0 AREA_USED (used_index h) ;;
    validate_loop (Z.to_nat (size (free_index h))) 0 AREA_FREE (free_index h)).

Fixpoint asserts_loop (n : nat) (i : Z) (index : ordered_array) (header_to_create footer_to_create sz : Z) : HM () :=
  match n with
  | O => mret tt
  | S n =>
      fh ← lift (lookup_ordered_array i index);
      ff ← FOOTER_FROM_HEADER fh;
      ensure (negb (fh =? header_to_create)) ;;
      ensure (negb (ff =? footer_to_create)) ;;
      ensure (negb (fh =? footer_to_create)) ;;
      ensure (negb (ff =? header_to_create)) ;;
      mg ← header_magic fh; ensure (mg =? HEAP_MAGIC) ;;
      fm ← footer_magic ff; ensure (fm =? HEAP_MAGIC) ;;
      bh ← footer_header ff; ensure (bh =? fh) ;;
      s ← header_size fh;
      (if header_to_create <? fh then ensure (u32 (header_to_create + sz) <=? fh)
       else if fh <? header_to_create then ensure (u32 (fh + s) <=? header_to_create)
       else mret tt) ;;
      asserts_loop n (i + 1) index header_to_create footer_to_create sz
  end.
Definition do_asserts_for_index (index : ordered_array) (header_to_create footer_to_create sz : Z) : HM () :=
  ensure (negb (header_to_create =? 0)) ;;
  ensure (negb (footer_to_create =? 0)) ;;
  ensure (HEADER_SIZE + FOOTER_SIZE <? sz) ;;
  asserts_loop (Z.to_nat (size index)) 0 index header_to_create footer_to_create sz.

(** ** Areas *)
Definition create_area (address sz type : Z) : HM Z :=
  h ← the_heap;
  ensure ((type =? AREA_USED) || (type =? AREA_FREE)) ;;
  ensure (HEADER_SIZE + FOOTER_SIZE <? sz) ;;
  ensure ((start_address h <=? address) && (u32 (address + sz) <=? end_address h)) ;;
  let header_to_create := address in
  let footer_to_create := u32 (address + sz - FOOTER_SIZE) in
  do_asserts_for_index (free_index h) header_to_create footer_to_create sz ;;
  do_asserts_for_index (used_index h) header_to_create footer_to_create sz ;;
  set_header_size header_to_create sz ;;
  set_header_magic header_to_create HEAP_MAGIC ;;
  set_header_type header_to_create type ;;
  set_footer_magic footer_to_create HEAP_MAGIC ;;
  set_footer_header footer_to_create header_to_create ;;
  (if rightmost_area h <? header_to_create then put_heap (with_rightmost header_to_create) else mret tt) ;;
  mret header_to_create.

(** The space lost before the first page boundary the data of an area at [location] can
    start at. *)
Definition align_offset (location : Z) : Z :=
  if IS_PAGE_ALIGNED (u32 (location + HEADER_SIZE)) then 0
  else PAGE_SIZE - u32 (location + HEADER_SIZE) mod PAGE_SIZE.

(** The loop of [find_smallest_hole]; 0 for NULL. *)
Fixpoint hole_loop (n : nat) (i sz : Z) (page_align : bool) (index : ordered_array) : HM Z :=
  match n with
  | O => mret 0
  | S n =>
      h ← lift (lookup_ordered_array i index);
      mg ← header_magic h; ensure (mg =? HEAP_MAGIC) ;;
      t ← header_type h; ensure (t =? AREA_FREE) ;;
      f ← FOOTER_FROM_HEADER h;
      fm ← footer_magic f; ensure (fm =? HEAP_MAGIC) ;;
      fh ← footer_header f; ensure (fh =? h) ;;
      hs ← header_size h;
      if sz <=? hs then
        if page_align then
          if s32 sz <=? s32 hs - s32 (align_offset h) then mret h
          else hole_loop n (i + 1) sz page_align index
        else mret h
      else hole_loop n (i + 1) sz page_align index
  end.
Definition find_smallest_hole (sz : Z) (page_align : bool) : HM Z :=
  h ← the_heap;
  hole_loop (Z.to_nat (size (free_index h))) 0 sz page_align (free_index h).

(** ** Growing and shrinking *)
Definition page_up (x : Z) : Z :=
  if x mod PAGE_SIZE =? 0 then x else u32 (Z.land x 0xfffff000 + PAGE_SIZE).

Definition heap_expand (size_to_add : Z) : HM () :=
  b ← gets hirq; ensure (negb b) ;;
  let size_to_add := if size_to_add <? KHEAP_MIN_GROWTH then KHEAP_MIN_GROWTH else size_to_add in
  let size_to_add := page_up size_to_add in
  h ← the_heap;
  let size_to_add :=
    if max_address h <? u32 (start_address h + size_to_add)
    then u32 ((max_address h - start_address h) - (end_address h - start_address h))
    else size_to_add in
  ensure (u32 (start_address h + size_to_add) <=? max_address h) ;;
  ensure (start_address h <? u32 (start_address h + size_to_add)) ;;
  let new_end_address := u32 (end_address h + size_to_add) in
  let '(new_end_address, size_to_add) :=
    if IS_PAGE_ALIGNED new_end_address then (new_end_address, size_to_add)
    else let e := Z.land new_end_address 0xfffff000 in
         (e, u32 (size_to_add - (end_address h + size_to_add - e))) in
  ensure (IS_PAGE_ALIGNED (start_address h)) ;;
  ensure (IS_PAGE_ALIGNED new_end_address) ;;
  ensure (u32 (end_address h + size_to_add) =? new_end_address) ;;
  ensure (end_address h <? new_end_address) ;;
  vmm_alloc_kernel (u32 (end_address h + PAGE_SIZE)) (u32 (new_end_address + PAGE_SIZE)) ;;
  put_heap (with_end new_end_address).

(** "Make sure NO used area is located past the new end address" *)
Fixpoint contract_check (n : nat) (i new_end : Z) (index : ordered_array) : HM () :=
  match n with
  | O => mret tt
  | S n =>
      h ← lift (lookup_ordered_array i index);
      s ← header_size h;
      ensure (u32 (h + s) <=? new_end) ;;
      contract_check n (i + 1) new_end index
  end.

(** [for (addr = end_address; addr > new_end_address; addr -= PAGE_SIZE) vmm_free(addr)] *)
Fixpoint free_pages (n : nat) (addr : Z) : HM () :=
  match n with
  | O => mret tt
  | S n => vmm_free addr ;; free_pages n (addr - PAGE_SIZE)
  end.

Definition heap_contract (bytes_to_shrink : Z) : HM () :=
  b ← gets hirq; ensure (negb b) ;;
  if bytes_to_shrink <? 512 * 1024 then mret tt
  else
    h ← the_heap;
    let old_size := u32 (end_address h - start_address h) in
    let new_size := u32 (old_size - bytes_to_shrink) in
    let new_size := if new_size <? KHEAP_INITIAL_SIZE then KHEAP_INITIAL_SIZE else new_size in
    let new_end_address := u32 (start_address h + new_size) in
    let new_end_address :=
      if IS_PAGE_ALIGNED new_end_address then new_end_address
      else u32 (Z.land new_end_address 0xfffff000 + PAGE_SIZE) in
    contract_check (Z.to_nat (size (used_index h))) 0 new_end_address (used_index h) ;;
    ensure (IS_PAGE_ALIGNED new_end_address) ;;
    free_pages (Z.to_nat ((end_address h - new_end_address + PAGE_SIZE - 1) / PAGE_SIZE)) (end_address h) ;;
    put_heap (with_end new_end_address).

(** ** Tracing leaks (src/src/kernel/backtrace.c: [get_backtrace]) *)
Fixpoint backtrace_loop (n : nat) (ebp : Z) (m : mem) : res (list Z) :=
  match n with
  | O => Ok []
  | S n =>
      if ebp =? 0 then Ok []
      else if (0xcfff0000 <? ebp) || (ebp <? 0x100000) then Ok []
      else
        eip ← ld32 m (ebp + 4);
        next ← ld32 m ebp;
        rest ← backtrace_loop n next m;
        Ok (eip :: rest)
  end.
Definition get_backtrace (ebp : Z) (m : mem) : res (list Z) :=
  l ← backtrace_loop (Z.to_nat BACKTRACE_MAX) ebp m;
  Ok (l ++ replicate (Z.to_nat BACKTRACE_MAX - length l) 0).

Definition leak_entry0 : leak_info := mk_leak (replicate (Z.to_nat BACKTRACE_MAX) 0) 0 0 (replicate 32 0) 0.

Fixpoint leak_slot (a : Z) (l : list leak_info) (i : Z) : option Z :=
  match l with
  | [] => None
  | e :: l => if allocation e =? a then Some i else leak_slot a l (i + 1)
  end.

Section Traced.
(** The task that runs ([current_task->name] and [id]) and its frame pointer, and the
    translation of an address to a physical one (vmm.c). *)
Context (current_name : list Z) (current_id ebp : Z) (vmm_get_phys : Z -> Z).

Definition trace_alloc (p sz : Z) : HM () :=
  o ← gets leaks;
  match o with
  | None => mret tt
  | Some (addr, tab) =>
      match leak_slot 0 tab 0 with
      | None => lift Panic
      | Some i =>
          e ← lift (aget tab i);
          ensure (allocator_pid e =? 0) ;;
          '(name, _) ← lift (strlcpy (allocator_name e) current_name 32);
          m ← gets memory;
          trace ← lift (get_backtrace ebp m);
          tab ← lift (aset tab i (mk_leak trace p current_id name sz));
          modify (set_leaks (Some (addr, tab)))
      end
  end.
Definition trace_free (p : Z) : HM () :=
  o ← gets leaks;
  match o with
  | None => mret tt
  | Some (addr, tab) =>
      match leak_slot p tab 0 with
      | None => mret tt
      | Some i =>
          e ← lift (aget tab i);
          ensure (negb (allocator_pid e =? 0)) ;;
          tab ← lift (aset tab i leak_entry0);
          modify (set_leaks (Some (addr, tab)))
      end
  end.

(** ** Allocating *)

(** The rightmost area gets the space the heap has grown by, or a new free area does. *)
Definition grow_rightmost (added : Z) : HM () :=
  h ← the_heap;
  let r := rightmost_area h in
  if r =? 0 then lift Panic
  else
    t ← header_type r;
    if t =? AREA_FREE then
      f ← FOOTER_FROM_HEADER r;
      set_footer_magic f 0 ;;
      s ← header_size r;
      set_header_size r (u32 (s + added)) ;;
      f ← FOOTER_FROM_HEADER r;
      set_footer_magic f HEAP_MAGIC ;;
      set_footer_header f r
    else
      ensure (t =? AREA_USED) ;;
      s ← header_size r;
      let new_header := u32 (r + s) in
      create_area new_header added AREA_FREE ;;
      insert_free new_header.

(** The area left of [area], if there is one, gets the [offset] bytes too few for an area. *)
Definition widen_left (area offset : Z) : HM () :=
  let test_footer := u32 (area - FOOTER_SIZE) in
  fm ← footer_magic test_footer;
  if fm =? HEAP_MAGIC then
    test_header ← footer_header test_footer;
    hm ← header_magic test_header;
    if hm =? HEAP_MAGIC then
      set_footer_magic test_footer 0 ;;
      s ← header_size test_header;
      set_header_size test_header (u32 (s + offset)) ;;
      f ← FOOTER_FROM_HEADER test_header;
      set_footer_magic f HEAP_MAGIC ;;
      set_footer_header f test_header
    else mret tt
  else mret tt.

(** The part of [area] whose data is page aligned. *)
Definition align_area (area sz : Z) : HM Z :=
  let offset := align_offset area in
  cached_size ← header_size area;
  ensure (offset <? cached_size) ;;
  ensure (sz <=? cached_size - offset) ;;
  (if HEADER_SIZE + FOOTER_SIZE <? offset
   then create_area area offset AREA_FREE ;; insert_free area
   else widen_left area offset) ;;
  let area := u32 (area + offset) in
  set_header_size area (u32 (cached_size - offset)) ;;
  ensure (IS_PAGE_ALIGNED (u32 (area + HEADER_SIZE))) ;;
  s ← header_size area;
  ensure (sz <=? s) ;;
  mret area.

Definition dword_up (x : Z) : Z := if Z.land x 3 =? 0 then x else u32 (Z.land x 0xfffffffc + 4).

(** Everything after the hole [area] has been found. *)
Definition place_area (area sz : Z) (page_align : bool) : HM Z :=
  remove_free area ;;
  area ← (if page_align && negb (IS_PAGE_ALIGNED (u32 (area + HEADER_SIZE)))
          then align_area area sz else mret area);
  s ← header_size area;
  sz ← (if 16 + HEADER_SIZE + FOOTER_SIZE <=? u32 (s - sz) then
          let free_space_header := u32 (area + sz) in
          create_area free_space_header (u32 (s - sz)) AREA_FREE ;;
          insert_free free_space_header ;;
          mret sz
        else mret (u32 (sz + (s - sz))));
  create_area area sz AREA_USED ;;
  insert_used area ;;
  let ret := dword_up (u32 (area + HEADER_SIZE)) in
  trace_alloc ret sz ;;
  mret ret.

(** [fuel] bounds the recursion after the heap has grown. *)
Fixpoint heap_alloc (fuel : nat) (sz : Z) (page_align : bool) : HM Z :=
  let sz := u32 (sz + (HEADER_SIZE + FOOTER_SIZE)) in
  let sz := if page_align then sz else u32 (sz + 3) in
  area ← find_smallest_hole sz page_align;
  if area =? 0 then
    match fuel with
    | O => lift NoFuel
    | S fuel =>
        h ← the_heap;
        let old_heap_size := u32 (end_address h - start_address h) in
        heap_expand sz ;;
        h ← the_heap;
        let new_heap_size := u32 (end_address h - start_address h) in
        grow_rightmost (u32 (new_heap_size - old_heap_size)) ;;
        heap_alloc fuel sz page_align
    end
  else place_area area sz page_align.

(** ** Freeing *)

(** [while ( ( *header)->magic != HEAP_MAGIC && count < 4)]: [count] stays 0. *)
Fixpoint header_scan (fuel : nat) (header : Z) : HM Z :=
  mg ← header_magic header;
  if mg =? HEAP_MAGIC then mret header
  else match fuel with
       | O => lift NoFuel
       | S fuel => header_scan fuel (u32 (header - 1))
       end.
Definition SCAN_FUEL : nat := 4096.

(** The header and the footer of the area [p] lies in; [None] for [false]. *)
Definition find_area_and_validate (p : Z) : HM (option (Z * Z)) :=
  h ← the_heap;
  if (max_address h <? p) || (p <? start_address h) then mret None
  else
    header ← header_scan SCAN_FUEL (u32 (p - HEADER_SIZE));
    footer ← FOOTER_FROM_HEADER header;
    mg ← header_magic header; ensure (mg =? HEAP_MAGIC) ;;
    t ← header_type header; ensure (t =? AREA_USED) ;;
    fm ← footer_magic footer; ensure (fm =? HEAP_MAGIC) ;;
    fh ← footer_header footer; ensure (fh =? header) ;;
    mret (Some (header, footer)).

(** Unify left: the header of the area afterwards, and [add_to_index]. *)
Definition unify_left (header footer : Z) : HM (Z * bool) :=
  h ← the_heap;
  let left_area_footer := u32 (header - FOOTER_SIZE) in
  if start_address h <=? left_area_footer then
    fm ← footer_magic left_area_footer;
    if fm =? HEAP_MAGIC then
      left_area_header ← footer_header left_area_footer;
      b ← is_free_header left_area_header;
      if b : bool then
        ls ← header_size left_area_header; s ← header_size header;
        set_header_size left_area_header (u32 (ls + s)) ;;
        f ← FOOTER_FROM_HEADER left_area_header;
        ensure (f =? footer) ;;
        set_footer_header footer left_area_header ;;
        set_header_magic header 0 ;;
        set_footer_magic left_area_footer 0 ;;
        (if header =? rightmost_area h then put_heap (with_rightmost left_area_header) else mret tt) ;;
        mret (left_area_header, false)
      else mret (header, true)
    else mret (header, true)
  else mret (header, true).

(** Unify right. *)
Definition unify_right (header footer : Z) : HM () :=
  let right_area_header := u32 (footer + FOOTER_SIZE) in
  b ← is_free_header right_area_header;
  if b : bool then
    right_area_footer ← FOOTER_FROM_HEADER right_area_header;
    b ← is_footer_of right_area_footer right_area_header;
    if b : bool then
      remove_free right_area_header ;;
      s ← header_size header; rs ← header_size right_area_header;
      set_header_size header (u32 (s + rs)) ;;
      set_footer_magic footer 0 ;;
      set_header_magic right_area_header 0 ;;
      h ← the_heap;
      (if rightmost_area h =? right_area_header then put_heap (with_rightmost header) else mret tt) ;;
      f ← FOOTER_FROM_HEADER header;
      ensure (right_area_footer =? f) ;;
      set_footer_header right_area_footer header ;;
      set_header_type header AREA_FREE
    else mret tt
  else mret tt.

(** Contract the heap when its last area is free and too large. *)
Definition contract_rightmost : HM () :=
  h ← the_heap;
  let r := rightmost_area h in
  t ← header_type r; s ← header_size r;
  if (t =? AREA_FREE) && (KHEAP_MAX_WASTE <=? s) then
    ensure (0x100000 <=? KHEAP_MAX_WASTE) ;;
    f ← FOOTER_FROM_HEADER r;
    mg ← header_magic r; ensure (mg =? HEAP_MAGIC) ;;
    fm ← footer_magic f; ensure (fm =? HEAP_MAGIC) ;;
    fh ← footer_header f; ensure (fh =? r) ;;
    let bytes_to_shrink := u32 (s - 0x100000) in
    let old_heap_size := u32 (end_address h - start_address h) in
    heap_contract bytes_to_shrink ;;
    h ← the_heap;
    let new_heap_size := u32 (end_address h - start_address h) in
    let bytes_shrunk := u32 (old_heap_size - new_heap_size) in
    if 0 <? bytes_shrunk then
      s ← header_size r;
      set_header_size r (u32 (s - bytes_shrunk)) ;;
      f ← FOOTER_FROM_HEADER r;
      set_footer_magic f HEAP_MAGIC ;;
      set_footer_header f r
    else mret tt
  else mret tt.

Definition heap_free (p : Z) : HM () :=
  if p =? 0 then mret tt
  else heap_locked (
    o ← find_area_and_validate p;
    match o with
    | None => mret tt
    | Some (header, footer) =>
        trace_free p ;;
        remove_used header ;;
        set_header_type header AREA_FREE ;;
        '(header, add_to_index) ← unify_left header footer;
        unify_right header footer ;;
        (if add_to_index : bool then insert_free header else mret tt) ;;
        contract_rightmost
    end).

(** ** The interface of the heap *)

(** [phys] tells whether the caller wants the physical address. *)
Definition kmalloc_int (fuel : nat) (sz : Z) (align phys : bool) : HM (Z * option Z) :=
  o ← gets kheap;
  match o with
  | Some _ =>
      r ← heap_locked (
        addr ← heap_alloc fuel sz align;
        if phys then
          if negb align || ((PAGE_SIZE <? sz) && negb (sz =? PAGE_DIRECTORY_SIZE)) then lift Panic
          else mret (addr, Some (vmm_get_phys addr))
        else mret (addr, None));
      (if align then ensure (IS_PAGE_ALIGNED r.1) else mret tt) ;;
      mret r
  | None =>
      heap_locked (
        p ← gets placement_address;
        let p := if align && negb (IS_PAGE_ALIGNED p) then u32 (Z.land p 0xfffff000 + PAGE_SIZE)
                 else dword_up p in
        ensure (Z.land p 3 =? 0) ;;
        modify (set_placement (u32 (p + sz))) ;;
        (if align then ensure (IS_PAGE_ALIGNED p) else mret tt) ;;
        mret (p, if phys then Some p else None))
  end.
Definition kmalloc (fuel : nat) (sz : Z) : HM Z := r ← kmalloc_int fuel sz false false; mret r.1.
Definition kmalloc_a (fuel : nat) (sz : Z) : HM Z := r ← kmalloc_int fuel sz true false; mret r.1.
Definition kmalloc_p (fuel : nat) (sz : Z) : HM (Z * option Z) := kmalloc_int fuel sz false true.
Definition kmalloc_ap (fuel : nat) (sz : Z) : HM (Z * option Z) := kmalloc_int fuel sz true true.

Definition kfree (p : Z) : HM () :=
  h ← the_heap; ensure (p <? end_address h) ;; heap_free p.

Definition kheap_is_valid (p : Z) : HM bool :=
  if p =? 0 then mret false
  else heap_locked (
    o ← find_area_and_validate p;
    mret (match o with Some _ => true | None => false end)).

Definition krealloc (fuel : nat) (p new_size : Z) : HM Z :=
  if (p =? 0) || (new_size =? 0) then mret 0
  else heap_locked (
    o ← find_area_and_validate p;
    match o with
    | None => mret 0
    | Some (header, footer) =>
        ensure (negb (header =? 0)) ;;
        ensure (negb (footer =? 0)) ;;
        s ← header_size header;
        if new_size <=? u32 (s - HEADER_SIZE - FOOTER_SIZE - 3) then mret p
        else
          let new_size := if new_size <=? s then s else new_size in
          p2 ← kmalloc fuel new_size;
          s ← header_size header;
          m ← gets memory;
          m ← lift (copy_bytes (Z.to_nat s) m p2 p);
          modify (set_memory m) ;;
          kfree p ;;
          mret p2
    end).

Definition start_leak_trace (fuel : nat) : HM () :=
  o ← gets leaks;
  match o with
  | Some _ => mret tt
  | None =>
      p ← kmalloc fuel (LEAK_INFO_SIZE * MAX_TRACED_ALLOCATIONS);
      m ← gets memory;
      m ← lift (fill_bytes (Z.to_nat (LEAK_INFO_SIZE * MAX_TRACED_ALLOCATIONS)) m p 0);
      modify (set_memory m) ;;
      modify (set_leaks (Some (p, replicate (Z.to_nat MAX_TRACED_ALLOCATIONS) leak_entry0)))
  end.
(** The number of leaks and of leaked bytes it prints; [None] for the warning. *)
Definition stop_leak_trace : HM (option (Z * Z)) :=
  o ← gets leaks;
  match o with
  | None => mret None
  | Some (p, tab) =>
      heap_locked (
        let found := filter (fun e => allocation e <> 0) tab in
        kfree p ;;
        modify (set_leaks None) ;;
        mret (Some (zlen found, foldl (fun n e => u32 (n + leak_size e)) 0 found)))
  end.

(** ** Creating the heap *)

(** [used_mem] and [free_mem] are the words at the addresses of the two indexes. *)
Definition heap_create (fuel : nat) (used_mem free_mem : list Z) (start initial max super ro : Z) : HM () :=
  heap ← kmalloc_a fuel HEAP_T_SIZE;
  ensure (negb (heap =? 0)) ;;
  heap_locked (
    ensure (IS_PAGE_ALIGNED start) ;;
    vmm_alloc_kernel KHEAP_START (KHEAP_START + KHEAP_INITIAL_SIZE + PAGE_SIZE) ;;
    let min := start in
    let used := place_ordered_array used_mem HEAP_INDEX_SIZE None in
    let start := u32 (start + HEAP_INDEX_SIZE * 4) in
    let free := place_ordered_array free_mem HEAP_INDEX_SIZE None in
    let start := u32 (start + HEAP_INDEX_SIZE * 4) in
    let initial := u32 (initial - HEAP_INDEX_SIZE * 4 * 2) in
    let start := if IS_PAGE_ALIGNED start then start else u32 (Z.land start 0xfffff000 + PAGE_SIZE) in
    let endaddr := u32 (start + initial) in
    ensure (IS_PAGE_ALIGNED endaddr) ;;
    modify (set_kheap (mk_heap start endaddr min max (if super =? 0 then 0 else 1) (if ro =? 0 then 0 else 1)
      free used 0)) ;;
    let header := start in
    let footer := u32 (start + initial - FOOTER_SIZE) in
    set_header_size header initial ;;
    set_header_magic header HEAP_MAGIC ;;
    set_header_type header AREA_FREE ;;
    set_footer_magic footer HEAP_MAGIC ;;
    set_footer_header footer header ;;
    insert_free header ;;
    put_heap (with_rightmost header)).
End Traced.
