(* ===== verification/HeapInv.v ===== *)
(** * The invariant of the kernel heap

    The memory between [start_address] and [end_address] is tiled by areas with matching
    headers and footers, no two free areas touch, the indexes hold exactly the headers of
    the free and of the used areas, and [rightmost_area] is the last one.  The lemmas here
    run the primitive steps of Heap.v on a state that satisfies it. *)
From S2P Require Import Prelude Memory OrderedArray Heap.

Record area := mk_area { a_at : Z; a_size : Z; a_free : bool }.
#[export] Instance area_eq_dec : EqDecision area.
Proof. solve_decision. Defined.
Definition a_end (x : area) : Z := a_at x + a_size x.
Definition a_type (x : area) : Z := if a_free x then AREA_FREE else AREA_USED.

Record area_ok (m : mem) (x : area) : Prop := {
  ao_min : HEADER_SIZE + FOOTER_SIZE < a_size x;
  ao_size : ld32 m (a_at x) = Ok (a_size x);
  ao_type : ld8 m (a_at x + 4) = Ok (a_type x);
  ao_magic : ld32 m (a_at x + 8) = Ok HEAP_MAGIC;
  ao_fmagic : ld32 m (a_end x - 8) = Ok HEAP_MAGIC;
  ao_fheader : ld32 m (a_end x - 4) = Ok (a_at x)
}.

(** The areas of [l] follow each other from [lo] to [hi]. *)
Fixpoint tiles (lo : Z) (l : list area) (hi : Z) : Prop :=
  match l with
  | [] => lo = hi
  | x :: l => a_at x = lo /\ 0 < a_size x /\ tiles (a_end x) l hi
  end.

(** No free area borders another. *)
Fixpoint coalesced (l : list area) : Prop :=
  match l with
  | x :: (y :: _) as l => (a_free x && a_free y = false) /\ coalesced l
  | _ => True
  end.

Definition free_at (l : list area) : list Z := a_at <$> filter (fun x => a_free x = true) l.
Definition used_at (l : list area) : list Z := a_at <$> filter (fun x => a_free x = false) l.

(** What no operation on areas changes. *)
Record heap_base (m : mem) (h : heap_t) : Prop := {
  hb_start : PAGE_SIZE <= start_address h;
  hb_salign : start_address h mod PAGE_SIZE = 0;
  hb_ealign : end_address h mod PAGE_SIZE = 0;
  hb_end : end_address h + PAGE_SIZE < 2 ^ 32;
  hb_span : end_address h - start_address h < 2 ^ 31;
  hb_mapped : mapped m (start_address h) (end_address h + PAGE_SIZE);
  hb_free : oa_wf (free_index h);
  hb_used : oa_wf (used_index h)
}.

Record heap_wf (m : mem) (h : heap_t) (l : list area) : Prop := {
  hw_base : heap_base m h;
  hw_tiles : tiles (start_address h) l (end_address h);
  hw_areas : Forall (area_ok m) l;
  hw_coalesced : coalesced l;
  hw_free : elems (free_index h) ≡ₚ free_at l;
  hw_used : elems (used_index h) ≡ₚ used_at l;
  hw_right : exists r, last l = Some r /\ rightmost_area h = a_at r
}.

(** ** States *)
Definition at_ (m : mem) (h : heap_t) (s : hstate) : hstate :=
  mk_hs m (frames s) (hirq s) (Some h) (leaks s) (placement_address s).

Lemma the_heap_at m h s : the_heap (at_ m h s) = Ok (h, at_ m h s).
Proof. done. Qed.
Lemma put_heap_at f m h s : put_heap f (at_ m h s) = Ok (tt, at_ m (f h) s).
Proof. done. Qed.
Lemma memory_at m h s : gets memory (at_ m h s) = Ok (m, at_ m h s).
Proof. done. Qed.
Lemma lift_at {A} (r : res A) a (s : hstate) : r = Ok a -> lift r s = Ok (a, s).
Proof. by intros ->. Qed.

Lemma rd32_at m h s a v : ld32 m a = Ok v -> rd32 a (at_ m h s) = Ok (v, at_ m h s).
Proof. intros H. unfold rd32. run (memory_at m h s). by apply lift_at. Qed.
Lemma rd8_at m h s a v : ld8 m a = Ok v -> rd8 a (at_ m h s) = Ok (v, at_ m h s).
Proof. intros H. unfold rd8. run (memory_at m h s). by apply lift_at. Qed.
Lemma wr32_at m h s a v : mapped m a (a + 4) -> wr32 a v (at_ m h s) = Ok (tt, at_ (upd32 m a v) h s).
Proof. intros H. unfold wr32. run (memory_at m h s). run (lift_at _ _ (at_ m h s) (st32_ok m a v H)). done. Qed.
Lemma wr8_at m h s a v : is_Some (m a) -> wr8 a v (at_ m h s) = Ok (tt, at_ (upd8 m a v) h s).
Proof. intros H. unfold wr8. run (memory_at m h s). run (lift_at _ _ (at_ m h s) (st8_ok m a v H)). done. Qed.

(** The fields of an area, read by the code. *)
Section AreaFields.
Context (m : mem) (h : heap_t) (s : hstate) (x : area).
Context (Hx : area_ok m x) (Hlo : 0 <= a_at x) (Hhi : a_end x < 2 ^ 32).

Lemma size_pos : 20 < a_size x.
Proof. exact (ao_min _ _ Hx). Qed.
Lemma header_size_at : header_size (a_at x) (at_ m h s) = Ok (a_size x, at_ m h s).
Proof. apply rd32_at, Hx. Qed.
Lemma header_type_at : header_type (a_at x) (at_ m h s) = Ok (a_type x, at_ m h s).
Proof.
  pose proof size_pos. unfold header_type, a_end in *. rewrite u32_small by lia. apply rd8_at, Hx.
Qed.
Lemma header_magic_at : header_magic (a_at x) (at_ m h s) = Ok (HEAP_MAGIC, at_ m h s).
Proof. pose proof size_pos. unfold header_magic, a_end in *. rewrite u32_small by lia. apply rd32_at, Hx. Qed.
Lemma footer_at : FOOTER_FROM_HEADER (a_at x) (at_ m h s) = Ok (a_end x - 8, at_ m h s).
Proof.
  pose proof size_pos. unfold FOOTER_FROM_HEADER. run header_size_at. unfold a_end, FOOTER_SIZE in *.
  rewrite u32_small by lia. done.
Qed.
Lemma footer_magic_at : footer_magic (a_end x - 8) (at_ m h s) = Ok (HEAP_MAGIC, at_ m h s).
Proof. apply rd32_at, Hx. Qed.
Lemma footer_header_at : footer_header (a_end x - 8) (at_ m h s) = Ok (a_at x, at_ m h s).
Proof.
  pose proof size_pos. unfold footer_header, a_end in *. rewrite u32_small by lia.
  replace (a_at x + a_size x - 8 + 4) with (a_at x + a_size x - 4) by lia. apply rd32_at, Hx.
Qed.
End AreaFields.

(** ** Areas in memory *)
Lemma area_frame m m' x : agree (a_at x) (a_end x) m m' -> area_ok m x -> area_ok m' x.
Proof.
  intros Ha [H0 H1 H2 H3 H4 H5]. unfold a_end, HEADER_SIZE, FOOTER_SIZE in *.
  split; [done | | | | |]; rewrite ?(ld32_ext m m'), ?(ld8_ext m m'); try done;
    unfold a_end; first [eapply agree_sub; [exact Ha | lia | lia] | apply Ha; lia].
Qed.

Lemma areas_frame m m' l : Forall (area_ok m) l -> (forall x, x ∈ l -> agree (a_at x) (a_end x) m m') ->
  Forall (area_ok m') l.
Proof.
  rewrite !Forall_forall. intros H Ha x Hx. eapply area_frame; [by apply Ha | by apply H].
Qed.

Lemma tiles_app lo l1 l2 hi : tiles lo (l1 ++ l2) hi <-> exists mid, tiles lo l1 mid /\ tiles mid l2 hi.
Proof.
  revert lo. induction l1 as [|x l1 IH]; intros lo; cbn [app tiles].
  - naive_solver.
  - rewrite IH. naive_solver.
Qed.

Lemma tiles_le lo l hi : tiles lo l hi -> lo <= hi.
Proof.
  revert lo. induction l as [|x l IH]; intros lo; cbn; [lia|]. intros (<- & ? & H%IH). unfold a_end in *. lia.
Qed.

Lemma tiles_in lo l hi x : tiles lo l hi -> x ∈ l -> lo <= a_at x /\ a_end x <= hi.
Proof.
  intros H (l1 & l2 & ->)%list_elem_of_split. apply tiles_app in H as (mid & H1 & H2).
  cbn in H2. destruct H2 as (<- & ? & H3). apply tiles_le in H1, H3. lia.
Qed.

Lemma tiles_end lo l1 x hi : tiles lo (l1 ++ [x]) hi -> a_end x = hi.
Proof. intros (mid & _ & H)%tiles_app. cbn in H. naive_solver. Qed.

Lemma free_at_app l1 l2 : free_at (l1 ++ l2) = free_at l1 ++ free_at l2.
Proof. unfold free_at. by rewrite filter_app, fmap_app. Qed.
Lemma used_at_app l1 l2 : used_at (l1 ++ l2) = used_at l1 ++ used_at l2.
Proof. unfold used_at. by rewrite filter_app, fmap_app. Qed.
Lemma free_at_cons x l : free_at (x :: l) = if a_free x then a_at x :: free_at l else free_at l.
Proof. unfold free_at. rewrite filter_cons. destruct (a_free x); cbn; [done|]. by case_decide. Qed.
Lemma used_at_cons x l : used_at (x :: l) = if a_free x then used_at l else a_at x :: used_at l.
Proof. unfold used_at. rewrite filter_cons. destruct (a_free x); cbn; [|done]. by case_decide. Qed.
Lemma free_at_len l : zlen (free_at l) <= zlen l.
Proof. unfold free_at, zlen. rewrite length_fmap. pose proof (length_filter (fun x => a_free x = true) l). lia. Qed.
Lemma used_at_len l : zlen (used_at l) <= zlen l.
Proof. unfold used_at, zlen. rewrite length_fmap. pose proof (length_filter (fun x => a_free x = false) l). lia. Qed.
Lemma elem_free_at a l : a ∈ free_at l <-> exists x, x ∈ l /\ a_free x = true /\ a_at x = a.
Proof. unfold free_at. rewrite list_elem_of_fmap. setoid_rewrite list_elem_of_filter. naive_solver. Qed.
Lemma elem_used_at a l : a ∈ used_at l <-> exists x, x ∈ l /\ a_free x = false /\ a_at x = a.
Proof. unfold used_at. rewrite list_elem_of_fmap. setoid_rewrite list_elem_of_filter. naive_solver. Qed.

Lemma coalesced_app l1 l2 : coalesced l1 -> coalesced l2 ->
  (forall x y, last l1 = Some x -> head l2 = Some y -> a_free x && a_free y = false) -> coalesced (l1 ++ l2).
Proof.
  intros H1 H2 Hj. induction l1 as [|x l1 IH]; [done|]. destruct l1 as [|y l1].
  - cbn [app]. destruct l2 as [|y l2]; [done|]. split; [by apply Hj | done].
  - destruct H1 as [Hxy H1]. cbn [app] in *. split; [done|]. apply IH; [done|]. intros a b Ha Hb. by apply Hj.
Qed.
Lemma coalesced_app_inv l1 l2 : coalesced (l1 ++ l2) -> coalesced l1 /\ coalesced l2 /\
  (forall x y, last l1 = Some x -> head l2 = Some y -> a_free x && a_free y = false).
Proof.
  induction l1 as [|x l1 IH]; cbn [app]; [done|]. intros H. destruct l1 as [|y l1].
  - cbn [app] in H. destruct l2 as [|y l2]; [done|]. destruct H as [Hxy H]. split_and!; try done. naive_solver.
  - destruct H as [Hxy H]. destruct (IH H) as (H1 & H2 & H3). split_and!; try done.
Qed.

(** Writing a whole header and footer. *)
Definition put_area (m : mem) (a sz type : Z) : mem :=
  upd32 (upd32 (upd8 (upd32 (upd32 m a sz) (a + 8) HEAP_MAGIC) (a + 4) type) (a + sz - 8) HEAP_MAGIC) (a + sz - 4) a.

Lemma put_area_frame m a sz type x :
  20 < sz -> x < a \/ a + 12 <= x < a + sz - 8 \/ a + sz <= x -> put_area m a sz type x = m x.
Proof. intros ? ?. unfold put_area. by rewrite !upd32_other, upd8_other, !upd32_other by lia. Qed.
Lemma put_area_mapped m a sz type lo hi : mapped m lo hi -> mapped (put_area m a sz type) lo hi.
Proof. intros. unfold put_area. by repeat first [apply mapped_upd32 | apply mapped_upd8]. Qed.
Lemma put_area_ok m a sz (b : bool) :
  20 < sz -> 0 <= a -> a + sz < 2 ^ 32 ->
  area_ok (put_area m a sz (if b then AREA_FREE else AREA_USED)) (mk_area a sz b).
Proof.
  intros Hs Ha He. unfold put_area, HEAP_MAGIC. split; unfold a_type, a_end; cbn [a_at a_size a_free]; [done | | | | |].
  - rewrite (ld32_ext (upd32 m a sz)) by (intros y ?; by rewrite !upd32_other, upd8_other, !upd32_other by lia).
    apply ld32_upd32. lia.
  - rewrite (ld8_ext (upd8 (upd32 (upd32 m a sz) (a + 8) HEAP_MAGIC) (a + 4) (if b then AREA_FREE else AREA_USED)))
      by (by rewrite !upd32_other by lia).
    rewrite ld8_upd8. by destruct b.
  - rewrite (ld32_ext (upd32 (upd32 m a sz) (a + 8) HEAP_MAGIC))
      by (intros y ?; by rewrite !upd32_other, upd8_other by lia).
    by apply ld32_upd32.
  - rewrite (ld32_ext (upd32 (upd8 (upd32 (upd32 m a sz) (a + 8) HEAP_MAGIC) (a + 4) (if b then AREA_FREE else AREA_USED))
                         (a + sz - 8) HEAP_MAGIC)) by (intros y ?; by rewrite upd32_other by lia).
    by apply ld32_upd32.
  - apply ld32_upd32. lia.
Qed.

(** ** The indexes *)
Lemma with_lt_wf m a : oa_wf a -> oa_wf (with_lt m a).
Proof. intros [? ? ?]. by split. Qed.

Lemma elems_len a : oa_wf a -> zlen (elems a) = size a.
Proof. intros H. by destruct (elems_split a H) as (r & _ & ? & _). Qed.

Lemma insert_index m a x : oa_wf a -> size a < max_size a ->
  exists a', insert_ordered_array x (with_lt m a) = Ok a' /\ oa_wf a' /\ elems a' ≡ₚ x :: elems a /\
    max_size a' = max_size a.
Proof.
  intros Hwf Hr. destruct (insert_spec (with_lt m a) _ x (with_lt_wf m a Hwf) eq_refl Hr)
    as (a' & l1 & l2 & H & Hwf' & He & He' & _ & Hm & _). exists a'. split_and!; try done.
  rewrite He', <- Permutation_middle. by change (elems a) with (elems (with_lt m a)); rewrite He.
Qed.

Lemma insert_free_at m h s x : oa_wf (free_index h) -> size (free_index h) < max_size (free_index h) ->
  exists a, insert_free x (at_ m h s) = Ok (tt, at_ m (with_free a h) s) /\ oa_wf a /\
    elems a ≡ₚ x :: elems (free_index h) /\ max_size a = max_size (free_index h).
Proof.
  intros Hwf Hr. destruct (insert_index m _ x Hwf Hr) as (a & H & Ha). exists a. split; [|done].
  unfold insert_free. run (the_heap_at m h s). run (memory_at m h s). run (lift_at _ _ (at_ m h s) H). done.
Qed.
Lemma insert_used_at m h s x : oa_wf (used_index h) -> size (used_index h) < max_size (used_index h) ->
  exists a, insert_used x (at_ m h s) = Ok (tt, at_ m (with_used a h) s) /\ oa_wf a /\
    elems a ≡ₚ x :: elems (used_index h) /\ max_size a = max_size (used_index h).
Proof.
  intros Hwf Hr. destruct (insert_index m _ x Hwf Hr) as (a & H & Ha). exists a. split; [|done].
  unfold insert_used. run (the_heap_at m h s). run (memory_at m h s). run (lift_at _ _ (at_ m h s) H). done.
Qed.

Lemma remove_index a x : oa_wf a -> x ∈ elems a ->
  exists a', remove_ordered_array_item x a = Ok a' /\ oa_wf a' /\ elems a ≡ₚ x :: elems a' /\ max_size a' = max_size a.
Proof.
  intros Hwf Hx. unfold remove_ordered_array_item.
  destruct (index_loop_elems a x Hwf) as [[_ Hn]|(l1 & l2 & -> & He & _)]; [done|]. cbn [mbind res_bind].
  destruct (remove_spec a l1 x l2 Hwf He) as (a' & H & Hwf' & He' & _ & Hm & _).
  exists a'. split_and!; try done. rewrite He, He'. by rewrite Permutation_middle.
Qed.
Lemma remove_free_at m h s x : oa_wf (free_index h) -> x ∈ elems (free_index h) ->
  exists a, remove_free x (at_ m h s) = Ok (tt, at_ m (with_free a h) s) /\ oa_wf a /\
    elems (free_index h) ≡ₚ x :: elems a /\ max_size a = max_size (free_index h).
Proof.
  intros Hwf Hx. destruct (remove_index _ x Hwf Hx) as (a & H & Ha). exists a. split; [|done].
  unfold remove_free. run (the_heap_at m h s). run (lift_at _ _ (at_ m h s) H). done.
Qed.
Lemma remove_used_at m h s x : oa_wf (used_index h) -> x ∈ elems (used_index h) ->
  exists a, remove_used x (at_ m h s) = Ok (tt, at_ m (with_used a h) s) /\ oa_wf a /\
    elems (used_index h) ≡ₚ x :: elems a /\ max_size a = max_size (used_index h).
Proof.
  intros Hwf Hx. destruct (remove_index _ x Hwf Hx) as (a & H & Ha). exists a. split; [|done].
  unfold remove_used. run (the_heap_at m h s). run (lift_at _ _ (at_ m h s) H). done.
Qed.

(** Walking an index: the element at [i] heads what is left of it. *)
Lemma index_step a i x k : oa_wf a -> 0 <= i -> drop (Z.to_nat i) (elems a) = x :: k ->
  lookup_ordered_array i a = Ok x /\ drop (Z.to_nat (i + 1)) (elems a) = k.
Proof.
  intros Hwf Hi Hd. destruct (elems_split a Hwf) as (r & Ha & Hl & _).
  assert (Hx : elems a !! Z.to_nat i = Some x).
  { rewrite <- (Nat.add_0_r (Z.to_nat i)), <- lookup_drop, Hd. done. }
  pose proof (lookup_lt_Some _ _ _ Hx) as Hlt. unfold lookup_ordered_array. unfold zlen in Hl.
  destruct (Z.ltb_spec i (size a)); [|lia]. cbn [assert mbind res_bind]. split.
  - apply aget_Ok. split; [done|]. rewrite Ha. by apply lookup_app_l_Some.
  - replace (Z.to_nat (i + 1)) with (Z.to_nat i + 1)%nat by lia. by rewrite <- drop_drop, Hd.
Qed.

(** A loop over an index that goes on after every element returns what it ends with. *)
Lemma index_len a : oa_wf a -> Z.to_nat (size a) = length (elems a).
Proof. intros H%elems_len. unfold zlen in H. lia. Qed.

(** An indexed area the code may read. *)
Definition readable (m : mem) (x : area) : Prop := area_ok m x /\ 0 < a_at x /\ a_end x < 2 ^ 32.

Lemma asserts_loop_at m h s a k i hc fc sz :
  oa_wf a -> 0 <= i -> drop (Z.to_nat i) (elems a) = k ->
  20 < sz -> 0 < hc -> hc + sz < 2 ^ 32 -> fc = hc + sz - 8 ->
  Forall (fun p => exists x, a_at x = p /\ readable m x /\ (a_end x <= hc \/ hc + sz <= a_at x)) k ->
  asserts_loop (length k) i a hc fc sz (at_ m h s) = Ok (tt, at_ m h s).
Proof.
  intros Hwf Hi Hd Hs Hc He -> HF. revert i Hi Hd. induction HF as [|p k Hp HF IH]; intros i Hi Hd; cbn [length asserts_loop]; [done|].
  destruct (index_step a i p k Hwf Hi Hd) as [Hl Hd']. destruct Hp as (x & <- & (Hx & Hx0 & Hx1) & Hdis).
  pose proof (size_pos m x Hx). unfold a_end in *.
  run (lift_at _ _ (at_ m h s) Hl). run (footer_at m h s x Hx ltac:(lia) ltac:(unfold a_end; lia)). unfold a_end.
  do 4 check. run (header_magic_at m h s x Hx ltac:(lia) ltac:(unfold a_end; lia)). check.
  run (footer_magic_at m h s x Hx). check.
  run (footer_header_at m h s x Hx ltac:(lia) ltac:(unfold a_end; lia)). check.
  run (header_size_at m h s x Hx). rewrite !u32_small by lia.
  assert (E : (if hc <? a_at x then ensure (hc + sz <=? a_at x)
     else if a_at x <? hc then ensure (a_at x + a_size x <=? hc) else mret tt) (at_ m h s) = Ok (tt, at_ m h s)).
  { destruct (Z.ltb_spec hc (a_at x)); [apply ensure_true; arith_true|].
    destruct (Z.ltb_spec (a_at x) hc); [apply ensure_true; arith_true | done]. }
  run E. apply IH; [lia | done].
Qed.

Lemma set_footer_at m h s f v1 v2 : 0 <= f -> f + 8 < 2 ^ 32 -> mapped m f (f + 8) ->
  (set_footer_magic f v1 ;; set_footer_header f v2) (at_ m h s) =
  Ok (tt, at_ (upd32 (upd32 m f v1) (f + 4) v2) h s).
Proof.
  intros. unfold set_footer_magic, set_footer_header. rewrite u32_small by lia.
  run (wr32_at m h s f v1 ltac:(eapply mapped_sub; [eassumption | lia | lia])).
  rewrite wr32_at; [done|]. apply mapped_upd32. eapply mapped_sub; [eassumption | lia | lia].
Qed.

(** What the existing areas have to satisfy for [create_area] to accept a new one. *)
Definition clear_of (m : mem) (lo hi : Z) (l : list Z) : Prop :=
  Forall (fun p => exists x, a_at x = p /\ readable m x /\ (a_end x <= lo \/ hi <= a_at x)) l.

Lemma create_area_at m h s a sz (b : bool) :
  heap_base m h -> start_address h <= a -> a + sz <= end_address h -> 20 < sz ->
  clear_of m a (a + sz) (elems (free_index h)) -> clear_of m a (a + sz) (elems (used_index h)) ->
  create_area a sz (if b then AREA_FREE else AREA_USED) (at_ m h s) =
  Ok (a, at_ (put_area m a sz (if b then AREA_FREE else AREA_USED)) (with_rightmost (Z.max (rightmost_area h) a) h) s).
Proof.
  intros Hb Hlo Hhi Hs Hf Hu. destruct Hb as [B1 B2 B3 B4 B5 B6 B7 B8]. unfold PAGE_SIZE in *.
  unfold create_area, HEADER_SIZE, FOOTER_SIZE. run (the_heap_at m h s). rewrite !u32_small by lia.
  erewrite (st_bind_Ok (ensure _)) by (apply ensure_true; by destruct b). check.
  erewrite (st_bind_Ok (ensure _)) by (apply ensure_true, andb_true_iff; split; apply Z.leb_le; lia).
  unfold do_asserts_for_index, HEADER_SIZE, FOOTER_SIZE.
  assert (E : forall idx, oa_wf idx -> clear_of m a (a + sz) (elems idx) ->
    (ensure (negb (a =? 0)) ;; ensure (negb (a + sz - 8 =? 0)) ;; ensure (12 + 8 <? sz) ;;
     asserts_loop (Z.to_nat (size idx)) 0 idx a (a + sz - 8) sz) (at_ m h s) = Ok (tt, at_ m h s)).
  { intros idx Hw Hc. do 3 check. rewrite index_len by done. apply asserts_loop_at; try done; lia. }
  run (E _ B7 Hf). run (E _ B8 Hu). clear E.
  unfold set_header_size, set_header_magic, set_header_type. rewrite !u32_small by lia.
  assert (M : mapped m a (a + sz)) by (eapply mapped_sub; [exact B6 | lia | lia]).
  run (wr32_at m h s a sz ltac:(eapply mapped_sub; [exact M | lia | lia])).
  pose proof (mapped_upd32 m a sz _ _ M) as M1. set (m1 := upd32 m a sz) in *.
  run (wr32_at m1 h s (a + 8) HEAP_MAGIC ltac:(eapply mapped_sub; [exact M1 | lia | lia])).
  pose proof (mapped_upd32 m1 (a + 8) HEAP_MAGIC _ _ M1) as M2. set (m2 := upd32 m1 _ _) in *.
  run (wr8_at m2 h s (a + 4) (if b then AREA_FREE else AREA_USED) ltac:(apply M2; lia)).
  pose proof (mapped_upd8 m2 (a + 4) (if b then AREA_FREE else AREA_USED) _ _ M2) as M3. set (m3 := upd8 m2 _ _) in *.
  unfold set_footer_magic, set_footer_header. rewrite u32_small by lia.
  run (wr32_at m3 h s (a + sz - 8) HEAP_MAGIC ltac:(eapply mapped_sub; [exact M3 | lia | lia])).
  pose proof (mapped_upd32 m3 (a + sz - 8) HEAP_MAGIC _ _ M3) as M4. set (m4 := upd32 m3 _ _) in *.
  replace (a + sz - 8 + 4) with (a + sz - 4) by lia.
  run (wr32_at m4 h s (a + sz - 4) a ltac:(eapply mapped_sub; [exact M4 | lia | lia])).
  change (upd32 m4 (a + sz - 4) a) with (put_area m a sz (if b then AREA_FREE else AREA_USED)).
  destruct (Z.ltb_spec (rightmost_area h) a).
  - run (put_heap_at (with_rightmost a) (put_area m a sz (if b then AREA_FREE else AREA_USED)) h s).
    by rewrite Z.max_r by lia.
  - rewrite Z.max_l by lia. by destruct h.
Qed.

(** Walking the free index for a hole. *)
Definition fits (sz : Z) (page_align : bool) (x : area) : Prop :=
  sz <= a_size x - (if page_align then align_offset (a_at x) else 0).

Lemma align_offset_bound a : 0 <= align_offset a < PAGE_SIZE.
Proof.
  unfold align_offset, IS_PAGE_ALIGNED. rewrite land_fff.
  pose proof (Z.mod_pos_bound (u32 (a + HEADER_SIZE)) PAGE_SIZE ltac:(done)).
  destruct (Z.eqb_spec (u32 (a + HEADER_SIZE) mod PAGE_SIZE) 0); unfold PAGE_SIZE in *; lia.
Qed.

Lemma hole_loop_at m h s a k i sz al :
  oa_wf a -> 0 <= i -> 0 <= sz < 2 ^ 32 -> drop (Z.to_nat i) (elems a) = k ->
  Forall (fun p => exists x, a_at x = p /\ readable m x /\ a_free x = true /\ a_size x < 2 ^ 31) k ->
  exists r, hole_loop (length k) i sz al a (at_ m h s) = Ok (r, at_ m h s) /\
    ((r = 0 /\ forall x, area_ok m x -> a_at x ∈ k -> ~ fits sz al x) \/
     (r ∈ k /\ forall x, area_ok m x -> a_at x = r -> fits sz al x)).
Proof.
  intros Hwf Hi Hsz Hd HF. revert i Hi Hd. induction HF as [|p k Hp HF IH]; intros i Hi Hd; cbn [length hole_loop].
  { exists 0. split; [done|]. left. split; [done|]. set_solver. }
  destruct (index_step a i p k Hwf Hi Hd) as [Hl Hd']. destruct Hp as (x & <- & (Hx & Hx0 & Hx1) & Hxf & Hx2).
  pose proof (size_pos m x Hx).
  run (lift_at _ _ (at_ m h s) Hl). run (header_magic_at m h s x Hx ltac:(lia) Hx1). check.
  run (header_type_at m h s x Hx ltac:(lia) Hx1). unfold a_type. rewrite Hxf. check.
  run (footer_at m h s x Hx ltac:(lia) Hx1). run (footer_magic_at m h s x Hx). check.
  run (footer_header_at m h s x Hx ltac:(lia) Hx1). check. run (header_size_at m h s x Hx).
  assert (Heq : forall y, area_ok m y -> a_at y = a_at x -> a_size y = a_size x).
  { intros y Hy Ha. pose proof (ao_size _ _ Hy) as E. rewrite Ha, (ao_size _ _ Hx) in E. by injection E. }
  destruct (IH (i + 1) ltac:(lia) Hd') as (r & Hr & Hres). pose proof (align_offset_bound (a_at x)). unfold PAGE_SIZE in *.
  assert (Hgo : ~ fits sz al x -> exists r, hole_loop (length k) (i + 1) sz al a (at_ m h s) = Ok (r, at_ m h s) /\
    ((r = 0 /\ forall y, area_ok m y -> a_at y ∈ a_at x :: k -> ~ fits sz al y) \/
     (r ∈ a_at x :: k /\ forall y, area_ok m y -> a_at y = r -> fits sz al y))).
  { intros Hnf. exists r. split; [done|]. destruct Hres as [[-> Hn]|[Hin Hf]]; [left | right].
    - split; [done|]. intros y Hy [Ha|Ha]%elem_of_cons; [|by apply Hn].
      unfold fits in *. rewrite (Heq y Hy Ha), Ha. done.
    - split; [set_solver | done]. }
  assert (Hstop : fits sz al x -> exists r, (mret (a_at x) : HM Z) (at_ m h s) = Ok (r, at_ m h s) /\
    ((r = 0 /\ forall y, area_ok m y -> a_at y ∈ a_at x :: k -> ~ fits sz al y) \/
     (r ∈ a_at x :: k /\ forall y, area_ok m y -> a_at y = r -> fits sz al y))).
  { intros Hfit. exists (a_at x). split; [done|]. right. split; [set_solver|]. intros y Hy Ha.
    unfold fits in *. rewrite (Heq y Hy Ha), Ha. done. }
  unfold fits in Hgo, Hstop.
  destruct (Z.leb_spec sz (a_size x)) as [Hle|Hgt]; [|apply Hgo; destruct al; lia].
  destruct al; [|apply Hstop; lia]. rewrite !s32_small by lia.
  destruct (Z.leb_spec sz (a_size x - align_offset (a_at x))); [by apply Hstop | apply Hgo; lia].
Qed.
