(* ===== verification/HeapAlloc.v ===== *)
(** * Allocating from the kernel heap

    [heap_alloc] takes a free area out of the index, gives away what lies before a page
    boundary, cuts off what is not needed and makes the rest a used area.  Each of these
    steps keeps a heap with one unclaimed chunk ([split_wf]); together they keep
    [heap_wf] and leave the bytes of every other used area alone. *)
From S2P Require Import Prelude Memory OrderedArray Heap HeapInv.

(** The areas [l1] and [l2] around the chunk [c, c + csz), which is in no index. *)
Record split_wf (m : mem) (h : heap_t) (l1 : list area) (c csz : Z) (l2 : list area) : Prop := {
  sw_base : heap_base m h;
  sw_left : tiles (start_address h) l1 c;
  sw_right : tiles (c + csz) l2 (end_address h);
  sw_min : 20 < csz;
  sw_areas : Forall (area_ok m) (l1 ++ l2);
  sw_co1 : coalesced l1;
  sw_co2 : coalesced l2;
  sw_free : elems (free_index h) ≡ₚ free_at (l1 ++ l2);
  sw_used : elems (used_index h) ≡ₚ used_at (l1 ++ l2);
  sw_last : match last l2 with Some r => rightmost_area h = a_at r | None => rightmost_area h <= c end
}.

(** The used areas of [l] keep their bytes and stay in [l']. *)
Definition kept (m m' : mem) (l l' : list area) : Prop :=
  forall x, x ∈ l -> a_free x = false ->
    agree (a_at x + 12) (a_end x - 8) m m' /\
    exists y, y ∈ l' /\ a_at y = a_at x /\ a_size x <= a_size y /\ a_free y = false.

Lemma kept_refl m l : kept m m l l.
Proof. intros x Hx Hf. split; [done|]. exists x. done. Qed.
Lemma kept_trans m1 m2 m3 l1 l2 l3 : kept m1 m2 l1 l2 -> kept m2 m3 l2 l3 -> kept m1 m3 l1 l3.
Proof.
  intros H1 H2 x Hx Hf. destruct (H1 x Hx Hf) as (Ha & y & Hy & E & Hs & Hyf).
  destruct (H2 y Hy Hyf) as (Hb & z & Hz & E' & Hs' & Hzf). split.
  - eapply agree_trans; [exact Ha|]. unfold a_end in *. eapply agree_sub; [exact Hb | lia | lia].
  - exists z. split_and!; try done; [congruence | lia].
Qed.

Lemma last_cons_some {A} (x : A) l : is_Some (last (x :: l)).
Proof. revert x. induction l as [|y l IH]; intros x; [cbn; eauto|]. apply IH. Qed.

Section Split.
Context {m : mem} {h : heap_t} {l1 : list area} {c csz : Z} {l2 : list area} (W : split_wf m h l1 c csz l2).

Lemma split_lo : start_address h <= c.
Proof. eapply tiles_le, W. Qed.
Lemma split_hi : c + csz <= end_address h.
Proof. eapply tiles_le, W. Qed.
Lemma split_clear x : x ∈ l1 ++ l2 ->
  readable m x /\ start_address h <= a_at x /\ a_end x <= end_address h /\ (a_end x <= c \/ c + csz <= a_at x).
Proof.
  intros Hx. assert (Hok : area_ok m x) by (pose proof (sw_areas _ _ _ _ _ _ W) as HF; rewrite Forall_forall in HF; by apply HF).
  pose proof (size_pos m x Hok). pose proof split_lo. pose proof split_hi. pose proof (sw_min _ _ _ _ _ _ W).
  destruct (sw_base _ _ _ _ _ _ W) as [B1 _ _ B4 _ _ _ _]. unfold PAGE_SIZE in *.
  unfold readable. apply elem_of_app in Hx as [Hx|Hx].
  - pose proof (tiles_in _ _ _ _ (sw_left _ _ _ _ _ _ W) Hx) as [? ?]. split_and!; try done; lia.
  - pose proof (tiles_in _ _ _ _ (sw_right _ _ _ _ _ _ W) Hx) as [? ?]. split_and!; try done; lia.
Qed.

Lemma split_clear_free lo hi : c <= lo -> hi <= c + csz -> clear_of m lo hi (elems (free_index h)).
Proof.
  intros ? ?. apply Forall_forall. intros p Hp. rewrite (sw_free _ _ _ _ _ _ W) in Hp.
  apply elem_free_at in Hp as (x & Hx & _ & <-). destruct (split_clear x Hx) as (? & _ & _ & ?).
  exists x. split_and!; try done. lia.
Qed.
Lemma split_clear_used lo hi : c <= lo -> hi <= c + csz -> clear_of m lo hi (elems (used_index h)).
Proof.
  intros ? ?. apply Forall_forall. intros p Hp. rewrite (sw_used _ _ _ _ _ _ W) in Hp.
  apply elem_used_at in Hp as (x & Hx & _ & <-). destruct (split_clear x Hx) as (? & _ & _ & ?).
  exists x. split_and!; try done. lia.
Qed.

(** Changes inside the chunk keep the other areas. *)
Lemma split_frame m' : (forall a, ~ c <= a < c + csz -> m' a = m a) -> Forall (area_ok m') (l1 ++ l2).
Proof.
  intros Hout. eapply areas_frame; [exact (sw_areas _ _ _ _ _ _ W)|]. intros x Hx a Ha.
  destruct (split_clear x Hx) as (_ & _ & _ & ?). apply Hout. lia.
Qed.
Lemma split_kept m' l : (forall a, ~ c <= a < c + csz -> m' a = m a) -> (forall x, x ∈ l1 ++ l2 -> x ∈ l) ->
  kept m m' (l1 ++ l2) l.
Proof.
  intros Hout Hl x Hx Hf. destruct (split_clear x Hx) as (_ & _ & _ & ?). split.
  - intros a Ha. apply Hout. unfold a_end in *. lia.
  - exists x. split; [by apply Hl | done].
Qed.

Lemma split_right_ge : match last l2 with Some r => c + csz <= a_at r | None => True end.
Proof.
  destruct (last l2) as [r|] eqn:E; [|done]. apply last_Some_elem_of in E.
  pose proof (tiles_in _ _ _ _ (sw_right _ _ _ _ _ _ W) E). lia.
Qed.
End Split.

(** ** Taking the hole out of the index *)
Lemma take_hole m h s l1 x l2 : heap_wf m h (l1 ++ x :: l2) -> a_free x = true ->
  exists a, remove_free (a_at x) (at_ m h s) = Ok (tt, at_ m (with_free a h) s) /\
    split_wf m (with_free a h) l1 (a_at x) (a_size x) l2 /\ ld32 m (a_at x) = Ok (a_size x) /\
    max_size a = max_size (free_index h) /\
    (match last l1 with Some y => a_free y = false | None => True end) /\
    (match head l2 with Some y => a_free y = false | None => True end).
Proof.
  intros [Hb Ht Ha Hc Hf Hu (r & Hr & Hrm)] Hx.
  pose proof Hf as Hf0. rewrite free_at_app, free_at_cons, Hx in Hf0.
  destruct (remove_free_at m h s (a_at x)) as (a & Hrun & Hwf & He & Hm).
  { apply Hb. } { rewrite Hf0. set_solver. }
  exists a. apply tiles_app in Ht as (mid & Ht1 & Ht2). cbn in Ht2. destruct Ht2 as (E & Hpos & Ht2).
  apply Forall_app in Ha as [Ha1 Ha2]. inversion Ha2 as [|? ? Hxo Ha2']; subst.
  apply coalesced_app_inv in Hc as (C1 & C2 & CJ).
  assert (C2' : coalesced l2 /\ match head l2 with Some y => a_free y = false | None => True end).
  { destruct l2 as [|y l2]; [done|]. destruct C2 as [Hxy C2]. rewrite Hx in Hxy. done. }
  split_and!; try done.
  - split; cbn [with_free start_address end_address free_index used_index rightmost_area]; try done.
    + destruct Hb as [B1 B2 B3 B4 B5 B6 B7 B8]. by split.
    + by apply (ao_min _ _ Hxo).
    + apply Forall_app. done.
    + by destruct C2'.
    + rewrite free_at_app. rewrite He in Hf0. rewrite <- Permutation_middle in Hf0. by apply Permutation_cons_inv in Hf0.
    + rewrite Hu, !used_at_app, used_at_cons, Hx. done.
    + rewrite last_app in Hr. destruct l2 as [|y l2]; [cbn in *; injection Hr as <-; lia|].
      change (last (x :: y :: l2)) with (last (y :: l2)) in Hr. destruct (last (y :: l2)) as [r'|] eqn:E.
      * congruence.
      * by destruct (last_cons_some y l2) as [? E']; rewrite E in E'.
  - apply Hxo.
  - destruct (last l1) as [y|] eqn:E; [|done]. specialize (CJ y x eq_refl eq_refl). rewrite Hx, andb_true_r in CJ. done.
  - apply C2'.
Qed.

(** ** Claiming the chunk *)
Lemma split_create m h s l1 c csz l2 lo sz (b : bool) :
  split_wf m h l1 c csz l2 -> c <= lo -> lo + sz <= c + csz -> 20 < sz ->
  create_area lo sz (if b then AREA_FREE else AREA_USED) (at_ m h s) =
    Ok (lo, at_ (put_area m lo sz (if b then AREA_FREE else AREA_USED)) (with_rightmost (Z.max (rightmost_area h) lo) h) s).
Proof.
  intros W ? ? ?. pose proof (split_lo W). pose proof (split_hi W). apply create_area_at; try done; try lia.
  - apply W.
  - eapply split_clear_free; [exact W | lia | lia].
  - eapply split_clear_used; [exact W | lia | lia].
Qed.

Lemma base_put_area m h lo sz t : heap_base m h -> heap_base (put_area m lo sz t) h.
Proof. intros [B1 B2 B3 B4 B5 B6 B7 B8]. split; try done. by apply put_area_mapped. Qed.
Lemma base_with_rightmost m h r : heap_base m h -> heap_base m (with_rightmost r h).
Proof. intros [B1 B2 B3 B4 B5 B6 B7 B8]. by split. Qed.
Lemma base_with_free m h a : oa_wf a -> heap_base m h -> heap_base m (with_free a h).
Proof. intros ? [B1 B2 B3 B4 B5 B6 B7 B8]. by split. Qed.
Lemma base_with_used m h a : oa_wf a -> heap_base m h -> heap_base m (with_used a h).
Proof. intros ? [B1 B2 B3 B4 B5 B6 B7 B8]. by split. Qed.
Create HintDb heap discriminated.
#[export] Hint Resolve base_put_area base_with_rightmost base_with_free base_with_used : heap.

(** The whole chunk becomes a used area. *)
Lemma claim_chunk m h s l1 c csz l2 :
  split_wf m h l1 c csz l2 -> size (used_index h) < max_size (used_index h) ->
  let x := mk_area c csz false in let m' := put_area m c csz AREA_USED in
  exists h', (create_area c csz AREA_USED ;; insert_used c) (at_ m h s) = Ok (tt, at_ m' h' s) /\
    heap_wf m' h' (l1 ++ x :: l2) /\ kept m m' (l1 ++ l2) (l1 ++ x :: l2) /\
    end_address h' = end_address h /\ start_address h' = start_address h /\ max_address h' = max_address h /\
    max_size (free_index h') = max_size (free_index h) /\ max_size (used_index h') = max_size (used_index h).
Proof.
  intros W Hroom x m'. pose proof (sw_min _ _ _ _ _ _ W). pose proof (split_lo W). pose proof (split_hi W).
  pose proof (hb_end _ _ (sw_base _ _ _ _ _ _ W)). pose proof (hb_start _ _ (sw_base _ _ _ _ _ _ W)). unfold PAGE_SIZE in *.
  pose proof (split_create m h s l1 c csz l2 c csz false W ltac:(lia) ltac:(lia) ltac:(lia)) as Hc.
  change (if false then AREA_FREE else AREA_USED) with AREA_USED in Hc. run Hc. fold m'.
  set (h1 := with_rightmost (Z.max (rightmost_area h) c) h).
  destruct (insert_used_at m' h1 s c) as (a & Hi & Hwf & He & Hm); [apply W | done|].
  exists (with_used a h1). split; [done|].
  assert (Hout : forall y, ~ c <= y < c + csz -> m' y = m y).
  { intros y Hy. apply put_area_frame; lia. }
  split_and!; try done; [split|].
  - apply base_with_used; [done|]. apply base_with_rightmost, base_put_area, W.
  - cbn. apply tiles_app. exists c. split; [apply W|]. split_and!; [done | unfold x; cbn; lia | apply W].
  - pose proof (split_frame W m' Hout) as HF. apply Forall_app in HF as [? ?]. apply Forall_app. split; [done|].
    constructor; [|done]. apply (put_area_ok m c csz false); lia.
  - apply coalesced_app; [apply W | | intros u v Hu Hv; cbn in Hv; injection Hv as <-; apply andb_false_r].
    pose proof (sw_co2 _ _ _ _ _ _ W). destruct l2; done.
  - cbn. rewrite (sw_free _ _ _ _ _ _ W), !free_at_app, free_at_cons. done.
  - cbn. rewrite He. cbn. rewrite (sw_used _ _ _ _ _ _ W), !used_at_app, used_at_cons. cbn.
    by rewrite Permutation_middle.
  - pose proof (sw_last _ _ _ _ _ _ W) as HL. pose proof (split_right_ge W). rewrite last_app_cons.
    destruct l2 as [|y l2]; [exists x; cbn in *; split; [done | lia]|].
    change (last (x :: y :: l2)) with (last (y :: l2)).
    destruct (last (y :: l2)) as [r|] eqn:E; [exists r; split; [done | cbn; lia]|].
    by destruct (last_cons_some y l2) as [? E']; rewrite E in E'.
  - apply (split_kept W m' _ Hout). intros y. rewrite !elem_of_app, elem_of_cons. tauto.
Qed.

(** Its tail becomes a free area. *)
Lemma cut_tail m h s l1 c csz l2 sz :
  split_wf m h l1 c csz l2 -> 20 < sz -> sz + 20 < csz -> size (free_index h) < max_size (free_index h) ->
  (match head l2 with Some y => a_free y = false | None => True end) ->
  let x := mk_area (c + sz) (csz - sz) true in let m' := put_area m (c + sz) (csz - sz) AREA_FREE in
  exists h', (create_area (c + sz) (csz - sz) AREA_FREE ;; insert_free (c + sz)) (at_ m h s) = Ok (tt, at_ m' h' s) /\
    split_wf m' h' l1 c sz (x :: l2) /\
    kept m m' (l1 ++ l2) (l1 ++ x :: l2) /\
    start_address h' = start_address h /\ end_address h' = end_address h /\ max_address h' = max_address h /\
    used_index h' = used_index h /\ max_size (free_index h') = max_size (free_index h).
Proof.
  intros W Hs Hr Hroom Hhd x m'. pose proof (split_lo W). pose proof (split_hi W).
  pose proof (hb_end _ _ (sw_base _ _ _ _ _ _ W)). pose proof (hb_start _ _ (sw_base _ _ _ _ _ _ W)). unfold PAGE_SIZE in *.
  pose proof (split_create m h s l1 c csz l2 (c + sz) (csz - sz) true W ltac:(lia) ltac:(lia) ltac:(lia)) as Hc.
  change (if true then AREA_FREE else AREA_USED) with AREA_FREE in Hc. run Hc. fold m'.
  set (h1 := with_rightmost (Z.max (rightmost_area h) (c + sz)) h).
  destruct (insert_free_at m' h1 s (c + sz)) as (a & Hi & Hwf & He & Hm); [apply W | done|].
  exists (with_free a h1). split; [done|].
  assert (Hout : forall y, ~ c <= y < c + csz -> m' y = m y) by (intros y Hy; apply put_area_frame; lia).
  split_and!; try done.
  - pose proof (split_frame W m' Hout) as HF. apply Forall_app in HF as [HF1 HF2].
    split; try done; cbn [with_free with_rightmost start_address end_address free_index used_index rightmost_area h1].
    + apply base_with_free; [done|]. apply base_with_rightmost. apply base_put_area, W.
    + apply W.
    + pose proof (sw_right _ _ _ _ _ _ W). unfold x, a_end. cbn [tiles a_at a_size a_end].
      split_and!; [done | lia |]. unfold a_end. cbn [a_at a_size]. by replace (c + sz + (csz - sz)) with (c + csz) by lia.
    + apply Forall_app. split; [done|]. constructor; [|done].
      apply (put_area_ok m (c + sz) (csz - sz) true); lia.
    + apply W.
    + pose proof (sw_co2 _ _ _ _ _ _ W). destruct l2 as [|y l2]; [done|]. split; [|done]. cbn in Hhd. by rewrite Hhd.
    + rewrite He. cbn. rewrite (sw_free _ _ _ _ _ _ W), !free_at_app, free_at_cons. cbn. by rewrite Permutation_middle.
    + rewrite (sw_used _ _ _ _ _ _ W), !used_at_app, used_at_cons. done.
    + pose proof (sw_last _ _ _ _ _ _ W) as HL. pose proof (split_right_ge W).
      destruct l2 as [|y l2]; [cbn in *; lia|]. change (last (x :: y :: l2)) with (last (y :: l2)).
      destruct (last (y :: l2)) as [r|] eqn:E; [lia|]. by destruct (last_cons_some y l2) as [? E']; rewrite E in E'.
  - apply (split_kept W m' _ Hout). intros y. rewrite !elem_of_app, elem_of_cons. tauto.
Qed.

(** Changes inside the chunk keep the split heap. *)
Lemma split_inside m h l1 c csz l2 m' :
  split_wf m h l1 c csz l2 -> (forall a, ~ c <= a < c + csz -> m' a = m a) ->
  mapped m' c (c + csz) -> split_wf m' h l1 c csz l2.
Proof.
  intros W Hout Hmap. pose proof (split_frame W m' Hout). destruct W as [B W1 W2 W3 W4 W5 W6 W7 W8 W9].
  split; try done. destruct B as [B1 B2 B3 B4 B5 B6 B7 B8]. split; try done.
  intros a Ha. destruct (decide (c <= a < c + csz)); [by apply Hmap|]. rewrite Hout by done. by apply B6.
Qed.

Lemma perm_zlen {A} (l k : list A) : l ≡ₚ k -> zlen l = zlen k.
Proof. intros H. unfold zlen. by rewrite (Permutation_length H). Qed.
Lemma split_free_len m h l1 c csz l2 : split_wf m h l1 c csz l2 -> size (free_index h) <= zlen (l1 ++ l2).
Proof.
  intros W. rewrite <- elems_len by apply W. rewrite (perm_zlen _ _ (sw_free _ _ _ _ _ _ W)). apply free_at_len.
Qed.
Lemma split_used_len m h l1 c csz l2 : split_wf m h l1 c csz l2 -> size (used_index h) <= zlen (l1 ++ l2).
Proof.
  intros W. rewrite <- elems_len by apply W. rewrite (perm_zlen _ _ (sw_used _ _ _ _ _ _ W)). apply used_at_len.
Qed.

(** What lies before the page boundary becomes a free area of its own ... *)
Lemma cut_head m h s l1 c csz l2 sz :
  split_wf m h l1 c csz l2 -> 20 < sz -> sz + 20 < csz -> size (free_index h) < max_size (free_index h) ->
  (match last l1 with Some y => a_free y = false | None => True end) ->
  let x := mk_area c sz true in let m' := put_area m c sz AREA_FREE in
  exists h', (create_area c sz AREA_FREE ;; insert_free c) (at_ m h s) = Ok (tt, at_ m' h' s) /\
    split_wf m' h' (l1 ++ [x]) (c + sz) (csz - sz) l2 /\
    kept m m' (l1 ++ l2) ((l1 ++ [x]) ++ l2) /\
    start_address h' = start_address h /\ end_address h' = end_address h /\ max_address h' = max_address h /\
    used_index h' = used_index h /\ max_size (free_index h') = max_size (free_index h).
Proof.
  intros W Hs Hr Hroom Hlast x m'. pose proof (split_lo W). pose proof (split_hi W).
  pose proof (hb_end _ _ (sw_base _ _ _ _ _ _ W)). pose proof (hb_start _ _ (sw_base _ _ _ _ _ _ W)). unfold PAGE_SIZE in *.
  pose proof (split_create m h s l1 c csz l2 c sz true W ltac:(lia) ltac:(lia) ltac:(lia)) as Hc.
  change (if true then AREA_FREE else AREA_USED) with AREA_FREE in Hc. run Hc. fold m'.
  set (h1 := with_rightmost (Z.max (rightmost_area h) c) h).
  destruct (insert_free_at m' h1 s c) as (a & Hi & Hwf & He & Hm); [apply W | done|].
  exists (with_free a h1). split; [done|].
  assert (Hout : forall y, ~ c <= y < c + csz -> m' y = m y) by (intros y Hy; apply put_area_frame; lia).
  pose proof (split_frame W m' Hout) as HF. apply Forall_app in HF as [HF1 HF2].
  split_and!; try done.
  - split; try done; cbn [with_free with_rightmost start_address end_address free_index used_index rightmost_area h1].
    + apply base_with_free; [done|]. apply base_with_rightmost, base_put_area, W.
    + apply tiles_app. exists c. split; [apply W|]. cbn. split_and!; [done | lia | done].
    + replace (c + sz + (csz - sz)) with (c + csz) by lia. apply W.
    + lia.
    + rewrite <- app_assoc. apply Forall_app. split; [done|]. constructor; [|done].
      apply (put_area_ok m c sz true); lia.
    + apply coalesced_app; [apply W | done|]. intros u v Hu Hv. rewrite Hu in Hlast. by rewrite Hlast.
    + apply W.
    + rewrite He, <- app_assoc. cbn. rewrite (sw_free _ _ _ _ _ _ W), !free_at_app, free_at_cons. cbn. by rewrite Permutation_middle.
    + rewrite <- app_assoc. cbn. rewrite (sw_used _ _ _ _ _ _ W), !used_at_app, used_at_cons. done.
    + pose proof (sw_last _ _ _ _ _ _ W) as HL. pose proof (split_right_ge W).
      destruct (last l2) as [r|]; lia.
  - apply (split_kept W m' _ Hout). intros y. rewrite !elem_of_app, list_elem_of_singleton. tauto.
Qed.

(** ... or, where it is too small for one, part of the area before it. *)
Lemma widen_mem m y off c : a_end y = c -> area_ok m y -> 0 <= a_at y -> 0 <= off -> c + off < 2 ^ 32 ->
  mapped m c (c + off) ->
  let m' := upd32 (upd32 (upd32 (upd32 m (c - 8) 0) (a_at y) (a_size y + off)) (c + off - 8) HEAP_MAGIC) (c + off - 4) (a_at y) in
  area_ok m' (mk_area (a_at y) (a_size y + off) (a_free y)).
Proof.
  intros He Hy H0 Hoff Hc Hm m'. pose proof (size_pos m y Hy). unfold a_end in *.
  destruct Hy as [Y1 Y2 Y3 Y4 Y5 Y6]. unfold HEADER_SIZE, FOOTER_SIZE in *.
  split; unfold a_end, a_type, HEADER_SIZE, FOOTER_SIZE; cbn [a_at a_size a_free]; [lia | | | | |]; unfold m'.
  - rewrite (ld32_ext (upd32 (upd32 m (c - 8) 0) (a_at y) (a_size y + off)))
      by (intros x ?; by rewrite !upd32_other by lia). apply ld32_upd32. lia.
  - rewrite (ld8_ext m) by (by rewrite !upd32_other by lia). done.
  - rewrite (ld32_ext m) by (intros x ?; by rewrite !upd32_other by lia). done.
  - replace (a_at y + (a_size y + off) - 8) with (c + off - 8) by lia.
    rewrite (ld32_ext (upd32 (upd32 (upd32 m (c - 8) 0) (a_at y) (a_size y + off)) (c + off - 8) HEAP_MAGIC))
      by (intros x ?; by rewrite !upd32_other by lia). by apply ld32_upd32.
  - replace (a_at y + (a_size y + off) - 4) with (c + off - 4) by lia. apply ld32_upd32. lia.
Qed.

Lemma widen_chunk m h s l1 y c csz l2 off :
  split_wf m h (l1 ++ [y]) c csz l2 -> 0 <= off -> off + 20 < csz ->
  let y' := mk_area (a_at y) (a_size y + off) (a_free y) in
  exists m', widen_left c off (at_ m h s) = Ok (tt, at_ m' h s) /\
    split_wf m' h (l1 ++ [y']) (c + off) (csz - off) l2 /\
    kept m m' ((l1 ++ [y]) ++ l2) ((l1 ++ [y']) ++ l2).
Proof.
  intros W Hoff Hr y'. pose proof (split_lo W). pose proof (split_hi W).
  pose proof (hb_end _ _ (sw_base _ _ _ _ _ _ W)). pose proof (hb_start _ _ (sw_base _ _ _ _ _ _ W)). unfold PAGE_SIZE in *.
  pose proof (tiles_end _ _ _ _ (sw_left _ _ _ _ _ _ W)) as Hye.
  destruct (split_clear W y) as ((Hy & Hy0 & Hy1) & _); [set_solver|]. pose proof (size_pos m y Hy).
  pose proof (hb_mapped _ _ (sw_base _ _ _ _ _ _ W)) as M. unfold PAGE_SIZE in M. destruct (split_clear W y ltac:(set_solver)) as (_ & Hys & _).
  assert (Hy1' : a_at y + a_size y = c) by done.
  set (m1 := upd32 m (c - 8) 0). set (m2 := upd32 m1 (a_at y) (a_size y + off)).
  set (m3 := upd32 m2 (c + off - 8) HEAP_MAGIC). set (m4 := upd32 m3 (c + off - 4) (a_at y)).
  assert (Hsz1 : ld32 m1 (a_at y) = Ok (a_size y)).
  { rewrite (ld32_ext m) by (intros x ?; unfold m1; by rewrite upd32_other by lia). apply Hy. }
  assert (Hsz2 : ld32 m2 (a_at y) = Ok (a_size y + off)) by (apply ld32_upd32; lia).
  assert (Mm : forall lo hi, start_address h <= lo -> hi <= end_address h -> mapped m4 lo hi /\ mapped m lo hi).
  { intros lo hi ? ?. split; [unfold m4, m3, m2, m1; repeat apply mapped_upd32|]; (eapply mapped_sub; [exact M | lia | lia]). }
  exists m4. split_and!.
  - unfold widen_left. rewrite (u32_small (c - FOOTER_SIZE)) by (unfold FOOTER_SIZE; lia).
    replace (c - FOOTER_SIZE) with (a_end y - 8) by (unfold FOOTER_SIZE; lia).
    run (footer_magic_at m h s y Hy). rewrite Z.eqb_refl. run (footer_header_at m h s y Hy ltac:(lia) Hy1).
    run (header_magic_at m h s y Hy ltac:(lia) Hy1). rewrite Z.eqb_refl. unfold set_footer_magic, set_header_size, header_size.
    rewrite Hye. run (wr32_at m h s (c - 8) 0 ltac:(apply Mm; lia)). fold m1. run (rd32_at m1 h s _ _ Hsz1).
    rewrite u32_small by lia.
    run (wr32_at m1 h s (a_at y) (a_size y + off) ltac:(apply mapped_upd32, Mm; lia)). fold m2.
    unfold FOOTER_FROM_HEADER, header_size. erewrite (st_bind_Ok (_ ≫= _)).
    2: { run (rd32_at m2 h s _ _ Hsz2). unfold FOOTER_SIZE. rewrite u32_small by lia.
         replace (a_at y + (a_size y + off) - 8) with (c + off - 8) by lia. done. }
    run (wr32_at m2 h s (c + off - 8) HEAP_MAGIC ltac:(repeat apply mapped_upd32; apply Mm; lia)). fold m3.
    unfold set_footer_header. rewrite u32_small by lia. replace (c + off - 8 + 4) with (c + off - 4) by lia.
    apply wr32_at. repeat apply mapped_upd32; apply Mm; lia.
  - assert (Hout : forall x, x < a_at y \/ c + csz <= x -> m4 x = m x).
    { intros x ?. unfold m4, m3, m2, m1. by rewrite !upd32_other by lia. }
    pose proof (sw_areas _ _ _ _ _ _ W) as HF. apply Forall_app in HF as [HF1 HF2]. apply Forall_app in HF1 as [HF1 _].
    pose proof (sw_left _ _ _ _ _ _ W) as Ht. apply tiles_app in Ht as (mid & Ht1 & Ht2). cbn in Ht2. destruct Ht2 as (<- & _ & _).
    destruct W as [B W1 W2 W3 W4 W5 W6 W7 W8 W9]. split; try done.
    + destruct B as [B1 B2 B3 B4 B5 B6 B7 B8]. split; try done. unfold m4, m3, m2, m1. by repeat apply mapped_upd32.
    + apply tiles_app. exists (a_at y). split; [done|]. cbn. unfold y', a_end. cbn. lia.
    + by replace (c + off + (csz - off)) with (c + csz) by lia.
    + lia.
    + apply Forall_app. split; [apply Forall_app; split|].
      * eapply areas_frame; [exact HF1|]. intros x Hx a Ha. apply Hout. pose proof (tiles_in _ _ _ _ Ht1 Hx). lia.
      * constructor; [|done]. apply (widen_mem m y off c); try done; try lia. apply Mm; lia.
      * eapply areas_frame; [exact HF2|]. intros x Hx a Ha. apply Hout. pose proof (tiles_in _ _ _ _ W2 Hx). lia.
    + apply coalesced_app_inv in W5 as (C1 & _ & CJ). apply coalesced_app; [done | done|].
      intros u v Hu Hv. injection Hv as <-. by apply (CJ u y Hu).
    + rewrite W7, !free_at_app, !free_at_cons. done.
    + rewrite W8, !used_at_app, !used_at_cons. done.
    + destruct (last l2); [done|]. lia.
  - intros x Hx Hf. destruct (split_clear W x Hx) as ((Hxo & _) & _ & _ & Hdis).
    pose proof (size_pos m x Hxo). rewrite !elem_of_app, list_elem_of_singleton in Hx.
    destruct (decide (x = y)) as [->|Hne].
    + split; [intros a Ha; unfold m4, m3, m2, m1; by rewrite !upd32_other by lia|].
      exists y'. split_and!; [set_solver | done | unfold y'; cbn; lia | done].
    + pose proof (sw_left _ _ _ _ _ _ W) as Ht. apply tiles_app in Ht as (mid & Ht1 & Ht2). cbn in Ht2. destruct Ht2 as (E & _ & _).
      split; [|exists x; split_and!; try done; set_solver].
      assert (a_end x <= a_at y \/ c + csz <= a_at x).
      { destruct Hx as [[Hx|Hx]|Hx]; [left | done | right].
        - pose proof (tiles_in _ _ _ _ Ht1 Hx). lia.
        - pose proof (tiles_in _ _ _ _ (sw_right _ _ _ _ _ _ W) Hx). lia. }
      intros a Ha. unfold a_end in *. unfold m4, m3, m2, m1. by rewrite !upd32_other by lia.
Qed.

(** ** Page alignment *)
Lemma align_offset_spec c : 0 <= c -> c + 12 < 2 ^ 32 ->
  (c + 12 + align_offset c) mod PAGE_SIZE = 0 /\
  (IS_PAGE_ALIGNED (u32 (c + HEADER_SIZE)) = false -> 0 < align_offset c) /\
  (c mod PAGE_SIZE = 0 -> align_offset c = PAGE_SIZE - 12).
Proof.
  intros. unfold align_offset, HEADER_SIZE. rewrite u32_small, IS_PAGE_ALIGNED_mod by lia.
  unfold PAGE_SIZE. destruct (Z.eqb_spec ((c + 12) mod 4096) 0); split_and!; try done; intros;
    Z.to_euclidean_division_equations; lia.
Qed.

Definition same_shape (h h' : heap_t) : Prop :=
  start_address h' = start_address h /\ end_address h' = end_address h /\ max_address h' = max_address h /\
  max_size (free_index h') = max_size (free_index h) /\ max_size (used_index h') = max_size (used_index h).

Lemma align_area_at m h s l1 c csz l2 sz :
  split_wf m h l1 c csz l2 -> ld32 m c = Ok csz -> IS_PAGE_ALIGNED (u32 (c + HEADER_SIZE)) = false ->
  20 < sz -> sz <= csz - align_offset c -> zlen (l1 ++ l2) < max_size (free_index h) ->
  (match last l1 with Some y => a_free y = false | None => True end) ->
  let c' := c + align_offset c in let csz' := csz - align_offset c in
  exists m' h' l1', align_area c sz (at_ m h s) = Ok (c', at_ m' h' s) /\
    split_wf m' h' l1' c' csz' l2 /\ ld32 m' c' = Ok csz' /\ kept m m' (l1 ++ l2) (l1' ++ l2) /\
    (c' + 12) mod PAGE_SIZE = 0 /\ same_shape h h' /\ used_index h' = used_index h /\ zlen l1' <= zlen l1 + 1.
Proof.
  intros W Hw Hna Hs Hsz Hroom Hlast c' csz'. pose proof (split_lo W). pose proof (split_hi W).
  pose proof (hb_end _ _ (sw_base _ _ _ _ _ _ W)). pose proof (hb_start _ _ (sw_base _ _ _ _ _ _ W)).
  pose proof (align_offset_bound c). pose proof (split_free_len _ _ _ _ _ _ W). unfold PAGE_SIZE in *.
  destruct (align_offset_spec c ltac:(lia) ltac:(lia)) as (Ha & Hpos & Hst). specialize (Hpos Hna).
  assert (Hstep : exists m' h' l1',
    (if HEADER_SIZE + FOOTER_SIZE <? align_offset c then create_area c (align_offset c) AREA_FREE ;; insert_free c
     else widen_left c (align_offset c)) (at_ m h s) = Ok (tt, at_ m' h' s) /\
    split_wf m' h' l1' c' csz' l2 /\ kept m m' (l1 ++ l2) (l1' ++ l2) /\ same_shape h h' /\ used_index h' = used_index h /\ zlen l1' <= zlen l1 + 1).
  { unfold HEADER_SIZE, FOOTER_SIZE. destruct (Z.ltb_spec (12 + 8) (align_offset c)).
    - destruct (cut_head m h s l1 c csz l2 (align_offset c) W) as (h' & Hrun & W' & Hk & S1 & S2 & S3 & S4 & S5); try done; try lia.
      eexists _, h', _. split; [exact Hrun|]. split_and!; try done. { split_and!; congruence. } rewrite zlen_snoc. lia.
    - destruct (exists_last_or_nil l1) as [->|(l0 & y & ->)].
      { pose proof (sw_left _ _ _ _ _ _ W) as Ht. cbn in Ht. pose proof (hb_salign _ _ (sw_base _ _ _ _ _ _ W)).
        unfold PAGE_SIZE in *. rewrite <- Ht in *. lia. }
      destruct (widen_chunk m h s l0 y c csz l2 (align_offset c) W) as (m' & Hrun & W' & Hk); try lia.
      exists m', h. eexists. split; [exact Hrun|]. split_and!; try done. rewrite !zlen_snoc. lia. }
  destruct Hstep as (m' & h' & l1' & Hrun & W' & Hk & Hsh & Hui & Hl).
  unfold align_area. run (rd32_at m h s c csz Hw). do 2 check. run Hrun. rewrite (u32_small (c + _)), (u32_small (csz - _)) by lia.
  fold c' csz'. pose proof (sw_min _ _ _ _ _ _ W') as Hmin. pose proof (split_lo W'). pose proof (split_hi W').
  pose proof (hb_mapped _ _ (sw_base _ _ _ _ _ _ W')) as M. unfold PAGE_SIZE in M.
  unfold set_header_size. run (wr32_at m' h' s c' csz' ltac:(eapply mapped_sub; [exact M | lia | lia])).
  set (m'' := upd32 m' c' csz').
  erewrite (st_bind_Ok (ensure _)).
  2: { apply ensure_true. unfold HEADER_SIZE. rewrite u32_small, IS_PAGE_ALIGNED_mod by (unfold c', csz' in *; lia). apply Z.eqb_eq.
       unfold c', PAGE_SIZE. by replace (c + align_offset c + 12) with (c + 12 + align_offset c) by lia. }
  assert (Hw' : ld32 m'' c' = Ok csz') by (apply ld32_upd32; unfold csz' in *; lia).
  run (rd32_at m'' h' s c' csz' Hw'). check. exists m'', h', l1'. split_and!; try done.
  - eapply split_inside; [exact W' | intros a Hna'; apply upd32_other; lia|].
    apply mapped_upd32. eapply mapped_sub; [exact M | lia | lia].
  - eapply kept_trans; [exact Hk|]. apply (split_kept W'); [|done]. intros a Hna'. apply upd32_other. lia.
  - unfold c', PAGE_SIZE. by replace (c + align_offset c + 12) with (c + 12 + align_offset c) by lia.
Qed.

(** ** Placing the allocation *)
Definition fresh_trace (s : hstate) : Prop := leaks s = None.

Lemma trace_alloc_off name id ebp p sz s : fresh_trace s -> trace_alloc name id ebp p sz s = Ok (tt, s).
Proof. unfold trace_alloc, fresh_trace. intros H. erewrite (st_bind_Ok (gets leaks)) by done. by rewrite H. Qed.

(** The tail is cut off when it is large enough for an area. *)
Lemma cut_or_not m h s l1 c csz l2 sz :
  split_wf m h l1 c csz l2 -> 20 < sz -> sz <= csz -> zlen (l1 ++ l2) < max_size (free_index h) ->
  (match head l2 with Some y => a_free y = false | None => True end) ->
  exists m' h' sz' l2',
    (if 16 + HEADER_SIZE + FOOTER_SIZE <=? u32 (csz - sz) then
       create_area (u32 (c + sz)) (u32 (csz - sz)) AREA_FREE ;; insert_free (u32 (c + sz)) ;; mret sz
     else mret (u32 (sz + (csz - sz)))) (at_ m h s) = Ok (sz', at_ m' h' s) /\
    split_wf m' h' l1 c sz' l2' /\ sz <= sz' /\ kept m m' (l1 ++ l2) (l1 ++ l2') /\
    same_shape h h' /\ used_index h' = used_index h /\ zlen l2' <= zlen l2 + 1.
Proof.
  intros W Hs Hle Hroom Hhd. pose proof (split_lo W). pose proof (split_hi W).
  pose proof (hb_end _ _ (sw_base _ _ _ _ _ _ W)). pose proof (hb_start _ _ (sw_base _ _ _ _ _ _ W)).
  pose proof (split_free_len _ _ _ _ _ _ W). unfold PAGE_SIZE, HEADER_SIZE, FOOTER_SIZE in *.
  rewrite !u32_small by lia. destruct (Z.leb_spec (16 + 12 + 8) (csz - sz)).
  - destruct (cut_tail m h s l1 c csz l2 sz W) as (h' & Hrun & W' & Hk & S1 & S2 & S3 & S4 & S5); try done; try lia.
    apply st_bind_inv in Hrun as (u & s1 & HA & HB). run HA. run HB.
    eexists _, h', sz, _. split; [done|]. split_and!; try done; try lia; [split_and!; congruence|]. rewrite zlen_cons. lia.
  - exists m, h, csz, l2. replace (sz + (csz - sz)) with csz by lia. split_and!; try done; try lia.
    apply kept_refl.
Qed.

Lemma hole_aligned m h s l1 c csz l2 sz al :
  split_wf m h l1 c csz l2 -> ld32 m c = Ok csz -> 20 < sz -> fits sz al (mk_area c csz true) ->
  zlen (l1 ++ l2) < max_size (free_index h) ->
  (match last l1 with Some y => a_free y = false | None => True end) ->
  exists m' h' l1' c' csz',
    (if al && negb (IS_PAGE_ALIGNED (u32 (c + HEADER_SIZE))) then align_area c sz else mret c) (at_ m h s) =
      Ok (c', at_ m' h' s) /\
    split_wf m' h' l1' c' csz' l2 /\ ld32 m' c' = Ok csz' /\ sz <= csz' /\ kept m m' (l1 ++ l2) (l1' ++ l2) /\
    (al = true -> (c' + 12) mod PAGE_SIZE = 0) /\ same_shape h h' /\ used_index h' = used_index h /\ zlen l1' <= zlen l1 + 1.
Proof.
  intros W Hw Hs Hfit Hroom Hlast. unfold fits in Hfit. cbn [a_at a_size] in Hfit.
  destruct al; cbn [andb negb].
  - destruct (IS_PAGE_ALIGNED (u32 (c + HEADER_SIZE))) eqn:E; cbn [negb].
    + pose proof (split_lo W). pose proof (split_hi W). pose proof (sw_min _ _ _ _ _ _ W).
      pose proof (hb_end _ _ (sw_base _ _ _ _ _ _ W)). pose proof (hb_start _ _ (sw_base _ _ _ _ _ _ W)). unfold PAGE_SIZE in *.
      exists m, h, l1, c, csz. pose proof (align_offset_bound c). split_and!; try done; try lia; [apply kept_refl|].
      intros _. unfold HEADER_SIZE in E. rewrite u32_small, IS_PAGE_ALIGNED_mod in E by lia. unfold PAGE_SIZE in E. lia.
    + destruct (align_area_at m h s l1 c csz l2 sz W Hw E Hs Hfit Hroom Hlast)
        as (m' & h' & l1' & Hrun & W' & Hw' & Hk & Hal & Hsh & Hui & Hl).
      eexists m', h', l1', _, _. split; [exact Hrun|]. split_and!; try done.
  - exists m, h, l1, c, csz. split_and!; try done; try lia. apply kept_refl.
Qed.

Lemma dword_up_spec x : 0 <= x -> x + 4 < 2 ^ 32 -> x <= dword_up x < x + 4 /\ dword_up x mod 4 = 0 /\
  (x mod 4 = 0 -> dword_up x = x).
Proof.
  intros Hx Hb. unfold dword_up.
  assert (E : Z.land x 3 = x mod 4) by (change 3 with (Z.ones 2); by rewrite Z.land_ones).
  assert (L : Z.land x 0xfffffffc = x / 4 * 4) by (apply (land_clear x 2); lia).
  rewrite E, L. destruct (Z.eqb_spec (x mod 4) 0).
  - split_and!; try done; lia.
  - rewrite u32_small by (Z.to_euclidean_division_equations; lia). split_and!; Z.to_euclidean_division_equations; lia.
Qed.

Section Place.
Context (name : list Z) (id ebp : Z).

Lemma place_area_at m h s l1 x l2 sz al :
  let l := l1 ++ x :: l2 in
  heap_wf m h l -> a_free x = true -> 20 < sz -> fits sz al x -> fresh_trace s ->
  zlen l < max_size (free_index h) -> zlen l < max_size (used_index h) ->
  exists m' h' l' y, place_area name id ebp (a_at x) sz al (at_ m h s) = Ok (dword_up (a_at y + 12), at_ m' h' s) /\
    heap_wf m' h' l' /\ y ∈ l' /\ a_free y = false /\ sz <= a_size y /\
    (al = true -> (a_at y + 12) mod PAGE_SIZE = 0) /\ kept m m' l l' /\ used_at l' ≡ₚ a_at y :: used_at l /\
    same_shape h h' /\ zlen l' <= zlen l + 2.
Proof.
  intros l Hwf Hx Hs Hfit Htr Hr1 Hr2. unfold place_area.
  destruct (take_hole m h s l1 x l2 Hwf Hx) as (a & Hrm & W & Hw & Hmax & Hlast & Hhd). run Hrm.
  set (h0 := with_free a h) in *.
  assert (Hlen : zlen l = zlen (l1 ++ l2) + 1) by (unfold l; autorewrite with kernel_rw; lia).
  assert (Hk0 : kept m m l (l1 ++ l2)).
  { intros y Hy Hyf. split; [done|]. exists y. split_and!; try done. unfold l in Hy.
    apply elem_of_app in Hy as [?|[->|?]%elem_of_cons]; [set_solver | congruence | set_solver]. }
  destruct (hole_aligned m h0 s l1 (a_at x) (a_size x) l2 sz al W Hw Hs) as (m1 & h1 & l1' & c & csz & Hrun1 & W1 & Hw1 & Hle1 & Hk1 & Hal & Hsh1 & Hui1 & Hl1);
    [done | change (free_index h0) with a; lia | done|]. run Hrun1. run (rd32_at m1 h1 s c csz Hw1).
  destruct (cut_or_not m1 h1 s l1' c csz l2 sz W1 Hs Hle1) as (m2 & h2 & sz' & l2' & Hrun2 & W2 & Hle2 & Hk2 & Hsh2 & Hui2 & Hl2);
    [destruct Hsh1 as (_ & _ & _ & E & _); rewrite E; change (free_index h0) with a; rewrite Hmax, zlen_app in *; lia | done|]. run Hrun2.
  destruct (claim_chunk m2 h2 s l1' c sz' l2' W2) as (h3 & Hrun3 & Hwf3 & Hk3 & S1 & S2 & S3 & S4 & S5).
  { rewrite Hui2, Hui1. cbn. rewrite <- elems_len by apply Hwf. rewrite (perm_zlen _ _ (hw_used _ _ _ Hwf)).
    pose proof (used_at_len l). lia. }
  apply st_bind_inv in Hrun3 as (u & s1 & HA & HB). run HA. run HB.
  pose proof (split_lo W2). pose proof (split_hi W2). pose proof (sw_min _ _ _ _ _ _ W2).
  pose proof (hb_end _ _ (sw_base _ _ _ _ _ _ W2)). pose proof (hb_start _ _ (sw_base _ _ _ _ _ _ W2)). unfold PAGE_SIZE in *.
  unfold HEADER_SIZE. rewrite u32_small by lia.
  run (trace_alloc_off name id ebp (dword_up (c + 12)) sz' (at_ (put_area m2 c sz' AREA_USED) h3 s) Htr).
  eexists _, h3, _, (mk_area c sz' false). split; [done|]. cbn [a_at a_size a_free].
  destruct Hsh1 as (E1 & E2 & E3 & E4 & E5), Hsh2 as (E6 & E7 & E8 & E9 & E10).
  split_and!; try done; try lia; [set_solver | | | | ].
  - eapply kept_trans; [exact Hk0|]. eapply kept_trans; [exact Hk1|]. eapply kept_trans; [exact Hk2 | exact Hk3].
  - rewrite used_at_app, used_at_cons. cbn [a_free a_at]. rewrite <- Permutation_middle, <- used_at_app.
    apply Permutation_skip. rewrite <- (sw_used _ _ _ _ _ _ W2), Hui2, Hui1. cbn. apply Hwf.
  - split_and!; cbn in *; congruence.
  - unfold l. autorewrite with kernel_rw. lia.
Qed.
End Place.

(** ** Finding a hole *)
Lemma heap_readable m h l x : heap_wf m h l -> x ∈ l ->
  readable m x /\ start_address h <= a_at x /\ a_end x <= end_address h /\ a_size x < 2 ^ 31.
Proof.
  intros Hwf Hx. pose proof (tiles_in _ _ _ _ (hw_tiles _ _ _ Hwf) Hx) as [? ?].
  assert (Hok : area_ok m x) by (pose proof (hw_areas _ _ _ Hwf) as HF; rewrite Forall_forall in HF; by apply HF).
  destruct (hw_base _ _ _ Hwf) as [B1 _ _ B4 B5 _ _ _]. unfold readable, PAGE_SIZE, a_end in *. split_and!; try done; lia.
Qed.

Lemma find_hole_at m h l s sz al : heap_wf m h l -> 0 <= sz < 2 ^ 32 ->
  exists r, find_smallest_hole sz al (at_ m h s) = Ok (r, at_ m h s) /\
    ((r = 0 /\ forall x, x ∈ l -> a_free x = true -> ~ fits sz al x) \/
     (r <> 0 /\ exists x, x ∈ l /\ a_free x = true /\ a_at x = r /\ fits sz al x)).
Proof.
  intros Hwf Hsz. unfold find_smallest_hole. run (the_heap_at m h s).
  pose proof (hb_free _ _ (hw_base _ _ _ Hwf)) as Hoa. rewrite index_len by done.
  destruct (hole_loop_at m h s (free_index h) (elems (free_index h)) 0 sz al) as (r & Hrun & Hres); try done.
  { apply Forall_forall. intros p Hp. rewrite (hw_free _ _ _ Hwf) in Hp. apply elem_free_at in Hp as (x & Hx & Hf & <-).
    destruct (heap_readable m h l x Hwf Hx) as (? & _ & _ & ?). by exists x. }
  exists r. split; [done|]. destruct Hres as [[-> Hn]|[Hin Hf]].
  - left. split; [done|]. intros x Hx Hxf. apply Hn.
    + by apply (heap_readable m h l x Hwf Hx).
    + rewrite (hw_free _ _ _ Hwf). apply elem_free_at. by exists x.
  - right. rewrite (hw_free _ _ _ Hwf) in Hin. apply elem_free_at in Hin as (x & Hx & Hxf & <-).
    destruct (heap_readable m h l x Hwf Hx) as ((? & ? & _) & _). split; [lia|]. exists x. split_and!; try done. by apply Hf.
Qed.

(** ** Growing *)
Lemma map_pages_run n a s :
  0 <= a -> Z.of_nat n <= frames s -> (forall x, a <= x < a + Z.of_nat n * PAGE_SIZE -> memory s x = None) ->
  exists m', map_pages n a s = Ok (tt, set_space m' (frames s - Z.of_nat n) s) /\
    (forall x, a <= x < a + Z.of_nat n * PAGE_SIZE -> m' x = Some 0) /\
    (forall x, ~ a <= x < a + Z.of_nat n * PAGE_SIZE -> m' x = memory s x).
Proof.
  revert a s. induction n as [|n IH]; intros a s Ha Hf Hn; cbn [map_pages].
  - exists (memory s). split_and!; try done; [|lia]. rewrite Z.sub_0_r. by destruct s.
  - erewrite (st_bind_Ok (gets frames)) by done. erewrite (st_bind_Ok (gets memory)) by done.
    erewrite (st_bind_Ok (ensure _)) by (apply ensure_true, Z.ltb_lt; cbn; lia).
    erewrite (st_bind_Ok (ensure _)) by (apply ensure_true; unfold present; cbn; rewrite Hn by (unfold PAGE_SIZE; lia); done).
    erewrite (st_bind_Ok (modify _)) by done. set (m1 := map_zero (memory s) a (a + PAGE_SIZE)).
    destruct (IH (a + PAGE_SIZE) (set_space m1 (frames s - 1) s)) as (m' & Hrun & Hin & Hout).
    { unfold PAGE_SIZE. lia. } { cbn. lia. }
    { intros x Hx. unfold m1, map_zero. cbn. destruct (Z.leb_spec a x), (Z.ltb_spec x (a + PAGE_SIZE)); cbn; try lia; apply Hn; unfold PAGE_SIZE in *; lia. }
    exists m'. split; [|split].
    + rewrite Hrun. unfold set_space. cbn. do 3 f_equal. lia.
    + intros x Hx. destruct (decide (a + PAGE_SIZE <= x)); [apply Hin; unfold PAGE_SIZE in *; lia|].
      rewrite Hout by lia. cbn. unfold m1, map_zero. destruct (Z.leb_spec a x), (Z.ltb_spec x (a + PAGE_SIZE)); cbn; try lia. done.
    + intros x Hx. rewrite Hout by (unfold PAGE_SIZE in *; lia). cbn. unfold m1, map_zero.
      destruct (Z.leb_spec a x), (Z.ltb_spec x (a + PAGE_SIZE)); cbn; try done. unfold PAGE_SIZE in *; lia.
Qed.

Lemma map_pages_at n a m h s :
  0 <= a -> Z.of_nat n <= frames s -> (forall x, a <= x < a + Z.of_nat n * PAGE_SIZE -> m x = None) ->
  exists m' s', map_pages n a (at_ m h s) = Ok (tt, at_ m' h s') /\
    (forall x, a <= x < a + Z.of_nat n * PAGE_SIZE -> m' x = Some 0) /\
    (forall x, ~ a <= x < a + Z.of_nat n * PAGE_SIZE -> m' x = m x) /\
    hirq s' = hirq s /\ leaks s' = leaks s /\ frames s' = frames s - Z.of_nat n.
Proof.
  intros Ha Hf Hn. destruct (map_pages_run n a (at_ m h s) Ha Hf Hn) as (m' & Hrun & Hin & Hout).
  exists m', (set_space m' (frames s - Z.of_nat n) s). split_and!; done.
Qed.

(** There are [n] more bytes of address space and of physical memory. *)
Record grow_room (m : mem) (h : heap_t) (s : hstate) (n : Z) : Prop := {
  gr_max : start_address h + n <= max_address h;
  gr_end : end_address h + n + PAGE_SIZE < 2 ^ 32;
  gr_span : end_address h + n - start_address h < 2 ^ 31;
  gr_frames : n <= frames s * PAGE_SIZE;
  gr_unmapped : forall a, end_address h + PAGE_SIZE <= a < end_address h + n + PAGE_SIZE -> m a = None
}.

Definition growth (sz : Z) : Z := page_up (if sz <? KHEAP_MIN_GROWTH then KHEAP_MIN_GROWTH else sz).

Lemma growth_spec sz : 0 <= sz < 2 ^ 31 ->
  sz <= growth sz <= Z.max sz 0x8000 + PAGE_SIZE /\ 0x8000 <= growth sz /\ growth sz mod PAGE_SIZE = 0.
Proof.
  intros Hs. unfold growth, page_up, KHEAP_MIN_GROWTH. destruct (Z.ltb_spec sz 0x8000).
  - change (0x8000 mod PAGE_SIZE =? 0) with true. cbv iota. split; [unfold PAGE_SIZE; lia|]. by split.
  - destruct (Z.eqb_spec (sz mod PAGE_SIZE) 0); unfold PAGE_SIZE in *; [lia|].
    rewrite land_page, u32_small by (unfold PAGE_SIZE; Z.to_euclidean_division_equations; lia). unfold PAGE_SIZE.
    Z.to_euclidean_division_equations; lia.
Qed.

Lemma heap_expand_at m h l s sz :
  heap_wf m h l -> hirq s = false -> 0 <= sz < 2 ^ 31 -> grow_room m h s (growth sz) ->
  exists m' s', heap_expand sz (at_ m h s) = Ok (tt, at_ m' (with_end (end_address h + growth sz) h) s') /\
    mapped m' (end_address h) (end_address h + growth sz + PAGE_SIZE) /\
    (forall a, ~ end_address h + PAGE_SIZE <= a < end_address h + growth sz + PAGE_SIZE -> m' a = m a) /\
    hirq s' = false /\ leaks s' = leaks s /\ frames s' = frames s - growth sz / PAGE_SIZE.
Proof.
  intros Hwf Hi Hs [G1 G2 G3 G4 G5]. destruct (growth_spec sz Hs) as (Hg1 & Hg2 & Hg3).
  destruct (hw_base _ _ _ Hwf) as [B1 B2 B3 B4 B5 B6 B7 B8].
  pose proof (tiles_le _ _ _ (hw_tiles _ _ _ Hwf)). unfold heap_expand. fold (growth sz). set (g := growth sz) in *.
  erewrite (st_bind_Ok (gets hirq)) by done.
  erewrite (st_bind_Ok (ensure _)) by (apply ensure_true; cbn; by rewrite Hi). run (the_heap_at m h s).
  unfold PAGE_SIZE in *. rewrite (u32_small (start_address h + g)) by lia.
  destruct (Z.ltb_spec (max_address h) (start_address h + g)); [lia|].
  rewrite (u32_small (start_address h + g)) by lia. do 2 check. rewrite (u32_small (end_address h + g)) by lia.
  assert (Ha : IS_PAGE_ALIGNED (end_address h + g) = true).
  { apply IS_PAGE_ALIGNED_true. unfold PAGE_SIZE. Z.to_euclidean_division_equations; lia. }
  rewrite Ha. erewrite (st_bind_Ok (ensure _)) by (apply ensure_true; by apply IS_PAGE_ALIGNED_true).
  erewrite (st_bind_Ok (ensure _)) by (by apply ensure_true). rewrite (u32_small (end_address h + g)) by lia. do 2 check.
  rewrite !u32_small by lia. unfold vmm_alloc_kernel.
  assert (Hn : (end_address h + g + 0x1000 - (end_address h + 0x1000)) / 0x1000 = g / 0x1000) by (f_equal; lia).
  assert (Hd : g = g / 0x1000 * 0x1000) by (Z.to_euclidean_division_equations; lia).
  destruct (map_pages_at (Z.to_nat (g / 0x1000)) (end_address h + 0x1000) m h s) as (m' & s' & Hrun & Hin & Hout & H1 & H2 & H3).
  { lia. } { rewrite Z2Nat.id by lia. nia. }
  { rewrite Z2Nat.id by lia. unfold PAGE_SIZE. rewrite <- Hd. intros. apply G5. lia. }
  rewrite Z2Nat.id in Hin, Hout, H3 by lia. unfold PAGE_SIZE in Hin, Hout. rewrite <- Hd in Hin, Hout.
  erewrite (st_bind_Ok (_ ≫= _)).
  2: { check. erewrite (st_bind_Ok (ensure _)) by (apply ensure_true, IS_PAGE_ALIGNED_true; unfold PAGE_SIZE; Z.to_euclidean_division_equations; lia).
       erewrite (st_bind_Ok (ensure _)) by (apply ensure_true, IS_PAGE_ALIGNED_true; unfold PAGE_SIZE; Z.to_euclidean_division_equations; lia).
       unfold PAGE_SIZE. rewrite Hn. exact Hrun. }
  exists m', s'. split; [done|]. split_and!; try done; try congruence.
  - intros a Hx. destruct (decide (a < end_address h + 0x1000)).
    + rewrite Hout by lia. apply B6. lia.
    + rewrite Hin by lia. eauto.
  - intros a Hx. apply Hout. lia.
Qed.

(** The rightmost area takes in the new space when it is free ... *)
Lemma grow_free m h s l r g :
  heap_wf m h (l ++ [r]) -> a_free r = true -> 0 < g -> end_address h + g + PAGE_SIZE < 2 ^ 32 ->
  end_address h + g - start_address h < 2 ^ 31 -> g mod PAGE_SIZE = 0 ->
  mapped m (end_address h) (end_address h + g + PAGE_SIZE) ->
  let r' := mk_area (a_at r) (a_size r + g) true in let h1 := with_end (end_address h + g) h in
  exists m', grow_rightmost g (at_ m h1 s) = Ok (tt, at_ m' h1 s) /\ heap_wf m' h1 (l ++ [r']) /\
    kept m m' (l ++ [r]) (l ++ [r']) /\ (forall a, end_address h + g <= a -> m' a = m a).
Proof.
  intros Hwf Hr Hg He Hsp Hal Hm r' h1. destruct (heap_readable m h _ r Hwf ltac:(set_solver)) as ((Ho & H0 & H1) & Hlo & Hhi & _).
  pose proof (size_pos m r Ho). pose proof (tiles_end _ _ _ _ (hw_tiles _ _ _ Hwf)) as Hre.
  pose proof Hwf as [B Ht Ha Hc Hf Hu (r0 & Hl & Hrm)]. rewrite last_snoc in Hl. injection Hl as <-.
  destruct B as [B1 B2 B3 B4 B5 B6 B7 B8]. unfold a_end, PAGE_SIZE in *. set (e := end_address h) in *.
  set (m1 := upd32 m (e - 8) 0). set (m2 := upd32 m1 (a_at r) (a_size r + g)).
  set (m3 := upd32 m2 (e + g - 8) HEAP_MAGIC). set (m4 := upd32 m3 (e + g - 4) (a_at r)).
  assert (Mm : forall lo hi, start_address h <= lo -> hi <= e + g + 0x1000 -> mapped m lo hi).
  { intros lo hi ? ? a ?. destruct (decide (a < e)); [apply B6; lia | apply Hm; lia]. }
  assert (Hsz1 : ld32 m1 (a_at r) = Ok (a_size r)).
  { rewrite (ld32_ext m) by (intros x ?; unfold m1; by rewrite upd32_other by lia). apply Ho. }
  assert (Hsz2 : ld32 m2 (a_at r) = Ok (a_size r + g)) by (apply ld32_upd32; lia).
  assert (Hout : forall x, ~ a_at r <= x < a_at r + 4 -> ~ e - 8 <= x < e + g -> m4 x = m x).
  { intros x ? ?. unfold m4, m3, m2, m1. by rewrite !upd32_other by lia. }
  exists m4. split_and!.
  - unfold grow_rightmost. run (the_heap_at m h1 s). change (rightmost_area h1) with (rightmost_area h). rewrite Hrm.
    destruct (Z.eqb_spec (a_at r) 0); [lia|]. run (header_type_at m h1 s r Ho ltac:(lia) H1). unfold a_type. rewrite Hr, Z.eqb_refl.
    run (footer_at m h1 s r Ho ltac:(lia) H1). unfold a_end. rewrite Hre.
    unfold set_footer_magic, set_header_size, header_size, set_footer_header.
    run (wr32_at m h1 s (e - 8) 0 ltac:(apply Mm; lia)). fold m1. run (rd32_at m1 h1 s _ _ Hsz1). rewrite u32_small by lia.
    run (wr32_at m1 h1 s (a_at r) (a_size r + g) ltac:(apply mapped_upd32, Mm; lia)). fold m2.
    unfold FOOTER_FROM_HEADER, header_size. erewrite (st_bind_Ok (_ ≫= _)).
    2: { run (rd32_at m2 h1 s _ _ Hsz2). unfold FOOTER_SIZE. rewrite u32_small by lia.
         replace (a_at r + (a_size r + g) - 8) with (e + g - 8) by lia. done. }
    run (wr32_at m2 h1 s (e + g - 8) HEAP_MAGIC ltac:(repeat apply mapped_upd32; apply Mm; lia)). fold m3.
    rewrite u32_small by lia. replace (e + g - 8 + 4) with (e + g - 4) by lia.
    apply wr32_at. repeat apply mapped_upd32; apply Mm; lia.
  - apply tiles_app in Ht as (mid & Ht1 & Ht2). cbn in Ht2. destruct Ht2 as (<- & _ & _). apply Forall_app in Ha as [Ha _].
    apply coalesced_app_inv in Hc as (C1 & _ & CJ). split.
    + split; try done; cbn; unfold PAGE_SIZE.
      * Z.to_euclidean_division_equations; lia.
      * unfold m4, m3, m2, m1. repeat apply mapped_upd32. apply Mm; lia.
    + apply tiles_app. exists (a_at r). split; [done|]. cbn. unfold a_end. cbn. fold e. lia.
    + apply Forall_app. split.
      * eapply areas_frame; [exact Ha|]. intros x Hx a Hxa. pose proof (tiles_in _ _ _ _ Ht1 Hx). apply Hout; lia.
      * constructor; [|done]. unfold r'. rewrite <- Hr. apply (widen_mem m r g e); try done; try lia. apply Mm; lia.
    + apply coalesced_app; [done | done|]. intros u v Hu' Hv. injection Hv as <-. specialize (CJ u r Hu' eq_refl). by rewrite Hr in CJ.
    + cbn. rewrite Hf, !free_at_app, !free_at_cons, Hr. done.
    + cbn. rewrite Hu, !used_at_app, !used_at_cons, Hr. done.
    + exists r'. by rewrite last_snoc.
  - intros x Hx Hxf. apply elem_of_app in Hx as [Hx|Hx%list_elem_of_singleton]; [|by subst; rewrite Hr in Hxf].
    apply tiles_app in Ht as (mid & Ht1 & Ht2). cbn in Ht2. destruct Ht2 as (<- & _ & _).
    pose proof (tiles_in _ _ _ _ Ht1 Hx). unfold a_end in *. split; [intros a ?; apply Hout; lia|].
    exists x. split_and!; try done. set_solver.
  - intros a ?. apply Hout; lia.
Qed.

(** ... and is followed by a new area when it is not. *)
Lemma grow_used m h s l r g :
  heap_wf m h (l ++ [r]) -> a_free r = false -> 20 < g -> end_address h + g + PAGE_SIZE < 2 ^ 32 ->
  end_address h + g - start_address h < 2 ^ 31 -> g mod PAGE_SIZE = 0 ->
  mapped m (end_address h) (end_address h + g + PAGE_SIZE) -> size (free_index h) < max_size (free_index h) ->
  let x := mk_area (end_address h) g true in let h1 := with_end (end_address h + g) h in
  let m' := put_area m (end_address h) g AREA_FREE in
  exists h', grow_rightmost g (at_ m h1 s) = Ok (tt, at_ m' h' s) /\ heap_wf m' h' ((l ++ [r]) ++ [x]) /\
    kept m m' (l ++ [r]) ((l ++ [r]) ++ [x]) /\ same_shape h1 h'.
Proof.
  intros Hwf Hr Hg He Hsp Hal Hm Hroom x h1 m'.
  destruct (heap_readable m h _ r Hwf ltac:(set_solver)) as ((Ho & H0 & H1) & Hlo & Hhi & _).
  pose proof (size_pos m r Ho). pose proof (tiles_end _ _ _ _ (hw_tiles _ _ _ Hwf)) as Hre.
  pose proof Hwf as [B Ht Ha Hc Hf Hu (r0 & Hl & Hrm)]. rewrite last_snoc in Hl. injection Hl as <-.
  assert (HB : heap_base m h1).
  { destruct B as [B1 B2 B3 B4 B5 B6 B7 B8]. split; try done; cbn; unfold PAGE_SIZE in *.
    - Z.to_euclidean_division_equations; lia.
    - intros a ?. destruct (decide (a < end_address h)); [apply B6; lia | apply Hm; lia]. }
  assert (Hclr : forall idx, (forall p, p ∈ elems idx -> exists y, y ∈ l ++ [r] /\ a_at y = p) ->
    clear_of m (end_address h) (end_address h + g) (elems idx)).
  { intros idx Hidx. apply Forall_forall. intros p (y & Hy & <-)%Hidx. destruct (heap_readable m h _ y Hwf Hy) as (? & _ & ? & _).
    exists y. split_and!; try done. by left. }
  pose proof (create_area_at m h1 s (end_address h) g true HB) as Hcr.
  change (if true then AREA_FREE else AREA_USED) with AREA_FREE in Hcr. fold m' in Hcr.
  pose proof (tiles_le _ _ _ Ht). destruct B as [B1 B2 B3 B4 B5 B6 B7 B8]. unfold PAGE_SIZE in *.
  set (h2 := with_rightmost (Z.max (rightmost_area h1) (end_address h)) h1) in *.
  destruct (insert_free_at m' h2 s (end_address h)) as (a & Hi & Hwfa & Hea & Hma); [done | done|].
  exists (with_free a h2). split_and!; [| | |by repeat split].
  - unfold grow_rightmost. run (the_heap_at m h1 s). change (rightmost_area h1) with (rightmost_area h). rewrite Hrm.
    destruct (Z.eqb_spec (a_at r) 0); [lia|]. run (header_type_at m h1 s r Ho ltac:(lia) H1). unfold a_type. rewrite Hr.
    change (AREA_USED =? AREA_FREE) with false. cbv iota. check. run (header_size_at m h1 s r Ho).
    change (a_at r + a_size r) with (a_end r). rewrite Hre, u32_small by lia.
    erewrite (st_bind_Ok (create_area _ _ _)).
    2: { apply Hcr; cbn; try lia; apply Hclr; intros p Hp.
         - rewrite Hf in Hp. apply elem_free_at in Hp. naive_solver.
         - rewrite Hu in Hp. apply elem_used_at in Hp. naive_solver. }
    exact Hi.
  - assert (Hout : forall y, y < end_address h -> m' y = m y) by (intros y ?; apply put_area_frame; lia).
    split.
    + apply base_with_free; [done|]. apply base_with_rightmost, base_put_area, HB.
    + cbn. apply tiles_app. exists (end_address h). split; [done|]. cbn. unfold a_end. cbn. lia.
    + apply Forall_app. split.
      * eapply areas_frame; [exact Ha|]. intros y Hy b Hb. pose proof (tiles_in _ _ _ _ Ht Hy). apply Hout. lia.
      * constructor; [|done]. apply (put_area_ok m (end_address h) g true); lia.
    + apply coalesced_app; [done | done|]. intros u v Hu' Hv. rewrite last_snoc in Hu'. injection Hu' as <-. by rewrite Hr.
    + cbn. rewrite Hea. cbn. rewrite Hf, (free_at_app _ [x]), free_at_cons. cbn. apply Permutation_cons_append.
    + cbn. rewrite Hu, (used_at_app _ [x]), used_at_cons. cbn. by rewrite app_nil_r.
    + exists x. rewrite last_snoc. split; [done|]. cbn. unfold a_end in *. lia.
  - intros y Hy Hyf. pose proof (tiles_in _ _ _ _ Ht Hy). split.
    + intros b Hb. apply put_area_frame; unfold a_end in *; lia.
    + exists y. split_and!; try done. set_solver.
Qed.

Lemma heap_wf_frame m h l m' : heap_wf m h l -> agree (start_address h) (end_address h + PAGE_SIZE) m m' -> heap_wf m' h l.
Proof.
  intros [B Ht Ha Hc Hf Hu Hr] Hag. destruct B as [B1 B2 B3 B4 B5 B6 B7 B8]. unfold PAGE_SIZE in *. split; try done.
  - split; try done. eapply agree_mapped; [exact Hag | done].
  - eapply areas_frame; [exact Ha|]. intros x Hx a Hxa. apply Hag. pose proof (tiles_in _ _ _ _ Ht Hx). lia.
Qed.

(** One round of growing the heap. *)
Definition grow_round (sz : Z) : HM () :=
  h ← the_heap;
  let old_heap_size := u32 (end_address h - start_address h) in
  heap_expand sz ;;
  h ← the_heap;
  let new_heap_size := u32 (end_address h - start_address h) in
  grow_rightmost (u32 (new_heap_size - old_heap_size)).

(** [l'] is [l] with [g] bytes more at the end, all of them in a free last area. *)
Definition grown (g : Z) (l l' : list area) : Prop :=
  exists l0 x, l' = l0 ++ [x] /\ a_free x = true /\ g <= a_size x /\
    (forall r, last l = Some r -> a_free r = true -> a_size x = a_size r + g) /\ used_at l' = used_at l /\ zlen l' <= zlen l + 1.

Lemma grow_round_at m h l s sz n :
  heap_wf m h l -> hirq s = false -> fresh_trace s -> 0 <= sz < 2 ^ 31 -> 0 <= n -> grow_room m h s (growth sz + n) ->
  zlen l < max_size (free_index h) ->
  exists m' h' l' s', grow_round sz (at_ m h s) = Ok (tt, at_ m' h' s') /\ heap_wf m' h' l' /\
    kept m m' l l' /\ grown (growth sz) l l' /\ grow_room m' h' s' n /\ hirq s' = false /\ fresh_trace s' /\
    max_size (free_index h') = max_size (free_index h) /\ max_size (used_index h') = max_size (used_index h).
Proof.
  intros Hwf Hi Htr Hs Hn [G1 G2 G3 G4 G5] Hroom. destruct (growth_spec sz Hs) as (Hg1 & Hg2 & Hg3).
  pose proof (hw_base _ _ _ Hwf) as [B1 B2 B3 B4 B5 B6 B7 B8]. unfold PAGE_SIZE in *.
  pose proof (tiles_le _ _ _ (hw_tiles _ _ _ Hwf)).
  assert (Hfd : growth sz / 0x1000 * 0x1000 = growth sz) by (Z.to_euclidean_division_equations; lia).
  destruct (heap_expand_at m h l s sz Hwf Hi Hs) as (m1 & s1 & Hrun & Hm1 & Hout & Hi1 & Hl1 & Hf1).
  { split; unfold PAGE_SIZE; try lia. intros a ?. apply G5. lia. }
  unfold PAGE_SIZE in *. set (g := growth sz) in *. set (h1 := with_end (end_address h + g) h) in *.
  assert (Hwf1 : heap_wf m1 h l).
  { eapply heap_wf_frame; [exact Hwf|]. intros a Ha. apply Hout. unfold PAGE_SIZE in *. lia. }
  assert (Hk1 : kept m m1 l l).
  { intros x Hx Hxf. split; [|by exists x]. intros a Ha. apply Hout. destruct (heap_readable m h l x Hwf Hx) as (_ & ? & ? & _). lia. }
  assert (Hfree : size (free_index h) < max_size (free_index h)).
  { rewrite <- elems_len by done. rewrite (perm_zlen _ _ (hw_free _ _ _ Hwf)). pose proof (free_at_len l). lia. }
  assert (E : exists m' h' l', grow_rightmost g (at_ m1 h1 s1) = Ok (tt, at_ m' h' s1) /\ heap_wf m' h' l' /\
    kept m1 m' l l' /\ grown g l l' /\ same_shape h1 h' /\ (forall a, end_address h + g <= a -> m' a = m1 a)).
  { destruct (hw_right _ _ _ Hwf) as (r & Hr & _). apply last_Some in Hr as (l0 & ->).
    destruct (a_free r) eqn:Er.
    - destruct (grow_free m1 h s1 l0 r g) as (m' & Hg & Hwf' & Hk & Hfr); try done; unfold PAGE_SIZE; try lia.
      eexists m', h1, _. split_and!; try done. eexists l0, _. split_and!; try done.
      + cbn. destruct (heap_readable m h _ r Hwf ltac:(set_solver)) as ((Ho & _) & _). pose proof (size_pos m r Ho). lia.
      + intros r' Hr' _. rewrite last_snoc in Hr'. by injection Hr' as <-.
      + rewrite !used_at_app, !used_at_cons, Er. done.
      + rewrite !zlen_snoc. lia.
    - destruct (grow_used m1 h s1 l0 r g) as (h' & Hg & Hwf' & Hk & Hsh); try done; unfold PAGE_SIZE; try lia.
      eexists _, h', _. split; [exact Hg|]. split_and!; try done.
      + eexists (l0 ++ [r]), _. split_and!; try done.
        * intros r' Hr' Hrf. rewrite last_snoc in Hr'. injection Hr' as <-. congruence.
        * rewrite (used_at_app _ [_]), used_at_cons. cbn. by rewrite app_nil_r.
        * rewrite (zlen_snoc (l0 ++ [r])). lia.
      + intros a ?. apply put_area_frame; lia. }
  destruct E as (m' & h' & l' & Hgr & Hwf' & Hk' & Hgrown & (S1 & S2 & S3 & S4 & S5) & Hfr).
  exists m', h', l', s1. split_and!; try done.
  - unfold grow_round. run (the_heap_at m h s). run Hrun. run (the_heap_at m1 h1 s1). cbn [h1 with_end end_address start_address].
    rewrite !u32_small by (rewrite ?u32_small; lia).
    replace (end_address h + g - start_address h - (end_address h - start_address h)) with g by lia. exact Hgr.
  - eapply kept_trans; [exact Hk1 | exact Hk'].
  - cbn in S1, S2, S3. split; rewrite ?S1, ?S2, ?S3; unfold PAGE_SIZE; try lia. intros a Ha. rewrite Hfr, Hout by lia. apply G5. lia.
  - unfold fresh_trace in *. congruence.
Qed.

(** ** The property of [heap_alloc] *)
Definition need (al : bool) (sz : Z) : Z := sz + 20 + (if al then 0 else 3).

Section Alloc.
Context (name : list Z) (id ebp : Z).

Lemma need_u32 al sz : 0 <= sz -> need al sz < 2 ^ 32 ->
  (if al : bool then u32 (sz + (HEADER_SIZE + FOOTER_SIZE)) else u32 (u32 (sz + (HEADER_SIZE + FOOTER_SIZE)) + 3)) = need al sz.
Proof.
  intros. unfold need, HEADER_SIZE, FOOTER_SIZE in *. destruct al; rewrite !u32_small; rewrite ?u32_small; lia.
Qed.

Lemma heap_alloc_unfold fuel sz al s : 0 <= sz -> need al sz < 2 ^ 32 ->
  heap_alloc name id ebp fuel sz al s =
  (area ← find_smallest_hole (need al sz) al;
   if area =? 0 then
     match fuel with
     | O => lift NoFuel
     | S fuel => grow_round (need al sz) ;; heap_alloc name id ebp fuel (need al sz) al
     end
   else place_area name id ebp area (need al sz) al) s.
Proof.
  intros ? ?. destruct fuel; cbn [heap_alloc]; rewrite need_u32 by done; [done|].
  unfold mbind, st_bind. destruct (find_smallest_hole (need al sz) al s) as [[a s1]| | |]; try done.
  destruct (a =? 0); [|done]. unfold grow_round, mbind, st_bind.
  destruct (the_heap s1) as [[h s2]| | |]; try done. destruct (heap_expand (need al sz) s2) as [[? s3]| | |]; try done.
  destruct (the_heap s3) as [[h' s4]| | |]; try done.
Qed.

(** What an allocation of [sz] bytes returns. *)
Record allocated (m : mem) (l : list area) (sz : Z) (al : bool) (p : Z) (m' : mem) (h' : heap_t) (l' : list area) : Prop := {
  al_wf : heap_wf m' h' l';
  al_kept : kept m m' l l';
  al_block : exists y, y ∈ l' /\ a_free y = false /\ p = dword_up (a_at y + 12) /\ a_at y + 12 <= p /\
    p + sz <= a_end y - 8 /\ used_at l' ≡ₚ a_at y :: used_at l;
  al_dword : p mod 4 = 0;
  al_page : al = true -> p mod PAGE_SIZE = 0
}.

Lemma heap_alloc_hole m h l s sz al fuel :
  heap_wf m h l -> fresh_trace s -> 0 <= sz -> 20 < need al sz < 2 ^ 31 ->
  zlen l < max_size (free_index h) -> zlen l < max_size (used_index h) ->
  (exists x, x ∈ l /\ a_free x = true /\ fits (need al sz) al x) ->
  exists p m' h' l', heap_alloc name id ebp fuel sz al (at_ m h s) = Ok (p, at_ m' h' s) /\
    allocated m l sz al p m' h' l' /\ same_shape h h'.
Proof.
  intros Hwf Htr Hs Hn Hr1 Hr2 (x0 & Hx0 & Hf0 & Hfit0). rewrite heap_alloc_unfold by lia.
  destruct (find_hole_at m h l s (need al sz) al Hwf ltac:(lia)) as (r & Hrun & [[-> Hno]|(Hr & x & Hx & Hxf & <- & Hfit)]).
  { by destruct (Hno x0 Hx0 Hf0). }
  run Hrun. destruct (Z.eqb_spec (a_at x) 0); [done|]. apply list_elem_of_split in Hx as (l1 & l2 & ->).
  destruct (place_area_at name id ebp m h s l1 x l2 (need al sz) al Hwf Hxf ltac:(lia) Hfit Htr Hr1 Hr2)
    as (m' & h' & l' & y & Hrun' & Hwf' & Hy & Hyf & Hle & Hal & Hk & Hu & Hsh & _).
  destruct (heap_readable m' h' l' y Hwf' Hy) as (_ & Hlo & Hhi & _).
  destruct (hw_base _ _ _ Hwf') as [B1 _ _ B4 _ _ _ _]. unfold PAGE_SIZE, a_end in *.
  pose proof (dword_up_spec (a_at y + 12)) as (D1 & D2 & D3); [lia | unfold need in *; destruct al; lia|].
  eexists _, m', h', l'. split; [exact Hrun'|]. split; [|done]. split; try done.
  - exists y. unfold a_end. split_and!; try done; [lia|]. unfold need in Hle. destruct al; [|lia].
    specialize (Hal eq_refl). unfold PAGE_SIZE in Hal. rewrite D3 by (Z.to_euclidean_division_equations; lia). lia.
  - intros ->. specialize (Hal eq_refl). unfold PAGE_SIZE in *. rewrite D3; [done|]. Z.to_euclidean_division_equations; lia.
Qed.
End Alloc.

Section Alloc2.
Context (name : list Z) (id ebp : Z).

Lemma allocated_after m m1 l l1 sz sz1 al p m' h' l' :
  kept m m1 l l1 -> used_at l1 = used_at l -> sz <= sz1 -> allocated m1 l1 sz1 al p m' h' l' -> allocated m l sz al p m' h' l'.
Proof.
  intros Hk Hu Hs [A1 A2 (y & Hy & Hyf & Hp & Hlo & Hhi & Hus) A4 A5]. split; try done.
  - eapply kept_trans; done.
  - exists y. rewrite <- Hu. split_and!; try done. lia.
Qed.

Lemma grown_fits n al g l l' : grown g l l' ->
  (n <= g - PAGE_SIZE \/ (exists r, last l = Some r /\ a_free r = true /\ n <= a_size r + g - PAGE_SIZE)) ->
  exists x, x ∈ l' /\ a_free x = true /\ fits n al x.
Proof.
  intros (l0 & x & -> & Hx & Hg & Hlast & _ & _) Hn. exists x. split_and!; [set_solver | done|].
  unfold fits. pose proof (align_offset_bound (a_at x)). destruct Hn as [Hn|(r & Hr & Hrf & Hn)].
  - destruct al; lia.
  - rewrite (Hlast r Hr Hrf). destruct al; lia.
Qed.

Definition GROW_BOUND (sz : Z) : Z := 2 * sz + 0x14000.

Lemma grow_room_le m h s n n' : grow_room m h s n -> n' <= n -> grow_room m h s n'.
Proof. intros [G1 G2 G3 G4 G5] ?. split; try lia. intros a ?. apply G5. lia. Qed.

Lemma heap_alloc_cases m h l s sz al fuel : heap_wf m h l -> 0 <= sz -> need al sz < 2 ^ 32 ->
  (exists x, x ∈ l /\ a_free x = true /\ fits (need al sz) al x) \/
  heap_alloc name id ebp (S fuel) sz al (at_ m h s) =
    (grow_round (need al sz) ;; heap_alloc name id ebp fuel (need al sz) al) (at_ m h s).
Proof.
  intros Hwf Hs Hn. assert (0 <= need al sz) by (unfold need; destruct al; lia).
  destruct (find_hole_at m h l s (need al sz) al Hwf ltac:(lia)) as (r & Hrun & [[-> Hno]|(Hr & x & Hx & Hxf & <- & Hfit)]).
  - right. rewrite heap_alloc_unfold by lia. by run Hrun.
  - left. by exists x.
Qed.

Lemma heap_alloc_total m h l s sz al :
  heap_wf m h l -> fresh_trace s -> hirq s = false -> 0 <= sz < 2 ^ 30 -> (al = true -> 0 < sz) ->
  zlen l + 2 < max_size (free_index h) -> zlen l + 2 < max_size (used_index h) ->
  (exists x, x ∈ l /\ a_free x = true /\ fits (need al sz) al x) \/ grow_room m h s (GROW_BOUND sz) ->
  exists p m' h' l' s', heap_alloc name id ebp 2 sz al (at_ m h s) = Ok (p, at_ m' h' s') /\
    allocated m l sz al p m' h' l' /\ hirq s' = false /\ fresh_trace s'.
Proof.
  intros Hwf Htr Hi Hs Hal Hr1 Hr2 Hcase. set (n1 := need al sz). set (n2 := need al n1).
  assert (Hn : 20 < n1 /\ n1 < n2 /\ need al n2 < 2 ^ 31 /\ sz + 20 <= n1 <= sz + 23 /\ n1 + 20 <= n2 <= n1 + 23 /\
    n2 + 20 <= need al n2 <= n2 + 23)
    by (unfold n2, n1, need; destruct al; [specialize (Hal eq_refl)|]; lia).
  assert (Hone : forall m h l s sz f, heap_wf m h l -> fresh_trace s -> hirq s = false -> 0 <= sz -> 20 < need al sz < 2 ^ 31 ->
    zlen l < max_size (free_index h) -> zlen l < max_size (used_index h) ->
    (exists x, x ∈ l /\ a_free x = true /\ fits (need al sz) al x) ->
    exists p m' h' l' s', heap_alloc name id ebp f sz al (at_ m h s) = Ok (p, at_ m' h' s') /\
      allocated m l sz al p m' h' l' /\ hirq s' = false /\ fresh_trace s').
  { clear. intros m h l s sz f Hwf Htr Hi Hs Hn Hr1 Hr2 Hx.
    destruct (heap_alloc_hole name id ebp m h l s sz al f Hwf Htr Hs Hn Hr1 Hr2 Hx) as (p & m' & h' & l' & Hrun & A & _).
    by exists p, m', h', l', s. }
  destruct Hcase as [Hx|Hgr]; [by apply Hone; fold n1; try lia|].
  destruct (growth_spec n1 ltac:(lia)) as (Hg1 & Hg2 & Hg3). destruct (growth_spec n2 ltac:(lia)) as (Hg4 & Hg5 & Hg6).
  assert (Hgb : growth n1 + growth n2 <= GROW_BOUND sz) by (unfold GROW_BOUND, PAGE_SIZE in *; lia).
  destruct (heap_alloc_cases m h l s sz al 1 Hwf) as [Hx | ->]; [lia | fold n1; lia | by apply Hone; fold n1; try lia|]. fold n1.
  destruct (grow_round_at m h l s n1 (growth n2) Hwf Hi Htr) as (m1 & h1 & l1 & s1 & Hrg & Hwf1 & Hk1 & Hg & Hgr1 & Hi1 & Htr1 & X1 & X2);
    try lia; [by eapply grow_room_le|]. run Hrg.
  pose proof Hg as (l0 & x & Hl1 & Hxf & Hxs & _ & Hu1 & Hz1).
  destruct (heap_alloc_cases m1 h1 l1 s1 n1 al 0 Hwf1) as [Hx | ->]; [lia | fold n2; lia | |]; fold n2.
  { destruct (Hone m1 h1 l1 s1 n1 1%nat) as (p & m' & h' & l' & s' & Hrun & A & ? & ?); try done; try (fold n2; lia).
    exists p, m', h', l', s'. split_and!; try done. eapply allocated_after; [exact Hk1 | done | | exact A]. lia. }
  destruct (grow_round_at m1 h1 l1 s1 n2 0 Hwf1 Hi1 Htr1) as (m2 & h2 & l2 & s2 & Hrg2 & Hwf2 & Hk2 & Hg' & _ & Hi2 & Htr2 & X3 & X4);
    try lia; [by rewrite Z.add_0_r|]. run Hrg2. pose proof Hg' as (_ & _ & _ & _ & _ & _ & Hu2 & Hz2).
  destruct (Hone m2 h2 l2 s2 n2 0%nat) as (p & m' & h' & l' & s' & Hrun & A & ? & ?); try done; try lia.
  { eapply grown_fits; [exact Hg' |]. right. exists x. split_and!; [by rewrite Hl1, last_snoc | done|]. unfold PAGE_SIZE. lia. }
  exists p, m', h', l', s'. split_and!; try done.
  apply (allocated_after m m1 l l1 sz n1); [exact Hk1 | done | lia|].
  apply (allocated_after m1 m2 l1 l2 n1 n2); [exact Hk2 | done | lia | exact A].
Qed.
End Alloc2.
