(* ===== verification/HeapFree.v ===== *)
(** * Freeing areas of the kernel heap

    [heap_free] finds the header behind the caller's pointer, takes the area out of the
    used index and joins it with the free areas beside it.  In between the area is free
    and in no index, or already part of an indexed one ([float_wf]). *)
From S2P Require Import Prelude Memory OrderedArray Heap HeapInv HeapAlloc.

(** ** Finding the header *)
Lemma ld32_low m a v : ld32 m a = Ok v -> ld8 m a = Ok (v mod 256).
Proof.
  unfold ld32. intros H. simp_res.
  repeat match goal with E : ld8 _ _ = Ok _ |- _ => let F := fresh in pose proof (ld8_Ok _ _ _ E) as [_ F]; revert E end.
  intros. match goal with E : ld8 m a = Ok ?b |- _ => rewrite E end. f_equal. Z.to_euclidean_division_equations; lia.
Qed.

Lemma magic_bytes m a : ld32 m a = Ok HEAP_MAGIC ->
  ld8 m (a + 1) = Ok 0xef /\ ld8 m (a + 2) = Ok 0xcd /\ ld8 m (a + 3) = Ok 0xab.
Proof.
  unfold ld32, HEAP_MAGIC. intros H. simp_res.
  repeat match goal with E : ld8 _ _ = Ok _ |- _ => let F := fresh in pose proof (ld8_Ok _ _ _ E) as [_ F]; revert E end.
  intros. repeat match goal with E : ld8 m _ = Ok ?b |- context [ld8 m _] => rewrite E; clear E end.
  split_and!; f_equal; lia.
Qed.

(** A word that starts inside the magic word is not the magic word. *)
Lemma no_magic_inside m a k v : ld32 m a = Ok HEAP_MAGIC -> 1 <= k <= 3 -> ld32 m (a + k) = Ok v -> v <> HEAP_MAGIC.
Proof.
  intros Hm Hk Hv%ld32_low ->. destruct (magic_bytes m a Hm) as (H1 & H2 & H3). change (HEAP_MAGIC mod 256) with 0x12 in Hv.
  assert (k = 1 \/ k = 2 \/ k = 3) as [->|[->| ->]] by lia; congruence.
Qed.

Lemma header_scan_at m h s x k fuel :
  area_ok m x -> 0 <= a_at x -> a_end x < 2 ^ 32 -> mapped m (a_at x) (a_end x) -> 0 <= k <= 3 -> (Z.to_nat k <= fuel)%nat ->
  header_scan fuel (a_at x + k) (at_ m h s) = Ok (a_at x, at_ m h s).
Proof.
  intros Hx Hlo Hhi Hm. revert k. induction fuel as [|fuel IH]; intros k Hk Hf.
  - assert (k = 0) as -> by lia. rewrite Z.add_0_r. cbn [header_scan]. run (header_magic_at m h s x Hx Hlo Hhi). by rewrite Z.eqb_refl.
  - cbn [header_scan]. destruct (decide (k = 0)) as [->|].
    { rewrite Z.add_0_r. run (header_magic_at m h s x Hx Hlo Hhi). by rewrite Z.eqb_refl. }
    pose proof (size_pos m x Hx). unfold a_end in *. unfold header_magic. rewrite (u32_small (a_at x + k + 8)) by lia.
    destruct (ld32_mapped m (a_at x + k + 8)) as [v Hv]; [eapply mapped_sub; [exact Hm | lia | lia]|].
    run (rd32_at m h s _ v Hv). replace (a_at x + k + 8) with (a_at x + 8 + k) in Hv by lia.
    destruct (Z.eqb_spec v HEAP_MAGIC) as [E|].
    { by destruct (no_magic_inside m _ k v (ao_magic _ _ Hx) ltac:(lia) Hv). }
    rewrite u32_small by lia. replace (a_at x + k - 1) with (a_at x + (k - 1)) by lia. apply IH; lia.
Qed.

Lemma heap_mapped m h l x : heap_wf m h l -> x ∈ l -> mapped m (a_at x) (a_end x).
Proof.
  intros Hwf Hx. destruct (heap_readable m h l x Hwf Hx) as (_ & ? & ? & _).
  eapply mapped_sub; [apply Hwf | done | unfold PAGE_SIZE; lia].
Qed.

(** The pointer the caller of [heap_alloc] got for the area [x]. *)
Definition ptr_of (x : area) : Z := dword_up (a_at x + 12).

Lemma ptr_of_bound m h l x : heap_wf m h l -> x ∈ l ->
  a_at x + 12 <= ptr_of x < a_at x + 16 /\ start_address h <= ptr_of x /\ ptr_of x < end_address h /\ 0 < ptr_of x.
Proof.
  intros Hwf Hx. destruct (heap_readable m h l x Hwf Hx) as ((Ho & ? & ?) & ? & ? & _). pose proof (size_pos m x Ho).
  destruct (hw_base _ _ _ Hwf) as [B1 _ _ B4 _ _ _ _]. unfold PAGE_SIZE, a_end in *.
  destruct (dword_up_spec (a_at x + 12)) as (D & _); [lia | lia|]. fold (ptr_of x) in D. lia.
Qed.

Lemma find_area_at m h s l x : heap_wf m h l -> x ∈ l -> a_free x = false -> end_address h <= max_address h ->
  find_area_and_validate (ptr_of x) (at_ m h s) = Ok (Some (a_at x, a_end x - 8), at_ m h s).
Proof.
  intros Hwf Hx Hf Hmax. destruct (heap_readable m h l x Hwf Hx) as ((Ho & H0 & H1) & Hlo & Hhi & _).
  destruct (ptr_of_bound m h l x Hwf Hx) as (P1 & P2 & P3 & P4). pose proof (heap_mapped m h l x Hwf Hx) as Hm.
  unfold find_area_and_validate. run (the_heap_at m h s).
  destruct (Z.ltb_spec (max_address h) (ptr_of x)); [lia|]. destruct (Z.ltb_spec (ptr_of x) (start_address h)); [lia|]. cbn [orb].
  unfold HEADER_SIZE. pose proof (hb_end _ _ (hw_base _ _ _ Hwf)). unfold PAGE_SIZE in *. rewrite u32_small by lia.
  replace (ptr_of x - 12) with (a_at x + (ptr_of x - a_at x - 12)) by lia.
  assert (Hscan : header_scan SCAN_FUEL (a_at x + (ptr_of x - a_at x - 12)) (at_ m h s) = Ok (a_at x, at_ m h s)).
  { apply header_scan_at; try done; try lia. unfold SCAN_FUEL. lia. }
  run Hscan. run (footer_at m h s x Ho ltac:(lia) H1). run (header_magic_at m h s x Ho ltac:(lia) H1). check.
  run (header_type_at m h s x Ho ltac:(lia) H1). unfold a_type. rewrite Hf. check.
  run (footer_magic_at m h s x Ho). check. run (footer_header_at m h s x Ho ltac:(lia) H1). check. done.
Qed.

(** ** The area between the indexes *)
Record float_wf (m : mem) (h : heap_t) (l1 : list area) (x : area) (l2 : list area) (indexed : bool) : Prop := {
  fw_base : heap_base m h;
  fw_tiles : tiles (start_address h) (l1 ++ x :: l2) (end_address h);
  fw_areas : Forall (area_ok m) (l1 ++ x :: l2);
  fw_isfree : a_free x = true;
  fw_co1 : coalesced l1;
  fw_co2 : coalesced l2;
  fw_free : elems (free_index h) ≡ₚ (if indexed then [a_at x] else []) ++ free_at (l1 ++ l2);
  fw_used : elems (used_index h) ≡ₚ used_at (l1 ++ l2);
  fw_right : exists r, last (l1 ++ x :: l2) = Some r /\ rightmost_area h = a_at r
}.

Section Float.
Context {m : mem} {h : heap_t} {l1 : list area} {x : area} {l2 : list area} {b : bool} (W : float_wf m h l1 x l2 b).

Lemma float_readable y : y ∈ l1 ++ x :: l2 -> readable m y /\ start_address h <= a_at y /\ a_end y <= end_address h.
Proof.
  intros Hy. pose proof (tiles_in _ _ _ _ (fw_tiles _ _ _ _ _ _ W) Hy) as [? ?].
  assert (Ho : area_ok m y) by (pose proof (fw_areas _ _ _ _ _ _ W) as HF; rewrite Forall_forall in HF; by apply HF).
  destruct (fw_base _ _ _ _ _ _ W) as [B1 _ _ B4 _ _ _ _]. unfold readable, PAGE_SIZE in *. split_and!; try done; lia.
Qed.

(** Areas other than [x] end before it or start after it. *)
Lemma float_apart y : y ∈ l1 ++ l2 -> (y ∈ l1 /\ a_end y <= a_at x) \/ (y ∈ l2 /\ a_end x <= a_at y).
Proof.
  pose proof (fw_tiles _ _ _ _ _ _ W) as Ht. apply tiles_app in Ht as (mid & Ht1 & Ht2). cbn in Ht2. destruct Ht2 as (<- & _ & Ht2).
  intros [Hy|Hy]%elem_of_app; [left | right]; split; try done.
  - by apply (tiles_in _ _ _ _ Ht1).
  - by apply (tiles_in _ _ _ _ Ht2).
Qed.
End Float.

(** The header of [a] and the footer of [b] make one area. *)
Lemma join_ok m m' a b : area_ok m a -> area_ok m b -> a_end a = a_at b -> a_free a = true ->
  a_size a + a_size b < 2 ^ 32 ->
  ld32 m' (a_at a) = Ok (a_size a + a_size b) -> ld8 m' (a_at a + 4) = Ok AREA_FREE ->
  agree (a_at a + 8) (a_at a + 12) m m' -> agree (a_end b - 8) (a_end b - 4) m m' ->
  ld32 m' (a_end b - 4) = Ok (a_at a) -> area_ok m' (mk_area (a_at a) (a_size a + a_size b) true).
Proof.
  intros Ha Hb He Hf Hs H1 H2 H3 H4 H5. pose proof (size_pos m a Ha). pose proof (size_pos m b Hb). unfold a_end in *.
  assert (E : a_at a + (a_size a + a_size b) = a_at b + a_size b) by lia.
  split; unfold a_end, a_type, HEADER_SIZE, FOOTER_SIZE; cbn [a_at a_size a_free]; rewrite ?E; try done; try lia.
  - rewrite (ld32_ext m); [apply Ha|]. eapply agree_sub; [exact H3 | lia | lia].
  - rewrite (ld32_ext m); [apply Hb|]. eapply agree_sub; [exact H4 | lia | lia].
Qed.

(** ** Leaving the used index *)
Lemma release_at m h s l1 x l2 : heap_wf m h (l1 ++ x :: l2) -> a_free x = false ->
  let x' := mk_area (a_at x) (a_size x) true in let m' := upd8 m (a_at x + 4) AREA_FREE in
  exists a, (remove_used (a_at x) ;; set_header_type (a_at x) AREA_FREE) (at_ m h s) = Ok (tt, at_ m' (with_used a h) s) /\
    float_wf m' (with_used a h) l1 x' l2 false /\ max_size a = max_size (used_index h) /\
    (forall y, ~ a_at x <= y < a_end x -> m' y = m y).
Proof.
  intros Hwf Hf x' m'. destruct (heap_readable m h _ x Hwf ltac:(set_solver)) as ((Ho & H0 & H1) & Hlo & Hhi & _).
  pose proof (size_pos m x Ho). pose proof (heap_mapped m h _ x Hwf ltac:(set_solver)) as Hm.
  pose proof Hwf as [B Ht Ha Hc Hfr Hu (r & Hr & Hrm)]. unfold a_end in *.
  destruct (remove_used_at m h s (a_at x)) as (a & Hrun & Hwfa & He & Hmx).
  { apply B. } { rewrite Hu. apply elem_used_at. exists x. split_and!; [set_solver | done | done]. }
  exists a. split_and!; try done.
  - run Hrun. unfold set_header_type. rewrite u32_small by lia. apply wr8_at. apply Hm. lia.
  - pose proof Ht as Ht0. apply tiles_app in Ht as (mid & Ht1 & Ht2). cbn in Ht2. destruct Ht2 as (<- & _ & Ht2).
    apply Forall_app in Ha as [Ha1 Ha2]. inversion Ha2 as [|? ? _ Ha2']; subst.
    apply coalesced_app_inv in Hc as (C1 & C2 & _).
    split; cbn [with_used start_address end_address free_index used_index rightmost_area]; try done.
    + apply base_with_used; [done|]. destruct B as [B1 B2 B3 B4 B5 B6 B7 B8]. split; try done. by apply mapped_upd8.
    + apply tiles_app. exists (a_at x). split; [done|]. by split_and!; [done | cbn; lia | exact Ht2].
    + apply Forall_app. split; [|constructor].
      * eapply areas_frame; [exact Ha1|]. intros y Hy b Hb. pose proof (tiles_in _ _ _ _ Ht1 Hy). apply upd8_other. lia.
      * destruct Ho as [O1 O2 O3 O4 O5 O6]. unfold a_end in *. split; unfold a_end, a_type, x'; cbn [a_at a_size a_free]; try done;
          try (rewrite (ld32_ext m); [done|]; unfold m'; apply agree_upd8; lia). apply ld8_upd8.
      * eapply areas_frame; [exact Ha2'|]. intros y Hy b Hb. pose proof (tiles_in _ _ _ _ Ht2 Hy). unfold a_end in *. apply upd8_other. lia.
    + destruct l2; [done|]. by destruct C2.
    + rewrite Hfr, !free_at_app, free_at_cons, Hf. done.
    + rewrite He in Hu. rewrite used_at_app, used_at_cons, Hf, <- Permutation_middle, <- used_at_app in Hu.
      by apply Permutation_cons_inv in Hu.
    + rewrite last_app_cons in *. destruct l2 as [|y l2]; [|by exists r]. cbn in Hr. injection Hr as <-. by exists x'.
  - intros y Hy. apply upd8_other. lia.
Qed.

(** ** Joining with the neighbours *)
Definition last_used (l : list area) : Prop := match last l with Some y => a_free y = false | None => True end.
Definition head_used (l : list area) : Prop := match head l with Some y => a_free y = false | None => True end.

Lemma is_free_header_at m h s y : area_ok m y -> 0 <= a_at y -> a_end y < 2 ^ 32 ->
  is_free_header (a_at y) (at_ m h s) = Ok (a_free y, at_ m h s).
Proof.
  intros Hy ? ?. unfold is_free_header. run (header_magic_at m h s y Hy ltac:(lia) ltac:(lia)). rewrite Z.eqb_refl.
  run (header_type_at m h s y Hy ltac:(lia) ltac:(lia)). unfold a_type. by destruct (a_free y).
Qed.

(** The memory after the area [y] has taken in [x], on its right. *)
Definition join_left (m : mem) (y x : area) : mem :=
  upd32 (upd32 (upd32 (upd32 m (a_at y) (a_size y + a_size x)) (a_end x - 4) (a_at y)) (a_at x + 8) 0) (a_at x - 8) 0.

Lemma join_left_frame m y x a : a_end y = a_at x -> 20 < a_size y -> 20 < a_size x ->
  ~ a_at y <= a < a_end x -> join_left m y x a = m a.
Proof. intros. unfold join_left, a_end in *. by rewrite !upd32_other by lia. Qed.
Lemma join_left_ok m y x : area_ok m y -> area_ok m x -> a_end y = a_at x -> a_free y = true -> 0 <= a_at y ->
  a_end x < 2 ^ 32 -> area_ok (join_left m y x) (mk_area (a_at y) (a_size y + a_size x) true).
Proof.
  intros Hy Hx He Hf H0 Hh. pose proof (size_pos m y Hy). pose proof (size_pos m x Hx). unfold join_left.
  set (m1 := upd32 m (a_at y) (a_size y + a_size x)). set (m2 := upd32 m1 (a_end x - 4) (a_at y)). unfold a_end in *.
  apply (join_ok m _ y x); try done; try (unfold a_end; lia).
  - rewrite (ld32_ext m1) by (intros b ?; unfold m2; by rewrite !upd32_other by lia). apply ld32_upd32. lia.
  - rewrite (ld8_ext m) by (unfold m2, m1; by rewrite !upd32_other by lia). rewrite (ao_type _ _ Hy). unfold a_type. by rewrite Hf.
  - intros b ?. unfold m2, m1. by rewrite !upd32_other by lia.
  - intros b ?. unfold a_end in *. unfold m2, m1. by rewrite !upd32_other by lia.
  - unfold a_end. rewrite (ld32_ext m2) by (intros b ?; by rewrite !upd32_other by lia). apply ld32_upd32. lia.
Qed.

Lemma unify_left_run m h s l0 y x l2 :
  float_wf m h (l0 ++ [y]) x l2 false -> a_free y = true ->
  let m' := join_left m y x in
  let h' := if a_at x =? rightmost_area h then with_rightmost (a_at y) h else h in
  unify_left (a_at x) (a_end x - 8) (at_ m h s) = Ok ((a_at y, false), at_ m' h' s).
Proof.
  intros W Hy m' h'. destruct (float_readable W y) as ((Oy & Y0 & Y1) & Ylo & _); [set_solver|].
  destruct (float_readable W x) as ((Ox & X0 & X1) & Xlo & Xhi); [set_solver|].
  pose proof (size_pos m y Oy). pose proof (size_pos m x Ox). destruct (fw_base _ _ _ _ _ _ W) as [B1 _ _ B4 _ B6 _ _].
  pose proof (fw_tiles _ _ _ _ _ _ W) as Ht. apply tiles_app in Ht as (mid & Ht1 & Ht2). apply tiles_end in Ht1 as Hye.
  cbn in Ht2. destruct Ht2 as (Exm & _ & _). unfold a_end, PAGE_SIZE in *.
  assert (Mm : forall lo hi, start_address h <= lo -> hi <= end_address h -> mapped m lo hi).
  { intros. eapply mapped_sub; [exact B6 | lia | lia]. }
  unfold unify_left. run (the_heap_at m h s). rewrite (u32_small (a_at x - FOOTER_SIZE)) by (unfold FOOTER_SIZE; lia).
  unfold FOOTER_SIZE. destruct (Z.leb_spec (start_address h) (a_at x - 8)); [|lia].
  replace (a_at x - 8) with (a_end y - 8) by (unfold a_end; lia).
  run (footer_magic_at m h s y Oy). rewrite Z.eqb_refl. run (footer_header_at m h s y Oy ltac:(lia) Y1).
  run (is_free_header_at m h s y Oy ltac:(lia) Y1). rewrite Hy.
  run (header_size_at m h s y Oy). run (header_size_at m h s x Ox). rewrite u32_small by lia.
  unfold set_header_size. run (wr32_at m h s (a_at y) (a_size y + a_size x) ltac:(apply Mm; lia)).
  set (m1 := upd32 m (a_at y) (a_size y + a_size x)) in *.
  unfold FOOTER_FROM_HEADER, header_size. erewrite (st_bind_Ok (_ ≫= _)).
  2: { run (rd32_at m1 h s (a_at y) (a_size y + a_size x) ltac:(apply ld32_upd32; lia)). unfold FOOTER_SIZE.
       rewrite u32_small by lia. replace (a_at y + (a_size y + a_size x) - 8) with (a_at x + a_size x - 8) by lia. done. }
  check. unfold set_footer_header, set_header_magic, set_footer_magic. rewrite !u32_small by lia.
  replace (a_at x + a_size x - 8 + 4) with (a_at x + a_size x - 4) by lia.
  run (wr32_at m1 h s (a_at x + a_size x - 4) (a_at y) ltac:(apply mapped_upd32, Mm; lia)).
  set (m2 := upd32 m1 (a_at x + a_size x - 4) (a_at y)).
  run (wr32_at m2 h s (a_at x + 8) 0 ltac:(repeat apply mapped_upd32; apply Mm; lia)).
  set (m3 := upd32 m2 (a_at x + 8) 0). replace (a_end y - 8) with (a_at x - 8) by (unfold a_end; lia).
  run (wr32_at m3 h s (a_at x - 8) 0 ltac:(repeat apply mapped_upd32; apply Mm; lia)).
  unfold h'. by destruct (a_at x =? rightmost_area h).
Qed.

Lemma unify_left_at m h s l1 x l2 : float_wf m h l1 x l2 false ->
  exists m' h' l1' x' b, unify_left (a_at x) (a_end x - 8) (at_ m h s) = Ok ((a_at x', negb b), at_ m' h' s) /\
    float_wf m' h' l1' x' l2 b /\ a_end x' = a_end x /\ last_used l1' /\ kept m m' (l1 ++ l2) (l1' ++ l2) /\
    (forall a, end_address h <= a -> m' a = m a) /\ same_shape h h' /\ used_index h' = used_index h /\ zlen l1' <= zlen l1.
Proof.
  intros W. destruct (float_readable W x) as ((Ox & X0 & X1) & Xlo & Xhi); [set_solver|].
  pose proof (size_pos m x Ox). pose proof (fw_base _ _ _ _ _ _ W) as [B1 B2 B3 B4 B5 B6 B7 B8].
  destruct (exists_last_or_nil l1) as [->|(l0 & y & ->)].
  { exists m, h, [], x, false. split_and!; try done; [|apply kept_refl]. cbn [negb].
    pose proof (fw_tiles _ _ _ _ _ _ W) as Ht. cbn in Ht. destruct Ht as (E & _ & _). unfold unify_left. run (the_heap_at m h s).
    unfold FOOTER_SIZE, PAGE_SIZE, a_end in *. rewrite u32_small by lia. by destruct (Z.leb_spec (start_address h) (a_at x - 8)); [lia|]. }
  destruct (float_readable W y) as ((Oy & Y0 & Y1) & Ylo & _); [set_solver|]. pose proof (size_pos m y Oy).
  pose proof (fw_tiles _ _ _ _ _ _ W) as Ht. apply tiles_app in Ht as (mid & Ht1 & Ht2). apply tiles_end in Ht1 as Hye.
  apply tiles_app in Ht1 as (mid' & Ht0 & E'). cbn in E'. destruct E' as (<- & _ & _).
  cbn in Ht2. destruct Ht2 as (Exm & _ & Ht2). rewrite <- Exm in Hye. destruct (a_free y) eqn:Hy.
  2: { exists m, h, (l0 ++ [y]), x, false. split_and!; try done; [| unfold last_used; by rewrite last_snoc | apply kept_refl].
    unfold unify_left. run (the_heap_at m h s). unfold FOOTER_SIZE, PAGE_SIZE in *. unfold a_end in X1, Hye. rewrite u32_small by lia.
    destruct (Z.leb_spec (start_address h) (a_at x - 8)); [|lia].
    replace (a_at x - 8) with (a_end y - 8) by (unfold a_end; lia).
    run (footer_magic_at m h s y Oy). rewrite Z.eqb_refl. run (footer_header_at m h s y Oy ltac:(lia) Y1).
    run (is_free_header_at m h s y Oy ltac:(lia) Y1). rewrite Hy. done. }
  set (x' := mk_area (a_at y) (a_size y + a_size x) true). set (m' := join_left m y x).
  assert (Hxe : a_end x' = a_end x) by (unfold x', a_end in *; cbn; lia).
  assert (Hout : forall a, ~ a_at y <= a < a_end x -> m' a = m a) by (intros; by apply join_left_frame).
  eexists m', _, l0, x', true. split; [exact (unify_left_run m h s l0 y x l2 W Hy)|].
  destruct W as [W1 W2 W3 W4 W5 W6 W7 W8 (r & Hr & Hrm)].
  rewrite <- app_assoc in W3. apply Forall_app in W3 as [W3 W3']. inversion W3' as [|? ? _ W3'']; subst. inversion W3'' as [|? ? _ W3x]; subst.
  apply coalesced_app_inv in W5 as (C1 & _ & CJ).
  set (h' := if a_at x =? rightmost_area h then with_rightmost (a_at y) h else h).
  assert (Hsame : start_address h' = start_address h /\ end_address h' = end_address h /\ max_address h' = max_address h /\
    free_index h' = free_index h /\ used_index h' = used_index h) by (unfold h'; by destruct (a_at x =? rightmost_area h)).
  destruct Hsame as (S1 & S2 & S3 & S4 & S5).
  split_and!; try done.
  - split; rewrite ?S1, ?S2, ?S4, ?S5; try done.
    + split; rewrite ?S1, ?S2, ?S4, ?S5; try done. unfold m', join_left. by repeat apply mapped_upd32.
    + apply tiles_app. exists (a_at y). split; [done|]. split_and!; [done | unfold x'; cbn; lia | by rewrite Hxe].
    + apply Forall_app. split; [|constructor].
      * eapply areas_frame; [exact W3|]. intros z Hz a Ha. apply Hout. pose proof (tiles_in _ _ _ _ Ht0 Hz). lia.
      * apply join_left_ok; try done; lia.
      * eapply areas_frame; [exact W3x|]. intros z Hz a Ha. apply Hout. pose proof (tiles_in _ _ _ _ Ht2 Hz). lia.
    + rewrite W7, !free_at_app, free_at_cons, Hy. rewrite <- app_assoc. change (free_at []) with (@nil Z). cbn [app]. by rewrite <- Permutation_middle.
    + rewrite W8, !used_at_app, used_at_cons, Hy. cbn. by rewrite app_nil_r.
    + rewrite last_app_cons in *. unfold h'. destruct l2 as [|z l2].
      * cbn in Hr. injection Hr as <-. rewrite Hrm, Z.eqb_refl. exists x'. done.
      * exists r. split; [exact Hr|]. destruct (Z.eqb_spec (a_at x) (rightmost_area h)) as [E|]; [|done].
        assert (Hin : r ∈ z :: l2) by (by eapply last_Some_elem_of). pose proof (tiles_in _ _ _ _ Ht2 Hin).
        unfold a_end in *. rewrite Hrm in E. lia.
  - unfold last_used. destruct (last l0) as [u|] eqn:E; [|done]. specialize (CJ u y eq_refl eq_refl). by rewrite Hy, andb_true_r in CJ.
  - intros z Hz Hzf. rewrite <- app_assoc, elem_of_app in Hz. cbn in Hz. rewrite elem_of_cons in Hz.
    assert (Hz' : (z ∈ l0 /\ a_end z <= a_at y) \/ (z ∈ l2 /\ a_end x <= a_at z)).
    { destruct Hz as [Hz|[->|Hz]]; [left | congruence | right]; split; try done.
      - pose proof (tiles_in _ _ _ _ Ht0 Hz). lia.
      - pose proof (tiles_in _ _ _ _ Ht2 Hz). lia. }
    split; [intros a Ha; apply Hout; unfold a_end in *; lia|]. exists z. split_and!; try done. set_solver.
  - intros a ?. apply Hout. lia.
  - split_and!; congruence.
  - rewrite zlen_snoc. lia.
Qed.

(** What lies behind the end of the heap does not look like a free area. *)
Definition no_ghost (m : mem) (e : Z) : Prop := ld32 m (e + 8) <> Ok HEAP_MAGIC \/ ld8 m (e + 4) <> Ok AREA_FREE.

Lemma ghost_at m h s e : 0 <= e -> e + PAGE_SIZE < 2 ^ 32 -> mapped m e (e + PAGE_SIZE) -> no_ghost m e ->
  is_free_header e (at_ m h s) = Ok (false, at_ m h s).
Proof.
  intros ? Hb Hm Hg. unfold PAGE_SIZE in *. unfold is_free_header, header_magic, header_type. rewrite !u32_small by lia.
  destruct (ld32_mapped m (e + 8)) as [v Hv]; [eapply mapped_sub; [exact Hm | lia | lia]|]. run (rd32_at m h s _ v Hv).
  destruct (Z.eqb_spec v HEAP_MAGIC) as [->|]; [|done].
  destruct (ld8_mapped m (e + 4)) as [t Ht]; [apply Hm; lia|]. run (rd8_at m h s _ t Ht).
  destruct (Z.eqb_spec t AREA_FREE) as [->|]; [|done]. by destruct Hg.
Qed.

(** The memory after the area [x] has taken in [y], on its left. *)
Definition join_right (m : mem) (x y : area) : mem :=
  upd8 (upd32 (upd32 (upd32 (upd32 m (a_at x) (a_size x + a_size y)) (a_end x - 8) 0) (a_end x + 8) 0) (a_end y - 4) (a_at x))
    (a_at x + 4) AREA_FREE.

Lemma join_right_frame m x y a : a_end x = a_at y -> 20 < a_size y -> 20 < a_size x ->
  ~ a_at x <= a < a_end y -> join_right m x y a = m a.
Proof. intros. unfold join_right, a_end in *. by rewrite upd8_other, !upd32_other by lia. Qed.
Lemma join_right_ok m x y : area_ok m x -> area_ok m y -> a_end x = a_at y -> a_free x = true -> 0 <= a_at x ->
  a_end y < 2 ^ 32 -> area_ok (join_right m x y) (mk_area (a_at x) (a_size x + a_size y) true).
Proof.
  intros Hx Hy He Hf H0 Hh. pose proof (size_pos m y Hy). pose proof (size_pos m x Hx). unfold join_right.
  set (m1 := upd32 m (a_at x) (a_size x + a_size y)). set (m2 := upd32 (upd32 m1 (a_end x - 8) 0) (a_end x + 8) 0).
  set (m3 := upd32 m2 (a_end y - 4) (a_at x)). unfold a_end in *.
  apply (join_ok m _ x y); try done; try (unfold a_end; lia).
  - rewrite (ld32_ext m1) by (intros b ?; unfold m3, m2; by rewrite upd8_other, !upd32_other by lia). apply ld32_upd32. lia.
  - by rewrite ld8_upd8.
  - intros b ?. unfold m3, m2, m1. by rewrite upd8_other, !upd32_other by lia.
  - intros b ?. unfold a_end in *. unfold m3, m2, m1. by rewrite upd8_other, !upd32_other by lia.
  - unfold a_end. rewrite (ld32_ext m3) by (intros b ?; by rewrite upd8_other by lia). apply ld32_upd32. lia.
Qed.

Lemma unify_right_run m h s l1 x y l2 b :
  float_wf m h l1 x (y :: l2) b -> a_free y = true ->
  exists a, let h1 := with_free a h in
  let h' := if rightmost_area h =? a_at y then with_rightmost (a_at x) h1 else h1 in
  unify_right (a_at x) (a_end x - 8) (at_ m h s) = Ok (tt, at_ (join_right m x y) h' s) /\
  oa_wf a /\ max_size a = max_size (free_index h) /\ elems (free_index h) ≡ₚ a_at y :: elems a.
Proof.
  intros W Hy. destruct (float_readable W y) as ((Oy & Y0 & Y1) & Ylo & Yhi); [set_solver|].
  destruct (float_readable W x) as ((Ox & X0 & X1) & Xlo & Xhi); [set_solver|].
  pose proof (size_pos m y Oy). pose proof (size_pos m x Ox). destruct (fw_base _ _ _ _ _ _ W) as [B1 _ _ B4 _ B6 B7 _].
  pose proof (fw_tiles _ _ _ _ _ _ W) as Ht. apply tiles_app in Ht as (mid & Ht1 & Ht2). cbn in Ht2. destruct Ht2 as (_ & _ & Hye & _ & _).
  destruct (remove_free_at m h s (a_at y) B7) as (a & Hrm & Hwfa & He & Hmx).
  { rewrite (fw_free _ _ _ _ _ _ W), free_at_app, free_at_cons, Hy. set_solver. }
  exists a. intros h1 h'. split; [|done]. unfold a_end, PAGE_SIZE in *.
  assert (Mm : forall lo hi, start_address h <= lo -> hi <= end_address h -> mapped m lo hi).
  { intros. eapply mapped_sub; [exact B6 | lia | lia]. }
  unfold unify_right. rewrite (u32_small (_ + FOOTER_SIZE)) by (unfold FOOTER_SIZE; lia).
  replace (a_at x + a_size x - 8 + FOOTER_SIZE) with (a_at y) by (unfold FOOTER_SIZE; lia).
  run (is_free_header_at m h s y Oy ltac:(lia) Y1). rewrite Hy. run (footer_at m h s y Oy ltac:(lia) Y1).
  assert (Hfo : is_footer_of (a_end y - 8) (a_at y) (at_ m h s) = Ok (true, at_ m h s)).
  { unfold is_footer_of. run (footer_magic_at m h s y Oy). rewrite Z.eqb_refl.
    run (footer_header_at m h s y Oy ltac:(lia) Y1). by rewrite Z.eqb_refl. }
  run Hfo. run Hrm. fold h1. run (header_size_at m h1 s x Ox). run (header_size_at m h1 s y Oy). rewrite u32_small by lia.
  unfold set_header_size. run (wr32_at m h1 s (a_at x) (a_size x + a_size y) ltac:(apply Mm; lia)).
  set (m1 := upd32 m (a_at x) (a_size x + a_size y)) in *. unfold set_footer_magic, set_header_magic.
  rewrite (u32_small (a_at y + 8)) by lia.
  run (wr32_at m1 h1 s (a_at x + a_size x - 8) 0 ltac:(apply mapped_upd32, Mm; lia)).
  set (m2 := upd32 m1 (a_at x + a_size x - 8) 0).
  run (wr32_at m2 h1 s (a_at y + 8) 0 ltac:(repeat apply mapped_upd32; apply Mm; lia)). set (m3 := upd32 m2 (a_at y + 8) 0).
  run (the_heap_at m3 h1 s).
  assert (Hput : (if rightmost_area h1 =? a_at y then put_heap (with_rightmost (a_at x)) else mret tt) (at_ m3 h1 s) = Ok (tt, at_ m3 h' s)).
  { unfold h'. change (rightmost_area h1) with (rightmost_area h). by destruct (rightmost_area h =? a_at y). }
  run Hput. unfold FOOTER_FROM_HEADER, header_size. erewrite (st_bind_Ok (_ ≫= _)).
  2: { erewrite (st_bind_Ok (rd32 _)).
       2: { apply rd32_at. rewrite (ld32_ext m1) by (intros c ?; unfold m3, m2; by rewrite !upd32_other by lia). apply ld32_upd32. lia. }
       unfold FOOTER_SIZE. rewrite u32_small by lia. done. }
  unfold a_end. check. unfold set_footer_header, set_header_type. rewrite !u32_small by lia.
  replace (a_at y + a_size y - 8 + 4) with (a_at y + a_size y - 4) by lia.
  run (wr32_at m3 h' s (a_at y + a_size y - 4) (a_at x) ltac:(repeat apply mapped_upd32; apply Mm; lia)).
  rewrite wr8_at; [|repeat (apply mapped_upd32 || idtac); apply (mapped_at _ (start_address h) (end_address h)); [repeat apply mapped_upd32; apply Mm; lia | lia]].
  unfold join_right, a_end, m3, m2, m1. by rewrite Hye.
Qed.

Lemma unify_right_at m h s l1 x l2 b : float_wf m h l1 x l2 b -> no_ghost m (end_address h) ->
  exists m' h' l2' x', unify_right (a_at x) (a_end x - 8) (at_ m h s) = Ok (tt, at_ m' h' s) /\
    float_wf m' h' l1 x' l2' b /\ a_at x' = a_at x /\ head_used l2' /\ kept m m' (l1 ++ l2) (l1 ++ l2') /\
    same_shape h h' /\ used_index h' = used_index h /\ zlen l2' <= zlen l2.
Proof.
  intros W Hng. destruct (float_readable W x) as ((Ox & X0 & X1) & Xlo & Xhi); [set_solver|].
  pose proof (size_pos m x Ox). pose proof (fw_base _ _ _ _ _ _ W) as [B1 B2 B3 B4 B5 B6 B7 B8].
  pose proof (fw_tiles _ _ _ _ _ _ W) as Ht. apply tiles_app in Ht as (mid & Ht1 & Ht2). cbn in Ht2. destruct Ht2 as (Exm & _ & Ht2).
  assert (Hskip : is_free_header (a_end x) (at_ m h s) = Ok (false, at_ m h s) ->
    unify_right (a_at x) (a_end x - 8) (at_ m h s) = Ok (tt, at_ m h s)).
  { intros E. unfold unify_right, FOOTER_SIZE. unfold a_end in *. rewrite u32_small by lia.
    replace (a_at x + a_size x - 8 + 8) with (a_at x + a_size x) by lia. by run E. }
  destruct l2 as [|y l2].
  { exists m, h, [], x. split_and!; try done; [|apply kept_refl]. apply Hskip. cbn in Ht2. rewrite Ht2.
    unfold PAGE_SIZE, a_end in *. apply ghost_at; unfold PAGE_SIZE; [lia | done | | done]. eapply mapped_sub; [exact B6 | lia | lia]. }
  destruct (float_readable W y) as ((Oy & Y0 & Y1) & Ylo & Yhi); [set_solver|]. pose proof (size_pos m y Oy).
  cbn in Ht2. destruct Ht2 as (Hye & _ & Ht2). destruct (a_free y) eqn:Hy.
  2: { exists m, h, (y :: l2), x. split_and!; try done; [|apply kept_refl]. apply Hskip. rewrite <- Hye.
       rewrite is_free_header_at by (done || lia). by rewrite Hy. }
  destruct (unify_right_run m h s l1 x y l2 b W Hy) as (a & Hrun & Hwfa & Hmx & He).
  set (x' := mk_area (a_at x) (a_size x + a_size y) true). set (m' := join_right m x y) in *.
  assert (Hxe : a_end x' = a_end y) by (unfold x', a_end in *; cbn; lia).
  assert (Hout : forall c, ~ a_at x <= c < a_end y -> m' c = m c) by (intros; by apply join_right_frame).
  eexists m', _, l2, x'. split; [exact Hrun|].
  destruct W as [W1 W2 W3 W4 W5 W6 W7 W8 (r & Hr & Hrm)].
  apply Forall_app in W3 as [W3 W3']. inversion W3' as [|? ? _ W3'']; subst. inversion W3'' as [|? ? _ W3x]; subst.
  set (h' := if rightmost_area h =? a_at y then with_rightmost (a_at x) (with_free a h) else with_free a h).
  assert (Hsame : start_address h' = start_address h /\ end_address h' = end_address h /\ max_address h' = max_address h /\
    free_index h' = a /\ used_index h' = used_index h) by (unfold h'; by destruct (rightmost_area h =? a_at y)).
  destruct Hsame as (S1 & S2 & S3 & S4 & S5). split_and!; try done.
  - split; rewrite ?S1, ?S2, ?S4, ?S5; try done.
    + split; rewrite ?S1, ?S2, ?S4, ?S5; try done. unfold m', join_right. apply mapped_upd8. by repeat apply mapped_upd32.
    + apply tiles_app. exists (a_at x). split; [done|]. split_and!; [done | unfold x'; cbn; lia | by rewrite Hxe].
    + apply Forall_app. split; [|constructor].
      * eapply areas_frame; [exact W3|]. intros z Hz c Hc. apply Hout. pose proof (tiles_in _ _ _ _ Ht1 Hz). lia.
      * apply join_right_ok; try done; lia.
      * eapply areas_frame; [exact W3x|]. intros z Hz c Hc. apply Hout. pose proof (tiles_in _ _ _ _ Ht2 Hz). lia.
    + destruct l2; [done|]. by destruct W6.
    + rewrite He, free_at_app, free_at_cons, Hy in W7. rewrite free_at_app.
      assert (P : a_at y :: elems a ≡ₚ a_at y :: (if b then [a_at x] else []) ++ free_at l1 ++ free_at l2).
      { rewrite W7. rewrite <- !Permutation_middle. done. }
      by apply Permutation_cons_inv in P.
    + rewrite W8, !used_at_app, used_at_cons, Hy. done.
    + rewrite last_app_cons in *. change (last (x :: y :: l2)) with (last (y :: l2)) in Hr. unfold h'. destruct l2 as [|z l2].
      * cbn in Hr. injection Hr as <-. rewrite Hrm, Z.eqb_refl. by exists x'.
      * exists r. split; [exact Hr|]. destruct (Z.eqb_spec (rightmost_area h) (a_at y)) as [E|]; [|done].
        assert (Hin : r ∈ z :: l2) by (by eapply last_Some_elem_of). pose proof (tiles_in _ _ _ _ Ht2 Hin).
        unfold a_end in *. rewrite Hrm in E. lia.
  - unfold head_used. destruct l2 as [|z l2]; [done|]. cbn. destruct W6 as [Hyz _]. by rewrite Hy in Hyz.
  - intros z Hz Hzf. rewrite elem_of_app, elem_of_cons in Hz.
    assert (Hz' : (z ∈ l1 /\ a_end z <= a_at x) \/ (z ∈ l2 /\ a_end y <= a_at z)).
    { destruct Hz as [Hz|[->|Hz]]; [left | congruence | right]; split; try done.
      - pose proof (tiles_in _ _ _ _ Ht1 Hz). lia.
      - pose proof (tiles_in _ _ _ _ Ht2 Hz). lia. }
    split; [intros c Hc; apply Hout; unfold a_end in *; lia|]. exists z. split_and!; try done. set_solver.
  - split_and!; congruence.
  - rewrite zlen_cons. lia.
Qed.

(** ** Back into the index *)
Lemma index_float m h s l1 x l2 b :
  float_wf m h l1 x l2 b -> last_used l1 -> head_used l2 -> zlen (l1 ++ l2) < max_size (free_index h) ->
  exists h', (if negb b then insert_free (a_at x) else mret tt) (at_ m h s) = Ok (tt, at_ m h' s) /\
    heap_wf m h' (l1 ++ x :: l2) /\ same_shape h h'.
Proof.
  intros [W1 W2 W3 W4 W5 W6 W7 W8 W9] Hl Hh Hroom.
  assert (C : coalesced (l1 ++ x :: l2)).
  { apply coalesced_app; [done | |].
    - destruct l2 as [|y l2]; [done|]. split; [|done]. unfold head_used in Hh. cbn in Hh. by rewrite Hh, andb_false_r.
    - intros u v Hu Hv. unfold last_used in Hl. rewrite Hu in Hl. by rewrite Hl. }
  assert (U : used_at (l1 ++ x :: l2) = used_at (l1 ++ l2)) by (by rewrite !used_at_app, used_at_cons, W4).
  assert (F : free_at (l1 ++ x :: l2) ≡ₚ a_at x :: free_at (l1 ++ l2)).
  { rewrite !free_at_app, free_at_cons, W4. by rewrite Permutation_middle. }
  destruct b; cbn [negb].
  - exists h. split; [done|]. split; [|done]. split; try done; [by rewrite F, W7 | by rewrite U].
  - destruct (insert_free_at m h s (a_at x)) as (a & Hrun & Hwfa & He & Hm); [apply W1 | |].
    { rewrite <- elems_len by apply W1. rewrite (perm_zlen _ _ W7). cbn [app]. pose proof (free_at_len (l1 ++ l2)). lia. }
    exists (with_free a h). split; [done|]. split; [|done]. split; try done.
    + by apply base_with_free.
    + cbn. by rewrite He, F, W7.
    + cbn. by rewrite U.
Qed.

(** ** Shrinking *)
Lemma free_pages_at n addr m h s :
  addr mod PAGE_SIZE = 0 ->
  (forall x, addr - (Z.of_nat n - 1) * PAGE_SIZE <= x < addr + PAGE_SIZE -> is_Some (m x)) ->
  exists m' s', free_pages n addr (at_ m h s) = Ok (tt, at_ m' h s') /\
    (forall x, ~ addr - (Z.of_nat n - 1) * PAGE_SIZE <= x < addr + PAGE_SIZE -> m' x = m x) /\
    hirq s' = hirq s /\ leaks s' = leaks s /\ frames s' = frames s + Z.of_nat n.
Proof.
  revert addr m s. induction n as [|n IH]; intros addr m s Hal Hm; cbn [free_pages].
  - exists m, s. split_and!; try done; lia.
  - unfold vmm_free. assert (Hpg : addr / PAGE_SIZE * PAGE_SIZE = addr) by (unfold PAGE_SIZE in *; Z.to_euclidean_division_equations; lia).
    rewrite Hpg. erewrite (st_bind_Ok (_ ≫= _)).
    2: { erewrite (st_bind_Ok (gets frames)) by done. erewrite (st_bind_Ok (gets memory)) by done.
         erewrite (st_bind_Ok (ensure _)) by (apply ensure_true, present_mapped, Hm; unfold PAGE_SIZE; lia). done. }
    cbn [at_ memory frames].
    destruct (IH (addr - PAGE_SIZE) (unmap m addr (addr + PAGE_SIZE)) (mk_hs m (frames s + 1) (hirq s) None (leaks s) (placement_address s)))
      as (m' & s' & Hrun & Hout & H1 & H2 & H3).
    { unfold PAGE_SIZE in *. Z.to_euclidean_division_equations; lia. }
    { intros x Hx. unfold unmap. destruct (Z.leb_spec addr x); [unfold PAGE_SIZE in *; lia|]. cbn. apply Hm. unfold PAGE_SIZE in *. lia. }
    exists m', s'. split; [exact Hrun|]. split_and!; try done; [|cbn in H3; lia].
    intros x Hx. rewrite Hout by (unfold PAGE_SIZE in *; lia). unfold unmap.
    destruct (Z.leb_spec addr x), (Z.ltb_spec x (addr + PAGE_SIZE)); cbn; try done. unfold PAGE_SIZE in *. lia.
Qed.

Lemma contract_check_at m h s a k i e : oa_wf a -> 0 <= i -> drop (Z.to_nat i) (elems a) = k ->
  Forall (fun p => exists x, a_at x = p /\ readable m x /\ a_end x <= e) k ->
  contract_check (length k) i e a (at_ m h s) = Ok (tt, at_ m h s).
Proof.
  intros Hwf Hi Hd HF. revert i Hi Hd. induction HF as [|p k Hp HF IH]; intros i Hi Hd; cbn [length contract_check]; [done|].
  destruct (index_step a i p k Hwf Hi Hd) as [Hl Hd']. destruct Hp as (x & <- & (Hx & Hx0 & Hx1) & Hle).
  pose proof (size_pos m x Hx). run (lift_at _ _ (at_ m h s) Hl). run (header_size_at m h s x Hx). unfold a_end in *.
  rewrite u32_small by lia. check. apply IH; [lia | done].
Qed.

Lemma heap_contract_at m h s l r bytes :
  heap_wf m h (l ++ [r]) -> a_free r = true -> hirq s = false -> bytes = a_size r - 0x100000 -> 512 * 1024 <= bytes ->
  exists m' s' e, heap_contract bytes (at_ m h s) = Ok (tt, at_ m' (with_end e h) s') /\
    e mod PAGE_SIZE = 0 /\ a_at r + 0x100000 <= e < a_at r + 0x100000 + PAGE_SIZE /\
    agree (start_address h) (e + PAGE_SIZE) m m' /\ hirq s' = false /\ leaks s' = leaks s.
Proof.
  intros Hwf Hf Hi -> Hb. destruct (heap_readable m h _ r Hwf ltac:(set_solver)) as ((Ho & R0 & R1) & Rlo & _ & _).
  pose proof (tiles_end _ _ _ _ (hw_tiles _ _ _ Hwf)) as Hre. destruct (hw_base _ _ _ Hwf) as [B1 B2 B3 B4 B5 B6 B7 B8].
  unfold a_end, PAGE_SIZE in *. unfold heap_contract, KHEAP_INITIAL_SIZE. erewrite (st_bind_Ok (gets hirq)) by done.
  erewrite (st_bind_Ok (ensure _)) by (apply ensure_true; cbn; by rewrite Hi).
  destruct (Z.ltb_spec (a_size r - 0x100000) (512 * 1024)); [lia|]. run (the_heap_at m h s).
  rewrite (u32_small (end_address h - start_address h)) by lia.
  replace (end_address h - start_address h - (a_size r - 0x100000)) with (a_at r + 0x100000 - start_address h) by lia.
  rewrite (u32_small (a_at r + 0x100000 - start_address h)) by lia.
  destruct (Z.ltb_spec (a_at r + 0x100000 - start_address h) 0x90000); [lia|].
  replace (start_address h + (a_at r + 0x100000 - start_address h)) with (a_at r + 0x100000) by lia.
  rewrite (u32_small (a_at r + 0x100000)) by lia.
  set (e := if IS_PAGE_ALIGNED (a_at r + 0x100000) then a_at r + 0x100000 else u32 (Z.land (a_at r + 0x100000) 0xfffff000 + PAGE_SIZE)).
  assert (He : e mod 0x1000 = 0 /\ a_at r + 0x100000 <= e < a_at r + 0x100000 + 0x1000).
  { unfold e. rewrite IS_PAGE_ALIGNED_mod. unfold PAGE_SIZE. destruct (Z.eqb_spec ((a_at r + 0x100000) mod 0x1000) 0); [lia|].
    rewrite land_page, u32_small by (unfold PAGE_SIZE; Z.to_euclidean_division_equations; lia). unfold PAGE_SIZE.
    Z.to_euclidean_division_equations; lia. }
  destruct He as [He1 He2].
  assert (Hchk : contract_check (Z.to_nat (size (used_index h))) 0 e (used_index h) (at_ m h s) = Ok (tt, at_ m h s)).
  { rewrite index_len by done. apply contract_check_at; try done. apply Forall_forall. intros p Hp.
    rewrite (hw_used _ _ _ Hwf) in Hp. apply elem_used_at in Hp as (x & Hx & Hxf & <-). exists x. split; [done|].
    destruct (heap_readable m h _ x Hwf Hx) as (Hrx & _). split; [done|].
    pose proof (hw_tiles _ _ _ Hwf) as Ht. apply tiles_app in Ht as (mid & Ht1 & Ht2). cbn in Ht2. destruct Ht2 as (<- & _ & _).
    apply elem_of_app in Hx as [Hx|Hx%list_elem_of_singleton]; [|by subst; congruence].
    pose proof (tiles_in _ _ _ _ Ht1 Hx). lia. }
  run Hchk. erewrite (st_bind_Ok (ensure _)) by (apply ensure_true; by apply IS_PAGE_ALIGNED_true).
  set (n := Z.to_nat ((end_address h - e + PAGE_SIZE - 1) / PAGE_SIZE)).
  assert (Hn : Z.of_nat n * 0x1000 = end_address h - e) by (unfold n, PAGE_SIZE; Z.to_euclidean_division_equations; lia).
  destruct (free_pages_at n (end_address h) m h s) as (m' & s' & Hrun & Hout & H1 & H2 & H3).
  { done. } { intros x Hx. apply B6. unfold PAGE_SIZE in *. lia. }
  run Hrun. exists m', s', e. split; [done|]. split_and!; try done; try lia; [|congruence].
  intros x Hx. apply Hout. unfold PAGE_SIZE in *. lia.
Qed.

(** The memory after the rightmost area [r] has been cut at [e]. *)
Lemma shrink_last m h s l r e :
  heap_wf m h (l ++ [r]) -> a_free r = true -> a_at r + 20 < e -> e <= end_address h -> e mod PAGE_SIZE = 0 ->
  forall m1, agree (start_address h) (e + PAGE_SIZE) m m1 ->
  let r' := mk_area (a_at r) (e - a_at r) true in let h1 := with_end e h in
  exists m', (s0 ← header_size (a_at r); set_header_size (a_at r) (u32 (s0 - (end_address h - e))) ;;
              f ← FOOTER_FROM_HEADER (a_at r); set_footer_magic f HEAP_MAGIC ;; set_footer_header f (a_at r))
             (at_ m1 h1 s) = Ok (tt, at_ m' h1 s) /\
    heap_wf m' h1 (l ++ [r']) /\ kept m m' (l ++ [r]) (l ++ [r']).
Proof.
  intros Hwf Hf Hlo Hhi Hal m1 Hag r' h1. destruct (heap_readable m h _ r Hwf ltac:(set_solver)) as ((Ho & R0 & R1) & Rlo & _ & _).
  pose proof (tiles_end _ _ _ _ (hw_tiles _ _ _ Hwf)) as Hre. pose proof Hwf as [B Ht Ha Hc Hfr Hu (r0 & Hl & Hrm)].
  rewrite last_snoc in Hl. injection Hl as <-. destruct B as [B1 B2 B3 B4 B5 B6 B7 B8]. unfold a_end, PAGE_SIZE in *.
  apply tiles_app in Ht as (mid & Ht1 & Ht2). cbn in Ht2. destruct Ht2 as (<- & _ & _). apply Forall_app in Ha as [Ha _].
  apply coalesced_app_inv in Hc as (C1 & _ & CJ).
  assert (M1 : mapped m1 (start_address h) (e + 0x1000)).
  { eapply agree_mapped; [exact Hag|]. eapply mapped_sub; [exact B6 | lia | lia]. }
  assert (Hsz : ld32 m1 (a_at r) = Ok (a_size r)).
  { rewrite (ld32_ext m); [apply Ho|]. eapply agree_sub; [exact Hag | lia | lia]. }
  set (m2 := upd32 m1 (a_at r) (e - a_at r)). set (m3 := upd32 m2 (e - 8) HEAP_MAGIC). set (m4 := upd32 m3 (e - 4) (a_at r)).
  assert (Hout : forall y, start_address h <= y < e -> ~ a_at r <= y < a_at r + 4 -> ~ e - 8 <= y < e -> m4 y = m y).
  { intros y ? ? ?. unfold m4, m3, m2. rewrite !upd32_other by lia. apply Hag. lia. }
  exists m4. split_and!.
  - run (rd32_at m1 h1 s _ _ Hsz). rewrite (u32_small (a_size r - _)) by lia.
    replace (a_size r - (end_address h - e)) with (e - a_at r) by lia. unfold set_header_size, FOOTER_FROM_HEADER, header_size.
    run (wr32_at m1 h1 s (a_at r) (e - a_at r) ltac:(eapply mapped_sub; [exact M1 | lia | lia])). fold m2.
    erewrite (st_bind_Ok (_ ≫= _)).
    2: { run (rd32_at m2 h1 s (a_at r) (e - a_at r) ltac:(apply ld32_upd32; lia)). unfold FOOTER_SIZE. rewrite u32_small by lia.
         replace (a_at r + (e - a_at r) - 8) with (e - 8) by lia. done. }
    rewrite set_footer_at; [|lia | lia |].
    + fold m3. replace (e - 8 + 4) with (e - 4) by lia. done.
    + unfold m2. apply mapped_upd32. eapply mapped_sub; [exact M1 | lia | lia].
  - split.
    + split; try done; cbn; unfold PAGE_SIZE; try lia. unfold m4, m3, m2. by repeat apply mapped_upd32.
    + apply tiles_app. exists (a_at r). split; [done|]. cbn. unfold a_end. cbn. lia.
    + apply Forall_app. split; [|constructor; [|done]].
      * eapply areas_frame; [exact Ha|]. intros y Hy b Hb. pose proof (tiles_in _ _ _ _ Ht1 Hy). apply Hout; lia.
      * destruct Ho as [O1 O2 O3 O4 O5 O6]. unfold HEADER_SIZE, FOOTER_SIZE, a_end in *.
        split; unfold r', a_end, a_type, HEADER_SIZE, FOOTER_SIZE; cbn [a_at a_size a_free];
          replace (a_at r + (e - a_at r)) with e by lia; [lia | | | | |].
        -- rewrite (ld32_ext m2) by (intros y ?; unfold m4, m3; by rewrite !upd32_other by lia). apply ld32_upd32. lia.
        -- rewrite (ld8_ext m) by (apply Hout; lia). rewrite O3. unfold a_type. by rewrite Hf.
        -- rewrite (ld32_ext m) by (intros y ?; apply Hout; lia). done.
        -- rewrite (ld32_ext m3) by (intros y ?; unfold m4; by rewrite !upd32_other by lia). by apply ld32_upd32.
        -- apply ld32_upd32. lia.
    + apply coalesced_app; [done | done|]. intros u v Hu' Hv. injection Hv as <-. specialize (CJ u r Hu' eq_refl). by rewrite Hf in CJ.
    + cbn. rewrite Hfr, !free_at_app, !free_at_cons, Hf. done.
    + cbn. rewrite Hu, !used_at_app, !used_at_cons, Hf. done.
    + exists r'. by rewrite last_snoc.
  - intros y Hy Hyf. apply elem_of_app in Hy as [Hy|Hy%list_elem_of_singleton]; [|by subst; rewrite Hf in Hyf].
    pose proof (tiles_in _ _ _ _ Ht1 Hy). unfold a_end in *. split; [intros b ?; apply Hout; lia|].
    exists y. split_and!; try done. set_solver.
Qed.

Lemma contract_rightmost_at m h s l : heap_wf m h l -> hirq s = false ->
  exists m' h' l' s', contract_rightmost (at_ m h s) = Ok (tt, at_ m' h' s') /\ heap_wf m' h' l' /\
    kept m m' l l' /\ used_at l' = used_at l /\ hirq s' = false /\ leaks s' = leaks s /\
    end_address h' <= end_address h /\ max_address h' = max_address h.
Proof.
  intros Hwf Hi. destruct (hw_right _ _ _ Hwf) as (r & Hr & Hrm). apply last_Some in Hr as (l0 & ->).
  destruct (heap_readable m h _ r Hwf ltac:(set_solver)) as ((Ho & R0 & R1) & Rlo & _ & _).
  pose proof (tiles_end _ _ _ _ (hw_tiles _ _ _ Hwf)) as Hre. pose proof (hw_base _ _ _ Hwf) as [B1 B2 B3 B4 B5 B6 B7 B8].
  unfold contract_rightmost. run (the_heap_at m h s). rewrite Hrm. run (header_type_at m h s r Ho ltac:(lia) R1).
  run (header_size_at m h s r Ho).
  assert (Hstay : exists m' h' l' s', (mret tt : HM ()) (at_ m h s) = Ok (tt, at_ m' h' s') /\ heap_wf m' h' l' /\
    kept m m' (l0 ++ [r]) l' /\ used_at l' = used_at (l0 ++ [r]) /\ hirq s' = false /\ leaks s' = leaks s /\
    end_address h' <= end_address h /\ max_address h' = max_address h).
  { exists m, h, (l0 ++ [r]), s. split_and!; try done. apply kept_refl. }
  destruct (a_free r) eqn:Hf; unfold a_type; rewrite Hf; [|exact Hstay]. cbn [Z.eqb AREA_FREE Pos.eqb andb].
  unfold KHEAP_MAX_WASTE. destruct (Z.leb_spec 0x120000 (a_size r)) as [Hbig|]; [|exact Hstay].
  check. run (footer_at m h s r Ho ltac:(lia) R1). run (header_magic_at m h s r Ho ltac:(lia) R1). check.
  run (footer_magic_at m h s r Ho). check. run (footer_header_at m h s r Ho ltac:(lia) R1). check.
  pose proof R1 as R1'. unfold a_end, PAGE_SIZE in *. rewrite (u32_small (a_size r - 0x100000)) by lia.
  destruct (decide (512 * 1024 <= a_size r - 0x100000)) as [Hc|Hc].
  - destruct (heap_contract_at m h s l0 r _ Hwf Hf Hi eq_refl Hc) as (m1 & s1 & e & Hrun & E1 & E2 & Hag & Hi1 & Hl1). run Hrun.
    run (the_heap_at m1 (with_end e h) s1). cbn [with_end end_address start_address]. unfold PAGE_SIZE in E2.
    rewrite !u32_small by (rewrite ?u32_small; lia).
    replace (end_address h - start_address h - (e - start_address h)) with (end_address h - e) by lia.
    destruct (Z.ltb_spec 0 (end_address h - e)); [|lia].
    destruct (shrink_last m h s1 l0 r e Hwf Hf ltac:(lia) ltac:(lia) E1 m1 Hag) as (m' & Hrun' & Hwf' & Hk).
    eexists m', _, _, s1. split; [exact Hrun'|]. split_and!; try done; [|cbn; lia].
    rewrite !used_at_app, !used_at_cons, Hf. done.
  - assert (Hno : heap_contract (a_size r - 0x100000) (at_ m h s) = Ok (tt, at_ m h s)).
    { unfold heap_contract. erewrite (st_bind_Ok (gets hirq)) by done.
      erewrite (st_bind_Ok (ensure _)) by (apply ensure_true; cbn; by rewrite Hi).
      by destruct (Z.ltb_spec (a_size r - 0x100000) (512 * 1024)); [|lia]. }
    run Hno. run (the_heap_at m h s). rewrite Z.sub_diag. cbn. exact Hstay.
Qed.

(** ** The properties of [heap_free] *)
Lemma trace_free_off p s : fresh_trace s -> trace_free p s = Ok (tt, s).
Proof. unfold trace_free, fresh_trace. intros H. erewrite (st_bind_Ok (gets leaks)) by done. by rewrite H. Qed.

(** What freeing the area [x] leaves of [l1 ++ x :: l2]. *)
Record freed (m : mem) (h : heap_t) (l1 : list area) (x : area) (l2 : list area) (m' : mem) (h' : heap_t) (l' : list area) : Prop := {
  fr_wf : heap_wf m' h' l';
  fr_kept : kept m m' (l1 ++ l2) l';
  fr_used : used_at (l1 ++ x :: l2) ≡ₚ a_at x :: used_at l';
  fr_end : end_address h' <= end_address h
}.

Lemma locked_at {A} (body : HM A) m h s a m' h' s' :
  body (at_ m h (set_hirq false s)) = Ok (a, at_ m' h' s') -> hirq s' = false -> leaks s' = leaks s ->
  heap_locked body (at_ m h s) = Ok (a, at_ m' h' (set_hirq (hirq s) s')).
Proof.
  intros Hb Hi Hl. unfold heap_locked. erewrite (st_bind_Ok (gets hirq)) by done. erewrite (st_bind_Ok (modify _)) by done.
  change (set_hirq false (at_ m h s)) with (at_ m h (set_hirq false s)). run Hb.
  change (hirq (at_ m h s)) with (hirq s). destruct (hirq s) eqn:E; [done|]. cbn.
  unfold at_, mret, st_ret. cbn. unfold mbind, st_bind. by rewrite Hi.
Qed.

Lemma heap_free_at m h s l1 x l2 :
  heap_wf m h (l1 ++ x :: l2) -> a_free x = false -> fresh_trace s -> end_address h <= max_address h ->
  no_ghost m (end_address h) -> zlen (l1 ++ l2) < max_size (free_index h) ->
  exists m' h' l' s', heap_free (ptr_of x) (at_ m h s) = Ok (tt, at_ m' h' s') /\ hirq s' = hirq s /\ fresh_trace s' /\
    freed m h l1 x l2 m' h' l'.
Proof.
  intros Hwf Hf Htr Hmax Hng Hroom. assert (Hin : x ∈ l1 ++ x :: l2) by set_solver.
  destruct (ptr_of_bound m h _ x Hwf Hin) as (_ & _ & _ & P0). pose proof (tiles_in _ _ _ _ (hw_tiles _ _ _ Hwf) Hin) as [_ Hxe].
  set (s0 := set_hirq false s).
  destruct (release_at m h s0 l1 x l2 Hwf Hf) as (a & Hrel & W1 & Hmx & Hout1). set (h1 := with_used a h) in *.
  set (m1 := upd8 m (a_at x + 4) AREA_FREE) in *. set (x1 := mk_area (a_at x) (a_size x) true) in *.
  assert (Hk1 : kept m m1 (l1 ++ l2) (l1 ++ l2)).
  { intros y Hy Hyf. split; [|by exists y]. pose proof (float_apart W1 y Hy). intros b Hb. apply Hout1.
    change (a_at x1) with (a_at x) in *. change (a_end x1) with (a_end x) in *. unfold a_end in *. lia. }
  destruct (unify_left_at m1 h1 s0 l1 x1 l2 W1) as (m2 & h2 & l1' & x2 & b & Hleft & W2 & Hx2 & Hlu & Hk2 & Hout2 & (S1 & S2 & S3 & S4 & S5) & U2 & Z2).
  change (a_end x1) with (a_end x) in *. change (a_at x1) with (a_at x) in *.
  destruct (unify_right_at m2 h2 s0 l1' x2 l2 b W2) as (m3 & h3 & l2' & x3 & Hright & W3 & Hx3 & Hhu & Hk3 & (T1 & T2 & T3 & T4 & T5) & U3 & Z3).
  { unfold no_ghost in *. rewrite S2. cbn. rewrite (ld32_ext m), (ld8_ext m); [done | |].
    - rewrite Hout2 by (cbn; lia). apply Hout1. lia.
    - intros y Hy. rewrite Hout2 by (cbn; lia). apply Hout1. lia. }
  assert (Hlen : zlen (l1' ++ l2') <= zlen (l1 ++ l2)) by (rewrite !zlen_app; lia).
  destruct (index_float m3 h3 s0 l1' x3 l2' b W3 Hlu Hhu) as (h4 & Hidx & Hwf4 & (V1 & V2 & V3 & V4 & V5)).
  { rewrite T4, S4. cbn. lia. }
  destruct (contract_rightmost_at m3 h4 s0 _ Hwf4 eq_refl) as (m5 & h5 & l5 & s5 & Hcon & Hwf5 & Hk5 & Hu5 & Hi5 & Hl5 & He5 & _).
  exists m5, h5, l5, (set_hirq (hirq s) s5). split_and!; [| done | unfold fresh_trace in *; change (leaks s0) with (leaks s) in Hl5; cbn; congruence |].
  - unfold heap_free. destruct (Z.eqb_spec (ptr_of x) 0); [lia|].
    apply locked_at; [|done | exact Hl5]. fold s0.
    run (find_area_at m h s0 _ x Hwf Hin Hf Hmax). run (trace_free_off (ptr_of x) (at_ m h s0) Htr).
    apply st_bind_inv in Hrel as (u & s' & HA & HB). run HA. run HB. run Hleft. rewrite <- Hx2. run Hright. rewrite <- Hx3. run Hidx. exact Hcon.
  - split; try done.
    + eapply kept_trans; [exact Hk1|]. eapply kept_trans; [exact Hk2|]. eapply kept_trans; [exact Hk3|].
      eapply kept_trans; [|exact Hk5]. intros y Hy Hyf. split; [done|]. exists y. split_and!; try done. set_solver.
    + assert (P1 : used_at (l1 ++ x :: l2) ≡ₚ a_at x :: used_at (l1 ++ l2)).
      { rewrite !used_at_app, used_at_cons, Hf. by rewrite Permutation_middle. }
      assert (P2 : used_at (l1' ++ x3 :: l2') = used_at (l1' ++ l2')).
      { by rewrite !used_at_app, used_at_cons, (fw_isfree _ _ _ _ _ _ W3). }
      rewrite P1, Hu5, P2, <- (fw_used _ _ _ _ _ _ W3), U3, U2, (fw_used _ _ _ _ _ _ W1). done.
    + cbn in *. rewrite S2, T2, V2 in *. cbn in *. lia.
Qed.
