(* ===== verification/HeapSpec.v ===== *)
(** * What the kernel heap promises

    The theorems about [kmalloc], [kfree], [krealloc], [heap_create] and the heap's checks
    (src/src/kernel/heap.c), from the lemmas of HeapInv.v, HeapAlloc.v and HeapFree.v. *)
From S2P Require Import Prelude Memory OrderedArray Heap HeapInv HeapAlloc HeapFree.

Section Alloc.
Context (name : list Z) (id ebp : Z) (phys : Z -> Z).

Lemma kmalloc_int_at m h l s sz al :
  heap_wf m h l -> fresh_trace s -> 0 <= sz < 2 ^ 30 -> (al = true -> 0 < sz) ->
  zlen l + 2 < max_size (free_index h) -> zlen l + 2 < max_size (used_index h) ->
  (exists x, x ∈ l /\ a_free x = true /\ fits (need al sz) al x) \/ grow_room m h s (GROW_BOUND sz) ->
  exists p m' h' l' s', kmalloc_int name id ebp phys 2 sz al false (at_ m h s) = Ok ((p, None), at_ m' h' s') /\
    allocated m l sz al p m' h' l' /\ hirq s' = hirq s /\ fresh_trace s'.
Proof.
  intros Hwf Htr Hs Hal Hr1 Hr2 Hroom.
  destruct (heap_alloc_total name id ebp m h l (set_hirq false s) sz al) as (p & m' & h' & l' & s' & Hrun & A & Hi & Ht'); try done.
  { destruct Hroom as [?|[G1 G2 G3 G4 G5]]; [by left | right; by split]. }
  exists p, m', h', l', (set_hirq (hirq s) s'). split_and!; try done.
  unfold kmalloc_int. erewrite (st_bind_Ok (gets kheap)) by done. cbn [at_ kheap]. fold (at_ m h s).
  erewrite (st_bind_Ok (heap_locked _)).
  2: { apply locked_at; [by run Hrun | done | unfold fresh_trace in *; congruence]. }
  assert (E : (if al then ensure (IS_PAGE_ALIGNED (p, @None Z).1) else mret tt) (at_ m' h' (set_hirq (hirq s) s')) =
    Ok (tt, at_ m' h' (set_hirq (hirq s) s'))).
  { destruct al; [|done]. apply ensure_true, IS_PAGE_ALIGNED_true. by apply (al_page _ _ _ _ _ _ _ _ A). }
  by run E.
Qed.

(** C1: [kmalloc] and [kmalloc_a] return a new block: it lies in a used area that was not
    used before, holds at least the bytes asked for between the area's header and footer, is
    dword aligned, and page aligned when asked; every other used area keeps its place and
    its bytes, and the heap stays well formed.  Where no free area is large enough the heap grows, at most twice.  The size is below 2^30, not 0 when page aligned, the
    indexes have room for two more areas, either an area fits or there is room to grow, and the debugging trace has not started. *)
Theorem kmalloc_correct m h l s sz al :
  heap_wf m h l -> fresh_trace s -> 0 <= sz < 2 ^ 30 -> (al = true -> 0 < sz) ->
  zlen l + 2 < max_size (free_index h) -> zlen l + 2 < max_size (used_index h) ->
  (exists x, x ∈ l /\ a_free x = true /\ fits (need al sz) al x) \/ grow_room m h s (GROW_BOUND sz) ->
  exists p m' h' l' s', kmalloc_int name id ebp phys 2 sz al false (at_ m h s) = Ok ((p, None), at_ m' h' s') /\
    allocated m l sz al p m' h' l' /\ hirq s' = hirq s.
Proof.
  intros. destruct (kmalloc_int_at m h l s sz al) as (p & m' & h' & l' & s' & ? & ? & ? & _); try done.
  by exists p, m', h', l', s'.
Qed.

End Alloc.

Lemma kfree_at m h s l1 x l2 :
  heap_wf m h (l1 ++ x :: l2) -> a_free x = false -> fresh_trace s -> end_address h <= max_address h ->
  no_ghost m (end_address h) -> zlen (l1 ++ l2) < max_size (free_index h) ->
  exists m' h' l' s', kfree (ptr_of x) (at_ m h s) = Ok (tt, at_ m' h' s') /\ hirq s' = hirq s /\ fresh_trace s' /\
    freed m h l1 x l2 m' h' l'.
Proof.
  intros Hwf Hf Htr Hmax Hng Hroom. destruct (heap_free_at m h s l1 x l2) as (m' & h' & l' & s' & Hrun & ?); try done.
  exists m', h', l', s'. split; [|done]. unfold kfree. run (the_heap_at m h s).
  destruct (ptr_of_bound m h _ x Hwf ltac:(set_solver)) as (_ & _ & P & _). check. exact Hrun.
Qed.

(** C2: [kfree] of a pointer [kmalloc] returned takes exactly that area out of use: it is
    joined with the free areas beside it, so that no two free areas touch, the heap gives
    pages back when its end is free, every other used area
    keeps its place and its bytes, and the heap stays well formed.  The free index has room, the heap has not grown
    past its maximal address, the debugging trace has not started, and the bytes after the end of the heap do not look like the header of a free area ([no_ghost]). *)
Theorem kfree_correct m h s l1 x l2 :
  heap_wf m h (l1 ++ x :: l2) -> a_free x = false -> fresh_trace s -> end_address h <= max_address h ->
  no_ghost m (end_address h) -> zlen (l1 ++ l2) < max_size (free_index h) ->
  exists m' h' l' s', kfree (ptr_of x) (at_ m h s) = Ok (tt, at_ m' h' s') /\ hirq s' = hirq s /\
    freed m h l1 x l2 m' h' l'.
Proof.
  intros. destruct (kfree_at m h s l1 x l2) as (m' & h' & l' & s' & ? & ? & _ & ?); try done. by exists m', h', l', s'.
Qed.

(** ** Checks *)
Lemma sum_perm {A} (f : A -> Z) l k : l ≡ₚ k -> foldr (fun x n => f x + n) 0 l = foldr (fun x n => f x + n) 0 k.
Proof. induction 1; cbn; lia. Qed.
Lemma sum_sizes m l : Forall (area_ok m) l ->
  foldr (fun p n => size_at m p + n) 0 (used_at l) = foldr (fun x n => a_size x + n) 0 (filter (fun x => a_free x = false) l).
Proof.
  intros HF. unfold used_at. induction HF as [|x l Hx HF IH]; [done|]. rewrite !filter_cons.
  case_decide; [|done]. cbn. rewrite IH. unfold size_at. by rewrite (ao_size _ _ Hx).
Qed.

Lemma used_bytes_at m h s a k i acc :
  oa_wf a -> 0 <= i -> drop (Z.to_nat i) (elems a) = k -> 0 <= acc < 2 ^ 32 ->
  Forall (fun p => exists x, a_at x = p /\ readable m x) k ->
  used_bytes_loop (length k) i acc a (at_ m h s) = Ok (u32 (acc + foldr (fun p n => size_at m p + n) 0 k), at_ m h s).
Proof.
  intros Hwf Hi Hd Hacc HF. revert i acc Hi Hd Hacc. induction HF as [|p k Hp HF IH]; intros i acc Hi Hd Hacc; cbn [length used_bytes_loop foldr].
  - rewrite Z.add_0_r, u32_small by done. done.
  - destruct (index_step a i p k Hwf Hi Hd) as [Hl Hd']. destruct Hp as (x & <- & Hx & _).
    run (lift_at _ _ (at_ m h s) Hl). run (header_size_at m h s x Hx). rewrite IH; [|lia | done | apply u32_bound].
    unfold size_at at 2. rewrite (ao_size _ _ Hx). do 2 f_equal. unfold u32. rewrite Zplus_mod_idemp_l. f_equal. lia.
Qed.

Lemma validate_loop_at m h s a k i t : oa_wf a -> 0 <= i -> drop (Z.to_nat i) (elems a) = k ->
  Forall (fun p => exists x, a_at x = p /\ readable m x /\ a_type x = t) k ->
  validate_loop (length k) i t a (at_ m h s) = Ok (tt, at_ m h s).
Proof.
  intros Hwf Hi Hd HF. revert i Hi Hd. induction HF as [|p k Hp HF IH]; intros i Hi Hd; cbn [length validate_loop]; [done|].
  destruct (index_step a i p k Hwf Hi Hd) as [Hl Hd']. destruct Hp as (x & <- & (Hx & H0 & H1) & Ht).
  run (lift_at _ _ (at_ m h s) Hl). run (footer_at m h s x Hx ltac:(lia) H1). run (header_type_at m h s x Hx ltac:(lia) H1). rewrite Ht. check.
  run (header_magic_at m h s x Hx ltac:(lia) H1). check. run (footer_magic_at m h s x Hx). check.
  run (footer_header_at m h s x Hx ltac:(lia) H1). check. apply IH; [lia | done].
Qed.

Lemma at_hirq m h s : at_ m h (set_hirq (hirq s) (set_hirq false s)) = at_ m h s.
Proof. by destruct s. Qed.

(** on a well-formed heap [validate_heap_index] passes all its assertions,
    [kheap_used_bytes] returns the bytes of the used areas (modulo 2^32), and
    [kheap_is_valid] says yes to the pointer of every used area and no to every address
    outside the heap's range; none of them changes the heap. *)
Theorem heap_checks_correct m h l s : heap_wf m h l -> end_address h <= max_address h ->
  validate_heap_index (at_ m h s) = Ok (tt, at_ m h s) /\
  kheap_used_bytes (at_ m h s) =
    Ok (u32 (foldr (fun x n => a_size x + n) 0 (filter (fun x => a_free x = false) l)), at_ m h s) /\
  (forall x, x ∈ l -> a_free x = false -> kheap_is_valid (ptr_of x) (at_ m h s) = Ok (true, at_ m h s)) /\
  (forall p, p <> 0 -> max_address h < p \/ p < start_address h -> kheap_is_valid p (at_ m h s) = Ok (false, at_ m h s)).
Proof.
  intros Hwf Hmax. pose proof (hw_base _ _ _ Hwf) as [_ _ _ _ _ _ B7 B8].
  assert (HU : Forall (fun p => exists x, a_at x = p /\ readable m x /\ a_type x = AREA_USED) (elems (used_index h))).
  { apply Forall_forall. intros p Hp. rewrite (hw_used _ _ _ Hwf) in Hp. apply elem_used_at in Hp as (x & Hx & Hf & <-).
    exists x. split; [done|]. split; [by apply (heap_readable m h l x Hwf Hx)|]. unfold a_type. by rewrite Hf. }
  assert (HF : Forall (fun p => exists x, a_at x = p /\ readable m x /\ a_type x = AREA_FREE) (elems (free_index h))).
  { apply Forall_forall. intros p Hp. rewrite (hw_free _ _ _ Hwf) in Hp. apply elem_free_at in Hp as (x & Hx & Hf & <-).
    exists x. split; [done|]. split; [by apply (heap_readable m h l x Hwf Hx)|]. unfold a_type. by rewrite Hf. }
  split_and!.
  - unfold validate_heap_index. rewrite <- (at_hirq m h s) at 2. apply locked_at; try done.
    run (the_heap_at m h (set_hirq false s)). rewrite !index_len by done.
    pose proof (validate_loop_at m h (set_hirq false s) _ _ 0 AREA_USED B8 ltac:(lia) eq_refl HU) as E. cbn [Z.to_nat drop] in E. run E.
    by apply validate_loop_at.
  - unfold kheap_used_bytes. erewrite (st_bind_Ok (gets kheap)) by done. cbn [at_ kheap]. rewrite index_len by done.
    rewrite used_bytes_at; try done.
    + rewrite Z.add_0_l, (sum_perm _ _ _ (hw_used _ _ _ Hwf)), sum_sizes by apply Hwf. done.
    + eapply Forall_impl; [exact HU|]. naive_solver.
  - intros x Hx Hf. unfold kheap_is_valid. destruct (ptr_of_bound m h l x Hwf Hx) as (_ & _ & _ & ?).
    destruct (Z.eqb_spec (ptr_of x) 0); [lia|]. rewrite <- (at_hirq m h s) at 2. apply locked_at; try done.
    by run (find_area_at m h (set_hirq false s) l x Hwf Hx Hf Hmax).
  - intros p Hp0 Hp. unfold kheap_is_valid. destruct (Z.eqb_spec p 0); [done|]. rewrite <- (at_hirq m h s) at 2.
    apply locked_at; try done. unfold find_area_and_validate.
    assert (E : ((max_address h <? p) || (p <? start_address h)) = true).
    { apply orb_true_iff. rewrite !Z.ltb_lt. done. }
    erewrite (st_bind_Ok (_ ≫= _)); [|run (the_heap_at m h (set_hirq false s)); rewrite E; done]. done.
Qed.

(** ** Before the heap exists *)
Section Early.
Context (name : list Z) (id ebp : Z) (phys : Z -> Z).

Lemma dword_aligned x : x mod PAGE_SIZE = 0 -> dword_up x = x.
Proof.
  intros H. unfold dword_up. assert (E : Z.land x 3 = x mod 4) by (change 3 with (Z.ones 2); by rewrite Z.land_ones).
  rewrite E. unfold PAGE_SIZE in H. destruct (Z.eqb_spec (x mod 4) 0); [done|]. Z.to_euclidean_division_equations; lia.
Qed.

(** before the heap exists [kmalloc] and its variants hand out the memory behind the
    kernel in order: the block starts at or after the placement address, dword or page
    aligned, less than a page further on, and the next one starts behind it; the physical
    address is the address itself. *)
Theorem kmalloc_early s fuel sz al ph :
  kheap s = None -> 0 <= placement_address s -> 0 <= sz -> placement_address s + PAGE_SIZE + sz < 2 ^ 32 ->
  exists p, kmalloc_int name id ebp phys fuel sz al ph s = Ok ((p, if ph then Some p else None), set_placement (p + sz) s) /\
    placement_address s <= p < placement_address s + (if al then PAGE_SIZE else 4) /\
    p mod 4 = 0 /\ (al = true -> p mod PAGE_SIZE = 0).
Proof.
  intros Hk Hp Hs Hb. unfold PAGE_SIZE in Hb.
  set (p := if al && negb (IS_PAGE_ALIGNED (placement_address s)) then u32 (Z.land (placement_address s) 0xfffff000 + PAGE_SIZE)
            else dword_up (placement_address s)).
  assert (Hspec : placement_address s <= p < placement_address s + (if al then PAGE_SIZE else 4) /\ p mod 4 = 0 /\ (al = true -> p mod PAGE_SIZE = 0)).
  { unfold p. rewrite IS_PAGE_ALIGNED_mod. destruct (dword_up_spec (placement_address s) ltac:(lia) ltac:(lia)) as (D1 & D2 & _).
    destruct al; cbn [andb]; [|done]. destruct (Z.eqb_spec (placement_address s mod PAGE_SIZE) 0) as [E|E]; cbn [negb].
    - rewrite dword_aligned by done. unfold PAGE_SIZE in *. Z.to_euclidean_division_equations; lia.
    - rewrite land_page, u32_small by (unfold PAGE_SIZE; Z.to_euclidean_division_equations; lia).
      unfold PAGE_SIZE in *. Z.to_euclidean_division_equations; lia. }
  destruct Hspec as (S1 & S2 & S3). exists p. split; [|done].
  assert (Hland : Z.land p 3 = 0) by (change 3 with (Z.ones 2); rewrite Z.land_ones by lia; done).
  assert (Hpb : 0 <= p + sz < 2 ^ 32) by (destruct al; unfold PAGE_SIZE in *; lia).
  unfold kmalloc_int. erewrite (st_bind_Ok (gets kheap)) by done. rewrite Hk. unfold heap_locked.
  erewrite (st_bind_Ok (gets hirq)) by done. erewrite (st_bind_Ok (modify _)) by done.
  erewrite (st_bind_Ok (_ ≫= _)).
  2: { erewrite (st_bind_Ok (gets placement_address)) by done. change (placement_address (set_hirq false s)) with (placement_address s).
       fold p. erewrite (st_bind_Ok (ensure _)) by (apply ensure_true; by rewrite Hland).
       erewrite (st_bind_Ok (modify _)) by done. rewrite u32_small by lia.
       assert (E : (if al then ensure (IS_PAGE_ALIGNED p) else mret tt) (set_placement (p + sz) (set_hirq false s)) =
                   Ok (tt, set_placement (p + sz) (set_hirq false s))).
       { destruct al; [|done]. apply ensure_true, IS_PAGE_ALIGNED_true. by apply S3. }
       run E. done. }
  destruct s as [m f i k l pa]. by destruct i.
Qed.

(** ** Creating the heap *)
Lemma vmm_alloc_run lo hi s : lo mod PAGE_SIZE = 0 -> hi mod PAGE_SIZE = 0 -> 0 <= lo < hi ->
  hi - lo <= frames s * PAGE_SIZE -> (forall x, lo <= x < hi -> memory s x = None) ->
  exists m', vmm_alloc_kernel lo hi s = Ok (tt, set_space m' (frames s - (hi - lo) / PAGE_SIZE) s) /\
    (forall x, lo <= x < hi -> m' x = Some 0) /\ (forall x, ~ lo <= x < hi -> m' x = memory s x).
Proof.
  intros H1 H2 H3 Hf Hn. set (n := Z.to_nat ((hi - lo) / PAGE_SIZE)).
  assert (En : Z.of_nat n = (hi - lo) / PAGE_SIZE) by (unfold n, PAGE_SIZE in *; Z.to_euclidean_division_equations; lia).
  assert (Ed : (hi - lo) / PAGE_SIZE * PAGE_SIZE = hi - lo) by (unfold PAGE_SIZE in *; Z.to_euclidean_division_equations; lia).
  destruct (map_pages_run n lo s ltac:(lia)) as (m' & Hrun & Hin & Hout).
  { unfold PAGE_SIZE in *. nia. } { rewrite En, Ed. intros. apply Hn. lia. }
  rewrite En, Ed in Hin, Hout. replace (lo + (hi - lo)) with hi in Hin, Hout by lia. exists m'. split; [|done].
  unfold vmm_alloc_kernel. check. do 2 (erewrite (st_bind_Ok (ensure _)) by (apply ensure_true; by apply IS_PAGE_ALIGNED_true)).
  fold n. rewrite Hrun, En. done.
Qed.

Lemma place_index_wf l : zlen l = HEAP_INDEX_SIZE + 1 ->
  oa_wf (place_ordered_array l HEAP_INDEX_SIZE None) /\ elems (place_ordered_array l HEAP_INDEX_SIZE None) = [].
Proof.
  unfold HEAP_INDEX_SIZE. intros Hl. split; [|done]. split; cbn [place_ordered_array size max_size array]; [lia | lia|].
  rewrite zlen_app. unfold zlen in *. rewrite length_replicate, length_drop. lia.
Qed.

#[local] Opaque place_ordered_array.

Definition KHEAP_DATA : Z := KHEAP_START + 2 * (4 * HEAP_INDEX_SIZE).
Definition KHEAP_END : Z := KHEAP_START + KHEAP_INITIAL_SIZE.
Lemma kheap_layout : KHEAP_START <= KHEAP_DATA /\ KHEAP_DATA + 0x10000 = KHEAP_END /\ KHEAP_START <= KHEAP_END.
Proof. split_and!; [vm_compute; discriminate | reflexivity | vm_compute; discriminate]. Qed.

(** [heap_create], called by [init_paging] with no heap yet, sets up a well-formed heap
    of one free area of 64 kiB behind the two indexes, with zeroed memory behind its end. *)
Theorem heap_create_correct s used_mem free_mem fuel :
  kheap s = None -> fresh_trace s -> 0 < placement_address s < 2 ^ 31 ->
  zlen used_mem = HEAP_INDEX_SIZE + 1 -> zlen free_mem = HEAP_INDEX_SIZE + 1 -> 0x91 <= frames s ->
  (forall a, KHEAP_START <= a < KHEAP_END + PAGE_SIZE -> memory s a = None) ->
  exists m h s', heap_create name id ebp phys fuel used_mem free_mem KHEAP_START KHEAP_INITIAL_SIZE KHEAP_MAX_ADDR 1 0 s =
      Ok (tt, at_ m h s') /\
    heap_wf m h [mk_area KHEAP_DATA 0x10000 true] /\ no_ghost m (end_address h) /\
    start_address h = KHEAP_DATA /\ end_address h = KHEAP_END /\ max_address h = KHEAP_MAX_ADDR /\
    hirq s' = hirq s /\ fresh_trace s' /\ frames s' = frames s - 0x91.
Proof.
  intros Hk Htr Hp Hu Hf Hfr Hm.
  destruct (kmalloc_early s fuel HEAP_T_SIZE true false Hk ltac:(lia) ltac:(done) ltac:(unfold PAGE_SIZE, HEAP_T_SIZE; lia)) as (p & Hka & Hpb & _).
  set (s1 := set_placement (p + HEAP_T_SIZE) s) in *. set (s2 := set_hirq false s1).
  destruct (vmm_alloc_run KHEAP_START (KHEAP_END + PAGE_SIZE) s2 eq_refl eq_refl ltac:(done)) as (m1 & Hal & Hin & Hout).
  { unfold s2, s1. cbn [set_hirq set_placement frames]. unfold KHEAP_END, KHEAP_START, KHEAP_INITIAL_SIZE, PAGE_SIZE. lia. } { exact Hm. }
  destruct (place_index_wf used_mem Hu) as [Uw Ue]. destruct (place_index_wf free_mem Hf) as [Fw Fe].
  set (used := place_ordered_array used_mem HEAP_INDEX_SIZE None) in *. set (free := place_ordered_array free_mem HEAP_INDEX_SIZE None) in *.
  set (h0 := mk_heap KHEAP_DATA KHEAP_END KHEAP_START KHEAP_MAX_ADDR 1 0 free used 0).
  set (s3 := set_space m1 (frames s2 - (KHEAP_END + PAGE_SIZE - KHEAP_START) / PAGE_SIZE) s2) in *.
  assert (M1 : mapped m1 KHEAP_START (KHEAP_END + PAGE_SIZE)) by (intros a Ha; rewrite Hin by done; eauto).
  set (m2 := put_area m1 KHEAP_DATA 0x10000 AREA_FREE).
  destruct (insert_free_at m2 h0 s3 KHEAP_DATA) as (a & Hi & Hwf & He & Hmx); [done | done|]. cbn [free_index h0] in He. rewrite Fe in He.
  set (h1 := with_rightmost KHEAP_DATA (with_free a h0)).
  exists m2, h1, (set_hirq (hirq s) s3). split; [|split; [|split; [|split_and!; done]]].
  - unfold heap_create, kmalloc_a. erewrite (st_bind_Ok (_ ≫= _)) by (run Hka; done).
    cbn [fst]. rewrite (proj2 (Z.eqb_neq p 0)) by lia. erewrite (st_bind_Ok (ensure _)) by (by apply ensure_true).
    replace (at_ m2 h1 (set_hirq (hirq s) s3)) with (at_ m2 h1 (set_hirq (hirq s1) s3)) by done.
    unfold heap_locked. erewrite (st_bind_Ok (gets hirq)) by done. erewrite (st_bind_Ok (modify _)) by done. fold s2.
    erewrite (st_bind_Ok (_ ≫= _) _ s2 tt (at_ m2 h1 s3)).
    { destruct (hirq s1) eqn:E; [done|]. cbn. unfold at_, s3, s2. by cbn. }
    erewrite (st_bind_Ok (ensure _)) by (by apply ensure_true). run Hal.
    change (IS_PAGE_ALIGNED (u32 (u32 (KHEAP_START + HEAP_INDEX_SIZE * 4) + HEAP_INDEX_SIZE * 4))) with true. cbv iota.
    change (u32 (u32 (KHEAP_START + HEAP_INDEX_SIZE * 4) + HEAP_INDEX_SIZE * 4)) with KHEAP_DATA.
    change (u32 (KHEAP_INITIAL_SIZE - HEAP_INDEX_SIZE * 4 * 2)) with 0x10000. change (u32 (KHEAP_DATA + 0x10000)) with KHEAP_END.
    erewrite (st_bind_Ok (ensure _)) by (by apply ensure_true).
    change (1 =? 0) with false. change (0 =? 0) with true. cbv iota. fold used free. erewrite (st_bind_Ok (modify _)) by done.
    change (set_kheap _ s3) with (at_ m1 h0 s3). change (u32 (KHEAP_DATA + 0x10000 - FOOTER_SIZE)) with (KHEAP_DATA + 0x10000 - 8).
    unfold set_header_size, set_header_magic, set_header_type, set_footer_magic, set_footer_header.
    change (u32 (KHEAP_DATA + 8)) with (KHEAP_DATA + 8). change (u32 (KHEAP_DATA + 4)) with (KHEAP_DATA + 4).
    change (u32 (KHEAP_DATA + 0x10000 - 8 + 4)) with (KHEAP_DATA + 0x10000 - 4).
    assert (Mm : forall lo hi, KHEAP_START <= lo -> hi <= KHEAP_END -> mapped m1 lo hi).
    { intros. eapply mapped_sub; [exact M1 | lia | unfold PAGE_SIZE; lia]. }
    pose proof kheap_layout as (Hc1 & Hc2 & Hc3).
    erewrite (st_bind_Ok (wr32 _ _)) by (apply wr32_at, Mm; lia).
    erewrite (st_bind_Ok (wr32 _ _)) by (apply wr32_at, mapped_upd32, Mm; lia).
    erewrite (st_bind_Ok (wr8 _ _)) by (apply wr8_at; eapply mapped_at; [repeat apply mapped_upd32; apply (Mm KHEAP_DATA KHEAP_END); lia | lia]).
    erewrite (st_bind_Ok (wr32 _ _)) by (apply wr32_at; apply mapped_upd8; repeat apply mapped_upd32; apply Mm; lia).
    erewrite (st_bind_Ok (wr32 _ _)) by (apply wr32_at; apply mapped_upd32, mapped_upd8; repeat apply mapped_upd32; apply Mm; lia).
    run Hi. done.
  - pose proof kheap_layout as (Hc1 & Hc2 & Hc3).
    split; unfold h1; cbn [with_rightmost with_free start_address end_address free_index used_index rightmost_area h0].
    + split; cbn [with_rightmost with_free start_address end_address free_index used_index h0]; [by vm_compute.. | | exact Hwf | exact Uw].
      unfold m2. apply put_area_mapped. eapply mapped_sub; [exact M1 | lia | lia].
    + cbn [tiles]. unfold a_end. cbn [a_at a_size]. split_and!; [reflexivity | lia | lia].
    + constructor; [|constructor]. apply (put_area_ok m1 KHEAP_DATA 0x10000 true); by vm_compute.
    + exact I.
    + exact He.
    + rewrite Ue. reflexivity.
    + exists (mk_area KHEAP_DATA 0x10000 true). split; reflexivity.
  - left. unfold h1. cbn [with_rightmost with_free end_address h0].
    rewrite (ld32_ext (fun _ => Some 0)); [done|]. intros y Hy. unfold m2. rewrite put_area_frame; [| done |].
    + rewrite Hin; [done|]. pose proof kheap_layout. unfold PAGE_SIZE. lia.
    + right. right. change (KHEAP_DATA + 0x10000) with KHEAP_END. lia.
Qed.
End Early.

(** ** Where the heap falls short *)
Section Realloc.
Context (name : list Z) (id ebp : Z) (phys : Z -> Z).

(** [krealloc] computes the room of an area as its size minus 23 bytes without a sign:
    it returns the old pointer when the new size fits there, and for an area of 21 or 22
    bytes (what [kmalloc_a] of one or two bytes makes) it does so for every new size, and
    nothing grows. *)
Theorem krealloc_tiny_area m h l s x n fuel :
  heap_wf m h l -> x ∈ l -> a_free x = false -> end_address h <= max_address h ->
  0 < n <= (if a_size x <? 23 then 2 ^ 32 - 2 else a_size x - 23) ->
  krealloc name id ebp phys fuel (ptr_of x) n (at_ m h s) = Ok (ptr_of x, at_ m h s).
Proof.
  intros Hwf Hx Hf Hmax Hn. destruct (ptr_of_bound m h l x Hwf Hx) as (_ & _ & _ & P0).
  destruct (heap_readable m h l x Hwf Hx) as ((Ho & H0 & H1) & _). pose proof (size_pos m x Ho).
  unfold krealloc. rewrite (proj2 (Z.eqb_neq (ptr_of x) 0)), (proj2 (Z.eqb_neq n 0)) by lia. cbn [orb].
  rewrite <- (at_hirq m h s) at 2. apply locked_at; try done.
  run (find_area_at m h (set_hirq false s) l x Hwf Hx Hf Hmax). unfold a_end in *. do 2 check.
  run (header_size_at m h (set_hirq false s) x Ho). unfold HEADER_SIZE, FOOTER_SIZE.
  assert (E : n <= u32 (a_size x - 12 - 8 - 3)).
  { destruct (Z.ltb_spec (a_size x) 23).
    - unfold u32. rewrite <- (Z.mod_unique (a_size x - 12 - 8 - 3) (2 ^ 32) (-1) (2 ^ 32 + (a_size x - 23))) by lia. lia.
    - rewrite u32_small by lia. lia. }
  by rewrite (proj2 (Z.leb_le _ _) E).
Qed.

End Realloc.

(** [heap_expand] compares the start of the heap, and not its end, with the limit: a heap
    whose start is far enough below [max_address] grows past it, and an area that lies there
    is never freed, because [heap_free] ignores every pointer above [max_address]. *)
Theorem heap_expand_past_max m h l s sz :
  heap_wf m h l -> hirq s = false -> 0 <= sz < 2 ^ 31 -> grow_room m h s (growth sz) ->
  max_address h < end_address h + growth sz ->
  exists m' h' s', heap_expand sz (at_ m h s) = Ok (tt, at_ m' h' s') /\ max_address h' < end_address h' /\
    forall p, max_address h' < p -> heap_free p (at_ m' h' s') = Ok (tt, at_ m' h' s').
Proof.
  intros Hwf Hi Hs Hg Hmax. destruct (heap_expand_at m h l s sz Hwf Hi Hs Hg) as (m' & s' & Hrun & _).
  exists m', (with_end (end_address h + growth sz) h), s'. split; [done|]. split; [done|].
  intros p Hp. cbn in Hp. unfold heap_free. destruct (Z.eqb_spec p 0); [done|].
  rewrite <- (at_hirq m' _ s') at 2. apply locked_at; try done. erewrite (st_bind_Ok (find_area_and_validate _)).
  2: { unfold find_area_and_validate. run (the_heap_at m' (with_end (end_address h + growth sz) h) (set_hirq false s')). cbn [with_end max_address].
       rewrite (proj2 (Z.ltb_lt _ _) Hp). done. }
  done.
Qed.

(** ** Witnesses *)

(** A heap of one page: a used area of 100 bytes and a free one. *)
Definition demo_mem : mem :=
  put_area (put_area (map_zero (fun _ => None) 0x2000 0x4000) 0x2000 100 AREA_USED) 0x2064 3996 AREA_FREE.
Definition demo_heap : heap_t :=
  mk_heap 0x2000 0x3000 0x2000 0xa000 1 0 (mk_oa [0x2064; 0; 0; 0; 0; 0; 0; 0; 0] 1 8 None)
    (mk_oa [0x2000; 0; 0; 0; 0; 0; 0; 0; 0] 1 8 None) 0x2064.
Definition demo_used : area := mk_area 0x2000 100 false.
Definition demo_free : area := mk_area 0x2064 3996 true.
Definition demo_hs : hstate := mk_hs (fun _ => None) 8 false None None 0x1000.

Lemma demo_mapped : mapped demo_mem 0x2000 0x4000.
Proof.
  unfold demo_mem. do 2 apply put_area_mapped. intros a Ha. unfold map_zero.
  destruct (Z.leb_spec 0x2000 a), (Z.ltb_spec a 0x4000); cbn; eauto; lia.
Qed.
Lemma demo_heap_wf : heap_wf demo_mem demo_heap [demo_used; demo_free].
Proof.
  split.
  - split; try by vm_compute. exact demo_mapped.
  - by vm_compute.
  - repeat constructor; by vm_compute.
  - by vm_compute.
  - by vm_compute.
  - by vm_compute.
  - by exists demo_free.
Qed.

Lemma kmalloc_witness :
  exists p m' h' l' s', kmalloc_int [] 1 0 id 2 10 false false (at_ demo_mem demo_heap demo_hs) = Ok ((p, None), at_ m' h' s') /\
    allocated demo_mem [demo_used; demo_free] 10 false p m' h' l' /\ hirq s' = false.
Proof.
  apply (kmalloc_correct [] 1 0 id demo_mem demo_heap [demo_used; demo_free] demo_hs 10 false demo_heap_wf); try by vm_compute.
  left. exists demo_free. split; [set_solver|]. split; [done|]. by vm_compute.
Defined.

Lemma kfree_witness :
  exists m' h' l' s', kfree (ptr_of demo_used) (at_ demo_mem demo_heap demo_hs) = Ok (tt, at_ m' h' s') /\ hirq s' = false /\
    freed demo_mem demo_heap [] demo_used [demo_free] m' h' l'.
Proof.
  apply (kfree_correct demo_mem demo_heap demo_hs [] demo_used [demo_free] demo_heap_wf); try by vm_compute.
  left. by vm_compute.
Defined.

Lemma heap_checks_witness : kheap_used_bytes (at_ demo_mem demo_heap demo_hs) = Ok (100, at_ demo_mem demo_heap demo_hs) /\
  kheap_is_valid 0x200c (at_ demo_mem demo_heap demo_hs) = Ok (true, at_ demo_mem demo_heap demo_hs).
Proof.
  destruct (heap_checks_correct demo_mem demo_heap _ demo_hs demo_heap_wf ltac:(by vm_compute)) as (_ & H1 & H2 & _).
  split; [exact H1|]. apply (H2 demo_used); [set_solver | done].
Defined.

Lemma kmalloc_early_witness :
  exists p, kmalloc_int [] 1 0 id 0 100 true true demo_hs = Ok ((p, Some p), set_placement (p + 100) demo_hs) /\ p = 0x1000.
Proof.
  destruct (kmalloc_early [] 1 0 id demo_hs 0 100 true true) as (p & H & Hp & _ & Hal); try by vm_compute.
  exists p. split; [exact H|]. cbn [placement_address demo_hs] in Hp. specialize (Hal eq_refl). unfold PAGE_SIZE in *.
  Z.to_euclidean_division_equations; lia.
Defined.

Definition boot_hs : hstate := mk_hs (fun _ => None) 0x200 false None None 0x200000.

Lemma heap_create_witness :
  exists m h s', heap_create [] 1 0 id 0 (replicate (Z.to_nat (HEAP_INDEX_SIZE + 1)) 0) (replicate (Z.to_nat (HEAP_INDEX_SIZE + 1)) 0)
      KHEAP_START KHEAP_INITIAL_SIZE KHEAP_MAX_ADDR 1 0 boot_hs = Ok (tt, at_ m h s') /\
    heap_wf m h [mk_area KHEAP_DATA 0x10000 true].
Proof.
  destruct (heap_create_correct [] 1 0 id boot_hs (replicate (Z.to_nat (HEAP_INDEX_SIZE + 1)) 0)
    (replicate (Z.to_nat (HEAP_INDEX_SIZE + 1)) 0) 0) as (m & h & s' & H & Hwf & _).
  - reflexivity.
  - reflexivity.
  - cbn. lia.
  - unfold zlen. rewrite length_replicate. unfold HEAP_INDEX_SIZE. lia.
  - unfold zlen. rewrite length_replicate. unfold HEAP_INDEX_SIZE. lia.
  - cbn. lia.
  - reflexivity.
  - exists m, h, s'. split; [exact H | exact Hwf].
Defined.

Definition tiny_mem : mem := put_area (put_area (map_zero (fun _ => None) 0x2000 0x4000) 0x2000 21 AREA_USED) 0x2015 4075 AREA_FREE.
Definition tiny_heap : heap_t :=
  mk_heap 0x2000 0x3000 0x2000 0xa000 1 0 (mk_oa [0x2015; 0; 0; 0; 0; 0; 0; 0; 0] 1 8 None)
    (mk_oa [0x2000; 0; 0; 0; 0; 0; 0; 0; 0] 1 8 None) 0x2015.
Lemma tiny_heap_wf : heap_wf tiny_mem tiny_heap [mk_area 0x2000 21 false; mk_area 0x2015 4075 true].
Proof.
  split; try by vm_compute.
  - split; try by vm_compute.
    unfold tiny_mem. do 2 apply put_area_mapped. intros a Ha. unfold PAGE_SIZE in Ha. cbn in Ha. unfold map_zero.
    destruct (Z.leb_spec 0x2000 a), (Z.ltb_spec a 0x4000); cbn; eauto; lia.
  - repeat constructor; by vm_compute.
  - by exists (mk_area 0x2015 4075 true).
Qed.
Lemma krealloc_tiny_witness : krealloc [] 1 0 id 2 0x200c 100000 (at_ tiny_mem tiny_heap demo_hs) = Ok (0x200c, at_ tiny_mem tiny_heap demo_hs).
Proof.
  apply (krealloc_tiny_area [] 1 0 id tiny_mem tiny_heap _ demo_hs (mk_area 0x2000 21 false) 100000 2 tiny_heap_wf); try by vm_compute.
  set_solver.
Defined.

Lemma heap_expand_past_witness :
  exists m' h' s', heap_expand 100 (at_ demo_mem demo_heap demo_hs) = Ok (tt, at_ m' h' s') /\ max_address h' < end_address h' /\
    forall p, max_address h' < p -> heap_free p (at_ m' h' s') = Ok (tt, at_ m' h' s').
Proof.
  apply (heap_expand_past_max demo_mem demo_heap [demo_used; demo_free] demo_hs 100 demo_heap_wf); try by vm_compute.
  change (growth 100) with 0x8000. split; cbn; unfold PAGE_SIZE; try lia. intros a Ha.
  unfold demo_mem. rewrite !put_area_frame by lia. unfold map_zero. destruct (Z.leb_spec 0x2000 a), (Z.ltb_spec a 0x4000); cbn; done || lia.
Defined.
