(* ===== verification/VmmHeap.v ===== *)
(** * The virtual memory manager under the kernel heap

    Heap.v describes [vmm_alloc_kernel] and [vmm_free] by what they promise the heap: zeroed
    pages where none were mapped, and a count of free frames.  Here the page table code of
    Vmm.v is shown to keep that promise: [heap_view] relates the heap's memory to the kernel's
    page tables and physical memory, and every step of the one is a step of the other. *)
From S2P Require Import Prelude Memory OrderedArray Heap Pmm Vmm VmmInv VmmUser VmmSpec.

Definition heap_range (v : Z) : Prop := KHEAP_START <= v < 0xd0000000.
Definition kwalk (s : vmm) (v : Z) : page_t := walk s (kernel_directory s) v.

(** What the kernel finds at an address of its heap. *)
Definition kbyte (s : vmm) (v : Z) : option Z :=
  if Vmm.present (kwalk s v) =? 1 then Some (ram (pm s) (frame (kwalk s v) * PAGE_SIZE + v mod PAGE_SIZE)) else None.

Record heap_view (hs : hstate) (s : vmm) : Prop := {
  hv_mem v : heap_range v -> memory hs v = kbyte s v;
  hv_frames : frames hs = frames_with false (pm s)
}.

(** The page tables of the heap are all there ([init_paging] creates them), and the frames
    behind its pages are its own. *)
Record kheap_wf (s : vmm) : Prop := {
  kw_table v : heap_range v -> exists kd, dirs s !! kernel_directory s = Some kd /\ tables kd (PT v) <> 0;
  kw_page v : heap_range v -> kwalk s v = page0 \/
    (Vmm.present (kwalk s v) = 1 /\ frame (kwalk s v) <> 0 /\ searched (pm s) (frame (kwalk s v)) /\ frame_used (pm s) (frame (kwalk s v)) = true);
  kw_inj v w : heap_range v -> heap_range w -> frame (kwalk s v) = frame (kwalk s w) -> frame (kwalk s v) <> 0 -> vpn v = vpn w;
  kw_user v d w : heap_range v -> IS_USER_SPACE w = true -> frame (kwalk s v) <> 0 -> frame (walk s d w) <> frame (kwalk s v)
}.

Lemma heap_kernel v : heap_range v -> IS_USER_SPACE v = false /\ 0 <= v < 2 ^ 32.
Proof.
  unfold heap_range, KHEAP_START. intros Hv. split; [|lia]. destruct (IS_USER_SPACE v) eqn:E; [|done]. apply user_space in E. lia.
Qed.
Lemma heap_range_vpn v w : vpn v = vpn w -> heap_range v -> heap_range w.
Proof. unfold heap_range, KHEAP_START, vpn, PAGE_SIZE. intros. Z.to_euclidean_division_equations; lia. Qed.

Lemma heap_reaches s v : pt_wf s -> kheap_wf s -> heap_range v -> reaches (fun _ _ => True) s (kernel_directory s) v.
Proof. intros P K Hv. right. split; [by apply heap_kernel|]. split; [done | by apply (kw_table _ K)]. Qed.

(** The effect of setting an entry of the heap: on the heap, and on user space. *)
Lemma heap_entry s s' v p : pt_wf s -> heap_range v -> entry_set (kernel_directory s) v p s s' ->
  (forall w, kwalk s' w = if decide (vpn w = vpn v) then p else kwalk s w) /\
  (forall d w, IS_USER_SPACE w = true -> walk s' d w = walk s d w).
Proof.
  intros P Hv [E1 E2 E3 E4 E5]. destruct (heap_kernel v Hv) as [Hk _]. split.
  - intros w. unfold kwalk. rewrite (sd_kernel _ _ E3). case_decide as Hw; [apply E4; [|done] | apply E5; by intros []].
    split; [apply P | by left].
  - intros d w Hu. apply E5. intros [_ Hw]. assert (IS_USER_SPACE v = true); [by apply user_vpn with w | congruence].
Qed.

Lemma kwalk_vpn s v w : vpn v = vpn w -> kwalk s v = kwalk s w.
Proof. apply walk_vpn. Qed.

Lemma kheap_table s s' v : same_dirs s s' -> kheap_wf s -> heap_range v ->
  exists kd, dirs s' !! kernel_directory s' = Some kd /\ tables kd (PT v) <> 0.
Proof.
  intros S K Hv. destruct (kw_table _ K v Hv) as (kd & Hk & Ht). destruct (sd_tables _ _ S _ _ Hk) as (kd' & Hk' & Ht').
  exists kd'. rewrite (sd_kernel _ _ S). split; [done|]. by rewrite Ht'.
Qed.

(** User space when a frame that is not its own changes hands. *)
Lemma frames_wf_pm s s' : frames_wf s -> pmm_wf (pm s') -> nframes (pm s') = nframes (pm s) -> frame_used (pm s') 0 = true ->
  (forall d v, IS_USER_SPACE v = true -> walk s' d v = walk s d v) ->
  (forall d v, IS_USER_SPACE v = true -> frame (walk s d v) <> 0 -> frame_used (pm s') (frame (walk s d v)) = true) -> frames_wf s'.
Proof.
  intros [F1 F2 F3 F4 F5] Hp Hn Hz Hw Hu. split; [done | done | | | intros d v Hv; rewrite Hw by done; eauto].
  - intros d v Hv. rewrite Hw by done. intros Hf. split; [|by apply Hu]. unfold searched. rewrite Hn. by apply (F3 d v).
  - intros d1 v1 d2 v2 H1 H2. rewrite !Hw by done. eauto.
Qed.

Section Refine.
Context `{KernelAlloc}.

(** One page of the heap is mapped. *)
Lemma heap_map_page s v wr : vm_wf s -> kheap_wf s -> heap_range v -> v mod PAGE_SIZE = 0 -> kwalk s v = page0 ->
  0 < frames_with false (pm s) ->
  exists i s1 s', pmm_alloc (pm s) = Ok (i * PAGE_SIZE, s1) /\ vmm_map_kernel v (i * PAGE_SIZE) wr (set_pm s1 s) = Ok (tt, s') /\
    vm_wf s' /\ kheap_wf s' /\ same_dirs s s' /\ mms s' = mms s /\
    (forall w, heap_range w -> kbyte s' w = if decide (v <= w < v + PAGE_SIZE) then Some 0 else kbyte s w) /\
    (forall d w, IS_USER_SPACE w = true -> space s' d w = space s d w) /\
    frames_with false (pm s') = frames_with false (pm s) - 1 /\ intr (pm s') = intr (pm s).
Proof.
  intros W K Hv Hal Hz Hfree. pose proof (wf_frames _ W) as F.
  destruct (pmm_alloc_some (pm s)) as (i & q & Hq & Hs & Hi & Q1 & Q2 & Q3 & Q4 & Q5 & Q6); [apply F | done |].
  set (s1 := set_pm q s). assert (P1 : pt_wf s1) by (by destruct (wf_pt _ W)).
  assert (Hr : reaches (fun _ _ => True) s1 (kernel_directory s1) v) by exact (heap_reaches s v (wf_pt _ W) K Hv).
  destruct (vmm_map_ok (fun _ _ => True) s1 (kernel_directory s1) v (i * PAGE_SIZE) true wr P1 Hr Hz) as (s2 & R2 & P2 & E2).
  set (p := mapped_page _ _ _ _ _) in E2. assert (Hp : Vmm.present p = 1 /\ frame p = i) by (split; [done|]; cbn; by apply Z.div_mul).
  destruct Hp as [Hp1 Hp2]. assert (Hi0 : i <> 0) by (intros ->; by rewrite (fw_zero _ F) in Hi).
  destruct (heap_entry s1 s2 v p P1 Hv E2) as [Hk Hu]. assert (Epm : pm s2 = q) by apply E2.
  change (kwalk s1) with (kwalk s) in Hk. change (walk s1) with (walk s) in Hu.
  assert (Hram : forall x, frame_used (pm s) (x / PAGE_SIZE) = true -> ram q x = ram (pm s) x).
  { intros x Hx. rewrite Q2, decide_False; [done|]. intros Hx'. assert (x / PAGE_SIZE = i) by (unfold PAGE_SIZE in *; Z.to_euclidean_division_equations; lia). congruence. }
  assert (Hold : forall w, heap_range w -> frame (kwalk s w) <> 0 -> searched (pm s) (frame (kwalk s w)) /\ frame_used (pm s) (frame (kwalk s w)) = true /\ frame (kwalk s w) <> i).
  { intros w Hw Hf. destruct (kw_page _ K w Hw) as [E|(_ & _ & ? & Hu')]; [by rewrite E in Hf|]. split_and!; [done | done|]. intros E. congruence. }
  assert (S2 : same_dirs s s2) by (by destruct (es_dirs _ _ _ _ _ E2)).
  exists i, q, s2. split_and!; [done | exact R2 | | | done | exact (es_mms _ _ _ _ _ E2) | | | by rewrite Epm | by rewrite Epm].
  - split; [done | | rewrite (es_mms _ _ _ _ _ E2); apply W].
    apply frames_wf_pm with s; rewrite ?Epm; try done; [rewrite Q1, (fw_zero _ F); by case_decide|].
    intros d w Hw Hf. rewrite Q1. case_decide; [done | by apply (fw_used _ F)].
  - split.
    + intros w Hw. by apply kheap_table with s.
    + intros w Hw. rewrite Hk, Epm. case_decide as Hc.
      * right. rewrite Hp1, Hp2. split_and!; [done | done | unfold searched in *; by rewrite Q4 | by rewrite Q1, decide_True].
      * destruct (kw_page _ K w Hw) as [|(A1 & A2 & A3 & A4)]; [by left | right]. split_and!; [done | done | unfold searched in *; by rewrite Q4|].
        rewrite Q1, A4. by case_decide.
    + intros w1 w2 H1 H2. rewrite !Hk. do 2 case_decide; rewrite ?Hp2; intros E Hf.
      * congruence.
      * exfalso. destruct (Hold w2 H2) as (_ & _ & ?); [congruence | done].
      * exfalso. destruct (Hold w1 H1 Hf) as (_ & _ & ?). done.
      * by apply (kw_inj _ K).
    + intros w d u Hw Hu'. rewrite Hk, (Hu d u Hu'). case_decide; [|by apply (kw_user _ K)]. rewrite Hp2. intros _ E.
      destruct (fw_used _ F d u Hu') as [_ ?]; congruence.
  - intros w Hw. unfold kbyte. rewrite Hk, Epm. destruct (decide (v <= w < v + PAGE_SIZE)) as [Hc%vpn_range|Hc]; [|done|].
    + rewrite decide_True by done. rewrite Hp1, Hp2. cbn [Z.eqb Pos.eqb]. rewrite Q2, decide_True; [done|].
      pose proof (Z.mod_pos_bound w PAGE_SIZE ltac:(done)). unfold PAGE_SIZE in *. lia.
    + rewrite decide_False by (by rewrite vpn_range). destruct (Z.eqb_spec (Vmm.present (kwalk s w)) 1) as [Hpr|]; [|done].
      rewrite Hram; [done|]. rewrite page_byte. destruct (kw_page _ K w Hw) as [E|(_ & _ & _ & ?)]; [by rewrite E in Hpr | done].
  - intros d w Hw. unfold space. rewrite Hu, Epm by done. destruct (Z.eqb_spec (frame (walk s d w)) 0) as [|Hf]; [done|].
    rewrite Hram; [done|]. rewrite page_byte. by apply (fw_used _ F).
Qed.

(** One page of the heap is given back. *)
Lemma heap_free_page s v : vm_wf s -> kheap_wf s -> heap_range v -> Vmm.present (kwalk s v) = 1 ->
  exists s', Vmm.vmm_free v (kernel_directory s) s = Ok (tt, s') /\ vm_wf s' /\ kheap_wf s' /\ same_dirs s s' /\ mms s' = mms s /\
    (forall w, heap_range w -> kbyte s' w = if decide (vpn w = vpn v) then None else kbyte s w) /\
    (forall d w, IS_USER_SPACE w = true -> space s' d w = space s d w) /\
    frames_with false (pm s') = frames_with false (pm s) + 1 /\ intr (pm s') = intr (pm s).
Proof.
  intros W K Hv Hpr. pose proof (wf_frames _ W) as F. set (kd := kernel_directory s) in *.
  destruct (kw_page _ K v Hv) as [E|(_ & Hf & Hs & Huse)]; [by rewrite E in Hpr|]. set (f := frame (kwalk s v)) in *.
  assert (Hd0 : kd <> 0) by (intros E; destruct (pt_kernel_dir _ _ (wf_pt _ W)) as [x Hx]; fold kd in Hx; by rewrite E, (proj1 (pt_null _ _ (wf_pt _ W))) in Hx).
  destruct (vmm_get_phys_ok (fun _ _ => True) s kd v (wf_pt _ W) (heap_reaches s v (wf_pt _ W) K Hv)) as (s1 & Hg & P1 & V1). change (walk s kd v) with (kwalk s v) in Hg. fold f in Hg.
  pose proof (Z.mod_pos_bound v PAGE_SIZE ltac:(done)) as Hm.
  rewrite u32_small in Hg by (pose proof (wf_nframes _ (fw_pmm _ F)); unfold searched, PAGE_SIZE in *; Z.to_euclidean_division_equations; lia).
  pose proof (pmm_free_spec (pm s1) (f * PAGE_SIZE + v mod PAGE_SIZE)) as Hfree. rewrite page_byte, (ve_pm _ _ V1) in Hfree.
  specialize (Hfree (fw_pmm _ F) ltac:(unfold searched, PAGE_SIZE in *; lia)).
  destruct (pmm_free _ (pm s)) as [q| | |] eqn:Eq; [| destruct Hfree as [|Hin]; [congruence | destruct Hin; unfold in_map, searched in *; lia] | done..].
  destruct Hfree as (_ & _ & Q1 & _ & Q3 & Q4 & Q5 & Q6). set (s2 := set_pm q s1). assert (P2 : pt_wf s2) by (by destruct P1).
  assert (S12 : same_dirs s s2) by (by destruct (ve_dirs _ _ V1)).
  assert (Hk2 : kernel_directory s2 = kd) by exact (sd_kernel _ _ S12).
  assert (Hr2 : reaches (fun _ _ => True) s2 kd v).
  { right. split; [by apply heap_kernel|]. split; [done|]. rewrite <- Hk2. by apply kheap_table with s. }
  assert (Hw2 : walk s2 kd v = kwalk s v) by exact (ve_walk _ _ V1 kd v).
  destruct (vmm_unmap_ok (fun _ _ => True) s2 kd v P2 Hr2) as (s3 & Hrun & P3 & E3); [left; by rewrite Hw2|].
  rewrite <- Hk2 in E3. destruct (heap_entry s2 s3 v page0 P2 Hv E3) as [Hk Hu].
  assert (Hk' : forall w, kwalk s3 w = if decide (vpn w = vpn v) then page0 else kwalk s w).
  { intros w. rewrite Hk. case_decide; [done|]. unfold kwalk. rewrite Hk2. exact (ve_walk _ _ V1 kd w). }
  assert (Hu' : forall d w, IS_USER_SPACE w = true -> walk s3 d w = walk s d w) by (intros d w Hw; rewrite Hu by done; exact (ve_walk _ _ V1 d w)).
  assert (Epm : pm s3 = q) by exact (es_pm _ _ _ _ _ E3). assert (S3 : same_dirs s s3) by (trans s2; [done | apply E3]).
  assert (Hof : forall w, heap_range w -> vpn w <> vpn v -> frame (kwalk s w) <> 0 -> frame (kwalk s w) <> f)
    by (intros w Hw Hn Hz E; apply Hn; by apply (kw_inj _ K)).
  exists s3. split_and!; [| | | done | rewrite (es_mms _ _ _ _ _ E3); exact (ve_mms _ _ V1) | | | | by rewrite Epm].
  - unfold Vmm.vmm_free. check. run Hg. erewrite (st_bind_Ok (on_pmm_ _)); [exact Hrun|]. unfold on_pmm_. apply on_pmm_ok. by rewrite (ve_pm _ _ V1), Eq.
  - split; [done | | rewrite (es_mms _ _ _ _ _ E3), (ve_mms _ _ V1 : mms s2 = mms s); apply W].
    apply frames_wf_pm with s; rewrite ?Epm; try done; [rewrite Q1, (fw_zero _ F); by case_decide|].
    intros d w Hw Hz. rewrite Q1, decide_False by (apply not_eq_sym; by apply (kw_user _ K)). by apply (fw_used _ F).
  - split.
    + intros w Hw. by apply kheap_table with s.
    + intros w Hw. rewrite Hk', Epm. case_decide as Hc; [by left|]. destruct (kw_page _ K w Hw) as [|(A1 & A2 & A3 & A4)]; [by left | right].
      split_and!; [done | done | unfold searched in *; by rewrite Q5|]. rewrite Q1, decide_False; [done|]. by apply not_eq_sym, Hof.
    + intros w1 w2 H1 H2. rewrite !Hk'. do 2 case_decide; [congruence | done | cbn; congruence | by apply (kw_inj _ K)].
    + intros w d u Hw Hu''. rewrite Hk', Hu' by done. case_decide; [done | by apply (kw_user _ K)].
  - intros w Hw. unfold kbyte. rewrite Hk', Epm. case_decide; [done|]. by rewrite Q4.
  - intros d w Hw. unfold space. by rewrite Hu', Epm, Q4.
  - rewrite Epm. by apply frames_freed with f.
Qed.

(** ** The loops *)
Lemma map_any_refines n : forall hs s a ret hs', heap_view hs s -> vm_wf s -> kheap_wf s -> a mod PAGE_SIZE = 0 ->
  KHEAP_START <= a -> a + Z.of_nat n * PAGE_SIZE <= 0xd0000000 -> map_pages n a hs = Ok (tt, hs') ->
  exists phys s', map_any n a ret true s = Ok (phys, s') /\ heap_view hs' s' /\ vm_wf s' /\ kheap_wf s' /\ same_dirs s s' /\
    mms s' = mms s /\ (forall d w, IS_USER_SPACE w = true -> space s' d w = space s d w).
Proof.
  induction n as [|n IH]; intros hs s a ret hs' V W K Hal H1 H2 Hrun; cbn [map_any map_pages] in *.
  { injection Hrun as <-. by exists ret, s. }
  apply st_bind_inv in Hrun as (k & h0 & [= <- <-] & Hrun). apply st_bind_inv in Hrun as (m & h0 & [= <- <-] & Hrun).
  apply st_bind_inv in Hrun as ([] & h0 & Hk & Hrun). apply st_bind_inv in Hrun as ([] & h1 & Hp & Hrun). apply st_bind_inv in Hrun as ([] & h2 & [= <-] & Hrun).
  apply ensure_inv in Hk as [Ek ->], Hp as [Ep ->]. bool_to_prop.
  assert (Hv : heap_range a) by (unfold heap_range, PAGE_SIZE in *; lia). rewrite (hv_frames _ _ V) in Ek.
  assert (Hz : kwalk s a = page0).
  { destruct (kw_page _ K a Hv) as [|(A1 & _)]; [done|]. unfold Memory.present in Ep. rewrite (hv_mem _ _ V a Hv) in Ep. unfold kbyte in Ep. by rewrite A1 in Ep. }
  destruct (heap_map_page s a true W K Hv Hal Hz Ek) as (i & q & s1 & Hq & R1 & W1 & K1 & S1 & M1 & B1 & U1 & F1 & _).
  destruct (IH (set_space (map_zero (memory hs) a (a + PAGE_SIZE)) (frames hs - 1) hs) s1 (a + PAGE_SIZE) (if ret =? 0 then i * PAGE_SIZE else ret) hs') as (phys & s2 & R2 & V2 & W2 & K2 & S2 & M2 & U2); [| done | done | | | | exact Hrun |].
  - split; cbn [memory frames set_space].
    + intros w Hw. rewrite B1 by done. unfold map_zero. rewrite (hv_mem _ _ V w Hw).
      destruct (Z.leb_spec a w), (Z.ltb_spec w (a + PAGE_SIZE)); cbn; case_decide; (done || lia).
    + rewrite F1, (hv_frames _ _ V). done.
  - unfold PAGE_SIZE in *. Z.to_euclidean_division_equations; lia.
  - unfold PAGE_SIZE. lia.
  - unfold PAGE_SIZE in *. lia.
  - exists phys, s2. split_and!; [|done | done | done | by trans s1 | congruence | intros d w Hw; by rewrite U2, U1].
    run (on_pmm_ok pmm_alloc s _ _ Hq). run R1. exact R2.
Qed.

(** C6: the page table code does for the kernel heap what Heap.v expects of it: where the
    heap's [vmm_alloc_kernel] and [vmm_free] succeed, so do the real ones, the heap then finds
    in its pages what Heap.v says, with as many frames free, and user memory is not touched. *)
Theorem vmm_implements_heap_memory hs s : heap_view hs s -> vm_wf s -> kheap_wf s ->
  (forall lo hi hs', KHEAP_START <= lo -> hi <= 0xd0000000 -> Heap.vmm_alloc_kernel lo hi hs = Ok (tt, hs') ->
    exists phys s', Vmm.vmm_alloc_kernel lo hi false true s = Ok (phys, s') /\ heap_view hs' s' /\ vm_wf s' /\ kheap_wf s' /\
      forall d w, IS_USER_SPACE w = true -> space s' d w = space s d w) /\
  (forall v hs', heap_range v -> Heap.vmm_free v hs = Ok (tt, hs') ->
    exists s', Vmm.vmm_free v (kernel_directory s) s = Ok (tt, s') /\ heap_view hs' s' /\ vm_wf s' /\ kheap_wf s' /\
      forall d w, IS_USER_SPACE w = true -> space s' d w = space s d w).
Proof.
  intros V W K. split.
  - intros lo hi hs' H1 H2 Hrun. unfold Heap.vmm_alloc_kernel in Hrun.
    apply st_bind_inv in Hrun as ([] & h0 & A1 & Hrun). apply st_bind_inv in Hrun as ([] & h1 & A2 & Hrun). apply st_bind_inv in Hrun as ([] & h2 & A3 & Hrun).
    apply ensure_inv in A1 as [E1 ->], A2 as [E2 ->], A3 as [E3 ->].
    rewrite IS_PAGE_ALIGNED_mod in E2, E3. bool_to_prop. destruct (pages_exact lo hi E2 E3 ltac:(by apply Z.lt_le_incl)) as [En Ehi].
    assert (Enat : Z.to_nat ((hi - lo) / PAGE_SIZE) = pages_between lo hi) by (rewrite <- En; apply Nat2Z.id). rewrite Enat in Hrun.
    destruct (map_any_refines _ hs s lo 0 hs' V W K E2 H1 ltac:(rewrite Ehi; lia) Hrun) as (phys & s' & R & V' & W' & K' & _ & _ & U).
    exists phys, s'. split_and!; [|done..]. unfold Vmm.vmm_alloc_kernel. check. rewrite !land_fff.
    do 3 (erewrite (st_bind_Ok (ensure _)) by (apply ensure_true, Z.eqb_eq; unfold PAGE_SIZE in *; Z.to_euclidean_division_equations; lia)). exact R.
  - intros v hs' Hv Hrun. unfold Heap.vmm_free in Hrun. apply st_bind_inv in Hrun as (k & h0 & [= <- <-] & Hrun).
    apply st_bind_inv in Hrun as (m & h0 & [= <- <-] & Hrun). apply st_bind_inv in Hrun as ([] & h0 & A1 & Hrun). apply ensure_inv in A1 as [Ep ->].
    injection Hrun as <-. unfold Memory.present in Ep. rewrite (hv_mem _ _ V v Hv) in Ep.
    unfold kbyte in Ep. destruct (Z.eqb_spec (Vmm.present (kwalk s v)) 1) as [Hp|]; [|done].
    destruct (heap_free_page s v W K Hv Hp) as (s' & R & W' & K' & _ & _ & B & U & Fr & _). exists s'. split_and!; [done | | done..].
    split; cbn [memory frames set_space].
    + intros w Hw. rewrite B by done. unfold unmap. rewrite (hv_mem _ _ V w Hw). unfold vpn.
      destruct (Z.leb_spec (v / PAGE_SIZE * PAGE_SIZE) w), (Z.ltb_spec w (v / PAGE_SIZE * PAGE_SIZE + PAGE_SIZE)); cbn; case_decide; try done;
        exfalso; unfold PAGE_SIZE in *; Z.to_euclidean_division_equations; lia.
    + rewrite Fr, (hv_frames _ _ V). done.
Qed.
End Refine.

(** ** On a concrete machine: the tables of the heap, all empty. *)
Definition boot_tables : gmap Z page_table := list_to_map ((fun i => (100 + i, fun _ => page0)) <$> seqZ 768 64).
Definition boot_dir : page_directory := mk_pd (fun _ => 0) (fun i => if (768 <=? i) && (i <? 832) then 100 + i else 0) 0.
Definition boot : vmm := mk_vmm (mk_pmm [7; 0; 0; 0] 96 FULL (96 * PAGE_SIZE) true (fun x => x mod 251)) {[1 := boot_dir]} boot_tables [1] ∅ 1 1 0 0 0.
Definition boot_heap : hstate := mk_hs (fun _ => None) 93 true None None 0.

Lemma boot_table_ok i : 768 <= i < 832 -> is_Some (boot_tables !! (100 + i)).
Proof.
  intros Hi. assert (Hall : forallb (fun i => bool_decide (is_Some (boot_tables !! (100 + i)))) (seqZ 768 64) = true) by (vm_compute; reflexivity).
  rewrite forallb_forall in Hall. specialize (Hall i). rewrite <- list_elem_of_In, elem_of_seqZ in Hall. apply bool_decide_eq_true in Hall; [done | lia].
Qed.
Lemma boot_walk d v : walk boot d v = page0.
Proof.
  unfold walk. destruct (dirs boot !! d) as [pd|]; [|done]. destruct (ptables boot !! tables pd (PT v)) as [t|] eqn:Et; [|done].
  apply elem_of_list_to_map_2, list_elem_of_fmap in Et as (i & [= _ ->] & _). done.
Qed.
Lemma boot_dirs d pd : dirs boot !! d = Some pd -> d = 1 /\ pd = boot_dir.
Proof. cbn. intros [<- <-]%lookup_singleton_Some. done. Qed.
Lemma boot_table i : (768 <= i < 832 /\ tables boot_dir i = 100 + i) \/ (~ 768 <= i < 832 /\ tables boot_dir i = 0).
Proof. cbn. destruct (Z.leb_spec 768 i), (Z.ltb_spec i 832); cbn; lia. Qed.

Lemma boot_wf : vm_wf boot.
Proof.
  split; [split|split|done].
  - split; [done|]. vm_compute. done.
  - intros d pd i [-> ->]%boot_dirs. destruct (boot_table i) as [[Hi ->]|[_ ->]]; [right; by apply boot_table_ok | by left].
  - by eexists.
  - intros d pd kd i [-> ->]%boot_dirs [_ ->]%boot_dirs _ _. done.
  - intros kd i [_ ->]%boot_dirs Hi. destruct (boot_table i) as [[Hr _]|[_ ->]]; [|done]. destruct Hi. split; [lia|].
    unfold IS_KERNEL_SPACE. apply negb_true_iff. destruct (IS_USER_SPACE _) eqn:E; [|done]. apply user_space in E. rewrite u32_small in E by lia. lia.
  - intros d1 p1 i1 d2 p2 i2 [-> ->]%boot_dirs [-> ->]%boot_dirs.
    destruct (boot_table i1) as [[H1 ->]|[_ ->]], (boot_table i2) as [[H2 ->]|[_ ->]]; intros E Hz; (lia || (split; [lia | by left])).
  - split; [done | done | done | by repeat constructor | by left].
  - done.
  - intros d v _. by rewrite boot_walk.
  - intros d1 v1 d2 v2 _ _. by rewrite !boot_walk.
  - intros d v _ _. apply boot_walk.
Qed.
Lemma boot_kheap : kheap_wf boot.
Proof.
  split.
  - intros v Hv. exists boot_dir. split; [done|]. unfold heap_range, KHEAP_START in Hv.
    assert (768 <= PT v < 832) by (unfold PT; Z.to_euclidean_division_equations; lia). destruct (boot_table (PT v)) as [[_ ->]|[? _]]; lia.
  - intros v _. left. apply boot_walk.
  - intros v w _ _. unfold kwalk. by rewrite boot_walk.
  - intros v d w _ _. unfold kwalk. by rewrite boot_walk.
Qed.
Lemma boot_view : heap_view boot_heap boot.
Proof. split; [|vm_compute; reflexivity]. intros v _. unfold kbyte, kwalk. by rewrite boot_walk. Qed.

Lemma vmm_implements_heap_memory_witness : exists hs' phys s',
  Heap.vmm_alloc_kernel KHEAP_START (KHEAP_START + 0x3000) boot_heap = Ok (tt, hs') /\
  @Vmm.vmm_alloc_kernel demo_alloc KHEAP_START (KHEAP_START + 0x3000) false true boot = Ok (phys, s') /\ heap_view hs' s'.
Proof.
  eexists. destruct (@vmm_implements_heap_memory demo_alloc boot_heap boot boot_view boot_wf boot_kheap) as [Ha _].
  destruct (Ha KHEAP_START (KHEAP_START + 0x3000) _ ltac:(done) ltac:(done) eq_refl) as (phys & s' & R & V & _).
  exists phys, s'. split; [reflexivity|]. split; [exact R | exact V].
Defined.
