(* ===== verification/DList.v ===== *)
(** * The doubly linked list (src/src/kernel/list.c)

    Lists and their nodes are objects of the kernel heap: the memory maps an address
    to a [node_t] or to a [list_t], [kmalloc] picks an address that is not in use and
    [kfree] removes an object, so that using a freed node is [Undef].  NULL is 0. *)
From S2P Require Import Prelude.

Record node_t := mk_node { data : Z; prev : Z; next : Z; list_of : Z }.
(** [list.c] never touches the [mutex] member of [list_t]. *)
Record list_t := mk_list { head : Z; tail : Z; count_ : Z }.

Record lmem := mk_lmem {
  nodes : gmap Z node_t;
  lists : gmap Z list_t;
  irq : bool                      (** interrupts enabled *)
}.

(** What the lists need from [kmalloc]: an address that is not NULL and not in use. *)
Class Allocator := {
  alloc : lmem -> Z;
  alloc_not_null : forall m, alloc m <> 0;
  alloc_fresh_node : forall m, nodes m !! alloc m = None;
  alloc_fresh_list : forall m, lists m !! alloc m = None
}.

Abbreviation LM := (ST lmem).

(** ** Memory *)
Definition set_nodes (f : gmap Z node_t -> gmap Z node_t) (m : lmem) : lmem :=
  mk_lmem (f (nodes m)) (lists m) (irq m).
Definition set_lists (f : gmap Z list_t -> gmap Z list_t) (m : lmem) : lmem :=
  mk_lmem (nodes m) (f (lists m)) (irq m).
Definition set_irq (b : bool) (m : lmem) : lmem := mk_lmem (nodes m) (lists m) b.

(** [p->...] for a node and for a list. *)
Definition node_at (p : Z) : LM node_t := fun m => n ← deref (nodes m !! p); Ok (n, m).
Definition list_at (p : Z) : LM list_t := fun m => l ← deref (lists m !! p); Ok (l, m).
Definition node_put (p : Z) (f : node_t -> node_t) : LM () :=
  n ← node_at p; modify (set_nodes (insert p (f n))).
Definition list_put (p : Z) (f : list_t -> list_t) : LM () :=
  l ← list_at p; modify (set_lists (insert p (f l))).
Definition with_prev (q : Z) (n : node_t) : node_t := mk_node (data n) q (next n) (list_of n).
Definition with_next (q : Z) (n : node_t) : node_t := mk_node (data n) (prev n) q (list_of n).
Definition with_head (q : Z) (l : list_t) : list_t := mk_list q (tail l) (count_ l).
Definition with_tail (q : Z) (l : list_t) : list_t := mk_list (head l) q (count_ l).
Definition add_count (k : Z) (l : list_t) : list_t := mk_list (head l) (tail l) (u32 (count_ l + k)).
Definition kfree_node (p : Z) : LM () := n ← node_at p; modify (set_nodes (delete p)).
Definition kfree_list (p : Z) : LM () := l ← list_at p; modify (set_lists (delete p)).

(** [INTERRUPT_LOCK; body; INTERRUPT_UNLOCK] *)
Definition locked {A} (body : LM A) : LM A :=
  reenable_interrupts ← gets irq;
  modify (set_irq false) ;;
  a ← body;
  (if reenable_interrupts : bool then modify (set_irq true) else mret tt) ;;
  mret a.

Section Ops.
Context `{Allocator}.

Definition kmalloc_node (n : node_t) : LM Z :=
  p ← gets alloc; modify (set_nodes (insert p n)) ;; mret p.
Definition kmalloc_list (l : list_t) : LM Z :=
  p ← gets alloc; modify (set_lists (insert p l)) ;; mret p.

(** Enough steps for a walk along [next] pointers that meets no node twice. *)
Definition walk_fuel : LM nat := gets (fun m => S (size (nodes m))).

(** ** Validation *)
Fixpoint validate_walk (fuel : nat) (it l : Z) (actual_count : Z) : LM Z :=
  if it =? 0 then mret actual_count
  else match fuel with
       | O => lift NoFuel
       | S fuel =>
           n ← node_at it;
           ensure (list_of n =? l) ;;
           (if negb (next n =? 0) then nn ← node_at (next n); ensure (prev nn =? it) else mret tt) ;;
           validate_walk fuel (next n) l (u32 (actual_count + 1))
       end.

Definition list_validate (list : Z) : LM () :=
  ensure (negb (list =? 0)) ;;
  l ← list_at list;
  if count_ l =? 0 then ensure ((head l =? 0) && (tail l =? 0))
  else
    ensure (negb (head l =? 0)) ;;
    ensure (negb (tail l =? 0)) ;;
    (if 1 <? count_ l then ensure (negb (head l =? tail l)) else mret tt) ;;
    h ← node_at (head l);
    ensure (prev h =? 0) ;;
    t ← node_at (tail l);
    ensure (next t =? 0) ;;
    fuel ← walk_fuel;
    actual_count ← validate_walk fuel (head l) list 0;
    ensure (count_ l =? actual_count).

Definition list_size (list : Z) : LM Z :=
  ensure (negb (list =? 0)) ;;
  locked (list_validate list) ;;
  l ← list_at list;
  mret (count_ l).

(** ** Adding *)
Definition list_prepend (list d : Z) : LM Z :=
  ensure (negb (list =? 0)) ;;
  locked (
    l ← list_at list;
    if negb (head l =? 0) then
      let old_head := head l in
      new ← kmalloc_node (mk_node d 0 old_head list);
      oh ← node_at old_head;
      ensure (prev oh =? 0) ;;
      node_put old_head (with_prev new) ;;
      l ← list_at list;
      ensure (head l =? old_head) ;;
      list_put list (with_head new) ;;
      list_put list (add_count 1) ;;
      list_validate list ;;
      mret new
    else
      ensure (tail l =? 0) ;;
      ensure (count_ l =? 0) ;;
      new ← kmalloc_node (mk_node d 0 0 list);
      list_put list (add_count 1) ;;
      list_put list (with_head new) ;;
      list_put list (with_tail new) ;;
      l ← list_at list;
      ensure (count_ l =? 1) ;;
      list_validate list ;;
      mret new).

Definition list_append (list d : Z) : LM Z :=
  ensure (negb (list =? 0)) ;;
  locked (
    l ← list_at list;
    if negb (tail l =? 0) then
      new ← kmalloc_node (mk_node d (tail l) 0 list);
      t ← node_at (tail l);
      ensure (next t =? 0) ;;
      node_put (tail l) (with_next new) ;;
      list_put list (with_tail new) ;;
      list_put list (add_count 1) ;;
      list_validate list ;;
      mret new
    else
      ensure (head l =? 0) ;;
      ensure (count_ l =? 0) ;;
      new ← kmalloc_node (mk_node d 0 0 list);
      list_put list (with_head new) ;;
      list_put list (with_tail new) ;;
      list_put list (add_count 1) ;;
      l ← list_at list;
      ensure (count_ l =? 1) ;;
      list_validate list ;;
      mret new).

Definition list_create : LM Z :=
  new ← kmalloc_list (mk_list 0 0 0);
  list_validate new ;;
  mret new.

Definition list_node_insert_before (node d : Z) : LM Z :=
  ensure (negb (node =? 0)) ;;
  n ← node_at node;
  ensure (negb (list_of n =? 0)) ;;
  locked (
    n ← node_at node;
    let list := list_of n in
    l ← list_at list;
    if prev n =? 0 then
      ensure (head l =? node) ;;
      list_prepend list d
    else
      ensure (negb (head l =? node)) ;;
      new ← kmalloc_node (mk_node d (prev n) node list);
      nn ← node_at new;
      ensure (negb (prev nn =? 0)) ;;
      node_put (prev nn) (with_next new) ;;
      node_put node (with_prev new) ;;
      list_put list (add_count 1) ;;
      list_validate list ;;
      mret new).

Definition list_node_insert_after (node d : Z) : LM Z :=
  ensure (negb (node =? 0)) ;;
  n ← node_at node;
  ensure (negb (list_of n =? 0)) ;;
  locked (
    n ← node_at node;
    let list := list_of n in
    l ← list_at list;
    if next n =? 0 then
      ensure (tail l =? node) ;;
      list_append list d
    else
      ensure (negb (tail l =? node)) ;;
      ensure (negb (next n =? 0)) ;;
      new ← kmalloc_node (mk_node d node (next n) list);
      node_put node (with_next new) ;;
      nn ← node_at new;
      node_put (next nn) (with_prev new) ;;
      list_put list (add_count 1) ;;
      list_validate list ;;
      mret new).

(** ** Copying *)
Fixpoint copy_walk (fuel : nat) (it prv copy : Z) (copy_data : option (Z -> Z)) : LM () :=
  if it =? 0 then mret tt
  else match fuel with
       | O => lift NoFuel
       | S fuel =>
           n ← node_at it;
           let d := match copy_data with Some f => f (data n) | None => data n end in
           new_node ← kmalloc_node (mk_node d prv 0 copy);
           (if negb (prv =? 0) then node_put prv (with_next new_node) else mret tt) ;;
           list_put copy (add_count 1) ;;
           list_put copy (with_tail new_node) ;;
           c ← list_at copy;
           (if head c =? 0 then list_put copy (with_head new_node) else mret tt) ;;
           n ← node_at it;
           copy_walk fuel (next n) new_node copy copy_data
       end.

Definition list_copy (orig : Z) (copy_data : option (Z -> Z)) : LM Z :=
  ensure (negb (orig =? 0)) ;;
  copy ← kmalloc_list (mk_list 0 0 0);
  fuel ← walk_fuel;
  locked (o ← list_at orig; copy_walk fuel (head o) 0 copy copy_data) ;;
  list_validate copy ;;
  mret copy.

(** ** Removing *)
Definition list_remove_node (list elem : Z) : LM () :=
  ensure (negb (list =? 0)) ;;
  locked (
    ensure (negb (elem =? 0)) ;;
    e ← node_at elem;
    ensure (list_of e =? list) ;;
    (if negb (prev e =? 0) then node_put (prev e) (with_next (next e)) else mret tt) ;;
    e ← node_at elem;
    (if negb (next e =? 0) then node_put (next e) (with_prev (prev e)) else mret tt) ;;
    list_put list (add_count (-1)) ;;
    e ← node_at elem;
    l ← list_at list;
    (if elem =? head l then list_put list (with_head (next e)) else mret tt) ;;
    l ← list_at list;
    (if elem =? tail l then list_put list (with_tail (prev e)) else mret tt) ;;
    list_validate list ;;
    kfree_node elem).

Fixpoint destroy_walk (fuel : nat) (it : Z) : LM () :=
  if it =? 0 then mret tt
  else match fuel with
       | O => lift NoFuel
       | S fuel =>
           n ← node_at it;
           kfree_node it ;;
           destroy_walk fuel (next n)
       end.

Definition list_destroy (list : Z) : LM () :=
  ensure (negb (list =? 0)) ;;
  locked (
    list_validate list ;;
    l ← list_at list;
    fuel ← walk_fuel;
    destroy_walk fuel (head l) ;;
    list_put list (with_head 0) ;;
    list_put list (with_tail 0) ;;
    list_put list (fun l => mk_list (head l) (tail l) 0) ;;
    kfree_list list).

(** ** Searching *)

(** [for (it = ...; it != stop; it = step(it)) if (p(it)) return it;] *)
Fixpoint walk_until (fuel : nat) (step : node_t -> Z) (stop it : Z) (p : Z -> node_t -> bool) : LM Z :=
  if it =? stop then mret 0
  else match fuel with
       | O => lift NoFuel
       | S fuel =>
           n ← node_at it;
           if p it n then mret it else walk_until fuel step stop (step n) p
       end.

Definition list_find_first (list d : Z) : LM Z :=
  ensure (negb (list =? 0)) ;;
  locked (
    l ← list_at list;
    ensure (negb (head l =? 0)) ;;
    list_validate list ;;
    l ← list_at list;
    fuel ← walk_fuel;
    walk_until fuel next 0 (head l) (fun _ n => data n =? d)).

Definition list_find_last (list d : Z) : LM Z :=
  ensure (negb (list =? 0)) ;;
  locked (
    l ← list_at list;
    ensure (negb (tail l =? 0)) ;;
    list_validate list ;;
    l ← list_at list;
    fuel ← walk_fuel;
    walk_until fuel prev 0 (tail l) (fun _ n => data n =? d)).

Definition list_remove_first (list d : Z) : LM bool :=
  ensure (negb (list =? 0)) ;;
  locked (
    n ← list_find_first list d;
    if negb (n =? 0) then list_remove_node list n ;; mret true else mret false).

Definition list_remove_last (list d : Z) : LM bool :=
  ensure (negb (list =? 0)) ;;
  locked (
    n ← list_find_last list d;
    if negb (n =? 0) then list_remove_node list n ;; mret true else mret false).

(** [predicate_func] is [None] for a NULL function pointer; it sees the node. *)
Definition list_node_find_next_predicate (node : Z) (predicate_func : option (Z -> node_t -> bool)) : LM Z :=
  ensure (negb (node =? 0)) ;;
  locked (
    ensure (match predicate_func with Some _ => true | None => false end) ;;
    p ← lift (deref predicate_func);
    fuel ← walk_fuel;
    n ← node_at node;
    it ← walk_until fuel next 0 (next n) p;
    if negb (it =? 0) then mret it
    else
      n ← node_at node;
      l ← list_at (list_of n);
      it ← walk_until fuel next node (head l) p;
      ensure (negb (it =? node)) ;;
      mret it).

End Ops.

(** ** Abstract view: a list is the sequence of its nodes' addresses and data *)
Definition first (ns : list (Z * Z)) (dflt : Z) : Z := match ns with [] => dflt | (a, _) :: _ => a end.
Fixpoint last_addr (p : Z) (ns : list (Z * Z)) : Z :=
  match ns with [] => p | (a, _) :: ns => last_addr a ns end.

(** [ns] is linked, with [p] before it and [q] after it. *)
Fixpoint seg (N : gmap Z node_t) (l p : Z) (ns : list (Z * Z)) (q : Z) : Prop :=
  match ns with
  | [] => True
  | (a, d) :: ns => N !! a = Some (mk_node d p (first ns q) l) /\ seg N l a ns q
  end.

Record dll (m : lmem) (l : Z) (ns : list (Z * Z)) : Prop := {
  dl_null : l <> 0;
  dl_list : lists m !! l = Some (mk_list (first ns 0) (last_addr 0 ns) (zlen ns));
  dl_seg : seg (nodes m) l 0 ns 0;
  dl_nodup : NoDup (0 :: ns.*1);
  dl_len : zlen ns < 2 ^ 32
}.

(** ** Running the memory operations *)
Lemma node_at_ok p m n : nodes m !! p = Some n -> node_at p m = Ok (n, m).
Proof. intros H. unfold node_at. by rewrite H. Qed.

Lemma list_at_ok p m l : lists m !! p = Some l -> list_at p m = Ok (l, m).
Proof. intros H. unfold list_at. by rewrite H. Qed.

Lemma node_put_ok p f m n :
  nodes m !! p = Some n -> node_put p f m = Ok (tt, set_nodes (insert p (f n)) m).
Proof. intros H. unfold node_put. erewrite st_bind_Ok by (by apply node_at_ok). done. Qed.

Lemma list_put_ok p f m l :
  lists m !! p = Some l -> list_put p f m = Ok (tt, set_lists (insert p (f l)) m).
Proof. intros H. unfold list_put. erewrite st_bind_Ok by (by apply list_at_ok). done. Qed.

Lemma kfree_node_ok p m n : nodes m !! p = Some n -> kfree_node p m = Ok (tt, set_nodes (delete p) m).
Proof. intros H. unfold kfree_node. erewrite st_bind_Ok by (by apply node_at_ok). done. Qed.

Lemma locked_ok {A} (body : LM A) m a m' :
  body (set_irq false m) = Ok (a, m') -> irq m' = false -> locked body m = Ok (a, set_irq (irq m) m').
Proof.
  intros Hb Hi. unfold locked. unfold mbind, st_bind, gets, modify. rewrite Hb.
  destruct (irq m); [done|]. unfold mret, st_ret. destruct m'; cbn in *; by subst.
Qed.

(** ** Segments *)
Lemma seg_app N l p ns1 ns2 q :
  seg N l p (ns1 ++ ns2) q <-> seg N l p ns1 (first ns2 q) /\ seg N l (last_addr p ns1) ns2 q.
Proof.
  revert p. induction ns1 as [|[a d] ns1 IH]; intros p; cbn; [tauto|]. rewrite IH.
  assert (first (ns1 ++ ns2) q = first ns1 (first ns2 q)) as -> by (by destruct ns1 as [|[]]). tauto.
Qed.

Lemma last_addr_app p ns1 ns2 : last_addr p (ns1 ++ ns2) = last_addr (last_addr p ns1) ns2.
Proof. revert p. induction ns1 as [|[a d] ns1 IH]; intros p; cbn; auto. Qed.

Lemma first_app ns1 ns2 q : first (ns1 ++ ns2) q = first ns1 (first ns2 q).
Proof. by destruct ns1 as [|[]]. Qed.

Lemma seg_frame N N' l p ns q :
  (forall a, a ∈ ns.*1 -> N' !! a = N !! a) -> seg N l p ns q -> seg N' l p ns q.
Proof.
  revert p. induction ns as [|[a d] ns IH]; intros p Hf; cbn; [done|]. intros [Ha Hs]. split.
  - rewrite Hf; [done|]. cbn. set_solver.
  - apply IH; [|done]. intros b Hb. apply Hf. cbn. set_solver.
Qed.

Lemma seg_insert N l p ns q a n : a ∉ ns.*1 -> seg N l p ns q -> seg (<[a := n]> N) l p ns q.
Proof. intros Ha. apply seg_frame. intros b Hb. apply lookup_insert_ne. set_solver. Qed.

Lemma seg_delete N l p ns q a : a ∉ ns.*1 -> seg N l p ns q -> seg (delete a N) l p ns q.
Proof. intros Ha. apply seg_frame. intros b Hb. apply lookup_delete_ne. set_solver. Qed.

(** Redirecting the first node's [prev] and the last node's [next]. *)
Lemma seg_set_prev N l p p' a d ns q n :
  a ∉ ns.*1 -> N !! a = Some n -> seg N l p ((a, d) :: ns) q -> seg (<[a := with_prev p' n]> N) l p' ((a, d) :: ns) q.
Proof.
  intros Ha Hn. cbn. intros [Hx Hs]. rewrite Hn in Hx. injection Hx as ->.
  rewrite lookup_insert_eq. split; [done|]. by apply seg_insert.
Qed.

Lemma seg_set_next N l p ns a d q q' n :
  a ∉ ns.*1 -> N !! a = Some n -> seg N l p (ns ++ [(a, d)]) q -> seg (<[a := with_next q' n]> N) l p (ns ++ [(a, d)]) q'.
Proof.
  intros Ha Hn. rewrite !seg_app. cbn. intros [Hs [Hx _]]. rewrite Hn in Hx. injection Hx as ->.
  rewrite lookup_insert_eq. split_and!; try done. by apply seg_insert.
Qed.

Lemma seg_elem N l p ns1 a d ns2 q :
  seg N l p (ns1 ++ (a, d) :: ns2) q -> N !! a = Some (mk_node d (last_addr p ns1) (first ns2 q) l).
Proof. rewrite seg_app. cbn. tauto. Qed.

Lemma seg_dom N l p ns q a : seg N l p ns q -> a ∈ ns.*1 -> is_Some (N !! a).
Proof.
  revert p. induction ns as [|[b d] ns IH]; intros p; cbn; [set_solver|].
  intros [Hb Hs] [->|Ha]%elem_of_cons; eauto.
Qed.

Lemma seg_size N l p ns q : seg N l p ns q -> NoDup ns.*1 -> (length ns <= size N)%nat.
Proof.
  intros Hs Hn. rewrite <- (length_fmap fst ns). rewrite <- (size_list_to_set (C := gset Z)) by done.
  rewrite <- size_dom. apply subseteq_size. intros a Ha. apply elem_of_list_to_set in Ha.
  apply elem_of_dom. by eapply seg_dom.
Qed.

Lemma first_ne ns : NoDup (0 :: ns.*1) -> (first ns 0 =? 0) = (match ns with [] => true | _ => false end).
Proof.
  destruct ns as [|[a d] ns]; [done|]. cbn. intros Hn. apply Z.eqb_neq. intros ->.
  apply NoDup_cons in Hn as [Hn _]. apply Hn. set_solver.
Qed.

Lemma last_addr_in p ns : ns <> [] -> last_addr p ns ∈ ns.*1.
Proof.
  revert p. induction ns as [|[a d] ns IH]; intros p Hne; [done|]. cbn.
  destruct ns as [|[b e] ns]; [cbn; set_solver|]. right. by apply IH.
Qed.

Lemma last_ne ns : NoDup (0 :: ns.*1) -> (last_addr 0 ns =? 0) = (match ns with [] => true | _ => false end).
Proof.
  destruct ns as [|n ns]; [done|]. intros Hn. apply Z.eqb_neq. intros E.
  apply NoDup_cons in Hn as [Hn _]. apply Hn. rewrite <- E. by apply last_addr_in.
Qed.

(** ** Validation accepts every well-formed list and changes nothing *)
Lemma validate_walk_ok fuel m l ns p c :
  seg (nodes m) l p ns 0 -> NoDup (0 :: ns.*1) -> (length ns < fuel)%nat -> 0 <= c -> c + zlen ns < 2 ^ 32 ->
  validate_walk fuel (first ns 0) l c m = Ok (c + zlen ns, m).
Proof.
  revert ns p c. induction fuel as [|fuel IH]; intros ns p c Hs Hn Hf Hc Hl; [lia|].
  cbn [validate_walk]. rewrite first_ne by done. destruct ns as [|[a d] ns].
  { rewrite zlen_nil, Z.add_0_r. done. }
  destruct Hs as [Ha Hs]. cbn [first]. erewrite st_bind_Ok by (by apply node_at_ok). cbn [list_of next].
  rewrite Z.eqb_refl. cbn [length] in Hf. rewrite zlen_cons in *. pose proof (zlen_nonneg ns).
  erewrite st_bind_Ok by (by apply ensure_true).
  apply NoDup_cons in Hn as [H0 Hn]. cbn in H0, Hn. apply NoDup_cons in Hn as [Ha' Hn].
  assert (Hn' : NoDup (0 :: ns.*1)) by (apply NoDup_cons; split; [set_solver|done]).
  erewrite (st_bind_Ok _ _ _ tt m).
  2: { rewrite first_ne by done. destruct ns as [|[b e] ns]; [done|]. cbn [negb first]. destruct Hs as [Hb _].
       erewrite st_bind_Ok by (by apply node_at_ok). cbn. by rewrite Z.eqb_refl. }
  rewrite u32_small by lia. rewrite (IH ns a) by (done || lia). do 2 f_equal. lia.
Qed.

Lemma validate_ok m l ns : dll m l ns -> list_validate l m = Ok (tt, m).
Proof.
  intros [Hl Hli Hs Hn Hlen]. unfold list_validate.
  assert (Hz : negb (l =? 0) = true) by (by apply negb_true_iff, Z.eqb_neq).
  erewrite st_bind_Ok by (by apply ensure_true). erewrite st_bind_Ok by (by apply list_at_ok).
  cbn [count_ head tail]. destruct ns as [|[a d] ns]; [done|].
  rewrite zlen_cons in *. pose proof (zlen_nonneg ns). destruct (Z.eqb_spec (1 + zlen ns) 0); [lia|].
  pose proof (first_ne _ Hn) as Hfn. pose proof (last_ne _ Hn) as Hln. cbn [first] in *. rewrite Hfn, Hln.
  erewrite st_bind_Ok by done. erewrite st_bind_Ok by done.
  assert (Hhd : nodes m !! a = Some (mk_node d 0 (first ns 0) l)) by (by destruct Hs).
  destruct (exists_last (l := (a, d) :: ns)) as (ns0 & [b e] & E); [done|].
  rewrite E, last_addr_app in *. cbn [last_addr].
  pose proof (seg_elem _ _ _ ns0 b e [] 0 Hs) as Hb. cbn [first] in Hb.
  erewrite (st_bind_Ok _ _ _ tt m).
  2: { destruct (Z.ltb_spec 1 (1 + zlen ns)); [|done]. apply ensure_true. apply negb_true_iff, Z.eqb_neq. intros ->.
       destruct ns0 as [|x ns0]; [cbn in E; simplify_eq; unfold zlen in *; cbn in *; lia|].
       cbn in E. injection E as <- E. rewrite fmap_app in Hn. cbn in Hn.
       apply NoDup_cons in Hn as [_ Hn]. apply NoDup_cons in Hn as [Hn _]. set_solver. }
  erewrite st_bind_Ok by (by apply node_at_ok). cbn [prev].
  erewrite st_bind_Ok by done. erewrite st_bind_Ok by (by apply node_at_ok). cbn [next].
  erewrite st_bind_Ok by done. erewrite st_bind_Ok by done.
  rewrite <- E in *. change a with (first ((a, d) :: ns) 0) at 1.
  erewrite st_bind_Ok; [|apply (validate_walk_ok _ m l _ 0 0); try done; [|rewrite zlen_cons; lia]].
  - rewrite zlen_cons, Z.add_0_l. apply ensure_true, Z.eqb_refl.
  - apply NoDup_cons in Hn as [_ Hn]. pose proof (seg_size _ _ _ _ _ Hs Hn). lia.
Qed.

(** ** Linking a new node *)
Lemma nodup_fresh (N : gmap Z node_t) l ns a :
  seg N l 0 ns 0 -> N !! a = None -> a ∉ ns.*1.
Proof. intros Hs Ha Hin. destruct (seg_dom _ _ _ _ _ _ Hs Hin) as [? ?]. congruence. Qed.

Lemma seg_link_front N l x e ns a d n :
  seg N l 0 ((x, e) :: ns) 0 -> NoDup (x :: ns.*1) -> N !! a = None -> N !! x = Some n ->
  seg (<[x := with_prev a n]> (<[a := mk_node d 0 x l]> N)) l 0 ((a, d) :: (x, e) :: ns) 0.
Proof.
  intros Hs Hn Ha Hx. pose proof (nodup_fresh _ _ _ _ Hs Ha) as Hf. cbn in Hf.
  apply NoDup_cons in Hn as [Hxn _]. cbn [seg first]. split.
  - rewrite lookup_insert_ne by set_solver. apply lookup_insert_eq.
  - apply seg_set_prev with (p := 0); [done | by rewrite lookup_insert_ne by set_solver |].
    apply seg_insert; [cbn; set_solver | done].
Qed.

Lemma seg_link_back N l ns x e a d n :
  seg N l 0 (ns ++ [(x, e)]) 0 -> NoDup ((ns ++ [(x, e)]).*1) -> N !! a = None -> N !! x = Some n ->
  seg (<[x := with_next a n]> (<[a := mk_node d x 0 l]> N)) l 0 ((ns ++ [(x, e)]) ++ [(a, d)]) 0.
Proof.
  intros Hs Hn Ha Hx. pose proof (nodup_fresh _ _ _ _ Hs Ha) as Hf.
  rewrite fmap_app in Hn, Hf. cbn in Hn, Hf. apply NoDup_app in Hn as (_ & Hxn & _).
  apply seg_app. split.
  - cbn [first]. apply seg_set_next with (q := 0); [set_solver | by rewrite lookup_insert_ne by set_solver |].
    apply seg_insert; [rewrite fmap_app; cbn; set_solver | done].
  - cbn. rewrite last_addr_app. cbn. split; [|done]. rewrite lookup_insert_ne by set_solver. apply lookup_insert_eq.
Qed.

Lemma seg_link_mid N l ns1 p e x f ns2 a d np nx :
  seg N l 0 ((ns1 ++ [(p, e)]) ++ (x, f) :: ns2) 0 -> NoDup (((ns1 ++ [(p, e)]) ++ (x, f) :: ns2).*1) ->
  N !! a = None -> N !! p = Some np -> N !! x = Some nx ->
  seg (<[x := with_prev a nx]> (<[p := with_next a np]> (<[a := mk_node d p x l]> N))) l 0
    ((ns1 ++ [(p, e)]) ++ (a, d) :: (x, f) :: ns2) 0.
Proof.
  intros Hs Hn Ha Hp Hx. pose proof (nodup_fresh _ _ _ _ Hs Ha) as Hf.
  rewrite (fmap_app fst (ns1 ++ _)) in Hn, Hf. cbn [fmap list_fmap fst] in Hn, Hf.
  set (k1 := ns1 ++ [(p, e)]) in *. apply NoDup_app in Hn as (Hn1 & Hd & Hn2).
  apply NoDup_cons in Hn2 as [Hx2 _].
  assert (Hp1 : p ∈ k1.*1) by (unfold k1; rewrite fmap_app; apply elem_of_app; right; by left).
  assert (Hpn : p ∉ ns1.*1).
  { unfold k1 in Hn1. rewrite fmap_app in Hn1. apply NoDup_app in Hn1 as (_ & Hn1 & _).
    intros Hin. apply (Hn1 _ Hin). by left. }
  assert (Hx1 : x ∉ k1.*1) by (intros Hin; apply (Hd _ Hin); by left).
  assert (Hpx : p ∉ x :: ns2.*1) by (by apply Hd).
  assert (Hak : a ∉ k1.*1) by (intros ?; apply Hf; apply elem_of_app; by left).
  assert (Hax : a ∉ x :: ns2.*1) by (intros ?; apply Hf; apply elem_of_app; by right).
  apply not_elem_of_cons in Hpx as [Hpx Hp2]. assert (a <> p) by (by intros ->).
  pose proof Hax as Hax'. apply not_elem_of_cons in Hax as [Hax _].
  apply seg_app in Hs as [Hs1 Hs2]. unfold k1 in Hs2. rewrite last_addr_app in Hs2. cbn [last_addr] in Hs2.
  apply seg_app. split; [|unfold k1; rewrite last_addr_app; cbn [last_addr seg first]; split].
  - apply seg_insert; [done|]. cbn [first] in *. unfold k1 in *.
    apply seg_set_next with (q := x); [done | by rewrite lookup_insert_ne |]. by apply seg_insert.
  - by rewrite !lookup_insert_ne, lookup_insert_eq by done.
  - apply (seg_set_prev _ _ p); [done | by rewrite !lookup_insert_ne by done |].
    apply seg_insert; [by apply not_elem_of_cons|]. by apply seg_insert.
Qed.

(** What an operation on the list [l] leaves alone. *)
Record untouched (m m' : lmem) (l : Z) (used : list Z) : Prop := {
  un_nodes : forall a, a ∉ used -> nodes m' !! a = nodes m !! a;
  un_lists : forall k, k <> l -> lists m' !! k = lists m !! k;
  un_irq : irq m' = irq m
}.

Lemma dll_set_irq m l ns b : dll m l ns -> dll (set_irq b m) l ns.
Proof. intros []. by split. Qed.

Section Correct.
Context `{Allocator}.

Lemma kmalloc_node_ok n m : kmalloc_node n m = Ok (alloc m, set_nodes (insert (alloc m) n) m).
Proof. done. Qed.

Lemma alloc_not_null_eqb m : (alloc m =? 0) = false.
Proof. apply Z.eqb_neq, alloc_not_null. Qed.

Lemma cons_nodup m l ns : dll m l ns -> NoDup (0 :: alloc m :: ns.*1).
Proof.
  intros [_ _ Hs Hn _]. pose proof (nodup_fresh _ _ _ _ Hs (alloc_fresh_node m)).
  pose proof (alloc_not_null m). rewrite !NoDup_cons in *. set_solver.
Qed.

(** A new node between [ns1] and [ns2], once the memory links it. *)
Lemma dll_link m l ns1 ns2 m' d :
  dll m l (ns1 ++ ns2) -> zlen (ns1 ++ ns2) + 1 < 2 ^ 32 ->
  seg (nodes m') l 0 (ns1 ++ (alloc m, d) :: ns2) 0 ->
  lists m' !! l = Some (mk_list (first (ns1 ++ (alloc m, d) :: ns2) 0)
                          (last_addr 0 (ns1 ++ (alloc m, d) :: ns2)) (zlen (ns1 ++ ns2) + 1)) ->
  dll m' l (ns1 ++ (alloc m, d) :: ns2).
Proof.
  intros Hd Hlen Hs Hl. pose proof (cons_nodup _ _ _ Hd) as Hn.
  assert (Hz : zlen (ns1 ++ (alloc m, d) :: ns2) = zlen (ns1 ++ ns2) + 1) by (rewrite !zlen_app, zlen_cons; lia).
  split; [by destruct Hd | by rewrite Hz | done | | by rewrite Hz].
  rewrite fmap_app in *. cbn. clear -Hn. by rewrite <- Permutation_middle.
Qed.

Lemma neq_ok a b : a <> b -> negb (a =? b) = true.
Proof. intros. by apply negb_true_iff, Z.eqb_neq. Qed.

(** From the body of a locked operation to the operation. *)
Lemma locked_result {A} (body : LM A) m a m1 l ns used :
  body (set_irq false m) = Ok (a, m1) -> dll m1 l ns -> untouched (set_irq false m) m1 l used ->
  exists m', locked body m = Ok (a, m') /\ dll m' l ns /\ untouched m m' l used.
Proof.
  intros Hb Hd [Hn Hl Hi]. exists (set_irq (irq m) m1). split; [by apply locked_ok|]. split.
  - by apply dll_set_irq.
  - by split.
Qed.

Definition only_node (m : lmem) (l d : Z) : lmem :=
  set_lists (insert l (mk_list (alloc m) (alloc m) 1)) (set_nodes (insert (alloc m) (mk_node d 0 0 l)) m).

Lemma only_node_ok m l d :
  dll m l [] -> dll (only_node m l d) l [(alloc m, d)] /\ untouched m (only_node m l d) l [alloc m].
Proof.
  intros Hd. split.
  - apply (dll_link m l [] []); [done | done | | cbn; by rewrite lookup_insert_eq].
    cbn. split; [apply lookup_insert_eq | done].
  - split; [|intros k Hk|done]; cbn; [intros a Ha; apply lookup_insert_ne; set_solver | by apply lookup_insert_ne].
Qed.

(** The new first node, before the node [x]. *)
Definition front_node (m : lmem) (l d x e : Z) (ns : list (Z * Z)) : lmem :=
  set_lists (insert l (mk_list (alloc m) (last_addr x ns) (zlen ((x, e) :: ns) + 1)))
    (set_nodes (fun N => <[x := mk_node e (alloc m) (first ns 0) l]> (<[alloc m := mk_node d 0 x l]> N)) m).

Lemma front_node_ok m l d x e ns :
  dll m l ((x, e) :: ns) -> zlen ((x, e) :: ns) + 1 < 2 ^ 32 ->
  dll (front_node m l d x e ns) l ((alloc m, d) :: (x, e) :: ns) /\
  untouched m (front_node m l d x e ns) l (alloc m :: x :: ns.*1).
Proof.
  intros Hd Hlen. split.
  - apply (dll_link m l [] ((x, e) :: ns)); [done | done | | cbn; by rewrite lookup_insert_eq].
    destruct Hd as [_ _ Hs Hn _].
    apply (seg_link_front _ _ _ _ _ _ _ (mk_node e 0 (first ns 0) l)); [done | | apply alloc_fresh_node | by destruct Hs].
    by apply NoDup_cons in Hn as [_ Hn].
  - split; [|intros k Hk|done]; cbn; [|by apply lookup_insert_ne].
    intros a Ha. apply not_elem_of_cons in Ha as [? [? _]%not_elem_of_cons]. by rewrite !lookup_insert_ne.
Qed.

Lemma list_prepend_run m l ns d :
  dll m l ns -> zlen ns + 1 < 2 ^ 32 ->
  exists a m', list_prepend l d m = Ok (a, m') /\ dll m' l ((a, d) :: ns) /\
    nodes m !! a = None /\ untouched m m' l (a :: ns.*1).
Proof.
  intros Hd Hlen. pose proof (dll_set_irq _ _ _ false Hd) as Hd'. set (m0 := set_irq false m) in *.
  unfold list_prepend. erewrite st_bind_Ok by (apply ensure_true, neq_ok, Hd). pose proof (zlen_nonneg ns).
  exists (alloc m0). rewrite (alloc_fresh_node m0 : nodes m !! _ = None). destruct ns as [|[x e] ns].
  - destruct (only_node_ok m0 l d Hd') as [Hd1 Hu1].
    edestruct (locked_result (A := Z)) as (m' & Hrun & ? & ?); [|exact Hd1|exact Hu1|exists m'; split; [exact Hrun|done]].
    fold m0. erewrite st_bind_Ok by (apply list_at_ok, Hd'). cbn [head tail count_ first last_addr Z.eqb negb].
    erewrite st_bind_Ok by done. erewrite st_bind_Ok by done. erewrite st_bind_Ok by apply kmalloc_node_ok.
    erewrite st_bind_Ok by (apply list_put_ok; apply Hd').
    do 2 erewrite st_bind_Ok by (apply list_put_ok; apply lookup_insert_eq).
    erewrite st_bind_Ok by (apply list_at_ok; apply lookup_insert_eq). erewrite st_bind_Ok by done.
    replace (set_lists _ _) with (only_node m0 l d) by (unfold only_node, set_lists; cbn; by rewrite !insert_insert_eq).
    erewrite st_bind_Ok by (by eapply validate_ok). done.
  - destruct (front_node_ok m0 l d x e ns Hd' Hlen) as [Hd1 Hu1].
    edestruct (locked_result (A := Z)) as (m' & Hrun & ? & ?); [|exact Hd1|exact Hu1|exists m'; split; [exact Hrun|done]].
    fold m0. destruct Hd' as [Hl Hli Hs Hn Hll].
    assert (Hx : nodes m0 !! x = Some (mk_node e 0 (first ns 0) l)) by (by destruct Hs).
    assert (Hxa : alloc m0 <> x) by (intros <-; by rewrite alloc_fresh_node in Hx).
    erewrite st_bind_Ok by (by apply list_at_ok). cbn [head tail count_ first last_addr].
    rewrite (first_ne ((x, e) :: ns) Hn : (x =? 0) = false). cbn [negb].
    erewrite st_bind_Ok by apply kmalloc_node_ok.
    erewrite st_bind_Ok by (apply node_at_ok; cbn; by rewrite lookup_insert_ne). erewrite st_bind_Ok by done.
    erewrite st_bind_Ok by (apply node_put_ok; cbn; by rewrite lookup_insert_ne).
    erewrite st_bind_Ok by (apply list_at_ok; done). cbn [head].
    erewrite st_bind_Ok by (by apply ensure_true, Z.eqb_refl). erewrite st_bind_Ok by (apply list_put_ok; done).
    erewrite st_bind_Ok by (apply list_put_ok; apply lookup_insert_eq).
    replace (set_lists _ _) with (front_node m0 l d x e ns)
      by (unfold front_node, set_lists, set_nodes; cbn; rewrite insert_insert_eq; unfold add_count, with_head; cbn;
          rewrite u32_small by lia; done).
    erewrite st_bind_Ok by (by eapply validate_ok). done.
Qed.

(** The new last node, after the node [x]. *)
Definition back_node (m : lmem) (l d : Z) (ns : list (Z * Z)) (x e : Z) : lmem :=
  set_lists (insert l (mk_list (first (ns ++ [(x, e)]) 0) (alloc m) (zlen (ns ++ [(x, e)]) + 1)))
    (set_nodes (fun N => <[x := mk_node e (last_addr 0 ns) (alloc m) l]> (<[alloc m := mk_node d x 0 l]> N)) m).

Lemma back_node_ok m l d ns x e :
  dll m l (ns ++ [(x, e)]) -> zlen (ns ++ [(x, e)]) + 1 < 2 ^ 32 ->
  dll (back_node m l d ns x e) l ((ns ++ [(x, e)]) ++ [(alloc m, d)]) /\
  untouched m (back_node m l d ns x e) l (alloc m :: (ns ++ [(x, e)]).*1).
Proof.
  intros Hd Hlen. split.
  - apply dll_link; [by rewrite app_nil_r | by rewrite app_nil_r | |].
    + destruct Hd as [_ _ Hs Hn _].
      apply (seg_link_back _ _ _ _ _ _ _ (mk_node e (last_addr 0 ns) 0 l)); [done | | apply alloc_fresh_node |].
      * by apply NoDup_cons in Hn as [_ Hn].
      * exact (seg_elem _ _ _ ns x e [] 0 Hs).
    + cbn [back_node lists set_lists]. rewrite lookup_insert_eq, app_nil_r, last_addr_app, (first_app _ [_]).
      by destruct ns as [|[]].
  - split; [|intros k Hk|done]; cbn; [|by apply lookup_insert_ne].
    intros a Ha. rewrite fmap_app in Ha. apply not_elem_of_cons in Ha as [? [_ Hx]%not_elem_of_app].
    apply not_elem_of_cons in Hx as [? _]. by rewrite !lookup_insert_ne.
Qed.

Lemma list_append_run m l ns d :
  dll m l ns -> zlen ns + 1 < 2 ^ 32 ->
  exists a m', list_append l d m = Ok (a, m') /\ dll m' l (ns ++ [(a, d)]) /\
    nodes m !! a = None /\ untouched m m' l (a :: ns.*1).
Proof.
  intros Hd Hlen. pose proof (dll_set_irq _ _ _ false Hd) as Hd'. set (m0 := set_irq false m) in *.
  unfold list_append. erewrite st_bind_Ok by (apply ensure_true, neq_ok, Hd). pose proof (zlen_nonneg ns).
  exists (alloc m0). rewrite (alloc_fresh_node m0 : nodes m !! _ = None).
  destruct ns as [|[x e] ns _] using rev_ind.
  - destruct (only_node_ok m0 l d Hd') as [Hd1 Hu1].
    edestruct (locked_result (A := Z)) as (m' & Hrun & ? & ?); [|exact Hd1|exact Hu1|exists m'; split; [exact Hrun|done]].
    fold m0. erewrite st_bind_Ok by (apply list_at_ok, Hd'). cbn [head tail count_ first last_addr Z.eqb negb].
    erewrite st_bind_Ok by done. erewrite st_bind_Ok by done. erewrite st_bind_Ok by apply kmalloc_node_ok.
    erewrite st_bind_Ok by (apply list_put_ok; apply Hd').
    do 2 erewrite st_bind_Ok by (apply list_put_ok; apply lookup_insert_eq).
    erewrite st_bind_Ok by (apply list_at_ok; apply lookup_insert_eq). erewrite st_bind_Ok by done.
    replace (set_lists _ _) with (only_node m0 l d) by (unfold only_node, set_lists; cbn; by rewrite !insert_insert_eq).
    erewrite st_bind_Ok by (by eapply validate_ok). done.
  - destruct (back_node_ok m0 l d ns x e Hd' Hlen) as [Hd1 Hu1].
    edestruct (locked_result (A := Z)) as (m' & Hrun & ? & ?); [|exact Hd1|exact Hu1|exists m'; split; [exact Hrun|done]].
    fold m0. destruct Hd' as [Hl Hli Hs Hn Hll].
    pose proof (seg_elem _ _ _ ns x e [] 0 Hs) as Hx. cbn [first] in Hx.
    assert (Hxa : alloc m0 <> x) by (intros <-; by rewrite alloc_fresh_node in Hx).
    assert (Hx0 : (last_addr 0 (ns ++ [(x, e)]) =? 0) = false) by (rewrite last_ne by done; by destruct ns).
    erewrite st_bind_Ok by (by apply list_at_ok). cbn [head tail count_]. rewrite Hx0. cbn [negb].
    rewrite last_addr_app. cbn [last_addr]. erewrite st_bind_Ok by apply kmalloc_node_ok.
    erewrite st_bind_Ok by (apply node_at_ok; cbn; by rewrite lookup_insert_ne). erewrite st_bind_Ok by done.
    erewrite st_bind_Ok by (apply node_put_ok; cbn; by rewrite lookup_insert_ne).
    erewrite st_bind_Ok by (apply list_put_ok; done).
    erewrite st_bind_Ok by (apply list_put_ok; apply lookup_insert_eq).
    replace (set_lists _ _) with (back_node m0 l d ns x e)
      by (unfold back_node, set_lists, set_nodes; cbn; rewrite insert_insert_eq; unfold add_count, with_tail; cbn;
          rewrite u32_small by lia; done).
    erewrite st_bind_Ok by (by eapply validate_ok). done.
Qed.

(** A new node between [p] and [x]. *)
Definition mid_node (m : lmem) (l d : Z) (ns1 : list (Z * Z)) (p e x f : Z) (ns2 : list (Z * Z)) : lmem :=
  set_lists (insert l (mk_list (first (ns1 ++ [(p, e)]) 0) (last_addr x ns2)
                         (zlen ((ns1 ++ [(p, e)]) ++ (x, f) :: ns2) + 1)))
    (set_nodes (fun N => <[x := mk_node f (alloc m) (first ns2 0) l]>
                  (<[p := mk_node e (last_addr 0 ns1) (alloc m) l]> (<[alloc m := mk_node d p x l]> N))) m).

Lemma mid_node_ok m l d ns1 p e x f ns2 :
  dll m l ((ns1 ++ [(p, e)]) ++ (x, f) :: ns2) -> zlen ((ns1 ++ [(p, e)]) ++ (x, f) :: ns2) + 1 < 2 ^ 32 ->
  let m' := mid_node m l d ns1 p e x f ns2 in
  dll m' l ((ns1 ++ [(p, e)]) ++ (alloc m, d) :: (x, f) :: ns2) /\
  untouched m m' l (alloc m :: ((ns1 ++ [(p, e)]) ++ (x, f) :: ns2).*1) /\
  nodes m !! p = Some (mk_node e (last_addr 0 ns1) x l) /\
  nodes m !! x = Some (mk_node f p (first ns2 0) l) /\
  p <> 0 /\ x <> 0 /\ p <> x /\ alloc m <> p /\ alloc m <> x.
Proof.
  intros Hd Hlen m'. destruct Hd as [Hl Hli Hs Hn Hz] eqn:E. clear E.
  assert (Hp : nodes m !! p = Some (mk_node e (last_addr 0 ns1) x l)).
  { rewrite <- app_assoc in Hs. exact (seg_elem _ _ _ ns1 p e ((x, f) :: ns2) 0 Hs). }
  assert (Hx : nodes m !! x = Some (mk_node f p (first ns2 0) l)).
  { pose proof (seg_elem _ _ _ (ns1 ++ [(p, e)]) x f ns2 0 Hs) as Hx. by rewrite last_addr_app in Hx. }
  assert (Hpi : p ∈ ((ns1 ++ [(p, e)]) ++ (x, f) :: ns2).*1).
  { rewrite !fmap_app. apply elem_of_app. left. apply elem_of_app. right. by left. }
  assert (Hxi : x ∈ ((ns1 ++ [(p, e)]) ++ (x, f) :: ns2).*1).
  { rewrite fmap_app. apply elem_of_app. right. by left. }
  pose proof Hn as Hn'. apply NoDup_cons in Hn' as [H0 Hn']. split_and!; try done; try (intros ->; by apply H0).
  - apply dll_link; [done | done | |].
    + eapply (seg_link_mid _ _ _ _ _ _ _ _ _ _ (mk_node e _ x l) (mk_node f p _ l)); try done. apply alloc_fresh_node.
    + cbn [m' mid_node lists set_lists]. rewrite lookup_insert_eq, last_addr_app, (first_app (ns1 ++ [_])).
      by destruct ns1 as [|[]].
  - split; [|intros k Hk|done]; cbn; [|by apply lookup_insert_ne].
    intros a Ha. apply not_elem_of_cons in Ha as [? Ha]. rewrite !lookup_insert_ne by (try done; by intros ->). done.
  - intros ->. rewrite fmap_app in Hn'. apply NoDup_app in Hn' as (_ & Hn' & _). apply (Hn' x); [|by left].
    rewrite fmap_app. apply elem_of_app. right. by left.
  - intros E. by rewrite <- E, alloc_fresh_node in Hp.
  - intros E. by rewrite <- E, alloc_fresh_node in Hx.
Qed.

Lemma list_node_insert_before_run m l ns1 x f ns2 d :
  dll m l (ns1 ++ (x, f) :: ns2) -> zlen (ns1 ++ (x, f) :: ns2) + 1 < 2 ^ 32 ->
  exists a m', list_node_insert_before x d m = Ok (a, m') /\ dll m' l (ns1 ++ (a, d) :: (x, f) :: ns2) /\
    nodes m !! a = None /\ untouched m m' l (a :: (ns1 ++ (x, f) :: ns2).*1).
Proof.
  intros Hd Hlen. pose proof (dll_set_irq _ _ _ false Hd) as Hd'. set (m0 := set_irq false m) in *.
  pose proof (seg_elem _ _ _ ns1 x f ns2 0 (dl_seg _ _ _ Hd)) as Hx.
  assert (Hx0 : x <> 0).
  { intros ->. pose proof (dl_nodup _ _ _ Hd) as Hn. apply NoDup_cons in Hn as [Hn _]. apply Hn.
    rewrite fmap_app. apply elem_of_app. right. by left. }
  unfold list_node_insert_before. erewrite st_bind_Ok by (by apply ensure_true, neq_ok).
  erewrite st_bind_Ok by (by apply node_at_ok). cbn [list_of].
  erewrite st_bind_Ok by (apply ensure_true, neq_ok, Hd).
  destruct ns1 as [|[p e] ns1 _] using rev_ind.
  - destruct (list_prepend_run m0 l _ d Hd' Hlen) as (a & m1 & Hrun & Hd1 & Ha & Hu).
    edestruct (locked_result (A := Z)) as (m' & Hr & ? & ?); [|exact Hd1|exact Hu|exists a, m'; split; [exact Hr|done]].
    fold m0. erewrite st_bind_Ok by (by apply (node_at_ok x m0)). cbn [list_of prev last_addr Z.eqb].
    erewrite st_bind_Ok by (apply list_at_ok, Hd'). cbn [head first app].
    erewrite st_bind_Ok by (by apply ensure_true, Z.eqb_refl). done.
  - exists (alloc m0). destruct (mid_node_ok m0 l d ns1 p e x f ns2 Hd' Hlen)
      as (Hd1 & Hu1 & Hp & Hx' & Hp0 & _ & Hpx & Hap & Hax).
    edestruct (locked_result (A := Z)) as (m' & Hr & ? & ?);
      [|exact Hd1|exact Hu1|exists m'; split; [exact Hr|split; [done|split; [apply (alloc_fresh_node m0)|done]]]].
    fold m0. destruct Hd' as [Hl Hli Hs Hn _].
    erewrite st_bind_Ok by (by apply (node_at_ok x m0)). cbn [list_of prev].
    erewrite st_bind_Ok by (by apply list_at_ok). cbn [head].
    rewrite ?last_addr_app. cbn [last_addr]. rewrite (proj2 (Z.eqb_neq p 0) Hp0).
    erewrite st_bind_Ok.
    2: { apply ensure_true, neq_ok. rewrite (first_app (ns1 ++ [_])). intros E.
         apply NoDup_cons in Hn as [_ Hn]. rewrite fmap_app in Hn. apply NoDup_app in Hn as (_ & Hn & _).
         apply (Hn x); [|by left]. rewrite <- E. destruct ns1 as [|[]]; by left. }
    erewrite st_bind_Ok by apply kmalloc_node_ok.
    erewrite st_bind_Ok by (apply node_at_ok; apply lookup_insert_eq). cbn [prev].
    erewrite st_bind_Ok by (by apply ensure_true, neq_ok).
    erewrite st_bind_Ok by (apply node_put_ok; cbn; by rewrite lookup_insert_ne).
    erewrite st_bind_Ok by (apply node_put_ok; cbn; by rewrite !lookup_insert_ne).
    erewrite st_bind_Ok by (by apply list_put_ok).
    pose proof (zlen_nonneg ((ns1 ++ [(p, e)]) ++ (x, f) :: ns2)).
    replace (set_lists _ _) with (mid_node m0 l d ns1 p e x f ns2).
    2: { unfold mid_node, set_lists, set_nodes, add_count, with_prev, with_next. cbn.
         rewrite u32_small by lia. rewrite last_addr_app, (first_app (ns1 ++ [_])). by destruct ns1 as [|[]]. }
    erewrite st_bind_Ok by (by eapply validate_ok). done.
Qed.

Lemma list_node_insert_after_run m l ns1 x f ns2 d :
  dll m l (ns1 ++ (x, f) :: ns2) -> zlen (ns1 ++ (x, f) :: ns2) + 1 < 2 ^ 32 ->
  exists a m', list_node_insert_after x d m = Ok (a, m') /\ dll m' l (ns1 ++ (x, f) :: (a, d) :: ns2) /\
    nodes m !! a = None /\ untouched m m' l (a :: (ns1 ++ (x, f) :: ns2).*1).
Proof.
  intros Hd Hlen. pose proof (dll_set_irq _ _ _ false Hd) as Hd'. set (m0 := set_irq false m) in *.
  pose proof (seg_elem _ _ _ ns1 x f ns2 0 (dl_seg _ _ _ Hd)) as Hx.
  assert (Hx0 : x <> 0).
  { intros ->. pose proof (dl_nodup _ _ _ Hd) as Hn. apply NoDup_cons in Hn as [Hn _]. apply Hn.
    rewrite fmap_app. apply elem_of_app. right. by left. }
  unfold list_node_insert_after. erewrite st_bind_Ok by (by apply ensure_true, neq_ok).
  erewrite st_bind_Ok by (by apply node_at_ok). cbn [list_of].
  erewrite st_bind_Ok by (apply ensure_true, neq_ok, Hd).
  destruct ns2 as [|[y g] ns2].
  - destruct (list_append_run m0 l _ d Hd' Hlen) as (a & m1 & Hrun & Hd1 & Ha & Hu). rewrite <- app_assoc in Hd1.
    edestruct (locked_result (A := Z)) as (m' & Hr & ? & ?); [|exact Hd1|exact Hu|exists a, m'; split; [exact Hr|done]].
    fold m0. erewrite st_bind_Ok by (by apply (node_at_ok x m0)). cbn [list_of next first Z.eqb].
    erewrite st_bind_Ok by (apply list_at_ok, Hd'). cbn [tail]. rewrite last_addr_app. cbn [last_addr].
    erewrite st_bind_Ok by (by apply ensure_true, Z.eqb_refl). done.
  - exists (alloc m0). replace (ns1 ++ (x, f) :: (y, g) :: ns2) with ((ns1 ++ [(x, f)]) ++ (y, g) :: ns2) in *
      by (by rewrite <- app_assoc).
    destruct (mid_node_ok m0 l d ns1 x f y g ns2 Hd' Hlen) as (Hd1 & Hu1 & Hx' & Hy & _ & Hy0 & Hxy & Hax & Hay).
    rewrite <- (app_assoc ns1) in Hd1. cbn [app] in Hd1.
    edestruct (locked_result (A := Z)) as (m' & Hr & ? & ?);
      [|exact Hd1|exact Hu1|exists m'; split; [exact Hr|split; [done|split; [apply (alloc_fresh_node m0)|done]]]].
    fold m0. destruct Hd' as [Hl Hli Hs Hn _].
    erewrite st_bind_Ok by (apply (node_at_ok x m0); exact Hx'). cbn [list_of next].
    erewrite st_bind_Ok by (by apply list_at_ok). cbn [tail].
    rewrite (proj2 (Z.eqb_neq y 0) Hy0). erewrite st_bind_Ok.
    2: { apply ensure_true, neq_ok. rewrite last_addr_app. intros E.
         apply NoDup_cons in Hn as [_ Hn]. rewrite fmap_app in Hn. apply NoDup_app in Hn as (_ & Hn & _).
         apply (Hn x); [rewrite fmap_app; apply elem_of_app; right; by left|].
         rewrite <- E. by apply (last_addr_in _ ((y, g) :: ns2)). }
    erewrite st_bind_Ok by done. erewrite st_bind_Ok by apply kmalloc_node_ok.
    erewrite st_bind_Ok by (apply node_put_ok; cbn; by rewrite lookup_insert_ne).
    erewrite st_bind_Ok by (apply node_at_ok; cbn; rewrite lookup_insert_ne by done; apply lookup_insert_eq). cbn [next].
    erewrite st_bind_Ok by (apply node_put_ok; cbn; by rewrite !lookup_insert_ne).
    erewrite st_bind_Ok by (by apply list_put_ok).
    pose proof (zlen_nonneg ((ns1 ++ [(x, f)]) ++ (y, g) :: ns2)).
    replace (set_lists _ _) with (mid_node m0 l d ns1 x f y g ns2).
    2: { unfold mid_node, set_lists, set_nodes, add_count, with_prev, with_next. cbn.
         rewrite u32_small by lia. rewrite last_addr_app, (first_app (ns1 ++ [_])). by destruct ns1 as [|[]]. }
    erewrite st_bind_Ok by (by eapply validate_ok). done.
Qed.
End Correct.

(** ** Unlinking a node *)
Lemma seg_alter_other N l p ns q a f : a ∉ ns.*1 -> seg N l p ns q -> seg (alter f a N) l p ns q.
Proof. intros Ha. apply seg_frame. intros b Hb. apply lookup_alter_ne. by intros ->. Qed.

Lemma seg_alter_next N l p ns q q' :
  ns <> [] -> NoDup ns.*1 -> seg N l p ns q -> seg (alter (with_next q') (last_addr p ns) N) l p ns q'.
Proof.
  intros Hne Hn Hs. destruct ns as [|[a d] ns _] using rev_ind; [done|].
  rewrite last_addr_app. cbn [last_addr]. pose proof (seg_elem _ _ _ ns a d [] q Hs) as Ha.
  rewrite fmap_app in Hn. apply NoDup_app in Hn as (_ & Hn & _).
  assert (Hna : a ∉ ns.*1) by (intros Hin; apply (Hn a Hin); by left).
  apply seg_app in Hs as [Hs _]. apply seg_app. split; [by apply seg_alter_other|].
  cbn. by rewrite lookup_alter_eq, Ha.
Qed.

Lemma seg_alter_prev N l p p' ns q z :
  ns <> [] -> NoDup ns.*1 -> seg N l p ns q -> seg (alter (with_prev p') (first ns z) N) l p' ns q.
Proof.
  intros Hne Hn Hs. destruct ns as [|[a d] ns]; [done|]. destruct Hs as [Ha Hs]. cbn in *.
  apply NoDup_cons in Hn as [Hna _]. rewrite lookup_alter_eq, Ha. split; [done|]. by apply seg_alter_other.
Qed.

(** The two writes of [list_remove_node] to the neighbours. *)
Definition unlink_prev (ns1 ns2 : list (Z * Z)) (N : gmap Z node_t) : gmap Z node_t :=
  if last_addr 0 ns1 =? 0 then N else alter (with_next (first ns2 0)) (last_addr 0 ns1) N.
Definition unlink (ns1 ns2 : list (Z * Z)) (N : gmap Z node_t) : gmap Z node_t :=
  if first ns2 0 =? 0 then unlink_prev ns1 ns2 N
  else alter (with_prev (last_addr 0 ns1)) (first ns2 0) (unlink_prev ns1 ns2 N).

Lemma nodup_split (x f : Z) (ns1 ns2 : list (Z * Z)) :
  NoDup (0 :: (ns1 ++ (x, f) :: ns2).*1) ->
  NoDup (0 :: ns1.*1) /\ NoDup (0 :: ns2.*1) /\ NoDup (0 :: (ns1 ++ ns2).*1) /\
  (x ∉ (ns1 ++ ns2).*1) /\ x <> 0 /\ (forall a, a ∈ ns1.*1 -> a ∉ ns2.*1).
Proof.
  rewrite !fmap_app. cbn. intros Hn. rewrite <- Permutation_middle in Hn.
  apply NoDup_cons in Hn as [H0 Hn]. apply NoDup_cons in Hn as [Hx Hn].
  assert (H0' : 0 ∉ ns1.*1 ++ ns2.*1) by (by apply not_elem_of_cons in H0 as [_ ?]).
  assert (x <> 0) by (apply not_elem_of_cons in H0 as [? _]; done).
  pose proof H0' as H0''. apply not_elem_of_app in H0'' as [? ?].
  apply NoDup_app in Hn as (Hn1 & Hd & Hn2). split_and!; try done; apply NoDup_cons; split; try done.
  by apply NoDup_app.
Qed.

Lemma seg_unlink N l ns1 x f ns2 :
  seg N l 0 (ns1 ++ (x, f) :: ns2) 0 -> NoDup (0 :: (ns1 ++ (x, f) :: ns2).*1) ->
  seg (unlink ns1 ns2 N) l 0 (ns1 ++ ns2) 0.
Proof.
  intros Hs Hn. apply nodup_split in Hn as (Hn1 & Hn2 & _ & _ & _ & Hdis).
  apply seg_app in Hs as [Hs1 [_ Hs2]]. unfold unlink, unlink_prev. rewrite (last_ne _ Hn1), (first_ne _ Hn2).
  apply NoDup_cons in Hn1 as [_ Hn1]. apply NoDup_cons in Hn2 as [_ Hn2].
  pose proof (last_addr_in 0 ns1) as Hl1.
  assert (Hf2 : ns2 <> [] -> first ns2 0 ∈ ns2.*1) by (destruct ns2 as [|[]]; [done | left]).
  apply seg_app. split.
  - assert (Hs : seg (if match ns1 with [] => true | _ => false end then N
        else alter (with_next (first ns2 0)) (last_addr 0 ns1) N) l 0 ns1 (first ns2 0))
      by (destruct ns1; [done|]; by eapply seg_alter_next).
    destruct ns2 as [|[y g] ns2]; [done|]. apply seg_alter_other; [|done].
    intros Hin. apply (Hdis _ Hin), Hf2. done.
  - assert (Hs : seg (if match ns1 with [] => true | _ => false end then N
        else alter (with_next (first ns2 0)) (last_addr 0 ns1) N) l x ns2 0).
    { destruct ns1 as [|y ns1]; [done|]. apply seg_alter_other; [|done]. apply Hdis, Hl1. done. }
    destruct ns2 as [|[y g] ns2]; [done|]. by eapply seg_alter_prev.
Qed.

Lemma node_put_alter p f m n :
  nodes m !! p = Some n -> node_put p f m = Ok (tt, set_nodes (alter f p) m).
Proof.
  intros H. rewrite (node_put_ok _ _ _ _ H). do 2 f_equal. unfold set_nodes. f_equal.
  apply map_eq. intros i. destruct (decide (p = i)) as [<-|].
  - by rewrite lookup_insert_eq, lookup_alter_eq, H.
  - by rewrite lookup_insert_ne, lookup_alter_ne.
Qed.

(** The list after [x] is unlinked and before it is freed. *)
Definition removed (m : lmem) (l : Z) (ns1 ns2 : list (Z * Z)) : lmem :=
  set_lists (insert l (mk_list (first (ns1 ++ ns2) 0) (last_addr 0 (ns1 ++ ns2)) (zlen (ns1 ++ ns2))))
    (set_nodes (unlink ns1 ns2) m).

Lemma removed_ok m l ns1 x f ns2 :
  dll m l (ns1 ++ (x, f) :: ns2) ->
  dll (removed m l ns1 ns2) l (ns1 ++ ns2) /\
  dll (set_nodes (delete x) (removed m l ns1 ns2)) l (ns1 ++ ns2) /\
  untouched m (set_nodes (delete x) (removed m l ns1 ns2)) l ((ns1 ++ (x, f) :: ns2).*1).
Proof.
  intros [Hl Hli Hs Hn Hz]. pose proof (nodup_split _ _ _ _ Hn) as (Hn1 & Hn2 & Hn12 & Hx & _ & _).
  pose proof (seg_unlink _ _ _ _ _ _ Hs Hn) as Hs'.
  assert (Hlen : zlen (ns1 ++ ns2) < 2 ^ 32) by (rewrite !zlen_app, ?zlen_cons in *; lia).
  split_and!; [split; try done; cbn; apply lookup_insert_eq | |].
  - split; try done; cbn; [apply lookup_insert_eq | by apply seg_delete].
  - split; [|intros k Hk; cbn; by apply lookup_insert_ne|done]. intros a Ha. cbn.
    rewrite fmap_app in Ha. cbn in Ha. apply not_elem_of_app in Ha as [Ha1 [Hax Ha2]%not_elem_of_cons].
    rewrite lookup_delete_ne by done. unfold unlink, unlink_prev. rewrite (last_ne _ Hn1), (first_ne _ Hn2).
    assert (ns1 <> [] -> last_addr 0 ns1 <> a) by (intros Hne <-; by apply Ha1, last_addr_in).
    assert (ns2 <> [] -> first ns2 0 <> a) by (destruct ns2 as [|[]]; [done|]; cbn; intros _ <-; apply Ha2; by left).
    destruct ns1, ns2; rewrite ?lookup_alter_ne by auto; done.
Qed.

Lemma unlink_prev_run m l ns1 x f ns2 :
  seg (nodes m) l 0 (ns1 ++ (x, f) :: ns2) 0 -> NoDup (0 :: ns1.*1) ->
  (if negb (last_addr 0 ns1 =? 0) then node_put (last_addr 0 ns1) (with_next (first ns2 0)) else mret tt) m
  = Ok (tt, set_nodes (unlink_prev ns1 ns2) m).
Proof.
  intros Hs Hn1. unfold set_nodes, unlink_prev. rewrite (last_ne _ Hn1).
  destruct (exists_last_or_nil ns1) as [->|(k & [p e] & ->)]; [by destruct m|].
  rewrite last_addr_app. cbn [last_addr]. destruct (k ++ [(p, e)]) eqn:Ek; [by destruct k|]. cbn [negb].
  rewrite <- Ek in *. rewrite <- app_assoc in Hs.
  eapply node_put_alter. exact (seg_elem _ _ _ k p e ((x, f) :: ns2) 0 Hs).
Qed.

Lemma unlink_run m l ns1 x f ns2 :
  seg (nodes m) l 0 (ns1 ++ (x, f) :: ns2) 0 -> NoDup (0 :: (ns1 ++ (x, f) :: ns2).*1) ->
  (if negb (first ns2 0 =? 0) then node_put (first ns2 0) (with_prev (last_addr 0 ns1)) else mret tt)
    (set_nodes (unlink_prev ns1 ns2) m)
  = Ok (tt, set_nodes (unlink ns1 ns2) m).
Proof.
  intros Hs Hn. apply nodup_split in Hn as (Hn1 & Hn2 & _ & _ & _ & Hdis).
  unfold unlink. unfold set_nodes at 2. rewrite (first_ne _ Hn2). destruct ns2 as [|[y g] ns2]; [done|]. cbn [negb first].
  apply seg_app in Hs as [_ [_ [Hy _]]].
  assert (Hy1 : exists n, unlink_prev ns1 ((y, g) :: ns2) (nodes m) !! y = Some n).
  { unfold unlink_prev. rewrite (last_ne _ Hn1). destruct ns1 as [|z ns1]; [eauto|]. rewrite lookup_alter_ne; [eauto|].
    intros <-. apply (Hdis (last_addr 0 (z :: ns1))); [by apply last_addr_in | by left]. }
  destruct Hy1 as [n Hy1]. by rewrite (node_put_alter y _ _ n).
Qed.

(** The removed node itself is not written to. *)
Lemma unlink_self N x f ns1 ns2 :
  NoDup (0 :: (ns1 ++ (x, f) :: ns2).*1) ->
  unlink_prev ns1 ns2 N !! x = N !! x /\ unlink ns1 ns2 N !! x = N !! x /\
  (x =? first (ns1 ++ (x, f) :: ns2) 0) = (match ns1 with [] => true | _ => false end) /\
  (x =? last_addr 0 (ns1 ++ (x, f) :: ns2)) = (match ns2 with [] => true | _ => false end).
Proof.
  intros Hn. apply nodup_split in Hn as (Hn1 & Hn2 & _ & Hxn & _ & _).
  rewrite fmap_app in Hxn. apply not_elem_of_app in Hxn as [Hx1 Hx2].
  assert (Hpx : ns1 <> [] -> last_addr 0 ns1 <> x) by (intros Hne <-; by apply Hx1, last_addr_in).
  assert (Hqx : ns2 <> [] -> first ns2 0 <> x) by (destruct ns2 as [|[]]; [done|]; cbn; intros _ <-; apply Hx2; by left).
  assert (H1 : unlink_prev ns1 ns2 N !! x = N !! x).
  { unfold unlink_prev. rewrite (last_ne _ Hn1). destruct ns1; [done|]. by apply lookup_alter_ne, Hpx. }
  split_and!; [done | | |].
  - unfold unlink. rewrite (first_ne _ Hn2). destruct ns2; [done|]. rewrite lookup_alter_ne by (by apply Hqx). done.
  - destruct ns1 as [|[y g] ns1]; cbn; [apply Z.eqb_refl|]. apply Z.eqb_neq. intros ->. apply Hx1. by left.
  - rewrite last_addr_app. cbn. destruct ns2 as [|z ns2]; [apply Z.eqb_refl|]. apply Z.eqb_neq. intros E.
    apply Hx2. rewrite E. by apply last_addr_in.
Qed.

Lemma list_remove_node_run m l ns1 x f ns2 :
  dll m l (ns1 ++ (x, f) :: ns2) ->
  exists m', list_remove_node l x m = Ok (tt, m') /\ dll m' l (ns1 ++ ns2) /\
    nodes m' !! x = None /\ untouched m m' l ((ns1 ++ (x, f) :: ns2).*1).
Proof.
  intros Hd. pose proof (dll_set_irq _ _ _ false Hd) as Hd'. set (m0 := set_irq false m) in *.
  destruct (removed_ok m0 l ns1 x f ns2 Hd') as (Hd1 & Hd2 & Hu). destruct Hd' as [Hl Hli Hs Hn Hz].
  pose proof (seg_elem _ _ _ ns1 x f ns2 0 Hs) as Hx.
  destruct (unlink_self (nodes m0) x f ns1 ns2 Hn) as (Hx1 & Hx2 & Hxh & Hxt).
  pose proof (nodup_split _ _ _ _ Hn) as (Hn1 & _ & _ & _ & Hx0 & _).
  exists (set_irq (irq m) (set_nodes (delete x) (removed m0 l ns1 ns2))).
  split; [|split_and!; [by apply dll_set_irq | apply lookup_delete_eq | destruct Hu; by split]].
  unfold list_remove_node. erewrite st_bind_Ok by (by apply ensure_true, neq_ok).
  apply locked_ok; [fold m0|done]. erewrite st_bind_Ok by (by apply ensure_true, neq_ok).
  erewrite st_bind_Ok by (by apply node_at_ok). cbn [list_of prev next].
  erewrite st_bind_Ok by (by apply ensure_true, Z.eqb_refl).
  erewrite st_bind_Ok by (by eapply unlink_prev_run).
  erewrite st_bind_Ok by (apply node_at_ok; cbn [nodes set_nodes]; by rewrite Hx1). cbn [prev next].
  erewrite st_bind_Ok by (by eapply unlink_run). erewrite st_bind_Ok by (by apply list_put_ok).
  erewrite st_bind_Ok by (apply node_at_ok; cbn [nodes set_nodes set_lists]; by rewrite Hx2).
  erewrite st_bind_Ok by (apply list_at_ok; apply lookup_insert_eq). cbn [head add_count]. rewrite Hxh.
  set (L := fun h t => set_lists (insert l (mk_list h t (zlen (ns1 ++ ns2)))) (set_nodes (unlink ns1 ns2) m0)).
  assert (Hlen : u32 (zlen (ns1 ++ (x, f) :: ns2) + -1) = zlen (ns1 ++ ns2)).
  { rewrite !zlen_app, zlen_cons in *. pose proof (zlen_nonneg ns1). pose proof (zlen_nonneg ns2).
    rewrite u32_small; lia. }
  unfold add_count. cbn [head tail count_]. rewrite Hlen.
  erewrite (st_bind_Ok _ _ _ tt (L (first (ns1 ++ ns2) 0) (last_addr 0 (ns1 ++ (x, f) :: ns2)))).
  2: { destruct ns1 as [|[]]; [|done]. erewrite list_put_ok by apply lookup_insert_eq.
       unfold L, set_lists. cbn. by rewrite insert_insert_eq. }
  erewrite st_bind_Ok by (apply list_at_ok; apply lookup_insert_eq). cbn [tail]. rewrite Hxt.
  erewrite (st_bind_Ok _ _ _ tt (removed m0 l ns1 ns2)).
  2: { destruct ns2 as [|z ns2]; [|cbn; unfold L, removed; by rewrite !last_addr_app].
       erewrite list_put_ok by apply lookup_insert_eq. unfold L, removed, set_lists. cbn.
       by rewrite insert_insert_eq, app_nil_r. }
  erewrite st_bind_Ok by (by eapply validate_ok). eapply kfree_node_ok.
  cbn [nodes removed set_nodes set_lists]. by rewrite Hx2.
Qed.

(** ** Walking *)

(** The predicate holds of the node at [a]. *)
Definition hit (P : Z -> node_t -> bool) (N : gmap Z node_t) (ad : Z * Z) : bool :=
  match N !! ad.1 with Some n => P ad.1 n | None => false end.
Definition matches (P : Z -> node_t -> bool) (N : gmap Z node_t) (ns : list (Z * Z)) : list (Z * Z) :=
  List.filter (hit P N) ns.

Lemma matches_app P N ns1 ns2 : matches P N (ns1 ++ ns2) = matches P N ns1 ++ matches P N ns2.
Proof. apply List.filter_app. Qed.

Lemma walk_next_ok fuel m l p ns stop P :
  seg (nodes m) l p ns stop -> stop ∉ ns.*1 -> (length ns < fuel)%nat ->
  walk_until fuel next stop (first ns stop) P m = Ok (first (matches P (nodes m) ns) 0, m).
Proof.
  revert p ns. induction fuel as [|fuel IH]; intros p ns Hs Hn Hf; [lia|]. cbn [walk_until].
  destruct ns as [|[a d] ns]; cbn [first].
  { by rewrite Z.eqb_refl. }
  destruct Hs as [Ha Hs]. cbn in Hn, Hf. apply not_elem_of_cons in Hn as [Hsa Hn].
  destruct (Z.eqb_spec a stop); [congruence|]. erewrite st_bind_Ok by (by apply node_at_ok).
  cbn [matches List.filter]. unfold hit at 1. cbn [fst]. rewrite Ha.
  destruct (P a _) eqn:E; [done|]. cbn [next]. apply (IH a); [done | done | lia].
Qed.

Lemma walk_prev_ok fuel m l ns q P :
  seg (nodes m) l 0 ns q -> NoDup (0 :: ns.*1) -> (length ns < fuel)%nat ->
  walk_until fuel prev 0 (last_addr 0 ns) P m = Ok (last_addr 0 (matches P (nodes m) ns), m).
Proof.
  revert ns q. induction fuel as [|fuel IH]; intros ns q Hs Hn Hf; [lia|]. cbn [walk_until].
  rewrite (last_ne _ Hn). destruct (exists_last_or_nil ns) as [->|(k & [a d] & ->)]; [done|].
  destruct (k ++ [(a, d)]) as [|z k'] eqn:Ek; [by destruct k|]. rewrite <- Ek in *. clear Ek z k'.
  pose proof (seg_elem _ _ _ k a d [] q Hs) as Ha. rewrite last_addr_app. cbn [last_addr].
  erewrite st_bind_Ok by (by apply node_at_ok). rewrite matches_app, last_addr_app.
  unfold matches at 2. cbn [List.filter]. unfold hit at 1. cbn [fst]. rewrite Ha. cbn [prev].
  destruct (P a _) eqn:E; [done|]. cbn [last_addr].
  apply seg_app in Hs as [Hs _]. eapply IH; [exact Hs | | rewrite length_app in Hf; cbn in Hf; lia].
  rewrite fmap_app in Hn. apply NoDup_cons in Hn as [H0 Hn]. apply NoDup_app in Hn as [Hn _].
  apply NoDup_cons. split; [|done]. by apply not_elem_of_app in H0 as [? _].
Qed.

(** A locked operation that changes nothing. *)
Lemma locked_pure {A} (body : LM A) m a :
  body (set_irq false m) = Ok (a, set_irq false m) -> locked body m = Ok (a, m).
Proof. intros Hb. erewrite locked_ok by (done || exact Hb). by destruct m. Qed.

Lemma dll_fuel m l ns : dll m l ns -> (length ns < S (size (nodes m)))%nat.
Proof. intros [_ _ Hs Hn _]. apply NoDup_cons in Hn as [_ Hn]. pose proof (seg_size _ _ _ _ _ Hs Hn). lia. Qed.

Definition has_data (d : Z) (_ : Z) (n : node_t) : bool := data n =? d.

Lemma list_find_first_run m l ns d :
  dll m l ns -> ns <> [] -> list_find_first l d m = Ok (first (matches (has_data d) (nodes m) ns) 0, m).
Proof.
  intros Hd Hne. unfold list_find_first. erewrite st_bind_Ok by (apply ensure_true, neq_ok, Hd).
  apply locked_pure. pose proof (dll_set_irq _ _ _ false Hd) as Hd'.
  erewrite st_bind_Ok by (apply list_at_ok, Hd). cbn [head].
  erewrite st_bind_Ok by (apply ensure_true; rewrite first_ne by apply Hd; by destruct ns).
  erewrite st_bind_Ok by (by eapply validate_ok). erewrite st_bind_Ok by (apply list_at_ok, Hd). cbn [head].
  erewrite st_bind_Ok by done. apply (walk_next_ok _ (set_irq false m) l 0 ns 0 (has_data d)); [apply Hd| |by apply dll_fuel in Hd].
  pose proof (dl_nodup _ _ _ Hd) as Hn. by apply NoDup_cons in Hn as [? _].
Qed.

Lemma list_find_last_run m l ns d :
  dll m l ns -> ns <> [] -> list_find_last l d m = Ok (last_addr 0 (matches (has_data d) (nodes m) ns), m).
Proof.
  intros Hd Hne. unfold list_find_last. erewrite st_bind_Ok by (apply ensure_true, neq_ok, Hd).
  apply locked_pure. pose proof (dll_set_irq _ _ _ false Hd) as Hd'.
  erewrite st_bind_Ok by (apply list_at_ok, Hd). cbn [tail].
  erewrite st_bind_Ok by (apply ensure_true; rewrite last_ne by apply Hd; by destruct ns).
  erewrite st_bind_Ok by (by eapply validate_ok). erewrite st_bind_Ok by (apply list_at_ok, Hd). cbn [tail].
  erewrite st_bind_Ok by done.
  apply (walk_prev_ok _ (set_irq false m) l ns 0 (has_data d)); [apply Hd | apply Hd | by apply dll_fuel in Hd].
Qed.

(** In terms of the data alone. *)
Lemma matches_data N l p ns q d :
  seg N l p ns q -> matches (has_data d) N ns = List.filter (fun ad => ad.2 =? d) ns.
Proof.
  revert p. induction ns as [|[a e] ns IH]; intros p; [done|]. cbn [seg]. intros [Ha Hs].
  cbn [matches List.filter]. unfold hit at 1. cbn [fst snd]. rewrite Ha. unfold has_data at 1. cbn [data].
  fold (matches (has_data d) N ns). by rewrite (IH a).
Qed.

Lemma ring_elem m l ns1 x f ns2 :
  dll m l (ns1 ++ (x, f) :: ns2) ->
  nodes m !! x = Some (mk_node f (last_addr 0 ns1) (first ns2 0) l) /\
  seg (nodes m) l 0 ns1 x /\ seg (nodes m) l x ns2 0 /\ (x ∉ ns1.*1) /\ (0 ∉ ns2.*1) /\ (0 ∉ ns1.*1) /\ x <> 0.
Proof.
  intros [_ _ Hs Hn _]. pose proof (seg_elem _ _ _ _ _ _ _ _ Hs) as Hx.
  apply seg_app in Hs as [Hs1 [_ Hs2]]. apply nodup_split in Hn as (Hn1 & Hn2 & _ & Hx' & Hx0 & _).
  rewrite fmap_app in Hx'. apply not_elem_of_app in Hx' as [? _].
  apply NoDup_cons in Hn1 as [? _]. apply NoDup_cons in Hn2 as [? _]. by split_and!.
Qed.

Lemma first_matches_in P N ns : first (matches P N ns) 0 = 0 \/ first (matches P N ns) 0 ∈ ns.*1.
Proof.
  destruct (matches P N ns) as [|[a d] k] eqn:E; [by left|]. right. cbn.
  assert (Hin : (a, d) ∈ matches P N ns) by (rewrite E; by left).
  apply list_elem_of_In, filter_In in Hin as [Hin _]. apply list_elem_of_In in Hin.
  by apply (list_elem_of_fmap_2 fst) in Hin.
Qed.

(** ** Destroying *)
Lemma destroy_walk_ok fuel m l p ns :
  seg (nodes m) l p ns 0 -> NoDup (0 :: ns.*1) -> (length ns < fuel)%nat ->
  exists m', destroy_walk fuel (first ns 0) m = Ok (tt, m') /\ lists m' = lists m /\ irq m' = irq m /\
    (forall a, nodes m' !! a = if decide (a ∈ ns.*1) then None else nodes m !! a).
Proof.
  revert m p ns. induction fuel as [|fuel IH]; intros m p ns Hs Hn Hf; [lia|]. cbn [destroy_walk].
  rewrite (first_ne _ Hn). destruct ns as [|[a d] ns].
  { exists m. by split_and!. }
  destruct Hs as [Ha Hs]. cbn [first]. erewrite st_bind_Ok by (by apply node_at_ok).
  erewrite st_bind_Ok by (by eapply kfree_node_ok). cbn in Hn, Hf.
  apply NoDup_cons in Hn as [H0 Hn]. apply NoDup_cons in Hn as [Hna Hn]. apply not_elem_of_cons in H0 as [_ H0].
  destruct (IH (set_nodes (delete a) m) a ns) as (m' & Hr & Hl & Hi & Hn').
  { by apply seg_delete. } { by apply NoDup_cons. } { lia. }
  exists m'. cbn [next]. split_and!; [exact Hr | done | done |]. intros b. rewrite Hn'. cbn.
  destruct (decide (b = a)) as [->|].
  - rewrite lookup_delete_eq, (decide_True (P := a ∈ _ :: _)) by (by left). by case_decide.
  - rewrite lookup_delete_ne by done. repeat case_decide; try done.
    + exfalso. match goal with H : b ∉ _ |- _ => apply H; by right end.
    + match goal with H : b ∈ _ :: _ |- _ => by apply elem_of_cons in H as [?|?] end.
Qed.

(** ** Copying *)
Section Copy.
Context `{Allocator}.

(** One round of the copy loop appends a node to the copy. *)
Lemma copy_round m c done_ d :
  dll m c done_ -> zlen done_ + 1 < 2 ^ 32 ->
  exists m', dll m' c (done_ ++ [(alloc m, d)]) /\ untouched m m' c (alloc m :: done_.*1) /\
    forall (k : Z -> LM ()),
    (new_node ← kmalloc_node (mk_node d (last_addr 0 done_) 0 c);
     (if negb (last_addr 0 done_ =? 0) then node_put (last_addr 0 done_) (with_next new_node) else mret tt) ;;
     list_put c (add_count 1) ;;
     list_put c (with_tail new_node) ;;
     cc ← list_at c;
     (if head cc =? 0 then list_put c (with_head new_node) else mret tt) ;;
     k new_node) m = k (alloc m) m'.
Proof.
  intros Hd Hlen. pose proof (zlen_nonneg done_).
  destruct (exists_last_or_nil done_) as [->|(ns & [x e] & ->)].
  - destruct (only_node_ok m c d Hd) as [Hd1 Hu1]. exists (only_node m c d). split_and!; [done|done|]. intros k.
    erewrite st_bind_Ok by apply kmalloc_node_ok. erewrite st_bind_Ok by done.
    erewrite st_bind_Ok by (apply list_put_ok; apply Hd).
    erewrite st_bind_Ok by (apply list_put_ok; apply lookup_insert_eq).
    erewrite st_bind_Ok by (apply list_at_ok; apply lookup_insert_eq). cbn [head first Z.eqb with_tail add_count].
    erewrite st_bind_Ok by (apply list_put_ok; apply lookup_insert_eq).
    f_equal. unfold only_node, set_lists. cbn. by rewrite !insert_insert_eq.
  - destruct (back_node_ok m c d ns x e Hd Hlen) as [Hd1 Hu1]. exists (back_node m c d ns x e). split_and!; [done|done|].
    intros k. destruct Hd as [Hl Hli Hs Hn Hll]. pose proof (seg_elem _ _ _ ns x e [] 0 Hs) as Hx. cbn [first] in Hx.
    assert (Hxa : alloc m <> x) by (intros <-; by rewrite alloc_fresh_node in Hx).
    pose proof (last_ne _ Hn) as Hx0. pose proof (first_ne _ Hn) as Hf0.
    destruct (ns ++ [(x, e)]) eqn:E; [by destruct ns|]. rewrite <- E in *. rewrite Hx0. cbn [negb].
    rewrite last_addr_app in *. cbn [last_addr] in *. erewrite st_bind_Ok by apply kmalloc_node_ok.
    erewrite st_bind_Ok by (apply node_put_ok; cbn; by rewrite lookup_insert_ne).
    erewrite st_bind_Ok by (by apply list_put_ok). erewrite st_bind_Ok by (apply list_put_ok; apply lookup_insert_eq).
    erewrite st_bind_Ok by (apply list_at_ok; apply lookup_insert_eq). cbn [head with_tail add_count].
    rewrite Hf0. erewrite st_bind_Ok by done.
    f_equal. unfold back_node, set_lists, set_nodes, add_count, with_tail. cbn. rewrite insert_insert_eq.
    rewrite u32_small by lia. done.
Qed.

Definition copied (f : option (Z -> Z)) (d : Z) : Z := match f with Some f => f d | None => d end.

Lemma copy_walk_ok fuel m l p ns c done_ f :
  seg (nodes m) l p ns 0 -> NoDup (0 :: ns.*1) -> dll m c done_ -> (forall a, a ∈ ns.*1 -> a ∉ done_.*1) ->
  (length ns < fuel)%nat -> zlen done_ + zlen ns < 2 ^ 32 ->
  exists m' new, copy_walk fuel (first ns 0) (last_addr 0 done_) c f m = Ok (tt, m') /\
    dll m' c (done_ ++ new) /\ new.*2 = map (copied f) ns.*2 /\
    (forall a, nodes m !! a <> None -> a ∉ done_.*1 -> nodes m' !! a = nodes m !! a) /\
    (forall a, a ∈ new.*1 -> nodes m !! a = None) /\
    (forall k, k <> c -> lists m' !! k = lists m !! k) /\ irq m' = irq m.
Proof.
  revert m p ns done_. induction fuel as [|fuel IH]; intros m p ns done_ Hs Hn Hc Hdis Hf Hz; [lia|]. cbn [copy_walk].
  rewrite (first_ne _ Hn). destruct ns as [|[a d] ns].
  { exists m, []. rewrite app_nil_r. split_and!; try done. intros a Ha. by apply not_elem_of_nil in Ha. }
  destruct Hs as [Ha Hs]. cbn [first]. erewrite st_bind_Ok by (by apply node_at_ok). cbn [data next].
  rewrite zlen_cons in Hz. pose proof (zlen_nonneg ns). fold (copied f d).
  destruct (copy_round m c done_ (copied f d) Hc) as (m1 & Hd1 & Hu & Hrun); [lia|]. rewrite Hrun. clear Hrun.
  assert (Hkeep : forall b, nodes m !! b <> None -> b ∉ done_.*1 -> nodes m1 !! b = nodes m !! b).
  { intros b Hb Hnd. apply (un_nodes _ _ _ _ Hu). apply not_elem_of_cons. split; [|done].
    intros ->. by rewrite alloc_fresh_node in Hb. }
  cbn in Hn, Hf. apply NoDup_cons in Hn as [Hz0 Hn]. apply NoDup_cons in Hn as [Hna Hn]. apply not_elem_of_cons in Hz0 as [_ Hz0].
  assert (Ha1 : nodes m1 !! a = nodes m !! a) by (apply Hkeep; [by rewrite Ha | apply Hdis; by left]).
  erewrite st_bind_Ok by (apply node_at_ok; by rewrite Ha1). cbn [next].
  replace (alloc m) with (last_addr 0 (done_ ++ [(alloc m, copied f d)])) by (by rewrite last_addr_app).
  assert (Hin : forall b, b ∈ ns.*1 -> nodes m !! b <> None)
    by (intros b Hb; destruct (seg_dom _ _ _ _ _ _ Hs Hb) as [? ->]; done).
  edestruct (IH m1 a ns (done_ ++ [(alloc m, copied f d)])) as (m' & new & Hr & Hd' & Hdat & Hk & Hnew & Hl & Hi).
  { eapply seg_frame; [|exact Hs]. intros b Hb. apply Hkeep; [auto | apply Hdis; by right]. }
  { by apply NoDup_cons. } { done. }
  { intros b Hb. rewrite fmap_app. apply not_elem_of_app. split; [apply Hdis; by right|]. cbn.
    apply not_elem_of_cons. split; [|apply not_elem_of_nil]. intros ->. by apply (Hin _ Hb), alloc_fresh_node. }
  { lia. } { rewrite zlen_app, zlen_cons, zlen_nil. lia. }
  exists m', ((alloc m, copied f d) :: new). rewrite <- app_assoc in Hd'. split_and!; [exact Hr | exact Hd' | cbn; by rewrite Hdat | | | |].
  - intros b Hb Hnd. rewrite Hk, Hkeep; try done; [by rewrite Hkeep|]. rewrite fmap_app. apply not_elem_of_app.
    split; [done|]. cbn. apply not_elem_of_cons. split; [|apply not_elem_of_nil]. intros ->. by apply Hb, alloc_fresh_node.
  - intros b [->|Hb]%elem_of_cons; [apply alloc_fresh_node|]. destruct (nodes m !! b) eqn:E; [|done].
    assert (nodes m1 !! b = None) as Hnone by (by apply Hnew). destruct (decide (b ∈ done_.*1)) as [Hbd|Hbd].
    + destruct (seg_dom _ _ _ _ _ b (dl_seg _ _ _ Hd1)) as [? ?]; [rewrite fmap_app; apply elem_of_app; by left|]. congruence.
    + rewrite Hkeep in Hnone; congruence.
  - intros k Hk'. rewrite Hl by done. by apply (un_lists _ _ _ _ Hu).
  - rewrite Hi. apply (un_irq _ _ _ _ Hu).
Qed.
End Copy.

(** ** The properties *)
Section Properties.
Context `{Allocator}.

(** C19: adding a node to a well-formed list, empty or not, refines insertion into the sequence it
    represents: [list_prepend] at the front, [list_append] at the back, and, next to any node of it,
    [list_node_insert_before] and [list_node_insert_after]; each returns a fresh node, passes its own
    validation, restores the interrupt flag, and leaves every other node and list alone.  The list has
    fewer than 2^32 - 1 nodes, which its counter can hold. *)
Theorem list_insert_refines m l ns d :
  dll m l ns -> zlen ns + 1 < 2 ^ 32 ->
  (exists a m', list_prepend l d m = Ok (a, m') /\ dll m' l ((a, d) :: ns) /\
     nodes m !! a = None /\ untouched m m' l (a :: ns.*1)) /\
  (exists a m', list_append l d m = Ok (a, m') /\ dll m' l (ns ++ [(a, d)]) /\
     nodes m !! a = None /\ untouched m m' l (a :: ns.*1)) /\
  (forall ns1 x f ns2, ns = ns1 ++ (x, f) :: ns2 ->
     (exists a m', list_node_insert_before x d m = Ok (a, m') /\ dll m' l (ns1 ++ (a, d) :: (x, f) :: ns2) /\
        nodes m !! a = None /\ untouched m m' l (a :: ns.*1)) /\
     (exists a m', list_node_insert_after x d m = Ok (a, m') /\ dll m' l (ns1 ++ (x, f) :: (a, d) :: ns2) /\
        nodes m !! a = None /\ untouched m m' l (a :: ns.*1))).
Proof.
  intros Hd Hlen. split; [by apply list_prepend_run|]. split; [by apply list_append_run|]. intros ns1 x f ns2 ->.
  split; [by apply list_node_insert_before_run | by apply list_node_insert_after_run].
Qed.

(** [list_create] makes a fresh empty list, and the first node can be added at either
    end of it. *)
Theorem list_create_refines m d :
  exists l m0, list_create m = Ok (l, m0) /\ lists m !! l = None /\ dll m0 l [] /\
    (forall k, k <> l -> lists m0 !! k = lists m !! k) /\ nodes m0 = nodes m /\
    (exists a m', list_prepend l d m0 = Ok (a, m') /\ dll m' l [(a, d)]) /\
    (exists a m', list_append l d m0 = Ok (a, m') /\ dll m' l [(a, d)]).
Proof.
  set (m0 := set_lists (insert (alloc m) (mk_list 0 0 0)) m). exists (alloc m), m0.
  assert (Hd : dll m0 (alloc m) []).
  { split; [apply alloc_not_null | apply lookup_insert_eq | done | apply NoDup_singleton | done]. }
  split_and!; [| apply alloc_fresh_list | done | intros; by apply lookup_insert_ne | done | |].
  - unfold list_create. erewrite st_bind_Ok by done. fold m0.
    erewrite st_bind_Ok by (by eapply validate_ok). done.
  - destruct (list_prepend_run m0 (alloc m) [] d Hd) as (a & m' & ? & ? & _); [done|]. by exists a, m'.
  - destruct (list_append_run m0 (alloc m) [] d Hd) as (a & m' & ? & ? & _); [done|]. by exists a, m'.
Qed.

(** removing a node takes exactly it out of the sequence and frees it;
    [list_remove_first] and [list_remove_last] do so for the first and the last node with
    the given data and report whether there was one. *)
Theorem list_remove_refines m l ns1 x f ns2 :
  dll m l (ns1 ++ (x, f) :: ns2) ->
  (exists m', list_remove_node l x m = Ok (tt, m') /\ dll m' l (ns1 ++ ns2) /\
     nodes m' !! x = None /\ untouched m m' l ((ns1 ++ (x, f) :: ns2).*1)) /\
  ((f ∉ ns1.*2) -> exists m', list_remove_first l f m = Ok (true, m') /\ dll m' l (ns1 ++ ns2)) /\
  ((f ∉ ns2.*2) -> exists m', list_remove_last l f m = Ok (true, m') /\ dll m' l (ns1 ++ ns2)) /\
  (forall d, d ∉ (ns1 ++ (x, f) :: ns2).*2 ->
     list_remove_first l d m = Ok (false, m) /\ list_remove_last l d m = Ok (false, m)).
Proof.
  intros Hd. set (ns := ns1 ++ (x, f) :: ns2) in *. assert (Hne : ns <> []) by (unfold ns; by destruct ns1).
  pose proof (dll_set_irq _ _ _ false Hd) as Hd'. pose proof (dl_seg _ _ _ Hd) as Hs.
  destruct (ring_elem _ _ _ _ _ _ Hd) as (_ & _ & _ & _ & _ & _ & Hx0).
  assert (Hz : forall d k, (d ∉ k.*2) -> List.filter (fun ad : Z * Z => ad.2 =? d) k = []).
  { intros d k. induction k as [|[a e] k IH]; [done|]. cbn. intros [? ?]%not_elem_of_cons.
    destruct (Z.eqb_spec e d); [congruence | auto]. }
  assert (Hff : forall d, list_find_first l d (set_irq false m) = Ok (first (List.filter (fun ad => ad.2 =? d) ns) 0, set_irq false m)).
  { intros d. rewrite (list_find_first_run _ _ ns) by done. by rewrite (matches_data _ _ _ _ _ _ Hs). }
  assert (Hfl : forall d, list_find_last l d (set_irq false m) = Ok (last_addr 0 (List.filter (fun ad => ad.2 =? d) ns), set_irq false m)).
  { intros d. rewrite (list_find_last_run _ _ ns) by done. by rewrite (matches_data _ _ _ _ _ _ Hs). }
  destruct (list_remove_node_run _ _ _ _ _ _ Hd') as (m1 & Hr & Hd1 & _ & Hu).
  split_and!.
  - by apply list_remove_node_run.
  - intros Hf. unfold list_remove_first. erewrite st_bind_Ok by (apply ensure_true, neq_ok, Hd).
    eexists. split; [apply locked_ok; [|exact (un_irq _ _ _ _ Hu)] | by apply dll_set_irq].
    erewrite st_bind_Ok by apply Hff. unfold ns. rewrite List.filter_app, (Hz _ _ Hf). cbn. rewrite Z.eqb_refl. cbn.
    rewrite (proj2 (Z.eqb_neq x 0) Hx0). cbn [negb]. by erewrite st_bind_Ok by exact Hr.
  - intros Hf. unfold list_remove_last. erewrite st_bind_Ok by (apply ensure_true, neq_ok, Hd).
    eexists. split; [apply locked_ok; [|exact (un_irq _ _ _ _ Hu)] | by apply dll_set_irq].
    erewrite st_bind_Ok by apply Hfl. unfold ns. rewrite List.filter_app. cbn. rewrite Z.eqb_refl, (Hz _ _ Hf).
    rewrite last_addr_app. cbn. rewrite (proj2 (Z.eqb_neq x 0) Hx0). cbn [negb]. by erewrite st_bind_Ok by exact Hr.
  - intros d Hdn. unfold list_remove_first, list_remove_last.
    split; (erewrite st_bind_Ok by (apply ensure_true, neq_ok, Hd)); apply locked_pure;
      [erewrite st_bind_Ok by apply Hff | erewrite st_bind_Ok by apply Hfl]; by rewrite (Hz _ _ Hdn).
Qed.

(** [list_node_find_next_predicate] returns the first match after the node, continuing
    around the end of the list up to the node itself, which is never returned; NULL only
    when no other node matches.  Nothing changes. *)
Theorem list_find_next_ring m l ns1 x f ns2 P :
  dll m l (ns1 ++ (x, f) :: ns2) ->
  list_node_find_next_predicate x (Some P) m = Ok (first (matches P (nodes m) (ns2 ++ ns1)) 0, m).
Proof.
  intros Hd. destruct (ring_elem _ _ _ _ _ _ Hd) as (Hx & Hs1 & Hs2 & Hx1 & Hz2 & Hz1 & Hx0).
  pose proof (dll_fuel _ _ _ Hd) as Hf. rewrite length_app in Hf. cbn [length] in Hf.
  unfold list_node_find_next_predicate. erewrite st_bind_Ok by (by apply ensure_true, neq_ok).
  apply locked_pure. erewrite st_bind_Ok by done. erewrite st_bind_Ok by done. erewrite st_bind_Ok by done.
  erewrite st_bind_Ok by (by apply node_at_ok). cbn [next].
  erewrite st_bind_Ok by (apply (walk_next_ok _ (set_irq false m) l x ns2 0 P); [done | done | cbn; lia]).
  change (nodes (set_irq false m)) with (nodes m). rewrite matches_app, first_app.
  destruct (first_matches_in P (nodes m) ns2) as [E|E].
  - assert (matches P (nodes m) ns2 = []) as ->.
    { destruct (matches P (nodes m) ns2) as [|[a d] k] eqn:Em; [done|]. cbn in E. subst a. exfalso. apply Hz2.
      assert (Hin : (0, d) ∈ matches P (nodes m) ns2) by (rewrite Em; by left).
      apply list_elem_of_In, filter_In in Hin as [Hin _]. apply list_elem_of_In in Hin.
      by apply (list_elem_of_fmap_2 fst) in Hin. }
    cbn [first Z.eqb negb]. erewrite st_bind_Ok by (by apply node_at_ok). cbn [list_of].
    erewrite st_bind_Ok by (apply list_at_ok, Hd). cbn [head]. rewrite first_app. cbn [first].
    erewrite st_bind_Ok by (apply (walk_next_ok _ (set_irq false m) l 0 ns1 x P); [done | done | cbn; lia]).
    change (nodes (set_irq false m)) with (nodes m).
    erewrite st_bind_Ok; [done|]. apply ensure_true, neq_ok.
    destruct (first_matches_in P (nodes m) ns1) as [->|Hin]; [done|]. by intros <-.
  - destruct (matches P (nodes m) ns2) as [|[a d] k] eqn:Em; [by cbn in E|]. cbn in E |- *.
    destruct (Z.eqb_spec a 0) as [->|]; [done|]. done.
Qed.

(** [list_copy] makes a new list whose nodes are all fresh and whose data is the
    original's, in order, through the copy function if there is one; the original list
    and everything else in memory stays as it was. *)
Theorem list_copy_refines m l ns f :
  dll m l ns ->
  exists c m' new, list_copy l f m = Ok (c, m') /\ c <> l /\ lists m !! c = None /\
    dll m' c new /\ new.*2 = map (copied f) ns.*2 /\ (forall a, a ∈ new.*1 -> nodes m !! a = None) /\
    dll m' l ns /\ irq m' = irq m.
Proof.
  intros Hd. pose proof Hd as [Hl Hli Hs Hn Hz]. unfold list_copy.
  erewrite st_bind_Ok by (by apply ensure_true, neq_ok). erewrite st_bind_Ok by done.
  set (c := alloc m). set (m0 := set_lists (insert c (mk_list 0 0 0)) m).
  assert (Hcl : c <> l) by (intros E; rewrite <- E in Hli; unfold c in Hli; by rewrite alloc_fresh_list in Hli).
  assert (Hd0 : dll (set_irq false m0) c []).
  { split; [apply alloc_not_null | apply lookup_insert_eq | done | apply NoDup_singleton | done]. }
  pose proof (dll_fuel _ _ _ Hd) as Hf.
  destruct (copy_walk_ok (S (size (nodes m))) (set_irq false m0) l 0 ns c [] f)
    as (m1 & new & Hr & Hd1 & Hdat & Hk & Hnew & Hls & Hi); try done.
  { intros a _. apply not_elem_of_nil. }
  erewrite st_bind_Ok by done. cbn [app] in Hd1.
  erewrite st_bind_Ok.
  2: { apply locked_ok; [|rewrite Hi; done]. erewrite st_bind_Ok; [|apply list_at_ok; cbn; rewrite lookup_insert_ne by done; exact Hli].
       exact Hr. }
  erewrite st_bind_Ok by (eapply validate_ok, dll_set_irq, Hd1).
  exists c, (set_irq (irq m) m1), new. split_and!; try done; [apply alloc_fresh_list | by apply dll_set_irq |].
  split; try done; cbn.
  - rewrite Hls by done. cbn. by rewrite lookup_insert_ne.
  - eapply seg_frame; [|exact Hs]. intros a Ha. destruct (seg_dom _ _ _ _ _ _ Hs Ha) as [n Hn'].
    apply Hk; [cbn; by rewrite Hn' | apply not_elem_of_nil].
Qed.
End Properties.

(** [list_destroy] frees the list and each of its nodes, and nothing else. *)
Theorem list_destroy_frees m l ns :
  dll m l ns ->
  exists m', list_destroy l m = Ok (tt, m') /\ lists m' = delete l (lists m) /\ irq m' = irq m /\
    (forall a, nodes m' !! a = if decide (a ∈ ns.*1) then None else nodes m !! a).
Proof.
  intros Hd. pose proof (dll_set_irq _ _ _ false Hd) as Hd'. set (m0 := set_irq false m) in *.
  unfold list_destroy. erewrite st_bind_Ok by (apply ensure_true, neq_ok, Hd).
  destruct (destroy_walk_ok (S (size (nodes m0))) m0 l 0 ns) as (m1 & Hr & Hl & Hi & Hn).
  { apply Hd'. } { apply Hd'. } { by apply dll_fuel in Hd'. }
  exists (set_irq (irq m) (set_lists (fun L => delete l (<[l := mk_list 0 0 0]> L)) m1)).
  split; [|split_and!; [cbn; by rewrite Hl, delete_insert_eq | done | exact Hn]].
  apply locked_ok; [fold m0|done].
  erewrite st_bind_Ok by (by eapply validate_ok). erewrite st_bind_Ok by (apply list_at_ok, Hd'). cbn [head].
  erewrite st_bind_Ok by done. erewrite st_bind_Ok by exact Hr.
  erewrite st_bind_Ok by (apply list_put_ok; rewrite Hl; apply Hd').
  do 2 erewrite st_bind_Ok by (apply list_put_ok; apply lookup_insert_eq).
  unfold kfree_list. erewrite st_bind_Ok by (apply list_at_ok; apply lookup_insert_eq).
  unfold modify. do 2 f_equal. unfold set_lists. cbn. by rewrite !insert_insert_eq.
Qed.

(** ** Witnesses *)

(** An allocator that meets the interface. *)
Definition in_use (m : lmem) : gset Z := {[0]} ∪ dom (nodes m) ∪ dom (lists m).

Lemma fresh_not_used m a : a = fresh (in_use m) -> a <> 0 /\ nodes m !! a = None /\ lists m !! a = None.
Proof.
  intros ->. pose proof (is_fresh (in_use m)) as H. unfold in_use in *.
  split_and!; [set_solver | apply not_elem_of_dom; set_solver | apply not_elem_of_dom; set_solver].
Qed.

#[local] Instance fresh_allocator : Allocator.
Proof.
  refine {| alloc m := fresh (in_use m) |}; intros m; by destruct (fresh_not_used m (fresh (in_use m)) eq_refl) as (? & ? & ?).
Defined.

(** Two nodes, with data 5 and 6. *)
Definition demo_mem : lmem :=
  mk_lmem {[8 := mk_node 5 0 16 4; 16 := mk_node 6 8 0 4]} {[4 := mk_list 8 16 2]} true.

Lemma demo_dll : dll demo_mem 4 ([(8, 5)] ++ (16, 6) :: []).
Proof. split; [done | done | done | by apply (bool_decide_unpack _) | done]. Qed.

Lemma list_insert_witness :
  (exists a m', list_append 4 7 demo_mem = Ok (a, m') /\ dll m' 4 [(8, 5); (16, 6); (a, 7)]) /\
  (exists a m', list_node_insert_before 16 7 demo_mem = Ok (a, m') /\ dll m' 4 [(8, 5); (a, 7); (16, 6)]).
Proof.
  destruct (list_insert_refines demo_mem 4 [(8, 5); (16, 6)] 7 demo_dll eq_refl) as (_ & (a & m' & H1 & H2 & _) & H).
  split; [by exists a, m'|]. destruct (H [(8, 5)] 16 6 [] eq_refl) as [(b & m2 & H3 & H4 & _) _]. by exists b, m2.
Defined.

Lemma list_remove_witness : exists m', list_remove_first 4 6 demo_mem = Ok (true, m') /\ dll m' 4 [(8, 5)].
Proof.
  destruct (list_remove_refines demo_mem 4 [(8, 5)] 16 6 [] demo_dll) as (_ & H & _).
  apply H. by apply (bool_decide_unpack _).
Defined.

Lemma list_find_next_witness :
  list_node_find_next_predicate 16 (Some (fun _ n => data n =? 5)) demo_mem = Ok (8, demo_mem).
Proof. exact (list_find_next_ring demo_mem 4 [(8, 5)] 16 6 [] (fun _ n => data n =? 5) demo_dll). Defined.

Lemma list_copy_witness :
  exists c m' new, list_copy 4 None demo_mem = Ok (c, m') /\ dll m' c new /\ new.*2 = [5; 6].
Proof.
  destruct (list_copy_refines demo_mem 4 _ None demo_dll) as (c & m' & new & H1 & _ & _ & H2 & H3 & _).
  exists c, m', new. split; [exact H1|]. split; [exact H2|]. rewrite H3. reflexivity.
Defined.

Lemma list_destroy_witness : exists m', list_destroy 4 demo_mem = Ok (tt, m') /\ nodes m' !! 8 = None.
Proof.
  destruct (list_destroy_frees demo_mem 4 _ demo_dll) as (m' & H1 & _ & _ & H2).
  exists m'. split; [exact H1|]. rewrite H2. reflexivity.
Defined.

Lemma list_create_witness : exists l m0, list_create demo_mem = Ok (l, m0) /\ dll m0 l [].
Proof. destruct (list_create_refines demo_mem 1) as (l & m0 & H1 & _ & H2 & _). by exists l, m0. Defined.
