(* ===== verification/Mutex.v ===== *)
(** * The mutex (src/src/kernel/mutex.c)

    Two views: the functions as they run undisturbed, used by the components that take
    a lock; and, because tasks are preempted, a step relation in which each memory
    access of [mutex_lock] and [mutex_unlock] is a step of its own and the steps of the
    tasks interleave freely. *)
From S2P Require Import Prelude.

(** [owner] is a task's address, 0 for NULL; [word] is the member [mutex]. *)
Record mutex_t := mk_mutex { owner : Z; word : Z }.

Definition mutex_create : mutex_t := mk_mutex 0 0.

Definition mutex_destroy (m : mutex_t) : res () :=
  assert (word m =? 0) ;; assert (owner m =? 0).

(** One attempt of the loop of [mutex_lock]: [LOCK BTSL] sets bit 0 and reports whether it
    was clear.  [None]: the task yields and tries again. *)
Definition mutex_lock (in_isr task_switching : bool) (current_task : Z) (m : mutex_t) : res (option mutex_t) :=
  if in_isr then Panic
  else
    let success := negb (Z.testbit (word m) 0) in
    let w := Z.lor (word m) 1 in
    if success then Ok (Some (mk_mutex current_task w))
    else assert task_switching ;; Ok None.

Definition mutex_unlock (in_isr : bool) (current_task : Z) (m : mutex_t) : res mutex_t :=
  if in_isr then Panic
  else
    assert (negb (word m =? 0)) ;;
    assert (owner m =? current_task) ;;
    Ok (mk_mutex 0 0).

Definition mutex_is_locked (m : mutex_t) : bool := negb (word m =? 0).

(** ** Interleaved execution *)

(** Where a task is: outside, before the atomic bit test, between it and the write of
    [owner], inside, before the assertions of [mutex_unlock], before the write of
    [mutex], before the write of [owner]; [Dead] after a failed assertion (kernel panic). *)
Inductive pc := Outside | Trying | Owning | Inside | Checking | Clearing | Disowning | Dead.
#[export] Instance pc_eq_dec : EqDecision pc.
Proof. solve_decision. Defined.

Record mstate := mk_mstate { mtx : mutex_t; at_pc : Z -> pc }.

Definition goto (t : Z) (p : pc) (f : Z -> pc) : Z -> pc := fun x => if x =? t then p else f x.

Inductive mstep : mstate -> mstate -> Prop :=
| step_call_lock t s : at_pc s t = Outside ->
    mstep s (mk_mstate (mtx s) (goto t Trying (at_pc s)))
| step_bts_ok t s : at_pc s t = Trying -> Z.testbit (word (mtx s)) 0 = false ->
    mstep s (mk_mstate (mk_mutex (owner (mtx s)) (Z.lor (word (mtx s)) 1)) (goto t Owning (at_pc s)))
| step_bts_fail t s : at_pc s t = Trying -> Z.testbit (word (mtx s)) 0 = true ->
    mstep s (mk_mstate (mk_mutex (owner (mtx s)) (Z.lor (word (mtx s)) 1)) (at_pc s))
| step_set_owner t s : at_pc s t = Owning ->
    mstep s (mk_mstate (mk_mutex t (word (mtx s))) (goto t Inside (at_pc s)))
| step_call_unlock t s : at_pc s t = Inside ->
    mstep s (mk_mstate (mtx s) (goto t Checking (at_pc s)))
| step_check_ok t s : at_pc s t = Checking -> word (mtx s) <> 0 -> owner (mtx s) = t ->
    mstep s (mk_mstate (mtx s) (goto t Clearing (at_pc s)))
| step_check_fail t s : at_pc s t = Checking -> word (mtx s) = 0 \/ owner (mtx s) <> t ->
    mstep s (mk_mstate (mtx s) (goto t Dead (at_pc s)))
| step_clear t s : at_pc s t = Clearing ->
    mstep s (mk_mstate (mk_mutex (owner (mtx s)) 0) (goto t Disowning (at_pc s)))
| step_disown t s : at_pc s t = Disowning ->
    mstep s (mk_mstate (mk_mutex 0 (word (mtx s))) (goto t Outside (at_pc s))).

Definition minit : mstate := mk_mstate mutex_create (fun _ => Outside).
Definition reachable (s : mstate) : Prop := rtc mstep minit s.

(** The task has won the bit test and not yet cleared the bit. *)
Definition holds (p : pc) : bool :=
  match p with Owning | Inside | Checking | Clearing | Dead => true | _ => false end.

(** The lock bit is set exactly while one task holds the lock, and no two do. *)
Record minv (s : mstate) : Prop := {
  mi_word : word (mtx s) = 0 \/ word (mtx s) = 1;
  mi_held : forall t, holds (at_pc s t) = true -> word (mtx s) = 1;
  mi_one : forall t u, holds (at_pc s t) = true -> holds (at_pc s u) = true -> t = u
}.

Lemma goto_same t p f : goto t p f t = p.
Proof. unfold goto. by rewrite Z.eqb_refl. Qed.

Lemma goto_other t p f u : u <> t -> goto t p f u = f u.
Proof. intros. unfold goto. by destruct (Z.eqb_spec u t). Qed.

(** Moving a task without changing whether it holds the lock, nor the bit. *)
Lemma minv_move s t p m :
  minv s -> word m = word (mtx s) -> holds p = holds (at_pc s t) ->
  minv (mk_mstate m (goto t p (at_pc s))).
Proof.
  intros [Hw Hh Ho] Hm Hp.
  assert (Hsame : forall u, holds (goto t p (at_pc s) u) = holds (at_pc s u)).
  { intros u. destruct (decide (u = t)) as [->|]; [by rewrite goto_same | by rewrite goto_other]. }
  split; cbn; rewrite ?Hm; [done | |]; intros *; rewrite !Hsame; eauto.
Qed.

Lemma minv_step s s' : mstep s s' -> minv s -> minv s'.
Proof.
  intros Hs Hi. pose proof Hi as [Hw Hh Ho]. destruct Hs as [t s Ht|t s Ht Hb|t s Ht Hb|t s Ht|t s Ht|t s Ht _ _|t s Ht _|t s Ht|t s Ht];
    try (apply minv_move; [done | done | by rewrite Ht]).
  - assert (Hnone : forall u, holds (at_pc s u) = false).
    { intros u. destruct (holds (at_pc s u)) eqn:E; [|done]. rewrite (Hh u E) in Hb. done. }
    destruct Hw as [Hw|Hw]; [|by rewrite Hw in Hb]. split; cbn; rewrite ?Hw; [by right | done |].
    intros u v. destruct (decide (u = t)), (decide (v = t)); subst; rewrite ?goto_same, ?goto_other by done;
      rewrite ?Hnone; done.
  - assert (E : Z.lor (word (mtx s)) 1 = word (mtx s)) by (destruct Hw as [Hw|Hw]; rewrite Hw in *; done).
    split; cbn; rewrite ?E; eauto.
  - assert (Hnone : forall u, u <> t -> holds (at_pc s u) = false).
    { intros u Hu. destruct (holds (at_pc s u)) eqn:E; [|done]. exfalso. apply Hu, Ho; [done|]. by rewrite Ht. }
    assert (Hall : forall u, holds (goto t Disowning (at_pc s) u) = false).
    { intros u. destruct (decide (u = t)) as [->|]; [by rewrite goto_same | rewrite goto_other; auto]. }
    split; cbn; [by left | |]; intros *; rewrite !Hall; done.
Qed.

Lemma reachable_inv s : reachable s -> minv s.
Proof.
  intros Hr. unfold reachable in Hr. remember minit as s0 eqn:E.
  assert (minv s0) as Hi by (subst; split; cbn; [by left | done | done]). clear E.
  induction Hr as [|x y z Hxy _ IH]; [done|]. apply IH. by eapply minv_step.
Qed.

(** C30: mutual exclusion: whatever the interleaving of their steps, no two tasks are ever
    between a successful bit test in [mutex_lock] and the write that clears the bit in
    [mutex_unlock], and the bit is set for as long as one is. *)
Theorem mutex_exclusion s t u :
  reachable s -> holds (at_pc s t) = true -> holds (at_pc s u) = true -> t = u /\ mutex_is_locked (mtx s) = true.
Proof.
  intros Hr Ht Hu. destruct (reachable_inv s Hr) as [_ Hh Ho]. split; [by apply Ho|].
  unfold mutex_is_locked. by rewrite (Hh t Ht).
Qed.

(** [mutex_unlock] clears the lock before it clears [owner], so another task can take
    the lock in between and have its ownership erased; when it unlocks, its own assertion
    fails: the kernel panics although every task used the mutex correctly. *)
Theorem mutex_unlock_race t u :
  t <> u -> u <> 0 -> exists s, reachable s /\ at_pc s u = Checking /\
    mutex_unlock false u (mtx s) = Panic /\ exists s', mstep s s' /\ at_pc s' u = Dead.
Proof.
  intros Hne Hu0.
  set (p1 := goto t Clearing (goto t Checking (goto t Inside (goto t Owning (goto t Trying (fun _ => Outside)))))).
  set (p2 := goto u Inside (goto u Owning (goto u Trying (goto t Disowning p1)))).
  set (p3 := goto u Checking (goto t Outside p2)).
  set (s1 := mk_mstate (mk_mutex t 1) p1). set (s2 := mk_mstate (mk_mutex u 1) p2).
  assert (H1 : rtc mstep minit s1).
  { eapply rtc_l; [by apply (step_call_lock t)|]. eapply rtc_l; [apply (step_bts_ok t); [apply goto_same | done]|].
    eapply rtc_l; [apply (step_set_owner t), goto_same|]. eapply rtc_l; [apply (step_call_unlock t), goto_same|].
    eapply rtc_l; [apply (step_check_ok t); [apply goto_same | done | done]|]. apply rtc_refl. }
  assert (H2 : rtc mstep s1 s2).
  { eapply rtc_l; [apply (step_clear t), goto_same|].
    eapply rtc_l; [apply (step_call_lock u); cbn; unfold p1; by rewrite !goto_other by congruence|].
    eapply rtc_l; [apply (step_bts_ok u); [apply goto_same | done]|].
    eapply rtc_l; [apply (step_set_owner u), goto_same|]. apply rtc_refl. }
  set (s3 := mk_mstate (mk_mutex 0 1) p3). exists s3.
  assert (H3 : rtc mstep s2 s3).
  { eapply rtc_l; [apply (step_disown t); cbn; unfold p2; rewrite !(goto_other u), goto_same by congruence; done|].
    eapply rtc_l; [apply (step_call_unlock u); cbn; rewrite goto_other by congruence; apply goto_same|]. apply rtc_refl. }
  split_and!.
  - unfold reachable. etrans; [exact H1|]. by etrans.
  - apply goto_same.
  - unfold mutex_unlock. cbn [s3 mtx owner word]. change (negb (1 =? 0)) with true.
    cbn [assert mbind res_bind]. by destruct (Z.eqb_spec 0 u); [congruence|].
  - eexists. split; [apply (step_check_fail u); [apply goto_same | right; cbn; congruence]|]. apply goto_same.
Qed.

(** ** Witnesses *)
Definition locked_by (t : Z) : mstate := mk_mstate (mk_mutex 0 1) (goto t Owning (goto t Trying (fun _ => Outside))).

Lemma locked_by_reachable : reachable (locked_by 7).
Proof.
  eapply rtc_l; [by apply (step_call_lock 7)|]. eapply rtc_l; [by apply (step_bts_ok 7)|]. apply rtc_refl.
Qed.

Lemma mutex_exclusion_witness : mutex_is_locked (mtx (locked_by 7)) = true.
Proof. exact (proj2 (mutex_exclusion (locked_by 7) 7 7 locked_by_reachable eq_refl eq_refl)). Defined.

Lemma mutex_unlock_race_witness :
  exists s, reachable s /\ at_pc s 8 = Checking /\ mutex_unlock false 8 (mtx s) = Panic.
Proof.
  destruct (mutex_unlock_race 7 8 ltac:(lia) ltac:(lia)) as (s & H1 & H2 & H3 & _). by exists s.
Defined.
