(* ===== verification/Pipe.v ===== *)
(** * Pipes (src/src/kernel/pipe.c)

    A pipe is a ring buffer shared by a reading and a writing end.  [read_pos] and
    [write_pos] are offsets into [buffer]; a position equal to [max_pos] has not been
    wrapped yet.  A call either returns or goes to sleep ([Sleeps]: the condition it
    polls does not hold in this state, and another task must run first). *)
From S2P Require Import Prelude Mutex.

Definition DEV_PIPE : Z := 0x7fff.

(** The members of [struct open_file] that pipes use; files are known by their address. *)
Record pfile := mk_pfile { fcount : Z; fdev : Z; fdata : Z }.

Record pipe := mk_pipe {
  buffer : list Z;
  reader : Z;                     (** address of the read end, 0 for NULL *)
  writer : Z;
  read_pos : Z;
  write_pos : Z;
  bytes_avail : Z;
  lock : mutex_t;
  mtime : Z;
  atime : Z
}.

Inductive call (A : Type) := Returns (a : A) | Sleeps.
Arguments Returns {A} a.
Arguments Sleeps {A}.

Definition zmin (a b : Z) : Z := if a <? b then a else b.

Section Pipe.
(** [PIPE_BUFFER_SIZE] is 65536; the limit [PIPE_BUF] comes from Newlib. *)
Context (PIPE_BUFFER_SIZE PIPE_BUF : Z).

(** The part of [pipe()] that sets up the pipe object, for the two new files; [block] is
    the buffer [kmalloc] returned. *)
Definition pipe_setup (read_end write_end : Z) (block : list Z) : res pipe :=
  assert (PIPE_BUF <? PIPE_BUFFER_SIZE) ;;
  Ok (mk_pipe block read_end write_end 0 0 0 mutex_create 0 0).

(** The critical section of [pipe_read]. *)
Definition read_locked (buf : list Z) (count now : Z) (p : pipe) : res (Z * list Z * pipe) :=
  assert (0 <? bytes_avail p) ;;
  let n := PIPE_BUFFER_SIZE - read_pos p in
  let to_read := zmin (zmin count n) (bytes_avail p) in
  assert (to_read <=? bytes_avail p) ;;
  assert (read_pos p + to_read <=? PIPE_BUFFER_SIZE) ;;
  buf ← blit buf 0 (buffer p) (read_pos p) to_read;
  let rp := read_pos p + to_read in
  let avail := bytes_avail p - to_read in
  let bytes_read := to_read in
  assert (if PIPE_BUFFER_SIZE <=? rp then rp =? PIPE_BUFFER_SIZE else true) ;;
  let rp := if PIPE_BUFFER_SIZE <=? rp then 0 else rp in
  let p1 := mk_pipe (buffer p) (reader p) (writer p) rp (write_pos p) avail (lock p) (mtime p) now in
  if (bytes_read <? count) && (0 <? avail) then
    let to_read := zmin avail count in
    assert (to_read <=? avail) ;;
    assert (rp + to_read <=? PIPE_BUFFER_SIZE) ;;
    buf ← blit buf bytes_read (buffer p) rp to_read;
    Ok (bytes_read + to_read, buf,
        mk_pipe (buffer p) (reader p) (writer p) (rp + to_read) (write_pos p) (avail - to_read) (lock p) (mtime p) now)
  else Ok (bytes_read, buf, p1).

Definition set_lock (lk : mutex_t) (p : pipe) : pipe :=
  mk_pipe (buffer p) (reader p) (writer p) (read_pos p) (write_pos p) (bytes_avail p) lk (mtime p) (atime p).

(** [file] is what [get_filp(fd)] returned, [buf] the caller's memory, [now] the time, [me]
    the current task. *)
Definition pipe_read (files : gmap Z pfile) (file : option Z) (buf : list Z) (count now me : Z) (p : pipe)
  : res (call (ret * list Z * pipe)) :=
  match file with
  | None => Ok (Returns (Err EBADF, buf, p))
  | Some f =>
      fo ← deref (files !! f);
      assert (fdev fo =? DEV_PIPE) ;;
      assert (negb (fdata fo =? 0)) ;;
      if (writer p =? 0) && (bytes_avail p =? 0) then Ok (Returns (Val 0, buf, p))
      else if f =? writer p then Ok (Returns (Err EBADF, buf, p))
      else if bytes_avail p =? 0 then Ok Sleeps
      else
        lk ← mutex_lock false true me (lock p);
        match lk with
        | None => Ok Sleeps
        | Some lk =>
            '(bytes_read, buf, p) ← read_locked buf count now (set_lock lk p);
            lk ← mutex_unlock false me (lock p);
            Ok (Returns (Val bytes_read, buf, set_lock lk p))
        end
  end.

(** The critical section of one round of [pipe_write]. *)
Definition write_locked (buf : list Z) (count bytes_written now : Z) (p : pipe) : res (Z * pipe) :=
  let n := PIPE_BUFFER_SIZE - write_pos p in
  let space := u32 (PIPE_BUFFER_SIZE - bytes_avail p) in
  let to_write := zmin (zmin count n) space in
  assert (to_write <=? space) ;;
  assert (write_pos p + to_write <=? PIPE_BUFFER_SIZE) ;;
  b ← blit (buffer p) (write_pos p) buf 0 to_write;
  let wp := write_pos p + to_write in
  let avail := u32 (bytes_avail p + to_write) in
  let bytes_written := bytes_written + to_write in
  assert (if PIPE_BUFFER_SIZE <=? wp then wp =? PIPE_BUFFER_SIZE else true) ;;
  let wp := if PIPE_BUFFER_SIZE <=? wp then 0 else wp in
  let space := u32 (PIPE_BUFFER_SIZE - avail) in
  if (bytes_written <? count) && (0 <? space) then
    let to_write := zmin space count in
    assert (to_write <=? space) ;;
    assert (wp + to_write <=? PIPE_BUFFER_SIZE) ;;
    b ← blit b wp buf bytes_written to_write;
    Ok (bytes_written + to_write,
        mk_pipe b (reader p) (writer p) (read_pos p) (wp + to_write) (u32 (avail + to_write)) (lock p) now now)
  else
    Ok (bytes_written, mk_pipe b (reader p) (writer p) (read_pos p) wp avail (lock p) now now).

(** [if (p->reader == NULL || p->reader->count <= 0)], with its assertion. *)
Definition no_reader (files : gmap Z pfile) (p : pipe) : res bool :=
  if reader p =? 0 then Ok true
  else
    r ← deref (files !! reader p);
    if fcount r <=? 0 then assert (fcount r =? 0) ;; Ok true else Ok false.

(** One round of the loop of [pipe_write]: it returns an error, sleeps, or writes. *)
Inductive round := WErr (e : errno) | WSleeps | WDone (bytes_written : Z) (p : pipe).
Definition write_round (files : gmap Z pfile) (buf : list Z) (count bytes_written now me : Z) (p : pipe) : res round :=
  nr ← no_reader files p;
  if nr : bool then Ok (WErr EPIPE)
  else if u32 (PIPE_BUFFER_SIZE - bytes_avail p) <? zmin PIPE_BUF count then Ok WSleeps
  else
    nr ← no_reader files p;
    if nr : bool then Ok (WErr EPIPE)
    else
      lk ← mutex_lock false true me (lock p);
      match lk with
      | None => Ok WSleeps
      | Some lk =>
          '(bytes_written, p) ← write_locked buf count bytes_written now (set_lock lk p);
          lk ← mutex_unlock false me (lock p);
          Ok (WDone bytes_written (set_lock lk p))
      end.

(** [while (count > bytes_written)], run without other tasks in between; a round that
    sleeps leaves the bytes written so far and the pipe. *)
Fixpoint write_loop (fuel : nat) (files : gmap Z pfile) (buf : list Z) (count bytes_written now me : Z) (p : pipe)
  : res (call ret * Z * pipe) :=
  if bytes_written <? count then
    match fuel with
    | O => NoFuel
    | S fuel =>
        r ← write_round files buf count bytes_written now me p;
        match r with
        | WErr e => Ok (Returns (Err e), bytes_written, p)
        | WSleeps => Ok (Sleeps, bytes_written, p)
        | WDone w p => write_loop fuel files buf count w now me p
        end
    end
  else Ok (Returns (Val bytes_written), bytes_written, p).

Definition pipe_write (files : gmap Z pfile) (file : option Z) (buf : list Z) (count now me : Z) (p : pipe)
  : res (call ret * Z * pipe) :=
  match file with
  | None => Ok (Returns (Err EBADF), 0, p)
  | Some f =>
      fo ← deref (files !! f);
      assert (fdev fo =? DEV_PIPE) ;;
      assert (negb (fdata fo =? 0)) ;;
      if f =? reader p then Ok (Returns (Err EBADF), 0, p)
      else write_loop (S (Z.to_nat count)) files buf count 0 now me p
  end.

(** [None]: both ends are closed and the pipe was freed. *)
Definition pipe_close (files : gmap Z pfile) (file : option Z) (p : pipe) : res (ret * option pipe) :=
  match file with
  | None => Ok (Err EBADF, Some p)
  | Some f =>
      fo ← deref (files !! f);
      assert (negb (fdata fo =? 0)) ;;
      assert ((reader p =? f) || (writer p =? f)) ;;
      let p :=
        if reader p =? f then
          if fcount fo =? 1 then
            mk_pipe (buffer p) 0 (writer p) (read_pos p) (write_pos p) (bytes_avail p) (lock p) (mtime p) (atime p)
          else p
        else
          if fcount fo =? 1 then
            mk_pipe (buffer p) (reader p) 0 (read_pos p) (write_pos p) (bytes_avail p) (lock p) (mtime p) (atime p)
          else p in
      if (reader p =? 0) && (writer p =? 0) then
        mutex_destroy (lock p) ;; Ok (Val 0, None)
      else Ok (Val 0, Some p)
  end.

(** ** What a pipe holds *)

(** The bytes from the read position on, around the end of the buffer. *)
Definition ring_at (b : list Z) (r : nat) : list Z := drop r b ++ take r b.
Definition contents (p : pipe) : list Z :=
  take (Z.to_nat (bytes_avail p)) (ring_at (buffer p) (Z.to_nat (read_pos p))).

Record pipe_wf (p : pipe) : Prop := {
  pw_size : 0 < PIPE_BUFFER_SIZE < 2 ^ 31;
  pw_buf : zlen (buffer p) = PIPE_BUFFER_SIZE;
  pw_read : 0 <= read_pos p <= PIPE_BUFFER_SIZE;
  pw_write : 0 <= write_pos p <= PIPE_BUFFER_SIZE;
  pw_avail : 0 <= bytes_avail p <= PIPE_BUFFER_SIZE;
  (** [write_pos] is [bytes_avail] past [read_pos], modulo the buffer's size *)
  pw_ring : read_pos p + bytes_avail p + PIPE_BUFFER_SIZE = write_pos p \/
            read_pos p + bytes_avail p = write_pos p \/
            read_pos p + bytes_avail p = write_pos p + PIPE_BUFFER_SIZE \/
            read_pos p + bytes_avail p = write_pos p + 2 * PIPE_BUFFER_SIZE
}.

(** ** Rings *)
Lemma ring_lookup b r i :
  (r <= length b)%nat -> (i < length b)%nat ->
  ring_at b r !! i = b !! (if (r + i <? length b)%nat then r + i else r + i - length b)%nat.
Proof.
  intros Hr Hi. unfold ring_at. destruct (Nat.ltb_spec (r + i) (length b)).
  - rewrite lookup_app_l by (rewrite length_drop; lia). by rewrite lookup_drop.
  - rewrite lookup_app_r by (rewrite length_drop; lia). rewrite length_drop, lookup_take_lt by lia. f_equal. lia.
Qed.

Lemma ring_len b r : length (ring_at b r) = length b.
Proof. unfold ring_at. rewrite length_app, length_drop, length_take. lia. Qed.

Lemma ring_full b : ring_at b (length b) = ring_at b 0.
Proof. unfold ring_at. rewrite drop_all, firstn_all. cbn. by rewrite app_nil_r. Qed.

Lemma ring_advance b r k :
  (r + k <= length b)%nat ->
  take k (drop r b) = take k (ring_at b r) /\
  forall a, (k <= a <= length b)%nat -> take (a - k) (ring_at b (r + k)) = drop k (take a (ring_at b r)).
Proof.
  intros Hk. split.
  - unfold ring_at. by rewrite take_app_le by (rewrite length_drop; lia).
  - intros a Ha. apply list_eq. intros i. destruct (decide (i < a - k)%nat).
    + rewrite lookup_take_lt, lookup_drop, lookup_take_lt, !ring_lookup by lia. f_equal.
      repeat case_match; bool_to_prop; repeat match goal with H : (_ <? _)%nat = _ |- _ => apply Nat.ltb_lt in H || apply Nat.ltb_ge in H end; lia.
    + rewrite !lookup_ge_None_2; [done | rewrite length_drop, length_take, ring_len; lia | rewrite length_take, ring_len; lia].
Qed.

(** Writing [d] at the write position appends it to the contents. *)
Lemma ring_append b d r w a :
  (r <= length b -> w + length d <= length b -> a + length d <= length b ->
  (r + a + length b = w \/ r + a = w \/ r + a = w + length b \/ r + a = w + 2 * length b) ->
  take (a + length d) (ring_at (take w b ++ d ++ drop (w + length d) b) r) = take a (ring_at b r) ++ d)%nat.
Proof.
  intros Hr Hw Ha Hrel. set (b' := take w b ++ d ++ drop (w + length d) b).
  assert (Hlen : length b' = length b) by (unfold b'; rewrite !length_app, length_take, length_drop; lia).
  assert (Hb' : forall j, (j < length b)%nat ->
    b' !! j = if ((w <=? j) && (j <? w + length d))%nat then d !! (j - w)%nat else b !! j).
  { intros j Hj. unfold b'. destruct (Nat.leb_spec w j), (Nat.ltb_spec j (w + length d)); cbn [andb].
    - rewrite lookup_app_r, lookup_app_l by (rewrite length_take; lia). f_equal. rewrite length_take. lia.
    - rewrite !lookup_app_r by (rewrite ?length_app, length_take; lia). rewrite lookup_drop. f_equal.
      rewrite length_take. lia.
    - rewrite lookup_app_l, lookup_take_lt by (rewrite ?length_take; lia). done.
    - lia. }
  apply list_eq. intros i. destruct (decide (i < a + length d)%nat) as [Hi|Hi].
  - rewrite lookup_take_lt, ring_lookup, Hlen, Hb' by (try case_match; lia || rewrite ?Hlen;
      repeat match goal with H : (_ <? _)%nat = _ |- _ => apply Nat.ltb_lt in H || apply Nat.ltb_ge in H end; lia).
    set (j := if (r + i <? length b)%nat then (r + i)%nat else (r + i - length b)%nat).
    assert (Hj : (j < length b /\ (j = r + i \/ j + length b = r + i))%nat)
      by (unfold j; destruct (Nat.ltb_spec (r + i) (length b)); lia).
    destruct (decide (i < a)%nat).
    + rewrite lookup_app_l, lookup_take_lt, ring_lookup by (rewrite ?length_take, ?ring_len; lia). fold j.
      destruct (Nat.leb_spec w j), (Nat.ltb_spec j (w + length d)); cbn [andb]; done || lia.
    + rewrite lookup_app_r by (rewrite length_take, ring_len; lia). rewrite length_take, ring_len.
      destruct (Nat.leb_spec w j), (Nat.ltb_spec j (w + length d)); cbn [andb]; try lia. f_equal. lia.
  - rewrite !lookup_ge_None_2; [done | rewrite length_app, length_take, ring_len; lia | rewrite length_take, ring_len, Hlen; lia].
Qed.

(** Bytes a call moves when [n] fit before the end of the buffer and [avail] can be moved
    in all: the second copy is bounded by [count], not by what is left of it. *)
Definition moved (count n avail : Z) : Z :=
  if (n <? count) && (n <? avail) then n + Z.min (avail - n) count else Z.min count avail.

Lemma zmin_min a b : zmin a b = Z.min a b.
Proof. unfold zmin. destruct (Z.ltb_spec a b); lia. Qed.

Lemma moved_bound count n avail : 0 <= n -> 0 <= count -> 0 <= avail -> 0 <= moved count n avail <= avail.
Proof. intros. unfold moved. destruct (Z.ltb_spec n count), (Z.ltb_spec n avail); cbn; lia. Qed.

(** Two copies in a row, into consecutive places. *)
Lemma blit_twice (buf src : list Z) s1 k1 s2 k2 :
  0 <= k1 -> 0 <= k2 -> k1 + k2 <= zlen buf -> 0 <= s1 -> s1 + k1 <= zlen src -> 0 <= s2 -> s2 + k2 <= zlen src ->
  (b ← blit buf 0 src s1 k1; blit b k1 src s2 k2) =
  Ok (take (Z.to_nat k1) (drop (Z.to_nat s1) src) ++ take (Z.to_nat k2) (drop (Z.to_nat s2) src)
      ++ drop (Z.to_nat (k1 + k2)) buf).
Proof.
  intros. rewrite blit_Ok by lia. cbn [mbind res_bind]. rewrite take_0. cbn [app]. rewrite Z.add_0_l.
  set (u := take (Z.to_nat k1) (drop (Z.to_nat s1) src)).
  assert (Hu : length u = Z.to_nat k1) by (unfold u; rewrite length_take, length_drop; unfold zlen in *; lia).
  rewrite blit_Ok by (rewrite ?zlen_app; unfold zlen in *; rewrite ?length_drop; lia).
  rewrite take_app_length' by done. do 2 f_equal. f_equal.
  rewrite drop_app_ge by lia. rewrite drop_drop. f_equal. lia.
Qed.

Section Read.
Context (p : pipe) (Hwf : pipe_wf p).

Let n : Z := PIPE_BUFFER_SIZE - read_pos p.
Let t (count : Z) : Z := moved count n (bytes_avail p).

Definition after_read (k now : Z) (rp : Z) : pipe :=
  mk_pipe (buffer p) (reader p) (writer p) rp (write_pos p) (bytes_avail p - k) (lock p) (mtime p) now.

Lemma contents_after k now rp :
  0 <= k <= bytes_avail p -> 0 <= rp <= PIPE_BUFFER_SIZE ->
  rp = read_pos p + k \/ rp + PIPE_BUFFER_SIZE = read_pos p + k ->
  contents (after_read k now rp) = drop (Z.to_nat k) (contents p) /\ pipe_wf (after_read k now rp).
Proof.
  intros Hk Hrp Hrel. destruct Hwf as [Hs Hb Hr Hw Ha Hri]. unfold zlen in Hb. split.
  - unfold contents, after_read. cbn [bytes_avail read_pos buffer]. apply list_eq. intros i.
    replace (Z.to_nat (bytes_avail p - k)) with (Z.to_nat (bytes_avail p) - Z.to_nat k)%nat by lia.
    destruct (decide (i < Z.to_nat (bytes_avail p) - Z.to_nat k)%nat).
    + rewrite lookup_take_lt, lookup_drop, lookup_take_lt, !ring_lookup by lia. f_equal.
      destruct (Nat.ltb_spec (Z.to_nat rp + i) (length (buffer p))),
        (Nat.ltb_spec (Z.to_nat (read_pos p) + (Z.to_nat k + i)) (length (buffer p))); lia.
    + rewrite !lookup_ge_None_2; [done | rewrite length_drop, length_take, ring_len; lia | rewrite length_take, ring_len; lia].
  - split; cbn; unfold zlen; lia || done.
Qed.

Lemma data_prefix k :
  0 <= k <= n -> k <= bytes_avail p ->
  take (Z.to_nat k) (drop (Z.to_nat (read_pos p)) (buffer p)) = take (Z.to_nat k) (contents p).
Proof.
  intros Hk Hka. destruct Hwf as [Hs Hb Hr _ _ _].
  destruct (ring_advance (buffer p) (Z.to_nat (read_pos p)) (Z.to_nat k)) as [-> _]; [unfold zlen, n in *; lia|].
  unfold contents. rewrite take_take. f_equal. lia.
Qed.

(** The bytes before the end of the buffer, then the bytes at its start. *)
Lemma data_wrapped k :
  0 <= k -> n + k <= bytes_avail p ->
  take (Z.to_nat n) (drop (Z.to_nat (read_pos p)) (buffer p)) ++ take (Z.to_nat k) (buffer p) =
  take (Z.to_nat (n + k)) (contents p).
Proof.
  intros Hk Hnk. destruct Hwf as [Hs Hb Hr _ Ha _]. unfold contents, ring_at, zlen, n in *.
  rewrite take_take, Nat.min_l by lia. rewrite take_app_ge by (rewrite length_drop; lia).
  rewrite take_ge by (rewrite length_drop; lia). f_equal. rewrite length_drop, take_take. f_equal. lia.
Qed.

Lemma read_locked_spec buf count now :
  0 < bytes_avail p -> 0 <= count ->
  if t count <=? zlen buf then
    exists rp, read_locked buf count now p =
      Ok (t count, take (Z.to_nat (t count)) (contents p) ++ drop (Z.to_nat (t count)) buf, after_read (t count) now rp) /\
      pipe_wf (after_read (t count) now rp) /\
      contents (after_read (t count) now rp) = drop (Z.to_nat (t count)) (contents p)
  else read_locked buf count now p = Undef.
Proof.
  intros Hav Hc. pose proof Hwf as [Hs Hb Hr Hw Ha Hri].
  unfold read_locked. destruct (Z.ltb_spec 0 (bytes_avail p)); [|lia]. cbn [assert mbind res_bind].
  rewrite !zmin_min. fold n. set (c1 := Z.min (Z.min count n) (bytes_avail p)).
  destruct (Z.leb_spec c1 (bytes_avail p)); [|lia]. cbn [assert mbind res_bind].
  destruct (Z.leb_spec (read_pos p + c1) PIPE_BUFFER_SIZE); [|lia]. cbn [assert mbind res_bind].
  unfold t, moved in *. destruct (Z.ltb_spec n count), (Z.ltb_spec n (bytes_avail p)); cbn [andb] in *.
  1: { assert (c1 = n) as -> by lia. set (k2 := Z.min (bytes_avail p - n) count) in *.
    assert (Hend : read_pos p + n = PIPE_BUFFER_SIZE) by (unfold n; lia). rewrite Hend.
    pose proof (blit_twice buf (buffer p) (read_pos p) n 0 k2) as Hbt.
    destruct (Z.leb_spec (n + k2) (zlen buf)).
    - exists k2. specialize (Hbt ltac:(lia) ltac:(lia) ltac:(lia) ltac:(lia) ltac:(lia) ltac:(lia) ltac:(lia)).
      apply bind_Ok in Hbt as (b1 & -> & Hb1). cbn [mbind res_bind].
      destruct (Z.leb_spec PIPE_BUFFER_SIZE PIPE_BUFFER_SIZE); [|lia]. rewrite Z.eqb_refl. cbn [assert mbind res_bind].
      destruct (Z.ltb_spec n count), (Z.ltb_spec 0 (bytes_avail p - n)); try lia. cbn [andb].
      fold k2. destruct (Z.leb_spec k2 (bytes_avail p - n)); [|lia]. cbn [assert mbind res_bind].
      rewrite Z.add_0_l. destruct (Z.leb_spec k2 PIPE_BUFFER_SIZE); [|lia]. cbn [assert mbind res_bind].
      rewrite Hb1. cbn [mbind res_bind]. rewrite drop_0, app_assoc, data_wrapped by lia.
      destruct (contents_after (n + k2) now k2) as [Hc1 Hc2]; [lia | lia | lia |].
      split_and!; [|done|done]. unfold after_read. by rewrite Z.sub_add_distr.
    - destruct (decide (n <= zlen buf)).
      + destruct (blit buf 0 (buffer p) (read_pos p) n) as [b1| | |] eqn:Eb; try (rewrite blit_Ok in Eb by lia; done).
        cbn [mbind res_bind]. apply blit_zlen in Eb.
        destruct (Z.leb_spec PIPE_BUFFER_SIZE PIPE_BUFFER_SIZE); [|lia]. rewrite Z.eqb_refl. cbn [assert mbind res_bind].
        destruct (Z.ltb_spec n count), (Z.ltb_spec 0 (bytes_avail p - n)); try lia. cbn [andb].
        fold k2. destruct (Z.leb_spec k2 (bytes_avail p - n)); [|lia]. cbn [assert mbind res_bind].
        rewrite Z.add_0_l. destruct (Z.leb_spec k2 PIPE_BUFFER_SIZE); [|lia]. cbn [assert mbind res_bind].
        by rewrite blit_Undef by lia.
      + by rewrite blit_Undef by lia. }
  all: replace (Z.min count (bytes_avail p)) with c1 by lia.
  all: destruct (Z.leb_spec c1 (zlen buf)); [|by rewrite blit_Undef by lia].
  all: rewrite blit_Ok by lia; cbn [mbind res_bind]; rewrite take_0; cbn [app]; rewrite Z.add_0_l, data_prefix by lia.
  all: destruct (Z.leb_spec PIPE_BUFFER_SIZE (read_pos p + c1)).
  all: try (destruct (Z.eqb_spec (read_pos p + c1) PIPE_BUFFER_SIZE); [|lia]).
  all: cbn [assert mbind res_bind]; destruct (Z.ltb_spec c1 count), (Z.ltb_spec 0 (bytes_avail p - c1)); try lia; cbn [andb].
  all: eexists; split; [reflexivity|]; apply and_comm, contents_after; lia.
Qed.
End Read.

Section Write.
Context (p : pipe) (Hwf : pipe_wf p).

Let n : Z := PIPE_BUFFER_SIZE - write_pos p.
Let space : Z := PIPE_BUFFER_SIZE - bytes_avail p.
Let t (count : Z) : Z := moved count n space.

Definition after_write (b : list Z) (wp k now : Z) : pipe :=
  mk_pipe b (reader p) (writer p) (read_pos p) wp (bytes_avail p + k) (lock p) now now.

(** One copy into a buffer [b] that holds [a] bytes from the read position on. *)
Lemma write_chunk b w a src soff k :
  zlen b = PIPE_BUFFER_SIZE -> 0 <= w -> 0 <= a -> 0 <= k -> w + k <= PIPE_BUFFER_SIZE -> a + k <= PIPE_BUFFER_SIZE ->
  0 <= soff -> soff + k <= zlen src ->
  (read_pos p + a + PIPE_BUFFER_SIZE = w \/ read_pos p + a = w \/ read_pos p + a = w + PIPE_BUFFER_SIZE \/
   read_pos p + a = w + 2 * PIPE_BUFFER_SIZE) ->
  exists b', blit b w src soff k = Ok b' /\ zlen b' = PIPE_BUFFER_SIZE /\
    take (Z.to_nat (a + k)) (ring_at b' (Z.to_nat (read_pos p))) =
    take (Z.to_nat a) (ring_at b (Z.to_nat (read_pos p))) ++ take (Z.to_nat k) (drop (Z.to_nat soff) src).
Proof.
  intros Hb Hw Ha Hk Hwk Hak Hso Hsk Hrel. destruct Hwf as [Hs _ Hr _ _ _].
  destruct (blit b w src soff k) as [b'| | |] eqn:Eb; try (rewrite blit_Ok in Eb by lia; discriminate Eb).
  exists b'. pose proof (blit_zlen _ _ _ _ _ _ Eb) as Hl. split_and!; [done | lia |].
  rewrite blit_Ok in Eb by lia. injection Eb as <-.
  set (d := take (Z.to_nat k) (drop (Z.to_nat soff) src)).
  assert (Hd : length d = Z.to_nat k) by (unfold d; rewrite length_take, length_drop; unfold zlen in *; lia).
  unfold zlen in *. pose proof (ring_append b d (Z.to_nat (read_pos p)) (Z.to_nat w) (Z.to_nat a)) as Hra.
  rewrite Hd in Hra. replace (Z.to_nat (a + k)) with (Z.to_nat a + Z.to_nat k)%nat by lia.
  replace (Z.to_nat (w + k)) with (Z.to_nat w + Z.to_nat k)%nat by lia. apply Hra; lia.
Qed.

Lemma after_write_wf b wp k now :
  zlen b = PIPE_BUFFER_SIZE -> 0 <= wp <= PIPE_BUFFER_SIZE -> 0 <= k <= space ->
  wp = write_pos p + k \/ wp + PIPE_BUFFER_SIZE = write_pos p + k -> pipe_wf (after_write b wp k now).
Proof.
  intros Hb Hw Hk Hrel. destruct Hwf as [Hs Hb0 Hr Hw0 Ha Hri]. unfold space in *. split; cbn; try lia; done.
Qed.

Lemma write_locked_spec buf count now :
  0 <= count ->
  if t count <=? zlen buf then
    exists p', write_locked buf count 0 now p = Ok (t count, p') /\ pipe_wf p' /\ reader p' = reader p /\
      contents p' = contents p ++ take (Z.to_nat (t count)) buf /\ lock p' = lock p
  else write_locked buf count 0 now p = Undef.
Proof.
  intros Hc. pose proof Hwf as [Hs Hb Hr Hw Ha Hri]. unfold write_locked.
  rewrite !(u32_small (PIPE_BUFFER_SIZE - bytes_avail p)) by lia. rewrite !zmin_min. fold n space.
  set (c1 := Z.min (Z.min count n) space). assert (Hsp : 0 <= space <= PIPE_BUFFER_SIZE) by (unfold space; lia).
  assert (Hn : 0 <= n <= PIPE_BUFFER_SIZE) by (unfold n; lia).
  destruct (Z.leb_spec c1 space); [|lia]. cbn [assert mbind res_bind].
  destruct (Z.leb_spec (write_pos p + c1) PIPE_BUFFER_SIZE); [|unfold n in *; lia]. cbn [assert mbind res_bind].
  destruct (decide (c1 <= zlen buf)) as [Hfit|Hover].
  2: { unfold t, moved. rewrite blit_Undef by lia.
       destruct (Z.ltb_spec n count), (Z.ltb_spec n space); cbn [andb];
         match goal with |- context [?a <=? zlen buf] => destruct (Z.leb_spec a (zlen buf)) end; done || lia. }
  destruct (write_chunk (buffer p) (write_pos p) (bytes_avail p) buf 0 c1) as (b1 & -> & Hb1 & Hr1);
    try lia.
  cbn [mbind res_bind]. rewrite drop_0 in Hr1. rewrite !(u32_small (bytes_avail p + c1)) by (unfold space in *; lia).
  rewrite !(u32_small (PIPE_BUFFER_SIZE - (bytes_avail p + c1))) by (unfold space in *; lia). rewrite Z.add_0_l.
  assert (Hcont : forall b wp k now, contents (after_write b wp k now) =
    take (Z.to_nat (bytes_avail p + k)) (ring_at b (Z.to_nat (read_pos p)))) by done.
  unfold t, moved. destruct (Z.ltb_spec n count), (Z.ltb_spec n space); cbn [andb].
  1: { assert (c1 = n) as Ec1 by lia. rewrite Ec1 in *.
    assert (Hend : write_pos p + n = PIPE_BUFFER_SIZE) by (unfold n; lia). rewrite Hend.
    destruct (Z.leb_spec PIPE_BUFFER_SIZE PIPE_BUFFER_SIZE); [|lia]. rewrite Z.eqb_refl. cbn [assert mbind res_bind].
    replace (PIPE_BUFFER_SIZE - (bytes_avail p + n)) with (space - n) by (unfold space; lia).
    destruct (Z.ltb_spec n count), (Z.ltb_spec 0 (space - n)); try lia. cbn [andb].
    set (k2 := Z.min (space - n) count). destruct (Z.leb_spec k2 (space - n)); [|lia].
    rewrite Z.add_0_l. destruct (Z.leb_spec k2 PIPE_BUFFER_SIZE); [|lia]. cbn [assert mbind res_bind].
    destruct (Z.leb_spec (n + k2) (zlen buf)).
    - destruct (write_chunk b1 0 (bytes_avail p + n) buf n k2) as (b2 & -> & Hb2 & Hr2); try (unfold space in *; lia).
      cbn [mbind res_bind]. rewrite u32_small by (unfold space in *; lia).
      exists (after_write b2 k2 (n + k2) now). split; [unfold after_write; by rewrite Z.add_assoc|].
      split; [apply after_write_wf; (lia || unfold n; lia)|]. split; [done|].
      split; [|done]. rewrite Hcont, Z.add_assoc, Hr2, Hr1, <- app_assoc. unfold contents. f_equal.
      replace (Z.to_nat (n + k2)) with (Z.to_nat n + Z.to_nat k2)%nat by lia. by rewrite take_take_drop.
    - by rewrite blit_Undef by lia. }
  all: replace (Z.min count space) with c1 by lia.
  all: destruct (Z.leb_spec c1 (zlen buf)); [|lia].
  all: destruct (Z.leb_spec PIPE_BUFFER_SIZE (write_pos p + c1)).
  all: try (destruct (Z.eqb_spec (write_pos p + c1) PIPE_BUFFER_SIZE); [|lia]).
  all: cbn [assert mbind res_bind].
  all: replace (PIPE_BUFFER_SIZE - (bytes_avail p + c1)) with (space - c1) by (unfold space; lia).
  all: destruct (Z.ltb_spec c1 count), (Z.ltb_spec 0 (space - c1)); try lia; cbn [andb].
  all: eexists; split; [reflexivity|]; split; [apply (after_write_wf b1 _ c1 now); lia|]; split; [done|].
  all: split; [|done]; rewrite (Hcont b1 _ c1 now : contents (mk_pipe b1 _ _ _ _ _ _ _ _) = _), Hr1; done.
Qed.
End Write.

(** ** The calls *)
Definition free_lock (p : pipe) : Prop := lock p = mutex_create.

(** An open end of this pipe. *)
Definition pipe_end (files : gmap Z pfile) (f : Z) : Prop :=
  exists c d, files !! f = Some (mk_pfile c DEV_PIPE d) /\ d <> 0.

Lemma set_lock_wf lk p : pipe_wf p -> pipe_wf (set_lock lk p).
Proof. intros []. by split. Qed.

(** A read from a pipe with data and a free lock. *)
Lemma pipe_read_run files f buf count now me p :
  pipe_wf p -> free_lock p -> pipe_end files f -> f <> writer p -> 0 < bytes_avail p -> 0 <= count ->
  let t := moved count (PIPE_BUFFER_SIZE - read_pos p) (bytes_avail p) in
  if t <=? zlen buf then
    exists p', pipe_read files (Some f) buf count now me p =
        Ok (Returns (Val t, take (Z.to_nat t) (contents p) ++ drop (Z.to_nat t) buf, p')) /\
      pipe_wf p' /\ free_lock p' /\ contents p' = drop (Z.to_nat t) (contents p)
  else pipe_read files (Some f) buf count now me p = Undef.
Proof.
  intros Hwf Hl (c & d & Hf & Hd) Hne Hav Hc t. unfold pipe_read. rewrite Hf. cbn [deref mbind res_bind fdev fdata].
  destruct (Z.eqb_spec d 0); [done|]. cbn [Z.eqb DEV_PIPE Pos.eqb assert mbind res_bind negb].
  destruct (Z.eqb_spec (bytes_avail p) 0); [lia|]. rewrite andb_false_r. destruct (Z.eqb_spec f (writer p)); [done|].
  rewrite (Hl : lock p = mutex_create). change (mutex_lock false true me mutex_create) with (Ok (Some (mk_mutex me 1))).
  cbn [mbind res_bind]. set (p1 := set_lock (mk_mutex me 1) p).
  pose proof (read_locked_spec p1 (set_lock_wf _ _ Hwf) buf count now Hav Hc) as Hr. cbv beta zeta in Hr.
  change (moved count (PIPE_BUFFER_SIZE - read_pos p1) (bytes_avail p1)) with t in Hr.
  destruct (Z.leb_spec t (zlen buf)); [|by rewrite Hr].
  destruct Hr as (rp & -> & Hwf' & Hcont). cbn [mbind res_bind after_read lock p1 set_lock mutex_unlock word owner].
  rewrite Z.eqb_refl. cbn [Z.eqb negb assert mbind res_bind].
  eexists. split; [reflexivity|]. split; [by apply (set_lock_wf _ _ Hwf')|]. split; [done|]. exact Hcont.
Qed.

(** One round of a write into a pipe with a reader, a free lock and room. *)
Lemma write_round_run files buf count now me p :
  pipe_wf p -> free_lock p -> no_reader files p = Ok false -> 0 <= count ->
  zmin PIPE_BUF count <= PIPE_BUFFER_SIZE - bytes_avail p ->
  let t := moved count (PIPE_BUFFER_SIZE - write_pos p) (PIPE_BUFFER_SIZE - bytes_avail p) in
  if t <=? zlen buf then
    exists p', write_round files buf count 0 now me p = Ok (WDone t p') /\
      pipe_wf p' /\ free_lock p' /\ contents p' = contents p ++ take (Z.to_nat t) buf
  else write_round files buf count 0 now me p = Undef.
Proof.
  intros Hwf Hl Hnr Hc Hroom t. unfold write_round. rewrite Hnr. cbn [mbind res_bind].
  rewrite u32_small by (destruct Hwf; lia). destruct (Z.ltb_spec (PIPE_BUFFER_SIZE - bytes_avail p) (zmin PIPE_BUF count)); [lia|].
  rewrite (Hl : lock p = mutex_create). change (mutex_lock false true me mutex_create) with (Ok (Some (mk_mutex me 1))).
  cbn [mbind res_bind]. set (p1 := set_lock (mk_mutex me 1) p).
  pose proof (write_locked_spec p1 (set_lock_wf _ _ Hwf) buf count now Hc) as Hr. cbv beta zeta in Hr.
  change (moved count (PIPE_BUFFER_SIZE - write_pos p1) (PIPE_BUFFER_SIZE - bytes_avail p1)) with t in Hr.
  destruct (Z.leb_spec t (zlen buf)); [|by rewrite Hr].
  destruct Hr as (p' & -> & Hwf' & _ & Hcont & Hlk). cbn [mbind res_bind]. rewrite Hlk.
  cbn [p1 set_lock lock mutex_unlock word owner].
  rewrite Z.eqb_refl. cbn [Z.eqb negb assert mbind res_bind].
  eexists. split; [reflexivity|]. split; [by apply (set_lock_wf _ _ Hwf')|]. split; [done|]. exact Hcont.
Qed.

End Pipe.

(** reading from a pipe that holds data returns the oldest bytes first: whenever the
    request does not wrap around the end of the ring, or asks for all there is, exactly
    min(count, available) bytes are delivered in order, the rest of the caller's buffer is
    untouched, and the pipe then holds the remaining bytes. *)
Theorem pipe_read_fifo SZ files f buf count now me p :
  pipe_wf SZ p -> free_lock p -> pipe_end files f -> f <> writer p -> 0 < bytes_avail p ->
  0 <= count <= zlen buf ->
  count <= SZ - read_pos p \/ bytes_avail p <= count \/ read_pos p = SZ ->
  let k := Z.min count (bytes_avail p) in
  exists p', pipe_read SZ files (Some f) buf count now me p =
      Ok (Returns (Val k, take (Z.to_nat k) (contents p) ++ drop (Z.to_nat k) buf, p')) /\
    pipe_wf SZ p' /\ free_lock p' /\ contents p' = drop (Z.to_nat k) (contents p).
Proof.
  intros Hwf Hl Hf Hne Hav Hc Hreg k. pose proof (pipe_read_run SZ files f buf count now me p Hwf Hl Hf Hne Hav) as H.
  cbv zeta in H. specialize (H ltac:(lia)). pose proof (pw_read _ _ Hwf).
  replace (moved count (SZ - read_pos p) (bytes_avail p)) with k in H.
  - destruct (Z.leb_spec k (zlen buf)); [done|lia].
  - unfold k, moved. destruct (Z.ltb_spec (SZ - read_pos p) count), (Z.ltb_spec (SZ - read_pos p) (bytes_avail p)); cbn [andb]; lia.
Qed.

(** C32: writing to a pipe with a reader and room for the whole request appends the bytes
    after those already there and returns count, whenever the request does not wrap
    around the end of the ring or fills the ring completely. *)
Theorem pipe_write_fifo SZ PB files f buf count now me p :
  pipe_wf SZ p -> free_lock p -> pipe_end files f -> f <> reader p -> no_reader files p = Ok false ->
  0 < count <= zlen buf -> count <= SZ - bytes_avail p ->
  count <= SZ - write_pos p \/ write_pos p = SZ \/ count = SZ - bytes_avail p ->
  exists p', pipe_write SZ PB files (Some f) buf count now me p = Ok (Returns (Val count), count, p') /\
    pipe_wf SZ p' /\ free_lock p' /\ contents p' = contents p ++ take (Z.to_nat count) buf.
Proof.
  intros Hwf Hl (c & d & Hf & Hd) Hne Hnr Hc Hroom Hreg.
  pose proof (write_round_run SZ PB files buf count now me p Hwf Hl Hnr ltac:(lia)) as H.
  assert (Hz : zmin PB count <= SZ - bytes_avail p) by (rewrite zmin_min; lia). specialize (H Hz). cbv zeta in H.
  pose proof (pw_write _ _ Hwf).
  replace (moved count (SZ - write_pos p) (SZ - bytes_avail p)) with count in H.
  2: { unfold moved. destruct (Z.ltb_spec (SZ - write_pos p) count), (Z.ltb_spec (SZ - write_pos p) (SZ - bytes_avail p)); cbn [andb]; lia. }
  destruct (Z.leb_spec count (zlen buf)); [|lia]. destruct H as (p' & Hr & Hwf' & Hl' & Hcont).
  exists p'. split; [|done]. unfold pipe_write. rewrite Hf. cbn [deref mbind res_bind fdev fdata].
  destruct (Z.eqb_spec d 0); [done|]. cbn [Z.eqb DEV_PIPE Pos.eqb assert mbind res_bind negb].
  destruct (Z.eqb_spec f (reader p)); [done|]. cbn [write_loop]. destruct (Z.ltb_spec 0 count); [|lia].
  rewrite Hr. cbn [mbind res_bind].
  destruct (Z.to_nat count); cbn [write_loop]; by rewrite Z.ltb_irrefl.
Qed.

(** a read that wraps around the end of the ring copies more than was asked for: with
    0 < n < count < available, n bytes before the end, the second copy is bounded by count
    instead of count - n, so a caller's buffer of exactly count bytes is overrun. *)
Theorem pipe_read_overrun SZ files f buf count now me p :
  pipe_wf SZ p -> free_lock p -> pipe_end files f -> f <> writer p ->
  0 < SZ - read_pos p < count -> count < bytes_avail p -> zlen buf = count ->
  pipe_read SZ files (Some f) buf count now me p = Undef.
Proof.
  intros Hwf Hl Hf Hne Hn Hav Hb.
  pose proof (pipe_read_run SZ files f buf count now me p Hwf Hl Hf Hne ltac:(lia) ltac:(lia)) as H. cbv zeta in H.
  unfold moved in H. destruct (Z.ltb_spec (SZ - read_pos p) count), (Z.ltb_spec (SZ - read_pos p) (bytes_avail p)); try lia.
  cbn [andb] in H. match type of H with if ?a <=? ?b then _ else _ => destruct (Z.leb_spec a b) end; [lia|done].
Qed.

(** a write that wraps around the end of the ring copies more than was asked for,
    reading past the end of a caller's buffer of exactly count bytes. *)
Theorem pipe_write_overrun SZ PB files f buf count now me p :
  pipe_wf SZ p -> free_lock p -> pipe_end files f -> f <> reader p -> no_reader files p = Ok false ->
  0 < SZ - write_pos p < count -> count < SZ - bytes_avail p -> zlen buf = count ->
  pipe_write SZ PB files (Some f) buf count now me p = Undef.
Proof.
  intros Hwf Hl (c & d & Hf & Hd) Hne Hnr Hn Hroom Hb.
  pose proof (write_round_run SZ PB files buf count now me p Hwf Hl Hnr ltac:(lia)) as H.
  assert (Hz : zmin PB count <= SZ - bytes_avail p) by (rewrite zmin_min; lia). specialize (H Hz). cbv zeta in H.
  unfold moved in H. destruct (Z.ltb_spec (SZ - write_pos p) count), (Z.ltb_spec (SZ - write_pos p) (SZ - bytes_avail p)); try lia.
  cbn [andb] in H. match type of H with if ?a <=? ?b then _ else _ => destruct (Z.leb_spec a b) end; [lia|].
  unfold pipe_write. rewrite Hf. cbn [deref mbind res_bind fdev fdata].
  destruct (Z.eqb_spec d 0); [done|]. cbn [Z.eqb DEV_PIPE Pos.eqb assert mbind res_bind negb].
  destruct (Z.eqb_spec f (reader p)); [done|]. cbn [write_loop]. destruct (Z.ltb_spec 0 count); [|lia]. by rewrite H.
Qed.

(** the ends of a pipe: end of file when the writer is gone and the pipe is empty,
    [EPIPE] when the reader is gone, [EBADF] for a read on the write end or a write on
    the read end; closing the last descriptor of an end detaches it, and the pipe is
    freed when both ends are. *)
Theorem pipe_ends SZ PB files f buf count now me p :
  pipe_end files f ->
  (writer p = 0 -> bytes_avail p = 0 -> pipe_read SZ files (Some f) buf count now me p = Ok (Returns (Val 0, buf, p))) /\
  (f = writer p -> 0 < f -> pipe_read SZ files (Some f) buf count now me p = Ok (Returns (Err EBADF, buf, p))) /\
  (f = reader p -> pipe_write SZ PB files (Some f) buf count now me p = Ok (Returns (Err EBADF), 0, p)) /\
  (reader p = 0 -> 0 < f -> 0 < count -> pipe_write SZ PB files (Some f) buf count now me p = Ok (Returns (Err EPIPE), 0, p)) /\
  (free_lock p -> (fcount <$> files !! f) = Some 1 -> f = reader p \/ f = writer p -> reader p <> writer p ->
   exists o, pipe_close files (Some f) p = Ok (Val 0, o) /\
     match o with
     | None => (if decide (f = reader p) then writer p else reader p) = 0
     | Some p' => bytes_avail p' = bytes_avail p /\ buffer p' = buffer p /\
         (if decide (f = reader p) then reader p' = 0 /\ writer p' = writer p else writer p' = 0 /\ reader p' = reader p)
     end).
Proof.
  intros (c & d & Hf & Hd). unfold pipe_read, pipe_write, pipe_close. rewrite Hf. cbn [deref mbind res_bind fdev fdata].
  destruct (Z.eqb_spec d 0); [done|]. cbn [Z.eqb DEV_PIPE Pos.eqb assert mbind res_bind negb]. split_and!.
  - intros -> ->. done.
  - intros -> Hp. rewrite Z.eqb_refl. by destruct (Z.eqb_spec (writer p) 0); [lia|].
  - intros ->. by rewrite Z.eqb_refl.
  - intros Hr Hp Hc. rewrite Hr. destruct (Z.eqb_spec f 0); [lia|]. cbn [write_loop].
    destruct (Z.ltb_spec 0 count); [|lia]. unfold write_round, no_reader. by rewrite Hr.
  - intros Hl [= ->] Hfr Hrw. cbn [fcount]. rewrite Z.eqb_refl.
    destruct (decide (f = reader p)) as [->|Hne].
    + rewrite Z.eqb_refl. cbn [orb assert mbind res_bind reader writer Z.eqb andb].
      destruct (Z.eqb_spec (writer p) 0); cbn [mbind res_bind lock]; [rewrite (Hl : lock p = mutex_create); eauto|].
      eexists. by split.
    + destruct Hfr as [|Hw]; [done|]. subst f. rewrite Z.eqb_refl, orb_true_r. cbn [assert mbind res_bind].
      destruct (Z.eqb_spec (reader p) (writer p)); [done|]. cbn [reader writer].
      destruct (Z.eqb_spec (reader p) 0); cbn [andb Z.eqb mbind res_bind lock]; [rewrite (Hl : lock p = mutex_create); eauto|].
      eexists. by split.
Qed.

(** ** Witnesses: a ring of eight bytes *)
Definition demo_files : gmap Z pfile := {[100 := mk_pfile 1 DEV_PIPE 1; 200 := mk_pfile 1 DEV_PIPE 1]}.
(** Five bytes, 3 4 5 6 7, from position 6 around to 3. *)
Definition demo_pipe : pipe := mk_pipe [5; 6; 7; 0; 0; 0; 3; 4] 100 200 6 3 5 mutex_create 0 0.

Lemma demo_pipe_wf : pipe_wf 8 demo_pipe.
Proof. split; cbn; unfold zlen; cbn; lia. Qed.

Lemma demo_end f : f = 100 \/ f = 200 -> pipe_end demo_files f.
Proof. intros [->| ->]; exists 1, 1; done. Qed.

Lemma pipe_read_witness :
  exists p', pipe_read 8 demo_files (Some 100) [0; 0; 0; 0; 0; 0] 6 1 9 demo_pipe =
    Ok (Returns (Val 5, [3; 4; 5; 6; 7; 0], p')) /\ contents p' = [].
Proof.
  destruct (pipe_read_fifo 8 demo_files 100 [0; 0; 0; 0; 0; 0] 6 1 9 demo_pipe demo_pipe_wf eq_refl
    (demo_end 100 (or_introl eq_refl))) as (p' & H1 & _ & _ & H2); [by cbn | by cbn | by vm_compute | right; left; by vm_compute |].
  exists p'. split; [exact H1 | exact H2].
Defined.

Lemma pipe_write_witness :
  exists p', pipe_write 8 4 demo_files (Some 200) [8; 9] 2 1 9 demo_pipe = Ok (Returns (Val 2), 2, p') /\
    contents p' = [3; 4; 5; 6; 7; 8; 9].
Proof.
  destruct (pipe_write_fifo 8 4 demo_files 200 [8; 9] 2 1 9 demo_pipe demo_pipe_wf eq_refl
    (demo_end 200 (or_intror eq_refl))) as (p' & H1 & _ & _ & H2);
    [by cbn | reflexivity | by vm_compute | by vm_compute | left; by vm_compute |].
  exists p'. split; [exact H1 | exact H2].
Defined.

Lemma pipe_read_overrun_witness : pipe_read 8 demo_files (Some 100) [0; 0; 0] 3 1 9 demo_pipe = Undef.
Proof.
  apply (pipe_read_overrun 8 demo_files 100 [0; 0; 0] 3 1 9 demo_pipe demo_pipe_wf eq_refl (demo_end 100 (or_introl eq_refl)));
    by vm_compute.
Defined.

(** Empty, both positions at 6. *)
Definition empty_pipe : pipe := mk_pipe [0; 0; 0; 0; 0; 0; 0; 0] 100 200 6 6 0 mutex_create 0 0.

Lemma empty_pipe_wf : pipe_wf 8 empty_pipe.
Proof. split; cbn; unfold zlen; cbn; lia. Qed.

Lemma pipe_write_overrun_witness : pipe_write 8 4 demo_files (Some 200) [1; 2; 3] 3 1 9 empty_pipe = Undef.
Proof.
  apply (pipe_write_overrun 8 4 demo_files 200 [1; 2; 3] 3 1 9 empty_pipe empty_pipe_wf eq_refl (demo_end 200 (or_intror eq_refl)));
    by vm_compute.
Defined.

Lemma pipe_ends_witness :
  pipe_write 8 4 demo_files (Some 100) [1] 1 1 9 demo_pipe = Ok (Returns (Err EBADF), 0, demo_pipe).
Proof.
  destruct (pipe_ends 8 4 demo_files 100 [1] 1 1 9 demo_pipe (demo_end 100 (or_introl eq_refl))) as (_ & _ & H & _).
  exact (H eq_refl).
Defined.
