(* ===== verification/Time.v ===== *)
(** * Date and time (src/src/kernel/time.c)

    Reading the CMOS clock until two readings agree, decoding its formats, and
    [kern_mktime] with the normalisation it starts with.  The clock hardware is a
    parameter: the value of each register at each access. *)
From S2P Require Import Prelude.

(** [Time]: [year] is an unsigned short, the other members are unsigned chars. *)
Record Time := mk_time { year : Z; month : Z; day : Z; hour : Z; minute : Z; second : Z }.
#[export] Instance time_eq_dec : EqDecision Time.
Proof. solve_decision. Defined.

(** ** The clock *)
Section RTC.
(** [cmos n reg]: what port 0x71 returns for register [reg] at the [n]th access. *)
Context (cmos : nat -> Z -> Z).

Definition rtc_get_reg (reg : Z) : ST nat Z := fun n => assert (reg <=? 0xb) ;; Ok (u8 (cmos n reg), S n).
Definition rtc_update_in_progress : ST nat bool := fun n => Ok (negb (Z.land (u8 (cmos n 10)) 0x80 =? 0), S n).

(** [while (rtc_update_in_progress()) { }] *)
Fixpoint rtc_wait (fuel : nat) : ST nat () :=
  match fuel with
  | O => lift NoFuel
  | S fuel => b ← rtc_update_in_progress; if b : bool then rtc_wait fuel else mret tt
  end.

Definition rtc_get_raw (fuel : nat) : ST nat Time :=
  rtc_wait fuel ;;
  y ← rtc_get_reg 0x09;
  mo ← rtc_get_reg 0x08;
  d ← rtc_get_reg 0x07;
  h ← rtc_get_reg 0x04;
  mi ← rtc_get_reg 0x02;
  s ← rtc_get_reg 0x00;
  mret (mk_time y mo d h mi s).

Definition bcd_to_bin (x : Z) : Z := x / 16 * 10 + Z.land x 0xf.

(** [rtc_reformat], given status register B. *)
Definition reformat (regb : Z) (t : Time) : Time :=
  let is_bcd := Z.land regb 4 =? 0 in
  let is_24_hour := negb (Z.land regb 2 =? 0) in
  let time_is_pm := negb is_24_hour && negb (Z.land (hour t) 0x80 =? 0) in
  let h := if time_is_pm then Z.land (hour t) 0x7f else hour t in
  let t := mk_time (year t) (month t) (day t) h (minute t) (second t) in
  let t := if is_bcd then
             let y := u16 (bcd_to_bin (year t)) in
             mk_time (u16 (y + (if y <? 12 then 2100 else 2000))) (u8 (bcd_to_bin (month t)))
               (u8 (bcd_to_bin (day t))) (u8 (bcd_to_bin (hour t))) (u8 (bcd_to_bin (minute t)))
               (u8 (bcd_to_bin (second t)))
           else t in
  if is_24_hour then t
  else
    let h := if time_is_pm && (hour t =? 12) then 0
             else if time_is_pm then u8 (hour t + 12) else hour t in
    mk_time (year t) (month t) (day t) h (minute t) (second t).
Definition rtc_reformat (t : Time) : ST nat Time := regb ← rtc_get_reg 0xb; mret (reformat regb t).

(** [do { prev = *t; wait; rtc_get_raw(t); } while (prev != *t)] *)
Fixpoint get_time_loop (fuel wait : nat) (t : Time) : ST nat Time :=
  match fuel with
  | O => lift NoFuel
  | S fuel =>
      let prev := t in
      rtc_wait wait ;;
      t ← rtc_get_raw wait;
      if decide (prev = t) then mret t else get_time_loop fuel wait t
  end.
Definition get_time (fuel wait : nat) : ST nat Time :=
  t ← get_time_loop fuel wait (mk_time 0 0 0 0 0 0);
  rtc_reformat t.
End RTC.

(** ** kern_mktime *)

(** [div()]: the quotient; the remainder is never used. *)
Definition div_quot (a b : Z) : Z := if b =? 0 then 0 else Z.quot a b.

Definition DAYS_IN_MONTH : list Z := [31; 28; 31; 30; 31; 30; 31; 31; 30; 31; 30; 31].
Definition _DAYS_BEFORE_MONTH : list Z := [0; 31; 59; 90; 120; 151; 181; 212; 243; 273; 304; 334].
Definition _ISLEAP (y : Z) : bool :=
  (Z.rem y 4 =? 0) && (negb (Z.rem y 100 =? 0) || (Z.rem (y + 1900) 400 =? 0)).
Definition _DAYS_IN_YEAR (y : Z) : Z := if _ISLEAP y then 366 else 365.
Definition _DAYS_IN_MONTH (days_in_feb x : Z) : res Z := if x =? 1 then Ok days_in_feb else aget DAYS_IN_MONTH x.

Definition with_date (y m d : Z) (t : Time) : Time := mk_time y m d (hour t) (minute t) (second t).

(** [while (day > _DAYS_IN_MONTH(month))]; each round takes at least 28 off [day]. *)
Fixpoint carry_days (fuel : nat) (days_in_feb : Z) (t : Time) : res Time :=
  dim ← _DAYS_IN_MONTH days_in_feb (month t);
  if dim <? day t then
    match fuel with
    | O => NoFuel
    | S fuel =>
        let d := u8 (day t - dim) in
        let m := u8 (month t + 1) in
        if m =? 12 then
          let y := u16 (year t + 1) in
          carry_days fuel (if _DAYS_IN_YEAR y =? 366 then 29 else 28) (with_date y 0 d t)
        else carry_days fuel days_in_feb (with_date (year t) m d t)
    end
  else Ok t.

Definition validate_structure (t : Time) : res Time :=
  let mi := if 59 <? second t then u8 (minute t + div_quot (second t) 60) else minute t in
  let h := if 59 <? mi then u8 (hour t + div_quot mi 60) else hour t in
  let d := if 23 <? h then u8 (day t + div_quot h 24) else day t in
  let y := if 11 <? month t then u16 (year t + div_quot (month t) 12) else year t in
  carry_days 10 (if _DAYS_IN_YEAR y =? 366 then 29 else 28) (mk_time y (month t) d h mi (second t)).

(** [for (year = 70; year < tim_p->year; year++) days += _DAYS_IN_YEAR(year)], [n] rounds. *)
Fixpoint add_years (n : nat) (y days : Z) : Z :=
  match n with
  | O => days
  | S n => add_years n (y + 1) (days + _DAYS_IN_YEAR y)
  end.
(** [for (year = 69; year > tim_p->year; year--) days -= _DAYS_IN_YEAR(year)] *)
Fixpoint sub_years (n : nat) (y days : Z) : Z :=
  match n with
  | O => days
  | S n => sub_years n (y - 1) (days - _DAYS_IN_YEAR y)
  end.

Definition kern_mktime (t : Time) : res (Z * Time) :=
  t ← validate_structure t;
  let tim := second t + minute t * 60 + hour t * 3600 in
  let days := day t - 1 in
  before ← aget _DAYS_BEFORE_MONTH (month t);
  let days := days + before in
  let days := if (1 <? month t) && (_DAYS_IN_YEAR (year t) =? 366) then days + 1 else days in
  let days := if 70 <? year t then add_years (Z.to_nat (year t - 70)) 70 days
              else if year t <? 70 then
                sub_years (Z.to_nat (69 - year t)) 69 days - _DAYS_IN_YEAR (year t)
              else days in
  Ok (s32 (tim + days * 86400), t).

(** [gettimeofday], from the decoded clock reading: the seconds it stores. *)
Definition time_of_day (kt : Time) : res Z :=
  assert (0 <? month kt) ;;
  '(t, _) ← kern_mktime (mk_time (u16 (year kt - 1900)) (u8 (month kt - 1)) (day kt) (u8 (hour kt + 1))
                           (minute kt) (second kt));
  Ok t.
(** [struct timeval] *)
Record timeval := mk_timeval { tv_sec : Z; tv_usec : Z }.
(** [gettimeofday(tp, tzp)]: the result and what [*tp] holds then; [tp] is [None] for NULL. *)
Definition gettimeofday (cmos : nat -> Z -> Z) (fuel wait : nat) (tp : option timeval) : ST nat (ret * option timeval) :=
  match tp with
  | None => mret (Err EFAULT, None)
  | Some _ =>
      kt ← get_time cmos fuel wait;
      t ← lift (time_of_day kt);
      mret (Val 0, Some (mk_timeval t 0))
  end.

(** ** Reference: the proleptic Gregorian calendar *)

(** Days since 1970-01-01 of the civil date [d]/[m]/[y], [m] from 1 to 12, in closed form:
    400-year eras of 146097 days, years that start in March. *)
Definition days_from_civil (y m d : Z) : Z :=
  let y := if m <=? 2 then y - 1 else y in
  let era := y / 400 in
  let yoe := y - era * 400 in
  let doy := (153 * (if 2 <? m then m - 3 else m + 9) + 2) / 5 + d - 1 in
  let doe := yoe * 365 + yoe / 4 - yoe / 100 + doy in
  era * 146097 + doe - 719468.

Definition leap (y : Z) : bool := (y mod 4 =? 0) && (negb (y mod 100 =? 0) || (y mod 400 =? 0)).
Definition month_len (y m : Z) : Z :=
  if m =? 2 then if leap y then 29 else 28
  else if (m =? 4) || (m =? 6) || (m =? 9) || (m =? 11) then 30 else 31.

(** A normalised date as [kern_mktime] takes it, between 1902 and 2037. *)
Record date_ok (t : Time) : Prop := {
  ok_year : 2 <= year t <= 137;
  ok_month : 0 <= month t <= 11;
  ok_day : 1 <= day t <= month_len (year t + 1900) (month t + 1);
  ok_hour : 0 <= hour t <= 23;
  ok_minute : 0 <= minute t <= 59;
  ok_second : 0 <= second t <= 59
}.
Definition seconds_of (t : Time) : Z := hour t * 3600 + minute t * 60 + second t.
Definition epoch (t : Time) : Z := days_from_civil (year t + 1900) (month t + 1) (day t) * 86400 + seconds_of t.

(** The days [kern_mktime] counts up to the first of the month. *)
Definition month_start (y m : Z) : Z :=
  let days := match _DAYS_BEFORE_MONTH !! Z.to_nat m with Some b => b | None => 0 end in
  let days := if (1 <? m) && (_DAYS_IN_YEAR y =? 366) then days + 1 else days in
  if 70 <? y then add_years (Z.to_nat (y - 70)) 70 days
  else if y <? 70 then sub_years (Z.to_nat (69 - y)) 69 days - _DAYS_IN_YEAR y
  else days.

Lemma add_years_shift n y d e : add_years n y (d + e) = d + add_years n y e.
Proof. revert y e. induction n as [|n IH]; intros y e; cbn; [done|]. by rewrite <- IH, Z.add_assoc. Qed.

Lemma sub_years_shift n y d e : sub_years n y (d + e) = d + sub_years n y e.
Proof. revert y e. induction n as [|n IH]; intros y e; cbn; [done|]. rewrite <- IH. f_equal. lia. Qed.

(** Every month from 1902 to 2037, and its length, checked against the closed form. *)
Definition month_check (y m : Z) : bool :=
  (month_start y m =? days_from_civil (y + 1900) (m + 1) 1) &&
  (match _DAYS_IN_MONTH (if _DAYS_IN_YEAR y =? 366 then 29 else 28) m with
   | Ok l => l =? month_len (y + 1900) (m + 1) | _ => false end).

Lemma months_checked : forallb (fun y => forallb (month_check y) (seqZ 0 12)) (seqZ 0 139) = true.
Proof. vm_compute. reflexivity. Qed.

Lemma month_ok y m :
  0 <= y <= 138 -> 0 <= m <= 11 ->
  month_start y m = days_from_civil (y + 1900) (m + 1) 1 /\
  _DAYS_IN_MONTH (if _DAYS_IN_YEAR y =? 366 then 29 else 28) m = Ok (month_len (y + 1900) (m + 1)).
Proof.
  intros Hy Hm. pose proof months_checked as H. rewrite forallb_forall in H.
  specialize (H y (proj1 (list_elem_of_In _ _) (proj2 (elem_of_seqZ 0 139 y) ltac:(lia)))). cbn beta in H.
  rewrite forallb_forall in H.
  specialize (H m (proj1 (list_elem_of_In _ _) (proj2 (elem_of_seqZ 0 12 m) ltac:(lia)))).
  unfold month_check in H. apply andb_true_iff in H as [H1 H2]. split; [by apply Z.eqb_eq|].
  destruct (_DAYS_IN_MONTH _ m) as [l| | |]; try done. by apply Z.eqb_eq in H2 as ->.
Qed.

Lemma days_from_civil_day y m d : days_from_civil y m d = days_from_civil y m 1 + (d - 1).
Proof. unfold days_from_civil. lia. Qed.

(** The day after the last of a month is the first of the next. *)
Definition next_check (y m : Z) : bool :=
  let len := month_len (y + 1900) (m + 1) in
  (28 <=? len) && (len <=? 31) &&
  (if m =? 11 then days_from_civil (y + 1901) 1 1 =? days_from_civil (y + 1900) 12 len + 1
   else days_from_civil (y + 1900) (m + 2) 1 =? days_from_civil (y + 1900) (m + 1) len + 1).

Lemma nexts_checked : forallb (fun y => forallb (next_check y) (seqZ 0 12)) (seqZ 0 139) = true.
Proof. vm_compute. reflexivity. Qed.

Lemma next_ok y m :
  0 <= y <= 138 -> 0 <= m <= 11 ->
  28 <= month_len (y + 1900) (m + 1) <= 31 /\
  (if m =? 11 then days_from_civil (y + 1901) 1 1
   else days_from_civil (y + 1900) (m + 2) 1) =
  days_from_civil (y + 1900) (m + 1) (month_len (y + 1900) (m + 1)) + 1.
Proof.
  intros Hy Hm. pose proof nexts_checked as H. rewrite forallb_forall in H.
  specialize (H y (proj1 (list_elem_of_In _ _) (proj2 (elem_of_seqZ 0 139 y) ltac:(lia)))). cbn beta in H.
  rewrite forallb_forall in H.
  specialize (H m (proj1 (list_elem_of_In _ _) (proj2 (elem_of_seqZ 0 12 m) ltac:(lia)))).
  unfold next_check in H. apply andb_true_iff in H as [H1 H2]. apply andb_true_iff in H1 as [H0 H1].
  split; [lia|]. destruct (Z.eqb_spec m 11) as [->|Hne]; by apply Z.eqb_eq.
Qed.

(** The days counted by [kern_mktime] after its normalisation. *)
Definition mktime_value (t : Time) : Z := s32 (seconds_of t + (day t - 1 + month_start (year t) (month t)) * 86400).

Lemma kern_mktime_value t t' :
  validate_structure t = Ok t' -> 0 <= month t' <= 11 -> kern_mktime t = Ok (mktime_value t', t').
Proof.
  intros Hv Hm. unfold kern_mktime, mktime_value. rewrite Hv. cbn [mbind res_bind].
  assert (exists b, _DAYS_BEFORE_MONTH !! Z.to_nat (month t') = Some b) as [b Hb].
  { apply lookup_lt_is_Some_2. cbn. lia. }
  unfold aget, month_start. replace (month t' <? 0) with false by lia. rewrite Hb. cbn [deref mbind res_bind].
  f_equal. f_equal. f_equal. unfold seconds_of.
  replace (if (1 <? month t') && (_DAYS_IN_YEAR (year t') =? 366) then day t' - 1 + b + 1 else day t' - 1 + b)
    with (day t' - 1 + (if (1 <? month t') && (_DAYS_IN_YEAR (year t') =? 366) then b + 1 else b))
    by (destruct (_ && _); lia).
  destruct (70 <? year t'); [|destruct (year t' <? 70)].
  - rewrite add_years_shift. lia.
  - rewrite sub_years_shift. lia.
  - lia.
Qed.

Lemma s32_id x : - 2 ^ 31 <= x < 2 ^ 31 -> s32 x = x.
Proof. intros H. unfold s32. rewrite Z.mod_small; lia. Qed.

(** The dates from 1902 to the first days of 2038 fit a 32-bit [time_t]. *)
Definition range_check (y m : Z) : bool :=
  (-24855 <=? days_from_civil (y + 1900) (m + 1) 1) && (days_from_civil (y + 1900) (m + 1) 31 <=? 24840).

Lemma ranges_checked : forallb (fun y => forallb (range_check y) (seqZ 0 12)) (seqZ 2 136) = true.
Proof. vm_compute. reflexivity. Qed.

Lemma range_ok y m :
  2 <= y <= 137 -> 0 <= m <= 11 ->
  -24855 <= days_from_civil (y + 1900) (m + 1) 1 /\ days_from_civil (y + 1900) (m + 1) 31 <= 24840.
Proof.
  intros Hy Hm. pose proof ranges_checked as H. rewrite forallb_forall in H.
  specialize (H y (proj1 (list_elem_of_In _ _) (proj2 (elem_of_seqZ 2 136 y) ltac:(lia)))). cbn beta in H.
  rewrite forallb_forall in H.
  specialize (H m (proj1 (list_elem_of_In _ _) (proj2 (elem_of_seqZ 0 12 m) ltac:(lia)))).
  unfold range_check in H. lia.
Qed.

(** A date that needs no carry is left alone by the loop. *)
Lemma carry_days_id fuel t :
  0 <= year t <= 138 -> 0 <= month t <= 11 -> day t <= month_len (year t + 1900) (month t + 1) ->
  carry_days fuel (if _DAYS_IN_YEAR (year t) =? 366 then 29 else 28) t = Ok t.
Proof.
  intros Hy Hm Hd. destruct (month_ok (year t) (month t) Hy Hm) as [_ Hl].
  destruct fuel; cbn [carry_days]; rewrite Hl; cbn [mbind res_bind];
    by replace (month_len _ _ <? day t) with false by lia.
Qed.

(** The day after the last of the month is carried into the next month. *)
Lemma carry_days_next fuel t :
  0 <= year t <= 137 -> 0 <= month t <= 11 -> day t = month_len (year t + 1900) (month t + 1) + 1 ->
  carry_days (S fuel) (if _DAYS_IN_YEAR (year t) =? 366 then 29 else 28) t =
  Ok (if month t =? 11 then with_date (year t + 1) 0 1 t else with_date (year t) (month t + 1) 1 t).
Proof.
  intros Hy Hm Hd. destruct (month_ok (year t) (month t) ltac:(lia) Hm) as [_ Hl].
  destruct (next_ok (year t) (month t) ltac:(lia) Hm) as [Hlen _].
  cbn [carry_days]. rewrite Hl. cbn [mbind res_bind].
  replace (month_len _ _ <? day t) with true by lia.
  replace (u8 (day t - _)) with 1 by (rewrite Hd; unfold u8; rewrite Z.mod_small; lia).
  replace (u8 (month t + 1)) with (month t + 1) by (unfold u8; rewrite Z.mod_small; lia).
  replace (u16 (year t + 1)) with (year t + 1) by (unfold u16; rewrite Z.mod_small; lia).
  replace (month t + 1 =? 12) with (month t =? 11) by lia.
  destruct (Z.eqb_spec (month t) 11) as [H11|Hne].
  - apply (carry_days_id fuel (with_date (year t + 1) 0 1 t)); cbn; try lia.
    destruct (next_ok (year t + 1) 0 ltac:(lia) ltac:(lia)) as [H _]. cbn in H. lia.
  - apply (carry_days_id fuel (with_date (year t) (month t + 1) 1 t)); cbn; try lia.
    destruct (next_ok (year t) (month t + 1) ltac:(lia) ltac:(lia)) as [H _]. lia.
Qed.

Lemma validate_structure_id t : date_ok t -> validate_structure t = Ok t.
Proof.
  intros [Hy Hm Hd Hh Hmi Hs]. unfold validate_structure.
  replace (59 <? second t) with false by lia. replace (59 <? minute t) with false by lia.
  replace (23 <? hour t) with false by lia. replace (11 <? month t) with false by lia.
  replace (mk_time _ _ _ _ _ _) with t by (by destruct t). apply carry_days_id; lia.
Qed.

Lemma mktime_value_epoch t :
  date_ok t -> mktime_value t = epoch t.
Proof.
  intros [Hy Hm Hd Hh Hmi Hs]. unfold mktime_value.
  destruct (month_ok (year t) (month t) ltac:(lia) Hm) as [-> _].
  destruct (range_ok (year t) (month t) Hy Hm) as [Hlo Hhi].
  destruct (next_ok (year t) (month t) ltac:(lia) Hm) as [Hlen _].
  rewrite days_from_civil_day in Hhi.
  unfold epoch. rewrite (days_from_civil_day _ _ (day t)). unfold seconds_of in *. rewrite s32_id; lia.
Qed.

(** C38: On every normalised date from 1902 to 2037 [kern_mktime] leaves the structure as it is
    and returns the seconds since 1970 of the closed-form Gregorian calendar. *)
Theorem mktime_correct t : date_ok t -> kern_mktime t = Ok (epoch t, t).
Proof.
  intros H. rewrite (kern_mktime_value t t (validate_structure_id t H)); [|apply H].
  by rewrite mktime_value_epoch.
Qed.

(** ** The hour that overflows *)

(** [t] one hour after the last full hour of a valid day: the hour is 24. *)
Definition hour_24 (t : Time) : Time := mk_time (year t) (month t) (day t) 24 (minute t) (second t).
Definition next_day (t : Time) : Time :=
  if day t + 1 <=? month_len (year t + 1900) (month t + 1) then with_date (year t) (month t) (day t + 1) t
  else if month t =? 11 then with_date (year t + 1) 0 1 t else with_date (year t) (month t + 1) 1 t.

Lemma validate_hour_24 t : date_ok t -> validate_structure (hour_24 t) = Ok (next_day (hour_24 t)).
Proof.
  intros [Hy Hm Hd Hh Hmi Hs]. unfold validate_structure. cbn [hour_24 year month day hour minute second].
  destruct (next_ok (year t) (month t) ltac:(lia) Hm) as [Hlen _].
  replace (59 <? second t) with false by lia. replace (59 <? minute t) with false by lia.
  replace (11 <? month t) with false by lia. change (23 <? 24) with true. change (div_quot 24 24) with 1.
  cbn match. replace (u8 (day t + 1)) with (day t + 1) by (unfold u8; rewrite Z.mod_small; lia).
  unfold next_day. cbn [hour_24 year month day].
  destruct (Z.leb_spec (day t + 1) (month_len (year t + 1900) (month t + 1))) as [Hle|Hgt].
  - apply (carry_days_id 10 (mk_time (year t) (month t) (day t + 1) 24 (minute t) (second t)));
      cbn [year month day]; lia.
  - apply (carry_days_next 9 (mk_time (year t) (month t) (day t + 1) 24 (minute t) (second t)));
      cbn [year month day]; lia.
Qed.

Lemma next_day_month t : date_ok t -> 0 <= month (next_day (hour_24 t)) <= 11.
Proof.
  intros [Hy Hm _ _ _ _]. unfold next_day. cbn [hour_24 year month day].
  destruct (_ <=? _); [done|]. destruct (Z.eqb_spec (month t) 11); cbn; lia.
Qed.

Lemma mktime_value_24 t :
  date_ok t -> mktime_value (next_day (hour_24 t)) = epoch (hour_24 t) + 86400.
Proof.
  intros [Hy Hm Hd Hh Hmi Hs]. unfold mktime_value, epoch.
  destruct (next_ok (year t) (month t) ltac:(lia) Hm) as [Hlen Hnext].
  destruct (range_ok (year t) (month t) Hy Hm) as [Hlo Hhi].
  rewrite days_from_civil_day in Hhi. rewrite (days_from_civil_day _ _ (month_len _ _)) in Hnext.
  rewrite (days_from_civil_day _ _ (day (hour_24 t))).
  replace (seconds_of (next_day (hour_24 t))) with (seconds_of (hour_24 t))
    by (unfold next_day; repeat case_match; done).
  unfold next_day. cbn [hour_24 year month day].
  destruct (Z.leb_spec (day t + 1) (month_len (year t + 1900) (month t + 1))) as [Hle|Hgt];
    cbn [with_date year month day].
  - destruct (month_ok (year t) (month t) ltac:(lia) Hm) as [-> _].
    unfold seconds_of; cbn [hour_24 hour minute second]. rewrite s32_id; lia.
  - destruct (Z.eqb_spec (month t) 11) as [H11|Hne]; cbn [with_date year month day].
    + destruct (month_ok (year t + 1) 0 ltac:(lia) ltac:(lia)) as [-> _].
      replace (year t + 1 + 1900) with (year t + 1901) by lia. change (0 + 1) with 1.
      unfold seconds_of; cbn [hour_24 hour minute second]. rewrite s32_id; lia.
    + destruct (month_ok (year t) (month t + 1) ltac:(lia) ltac:(lia)) as [-> _].
      replace (month t + 1 + 1) with (month t + 2) by lia.
      unfold seconds_of; cbn [hour_24 hour minute second]. rewrite s32_id; lia.
Qed.

(** A clock reading with its month counted from 1 and its year in full. *)
Definition clock_of (t : Time) : Time :=
  mk_time (year t + 1900) (month t + 1) (day t) (hour t) (minute t) (second t).

(** The next hour of a date, as [gettimeofday] hands it to [kern_mktime]. *)
Definition next_hour (t : Time) : Time :=
  mk_time (year t) (month t) (day t) (hour t + 1) (minute t) (second t).

Lemma time_of_day_next_hour t v t' :
  date_ok t -> kern_mktime (next_hour t) = Ok (v, t') -> time_of_day (clock_of t) = Ok v.
Proof.
  intros [Hy Hm Hd Hh Hmi Hs] Hk. unfold time_of_day. cbn [clock_of year month day hour minute second].
  replace (0 <? month t + 1) with true by lia.
  replace (u16 (year t + 1900 - 1900)) with (year t) by (unfold u16; rewrite Z.mod_small; lia).
  replace (u8 (month t + 1 - 1)) with (month t) by (unfold u8; rewrite Z.mod_small; lia).
  replace (u8 (hour t + 1)) with (hour t + 1) by (unfold u8; rewrite Z.mod_small; lia).
  unfold next_hour in Hk. rewrite Hk. reflexivity.
Qed.

Lemma next_hour_ok t : date_ok t -> hour t <= 22 -> date_ok (next_hour t).
Proof. intros [Hy Hm Hd Hh Hmi Hs] H. constructor; cbn [next_hour year month day hour minute second]; lia. Qed.

Lemma epoch_next_hour t : epoch (next_hour t) = epoch t + 3600.
Proof. unfold epoch, seconds_of. cbn [next_hour year month day hour minute second]. lia. Qed.

Lemma next_hour_24 t : hour t = 23 -> next_hour t = hour_24 t.
Proof. intros H. unfold next_hour, hour_24. by rewrite H. Qed.

(** [gettimeofday] on any clock reading from 1902 to 2037: up to 22:59:59 it answers the
    reading plus one hour (its fixed time zone), but from 23:00:00 on it answers a whole day more,
    since [validate_structure] carries the hour 24 into the day without taking it out of [hour]. *)
Lemma time_of_day_correct t :
  date_ok t ->
  time_of_day (clock_of t) = Ok (if hour t <=? 22 then epoch t + 3600 else epoch t + 3600 + 86400).
Proof.
  intros Hok. rewrite <- epoch_next_hour.
  destruct (Z.leb_spec (hour t) 22) as [Hle|Hgt]; eapply time_of_day_next_hour; try done.
  - pose proof (next_hour_ok t Hok Hle) as Hok'.
    rewrite (kern_mktime_value _ _ (validate_structure_id _ Hok')); [|apply Hok'].
    rewrite mktime_value_epoch by done. reflexivity.
  - rewrite (next_hour_24 t) at 1 by (destruct Hok; lia).
    rewrite (kern_mktime_value _ _ (validate_hour_24 t Hok)) by (by apply next_day_month).
    rewrite mktime_value_24 by done.
    rewrite next_hour_24 by (destruct Hok; lia). reflexivity.
Qed.

(** ** Decoding the clock *)

(** The register values a clock in BCD mode shows for a time, 24-hour or 12-hour (PM is bit 7). *)
Definition bin_to_bcd (x : Z) : Z := x / 10 * 16 + x mod 10.
Definition show_hour (is_24 : bool) (h : Z) : Z :=
  if is_24 then bin_to_bcd h
  else bin_to_bcd (if h mod 12 =? 0 then 12 else h mod 12) + (if 12 <=? h then 128 else 0).
Definition clock_bcd (is_24 : bool) (t : Time) : Time :=
  mk_time (bin_to_bcd (year t mod 100)) (bin_to_bcd (month t)) (bin_to_bcd (day t))
    (show_hour is_24 (hour t)) (bin_to_bcd (minute t)) (bin_to_bcd (second t)).

Lemma bcd_checked : forallb (fun x => bcd_to_bin (bin_to_bcd x) =? x) (seqZ 0 100) = true.
Proof. vm_compute. reflexivity. Qed.

Lemma bcd_roundtrip x : 0 <= x < 100 -> bcd_to_bin (bin_to_bcd x) = x.
Proof.
  intros H. pose proof bcd_checked as Hc. rewrite forallb_forall in Hc. apply Z.eqb_eq, Hc.
  apply list_elem_of_In, elem_of_seqZ. lia.
Qed.

(** The hour decodes from both clock formats, except for noon and midnight of a 12-hour clock. *)
Definition decode_check (is_24 : bool) (h : Z) : bool :=
  hour (reformat (if is_24 then 2 else 0) (mk_time 0 0 0 (show_hour is_24 h) 0 0)) =?
  (if is_24 then h else if h =? 12 then 0 else if h =? 0 then 12 else h).

Lemma decodes_checked : forallb (fun h => decode_check true h && decode_check false h) (seqZ 0 24) = true.
Proof. vm_compute. reflexivity. Qed.

Lemma reformat_hour b y m d h mi s y' m' d' mi' s' :
  hour (reformat b (mk_time y m d h mi s)) = hour (reformat b (mk_time y' m' d' h mi' s')).
Proof. unfold reformat. by destruct (Z.land b 4 =? 0), (Z.land b 2 =? 0). Qed.

Lemma reformat_bcd_rest b y m d h mi s :
  Z.land b 4 = 0 -> 12 <= y < 100 -> 0 <= m < 100 -> 0 <= d < 100 -> 0 <= mi < 100 -> 0 <= s < 100 ->
  reformat b (mk_time (bin_to_bcd y) (bin_to_bcd m) (bin_to_bcd d) h (bin_to_bcd mi) (bin_to_bcd s)) =
  mk_time (2000 + y) m d (hour (reformat b (mk_time 0 0 0 h 0 0))) mi s.
Proof.
  intros Hb Hy Hm Hd Hmi Hs.
  rewrite (reformat_hour b 0 0 0 h 0 0 (bin_to_bcd y) (bin_to_bcd m) (bin_to_bcd d) (bin_to_bcd mi) (bin_to_bcd s)).
  assert (forall x, 0 <= x < 100 -> u8 (bcd_to_bin (bin_to_bcd x)) = x) as H8.
  { intros x Hx. rewrite bcd_roundtrip by done. unfold u8. rewrite Z.mod_small; lia. }
  assert (u16 (bcd_to_bin (bin_to_bcd y)) = y) as H16.
  { rewrite bcd_roundtrip by lia. unfold u16. rewrite Z.mod_small; lia. }
  unfold reformat. rewrite Hb. cbn [Z.eqb hour year month day minute second].
  rewrite H16, !H8 by lia. replace (y <? 12) with false by lia.
  replace (u16 (y + 2000)) with (2000 + y) by (unfold u16; rewrite Z.mod_small; lia).
  destruct (negb (Z.land b 2 =? 0)); done.
Qed.

(** Decoding what a BCD clock shows gives the time back, for every time from 2012 to 2099 of a
    24-hour clock; a 12-hour clock decodes too, except that the hour after noon is taken for the
    hour after midnight and the other way round. *)
Lemma reformat_clock is_24 t :
  2012 <= year t < 2100 -> 0 <= month t < 100 -> 0 <= day t < 100 -> 0 <= hour t < 24 ->
  0 <= minute t < 100 -> 0 <= second t < 100 ->
  reformat (if is_24 : bool then 2 else 0) (clock_bcd is_24 t) =
  mk_time (year t) (month t) (day t)
    (if is_24 : bool then hour t else if hour t =? 12 then 0 else if hour t =? 0 then 12 else hour t)
    (minute t) (second t).
Proof.
  intros Hy Hm Hd Hh Hmi Hs. unfold clock_bcd.
  assert (year t mod 100 = year t - 2000) as Hmod
    by (symmetry; apply (Z.mod_unique _ _ 20); lia).
  rewrite reformat_bcd_rest by (try (by destruct is_24); lia). rewrite Hmod. f_equal; [lia|].
  pose proof decodes_checked as H. rewrite forallb_forall in H.
  specialize (H (hour t) (proj1 (list_elem_of_In _ _) (proj2 (elem_of_seqZ 0 24 (hour t)) ltac:(lia)))).
  apply andb_true_iff in H as [H24 H12]. destruct is_24; by apply Z.eqb_eq.
Qed.

Lemma reformat_24 b t :
  date_ok t -> 112 <= year t -> Z.land b 4 = 0 -> Z.land b 2 <> 0 ->
  reformat b (clock_bcd true (clock_of t)) = clock_of t.
Proof.
  intros [Hy Hm Hd Hh Hmi Hs] Hy' Hb4 Hb2.
  destruct (next_ok (year t) (month t) ltac:(lia) Hm) as [Hlen _].
  replace (reformat b (clock_bcd true (clock_of t))) with (reformat 2 (clock_bcd true (clock_of t))).
  - rewrite (reformat_clock true (clock_of t)); cbn [clock_of year month day hour minute second]; lia || done.
  - unfold reformat. rewrite Hb4. by replace (Z.land b 2 =? 0) with false by (symmetry; by apply Z.eqb_neq).
Qed.

(** ** Reading a moving clock *)
Section Reading.
Context (cmos : nat -> Z -> Z).

Lemma rtc_get_reg_Ok reg n : reg <= 0xb -> rtc_get_reg cmos reg n = Ok (u8 (cmos n reg), S n).
Proof. intros H. unfold rtc_get_reg. by replace (reg <=? 0xb) with true by lia. Qed.

(** The wait ends at the first access that shows no update in progress. *)
Lemma rtc_wait_ends k n fuel :
  (forall i, (i < k)%nat -> Z.testbit (u8 (cmos (n + i)%nat 10)) 7 = true) ->
  Z.testbit (u8 (cmos (n + k)%nat 10)) 7 = false ->
  (k < fuel)%nat -> rtc_wait cmos fuel n = Ok (tt, (n + k + 1)%nat).
Proof.
  assert (forall x, negb (Z.land x 0x80 =? 0) = Z.testbit x 7) as Hbit.
  { intros x. change 0x80 with (2 ^ 7). destruct (Z.testbit x 7) eqn:E.
    - apply negb_true_iff, Z.eqb_neq. intros H0. assert (Z.testbit (Z.land x (2 ^ 7)) 7 = false) as H1 by (by rewrite H0).
      rewrite Z.land_spec, E in H1. done.
    - apply negb_false_iff, Z.eqb_eq. apply Z.bits_inj'. intros i Hi.
      rewrite Z.land_spec, Z.pow2_bits_eqb, Z.bits_0 by lia.
      destruct (Z.eqb_spec 7 i) as [<-|]; [by rewrite E|]. by rewrite andb_false_r. }
  revert n k. induction fuel as [|fuel IH]; intros n k Hbusy Hfree Hf; [lia|].
  cbn [rtc_wait]. unfold mbind, st_bind. unfold rtc_update_in_progress at 1. rewrite Hbit.
  destruct k as [|k].
  - rewrite Nat.add_0_r in Hfree. rewrite Hfree. unfold mret, st_ret. f_equal. f_equal. lia.
  - specialize (Hbusy 0%nat ltac:(lia)) as H0. rewrite Nat.add_0_r in H0. rewrite H0.
    rewrite (IH (S n) k); [f_equal; f_equal; lia| | |lia].
    + intros i Hi. replace (S n + i)%nat with (n + S i)%nat by lia. apply Hbusy. lia.
    + by replace (S n + k)%nat with (n + S k)%nat by lia.
Qed.

(** From the [n]th access on the clock stands still at [t], with no update in progress. *)
Record stands_still (n : nat) (b : Z) (t : Time) : Prop := {
  ss_free : forall i, (n <= i)%nat -> Z.testbit (u8 (cmos i 10)) 7 = false;
  ss_b : forall i, (n <= i)%nat -> u8 (cmos i 0xb) = b;
  ss_regs : forall i, (n <= i)%nat ->
    t = mk_time (u8 (cmos i 9)) (u8 (cmos i 8)) (u8 (cmos i 7)) (u8 (cmos i 4)) (u8 (cmos i 2)) (u8 (cmos i 0))
}.

Lemma stands_still_later n n' b t : stands_still n b t -> (n <= n')%nat -> stands_still n' b t.
Proof. intros [H1 H2 H3] H. constructor; intros i Hi; [apply H1|apply H2|apply H3]; lia. Qed.

Lemma rtc_wait_still n b t fuel : stands_still n b t -> rtc_wait cmos (S fuel) n = Ok (tt, S n).
Proof.
  intros H. rewrite (rtc_wait_ends 0 n (S fuel)); [do 2 f_equal; lia|intros i Hi; lia| |lia].
  rewrite Nat.add_0_r. by apply (ss_free _ _ _ H).
Qed.

Lemma rtc_get_raw_still n b t fuel : stands_still n b t -> rtc_get_raw cmos (S fuel) n = Ok (t, (n + 7)%nat).
Proof.
  intros H. unfold rtc_get_raw. rewrite (st_bind_Ok _ _ _ _ _ (rtc_wait_still _ _ _ fuel H)).
  do 6 (erewrite st_bind_Ok; [|by apply rtc_get_reg_Ok]).
  unfold mret, st_ret. replace (n + 7)%nat with (S (S (S (S (S (S (S n))))))) by lia. do 2 f_equal.
  assert (forall k, t = mk_time (u8 (cmos (n + k)%nat 9)) (u8 (cmos (n + k)%nat 8)) (u8 (cmos (n + k)%nat 7))
    (u8 (cmos (n + k)%nat 4)) (u8 (cmos (n + k)%nat 2)) (u8 (cmos (n + k)%nat 0))) as Hr
    by (intros k; apply (ss_regs _ _ _ H); lia).
  pose proof (Hr 1%nat) as R1. pose proof (Hr 2%nat) as R2. pose proof (Hr 3%nat) as R3.
  pose proof (Hr 4%nat) as R4. pose proof (Hr 5%nat) as R5. pose proof (Hr 6%nat) as R6.
  replace (n + 1)%nat with (S n) in R1 by lia. replace (n + 2)%nat with (S (S n)) in R2 by lia.
  replace (n + 3)%nat with (S (S (S n))) in R3 by lia. replace (n + 4)%nat with (S (S (S (S n)))) in R4 by lia.
  replace (n + 5)%nat with (S (S (S (S (S n))))) in R5 by lia.
  replace (n + 6)%nat with (S (S (S (S (S (S n)))))) in R6 by lia. clear Hr.
  apply (f_equal year) in R1. apply (f_equal month) in R2. apply (f_equal day) in R3.
  apply (f_equal hour) in R4. apply (f_equal minute) in R5. apply (f_equal second) in R6.
  cbn [year month day hour minute second] in *. rewrite <- R1, <- R2, <- R3, <- R4, <- R5, <- R6. by destruct t.
Qed.

(** On a clock that stands still the loop takes one more reading if the last one was equal,
    and two more otherwise. *)
Lemma get_time_loop_still n b t prev fuel wait :
  stands_still n b t ->
  exists n', get_time_loop cmos (S (S fuel)) (S wait) prev n = Ok (t, n') /\ (n <= n')%nat.
Proof.
  intros H. assert (forall n1 prev1 fuel1, stands_still n1 b t ->
    get_time_loop cmos (S fuel1) (S wait) prev1 n1 =
    if decide (prev1 = t) then Ok (t, (n1 + 8)%nat) else get_time_loop cmos fuel1 (S wait) t (n1 + 8)%nat) as Hround.
  { intros n1 prev1 fuel1 H1. cbn [get_time_loop].
    rewrite (st_bind_Ok _ _ _ _ _ (rtc_wait_still _ _ _ wait H1)).
    rewrite (st_bind_Ok _ _ _ _ _ (rtc_get_raw_still _ _ _ wait (stands_still_later _ (S n1) _ _ H1 ltac:(lia)))).
    replace (S n1 + 7)%nat with (n1 + 8)%nat by lia. by destruct (decide (prev1 = t)). }
  rewrite Hround by done. destruct (decide (prev = t)) as [E|E]; [exists (n + 8)%nat; split; [done|lia]|].
  rewrite Hround by (eapply stands_still_later; [done|lia]). rewrite decide_True by done.
  eexists. split; [done|lia].
Qed.

(** [gettimeofday] end to end, on a 24-hour BCD clock that stops changing at some access, from
    2012 to 2037: whatever was read before, the loop returns with the time the clock shows, and the
    answer is that time in seconds since 1970 plus the fixed time zone of one hour; but from 23:00:00
    on it is a whole day more, since [validate_structure] carries the hour 24 into the day and leaves
    it in [hour] too. *)
Theorem gettimeofday_correct n b t fuel wait tp :
  date_ok t -> 112 <= year t -> Z.land b 4 = 0 -> Z.land b 2 <> 0 ->
  stands_still n b (clock_bcd true (clock_of t)) ->
  exists n', gettimeofday cmos (S (S fuel)) (S wait) (Some tp) n =
    Ok (Val 0, Some (mk_timeval (if hour t <=? 22 then epoch t + 3600 else epoch t + 3600 + 86400) 0), n').
Proof.
  intros Hok Hy Hb4 Hb2 Hst. unfold gettimeofday, get_time.
  destruct (get_time_loop_still _ _ _ (mk_time 0 0 0 0 0 0) fuel wait Hst) as (n1 & Hloop & Hn1).
  exists (S n1). unfold mbind, st_bind. rewrite Hloop. unfold rtc_reformat, mbind, st_bind.
  rewrite rtc_get_reg_Ok by lia. rewrite (ss_b _ _ _ Hst) by done. unfold mret, st_ret, lift.
  rewrite reformat_24 by done. by rewrite time_of_day_correct.
Qed.
End Reading.

(** ** Witnesses *)
Definition sample : Time := mk_time 112 1 28 23 30 15.
Definition sample_cmos (n : nat) (reg : Z) : Z :=
  let t := clock_bcd true (clock_of sample) in
  if reg =? 10 then if (n <? 3)%nat then 0x80 else 0 else
  if reg =? 0xb then 2 else if reg =? 9 then year t else if reg =? 8 then month t else
  if reg =? 7 then day t else if reg =? 4 then hour t else if reg =? 2 then minute t else second t.

Lemma sample_ok : date_ok sample.
Proof. constructor; vm_compute; split; discriminate. Qed.

Lemma sample_still : stands_still sample_cmos 3 2 (clock_bcd true (clock_of sample)).
Proof.
  constructor; intros i Hi; unfold sample_cmos; try reflexivity.
  cbn [Z.eqb Pos.eqb]. by replace (i <? 3)%nat with false by (symmetry; apply Nat.ltb_ge; lia).
Qed.

(** 28 February 2012, 23:30:15. *)
Lemma mktime_witness : kern_mktime sample = Ok (1330471815, sample).
Proof. exact (mktime_correct sample sample_ok). Defined.

(** Half past eleven in the evening is taken for half past midnight two days later. *)
Lemma gettimeofday_witness :
  exists n', gettimeofday sample_cmos 2%nat 1%nat (Some (mk_timeval 0 0)) 3%nat =
    Ok (Val 0, Some (mk_timeval (1330471815 + 3600 + 86400) 0), n').
Proof.
  exact (gettimeofday_correct sample_cmos 3 2 sample 0 0 (mk_timeval 0 0) sample_ok ltac:(vm_compute; discriminate)
    eq_refl ltac:(vm_compute; discriminate) sample_still).
Defined.
