(* ===== verification/Fd.v ===== *)
(** * File descriptors (src/src/kernel/vfs.c, src/src/kernel/task.c, src/src/kernel/pipe.c)

    The tables of open files: [new_filp], [destroy_filp], [dup], [dup2], [close], the calls that
    dispatch to a file system, the creation of a pipe's two ends, and what [fork] and the
    destruction of a task do to the tables.  The [struct open_file] objects live on the kernel heap
    and are shared between descriptors and tasks; [count] is their reference count. *)
From S2P Require Import Prelude Mutex Pipe.

Definition MAX_OPEN_FILES : Z := 128.
Definition DEV_PIPE : Z := 0x7fff.

(** Function pointers are addresses, 0 for NULL. *)
Record open_file_ops := mk_fops {
  op_read : Z; op_write : Z; op_close : Z; op_lseek : Z; op_fstat : Z; op_getdents : Z
}.
(** [fpath] is the string [path] points to, [None] for NULL. *)
Record open_file := mk_open_file {
  fcount : Z; fdev : Z; fino : Z; fcur_block : Z; foffset : Z; fsize : Z; fmode : Z; fmp : Z;
  fpath : option (list Z); fops : open_file_ops; fdata : Z
}.
Definition zero_file : open_file := mk_open_file 0 0 0 0 0 0 0 0 None (mk_fops 0 0 0 0 0 0) 0.

Definition with_count (n : Z) (f : open_file) : open_file :=
  mk_open_file n (fdev f) (fino f) (fcur_block f) (foffset f) (fsize f) (fmode f) (fmp f) (fpath f) (fops f) (fdata f).

(** The heap's files, the [fdtable] of each task, [current_task], the interrupt flag and the state
    [D] of the file systems.  A table has more room than MAX_OPEN_FILES slots, since it is
    allocated with [sizeof(struct open_file)] for each; an address is 0 for NULL. *)
Record vfs (D : Type) := mk_vfs {
  files : gmap Z open_file;
  fdtables : gmap Z (list Z);
  current_task : Z;
  irq : bool;
  fs : D
}.
Arguments mk_vfs {D}.
Arguments files {D}.
Arguments fdtables {D}.
Arguments current_task {D}.
Arguments irq {D}.
Arguments fs {D}.

Section Vfs.
Context {D : Type}.
Implicit Types s : vfs D.

Definition set_files (g : gmap Z open_file -> gmap Z open_file) s : vfs D :=
  mk_vfs (g (files s)) (fdtables s) (current_task s) (irq s) (fs s).
Definition set_tables (g : gmap Z (list Z) -> gmap Z (list Z)) s : vfs D :=
  mk_vfs (files s) (g (fdtables s)) (current_task s) (irq s) (fs s).
Definition set_irq (b : bool) s : vfs D := mk_vfs (files s) (fdtables s) (current_task s) b (fs s).

(** [task->fdtable[i]], as a value and as a target; [file->...]. *)
Definition get_slot (task i : Z) : ST (vfs D) Z :=
  tb ← gets (fun s => fdtables s !! task); tb ← lift (deref tb); lift (aget tb i).
Definition set_slot (task i p : Z) : ST (vfs D) () :=
  tb ← gets (fun s => fdtables s !! task); tb ← lift (deref tb); tb ← lift (aset tb i p);
  modify (set_tables (insert task tb)).
Definition get_file (p : Z) : ST (vfs D) open_file := f ← gets (fun s => files s !! p); lift (deref f).
Definition set_file (p : Z) (f : open_file) : ST (vfs D) () := get_file p ;; modify (set_files (insert p f)).
Definition kfree_file (p : Z) : ST (vfs D) () := get_file p ;; modify (set_files (delete p)).

(** [INTERRUPT_LOCK] and [INTERRUPT_UNLOCK] *)
Definition interrupt_lock : ST (vfs D) bool := b ← gets irq; modify (set_irq false) ;; mret b.
Definition interrupt_unlock (b : bool) : ST (vfs D) () := if b then modify (set_irq true) else mret tt.
End Vfs.

(** What two states have in common when only the file systems' own data changed: positions, buffers. *)
Definition same_but_data {D} (s s' : vfs D) : Prop :=
  fdtables s' = fdtables s /\ current_task s' = current_task s /\ irq s' = irq s /\
  (forall p, (fun f => (fcount f, fpath f, fops f, fdev f, fdata f)) <$> files s' !! p =
             (fun f => (fcount f, fpath f, fops f, fdev f, fdata f)) <$> files s !! p).

(** What the file systems and the reference counts need of the files: their counts, operations and [data] pointers. *)
Local Abbreviation info := (open_file_ops * Z)%type.
Definition view {D} (s : vfs D) : gmap Z (Z * info) := (fun f => (fcount f, (fops f, fdata f))) <$> files s.
(** A descriptor less; the last one takes the file with it. *)
Definition drop_link (p n : Z) (o : info) (v : gmap Z (Z * info)) : gmap Z (Z * info) :=
  if n =? 1 then delete p v else <[p := (n - 1, o)]> v.

(** The interface of the layers below: [kmalloc] for a [struct open_file], the functions the
    [fops] pointers name, called with the pointer's value, and the making of a pipe object for two ends.  [usable f] says that the pointers of [f]
    name functions of a file system that accepts it; [fs_ok] relates the open files to the file systems' own data (a pipe's object
    to its ends).  In such a state the close function of an open file returns 0, the fact that [destroy_task] asserts, and
    leaves the data fit for one descriptor less; more descriptors for open files need nothing of the file systems. *)
Class FileSystems (D : Type) := {
  kmalloc_file : vfs D -> Z;
  call_read : Z -> Z -> list Z -> Z -> ST (vfs D) (ret * list Z);
  call_write : Z -> Z -> list Z -> Z -> ST (vfs D) ret;
  call_close : Z -> Z -> Z -> ST (vfs D) ret;
  call_lseek : Z -> Z -> Z -> Z -> ST (vfs D) ret;
  call_fstat : Z -> Z -> list Z -> ST (vfs D) (ret * list Z);
  call_getdents : Z -> Z -> list Z -> Z -> ST (vfs D) (ret * list Z);
  make_pipe : Z -> Z -> ST (vfs D) Z;
  pipe_ops : open_file_ops;
  usable : open_file_ops -> bool;
  fs_ok : gmap Z (Z * info) -> D -> Prop;
  kmalloc_not_null : forall s, kmalloc_file s <> 0;
  kmalloc_fresh : forall s, files s !! kmalloc_file s = None;
  usable_close : forall o, usable o = true -> op_close o <> 0;
  usable_pipe : usable pipe_ops = true;
  fs_ok_counts : forall v v' d, fs_ok v d -> (forall p, exists k, 0 <= k /\ v' !! p = (fun x => (x.1 + k, x.2)) <$> v !! p) -> fs_ok v' d;
  close_usable : forall s fd p n o, fs_ok (view s) (fs s) -> view s !! p = Some (n, o) -> 1 <= n -> usable o.1 = true ->
    exists s', call_close (op_close o.1) fd p s = Ok (Val 0, s') /\ same_but_data s s' /\ fs_ok (drop_link p n o (view s)) (fs s');
  make_pipe_ok : forall s v r w, fs_ok v (fs s) -> v !! r = None -> v !! w = None -> r <> w -> r <> 0 -> w <> 0 ->
    exists p d, make_pipe r w s = Ok (p, mk_vfs (files s) (fdtables s) (current_task s) (irq s) d) /\
      fs_ok (<[w := (1, (pipe_ops, p))]> (<[r := (1, (pipe_ops, p))]> v)) d
}.

Section Calls.
Context {D : Type} `{FileSystems D}.

Definition do_get_filp (fd task : Z) : ST (vfs D) Z :=
  if (fd <? 0) || (MAX_OPEN_FILES <? fd) then mret 0 else get_slot task fd.
Definition get_filp (fd : Z) : ST (vfs D) Z := t ← gets current_task; do_get_filp fd t.

(** The loop from slot [i] on, at most [n] more rounds; the descriptor and the file. *)
Fixpoint new_filp_loop (n : nat) (task i : Z) : ST (vfs D) (Z * Z) :=
  p ← get_slot task i;
  if p =? 0 then
    p ← gets kmalloc_file;
    modify (set_files (insert p zero_file)) ;;
    set_slot task i p ;;
    mret (i, p)
  else
    match n with
    | O => lift Panic
    | S n => new_filp_loop n task (i + 1)
    end.
Definition new_filp : ST (vfs D) (Z * Z) :=
  t ← gets current_task; new_filp_loop (Z.to_nat MAX_OPEN_FILES) t 0.

Definition destroy_filp (fd : Z) : ST (vfs D) () :=
  ensure (0 <=? fd) ;; ensure (fd <? MAX_OPEN_FILES) ;;
  t ← gets current_task;
  p ← get_slot t fd;
  ensure (negb (p =? 0)) ;;
  kfree_file p ;; set_slot t fd 0.

Definition do_close (fd task : Z) : ST (vfs D) ret :=
  file ← do_get_filp fd task;
  if file =? 0 then mret (Err EBADF)
  else
    f ← get_file file;
    if fcount f <? 1 then mret (Err EBADF)
    else
      ensure (negb (op_close (fops f) =? 0)) ;;
      r ← call_close (op_close (fops f)) fd file;
      f ← get_file file;
      set_file file (with_count (fcount f - 1) f) ;;
      set_slot task fd 0 ;;
      f ← get_file file;
      ensure (0 <=? fcount f) ;;
      (if fcount f =? 0 then kfree_file file else mret tt) ;;
      mret r.
Definition close (fd : Z) : ST (vfs D) ret := t ← gets current_task; do_close fd t.

(** [dup]'s search for a free slot below MAX_OPEN_FILES, [n] slots from [i] on. *)
Fixpoint dup_loop (n : nat) (task i file : Z) : ST (vfs D) ret :=
  match n with
  | O => mret (Err EMFILE)
  | S n =>
      p ← get_slot task i;
      if p =? 0 then
        set_slot task i file ;;
        f ← get_file file;
        set_file file (with_count (fcount f + 1) f) ;;
        mret (Val i)
      else dup_loop n task (i + 1) file
  end.
Definition dup (fd : Z) : ST (vfs D) ret :=
  b ← interrupt_lock;
  file ← get_filp fd;
  if file =? 0 then interrupt_unlock b ;; mret (Err EBADF)
  else
    t ← gets current_task;
    r ← dup_loop (Z.to_nat MAX_OPEN_FILES) t 0 file;
    interrupt_unlock b ;;
    mret r.

Definition dup2 (fd fd2 : Z) : ST (vfs D) ret :=
  if (fd2 <? 0) || (MAX_OPEN_FILES <=? fd2) then mret (Err EBADF)
  else
    b ← interrupt_lock;
    file ← get_filp fd;
    if file =? 0 then interrupt_unlock b ;; mret (Err EBADF)
    else
      tmp ← get_filp fd2;
      (if tmp =? 0 then mret tt else close fd2 ;; mret tt) ;;
      t ← gets current_task;
      p ← get_slot t fd2;
      ensure (p =? 0) ;;
      set_slot t fd2 file ;;
      f ← get_file file;
      set_file file (with_count (fcount f + 1) f) ;;
      interrupt_unlock b ;;
      mret (Val fd2).

(** The calls that go to the file system of the descriptor. *)
Definition read (fd : Z) (buf : list Z) (length : Z) : ST (vfs D) (ret * list Z) :=
  file ← get_filp fd;
  if file =? 0 then mret (Err EBADF, buf)
  else
    f ← get_file file;
    if fcount f <? 1 then mret (Err EBADF, buf)
    else if op_read (fops f) =? 0 then mret (Err EBADF, buf)
    else call_read (op_read (fops f)) fd buf length.

Definition write (fd : Z) (buf : list Z) (length : Z) : ST (vfs D) ret :=
  file ← get_filp fd;
  if file =? 0 then mret (Err EBADF)
  else
    f ← get_file file;
    if fcount f <? 1 then mret (Err EBADF)
    else if op_write (fops f) =? 0 then
      match fpath f with
      | Some path => c ← lift (deref (head path)); mret (if c =? 0 then Err EBADF else Err EPERM)
      | None => mret (Err EBADF)
      end
    else call_write (op_write (fops f)) fd buf length.

Definition fstat (fd : Z) (buf : list Z) : ST (vfs D) (ret * list Z) :=
  file ← get_filp fd;
  if file =? 0 then mret (Err EBADF, buf)
  else
    f ← get_file file;
    if fcount f <? 1 then mret (Err EBADF, buf)
    else if op_fstat (fops f) =? 0 then lift Panic
    else call_fstat (op_fstat (fops f)) fd buf.

Definition getdents (fd : Z) (dp : list Z) (cnt : Z) : ST (vfs D) (ret * list Z) :=
  file ← get_filp fd;
  if file =? 0 then mret (Err EBADF, dp)
  else
    f ← get_file file;
    if fcount f <? 1 then mret (Err EBADF, dp)
    else if op_getdents (fops f) =? 0 then mret (Err ENOTDIR, dp)
    else call_getdents (op_getdents (fops f)) fd dp cnt.

Definition lseek (fd offset whence : Z) : ST (vfs D) ret :=
  file ← get_filp fd;
  if file =? 0 then mret (Err EBADF)
  else
    f ← get_file file;
    if op_lseek (fops f) =? 0 then mret (Err EBADF)
    else if fdev f =? DEV_PIPE then mret (Err ESPIPE)
    else call_lseek (op_lseek (fops f)) fd offset whence.

(** [pipe()], with the descriptors [fildes] receives; the pipe's functions are those of [pipe_ops]. *)
Definition pipe_end (p : Z) (f : open_file) : open_file :=
  mk_open_file (fcount f) DEV_PIPE (fino f) (fcur_block f) (foffset f) (fsize f) (fmode f) (fmp f) (fpath f) pipe_ops p.
Definition pipe_fds : ST (vfs D) (Z * Z) :=
  '(rd, read_end) ← new_filp;
  '(wr, write_end) ← new_filp;
  f ← get_file read_end; set_file read_end (with_count (fcount f + 1) f) ;;
  f ← get_file write_end; set_file write_end (with_count (fcount f + 1) f) ;;
  p ← make_pipe read_end write_end;
  f ← get_file read_end; set_file read_end (pipe_end p f) ;;
  f ← get_file write_end; set_file write_end (pipe_end p f) ;;
  mret (rd, wr).

(** [fork]: the child's table is a copy of the parent's; the loop counts the new links. *)
Fixpoint fork_loop (n : nat) (parent child i : Z) : ST (vfs D) () :=
  match n with
  | O => mret tt
  | S n =>
      p ← get_slot child i;
      (if p =? 0 then mret tt
       else
         q ← get_slot parent i;
         g ← get_file q;
         ensure (0 <? fcount g) ;;
         f ← get_file p;
         set_file p (with_count (fcount f + 1) f)) ;;
      fork_loop n parent child (i + 1)
  end.
Definition fork_fdtable (parent child : Z) : ST (vfs D) () :=
  tb ← gets (fun s => fdtables s !! parent); tb ← lift (deref tb);
  modify (set_tables (insert child tb)) ;;
  fork_loop (Z.to_nat MAX_OPEN_FILES) parent child 0.

(** [destroy_task]: every descriptor is closed, then the table is freed. *)
Fixpoint close_all (n : nat) (task i : Z) : ST (vfs D) () :=
  match n with
  | O => mret tt
  | S n =>
      p ← get_slot task i;
      (if p =? 0 then mret tt
       else
         r ← do_close i task;
         ensure (bool_decide (r = Val 0)) ;;
         q ← get_slot task i;
         ensure (q =? 0)) ;;
      close_all n task (i + 1)
  end.
Definition destroy_fdtable (task : Z) : ST (vfs D) () :=
  close_all (Z.to_nat MAX_OPEN_FILES) task 0 ;;
  modify (set_tables (delete task)).
End Calls.

(** ** Links *)

(** How often [p] occurs in a table, and in all tables. *)
Fixpoint occ (p : Z) (tb : list Z) : Z :=
  match tb with
  | [] => 0
  | x :: tb => (if x =? p then 1 else 0) + occ p tb
  end.
Definition links (m : gmap Z (list Z)) (p : Z) : Z := map_fold (fun _ tb acc => occ p tb + acc) 0 m.

Lemma occ_nonneg p tb : 0 <= occ p tb.
Proof. induction tb as [|x tb IH]; cbn [occ]; [lia|]. destruct (x =? p); lia. Qed.

Lemma occ_insert p tb i x y :
  tb !! i = Some x ->
  occ p (<[i := y]> tb) = occ p tb - (if x =? p then 1 else 0) + (if y =? p then 1 else 0).
Proof.
  revert i. induction tb as [|z tb IH]; intros [|i] Hi; try done; cbn [insert list_insert occ].
  - injection Hi as ->. lia.
  - fold (<[i := y]> tb). rewrite IH by done. lia.
Qed.

Lemma occ_lookup p tb i : tb !! i = Some p -> 0 < occ p tb.
Proof.
  revert i. induction tb as [|z tb IH]; intros [|i] Hi; try done; cbn [occ].
  - injection Hi as ->. rewrite Z.eqb_refl. pose proof (occ_nonneg p tb). lia.
  - specialize (IH i Hi). destruct (z =? p); lia.
Qed.

Lemma occ_elem p tb : 0 < occ p tb -> p ∈ tb.
Proof.
  induction tb as [|z tb IH]; cbn [occ]; [lia|]. destruct (Z.eqb_spec z p) as [->|]; intros; [left|right; auto].
Qed.

Lemma occ_app p l k : occ p (l ++ k) = occ p l + occ p k.
Proof. induction l as [|x l IH]; cbn [occ app]; [done|]. rewrite IH. lia. Qed.

Lemma links_empty p : links ∅ p = 0.
Proof. apply map_fold_empty. Qed.

Lemma links_new m t tb p : m !! t = None -> links (<[t := tb]> m) p = occ p tb + links m p.
Proof. intros. unfold links. rewrite map_fold_insert_L; [done| |done]. intros. lia. Qed.

Lemma links_split m t tb p : m !! t = Some tb -> links m p = occ p tb + links (delete t m) p.
Proof.
  intros Hm. rewrite <- (links_new (delete t m) t tb p) by apply lookup_delete_eq. by rewrite insert_delete_id.
Qed.

Lemma links_update m t tb tb' p : m !! t = Some tb -> links (<[t := tb']> m) p = links m p - occ p tb + occ p tb'.
Proof.
  intros Hm. rewrite <- insert_delete_eq, links_new by apply lookup_delete_eq.
  rewrite (links_split m t tb) by done. lia.
Qed.

Lemma links_nonneg m p : 0 <= links m p.
Proof.
  induction m as [|t tb m Hm IH] using map_ind; [by rewrite links_empty|].
  rewrite links_new by done. pose proof (occ_nonneg p tb). lia.
Qed.

Lemma links_slot m t tb i p : m !! t = Some tb -> tb !! i = Some p -> 0 < links m p.
Proof.
  intros Hm Hi. rewrite (links_split m t tb) by done. pose proof (occ_lookup _ _ _ Hi).
  pose proof (links_nonneg (delete t m) p). lia.
Qed.

(** ** The reference-count invariant *)

Section Linked.
Context {D : Type} `{FileSystems D}.

(** Each file's count is the number of descriptors of all tasks that refer to it, every descriptor
    refers to a live file, and the slots past MAX_OPEN_FILES are empty. *)
Record linked (v : gmap Z (Z * info)) (m : gmap Z (list Z)) : Prop := {
  lk_null : v !! 0 = None;
  lk_len : forall t tb, m !! t = Some tb -> MAX_OPEN_FILES < zlen tb;
  lk_high : forall t tb i x, m !! t = Some tb -> tb !! i = Some x -> (128 <= i)%nat -> x = 0;
  lk_count : forall p n o, v !! p = Some (n, o) -> 1 <= n /\ n = links m p /\ usable o.1 = true;
  lk_live : forall p, p <> 0 -> 0 < links m p -> is_Some (v !! p)
}.

Lemma linked_slot v m t tb i p :
  linked v m -> m !! t = Some tb -> tb !! i = Some p -> p <> 0 ->
  exists n o, v !! p = Some (n, o) /\ 1 <= n /\ usable o.1 = true.
Proof.
  intros Hl Hm Hi Hp. destruct (lk_live v m Hl p Hp) as [[n o] Hv]; [by eapply links_slot|].
  destruct (lk_count v m Hl _ _ _ Hv) as (? & _ & ?). eauto.
Qed.

Lemma links_write m t tb i x y p :
  m !! t = Some tb -> tb !! i = Some x ->
  links (<[t := <[i := y]> tb]> m) p =
  links m p - (if x =? p then 1 else 0) + (if y =? p then 1 else 0).
Proof. intros Hm Hi. rewrite (links_update m t tb) by done. rewrite (occ_insert p tb i x y) by done. lia. Qed.

(** Writing a slot below MAX_OPEN_FILES keeps the shape of the tables. *)
Lemma linked_len_write v m t tb (i : nat) y :
  linked v m -> m !! t = Some tb ->
  forall t' tb', <[t := <[i := y]> tb]> m !! t' = Some tb' -> MAX_OPEN_FILES < zlen tb'.
Proof.
  intros Hl Hm t' tb' Ht. destruct (decide (t = t')) as [<-|].
  - rewrite lookup_insert_eq in Ht. injection Ht as <-. rewrite zlen_insert. by apply (lk_len v m Hl t).
  - rewrite lookup_insert_ne in Ht by done. by apply (lk_len v m Hl t').
Qed.

Lemma linked_high_write v m t tb (i : nat) y :
  linked v m -> m !! t = Some tb -> (i < 128)%nat ->
  forall t' tb' j x, <[t := <[i := y]> tb]> m !! t' = Some tb' -> tb' !! j = Some x -> (128 <= j)%nat -> x = 0.
Proof.
  intros Hl Hm Hi t' tb' j x Ht Hj Hge. destruct (decide (t = t')) as [<-|].
  - rewrite lookup_insert_eq in Ht. injection Ht as <-. rewrite list_lookup_insert_ne in Hj by lia.
    by apply (lk_high v m Hl t tb j x).
  - rewrite lookup_insert_ne in Ht by done. by apply (lk_high v m Hl t' tb' j x).
Qed.

(** A descriptor more. *)
Lemma linked_link v m t tb i p n o :
  linked v m -> m !! t = Some tb -> tb !! i = Some 0 -> (i < 128)%nat -> v !! p = Some (n, o) ->
  linked (<[p := (n + 1, o)]> v) (<[t := <[i := p]> tb]> m).
Proof.
  intros Hl Hm Hi Hlt Hv.
  assert (p <> 0) as Hp by (intros ->; by rewrite (lk_null v m Hl) in Hv).
  destruct (lk_count v m Hl _ _ _ Hv) as (Hn & Heq & Hu).
  constructor.
  - rewrite lookup_insert_ne by done. apply (lk_null v m Hl).
  - by eapply linked_len_write.
  - by eapply linked_high_write.
  - intros q n' o' Hq. rewrite (links_write m t tb i 0 p q) by done.
    destruct (decide (p = q)) as [<-|Hne].
    + rewrite lookup_insert_eq in Hq. injection Hq as <- <-. rewrite Z.eqb_refl.
      replace (0 =? p) with false by lia. split_and!; [lia|lia|done].
    + rewrite lookup_insert_ne in Hq by done. destruct (lk_count v m Hl _ _ _ Hq) as (? & ? & ?).
      assert (q <> 0) by (intros ->; by rewrite (lk_null v m Hl) in Hq).
      replace (0 =? q) with false by lia. replace (p =? q) with false by lia. split_and!; [lia|lia|done].
  - intros q Hq. rewrite (links_write m t tb i 0 p q) by done. intros Hpos.
    destruct (decide (p = q)) as [<-|Hne]; [rewrite lookup_insert_eq; by eexists|].
    rewrite lookup_insert_ne by done. apply (lk_live v m Hl q Hq).
    replace (0 =? q) with false in Hpos by lia. replace (p =? q) with false in Hpos by lia. lia.
Qed.

(** A descriptor for a file made just now. *)
Lemma linked_new v m t tb i p o :
  linked v m -> m !! t = Some tb -> tb !! i = Some 0 -> (i < 128)%nat -> v !! p = None -> p <> 0 ->
  usable o.1 = true ->
  linked (<[p := (1, o)]> v) (<[t := <[i := p]> tb]> m).
Proof.
  intros Hl Hm Hi Hlt Hv Hp Hu.
  assert (links m p = 0) as H0.
  { pose proof (links_nonneg m p). destruct (decide (0 < links m p)) as [Hlt'|]; [|lia].
    destruct (lk_live v m Hl p Hp Hlt') as [x Hx]. congruence. }
  constructor.
  - rewrite lookup_insert_ne by done. apply (lk_null v m Hl).
  - by eapply linked_len_write.
  - by eapply linked_high_write.
  - intros q n' o' Hq. rewrite (links_write m t tb i 0 p q) by done.
    destruct (decide (p = q)) as [<-|Hne].
    + rewrite lookup_insert_eq in Hq. injection Hq as <- <-. rewrite Z.eqb_refl.
      replace (0 =? p) with false by lia. split_and!; [lia|lia|done].
    + rewrite lookup_insert_ne in Hq by done. destruct (lk_count v m Hl _ _ _ Hq) as (? & ? & ?).
      assert (q <> 0) by (intros ->; by rewrite (lk_null v m Hl) in Hq).
      replace (0 =? q) with false by lia. replace (p =? q) with false by lia. split_and!; [lia|lia|done].
  - intros q Hq. rewrite (links_write m t tb i 0 p q) by done. intros Hpos.
    destruct (decide (p = q)) as [<-|Hne]; [rewrite lookup_insert_eq; by eexists|].
    rewrite lookup_insert_ne by done. apply (lk_live v m Hl q Hq).
    replace (0 =? q) with false in Hpos by lia. replace (p =? q) with false in Hpos by lia. lia.
Qed.

Lemma drop_link_ne p n o v q : p <> q -> drop_link p n o v !! q = v !! q.
Proof. intros. unfold drop_link. destruct (n =? 1); [by rewrite lookup_delete_ne|by rewrite lookup_insert_ne]. Qed.

Lemma linked_unlink v m t tb i p n o :
  linked v m -> m !! t = Some tb -> tb !! i = Some p -> p <> 0 -> (i < 128)%nat -> v !! p = Some (n, o) ->
  linked (drop_link p n o v) (<[t := <[i := 0]> tb]> m).
Proof.
  intros Hl Hm Hi Hp Hlt Hv. destruct (lk_count v m Hl _ _ _ Hv) as (Hn & Heq & Hu).
  constructor.
  - rewrite drop_link_ne by done. apply (lk_null v m Hl).
  - by eapply linked_len_write.
  - by eapply linked_high_write.
  - intros q n' o' Hq. rewrite (links_write m t tb i p 0 q) by done.
    destruct (decide (p = q)) as [<-|Hne].
    + rewrite Z.eqb_refl. replace (0 =? p) with false by lia. unfold drop_link in Hq.
      destruct (Z.eqb_spec n 1); [by rewrite lookup_delete_eq in Hq|].
      rewrite lookup_insert_eq in Hq. injection Hq as <- <-. split_and!; [lia|lia|done].
    + rewrite drop_link_ne in Hq by done. destruct (lk_count v m Hl _ _ _ Hq) as (? & ? & ?).
      assert (q <> 0) by (intros ->; by rewrite (lk_null v m Hl) in Hq).
      replace (0 =? q) with false by lia. replace (p =? q) with false by lia. split_and!; [lia|lia|done].
  - intros q Hq. rewrite (links_write m t tb i p 0 q) by done. intros Hpos.
    replace (0 =? q) with false in Hpos by lia.
    destruct (decide (p = q)) as [<-|Hne].
    + rewrite Z.eqb_refl in Hpos. unfold drop_link. replace (n =? 1) with false by lia.
      rewrite lookup_insert_eq. by eexists.
    + rewrite drop_link_ne by done. apply (lk_live v m Hl q Hq). replace (p =? q) with false in Hpos by lia. lia.
Qed.

(** A copy of a whole table. *)
Lemma linked_fork v v' m t u tb :
  linked v m -> m !! t = Some tb -> m !! u = None ->
  (forall p, v' !! p = (fun '(n, o) => (n + occ p tb, o)) <$> v !! p) ->
  linked v' (<[u := tb]> m).
Proof.
  intros Hl Hm Hu Hv'. constructor.
  - rewrite Hv'. by rewrite (lk_null v m Hl).
  - intros t' tb' Ht. destruct (decide (u = t')) as [<-|].
    + rewrite lookup_insert_eq in Ht. injection Ht as <-. by apply (lk_len v m Hl t).
    + rewrite lookup_insert_ne in Ht by done. by apply (lk_len v m Hl t').
  - intros t' tb' j x Ht. destruct (decide (u = t')) as [<-|].
    + rewrite lookup_insert_eq in Ht. injection Ht as <-. by apply (lk_high v m Hl t).
    + rewrite lookup_insert_ne in Ht by done. by apply (lk_high v m Hl t').
  - intros p n o Hp. rewrite Hv' in Hp. destruct (v !! p) as [[n0 o0]|] eqn:E; [|done]. injection Hp as <- <-.
    rewrite links_new by done. destruct (lk_count v m Hl _ _ _ E) as (? & ? & ?).
    pose proof (occ_nonneg p tb). split_and!; [lia|lia|done].
  - intros p Hp. rewrite links_new by done. intros Hpos. rewrite Hv'.
    destruct (lk_live v m Hl p Hp) as [[n o] ->]; [|by eexists].
    rewrite (links_split m t tb) in * by done. pose proof (occ_nonneg p tb).
    pose proof (links_nonneg (delete t m) p). lia.
Qed.

(** An empty table can go. *)
Lemma linked_delete v m t tb :
  linked v m -> m !! t = Some tb -> (forall i x, tb !! i = Some x -> x = 0) -> linked v (delete t m).
Proof.
  intros Hl Hm H0. assert (forall p, p <> 0 -> links (delete t m) p = links m p) as Hk.
  { intros p Hp. rewrite (links_split m t tb) by done.
    enough (occ p tb = 0) by lia. pose proof (occ_nonneg p tb). destruct (decide (0 < occ p tb)) as [Hpos|]; [|lia].
    apply occ_elem, list_elem_of_lookup_1 in Hpos as [i Hi]. by apply H0 in Hi. }
  constructor.
  - apply (lk_null v m Hl).
  - intros t' tb' [_ Ht]%lookup_delete_Some. by apply (lk_len v m Hl t').
  - intros t' tb' j x [_ Ht]%lookup_delete_Some. by apply (lk_high v m Hl t').
  - intros p n o Hp. assert (p <> 0) by (intros ->; by rewrite (lk_null v m Hl) in Hp).
    rewrite Hk by done. by apply (lk_count v m Hl _ _ _ Hp).
  - intros p Hp. rewrite Hk by done. by apply (lk_live v m Hl).
Qed.
End Linked.

(** ** What the operations do *)
Section Ops.
Context {D : Type} `{FileSystems D}.
Implicit Types s : vfs D.

Definition fd_wf s : Prop := linked (view s) (fdtables s) /\ is_Some (fdtables s !! current_task s) /\ fs_ok (view s) (fs s).

Lemma get_slot_ok s t tb i x :
  fdtables s !! t = Some tb -> 0 <= i -> tb !! Z.to_nat i = Some x -> get_slot t i s = Ok (x, s).
Proof.
  intros Ht Hi Hx. unfold get_slot, mbind, st_bind, gets, lift. rewrite Ht. cbn [deref].
  assert (aget tb i = Ok x) as -> by (by apply aget_Ok). done.
Qed.

Lemma set_slot_ok s t tb i p x :
  fdtables s !! t = Some tb -> 0 <= i -> tb !! Z.to_nat i = Some x ->
  set_slot t i p s = Ok (tt, set_tables (insert t (<[Z.to_nat i := p]> tb)) s).
Proof.
  intros Ht Hi Hx. unfold set_slot, mbind, st_bind, gets, lift. rewrite Ht. cbn [deref].
  rewrite aset_in by (apply lookup_lt_Some in Hx; unfold zlen; lia). done.
Qed.

Lemma get_file_ok s p f : files s !! p = Some f -> get_file p s = Ok (f, s).
Proof. intros Hf. unfold get_file, mbind, st_bind, gets, lift. by rewrite Hf. Qed.

Lemma set_file_ok s p f g : files s !! p = Some f -> set_file p g s = Ok (tt, set_files (insert p g) s).
Proof. intros Hf. unfold set_file. by rewrite (st_bind_Ok _ _ _ _ _ (get_file_ok _ _ _ Hf)). Qed.

Lemma kfree_file_ok s p f : files s !! p = Some f -> kfree_file p s = Ok (tt, set_files (delete p) s).
Proof. intros Hf. unfold kfree_file. by rewrite (st_bind_Ok _ _ _ _ _ (get_file_ok _ _ _ Hf)). Qed.

Lemma view_lookup s p n o :
  view s !! p = Some (n, o) -> exists f, files s !! p = Some f /\ fcount f = n /\ (fops f, fdata f) = o.
Proof. unfold view. rewrite lookup_fmap. destruct (files s !! p) as [f|]; [|done]. intros [= <- <-]. eauto. Qed.

Lemma view_insert s p f : view (set_files (insert p f) s) = <[p := (fcount f, (fops f, fdata f))]> (view s).
Proof. unfold view. cbn [set_files files]. by rewrite fmap_insert. Qed.

Lemma view_delete s p : view (set_files (delete p) s) = delete p (view s).
Proof. unfold view. cbn [set_files files]. by rewrite fmap_delete. Qed.

Lemma same_but_data_view s s' : same_but_data s s' -> view s' = view s.
Proof.
  intros (_ & _ & _ & Hf). apply map_eq. intros p. unfold view. rewrite !lookup_fmap. specialize (Hf p).
  destruct (files s' !! p), (files s !! p); try done. cbn in *. congruence.
Qed.

(** The value of a valid descriptor. *)
Lemma get_filp_ok s tb fd x :
  fdtables s !! current_task s = Some tb -> 0 <= fd < MAX_OPEN_FILES -> tb !! Z.to_nat fd = Some x ->
  get_filp fd s = Ok (x, s).
Proof.
  intros Ht Hfd Hx. unfold get_filp, mbind, st_bind, gets, do_get_filp.
  replace (fd <? 0) with false by lia. replace (MAX_OPEN_FILES <? fd) with false by lia. cbn [orb].
  eapply get_slot_ok; [done|lia|done].
Qed.

Lemma get_filp_bad s fd : fd < 0 \/ MAX_OPEN_FILES < fd -> get_filp fd s = Ok (0, s).
Proof.
  intros Hfd. unfold get_filp, mbind, st_bind, gets, do_get_filp.
  by replace ((fd <? 0) || (MAX_OPEN_FILES <? fd)) with true by lia.
Qed.

(** Closing a descriptor in use. *)
Lemma do_close_ok s t tb fd p n o :
  linked (view s) (fdtables s) -> fs_ok (view s) (fs s) -> fdtables s !! t = Some tb -> 0 <= fd < MAX_OPEN_FILES ->
  tb !! Z.to_nat fd = Some p -> p <> 0 -> view s !! p = Some (n, o) ->
  exists s', do_close fd t s = Ok (Val 0, s') /\ view s' = drop_link p n o (view s) /\
    fdtables s' = <[t := <[Z.to_nat fd := 0]> tb]> (fdtables s) /\
    current_task s' = current_task s /\ irq s' = irq s /\ fs_ok (view s') (fs s').
Proof.
  intros Hl Hfs Ht Hfd Hp Hp0 Hv. destruct (lk_count _ _ Hl _ _ _ Hv) as (Hn & _ & Hu).
  destruct (view_lookup _ _ _ _ Hv) as (f & Hf & Hfn & Hfo).
  unfold do_close. erewrite st_bind_Ok.
  2:{ unfold do_get_filp. replace (fd <? 0) with false by lia. replace (MAX_OPEN_FILES <? fd) with false by lia.
      cbn [orb]. eapply get_slot_ok; [done|lia|done]. }
  replace (p =? 0) with false by lia. rewrite (st_bind_Ok _ _ _ _ _ (get_file_ok _ _ _ Hf)).
  replace (fcount f <? 1) with false by lia. replace (op_close (fops f)) with (op_close o.1) by (by rewrite <- Hfo).
  erewrite st_bind_Ok by (apply ensure_true; pose proof (usable_close o.1 Hu); apply negb_true_iff; lia).
  destruct (close_usable s fd p n o Hfs Hv Hn Hu) as (s1 & Hc & Hsame & Hfs1).
  rewrite (st_bind_Ok _ _ _ _ _ Hc). pose proof (same_but_data_view _ _ Hsame) as Hview.
  destruct Hsame as (Htb & Hcur & Hirq & _). rewrite <- Hview in Hv.
  destruct (view_lookup _ _ _ _ Hv) as (f1 & Hf1 & Hfn1 & Hfo1).
  rewrite (st_bind_Ok _ _ _ _ _ (get_file_ok _ _ _ Hf1)), (st_bind_Ok _ _ _ _ _ (set_file_ok _ _ _ _ Hf1)).
  erewrite st_bind_Ok by (eapply set_slot_ok; [cbn [set_files fdtables]; by rewrite Htb|lia|done]).
  erewrite st_bind_Ok by (apply get_file_ok; cbn [set_files set_tables files]; apply lookup_insert_eq).
  cbn [with_count fcount]. erewrite st_bind_Ok by (apply ensure_true; lia).
  rewrite Hfn1. replace (n - 1 =? 0) with (n =? 1) by lia.
  enough (exists s', ((if n =? 1 then kfree_file p else mret tt) ;; mret (Val 0)) (set_tables (insert t (<[Z.to_nat fd := 0]> tb)) (set_files (insert p (with_count (n - 1) f1)) s1)) = Ok (Val 0, s') /\
    view s' = drop_link p n o (view s) /\ fdtables s' = <[t := <[Z.to_nat fd := 0]> tb]> (fdtables s) /\ current_task s' = current_task s /\ irq s' = irq s /\ fs s' = fs s1) as (s' & Hrun & Hv' & H1 & H2 & H3 & H4).
  { exists s'. split_and!; try done. by rewrite Hv', H4. }
  unfold drop_link. destruct (Z.eqb_spec n 1) as [->|Hne].
  - erewrite st_bind_Ok by (eapply kfree_file_ok; cbn [set_files set_tables files]; apply lookup_insert_eq).
    unfold mret, st_ret. eexists. split; [done|].
    rewrite view_delete. cbn [set_files set_tables fdtables current_task irq fs]. rewrite Htb.
    split_and!; try done.
    rewrite <- Hview. unfold view. cbn [set_files set_tables files].
    by rewrite fmap_insert, delete_insert_eq.
  - erewrite st_bind_Ok by done. unfold mret, st_ret. eexists. split; [done|].
    cbn [set_files set_tables fdtables current_task irq fs]. rewrite Htb. split_and!; try done.
    rewrite <- Hview. unfold view. cbn [set_files set_tables files].
    rewrite fmap_insert. cbn [with_count fcount fops fdata]. by rewrite Hfo1.
Qed.

(** A file system knows of a descriptor more. *)
Lemma fs_ok_link v d p n o : fs_ok v d -> v !! p = Some (n, o) -> fs_ok (<[p := (n + 1, o)]> v) d.
Proof.
  intros Hfs Hp. apply (fs_ok_counts v _ d Hfs). intros q. destruct (decide (p = q)) as [<-|Hne].
  - exists 1. rewrite lookup_insert_eq, Hp. split; [lia|done].
  - exists 0. rewrite lookup_insert_ne by done. split; [lia|]. destruct (v !! q) as [[m o']|]; [|done]. cbn. by rewrite Z.add_0_r.
Qed.

(** Counting one link more. *)
Lemma count_up_ok s p n o :
  view s !! p = Some (n, o) ->
  exists s', (f ← get_file p; set_file p (with_count (fcount f + 1) f)) s = Ok (tt, s') /\
    view s' = <[p := (n + 1, o)]> (view s) /\ fdtables s' = fdtables s /\
    current_task s' = current_task s /\ irq s' = irq s /\ fs s' = fs s.
Proof.
  intros Hv. destruct (view_lookup _ _ _ _ Hv) as (f & Hf & <- & <-).
  rewrite (st_bind_Ok _ _ _ _ _ (get_file_ok _ _ _ Hf)), (set_file_ok _ _ _ _ Hf). eexists. split; [done|].
  by rewrite view_insert.
Qed.

(** The least free slot of a table from [i] on, within [n] slots. *)
Definition least_free (tb : list Z) (i k : Z) : Prop :=
  i <= k /\ tb !! Z.to_nat k = Some 0 /\ (forall j, i <= j < k -> exists x, tb !! Z.to_nat j = Some x /\ x <> 0).

Lemma free_or_full tb n i :
  0 <= i -> i + Z.of_nat n <= zlen tb ->
  (exists k, least_free tb i k /\ k < i + Z.of_nat n) \/
  (forall j, i <= j < i + Z.of_nat n -> exists x, tb !! Z.to_nat j = Some x /\ x <> 0).
Proof.
  revert i. induction n as [|n IH]; intros i Hi Hn; [right; lia|].
  destruct (lookup_lt_is_Some_2 tb (Z.to_nat i)) as [x Hx]; [unfold zlen in Hn; lia|].
  destruct (decide (x = 0)) as [->|Hx0].
  - left. exists i. split; [|lia]. split_and!; [lia|done|lia].
  - destruct (IH (i + 1)) as [(k & (Hk1 & Hk2 & Hk3) & Hk4)|Hall]; [lia|lia| |].
    + left. exists k. split; [|lia]. split_and!; [lia|done|]. intros j Hj.
      destruct (decide (j = i)) as [->|]; [eauto|]. apply Hk3. lia.
    + right. intros j Hj. destruct (decide (j = i)) as [->|]; [eauto|]. apply Hall. lia.
Qed.

Lemma dup_loop_full s t tb n i file :
  fdtables s !! t = Some tb -> 0 <= i ->
  (forall j, i <= j < i + Z.of_nat n -> exists x, tb !! Z.to_nat j = Some x /\ x <> 0) ->
  dup_loop n t i file s = Ok (Err EMFILE, s).
Proof.
  intros Ht. revert i. induction n as [|n IH]; intros i Hi Hall; [done|]. cbn [dup_loop].
  destruct (Hall i ltac:(lia)) as (x & Hx & Hx0). rewrite (st_bind_Ok _ _ _ _ _ (get_slot_ok _ _ _ _ _ Ht Hi Hx)).
  replace (x =? 0) with false by lia. apply IH; [lia|]. intros j Hj. apply Hall. lia.
Qed.

Lemma dup_loop_found s t tb n i k file m o :
  fdtables s !! t = Some tb -> 0 <= i -> least_free tb i k -> k < i + Z.of_nat n -> view s !! file = Some (m, o) ->
  exists s', dup_loop n t i file s = Ok (Val k, s') /\ view s' = <[file := (m + 1, o)]> (view s) /\
    fdtables s' = <[t := <[Z.to_nat k := file]> tb]> (fdtables s) /\
    current_task s' = current_task s /\ irq s' = irq s /\ fs s' = fs s.
Proof.
  intros Ht. revert i. induction n as [|n IH]; intros i Hi (Hk & Hk0 & Hbelow) Hn Hv; [lia|]. cbn [dup_loop].
  destruct (decide (i = k)) as [->|Hne].
  - rewrite (st_bind_Ok _ _ _ _ _ (get_slot_ok _ _ _ _ _ Ht Hi Hk0)). cbn [Z.eqb].
    rewrite (st_bind_Ok _ _ _ _ _ (set_slot_ok _ _ _ _ file _ Ht Hi Hk0)).
    set (s1 := set_tables _ s). destruct (count_up_ok s1 file m o Hv) as (s' & Hs' & Hv' & Ht' & Hc' & Hi' & Hfs').
    exists s'. revert Hs'. unfold mbind, st_bind. destruct (get_file file s1) as [[f s2]| | |]; try done.
    intros ->. done.
  - destruct (Hbelow i ltac:(lia)) as (x & Hx & Hx0). rewrite (st_bind_Ok _ _ _ _ _ (get_slot_ok _ _ _ _ _ Ht Hi Hx)).
    replace (x =? 0) with false by lia. apply IH; [lia| |lia|done].
    split_and!; [lia|done|]. intros j Hj. apply Hbelow. lia.
Qed.

(** Descriptor [fd] of the current task refers to the file at [p]. *)
Definition refers s (fd p : Z) : Prop :=
  0 <= fd < MAX_OPEN_FILES /\ p <> 0 /\
  exists tb, fdtables s !! current_task s = Some tb /\ tb !! Z.to_nat fd = Some p.

Lemma refers_filp s fd p : refers s fd p -> get_filp fd s = Ok (p, s).
Proof. intros (Hfd & _ & tb & Ht & Hp). by eapply get_filp_ok. Qed.

Lemma filp_cases s fd : fd_wf s -> (exists p, refers s fd p) \/ get_filp fd s = Ok (0, s).
Proof.
  intros [Hl [[tb Ht] _]]. pose proof (lk_len _ _ Hl _ _ Ht) as Hlen.
  destruct (decide (0 <= fd < MAX_OPEN_FILES)) as [Hfd|Hfd].
  - destruct (lookup_lt_is_Some_2 tb (Z.to_nat fd)) as [x Hx]; [unfold zlen, MAX_OPEN_FILES in *; lia|].
    destruct (decide (x = 0)) as [->|]; [right; by eapply get_filp_ok|]. left. exists x. split_and!; [lia|lia|done|eauto].
  - right. destruct (decide (fd = MAX_OPEN_FILES)) as [->|]; [|apply get_filp_bad; lia].
    destruct (lookup_lt_is_Some_2 tb (Z.to_nat MAX_OPEN_FILES)) as [x Hx]; [unfold zlen, MAX_OPEN_FILES in *; lia|].
    rewrite (lk_high _ _ Hl _ _ _ _ Ht Hx ltac:(unfold MAX_OPEN_FILES; lia)) in Hx.
    unfold get_filp, mbind, st_bind, gets, do_get_filp. cbn [Z.ltb orb]. rewrite Z.ltb_irrefl. cbn [orb].
    by eapply get_slot_ok.
Qed.

Lemma refers_view s fd p : fd_wf s -> refers s fd p -> exists n o, view s !! p = Some (n, o) /\ 1 <= n.
Proof.
  intros [Hl _] (_ & Hp & tb & Ht & Hx). destruct (linked_slot _ _ _ _ _ _ Hl Ht Hx Hp) as (n & o & ? & ? & _). eauto.
Qed.

Lemma close_ok s fd p n o :
  fd_wf s -> refers s fd p -> view s !! p = Some (n, o) ->
  exists s' tb, close fd s = Ok (Val 0, s') /\ fd_wf s' /\ view s' = drop_link p n o (view s) /\
    fdtables s !! current_task s = Some tb /\
    fdtables s' = <[current_task s := <[Z.to_nat fd := 0]> tb]> (fdtables s) /\
    current_task s' = current_task s /\ irq s' = irq s.
Proof.
  intros (Hl & Hcur & Hfs) (Hfd & Hp & tb & Ht & Hx) Hv.
  destruct (do_close_ok s _ tb fd p n o Hl Hfs Ht Hfd Hx Hp Hv) as (s' & Hc & Hv' & Ht' & Hc' & Hi' & Hfs').
  exists s', tb. split_and!; try done. split_and!; [| |done].
  - rewrite Hv', Ht'. eapply linked_unlink; try done. unfold MAX_OPEN_FILES in Hfd. lia.
  - rewrite Ht', Hc', lookup_insert_eq. by eexists.
Qed.

Lemma close_bad s fd : get_filp fd s = Ok (0, s) -> close fd s = Ok (Err EBADF, s).
Proof.
  unfold close, get_filp, do_close, mbind, st_bind, gets. intros Hg. rewrite Hg. done.
Qed.

Lemma unlock_restores s s' : irq s' = false -> exists s'',
  interrupt_unlock (irq s) s' = Ok (tt, s'') /\ files s'' = files s' /\ fdtables s'' = fdtables s' /\
  current_task s'' = current_task s' /\ irq s'' = irq s /\ fs s'' = fs s'.
Proof.
  intros Hi. unfold interrupt_unlock. destruct (irq s); [eexists; split; [done|]; done|].
  exists s'. split_and!; done.
Qed.

Lemma vfs_eq s s' :
  files s = files s' -> fdtables s = fdtables s' -> current_task s = current_task s' -> irq s = irq s' ->
  fs s = fs s' -> s = s'.
Proof. destruct s, s'; cbn. congruence. Qed.

(** [dup] on a descriptor in use takes the lowest free one, unless all are taken. *)
Lemma dup_ok s fd p n o tb :
  fd_wf s -> refers s fd p -> view s !! p = Some (n, o) -> fdtables s !! current_task s = Some tb ->
  (exists k s', least_free tb 0 k /\ k < MAX_OPEN_FILES /\ dup fd s = Ok (Val k, s') /\ fd_wf s' /\
     view s' = <[p := (n + 1, o)]> (view s) /\
     fdtables s' = <[current_task s := <[Z.to_nat k := p]> tb]> (fdtables s) /\
     current_task s' = current_task s /\ irq s' = irq s) \/
  ((forall j, 0 <= j < MAX_OPEN_FILES -> exists x, tb !! Z.to_nat j = Some x /\ x <> 0) /\
   dup fd s = Ok (Err EMFILE, s)).
Proof.
  intros (Hl & Hcur & Hfs) Href Hv Ht. pose proof (lk_len _ _ Hl _ _ Ht) as Hlen.
  set (s1 := set_irq false s). assert (refers s1 fd p) as Href1 by done.
  assert (p <> 0) as Hp by apply Href.
  destruct (free_or_full tb (Z.to_nat MAX_OPEN_FILES) 0) as [(k & Hk & Hlt)|Hall];
    [lia|unfold MAX_OPEN_FILES in *; lia| |].
  - left. destruct (dup_loop_found s1 _ tb (Z.to_nat MAX_OPEN_FILES) 0 k p n o Ht ltac:(lia) Hk Hlt Hv)
      as (s2 & Hd & Hv2 & Ht2 & Hc2 & Hi2 & Hfs2).
    destruct (unlock_restores s s2 Hi2) as (s' & Hun & Hf' & Ht' & Hc' & Hi' & Hfs').
    assert (view s' = view s2) as Hv' by (unfold view; by rewrite Hf').
    exists k, s'. split_and!; try done; try congruence.
    + unfold dup. rewrite (st_bind_Ok _ _ _ (irq s) s1) by done.
      rewrite (st_bind_Ok _ _ _ _ _ (refers_filp _ _ _ Href1)). replace (p =? 0) with false by lia.
      rewrite (st_bind_Ok _ _ _ (current_task s) s1) by done. rewrite (st_bind_Ok _ _ _ _ _ Hd).
      by rewrite (st_bind_Ok _ _ _ _ _ Hun).
    + split_and!.
      * rewrite Hv', Hv2, Ht', Ht2. destruct Hk as (? & Hk0 & _).
        eapply linked_link; try done. unfold MAX_OPEN_FILES in *; lia.
      * rewrite Hc', Hc2, Ht', Ht2. cbn [s1 set_irq current_task]. rewrite lookup_insert_eq. by eexists.
      * rewrite Hv', Hv2, Hfs', Hfs2. by apply fs_ok_link.
    + by rewrite Hv', Hv2.
    + by rewrite Ht', Ht2.
    + by rewrite Hc', Hc2.
  - right. split; [intros j Hj; apply Hall; unfold MAX_OPEN_FILES in *; lia|].
    unfold dup. rewrite (st_bind_Ok _ _ _ (irq s) s1) by done.
    rewrite (st_bind_Ok _ _ _ _ _ (refers_filp _ _ _ Href1)). replace (p =? 0) with false by lia.
    rewrite (st_bind_Ok _ _ _ (current_task s) s1) by done.
    rewrite (st_bind_Ok _ _ _ _ _ (dup_loop_full s1 _ tb _ 0 p Ht ltac:(lia) Hall)).
    destruct (unlock_restores s s1 eq_refl) as (s' & Hun & Hf' & Ht' & Hc' & Hi' & Hfs').
    rewrite (st_bind_Ok _ _ _ _ _ Hun). replace s with s'; [done|]. by apply vfs_eq.
Qed.

Lemma get_filp_irq s fd p : get_filp fd s = Ok (p, s) -> get_filp fd (set_irq false s) = Ok (p, set_irq false s).
Proof.
  unfold get_filp, do_get_filp, get_slot, mbind, st_bind, gets, lift, mret, st_ret.
  destruct (_ || _); [congruence|]. change (fdtables (set_irq false s)) with (fdtables s).
  change (current_task (set_irq false s)) with (current_task s).
  destruct (fdtables s !! current_task s) as [tb|]; cbn [deref]; [|done]. destruct (aget tb fd); congruence.
Qed.

Lemma dup_bad s fd : get_filp fd s = Ok (0, s) -> dup fd s = Ok (Err EBADF, s).
Proof.
  intros Hg. unfold dup. rewrite (st_bind_Ok _ _ _ (irq s) (set_irq false s)) by done.
  rewrite (st_bind_Ok _ _ _ _ _ (get_filp_irq _ _ _ Hg)). cbn [Z.eqb].
  destruct (unlock_restores s (set_irq false s) eq_refl) as (s' & Hun & Hf' & Ht' & Hc' & Hi' & Hfs').
  rewrite (st_bind_Ok _ _ _ _ _ Hun). replace s with s'; [done|]. by apply vfs_eq.
Qed.

(** The end of [dup2]: [fd2] is free and takes the file. *)
Lemma link_ok s fd2 file n o tb b :
  fd_wf s -> fdtables s !! current_task s = Some tb -> 0 <= fd2 < MAX_OPEN_FILES ->
  tb !! Z.to_nat fd2 = Some 0 -> view s !! file = Some (n, o) ->
  irq s = false ->
  exists s', (t ← gets current_task; p ← get_slot t fd2; ensure (p =? 0) ;; set_slot t fd2 file ;;
     f ← get_file file; set_file file (with_count (fcount f + 1) f) ;; interrupt_unlock b ;; mret (Val fd2)) s =
     Ok (Val fd2, s') /\ fd_wf s' /\ view s' = <[file := (n + 1, o)]> (view s) /\
     fdtables s' = <[current_task s := <[Z.to_nat fd2 := file]> tb]> (fdtables s) /\
     current_task s' = current_task s /\ irq s' = b.
Proof.
  intros (Hl & Hcur & Hfs) Ht Hfd H0 Hv Hirq. rewrite (st_bind_Ok _ _ _ (current_task s) s) by done.
  rewrite (st_bind_Ok _ _ _ _ _ (get_slot_ok _ _ _ _ _ Ht (proj1 Hfd) H0)). erewrite st_bind_Ok by done.
  rewrite (st_bind_Ok _ _ _ _ _ (set_slot_ok _ _ _ _ file _ Ht (proj1 Hfd) H0)).
  set (s1 := set_tables _ s). destruct (view_lookup s1 file n o Hv) as (f & Hf & <- & <-).
  rewrite (st_bind_Ok _ _ _ _ _ (get_file_ok _ _ _ Hf)), (st_bind_Ok _ _ _ _ _ (set_file_ok _ _ _ _ Hf)).
  set (s2 := set_files _ s1).
  assert (exists s', interrupt_unlock b s2 = Ok (tt, s') /\ view s' = view s2 /\ fdtables s' = fdtables s2 /\
    current_task s' = current_task s2 /\ irq s' = b /\ fs s' = fs s2) as (s' & Hun & Hv' & Ht' & Hc' & Hi' & Hfs').
  { destruct b; [by exists (set_irq true s2)|by exists s2]. }
  exists s'. rewrite (st_bind_Ok _ _ _ _ _ Hun). rewrite Hv', Ht', Hc'. unfold s2. rewrite view_insert.
  split_and!; try done. split_and!; [rewrite Hv', Ht'|rewrite Ht', Hc'|rewrite Hv', Hfs'].
  - unfold s2. rewrite view_insert. cbn [with_count fcount fops fdata set_files set_tables fdtables s1].
    eapply (linked_link (view s)); try done. unfold MAX_OPEN_FILES in *; lia.
  - cbn. rewrite lookup_insert_eq. by eexists.
  - unfold s2. rewrite view_insert. cbn [with_count fcount fops fdata]. by apply (fs_ok_link (view s)).
Qed.

(** [dup2] onto another descriptor: what was open there is closed first. *)
Lemma dup2_ok s fd fd2 p n o tb q :
  fd_wf s -> refers s fd p -> fd <> fd2 -> 0 <= fd2 < MAX_OPEN_FILES -> view s !! p = Some (n, o) ->
  fdtables s !! current_task s = Some tb -> tb !! Z.to_nat fd2 = Some q ->
  exists s' v, dup2 fd fd2 s = Ok (Val fd2, s') /\ fd_wf s' /\
    v = (if q =? 0 then view s else match view s !! q with Some (k, oq) => drop_link q k oq (view s) | None => view s end) /\
    (exists m, v !! p = Some (m, o) /\ view s' = <[p := (m + 1, o)]> v) /\
    fdtables s' = <[current_task s := <[Z.to_nat fd2 := p]> tb]> (fdtables s) /\
    current_task s' = current_task s /\ irq s' = irq s.
Proof.
  intros Hwf Href Hne Hfd2 Hv Ht Hq. unfold dup2.
  replace ((fd2 <? 0) || (MAX_OPEN_FILES <=? fd2)) with false by lia.
  rewrite (st_bind_Ok _ _ _ (irq s) (set_irq false s)) by done. set (s1 := set_irq false s).
  assert (fd_wf s1) as Hwf1 by done. assert (refers s1 fd p) as Href1 by done.
  rewrite (st_bind_Ok _ _ _ _ _ (refers_filp _ _ _ Href1)). assert (p <> 0) as Hp by apply Href.
  replace (p =? 0) with false by lia.
  rewrite (st_bind_Ok _ _ _ q s1) by (by eapply get_filp_ok).
  destruct (Z.eqb_spec q 0) as [->|Hq0].
  - erewrite (st_bind_Ok _ _ s1) by done.
    destruct (link_ok s1 fd2 p n o tb (irq s) Hwf1 Ht Hfd2 Hq Hv eq_refl) as (s' & Hs' & Hwf' & Hv' & Ht' & Hc' & Hi').
    exists s', (view s). split_and!; try done. by exists n.
  - assert (refers s1 fd2 q) as Href2 by (split_and!; [lia|lia|done|eauto]).
    destruct (refers_view s1 fd2 q Hwf1 Href2) as (k & oq & Hvq & Hk).
    destruct (close_ok s1 fd2 q k oq Hwf1 Href2 Hvq) as (s2 & tb' & Hc & Hwf2 & Hv2 & Ht1 & Ht2 & Hc2 & Hi2).
    assert (tb' = tb) as -> by (cbn in Ht1; congruence).
    erewrite (st_bind_Ok _ _ s1) by (by rewrite (st_bind_Ok _ _ _ _ _ Hc)).
    assert (exists m, view s2 !! p = Some (m, o)) as [m Hm].
    { rewrite Hv2. destruct (decide (q = p)) as [->|Hqp]; [|rewrite drop_link_ne by done; eauto].
      assert (k = n /\ oq = o) as [-> ->] by (change (view s1) with (view s) in Hvq; split; congruence).
      unfold drop_link. destruct (Z.eqb_spec n 1) as [->|]; [|rewrite lookup_insert_eq; eauto].
      exfalso. destruct Hwf as [Hl _]. destruct (lk_count _ _ Hl _ _ _ Hv) as (_ & Hlinks & _).
      destruct Href as (Hfd & _ & tb0 & Ht0 & Hx). assert (tb0 = tb) as -> by congruence.
      assert (1 < links (fdtables s) p); [|lia].
      pose proof (links_write (fdtables s) (current_task s) tb (Z.to_nat fd2) p 0 p Ht Hq) as Hw.
      rewrite Z.eqb_refl in Hw. replace (0 =? p) with false in Hw by lia.
      assert (0 < links (<[current_task s := <[Z.to_nat fd2 := 0]> tb]> (fdtables s)) p); [|lia].
      eapply (links_slot _ (current_task s) _ (Z.to_nat fd)); [apply lookup_insert_eq|].
      rewrite list_lookup_insert_ne by lia. done. }
    assert (fdtables s2 !! current_task s2 = Some (<[Z.to_nat fd2 := 0]> tb)) as Ht2'
      by (by rewrite Hc2, Ht2, lookup_insert_eq).
    destruct (link_ok s2 fd2 p m o _ (irq s) Hwf2 Ht2' Hfd2) as (s' & Hs' & Hwf' & Hv' & Ht' & Hc' & Hi'); try done.
    { apply list_lookup_insert_eq. by eapply lookup_lt_Some. }
    exists s', (view s2). split_and!; try done.
    + change (view s1) with (view s) in *. by rewrite Hvq.
    + by exists m.
    + rewrite Ht', Hc2, Ht2. cbn [s1 set_irq current_task fdtables].
      by rewrite insert_insert_eq, list_insert_insert_eq.
    + by rewrite Hc', Hc2.
Qed.

Lemma dup2_bad s fd fd2 :
  fd_wf s -> get_filp fd s = Ok (0, s) \/ ~ (0 <= fd2 < MAX_OPEN_FILES) -> dup2 fd fd2 s = Ok (Err EBADF, s).
Proof.
  intros Hwf Hbad. unfold dup2. destruct ((fd2 <? 0) || (MAX_OPEN_FILES <=? fd2)) eqn:E; [done|].
  destruct Hbad as [Hg|Hbad]; [|lia].
  rewrite (st_bind_Ok _ _ _ (irq s) (set_irq false s)) by done.
  rewrite (st_bind_Ok _ _ _ _ _ (get_filp_irq _ _ _ Hg)). cbn [Z.eqb].
  destruct (unlock_restores s (set_irq false s) eq_refl) as (s' & Hun & Hf' & Ht' & Hc' & Hi' & Hfs').
  rewrite (st_bind_Ok _ _ _ _ _ Hun). replace s with s'; [done|]. by apply vfs_eq.
Qed.

(** ** New files *)
Lemma new_filp_found s tb n i k :
  fdtables s !! current_task s = Some tb -> 0 <= i -> least_free tb i k -> k <= i + Z.of_nat n ->
  exists p, new_filp_loop n (current_task s) i s =
    Ok ((k, p), set_tables (insert (current_task s) (<[Z.to_nat k := p]> tb)) (set_files (insert p zero_file) s)) /\
    p = kmalloc_file s.
Proof.
  intros Ht. revert i. induction n as [|n IH]; intros i Hi (Hk & Hk0 & Hbelow) Hn.
  - assert (i = k) as -> by lia. cbn [new_filp_loop].
    rewrite (st_bind_Ok _ _ _ _ _ (get_slot_ok _ _ _ _ _ Ht Hi Hk0)). cbn [Z.eqb].
    rewrite (st_bind_Ok _ _ _ (kmalloc_file s) s) by done. erewrite st_bind_Ok by done.
    erewrite st_bind_Ok by (by eapply set_slot_ok). eauto.
  - cbn [new_filp_loop]. destruct (decide (i = k)) as [->|Hne].
    + rewrite (st_bind_Ok _ _ _ _ _ (get_slot_ok _ _ _ _ _ Ht Hi Hk0)). cbn [Z.eqb].
      rewrite (st_bind_Ok _ _ _ (kmalloc_file s) s) by done. erewrite st_bind_Ok by done.
      erewrite st_bind_Ok by (by eapply set_slot_ok). eauto.
    + destruct (Hbelow i ltac:(lia)) as (x & Hx & Hx0).
      rewrite (st_bind_Ok _ _ _ _ _ (get_slot_ok _ _ _ _ _ Ht Hi Hx)).
      replace (x =? 0) with false by lia. apply IH; [lia| |lia].
      split_and!; [lia|done|]. intros j Hj. apply Hbelow. lia.
Qed.

Lemma new_filp_ok s tb k :
  fdtables s !! current_task s = Some tb -> least_free tb 0 k -> k <= MAX_OPEN_FILES ->
  new_filp s = Ok ((k, kmalloc_file s),
    set_tables (insert (current_task s) (<[Z.to_nat k := kmalloc_file s]> tb)) (set_files (insert (kmalloc_file s) zero_file) s)).
Proof.
  intros Ht Hk Hle. unfold new_filp. rewrite (st_bind_Ok _ _ _ (current_task s) s) by done.
  destruct (new_filp_found s tb (Z.to_nat MAX_OPEN_FILES) 0 k Ht) as (p & Hp & ->); [lia|done|unfold MAX_OPEN_FILES in *; lia|done].
Qed.

(** The two ends of a pipe are the two lowest free descriptors. *)
Lemma pipe_fds_ok s tb k1 k2 :
  fd_wf s -> fdtables s !! current_task s = Some tb -> least_free tb 0 k1 -> least_free tb (k1 + 1) k2 ->
  k2 < MAX_OPEN_FILES ->
  exists s' p p1 p2, pipe_fds s = Ok ((k1, k2), s') /\ fd_wf s' /\
    view s !! p1 = None /\ view s !! p2 = None /\ p1 <> p2 /\
    view s' = <[p2 := (1, (pipe_ops, p))]> (<[p1 := (1, (pipe_ops, p))]> (view s)) /\
    fdtables s' = <[current_task s := <[Z.to_nat k2 := p2]> (<[Z.to_nat k1 := p1]> tb)]> (fdtables s) /\
    current_task s' = current_task s /\ irq s' = irq s.
Proof.
  intros (Hl & Hcur & Hfs) Ht Hk1 Hk2 Hlt. assert (k1 < k2) by (destruct Hk2; lia).
  set (p1 := kmalloc_file s). set (tb1 := <[Z.to_nat k1 := p1]> tb).
  set (s1 := set_tables (insert (current_task s) tb1) (set_files (insert p1 zero_file) s)).
  assert (new_filp s = Ok ((k1, p1), s1)) as Hn1 by (apply new_filp_ok; [done|done|lia]).
  set (p2 := kmalloc_file s1). set (tb2 := <[Z.to_nat k2 := p2]> tb1).
  set (s2 := set_tables (insert (current_task s) tb2) (set_files (insert p2 zero_file) s1)).
  pose proof (kmalloc_not_null s) as Hp1. fold p1 in Hp1. pose proof (kmalloc_not_null s1) as Hp2. fold p2 in Hp2.
  assert (fdtables s1 !! current_task s = Some tb1) as Ht1 by (cbn; by rewrite lookup_insert_eq).
  assert (least_free tb1 0 k2) as Hk2'.
  { destruct Hk1 as (? & Hk10 & Hb1), Hk2 as (? & Hk20 & Hb2). unfold tb1.
    split_and!; [lia|rewrite list_lookup_insert_ne by lia; done|]. intros j Hj.
    destruct (decide (j = k1)) as [->|].
    - exists p1. rewrite list_lookup_insert_eq by (by eapply lookup_lt_Some). done.
    - rewrite list_lookup_insert_ne by lia. destruct (decide (j < k1)); [apply Hb1; lia|apply Hb2; lia]. }
  assert (new_filp s1 = Ok ((k2, p2), s2)) as Hn2 by (by apply (new_filp_ok s1); [|done|lia]).
  pose proof (kmalloc_fresh s) as Hf1. fold p1 in Hf1.
  assert (files s !! p2 = None /\ p1 <> p2) as [Hf2 Hne].
  { pose proof (kmalloc_fresh s1) as Hf. fold p2 in Hf. cbn in Hf. destruct (decide (p1 = p2)) as [E|E].
    - rewrite E, lookup_insert_eq in Hf. done.
    - rewrite lookup_insert_ne in Hf by done. done. }
  assert (view s !! p1 = None /\ view s !! p2 = None) as [Hv1 Hv2] by (unfold view; rewrite !lookup_fmap, Hf1, Hf2; done).
  set (made := with_count 1 zero_file). set (s3 := set_files (insert p2 made) (set_files (insert p1 made) s2)).
  destruct (make_pipe_ok s3 (view s) p1 p2 Hfs Hv1 Hv2 Hne Hp1 Hp2) as (p & d & Hmake & Hfs').
  set (ready := pipe_end p made).
  set (s' := set_files (insert p2 ready) (set_files (insert p1 ready) (mk_vfs (files s3) (fdtables s3) (current_task s3) (irq s3) d))).
  assert (pipe_fds s = Ok ((k1, k2), s')) as Hrun.
  { unfold pipe_fds. rewrite (st_bind_Ok _ _ _ _ _ Hn1), (st_bind_Ok _ _ _ _ _ Hn2).
    do 2 (erewrite st_bind_Ok;
      [|apply get_file_ok; cbn; (apply lookup_insert_eq || (rewrite lookup_insert_ne by done; apply lookup_insert_eq))];
      erewrite st_bind_Ok;
      [|eapply set_file_ok; cbn; (apply lookup_insert_eq || (rewrite lookup_insert_ne by done; apply lookup_insert_eq))]).
    rewrite (st_bind_Ok _ _ _ _ _ Hmake).
    do 2 (erewrite st_bind_Ok;
      [|apply get_file_ok; cbn; (apply lookup_insert_eq || (rewrite lookup_insert_ne by done; apply lookup_insert_eq))];
      erewrite st_bind_Ok;
      [|eapply set_file_ok; cbn; (apply lookup_insert_eq || (rewrite lookup_insert_ne by done; apply lookup_insert_eq))]).
    done. }
  set (ops := (pipe_ops, p)) in *.
  assert (view s' = <[p2 := (1, ops)]> (<[p1 := (1, ops)]> (view s))) as Hv'.
  { unfold s', s3, s2, s1, view. cbn [set_files set_tables files]. rewrite !fmap_insert. cbn [ready made pipe_end with_count fcount fops fdata].
    apply map_eq. intros q. destruct (decide (q = p2)) as [->|]; [by rewrite !lookup_insert_eq|].
    rewrite !(lookup_insert_ne _ p2) by done. destruct (decide (q = p1)) as [->|]; [by rewrite !lookup_insert_eq|].
    by repeat rewrite lookup_insert_ne by done. }
  assert (fdtables s' = <[current_task s := tb2]> (fdtables s)) as Ht'.
  { unfold s', s3, s2, s1. cbn [set_files set_tables fdtables]. by rewrite insert_insert_eq. }
  pose proof usable_pipe as Hu. exists s', p, p1, p2. split_and!; try done. split_and!; [| |by rewrite Hv'].
  - rewrite Hv', Ht'. destruct Hk1 as (? & Hk10 & _), Hk2' as (? & Hk20 & _).
    replace (<[current_task s := tb2]> (fdtables s)) with (<[current_task s := tb2]> (<[current_task s := tb1]> (fdtables s)))
      by apply insert_insert_eq.
    unfold MAX_OPEN_FILES in *.
    apply (linked_new _ _ (current_task s) tb1 (Z.to_nat k2) p2 ops);
      [apply (linked_new _ _ (current_task s) tb (Z.to_nat k1) p1 ops); done || lia
      |apply lookup_insert_eq|done|lia|by rewrite lookup_insert_ne|done|done].
  - change (current_task s') with (current_task s). rewrite Ht', lookup_insert_eq. by eexists.
Qed.

(** ** Fork and exit *)

(** The loop of [fork] counts the links of the slots it passes. *)
Lemma fork_loop_ok parent child tb n i s :
  fdtables s !! parent = Some tb -> fdtables s !! child = Some tb -> 0 <= i -> i + Z.of_nat n <= zlen tb ->
  (forall p, p ∈ tb -> p <> 0 -> exists m o, view s !! p = Some (m, o) /\ 1 <= m) ->
  view s !! 0 = None ->
  exists s', fork_loop n parent child i s = Ok (tt, s') /\ fdtables s' = fdtables s /\
    current_task s' = current_task s /\ irq s' = irq s /\ fs s' = fs s /\
    forall p, view s' !! p = (fun '(m, o) => (m + occ p (take n (drop (Z.to_nat i) tb)), o)) <$> view s !! p.
Proof.
  revert i s. induction n as [|n IH]; intros i s Hp Hc Hi Hn Hlive Hnull; cbn [fork_loop].
  - exists s. split_and!; try done. intros p. cbn [take occ]. destruct (view s !! p) as [[m o]|]; [|done]. cbn. by rewrite Z.add_0_r.
  - destruct (lookup_lt_is_Some_2 tb (Z.to_nat i)) as [x Hx]; [unfold zlen in Hn; lia|].
    rewrite (st_bind_Ok _ _ _ _ _ (get_slot_ok _ _ _ _ _ Hc Hi Hx)).
    assert (drop (Z.to_nat i) tb = x :: drop (Z.to_nat (i + 1)) tb) as Hdrop.
    { rewrite (drop_S _ x) by done. by replace (S (Z.to_nat i)) with (Z.to_nat (i + 1)) by lia. }
    rewrite Hdrop. cbn [take]. destruct (Z.eqb_spec x 0) as [->|Hx0].
    + rewrite (st_bind_Ok _ _ _ tt s) by done.
      destruct (IH (i + 1) s) as (s' & Hs' & H1 & H2 & H3 & H4 & Hv'); try done; [lia|lia|].
      exists s'. split_and!; try done. intros p. rewrite Hv'. cbn [occ].
      destruct (Z.eqb_spec 0 p) as [<-|]; [by rewrite Hnull|]. done.
    + destruct (Hlive x) as (m & o & Hvx & Hm); [by eapply list_elem_of_lookup_2|done|].
      destruct (view_lookup _ _ _ _ Hvx) as (f & Hf & Hfm & Hfo).
      erewrite (st_bind_Ok _ _ s).
      2:{ rewrite (st_bind_Ok _ _ _ _ _ (get_slot_ok _ _ _ _ _ Hp Hi Hx)), (st_bind_Ok _ _ _ _ _ (get_file_ok _ _ _ Hf)).
          erewrite st_bind_Ok by (apply ensure_true; lia).
          rewrite (st_bind_Ok _ _ _ _ _ (get_file_ok _ _ _ Hf)). eapply set_file_ok, Hf. }
      set (s1 := set_files _ s). assert (view s1 = <[x := (m + 1, o)]> (view s)) as Hv1.
      { unfold s1. rewrite view_insert. cbn [with_count fcount fops fdata]. by rewrite Hfm, Hfo. }
      destruct (IH (i + 1) s1) as (s' & Hs' & H1 & H2 & H3 & H4 & Hv'); try done; [lia|lia| | |].
      { intros q Hq Hq0. rewrite Hv1. destruct (decide (x = q)) as [<-|]; [rewrite lookup_insert_eq; eexists _, _; split; [done|lia]|].
        rewrite lookup_insert_ne by done. by apply Hlive. }
      { rewrite Hv1, lookup_insert_ne by done. done. }
      exists s'. split_and!; try done. intros q. rewrite Hv', Hv1. cbn [occ].
      destruct (Z.eqb_spec x q) as [<-|Hne]; [|by rewrite lookup_insert_ne].
      rewrite lookup_insert_eq, Hvx. cbn. f_equal. f_equal. lia.
Qed.

Lemma occ_take_drop p tb : (forall i x, tb !! i = Some x -> (128 <= i)%nat -> x = 0) -> p <> 0 -> occ p (take 128 tb) = occ p tb.
Proof.
  intros H0 Hp. rewrite <- (take_drop 128 tb) at 2. rewrite occ_app.
  enough (occ p (drop 128 tb) = 0) by lia. pose proof (occ_nonneg p (drop 128 tb)).
  destruct (decide (0 < occ p (drop 128 tb))) as [Hpos|]; [|lia].
  apply occ_elem, list_elem_of_lookup_1 in Hpos as [i Hi]. rewrite lookup_drop in Hi. apply H0 in Hi; [done|lia].
Qed.

Lemma fork_ok s parent child tb :
  fd_wf s -> fdtables s !! parent = Some tb -> fdtables s !! child = None ->
  exists s', fork_fdtable parent child s = Ok (tt, s') /\ fd_wf s' /\
    fdtables s' = <[child := tb]> (fdtables s) /\ current_task s' = current_task s /\ irq s' = irq s /\
    forall p, view s' !! p = (fun '(n, o) => (n + occ p tb, o)) <$> view s !! p.
Proof.
  intros (Hl & Hcur & Hfs) Hp Hc. pose proof (lk_len _ _ Hl _ _ Hp) as Hlen. assert (parent <> child) by congruence.
  unfold fork_fdtable. rewrite (st_bind_Ok _ _ _ (Some tb) s) by (unfold gets; by rewrite Hp).
  rewrite (st_bind_Ok _ _ _ tb s) by done. erewrite st_bind_Ok by done.
  set (s1 := set_tables (insert child tb) s).
  destruct (fork_loop_ok parent child tb (Z.to_nat MAX_OPEN_FILES) 0 s1) as (s' & Hs' & Ht' & Hc' & Hi' & Hfs' & Hv').
  - cbn. by rewrite lookup_insert_ne.
  - cbn. by rewrite lookup_insert_eq.
  - lia.
  - unfold MAX_OPEN_FILES in *; lia.
  - intros p [i Hi]%list_elem_of_lookup_1 Hp0. change (view s1) with (view s).
    destruct (linked_slot _ _ _ _ _ _ Hl Hp Hi Hp0) as (m & o & ? & ? & _). eauto.
  - apply (lk_null _ _ Hl).
  - assert (forall p, view s' !! p = (fun '(n, o) => (n + occ p tb, o)) <$> view s !! p) as Hv.
    { intros p. rewrite Hv'. change (view s1) with (view s). destruct (decide (p = 0)) as [->|Hp0].
      - by rewrite (lk_null _ _ Hl).
      - change (Z.to_nat MAX_OPEN_FILES) with 128%nat. change (Z.to_nat 0) with 0%nat. cbn [drop].
        rewrite occ_take_drop; [done| |done]. intros i x Hi. by apply (lk_high _ _ Hl _ _ _ _ Hp Hi). }
    exists s'. rewrite Ht', Hc', Hi'. split_and!; try done. split_and!.
    + rewrite Ht'. by eapply linked_fork.
    + rewrite Ht', Hc'. cbn. destruct (decide (child = current_task s)) as [<-|]; [rewrite lookup_insert_eq; by eexists|].
      by rewrite lookup_insert_ne.
    + rewrite Hfs'. apply (fs_ok_counts (view s) _ _ Hfs). intros p. exists (occ p tb). split; [apply occ_nonneg|]. rewrite Hv. by destruct (view s !! p) as [[? ?]|].
Qed.

Lemma close_all_ok t n i s tb :
  linked (view s) (fdtables s) -> fs_ok (view s) (fs s) -> fdtables s !! t = Some tb -> 0 <= i -> i + Z.of_nat n <= MAX_OPEN_FILES ->
  (forall j x, tb !! j = Some x -> (j < Z.to_nat i)%nat -> x = 0) ->
  exists s' tb', close_all n t i s = Ok (tt, s') /\ linked (view s') (fdtables s') /\ fs_ok (view s') (fs s') /\
    fdtables s' = <[t := tb']> (fdtables s) /\ current_task s' = current_task s /\ irq s' = irq s /\
    (forall j x, tb' !! j = Some x -> (j < Z.to_nat (i + Z.of_nat n))%nat -> x = 0).
Proof.
  revert i s tb. induction n as [|n IH]; intros i s tb Hl Hfs Ht Hi Hn Hz; cbn [close_all].
  - exists s, tb. replace (i + Z.of_nat 0) with i by lia. split_and!; try done. by rewrite insert_id.
  - pose proof (lk_len _ _ Hl _ _ Ht) as Hlen.
    destruct (lookup_lt_is_Some_2 tb (Z.to_nat i)) as [x Hx]; [unfold zlen, MAX_OPEN_FILES in *; lia|].
    rewrite (st_bind_Ok _ _ _ _ _ (get_slot_ok _ _ _ _ _ Ht Hi Hx)).
    replace (i + Z.of_nat (S n)) with (i + 1 + Z.of_nat n) by lia. destruct (Z.eqb_spec x 0) as [->|Hx0].
    + rewrite (st_bind_Ok _ _ _ tt s) by done. apply (IH (i + 1) s tb); try done; [lia|lia|].
      intros j y Hj Hlt. destruct (decide (j = Z.to_nat i)) as [->|]; [congruence|]. apply (Hz j y Hj). lia.
    + destruct (linked_slot _ _ _ _ _ _ Hl Ht Hx Hx0) as (m & o & Hv & Hm & Hu).
      assert (0 <= i < MAX_OPEN_FILES) as Hfd by lia.
      destruct (do_close_ok s t tb i x m o Hl Hfs Ht Hfd Hx Hx0 Hv) as (s1 & Hc & Hv1 & Ht1 & Hc1 & Hi1 & Hfs1).
      set (tb1 := <[Z.to_nat i := 0]> tb) in *.
      assert (fdtables s1 !! t = Some tb1) as Htb1 by (by rewrite Ht1, lookup_insert_eq).
      assert (tb1 !! Z.to_nat i = Some 0) as Hi0 by (apply list_lookup_insert_eq; by eapply lookup_lt_Some).
      erewrite (st_bind_Ok _ _ s).
      2:{ rewrite (st_bind_Ok _ _ _ _ _ Hc). erewrite st_bind_Ok by done.
          rewrite (st_bind_Ok _ _ _ _ _ (get_slot_ok _ _ _ _ _ Htb1 Hi Hi0)). by apply ensure_true. }
      destruct (IH (i + 1) s1 tb1) as (s' & tb' & Hs' & Hl' & Hfs' & Ht' & Hc' & Hi' & Hz'); try done; [ |lia|lia| |].
      { rewrite Hv1, Ht1. eapply linked_unlink; try done. unfold MAX_OPEN_FILES in *; lia. }
      { intros j y Hj Hlt. destruct (decide (j = Z.to_nat i)) as [->|]; [congruence|].
        unfold tb1 in Hj. rewrite list_lookup_insert_ne in Hj by lia. apply (Hz j y Hj). lia. }
      exists s', tb'. split_and!; try done; try congruence. by rewrite Ht', Ht1, insert_insert_eq.
Qed.

Lemma destroy_ok s t :
  fd_wf s -> is_Some (fdtables s !! t) -> t <> current_task s ->
  exists s', destroy_fdtable t s = Ok (tt, s') /\ fd_wf s' /\ fdtables s' = delete t (fdtables s) /\
    current_task s' = current_task s /\ irq s' = irq s.
Proof.
  intros (Hl & Hcur & Hfs) [tb Ht] Hne. pose proof (lk_len _ _ Hl _ _ Ht) as Hlen.
  destruct (close_all_ok t (Z.to_nat MAX_OPEN_FILES) 0 s tb Hl Hfs Ht ltac:(lia)) as (s1 & tb' & Hs1 & Hl1 & Hfs1 & Ht1 & Hc1 & Hi1 & Hz);
    [unfold MAX_OPEN_FILES; lia|lia|].
  unfold destroy_fdtable. rewrite (st_bind_Ok _ _ _ _ _ Hs1).
  eexists. split; [done|]. cbn [set_tables fdtables current_task irq]. rewrite Ht1.
  assert (delete t (<[t := tb']> (fdtables s)) = delete t (fdtables s)) as Hdel by apply delete_insert_eq.
  rewrite Hdel. split_and!; try done. split_and!; [| |done].
  - change (view (set_tables (delete t) s1)) with (view s1). cbn [set_tables fdtables].
    eapply linked_delete; [done|by rewrite Ht1, lookup_insert_eq|]. intros i x Hi.
    destruct (decide (i < 128)%nat) as [Hlt|].
    + apply (Hz i x Hi). unfold MAX_OPEN_FILES. lia.
    + eapply (lk_high _ _ Hl1 t tb' i x); [by rewrite Ht1, lookup_insert_eq|done|lia].
  - cbn [set_tables fdtables current_task]. rewrite Ht1, Hdel, Hc1. by rewrite lookup_delete_ne.
Qed.
End Ops.

(** ** The descriptor operations as a transition system *)
Inductive fd_op :=
| Dup (fd : Z) | Dup2 (fd fd2 : Z) | Close (fd : Z) | Pipe
| Fork (child : Z) | Exit (task : Z) | Switch (task : Z).

Section Invariant.
Context {D : Type} `{FileSystems D}.
Implicit Types s : vfs D.

Definition run_op (op : fd_op) : ST (vfs D) ret :=
  match op with
  | Dup fd => dup fd
  | Dup2 fd fd2 => dup2 fd fd2
  | Close fd => close fd
  | Pipe => '(rd, _) ← pipe_fds; mret (Val rd)
  | Fork child => t ← gets current_task; fork_fdtable t child ;; mret (Val 0)
  | Exit task => destroy_fdtable task ;; mret (Val 0)
  | Switch task => modify (fun s => mk_vfs (files s) (fdtables s) task (irq s) (fs s)) ;; mret (Val 0)
  end.

(** When an operation may run: [dup2] onto the same descriptor is excluded, a pipe needs two free
    descriptors, the table of the running task is not destroyed. *)
Definition allowed (op : fd_op) s : Prop :=
  match op with
  | Dup _ | Close _ => True
  | Dup2 fd fd2 => fd <> fd2
  | Pipe =>
      exists tb k1 k2, fdtables s !! current_task s = Some tb /\ least_free tb 0 k1 /\ least_free tb (k1 + 1) k2 /\
        k2 < MAX_OPEN_FILES
  | Fork child => fdtables s !! child = None
  | Exit task => is_Some (fdtables s !! task) /\ task <> current_task s
  | Switch task => is_Some (fdtables s !! task)
  end.

(** C12: The reference counts are right at all times: [dup], [dup2] between different descriptors (onto itself it uses a freed
    file, [dup2_self_use_after_free]), [close], [pipe] in a task with two free descriptors below 128 (with one, the second end is number 128, which [fork] and the destruction of
    the task do not know, [new_filp_128]), [fork] into a task without a table, the destruction of a task other than the running one and the switch to another task all return (no panic, no use
    of a freed file), keep each file's [count] equal to the number of descriptors of all tasks
    that refer to it, with no descriptor referring to a freed file, and keep the file systems' data fit for the open files ([fs_ok]: the interface's close law holds in such states only;
    [kernel_files] has stdio, FAT and pipes). *)
Theorem fd_refcounts op s :
  fd_wf s -> allowed op s -> exists r s', run_op op s = Ok (r, s') /\ fd_wf s'.
Proof.
  intros Hwf Hal. destruct op as [fd|fd fd2|fd| |child|t|t]; cbn [run_op allowed] in *.
  - destruct (filp_cases s fd Hwf) as [[p Hp]|Hbad]; [|rewrite (dup_bad _ _ Hbad); eauto].
    destruct (refers_view _ _ _ Hwf Hp) as (n & o & Hv & _). pose proof Hwf as [_ [[tb Ht] _]].
    destruct (dup_ok s fd p n o tb Hwf Hp Hv Ht) as [(k & s' & _ & _ & Hd & Hwf' & _)|[_ Hd]]; eauto.
  - destruct (decide (0 <= fd2 < MAX_OPEN_FILES)) as [Hfd2|Hout]; [|rewrite dup2_bad by auto; eauto].
    destruct (filp_cases s fd Hwf) as [[p Hp]|Hbad]; [|rewrite dup2_bad by auto; eauto].
    destruct (refers_view _ _ _ Hwf Hp) as (n & o & Hv & _). pose proof Hwf as [Hl [[tb Ht] _]].
    pose proof (lk_len _ _ Hl _ _ Ht) as Hlen.
    destruct (lookup_lt_is_Some_2 tb (Z.to_nat fd2)) as [q Hq]; [unfold zlen, MAX_OPEN_FILES in *; lia|].
    destruct (dup2_ok s fd fd2 p n o tb q Hwf Hp Hal Hfd2 Hv Ht Hq) as (s' & v & Hd & Hwf' & _). eauto.
  - destruct (filp_cases s fd Hwf) as [[p Hp]|Hbad]; [|rewrite (close_bad _ _ Hbad); eauto].
    destruct (refers_view _ _ _ Hwf Hp) as (n & o & Hv & _).
    destruct (close_ok s fd p n o Hwf Hp Hv) as (s' & tb & Hc & Hwf' & _). eauto.
  - destruct Hal as (tb & k1 & k2 & Ht & Hk1 & Hk2 & Hlt).
    destruct (pipe_fds_ok s tb k1 k2 Hwf Ht Hk1 Hk2 Hlt) as (s' & p & p1 & p2 & Hp & Hwf' & _).
    exists (Val k1), s'. split; [|done]. by rewrite (st_bind_Ok _ _ _ _ _ Hp).
  - pose proof Hwf as [_ [[tb Ht] _]]. destruct (fork_ok s (current_task s) child tb Hwf Ht Hal) as (s' & Hf & Hwf' & _).
    exists (Val 0), s'. split; [|done]. rewrite (st_bind_Ok _ _ _ (current_task s) s) by done.
    by rewrite (st_bind_Ok _ _ _ _ _ Hf).
  - destruct Hal as [Hex Hne]. destruct (destroy_ok s t Hwf Hex Hne) as (s' & Hd & Hwf' & _).
    exists (Val 0), s'. split; [|done]. by rewrite (st_bind_Ok _ _ _ _ _ Hd).
  - eexists _, _. split; [done|]. destruct Hwf as (Hl & _ & Hfs). by split.
Qed.

(** [dup] gives the lowest free descriptor, or EMFILE and no change when all 128 are taken;
    [dup2] gives the descriptor asked for: afterwards it refers to the same file as the first one,
    the file it referred to before has one link less (and is freed if that was the last), and no
    other slot of any table has changed.  Both leave the interrupt flag as it was. *)
Theorem dup_dup2_correct s fd p tb fd2 q :
  fd_wf s -> refers s fd p -> fdtables s !! current_task s = Some tb ->
  fd <> fd2 -> 0 <= fd2 < MAX_OPEN_FILES -> tb !! Z.to_nat fd2 = Some q ->
  ((exists k s', least_free tb 0 k /\ k < MAX_OPEN_FILES /\ dup fd s = Ok (Val k, s') /\
      fdtables s' = <[current_task s := <[Z.to_nat k := p]> tb]> (fdtables s) /\ irq s' = irq s) \/
   ((forall j, 0 <= j < MAX_OPEN_FILES -> exists x, tb !! Z.to_nat j = Some x /\ x <> 0) /\
    dup fd s = Ok (Err EMFILE, s))) /\
  exists s', dup2 fd fd2 s = Ok (Val fd2, s') /\
    fdtables s' = <[current_task s := <[Z.to_nat fd2 := p]> tb]> (fdtables s) /\ irq s' = irq s /\
    (q <> 0 -> q <> p -> fst <$> view s' !! q =
       match fst <$> view s !! q with Some n => if n =? 1 then None else Some (n - 1) | None => None end).
Proof.
  intros Hwf Hp Ht Hne Hfd2 Hq. destruct (refers_view _ _ _ Hwf Hp) as (n & o & Hv & _). split.
  - destruct (dup_ok s fd p n o tb Hwf Hp Hv Ht) as [(k & s' & ? & ? & ? & _ & _ & ? & _ & ?)|[? ?]]; [left|right; done].
    exists k, s'. done.
  - destruct (dup2_ok s fd fd2 p n o tb q Hwf Hp Hne Hfd2 Hv Ht Hq) as (s' & v & Hd & _ & Hvv & (m & Hm & Hv') & Ht' & _ & Hi').
    exists s'. split_and!; try done. intros Hq0 Hqp. rewrite Hv', lookup_insert_ne, Hvv by done.
    replace (q =? 0) with false by lia. destruct (view s !! q) as [[k oq]|] eqn:E; [|by rewrite E].
    unfold drop_link. cbn. destruct (k =? 1); [by rewrite lookup_delete_eq|by rewrite lookup_insert_eq].
Qed.

(** [dup2] of a descriptor onto itself, when it is the only one of its file, uses the file after
    it was freed: [close] frees the object, and [dup2] goes on to put the pointer back into the
    table and to count up in the freed memory. *)
Theorem dup2_self_use_after_free s fd p o :
  fd_wf s -> refers s fd p -> view s !! p = Some (1, o) -> dup2 fd fd s = Undef.
Proof.
  intros Hwf Hp Hv. unfold dup2. destruct Hp as (Hfd & Hp0 & tb & Ht & Hx).
  replace ((fd <? 0) || (MAX_OPEN_FILES <=? fd)) with false by lia.
  rewrite (st_bind_Ok _ _ _ (irq s) (set_irq false s)) by done. set (s1 := set_irq false s).
  assert (refers s1 fd p) as Hp by (split_and!; [lia|lia|done|eauto]).
  rewrite (st_bind_Ok _ _ _ _ _ (refers_filp _ _ _ Hp)). replace (p =? 0) with false by lia.
  rewrite (st_bind_Ok _ _ _ _ _ (refers_filp _ _ _ Hp)). replace (p =? 0) with false by lia.
  destruct (close_ok s1 fd p 1 o Hwf Hp Hv) as (s2 & tb' & Hc & _ & Hv2 & Ht1 & Ht2 & Hc2 & _).
  assert (tb' = tb) as -> by (cbn in Ht1; congruence).
  erewrite (st_bind_Ok _ _ s1) by (by rewrite (st_bind_Ok _ _ _ _ _ Hc)).
  rewrite (st_bind_Ok _ _ _ (current_task s2) s2) by done.
  assert (fdtables s2 !! current_task s2 = Some (<[Z.to_nat fd := 0]> tb)) as Ht2'
    by (by rewrite Hc2, Ht2, lookup_insert_eq).
  assert (<[Z.to_nat fd := 0]> tb !! Z.to_nat fd = Some 0) as H0 by (apply list_lookup_insert_eq; by eapply lookup_lt_Some).
  rewrite (st_bind_Ok _ _ _ _ _ (get_slot_ok _ _ _ _ _ Ht2' (proj1 Hfd) H0)). erewrite st_bind_Ok by done.
  erewrite st_bind_Ok by (eapply set_slot_ok; [done|lia|done]).
  assert (files s2 !! p = None) as Hnone.
  { assert (view s2 !! p = None) as Hn by (rewrite Hv2; cbn; apply lookup_delete_eq).
    unfold view in Hn. rewrite lookup_fmap in Hn. by destruct (files s2 !! p). }
  unfold get_file, mbind, st_bind, gets, lift. cbn [set_tables files]. by rewrite Hnone.
Qed.

(** The search of [new_filp] goes one slot too far: when the 128 descriptors are taken it hands
    out descriptor 128, which [dup2] and [fork] do not know, and for which [destroy_filp] (called
    when the open fails later on) panics. *)
Theorem new_filp_128 s tb :
  fd_wf s -> fdtables s !! current_task s = Some tb ->
  (forall j, 0 <= j < MAX_OPEN_FILES -> exists x, tb !! Z.to_nat j = Some x /\ x <> 0) ->
  exists p s', new_filp s = Ok ((MAX_OPEN_FILES, p), s') /\ destroy_filp MAX_OPEN_FILES s' = Panic /\
    forall fd, dup2 fd MAX_OPEN_FILES s' = Ok (Err EBADF, s').
Proof.
  intros [Hl _] Ht Hfull. pose proof (lk_len _ _ Hl _ _ Ht) as Hlen.
  destruct (lookup_lt_is_Some_2 tb (Z.to_nat MAX_OPEN_FILES)) as [x Hx]; [unfold zlen, MAX_OPEN_FILES in *; lia|].
  pose proof (lk_high _ _ Hl _ _ _ _ Ht Hx ltac:(unfold MAX_OPEN_FILES; lia)) as ->.
  eexists _, _. split; [apply (new_filp_ok s tb MAX_OPEN_FILES Ht); [|done]|done].
  split_and!; [done|done|]. intros j Hj. by apply Hfull.
Qed.
End Invariant.

(** ** A concrete system: the files of stdio.c and fat.c, and pipes *)
Definition STDIO_CLOSE : Z := 0x1000.
Definition FAT_CLOSE : Z := 0x2000.
Definition PIPE_CLOSE : Z := 0x3000.
(** The data of the file systems: the pipe objects by their addresses. *)
Abbreviation pipes := (gmap Z pipe).
(** [stdio_close] and [fat_close] leave everything to [close]. *)
Definition stdio_close (fd file : Z) : ST (vfs pipes) ret := mret (Val 0).
Definition fat_close (fd file : Z) : ST (vfs pipes) ret := mret (Val 0).
(** [pipe_close] of Pipe.v on the object the file's [data] points to. *)
Definition to_pfile (f : open_file) : pfile := mk_pfile (fcount f) (fdev f) (fdata f).
Definition close_pipe (fd file : Z) : ST (vfs pipes) ret :=
  f ← get_file file;
  ensure (negb (fdata f =? 0)) ;;
  objs ← gets fs; obj ← lift (deref (objs !! fdata f)); F ← gets files;
  '(r, o) ← lift (pipe_close (to_pfile <$> F) (Some file) obj);
  modify (fun s => mk_vfs (files s) (fdtables s) (current_task s) (irq s) (match o with Some obj => <[fdata f := obj]> (fs s) | None => delete (fdata f) (fs s) end)) ;;
  mret r.
(** [kmalloc] gives an address not in use; the pipe's buffer has 65536 bytes. *)
Definition fresh_file (s : vfs pipes) : Z := fresh (dom (files s) ∪ {[0]} : gset Z).
Definition fresh_pipe (d : pipes) : Z := fresh (dom d ∪ {[0]} : gset Z).
Definition setup_pipe (read_end write_end : Z) : ST (vfs pipes) Z :=
  obj ← lift (pipe_setup 65536 4096 read_end write_end (replicate (Z.to_nat 65536) 0));
  p ← gets (fun s => fresh_pipe (fs s));
  modify (fun s => mk_vfs (files s) (fdtables s) (current_task s) (irq s) (<[p := obj]> (fs s))) ;;
  mret p.
(** Each end of a pipe has its object, which knows it and is not locked. *)
Definition ends_ok (v : gmap Z (Z * info)) (d : pipes) : Prop :=
  forall p n o, v !! p = Some (n, o) -> op_close o.1 = PIPE_CLOSE -> p <> 0 /\ o.2 <> 0 /\
    exists obj, d !! o.2 = Some obj /\ lock obj = mutex_create /\ (reader obj = p \/ writer obj = p).

(** Closing an end: the object keeps the other one, or is gone with it. *)
Lemma pipe_close_end F f n dev data obj : F !! f = Some (mk_pfile n dev data) -> data <> 0 -> f <> 0 -> lock obj = mutex_create -> reader obj = f \/ writer obj = f ->
  exists o, pipe_close F (Some f) obj = Ok (Val 0, o) /\ (n <> 1 -> o = Some obj) /\
    forall q, q <> f -> q <> 0 -> reader obj = q \/ writer obj = q -> exists obj', o = Some obj' /\ lock obj' = mutex_create /\ (reader obj' = q \/ writer obj' = q).
Proof.
  intros Hf Hd Hf0 Hl Hrw. unfold pipe_close. rewrite Hf. cbn [deref mbind res_bind Pipe.fdata Pipe.fcount]. rewrite (proj2 (Z.eqb_neq _ _) Hd). cbn [negb assert mbind res_bind].
  assert ((reader obj =? f) || (writer obj =? f) = true) as -> by (destruct Hrw as [->| ->]; rewrite Z.eqb_refl; [done|by rewrite orb_true_r]). cbn [assert mbind res_bind].
  assert (Hunl : mutex_destroy (lock obj) = Ok tt) by (by rewrite Hl). destruct obj as [B R W rp wp av lk mt at']. cbn [reader writer lock Pipe.reader Pipe.writer Pipe.lock] in *. subst lk.
  destruct (Z.eqb_spec R f) as [->|HR]; destruct (Z.eqb_spec n 1) as [->|Hn]; cbn [reader writer].
  - rewrite Z.eqb_refl. cbn [andb]. destruct (Z.eqb_spec W 0) as [->|HW]; (eexists; split; [done|]; split; [done|]); intros q Hq Hq0 [?|?]; try congruence. eexists. split; [done|]. split; [done|by right].
  - rewrite (proj2 (Z.eqb_neq f 0)) by done. cbn [andb]. eexists. split; [done|]. split; [done|]. intros q _ _ ?. by eexists.
  - assert (W = f) as -> by (by destruct Hrw). rewrite Z.eqb_refl, andb_true_r. destruct (Z.eqb_spec R 0) as [->|HR0]; (eexists; split; [done|]; split; [done|]); intros q Hq Hq0 [?|?]; try congruence. eexists. split; [done|]. split; [done|by left].
  - assert (W = f) as -> by (by destruct Hrw). rewrite (proj2 (Z.eqb_neq f 0)) by done. rewrite andb_false_r. eexists. split; [done|]. split; [done|]. intros q _ _ ?. by eexists.
Qed.
Lemma close_pipe_ok s fd p n o : ends_ok (view s) (fs s) -> view s !! p = Some (n, o) -> op_close o.1 = PIPE_CLOSE ->
  exists s', close_pipe fd p s = Ok (Val 0, s') /\ same_but_data s s' /\ ends_ok (drop_link p n o (view s)) (fs s').
Proof.
  intros Hok Hv Hop. destruct (Hok p n o Hv Hop) as (Hp0 & Hd0 & obj & Hobj & Hl & Hrw). destruct (view_lookup _ _ _ _ Hv) as (f & Hf & Hfn & Hfo).
  assert (Hfd : fdata f = o.2) by (by rewrite <- Hfo). assert (HF : (to_pfile <$> files s) !! p = Some (mk_pfile n (fdev f) o.2)) by (rewrite lookup_fmap, Hf; cbn; unfold to_pfile; by rewrite Hfn, Hfd).
  destruct (pipe_close_end _ p n (fdev f) o.2 obj HF Hd0 Hp0 Hl Hrw) as (r & Hc & Hn & Hothers).
  eexists. split.
  { unfold close_pipe. rewrite (st_bind_Ok _ _ _ _ _ (get_file_ok _ _ _ Hf)), Hfd. erewrite st_bind_Ok by (apply ensure_true; by apply negb_true_iff, Z.eqb_neq). erewrite st_bind_Ok by done. erewrite st_bind_Ok by (by rewrite Hobj). erewrite st_bind_Ok by done. unfold mbind at 1, st_bind at 1, lift at 1. rewrite Hc. done. }
  split; [done|]. cbn [fs]. intros q m x Hq Hx. assert (Hq' : exists k, view s !! q = Some (k, x)). { unfold drop_link in Hq. destruct (n =? 1); [apply lookup_delete_Some in Hq as [_ Hq]; eauto|]. apply lookup_insert_Some in Hq as [[-> [= _ <-]]|[_ Hq]]; eauto. }
  destruct Hq' as [k Hk]. destruct (Hok q k x Hk Hx) as (Hq0 & Hx0 & oq & Hoq & Hlq & Hrwq). split; [done|]. split; [done|]. destruct (decide (q = p)) as [->|Hqp].
  - assert (n <> 1) as Hn1 by (intros ->; unfold drop_link in Hq; cbn in Hq; by rewrite lookup_delete_eq in Hq). rewrite (Hn Hn1). assert (x = o) as -> by congruence. exists obj. rewrite lookup_insert_eq. done.
  - destruct (decide (x.2 = o.2)) as [E|HE].
    + assert (oq = obj) as -> by congruence. destruct (Hothers q Hqp Hq0 Hrwq) as (obj' & -> & Hl' & Hrw'). exists obj'. by rewrite E, lookup_insert_eq.
    + exists oq. split; [|done]. destruct r; [by rewrite lookup_insert_ne|by rewrite lookup_delete_ne].
Qed.
Lemma fresh_not (X : gset Z) : (fresh (X ∪ {[0]}) ∉ X) /\ fresh (X ∪ {[0]}) <> 0.
Proof. pose proof (is_fresh (X ∪ {[0]})) as H. set_solver. Qed.
Lemma setup_pipe_ok s v r w : ends_ok v (fs s) -> v !! r = None -> v !! w = None -> r <> w -> r <> 0 -> w <> 0 ->
  exists p d, setup_pipe r w s = Ok (p, mk_vfs (files s) (fdtables s) (current_task s) (irq s) d) /\
    ends_ok (<[w := (1, (mk_fops 0x3010 0x3020 PIPE_CLOSE 0 0x3030 0, p))]> (<[r := (1, (mk_fops 0x3010 0x3020 PIPE_CLOSE 0 0x3030 0, p))]> v)) d.
Proof.
  intros Hok Hr Hw Hne Hr0 Hw0. set (p := fresh_pipe (fs s)). assert ((p ∉ dom (fs s)) /\ p <> 0) as [Hf H0] by apply fresh_not.
  exists p. eexists. split; [reflexivity|]. intros q n o Hq Hop. destruct (decide (q = w)) as [->|Hqw]; [|rewrite lookup_insert_ne in Hq by done; destruct (decide (q = r)) as [->|Hqr]].
  - rewrite lookup_insert_eq in Hq. injection Hq as <- <-. split; [done|]. split; [done|]. eexists. split; [apply lookup_insert_eq|]. split; [done|by right].
  - rewrite lookup_insert_eq in Hq. injection Hq as <- <-. split; [done|]. split; [done|]. eexists. split; [apply lookup_insert_eq|]. split; [done|by left].
  - rewrite lookup_insert_ne in Hq by done. destruct (Hok q n o Hq Hop) as (H1 & H2 & obj & H3 & H4). split; [done|]. split; [done|]. exists obj. split; [|done]. rewrite lookup_insert_ne; [done|]. intros E. apply Hf. unfold p. apply elem_of_dom. exists obj. exact (eq_trans (f_equal (fun k => fs s !! k) E) H3).
Qed.

#[export] Program Instance kernel_files : FileSystems pipes := {|
  kmalloc_file := fresh_file;
  call_read := fun _ _ buf _ => mret (Val 0, buf);
  call_write := fun _ _ _ len => mret (Val len);
  call_close := fun fn fd file => if fn =? STDIO_CLOSE then stdio_close fd file
                                  else if fn =? FAT_CLOSE then fat_close fd file else if fn =? PIPE_CLOSE then close_pipe fd file else lift Undef;
  call_lseek := fun _ _ offset _ => mret (Val offset);
  call_fstat := fun _ _ buf => mret (Val 0, buf);
  call_getdents := fun _ _ buf _ => mret (Val 0, buf);
  make_pipe := setup_pipe;
  pipe_ops := mk_fops 0x3010 0x3020 PIPE_CLOSE 0 0x3030 0;
  usable := fun o => (op_close o =? STDIO_CLOSE) || (op_close o =? FAT_CLOSE) || (op_close o =? PIPE_CLOSE);
  fs_ok := ends_ok
|}.
Next Obligation. intros s. apply fresh_not. Qed.
Next Obligation. intros s. apply not_elem_of_dom, fresh_not. Qed.
Next Obligation. intros o Ho H0. cbn in Ho. rewrite H0 in Ho. done. Qed.
Next Obligation. done. Qed.
Next Obligation.
  intros v v' d Hok Hv q n o Hq Hop. destruct (Hv q) as (k & _ & E). rewrite Hq in E. destruct (v !! q) as [[m x]|] eqn:Eq; [|done]. cbn in E. injection E as -> ->. by apply (Hok q m x).
Qed.
Next Obligation.
  intros s fd p n o Hok Hv Hn Hu. cbn in Hu. destruct (Z.eqb_spec (op_close o.1) PIPE_CLOSE) as [E|E].
  - rewrite E. by apply close_pipe_ok.
  - exists s. rewrite orb_false_r in Hu. split; [destruct (_ =? STDIO_CLOSE); [done|]; cbn in Hu; by rewrite Hu|]. split; [done|]. intros q m x Hq Hx. unfold drop_link in Hq. destruct (n =? 1); [apply lookup_delete_Some in Hq as [_ Hq]; by apply (Hok q m x)|].
    apply lookup_insert_Some in Hq as [[-> [= _ <-]]|[_ Hq]]; [done|by apply (Hok q m x)].
Qed.
Next Obligation. intros s v r w. apply setup_pipe_ok. Qed.

Lemma occ_replicate p n x : occ p (replicate n x) = if x =? p then Z.of_nat n else 0.
Proof. induction n as [|n IH]; cbn [replicate occ]; [by destruct (x =? p)|]. rewrite IH. destruct (x =? p); lia. Qed.

(** Task 1 has [c] descriptors, all of the file at address 100, and [k] empty slots. *)
Definition sample_ops : open_file_ops := mk_fops 1 1 STDIO_CLOSE 0 1 0.
Definition sample (c k : nat) : vfs pipes :=
  mk_vfs {[100 := mk_open_file (Z.of_nat c) 0 0 0 0 0 0 0 None sample_ops 0]}
    {[1 := replicate c 100 ++ replicate k 0]} 1 true ∅.

Lemma sample_wf c k : (1 <= c <= 128)%nat -> (128 < c + k)%nat -> fd_wf (sample c k).
Proof.
  intros Hc Hk. split_and!; [|by eexists|intros p n o Hp; unfold view, sample in Hp; cbn [files] in Hp; rewrite map_fmap_singleton in Hp; apply lookup_singleton_Some in Hp as [_ [= _ <-]]; done].
  assert (forall p, p <> 0 -> links (fdtables (sample c k)) p = if 100 =? p then Z.of_nat c else 0) as Hlinks.
  { intros p Hp. unfold sample. cbn [fdtables]. rewrite <- insert_empty, links_new, links_empty by done.
    rewrite occ_app, !occ_replicate. replace (0 =? p) with false by lia. destruct (100 =? p); lia. }
  cbn [sample fdtables] in Hlinks.
  assert (view (sample c k) = {[100 := (Z.of_nat c, (sample_ops, 0))]}) as Hview
    by (unfold view, sample; cbn [files]; by rewrite map_fmap_singleton).
  rewrite Hview. constructor; cbn [sample fdtables].
  - done.
  - intros t tb [_ <-]%lookup_singleton_Some. unfold zlen, MAX_OPEN_FILES. rewrite length_app, !length_replicate. lia.
  - intros t tb i x [_ <-]%lookup_singleton_Some Hi Hge. rewrite lookup_app_r in Hi by (rewrite length_replicate; lia).
    by apply lookup_replicate in Hi as [-> _].
  - intros p n o [<- [= <- <-]]%lookup_singleton_Some. rewrite (Hlinks 100) by done. cbn. split_and!; [lia|done|done].
  - intros p Hp. rewrite (Hlinks p Hp). destruct (Z.eqb_spec 100 p) as [<-|]; [|lia]. intros _.
    rewrite lookup_singleton_eq. by eexists.
Qed.

Lemma sample_refers c k fd : (Z.to_nat fd < c)%nat -> 0 <= fd < MAX_OPEN_FILES -> refers (sample c k) fd 100.
Proof.
  intros Hlt Hfd. split_and!; [lia|lia|done|]. eexists. split; [apply lookup_singleton_eq|].
  rewrite lookup_app_l by (rewrite length_replicate; lia). by apply lookup_replicate_2.
Qed.

(** A task makes a pipe and forks; the child is destroyed, which closes its ends of the pipe; the parent closes the read end. *)
Definition next (op : fd_op) (s : vfs pipes) : vfs pipes := match run_op op s with Ok (_, s') => s' | _ => s end.
Definition piped : vfs pipes := next Pipe (sample 3 130).
Definition forked : vfs pipes := next (Fork 2) piped.
Definition reaped : vfs pipes := next (Exit 2) forked.
Lemma fd_refcounts_witness : fd_wf piped /\ fd_wf forked /\ fd_wf reaped /\ exists s', run_op (Close 3) reaped = Ok (Val 0, s') /\ fd_wf s'.
Proof.
  assert (H1 : fd_wf piped).
  { destruct (fd_refcounts Pipe (sample 3 130)) as (r & s' & E & Hwf); [apply sample_wf; lia| |unfold piped, next; by rewrite E].
    exists (replicate 3 100 ++ replicate 130 0), 3, 4. split_and!; [by vm_compute| | |done]; (split; [lia|split; [reflexivity|]]); [|intros j Hj; lia].
    intros j Hj. exists 100. split; [|done]. rewrite lookup_app_l by (rewrite length_replicate; lia). apply lookup_replicate_2. lia. }
  assert (H2 : fd_wf forked) by (destruct (fd_refcounts (Fork 2) piped H1) as (r & s' & E & Hwf); [by vm_compute|unfold forked, next; by rewrite E]).
  assert (H3 : fd_wf reaped) by (destruct (fd_refcounts (Exit 2) forked H2) as (r & s' & E & Hwf); [split; [eexists; by vm_compute|by vm_compute]|unfold reaped, next; by rewrite E]).
  split_and!; [exact H1|exact H2|exact H3|]. destruct (fd_refcounts (Close 3) reaped H3 I) as (r & s' & E & Hwf). exists s'. split; [|exact Hwf]. rewrite E. do 2 f_equal.
  assert (F : (match run_op (Close 3) reaped with Ok (r, _) => Some r | _ => None end) = Some (Val 0)) by (by vm_compute). rewrite E in F. by injection F.
Defined.

Lemma dup_dup2_witness : exists s', dup2 0 5 (sample 3 130) = Ok (Val 5, s').
Proof.
  destruct (dup_dup2_correct (sample 3 130) 0 100 (replicate 3 100 ++ replicate 130 0) 5 0) as [_ (s' & H & _)];
    [apply sample_wf; lia|apply sample_refers; unfold MAX_OPEN_FILES; lia|apply lookup_singleton_eq|lia|unfold MAX_OPEN_FILES; lia
    |reflexivity|].
  by exists s'.
Defined.

Lemma dup2_self_witness : dup2 0 0 (sample 1 130) = Undef.
Proof.
  apply (dup2_self_use_after_free (sample 1 130) 0 100 (sample_ops, 0));
    [apply sample_wf; lia|apply sample_refers; unfold MAX_OPEN_FILES; lia|reflexivity].
Defined.

Lemma new_filp_128_witness : exists p s', new_filp (sample 128 10) = Ok ((128, p), s').
Proof.
  destruct (new_filp_128 (sample 128 10) (replicate 128 100 ++ replicate 10 0)) as (p & s' & H & _);
    [apply sample_wf; lia|apply lookup_singleton_eq| |by exists p, s'].
  intros j Hj. exists 100. split; [|done]. unfold MAX_OPEN_FILES in Hj.
  rewrite lookup_app_l by (rewrite length_replicate; lia). apply lookup_replicate_2. lia.
Defined.
