(* ===== verification/Mount.v ===== *)
(** * Paths and mount points (src/src/kernel/vfs.c)

    From a path as a program gives it to a mount point and a path inside it: the current directory,
    symbolic links, the choice of the mount point, and the calls that take a path.  What the mounted
    file systems do is an interface: the functions the [mpops] pointers name. *)
From S2P Require Import Prelude CString Path.
From stdpp Require Import strings.
#[local] Open Scope Z_scope.

Definition O_RDONLY : Z := 0.
Definition O_DIRECTORY : Z := 0x10000.

(** Function pointers are addresses, 0 for NULL. *)
Record mp_ops := mk_mp_ops { mo_open : Z; mo_opendir : Z; mo_stat : Z; mo_lstat : Z; mo_readlink : Z }.
(** [mpath] is the array [path[1024]]. *)
Record mountpoint := mk_mountpoint { mpath : list Z; mdev : Z; mpops : mp_ops; mdepth : Z }.

(** The members of [struct stat] the callers read, and [S_ISDIR]. *)
Record stat_buf := mk_stat { st_mode : Z; st_size : Z }.
Definition S_ISDIR (m : Z) : bool := Z.land m 0xf000 =? 0x4000.

(** [mountpoints], the members of [current_task] used here, and everything else. *)
Record vfs (S : Type) := mk_vfs {
  mountpoints : option (list mountpoint);
  pwd : option (list Z);
  link_count : Z;
  rest : S
}.
Arguments mk_vfs {S}.
Arguments mountpoints {S}.
Arguments pwd {S}.
Arguments link_count {S}.
Arguments rest {S}.

(** The functions of the mounted file systems, called with the pointer's value. *)
Class MountOps (S : Type) := {
  call_open : Z -> Z -> list Z -> Z -> ST (vfs S) ret;
  call_opendir : Z -> mountpoint -> list Z -> ST (vfs S) Z;
  call_stat : Z -> mountpoint -> list Z -> stat_buf -> ST (vfs S) (ret * stat_buf);
  call_readlink : Z -> mountpoint -> list Z -> list Z -> Z -> ST (vfs S) (ret * list Z)
}.

(** ** Choosing the mount point *)

(** The loop over the list, with the best match so far. *)
Fixpoint best_mount (path : list Z) (mps : list mountpoint) (best_match : option mountpoint) (best_match_len : Z)
  : res (option mountpoint) :=
  match mps with
  | [] => Ok best_match
  | mp :: mps =>
      len ← strlen (mpath mp);
      plen ← strlen path;
      if plen <? len then best_mount path mps best_match best_match_len
      else
        c ← strnicmp (Some (mpath mp)) (Some path) (Z.to_nat len);
        if c =? 0 then
          next ← (if 1 <? len then aget path len else Ok 0);
          if (1 <? len) && negb (next =? 0) && negb (next =? SLASH)
          then best_mount path mps best_match best_match_len
          else if best_match_len <? len then best_mount path mps (Some mp) len
          else best_mount path mps best_match best_match_len
        else best_mount path mps best_match best_match_len
  end.
Definition find_mountpoint_for_path (mountpoints : option (list mountpoint)) (path : option (list Z))
  : res (option mountpoint) :=
  match mountpoints, path with
  | Some (mp :: mps), Some path => best_mount path (mp :: mps) None 0
  | _, _ => Ok None
  end.

Section Paths.
Context {S : Type} `{MountOps S}.
(** What [kmalloc(PATH_MAX+1)] returns: a block with arbitrary contents. *)
Context (block : list Z).
Definition path_buf : list Z := replicate (Z.to_nat (PATH_MAX + 1)) 0.

(** The end of [find_relpath], from the absolute [path] on: [relpath] and the mount point. *)
Definition relpath_of (path relpath : list Z) : ST (vfs S) (list Z * mountpoint) :=
  '(path, ok) ← lift (path_collapse_dots path);
  (if ok : bool then mret tt else lift Panic) ;;
  mps ← gets mountpoints;
  mp ← lift (find_mountpoint_for_path mps (Some path));
  mp ← match mp with Some mp => mret mp | None => lift Panic end;
  len ← lift (strlen (mpath mp));
  c ← lift (strnicmp (Some path) (Some (mpath mp)) (Z.to_nat len));
  ensure (c =? 0) ;;
  c ← lift (strcmp (mpath mp) (lit "/"));
  if c =? 0 then
    '(relpath, _) ← lift (strlcpy relpath path (PATH_MAX + 1));
    mret (relpath, mp)
  else
    '(relpath, _) ← lift (strlcpy relpath (padd path len) (PATH_MAX + 1));
    c ← lift (aget relpath 0);
    relpath ← (if c =? 0 then lift (strcpy relpath (lit "/")) else mret relpath);
    mret (relpath, mp).

(** [find_relpath], given [resolve_actual_path], whose result is ignored. *)
Definition find_relpath_with (resolve_actual_path : list Z -> ST (vfs S) (list Z * ret))
    (in_path relpath : list Z) : ST (vfs S) (list Z * mountpoint) :=
  let path := path_buf in
  c ← lift (aget in_path 0);
  path ← (if negb (c =? SLASH) then
    cwd ← gets pwd;
    path ← lift match cwd with
                | Some cwd => '(path, _) ← strlcpy path cwd (PATH_MAX + 1); Ok path
                | None => strcpy path (lit "/")
                end;
    '(path, _) ← resolve_actual_path path;
    '(path, _) ← lift (path_join path in_path);
    mret path
  else
    '(path, _) ← lift (strlcpy path in_path (PATH_MAX + 1));
    mret path);
  relpath_of path relpath.

Definition readlink_with (resolve_actual_path : list Z -> ST (vfs S) (list Z * ret))
    (pathname buf : option (list Z)) (bufsiz : Z) : ST (vfs S) (ret * option (list Z)) :=
  match pathname, buf with
  | Some pathname, Some b =>
      if bufsiz =? 0 then mret (Err EINVAL, buf)
      else
        '(relpath, mp) ← find_relpath_with resolve_actual_path pathname path_buf;
        if negb (mo_readlink (mpops mp) =? 0) then
          '(r, b) ← call_readlink (mo_readlink (mpops mp)) mp relpath b bufsiz;
          mret (r, Some b)
        else mret (Err EINVAL, buf)
  | _, _ => mret (Err EFAULT, buf)
  end.

(** ** Symbolic links

    [resolve_actual_path] calls [readlink] on absolute paths only, for which [find_relpath] does not
    call it back. *)
Definition readlink_abs : option (list Z) -> option (list Z) -> Z -> ST (vfs S) (ret * option (list Z)) :=
  readlink_with (fun _ => lift NoFuel).

(** The loop over the tokens of [tmp_buf]; [inl] for the return of ELOOP. *)
Fixpoint token_loop (fuel : nat) (tmp_buf path_to_test link_buf cur_path : list Z) (tok : option Z) (lasts : tokptr)
    (found_symlink : bool) : ST (vfs S) (() + list Z * list Z * list Z * list Z * bool) :=
  match fuel with
  | O => lift NoFuel
  | Datatypes.S fuel =>
      '(tmp_buf, token, lasts) ← lift (strtok_r tmp_buf tok (lit "/") lasts);
      match token with
      | None => mret (inr (tmp_buf, path_to_test, link_buf, cur_path, found_symlink))
      | Some o =>
          '(path_to_test, _) ← lift (path_join path_to_test (padd tmp_buf o));
          '(r, link) ← readlink_abs (Some path_to_test) (Some link_buf) (PATH_MAX + 1);
          link_buf ← lift (deref link);
          match r with
          | Err EINVAL =>
              '(cur_path, _) ← lift (path_join cur_path (padd tmp_buf o));
              token_loop fuel tmp_buf path_to_test link_buf cur_path None lasts found_symlink
          | Err ELOOP => mret (inl tt)
          | Err _ => lift Panic
          | Val n =>
              ensure (0 <? n) ;;
              link_buf ← lift (aset link_buf n 0);
              c ← lift (load link_buf);
              cur_path ← lift (if c =? SLASH
                               then '(cur_path, _) ← strlcpy cur_path link_buf (PATH_MAX + 1); Ok cur_path
                               else '(cur_path, _) ← path_join cur_path link_buf; Ok cur_path);
              token_loop fuel tmp_buf path_to_test link_buf cur_path None lasts true
          end
      end
  end.

(** The [do]...[while (found_symlink && loops <= 6)]: at most [n] rounds after this one; [inl true]
    when a link was found in the last one, [inl false] when [readlink] returned ELOOP. *)
Fixpoint link_rounds (n : nat) (tmp_buf path_to_test link_buf cur_path : list Z) : ST (vfs S) (bool + list Z) :=
  path_to_test ← lift (strcpy path_to_test (lit "/"));
  cur_path ← lift (strcpy cur_path (lit "/"));
  r ← token_loop (Datatypes.S (length tmp_buf)) tmp_buf path_to_test link_buf cur_path (Some 0) PEmpty false;
  match r with
  | inl _ => mret (inl false)
  | inr (tmp_buf, path_to_test, link_buf, cur_path, found_symlink) =>
      '(tmp_buf, _) ← lift (strlcpy tmp_buf cur_path (PATH_MAX + 1));
      if found_symlink : bool then
        match n with
        | O => mret (inl true)
        | Datatypes.S n => link_rounds n tmp_buf path_to_test link_buf cur_path
        end
      else mret (inr cur_path)
  end.

Definition resolve_actual_path (out_path : list Z) : ST (vfs S) (list Z * ret) :=
  c ← lift (load out_path);
  ensure (c =? SLASH) ;;
  '(tmp_buf, _) ← lift (strlcpy block out_path (PATH_MAX + 1));
  r ← link_rounds 6 tmp_buf block block block;
  match r with
  | inl false => out_path ← lift (strcpy out_path (lit "")); mret (out_path, Err ELOOP)
  | inl true => mret (out_path, Err ELOOP)
  | inr cur_path =>
      '(out_path, _) ← lift (strlcpy out_path cur_path (PATH_MAX + 1));
      mret (out_path, Val 0)
  end.

Definition find_relpath : list Z -> list Z -> ST (vfs S) (list Z * mountpoint) := find_relpath_with resolve_actual_path.
Definition readlink : option (list Z) -> option (list Z) -> Z -> ST (vfs S) (ret * option (list Z)) :=
  readlink_with resolve_actual_path.

(** ** The calls that take a path *)
Definition opendir (path : option (list Z)) : ST (vfs S) Z :=
  match path with
  | None => lift Panic
  | Some path =>
      c ← lift (load path);
      ensure (negb (c =? 0)) ;;
      '(relpath, mp) ← find_relpath path path_buf;
      ensure (negb (mo_opendir (mpops mp) =? 0)) ;;
      call_opendir (mo_opendir (mpops mp)) mp relpath
  end.

Definition open (path : list Z) (mode : Z) : ST (vfs S) ret :=
  '(relpath, mp) ← find_relpath path path_buf;
  if negb (mode =? O_RDONLY) && negb (mode =? Z.lor O_RDONLY O_DIRECTORY) then mret (Err EACCES)
  else
    ensure (negb (mo_open (mpops mp) =? 0)) ;;
    call_open (mo_open (mpops mp)) (mdev mp) relpath mode.

Definition stat (path : option (list Z)) (buf : option stat_buf) : ST (vfs S) (ret * option stat_buf) :=
  match path, buf with
  | Some path, Some st =>
      '(relpath, mp) ← find_relpath path path_buf;
      ensure (negb (mo_stat (mpops mp) =? 0)) ;;
      '(r, st) ← call_stat (mo_stat (mpops mp)) mp relpath st;
      mret (r, Some st)
  | _, _ => mret (Err EFAULT, buf)
  end.

Definition lstat (path : option (list Z)) (buf : option stat_buf) : ST (vfs S) (ret * option stat_buf) :=
  match path, buf with
  | Some path, Some st =>
      '(relpath, mp) ← find_relpath path path_buf;
      '(r, st) ← (if negb (mo_lstat (mpops mp) =? 0) then call_stat (mo_lstat (mpops mp)) mp relpath st
                  else if negb (mo_stat (mpops mp) =? 0) then call_stat (mo_stat (mpops mp)) mp relpath st
                  else lift Panic);
      mret (r, Some st)
  | _, _ => mret (Err EFAULT, buf)
  end.

(** The system calls: [acc] is the outcome of the CHECK_ACCESS macros on the arguments. *)
Definition no_links : ST (vfs S) () := n ← gets link_count; ensure (n =? 0).
Definition sys_open (acc : bool) (path : list Z) (mode : Z) : ST (vfs S) ret :=
  no_links ;; if negb acc then mret (Err EFAULT) else open path mode.
Definition sys_stat (acc : bool) (path : option (list Z)) (buf : option stat_buf) : ST (vfs S) (ret * option stat_buf) :=
  no_links ;; if negb acc then mret (Err EFAULT, buf) else stat path buf.
Definition sys_lstat (acc : bool) (path : option (list Z)) (buf : option stat_buf) : ST (vfs S) (ret * option stat_buf) :=
  no_links ;; if negb acc then mret (Err EFAULT, buf) else lstat path buf.
Definition sys_readlink (acc : bool) (pathname buf : option (list Z)) (bufsiz : Z) : ST (vfs S) (ret * option (list Z)) :=
  no_links ;; if negb acc then mret (Err EFAULT, buf) else readlink pathname buf bufsiz.

(** ** The current directory *)
Definition validate_path (in_path : option (list Z)) : ST (vfs S) ret :=
  match in_path with
  | None => lift Panic
  | Some _ =>
      '(r, st) ← stat in_path (Some (mk_stat 0 0));
      match r with
      | Err e => mret (Err e)
      | Val n =>
          st ← lift (deref st);
          if S_ISDIR (st_mode st) then mret (Val 0) else mret (Err ENOTDIR)
      end
  end.

Definition set_pwd (p : list Z) (s : vfs S) : vfs S := mk_vfs (mountpoints s) (Some p) (link_count s) (rest s).

Definition chdir (in_path : option (list Z)) : ST (vfs S) ret :=
  match in_path with
  | None => lift Panic
  | Some in_path =>
      cwd ← gets pwd;
      cwd ← match cwd with Some cwd => mret cwd | None => lift Panic end;
      c ← lift (aget in_path 0);
      path ← lift (if c =? SLASH then '(path, _) ← strlcpy path_buf in_path (PATH_MAX + 1); Ok path
                   else
                     '(path, _) ← strlcpy path_buf cwd (PATH_MAX + 1);
                     '(path, _) ← path_join path in_path; Ok path);
      '(path, ok) ← lift (path_collapse_dots path);
      (if ok : bool then mret tt else lift Panic) ;;
      r ← validate_path (Some path);
      match r with
      | Val _ =>
          cwd ← gets pwd; cwd ← lift (deref cwd);
          '(cwd, _) ← lift (strlcpy cwd path (PATH_MAX + 1));
          modify (set_pwd cwd) ;;
          mret (Val 0)
      | Err e => mret (Err e)
      end
  end.
Definition sys_chdir (acc : bool) (in_path : option (list Z)) : ST (vfs S) ret :=
  if negb acc then mret (Err EFAULT) else chdir in_path.

(** The buffer after the call, or the error. *)
Definition sys_getcwd (acc : bool) (buf : option (list Z)) (size : Z) : ST (vfs S) (list Z + errno) :=
  match buf with
  | None => lift Panic
  | Some b =>
      if (size =? 0) || negb acc then lift Panic
      else
        cwd ← gets pwd;
        cwd ← match cwd with Some cwd => mret cwd | None => lift Panic end;
        n ← lift (strlen cwd);
        if size <=? n then mret (inr ERANGE)
        else
          '(b, _) ← lift (strlcpy b cwd size);
          mret (inl b)
  end.
End Paths.

(** ** Prefixes up to case *)
Definition same_text (s t : list Z) : Prop := map tolower s = map tolower t.
#[global] Instance same_text_dec s t : Decision (same_text s t) := decide (map tolower s = map tolower t).

Lemma tolower_not_0 c : char_ok c -> tolower c <> tolower 0.
Proof.
  unfold char_ok. change (tolower 0) with 0. unfold tolower. intros Hc.
  destruct ((65 <=? c) && (c <=? 90)); [|lia].
  intros Hz. apply Z.lor_eq_0_iff in Hz as [_ ?]. done.
Qed.

Lemma strnicmp_loop n b1 b2 s t :
  cstr b1 s -> cstr b2 t ->
  exists r, strn_loop tolower (S n) b1 b2 = Ok r /\ (r = 0 <-> same_text (take (S n) s) (take (S n) t)).
Proof.
  unfold same_text. intros Hs. revert n b2 t. pattern b1, s. revert b1 s Hs. apply cstr_rect_prop.
  - intros r n b2 t [(-> & r' & ->)|(d & b & t' & -> & -> & Hd & _)]%cstr_inv; cbn [strn_loop].
    + rewrite Z.eqb_refl, orb_true_r. eexists. split; done.
    + destruct (Z.eqb_spec (tolower 0) (tolower d)) as [E|_]; [by apply tolower_not_0 in Hd|].
      unfold byte_cmp, char_ok in *. destruct (Z.ltb_spec 0 d); [|lia]. eexists. split; done.
  - intros c b s Hc _ IH n b2 t [(-> & r' & ->)|(d & b' & t' & -> & -> & Hd & Ht)]%cstr_inv; cbn [strn_loop].
    + destruct (Z.eqb_spec (tolower c) (tolower 0)) as [E|_]; [by apply tolower_not_0 in Hc|].
      unfold byte_cmp, char_ok in *. destruct (Z.ltb_spec c 0), (Z.ltb_spec 0 c); try lia.
      eexists. split; done.
    + cbn [take map]. destruct (Z.eqb_spec (tolower c) (tolower d)) as [E|E].
      * destruct (Z.eqb_spec c 0); [unfold char_ok in *; lia|]. rewrite orb_false_r.
        destruct n as [|n]; cbn [Nat.eqb]; [exists 0; split; [done|]; rewrite E; done|].
        destruct (IH n b' t' Ht) as (r & -> & Hr). exists r. split; [done|]. rewrite Hr, E.
        split; [by intros -> | by intros [= ->]].
      * eexists. split; [done|]. unfold byte_cmp. assert (c <> d) by congruence.
        destruct (Z.ltb_spec c d), (Z.ltb_spec d c); split; intros; simplify_eq; done || lia.
Qed.

Lemma strnicmp_zero b1 b2 s t n :
  cstr b1 s -> cstr b2 t ->
  exists r, strnicmp (Some b1) (Some b2) n = Ok r /\ (r = 0 <-> same_text (take n s) (take n t)).
Proof. intros Hs Ht. destruct n as [|n]; [by exists 0|]. by apply strnicmp_loop. Qed.

(** ** The mount point of a path *)

(** The mount point whose path is [m] covers the path [s]: all of [m], up to case, is a prefix of [s]
    that ends at a component boundary (any prefix for the root). *)
Definition covers (m s : list Z) : Prop :=
  same_text m (take (length m) s) /\ (length m <= length s)%nat /\
  ((1 < length m)%nat -> match s !! length m with Some c => c = SLASH | None => True end).

Definition text_of (mp : mountpoint) (t : list Z) : Prop := cstr (mpath mp) t.

Lemma aget_cstr b s (i : nat) :
  cstr b s -> (i <= length s)%nat -> aget b (Z.of_nat i) = Ok (match s !! i with Some c => c | None => 0 end).
Proof.
  intros (r & -> & _) Hi. apply aget_Ok. split; [lia|]. rewrite Nat2Z.id.
  destruct (s !! i) as [c|] eqn:E; [by apply lookup_app_l_Some|].
  apply lookup_ge_None in E. assert (i = length s) as -> by lia. by rewrite lookup_app_r, Nat.sub_diag by lia.
Qed.

Lemma aget_0 b s : cstr b s -> aget b 0 = Ok (match s with [] => 0 | c :: _ => c end).
Proof. intros Hs. pose proof (aget_cstr b s 0 Hs ltac:(lia)) as E. by destruct s. Qed.

(** One round of the search. *)
Lemma best_mount_step path s mp m mps best blen :
  cstr path s -> text_of mp m -> 0 <= blen ->
  exists b : bool, (b = true <-> covers m s /\ blen < zlen m) /\
    best_mount path (mp :: mps) best blen =
    if b then best_mount path mps (Some mp) (zlen m) else best_mount path mps best blen.
Proof.
  intros Hs Hm Hb. cbn [best_mount]. rewrite (strlen_spec _ _ Hm), (strlen_spec _ _ Hs). cbn [mbind res_bind].
  unfold covers. destruct (Z.ltb_spec (zlen s) (zlen m)) as [Hlt|Hge].
  { exists false. split; [split; [done|]; unfold zlen in *; lia|done]. }
  unfold zlen in Hge |- *. rewrite Nat2Z.id.
  destruct (strnicmp_zero (mpath mp) path m s (length m) Hm Hs) as (r & -> & Hr). cbn [mbind res_bind].
  rewrite firstn_all in Hr.
  destruct (Z.eqb_spec r 0) as [E|E].
  2:{ exists false. split; [split; [done|]; intros [(Ht & _) _]; tauto|done]. }
  apply Hr in E. destruct (Z.ltb_spec 1 (Z.of_nat (length m))) as [H1|H1]; cbn [andb].
  - rewrite (aget_cstr path s (length m) Hs ltac:(lia)). cbn [mbind res_bind].
    destruct (s !! length m) as [c|] eqn:Ec.
    + assert (char_ok c) as Hc by (eapply (proj1 (Forall_lookup char_ok s)); [by eapply cstr_chars|done]).
      replace (c =? 0) with false by (unfold char_ok in Hc; lia). cbn [negb andb].
      destruct (Z.eqb_spec c SLASH) as [->|Hne]; cbn [negb].
      * exists (blen <? Z.of_nat (length m)). split; [|by destruct (_ <? _)].
        rewrite Z.ltb_lt. split; [intros; split_and!; done || lia|lia].
      * exists false. split; [split; [done|]; intros [(_ & _ & Hb') _]; specialize (Hb' ltac:(lia)); done|done].
    + cbn [negb andb Z.eqb]. exists (blen <? Z.of_nat (length m)). split; [|by destruct (_ <? _)].
      rewrite Z.ltb_lt. split; [intros; split_and!; done || lia|lia].
  - cbn [mbind res_bind andb]. exists (blen <? Z.of_nat (length m)). split; [|by destruct (_ <? _)].
    rewrite Z.ltb_lt. split; [intros; split_and!; done || lia|lia].
Qed.

(** The result is a covering mount point that no other covering one is longer than, and the first
    of its length. *)
Record longest (mts : list (mountpoint * list Z)) (s : list Z) (mp : mountpoint) (m : list Z) : Prop := {
  lg_in : (mp, m) ∈ mts;
  lg_covers : covers m s;
  lg_nonempty : m <> [];
  lg_longest : forall mp' m', (mp', m') ∈ mts -> covers m' s -> zlen m' <= zlen m
}.

Lemma best_mount_spec path s mts best :
  cstr path s -> Forall (fun '(mp, m) => text_of mp m) mts ->
  match best with Some (_, bm) => 0 < zlen bm | None => True end ->
  exists r, best_mount path mts.*1 (fst <$> best) (match best with Some (_, bm) => zlen bm | None => 0 end) = Ok (fst <$> r) /\
    (r = best \/ exists mp m, r = Some (mp, m) /\ (mp, m) ∈ mts /\ covers m s) /\
    match r with
    | None => forall mp' m', (mp', m') ∈ mts -> covers m' s -> m' = []
    | Some (_, m) => 0 < zlen m /\ (match best with Some (_, bm) => zlen bm <= zlen m | None => True end) /\
        forall mp' m', (mp', m') ∈ mts -> covers m' s -> zlen m' <= zlen m
    end.
Proof.
  intros Hs. revert best. induction mts as [|[mp m] mts IH]; intros best Hm Hbest.
  { exists best. split; [done|]. split; [by left|]. destruct best as [[bp bm]|]; [split_and!; [done|lia|]|]; intros mp' m' Hin; by apply not_elem_of_nil in Hin. }
  apply Forall_cons in Hm as [Hmp Hm]. change (((mp, m) :: mts).*1) with (mp :: mts.*1).
  set (bl := match best with Some (_, bm) => zlen bm | None => 0 end).
  assert (0 <= bl) as Hbl by (unfold bl; destruct best as [[bp bm]|]; lia).
  destruct (best_mount_step path s mp m (mts.*1) (fst <$> best) bl Hs Hmp Hbl) as ([] & Hb & ->).
  - destruct (proj1 Hb eq_refl) as [Hcov Hlt].
    assert (0 < zlen m) as Hpos by lia. destruct (IH (Some (mp, m)) Hm Hpos) as (r & Hr & Hfrom & Hmax). cbn [fmap option_fmap option_map fst] in Hr.
    exists r. split; [done|]. split.
    + destruct Hfrom as [->|(mp1 & m1 & -> & Hin & Hc1)]; right; [exists mp, m|exists mp1, m1]; split_and!; try done; [left|by right].
    + destruct r as [[mr mt]|]; [|by destruct Hfrom as [|(? & ? & ? & _)]].
      destruct Hmax as (H0 & Hge & Hall). split_and!; [done|unfold bl in Hlt; destruct best as [[bp bm]|]; lia|].
      intros mp' m' [[= -> ->]|Hin]%elem_of_cons Hc'; [done|by eapply Hall].
  - destruct (IH best Hm Hbest) as (r & Hr & Hfrom & Hmax). fold bl in Hr. exists r. split; [done|].
    assert (covers m s -> zlen m <= bl) as Hno.
    { intros Hc. destruct (decide (bl < zlen m)) as [Hlt|]; [|lia]. assert (false = true) by (apply Hb; done). done. }
    split; [destruct Hfrom as [->|(mp1 & m1 & -> & Hin & Hc1)]; [by left|right; exists mp1, m1; split_and!; try done; by right]|].
    destruct r as [[mr mt]|].
    + destruct Hmax as (H0 & Hge & Hall). split_and!; [done|done|].
      intros mp' m' [[= -> ->]|Hin]%elem_of_cons Hc'; [|by eapply Hall].
      specialize (Hno Hc'). unfold bl in Hno. destruct best as [[bp bm]|]; lia.
    + intros mp' m' [[= -> ->]|Hin]%elem_of_cons Hc'; [|by eapply Hmax].
      destruct Hfrom as [<-|(? & ? & ? & _)]; [|done]. specialize (Hno Hc'). unfold bl, zlen in Hno.
      destruct m; [done|cbn in Hno; lia].
Qed.

Lemma find_mountpoint_spec mts path s :
  cstr path s -> Forall (fun '(mp, m) => text_of mp m) mts ->
  exists r, find_mountpoint_for_path (Some mts.*1) (Some path) = Ok (fst <$> r) /\
    match r with
    | Some (mp, m) => longest mts s mp m
    | None => forall mp m, (mp, m) ∈ mts -> covers m s -> m = []
    end.
Proof.
  intros Hs Hm. destruct (best_mount_spec path s mts None Hs Hm I) as (r & Hr & Hfrom & Hmax).
  exists r. split.
  - unfold find_mountpoint_for_path. destruct mts as [|[mp m] mts]; [|exact Hr].
    destruct Hfrom as [->|(mp & m & -> & Hin & _)]; [done|by apply not_elem_of_nil in Hin].
  - destruct r as [[mp m]|]; [|done]. destruct Hmax as (H0 & _ & Hall).
    destruct Hfrom as [|(mp1 & m1 & [= -> ->] & Hin & Hc)]; [done|]. constructor; try done.
    intros ->. done.
Qed.

(** ** From a path to a mount point and a relative path *)
Lemma lift_Ok {T A} (r : res A) (a : A) (s : T) : r = Ok a -> lift r s = Ok (a, s).
Proof. by intros ->. Qed.

(** The path inside the mount point: what follows the mount point's path, "/" for nothing. *)
Definition inside (m p : list Z) : list Z :=
  if decide (m = [SLASH]) then p else match drop (length m) p with [] => [SLASH] | r => r end.

Definition collapsed (s : list Z) : list Z := render (Path.resolve [] (Path.split s)).

Lemma render_head comps : head (render comps) = Some SLASH.
Proof. by destruct comps. Qed.

Lemma covers_root s : head s = Some SLASH -> covers [SLASH] s.
Proof. intros Hs. destruct s as [|c s]; [done|]. injection Hs as ->. split_and!; [done|cbn; lia|cbn; lia]. Qed.

Lemma strlcpy_buf dst src s :
  cstr src s -> zlen s <= PATH_MAX -> PATH_MAX + 1 <= zlen dst ->
  exists d, strlcpy dst src (PATH_MAX + 1) = Ok (d, zlen s) /\ cstr d s /\ zlen d = zlen dst.
Proof.
  intros Hs Hl Hd. eexists. split; [by apply strlcpy_fits; [|lia|lia]|]. split.
  - eexists. split; [done|]. by eapply cstr_chars.
  - pose proof (zlen_nonneg s). rewrite zlen_app, zlen_cons. unfold zlen in *. rewrite length_drop. lia.
Qed.

(** Writing "/" over a buffer. *)
Lemma strlcpy_text d : 1 < zlen d -> exists r, strcpy d (lit "/") = Ok r /\ cstr r [SLASH] /\ zlen r = zlen d.
Proof.
  intros Hd. eexists. split; [apply (strcpy_spec _ _ _ slash_lit); exact Hd|].
  split; [eexists; split; [done|repeat constructor; unfold SLASH; lia]|].
  cbn [app]. rewrite !zlen_cons. unfold zlen in *. rewrite length_drop. cbn [length]. lia.
Qed.

Lemma path_buf_len : zlen path_buf = PATH_MAX + 1.
Proof. unfold zlen, path_buf. rewrite length_replicate. unfold PATH_MAX. lia. Qed.

Section Relative.
Context {S : Type} `{MountOps S}.

(** The mount points of a state, with the texts of their paths; the root is one of them. *)
Record mounted (st : vfs S) (mts : list (mountpoint * list Z)) : Prop := {
  mt_list : mountpoints st = Some mts.*1;
  mt_text : Forall (fun '(mp, m) => text_of mp m) mts;
  mt_root : exists mp, (mp, [SLASH]) ∈ mts
}.

(** An absolute path of admissible size. *)
Record abs_path (b s : list Z) : Prop := {
  ap_text : cstr b s;
  ap_head : head s = Some SLASH;
  ap_len : zlen s < PATH_MAX;
  ap_names : Forall (fun t => zlen t <= 255) (Path.split s)
}.

Lemma longest_exists mts st s :
  mounted st mts -> head s = Some SLASH -> ~ (forall mp m, (mp, m) ∈ mts -> covers m s -> m = []).
Proof. intros [_ _ [mp Hin]] Hs Hno. by specialize (Hno mp [SLASH] Hin (covers_root s Hs)). Qed.

(** The end of [find_relpath], on the collapsed path. *)
Lemma strip_mount relpath mp m path p :
  text_of mp m -> cstr path p -> covers m p -> head p = Some SLASH -> zlen p <= PATH_MAX -> m <> [] ->
  PATH_MAX + 1 <= zlen relpath ->
  exists r, (c ← strcmp (mpath mp) (lit "/");
     if c =? 0 then '(relpath, _) ← strlcpy relpath path (PATH_MAX + 1); Ok relpath
     else
       '(relpath, _) ← strlcpy relpath (padd path (zlen m)) (PATH_MAX + 1);
       c ← aget relpath 0;
       if c =? 0 then strcpy relpath (lit "/") else Ok relpath) = Ok r /\
     cstr r (inside m p) /\ zlen r = zlen relpath.
Proof.
  intros Hm Hp (Hsame & Hlen & _) Hh Hmax Hne Hrel. rewrite (strcmp_eq_0 _ _ m [SLASH] Hm slash_lit). cbn [mbind res_bind].
  unfold inside. destruct (decide (m = [SLASH])) as [->|Hm1]; cbn [Z.eqb].
  - destruct (strlcpy_buf relpath path p Hp Hmax Hrel) as (d & -> & Hd & Hdl). by exists d.
  - assert (((if lex m [SLASH] is Lt then -1 else 1) =? 0) = false) as -> by (by destruct (lex m [SLASH])).
    assert (cstr (padd path (zlen m)) (drop (length m) p)) as Hrest.
    { rewrite <- (take_drop (length m) p) in Hp. apply cstr_drop in Hp. rewrite length_take_le in Hp by lia.
      unfold padd, zlen. by rewrite Nat2Z.id. }
    destruct (strlcpy_buf relpath _ _ Hrest) as (d & -> & Hd & Hdl); [unfold zlen in *; rewrite length_drop; lia|done|].
    cbn [mbind res_bind]. rewrite (aget_0 d _ Hd). cbn [mbind res_bind].
    destruct (drop (length m) p) as [|c rest'] eqn:E.
    + cbn [Z.eqb]. destruct (strlcpy_text d) as (r & Hr1 & Hr2 & Hr3); [unfold PATH_MAX in *; lia|].
      exists r. split_and!; [done|done|lia].
    + assert (char_ok c) as Hc by (apply cstr_chars in Hd; by apply Forall_cons in Hd as [? _]).
      replace (c =? 0) with false by (unfold char_ok in Hc; lia). by exists d.
Qed.

Lemma relpath_of_ok st mts p1 s relpath :
  mounted st mts -> abs_path p1 s -> PATH_MAX + 1 <= zlen relpath ->
  exists r mp m, relpath_of p1 relpath st = Ok ((r, mp), st) /\
    longest mts (collapsed s) mp m /\ cstr r (inside m (collapsed s)) /\ zlen r = zlen relpath.
Proof.
  intros Hmt [Hc1 Hh Hl Hn] Hrel. unfold relpath_of.
  destruct (path_collapse_dots_spec p1 s Hc1 Hh Hl Hn) as (p2 & Hp2 & Hc2 & Hl2 & _ & Hshort).
  fold (collapsed s) in Hc2, Hshort.
  erewrite st_bind_Ok by (by apply lift_Ok). cbn beta iota. rewrite (st_bind_Ok _ _ _ tt st) by done.
  rewrite (st_bind_Ok _ _ _ (mountpoints st) st) by done. rewrite (mt_list _ _ Hmt).
  destruct (find_mountpoint_spec mts p2 (collapsed s) Hc2 (mt_text _ _ Hmt)) as (r & Hr & Hlong).
  erewrite st_bind_Ok by (by apply lift_Ok).
  assert (head (collapsed s) = Some SLASH) as Hhead by apply render_head.
  destruct r as [[mp m]|]; [|by destruct (longest_exists mts st (collapsed s) Hmt Hhead)]. cbn [fmap option_fmap option_map fst].
  rewrite (st_bind_Ok _ _ _ mp st) by done.
  assert (text_of mp m) as Htext by (pose proof (mt_text _ _ Hmt) as Hall; rewrite Forall_forall in Hall; apply (Hall (mp, m)), Hlong).
  erewrite st_bind_Ok by (apply lift_Ok, (strlen_spec _ _ Htext)).
  destruct (strnicmp_zero p2 (mpath mp) (collapsed s) m (Z.to_nat (zlen m)) Hc2 Htext) as (c & Hc & Hc0).
  erewrite st_bind_Ok by (by apply lift_Ok). pose proof (lg_covers _ _ _ _ Hlong) as Hcov.
  assert (c = 0) as ->.
  { apply Hc0. unfold zlen. rewrite Nat2Z.id, firstn_all. destruct Hcov as (Hsame & _). by symmetry in Hsame. }
  rewrite (st_bind_Ok _ _ _ tt st) by done.
  destruct (strip_mount relpath mp m p2 (collapsed s) Htext Hc2 Hcov Hhead) as (r & Hr1 & Hr2 & Hr3); [lia|apply Hlong|done|].
  exists r, mp, m. split; [|done]. clear Hr Hc.
  destruct (strcmp (mpath mp) (lit "/")) as [c| | |]; try done. cbn [mbind res_bind] in Hr1.
  rewrite (st_bind_Ok _ _ _ c st) by done. destruct (c =? 0).
  - destruct (strlcpy relpath p2 (PATH_MAX + 1)) as [[d n]| | |]; try done. cbn [mbind res_bind] in Hr1. injection Hr1 as ->.
    by rewrite (st_bind_Ok _ _ _ (r, n) st).
  - destruct (strlcpy relpath (padd p2 (zlen m)) (PATH_MAX + 1)) as [[d n]| | |]; try done. cbn [mbind res_bind] in Hr1.
    rewrite (st_bind_Ok _ _ _ (d, n) st) by done.
    destruct (aget d 0) as [c0| | |]; try done. cbn [mbind res_bind] in Hr1. rewrite (st_bind_Ok _ _ _ c0 st) by done.
    destruct (c0 =? 0).
    + by rewrite (st_bind_Ok _ _ _ r st) by (by apply lift_Ok).
    + injection Hr1 as ->. by rewrite (st_bind_Ok _ _ _ r st) by done.
Qed.

Lemma find_relpath_abs R st mts in_path s relpath :
  mounted st mts -> abs_path in_path s -> PATH_MAX + 1 <= zlen relpath ->
  exists r mp m, find_relpath_with R in_path relpath st = Ok ((r, mp), st) /\
    longest mts (collapsed s) mp m /\ cstr r (inside m (collapsed s)) /\ zlen r = zlen relpath.
Proof.
  intros Hmt [Hs Hh Hl Hn] Hrel. unfold find_relpath_with.
  assert (aget in_path 0 = Ok SLASH) as H0.
  { rewrite (aget_0 in_path s Hs). destruct s as [|c s']; [done|]. by injection Hh as ->. }
  erewrite st_bind_Ok by (by apply lift_Ok). cbn [Z.eqb SLASH Pos.eqb negb].
  destruct (strlcpy_buf path_buf in_path s Hs) as (p1 & Hp1 & Hc1 & Hl1); [lia|rewrite path_buf_len; lia|].
  erewrite st_bind_Ok by (erewrite st_bind_Ok by (by apply lift_Ok); done).
  by apply relpath_of_ok.
Qed.
End Relative.

(** ** Collapsing twice *)
Lemma collapsed_render comps : Forall name_ok comps -> Forall no_dots comps -> collapsed (render comps) = render comps.
Proof. intros Hn Hd. unfold collapsed. rewrite split_render by done. by rewrite resolve_app. Qed.

Lemma collapsed_ok b s :
  abs_path b s -> Forall name_ok (Path.resolve [] (Path.split s)) /\ Forall no_dots (Path.resolve [] (Path.split s)) /\
  zlen (collapsed s) <= zlen s.
Proof.
  intros [Hs Hh Hl Hn]. destruct (path_collapse_dots_spec b s Hs Hh Hl Hn) as (_ & _ & _ & _ & Hd & Hle).
  split_and!; [|done|done]. apply resolve_ok; [constructor|]. by apply split_names; [eapply cstr_chars|].
Qed.

(** The collapsed path is again an admissible absolute path, and its own collapse. *)
Lemma collapsed_abs b s b' : abs_path b s -> cstr b' (collapsed s) -> abs_path b' (collapsed s) /\ collapsed (collapsed s) = collapsed s.
Proof.
  intros Hab Hb'. destruct (collapsed_ok b s Hab) as (Hn & Hd & Hle). split; [|by apply collapsed_render].
  constructor; [done|apply render_head|destruct Hab; lia|]. unfold collapsed. rewrite split_render by done.
  eapply Forall_impl; [exact Hn|]. by intros t (_ & _ & _ & ?).
Qed.

Section Directory.
Context {S : Type} `{MountOps S} (block : list Z).
Implicit Types st : vfs S.

(** What [stat] of the file system answers for the path, whichever buffers hold it. *)
Definition stat_answers st mts (p : list Z) (r : ret) (b : stat_buf) : Prop :=
  forall mp m rel, longest mts p mp m -> cstr rel (inside m p) ->
    mo_stat (mpops mp) <> 0 /\ call_stat (mo_stat (mpops mp)) mp rel (mk_stat 0 0) st = Ok ((r, b), st).

Lemma stat_abs st mts in_path s r b :
  mounted st mts -> abs_path in_path s -> stat_answers st mts (collapsed s) r b ->
  stat block (Some in_path) (Some (mk_stat 0 0)) st = Ok ((r, Some b), st).
Proof.
  intros Hmt Hab Hans. unfold stat, find_relpath.
  destruct (find_relpath_abs (resolve_actual_path block) st mts in_path s path_buf Hmt Hab) as (rel & mp & m & Hr & Hlong & Hrel & _);
    [rewrite path_buf_len; lia|].
  erewrite st_bind_Ok by done. cbn beta iota. destruct (Hans mp m rel Hlong Hrel) as [Hne Hst].
  erewrite st_bind_Ok by (apply ensure_true, negb_true_iff; lia).
  by rewrite (st_bind_Ok _ _ _ _ _ Hst).
Qed.

Definition chdir_result (r : ret) (b : stat_buf) : ret :=
  match r with Err e => Err e | Val _ => if S_ISDIR (st_mode b) then Val 0 else Err ENOTDIR end.

Lemma validate_abs st mts in_path s r b :
  mounted st mts -> abs_path in_path s -> stat_answers st mts (collapsed s) r b ->
  validate_path block (Some in_path) st = Ok (chdir_result r b, st).
Proof.
  intros Hmt Hab Hans. unfold validate_path. rewrite (st_bind_Ok _ _ _ _ _ (stat_abs _ _ _ _ _ _ Hmt Hab Hans)).
  destruct r as [n|e]; cbn [chdir_result]; [|done]. rewrite (st_bind_Ok _ _ _ b st) by done.
  by destruct (S_ISDIR _).
Qed.

(** The path [chdir] builds from its argument and the current directory: [s] is the argument's text,
    [comps] are the components of the current directory. *)
Definition target (comps : list (list Z)) (s : list Z) : list Z :=
  match s with
  | c :: _ => if c =? SLASH then collapsed s else render (Path.resolve comps (Path.split s))
  | [] => render comps
  end.

(** The argument of [chdir] and the current directory are admissible. *)
Record chdir_args st (in_path s : list Z) (cwd : list Z) (comps : list (list Z)) : Prop := {
  ca_text : cstr in_path s;
  ca_names : Forall (fun t => zlen t <= 255) (Path.split s);
  ca_pwd : pwd st = Some cwd;
  ca_cwd : cstr cwd (render comps);
  ca_cwd_names : Forall name_ok comps /\ Forall no_dots comps;
  ca_room : PATH_MAX + 1 <= zlen cwd;
  ca_size : Path.size comps + zlen s + 2 < PATH_MAX
}.

(** The path before it is collapsed, as [chdir] computes it, and after. *)
Lemma chdir_path st in_path s cwd comps :
  chdir_args st in_path s cwd comps ->
  exists c p1 t p2, aget in_path 0 = Ok c /\
    (if c =? SLASH then '(path, _) ← strlcpy path_buf in_path (PATH_MAX + 1); Ok path
     else '(path, _) ← strlcpy path_buf cwd (PATH_MAX + 1); '(path, _) ← path_join path in_path; Ok path) = Ok p1 /\
    abs_path p1 t /\ path_collapse_dots p1 = Ok (p2, true) /\ collapsed t = target comps s /\
    cstr p2 (target comps s).
Proof.
  intros [Hs Hn Hpwd Hcwd [Hcn Hcd] Hroom Hsize]. pose proof (size_nonneg comps) as Hsz.
  assert (exists c p1 t, aget in_path 0 = Ok c /\
    (if c =? SLASH then '(path, _) ← strlcpy path_buf in_path (PATH_MAX + 1); Ok path
     else '(path, _) ← strlcpy path_buf cwd (PATH_MAX + 1); '(path, _) ← path_join path in_path; Ok path) = Ok p1 /\
    abs_path p1 t /\ collapsed t = target comps s) as (c & p1 & t & H0 & Hp1 & Hab & Ht).
  { rewrite (aget_0 _ _ Hs). set (c := match s with [] => 0 | c :: _ => c end). exists c.
    destruct (Z.eqb_spec c SLASH) as [E|E].
    - destruct (strlcpy_buf path_buf in_path s Hs) as (p1 & Hp1 & Hc1 & _); [lia|rewrite path_buf_len; lia|].
      exists p1, s. rewrite Hp1. split_and!; try done.
      + constructor; try done; [|lia]. destruct s as [|x s']; [done|]. unfold c in E. by subst.
      + destruct s as [|x s']; [done|]. cbn [target]. unfold c in E. by rewrite E.
    - assert (zlen (render comps) <= PATH_MAX) as Hrl.
      { pose proof (zlen_nonneg s). unfold PATH_MAX in *. destruct (render_size comps) as [->|[_ ->]]; lia. }
      destruct (strlcpy_buf path_buf cwd _ Hcwd Hrl) as (p0 & Hp0 & Hc0 & Hl0); [rewrite path_buf_len; lia|].
      pose proof (split_names s (cstr_chars _ _ Hs) Hn) as Hnames. pose proof (split_size s) as Hss.
      destruct (path_join_spec p0 comps in_path s Hc0 Hcn) as (p1 & Hp1 & Hc1 & _);
        [rewrite Hl0, path_buf_len; lia|done|done|lia|lia|].
      exists p1, (render (Path.resolve comps (Path.split s))). rewrite Hp0. cbn [mbind res_bind]. rewrite Hp1.
      destruct (resolve_ok comps (Path.split s) Hcn Hnames) as [Hrn Hrs]. pose proof (resolve_no_dots comps (Path.split s) Hcd) as Hrd.
      split_and!; try done.
      + constructor; [done|apply render_head| |rewrite split_render by done; eapply Forall_impl; [exact Hrn|by intros u (_ & _ & _ & ?)]].
        unfold PATH_MAX in *. destruct (render_size (Path.resolve comps (Path.split s))) as [->|[_ ->]]; lia.
      + rewrite collapsed_render by done. destruct s as [|x s']; [done|]. cbn [target]. unfold c in E.
        by replace (x =? SLASH) with false by (symmetry; by apply Z.eqb_neq). }
  destruct Hab as [Hc Hh Hl Hns]. destruct (path_collapse_dots_spec p1 t Hc Hh Hl Hns) as (p2 & Hp2 & Hc2 & _).
  fold (collapsed t) in Hc2. rewrite Ht in Hc2. exists c, p1, t, p2. done.
Qed.

Lemma chdir_spec st mts in_path s cwd comps r b :
  mounted st mts -> chdir_args st in_path s cwd comps -> stat_answers st mts (target comps s) r b ->
  exists st', chdir block (Some in_path) st = Ok (chdir_result r b, st') /\
    if decide (chdir_result r b = Val 0) then exists cwd', st' = set_pwd cwd' st /\ cstr cwd' (target comps s) /\ zlen cwd' = zlen cwd
    else st' = st.
Proof.
  intros Hmt Hargs Hans. destruct (chdir_path _ _ _ _ _ Hargs) as (c & p1 & t & p2 & H0 & Hp1 & Hab & Hp2 & Ht & Hc2).
  destruct Hargs as [Hs Hn Hpwd Hcwd Hcn Hroom Hsize]. rewrite <- Ht in Hc2, Hans. rewrite <- Ht.
  destruct (collapsed_abs p1 t p2 Hab Hc2) as [Hab2 Hidem].
  assert (validate_path block (Some p2) st = Ok (chdir_result r b, st)) as Hval
    by (eapply validate_abs; [done|exact Hab2|by rewrite Hidem]).
  unfold chdir. rewrite (st_bind_Ok _ _ _ (Some cwd) st) by (unfold gets; by rewrite Hpwd).
  rewrite (st_bind_Ok _ _ _ cwd st) by done. rewrite (st_bind_Ok _ _ _ c st) by (by apply lift_Ok).
  rewrite (st_bind_Ok _ _ _ p1 st) by (by apply lift_Ok). rewrite (st_bind_Ok _ _ _ (p2, true) st) by (by apply lift_Ok).
  cbn beta iota. rewrite (st_bind_Ok _ _ _ tt st) by done. rewrite (st_bind_Ok _ _ _ _ _ Hval).
  destruct (chdir_result r b) as [n|e] eqn:E.
  - assert (n = 0) as -> by (unfold chdir_result in E; destruct r; [destruct (S_ISDIR _)|]; congruence).
    rewrite (st_bind_Ok _ _ _ (Some cwd) st) by (unfold gets; by rewrite Hpwd).
    rewrite (st_bind_Ok _ _ _ cwd st) by done. destruct (collapsed_ok p1 t Hab) as (_ & _ & Hle).
    destruct (strlcpy_buf cwd p2 _ Hc2) as (cwd' & Hcp & Hcc & Hcl); [destruct Hab; lia|done|].
    rewrite (st_bind_Ok _ _ _ (cwd', zlen (collapsed t)) st) by (by apply lift_Ok).
    rewrite (st_bind_Ok _ _ _ tt (set_pwd cwd' st)) by done. eexists. split; [done|].
    rewrite decide_True by done. by exists cwd'.
  - exists st. split; [done|]. by rewrite decide_False.
Qed.

Lemma getcwd_spec st cwd p buf size :
  pwd st = Some cwd -> cstr cwd p -> 0 < size <= zlen buf ->
  exists r, sys_getcwd true (Some buf) size st = Ok (r, st) /\
    match r with
    | inl b => zlen p < size /\ cstr b p
    | inr e => size <= zlen p /\ e = ERANGE
    end.
Proof.
  intros Hpwd Hp Hsz. unfold sys_getcwd. replace (size =? 0) with false by lia. cbn [orb negb].
  rewrite (st_bind_Ok _ _ _ (Some cwd) st) by (unfold gets; by rewrite Hpwd).
  rewrite (st_bind_Ok _ _ _ cwd st) by done. rewrite (st_bind_Ok _ _ _ (zlen p) st) by (apply lift_Ok; by apply strlen_spec).
  destruct (Z.leb_spec size (zlen p)) as [Hle|Hgt]; [by exists (inr ERANGE)|].
  erewrite st_bind_Ok by (apply lift_Ok; apply (strlcpy_fits buf cwd p size Hp); lia).
  eexists (inl _). split; [done|]. split; [done|]. eexists. split; [done|]. by eapply cstr_chars.
Qed.
End Directory.

(** ** Paths without symbolic links *)
Section NoLinks.
Context {S : Type} `{MountOps S} (block : list Z) (block_len : zlen block = PATH_MAX + 1).
Implicit Types st : vfs S.

(** No mounted file system knows links (as initrd and FAT). *)
Definition no_symlinks (mts : list (mountpoint * list Z)) : Prop :=
  Forall (fun '(mp, _) => mo_readlink (mpops mp) = 0) mts.

Lemma readlink_none R st mts pb p lb :
  mounted st mts -> no_symlinks mts -> abs_path pb p ->
  readlink_with R (Some pb) (Some lb) (PATH_MAX + 1) st = Ok ((Err EINVAL, Some lb), st).
Proof.
  intros Hmt Hno Hab. unfold readlink_with. change (PATH_MAX + 1 =? 0) with false. cbn match.
  destruct (find_relpath_abs R st mts pb p path_buf Hmt Hab) as (r & mp & m & Hr & Hlong & _ & _); [rewrite path_buf_len; lia|].
  rewrite (st_bind_Ok _ _ _ _ _ Hr). unfold no_symlinks in Hno. rewrite Forall_forall in Hno.
  pose proof (Hno (mp, m) (lg_in _ _ _ _ Hlong)) as Hz. cbn in Hz. by rewrite Hz.
Qed.

Lemma render_abs b comps :
  cstr b (render comps) -> Forall name_ok comps -> Path.size comps <= PATH_MAX - 1 -> abs_path b (render comps).
Proof.
  intros Hb Hn Hs. constructor; [done|apply render_head| |].
  - unfold PATH_MAX in *. destruct (render_size comps) as [->|[_ ->]]; lia.
  - rewrite split_render by done. eapply Forall_impl; [exact Hn|by intros u (_ & _ & _ & ?)].
Qed.

(** Both paths under construction follow the tokens. *)
Lemma token_loop_plain st mts fuel tmp pt lb cur comps first lasts s found :
  mounted st mts -> no_symlinks mts ->
  cstr pt (render comps) -> cstr cur (render comps) -> Forall name_ok comps ->
  zlen pt = PATH_MAX + 1 -> zlen cur = PATH_MAX + 1 ->
  pending tmp (match first with Some o => PBuf o | None => lasts end) s ->
  Forall name_ok (Path.split s) -> Path.size comps + Path.size (Path.split s) <= PATH_MAX - 1 ->
  (length (Path.split s) < fuel)%nat ->
  exists tmp' pt' cur', token_loop fuel tmp pt lb cur first lasts found st = Ok (inr (tmp', pt', lb, cur', found), st) /\
    cstr cur' (render (Path.resolve comps (Path.split s))) /\ zlen tmp' = zlen tmp /\ zlen cur' = PATH_MAX + 1.
Proof.
  intros Hmt Hno. remember (Path.split s) as fs eqn:Hfs. unfold Path.split in Hfs.
  revert tmp pt cur comps first lasts s fuel Hfs.
  induction fs as [|t ts IH]; intros tmp pt cur comps first lasts s [|fuel] Hfs Hpt Hcur Hc Hpl Hcl Hp Hnames Hsz Hf;
    cbn in Hf; try lia; cbn [token_loop];
    pose proof (strtok_r_step tmp first (lit "/") [SLASH] lasts s slash_lit Hp) as Hs; rewrite <- Hfs in Hs.
  - destruct Hs as (tmp' & l' & Hs & -> & _). rewrite (st_bind_Ok _ _ _ _ _ (lift_Ok _ _ st Hs)). by exists tmp, pt, cur.
  - destruct Hs as (tmp' & o & l' & s' & Hs & Ht & Hp' & Hts & Htl).
    rewrite (st_bind_Ok _ _ _ _ _ (lift_Ok _ _ st Hs)). cbn beta iota.
    inversion Hnames as [|? ? Hname Hrest]; subst. rewrite size_cons in Hsz.
    pose proof (size_nonneg (fields [SLASH] s')). pose proof (size_nonneg comps).
    assert (forall b, cstr b (render comps) -> zlen b = PATH_MAX + 1 ->
      exists b1, path_join b (padd tmp' o) = Ok (b1, true) /\ cstr b1 (render (Path.step comps t)) /\ zlen b1 = PATH_MAX + 1) as Hjoin.
    { intros b Hb Hbl. destruct (path_join_spec b comps (padd tmp' o) t) as (b1 & Hb1 & Hb2 & Hb3); try done; try lia.
      - apply Ht.
      - rewrite split_name by done. by constructor.
      - rewrite split_name, size_cons by done. change (Path.size []) with 0. lia.
      - exists b1. rewrite (split_name t) in Hb2 by done. split_and!; [done|done|lia]. }
    destruct (step_ok comps t Hc Hname) as [Hc1 Hs1].
    destruct (Hjoin pt Hpt Hpl) as (pt1 & Hpt1 & Hpt2 & Hpt3). destruct (Hjoin cur Hcur Hcl) as (cur1 & Hcur1 & Hcur2 & Hcur3).
    rewrite (st_bind_Ok _ _ _ _ _ (lift_Ok _ _ st Hpt1)). cbn beta iota.
    unfold readlink_abs. erewrite st_bind_Ok by (eapply readlink_none; [done|done|]; apply render_abs; [done|done|lia]).
    cbn beta iota. rewrite (st_bind_Ok _ _ _ lb st) by done. rewrite (st_bind_Ok _ _ _ _ _ (lift_Ok _ _ st Hcur1)). cbn beta iota.
    destruct (IH tmp' pt1 cur1 (Path.step comps t) None l' s' fuel) as (tmp2 & pt2 & cur2 & Hrun & Hc2 & Ht2 & Hl2); try done; try lia.
    exists tmp2, pt2, cur2. split_and!; [done|done|lia|done].
Qed.

(** [resolve_actual_path] then only collapses the path. *)
Lemma resolve_plain st mts out s :
  mounted st mts -> no_symlinks mts -> abs_path out s -> PATH_MAX + 1 <= zlen out ->
  exists out', resolve_actual_path block out st = Ok ((out', Val 0), st) /\ cstr out' (collapsed s) /\ zlen out' = zlen out.
Proof.
  intros Hmt Hno Hab Hlen. destruct (collapsed_ok out s Hab) as (_ & _ & Hcol). destruct Hab as [Hs Hh Hl Hn]. unfold resolve_actual_path.
  assert (load out = Ok SLASH) as Hload.
  { destruct Hs as (r & -> & _). destruct s as [|c s']; [done|]. by injection Hh as ->. }
  rewrite (st_bind_Ok _ _ _ _ _ (lift_Ok _ _ st Hload)). rewrite (st_bind_Ok _ _ _ tt st) by done.
  destruct (strlcpy_buf block out s Hs) as (tmp & Htmp & Htc & Htl); [lia|lia|].
  rewrite (st_bind_Ok _ _ _ _ _ (lift_Ok _ _ st Htmp)). cbn beta iota. cbn [link_rounds].
  destruct (strlcpy_text block) as (root & Hroot & Hrc & Hrl); [unfold PATH_MAX in *; lia|].
  pose proof (split_names s (cstr_chars _ _ Hs) Hn) as Hnames. pose proof (split_size_abs s Hh) as Hsz.
  destruct (token_loop_plain st mts (Datatypes.S (length tmp)) tmp root block root [] (Some 0) PEmpty s false)
    as (tmp' & pt' & cur' & Hrun & Hc' & Ht' & Hl'); try done; try lia.
  { change (Path.size []) with 0. unfold PATH_MAX in *. lia. }
  { pose proof (fields_len [SLASH] s). pose proof (cstr_len _ _ Htc). unfold Path.split. lia. }
  fold (collapsed s) in Hc'.
  erewrite (st_bind_Ok _ _ st).
  2:{ rewrite (st_bind_Ok _ _ _ _ _ (lift_Ok _ _ st Hroot)), (st_bind_Ok _ _ _ _ _ (lift_Ok _ _ st Hroot)).
      rewrite (st_bind_Ok _ _ _ _ _ Hrun). cbn beta iota.
      destruct (strlcpy_buf tmp' cur' _ Hc') as (tmp2 & Htmp2 & _); [lia|lia|].
      rewrite (st_bind_Ok _ _ _ _ _ (lift_Ok _ _ st Htmp2)). reflexivity. }
  cbn beta iota. destruct (strlcpy_buf out cur' _ Hc') as (out' & Hout & Hoc & Hol); [lia|lia|].
  rewrite (st_bind_Ok _ _ _ _ _ (lift_Ok _ _ st Hout)). by exists out'.
Qed.

(** A relative path is resolved against the current directory. *)
Lemma find_relpath_rel st mts in_path s cwd comps relpath :
  mounted st mts -> no_symlinks mts -> chdir_args st in_path s cwd comps -> head s <> Some SLASH ->
  PATH_MAX + 1 <= zlen relpath ->
  exists r mp m, find_relpath block in_path relpath st = Ok ((r, mp), st) /\
    longest mts (target comps s) mp m /\ cstr r (inside m (target comps s)) /\ zlen r = zlen relpath.
Proof.
  intros Hmt Hno [Hs Hn Hpwd Hcwd [Hcn Hcd] Hroom Hsize] Hh Hrel. unfold find_relpath, find_relpath_with.
  pose proof (size_nonneg comps) as Hsz. pose proof (zlen_nonneg s).
  rewrite (st_bind_Ok _ _ _ _ _ (lift_Ok _ _ st (aget_0 _ _ Hs))).
  assert (((match s with [] => 0 | c :: _ => c end) =? SLASH) = false) as ->.
  { destruct s as [|c s']; [done|]. apply Z.eqb_neq. intros ->. by apply Hh. }
  cbn [negb]. assert (zlen (render comps) < PATH_MAX) as Hrl.
  { unfold PATH_MAX in *. destruct (render_size comps) as [->|[_ ->]]; lia. }
  destruct (strlcpy_buf path_buf cwd _ Hcwd ltac:(lia)) as (p0 & Hp0 & Hc0 & Hl0); [rewrite path_buf_len; lia|].
  rewrite path_buf_len in Hl0.
  destruct (resolve_plain st mts p0 (render comps) Hmt Hno) as (p1 & Hp1 & Hc1 & Hl1); [apply render_abs; [done|done|lia]|lia|].
  rewrite collapsed_render in Hc1 by done.
  pose proof (split_names s (cstr_chars _ _ Hs) Hn) as Hnames. pose proof (split_size s) as Hss.
  destruct (path_join_spec p1 comps in_path s Hc1 Hcn) as (p2 & Hp2 & Hc2 & _); [lia|done|done|lia|lia|].
  destruct (resolve_ok comps (Path.split s) Hcn Hnames) as [Hrn Hrs]. pose proof (resolve_no_dots comps (Path.split s) Hcd) as Hrd.
  erewrite (st_bind_Ok _ _ st).
  2:{ rewrite (st_bind_Ok _ _ _ (Some cwd) st) by (unfold gets; by rewrite Hpwd).
      rewrite (st_bind_Ok _ _ _ p0 st) by (apply lift_Ok; by rewrite Hp0).
      rewrite (st_bind_Ok _ _ _ _ _ Hp1). cbn beta iota. by rewrite (st_bind_Ok _ _ _ _ _ (lift_Ok _ _ st Hp2)). }
  assert (target comps s = render (Path.resolve comps (Path.split s))) as ->.
  { destruct s as [|c s']; [done|]. cbn [target]. destruct (Z.eqb_spec c SLASH) as [->|]; [by destruct Hh|done]. }
  rewrite <- (collapsed_render (Path.resolve comps (Path.split s))) by done.
  apply relpath_of_ok; [done|apply render_abs; [done|done|lia]|done].
Qed.
End NoLinks.

(** ** The properties *)

(** [find_mountpoint_for_path] returns the mount point with the longest path that covers the
    given one: a prefix of it up to case that ends at a component boundary.  It returns NULL only
    if nothing but unnamed mount points covers the path. *)
Theorem find_mountpoint_longest mts path s :
  cstr path s -> Forall (fun '(mp, m) => text_of mp m) mts ->
  exists r, find_mountpoint_for_path (Some mts.*1) (Some path) = Ok (fst <$> r) /\
    match r with
    | Some (mp, m) => longest mts s mp m
    | None => forall mp m, (mp, m) ∈ mts -> covers m s -> m = []
    end.
Proof. apply find_mountpoint_spec. Qed.

Section Properties.
Context {S : Type} `{MountOps S} (block : list Z).
Implicit Types st : vfs S.

(** [find_relpath] of an absolute path: the path is collapsed, the mount point with the longest
    path covering it is chosen, and the relative path is what follows that prefix ("/" if nothing
    does, the whole path for the root); no assertion fails and the state does not change. *)
Theorem find_relpath_correct st mts in_path s relpath :
  mounted st mts -> abs_path in_path s -> PATH_MAX + 1 <= zlen relpath ->
  exists r mp m, find_relpath block in_path relpath st = Ok ((r, mp), st) /\
    longest mts (collapsed s) mp m /\ cstr r (inside m (collapsed s)) /\ head (inside m (collapsed s)) = Some SLASH.
Proof.
  intros Hmt Hab Hrel. destruct (find_relpath_abs (resolve_actual_path block) st mts in_path s relpath Hmt Hab Hrel)
    as (r & mp & m & Hr & Hlong & Hc & _).
  exists r, mp, m. split_and!; try done. unfold inside. case_decide as Hm; [apply render_head|].
  destruct (drop (length m) (collapsed s)) as [|c l] eqn:E; [done|]. cbn. f_equal.
  assert (collapsed s !! length m = Some c) as Hl by (rewrite <- (Nat.add_0_r (length m)), <- lookup_drop, E; done).
  destruct (lg_covers _ _ _ _ Hlong) as (Hsame & Hlen & Hb). destruct (decide (1 < length m)%nat) as [H1|H1].
  - specialize (Hb H1). by rewrite Hl in Hb.
  - exfalso. destruct m as [|x [|y m]]; [by destruct (lg_nonempty _ _ _ _ Hlong)| |cbn in H1; lia].
    assert (head (collapsed s) = Some SLASH) as Hh by apply render_head. destruct (collapsed s) as [|z cs]; [done|].
    injection Hh as ->. cbn in Hsame. unfold same_text in Hsame. cbn in Hsame. injection Hsame as Hx. apply Hm. f_equal.
    revert Hx. unfold tolower, SLASH. destruct ((65 <=? x) && (x <=? 90)) eqn:Ex; [|done]. intros Hlor.
    exfalso. bool_to_prop. assert (Z.testbit (Z.lor x 32) 6 = true); [|by rewrite Hlor in *].
    rewrite Z.lor_spec. apply orb_true_iff. left. apply Z.testbit_true; [lia|].
    replace (x / 2 ^ 6) with 1; [done|]. apply (Z.div_unique _ _ _ (x - 64)); lia.
Qed.

(** [find_relpath] of a relative path, when no mounted file system has symbolic links: the path is
    resolved against the current directory, then treated like an absolute one; the walk over the
    components of the current directory in [resolve_actual_path] terminates and changes nothing. *)
Theorem find_relpath_relative st mts in_path s cwd comps relpath :
  zlen block = PATH_MAX + 1 ->
  mounted st mts -> no_symlinks mts -> chdir_args st in_path s cwd comps -> head s <> Some SLASH ->
  PATH_MAX + 1 <= zlen relpath ->
  exists r mp m, find_relpath block in_path relpath st = Ok ((r, mp), st) /\
    longest mts (target comps s) mp m /\ cstr r (inside m (target comps s)).
Proof.
  intros Hb Hmt Hno Hargs Hh Hrel.
  destruct (find_relpath_rel block Hb st mts in_path s cwd comps relpath Hmt Hno Hargs Hh Hrel) as (r & mp & m & ? & ? & ? & _).
  by exists r, mp, m.
Qed.

(** [chdir] then [getcwd]: a directory the file system accepts becomes the current directory,
    with its [.] and [..] resolved against the old one, and [getcwd] returns exactly that text (or
    ERANGE when it does not fit); if the file system refuses it or it is no directory, the error is
    returned and nothing changes. *)
Theorem chdir_getcwd st mts in_path s cwd comps r b buf size :
  mounted st mts -> chdir_args st in_path s cwd comps -> stat_answers st mts (target comps s) r b ->
  0 < size <= zlen buf ->
  exists st', chdir block (Some in_path) st = Ok (chdir_result r b, st') /\
    if decide (chdir_result r b = Val 0) then
      exists g, sys_getcwd true (Some buf) size st' = Ok (g, st') /\
        match g with
        | inl out => zlen (target comps s) < size /\ cstr out (target comps s)
        | inr e => size <= zlen (target comps s) /\ e = ERANGE
        end
    else st' = st.
Proof.
  intros Hmt Hargs Hans Hsz. destruct (chdir_spec block st mts in_path s cwd comps r b Hmt Hargs Hans) as (st' & Hc & Hcase).
  exists st'. split; [done|]. case_decide; [|done]. destruct Hcase as (cwd' & -> & Hcwd & _).
  by apply (getcwd_spec (set_pwd cwd' st) cwd').
Qed.
End Properties.

(** ** A concrete system: the root and an initrd under /initrd, where every path is a directory *)
#[export] Instance all_dirs : MountOps () := {|
  call_open := fun _ _ _ _ => mret (Val 3);
  call_opendir := fun _ _ _ => mret 1;
  call_stat := fun _ _ _ _ => mret (Val 0, mk_stat 0x4000 0);
  call_readlink := fun _ _ _ buf _ => mret (Err EINVAL, buf)
|}.

(** A block of PATH_MAX + 1 bytes that holds a string. *)
Definition block_of (t : string) : list Z := chars t ++ 0 :: replicate (1023 - length (chars t)) 0.

Lemma block_of_cstr t : forallb (fun c => (0 <? c) && (c <? 256)) (chars t) = true -> cstr (block_of t) (chars t).
Proof.
  intros Ht. eexists. split; [done|]. destruct (lit_check t Ht) as (r & Hr & Hall). done.
Qed.

Definition sample_mp (t : string) (dev : Z) : mountpoint := mk_mountpoint (block_of t) dev (mk_mp_ops 1 1 1 0 0) 0.
Definition sample_mts : list (mountpoint * list Z) :=
  [(sample_mp "/" 0, chars "/"); (sample_mp "/initrd" 1, chars "/initrd")].
Definition sample_vfs : vfs () := mk_vfs (Some sample_mts.*1) (Some (block_of "/initrd")) 0 tt.

Lemma sample_text : Forall (fun '(mp, m) => text_of mp m) sample_mts.
Proof. repeat constructor; by apply block_of_cstr. Qed.

Lemma sample_mounted : mounted sample_vfs sample_mts.
Proof. constructor; [done|apply sample_text|]. exists (sample_mp "/" 0). by left. Qed.

Lemma initrd_names : Forall name_ok [chars "initrd"] /\ Forall no_dots [chars "initrd"].
Proof.
  split; repeat constructor; try done; try (unfold zlen; cbn; lia).
  apply (bool_decide_unpack (SLASH ∉ chars "initrd")). vm_compute. done.
Qed.

Lemma sample_args : chdir_args sample_vfs (lit "../x") (chars "../x") (block_of "/initrd") [chars "initrd"].
Proof.
  constructor; try done.
  - by apply lit_check.
  - repeat constructor; unfold zlen; cbn; lia.
  - by apply block_of_cstr.
  - apply initrd_names.
Qed.

Lemma sample_abs : abs_path (lit "/initrd/./etc") (chars "/initrd/./etc").
Proof.
  constructor; [by apply lit_check|done|vm_compute; done|]. repeat constructor; unfold zlen; cbn; lia.
Qed.

Lemma find_mountpoint_witness :
  exists r, find_mountpoint_for_path (Some sample_mts.*1) (Some (lit "/initrd/etc")) = Ok (fst <$> r) /\
    match r with
    | Some (mp, m) => longest sample_mts (chars "/initrd/etc") mp m
    | None => forall mp m, (mp, m) ∈ sample_mts -> covers m (chars "/initrd/etc") -> m = []
    end.
Proof. apply (find_mountpoint_longest sample_mts (lit "/initrd/etc") (chars "/initrd/etc")); [by apply lit_check|apply sample_text]. Defined.

Lemma find_relpath_witness :
  exists r mp m, find_relpath path_buf (lit "/initrd/./etc") path_buf sample_vfs = Ok ((r, mp), sample_vfs) /\
    longest sample_mts (collapsed (chars "/initrd/./etc")) mp m.
Proof.
  destruct (find_relpath_correct path_buf sample_vfs sample_mts (lit "/initrd/./etc") (chars "/initrd/./etc") path_buf)
    as (r & mp & m & H1 & H2 & _); [apply sample_mounted|apply sample_abs|rewrite path_buf_len; lia|].
  by exists r, mp, m.
Defined.

Lemma find_relpath_relative_witness :
  exists r mp m, find_relpath path_buf (lit "../x") path_buf sample_vfs = Ok ((r, mp), sample_vfs) /\
    longest sample_mts (target [chars "initrd"] (chars "../x")) mp m.
Proof.
  destruct (find_relpath_relative path_buf sample_vfs sample_mts (lit "../x") (chars "../x") (block_of "/initrd") [chars "initrd"] path_buf)
    as (r & mp & m & H1 & H2 & _);
    [apply path_buf_len|apply sample_mounted|by repeat constructor|apply sample_args|done|rewrite path_buf_len; lia|].
  by exists r, mp, m.
Defined.

Lemma chdir_getcwd_witness :
  exists st' g, chdir path_buf (Some (lit "../x")) sample_vfs = Ok (Val 0, st') /\
    sys_getcwd true (Some path_buf) 10 st' = Ok (g, st').
Proof.
  destruct (chdir_getcwd path_buf sample_vfs sample_mts (lit "../x") (chars "../x") (block_of "/initrd") [chars "initrd"]
    (Val 0) (mk_stat 0x4000 0) path_buf 10) as (st' & Hc & Hcase);
    [apply sample_mounted|apply sample_args| |rewrite path_buf_len; unfold PATH_MAX; lia|].
  - intros mp m rel Hl _. split; [|done]. pose proof (lg_in _ _ _ _ Hl) as Hin.
    apply elem_of_cons in Hin as [[= -> _]|Hin]; [done|]. apply list_elem_of_singleton in Hin as [= -> _]. done.
  - change (chdir_result (Val 0) (mk_stat 0x4000 0)) with (Val 0) in *. rewrite decide_True in Hcase by done.
    destruct Hcase as (g & Hg & _). by exists st', g.
Defined.
