(* ===== verification/Format.v ===== *)
(** * Numbers and text (src/src/lib/stdlib.c, src/src/lib/vsprintf.c)

    [itoa], [atoi], [ipow], [rand], and the formatter behind [printk] and [sprintf].  Strings are
    modelled as in [CString]; [vsprintf] only ever appends to its buffer, so its output is the list
    of the bytes written so far, copied into the buffer at the end. *)
From S2P Require Import Prelude CString.
From stdpp Require Import strings.
#[local] Open Scope Z_scope.

(** ** stdlib.c *)

(** The loop of [reverse]; the indices are [size_t]. *)
Fixpoint reverse_loop (fuel : nat) (s : list Z) (i j : Z) : res (list Z) :=
  if i <? j then
    match fuel with
    | O => NoFuel
    | S fuel =>
        tmp ← aget s j;
        c ← aget s i;
        s ← aset s j c;
        s ← aset s i tmp;
        reverse_loop fuel s (u32 (i + 1)) (u32 (j - 1))
    end
  else Ok s.
Definition reverse (s : list Z) : res (list Z) :=
  len ← strlen s;
  reverse_loop (length s) s 0 (u32 (len - 1)).

(** [for (i = 0; n > 0; i++)]; ten digits at most. *)
Fixpoint itoa_loop (fuel : nat) (out : list Z) (n i : Z) : res (list Z * Z) :=
  if 0 <? n then
    match fuel with
    | O => NoFuel
    | S fuel =>
        out ← aset out i (Z.rem n 10 + 0x30);
        itoa_loop fuel out (Z.quot n 10) (i + 1)
    end
  else Ok (out, i).

(** [n = -n] wraps on the most negative number. *)
Definition itoa (n : Z) (out : list Z) : res (list Z) :=
  let sign := n in
  if n =? 0 then
    out ← aset out 0 0x30;
    aset out 1 0
  else
    let n := if n <? 0 then s32 (- n) else n in
    '(out, i) ← itoa_loop 10 out n 0;
    '(out, i) ← (if sign <? 0 then out ← aset out i 45; Ok (out, i + 1) else Ok (out, i));
    out ← aset out i 0;
    reverse out.

Definition rand (next : Z) : Z * Z :=
  let next := u32 (next * 1103515245 + 12345) in
  (next / 65536 mod 32768, next).
Definition srand (seed : Z) : Z := seed.

Definition isdigit (c : Z) : bool := (48 <=? c) && (c <=? 57).

(** [while (exp--) result *= base] *)
Fixpoint ipow_loop (exp : nat) (base result : Z) : Z :=
  match exp with
  | O => result
  | S exp => ipow_loop exp base (s32 (result * base))
  end.
Definition ipow (base exp : Z) : Z :=
  if base =? 0 then 0
  else if exp <? 0 then 0
  else if exp =? 0 then 1
  else ipow_loop (Z.to_nat exp) base 1.

(** [while ( *str && !isdigit( *str) && *str != '-') str++] *)
Fixpoint atoi_skip (s : list Z) : res (list Z) :=
  match s with
  | [] => Undef
  | c :: s' => if negb (c =? 0) && negb (isdigit c) && negb (c =? 45) then atoi_skip s' else Ok s
  end.
(** [while (isdigit( *end)) end++]: how far [end] gets. *)
Fixpoint digit_run (s : list Z) (k : Z) : res Z :=
  match s with
  | [] => Undef
  | c :: s => if isdigit c then digit_run s (k + 1) else Ok k
  end.
(** [for (i = 0; i < len; i++) num += ( *p++ - 0x30) * ipow(10, len - i - 1)]; [n] is [len - i]. *)
Fixpoint atoi_sum (n : nat) (p : list Z) (num : Z) : res Z :=
  match n with
  | O => Ok num
  | S n =>
      c ← load p;
      atoi_sum n (padd p 1) (s32 (num + (c - 0x30) * ipow 10 (Z.of_nat n)))
  end.
Definition atoi (str : list Z) : res Z :=
  c ← load str;
  if c =? 0 then Ok 0
  else
    str ← atoi_skip str;
    c ← load str;
    let '(sign, str) := if c =? 45 then (-1, padd str 1) else (1, str) in
    len ← digit_run str 0;
    num ← atoi_sum (Z.to_nat len) str 0;
    Ok (s32 (num * sign)).

(** ** vsprintf.c *)
Definition ZEROPAD : Z := 1.
Definition SIGN : Z := 2.
Definition PLUS : Z := 4.
Definition SPACE : Z := 8.
Definition LEFT : Z := 16.
Definition SPECIAL : Z := 32.
Definition SMALL : Z := 64.
Definition has_flag (type flag : Z) : bool := negb (Z.land type flag =? 0).

(** Letters of [digits] from 10 on. *)
Definition digit_char (small : bool) (d : Z) : Z :=
  if d <? 10 then 48 + d else (if small then 97 else 65) + (d - 10).

(** [while (num != 0) tmp[i++] = digits[do_div(num, base)]]: [divl] divides the unsigned value; the
    digits in the order of [tmp], least significant first; 32 rounds suffice in base 2. *)
Fixpoint digits_of (fuel : nat) (small : bool) (base num : Z) : list Z :=
  if num =? 0 then []
  else
    match fuel with
    | O => []
    | S fuel => digit_char small (num mod base) :: digits_of fuel small base (num / base)
    end.

(** [while (size-- > 0) *str++ = c]: what is written and what is left in [size]. *)
Definition pad (size c : Z) : list Z * Z := (replicate (Z.to_nat size) c, Z.min size 0 - 1).

(** [number]: the bytes written, [None] when it returns 0. *)
Definition number (num base size precision type : Z) : option (list Z) :=
  let small := has_flag type SMALL in
  let type := if has_flag type LEFT then Z.ldiff type ZEROPAD else type in
  if (base <? 2) || (36 <? base) then None
  else
    let c := if has_flag type ZEROPAD then 48 else 32 in
    let '(sign, num) :=
      if has_flag type SIGN && (num <? 0) then (45, s32 (- num))
      else (if has_flag type PLUS then 43 else if has_flag type SPACE then 32 else 0, num) in
    let size := if sign =? 0 then size else size - 1 in
    let size := if has_flag type SPECIAL then
                  if base =? 16 then size - 2 else if base =? 8 then size - 1 else size
                else size in
    let tmp := if num =? 0 then [48] else digits_of 32 small base (u32 num) in
    let i := zlen tmp in
    let precision := if precision <? i then i else precision in
    let size := size - precision in
    let '(out1, size) := if Z.land type (ZEROPAD + LEFT) =? 0 then pad size 32 else ([], size) in
    let out2 := if sign =? 0 then [] else [sign] in
    let out3 := if has_flag type SPECIAL then
                  if base =? 8 then [48]
                  else if base =? 16 then [48; if small then 120 else 88] else []
                else [] in
    let '(out4, size) := if has_flag type LEFT then ([], size) else pad size c in
    let out5 := replicate (Z.to_nat (precision - i)) 48 in
    let out6 := rev tmp in
    let '(out7, _) := pad size 32 in
    Some (out1 ++ out2 ++ out3 ++ out4 ++ out5 ++ out6 ++ out7).

(** Variable arguments: integers, strings, and pointers for %n. *)
Inductive arg := AInt (n : Z) | AStr (s : list Z) | APtr (p : Z).
Definition va_int (args : list arg) : res (Z * list arg) :=
  match args with AInt n :: args => Ok (n, args) | _ => Undef end.

(** [skip_atoi]: the value and the rest of the format. *)
Fixpoint skip_atoi (s : list Z) (i : Z) : res (Z * list Z) :=
  match s with
  | [] => Undef
  | c :: s' => if isdigit c then skip_atoi s' (s32 (i * 10 + c - 48)) else Ok (i, s)
  end.

(** The flags after a '%'; the format from the first character that is none. *)
Fixpoint read_flags (fmt : list Z) (flags : Z) : res (Z * list Z) :=
  match fmt with
  | [] => Undef
  | c :: fmt' =>
      if c =? 45 then read_flags fmt' (Z.lor flags LEFT)
      else if c =? 43 then read_flags fmt' (Z.lor flags PLUS)
      else if c =? 32 then read_flags fmt' (Z.lor flags SPACE)
      else if c =? 35 then read_flags fmt' (Z.lor flags SPECIAL)
      else if c =? 48 then read_flags fmt' (Z.lor flags ZEROPAD)
      else Ok (flags, fmt)
  end.

(** The state of the formatter: the bytes written (in order), the arguments left, the stores
    made by %n. *)
Record fstate := mk_fstate { fout : list Z; fargs : list arg; fstores : list (Z * Z) }.
Definition emit (w : list Z) (s : fstate) : fstate := mk_fstate (fout s ++ w) (fargs s) (fstores s).

Definition emit_number (s : fstate) (base field_width precision flags : Z) : res fstate :=
  '(n, args) ← va_int (fargs s);
  w ← deref (number (s32 n) base field_width precision flags);
  Ok (mk_fstate (fout s ++ w) args (fstores s)).

(** One conversion; [c] is the conversion character.  [while (--w > 0)] writes [w - 1] spaces. *)
Definition convert (s : fstate) (c flags field_width precision : Z) : res fstate :=
  if c =? 99 (* c *) then
    '(n, args) ← va_int (fargs s);
    let left := replicate (Z.to_nat (field_width - 1)) 32 in
    let w := if has_flag flags LEFT then u8 n :: left else left ++ [u8 n] in
    Ok (mk_fstate (fout s ++ w) args (fstores s))
  else if c =? 115 (* s *) then
    match fargs s with
    | AStr str :: args =>
        len ← strlen str;
        let len := if (0 <=? precision) && (precision <? len) then precision else len in
        let spaces := replicate (Z.to_nat (field_width - len)) 32 in
        let text := take (Z.to_nat len) str in
        let w := if has_flag flags LEFT then text ++ spaces else spaces ++ text in
        Ok (mk_fstate (fout s ++ w) args (fstores s))
    | _ => Undef
    end
  else if c =? 111 (* o *) then emit_number s 8 field_width precision flags
  else if c =? 112 (* p *) then
    if field_width =? -1 then emit_number s 16 8 precision (Z.lor flags ZEROPAD)
    else emit_number s 16 field_width precision flags
  else if c =? 120 (* x *) then emit_number s 16 field_width precision (Z.lor flags SMALL)
  else if c =? 88 (* X *) then emit_number s 16 field_width precision flags
  else if (c =? 100) || (c =? 105) (* d, i *) then emit_number s 10 field_width precision (Z.lor flags SIGN)
  else if c =? 117 (* u *) then emit_number s 10 field_width precision flags
  else if c =? 110 (* n *) then
    match fargs s with
    | APtr p :: args => Ok (mk_fstate (fout s) args (fstores s ++ [(p, zlen (fout s))]))
    | _ => Undef
    end
  else
    let s := if c =? 37 then s else emit [37] s in
    Ok (if c =? 0 then s else emit [c] s).

(** Width and precision: a number in the format or the next argument. *)
Definition read_width (fmt : list Z) (s : fstate) (flags : Z) : res (Z * Z * list Z * fstate) :=
  c ← load fmt;
  if isdigit c then '(w, fmt) ← skip_atoi fmt 0; Ok (w, flags, fmt, s)
  else if c =? 42 then
    '(w, args) ← va_int (fargs s);
    let s := mk_fstate (fout s) args (fstores s) in
    if w <? 0 then Ok (s32 (- w), Z.lor flags LEFT, fmt, s) else Ok (w, flags, fmt, s)
  else Ok (-1, flags, fmt, s).
Definition read_precision (fmt : list Z) (s : fstate) : res (Z * list Z * fstate) :=
  c ← load fmt;
  if c =? 46 then
    let fmt := padd fmt 1 in
    c ← load fmt;
    '(p, fmt, s) ← (if isdigit c then '(p, fmt) ← skip_atoi fmt 0; Ok (p, fmt, s)
                    else if c =? 42 then
                      '(p, args) ← va_int (fargs s);
                      Ok (p, fmt, mk_fstate (fout s) args (fstores s))
                    else Ok (-1, fmt, s));
    Ok (if p <? 0 then 0 else p, fmt, s)
  else Ok (-1, fmt, s).

(** The main loop, on the format from [fmt] on; each round moves on by at least one character. *)
Fixpoint format (fuel : nat) (fmt : list Z) (s : fstate) : res fstate :=
  match fuel with
  | O => NoFuel
  | S fuel =>
      c ← load fmt;
      if c =? 0 then Ok s
      else if negb (c =? 37) then format fuel (padd fmt 1) (emit [c] s)
      else
        '(flags, fmt) ← read_flags (padd fmt 1) 0;
        '(field_width, flags, fmt, s) ← read_width fmt s flags;
        '(precision, fmt, s) ← read_precision fmt s;
        c ← load fmt;
        s ← convert s c flags field_width precision;
        format fuel (if c =? 0 then fmt else padd fmt 1) s
  end.

(** The buffer, the length returned, and the stores of %n. *)
Definition vsprintf (buf fmt : list Z) (args : list arg) : res (list Z * Z * list (Z * Z)) :=
  s ← format (S (length fmt)) fmt (mk_fstate [] args []);
  buf ← blit buf 0 (fout s ++ [0]) 0 (zlen (fout s) + 1);
  Ok (buf, zlen (fout s), fstores s).

(** ** Digits *)

(** The number a list of digit values stands for, most significant first. *)
Definition digit_val (c : Z) : Z := if c <? 58 then c - 48 else if c <? 97 then c - 55 else c - 87.
Fixpoint value (base : Z) (l : list Z) : Z :=
  match l with
  | [] => 0
  | c :: l => digit_val c * base ^ zlen l + value base l
  end.

Lemma value_app base l k : 0 < base -> value base (l ++ k) = value base l * base ^ zlen k + value base k.
Proof.
  intros Hb. induction l as [|c l IH]; cbn [value app]; [lia|].
  rewrite IH, zlen_app, Z.pow_add_r by apply zlen_nonneg. lia.
Qed.

Lemma digit_char_val small d : 0 <= d < 36 -> digit_val (digit_char small d) = d.
Proof.
  intros Hd. unfold digit_val, digit_char. destruct (Z.ltb_spec d 10).
  - replace (48 + d <? 58) with true by lia. lia.
  - destruct small; [replace (97 + (d - 10) <? 58) with false by lia; replace (97 + (d - 10) <? 97) with false by lia; lia|].
    replace (65 + (d - 10) <? 58) with false by lia. replace (65 + (d - 10) <? 97) with true by lia. lia.
Qed.

Lemma digits_value fuel small base num :
  2 <= base <= 36 -> 0 <= num < base ^ Z.of_nat fuel -> value base (rev (digits_of fuel small base num)) = num.
Proof.
  intros Hb. revert num. induction fuel as [|fuel IH]; intros num Hn; cbn [digits_of].
  - change (base ^ Z.of_nat 0) with 1 in Hn. replace (num =? 0) with true by lia. cbn. lia.
  - destruct (Z.eqb_spec num 0) as [->|Hn0]; [done|]. cbn [rev]. rewrite value_app by lia.
    rewrite IH.
    + change (zlen [_]) with 1. cbn [value]. rewrite zlen_nil, digit_char_val by (pose proof (Z.mod_pos_bound num base); lia).
      pose proof (Z.div_mod num base). lia.
    + split; [apply Z.div_pos; lia|]. apply Z.div_lt_upper_bound; [lia|].
      rewrite Nat2Z.inj_succ, Z.pow_succ_r in Hn by lia. lia.
Qed.

(** More fuel than digits changes nothing. *)
Lemma digits_fuel f1 f2 small base num :
  2 <= base -> 0 <= num < base ^ Z.of_nat f1 -> (f1 <= f2)%nat ->
  digits_of f2 small base num = digits_of f1 small base num.
Proof.
  intros Hb. revert f2 num. induction f1 as [|f1 IH]; intros f2 num Hn Hle.
  - change (base ^ Z.of_nat 0) with 1 in Hn. assert (num = 0) as -> by lia. by destruct f2.
  - destruct f2 as [|f2]; [lia|]. cbn [digits_of]. destruct (num =? 0); [done|]. f_equal. apply IH; [|lia].
    split; [apply Z.div_pos; lia|]. apply Z.div_lt_upper_bound; [lia|].
    rewrite Nat2Z.inj_succ, Z.pow_succ_r in Hn by lia. lia.
Qed.

Lemma digits_len fuel small base num : zlen (digits_of fuel small base num) <= Z.of_nat fuel.
Proof.
  revert num. induction fuel as [|fuel IH]; intros num; cbn [digits_of]; destruct (num =? 0); rewrite ?zlen_nil; try lia.
  rewrite zlen_cons. specialize (IH (num / base)). lia.
Qed.

Lemma digits_nonempty fuel small base num : 0 < num -> (0 < fuel)%nat -> digits_of fuel small base num <> [].
Proof. intros Hn Hf. destruct fuel; [lia|]. cbn [digits_of]. by replace (num =? 0) with false by lia. Qed.

(** Decimal digits. *)
Definition is_dec (c : Z) : Prop := 48 <= c <= 57.
Lemma digits_dec fuel num : Forall is_dec (digits_of fuel false 10 num).
Proof.
  revert num. induction fuel as [|fuel IH]; intros num; cbn [digits_of]; destruct (num =? 0); try constructor; try done.
  unfold digit_char. pose proof (Z.mod_pos_bound num 10 ltac:(lia)). replace (num mod 10 <? 10) with true by lia. unfold is_dec. lia.
Qed.

(** The decimal text of a number. *)
Definition dec (n : Z) : list Z :=
  if n =? 0 then [48]
  else if n <? 0 then 45 :: rev (digits_of 10 false 10 (- n))
  else rev (digits_of 10 false 10 n).

(** ** itoa *)
Lemma itoa_loop_spec fuel pre post n :
  0 <= n < 10 ^ Z.of_nat fuel -> (length (digits_of fuel false 10 n) <= length post)%nat ->
  itoa_loop fuel (pre ++ post) n (zlen pre) =
  Ok (pre ++ digits_of fuel false 10 n ++ drop (length (digits_of fuel false 10 n)) post,
      zlen pre + zlen (digits_of fuel false 10 n)).
Proof.
  revert pre post n. induction fuel as [|fuel IH]; intros pre post n Hn Hl; cbn [itoa_loop digits_of] in *.
  - change (10 ^ Z.of_nat 0) with 1 in Hn. assert (n = 0) as -> by lia. cbn. by rewrite Z.add_0_r.
  - destruct (Z.eqb_spec n 0) as [->|Hn0]; [cbn; by rewrite Z.add_0_r|].
    replace (0 <? n) with true by lia. destruct post as [|x post]; [cbn in Hl; lia|]. rewrite aset_mid. cbn [mbind res_bind].
    rewrite Z.rem_mod_nonneg, Z.quot_div_nonneg by lia.
    assert (n mod 10 + 48 = digit_char false (n mod 10)) as ->.
    { unfold digit_char. pose proof (Z.mod_pos_bound n 10 ltac:(lia)). replace (n mod 10 <? 10) with true by lia. lia. }
    set (d := digit_char false (n mod 10)) in *. cbn [length] in Hl.
    rewrite Nat2Z.inj_succ, Z.pow_succ_r in Hn by lia.
    assert (0 <= n / 10 < 10 ^ Z.of_nat fuel) by (split; [apply Z.div_pos; lia|apply Z.div_lt_upper_bound; lia]).
    specialize (IH (pre ++ [d]) post (n / 10)). rewrite zlen_snoc, <- !app_assoc in IH. cbn [app] in IH.
    rewrite IH by (done || lia). cbn [length drop app]. rewrite zlen_cons. do 2 f_equal. lia.
Qed.

(** ** reverse *)
Lemma reverse_loop_spec fuel A M B :
  zlen (A ++ M ++ B) < 2 ^ 31 -> (length M <= fuel)%nat -> M <> [] ->
  reverse_loop fuel (A ++ M ++ B) (zlen A) (zlen A + zlen M - 1) = Ok (A ++ rev M ++ B).
Proof.
  revert A M B. induction fuel as [|fuel IH]; intros A M B Hlen Hf HM; [destruct M; [done|cbn in Hf; lia]|].
  cbn [reverse_loop]. destruct M as [|x M]; [done|]. rewrite zlen_cons. destruct M as [|y M _] using rev_ind.
  { rewrite zlen_nil. by replace (zlen A <? zlen A + (1 + 0) - 1) with false by lia. }
  rewrite zlen_snoc. pose proof (zlen_nonneg M) as HM0. pose proof (zlen_nonneg A) as HA0. pose proof (zlen_nonneg B) as HB0.
  replace (zlen A <? zlen A + (1 + (zlen M + 1)) - 1) with true by lia.
  assert (A ++ (x :: M ++ [y]) ++ B = (A ++ x :: M) ++ y :: B) as E1 by (cbn; by rewrite <- !app_assoc).
  assert (zlen A + (1 + (zlen M + 1)) - 1 = zlen (A ++ x :: M)) as E2 by (rewrite zlen_app, zlen_cons; lia).
  rewrite E1, E2, aget_mid. cbn [mbind res_bind].
  assert (aget ((A ++ x :: M) ++ y :: B) (zlen A) = Ok x) as -> by (rewrite <- app_assoc; apply aget_mid).
  cbn [mbind res_bind]. rewrite aset_mid. cbn [mbind res_bind].
  rewrite <- app_assoc. cbn [app]. rewrite aset_mid. cbn [mbind res_bind]. rewrite <- E2.
  rewrite E1, !zlen_app, !zlen_cons in Hlen.
  replace (u32 (zlen A + 1)) with (zlen (A ++ [y])) by (rewrite zlen_snoc, u32_small; lia).
  replace (u32 (zlen A + (1 + (zlen M + 1)) - 1 - 1)) with (zlen (A ++ [y]) + zlen M - 1) by (rewrite zlen_snoc, u32_small; lia).
  replace (A ++ y :: M ++ x :: B) with ((A ++ [y]) ++ M ++ (x :: B)) by (by rewrite <- app_assoc).
  assert (rev (x :: M ++ [y]) = y :: rev M ++ [x]) as Hrev by (cbn; by rewrite rev_app_distr).
  rewrite Hrev. destruct M as [|z M].
  - destruct fuel; cbn [reverse_loop]; rewrite zlen_nil; replace (zlen (A ++ [y]) <? zlen (A ++ [y]) + 0 - 1) with false by lia;
      cbn [app rev]; by rewrite <- app_assoc.
  - rewrite IH; [cbn [app]; rewrite <- !app_assoc; done| |cbn in Hf |- *; rewrite length_app in Hf; cbn in Hf; lia|done].
    rewrite !zlen_app, !zlen_cons, zlen_nil in *. lia.
Qed.

Lemma reverse_spec s r : Forall char_ok s -> s <> [] -> zlen (s ++ 0 :: r) < 2 ^ 31 -> reverse (s ++ 0 :: r) = Ok (rev s ++ 0 :: r).
Proof.
  intros Hs Hne Hl. unfold reverse. rewrite (strlen_spec _ s) by (by exists r). cbn [mbind res_bind].
  assert (0 < zlen s) by (destruct s; [done|]; rewrite zlen_cons; pose proof (zlen_nonneg s); lia).
  pose proof (zlen_nonneg (0 :: r)). rewrite zlen_app in Hl. rewrite u32_small by lia.
  apply (reverse_loop_spec _ [] s (0 :: r)); cbn [app]; rewrite ?zlen_app; [lia|rewrite length_app; lia|done].
Qed.

(** ** atoi *)
Lemma ipow_loop_spec k base r : 0 <= r -> 0 < base -> r * base ^ Z.of_nat k < 2 ^ 31 -> ipow_loop k base r = r * base ^ Z.of_nat k.
Proof.
  revert r. induction k as [|k IH]; intros r Hr Hb Hlt; cbn [ipow_loop]; [change (base ^ Z.of_nat 0) with 1; lia|].
  rewrite Nat2Z.inj_succ, Z.pow_succ_r in * by lia.
  assert (0 < base ^ Z.of_nat k) by (apply Z.pow_pos_nonneg; lia).
  rewrite s32_small by nia. rewrite IH by nia. lia.
Qed.

Lemma ipow_10 k : (k <= 9)%nat -> ipow 10 (Z.of_nat k) = 10 ^ Z.of_nat k.
Proof.
  intros Hk. unfold ipow. cbn [Z.eqb]. replace (Z.of_nat k <? 0) with false by lia.
  destruct (Z.eqb_spec (Z.of_nat k) 0) as [->|]; [done|]. rewrite Nat2Z.id, ipow_loop_spec; [lia|lia|lia|].
  assert (10 ^ Z.of_nat k <= 10 ^ 9) by (apply Z.pow_le_mono_r; lia). lia.
Qed.

Lemma value_nonneg l : Forall is_dec l -> 0 <= value 10 l.
Proof.
  induction 1 as [|c l Hc _ IH]; cbn [value]; [lia|]. unfold is_dec in Hc. unfold digit_val. replace (c <? 58) with true by lia.
  pose proof (zlen_nonneg l). assert (0 < 10 ^ zlen l) by (apply Z.pow_pos_nonneg; lia). nia.
Qed.

Lemma atoi_sum_spec l rest num :
  Forall is_dec l -> (length l <= 10)%nat -> 0 <= num -> num + value 10 l < 2 ^ 31 ->
  atoi_sum (length l) (l ++ rest) num = Ok (num + value 10 l).
Proof.
  intros Hl. revert num. induction Hl as [|c l Hc Hl IH]; intros num Hlen Hn Hlt; cbn [atoi_sum length app value] in *.
  - f_equal. lia.
  - cbn [load head deref mbind res_bind]. rewrite ipow_10 by lia. pose proof (value_nonneg l Hl). unfold is_dec in Hc.
    unfold digit_val in *. replace (c <? 58) with true in * by lia.
    assert (0 < 10 ^ Z.of_nat (length l)) by (apply Z.pow_pos_nonneg; lia). fold (zlen l) in *.
    rewrite s32_small by nia. change (padd (c :: l ++ rest) 1) with (l ++ rest).
    rewrite IH by (lia || nia). f_equal. lia.
Qed.

Lemma digit_run_spec l c rest k : Forall is_dec l -> isdigit c = false -> digit_run (l ++ c :: rest) k = Ok (k + zlen l).
Proof.
  intros Hl Hc. revert k. induction Hl as [|x l Hx _ IH]; intros k; cbn [app digit_run].
  - rewrite Hc, zlen_nil. f_equal. lia.
  - unfold is_dec in Hx. replace (isdigit x) with true by (unfold isdigit; lia). rewrite IH, zlen_cons. f_equal. lia.
Qed.

Lemma is_dec_char c : is_dec c -> char_ok c.
Proof. unfold is_dec, char_ok. lia. Qed.

(** [atoi] of a sign and digits. *)
Lemma atoi_digits l rest (neg : bool) :
  Forall is_dec l -> l <> [] -> (length l <= 10)%nat -> value 10 l < 2 ^ 31 ->
  atoi ((if neg then [45] else []) ++ l ++ 0 :: rest) = Ok (if neg then - value 10 l else value 10 l).
Proof.
  intros Hl Hne Hlen Hv. pose proof (value_nonneg l Hl) as H0. destruct l as [|c l]; [done|].
  pose proof (Forall_inv Hl) as Hc. unfold is_dec in Hc. unfold atoi. destruct neg; cbn [app load head deref mbind res_bind].
  - cbn [Z.eqb Pos.eqb atoi_skip negb andb isdigit Z.leb Z.compare Pos.compare Pos.compare_cont mbind res_bind load head deref].
    change (padd (45 :: c :: l ++ 0 :: rest) 1) with ((c :: l) ++ 0 :: rest).
    rewrite (digit_run_spec (c :: l) 0 rest 0 Hl) by done. cbn [mbind res_bind]. unfold zlen.
    rewrite Z.add_0_l, Nat2Z.id, atoi_sum_spec by (done || lia). cbn [mbind res_bind]. rewrite s32_small by lia. f_equal. lia.
  - replace (c =? 0) with false by lia. cbn [atoi_skip]. replace (isdigit c) with true by (unfold isdigit; lia).
    replace (c =? 0) with false by lia. cbn [negb andb mbind res_bind load head deref]. replace (c =? 45) with false by lia.
    change (c :: l ++ 0 :: rest) with ((c :: l) ++ 0 :: rest).
    rewrite (digit_run_spec (c :: l) 0 rest 0 Hl) by done. cbn [mbind res_bind]. unfold zlen.
    rewrite Z.add_0_l, Nat2Z.id, atoi_sum_spec by (done || lia). cbn [mbind res_bind]. rewrite s32_small by lia. f_equal. lia.
Qed.

Lemma dec_chars n : Forall char_ok (dec n).
Proof.
  assert (forall m, Forall char_ok (rev (digits_of 10 false 10 m))) as Hd.
  { intros m. apply Forall_rev. eapply Forall_impl; [apply digits_dec|]. apply is_dec_char. }
  unfold dec. destruct (n =? 0); [by repeat constructor|]. destruct (n <? 0); [constructor; [done|]|]; apply Hd.
Qed.

Lemma itoa_spec n out :
  - 2 ^ 31 < n < 2 ^ 31 -> 12 <= zlen out < 2 ^ 31 ->
  exists r, itoa n out = Ok (dec n ++ 0 :: r) /\ zlen (dec n ++ 0 :: r) = zlen out.
Proof.
  intros Hn Hout. unfold itoa, dec. destruct (Z.eqb_spec n 0) as [->|Hn0].
  { destruct out as [|a [|b r]]; rewrite ?zlen_cons, ?zlen_nil in Hout; try lia. exists r. split; [|done].
    rewrite (aset_mid [] (b :: r) a 48 : aset (a :: b :: r) 0 48 = _). cbn [mbind res_bind app].
    exact (aset_mid [48] r b 0). }
  set (m := if n <? 0 then s32 (- n) else n).
  assert (m = Z.abs n) as Hm by (unfold m; destruct (Z.ltb_spec n 0); [rewrite s32_small by lia|]; lia).
  set (ds := digits_of 10 false 10 m). assert (zlen ds <= 10) as Hds by apply digits_len.
  assert (ds <> []) as Hne by (apply digits_nonempty; lia).
  pose proof (itoa_loop_spec 10 [] out m) as Hloop. fold ds in Hloop. cbn [app] in Hloop. change (@zlen Z []) with 0 in Hloop.
  rewrite Hloop by (change (10 ^ Z.of_nat 10) with 10000000000; unfold zlen in *; lia). cbn [mbind res_bind]. clear Hloop.
  assert (Forall char_ok ds) as Hdc by (eapply Forall_impl; [apply digits_dec|apply is_dec_char]).
  assert (2 <= zlen (drop (length ds) out)) as Hrest by (unfold zlen in *; rewrite length_drop; lia).
  assert (zlen out = zlen ds + zlen (drop (length ds) out)) as Htot by (unfold zlen in *; rewrite length_drop; lia).
  destruct (drop (length ds) out) as [|a [|b r]]; rewrite ?zlen_cons, ?zlen_nil in *; try lia.
  rewrite Z.add_0_l. destruct (Z.ltb_spec n 0) as [Hneg|Hpos].
  - rewrite aset_mid. cbn [mbind res_bind]. rewrite <- zlen_snoc with (x := 45).
    replace (ds ++ 45 :: b :: r) with ((ds ++ [45]) ++ b :: r) by (by rewrite <- app_assoc).
    rewrite aset_mid. cbn [mbind res_bind]. rewrite reverse_spec.
    + rewrite rev_app_distr. cbn [rev app]. replace (- n) with m by lia. fold ds. eexists. split; [done|].
      cbn [app]. rewrite zlen_cons, zlen_app, zlen_cons. unfold zlen. rewrite length_rev. unfold zlen in Htot. lia.
    + apply Forall_snoc; [done|]. unfold char_ok. lia.
    + by destruct ds.
    + rewrite zlen_app, zlen_snoc, zlen_cons. lia.
  - cbn [mbind res_bind]. rewrite aset_mid. cbn [mbind res_bind]. rewrite reverse_spec.
    + replace n with m by lia. fold ds. eexists. split; [done|].
      rewrite zlen_app, !zlen_cons. unfold zlen. rewrite length_rev. unfold zlen in Htot. lia.
    + done.
    + done.
    + rewrite zlen_app, !zlen_cons. lia.
Qed.

Lemma atoi_dec n r : - 2 ^ 31 < n < 2 ^ 31 -> atoi (dec n ++ 0 :: r) = Ok n.
Proof.
  intros Hn. assert (forall m, 0 < m < 2 ^ 31 -> Forall is_dec (rev (digits_of 10 false 10 m)) /\ rev (digits_of 10 false 10 m) <> [] /\
    (length (rev (digits_of 10 false 10 m)) <= 10)%nat /\ value 10 (rev (digits_of 10 false 10 m)) = m) as Hd.
  { intros m Hm. split_and!.
    - apply Forall_rev, digits_dec.
    - intros E. apply (f_equal length) in E. rewrite length_rev in E.
      pose proof (digits_nonempty 10 false 10 m ltac:(lia) ltac:(lia)). by destruct (digits_of 10 false 10 m).
    - rewrite length_rev. pose proof (digits_len 10 false 10 m). unfold zlen in *. lia.
    - apply digits_value; [lia|]. change (10 ^ Z.of_nat 10) with 10000000000. lia. }
  unfold dec. destruct (Z.eqb_spec n 0) as [->|Hn0]; [done|]. destruct (Z.ltb_spec n 0) as [Hneg|Hpos].
  - destruct (Hd (- n) ltac:(lia)) as (H1 & H2 & H3 & H4).
    pose proof (atoi_digits (rev (digits_of 10 false 10 (- n))) r true H1 H2 H3 ltac:(lia)) as Ha.
    cbn [app] in Ha |- *. rewrite Ha. f_equal. lia.
  - destruct (Hd n ltac:(lia)) as (H1 & H2 & H3 & H4).
    pose proof (atoi_digits (rev (digits_of 10 false 10 n)) r false H1 H2 H3 ltac:(lia)) as Ha.
    cbn [app] in Ha. rewrite Ha. f_equal. lia.
Qed.

(** ** number *)
Lemma pad_neg size c : size <= 0 -> pad size c = ([], size - 1).
Proof. intros Hs. unfold pad. replace (Z.to_nat size) with 0%nat by lia. f_equal. lia. Qed.

Lemma zlen_replicate {A} n (c : A) : zlen (replicate (Z.to_nat n) c) = Z.max n 0.
Proof. unfold zlen. rewrite length_replicate. lia. Qed.

(** A conversion of [%d] without width or precision. *)
Lemma number_plain n : - 2 ^ 31 <= n < 2 ^ 31 -> number n 10 (-1) (-1) SIGN = Some (dec n).
Proof.
  intros Hn. unfold number.
  change (has_flag SIGN SMALL) with false. change (has_flag SIGN LEFT) with false. cbn match.
  change ((10 <? 2) || (36 <? 10)) with false. change (has_flag SIGN ZEROPAD) with false.
  change (has_flag SIGN SIGN) with true. change (has_flag SIGN PLUS) with false. change (has_flag SIGN SPACE) with false.
  change (has_flag SIGN SPECIAL) with false. change (Z.land SIGN (ZEROPAD + LEFT) =? 0) with true. cbn [andb].
  assert (forall m, 0 < m <= 2 ^ 31 -> digits_of 32 false 10 m = digits_of 10 false 10 m) as Hfuel.
  { intros m Hm. apply digits_fuel; [lia|change (10 ^ Z.of_nat 10) with 10000000000; lia|lia]. }
  unfold dec. destruct (Z.eqb_spec n 0) as [->|Hn0]; [done|]. destruct (Z.ltb_spec n 0) as [Hneg|Hpos].
  - assert (s32 (- n) <> 0 /\ u32 (s32 (- n)) = - n) as [Hs0 Hu].
    { destruct (decide (n = - 2 ^ 31)) as [->|]; [done|]. rewrite s32_small by lia. rewrite u32_small by lia. lia. }
    replace (s32 (- n) =? 0) with false by (symmetry; by apply Z.eqb_neq). rewrite Hu, Hfuel by lia.
    set (ds := digits_of 10 false 10 (- n)). cbn [Z.eqb]. pose proof (zlen_nonneg ds).
    replace (-1 <? zlen ds) with true by lia. do 3 (rewrite (pad_neg _ 32) by lia; cbn beta iota; change (has_flag SIGN LEFT) with false; cbn beta iota).
    replace (zlen ds - zlen ds) with 0 by lia. cbn [Z.to_nat replicate app]. by rewrite app_nil_r.
  - replace (n =? 0) with false by lia. rewrite u32_small, Hfuel by lia.
    set (ds := digits_of 10 false 10 n). cbn [Z.eqb]. pose proof (zlen_nonneg ds).
    replace (-1 <? zlen ds) with true by lia. do 3 (rewrite (pad_neg _ 32) by lia; cbn beta iota; change (has_flag SIGN LEFT) with false; cbn beta iota).
    replace (zlen ds - zlen ds) with 0 by lia. cbn [Z.to_nat replicate app]. by rewrite app_nil_r.
Qed.

(** The flags in force: left justification switches zero padding off. *)
Definition in_force (type : Z) : Z := if has_flag type LEFT then Z.ldiff type ZEROPAD else type.

(** The sign written, and the prefix of the alternate form. *)
Definition sign_text (num type : Z) : list Z :=
  if has_flag type SIGN && (num <? 0) then [45]
  else if has_flag type PLUS then [43] else if has_flag type SPACE then [32] else [].
Definition prefix_text (base type : Z) (small : bool) : list Z :=
  if has_flag type SPECIAL then
    if base =? 8 then [48] else if base =? 16 then [48; if small then 120 else 88] else []
  else [].
Definition magnitude (num type : Z) : Z := if has_flag type SIGN && (num <? 0) then - num else u32 num.

Lemma no_padding_flags type :
  (Z.land type (ZEROPAD + LEFT) =? 0) = negb (has_flag type ZEROPAD) && negb (has_flag type LEFT).
Proof.
  unfold has_flag. rewrite !negb_involutive. change (ZEROPAD + LEFT) with (Z.lor ZEROPAD LEFT). rewrite Z.land_lor_distr_r.
  destruct (Z.eqb_spec (Z.lor (Z.land type ZEROPAD) (Z.land type LEFT)) 0) as [E|E].
  - apply Z.lor_eq_0_iff in E as [-> ->]. done.
  - destruct (Z.eqb_spec (Z.land type ZEROPAD) 0) as [E1|]; [|done].
    destruct (Z.eqb_spec (Z.land type LEFT) 0) as [E2|]; [|done]. rewrite E1, E2 in E. done.
Qed.

(** The digits in [tmp], whatever the sign. *)
Definition tmp_digits (num base type : Z) : list Z :=
  let num := if has_flag (in_force type) SIGN && (num <? 0) then s32 (- num) else num in
  if num =? 0 then [48] else digits_of 32 (has_flag type SMALL) base (u32 num).

Lemma tmp_digits_value num base type :
  2 <= base <= 36 -> - 2 ^ 31 <= num < 2 ^ 31 -> value base (rev (tmp_digits num base type)) = magnitude num (in_force type).
Proof.
  intros Hb Hn. assert (forall m, 0 <= m < 2 ^ 32 -> value base (rev (digits_of 32 (has_flag type SMALL) base m)) = m) as Hd.
  { intros m Hm. apply digits_value; [done|]. split; [lia|]. assert (2 ^ Z.of_nat 32 <= base ^ Z.of_nat 32); [|lia].
    apply Z.pow_le_mono_l. lia. }
  unfold tmp_digits, magnitude. destruct (has_flag (in_force type) SIGN && (num <? 0)) eqn:E.
  - assert (num < 0) by (bool_to_prop; lia). destruct (decide (num = - 2 ^ 31)) as [->|]; [by apply Hd|].
    rewrite s32_small by lia. replace (- num =? 0) with false by lia. rewrite u32_small by lia. apply Hd. lia.
  - destruct (Z.eqb_spec num 0) as [->|]; [done|]. apply Hd, u32_bound.
Qed.

(** How the padding is spread. *)
Lemma pad_split size zeros left_ :
  let '(o1, s1) := if negb zeros && negb left_ then pad size 32 else ([], size) in
  let '(o4, s4) := if left_ then ([], s1) else pad s1 (if zeros : bool then 48 else 32) in
  let '(o7, _) := pad s4 32 in
  exists a b c, o1 = replicate a 32 /\ o4 = replicate b 48 /\ o7 = replicate c 32 /\
    Z.of_nat a + Z.of_nat b + Z.of_nat c = Z.max size 0.
Proof.
  unfold pad. destruct zeros, left_; cbn [negb andb].
  - exists 0%nat, 0%nat, (Z.to_nat size). split_and!; try done. lia.
  - exists 0%nat, (Z.to_nat size), 0%nat. split_and!; try done; [|lia]. by replace (Z.to_nat (Z.min size 0 - 1)) with 0%nat by lia.
  - exists 0%nat, 0%nat, (Z.to_nat size). split_and!; try done. lia.
  - exists (Z.to_nat size), 0%nat, 0%nat. split_and!; try done; [| |lia];
      by replace (Z.to_nat _) with 0%nat by lia.
Qed.

Lemma number_shape num base size precision type :
  2 <= base <= 36 -> - 2 ^ 31 <= num < 2 ^ 31 ->
  exists a b c z, let ds := rev (tmp_digits num base type) in
    number num base size precision type =
      Some (replicate a 32 ++ sign_text num (in_force type) ++ prefix_text base (in_force type) (has_flag type SMALL) ++
            replicate b 48 ++ replicate z 48 ++ ds ++ replicate c 32) /\
    Z.of_nat z = Z.max 0 (precision - zlen ds) /\
    Z.of_nat a + Z.of_nat b + Z.of_nat c =
      Z.max 0 (size - zlen (sign_text num (in_force type)) - zlen (prefix_text base (in_force type) (has_flag type SMALL))
               - Z.max precision (zlen ds)).
Proof.
  intros Hb Hn. unfold number. fold (in_force type). set (ty := in_force type).
  replace ((base <? 2) || (36 <? base)) with false by lia.
  set (small := has_flag type SMALL).
  assert (tmp_digits num base type = let n := if has_flag ty SIGN && (num <? 0) then s32 (- num) else num in
    if n =? 0 then [48] else digits_of 32 small base (u32 n)) as Htmp by done.
  set (sg := if has_flag ty SIGN && (num <? 0) then (45, s32 (- num)) else (if has_flag ty PLUS then 43 else if has_flag ty SPACE then 32 else 0, num)).
  assert (sign_text num ty = if sg.1 =? 0 then [] else [sg.1]) as Hsg
    by (unfold sign_text, sg; destruct (_ && _); [done|]; destruct (has_flag ty PLUS); [done|]; by destruct (has_flag ty SPACE)).
  assert (tmp_digits num base type = if sg.2 =? 0 then [48] else digits_of 32 small base (u32 sg.2)) as Htmp'
    by (rewrite Htmp; unfold sg; by destruct (_ && _)).
  destruct sg as [sgn m]. cbn [fst snd] in *. rewrite <- Htmp'. set (tmp := tmp_digits num base type) in *.
  assert (zlen (rev tmp) = zlen tmp) as Hrev by (unfold zlen; by rewrite length_rev).
  set (size' := (if has_flag ty SPECIAL then if base =? 16 then (if sgn =? 0 then size else size - 1) - 2
      else if base =? 8 then (if sgn =? 0 then size else size - 1) - 1 else (if sgn =? 0 then size else size - 1)
      else (if sgn =? 0 then size else size - 1)) - (if precision <? zlen tmp then zlen tmp else precision)).
  assert (size' = size - zlen (sign_text num ty) - zlen (prefix_text base ty small) - Z.max precision (zlen (rev tmp))) as Hsize.
  { unfold size', prefix_text. rewrite Hsg, Hrev. assert (zlen (if sgn =? 0 then [] else [sgn]) = if sgn =? 0 then 0 else 1) as -> by (by destruct (sgn =? 0)).
    assert ((if precision <? zlen tmp then zlen tmp else precision) = Z.max precision (zlen tmp)) as -> by (destruct (Z.ltb_spec precision (zlen tmp)); lia).
    destruct (has_flag ty SPECIAL); [|change (@zlen Z []) with 0; destruct (sgn =? 0); lia].
    destruct (Z.eqb_spec base 16) as [E16|E16], (Z.eqb_spec base 8) as [E8|E8]; try lia;
      rewrite ?zlen_cons; change (@zlen Z []) with 0; destruct (sgn =? 0); lia. }
  rewrite no_padding_flags. pose proof (pad_split size' (has_flag ty ZEROPAD) (has_flag ty LEFT)) as Hpad.
  destruct (if negb (has_flag ty ZEROPAD) && negb (has_flag ty LEFT) then pad size' 32 else ([], size')) as [o1 s1].
  destruct (if has_flag ty LEFT then ([], s1) else pad s1 (if has_flag ty ZEROPAD then 48 else 32)) as [o4 s4].
  destruct (pad s4 32) as [o7 s7]. destruct Hpad as (a & b & c & -> & -> & -> & Hsum).
  exists a, b, c, (Z.to_nat ((if precision <? zlen tmp then zlen tmp else precision) - zlen tmp)). cbn zeta.
  rewrite Hsg. fold (prefix_text base ty small). split_and!; [done| |].
  - rewrite Hrev. destruct (Z.ltb_spec precision (zlen tmp)); lia.
  - rewrite <- Hsg, Hsum, Hsize. lia.
Qed.

(** ** The properties *)

(** [itoa] writes the decimal text of every number but the most negative one into a buffer of 12
    bytes or more, and [atoi] reads it back; [sprintf("%d")] writes the same text. *)
Theorem itoa_atoi_roundtrip n out args buf :
  - 2 ^ 31 < n < 2 ^ 31 -> 12 <= zlen out < 2 ^ 31 -> 12 <= zlen buf ->
  exists out' r buf' len, itoa n out = Ok out' /\ cstr out' (dec n) /\ zlen out' = zlen out /\ atoi out' = Ok n /\
    r = dec n /\ vsprintf buf (lit "%d") (AInt n :: args) = Ok (buf', len, []) /\ cstr buf' r /\ len = zlen r.
Proof.
  intros Hn Hout Hbuf. destruct (itoa_spec n out Hn Hout) as (r & Hr & Hl).
  exists (dec n ++ 0 :: r), (dec n). pose proof (dec_chars n) as Hchars.
  assert (zlen (dec n) <= 11) as Hdl.
  { unfold dec. pose proof (digits_len 10 false 10 n). pose proof (digits_len 10 false 10 (- n)). unfold zlen in *.
    destruct (n =? 0); [cbn; lia|]. destruct (n <? 0); cbn [length]; rewrite length_rev; lia. }
  assert (format (S (length (lit "%d"))) (lit "%d") (mk_fstate [] (AInt n :: args) []) = Ok (mk_fstate (dec n) args [])) as Hf.
  { change (format 4 [37; 100; 0] (mk_fstate [] (AInt n :: args) []) = Ok (mk_fstate (dec n) args [])).
    assert (emit_number (mk_fstate [] (AInt n :: args) []) 10 (-1) (-1) SIGN = Ok (mk_fstate (dec n) args [])) as He.
    { unfold emit_number. cbn [fargs va_int mbind res_bind fout fstores]. rewrite s32_small by lia.
      rewrite number_plain by lia. done. }
    exact (f_equal (fun m => m ≫= (fun s => format 3 [0] s)) He). }
  assert (blit buf 0 (dec n ++ [0]) 0 (zlen (dec n) + 1) = Ok ((dec n ++ [0]) ++ drop (Z.to_nat (zlen (dec n) + 1)) buf)) as Hblit.
  { pose proof (zlen_nonneg (dec n)). rewrite blit_Ok by (rewrite ?zlen_snoc; lia). change (Z.to_nat 0) with 0%nat. rewrite drop_0.
    rewrite Z.add_0_l. rewrite (take_ge (dec n ++ [0])); [done|]. rewrite length_app. cbn [length]. unfold zlen. lia. }
  eexists _, _. split_and!; [exact Hr|by exists r|done|by apply atoi_dec|done| | |].
  - unfold vsprintf. rewrite Hf. cbn [mbind res_bind fout fstores]. rewrite Hblit. reflexivity.
  - rewrite <- app_assoc. eexists. split; [done|done].
  - done.
Qed.

(** [number] for every base from 2 to 36, width, precision and combination of flags: padding,
    sign, prefix, zeros, the digits of the magnitude in that base, padding; at least [precision]
    digits; and exactly [size] characters unless the text itself needs more. *)
Theorem number_correct num base size precision type :
  2 <= base <= 36 -> - 2 ^ 31 <= num < 2 ^ 31 ->
  exists w l z ds r, number num base size precision type = Some w /\
    w = l ++ sign_text num (in_force type) ++ prefix_text base (in_force type) (has_flag type SMALL) ++ z ++ ds ++ r /\
    Forall (eq 32) l /\ Forall (eq 48) z /\ Forall (eq 32) r /\
    value base ds = magnitude num (in_force type) /\ precision <= zlen (z ++ ds) /\
    zlen w = Z.max size (zlen (sign_text num (in_force type)) +
                         zlen (prefix_text base (in_force type) (has_flag type SMALL)) + Z.max precision (zlen ds)).
Proof.
  intros Hb Hn. destruct (number_shape num base size precision type Hb Hn) as (a & b & c & z & Hw & Hz & Hsum).
  set (ds := rev (tmp_digits num base type)) in *.
  exists (replicate a 32 ++ sign_text num (in_force type) ++ prefix_text base (in_force type) (has_flag type SMALL) ++
          replicate b 48 ++ replicate z 48 ++ ds ++ replicate c 32), (replicate a 32), (replicate b 48 ++ replicate z 48), ds, (replicate c 32).
  assert (forall n (x : Z), Forall (eq x) (replicate n x)) as Hrep by (intros n x; apply Forall_replicate; done).
  split_and!; try done.
  - by rewrite <- !app_assoc.
  - apply Forall_app. by split.
  - by apply tmp_digits_value.
  - rewrite !zlen_app. unfold zlen at 1 2. rewrite !length_replicate. lia.
  - rewrite !zlen_app. unfold zlen at 1 4 5 7. rewrite !length_replicate. lia.
Qed.

(** [itoa] of the most negative number writes a lone minus sign: [-n] wraps to itself, and the
    loop over the digits is not entered. *)
Lemma itoa_int_min out : 2 <= zlen out < 2 ^ 31 -> exists r, itoa (- 2 ^ 31) out = Ok (45 :: 0 :: r).
Proof.
  intros Hout. destruct out as [|a [|b r]]; rewrite ?zlen_cons, ?zlen_nil in Hout; try lia. exists r.
  unfold itoa. change (- 2 ^ 31 =? 0) with false. change (- 2 ^ 31 <? 0) with true. cbn match.
  change (s32 (- - 2 ^ 31)) with (- 2 ^ 31). change (itoa_loop 10 (a :: b :: r) (- 2 ^ 31) 0) with (Ok (a :: b :: r, 0)).
  cbn [mbind res_bind]. rewrite (aset_mid [] (b :: r) a 45 : aset (a :: b :: r) 0 45 = _). cbn [mbind res_bind app].
  rewrite (aset_mid [45] r b 0 : aset (45 :: b :: r) (0 + 1) 0 = _). cbn [mbind res_bind app].
  apply (reverse_spec [45] r); [by repeat constructor|done|]. rewrite zlen_app, !zlen_cons. change (@zlen Z []) with 0. lia.
Qed.

(** ** Witnesses *)
Lemma itoa_atoi_witness :
  exists out', itoa (-1234) (replicate 12 0) = Ok out' /\ atoi out' = Ok (-1234).
Proof.
  destruct (itoa_atoi_roundtrip (-1234) (replicate 12 0) [] (replicate 12 0)) as (out' & _ & _ & _ & H1 & _ & _ & H2 & _);
    [lia|unfold zlen; cbn; lia|unfold zlen; cbn; lia|]. by exists out'.
Defined.

Lemma number_witness :
  exists w, number 255 16 8 (-1) SPECIAL = Some w /\ zlen w = 8.
Proof.
  destruct (number_correct 255 16 8 (-1) SPECIAL ltac:(lia) ltac:(lia)) as (w & l & z & ds & r & H & _).
  exists w. split; [done|]. vm_compute in H. injection H as <-. reflexivity.
Defined.
