(* ===== verification/Sched.v ===== *)
(** * Tasks and the scheduler (src/src/kernel/task.c, src/src/kernel/timer.c)

    The ready queue, the choice of the next task, sleeping and waking, exit, wait and the reaper.
    The lists of task.c ([ready_queue], [children], the tasks of a console) are the sequences of
    their data: [DList] shows that list.c implements these operations on sequences (search in ring
    order, insertion, removal of the first match).  Tasks live on the kernel heap; an address is 0
    for NULL. *)
From S2P Require Import Prelude.

Definition TASK_RUNNING : Z := 1.
Definition TASK_SLEEPING : Z := 2.
Definition TASK_WAKING_UP : Z := 3.
Definition TASK_IOWAIT : Z := 4.
Definition TASK_EXITING : Z := 8.
Definition TASK_IDLE : Z := 16.
Definition TASK_DEAD : Z := 32.
Definition TASK_WAITING : Z := 64.
Definition TIMER_HZ : Z := 100.

(** The members of [struct task] that task.c itself works with; [children] is [None] for NULL. *)
Record task := mk_task {
  id : Z; esp : Z; ss : Z; stack : Z; state : Z; wakeup_time : Z; privilege : Z; console : Z;
  page_directory : Z; did_execve : bool; parent : Z; children : option (list Z); exit_code : Z
}.

(** The kernel: its tasks, the globals of task.c and timer.c, the processor state a switch changes
    (interrupt flag, page directory, TSS, the TS bit of CR0), the tasks of each console, and the words
    on each task's kernel stack, from its top ([stack - 4]) down. *)
Record kernel := mk_kernel {
  tasks : gmap Z task;
  ready_queue : list Z;
  current_task : Z; console_task : Z; next_task : Z; idle_task : Z; reaper_task : Z;
  task_switching : bool; timer_ticks : Z; next_pid : Z;
  irq : bool; cr3 : Z; tss : Z * Z * Z; ts : bool; last_fpu_task : Z;
  console_tasks : gmap Z (list Z);
  kstacks : gmap Z (list Z)
}.

Abbreviation K := (ST kernel).

(** ** Access to the state *)
Definition set_state (v : Z) (t : task) : task :=
  mk_task (id t) (esp t) (ss t) (stack t) v (wakeup_time t) (privilege t) (console t) (page_directory t)
    (did_execve t) (parent t) (children t) (exit_code t).
Definition set_wakeup (v : Z) (t : task) : task :=
  mk_task (id t) (esp t) (ss t) (stack t) (state t) v (privilege t) (console t) (page_directory t)
    (did_execve t) (parent t) (children t) (exit_code t).
Definition set_esp (v : Z) (t : task) : task :=
  mk_task (id t) v (ss t) (stack t) (state t) (wakeup_time t) (privilege t) (console t) (page_directory t)
    (did_execve t) (parent t) (children t) (exit_code t).
Definition set_ss (v : Z) (t : task) : task :=
  mk_task (id t) (esp t) v (stack t) (state t) (wakeup_time t) (privilege t) (console t) (page_directory t)
    (did_execve t) (parent t) (children t) (exit_code t).
Definition set_console (v : Z) (t : task) : task :=
  mk_task (id t) (esp t) (ss t) (stack t) (state t) (wakeup_time t) (privilege t) v (page_directory t)
    (did_execve t) (parent t) (children t) (exit_code t).
Definition set_execve (v : bool) (t : task) : task :=
  mk_task (id t) (esp t) (ss t) (stack t) (state t) (wakeup_time t) (privilege t) (console t) (page_directory t)
    v (parent t) (children t) (exit_code t).
Definition set_parent (v : Z) (t : task) : task :=
  mk_task (id t) (esp t) (ss t) (stack t) (state t) (wakeup_time t) (privilege t) (console t) (page_directory t)
    (did_execve t) v (children t) (exit_code t).
Definition set_children (v : option (list Z)) (t : task) : task :=
  mk_task (id t) (esp t) (ss t) (stack t) (state t) (wakeup_time t) (privilege t) (console t) (page_directory t)
    (did_execve t) (parent t) v (exit_code t).
Definition set_exit_code (v : Z) (t : task) : task :=
  mk_task (id t) (esp t) (ss t) (stack t) (state t) (wakeup_time t) (privilege t) (console t) (page_directory t)
    (did_execve t) (parent t) (children t) v.

Definition on_tasks (f : gmap Z task -> gmap Z task) (k : kernel) : kernel :=
  mk_kernel (f (tasks k)) (ready_queue k) (current_task k) (console_task k) (next_task k) (idle_task k) (reaper_task k)
    (task_switching k) (timer_ticks k) (next_pid k) (irq k) (cr3 k) (tss k) (ts k) (last_fpu_task k) (console_tasks k) (kstacks k).
Definition on_queue (f : list Z -> list Z) (k : kernel) : kernel :=
  mk_kernel (tasks k) (f (ready_queue k)) (current_task k) (console_task k) (next_task k) (idle_task k) (reaper_task k)
    (task_switching k) (timer_ticks k) (next_pid k) (irq k) (cr3 k) (tss k) (ts k) (last_fpu_task k) (console_tasks k) (kstacks k).
Definition set_current (t : Z) (k : kernel) : kernel :=
  mk_kernel (tasks k) (ready_queue k) t t (next_task k) (idle_task k) (reaper_task k)
    (task_switching k) (timer_ticks k) (next_pid k) (irq k) (cr3 k) (tss k) (ts k) (last_fpu_task k) (console_tasks k) (kstacks k).
Definition set_next (t : Z) (k : kernel) : kernel :=
  mk_kernel (tasks k) (ready_queue k) (current_task k) (console_task k) t (idle_task k) (reaper_task k)
    (task_switching k) (timer_ticks k) (next_pid k) (irq k) (cr3 k) (tss k) (ts k) (last_fpu_task k) (console_tasks k) (kstacks k).
Definition set_ticks (n : Z) (k : kernel) : kernel :=
  mk_kernel (tasks k) (ready_queue k) (current_task k) (console_task k) (next_task k) (idle_task k) (reaper_task k)
    (task_switching k) n (next_pid k) (irq k) (cr3 k) (tss k) (ts k) (last_fpu_task k) (console_tasks k) (kstacks k).
Definition set_pid (n : Z) (k : kernel) : kernel :=
  mk_kernel (tasks k) (ready_queue k) (current_task k) (console_task k) (next_task k) (idle_task k) (reaper_task k)
    (task_switching k) (timer_ticks k) n (irq k) (cr3 k) (tss k) (ts k) (last_fpu_task k) (console_tasks k) (kstacks k).
Definition set_irq (b : bool) (k : kernel) : kernel :=
  mk_kernel (tasks k) (ready_queue k) (current_task k) (console_task k) (next_task k) (idle_task k) (reaper_task k)
    (task_switching k) (timer_ticks k) (next_pid k) b (cr3 k) (tss k) (ts k) (last_fpu_task k) (console_tasks k) (kstacks k).
Definition set_cpu (pd : Z) (t : Z * Z * Z) (b : bool) (k : kernel) : kernel :=
  mk_kernel (tasks k) (ready_queue k) (current_task k) (console_task k) (next_task k) (idle_task k) (reaper_task k)
    (task_switching k) (timer_ticks k) (next_pid k) (irq k) pd t b (last_fpu_task k) (console_tasks k) (kstacks k).
Definition set_consoles (f : gmap Z (list Z) -> gmap Z (list Z)) (k : kernel) : kernel :=
  mk_kernel (tasks k) (ready_queue k) (current_task k) (console_task k) (next_task k) (idle_task k) (reaper_task k)
    (task_switching k) (timer_ticks k) (next_pid k) (irq k) (cr3 k) (tss k) (ts k) (last_fpu_task k) (f (console_tasks k)) (kstacks k).
Definition set_kstack (t : Z) (w : list Z) (k : kernel) : kernel :=
  mk_kernel (tasks k) (ready_queue k) (current_task k) (console_task k) (next_task k) (idle_task k) (reaper_task k)
    (task_switching k) (timer_ticks k) (next_pid k) (irq k) (cr3 k) (tss k) (ts k) (last_fpu_task k) (console_tasks k) (<[t := w]> (kstacks k)).

(** [t->...], as a value and as a target; [kfree(t)] *)
Definition get (t : Z) : K task := x ← gets (fun k => tasks k !! t); lift (deref x).
Definition upd (t : Z) (f : task -> task) : K () := x ← get t; modify (on_tasks (insert t (f x))).
Definition kfree_task (t : Z) : K () := get t ;; modify (on_tasks (delete t)).

Definition interrupt_lock : K bool := b ← gets irq; modify (set_irq false) ;; mret b.
Definition interrupt_unlock (b : bool) : K () := if b then modify (set_irq true) else mret tt.

(** ** Lists of tasks *)

(** [list_remove_first]: the list without the first occurrence. *)
Fixpoint remove_first (t : Z) (l : list Z) : list Z :=
  match l with
  | [] => []
  | x :: l => if x =? t then l else x :: remove_first t l
  end.
(** [list_find_first]: where [t] is first found. *)
Fixpoint position (t : Z) (l : list Z) : option nat :=
  match l with
  | [] => None
  | x :: l => if x =? t then Some O else S <$> position t l
  end.
(** [list_node_insert_after] the node at [i]. *)
Definition insert_after (i : nat) (t : Z) (l : list Z) : list Z := take (S i) l ++ t :: drop (S i) l.

(** The first task of [l] that satisfies the predicate. *)
Fixpoint find_task (p : task -> bool) (l : list Z) : K (option Z) :=
  match l with
  | [] => mret None
  | t :: l => x ← get t; if p x then mret (Some t) else find_task p l
  end.
(** [list_node_find_next_predicate(node, predicate)] from the node at position [i] of the ready
    queue: the tasks after it, then those before it, never the node itself. *)
Definition ring_next (i : nat) (p : task -> bool) : K (option Z) :=
  q ← gets ready_queue; find_task p (drop (S i) q ++ take i q).

Definition does_task_exist (t : Z) : K bool := q ← gets ready_queue; mret (bool_decide (is_Some (position t q))).

(** ** Switching *)
Definition gettickcount : K Z := gets timer_ticks.
Definition timer_handler (e : Z) : K Z := modify (fun k => set_ticks (u32 (timer_ticks k + 1)) k) ;; mret e.

(** [switch_task(new_task, esp)]: the stack pointer to continue with. *)
Definition switch_task (new_task e : Z) : K Z :=
  b ← gets irq; ensure (negb b) ;;
  cur ← gets current_task; sw ← gets task_switching;
  (if (cur =? 0) || negb sw then lift Panic else mret tt) ;;
  nt ← get new_task;
  ensure (negb (state nt =? TASK_SLEEPING)) ;;
  modify (fun k => set_cpu (cr3 k) (tss k) (negb (new_task =? last_fpu_task k)) k) ;;
  if new_task =? cur then mret e
  else
    (if state nt =? TASK_WAKING_UP then upd new_task (set_state TASK_RUNNING) else mret tt) ;;
    ct ← get cur;
    (if negb (page_directory nt =? page_directory ct)
     then modify (fun k => set_cpu (page_directory nt) (tss k) (ts k) k) else mret tt) ;;
    upd cur (set_esp e) ;;
    modify (set_current new_task) ;;
    nt ← get new_task;
    ensure (negb (stack nt =? 0)) ;;
    ensure (negb (esp nt =? 0)) ;;
    ensure ((ss nt =? 0x10) || (ss nt =? 0x23)) ;;
    modify (fun k => set_cpu (cr3 k) (stack nt, esp nt, ss nt) (ts k) k) ;;
    mret (esp nt).

Definition set_next_task (t : Z) : K () :=
  modify (set_next t) ;; upd t (set_state TASK_RUNNING) ;; upd t (set_wakeup 0).

(** The loop that wakes the sleepers whose time has come. *)
Fixpoint wake_sleepers (l : list Z) (ticks : Z) : K () :=
  match l with
  | [] => mret tt
  | p :: l =>
      x ← get p;
      (if (state x =? TASK_SLEEPING) && (wakeup_time x <=? ticks)
       then upd p (set_wakeup 0) ;; upd p (set_state TASK_WAKING_UP) else mret tt) ;;
      wake_sleepers l ticks
  end.

Definition running (t : task) : bool := negb (Z.land (state t) TASK_RUNNING =? 0).

(** [kernel_task] is the address of the kernel's own task. *)
Section WithKernelTask.
Context (kernel_task : Z).

Definition scheduler_taskSwitch (e : Z) : K Z :=
  b ← gets irq; ensure (negb b) ;;
  sw ← gets task_switching; cur ← gets current_task; q ← gets ready_queue;
  if negb sw || ((cur =? kernel_task) && (zlen q =? 1)) then mret e
  else
    nxt ← gets next_task;
    if negb (nxt =? 0) then
      modify (set_next 0) ;;
      t ← get nxt;
      (if negb (Z.land (state t) TASK_SLEEPING =? 0)
       then upd nxt (set_state TASK_RUNNING) ;; upd nxt (set_wakeup 0) else mret tt) ;;
      switch_task nxt e
    else
      ct ← get cur;
      if did_execve ct then upd cur (set_execve false) ;; mret (esp ct)
      else
        ticks ← gettickcount;
        wake_sleepers q ticks ;;
        match position cur q with
        | None =>
            new_task ← lift (deref (head q));
            ensure (negb (new_task =? 0)) ;;
            if cur =? new_task then mret e
            else
              nt ← get new_task;
              ensure (running nt) ;;
              switch_task new_task e
        | Some i =>
            n ← ring_next i running;
            match n with
            | None =>
                ct ← get cur;
                if running ct then mret e
                else idle ← gets idle_task; switch_task idle e
            | Some new_task =>
                ensure (negb (new_task =? 0)) ;;
                if cur =? new_task then mret e
                else
                  nt ← get new_task;
                  ensure (running nt) ;;
                  switch_task new_task e
            end
        end.

(** ** Sleeping and waiting for input or output; what follows is a task switch (YIELD). *)
Inductive call (A : Type) := Returns (a : A) | Yields.
Arguments Returns {A} a.
Arguments Yields {A}.

Definition sleep (milliseconds : Z) : K (call ()) :=
  if milliseconds =? 0 then mret (Returns tt)
  else
    start_ticks ← gettickcount;
    let ticks_to_wait := milliseconds / (1000 / TIMER_HZ) in
    let ticks_to_wait := if ticks_to_wait =? 0 then 1 else ticks_to_wait in
    cur ← gets current_task; ct ← get cur;
    ensure (negb (state ct =? TASK_SLEEPING)) ;;
    ensure (negb (state ct =? TASK_IOWAIT)) ;;
    ensure (wakeup_time ct =? 0) ;;
    upd cur (set_state TASK_SLEEPING) ;;
    upd cur (set_wakeup (u32 (start_ticks + ticks_to_wait))) ;;
    mret Yields.

(** [rqtp] is [None] when it is NULL or not readable; seconds and nanoseconds otherwise. *)
Definition sys_nanosleep (rqtp : option (Z * Z)) : K (ret * call ()) :=
  match rqtp with
  | None => mret (Err EFAULT, Returns tt)
  | Some (tv_sec, tv_nsec) =>
      c ← sleep (u32 (tv_sec * 1000 + Z.quot tv_nsec 1000000));
      mret (Val 0, c)
  end.

Definition scheduler_set_iowait : K () := cur ← gets current_task; upd cur (set_state TASK_IOWAIT).
Definition iowait (t : task) : bool := state t =? TASK_IOWAIT.

(** The nodes are positions of the ready queue. *)
Definition scheduler_wake_iowait (e : Z) : K Z :=
  cur ← gets current_task; ct ← get cur; q ← gets ready_queue;
  n ← (if negb (state ct =? TASK_IOWAIT) then
         kt ← get kernel_task;
         if negb (cur =? kernel_task) && (state kt =? TASK_IOWAIT) then mret (Some O)
         else
           n ← ring_next O iowait;
           t ← match n with Some t => mret t | None => lift Panic end;
           mret (position t q)
       else mret None);
  let n := match n with Some i => Some i | None => position cur q end in
  (match n with
   | Some i => m ← ring_next i iowait; ensure (match m with None => true | Some _ => false end)
   | None => mret tt
   end) ;;
  i ← lift (deref n);
  iotask ← lift (deref (q !! i));
  it ← get iotask;
  ensure (state it =? TASK_IOWAIT) ;;
  upd iotask (set_state TASK_RUNNING) ;;
  switch_task iotask e.

(** ** Exit and wait *)
Definition kill (t : Z) : K () :=
  b ← interrupt_lock;
  upd t (set_state TASK_EXITING) ;;
  cur ← gets current_task;
  upd cur (set_exit_code 256) ;;
  x ← get t;
  (if negb (console x =? 0) then
     modify (set_consoles (alter (remove_first t) (console x))) ;;
     upd t (set_console 0)
   else mret tt) ;;
  interrupt_unlock b.

Definition kill_pid (pid : Z) : K bool :=
  ensure (negb (pid =? 1)) ;;
  b ← interrupt_lock;
  q ← gets ready_queue;
  r ← find_task (fun t => id t =? pid) q;
  match r with
  | Some t => kill t ;; interrupt_unlock b ;; mret true
  | None => interrupt_unlock b ;; mret false
  end.

(** [_exit], up to the task switch it does not come back from. *)
Definition _exit (status : Z) : K () :=
  cur ← gets current_task;
  kill cur ;;
  upd cur (set_exit_code (Z.shiftl (Z.land status 0xff) 8)).

(** What the caller's [*status] receives ([None] for a NULL pointer), and the PID. *)
Definition do_wait_one (par child : Z) (status : bool) : K (ret * option Z) :=
  ensure (negb (par =? 0)) ;; ensure (negb (child =? 0)) ;;
  c ← get child;
  p ← get par;
  l ← lift (deref (children p));
  let a := zlen l in
  modify (on_queue (remove_first child)) ;;
  upd par (set_children (Some (remove_first child l))) ;;
  kfree_task child ;;
  p ← get par;
  l ← lift (deref (children p));
  ensure (zlen l =? a - 1) ;;
  mret (Val (id c), if status then Some (exit_code c) else None).

Definition dead (t : task) : bool := state t =? TASK_DEAD.

(** [sys_wait] up to its return or its YIELD, and its second half; the return in the first loop
    leaves the interrupts disabled. *)
Definition sys_wait (status_ok status : bool) : K (call (ret * option Z)) :=
  if status && negb status_ok then mret (Returns (Err EFAULT, None))
  else
    cur ← gets current_task; ct ← get cur;
    match children ct with
    | None | Some [] => mret (Returns (Err ECHILD, None))
    | Some l =>
        b ← interrupt_lock;
        r ← find_task dead l;
        match r with
        | Some child => x ← do_wait_one cur child status; mret (Returns x)
        | None => interrupt_unlock b ;; upd cur (set_state TASK_WAITING) ;; mret Yields
        end
    end.
Definition sys_wait_resumed (status : bool) : K (ret * option Z) :=
  b ← interrupt_lock;
  cur ← gets current_task; ct ← get cur;
  l ← lift (deref (children ct));
  ensure (0 <? zlen l) ;;
  r ← find_task dead l;
  match r with
  | Some child => do_wait_one cur child status
  | None => lift Panic
  end.

Definition WNOHANG : Z := 1.
Definition WUNTRACED : Z := 2.
Definition wanted (pid : Z) (t : task) : bool := (pid =? -1) || (id t =? pid).

(** [find_task] over the children for [waitpid]: whether any is wanted, and the first dead one. *)
Fixpoint find_child (pid : Z) (l : list Z) (child_found : bool) : K (bool * option Z) :=
  match l with
  | [] => mret (child_found, None)
  | t :: l =>
      x ← get t;
      if wanted pid x then
        if dead x then mret (true, Some t) else find_child pid l true
      else find_child pid l child_found
  end.
Definition sys_waitpid (pid : Z) (status_ok status : bool) (options : Z) : K (call (ret * option Z)) :=
  if status && negb status_ok then mret (Returns (Err EFAULT, None))
  else
    cur ← gets current_task; ct ← get cur;
    match children ct with
    | None | Some [] => mret (Returns (Err ECHILD, None))
    | Some l =>
        if negb (Z.ldiff options (Z.lor WNOHANG WUNTRACED) =? 0) then mret (Returns (Err EINVAL, None))
        else if (pid =? -1) && (options =? 0) then sys_wait status_ok status
        else if (pid <? -1) || (pid =? 0) then lift Panic
        else
          b ← interrupt_lock;
          '(child_found, r) ← find_child pid l false;
          match r with
          | Some child => x ← do_wait_one cur child status; mret (Returns x)
          | None =>
              interrupt_unlock b ;;
              if negb child_found : bool then mret (Returns (Err ECHILD, None))
              else if negb (Z.land options WNOHANG =? 0) then mret (Returns (Val 0, None))
              else upd cur (set_state TASK_WAITING) ;; mret Yields
          end
    end.
Definition sys_waitpid_resumed (pid : Z) (status : bool) : K (call (ret * option Z)) :=
  b ← interrupt_lock;
  cur ← gets current_task; ct ← get cur;
  l ← lift (deref (children ct));
  ensure (0 <? zlen l) ;;
  r ← find_task (fun t => dead t && wanted pid t) l;
  match r with
  | Some child => x ← do_wait_one cur child status; mret (Returns x)
  | None => interrupt_unlock b ;; upd cur (set_state TASK_WAITING) ;; mret Yields
  end.

(** The loop of [destroy_task] over the children of the task. *)
Fixpoint orphan (l : list Z) (reaper : Z) : K () :=
  match l with
  | [] => mret tt
  | child :: l =>
      c ← get child;
      (if state c =? TASK_DEAD then
         modify (on_queue (remove_first child)) ;; kfree_task child
       else
         r ← get reaper;
         rc ← lift (deref (children r));
         upd reaper (set_children (Some (rc ++ [child]))) ;;
         upd child (set_parent reaper)) ;;
      orphan l reaper
  end.

(** The end of [destroy_task]: a task with a parent stays in the queue until it is waited for. *)
Definition leave_queue (t par : Z) : K (call ()) :=
  if negb (par =? 0) then
    p ← get par;
    ensure (negb (state p =? TASK_DEAD)) ;;
    (if state p =? TASK_WAITING then set_next_task par else mret tt) ;;
    mret Yields
  else
    modify (on_queue (remove_first t)) ;;
    kfree_task t ;;
    mret (Returns tt).

(** [destroy_task]: what it does to the task structures.  The memory and the files of the task are
    freed in between. *)
Definition destroy_task (t : Z) : K (call ()) :=
  cur ← gets current_task;
  ensure (negb (t =? kernel_task)) ;; ensure (negb (t =? cur)) ;;
  x ← get t;
  ensure (state x =? TASK_EXITING) ;;
  upd t (set_state TASK_DEAD) ;;
  ensure (console x =? 0) ;;
  (match children x with
   | Some ((_ :: _) as l) =>
       reaper ← gets reaper_task;
       ensure (negb (reaper =? 0)) ;;
       r ← get reaper;
       ensure (match children r with Some _ => true | None => false end) ;;
       b ← interrupt_lock;
       orphan l reaper ;;
       interrupt_unlock b
   | _ => mret tt
   end) ;;
  upd t (set_children None) ;;
  leave_queue t (parent x).

(** One round of [reaper_func], before it sleeps for 20 ms. *)
Fixpoint reap (l : list Z) : K () :=
  match l with
  | [] => mret tt
  | p :: l =>
      x ← get p;
      if state x =? TASK_EXITING then destroy_task p ;; mret tt
      else if state x =? TASK_DEAD then
        cur ← gets current_task; c ← get cur;
        o ← lift (deref (children c));
        do_wait_one cur p false ;;
        c ← get cur;
        n ← lift (deref (children c));
        ensure (zlen n =? zlen o - 1)
      else reap l
  end.
Definition reaper_round : K () :=
  b ← interrupt_lock; q ← gets ready_queue; reap q ;; interrupt_unlock b.

(** ** New tasks *)
Definition USER_STACK_START : Z := 0xbffff000.
Section NewTasks.
(** The address of [_exit], where the first function of a task returns to. *)
Context (exit_addr : Z).

(** [set_task_stack]: what it pushes, from the top of the stack down. *)
Definition start_frame (priv data data_len entry_point : Z) : list Z :=
  let data_segment := if priv =? 3 then 0x23 else 0x10 in
  [data_len; data; exit_addr] ++
  (if priv =? 3 then [0x23; USER_STACK_START - 12] else []) ++
  [0x0202; if priv =? 3 then 0x1b else 0x08; entry_point; 0; 0] ++
  [0; 0; 0; 0; 0; 0; 0] ++
  [data_segment; data_segment; data_segment; data_segment].
Definition set_task_stack (t data data_len entry_point : Z) : K Z :=
  ensure (negb (t =? 0)) ;;
  x ← get t;
  ensure (negb (stack x =? 0)) ;;
  let frame := start_frame (privilege x) data data_len entry_point in
  modify (set_kstack t frame) ;;
  upd t (set_esp (u32 (stack x - 4 * zlen frame))) ;;
  upd t (set_ss (if privilege x =? 3 then 0x23 else 0x10)) ;;
  mret (u32 (stack x - 4 * zlen frame)).

(** [set_entry_point] overwrites the word 32 bytes below the top. *)
Definition set_entry_point (t addr : Z) : K () :=
  ensure (negb (t =? 0)) ;;
  w ← gets (fun k => kstacks k !! t);
  w ← lift (deref w);
  w ← lift (aset w (32 / 4 - 1) addr);
  modify (set_kstack t w).

(** The end of [create_task_int]: [t] is the new task's address, [pid] its PID. *)
Definition create_task_int (t pid new_stack priv pd con data data_len entry_point : Z) : K Z :=
  modify (on_tasks (insert t (mk_task pid 0 0 new_stack TASK_RUNNING 0 priv con pd false 0 (Some []) 0))) ;;
  (if negb (con =? 0) then modify (set_consoles (alter (fun l => l ++ [t]) con)) else mret tt) ;;
  set_task_stack t data data_len entry_point ;;
  cur ← gets current_task; q ← gets ready_queue;
  i ← lift (deref (position cur q));
  modify (on_queue (insert_after i t)) ;;
  mret t.

(** The registers a system call saved on the parent's kernel stack. *)
Record registers := mk_registers {
  rgs : Z; rfs : Z; res_ : Z; rds : Z; edi : Z; esi : Z; ebp : Z; ebx : Z; edx : Z; ecx : Z; eax : Z;
  int_no : Z; err_code : Z; eip : Z; cs : Z; eflags : Z; useresp : Z; rss : Z
}.
(** The stack image of a forked child, and the part of [fork] that ties it to its parent. *)
Definition fork_frame (regs : registers) : list Z :=
  [0; 0; exit_addr; 0x23; useresp regs; 0x0202; 0x1b; eip regs; 0; 0;
   0; ecx regs; edx regs; ebx regs; ebp regs; esi regs; edi regs; 0x23; 0x23; 0x23; 0x23].
Definition fork_family (child pid new_stack pd : Z) : K () :=
  cur ← gets current_task; p ← get cur;
  l ← (match children p with Some l => mret l | None => lift Panic end);
  upd cur (set_children (Some (l ++ [child]))) ;;
  modify (on_tasks (insert child (mk_task pid 0 0 new_stack TASK_IDLE 0 3 (console p) pd false cur (Some []) 0))) ;;
  (if negb (console p =? 0) then modify (set_consoles (alter (fun l => l ++ [child]) (console p))) else mret tt).
Definition fork (child new_stack pd : Z) (regs : registers) : K ret :=
  cur ← gets current_task; p ← get cur;
  ensure (privilege p =? 3) ;;
  pid ← gets next_pid; modify (set_pid (u32 (pid + 1))) ;;
  fork_family child pid new_stack pd ;;
  modify (set_kstack child (fork_frame regs)) ;;
  upd child (set_esp (u32 (new_stack - 4 * zlen (fork_frame regs)))) ;;
  upd child (set_ss 0x23) ;;
  q ← gets ready_queue;
  i ← lift (deref (position cur q));
  modify (on_queue (insert_after i child)) ;;
  upd child (set_state TASK_RUNNING) ;;
  mret (Val pid).
End NewTasks.

Definition getpid : K Z := cur ← gets current_task; x ← get cur; mret (id x).
Definition getppid : K Z :=
  cur ← gets current_task; x ← get cur;
  ensure (privilege x =? 3) ;; ensure (negb (parent x =? 0)) ;;
  p ← get (parent x); mret (id p).
End WithKernelTask.
Arguments Returns {A} a.
Arguments Yields {A}.

(** ** Basic facts *)
Lemma get_ok k t x : tasks k !! t = Some x -> get t k = Ok (x, k).
Proof. intros Ht. unfold get, mbind, st_bind, gets, lift. by rewrite Ht. Qed.

Lemma upd_ok k t x f : tasks k !! t = Some x -> upd t f k = Ok (tt, on_tasks (insert t (f x)) k).
Proof. intros Ht. unfold upd. by rewrite (st_bind_Ok _ _ _ _ _ (get_ok _ _ _ Ht)). Qed.

Lemma kfree_task_ok k t x : tasks k !! t = Some x -> kfree_task t k = Ok (tt, on_tasks (delete t) k).
Proof. intros Ht. unfold kfree_task. by rewrite (st_bind_Ok _ _ _ _ _ (get_ok _ _ _ Ht)). Qed.

Lemma gets_ok {A} (f : kernel -> A) k : gets f k = Ok (f k, k).
Proof. done. Qed.

Lemma modify_ok (f : kernel -> kernel) k : modify f k = Ok (tt, f k).
Proof. done. Qed.

(** [step] runs the next instruction of a sequence whose effect is known. *)
Ltac step :=
  match goal with
  | |- context [mbind _ (gets ?f) ?k] => rewrite (st_bind_Ok (gets f) _ k _ _ (gets_ok f k))
  | |- context [mbind _ (modify ?f) ?k] => rewrite (st_bind_Ok (modify f) _ k _ _ (modify_ok f k))
  | H : tasks ?k !! ?t = Some _ |- context [mbind _ (get ?t) ?k] => rewrite (st_bind_Ok (get t) _ k _ _ (get_ok k t _ H))
  | H : tasks ?k !! ?t = Some _ |- context [mbind _ (upd ?t ?f) ?k] => rewrite (st_bind_Ok (upd t f) _ k _ _ (upd_ok k t _ f H))
  end; cbn beta iota.

Lemma remove_first_not_in t l : (t ∉ l) -> remove_first t l = l.
Proof.
  induction l as [|x l IH]; cbn [remove_first]; [done|]. rewrite not_elem_of_cons. intros [Hx Hl].
  replace (x =? t) with false by lia. by rewrite IH.
Qed.

Lemma remove_first_app t l1 l2 : (t ∉ l1) -> remove_first t (l1 ++ t :: l2) = l1 ++ l2.
Proof.
  induction l1 as [|x l1 IH]; cbn [remove_first app]; [by rewrite Z.eqb_refl|]. rewrite not_elem_of_cons. intros [Hx Hl].
  replace (x =? t) with false by lia. by rewrite IH.
Qed.

Lemma position_app t l1 l2 : (t ∉ l1) -> position t (l1 ++ t :: l2) = Some (length l1).
Proof.
  induction l1 as [|x l1 IH]; cbn [position app length]; [by rewrite Z.eqb_refl|]. rewrite not_elem_of_cons. intros [Hx Hl].
  replace (x =? t) with false by lia. by rewrite IH.
Qed.

Lemma find_task_pure p l k :
  (forall t, t ∈ l -> is_Some (tasks k !! t)) ->
  exists r, find_task p l k = Ok (r, k) /\
    match r with
    | Some t => exists l1 l2 x, l = l1 ++ t :: l2 /\ tasks k !! t = Some x /\ p x = true /\
        (forall u y, u ∈ l1 -> tasks k !! u = Some y -> p y = false)
    | None => forall u y, u ∈ l -> tasks k !! u = Some y -> p y = false
    end.
Proof.
  induction l as [|t l IH]; intros Hl; cbn [find_task].
  { exists None. split; [done|]. intros u y Hu. by apply not_elem_of_nil in Hu. }
  destruct (Hl t) as [x Hx]; [by left|]. step. destruct (p x) eqn:E.
  - exists (Some t). split; [done|]. exists [], l, x. split_and!; try done. intros u y Hu. by apply not_elem_of_nil in Hu.
  - destruct IH as (r & Hr & Hspec); [intros u Hu; apply Hl; by right|]. exists r. split; [done|]. destruct r as [t'|].
    + destruct Hspec as (l1 & l2 & x' & -> & Hx' & Hp & Hb). exists (t :: l1), l2, x'. split_and!; try done.
      intros u y [->|Hu]%elem_of_cons Hy; [congruence|by eapply Hb].
    + intros u y [->|Hu]%elem_of_cons Hy; [congruence|by eapply Hspec].
Qed.

(** ** Round robin *)

(** The tasks after [cur] in ring order. *)
Definition is_ring (q : list Z) (cur : Z) (ring : list Z) : Prop :=
  exists a b, q = a ++ cur :: b /\ ring = b ++ a.

Lemma ring_next_task q cur x n y :
  NoDup q -> is_ring q cur (x ++ n :: y) -> is_ring q n (y ++ cur :: x).
Proof.
  intros Hnd (a & b & -> & Hring). symmetry in Hring. apply app_eq_app in Hring as [l [[-> Hny]|[-> Hny]]].
  - destruct l as [|c l].
    + cbn in Hny. subst a. rewrite app_nil_r. exists [], (y ++ cur :: x). split; [done|]. by rewrite app_nil_r.
    + cbn in Hny. injection Hny as <- ->. exists (a ++ cur :: x), l. split; [by rewrite <- app_assoc|].
      by rewrite <- !app_assoc.
  - subst a. exists l, (y ++ cur :: b). split; [by rewrite <- !app_assoc|]. by rewrite <- !app_assoc.
Qed.

Lemma ring_exists q cur : cur ∈ q -> exists ring, is_ring q cur ring.
Proof. intros (a & b & ->)%list_elem_of_split. by exists (b ++ a), a, b. Qed.

Lemma rotation_elem q cur ring t : is_ring q cur ring -> t ∈ q -> t <> cur -> t ∈ ring.
Proof.
  intros (a & b & -> & ->) Ht Hne. rewrite elem_of_app, elem_of_cons in Ht. rewrite elem_of_app. naive_solver.
Qed.

Lemma ring_subset q cur ring t : is_ring q cur ring -> t ∈ ring -> t ∈ q.
Proof. intros (a & b & -> & ->). rewrite !elem_of_app, elem_of_cons. naive_solver. Qed.

Lemma ring_length q cur ring : is_ring q cur ring -> S (length ring) = length q.
Proof. intros (a & b & -> & ->). rewrite !length_app. cbn. lia. Qed.

(** ** Waking *)
Definition wake (ticks : Z) (t : task) : task :=
  if (state t =? TASK_SLEEPING) && (wakeup_time t <=? ticks) then set_state TASK_WAKING_UP (set_wakeup 0 t) else t.

Lemma wake_sleepers_ok l ticks k :
  NoDup l -> (forall t, t ∈ l -> is_Some (tasks k !! t)) ->
  exists k', wake_sleepers l ticks k = Ok (tt, k') /\ k' = on_tasks (fun _ => tasks k') k /\
    forall t, tasks k' !! t = if decide (t ∈ l) then wake ticks <$> tasks k !! t else tasks k !! t.
Proof.
  revert k. induction l as [|p l IH]; intros k Hnd Hl; cbn [wake_sleepers].
  { exists k. split; [done|]. split; [by destruct k|]. intros t. by rewrite decide_False by (by apply not_elem_of_nil). }
  apply NoDup_cons in Hnd as [Hp Hnd]. destruct (Hl p) as [x Hx]; [by left|]. step.
  set (k1 := on_tasks (insert p (wake ticks x)) k).
  assert ((if (state x =? TASK_SLEEPING) && (wakeup_time x <=? ticks)
       then upd p (set_wakeup 0) ;; upd p (set_state TASK_WAKING_UP) else mret tt) k = Ok (tt, k1)) as Hstep.
  { unfold k1, wake. destruct (_ && _).
    - step. rewrite (upd_ok _ p (set_wakeup 0 x)) by apply lookup_insert_eq. unfold on_tasks. cbn. by rewrite insert_insert_eq.
    - unfold mret, st_ret, on_tasks. cbn beta. rewrite insert_id by done. by destruct k. }
  rewrite (st_bind_Ok _ _ _ _ _ Hstep).
  destruct (IH k1 Hnd) as (k' & Hk' & Hshape & Hlook).
  { intros t Ht. unfold k1. cbn [on_tasks tasks]. destruct (decide (p = t)) as [->|]; [done|]. rewrite lookup_insert_ne by done.
    apply Hl. by right. }
  exists k'. split; [done|]. split; [rewrite Hshape; done|]. intros t. rewrite Hlook. unfold k1. cbn [on_tasks tasks].
  destruct (decide (t = p)) as [->|Hne].
  - rewrite decide_False by done. rewrite (decide_True (P := p ∈ p :: l)) by (by left). by rewrite lookup_insert_eq, Hx.
  - rewrite lookup_insert_ne by done. destruct (decide (t ∈ l)) as [Ht|Ht].
    + by rewrite decide_True by (by right).
    + rewrite decide_False; [done|]. by intros [->|]%elem_of_cons.
Qed.

(** ** Switching *)

(** What a switch from [cur] to [new] does to the task at [t]. *)
Definition switched (e cur new t : Z) (x : task) : task :=
  if new =? cur then x
  else if t =? cur then set_esp e x
  else if t =? new then if state x =? TASK_WAKING_UP then set_state TASK_RUNNING x else x
  else x.

(** The globals a switch leaves alone. *)
Definition same_globals (k k' : kernel) : Prop :=
  ready_queue k' = ready_queue k /\ next_task k' = next_task k /\ idle_task k' = idle_task k /\
  reaper_task k' = reaper_task k /\ task_switching k' = task_switching k /\ timer_ticks k' = timer_ticks k /\
  next_pid k' = next_pid k /\ irq k' = irq k /\ console_tasks k' = console_tasks k.

(** A task that can be switched to. *)
Record resumable (t : Z) (x : task) : Prop := {
  rs_addr : t <> 0;
  rs_stack : stack x <> 0;
  rs_ss : ss x = 0x10 \/ ss x = 0x23
}.

Lemma switch_task_ok k new e nt ct :
  irq k = false -> task_switching k = true -> current_task k <> 0 ->
  tasks k !! new = Some nt -> tasks k !! current_task k = Some ct ->
  state nt <> TASK_SLEEPING -> resumable new nt -> (new <> current_task k -> esp nt <> 0) ->
  exists k', switch_task new e k = Ok (if new =? current_task k then e else esp nt, k') /\
    current_task k' = new /\ same_globals k k' /\
    forall t, tasks k' !! t = switched e (current_task k) new t <$> tasks k !! t.
Proof.
  intros Hirq Hsw Hcur Hnew Hct Hst [Ht0 Hstk Hss] Hesp. unfold switch_task, switched.
  step. rewrite Hirq. erewrite st_bind_Ok by done. step. step. rewrite Hsw.
  replace (current_task k =? 0) with false by lia. cbn [orb negb]. erewrite (st_bind_Ok _ _ k) by done.
  step. erewrite (st_bind_Ok _ _ k) by (apply ensure_true, negb_true_iff; lia). step.
  destruct (Z.eqb_spec new (current_task k)) as [E|Hne].
  { eexists. split; [done|]. split_and!; try done. intros t. cbn. by destruct (tasks k !! t). }
  set (k1 := set_cpu _ _ _ k).
  set (nt' := if state nt =? TASK_WAKING_UP then set_state TASK_RUNNING nt else nt).
  set (k2 := on_tasks (insert new nt') k1).
  assert ((if state nt =? TASK_WAKING_UP then upd new (set_state TASK_RUNNING) else mret tt) k1 = Ok (tt, k2)) as Hw.
  { unfold k2, nt'. destruct (state nt =? TASK_WAKING_UP); [by apply (upd_ok k1)|].
    unfold mret, st_ret, on_tasks. cbn [k1 set_cpu tasks]. by rewrite insert_id. }
  rewrite (st_bind_Ok _ _ _ _ _ Hw).
  assert (tasks k2 !! current_task k = Some ct) as Hct2 by (cbn; by rewrite lookup_insert_ne).
  rewrite (st_bind_Ok _ _ _ _ _ (get_ok _ _ _ Hct2)).
  set (k3 := if negb (page_directory nt =? page_directory ct) then set_cpu (page_directory nt) (tss k2) (ts k2) k2 else k2).
  assert ((if negb (page_directory nt =? page_directory ct)
     then modify (fun k => set_cpu (page_directory nt) (tss k) (ts k) k) else mret tt) k2 = Ok (tt, k3)) as Hpd
    by (unfold k3; by destruct (page_directory nt =? page_directory ct)).
  rewrite (st_bind_Ok _ _ _ _ _ Hpd).
  assert (tasks k3 = tasks k2 /\ same_globals k k3) as [Ht3 Hg3] by (unfold k3, same_globals; by destruct (page_directory nt =? page_directory ct)).
  rewrite <- Ht3 in Hct2. rewrite (st_bind_Ok _ _ _ _ _ (upd_ok _ _ _ (set_esp e) Hct2)). step.
  set (k4 := set_current new _).
  assert (tasks k4 !! new = Some nt') as Hnew4.
  { cbn [k4 set_current on_tasks tasks]. rewrite lookup_insert_ne by done. rewrite Ht3. apply lookup_insert_eq. }
  rewrite (st_bind_Ok _ _ _ _ _ (get_ok _ _ _ Hnew4)).
  assert (stack nt' = stack nt /\ esp nt' = esp nt /\ ss nt' = ss nt) as (-> & -> & ->) by (unfold nt'; by destruct (state nt =? TASK_WAKING_UP)).
  specialize (Hesp Hne).
  erewrite (st_bind_Ok _ _ k4) by (apply ensure_true, negb_true_iff; lia).
  erewrite (st_bind_Ok _ _ k4) by (apply ensure_true, negb_true_iff; lia).
  erewrite (st_bind_Ok _ _ k4) by (apply ensure_true, orb_true_iff; lia). step.
  eexists. split; [done|]. split_and!; try done. intros t.
  cbn [set_cpu tasks k4 set_current on_tasks]. rewrite Ht3. cbn [k2 on_tasks tasks k1 set_cpu].
  destruct (Z.eqb_spec t (current_task k)) as [->|Hnc]; [by rewrite lookup_insert_eq, Hct|].
  rewrite lookup_insert_ne by done. destruct (Z.eqb_spec t new) as [->|Hnn]; [by rewrite lookup_insert_eq, Hnew|].
  rewrite lookup_insert_ne by done. by destruct (tasks k !! t).
Qed.

(** ** The scheduler *)
Record sched_wf (kernel_task : Z) (k : kernel) : Prop := {
  wf_irq : irq k = false;
  wf_switching : task_switching k = true;
  wf_next : next_task k = 0 \/ next_task k ∈ ready_queue k;
  wf_many : 1 < zlen (ready_queue k);
  wf_nodup : NoDup (ready_queue k);
  wf_current : current_task k ∈ ready_queue k;
  wf_task : forall t, t ∈ ready_queue k -> exists x, tasks k !! t = Some x /\ resumable t x /\
    (t <> current_task k -> esp x <> 0);
  wf_idle : idle_task k ∈ ready_queue k /\ exists x, tasks k !! idle_task k = Some x /\ state x = TASK_IDLE
}.

(** The task to run next: the first running one after [cur] in ring order, [cur] itself if it is the
    only one, the idle task if there is none. *)
Definition next_to_run (m : gmap Z task) (q : list Z) (cur idle : Z) (new : Z) : Prop :=
  exists ring, is_ring q cur ring /\
    ((exists a b x, ring = a ++ new :: b /\ m !! new = Some x /\ running x = true /\
        (forall u y, u ∈ a -> m !! u = Some y -> running y = false)) \/
     ((forall u y, u ∈ ring -> m !! u = Some y -> running y = false) /\
      exists x, m !! cur = Some x /\ new = if running x then cur else idle)).

Lemma running_wake ticks x : running x = true -> running (wake ticks x) = true.
Proof.
  unfold wake. destruct (Z.eqb_spec (state x) TASK_SLEEPING) as [E|]; [|done]. unfold running. by rewrite E.
Qed.

Lemma running_not_sleeping x : running x = true -> state x <> TASK_SLEEPING.
Proof. intros Hr Hs. unfold running in Hr. by rewrite Hs in Hr. Qed.

Lemma wake_keeps ticks t x : resumable t x -> resumable t (wake ticks x).
Proof. intros [H1 H2 H3]. unfold wake. by destruct (_ && _). Qed.

Lemma wake_fields ticks x : esp (wake ticks x) = esp x /\ did_execve (wake ticks x) = did_execve x.
Proof. unfold wake. by destruct (_ && _). Qed.

Lemma switched_fields e cur new t x :
  resumable t x -> resumable t (switched e cur new t x) /\ did_execve (switched e cur new t x) = did_execve x /\
  running (switched e cur new t x) = running x /\
  (t <> cur -> esp (switched e cur new t x) = esp x) /\ (t = cur -> new <> cur -> esp (switched e cur new t x) = e).
Proof.
  intros [H1 H2 H3]. unfold switched. destruct (Z.eqb_spec new cur); [split_and!; done|].
  destruct (Z.eqb_spec t cur); [split_and!; done|]. destruct (t =? new); [|split_and!; done].
  destruct (Z.eqb_spec (state x) TASK_WAKING_UP) as [E|]; [|split_and!; done].
  split_and!; try done. unfold running. cbn. by rewrite E.
Qed.

Lemma idle_not_woken ticks x : state x = TASK_IDLE -> state (wake ticks x) = TASK_IDLE.
Proof. intros Hx. unfold wake. by rewrite Hx. Qed.

Section Scheduler.
Context (kernel_task : Z).

(** What happens to a task before the switch: the next task is made running, or the flag of [execve] is cleared, or sleepers wake up. *)
Definition kick (x : task) : task := if negb (Z.land (state x) TASK_SLEEPING =? 0) then set_wakeup 0 (set_state TASK_RUNNING x) else x.
Definition has_execve (k : kernel) (t : Z) : bool := match tasks k !! t with Some x => did_execve x | None => false end.
Definition prepared (k : kernel) (t : Z) (x : task) : task :=
  if negb (next_task k =? 0) then if t =? next_task k then kick x else x
  else if has_execve k (current_task k) then if t =? current_task k then set_execve false x else x
  else wake (timer_ticks k) x.
(** The task that runs next. *)
Definition chosen (k : kernel) (new : Z) : Prop :=
  if negb (next_task k =? 0) then new = next_task k
  else if has_execve k (current_task k) then new = current_task k
  else next_to_run (wake (timer_ticks k) <$> tasks k) (ready_queue k) (current_task k) (idle_task k) new.

(** What one call of the scheduler does. *)
Record scheduled (e : Z) (k k' : kernel) (e' : Z) : Prop := {
  sc_wf : sched_wf kernel_task k';
  sc_queue : ready_queue k' = ready_queue k;
  sc_ticks : timer_ticks k' = timer_ticks k;
  sc_idle : idle_task k' = idle_task k;
  sc_used : next_task k' = 0;
  sc_next : chosen k (current_task k');
  sc_tasks : forall t x, t ∈ ready_queue k -> tasks k !! t = Some x ->
    tasks k' !! t = Some (switched e (current_task k) (current_task k') t (prepared k t x));
  sc_esp : forall x, tasks k !! current_task k' = Some x ->
    e' = if negb (next_task k =? 0) || negb (has_execve k (current_task k)) then if current_task k' =? current_task k then e else esp x else esp x
}.

(** A change of single tasks that the well-formedness does not see. *)
Record harmless (g : Z -> task -> task) : Prop := {
  hl_res : forall t x, resumable t x -> resumable t (g t x);
  hl_esp : forall t x, esp (g t x) = esp x;
  hl_idle : forall t x, state x = TASK_IDLE -> state (g t x) = TASK_IDLE
}.
Lemma wake_harmless ticks : harmless (fun _ => wake ticks).
Proof. constructor; intros; [by apply wake_keeps|apply wake_fields|by apply idle_not_woken]. Qed.
Lemma kick_harmless n : harmless (fun t x => if t =? n then kick x else x).
Proof.
  constructor; intros t x; unfold kick; destruct (t =? n); try done.
  - intros [H1 H2 H3]. by destruct (negb _).
  - by destruct (negb _).
  - intros E. rewrite E. done.
Qed.
Lemma execve_harmless n : harmless (fun t x => if t =? n then set_execve false x else x).
Proof. constructor; intros t x; destruct (t =? n); try done. by intros []. Qed.

Section settle.
Context (k k1 : kernel) (g : Z -> task -> task) (e : Z).
Context (Hwf : sched_wf kernel_task k) (Hg : harmless g) (Hk1 : k1 = on_tasks (fun _ => tasks k1) k).
Context (Hlook : forall t x, t ∈ ready_queue k -> tasks k !! t = Some x -> tasks k1 !! t = Some (g t x)).

(** Staying with the current task. *)
Lemma stay_wf : sched_wf kernel_task k1.
Proof using Hwf Hg Hk1 Hlook.
  pose proof Hwf as [Hirq Hsw Hnx Hmany Hnd Hcur Htask [Hidle (xi & Hxi & Hidst)]]. constructor; try (by rewrite Hk1).
  - intros t Ht. rewrite Hk1 in Ht. cbn in Ht. destruct (Htask t Ht) as (y & Hy & Hry & Hespy).
    exists (g t y). split_and!; [by apply Hlook|by apply (hl_res _ Hg)|]. rewrite (hl_esp _ Hg). intros Hne. apply Hespy. by rewrite Hk1 in Hne.
  - split; [by rewrite Hk1|]. exists (g (idle_task k) xi). assert (idle_task k1 = idle_task k) as -> by (by rewrite Hk1).
    split; [by apply Hlook|by apply (hl_idle _ Hg)].
Qed.
(** Switching to the chosen task. *)
Lemma switch_wf new : e <> 0 -> new ∈ ready_queue k -> (forall x, tasks k1 !! new = Some x -> state x <> TASK_SLEEPING) ->
  exists k' e', switch_task new e k1 = Ok (e', k') /\ current_task k' = new /\ sched_wf kernel_task k' /\
    ready_queue k' = ready_queue k /\ timer_ticks k' = timer_ticks k /\ idle_task k' = idle_task k /\ next_task k' = next_task k /\
    (forall t x, t ∈ ready_queue k -> tasks k !! t = Some x -> tasks k' !! t = Some (switched e (current_task k) new t (g t x))) /\
    (forall x, tasks k !! new = Some x -> e' = if new =? current_task k then e else esp x).
Proof using Hwf Hg Hk1 Hlook.
  intros He Hin Hst. pose proof Hwf as [Hirq Hsw Hnx Hmany Hnd Hcur Htask [Hidle (xi & Hxi & Hidst)]].
  destruct (Htask new Hin) as (x & Hx & Hrs & Hesp). destruct (Htask _ Hcur) as (c & Hc & Hrc & _).
  pose proof (hl_esp _ Hg new x) as We. assert (current_task k1 = current_task k) as Hc1 by (by rewrite Hk1).
  destruct (switch_task_ok k1 new e (g new x) (g (current_task k) c)) as (k' & Hsw' & Hcur' & Hgl & Htk).
  { by rewrite Hk1. } { by rewrite Hk1. } { rewrite Hc1. apply Hrc. } { by apply Hlook. } { rewrite Hc1. by apply Hlook. }
  { by apply Hst, Hlook. } { by apply (hl_res _ Hg). } { rewrite Hc1, We. done. }
  rewrite Hc1 in Hsw', Htk. destruct Hgl as (Gq & Gn & Gi & Gr & Gs & Gt & Gp & Girq & Gc).
  assert (forall t y, t ∈ ready_queue k -> tasks k !! t = Some y -> tasks k' !! t = Some (switched e (current_task k) new t (g t y))) as Hfinal
    by (intros t y Ht Hy; rewrite Htk, (Hlook t y Ht Hy); done).
  assert (ready_queue k' = ready_queue k) as Hq by (by rewrite Gq, Hk1).
  assert (idle_task k' = idle_task k) as Hid by (by rewrite Gi, Hk1).
  assert (next_task k' = next_task k) as Hnt by (by rewrite Gn, Hk1).
  exists k', (if new =? current_task k then e else esp x). rewrite We in Hsw'. split_and!; try done.
  - constructor; rewrite ?Hq, ?Hid, ?Hcur', ?Hnt; try done.
    + by rewrite Girq, Hk1.
    + by rewrite Gs, Hk1.
    + intros t Ht. destruct (Htask t Ht) as (y & Hy & Hry & Hespy).
      exists (switched e (current_task k) new t (g t y)). split; [by apply Hfinal|].
      destruct (switched_fields e (current_task k) new t _ (hl_res _ Hg t y Hry)) as (F1 & F2 & _ & F4 & F5).
      split; [done|]. intros Hne. destruct (decide (t = current_task k)) as [->|Hnc].
      * rewrite F5; [done|done|]. by intros ->.
      * rewrite F4, (hl_esp _ Hg) by done. by apply Hespy.
    + split; [done|]. eexists. split; [by apply Hfinal|]. unfold switched. pose proof (hl_idle _ Hg (idle_task k) _ Hidst) as Hi. rewrite Hi.
      destruct (new =? current_task k); [done|]. destruct (idle_task k =? current_task k); [done|]. by destruct (idle_task k =? new).
  - by rewrite Gt, Hk1.
  - intros y Hy. rewrite Hx in Hy. by injection Hy as ->.
Qed.
End settle.

(** The start of a call, when a task was named. *)
Lemma scheduler_start k e : sched_wf kernel_task k -> next_task k <> 0 -> scheduler_taskSwitch kernel_task e k =
  (modify (set_next 0) ;; t ← get (next_task k);
   (if negb (Z.land (state t) TASK_SLEEPING =? 0) then upd (next_task k) (set_state TASK_RUNNING) ;; upd (next_task k) (set_wakeup 0) else mret tt) ;; switch_task (next_task k) e) k.
Proof.
  intros [Hirq Hsw Hnx Hmany _ _ _ _] E. unfold scheduler_taskSwitch. step. rewrite Hirq. erewrite st_bind_Ok by done. do 3 step. rewrite Hsw.
  replace (zlen (ready_queue k) =? 1) with false by lia. rewrite andb_false_r. cbn [orb negb]. step. by rewrite (proj2 (Z.eqb_neq _ _) E).
Qed.
(** The task that [set_next_task] named. *)
Lemma scheduler_next k e : sched_wf kernel_task k -> e <> 0 -> next_task k <> 0 -> exists k' e', scheduler_taskSwitch kernel_task e k = Ok (e', k') /\ scheduled e k k' e'.
Proof.
  intros Hwf He Hn. rewrite scheduler_start by done. step. set (n := next_task k) in *. set (k0 := set_next 0 k).
  pose proof Hwf as [Hirq Hsw Hnx Hmany Hnd Hcur Htask Hidle]. assert (Hin : n ∈ ready_queue k) by (by destruct Hnx). destruct (Htask n Hin) as (x & Hx & Hrs & Hesp).
  assert (Hwf0 : sched_wf kernel_task k0) by (constructor; try done; by left). change (tasks k) with (tasks k0) in Hx. step.
  set (k1 := on_tasks (insert n (kick x)) k0).
  assert (Hkick : (if negb (Z.land (state x) TASK_SLEEPING =? 0) then upd n (set_state TASK_RUNNING) ;; upd n (set_wakeup 0) else mret tt) k0 = Ok (tt, k1)).
  { unfold k1, kick. destruct (negb _).
    - step. rewrite (upd_ok _ n (set_state TASK_RUNNING x)) by apply lookup_insert_eq. unfold on_tasks. cbn. by rewrite insert_insert_eq.
    - unfold mret, st_ret, on_tasks. cbn beta. rewrite insert_id by done. by destruct k0. }
  rewrite (st_bind_Ok _ _ _ _ _ Hkick).
  destruct (switch_wf k0 k1 (fun t y => if t =? n then kick y else y) e Hwf0 (kick_harmless n) eq_refl) with (new := n) as (k' & e' & Hs & Hcur' & Hwf' & Hq' & Ht' & Hi' & Hn' & Htk & Hes); try done.
  { intros t y Ht Hy. cbn [k1 on_tasks tasks]. destruct (Z.eqb_spec t n) as [->|Hne]; [|by rewrite lookup_insert_ne]. rewrite lookup_insert_eq. do 2 f_equal. congruence. }
  { intros y Hy. cbn [k1 on_tasks tasks] in Hy. rewrite lookup_insert_eq in Hy. injection Hy as <-. unfold kick. destruct (Z.eqb_spec (Z.land (state x) TASK_SLEEPING) 0) as [E|E]; cbn [negb]; [|done]. intros E2. by rewrite E2 in E. }
  exists k', e'. split; [done|]. constructor; try done.
  - unfold chosen. fold n. by rewrite (proj2 (Z.eqb_neq _ _) Hn).
  - intros t y Ht Hy. rewrite Hcur', (Htk t y Ht Hy). unfold prepared. fold n. by rewrite (proj2 (Z.eqb_neq _ _) Hn).
  - intros y Hy. fold n. rewrite (proj2 (Z.eqb_neq _ _) Hn). cbn [negb orb]. rewrite Hcur' in *. by apply Hes.
Qed.

Lemma scheduler_ok k e :
  sched_wf kernel_task k -> e <> 0 -> exists k' e', scheduler_taskSwitch kernel_task e k = Ok (e', k') /\ scheduled e k k' e'.
Proof.
  intros Hwf He. destruct (decide (next_task k = 0)) as [Hn0|Hn0]; [|by apply scheduler_next]. pose proof Hwf as [Hirq Hsw Hnx Hmany Hnd Hcur Htask [Hidle (xi & Hxi & Hidst)]].
  unfold scheduler_taskSwitch. step. rewrite Hirq. erewrite st_bind_Ok by done. do 3 step. rewrite Hsw.
  replace (zlen (ready_queue k) =? 1) with false by lia. rewrite andb_false_r. cbn [orb negb]. step. rewrite Hn0. cbn [Z.eqb negb].
  destruct (Htask _ Hcur) as (c & Hc & Hrc & _). step.
  assert (Hhas : has_execve k (current_task k) = did_execve c) by (unfold has_execve; by rewrite Hc). destruct (did_execve c) eqn:Hex.
  { step. eexists _, _. split; [done|]. set (k1 := on_tasks (insert (current_task k) (set_execve false c)) k).
    assert (Hl : forall t x, t ∈ ready_queue k -> tasks k !! t = Some x -> tasks k1 !! t = Some (if t =? current_task k then set_execve false x else x)).
    { intros t x Ht Hx. cbn [k1 on_tasks tasks]. destruct (Z.eqb_spec t (current_task k)) as [->|Hne]; [rewrite lookup_insert_eq; congruence|by rewrite lookup_insert_ne]. }
    constructor; try done.
    - by apply (stay_wf k k1 _ Hwf (execve_harmless (current_task k))).
    - unfold chosen. by rewrite Hn0, Hhas.
    - intros t x Ht Hx. unfold prepared, switched. rewrite Hn0, Hhas. cbn [Z.eqb negb k1 on_tasks current_task]. rewrite Z.eqb_refl. by apply Hl.
    - intros x Hx. rewrite Hn0, Hhas. cbn [Z.eqb negb orb]. cbn in Hx. congruence. }
  unfold gettickcount. step.
  destruct (wake_sleepers_ok (ready_queue k) (timer_ticks k) k Hnd) as (k1 & Hw & Hk1 & Hlook).
  { intros t Ht. destruct (Htask t Ht) as (x & Hx & _). by eexists. }
  rewrite (st_bind_Ok _ _ _ _ _ Hw).
  assert (forall t x, t ∈ ready_queue k -> tasks k !! t = Some x -> tasks k1 !! t = Some (wake (timer_ticks k) x)) as Hwk
    by (intros t x Ht Hx; rewrite Hlook, decide_True by done; by rewrite Hx).
  assert (Hprep : forall t x, prepared k t x = wake (timer_ticks k) x) by (intros; unfold prepared; by rewrite Hn0, Hhas).
  assert (Hch : forall new, next_to_run (wake (timer_ticks k) <$> tasks k) (ready_queue k) (current_task k) (idle_task k) new -> chosen k new) by (intros; unfold chosen; by rewrite Hn0, Hhas).
  assert (Hstay : next_to_run (wake (timer_ticks k) <$> tasks k) (ready_queue k) (current_task k) (idle_task k) (current_task k) -> scheduled e k k1 e).
  { intros Hnext. assert (Hc1 : current_task k1 = current_task k) by (by rewrite Hk1). constructor; try (by rewrite Hk1).
    - by apply (stay_wf k k1 (fun _ => wake (timer_ticks k)) Hwf (wake_harmless _)).
    - rewrite Hc1. by apply Hch.
    - rewrite Hc1. intros t x Ht Hx. unfold switched. rewrite Z.eqb_refl, Hprep. by apply Hwk.
    - rewrite Hc1. intros x _. rewrite Hn0, Hhas. cbn [Z.eqb negb orb]. by rewrite Z.eqb_refl. }
  assert (Hmove : forall new, new ∈ ready_queue k -> next_to_run (wake (timer_ticks k) <$> tasks k) (ready_queue k) (current_task k) (idle_task k) new -> (forall x, tasks k1 !! new = Some x -> state x <> TASK_SLEEPING) ->
    exists k' e', switch_task new e k1 = Ok (e', k') /\ scheduled e k k' e').
  { intros new Hin Hnext Hst. destruct (switch_wf k k1 (fun _ => wake (timer_ticks k)) e Hwf (wake_harmless _) Hk1 Hwk new He Hin Hst) as (k' & e' & Hs & <- & Hwf' & Hq' & Ht' & Hi' & Hn' & Htk & Hesp).
    exists k', e'. split; [done|]. constructor; try done; [congruence|by apply Hch|intros t x Ht Hx; rewrite Hprep; by apply Htk|]. intros x Hx. rewrite Hn0, Hhas. by apply Hesp. }
  pose proof Hcur as (a & b & Hq)%list_elem_of_split.
  assert (current_task k ∉ a) as Hna.
  { rewrite Hq in Hnd. apply NoDup_app in Hnd as (_ & Hd & _). intros Ha. apply (Hd _ Ha). by left. }
  assert (position (current_task k) (ready_queue k) = Some (length a)) as Hpos by (rewrite Hq; by apply position_app).
  rewrite Hpos. cbn iota.
  assert (ready_queue k1 = ready_queue k) as Hq1 by (by rewrite Hk1).
  assert (drop (S (length a)) (ready_queue k1) ++ take (length a) (ready_queue k1) = b ++ a) as Hba.
  { rewrite Hq1, Hq. rewrite (take_app_length a). f_equal. rewrite drop_app_ge by lia.
    by replace (S (length a) - length a)%nat with 1%nat by lia. }
  assert (is_ring (ready_queue k) (current_task k) (b ++ a)) as Hring by (by exists a, b).
  assert (forall t x, t ∈ b ++ a -> (wake (timer_ticks k) <$> tasks k) !! t = Some x -> tasks k1 !! t = Some x) as Hsame.
  { intros t x Ht Hx. rewrite lookup_fmap in Hx. destruct (tasks k !! t) as [y|] eqn:E; [|done]. injection Hx as <-.
    apply Hwk; [by eapply ring_subset|done]. }
  destruct (find_task_pure running (b ++ a) k1) as (r & Hr & Hspec).
  { intros t Ht. apply (ring_subset _ _ _ _ Hring) in Ht. destruct (Htask t Ht) as (x & Hx & _). eexists. by apply Hwk. }
  assert (ring_next (length a) running k1 = Ok (r, k1)) as Hrn by (unfold ring_next; step; by rewrite Hba).
  rewrite (st_bind_Ok _ _ _ _ _ Hrn). destruct r as [new|].
  - destruct Hspec as (l1 & l2 & x & Hl & Hx & Hrun & Hbefore).
    assert (new ∈ ready_queue k) as Hin by (eapply ring_subset; [exact Hring|]; rewrite Hl; set_solver).
    destruct (Htask new Hin) as (y & Hy & Hry & _). assert (x = wake (timer_ticks k) y) as -> by (rewrite (Hwk _ _ Hin Hy) in Hx; congruence).
    erewrite st_bind_Ok by (apply ensure_true, negb_true_iff, Z.eqb_neq; apply Hry).
    assert (next_to_run (wake (timer_ticks k) <$> tasks k) (ready_queue k) (current_task k) (idle_task k) new) as Hnext.
    { exists (b ++ a). split; [done|]. left. exists l1, l2, (wake (timer_ticks k) y). split_and!; try done.
      - by rewrite lookup_fmap, Hy.
      - intros u z Hu Hz. apply (Hbefore u z Hu). apply Hsame; [|done]. rewrite Hl. set_solver. }
    destruct (Z.eqb_spec (current_task k) new) as [<-|Hne].
    + exists k1, e. split; [done|]. by apply Hstay.
    + rewrite (st_bind_Ok _ _ _ _ _ (get_ok _ _ _ Hx)). erewrite st_bind_Ok by (by apply ensure_true).
      apply Hmove; [done|done|]. intros z Hz. rewrite Hx in Hz. injection Hz as <-. by apply running_not_sleeping.
  - assert (forall u y, u ∈ b ++ a -> (wake (timer_ticks k) <$> tasks k) !! u = Some y -> running y = false) as Hnone
      by (intros u y Hu Hy; apply (Hspec u y Hu); by apply Hsame).
    rewrite (st_bind_Ok _ _ _ _ _ (get_ok _ _ _ (Hwk _ _ Hcur Hc))).
    assert ((wake (timer_ticks k) <$> tasks k) !! current_task k = Some (wake (timer_ticks k) c)) as Hcw by (by rewrite lookup_fmap, Hc).
    destruct (running (wake (timer_ticks k) c)) eqn:Erun.
    + exists k1, e. split; [done|]. apply Hstay. exists (b ++ a). split; [done|]. right. split; [done|].
      eexists. split; [done|]. by rewrite Erun.
    + step. assert (idle_task k1 = idle_task k) as -> by (by rewrite Hk1). apply Hmove; [done| |].
      * exists (b ++ a). split; [done|]. right. split; [done|]. eexists. split; [done|]. by rewrite Erun.
      * intros z Hz. rewrite (Hwk _ _ Hidle Hxi) in Hz. injection Hz as <-. by rewrite (idle_not_woken _ _ Hidst).
Qed.

(** ** No starvation *)

(** Timer interrupts: each with what happened since the last one and the interrupted task's stack pointer. *)
Fixpoint run (l : list ((kernel -> kernel) * Z)) : K () :=
  match l with
  | [] => mret tt
  | (f, e) :: l => modify f ;; scheduler_taskSwitch kernel_task e ;; run l
  end.
(** What may happen between two interrupts: time passes, tasks go to sleep, wait, wake up and end, but the task [t] stays runnable, and no task is
    named by [set_next_task], forked, taken off the queue or calls [execve]. *)
Definition quiet (t : Z) (f : kernel -> kernel) : Prop :=
  forall k, sched_wf kernel_task k -> sched_wf kernel_task (f k) /\ ready_queue (f k) = ready_queue k /\ current_task (f k) = current_task k /\ next_task (f k) = next_task k /\
    (forall x, tasks k !! t = Some x -> running x = true -> exists y, tasks (f k) !! t = Some y /\ running y = true) /\
    (forall u, has_execve (f k) u = true -> has_execve k u = true).
(** The tasks that have called [execve] since they last ran. *)
Definition flagged (k : kernel) : nat := length (filter (fun t => has_execve k t = true) (ready_queue k)).

Lemma set_ticks_wf n k : sched_wf kernel_task k -> sched_wf kernel_task (set_ticks n k).
Proof. by intros []. Qed.
Lemma ring_unique q c r1 r2 : NoDup q -> is_ring q c r1 -> is_ring q c r2 -> r1 = r2.
Proof.
  intros Hnd (a & b & Hq & ->) (a' & b' & Hq' & ->). rewrite Hq in Hnd, Hq'. clear Hq. assert (a = a' /\ b = b') as [-> ->]; [|done]. revert a' Hq'. induction a as [|y A IHA]; intros [|y' A'] E; cbn in E.
  - injection E as ->. done.
  - injection E as -> ->. cbn in Hnd. apply NoDup_cons in Hnd as [Hn _]. set_solver.
  - injection E as -> E. cbn in Hnd. apply NoDup_cons in Hnd as [Hn _]. set_solver.
  - injection E as -> E. cbn in Hnd. apply NoDup_cons in Hnd as [_ Hnd]. destruct (IHA Hnd _ E) as [-> ->]. done.
Qed.
Lemma flagged_le k k' : ready_queue k' = ready_queue k -> (forall u, u ∈ ready_queue k -> has_execve k' u = true -> has_execve k u = true) -> (flagged k' <= flagged k)%nat.
Proof.
  unfold flagged. intros -> H. induction (ready_queue k) as [|u q IH]; [done|]. specialize (IH ltac:(set_solver)). rewrite !filter_cons.
  destruct (decide (has_execve k' u = true)) as [E|]; [rewrite decide_True by (apply H; [by left|done]); cbn; lia|]. destruct (decide (has_execve k u = true)); cbn; lia.
Qed.
Lemma flagged_lt k k' t : ready_queue k' = ready_queue k -> t ∈ ready_queue k -> has_execve k t = true -> has_execve k' t = false -> (forall u, u ∈ ready_queue k -> has_execve k' u = true -> has_execve k u = true) -> (flagged k' < flagged k)%nat.
Proof.
  unfold flagged. intros -> Ht Hf Hf' H. apply list_elem_of_split in Ht as (a & b & E). rewrite E in *. rewrite !filter_app, !filter_cons, !length_app. rewrite decide_False, (decide_True _ _ Hf) by congruence. cbn [length].
  assert (Hle : forall l, (forall u, u ∈ l -> has_execve k' u = true -> has_execve k u = true) -> (length (filter (fun t => has_execve k' t = true) l) <= length (filter (fun t => has_execve k t = true) l))%nat).
  { induction l as [|u q IH]; intros Hl; [done|]. specialize (IH ltac:(set_solver)). rewrite !filter_cons. destruct (decide (has_execve k' u = true)) as [E'|]; [rewrite decide_True by (apply Hl; [by left|done]); cbn; lia|]. destruct (decide (has_execve k u = true)); cbn; lia. }
  pose proof (Hle a ltac:(intros u Hu; apply H; set_solver)). pose proof (Hle b ltac:(intros u Hu; apply H; set_solver)). lia.
Qed.

(** What a call leaves of a runnable task and of the flags. *)
Lemma prepared_fields k t x : did_execve (prepared k t x) = true -> did_execve x = true.
Proof.
  unfold prepared. destruct (negb _); [destruct (t =? _); [unfold kick; by destruct (negb _)|done]|]. destruct (has_execve _ _); [by destruct (t =? _)|]. by rewrite (proj2 (wake_fields _ _)).
Qed.
Lemma prepared_running k t x : running x = true -> running (prepared k t x) = true.
Proof.
  intros Hr. unfold prepared. destruct (negb _); [destruct (t =? _); [unfold kick; by destruct (negb _)|done]|]. destruct (has_execve _ _); [by destruct (t =? _)|]. by apply running_wake.
Qed.
Lemma prepared_resumable k t x : resumable t x -> resumable t (prepared k t x).
Proof.
  intros Hr. unfold prepared. destruct (negb _); [by apply (hl_res _ (kick_harmless _))|]. destruct (has_execve _ _); [by apply (hl_res _ (execve_harmless _))|]. by apply wake_keeps.
Qed.
Section after.
Context (e e' : Z) (k k' : kernel) (Hwf : sched_wf kernel_task k) (Hsc : scheduled e k k' e').
Lemma after_running t x : t ∈ ready_queue k -> tasks k !! t = Some x -> running x = true -> exists y, tasks k' !! t = Some y /\ running y = true.
Proof using Hwf Hsc.
  intros Ht Hx Hr. eexists. split; [by apply (sc_tasks _ _ _ _ Hsc)|]. destruct (wf_task _ _ Hwf t Ht) as (z & Hz & Hrz & _). assert (z = x) as -> by congruence.
  destruct (switched_fields e (current_task k) (current_task k') t _ (prepared_resumable k t x Hrz)) as (_ & _ & -> & _). by apply prepared_running.
Qed.
Lemma after_flag t : t ∈ ready_queue k -> has_execve k' t = true -> has_execve k t = true.
Proof using Hwf Hsc.
  intros Ht. destruct (wf_task _ _ Hwf t Ht) as (x & Hx & Hrx & _). unfold has_execve. rewrite (sc_tasks _ _ _ _ Hsc t x Ht Hx), Hx.
  destruct (switched_fields e (current_task k) (current_task k') t _ (prepared_resumable k t x Hrx)) as (_ & -> & _). apply prepared_fields.
Qed.
Lemma after_flagged : (flagged k' <= flagged k)%nat.
Proof using Hwf Hsc. apply flagged_le; [apply (sc_queue _ _ _ _ Hsc)|]. intros u Hu. by apply after_flag. Qed.
(** The call that clears the flag of the current task. *)
Lemma after_execve : next_task k = 0 -> has_execve k (current_task k) = true -> (flagged k' < flagged k)%nat /\ current_task k' = current_task k.
Proof using Hwf Hsc.
  intros Hn Hx. pose proof (sc_next _ _ _ _ Hsc) as Hc. unfold chosen in Hc. rewrite Hn, Hx in Hc. split; [|done]. pose proof (wf_current _ _ Hwf) as Hcur.
  apply (flagged_lt k k' (current_task k)); [apply (sc_queue _ _ _ _ Hsc)|done|done| |intros u Hu; by apply after_flag].
  destruct (wf_task _ _ Hwf _ Hcur) as (c & Hc' & _). unfold has_execve at 1. rewrite (sc_tasks _ _ _ _ Hsc _ c Hcur Hc'), Hc. unfold switched, prepared. rewrite Z.eqb_refl, Hn, Hx. cbn [Z.eqb negb]. done.
Qed.
(** The call that goes on in the ring: the task [t] comes nearer. *)
Lemma after_ring ring t x d : next_task k = 0 -> has_execve k (current_task k) = false -> is_ring (ready_queue k) (current_task k) ring -> t ∈ take (S d) ring -> tasks k !! t = Some x -> running x = true ->
  current_task k' = t \/ exists ring', is_ring (ready_queue k') (current_task k') ring' /\ t ∈ take d ring'.
Proof using Hwf Hsc.
  intros Hn Hx Hring Hin Ht Hrun. destruct (decide (current_task k' = t)) as [|Hne]; [by left|right]. pose proof (sc_next _ _ _ _ Hsc) as Hc. unfold chosen in Hc. rewrite Hn, Hx in Hc. cbn [Z.eqb negb] in Hc. destruct Hc as (ring0 & Hring0 & Hnext).
  rewrite (ring_unique _ _ _ _ (wf_nodup _ _ Hwf) Hring0 Hring) in *. assert (t ∈ ring) as Hring_t by (rewrite <- (take_drop (S d) ring), elem_of_app; by left).
  assert ((wake (timer_ticks k) <$> tasks k) !! t = Some (wake (timer_ticks k) x)) as Hxw by (by rewrite lookup_fmap, Ht). pose proof (running_wake (timer_ticks k) x Hrun) as Hrw.
  destruct Hnext as [(a & b & y & Hr & Hy & Hyrun & Hbefore)|[Hno _]]; [|specialize (Hno t _ Hring_t Hxw); congruence].
  exists (b ++ current_task k :: a). split; [rewrite (sc_queue _ _ _ _ Hsc); apply ring_next_task; [apply (wf_nodup _ _ Hwf)|by rewrite <- Hr]|].
  assert (t ∉ a) as Hnota by (intros Ha; specialize (Hbefore t _ Ha Hxw); congruence).
  rewrite Hr in Hin. rewrite take_app in Hin. apply elem_of_app in Hin as [Hin|Hin].
  - exfalso. apply elem_of_take in Hin as (i & Hi & _). by apply list_elem_of_lookup_2 in Hi.
  - destruct (S d - length a)%nat as [|m] eqn:Em; [by apply not_elem_of_nil in Hin|]. cbn [take] in Hin.
    apply elem_of_cons in Hin as [->|Hin]; [done|]. rewrite take_app. apply elem_of_app. left.
    apply elem_of_take in Hin as (i & Hi & Hlt). apply elem_of_take. exists i. split; [done|lia].
Qed.
End after.

Lemma fair_steps N : forall k t x ring d l,
  sched_wf kernel_task k -> next_task k = 0 -> is_ring (ready_queue k) (current_task k) ring -> t ∈ take d ring -> (d + flagged k <= N)%nat ->
  tasks k !! t = Some x -> running x = true -> (N <= length l)%nat -> Forall (fun '(f, e) => quiet t f /\ e <> 0) l ->
  exists n k', (n <= N)%nat /\ run (take n l) k = Ok (tt, k') /\ current_task k' = t.
Proof.
  induction N as [|N IH]; intros k t x ring d l Hwf Hn Hring Hin HN Hx Hrun Hl He; (destruct d as [|d]; [by apply not_elem_of_nil in Hin|]); [lia|].
  destruct l as [|[f e] l]; [cbn in Hl; lia|]. apply Forall_cons in He as [[Hf He0] He]. cbn [length] in Hl.
  destruct (Hf k Hwf) as (Hwf0 & Hq0 & Hc0 & Hn0 & Ht0 & Hx0). destruct (Ht0 x Hx Hrun) as (x0 & Hx0t & Hrun0). assert (Hfl : (flagged (f k) <= flagged k)%nat) by (apply flagged_le; [done|]; intros u _; apply Hx0).
  destruct (scheduler_ok (f k) e Hwf0 He0) as (k1 & e1 & Hs & Hsc). assert (Htq : t ∈ ready_queue (f k)) by (rewrite Hq0; eapply ring_subset; [exact Hring|]; rewrite <- (take_drop (S d) ring), elem_of_app; by left).
  destruct (after_running e e1 (f k) k1 Hwf0 Hsc t x0 Htq Hx0t Hrun0) as (x1 & Hx1 & Hrun1). pose proof (sc_wf _ _ _ _ Hsc) as Hwf1. pose proof (sc_used _ _ _ _ Hsc) as Hn1.
  assert (Hgo : forall ring' d', is_ring (ready_queue k1) (current_task k1) ring' -> t ∈ take d' ring' -> (d' + flagged k1 <= N)%nat -> exists n k', (n <= S N)%nat /\ run (take n ((f, e) :: l)) k = Ok (tt, k') /\ current_task k' = t).
  { intros ring' d' Hr' Hin' HN'. destruct (IH k1 t x1 ring' d' l Hwf1 Hn1 Hr' Hin' HN' Hx1 Hrun1) as (n & k2 & Hn2 & Hrun2 & Hc2); [lia|done|]. exists (S n), k2. split; [lia|]. split; [|done]. cbn [take run]. step. by rewrite (st_bind_Ok _ _ _ _ _ Hs). }
  rewrite <- Hq0, <- Hc0 in Hring. destruct (has_execve (f k) (current_task (f k))) eqn:Hex.
  - destruct (after_execve e e1 (f k) k1 Hwf0 Hsc) as [Hlt Hc1]; [congruence|done|]. apply (Hgo ring (S d)); [by rewrite Hc1, (sc_queue _ _ _ _ Hsc)|done|lia].
  - pose proof (after_flagged e e1 (f k) k1 Hwf0 Hsc) as Hle. destruct (after_ring e e1 (f k) k1 Hwf0 Hsc ring t x0 d) as [Ht1|(ring' & Hr' & Hin')]; try done; [congruence| |].
    + exists 1%nat, k1. split; [lia|]. split; [|done]. cbn [take run]. step. by rewrite (st_bind_Ok _ _ _ _ _ Hs).
    + apply (Hgo ring' d); [done|done|lia].
Qed.

(** ** The properties *)

(** C16: One call of [scheduler_taskSwitch] with task switching on, more than one task in the ready queue and the current task on it.  If [set_next_task]
    has named a task, that one runs next, made runnable if it sleeps, and the name is used up; otherwise, if the current task has just called [execve], it goes on with its new
    stack pointer and its flag is cleared; otherwise sleepers whose time has come wake
    up and the next running task in ring order is chosen (the current one if it is the only one, the
    idle task if there is none).  At a switch the interrupted stack pointer is saved in the old task and the new
    task's is returned; all other tasks are unchanged, no assertion fails and the kernel is
    well-formed again. *)
Theorem scheduler_round_robin k e :
  sched_wf kernel_task k -> e <> 0 ->
  exists k' e', scheduler_taskSwitch kernel_task e k = Ok (e', k') /\ scheduled e k k' e'.
Proof. apply scheduler_ok. Qed.

(** What [set_next_task] does. *)
Definition named (a : Z) (k : kernel) : kernel := on_tasks (alter (fun x => set_wakeup 0 (set_state TASK_RUNNING x)) a) (set_next a k).
Lemma set_next_task_named a k x : tasks k !! a = Some x -> set_next_task a k = Ok (tt, named a k).
Proof.
  intros Hx. unfold set_next_task. step. change (tasks k) with (tasks (set_next a k)) in Hx. step. rewrite (upd_ok _ a (set_state TASK_RUNNING x)) by apply lookup_insert_eq. unfold named, on_tasks. cbn. rewrite insert_insert_eq. do 3 f_equal.
  apply map_eq. intros u. destruct (decide (u = a)) as [->|Hne]; [rewrite lookup_insert_eq, lookup_alter_eq; cbn in Hx; by rewrite Hx|by rewrite lookup_insert_ne, lookup_alter_ne].
Qed.
(** Naming the same task before every interrupt keeps all others from running, however many interrupts come. *)
Theorem next_task_starves k n a e : sched_wf kernel_task k -> a ∈ ready_queue k -> a <> idle_task k -> e <> 0 ->
  exists k', run (replicate (S n) (named a, e)) k = Ok (tt, k') /\ current_task k' = a.
Proof.
  intros Hwf Ha Hi He. set (f := named a). enough (H : exists k', run (replicate (S n) (f, e)) k = Ok (tt, k') /\ current_task k' = a /\ sched_wf kernel_task k' /\ a ∈ ready_queue k' /\ a <> idle_task k') by (destruct H as (k' & H1 & H2 & _); eauto). revert k Hwf Ha Hi.
  assert (Hstep : forall k, sched_wf kernel_task k -> a ∈ ready_queue k -> a <> idle_task k -> exists k' e', (modify f ;; scheduler_taskSwitch kernel_task e) k = Ok (e', k') /\ current_task k' = a /\ sched_wf kernel_task k' /\ a ∈ ready_queue k' /\ a <> idle_task k').
  { intros k Hwf Ha Hi. assert (Hwf0 : sched_wf kernel_task (f k)).
    { pose proof Hwf as [Hirq Hsw Hnx Hmany Hnd Hcur Htask [Hidle (xi & Hxi & Hidst)]]. constructor; try done; [by right| |].
      - intros t Ht. destruct (Htask t Ht) as (x & Hx & [R1 R2 R3] & Hesp). cbn [f named on_tasks set_next tasks current_task]. destruct (decide (t = a)) as [->|Hne]; [rewrite lookup_alter_eq, Hx; eexists; split; [done|]; split; [by constructor|done]|rewrite lookup_alter_ne by done; exists x; split_and!; done].
      - split; [done|]. exists xi. split; [|done]. cbn. by rewrite lookup_alter_ne. }
    destruct (scheduler_ok (f k) e Hwf0 He) as (k' & e' & Hs & Hsc). exists k', e'. split; [by step|]. assert (a <> 0) as Ha0 by (destruct (wf_task _ _ Hwf a Ha) as (x & _ & [R1 _ _] & _); done).
    pose proof (sc_next _ _ _ _ Hsc) as Hc. unfold chosen in Hc. change (next_task (f k)) with a in Hc. rewrite (proj2 (Z.eqb_neq _ _) Ha0) in Hc. cbn [negb] in Hc. rewrite (sc_queue _ _ _ _ Hsc), (sc_idle _ _ _ _ Hsc). split_and!; try done. apply (sc_wf _ _ _ _ Hsc). }
  induction n as [|n IH]; intros k Hwf Ha Hi; destruct (Hstep k Hwf Ha Hi) as (k1 & e1 & Hs & Hc1 & Hwf1 & Ha1 & Hi1); revert Hs; step; intros Hs; cbn [replicate run]; step; rewrite (st_bind_Ok _ _ _ _ _ Hs).
  - by exists k1.
  - apply (IH k1 Hwf1 Ha1 Hi1).
Qed.
End Scheduler.

(** ** Exit and wait *)

(** Everything but the tasks, the queue, [next_task] and the consoles. *)
Definition same_machine (k k' : kernel) : Prop :=
  current_task k' = current_task k /\ idle_task k' = idle_task k /\ reaper_task k' = reaper_task k /\
  task_switching k' = task_switching k /\ timer_ticks k' = timer_ticks k /\ irq k' = irq k.

Lemma unlock_machine k b : exists k', interrupt_unlock b k = Ok (tt, k') /\ tasks k' = tasks k /\ ready_queue k' = ready_queue k /\
  next_task k' = next_task k /\ current_task k' = current_task k /\ idle_task k' = idle_task k /\ reaper_task k' = reaper_task k /\
  task_switching k' = task_switching k /\ timer_ticks k' = timer_ticks k /\ irq k' = (b || irq k).
Proof. destruct b; eexists; split_and!; done. Qed.

Lemma console_zero x : console x = 0 -> set_console 0 x = x.
Proof. destruct x; cbn. by intros ->. Qed.

(** [kill]: the task is marked, but the exit code is written to the caller. *)
Lemma kill_ok k t x c :
  tasks k !! t = Some x -> tasks k !! current_task k = Some c ->
  exists k', kill t k = Ok (tt, k') /\ same_machine k k' /\ ready_queue k' = ready_queue k /\ next_task k' = next_task k /\
    forall u, tasks k' !! u =
      (fun z => (if u =? t then fun z => set_console 0 (set_state TASK_EXITING z) else fun z => z)
                ((if u =? current_task k then set_exit_code 256 else fun z => z) z)) <$> tasks k !! u.
Proof.
  intros Ht Hc. unfold kill. set (k0 := set_irq false k). rewrite (st_bind_Ok _ _ _ (irq k) k0) by done.
  change (tasks k) with (tasks k0) in Ht. step. step. set (cur := current_task k) in *.
  set (k1 := on_tasks (insert t (set_state TASK_EXITING x)) k0).
  set (c1 := if cur =? t then set_state TASK_EXITING x else c).
  assert (tasks k1 !! cur = Some c1) as Hc1.
  { unfold c1. cbn. destruct (Z.eqb_spec cur t) as [->|]; [apply lookup_insert_eq|by rewrite lookup_insert_ne]. }
  change (current_task k1) with cur. step. set (k2 := on_tasks (insert cur (set_exit_code 256 c1)) k1).
  set (x2 := if cur =? t then set_exit_code 256 c1 else set_state TASK_EXITING x).
  assert (tasks k2 !! t = Some x2) as Hx2.
  { unfold x2. cbn. destruct (Z.eqb_spec cur t) as [->|]; [apply lookup_insert_eq|].
    rewrite lookup_insert_ne by done. apply lookup_insert_eq. }
  step. set (k3 := on_tasks (insert t (set_console 0 x2)) (set_consoles (alter (remove_first t) (console x2)) k2)).
  set (k3' := if console x2 =? 0 then k2 else k3).
  assert ((if negb (console x2 =? 0) then modify (set_consoles (alter (remove_first t) (console x2))) ;; upd t (set_console 0)
     else mret tt) k2 = Ok (tt, k3')) as Hcon.
  { unfold k3'. destruct (console x2 =? 0); [done|]. cbn [negb]. step. by rewrite (upd_ok _ t x2). }
  rewrite (st_bind_Ok _ _ _ _ _ Hcon).
  destruct (unlock_machine k3' (irq k)) as (k' & Hu & U1 & U2 & U3 & U4 & U5 & U6 & U7 & U8 & U9).
  exists k'. split; [done|]. assert (irq k3' = false /\ current_task k3' = cur /\ idle_task k3' = idle_task k /\ reaper_task k3' = reaper_task k /\
    task_switching k3' = task_switching k /\ timer_ticks k3' = timer_ticks k /\ ready_queue k3' = ready_queue k /\ next_task k3' = next_task k)
    as (V1 & V2 & V3 & V4 & V5 & V6 & V7 & V8) by (unfold k3'; by destruct (console x2 =? 0)).
  unfold same_machine. split_and!; try congruence.
  { by rewrite U4, V2. }
  { rewrite U9, V1. by destruct (irq k). }
  intros u. rewrite U1. assert (tasks k3' !! u = if u =? t then Some (set_console 0 x2) else tasks k2 !! u) as ->.
  { unfold k3'. destruct (Z.eqb_spec (console x2) 0) as [E|E].
    - destruct (Z.eqb_spec u t) as [->|]; [|done]. by rewrite console_zero.
    - cbn. destruct (Z.eqb_spec u t) as [->|]; [apply lookup_insert_eq|by rewrite lookup_insert_ne]. }
  unfold x2, k2, c1. cbn [on_tasks tasks k1 k0 set_irq].
  change (tasks k !! t = Some x) in Ht. destruct (Z.eqb_spec u t) as [E1|E1].
  - rewrite E1, Ht, (Z.eqb_sym t cur). by destruct (cur =? t).
  - destruct (Z.eqb_spec u cur) as [E2|E2].
    + rewrite E2 in *. rewrite lookup_insert_eq, Hc. by replace (cur =? t) with false by lia.
    + rewrite lookup_insert_ne, lookup_insert_ne by done. by destruct (tasks k !! u).
Qed.

Lemma exit_ok k x status :
  tasks k !! current_task k = Some x ->
  exists k', _exit status k = Ok (tt, k') /\ same_machine k k' /\ ready_queue k' = ready_queue k /\ next_task k' = next_task k /\
    tasks k' = <[current_task k := set_exit_code (Z.shiftl (Z.land status 0xff) 8) (set_console 0 (set_state TASK_EXITING x))]> (tasks k).
Proof.
  intros Hx. unfold _exit. step. destruct (kill_ok k _ x x Hx Hx) as (k1 & Hk & Hm & Hq & Hn & Ht).
  rewrite (st_bind_Ok _ _ _ _ _ Hk). pose proof (Ht (current_task k)) as Hc. rewrite Z.eqb_refl, Hx in Hc. cbn in Hc.
  rewrite (upd_ok _ _ _ _ Hc). eexists. split; [done|]. split_and!; try done.
  apply map_eq. intros u. cbn [on_tasks tasks]. destruct (decide (u = current_task k)) as [->|Hne]; [by rewrite !lookup_insert_eq|].
  rewrite !lookup_insert_ne by done. rewrite Ht. replace (u =? current_task k) with false by lia. by destruct (tasks k !! u).
Qed.

Lemma do_wait_one_ok k par child p c l1 l2 status :
  par <> 0 -> child <> 0 -> par <> child -> tasks k !! par = Some p -> tasks k !! child = Some c ->
  children p = Some (l1 ++ child :: l2) -> (child ∉ l1) ->
  do_wait_one par child status k =
  Ok ((Val (id c), if status : bool then Some (exit_code c) else None),
      on_tasks (fun m => delete child (<[par := set_children (Some (l1 ++ l2)) p]> m)) (on_queue (remove_first child) k)).
Proof.
  intros Hp0 Hc0 Hne Hp Hc Hch Hnot. unfold do_wait_one.
  erewrite (st_bind_Ok _ _ k) by (apply ensure_true, negb_true_iff; lia).
  erewrite (st_bind_Ok _ _ k) by (apply ensure_true, negb_true_iff; lia). step. step. rewrite Hch.
  rewrite (st_bind_Ok _ _ _ (l1 ++ child :: l2) k) by done. step.
  set (k1 := on_queue (remove_first child) k). change (tasks k !! par = Some p) with (tasks k1 !! par = Some p) in Hp. step.
  rewrite remove_first_app by done. set (k2 := on_tasks _ k1).
  assert (tasks k2 !! child = Some c) as Hc2 by (cbn; by rewrite lookup_insert_ne).
  rewrite (st_bind_Ok _ _ _ _ _ (kfree_task_ok _ _ _ Hc2)). set (k3 := on_tasks _ k2).
  assert (tasks k3 !! par = Some (set_children (Some (l1 ++ l2)) p)) as Hp3 by (cbn; rewrite lookup_delete_ne by done; apply lookup_insert_eq).
  step. cbn [set_children children]. rewrite (st_bind_Ok _ _ _ (l1 ++ l2) k3) by done.
  erewrite st_bind_Ok by (apply ensure_true; rewrite !zlen_app, zlen_cons; lia). done.
Qed.

Section Wait.
Context (kernel_task : Z).

(** Destroying an exited task without children, whose parent waits. *)
Lemma destroy_waited k t x y :
  t <> kernel_task -> t <> current_task k -> tasks k !! t = Some x -> state x = TASK_EXITING -> console x = 0 ->
  children x = Some [] -> parent x <> 0 -> parent x <> t -> tasks k !! parent x = Some y -> state y = TASK_WAITING ->
  destroy_task kernel_task t k =
  Ok (Yields, set_next (parent x)
    (on_tasks (fun m => <[parent x := set_wakeup 0 (set_state TASK_RUNNING y)]>
       (<[t := set_children None (set_state TASK_DEAD x)]> m)) k)).
Proof.
  intros Hk Hcur Ht Hst Hcon Hch Hp0 Hpt Hp Hps. unfold destroy_task. step.
  erewrite (st_bind_Ok _ _ k) by (apply ensure_true, negb_true_iff; lia).
  erewrite (st_bind_Ok _ _ k) by (apply ensure_true, negb_true_iff; lia). step.
  erewrite (st_bind_Ok _ _ k) by (apply ensure_true; by rewrite Hst). step.
  set (k1 := on_tasks _ k). erewrite (st_bind_Ok _ _ k1) by (apply ensure_true; lia). rewrite Hch.
  rewrite (st_bind_Ok _ _ _ tt k1) by done.
  assert (tasks k1 !! t = Some (set_state TASK_DEAD x)) as Ht1 by (cbn; apply lookup_insert_eq). step.
  set (k2 := on_tasks _ k1). unfold leave_queue. replace (parent x =? 0) with false by lia. cbn [negb].
  assert (tasks k2 !! parent x = Some y) as Hp2 by (cbn; by rewrite !lookup_insert_ne). step.
  erewrite (st_bind_Ok _ _ k2) by (apply ensure_true; by rewrite Hps). rewrite Hps. change (TASK_WAITING =? TASK_WAITING) with true. cbn match.
  unfold set_next_task. erewrite (st_bind_Ok _ _ k2).
  2:{ step. set (k3 := set_next (parent x) k2). change (tasks k2 !! parent x = Some y) with (tasks k3 !! parent x = Some y) in Hp2. step.
      rewrite (upd_ok _ (parent x) (set_state TASK_RUNNING y)) by (cbn; apply lookup_insert_eq). reflexivity. }
  unfold mret, st_ret. do 2 f_equal. unfold set_next, on_tasks, k2, k1. cbn. by rewrite !insert_insert_eq.
Qed.

(** A child's exit status reaches the parent that waits for it: [_exit], the destruction of the
    task by the reaper (which makes the parent the next task to run) and the second half of [wait]
    return the child's PID and the low byte of the status, shifted; the child is then gone from the
    queue, from the parent's children and from the heap. *)
Theorem exit_wait_status k reaper x y l1 l2 status :
  let c := current_task k in let p := parent x in
  tasks k !! c = Some x -> children x = Some [] -> tasks k !! p = Some y -> state y = TASK_WAITING ->
  children y = Some (l1 ++ c :: l2) -> (c ∉ l1) -> (forall u z, u ∈ l1 -> tasks k !! u = Some z -> state z <> TASK_DEAD) ->
  (forall u, u ∈ l1 -> is_Some (tasks k !! u)) -> (p ∉ l1) ->
  c <> 0 -> p <> 0 -> p <> c -> c <> kernel_task -> reaper <> c -> NoDup (ready_queue k) ->
  exists k1 k2 k3, _exit status k = Ok (tt, k1) /\
    destroy_task kernel_task c (set_current reaper k1) = Ok (Yields, k2) /\ next_task k2 = p /\
    sys_wait_resumed true (set_current p (set_next 0 k2)) =
      Ok ((Val (id x), Some (Z.shiftl (Z.land status 0xff) 8)), k3) /\
    tasks k3 !! c = None /\ (c ∉ ready_queue k3) /\ (children <$> tasks k3 !! p) = Some (Some (l1 ++ l2)).
Proof.
  intros c p Hx Hxc Hy Hys Hyc Hnot Hl1 Hl1s Hpl1 Hc0 Hp0 Hpc Hck Hrc Hnd.
  destruct (exit_ok k x status Hx) as (k1 & He & Hm & Hq1 & Hn1 & Ht1). fold c in Ht1.
  set (x1 := set_exit_code (Z.shiftl (Z.land status 0xff) 8) (set_console 0 (set_state TASK_EXITING x))) in *.
  set (kr := set_current reaper k1).
  assert (tasks kr !! c = Some x1) as Hcr by (cbn; rewrite Ht1; apply lookup_insert_eq).
  assert (tasks kr !! p = Some y) as Hpr by (cbn; rewrite Ht1, lookup_insert_ne by done; done).
  pose proof (destroy_waited kr c x1 y Hck ltac:(by apply not_eq_sym) Hcr eq_refl eq_refl Hxc Hp0 Hpc Hpr Hys) as Hd.
  change (parent x1) with p in Hd. set (k2 := set_next p _) in Hd.
  set (kw := set_current p (set_next 0 k2)). set (y1 := set_wakeup 0 (set_state TASK_RUNNING y)) in *.
  set (x2 := set_children None (set_state TASK_DEAD x1)) in *.
  assert (forall u, tasks kw !! u = if u =? p then Some y1 else if u =? c then Some x2 else tasks k !! u) as Hkw.
  { intros u. cbn. rewrite Ht1. destruct (Z.eqb_spec u p) as [->|]; [apply lookup_insert_eq|]. rewrite lookup_insert_ne by done.
    destruct (Z.eqb_spec u c) as [->|]; [apply lookup_insert_eq|]. by rewrite !lookup_insert_ne. }
  exists k1, k2. set (ki := set_irq false kw).
  assert (tasks ki !! p = Some y1) as Hpi by (change (tasks kw !! p = Some y1); rewrite (Hkw p); by rewrite Z.eqb_refl).
  assert (tasks ki !! c = Some x2) as Hci by (change (tasks kw !! c = Some x2); rewrite (Hkw c); replace (c =? p) with false by lia; by rewrite Z.eqb_refl).
  assert (find_task dead (l1 ++ c :: l2) ki = Ok (Some c, ki)) as Hfind.
  { assert (forall l, (forall u, u ∈ l -> u ∈ l1) -> find_task dead (l ++ c :: l2) ki = Ok (Some c, ki)) as Hgen; [|by apply Hgen].
    induction l as [|u l IH]; intros Hsub; cbn [app find_task]; [by step|].
    destruct (Hl1s u) as [z Hz]; [apply Hsub; by left|].
    assert (tasks ki !! u = Some z) as Hzi.
    { change (tasks ki !! u) with (tasks kw !! u). rewrite Hkw.
      destruct (Z.eqb_spec u p) as [->|]; [exfalso; apply Hpl1, Hsub; by left|].
      destruct (Z.eqb_spec u c) as [->|]; [exfalso; apply Hnot, Hsub; by left|]. done. }
    step. assert (dead z = false) as -> by (apply Z.eqb_neq, (Hl1 u z); [apply Hsub; by left|done]).
    apply IH. intros v Hv. apply Hsub. by right. }
  eexists. split; [done|]. split; [exact Hd|]. split; [done|]. split.
  { unfold sys_wait_resumed. rewrite (st_bind_Ok _ _ _ (irq kw) ki) by done. step. change (current_task ki) with p. step.
    change (children y1) with (children y). rewrite Hyc. rewrite (st_bind_Ok _ _ _ (l1 ++ c :: l2) ki) by done.
    erewrite st_bind_Ok by (apply ensure_true; pose proof (zlen_nonneg l1); pose proof (zlen_nonneg l2); rewrite zlen_app, zlen_cons; lia).
    rewrite (st_bind_Ok _ _ _ _ _ Hfind).
    rewrite (do_wait_one_ok ki p c y1 x2 l1 l2 true Hp0 Hc0 Hpc Hpi Hci Hyc Hnot). reflexivity. }
  cbn [on_tasks on_queue tasks ready_queue]. split_and!.
  - apply lookup_delete_eq.
  - change (ready_queue ki) with (ready_queue k1). rewrite Hq1. clear -Hnd. induction (ready_queue k) as [|u q IH]; [by apply not_elem_of_nil|].
    apply NoDup_cons in Hnd as [Hu Hq]. cbn [remove_first]. destruct (Z.eqb_spec u c) as [->|Hne]; [done|].
    apply not_elem_of_cons. split; [done|by apply IH].
  - rewrite lookup_delete_ne, lookup_insert_eq by done. done.
Qed.

(** [kill] of another task writes the exit code 256 to the caller instead of the task it kills:
    the caller's own exit code is lost, and the killed task will report what it had before (0). *)
Theorem kill_wrong_exit_code k t x c :
  t <> current_task k -> tasks k !! t = Some x -> tasks k !! current_task k = Some c ->
  exists k', kill t k = Ok (tt, k') /\ (exit_code <$> tasks k' !! t) = Some (exit_code x) /\
    (exit_code <$> tasks k' !! current_task k) = Some 256 /\ (state <$> tasks k' !! t) = Some TASK_EXITING.
Proof.
  intros Hne Ht Hc. destruct (kill_ok k t x c Ht Hc) as (k' & Hk & _ & _ & _ & Hl). exists k'. split; [done|].
  rewrite !Hl, Ht, Hc, !Z.eqb_refl. replace (t =? current_task k) with false by lia. replace (current_task k =? t) with false by lia.
  done.
Qed.

(** The reaper takes every dead task of the ready queue for one of its own children: a child that
    has exited and that its (live) parent has not waited for yet, when the reaper finds it, makes
    the kernel panic in [do_wait_one]. *)
Theorem reaper_panics k q1 q2 t x r l :
  ready_queue k = q1 ++ t :: q2 -> (forall u, u ∈ q1 -> exists y, tasks k !! u = Some y /\ state y <> TASK_EXITING /\ state y <> TASK_DEAD) ->
  tasks k !! t = Some x -> state x = TASK_DEAD -> t <> 0 -> current_task k <> 0 -> current_task k <> t ->
  tasks k !! current_task k = Some r -> children r = Some l -> (t ∉ l) ->
  reaper_round kernel_task k = Panic.
Proof.
  intros Hq Hbefore Ht Hdead Ht0 Hc0 Hct Hr Hl Hnot. unfold reaper_round. set (k1 := set_irq false k).
  rewrite (st_bind_Ok _ _ _ (irq k) k1) by done. step. change (ready_queue k1) with (ready_queue k). rewrite Hq.
  assert (reap kernel_task (q1 ++ t :: q2) k1 = Panic) as Hreap; [|unfold mbind, st_bind; by rewrite Hreap].
  clear Hq. induction q1 as [|u q1 IH]; cbn [app reap].
  - change (tasks k !! t = Some x) with (tasks k1 !! t = Some x) in Ht. step. rewrite Hdead.
    change (TASK_DEAD =? TASK_EXITING) with false. change (TASK_DEAD =? TASK_DEAD) with true. cbn match. step.
    change (current_task k1) with (current_task k).
    change (tasks k !! current_task k = Some r) with (tasks k1 !! current_task k = Some r) in Hr. step. rewrite Hl.
    rewrite (st_bind_Ok _ _ _ l k1) by done.
    assert (do_wait_one (current_task k) t false k1 = Panic) as Hw; [|unfold mbind, st_bind; by rewrite Hw].
    unfold do_wait_one. erewrite (st_bind_Ok _ _ k1) by (apply ensure_true, negb_true_iff; lia).
    erewrite (st_bind_Ok _ _ k1) by (apply ensure_true, negb_true_iff; lia). step. step. rewrite Hl.
    rewrite (st_bind_Ok _ _ _ l k1) by done. step. set (k2 := on_queue (remove_first t) k1).
    change (tasks k1 !! current_task k = Some r) with (tasks k2 !! current_task k = Some r) in Hr. step.
    rewrite remove_first_not_in by done. set (k3 := on_tasks _ k2).
    assert (tasks k3 !! t = Some x) as Ht3 by (cbn; by rewrite lookup_insert_ne).
    rewrite (st_bind_Ok _ _ _ _ _ (kfree_task_ok _ _ _ Ht3)). set (k4 := on_tasks _ k3).
    assert (tasks k4 !! current_task k = Some (set_children (Some l) r)) as Hr4 by (cbn; rewrite lookup_delete_ne by done; apply lookup_insert_eq).
    step. cbn [set_children children]. rewrite (st_bind_Ok _ _ _ l k4) by done.
    unfold mbind, st_bind, ensure, lift. by replace (zlen l =? zlen l - 1) with false by lia.
  - destruct (Hbefore u) as (y & Hy & H1 & H2); [by left|].
    change (tasks k !! u = Some y) with (tasks k1 !! u = Some y) in Hy. step.
    replace (state y =? TASK_EXITING) with false by lia. replace (state y =? TASK_DEAD) with false by lia.
    apply IH. intros v Hv. apply Hbefore. by right.
Qed.
End Wait.

(** ** Fork *)

(** What the interrupt return of a new task pops: the words of its stack image from [esp] up. *)
Definition popped (frame : list Z) : option registers :=
  match rev frame with
  | g :: f :: e :: d :: di :: si :: bp :: bx :: dx :: cx :: ax :: no :: err :: ip :: c :: fl :: sp :: s :: _ =>
      Some (mk_registers g f e d di si bp bx dx cx ax no err ip c fl sp s)
  | _ => None
  end.

(** [fork] returns twice: the parent gets the child's PID; the child is a running task right after
    the parent in the ready queue, in the list of the parent's children, and what it will pop off
    its stack are the parent's registers with 0 in EAX (and fixed segments and flags). *)
Theorem fork_returns_twice exit_addr k child new_stack pd regs p l q1 q2 :
  tasks k !! current_task k = Some p -> privilege p = 3 -> children p = Some l ->
  ready_queue k = q1 ++ current_task k :: q2 -> (current_task k ∉ q1) -> child <> current_task k ->
  exists k' x, fork exit_addr child new_stack pd regs k = Ok (Val (next_pid k), k') /\
    current_task k' = current_task k /\ next_pid k' = u32 (next_pid k + 1) /\
    ready_queue k' = q1 ++ current_task k :: child :: q2 /\
    (children <$> tasks k' !! current_task k) = Some (Some (l ++ [child])) /\
    tasks k' !! child = Some x /\ id x = next_pid k /\ state x = TASK_RUNNING /\ parent x = current_task k /\
    children x = Some [] /\ esp x = u32 (new_stack - 84) /\
    (popped <$> kstacks k' !! child) = Some (Some (mk_registers 0x23 0x23 0x23 0x23 (edi regs) (esi regs) (ebp regs) (ebx regs)
       (edx regs) (ecx regs) 0 0 0 (eip regs) 0x1b 0x202 (useresp regs) 0x23)).
Proof.
  intros Hp Hpriv Hch Hq Hnot Hne. unfold fork. step. step.
  erewrite (st_bind_Ok _ _ k) by (apply ensure_true; by rewrite Hpriv). step. step. set (cur := current_task k) in *.
  set (k1 := set_pid _ k). change (tasks k !! cur = Some p) with (tasks k1 !! cur = Some p) in Hp.
  set (x0 := mk_task (next_pid k) 0 0 new_stack TASK_IDLE 0 3 (console p) pd false cur (Some []) 0).
  set (k2 := on_tasks (insert child x0) (on_tasks (insert cur (set_children (Some (l ++ [child])) p)) k1)).
  assert (exists k3, fork_family child (next_pid k) new_stack pd k1 = Ok (tt, k3) /\ tasks k3 = tasks k2 /\
    ready_queue k3 = ready_queue k /\ current_task k3 = cur /\ next_pid k3 = u32 (next_pid k + 1)) as (k3 & Hf & Ht3 & Hq3 & Hc3 & Hn3).
  { unfold fork_family. step. change (current_task k1) with cur. step. rewrite Hch. rewrite (st_bind_Ok _ _ _ l k1) by done. step. step.
    fold x0. fold k2. destruct (negb (console p =? 0)); eexists; split_and!; done. }
  rewrite (st_bind_Ok _ _ _ _ _ Hf). step. set (k4 := set_kstack child (fork_frame exit_addr regs) k3).
  assert (tasks k4 !! child = Some x0) as Hx4 by (change (tasks k3 !! child = Some x0); rewrite Ht3; apply lookup_insert_eq).
  step. set (k5 := on_tasks _ k4).
  set (x1 := set_esp (u32 (new_stack - 4 * zlen (fork_frame exit_addr regs))) x0) in *.
  assert (tasks k5 !! child = Some x1) as Hx5 by apply lookup_insert_eq. step. set (k6 := on_tasks _ k5). step.
  change (ready_queue k6) with (ready_queue k3). rewrite Hq3, Hq, position_app by done.
  rewrite (st_bind_Ok _ _ _ (length q1) k6) by done. step. set (k7 := on_queue _ k6).
  assert (tasks k7 !! child = Some (set_ss 0x23 x1)) as Hx7 by (change (tasks k6 !! child = Some (set_ss 0x23 x1)); apply lookup_insert_eq).
  step. eexists _, (set_state TASK_RUNNING (set_ss 0x23 x1)). split; [reflexivity|].
  cbn [on_tasks tasks current_task next_pid ready_queue kstacks k7 on_queue k6 k5 k4 set_kstack].
  split_and!; try done.
  - rewrite Hq3, Hq. unfold insert_after. rewrite take_app_ge, drop_app_ge by lia.
    replace (S (length q1) - length q1)%nat with 1%nat by lia. cbn [take drop]. by rewrite <- app_assoc.
  - rewrite !lookup_insert_ne by done. rewrite Ht3. cbn [k2 on_tasks tasks]. rewrite lookup_insert_ne, lookup_insert_eq by done. done.
  - by rewrite lookup_insert_eq.
  - rewrite lookup_insert_eq. done.
Qed.

(** ** Witnesses *)
Definition sample_task (i st wk par : Z) (ch : list Z) : task :=
  mk_task i 0x100 0x10 0x200 st wk 0 0 0x1000 false par (Some ch) 0.

(** The kernel task (1) runs; the reaper (2) sleeps until tick 5; the idle task (3); a running task (4). *)
Definition sample : kernel :=
  mk_kernel {[1 := sample_task 0 TASK_RUNNING 0 0 []; 2 := sample_task 1 TASK_SLEEPING 5 0 [];
              3 := sample_task 2 TASK_IDLE 0 0 []; 4 := sample_task 3 TASK_RUNNING 0 0 []]}
    [1; 2; 3; 4] 1 1 0 3 2 true 7 4 false 0x1000 (0, 0, 0) false 0 ∅ ∅.

Lemma machine_wf_sample : sched_wf 1 sample.
Proof.
  constructor; try done.
  - by left.
  - apply (bool_decide_unpack (NoDup [1; 2; 3; 4])). vm_compute. done.
  - by left.
  - intros t Ht. cbn [sample ready_queue] in Ht.
    repeat (apply elem_of_cons in Ht as [->|Ht]; [eexists; split; [reflexivity|]; split; [constructor; cbn; lia|]; done|]).
    by apply not_elem_of_nil in Ht.
  - split; [apply (bool_decide_unpack (3 ∈ [1; 2; 3; 4])); vm_compute; done|]. eexists. done.
Qed.

Lemma scheduler_round_robin_witness :
  (exists k' e', scheduler_taskSwitch 1 0x50 sample = Ok (e', k') /\ scheduled 1 0x50 sample k' e') /\
  exists k' e', scheduler_taskSwitch 1 0x50 (set_next 2 sample) = Ok (e', k') /\ scheduled 1 0x50 (set_next 2 sample) k' e' /\ current_task k' = 2.
Proof.
  split; [apply (scheduler_round_robin 1 sample 0x50 machine_wf_sample); done|].
  assert (Hwf : sched_wf 1 (set_next 2 sample)) by (destruct machine_wf_sample; constructor; try done; right; apply (bool_decide_unpack (2 ∈ [1; 2; 3; 4])); vm_compute; done).
  destruct (scheduler_round_robin 1 (set_next 2 sample) 0x50 Hwf) as (k' & e' & H1 & H2); [done|]. exists k', e'. split_and!; [exact H1|exact H2|exact (sc_next _ _ _ _ _ H2)].
Defined.

Lemma set_ticks_quiet n t : quiet 1 t (set_ticks n).
Proof. intros k Hwf. split; [by apply set_ticks_wf|]. split_and!; try done. intros x Hx Hr. by exists x. Qed.

(** Task 5, a child of task 4, exits while task 4 waits. *)
Definition sample_child : kernel :=
  mk_kernel {[1 := sample_task 0 TASK_RUNNING 0 0 []; 2 := sample_task 1 TASK_RUNNING 0 0 [];
              4 := sample_task 3 TASK_WAITING 0 0 [5]; 5 := sample_task 4 TASK_RUNNING 0 4 []]}
    [1; 2; 4; 5] 5 5 0 3 2 true 7 5 true 0x1000 (0, 0, 0) false 0 ∅ ∅.

Lemma exit_wait_witness :
  exists k1 k2 k3, _exit 7 sample_child = Ok (tt, k1) /\ destroy_task 1 5 (set_current 2 k1) = Ok (Yields, k2) /\
    sys_wait_resumed true (set_current 4 (set_next 0 k2)) = Ok ((Val 4, Some 0x700), k3).
Proof.
  destruct (exit_wait_status 1 sample_child 2 (sample_task 4 TASK_RUNNING 0 4 []) (sample_task 3 TASK_WAITING 0 0 [5]) [] [] 7)
    as (k1 & k2 & k3 & H1 & H2 & _ & H3 & _); try done.
  - apply not_elem_of_nil.
  - intros u z Hu. by apply not_elem_of_nil in Hu.
  - intros u Hu. by apply not_elem_of_nil in Hu.
  - apply not_elem_of_nil.
  - apply (bool_decide_unpack (NoDup [1; 2; 4; 5])). vm_compute. done.
  - by exists k1, k2, k3.
Defined.

Lemma kill_wrong_exit_code_witness : exists k', kill 4 sample_child = Ok (tt, k') /\ (exit_code <$> tasks k' !! 5) = Some 256.
Proof.
  destruct (kill_wrong_exit_code sample_child 4 (sample_task 3 TASK_WAITING 0 0 [5]) (sample_task 4 TASK_RUNNING 0 4 []))
    as (k' & H & _ & H5 & _); try done. by exists k'.
Defined.

(** Task 5 is dead, its parent (4) runs and has not waited; the reaper (2) looks for work. *)
Definition sample_zombie : kernel :=
  mk_kernel {[1 := sample_task 0 TASK_RUNNING 0 0 []; 2 := sample_task 1 TASK_RUNNING 0 0 [];
              4 := sample_task 3 TASK_RUNNING 0 0 [5]; 5 := sample_task 4 TASK_DEAD 0 4 []]}
    [1; 2; 4; 5] 2 2 0 3 2 true 7 5 true 0x1000 (0, 0, 0) false 0 ∅ ∅.

Lemma reaper_panics_witness : reaper_round 1 sample_zombie = Panic.
Proof.
  apply (reaper_panics 1 sample_zombie [1; 2; 4] [] 5 (sample_task 4 TASK_DEAD 0 4 []) (sample_task 1 TASK_RUNNING 0 0 []) []); try done.
  - intros u Hu. repeat (apply elem_of_cons in Hu as [->|Hu]; [eexists; split; [reflexivity|]; done|]). by apply not_elem_of_nil in Hu.
  - apply not_elem_of_nil.
Defined.

Definition sample_parent : kernel :=
  mk_kernel {[4 := mk_task 3 0x100 0x23 0x200 TASK_RUNNING 0 3 0 0x1000 false 0 (Some []) 0]}
    [4] 4 4 0 3 2 true 7 5 true 0x1000 (0, 0, 0) false 0 ∅ ∅.

Lemma fork_witness : exists k', fork 0x999 9 0x9000 0x2000 (mk_registers 0 0 0 0 1 2 3 4 5 6 7 8 9 10 11 12 13 14) sample_parent = Ok (Val 5, k').
Proof.
  destruct (fork_returns_twice 0x999 sample_parent 9 0x9000 0x2000 (mk_registers 0 0 0 0 1 2 3 4 5 6 7 8 9 10 11 12 13 14)
    (mk_task 3 0x100 0x23 0x200 TASK_RUNNING 0 3 0 0x1000 false 0 (Some []) 0) [] [] []) as (k' & x & H & _); try done.
  - apply not_elem_of_nil.
  - by exists k'.
Defined.
