(* ===== verification/Net.v ===== *)
(** * Networking (src/src/kernel/net)

    The RTL8139 driver's rings (rtl8139.c), the workers that take packets from its interrupt
    handler (nethandler.c), ARP with its cache (arp.c), and IPv4 with the ICMP echo reply
    (ipicmp.c, internet_checksum.s).

    Memory is byte arrays: an access outside of one is [Undef].  A frame given to the card is
    added to [wire]; the transmit status registers, which the card changes, are [tsd].  Where
    the code waits, other tasks and interrupts run: what they do to the state between two
    looks is the function [env]. *)
From S2P Require Import Prelude CString.

(** ** State *)
Record arpentry := mk_entry { e_ip : list Z; e_mac : list Z; timestamp : Z }.
Record txdesc := mk_tx { tx_buffer : list Z; packet_length : Z }.
Record net := mk_net {
  arp_cache : option (list arpentry);
  now : Z;                       (** [gettickcount()] *)
  my_mac : list Z;               (** registers 0 to 5 of the card *)
  TxDesc : list txdesc;
  current_descriptor : Z;
  finish_descriptor : Z;
  free_descriptors : Z;
  tsd : list Z;                  (** the registers RTL_TSD0 to RTL_TSD3 *)
  wire : list (list Z)
}.
Abbreviation NET := (ST net).

Definition ip_address : list Z := [192; 168; 10; 10].
Definition gateway : list Z := [192; 168; 10; 1].
Definition netmask : list Z := [255; 255; 255; 0].
Definition ARP_REQUEST : Z := 1.
Definition ARP_REPLY : Z := 2.
Definition ARP_CACHE_TIME : Z := 5 * 60 * 1000.
Definition TIMER_HZ : Z := 100.
Definition ETHERTYPE_IPV4 : Z := 0x0800.
Definition ETHERTYPE_ARP : Z := 0x0806.
Definition IPV4_PROTO_ICMP : Z := 1.
Definition ICMP_ECHO_REQUEST : Z := 8.
Definition ICMP_ECHO_REPLY : Z := 0.
Definition RTL_TSD_BOTH : Z := Z.lor (Z.shiftl 1 15) (Z.shiftl 1 13).
Definition RTL8139_RXBUFFER_SIZE : Z := 8192.

Definition set_cache (c : list arpentry) (s : net) : net :=
  mk_net (Some c) (now s) (my_mac s) (TxDesc s) (current_descriptor s) (finish_descriptor s) (free_descriptors s) (tsd s) (wire s).
Definition set_tx (d : list txdesc) (s : net) : net :=
  mk_net (arp_cache s) (now s) (my_mac s) d (current_descriptor s) (finish_descriptor s) (free_descriptors s) (tsd s) (wire s).
Definition set_ring (c f n : Z) (s : net) : net :=
  mk_net (arp_cache s) (now s) (my_mac s) (TxDesc s) c f n (tsd s) (wire s).
Definition set_tsd (t : list Z) (s : net) : net :=
  mk_net (arp_cache s) (now s) (my_mac s) (TxDesc s) (current_descriptor s) (finish_descriptor s) (free_descriptors s) t (wire s).
Definition set_wire (w : list (list Z)) (s : net) : net :=
  mk_net (arp_cache s) (now s) (my_mac s) (TxDesc s) (current_descriptor s) (finish_descriptor s) (free_descriptors s) (tsd s) w.

(** ** Bytes *)
Definition BSWAP16 (x : Z) : Z := Z.lor (Z.shiftl (Z.land x 0xff) 8) (Z.shiftr (Z.land x 0xff00) 8).

(** The [uint16] at a byte offset. *)
Definition get16 (l : list Z) (o : Z) : res Z := lo ← aget l o; hi ← aget l (o + 1); Ok (lo + 256 * hi).
Definition put16 (l : list Z) (o v : Z) : res (list Z) := l ← aset l o (v mod 256); aset l (o + 1) (v / 256 mod 256).
(** The [n] bytes at an offset. *)
Definition bytes (l : list Z) (o n : Z) : res (list Z) :=
  if (0 <=? o) && (0 <=? n) && (o + n <=? zlen l) then Ok (take (Z.to_nat n) (drop (Z.to_nat o) l)) else Undef.
(** [memcpy(l + o, src, n)] *)
Definition poke (l : list Z) (o : Z) (src : list Z) (n : Z) : res (list Z) := blit l o src 0 n.

(** ** internet_checksum.s

    The words from the end of the data to its start, the carry of each addition added in
    ([add ax]/[inc ax]); with an odd length the last word read is at offset 1 and the byte at
    offset 0 is added. *)
Definition add_carry (ax w : Z) : Z := if ax + w <? 2 ^ 16 then ax + w else ax + w - 2 ^ 16 + 1.
Fixpoint checksum_loop (fuel : nat) (data : list Z) (ecx ax : Z) : res Z :=
  match fuel with
  | O => NoFuel
  | S fuel =>
      let ecx := ecx - 2 in
      w ← get16 data ecx;
      let ax := add_carry ax w in
      if ecx =? 1 then b ← aget data 0; Ok (add_carry ax b)
      else if ecx =? 0 then Ok ax
      else checksum_loop fuel data ecx ax
  end.
Definition internet_checksum (data : list Z) (length : Z) : res Z :=
  ax ← checksum_loop (Z.to_nat length) data length 0; Ok (0xffff - ax).

(** ** rtl8139.c: sending *)

(** [while (free_descriptors == 0)], given the ticks at its start. *)
Fixpoint wait_descriptor (fuel : nat) (env : net -> net) (start : Z) : NET () :=
  match fuel with
  | O => lift NoFuel
  | S fuel =>
      n ← gets free_descriptors;
      if n =? 0 then
        t ← gets now;
        if u32 (start + 100) <? t then lift Panic
        else modify env ;; wait_descriptor fuel env start
      else mret tt
  end.

(** The Ethernet header and the payload, padded to 60 bytes with zeroes: the transmit buffer
    and the length. *)
Definition fill_frame (buf dst_mac src_mac : list Z) (ethertype : Z) (payload : list Z) (payload_size : Z) : res (list Z * Z) :=
  buf ← poke buf 0 dst_mac 6;
  buf ← poke buf 6 src_mac 6;
  buf ← put16 buf 12 (BSWAP16 ethertype);
  buf ← poke buf 14 payload payload_size;
  let packetSize := u16 (payload_size + 14) in
  assert (Z.land packetSize 0xfff =? packetSize) ;;
  if packetSize <? 60 then
    buf ← poke buf packetSize (replicate (Z.to_nat (60 - packetSize)) 0) (60 - packetSize);
    Ok (buf, 60)
  else Ok (buf, packetSize).

Definition rtl8139_send_frame (fuel : nat) (env : net -> net) (dst_mac : list Z) (ethertype : Z) (payload : list Z) (payload_size : Z) : NET () :=
  ensure (0x600 <=? ethertype) ;;
  ensure ((0 <? payload_size) && (payload_size <=? 1500)) ;;
  start ← gets now;
  wait_descriptor fuel env start ;;
  ds ← gets TxDesc; c ← gets current_descriptor; mac ← gets my_mac;
  d ← lift (aget ds c);
  '(buf, packetSize) ← lift (fill_frame (tx_buffer d) dst_mac mac ethertype payload payload_size);
  ds ← lift (aset ds c (mk_tx buf packetSize));
  modify (set_tx ds) ;;
  (** writing the descriptor's status register starts the transmission *)
  t ← gets tsd;
  t ← lift (aset t c (Z.lor (Z.land packetSize 0xfff) (Z.shiftl 48 16)));
  modify (set_tsd t) ;;
  w ← gets wire; modify (set_wire (w ++ [take (Z.to_nat packetSize) buf])) ;;
  f ← gets finish_descriptor; n ← gets free_descriptors;
  modify (set_ring ((c + 1) mod 4) f (n - 1)).

(** [while (check_transmit_status(finish_descriptor) == RTL_TSD_BOTH && free_descriptors < 4)]:
    at most four rounds. *)
Fixpoint tx_loop (fuel : nat) : NET () :=
  match fuel with
  | O => lift NoFuel
  | S fuel =>
      t ← gets tsd; f ← gets finish_descriptor; n ← gets free_descriptors; c ← gets current_descriptor;
      st ← lift (aget t f);
      if (Z.land st RTL_TSD_BOTH =? RTL_TSD_BOTH) && (n <? 4) then
        modify (set_ring c ((f + 1) mod 4) (n + 1)) ;;
        ensure ((1 <=? n + 1) && (n + 1 <=? 4)) ;;
        tx_loop fuel
      else mret tt
  end.
Definition rtl8139_tx_handler : NET () := tx_loop 5.

(** ** arp.c *)
Definition arp_init : NET () :=
  c ← gets arp_cache;
  match c with Some _ => mret tt | None => modify (set_cache []) end.

(** The loop of [arp_cache_add]: [None] when the address is not there. *)
Fixpoint update_entry (ip mac : list Z) (t : Z) (l : list arpentry) : res (option (list arpentry)) :=
  match l with
  | [] => Ok None
  | e :: l =>
      c ← memcmp (e_ip e) ip 4;
      if c =? 0 then Ok (Some (mk_entry (e_ip e) mac t :: l))
      else o ← update_entry ip mac t l; Ok (option_map (cons e) o)
  end.
Definition arp_cache_add (ip mac : list Z) : NET () :=
  c ← gets arp_cache; l ← lift (deref c); t ← gets now;
  o ← lift (update_entry ip mac t l);
  modify (set_cache (match o with Some l' => l' | None => l ++ [mk_entry ip mac t] end)).

(** The loop of [arp_cache_lookup]: the answer and the list, without an entry too old. *)
Fixpoint lookup_entry (ip : list Z) (t : Z) (l : list arpentry) : res (option (list Z) * list arpentry) :=
  match l with
  | [] => Ok (None, [])
  | e :: l =>
      c ← memcmp (e_ip e) ip 4;
      if c =? 0 then
        if ARP_CACHE_TIME <=? u32 (u32 (t - timestamp e) * (1000 / TIMER_HZ)) then Ok (None, l)
        else Ok (Some (e_mac e), e :: l)
      else '(r, l') ← lookup_entry ip t l; Ok (r, e :: l')
  end.
Definition arp_cache_lookup (ip : list Z) : NET (option (list Z)) :=
  c ← gets arp_cache; ensure (match c with Some _ => true | None => false end) ;;
  l ← lift (deref c); t ← gets now;
  '(r, l') ← lift (lookup_entry ip t l);
  modify (set_cache l') ;; mret r.

(** [arpheader_t]: its fields and its 28 bytes. *)
Record arpheader := mk_arp {
  htype : Z; ptype : Z; hlen : Z; plen : Z; operation : Z;
  src_mac : list Z; src_ip : list Z; dst_mac : list Z; dst_ip : list Z
}.
Definition load_arp (p : list Z) : res arpheader :=
  ht ← get16 p 0; pt ← get16 p 2; hl ← aget p 4; pl ← aget p 5; op ← get16 p 6;
  sm ← bytes p 8 6; si ← bytes p 14 4; dm ← bytes p 18 6; di ← bytes p 24 4;
  Ok (mk_arp ht pt hl pl op sm si dm di).
Definition le16 (v : Z) : list Z := [v mod 256; v / 256 mod 256].
Definition arp_bytes (h : arpheader) : list Z :=
  le16 (htype h) ++ le16 (ptype h) ++ [hlen h; plen h] ++ le16 (operation h) ++ src_mac h ++ src_ip h ++ dst_mac h ++ dst_ip h.

Definition send_arp_reply (fuel : nat) (env : net -> net) (h : arpheader) : NET () :=
  mac ← gets my_mac;
  let h' := mk_arp (htype h) (ptype h) (hlen h) (plen h) (BSWAP16 ARP_REPLY) mac (dst_ip h) (src_mac h) (src_ip h) in
  rtl8139_send_frame fuel env (dst_mac h') ETHERTYPE_ARP (arp_bytes h') 28.

Definition arp_handle_packet (fuel : nat) (env : net -> net) (data : list Z) (length : Z) : NET () :=
  ensure (28 <=? length) ;;
  h ← lift (load_arp data);
  if negb (BSWAP16 (htype h) =? 1) || negb (BSWAP16 (ptype h) =? 0x0800) then mret tt
  else
    ensure (hlen h =? 6) ;;
    ensure (plen h =? 4) ;;
    ensure ((BSWAP16 (operation h) =? ARP_REQUEST) || (BSWAP16 (operation h) =? ARP_REPLY)) ;;
    if BSWAP16 (operation h) =? ARP_REPLY then arp_cache_add (src_ip h) (src_mac h)
    else
      arp_cache_add (src_ip h) (src_mac h) ;;
      c ← lift (memcmp (dst_ip h) ip_address 4);
      if c =? 0 then send_arp_reply fuel env h else mret tt.

(** [while (arp_cache_lookup(ip, mac_buffer) == false && gettickcount() < start + 200)]: what
    [mac_buffer] holds at the end. *)
Fixpoint wait_arp (fuel : nat) (env : net -> net) (ip mac_buffer : list Z) (start : Z) : NET (list Z) :=
  match fuel with
  | O => lift NoFuel
  | S fuel =>
      r ← arp_cache_lookup ip;
      match r with
      | Some mac => mret mac
      | None =>
          t ← gets now;
          if t <? u32 (start + 200) then modify env ;; wait_arp fuel env ip mac_buffer start else mret mac_buffer
      end
  end.
Definition arp_lookup (fuel : nat) (env : net -> net) (ip : list Z) : NET (option (list Z)) :=
  r ← arp_cache_lookup ip;
  match r with
  | Some mac => mret (Some mac)
  | None =>
      mac ← gets my_mac;
      let header := mk_arp (BSWAP16 1) (BSWAP16 0x0800) 6 4 (BSWAP16 ARP_REQUEST) mac ip_address (replicate 6 0) ip in
      let broadcast_mac := replicate 6 0xff in
      rtl8139_send_frame fuel env broadcast_mac ETHERTYPE_ARP (arp_bytes header) 28 ;;
      start ← gets now;
      mac_buffer ← wait_arp fuel env ip broadcast_mac start;
      c ← lift (memcmp mac_buffer broadcast_mac 6);
      mret (if c =? 0 then None else Some mac_buffer)
  end.

(** ** ipicmp.c *)
Definition mask_ip (ip : list Z) : list Z := zip_with Z.land ip netmask.
Definition same_subnet (ip1 ip2 : list Z) : res bool :=
  ip1 ← bytes ip1 0 4; ip2 ← bytes ip2 0 4;
  c ← memcmp (mask_ip ip1) (mask_ip ip2) 4;
  Ok (c =? 0).

(** The header [send_ipv4_packet] builds in its buffer, whose bytes 6 and 7 (flags and fragment
    offset) it does not set. *)
Definition ipv4_header (buffer dst_ip : list Z) (protocol payload_size : Z) : res (list Z) :=
  b ← aset buffer 0 0x45;
  b ← aset b 1 0;
  b ← put16 b 2 (BSWAP16 (u16 (20 + payload_size)));
  b ← put16 b 4 0;
  b ← aset b 8 64;
  b ← aset b 9 protocol;
  b ← poke b 12 ip_address 4;
  b ← poke b 16 dst_ip 4;
  b ← put16 b 10 0;
  c ← internet_checksum b 20;
  put16 b 10 c.

(** [stack] is what the 1500 bytes of the local buffer hold when the function is entered. *)
Definition send_ipv4_packet (fuel : nat) (env : net -> net) (stack : list Z) (dst_ip : list Z) (protocol : Z) (payload : list Z) (payload_size : Z) : NET () :=
  ensure (payload_size <=? 1500 - 20) ;;
  b ← lift (ipv4_header stack dst_ip protocol payload_size);
  b ← lift (poke b 20 payload payload_size);
  same ← lift (same_subnet dst_ip ip_address);
  r ← arp_lookup fuel env (if same : bool then dst_ip else gateway);
  match r with
  | None => lift Panic
  | Some dst_mac => rtl8139_send_frame fuel env dst_mac ETHERTYPE_IPV4 b (20 + payload_size)
  end.

(** The echo reply made of the request's bytes: type, then the checksum. *)
Definition echo_reply (buf : list Z) (length : Z) : res (list Z) :=
  b ← aset buf 0 ICMP_ECHO_REPLY;
  b ← put16 b 2 0;
  c ← internet_checksum b length;
  put16 b 2 c.

(** [data] is the packet's buffer, from its IPv4 header on. *)
Definition handle_icmp (fuel : nat) (env : net -> net) (stack1 stack2 data : list Z) (length : Z) : NET () :=
  b0 ← lift (aget data 0);
  let packet := 20 + (Z.land b0 0xf - 5) * 4 in
  type ← lift (aget data packet);
  let length := u32 (length - 20) in
  if type =? ICMP_ECHO_REQUEST then
    buf ← lift (blit stack1 0 data packet length);
    buf ← lift (echo_reply buf length);
    src ← lift (bytes data 12 4);
    send_ipv4_packet fuel env stack2 src IPV4_PROTO_ICMP buf (u16 length)
  else mret tt.

(** ** nethandler.c *)
Definition NETHANDLER_NUM_BUFFERS : Z := 8.
Definition NETHANDLER_BUFFER_SIZE : Z := 1536.
Inductive nethandler_buffer_state := EMPTY | NEEDS_PROCESSING | CURRENTLY_PROCESSING.
#[export] Instance nbs_eq_dec : EqDecision nethandler_buffer_state.
Proof. solve_decision. Defined.
Record nethandler_buffer := mk_nbuf { nbuffer : list Z; nlength : Z; nstate : nethandler_buffer_state }.

(** The first buffer in a state, from a position on. *)
Fixpoint first_in (st : nethandler_buffer_state) (i : Z) (l : list nethandler_buffer) : option Z :=
  match l with
  | [] => None
  | b :: l => if bool_decide (nstate b = st) then Some i else first_in st (i + 1) l
  end.
Definition nethandler_add_packet (data : list Z) (length : Z) (worker : list nethandler_buffer) : res (list nethandler_buffer) :=
  assert (0 <? length) ;;
  match first_in EMPTY 0 worker with
  | None => Ok worker
  | Some i =>
      b ← aget worker i;
      buf ← poke (nbuffer b) 0 data length;
      aset worker i (mk_nbuf buf length NEEDS_PROCESSING)
  end.
(** [nethandler_task]: taking a packet; what it gives to the worker's function; the end. *)
Definition task_take (worker : list nethandler_buffer) : res (option Z * list nethandler_buffer) :=
  match first_in NEEDS_PROCESSING 0 worker with
  | None => Ok (None, worker)
  | Some i => b ← aget worker i; w ← aset worker i (mk_nbuf (nbuffer b) (nlength b) CURRENTLY_PROCESSING); Ok (Some i, w)
  end.
Definition task_packet (i : Z) (worker : list nethandler_buffer) : res (list Z) :=
  b ← aget worker i; bytes (nbuffer b) 0 (nlength b).
Definition task_done (i : Z) (worker : list nethandler_buffer) : res (list nethandler_buffer) :=
  b ← aget worker i;
  aset worker i (mk_nbuf (replicate (Z.to_nat NETHANDLER_BUFFER_SIZE) 0) (nlength b) EMPTY).

(** ** rtl8139.c: receiving *)

(** The copy of a packet out of the card's ring. *)
Definition rx_copy (recv_buf packetBuffer : list Z) (rxOffset packetLength : Z) : res (list Z) :=
  if RTL8139_RXBUFFER_SIZE <=? rxOffset + packetLength then
    let first_run := RTL8139_RXBUFFER_SIZE - rxOffset in
    b ← blit packetBuffer 0 recv_buf rxOffset first_run;
    blit b first_run recv_buf 0 (packetLength - first_run)
  else blit packetBuffer 0 recv_buf rxOffset packetLength.
Definition rx_next (rxOffset packetLength : Z) : Z :=
  u16 (Z.land (rxOffset + packetLength + 4 + 3) (Z.lnot 3)) mod RTL8139_RXBUFFER_SIZE.

(** What the receive handler works on; [next_task] is the worker whose task is to run next. *)
Inductive worker := ARP_WORKER | ICMP_WORKER.
Record rx := mk_rx {
  packetBuffer : list Z; rxOffset : Z;
  nethandler_arp : list nethandler_buffer; nethandler_icmp : list nethandler_buffer;
  next_task : option worker
}.

(** [process_frame]: the EtherType is put into the byte order of the CPU and the checksum field
    zeroed in the buffer itself. *)
Definition process_frame (packetLength : Z) (s : rx) : res rx :=
  et ← get16 (packetBuffer s) (4 + 12);
  let et := BSWAP16 et in
  b ← put16 (packetBuffer s) (4 + 12) et;
  if et =? 0x8100 then Panic
  else if et =? ETHERTYPE_ARP then
    arp ← nethandler_add_packet (drop 18 b) (u32 (packetLength - 8 - 14)) (nethandler_arp s);
    Ok (mk_rx b (rxOffset s) arp (nethandler_icmp s) (Some ARP_WORKER))
  else if et =? ETHERTYPE_IPV4 then
    check ← get16 b (18 + 10);
    b ← put16 b (18 + 10) 0;
    proto ← aget b (18 + 9);
    s ← (if proto =? IPV4_PROTO_ICMP then
           icmp ← nethandler_add_packet (drop 18 b) (u32 (packetLength - 18)) (nethandler_icmp s);
           Ok (mk_rx b (rxOffset s) (nethandler_arp s) icmp (Some ICMP_WORKER))
         else Ok (mk_rx b (rxOffset s) (nethandler_arp s) (nethandler_icmp s) (next_task s)));
    ret ← internet_checksum (drop 18 b) 20;
    assert (ret =? check) ;;
    Ok s
  else Ok (mk_rx b (rxOffset s) (nethandler_arp s) (nethandler_icmp s) (next_task s)).

(** One round of the loop of [rtl8139_rx_handler]. *)
Definition rx_round (recv_buf : list Z) (s : rx) : res rx :=
  packetLength ← get16 recv_buf (rxOffset s + 2);
  assert (packetLength <=? 2048) ;;
  b ← rx_copy recv_buf (packetBuffer s) (rxOffset s) packetLength;
  process_frame packetLength (mk_rx b (rx_next (rxOffset s) packetLength) (nethandler_arp s) (nethandler_icmp s) (next_task s)).
(** The handler: a round as long as the card says (bit RTL_BUFE of its command register) that
    its buffer is not empty; [rings] is what the receive buffer holds at each of the rounds. *)
Fixpoint rtl8139_rx_handler (rings : list (list Z)) (s : rx) : res rx :=
  match rings with
  | [] => Ok s
  | recv_buf :: rings => s ← rx_round recv_buf s; rtl8139_rx_handler rings s
  end.

(** [rtl8139_interrupt_handler]; [isr] is the interrupt status register. *)
Definition RTL_ROK : Z := 1.
Definition RTL_TOK : Z := Z.shiftl 1 2.
Definition rtl8139_interrupt_handler (isr : Z) (rings : list (list Z)) (s : net) (r : rx) : res (net * rx) :=
  let rok := negb (Z.land isr RTL_ROK =? 0) in
  let tok := negb (Z.land isr RTL_TOK =? 0) in
  if negb rok && negb tok then Panic
  else if rok then r ← rtl8139_rx_handler rings r; Ok (s, r)
  else '(_, s) ← rtl8139_tx_handler s; Ok (s, r).
