(* ===== verification/NetSum.v ===== *)
(** * Networking: the Internet checksum

    [le_sum] and [be_sum] add up the 16-bit words of a packet in the order of the CPU and of
    the network (RFC 1071); a packet is [rfc_valid] when its one's complement sum is 0xffff,
    which is the test a receiver makes. *)
From S2P Require Import Prelude Net.

Lemma bind_ok {A B} (a : A) (f : A -> res B) : (Ok a ≫= f) = f a.
Proof. done. Qed.

Fixpoint le_sum (l : list Z) : Z :=
  match l with
  | a :: b :: l => a + 256 * b + le_sum l
  | [a] => a
  | [] => 0
  end.
Fixpoint be_sum (l : list Z) : Z :=
  match l with
  | a :: b :: l => 256 * a + b + be_sum l
  | [a] => 256 * a
  | [] => 0
  end.
Definition rfc_valid (l : list Z) : Prop := 0 < be_sum l /\ be_sum l mod 0xffff = 0.

(** The one's complement sum of words whose sum is [s]. *)
Definition ones_sum (s : Z) : Z := if s =? 0 then 0 else if s mod 0xffff =? 0 then 0xffff else s mod 0xffff.

Lemma pair_ind {A} (P : list A -> Prop) : P [] -> (forall a, P [a]) -> (forall a b l, P l -> P (a :: b :: l)) -> forall l, P l.
Proof.
  intros H0 H1 H2 l. enough (P l /\ forall a, P (a :: l)) by tauto.
  induction l as [|a l [IH1 IH2]]; split; auto.
Qed.

Lemma le_sum_nonneg l : Forall byte_ok l -> 0 <= le_sum l.
Proof. induction l as [|a|a b l IH] using pair_ind; cbn; rewrite ?Forall_cons; unfold byte_ok; [lia | lia | intros (? & ? & ?%IH); lia]. Qed.

(** The two byte orders have the same valid packets. *)
Lemma be_le_sum l : be_sum l mod 0xffff = (256 * le_sum l) mod 0xffff.
Proof.
  induction l as [|a|a b l IH] using pair_ind; [done | done|]. cbn [be_sum le_sum].
  replace (256 * (a + 256 * b + le_sum l)) with ((256 * a + b + 256 * le_sum l) + b * 0xffff) by lia.
  rewrite Z.mod_add by done. rewrite <- (Zplus_mod_idemp_r (be_sum l)), IH, Zplus_mod_idemp_r. done.
Qed.
Lemma be_sum_pos l : Forall byte_ok l -> 0 < le_sum l -> 0 < be_sum l.
Proof.
  induction l as [|a|a b l IH] using pair_ind; cbn; rewrite ?Forall_cons; unfold byte_ok; [lia | lia|].
  intros (Ha & Hb & Hl) Hs. assert (0 <= be_sum l).
  { clear - Hl. induction l as [|a|a b l IH] using pair_ind; cbn; rewrite ?Forall_cons in *; unfold byte_ok in *; [lia | lia|]. destruct Hl as (? & ? & ?%IH). lia. }
  destruct (decide (0 < le_sum l)); [specialize (IH Hl ltac:(lia)); lia|]. pose proof (le_sum_nonneg l Hl). lia.
Qed.
Lemma le_sum_pos l : Forall byte_ok l -> 0 < be_sum l -> 0 < le_sum l.
Proof.
  induction l as [|a|a b l IH] using pair_ind; cbn; rewrite ?Forall_cons; unfold byte_ok; [lia | lia|].
  intros (Ha & Hb & Hl) Hs. pose proof (le_sum_nonneg l Hl). destruct (decide (0 < be_sum l)); [specialize (IH Hl ltac:(lia)); lia | lia].
Qed.
Lemma rfc_valid_le l : Forall byte_ok l -> 0 < le_sum l -> le_sum l mod 0xffff = 0 -> rfc_valid l.
Proof.
  intros Hl Hp Hm. split; [by apply be_sum_pos|]. rewrite be_le_sum, <- Zmult_mod_idemp_r, Hm. done.
Qed.

Lemma le_sum_app l1 l2 : Nat.even (length l1) = true -> le_sum (l1 ++ l2) = le_sum l1 + le_sum l2.
Proof. induction l1 as [|a|a b l IH] using pair_ind; cbn; [lia | done|]. intros H. rewrite IH by done. lia. Qed.

(** ** The loop *)
Lemma add_carry_spec a w : 0 <= a <= 0xffff -> 0 <= w <= 0xffff ->
  0 <= add_carry a w <= 0xffff /\ add_carry a w mod 0xffff = (a + w) mod 0xffff /\ (add_carry a w = 0 <-> a + w = 0).
Proof.
  intros Ha Hw. unfold add_carry. destruct (Z.ltb_spec (a + w) (2 ^ 16)); [split_and!; (done || lia)|].
  split_and!; [lia | lia | | lia]. replace (a + w - 2 ^ 16 + 1) with (a + w + (-1) * 0xffff) by lia. by rewrite Z.mod_add.
Qed.

Lemma get16_take l o w : get16 l o = Ok w -> exists a b, l !! Z.to_nat o = Some a /\ l !! Z.to_nat (o + 1) = Some b /\ w = a + 256 * b /\ 0 <= o.
Proof.
  unfold get16. intros H. simp_res. destruct (aget_Ok l o x) as [Hx _], (aget_Ok l (o + 1) x0) as [Hy _].
  destruct (Hx H), (Hy H0). eauto 8.
Qed.

Lemma get16_ok l (k : nat) : (k + 2 <= length l)%nat -> exists a b, get16 l (Z.of_nat k) = Ok (a + 256 * b) /\ take (k + 2) l = take k l ++ [a; b].
Proof.
  intros Hk. destruct (lookup_lt_is_Some_2 l k) as [a Ha]; [lia|]. destruct (lookup_lt_is_Some_2 l (S k)) as [b Hb]; [lia|].
  exists a, b. split.
  - unfold get16. assert (aget l (Z.of_nat k) = Ok a) as -> by (apply aget_Ok; rewrite Nat2Z.id; split; [lia | done]).
    assert (aget l (Z.of_nat k + 1) = Ok b) as -> by (apply aget_Ok; replace (Z.to_nat (Z.of_nat k + 1)) with (S k) by lia; split; [lia | done]). done.
  - replace (k + 2)%nat with (S (S k)) by lia. rewrite (take_S_r _ _ b), (take_S_r _ _ a) by done. by rewrite <- app_assoc.
Qed.

Lemma checksum_loop_spec data (k : nat) fuel ax : (1 <= k)%nat -> (2 * k <= length data)%nat -> (k <= fuel)%nat -> Forall byte_ok data -> 0 <= ax <= 0xffff ->
  exists r, checksum_loop fuel data (Z.of_nat (2 * k)) ax = Ok r /\ 0 <= r <= 0xffff /\
    r mod 0xffff = (ax + le_sum (take (2 * k) data)) mod 0xffff /\ (r = 0 <-> ax + le_sum (take (2 * k) data) = 0).
Proof.
  revert fuel ax. induction k as [|k IH]; intros [|fuel] ax Hk Hl Hf Hb Ha; [lia.. |]. cbn [checksum_loop].
  destruct (get16_ok data (2 * k)) as (a & b & Hg & Ht); [lia|].
  replace (Z.of_nat (2 * S k) - 2) with (Z.of_nat (2 * k)) by lia. rewrite Hg. cbn [mbind res_bind].
  replace (2 * S k)%nat with (2 * k + 2)%nat by lia. rewrite Ht.
  assert (Hab : byte_ok a /\ byte_ok b).
  { assert (Hall : Forall byte_ok (take (2 * k + 2) data)) by (by apply Forall_take). rewrite Ht, Forall_app, !Forall_cons in Hall. tauto. }
  rewrite le_sum_app by (rewrite length_take; replace (2 * k `min` length data)%nat with (2 * k)%nat by lia; apply Nat.even_spec; exists k; lia).
  cbn [le_sum]. unfold byte_ok in Hab. destruct (add_carry_spec ax (a + 256 * b)) as (C1 & C2 & C3); [lia | lia|].
  assert (Hs : 0 <= le_sum (take (2 * k) data)) by (apply le_sum_nonneg; by apply Forall_take).
  rewrite (proj2 (Z.eqb_neq (Z.of_nat (2 * k)) 1)) by lia. destruct (Z.eqb_spec (Z.of_nat (2 * k)) 0) as [Hz|Hz].
  - assert (k = O) as -> by lia. eexists. split; [done|]. split; [done|]. change (take (2 * 0) data) with (@nil Z). cbn [le_sum].
    replace (ax + (0 + (a + 256 * b + 0))) with (ax + (a + 256 * b)) by lia. done.
  - destruct (IH fuel (add_carry ax (a + 256 * b))) as (r & -> & R1 & R2 & R3); [lia | lia | lia | done | done|].
    exists r. split; [done|]. split; [done|]. split.
    + rewrite R2, <- Zplus_mod_idemp_l, C2, Zplus_mod_idemp_l. f_equal. lia.
    + rewrite R3. lia.
Qed.

Lemma ones_sum_unique r s : 0 <= r <= 0xffff -> r mod 0xffff = s mod 0xffff -> (r = 0 <-> s = 0) -> r = ones_sum s.
Proof.
  intros Hr Hm Hz. unfold ones_sum. destruct (Z.eqb_spec s 0); [tauto|]. destruct (decide (r = 0xffff)) as [->|].
  - rewrite <- Hm. done.
  - rewrite Z.mod_small in Hm by lia. rewrite <- Hm. destruct (Z.eqb_spec r 0); [tauto | done].
Qed.

Lemma internet_checksum_even data (k : nat) : (1 <= k)%nat -> (2 * k <= length data)%nat -> Forall byte_ok data ->
  internet_checksum data (Z.of_nat (2 * k)) = Ok (0xffff - ones_sum (le_sum (take (2 * k) data))).
Proof.
  intros Hk Hl Hb. unfold internet_checksum. destruct (checksum_loop_spec data k (Z.to_nat (Z.of_nat (2 * k))) 0) as (r & -> & R1 & R2 & R3); [lia | lia | lia | done | done|].
  cbn. do 2 f_equal. rewrite Z.add_0_l in R2, R3. by rewrite (ones_sum_unique _ _ R1 R2 R3).
Qed.

(** ** Storing the checksum *)
Lemma put16_split l o v l' : put16 l o v = Ok l' -> exists l1 a b l2, l = l1 ++ a :: b :: l2 /\ zlen l1 = o /\ l' = l1 ++ v mod 256 :: v / 256 mod 256 :: l2.
Proof.
  unfold put16. intros H. simp_res. apply aset_Ok in H as [H1 ->], H0 as [H2 ->]. rewrite zlen_insert in H2.
  destruct (lookup_lt_is_Some_2 l (Z.to_nat o)) as [a Ha]; [unfold zlen in *; lia|].
  destruct (lookup_lt_is_Some_2 l (S (Z.to_nat o))) as [b Hb]; [unfold zlen in *; lia|].
  assert (El : l = take (Z.to_nat o) l ++ a :: b :: drop (S (S (Z.to_nat o))) l).
  { rewrite <- (take_drop (Z.to_nat o) l) at 1. f_equal. rewrite (drop_S l a), (drop_S l b) by done. done. }
  exists (take (Z.to_nat o) l), a, b, (drop (S (S (Z.to_nat o))) l). split_and!; [done | unfold zlen in *; rewrite length_take; lia|].
  assert (Hlen : length (take (Z.to_nat o) l) = Z.to_nat o) by (rewrite length_take; unfold zlen in *; lia).
  rewrite El at 1. set (l1 := take _ l) in *. set (l2 := drop _ l).
  rewrite insert_app_r_alt, Hlen, Nat.sub_diag by lia. rewrite insert_app_r_alt by lia. rewrite Hlen.
  replace (Z.to_nat (o + 1) - Z.to_nat o)%nat with 1%nat by lia. done.
Qed.

Lemma put16_ok l o v : 0 <= o -> o + 2 <= zlen l -> exists l', put16 l o v = Ok l' /\ zlen l' = zlen l.
Proof.
  intros H0 H1. unfold put16. rewrite aset_in by lia. cbn [mbind res_bind]. rewrite aset_in by (rewrite zlen_insert; lia).
  eexists. split; [done|]. by rewrite !zlen_insert.
Qed.

(** A checksum computed with zero in its field and stored there makes the packet valid. *)
Lemma checksum_stored l o b c l' : put16 l o 0 = Ok b -> internet_checksum b (zlen b) = Ok c -> put16 b o c = Ok l' ->
  Z.even o = true -> Z.even (zlen l) = true -> Forall byte_ok l ->
  Forall byte_ok l' /\ rfc_valid l' /\ zlen l' = zlen l.
Proof.
  intros Hb Hc Hl' Ho He HF. destruct (put16_split _ _ _ _ Hb) as (l1 & a1 & a2 & l2 & -> & Hz & ->).
  change (0 mod 256) with 0 in *. change (0 / 256 mod 256) with 0 in *.
  destruct (put16_split _ _ _ _ Hl') as (k1 & b1 & b2 & k2 & Ek & Hk & ->).
  assert (Hlen : length k1 = length l1) by (unfold zlen in *; lia). apply app_inj_1 in Ek as [<- [= <- <- <-]]; [|done].
  apply Forall_app in HF as [F1 F2]. rewrite !Forall_cons in F2. destruct F2 as (_ & _ & F2).
  assert (HFb : Forall byte_ok (l1 ++ 0 :: 0 :: l2)) by (apply Forall_app; split; [done|]; repeat constructor; (done || lia)).
  rewrite !zlen_app, !zlen_cons in He.
  assert (He1 : Nat.even (length l1) = true).
  { unfold zlen in Hz. rewrite <- Hz in Ho. apply Nat.even_spec. apply Z.even_spec in Ho as [m Hm]. exists (Z.to_nat m). lia. }
  assert (exists k, zlen (l1 ++ 0 :: 0 :: l2) = Z.of_nat (2 * k) /\ (1 <= k)%nat /\ (2 * k)%nat = length (l1 ++ 0 :: 0 :: l2)) as (k & Ek & Hk1 & Hlk).
  { apply Z.even_spec in He as [m Hm]. pose proof (zlen_nonneg l1). pose proof (zlen_nonneg l2). exists (Z.to_nat m). rewrite zlen_app, !zlen_cons.
    rewrite length_app. cbn [length]. unfold zlen in *. lia. }
  rewrite Ek, internet_checksum_even, Hlk, take_ge, le_sum_app in Hc by (done || lia). cbn [le_sum] in Hc. injection Hc as <-. clear Hl'. set (S := le_sum l1 + (0 + 256 * 0 + le_sum l2)).
  assert (HS : 0 <= S) by (pose proof (le_sum_nonneg l1 F1); pose proof (le_sum_nonneg l2 F2); lia).
  assert (HO : 0 <= ones_sum S <= 0xffff /\ (S + (0xffff - ones_sum S)) mod 0xffff = 0 /\ (S = 0 -> ones_sum S = 0)).
  { unfold ones_sum. destruct (Z.eqb_spec S 0) as [->|]; [done|]. pose proof (Z.mod_pos_bound S 0xffff ltac:(done)) as Hb'.
    destruct (Z.eqb_spec (S mod 0xffff) 0) as [Em|]; split_and!; try lia; [replace (S + (0xffff - 0xffff)) with S by lia; done|].
    rewrite Z.add_sub_assoc, Zminus_mod, Z.mod_mod by done. rewrite <- (Z.mul_1_l 0xffff) at 1. rewrite Z.mod_add, Z.sub_diag by done. done. }
  destruct HO as (HO1 & HO2 & HO3). set (c := 0xffff - ones_sum S) in *.
  assert (Ec : c mod 256 + 256 * (c / 256 mod 256) = c) by (rewrite (Z.mod_small (c / 256)); [pose proof (Z.div_mod c 256); lia | Z.to_euclidean_division_equations; lia]).
  assert (HF' : Forall byte_ok (l1 ++ c mod 256 :: c / 256 mod 256 :: l2)).
  { apply Forall_app. split; [done|]. repeat constructor; try done; apply Z.mod_pos_bound; lia. }
  assert (Es : le_sum (l1 ++ c mod 256 :: c / 256 mod 256 :: l2) = S + c) by (rewrite le_sum_app by done; cbn [le_sum]; rewrite Ec; unfold S; lia).
  split_and!; [done | | by rewrite !zlen_app, !zlen_cons]. apply rfc_valid_le; [done | rewrite Es; lia | by rewrite Es].
Qed.
