(* ===== verification/NetSend.v ===== *)
(** * Networking: sending

    What [rtl8139_send_frame] puts on the wire ([frame]), the invariant of the driver's state
    ([net_wf]), and the path of an answer: [send_ipv4_packet] and the ICMP echo reply of
    [handle_icmp], whose header and message a receiver's checksum test accepts. *)
From S2P Require Import Prelude CString Net NetSum.

(** ** Specification *)

(** An Ethernet II frame without its CRC: addresses, EtherType in network byte order, payload
    and padding to 60 bytes. *)
Definition frame (dst src : list Z) (ethertype : Z) (payload : list Z) : list Z :=
  dst ++ src ++ [ethertype / 256; ethertype mod 256] ++ payload ++ replicate (46 - length payload) 0.

Definition desc_wf (d : txdesc) : Prop := zlen (tx_buffer d) = 2048.
Definition entry_wf (e : arpentry) : Prop := zlen (e_ip e) = 4 /\ zlen (e_mac e) = 6.
(** The descriptors from [finish_descriptor] up to [current_descriptor] are in flight; the cache
    has an entry at most once. *)
Record net_wf (s : net) : Prop := {
  wf_desc : zlen (TxDesc s) = 4 /\ Forall desc_wf (TxDesc s);
  wf_tsd : zlen (tsd s) = 4;
  wf_mac : zlen (my_mac s) = 6;
  wf_ring : 0 <= finish_descriptor s < 4 /\ 0 <= free_descriptors s <= 4 /\
    current_descriptor s = (finish_descriptor s + (4 - free_descriptors s)) mod 4;
  wf_cache : exists l, arp_cache s = Some l /\ Forall entry_wf l /\ NoDup (e_ip <$> l)
}.

(** ** Bytes *)
Lemma BSWAP16_spec x : 0 <= x < 2 ^ 16 -> BSWAP16 x = x mod 256 * 256 + x / 256.
Proof.
  intros Hx. unfold BSWAP16. change 0xff00 with (Z.shiftl (Z.ones 8) 8). change 0xff with (Z.ones 8).
  rewrite (Z.land_ones x 8), Z.shiftl_mul_pow2, Z.shiftr_land, Z.shiftr_shiftl_l, Z.shiftl_0_r, Z.land_ones, Z.shiftr_div_pow2 by lia.
  change (2 ^ 8) with 256. rewrite (Z.mod_small (x / 256)) by (Z.to_euclidean_division_equations; lia).
  rewrite <- Z.add_lor_land.
  assert (Z.land (x mod 256 * 256) (x / 256) = 0) as ->; [|lia].
  apply Z.bits_inj'. intros n Hn. rewrite Z.land_spec, Z.bits_0. change 256 with (2 ^ 8).
  destruct (decide (n < 8)).
  - rewrite <- Z.shiftl_mul_pow2, Z.shiftl_spec_low by lia. done.
  - rewrite <- (Z.mod_small (x / 2 ^ 8) (2 ^ 8)), (Z.mod_pow2_bits_high _ 8 n) by (Z.to_euclidean_division_equations; lia).
    apply andb_false_r.
Qed.
Lemma BSWAP16_bytes x : 0 <= x < 2 ^ 16 -> BSWAP16 x mod 256 = x / 256 /\ BSWAP16 x / 256 mod 256 = x mod 256.
Proof. intros Hx. rewrite BSWAP16_spec by done. split; Z.to_euclidean_division_equations; lia. Qed.
Lemma BSWAP16_involutive x : 0 <= x < 2 ^ 16 -> BSWAP16 (BSWAP16 x) = x.
Proof.
  intros Hx. assert (H : 0 <= BSWAP16 x < 2 ^ 16) by (rewrite BSWAP16_spec by done; Z.to_euclidean_division_equations; lia).
  rewrite (BSWAP16_spec (BSWAP16 x)), BSWAP16_spec by done. Z.to_euclidean_division_equations; lia.
Qed.

Lemma poke_mid pre src rest n : 0 <= n <= zlen src -> n <= zlen rest ->
  poke (pre ++ rest) (zlen pre) src n = Ok (pre ++ take (Z.to_nat n) src ++ drop (Z.to_nat n) rest).
Proof.
  intros Hn Hr. pose proof (zlen_nonneg pre). unfold poke. rewrite blit_Ok by (rewrite ?zlen_app; lia). rewrite drop_0. unfold zlen in *. do 2 f_equal.
  - rewrite Nat2Z.id. apply take_app_length.
  - f_equal. replace (Z.to_nat (Z.of_nat (length pre) + n)) with (length pre + Z.to_nat n)%nat by lia. by rewrite <- drop_drop, drop_app_length.
Qed.
Lemma poke_at o l1 src l2 n : o = zlen l1 -> 0 <= n <= zlen src -> n <= zlen l2 ->
  poke (l1 ++ l2) o src n = Ok (l1 ++ take (Z.to_nat n) src ++ drop (Z.to_nat n) l2).
Proof. intros ->. apply poke_mid. Qed.

Lemma poke_0 src l n : 0 <= n <= zlen src -> n <= zlen l -> poke l 0 src n = Ok (take (Z.to_nat n) src ++ drop (Z.to_nat n) l).
Proof. apply (poke_at 0 []). done. Qed.

Lemma put16_at o l1 a b l2 v : o = zlen l1 -> put16 (l1 ++ a :: b :: l2) o v = Ok (l1 ++ v mod 256 :: v / 256 mod 256 :: l2).
Proof.
  intros ->. unfold put16. rewrite aset_mid. cbn [mbind res_bind]. rewrite !(cons_middle _ l1), !app_assoc.
  assert (zlen l1 + 1 = zlen (l1 ++ [v mod 256])) as -> by (by rewrite zlen_snoc). apply aset_mid.
Qed.

(** A list cut at a position. *)
Lemma cut {A} (l : list A) n : 0 <= n <= zlen l -> exists l1 l2, l = l1 ++ l2 /\ zlen l1 = n.
Proof. intros H. exists (take (Z.to_nat n) l), (drop (Z.to_nat n) l). rewrite take_drop. unfold zlen in *. rewrite length_take. split; [done | lia]. Qed.

(** ** rtl8139_send_frame *)
Lemma fill_frame_spec buf dst src et payload size : zlen buf = 2048 -> zlen dst = 6 -> zlen src = 6 -> 0 <= et < 2 ^ 16 ->
  0 < size <= 1500 -> size <= zlen payload ->
  exists buf' n, fill_frame buf dst src et payload size = Ok (buf', n) /\ zlen buf' = 2048 /\ n = Z.max 60 (size + 14) /\
    take (Z.to_nat n) buf' = frame dst src et (take (Z.to_nat size) payload).
Proof.
  intros Hb Hd Hs He Hsz Hp. destruct (BSWAP16_bytes et He) as [B1 B2].
  destruct (cut buf 6) as (b1 & r1 & -> & H1); [lia|]. destruct (cut r1 6) as (b2 & r2 & -> & H2); [rewrite zlen_app in Hb; lia|].
  destruct r2 as [|x [|y r3]]; try (exfalso; autorewrite with kernel_rw in Hb; lia). autorewrite with kernel_rw in Hb.
  assert (Tz : forall l : list Z, zlen l = 6 -> take (Z.to_nat 6) l = l) by (intros l ?; apply take_ge; unfold zlen in *; lia).
  assert (Dz : forall l k : list Z, zlen l = 6 -> drop (Z.to_nat 6) (l ++ k) = k) by (intros l k ?; rewrite drop_app_length'; unfold zlen in *; [done | lia]).
  unfold fill_frame. rewrite poke_0 by (autorewrite with kernel_rw; lia). cbn [mbind res_bind].
  rewrite Tz, (Dz b1) by done.
  rewrite (poke_at 6 dst src) by (autorewrite with kernel_rw; lia). cbn [mbind res_bind]. rewrite Tz, (Dz b2) by done.
  rewrite app_assoc, put16_at by (autorewrite with kernel_rw; lia). cbn [mbind res_bind]. rewrite B1, B2.
  set (h := (dst ++ src) ++ [et / 256; et mod 256]).
  assert (Hh : zlen h = 14) by (unfold h; autorewrite with kernel_rw; lia).
  assert (((dst ++ src) ++ et / 256 :: et mod 256 :: r3) = h ++ r3) as -> by (unfold h; by rewrite <- (app_assoc (dst ++ src) [_; _])).
  rewrite poke_at by lia. cbn [mbind res_bind]. unfold u16. rewrite Z.mod_small by lia.
  change 0xfff with (Z.ones 12). rewrite Z.land_ones, Z.mod_small, Z.eqb_refl by lia. cbn [assert mbind res_bind].
  set (p := take (Z.to_nat size) payload). assert (Lp : length p = Z.to_nat size) by (unfold p; rewrite length_take; unfold zlen in *; lia).
  assert (Hf : frame dst src et p = h ++ p ++ replicate (46 - length p) 0) by (unfold frame, h; by rewrite <- !app_assoc).
  destruct (Z.ltb_spec (size + 14) 60).
  - rewrite (app_assoc h p), (poke_at (size + 14) (h ++ p)) by (unfold zlen in *; rewrite ?length_app, ?length_replicate, ?length_drop; lia).
    cbn [mbind res_bind]. rewrite (take_ge (replicate _ _)) by (rewrite length_replicate; lia).
    eexists _, _. split; [done|]. split; [unfold zlen in *; rewrite !length_app, !length_drop, length_replicate; lia|]. split; [lia|].
    rewrite app_assoc, take_app_length' by (unfold zlen in *; rewrite !length_app, length_replicate; lia).
    rewrite Hf, <- app_assoc. do 3 f_equal. lia.
  - eexists _, _. split; [done|]. split; [unfold zlen in *; rewrite !length_app, !length_drop; lia|]. split; [lia|].
    rewrite app_assoc, take_app_length' by (unfold zlen in *; rewrite !length_app; lia).
    rewrite Hf. replace (46 - length p)%nat with O by lia. cbn. by rewrite app_nil_r.
Qed.

(** The state after a frame was given to descriptor [current_descriptor s]. *)
Definition sent (s : net) (f : list Z) (s' : net) : Prop :=
  wire s' = wire s ++ [f] /\ arp_cache s' = arp_cache s /\ now s' = now s /\ my_mac s' = my_mac s /\
  finish_descriptor s' = finish_descriptor s /\ free_descriptors s' = free_descriptors s - 1.

Lemma send_frame_ok fuel env dst et payload size s : net_wf s -> 0 < free_descriptors s -> (1 <= fuel)%nat -> zlen dst = 6 ->
  0x600 <= et < 2 ^ 16 -> 0 < size <= 1500 -> size <= zlen payload ->
  exists s', rtl8139_send_frame fuel env dst et payload size s = Ok (tt, s') /\ net_wf s' /\
    sent s (frame dst (my_mac s) et (take (Z.to_nat size) payload)) s'.
Proof.
  intros [[Wd1 Wd2] Wt Wm (Wr1 & Wr2 & Wr3) Wc] Hf Hfuel Hd He Hs Hp. destruct fuel as [|fuel]; [lia|].
  unfold rtl8139_send_frame. check. rewrite (st_bind_Ok (ensure _) _ s tt s) by (apply ensure_true, andb_true_iff; split; [apply Z.ltb_lt | apply Z.leb_le]; lia).
  change (gets now ≫= ?k) with (fun s => k (now s) s). cbn beta. cbn [wait_descriptor].
  assert (Ew : (n ← gets free_descriptors; if n =? 0 then t ← gets now; if u32 (now s + 100) <? t then lift Panic else modify env;; wait_descriptor fuel env (now s) else mret tt) s = Ok (tt, s)).
  { cbn. unfold mbind, st_bind, gets. destruct (Z.eqb_spec (free_descriptors s) 0); [lia | done]. }
  run Ew. clear Ew. pose proof (Z.mod_pos_bound (finish_descriptor s + (4 - free_descriptors s)) 4 ltac:(lia)) as Hc. rewrite <- Wr3 in Hc.
  destruct (aget_is_Ok (TxDesc s) (current_descriptor s)) as (d & Hg & Hl); [lia|].
  assert (Hdw : desc_wf d) by (by eapply Forall_lookup_1 in Wd2).
  destruct (fill_frame_spec (tx_buffer d) dst (my_mac s) et payload size) as (buf & n & Hff & Hb & Hn & Ht); [(done || lia).. |].
  unfold mbind, st_bind, gets, lift, modify. rewrite Hg, Hff. cbn beta iota. rewrite aset_in by lia. cbn [set_tx tsd].
  rewrite aset_in by lia. cbn [set_tsd set_tx wire finish_descriptor free_descriptors set_wire]. rewrite Ht.
  eexists. split; [done|]. split; [|done]. constructor; cbn.
  - rewrite zlen_insert. split; [done|]. by apply Forall_insert.
  - by rewrite zlen_insert.
  - done.
  - split; [done|]. split; [lia|]. rewrite Wr3, Zplus_mod_idemp_l. f_equal. lia.
  - done.
Qed.
