(* ===== verification/NetArp.v ===== *)
(** * Networking: the ARP cache and its packets

    The list of entries refines a map from an IP address to a MAC address and the tick it was
    learnt at ([cache_map]): [arp_cache_add] is an insertion, [arp_cache_lookup] a lookup that
    deletes an entry of five minutes or more.  An ARP packet survives the trip through its 28
    bytes, and a request for our address is answered with the mapping asked for. *)
From S2P Require Import Prelude CString Net NetSum NetSend.

(** ** Specification *)
Definition cache_map (l : list arpentry) : gmap (list Z) (list Z * Z) :=
  list_to_map ((fun e => (e_ip e, (e_mac e, timestamp e))) <$> l).
Definition expired (t ts : Z) : bool := ARP_CACHE_TIME <=? u32 (u32 (t - ts) * (1000 / TIMER_HZ)).

Lemma cache_map_cons e l : cache_map (e :: l) = <[e_ip e := (e_mac e, timestamp e)]> (cache_map l).
Proof. done. Qed.
Lemma cache_map_None ip l : cache_map l !! ip = None <-> ip ∉ (e_ip <$> l).
Proof.
  unfold cache_map. rewrite <- not_elem_of_list_to_map. by rewrite <- list_fmap_compose.
Qed.

Lemma memcmp_ip a b : zlen a = 4 -> zlen b = 4 -> exists r, memcmp a b 4 = Ok r /\ (r =? 0) = bool_decide (a = b).
Proof.
  intros Ha Hb. unfold zlen in *. destruct (memcmp_zero a b 4) as (r & Hr & Hz); [lia | lia|]. exists r. split; [done|].
  rewrite !take_ge in Hz by lia. case_bool_decide as E; [apply Z.eqb_eq | apply Z.eqb_neq]; tauto.
Qed.

(** ** The loops *)
Lemma lookup_entry_spec ip t l : Forall entry_wf l -> NoDup (e_ip <$> l) -> zlen ip = 4 ->
  exists r l', lookup_entry ip t l = Ok (r, l') /\ Forall entry_wf l' /\ NoDup (e_ip <$> l') /\ (e_ip <$> l') ⊆ (e_ip <$> l) /\
    match cache_map l !! ip with
    | Some (mac, ts) => if expired t ts then r = None /\ cache_map l' = delete ip (cache_map l) else r = Some mac /\ l' = l
    | None => r = None /\ l' = l
    end.
Proof.
  intros HF HN Hip. induction l as [|e l IH]; [by exists None, []|]. apply Forall_cons in HF as [He HF]. cbn in HN. apply NoDup_cons in HN as [Hn HN].
  cbn [lookup_entry]. destruct (memcmp_ip (e_ip e) ip) as (c & -> & Hc); [apply He | done|]. cbn [mbind res_bind]. rewrite Hc.
  rewrite cache_map_cons. case_bool_decide as E.
  - subst ip. rewrite lookup_insert_eq. unfold expired. destruct (_ <=? _).
    + exists None, l. split_and!; try done; [set_solver|]. by rewrite delete_insert_eq, delete_id by (by apply cache_map_None).
    + exists (Some (e_mac e)), (e :: l). split_and!; try done; [by constructor | by apply NoDup_cons].
  - rewrite lookup_insert_ne by done. destruct IH as (r & l' & -> & F' & N' & S' & Hm); [done.. |]. exists r, (e :: l'). cbn [mbind res_bind].
    split_and!; [done | by constructor | cbn; apply NoDup_cons; split; [set_solver | done] | set_solver|].
    destruct (cache_map l !! ip) as [[mac ts]|]; [destruct (expired t ts)|]; [|naive_solver..].
    destruct Hm as [-> Hm]. split; [done|]. by rewrite cache_map_cons, Hm, delete_insert_ne.
Qed.

Lemma update_entry_spec ip mac t l : Forall entry_wf l -> NoDup (e_ip <$> l) -> zlen ip = 4 -> zlen mac = 6 ->
  exists o, update_entry ip mac t l = Ok o /\
    match o with
    | Some l' => Forall entry_wf l' /\ e_ip <$> l' = e_ip <$> l /\ cache_map l' = <[ip := (mac, t)]> (cache_map l)
    | None => ip ∉ (e_ip <$> l)
    end.
Proof.
  intros HF HN Hip Hm. induction l as [|e l IH]; [exists None; split; [done | cbn; set_solver]|].
  apply Forall_cons in HF as [He HF]. cbn in HN. apply NoDup_cons in HN as [Hn HN].
  cbn [update_entry]. destruct (memcmp_ip (e_ip e) ip) as (c & -> & Hc); [apply He | done|]. cbn [mbind res_bind]. rewrite Hc. case_bool_decide as E.
  - eexists. split; [done|]. split_and!; [constructor; [by destruct He | done] | done |]. rewrite !cache_map_cons. cbn. subst. by rewrite insert_insert_eq.
  - destruct IH as (o & -> & Ho); [done.. |]. cbn [mbind res_bind]. eexists. split; [done|]. destruct o as [l'|]; [| set_solver].
    destruct Ho as (F' & Ei & Em). split_and!; [by constructor | cbn; f_equal; exact Ei|]. cbn [option_map]. by rewrite !cache_map_cons, Em, insert_insert_ne.
Qed.

(** ** The operations *)
(** What a state without its cache has. *)
Definition same_but_cache (s s' : net) : Prop := exists l, s' = set_cache l s.

Lemma set_cache_wf l s : net_wf s -> Forall entry_wf l -> NoDup (e_ip <$> l) -> net_wf (set_cache l s).
Proof. intros [] ? ?. constructor; cbn; eauto. Qed.

Lemma cache_add_ok ip mac s l : net_wf s -> arp_cache s = Some l -> zlen ip = 4 -> zlen mac = 6 ->
  exists l', arp_cache_add ip mac s = Ok (tt, set_cache l' s) /\ net_wf (set_cache l' s) /\ cache_map l' = <[ip := (mac, now s)]> (cache_map l).
Proof.
  intros Hw Hc Hip Hm. destruct (wf_cache s Hw) as (l0 & El & HF & HN). assert (l0 = l) as -> by congruence.
  destruct (update_entry_spec ip mac (now s) l) as (o & Ho & Hp); [done..|].
  assert (Hr : arp_cache_add ip mac s = Ok (tt, set_cache (match o with Some l' => l' | None => l ++ [mk_entry ip mac (now s)] end) s)).
  { unfold arp_cache_add, mbind, st_bind, gets, lift, modify. rewrite Hc. cbn [deref]. by rewrite Ho. }
  destruct o as [l'|]; eexists; (split; [exact Hr|]).
  - destruct Hp as (F' & Ei & Em). split; [|done]. apply set_cache_wf; [done..|]. by rewrite Ei.
  - split.
    + apply set_cache_wf; [done | by apply Forall_snoc|]. rewrite fmap_app. apply NoDup_app. split_and!; [done | cbn; set_solver | cbn; apply NoDup_singleton].
    + unfold cache_map. rewrite fmap_app, list_to_map_app. cbn. apply map_eq. intros i. fold (cache_map l). destruct (decide (i = ip)) as [->|].
      * rewrite lookup_insert_eq, lookup_union_r by (by apply cache_map_None). by rewrite insert_empty, lookup_singleton_eq.
      * rewrite lookup_insert_ne by done. rewrite lookup_union_l; [done|]. rewrite insert_empty. by apply lookup_singleton_ne.
Qed.

Lemma cache_lookup_ok ip s l : net_wf s -> arp_cache s = Some l -> zlen ip = 4 ->
  exists r l', arp_cache_lookup ip s = Ok (r, set_cache l' s) /\ net_wf (set_cache l' s) /\
    match cache_map l !! ip with
    | Some (mac, ts) => if expired (now s) ts then r = None /\ cache_map l' = delete ip (cache_map l) else r = Some mac /\ l' = l
    | None => r = None /\ l' = l
    end.
Proof.
  intros Hw Hc Hip. destruct (wf_cache s Hw) as (l0 & El & HF & HN). assert (l0 = l) as -> by congruence.
  destruct (lookup_entry_spec ip (now s) l) as (r & l' & Hl & F' & N' & _ & Hm); [done..|]. exists r, l'.
  split; [|split; [by apply set_cache_wf | done]].
  unfold arp_cache_lookup, mbind, st_bind, gets, lift, modify, ensure, lift. rewrite Hc. cbn [assert deref]. by rewrite Hl.
Qed.

(** ** Packets *)
Definition arp_wf (h : arpheader) : Prop :=
  (0 <= htype h < 2 ^ 16 /\ 0 <= ptype h < 2 ^ 16 /\ 0 <= operation h < 2 ^ 16) /\
  zlen (src_mac h) = 6 /\ zlen (src_ip h) = 4 /\ zlen (dst_mac h) = 6 /\ zlen (dst_ip h) = 4.

Lemma bytes_at o n l1 m l2 : o = zlen l1 -> n = zlen m -> bytes (l1 ++ m ++ l2) o n = Ok m.
Proof.
  intros -> ->. unfold bytes. pose proof (zlen_nonneg l1). pose proof (zlen_nonneg m). pose proof (zlen_nonneg l2).
  rewrite (proj2 (Z.leb_le 0 (zlen l1))), (proj2 (Z.leb_le 0 (zlen m))), (proj2 (Z.leb_le _ _)) by (autorewrite with kernel_rw; lia). cbn [andb].
  unfold zlen. rewrite !Nat2Z.id, drop_app_length, take_app_length. done.
Qed.
Lemma get16_at o v l1 l2 : o = zlen l1 -> 0 <= v < 2 ^ 16 -> get16 (l1 ++ le16 v ++ l2) o = Ok v.
Proof.
  intros -> Hv. unfold get16, le16. cbn [app]. rewrite aget_mid. cbn [mbind res_bind]. rewrite cons_middle, app_assoc.
  assert (zlen l1 + 1 = zlen (l1 ++ [v mod 256])) as -> by (by rewrite zlen_snoc). rewrite aget_mid. cbn. f_equal. Z.to_euclidean_division_equations; lia.
Qed.
Lemma aget_at {A} o (x : A) l1 l2 : o = zlen l1 -> aget (l1 ++ x :: l2) o = Ok x.
Proof. intros ->. apply aget_mid. Qed.

Lemma load_arp_ok h rest : arp_wf h -> load_arp (arp_bytes h ++ rest) = Ok h.
Proof.
  intros ((Hh & Hp & Ho) & Hsm & Hsi & Hdm & Hdi). destruct h as [ht pt hl pl op sm si dm di]. cbn [htype ptype hlen plen operation src_mac src_ip dst_mac dst_ip] in *.
  unfold load_arp, arp_bytes. cbn [htype ptype hlen plen operation src_mac src_ip dst_mac dst_ip]. rewrite <- !app_assoc.
  set (R := rest).
  rewrite (get16_at 0 ht [] _ eq_refl Hh : get16 (le16 ht ++ _) 0 = Ok ht). cbn [mbind res_bind].
  rewrite (get16_at 2 pt (le16 ht)) by done. cbn [mbind res_bind].
  assert (forall K, le16 ht ++ le16 pt ++ [hl; pl] ++ K = (le16 ht ++ le16 pt) ++ hl :: pl :: K) as E1 by (intros; by rewrite <- !app_assoc).
  assert (forall K, (le16 ht ++ le16 pt) ++ hl :: pl :: K = (le16 ht ++ le16 pt ++ [hl]) ++ pl :: K) as E2 by (intros; by rewrite <- !app_assoc).
  assert (forall K, (le16 ht ++ le16 pt ++ [hl]) ++ pl :: K = ((le16 ht ++ le16 pt) ++ [hl; pl]) ++ K) as E3 by (intros; by rewrite <- !app_assoc).
  rewrite E1, (aget_at 4 hl) by done. cbn [mbind res_bind]. rewrite E2, (aget_at 5 pl) by done. cbn [mbind res_bind]. rewrite E3.
  set (A := (le16 ht ++ le16 pt) ++ [hl; pl]). assert (HA : zlen A = 6) by done. clearbody A.
  rewrite (get16_at 6 op A) by done. cbn [mbind res_bind]. rewrite (app_assoc A). set (B := A ++ le16 op).
  assert (HB : zlen B = 8) by (unfold B; rewrite zlen_app, HA; done). clearbody B.
  rewrite (bytes_at 8 6 B sm) by done. cbn [mbind res_bind]. rewrite (app_assoc B).
  rewrite (bytes_at 14 4 (B ++ sm) si) by (rewrite ?zlen_app; lia). cbn [mbind res_bind]. rewrite (app_assoc (B ++ sm)).
  rewrite (bytes_at 18 6 _ dm) by (rewrite ?zlen_app; lia). cbn [mbind res_bind]. rewrite (app_assoc ((B ++ sm) ++ si)).
  rewrite (bytes_at 24 4 _ di) by (rewrite ?zlen_app; lia). done.
Qed.
Lemma arp_bytes_len h : arp_wf h -> zlen (arp_bytes h) = 28.
Proof. intros (_ & ? & ? & ? & ?). unfold arp_bytes, le16. autorewrite with kernel_rw. lia. Qed.

(** The reply to a request of [h] for our address. *)
Definition arp_answer (mac : list Z) (h : arpheader) : arpheader :=
  mk_arp (htype h) (ptype h) (hlen h) (plen h) (BSWAP16 ARP_REPLY) mac (dst_ip h) (src_mac h) (src_ip h).
(** The packets the code looks at: Ethernet and IPv4, request or reply. *)
Definition arp_ours (h : arpheader) : Prop := BSWAP16 (htype h) = 1 /\ BSWAP16 (ptype h) = 0x0800.
Definition arp_expected (h : arpheader) : Prop :=
  hlen h = 6 /\ plen h = 4 /\ (BSWAP16 (operation h) = ARP_REQUEST \/ BSWAP16 (operation h) = ARP_REPLY).

Section handle.
  Context (fuel : nat) (env : net -> net) (h : arpheader) (rest : list Z) (length : Z) (s : net) (l : list arpentry).
  Context (Hw : net_wf s) (Hl : arp_cache s = Some l) (Hh : arp_wf h) (Hlen : 28 <= length).

Lemma handle_ignored : ~ arp_ours h -> arp_handle_packet fuel env (arp_bytes h ++ rest) length s = Ok (tt, s).
  Proof using Hh Hlen.
    intros Hn. unfold arp_handle_packet. check. unfold mbind at 1, st_bind at 1. rewrite load_arp_ok by done. cbn [lift].
    assert ((negb (BSWAP16 (htype h) =? 1) || negb (BSWAP16 (ptype h) =? 0x0800))%bool = true) as ->; [|done].
    unfold arp_ours in Hn. destruct (Z.eqb_spec (BSWAP16 (htype h)) 1), (Z.eqb_spec (BSWAP16 (ptype h)) 0x0800); try done. tauto.
  Qed.

Lemma handle_ours : arp_ours h -> arp_expected h -> exists l' s1,
    s1 = set_cache l' s /\ net_wf s1 /\ cache_map l' = <[src_ip h := (src_mac h, now s)]> (cache_map l) /\
    arp_handle_packet fuel env (arp_bytes h ++ rest) length s =
      if decide (BSWAP16 (operation h) = ARP_REQUEST /\ dst_ip h = ip_address) then send_arp_reply fuel env h s1 else Ok (tt, s1).
  Proof using Hw Hl Hh Hlen.
    intros [H1 H2] (Hhl & Hpl & Ho). destruct (cache_add_ok (src_ip h) (src_mac h) s l) as (l' & Ha & Hw' & Hm); [done | done | apply Hh | apply Hh|].
    exists l', (set_cache l' s). split_and!; [done | done | done|].
    unfold arp_handle_packet. check. rewrite (st_bind_Ok (lift _) _ s h s) by (by rewrite load_arp_ok).
    rewrite H1, H2. cbn [Z.eqb Pos.eqb negb orb]. check. check.
    rewrite (st_bind_Ok (ensure _) _ s tt s) by (apply ensure_true, orb_true_iff; destruct Ho as [-> | ->]; auto).
    destruct Ho as [-> | ->]; cbn [Z.eqb Pos.eqb ARP_REQUEST ARP_REPLY].
    - change (1 =? 2) with false. cbv iota. run Ha. destruct (memcmp_ip (dst_ip h) ip_address) as (c & Hc & Hz); [apply Hh | done|].
      rewrite (st_bind_Ok (lift _) _ _ c (set_cache l' s)) by (by rewrite Hc). rewrite Hz. case_bool_decide; destruct (decide _) as [[]|]; tauto || done.
    - change (2 =? 2) with true. cbv iota. rewrite Ha. destruct (decide _) as [[]|]; done.
  Qed.
End handle.

(** ** Waiting for an answer *)
(** What other tasks and the card's interrupts do between two looks at the cache: they keep the
    invariant, and the clock goes on. *)
Definition env_ok (env : net -> net) : Prop := forall s, net_wf s -> net_wf (env s) /\ now s + 1 <= now (env s).

Lemma set_cache_now l s : now (set_cache l s) = now s.
Proof. done. Qed.
Lemma wait_arp_ends env ip buf start : env_ok env -> zlen ip = 4 -> zlen buf = 6 -> start + 200 < 2 ^ 32 -> forall fuel s,
  net_wf s -> 0 <= start <= now s -> (Z.to_nat (start + 200 - now s) < fuel)%nat ->
  exists mac s', wait_arp fuel env ip buf start s = Ok (mac, s') /\ net_wf s' /\ zlen mac = 6 /\
    ((exists l ts, arp_cache s' = Some l /\ cache_map l !! ip = Some (mac, ts) /\ expired (now s') ts = false) \/ (mac = buf /\ start + 200 <= now s')).
Proof.
  intros He Hip Hb Hst fuel. induction fuel as [|fuel IH]; intros s Hw Hn Hf; [lia|]. cbn [wait_arp].
  destruct (wf_cache s Hw) as (l & El & HF & _). destruct (cache_lookup_ok ip s l) as (r & l' & Hr & Hw' & Hm); [done..|]. run Hr.
  assert (Hu : u32 (start + 200) = start + 200) by (apply u32_small; lia).
  destruct r as [mac|].
  - exists mac, (set_cache l' s). split; [done|]. destruct (cache_map l !! ip) as [[m ts]|] eqn:E; [|naive_solver].
    destruct (expired (now s) ts) eqn:Ex; [naive_solver|]. destruct Hm as [[= ->] ->]. split; [done|]. split; [|left; eauto 8].
    unfold cache_map in E. apply elem_of_list_to_map_2, list_elem_of_fmap in E as (e & [= -> -> ->] & He'). eapply Forall_forall in HF; [|done]. apply HF.
  - unfold mbind, st_bind, gets. rewrite Hu. cbn [set_cache now]. destruct (Z.ltb_spec (now s) (start + 200)).
    + cbn [modify]. destruct (He (set_cache l' s) Hw') as [Hw2 Hn2]. rewrite set_cache_now in Hn2. apply IH; [done | lia | lia].
    + exists buf, (set_cache l' s). split; [done|]. split; [done|]. split; [done|]. right. split; [done | cbn; lia].
Qed.

Lemma memcmp_mac a b : zlen a = 6 -> zlen b = 6 -> exists r, memcmp a b 6 = Ok r /\ (r =? 0) = bool_decide (a = b).
Proof.
  intros Ha Hb. unfold zlen in *. destruct (memcmp_zero a b 6) as (r & Hr & Hz); [lia | lia|]. exists r. split; [done|].
  rewrite !take_ge in Hz by lia. case_bool_decide as E; [apply Z.eqb_eq | apply Z.eqb_neq]; tauto.
Qed.

(** The request [arp_lookup] broadcasts. *)
Definition arp_question (mac ip : list Z) : arpheader :=
  mk_arp (BSWAP16 1) (BSWAP16 0x0800) 6 4 (BSWAP16 ARP_REQUEST) mac ip_address (replicate 6 0) ip.

Lemma lookup_hit fuel env ip s l mac ts : net_wf s -> arp_cache s = Some l -> zlen ip = 4 -> cache_map l !! ip = Some (mac, ts) ->
  expired (now s) ts = false -> arp_lookup fuel env ip s = Ok (Some mac, s).
Proof.
  intros Hw Hl Hip Hm He. destruct (cache_lookup_ok ip s l) as (r & l' & Hr & _ & Hres); [done..|]. rewrite Hm, He in Hres. destruct Hres as [-> ->].
  unfold arp_lookup. run Hr. cbn. destruct s; cbn in *; subst; done.
Qed.

Lemma lookup_miss fuel env ip s l : net_wf s -> env_ok env -> arp_cache s = Some l -> zlen ip = 4 ->
  match cache_map l !! ip with Some (_, ts) => expired (now s) ts = true | None => True end ->
  0 < free_descriptors s -> 0 <= now s -> now s + 200 < 2 ^ 32 -> (201 <= fuel)%nat ->
  exists r s', arp_lookup fuel env ip s = Ok (r, s') /\ net_wf s' /\
    match r with
    | Some mac => exists l ts, arp_cache s' = Some l /\ cache_map l !! ip = Some (mac, ts) /\ expired (now s') ts = false
    | None => now s + 200 <= now s' \/ exists l ts, arp_cache s' = Some l /\ cache_map l !! ip = Some (replicate 6 0xff, ts)
    end.
Proof.
  intros Hw He Hl Hip Hm Hfree Hn Hn2 Hfuel. destruct (cache_lookup_ok ip s l) as (r & l1 & Hr & Hw1 & Hres); [done..|].
  assert (r = None) as ->.
  { destruct (cache_map l !! ip) as [[m ts]|]; [rewrite Hm in Hres|]; naive_solver. }
  unfold arp_lookup. run Hr. set (s1 := set_cache l1 s) in *. change (gets my_mac ≫= ?k) with (fun s => k (my_mac s) s). cbn beta.
  fold (arp_question (my_mac s1) ip).
  assert (Hq : zlen (arp_bytes (arp_question (my_mac s1) ip)) = 28) by (apply arp_bytes_len; repeat split; (done || apply (wf_mac _ Hw1))).
  destruct (send_frame_ok fuel env (replicate 6 0xff) ETHERTYPE_ARP (arp_bytes (arp_question (my_mac s1) ip)) 28 s1) as (s2 & Hs2 & Hw2 & Hsent); [done | done | lia | done | done | lia | lia|].
  run Hs2. change (gets now ≫= ?k) with (fun s => k (now s) s). cbn beta. destruct Hsent as (_ & _ & Hnow & _).
  assert (En : now s2 = now s) by done.
  destruct (wait_arp_ends env ip (replicate 6 0xff) (now s2) He Hip ltac:(done) ltac:(lia) fuel s2 Hw2 ltac:(lia) ltac:(lia)) as (mac & s' & Hwait & Hw' & Hmac & Hend).
  run Hwait. destruct (memcmp_mac mac (replicate 6 0xff)) as (c & Hc & Hz); [done..|].
  rewrite (st_bind_Ok (lift _) _ s' c s') by (by rewrite Hc). rewrite Hz. case_bool_decide as Eb.
  - exists None, s'. split; [done|]. split; [done|]. destruct Hend as [(l' & ts & H1 & H2 & _) | [_ ?]]; [right; exists l', ts; by rewrite <- Eb | left; lia].
  - exists (Some mac), s'. split; [done|]. split; [done|]. destruct Hend as [|[? _]]; done.
Qed.

(** ** Theorems *)

(** The ARP cache is a map from addresses to MACs with the tick each was learnt at.
    [arp_cache_add] inserts the mapping, whether or not the address was there, and
    [arp_cache_lookup] returns the mapping unless it is five minutes old or more, in which case
    it deletes it; neither changes anything else, and an address never has two entries. *)
Theorem arp_cache_refines ip mac s l : net_wf s -> arp_cache s = Some l -> zlen ip = 4 -> zlen mac = 6 ->
  (exists l', arp_cache_add ip mac s = Ok (tt, set_cache l' s) /\ net_wf (set_cache l' s) /\ cache_map l' = <[ip := (mac, now s)]> (cache_map l)) /\
  (exists r l', arp_cache_lookup ip s = Ok (r, set_cache l' s) /\ net_wf (set_cache l' s) /\
    match cache_map l !! ip with
    | Some (m, ts) => if expired (now s) ts then r = None /\ cache_map l' = delete ip (cache_map l) else r = Some m /\ cache_map l' = cache_map l
    | None => r = None /\ cache_map l' = cache_map l
    end).
Proof.
  intros. split; [by apply cache_add_ok|]. destruct (cache_lookup_ok ip s l) as (r & l' & Hr & Hw & Hm); [done.. |].
  exists r, l'. split; [done|]. split; [done|]. destruct (cache_map l !! ip) as [[m ts]|]; [destruct (expired _ _)|]; naive_solver.
Qed.

(** A well-formed ARP packet given to [arp_handle_packet]: one for another kind of network or
    protocol changes nothing; otherwise the sender's mapping is in the cache afterwards, and a
    request for our address (and nothing else) is answered with one frame to the sender, which
    carries our MAC for the address asked for. *)
Theorem arp_handle_correct fuel env h rest length s l : net_wf s -> arp_cache s = Some l -> arp_wf h -> 28 <= length ->
  0 < free_descriptors s -> (1 <= fuel)%nat -> (arp_ours h -> arp_expected h) ->
  exists s', arp_handle_packet fuel env (arp_bytes h ++ rest) length s = Ok (tt, s') /\ net_wf s' /\
    (arp_ours h -> exists l', arp_cache s' = Some l' /\ cache_map l' = <[src_ip h := (src_mac h, now s)]> (cache_map l)) /\
    (~ arp_ours h -> s' = s) /\
    wire s' = wire s ++ if decide (arp_ours h /\ BSWAP16 (operation h) = ARP_REQUEST /\ dst_ip h = ip_address)
                        then [frame (src_mac h) (my_mac s) ETHERTYPE_ARP (arp_bytes (arp_answer (my_mac s) h))] else [].
Proof.
  intros Hw Hl Hh Hlen Hf Hfu He. assert (arp_ours h \/ ~ arp_ours h) as [Ho|Ho] by (unfold arp_ours; destruct (decide (BSWAP16 (htype h) = 1)), (decide (BSWAP16 (ptype h) = 0x0800)); tauto).
  - destruct (handle_ours fuel env h rest length s l) as (l' & s1 & Es1 & Hw1 & Hm & ->); [by auto.. |]. destruct (decide _) as [[H1 H2]|Hn].
    + assert (Hq : zlen (arp_bytes (arp_answer (my_mac s1) h)) = 28) by (apply arp_bytes_len; unfold arp_wf in *; cbn; split_and!; (tauto || done || lia || apply (wf_mac _ Hw1))).
      destruct (send_frame_ok fuel env (src_mac h) ETHERTYPE_ARP (arp_bytes (arp_answer (my_mac s1) h)) 28 s1) as (s' & Hs' & Hw' & Hw2 & Hc & _); [done | by subst | done | apply Hh | done | done | lia|].
      exists s'. split; [exact Hs'|]. split; [done|]. split; [intros _; exists l'; rewrite Hc; by subst|]. split; [done|].
      rewrite Hw2, decide_True by done. rewrite take_ge by (unfold zlen in Hq; lia). by subst.
    + exists s1. split; [done|]. split; [done|]. split; [intros _; exists l'; by subst|]. split; [done|]. rewrite decide_False by tauto. rewrite app_nil_r. by subst.
  - exists s. rewrite handle_ignored by done. rewrite decide_False by tauto. by rewrite app_nil_r.
Qed.

(** C40: [arp_lookup] always comes back: it answers from the cache, or broadcasts a request and
    waits for at most 200 ticks, provided only that the clock advances while it waits.  A MAC it
    returns is a fresh mapping of the cache; it fails only when the two seconds are over or the
    host claims the broadcast address. *)
Theorem arp_lookup_terminates fuel env ip s : net_wf s -> env_ok env -> zlen ip = 4 -> 0 < free_descriptors s ->
  0 <= now s -> now s + 200 < 2 ^ 32 -> (201 <= fuel)%nat ->
  exists r s', arp_lookup fuel env ip s = Ok (r, s') /\ net_wf s' /\
    match r with
    | Some mac => exists l ts, arp_cache s' = Some l /\ cache_map l !! ip = Some (mac, ts) /\ expired (now s') ts = false
    | None => now s + 200 <= now s' \/ exists l ts, arp_cache s' = Some l /\ cache_map l !! ip = Some (replicate 6 0xff, ts)
    end.
Proof.
  intros Hw He Hip Hf Hn Hn2 Hfu. destruct (wf_cache s Hw) as (l & Hl & _). destruct (cache_map l !! ip) as [[mac ts]|] eqn:E; [destruct (expired (now s) ts) eqn:Ex|].
  - eapply lookup_miss; try done. by rewrite E.
  - exists (Some mac), s. split; [by eapply lookup_hit|]. split; [done|]. by exists l, ts.
  - eapply lookup_miss; try done. by rewrite E.
Qed.

(** An ARP packet is 28 bytes, and reading them gives it back. *)
Theorem arp_bytes_roundtrip h rest : arp_wf h -> load_arp (arp_bytes h ++ rest) = Ok h /\ zlen (arp_bytes h) = 28.
Proof. intros Hh. split; [by apply load_arp_ok | by apply arp_bytes_len]. Qed.

(** ** Witnesses *)
Definition demo_arp_net (cache : list arpentry) : net :=
  mk_net (Some cache) 200 [2; 0; 0; 0; 0; 2] (replicate 4 (mk_tx (replicate 2048 0) 0)) 0 0 4 (replicate 4 0) [].
Lemma demo_arp_wf e : entry_wf e -> net_wf (demo_arp_net [e]).
Proof.
  constructor; cbn; [|done | done | done|].
  - split; [done|]. repeat constructor.
  - eexists. split; [done|]. split; [by apply Forall_singleton | apply NoDup_singleton].
Qed.
Definition demo_old : arpentry := mk_entry gateway [2; 0; 0; 0; 0; 1] 100.

Lemma arp_cache_witness : exists r l', arp_cache_lookup gateway (demo_arp_net [demo_old]) = Ok (r, set_cache l' (demo_arp_net [demo_old])).
Proof.
  destruct (arp_cache_refines gateway [9; 9; 9; 9; 9; 9] (demo_arp_net [demo_old]) [demo_old]) as [_ (r & l' & H & _)]; [by apply demo_arp_wf | done.. |].
  by exists r, l'.
Defined.
Definition demo_request : arpheader := mk_arp (BSWAP16 1) (BSWAP16 0x0800) 6 4 (BSWAP16 ARP_REQUEST) [2; 0; 0; 0; 0; 7] [192; 168; 10; 7] (replicate 6 0) ip_address.
Lemma arp_handle_witness : exists s', arp_handle_packet 1 id (arp_bytes demo_request ++ replicate 18 0) 46 (demo_arp_net [demo_old]) = Ok (tt, s') /\ zlen (wire s') = 1.
Proof.
  destruct (arp_handle_correct 1 id demo_request (replicate 18 0) 46 (demo_arp_net [demo_old]) [demo_old]) as (s' & H & _ & _ & _ & Hw);
    [by apply demo_arp_wf | done | done | done | done | lia | intros _; split_and!; [done | done | by left] |].
  exists s'. split; [done|]. rewrite Hw. done.
Defined.
(** A neighbour that does not answer: only the clock moves. *)
Definition tick (s : net) : net := mk_net (arp_cache s) (now s + 1) (my_mac s) (TxDesc s) (current_descriptor s) (finish_descriptor s) (free_descriptors s) (tsd s) (wire s).
Lemma arp_lookup_witness : exists r s', arp_lookup 201 tick [192; 168; 10; 9] (demo_arp_net [demo_old]) = Ok (r, s') /\ net_wf s'.
Proof.
  destruct (arp_lookup_terminates 201 tick [192; 168; 10; 9] (demo_arp_net [demo_old])) as (r & s' & H & Hw & _);
    [by apply demo_arp_wf | | done | done | done | done | lia | exists r, s'; exact (conj H Hw)].
  intros s [H1 H2 H3 H4 H5]. split; [by constructor | cbn; lia].
Defined.
