(* ===== verification/NetIcmp.v ===== *)
(** * Networking: IPv4 and the ICMP echo reply

    The answer to an echo request, end to end: what [handle_icmp] puts on the wire is a frame to
    the next hop with an IPv4 header and an ICMP message that pass a receiver's checksum test
    and carry the identifier, sequence number and data of the request. *)
From S2P Require Import Prelude CString Net NetSum NetSend NetArp.

(** ** The IPv4 header *)
(** The header of a packet to [dst] whose flags and fragment offset are [f1 f2] and whose
    checksum bytes are [c1 c2]. *)
Definition ipv4_bytes (f1 f2 c1 c2 : Z) (dst : list Z) (protocol size : Z) : list Z :=
  [0x45; 0; (20 + size) / 256; (20 + size) mod 256; 0; 0; f1; f2; 64; protocol; c1; c2] ++ ip_address ++ dst.

Lemma four (l : list Z) : zlen l = 4 -> exists a b c d, l = [a; b; c; d].
Proof. intros H. destruct l as [|a [|b [|c [|d [|e l]]]]]; try (exfalso; unfold zlen in H; cbn in H; lia). by exists a, b, c, d. Qed.

(** Arrays with a known first part. *)
Lemma aset_app_l {A} (l k l' : list A) i x : aset l i x = Ok l' -> aset (l ++ k) i x = Ok (l' ++ k).
Proof.
  rewrite !aset_Ok. intros [Hi ->]. rewrite zlen_app. pose proof (zlen_nonneg k). split; [lia|]. rewrite insert_app_l; [done | unfold zlen in Hi; lia].
Qed.
Lemma put16_app_l l k l' o v : put16 l o v = Ok l' -> put16 (l ++ k) o v = Ok (l' ++ k).
Proof.
  unfold put16. intros H. simp_res. rewrite (aset_app_l _ _ _ _ _ H). cbn [mbind res_bind]. by apply aset_app_l.
Qed.
Lemma poke_app_l l k l' o src n : poke l o src n = Ok l' -> poke (l ++ k) o src n = Ok (l' ++ k).
Proof.
  unfold poke, blit. case_match eqn:E; [|done]. intros [= <-]. bool_to_prop. pose proof (zlen_nonneg k).
  rewrite zlen_app. rewrite !(proj2 (Z.leb_le _ _)) by lia. cbn [andb]. f_equal. unfold zlen in *.
  rewrite take_app_le, drop_app_le by lia. by rewrite <- !app_assoc.
Qed.

Lemma even20 : Z.of_nat (2 * 10) = 20.
Proof. done. Qed.
Lemma checksum_app l k : zlen l = 20 -> Forall byte_ok l -> Forall byte_ok k -> internet_checksum (l ++ k) 20 = internet_checksum l 20.
Proof.
  intros Hl H1 H2. rewrite <- even20. rewrite !internet_checksum_even by (rewrite ?length_app; unfold zlen in Hl; try apply Forall_app; (done || lia)).
  do 4 f_equal. rewrite take_app_le by (unfold zlen in Hl; lia). done.
Qed.

(** The header's fields before the checksum. *)
Lemma ipv4_fields h rest dst protocol size : zlen h = 20 -> zlen dst = 4 -> 0 <= size <= 1480 ->
  let h0 := ipv4_bytes (h !!! 6%nat) (h !!! 7%nat) 0 0 dst protocol size in
  ipv4_header (h ++ rest) dst protocol size = c ← internet_checksum (h0 ++ rest) 20; put16 (h0 ++ rest) 10 c.
Proof.
  intros Hh Hd Hs. assert (Hu : u16 (20 + size) = 20 + size) by (unfold u16; apply Z.mod_small; lia).
  destruct (BSWAP16_bytes (20 + size)) as [B1 B2]; [lia|].
  destruct (four dst Hd) as (d1 & d2 & d3 & d4 & ->). apply (f_equal Z.to_nat) in Hh. unfold zlen in Hh. rewrite Nat2Z.id in Hh.
  do 20 (destruct h as [|? h]; [done|]). destruct h; [|done]. cbv zeta. unfold ipv4_header. rewrite Hu. clear Hu.
  cbn [lookup_total list_lookup_total]. unfold ipv4_bytes. revert B1 B2.
  generalize (BSWAP16 (20 + size)) ((20 + size) / 256) ((20 + size) mod 256). intros v q1 q2 B1 B2. clear Hs Hd.
  change (?a ++ ip_address ++ [d1; d2; d3; d4]) with [0x45; 0; q1; q2; 0; 0; z5; z6; 64; protocol; 0; 0; 192; 168; 10; 10; d1; d2; d3; d4].
  rewrite (aset_app_l _ _ [0x45; z0; z1; z2; z3; z4; z5; z6; z7; z8; z9; z10; z11; z12; z13; z14; z15; z16; z17; z18]) by done. rewrite bind_ok.
  rewrite (aset_app_l _ _ [0x45; 0; z1; z2; z3; z4; z5; z6; z7; z8; z9; z10; z11; z12; z13; z14; z15; z16; z17; z18]) by done. rewrite bind_ok.
  rewrite (put16_app_l _ _ [0x45; 0; q1; q2; z3; z4; z5; z6; z7; z8; z9; z10; z11; z12; z13; z14; z15; z16; z17; z18]) by (by rewrite <- B1, <- B2). rewrite bind_ok.
  rewrite (put16_app_l _ _ [0x45; 0; q1; q2; 0; 0; z5; z6; z7; z8; z9; z10; z11; z12; z13; z14; z15; z16; z17; z18]) by done. rewrite bind_ok.
  rewrite (aset_app_l _ _ [0x45; 0; q1; q2; 0; 0; z5; z6; 64; z8; z9; z10; z11; z12; z13; z14; z15; z16; z17; z18]) by done. rewrite bind_ok.
  rewrite (aset_app_l _ _ [0x45; 0; q1; q2; 0; 0; z5; z6; 64; protocol; z9; z10; z11; z12; z13; z14; z15; z16; z17; z18]) by done. rewrite bind_ok.
  rewrite (poke_app_l _ _ [0x45; 0; q1; q2; 0; 0; z5; z6; 64; protocol; z9; z10; 192; 168; 10; 10; z15; z16; z17; z18]) by done. rewrite bind_ok.
  rewrite (poke_app_l _ _ [0x45; 0; q1; q2; 0; 0; z5; z6; 64; protocol; z9; z10; 192; 168; 10; 10; d1; d2; d3; d4]) by done. rewrite bind_ok.
  rewrite (put16_app_l _ _ [0x45; 0; q1; q2; 0; 0; z5; z6; 64; protocol; 0; 0; 192; 168; 10; 10; d1; d2; d3; d4]) by done. rewrite bind_ok. reflexivity.
Qed.

Lemma ipv4_bytes_ok f1 f2 c1 c2 dst protocol size : byte_ok f1 -> byte_ok f2 -> byte_ok c1 -> byte_ok c2 -> zlen dst = 4 -> Forall byte_ok dst ->
  byte_ok protocol -> 0 <= size <= 1480 -> Forall byte_ok (ipv4_bytes f1 f2 c1 c2 dst protocol size) /\ zlen (ipv4_bytes f1 f2 c1 c2 dst protocol size) = 20.
Proof.
  intros. split; [|unfold ipv4_bytes; autorewrite with kernel_rw; unfold zlen in *; cbn; lia]. unfold ipv4_bytes, ip_address.
  repeat (constructor; [unfold byte_ok in *; solve [done | lia | Z.to_euclidean_division_equations; lia]|]). done.
Qed.

Lemma ipv4_header_spec h rest dst protocol size : zlen h = 20 -> Forall byte_ok h -> Forall byte_ok rest -> zlen dst = 4 -> Forall byte_ok dst ->
  byte_ok protocol -> 0 <= size <= 1480 ->
  exists c1 c2, let hdr := ipv4_bytes (h !!! 6%nat) (h !!! 7%nat) c1 c2 dst protocol size in
    ipv4_header (h ++ rest) dst protocol size = Ok (hdr ++ rest) /\ rfc_valid hdr /\ Forall byte_ok hdr /\ zlen hdr = 20.
Proof.
  intros Hh Hb Hr Hd Hdb Hp Hs. rewrite ipv4_fields by done.
  assert (H67 : byte_ok (h !!! 6%nat) /\ byte_ok (h !!! 7%nat)).
  { split; (eapply Forall_lookup_1; [exact Hb|]); apply list_lookup_lookup_total_lt; unfold zlen in Hh; lia. }
  set (f1 := h !!! 6%nat) in *. set (f2 := h !!! 7%nat) in *. destruct H67 as [F1 F2].
  destruct (ipv4_bytes_ok f1 f2 0 0 dst protocol size) as [Bh Lh]; [done.. |].
  destruct (four dst Hd) as (d1 & d2 & d3 & d4 & ->). set (h0 := ipv4_bytes f1 f2 0 0 _ protocol size) in *. set (c := 0xffff - ones_sum (le_sum h0)).
  assert (P0 : put16 h0 10 0 = Ok h0) by reflexivity.
  assert (P1 : put16 h0 10 c = Ok (ipv4_bytes f1 f2 (c mod 256) (c / 256 mod 256) [d1; d2; d3; d4] protocol size)) by reflexivity.
  assert (C0 : internet_checksum h0 (zlen h0) = Ok c).
  { rewrite Lh, <- even20, internet_checksum_even; [|lia | unfold zlen in Lh; lia | done]. rewrite take_ge by (unfold zlen in Lh; lia). done. }
  destruct (checksum_stored h0 10 h0 _ _ P0 C0 P1) as (Fh & Rh & Lh'); [done | by rewrite Lh | done|].
  exists (c mod 256), (c / 256 mod 256). split; [|by rewrite Lh' ]. rewrite checksum_app, <- Lh, C0 by done. by apply put16_app_l.
Qed.

(** ** send_ipv4_packet *)
Definition next_hop (dst : list Z) : list Z := if bool_decide (mask_ip dst = mask_ip ip_address) then dst else gateway.

Lemma same_subnet_ok ip : zlen ip = 4 -> same_subnet ip ip_address = Ok (bool_decide (mask_ip ip = mask_ip ip_address)).
Proof.
  intros H. unfold same_subnet. assert (bytes ip 0 4 = Ok ip) as -> by (rewrite <- (app_nil_r ip) at 1; by apply (bytes_at 0 4 [] ip [])). cbn [mbind res_bind].
  change (bytes ip_address 0 4) with (Ok ip_address). cbn [mbind res_bind].
  destruct (memcmp_ip (mask_ip ip) (mask_ip ip_address)) as (r & -> & Hr); [|done|cbn; by rewrite Hr].
  unfold mask_ip, zlen in *. rewrite length_zip_with. change (length netmask) with 4%nat. lia.
Qed.

(** The cache knows the next hop. *)
Definition resolved (s : net) (ip mac : list Z) : Prop :=
  exists l ts, arp_cache s = Some l /\ cache_map l !! ip = Some (mac, ts) /\ expired (now s) ts = false.

Lemma send_ipv4_ok fuel env stack dst protocol payload size s mac : net_wf s -> 0 < free_descriptors s -> (1 <= fuel)%nat ->
  zlen stack = 1500 -> Forall byte_ok stack -> zlen dst = 4 -> Forall byte_ok dst -> byte_ok protocol -> 0 <= size <= 1480 -> size <= zlen payload ->
  resolved s (next_hop dst) mac -> zlen mac = 6 ->
  exists hdr f1 f2 c1 c2 s', send_ipv4_packet fuel env stack dst protocol payload size s = Ok (tt, s') /\ net_wf s' /\
    hdr = ipv4_bytes f1 f2 c1 c2 dst protocol size /\ rfc_valid hdr /\ zlen hdr = 20 /\
    sent s (frame mac (my_mac s) ETHERTYPE_IPV4 (hdr ++ take (Z.to_nat size) payload)) s'.
Proof.
  intros Hw Hf Hfu Hst Hstb Hd Hdb Hp Hs Hpl (l & ts & Hl & Hm & Hx) Hmac. destruct (cut stack 20) as (h & rest & -> & Hh); [lia|].
  apply Forall_app in Hstb as [Hhb Hrb]. rewrite zlen_app in Hst.
  destruct (ipv4_header_spec h rest dst protocol size) as (c1 & c2 & He & Hv & Hhok & Hhl); [done.. |].
  set (hdr := ipv4_bytes (h !!! 6%nat) (h !!! 7%nat) c1 c2 dst protocol size) in *.
  set (b := hdr ++ take (Z.to_nat size) payload ++ drop (Z.to_nat size) rest).
  assert (Hb : 20 + size <= zlen b) by (unfold b, zlen in *; rewrite !length_app, length_take, length_drop; lia).
  destruct (send_frame_ok fuel env mac ETHERTYPE_IPV4 b (20 + size) s) as (s' & Hs' & Hw' & Hsent); [(done || lia).. |].
  exists hdr, (h !!! 6%nat), (h !!! 7%nat), c1, c2, s'. split; [|split; [done|]].
  - unfold send_ipv4_packet. check. rewrite (st_bind_Ok (lift _) _ s (hdr ++ rest) s) by (by rewrite He).
    rewrite (st_bind_Ok (lift _) _ s b s) by (rewrite (poke_at 20 hdr payload rest) by lia; done).
    rewrite (st_bind_Ok (lift _) _ s _ s) by (by rewrite same_subnet_ok).
    change (if bool_decide (mask_ip dst = mask_ip ip_address) then dst else gateway) with (next_hop dst).
    erewrite (st_bind_Ok (arp_lookup _ _ _)); [|eapply lookup_hit; [done | done | unfold next_hop; by case_bool_decide | done | done]]. done.
  - split_and!; try done. replace (take (Z.to_nat (20 + size)) b) with (hdr ++ take (Z.to_nat size) payload) in Hsent; [done|].
    unfold b. rewrite app_assoc, take_app_length'; [done|]. unfold zlen in *. rewrite length_app, length_take. lia.
Qed.

(** ** handle_icmp *)
(** The message of an answer: type 0, the checksum bytes [c1 c2], the rest as in the request. *)
Definition echo_bytes (code c1 c2 : Z) (rest : list Z) : list Z := 0 :: code :: c1 :: c2 :: rest.

Lemma echo_reply_spec code k1 k2 rest tail n : Forall byte_ok (code :: rest) -> Forall byte_ok tail -> n = 4 + zlen rest -> Z.even n = true ->
  exists c1 c2, echo_reply (8 :: code :: k1 :: k2 :: rest ++ tail) n = Ok (echo_bytes code c1 c2 rest ++ tail) /\
    rfc_valid (echo_bytes code c1 c2 rest) /\ Forall byte_ok (echo_bytes code c1 c2 rest).
Proof.
  intros Hb Ht Hn He. set (b := echo_bytes code 0 0 rest).
  assert (Fb : Forall byte_ok b) by (apply Forall_cons in Hb as [? ?]; repeat (constructor; [done|]); done).
  assert (Lb : zlen b = n) by (unfold b, echo_bytes; rewrite !zlen_cons; lia).
  set (c := 0xffff - ones_sum (le_sum b)).
  assert (exists k, Z.of_nat (2 * k) = n /\ (1 <= k)%nat) as (k & Hk & Hk1).
  { apply Z.even_spec in He as [m Hm]. pose proof (zlen_nonneg rest). exists (Z.to_nat m). lia. }
  assert (Cb : internet_checksum (b ++ tail) n = Ok c /\ internet_checksum b (zlen b) = Ok c).
  { rewrite Lb, <- Hk. unfold zlen in Lb. rewrite !internet_checksum_even by (rewrite ?length_app; try apply Forall_app; (done || lia)).
    rewrite take_app_le, !take_ge by lia. done. }
  destruct Cb as [C1 C2].
  assert (P0 : put16 b 2 0 = Ok b) by (apply (put16_at 2 [0; code] 0 0 rest 0); done).
  assert (P1 : forall k, put16 (b ++ k) 2 c = Ok (echo_bytes code (c mod 256) (c / 256 mod 256) rest ++ k)) by (intros k'; apply (put16_at 2 [0; code]); done).
  assert (P2 := P1 []). rewrite !app_nil_r in P2.
  destruct (checksum_stored b 2 b c _ P0 C2 P2) as (F1 & R1 & _); [done | by rewrite Lb | done|].
  exists (c mod 256), (c / 256 mod 256). split; [|done]. unfold echo_reply.
  change (8 :: code :: k1 :: k2 :: rest ++ tail) with ([8; code; k1; k2] ++ (rest ++ tail)).
  rewrite (aset_app_l _ _ [0; code; k1; k2]) by done. rewrite bind_ok.
  rewrite (put16_app_l _ _ [0; code; 0; 0]) by done. rewrite bind_ok. change ([0; code; 0; 0] ++ rest ++ tail) with (b ++ tail).
  rewrite C1, bind_ok. apply P1.
Qed.

Lemma land_f x : 0 <= x -> Z.land x 0xf = x mod 16.
Proof. intros. change 0xf with (Z.ones 4). by rewrite Z.land_ones. Qed.

(** C14: The answer to an echo request.  A packet of even length whose IPv4 header has no options
    and whose next hop is in the ARP cache makes [handle_icmp] send exactly one frame, to that
    hop: an IPv4 header from our address to the sender with the right length and protocol, and an
    echo reply with the code, identifier, sequence number and data of the request.  Header and
    message both pass the one's complement test of RFC 1071, and the driver's state stays
    well-formed. *)
Theorem icmp_echo_correct fuel env stack1 stack2 iphdr src code k1 k2 rest tail length s mac :
  net_wf s -> 0 < free_descriptors s -> (1 <= fuel)%nat ->
  zlen stack1 = 1500 -> zlen stack2 = 1500 -> Forall byte_ok stack1 -> Forall byte_ok stack2 ->
  zlen iphdr = 20 -> (exists b0, head iphdr = Some b0 /\ 0 <= b0 /\ b0 mod 16 = 5) -> bytes iphdr 12 4 = Ok src -> zlen src = 4 -> Forall byte_ok src ->
  Forall byte_ok (code :: k1 :: k2 :: rest) -> length = 24 + zlen rest -> length <= 1500 -> Z.even length = true ->
  resolved s (next_hop src) mac -> zlen mac = 6 ->
  exists hdr msg f1 f2 c1 c2 m1 m2 s',
    handle_icmp fuel env stack1 stack2 (iphdr ++ 8 :: code :: k1 :: k2 :: rest ++ tail) length s = Ok (tt, s') /\ net_wf s' /\
    hdr = ipv4_bytes f1 f2 c1 c2 src IPV4_PROTO_ICMP (length - 20) /\ rfc_valid hdr /\
    msg = echo_bytes code m1 m2 rest /\ rfc_valid msg /\
    sent s (frame mac (my_mac s) ETHERTYPE_IPV4 (hdr ++ msg)) s'.
Proof.
  intros Hw Hf Hfu L1 L2 B1 B2 Lh (b0 & Eb & Hb0 & Hm) Hsrc Lsrc Bsrc Bd Hlen Hle He Hres Hmac.
  pose proof (zlen_nonneg rest) as Hrest. pose proof (zlen_nonneg tail).
  destruct iphdr as [|b0' ih]; [done|]. injection Eb as ->. rewrite zlen_cons in Lh.
  assert (Hu : u32 (length - 20) = length - 20) by (apply u32_small; lia).
  assert (Hu16 : u16 (length - 20) = length - 20) by (unfold u16; apply Z.mod_small; lia).
  set (d := 8 :: code :: k1 :: k2 :: rest ++ tail).
  assert (Hblit : blit stack1 0 ((b0 :: ih) ++ d) 20 (length - 20) = Ok ((8 :: code :: k1 :: k2 :: rest ++ drop (Z.to_nat (length - 20)) stack1))).
  { rewrite blit_Ok by (unfold d; autorewrite with kernel_rw; lia). rewrite Z.add_0_l. f_equal. change (Z.to_nat 0) with O. rewrite take_0, app_nil_l.
    rewrite drop_app_length' by (cbn; unfold zlen in *; lia). unfold d.
    assert (Ed : 8 :: code :: k1 :: k2 :: rest ++ tail = (8 :: code :: k1 :: k2 :: rest) ++ tail) by done. rewrite Ed.
    rewrite take_app_length' by (cbn; unfold zlen in *; lia). done. }
  destruct (echo_reply_spec code k1 k2 rest (drop (Z.to_nat (length - 20)) stack1) (length - 20)) as (m1 & m2 & Hecho & Hv & Hbm);
    [by apply Forall_cons in Bd as [? [? [? ?]%Forall_cons]%Forall_cons]; constructor | by apply Forall_drop | lia | by rewrite Z.even_sub, He|].
  set (msg := echo_bytes code m1 m2 rest) in *. assert (Lm : zlen msg = length - 20) by (unfold msg, echo_bytes; rewrite !zlen_cons; lia).
  destruct (send_ipv4_ok fuel env stack2 src IPV4_PROTO_ICMP (msg ++ drop (Z.to_nat (length - 20)) stack1) (length - 20) s mac)
    as (hdr & f1 & f2 & c1 & c2 & s' & Hs' & Hw' & Eh & Hvh & _ & Hsent); [(done || rewrite ?zlen_app; pose proof (zlen_nonneg (drop (Z.to_nat (length - 20)) stack1)); lia).. |].
  rewrite take_app_length' in Hsent by (unfold zlen in Lm; lia).
  exists hdr, msg, f1, f2, c1, c2, m1, m2, s'. split; [|done]. unfold handle_icmp.
  rewrite (st_bind_Ok (lift _) _ s b0 s) by done. rewrite land_f, Hm by done.
  assert (Ht : aget ((b0 :: ih) ++ d) (20 + (5 - 5) * 4) = Ok 8) by (apply (aget_at _ 8 (b0 :: ih)); rewrite zlen_cons; lia).
  rewrite (st_bind_Ok (lift _) _ s 8 s) by (by rewrite Ht). rewrite Hu. cbv zeta. change (8 =? ICMP_ECHO_REQUEST) with true. cbv iota.
  change (20 + (5 - 5) * 4) with 20. erewrite (st_bind_Ok (lift _)) by (rewrite Hblit; reflexivity).
  erewrite (st_bind_Ok (lift _)) by (rewrite Hecho; reflexivity).
  assert (Hs0 : bytes ((b0 :: ih) ++ d) 12 4 = Ok src).
  { clear - Hsrc. unfold bytes in *. case_match eqn:E; [|done]. bool_to_prop. injection Hsrc as <-. rewrite zlen_app. pose proof (zlen_nonneg d).
    rewrite (proj2 (Z.leb_le (12 + 4) _)) by lia. cbn [Z.leb Z.compare andb]. f_equal. unfold zlen in *. rewrite drop_app_le, take_app_le by (rewrite ?length_drop; lia). done. }
  erewrite (st_bind_Ok (lift _)) by (rewrite Hs0; reflexivity). rewrite Hu16. exact Hs'.
Qed.

(** An echo request of eight data bytes from the gateway. *)
Definition demo_mac : list Z := [2; 0; 0; 0; 0; 1].
Definition demo_net : net :=
  mk_net (Some [mk_entry gateway demo_mac 100]) 200 [2; 0; 0; 0; 0; 2] (replicate 4 (mk_tx (replicate 2048 0) 0)) 3 3 4 (replicate 4 0) [].
Definition demo_iphdr : list Z := [0x45; 0; 0; 36; 0; 0; 0; 0; 64; 1; 0; 0] ++ gateway ++ ip_address.
Lemma demo_net_wf : net_wf demo_net.
Proof.
  constructor; cbn; [|done | done | done|].
  - split; [done|]. repeat constructor.
  - eexists. split; [done|]. split; [repeat constructor | apply NoDup_singleton].
Qed.
Lemma zeroes_ok n : Forall byte_ok (replicate n 0).
Proof. by apply Forall_replicate. Qed.

Lemma icmp_echo_witness : exists hdr msg s', 
  handle_icmp 1 id (replicate 1500 0) (replicate 1500 0) (demo_iphdr ++ 8 :: 0 :: 1 :: 2 :: [0; 7; 0; 1; 10; 11; 12; 13; 14; 15; 16; 17] ++ replicate 1500 0) 36 demo_net = Ok (tt, s') /\
  rfc_valid hdr /\ rfc_valid msg /\ wire s' = [frame demo_mac (my_mac demo_net) ETHERTYPE_IPV4 (hdr ++ msg)].
Proof.
  destruct (icmp_echo_correct 1 id (replicate 1500 0) (replicate 1500 0) demo_iphdr gateway 0 1 2 [0; 7; 0; 1; 10; 11; 12; 13; 14; 15; 16; 17] (replicate 1500 0) 36 demo_net demo_mac)
    as (hdr & msg & f1 & f2 & c1 & c2 & m1 & m2 & s' & H & _ & _ & Hh & _ & Hm & Hs & _).
  - apply demo_net_wf.
  - done.
  - lia.
  - done.
  - done.
  - apply zeroes_ok.
  - apply zeroes_ok.
  - done.
  - by exists 0x45.
  - done.
  - done.
  - repeat constructor; done.
  - repeat constructor; done.
  - done.
  - done.
  - done.
  - exists [mk_entry gateway demo_mac 100], 100. done.
  - done.
  - exists hdr, msg, s'. done.
Defined.

(** The finding on lengths: with an odd number of bytes the words are read at odd offsets and
    the checksum stored in the answer is not the one of RFC 1071. *)
Theorem icmp_odd_invalid : exists b, echo_reply [8; 0; 1; 2; 3] 5 = Ok b /\ ~ rfc_valid b.
Proof. eexists. split; [vm_compute; reflexivity|]. intros [_ H]. vm_compute in H. discriminate. Qed.
