(* ===== verification/NetRecv.v ===== *)
(** * Networking: receiving

    The receive ring of the card ([rx_copy]), the release of transmit descriptors, and the worker
    that takes packets from the interrupt handler: whatever the interleaving of interrupts and the
    worker's task, every packet accepted is processed exactly once and unchanged. *)
From S2P Require Import Prelude CString Net NetSum NetSend NetArp.
From stdpp Require Import relations.
#[local] Open Scope Z_scope.

(** ** The receive ring *)
Lemma rx_copy_ok ring pb off n : zlen ring = RTL8139_RXBUFFER_SIZE -> zlen pb = 2048 -> 0 <= off < RTL8139_RXBUFFER_SIZE -> 0 <= n <= 2048 ->
  exists b, rx_copy ring pb off n = Ok b /\ zlen b = 2048 /\
    (forall k, 0 <= k < n -> b !! Z.to_nat k = ring !! Z.to_nat ((off + k) mod RTL8139_RXBUFFER_SIZE)) /\
    (forall k, n <= k -> b !! Z.to_nat k = pb !! Z.to_nat k).
Proof.
  unfold RTL8139_RXBUFFER_SIZE. intros Hr Hp Ho Hn. unfold rx_copy, RTL8139_RXBUFFER_SIZE. cbv zeta.
  assert (Hlk : forall dst src doff soff m k, 0 <= m -> 0 <= doff -> doff + m <= zlen dst -> 0 <= soff -> soff + m <= zlen src ->
    0 <= k -> (take (Z.to_nat doff) dst ++ take (Z.to_nat m) (drop (Z.to_nat soff) src) ++ drop (Z.to_nat (doff + m)) dst : list Z) !! Z.to_nat k =
      if decide (doff <= k < doff + m) then src !! Z.to_nat (soff + (k - doff)) else dst !! Z.to_nat k).
  { clear. intros dst src doff soff m k H1 H2 H3 H4 H5 H6. unfold zlen in *.
    destruct (decide (k < doff)) as [Hk|Hk].
    { rewrite lookup_app_l, lookup_take_lt by (rewrite ?length_take; lia). rewrite decide_False by lia. done. }
    rewrite lookup_app_r, length_take by (rewrite length_take; lia). destruct (decide (k < doff + m)).
    - rewrite decide_True, lookup_app_l, lookup_take_lt, lookup_drop by (rewrite ?length_take, ?length_drop; lia). f_equal. lia.
    - rewrite decide_False, lookup_app_r, lookup_drop by (rewrite ?length_take, ?length_drop; lia). f_equal. rewrite length_take, length_drop. lia. }
  destruct (Z.leb_spec 8192 (off + n)).
  - rewrite (blit_Ok pb) by lia. cbn [mbind res_bind]. set (b1 := _ ++ _ ++ _).
    assert (Hb1 : zlen b1 = 2048) by (unfold b1, zlen in *; rewrite !length_app, !length_take, !length_drop; lia).
    rewrite blit_Ok by lia. eexists. split; [done|]. split; [unfold zlen in *; rewrite !length_app, !length_take, !length_drop; lia|]. split.
    + intros k Hk. rewrite Hlk by lia. destruct (decide _); [|unfold b1; rewrite Hlk by lia; rewrite decide_True by lia]; do 2 f_equal.
      * rewrite <- (Z.mod_add _ (-1)), Z.mod_small by lia. lia.
      * rewrite Z.mod_small by lia. lia.
    + intros k Hk. rewrite Hlk by lia. rewrite decide_False by lia. unfold b1. rewrite Hlk by lia. by rewrite decide_False by lia.
  - rewrite blit_Ok by lia. eexists. split; [done|]. split; [unfold zlen in *; rewrite !length_app, !length_take, !length_drop; lia|]. split.
    + intros k Hk. rewrite Hlk by lia. rewrite decide_True by lia. do 2 f_equal. rewrite Z.mod_small by lia. lia.
    + intros k Hk. rewrite Hlk by lia. by rewrite decide_False by lia.
Qed.

Lemma rx_next_ok off n : 0 <= off < RTL8139_RXBUFFER_SIZE -> 0 <= n <= 2048 ->
  rx_next off n = (off + n + 4 + 3) / 4 * 4 mod RTL8139_RXBUFFER_SIZE /\ 0 <= rx_next off n < RTL8139_RXBUFFER_SIZE /\ rx_next off n mod 4 = 0.
Proof.
  unfold RTL8139_RXBUFFER_SIZE. intros Ho Hn.
  assert (Hand : Z.land (off + n + 4 + 3) (Z.lnot 3) = (off + n + 4 + 3) / 4 * 4).
  { change 3 with (Z.ones 2) at 2. rewrite <- Z.ldiff_land, Z.ldiff_ones_r, Z.shiftl_mul_pow2, Z.shiftr_div_pow2 by lia. done. }
  assert (E : rx_next off n = (off + n + 4 + 3) / 4 * 4 mod 8192).
  { unfold rx_next, u16, RTL8139_RXBUFFER_SIZE. rewrite Hand, (Z.mod_small _ (2 ^ 16)); [done|]. Z.to_euclidean_division_equations; lia. }
  rewrite E. split; [done|]. split; [apply Z.mod_pos_bound; lia|].
  change 8192 with (4 * 2048). rewrite Z.mul_comm, Zmult_mod_distr_l, Z.mul_comm. apply Z.mod_mul. done.
Qed.

(** ** Transmit descriptors *)
(** The descriptors whose transmission is over, from [f] on, at most [k]. *)
Fixpoint finished (t : list Z) (f : Z) (k : nat) : Z :=
  match k with
  | O => 0
  | S k => if Z.land (default 0 (t !! Z.to_nat f)) RTL_TSD_BOTH =? RTL_TSD_BOTH then 1 + finished t ((f + 1) mod 4) k else 0
  end.

Lemma tx_loop_ok fuel : forall s, net_wf s -> (Z.to_nat (4 - free_descriptors s) < fuel)%nat ->
  exists s', tx_loop fuel s = Ok (tt, s') /\ net_wf s' /\
    s' = set_ring (current_descriptor s) ((finish_descriptor s + finished (tsd s) (finish_descriptor s) (Z.to_nat (4 - free_descriptors s))) mod 4)
           (free_descriptors s + finished (tsd s) (finish_descriptor s) (Z.to_nat (4 - free_descriptors s))) s.
Proof.
  induction fuel as [|fuel IH]; intros s Hw Hf; [lia|]. pose proof Hw as [Wd Wt Wm (Wr1 & Wr2 & Wr3) Wc]. cbn [tx_loop].
  unfold mbind, st_bind, gets, lift, modify. destruct (aget_is_Ok (tsd s) (finish_descriptor s)) as (st & Hst & Hl); [lia|]. rewrite Hst.
  assert (Hid : set_ring (current_descriptor s) (finish_descriptor s) (free_descriptors s) s = s) by (by destruct s).
  destruct (Z.to_nat (4 - free_descriptors s)) as [|k] eqn:Ek.
  - cbn [finished]. rewrite (proj2 (Z.ltb_ge _ 4)), andb_false_r, !Z.add_0_r, Z.mod_small, Hid by lia. by exists s.
  - cbn [finished]. rewrite Hl. change (default 0 (Some st)) with st. destruct (Z.land st RTL_TSD_BOTH =? RTL_TSD_BOTH); cbn [andb].
    + rewrite (proj2 (Z.ltb_lt _ 4)) by lia. unfold ensure, lift. cbn [assert].
      rewrite (proj2 (Z.leb_le 1 _)), (proj2 (Z.leb_le _ 4)) by lia. cbn [andb assert].
      set (s1 := set_ring (current_descriptor s) ((finish_descriptor s + 1) mod 4) (free_descriptors s + 1) s).
      assert (Hw1 : net_wf s1).
      { constructor; cbn; try done. split; [apply Z.mod_pos_bound; lia|]. split; [lia|]. rewrite Wr3, Zplus_mod_idemp_l. f_equal. lia. }
      destruct (IH s1 Hw1) as (s' & Hs' & Hw' & E); [cbn; lia|]. exists s'. split; [done|]. split; [done|]. rewrite E. cbn -[Z.add finished Z.modulo Z.to_nat Z.sub].
      replace (Z.to_nat (4 - (free_descriptors s + 1))) with k by lia. unfold set_ring. cbn -[Z.add finished Z.modulo]. rewrite Zplus_mod_idemp_l. rewrite !Z.add_assoc. done.
    + rewrite !Z.add_0_r, Z.mod_small, Hid by lia. by exists s.
Qed.

(** ** The worker *)
Record nsys := mk_nsys {
  bufs : list nethandler_buffer;
  current : option Z;               (** the buffer the task works on *)
  accepted : list (list Z);         (** packets put into a buffer *)
  processed : list (list Z)         (** what the worker's function was given *)
}.
(** The interrupt handler can come between any two steps of the task. *)
Inductive nstep : nsys -> nsys -> Prop :=
| n_arrive s data len w : 0 < len <= NETHANDLER_BUFFER_SIZE -> len <= zlen data -> nethandler_add_packet data len (bufs s) = Ok w ->
    nstep s (mk_nsys w (current s) (accepted s ++ match first_in EMPTY 0 (bufs s) with Some _ => [take (Z.to_nat len) data] | None => [] end) (processed s))
| n_take s i w : current s = None -> task_take (bufs s) = Ok (Some i, w) -> nstep s (mk_nsys w (Some i) (accepted s) (processed s))
| n_done s i p w : current s = Some i -> task_packet i (bufs s) = Ok p -> task_done i (bufs s) = Ok w ->
    nstep s (mk_nsys w None (accepted s) (processed s ++ [p])).

Definition empty_buffer : nethandler_buffer := mk_nbuf (replicate (Z.to_nat NETHANDLER_BUFFER_SIZE) 0) 0 EMPTY.
(** [nethandler_create] *)
Definition nethandler_create : nsys := mk_nsys (replicate (Z.to_nat NETHANDLER_NUM_BUFFERS) empty_buffer) None [] [].

Definition packet_of (b : nethandler_buffer) : option (list Z) :=
  if bool_decide (nstate b = EMPTY) then None else Some (take (Z.to_nat (nlength b)) (nbuffer b)).
Definition pending (l : list nethandler_buffer) : list (list Z) := omap packet_of l.
Definition buf_wf (b : nethandler_buffer) : Prop := zlen (nbuffer b) = NETHANDLER_BUFFER_SIZE /\ 0 <= nlength b <= NETHANDLER_BUFFER_SIZE.
Record nsys_wf (s : nsys) : Prop := {
  nw_bufs : zlen (bufs s) = NETHANDLER_NUM_BUFFERS /\ Forall buf_wf (bufs s);
  nw_current : forall i b, bufs s !! i = Some b -> (nstate b = CURRENTLY_PROCESSING <-> current s = Some (Z.of_nat i));
  nw_range : forall i, current s = Some i -> 0 <= i < NETHANDLER_NUM_BUFFERS;
  nw_perm : accepted s ≡ₚ processed s ++ pending (bufs s)
}.

Lemma first_in_Some st l : forall i j, first_in st i l = Some j -> exists k b, j = i + Z.of_nat k /\ l !! k = Some b /\ nstate b = st.
Proof.
  induction l as [|b l IH]; intros i j; cbn [first_in]; [done|]. case_bool_decide as E.
  - intros [= <-]. exists O, b. split; [lia | done].
  - intros H. destruct (IH _ _ H) as (k & b' & -> & Hk & Hs). exists (S k), b'. split; [lia | done].
Qed.
Lemma first_in_None st l : forall i, first_in st i l = None <-> Forall (fun b => nstate b <> st) l.
Proof.
  induction l as [|b l IH]; intros i; cbn [first_in]; [done|]. rewrite Forall_cons. case_bool_decide; [split; [done | tauto]|]. rewrite IH. tauto.
Qed.

Lemma pending_insert l i b b' : l !! i = Some b ->
  exists K, pending l ≡ₚ option_list (packet_of b) ++ K /\ pending (<[i := b']> l) ≡ₚ option_list (packet_of b') ++ K.
Proof.
  intros H. exists (pending (take i l) ++ pending (drop (S i) l)).
  assert (E : forall x, pending (take i l ++ x :: drop (S i) l) ≡ₚ option_list (packet_of x) ++ pending (take i l) ++ pending (drop (S i) l)).
  { intros x. unfold pending. rewrite omap_app. cbn. destruct (packet_of x); [by rewrite <- Permutation_middle | done]. }
  split; [rewrite <- (take_drop_middle l i b H) at 1; apply E | rewrite insert_take_drop by (by eapply lookup_lt_Some); apply E].
Qed.

(** A buffer replaced by another one. *)
Lemma set_buffer s i b b' c a p : nsys_wf s -> bufs s !! i = Some b -> buf_wf b' ->
  (forall j, c = Some j -> 0 <= j < NETHANDLER_NUM_BUFFERS) ->
  (nstate b' = CURRENTLY_PROCESSING <-> c = Some (Z.of_nat i)) -> (forall j, j <> i -> current s = Some (Z.of_nat j) <-> c = Some (Z.of_nat j)) ->
  (forall K, pending (bufs s) ≡ₚ option_list (packet_of b) ++ K -> a ≡ₚ p ++ option_list (packet_of b') ++ K) ->
  nsys_wf (mk_nsys (<[i := b']> (bufs s)) c a p).
Proof.
  intros [[W1 W2] W3 W4 W5] Hi Hb' Hr Hc Hj HK. constructor; cbn.
  - rewrite zlen_insert. split; [done | by apply Forall_insert].
  - intros j bj. destruct (decide (j = i)) as [->|Hne].
    + rewrite list_lookup_insert_eq by (by eapply lookup_lt_Some). by intros [= <-].
    + rewrite list_lookup_insert_ne by done. intros Hl. rewrite (W3 _ _ Hl). by apply Hj.
  - done.
  - destruct (pending_insert (bufs s) i b b' Hi) as (K & E1 & E2). rewrite E2. by apply HK.
Qed.

Lemma packet_of_EMPTY b : nstate b = EMPTY -> packet_of b = None.
Proof. intros H. unfold packet_of. by rewrite bool_decide_true. Qed.
Lemma packet_of_full buf n st : st <> EMPTY -> packet_of (mk_nbuf buf n st) = Some (take (Z.to_nat n) buf).
Proof. intros H. unfold packet_of. by rewrite bool_decide_false. Qed.

Lemma aset_nat {A} (l : list A) (k : nat) x : (k < length l)%nat -> aset l (Z.of_nat k) x = Ok (<[k := x]> l).
Proof. intros. rewrite aset_in by (unfold zlen; lia). by rewrite Nat2Z.id. Qed.
Lemma aget_nat {A} (l : list A) (k : nat) x : l !! k = Some x -> aget l (Z.of_nat k) = Ok x.
Proof. intros. apply aget_Ok. rewrite Nat2Z.id. split; [lia | done]. Qed.

(** Adding a packet never fails; it changes the first empty buffer if there is one. *)
Lemma add_packet_ok data len w : Forall buf_wf w -> 0 < len <= NETHANDLER_BUFFER_SIZE -> len <= zlen data ->
  nethandler_add_packet data len w =
    Ok (match first_in EMPTY 0 w with
        | Some i => let b := default empty_buffer (w !! Z.to_nat i) in <[Z.to_nat i := mk_nbuf (take (Z.to_nat len) data ++ drop (Z.to_nat len) (nbuffer b)) len NEEDS_PROCESSING]> w
        | None => w
        end).
Proof.
  intros Hw Hl Hd. unfold nethandler_add_packet. rewrite (proj2 (Z.ltb_lt 0 len)) by lia. cbn [assert mbind res_bind].
  destruct (first_in EMPTY 0 w) as [i|] eqn:E; [|done]. destruct (first_in_Some _ _ _ _ E) as (k & b & -> & Hk & Hs). rewrite Z.add_0_l, Nat2Z.id.
  rewrite (aget_nat _ _ _ Hk), Hk. cbn [mbind res_bind]. eapply Forall_lookup_1 in Hw as [Hb _]; [|done].
  rewrite poke_0 by lia. cbn [mbind res_bind]. cbv zeta. apply aset_nat. by eapply lookup_lt_Some.
Qed.

Lemma arrive_wf s data len w : nsys_wf s -> 0 < len <= NETHANDLER_BUFFER_SIZE -> len <= zlen data -> nethandler_add_packet data len (bufs s) = Ok w ->
  nsys_wf (mk_nsys w (current s) (accepted s ++ match first_in EMPTY 0 (bufs s) with Some _ => [take (Z.to_nat len) data] | None => [] end) (processed s)).
Proof.
  intros Hs Hl Hd. pose proof Hs as [[W1 W2] W3 W4 W5]. rewrite add_packet_ok by done. intros [= <-].
  destruct (first_in EMPTY 0 (bufs s)) as [i|] eqn:E; [|rewrite app_nil_r; by destruct s].
  destruct (first_in_Some _ _ _ _ E) as (k & b & -> & Hk & Hst). rewrite Z.add_0_l, Nat2Z.id, Hk. cbv zeta. change (default empty_buffer (Some b)) with b.
  pose proof (Forall_lookup_1 _ _ _ _ W2 Hk) as [Hb1 Hb2]. apply (set_buffer s k b); [done | done | | done | | done |].
  - split; cbn [nbuffer nlength]; [|lia]. unfold zlen in *. rewrite length_app, length_take, length_drop. cbn. lia.
  - cbn [nstate]. split; [done|]. intros Hc. apply (W3 _ _ Hk) in Hc. congruence.
  - intros K HK. rewrite W5, HK, packet_of_EMPTY, packet_of_full by done. cbn [option_list app nbuffer].
    rewrite take_app_length' by (rewrite length_take; unfold zlen in *; lia). rewrite <- app_assoc. f_equiv. by rewrite Permutation_app_comm.
Qed.

Lemma take_wf s i w : nsys_wf s -> current s = None -> task_take (bufs s) = Ok (Some i, w) -> nsys_wf (mk_nsys w (Some i) (accepted s) (processed s)).
Proof.
  intros Hs Hc. pose proof Hs as [[W1 W2] W3 W4 W5]. unfold task_take. destruct (first_in NEEDS_PROCESSING 0 (bufs s)) as [j|] eqn:E; [|done].
  destruct (first_in_Some _ _ _ _ E) as (k & b & -> & Hk & Hst). rewrite Z.add_0_l, (aget_nat _ _ _ Hk). cbn [mbind res_bind].
  assert (Hlt : (k < length (bufs s))%nat) by (by eapply lookup_lt_Some). rewrite aset_nat by done. cbn [mbind res_bind]. intros [= <- <-].
  pose proof (Forall_lookup_1 _ _ _ _ W2 Hk) as Hb. apply (set_buffer s k b); [done | done | done | | done | |].
  - intros j [= <-]. unfold zlen in W1. lia.
  - intros j Hj. rewrite Hc. split; [done|]. intros [= ?]. lia.
  - intros K HK. rewrite W5, HK, packet_of_full by done. destruct b as [nb nl ns]. cbn [nstate] in Hst. subst ns. by rewrite packet_of_full.
Qed.

Lemma done_wf s i p w : nsys_wf s -> current s = Some i -> task_packet i (bufs s) = Ok p -> task_done i (bufs s) = Ok w ->
  nsys_wf (mk_nsys w None (accepted s) (processed s ++ [p])).
Proof.
  intros Hs Hc Hp Hd. pose proof Hs as [[W1 W2] W3 W4 W5].
  apply bind_Ok in Hp as (x & Hx & Hp), Hd as (y & Hy & Hd). assert (y = x) as -> by congruence. clear Hy.
  apply aget_Ok in Hx as [Hi Hb]. set (k := Z.to_nat i) in *. assert (Ei : i = Z.of_nat k) by lia. rewrite Ei in Hd, Hc. clearbody k. clear i Hi Ei.
  pose proof (Forall_lookup_1 _ _ _ _ W2 Hb) as [Hb1 Hb2]. rewrite aset_nat in Hd by (by eapply lookup_lt_Some). injection Hd as <-.
  assert (Hst : nstate x = CURRENTLY_PROCESSING) by (by apply (W3 _ _ Hb)).
  apply (set_buffer s k x); [done | done | | done | | |].
  - split; [done|]. cbn. lia.
  - done.
  - intros j Hj. rewrite Hc. split; [intros [= ?]; lia | done].
  - intros K HK. rewrite W5, HK, (packet_of_EMPTY (mk_nbuf _ _ EMPTY)) by done. destruct x as [nb nl ns]. cbn [nstate] in Hst. subst ns.
    rewrite packet_of_full by done. cbn [option_list app nbuffer nlength] in *.
    unfold bytes in Hp. case_match; [|done]. injection Hp as <-. change (Z.to_nat 0) with O. rewrite drop_0. by rewrite <- app_assoc.
Qed.

Lemma nstep_wf s s' : nsys_wf s -> nstep s s' -> nsys_wf s'.
Proof. intros Hs Hst. destruct Hst; [eapply arrive_wf | eapply take_wf | eapply done_wf]; eassumption. Qed.

Lemma create_wf : nsys_wf nethandler_create.
Proof.
  constructor; cbn.
  - split; [done|]. repeat constructor; done.
  - intros i b H. apply (list_elem_of_lookup_2 (replicate 8 empty_buffer)) in H. apply elem_of_replicate in H as [-> _]. done.
  - done.
  - done.
Qed.

(** The task can always go on: it finishes the packet it works on, and takes another one. *)
Lemma done_step s i : nsys_wf s -> current s = Some i -> exists p w, task_packet i (bufs s) = Ok p /\ task_done i (bufs s) = Ok w /\
  (length (pending w) < length (pending (bufs s)))%nat.
Proof.
  intros Hs Hc. pose proof Hs as [[W1 W2] W3 W4 W5]. pose proof (W4 _ Hc) as Hi.
  destruct (aget_is_Ok (bufs s) i) as (b & Hg & Hb); [rewrite W1; done|]. pose proof (Forall_lookup_1 _ _ _ _ W2 Hb) as [Hb1 Hb2].
  assert (Hst : nstate b = CURRENTLY_PROCESSING) by (apply (W3 _ _ Hb); rewrite Hc; f_equal; lia).
  unfold task_packet, task_done. rewrite Hg. cbn [mbind res_bind]. unfold bytes. rewrite !(proj2 (Z.leb_le _ _)) by lia. cbn [andb].
  eexists _, _. split; [done|]. rewrite aset_in by lia. split; [done|].
  destruct (pending_insert (bufs s) (Z.to_nat i) b (mk_nbuf (replicate (Z.to_nat NETHANDLER_BUFFER_SIZE) 0) (nlength b) EMPTY) Hb) as (K & E1 & E2).
  rewrite E1, E2, packet_of_EMPTY by done. destruct b as [nb nl ns]. cbn [nstate] in Hst. subst ns. rewrite packet_of_full by done. cbn. lia.
Qed.
Lemma take_step s : nsys_wf s -> current s = None -> pending (bufs s) <> [] ->
  exists i w, task_take (bufs s) = Ok (Some i, w) /\ length (pending w) = length (pending (bufs s)).
Proof.
  intros Hs Hc Hp. pose proof Hs as [[W1 W2] W3 W4 W5]. unfold task_take. destruct (first_in NEEDS_PROCESSING 0 (bufs s)) as [j|] eqn:E.
  - destruct (first_in_Some _ _ _ _ E) as (k & b & -> & Hk & Hst). rewrite Z.add_0_l, (aget_nat _ _ _ Hk). cbn [mbind res_bind].
    rewrite aset_nat by (by eapply lookup_lt_Some). eexists _, _. split; [done|].
    destruct (pending_insert (bufs s) k b (mk_nbuf (nbuffer b) (nlength b) CURRENTLY_PROCESSING) Hk) as (K & E1 & E2).
    rewrite E1, E2, packet_of_full by done. destruct b as [nb nl ns]. cbn [nstate] in Hst. subst ns. by rewrite packet_of_full.
  - exfalso. apply Hp. apply first_in_None in E. unfold pending. apply elem_of_nil_inv. intros p (b & Hb & Hpk)%list_elem_of_omap.
    apply list_elem_of_lookup in Hb as [k Hk]. pose proof (Forall_lookup_1 _ _ _ _ E Hk) as Hn. cbn in Hn.
    destruct (nstate b) eqn:Es; [by rewrite packet_of_EMPTY in Hpk | done|]. apply (W3 _ _ Hk) in Es. congruence.
Qed.
Lemma drain n : forall s, nsys_wf s -> (2 * length (pending (bufs s)) + (match current s with Some _ => 0 | None => 1 end) <= n)%nat ->
  exists s', rtc nstep s s' /\ accepted s' = accepted s /\ pending (bufs s') = [].
Proof.
  induction n as [|n IH]; intros s Hs Hn; destruct (current s) as [i|] eqn:Hc; cbv iota in Hn.
  - destruct (done_step s i Hs Hc) as (p & w & _ & _ & Hlt). lia.
  - lia.
  - destruct (done_step s i Hs Hc) as (p & w & Hp & Hd & Hlt). destruct (IH _ (done_wf _ _ _ _ Hs Hc Hp Hd)) as (s' & Hr & Ha & He); [cbn [current bufs]; lia|].
    exists s'. split; [|done]. eapply rtc_l; [by eapply n_done | done].
  - destruct (decide (pending (bufs s) = [])) as [He|Hne]; [by exists s|]. destruct (take_step s Hs Hc Hne) as (i & w & Ht & Hl).
    destruct (IH _ (take_wf _ _ _ Hs Hc Ht)) as (s' & Hr & Ha & He); [cbn [current bufs]; lia|].
    exists s'. split; [|done]. eapply rtc_l; [by eapply n_take | done].
Qed.

(** ** Theorems *)

(** [rounds env j s]: the state after [j] rounds of waiting, in each of which [env] is what interrupts do. *)
Definition rounds (env : net -> net) (j : nat) (s : net) : net := Nat.iter j env s.
(** No descriptor is free and the time is not over in the first [j] rounds. *)
Definition waits (env : net -> net) (j : nat) (s : net) : Prop :=
  forall i, (i < j)%nat -> free_descriptors (rounds env i s) = 0 /\ now (rounds env i s) <= u32 (now s + 100).

Lemma wait_rounds env start j : forall fuel s,
  (forall i, (i < j)%nat -> free_descriptors (rounds env i s) = 0 /\ now (rounds env i s) <= u32 (start + 100)) ->
  wait_descriptor (j + fuel) env start s = wait_descriptor fuel env start (rounds env j s).
Proof.
  induction j as [|j IH]; intros fuel s H; [done|]. cbn [Nat.add wait_descriptor]. destruct (H 0%nat ltac:(lia)) as [H0 H1].
  unfold mbind, st_bind, gets, modify. cbn in H0, H1. rewrite H0. cbn [Z.eqb]. rewrite (proj2 (Z.ltb_ge _ _)) by done.
  rewrite IH; [unfold rounds; by rewrite <- Nat.iter_succ_r|]. intros i Hi. unfold rounds. rewrite <- Nat.iter_succ_r. apply (H (S i)). lia.
Qed.

(** Sending is sending in the state in which the wait ends. *)
Lemma send_after_wait fuel env dst et payload size s s' :
  0x600 <= et -> 0 < size <= 1500 -> wait_descriptor fuel env (now s) s = Ok (tt, s') -> 0 < free_descriptors s' ->
  rtl8139_send_frame fuel env dst et payload size s = rtl8139_send_frame 1 env dst et payload size s'.
Proof.
  intros He Hs Hw Hf. unfold rtl8139_send_frame.
  assert (Hc : (0 <? size) && (size <=? 1500) = true) by (apply andb_true_iff; split; [apply Z.ltb_lt | apply Z.leb_le]; lia).
  rewrite !(st_bind_Ok (ensure (0x600 <=? et)) _ _ tt _) by (apply ensure_true, Z.leb_le; lia).
  rewrite !(st_bind_Ok (ensure ((0 <? size) && _)) _ _ tt _) by (by apply ensure_true).
  change (gets now ≫= ?k) with (fun s => k (now s) s). cbn beta.
  rewrite (st_bind_Ok _ _ _ _ _ Hw). rewrite (st_bind_Ok (wait_descriptor 1 env (now s')) _ s' tt s'); [done|].
  cbn [wait_descriptor]. unfold mbind, st_bind, gets. by rewrite (proj2 (Z.eqb_neq _ _)) by lia.
Qed.

(** C36: The state of the driver stays well-formed (its "type"): four descriptors with buffers of
    2048 bytes, a ring of which exactly the descriptors from [finish_descriptor] up to
    [current_descriptor] are in flight, and a cache with one entry per address.  The transmit interrupt,
    with any number of descriptors in flight, all four included, releases exactly the leading ones whose
    transmission is over.  Sending a frame (1 to 1500 bytes) waits while all four are in flight: if interrupts
    release one within 100 ticks the frame goes out and the state is well-formed, if not the kernel panics. *)
Theorem driver_state_wf s : net_wf s ->
  (exists s', rtl8139_tx_handler s = Ok (tt, s') /\ net_wf s' /\
     let k := finished (tsd s) (finish_descriptor s) (Z.to_nat (4 - free_descriptors s)) in
     s' = set_ring (current_descriptor s) ((finish_descriptor s + k) mod 4) (free_descriptors s + k) s) /\
  (forall dst et payload size env j fuel, zlen dst = 6 -> 0x600 <= et < 2 ^ 16 -> 0 < size <= 1500 -> size <= zlen payload ->
     waits env j s -> let w := rounds env j s in net_wf w -> (j < fuel)%nat ->
     (0 < free_descriptors w -> exists s', rtl8139_send_frame fuel env dst et payload size s = Ok (tt, s') /\ net_wf s' /\
        sent w (frame dst (my_mac w) et (take (Z.to_nat size) payload)) s') /\
     (free_descriptors w = 0 -> u32 (now s + 100) < now w -> rtl8139_send_frame fuel env dst et payload size s = Panic)).
Proof.
  intros Hw. split; [apply tx_loop_ok; [done|]; pose proof (wf_ring _ Hw); lia|].
  intros dst et payload size env j fuel Hd He Hs Hp Hj w Hww Hf.
  assert (Hwait : wait_descriptor fuel env (now s) s = wait_descriptor (S (fuel - j - 1)) env (now s) w).
  { replace fuel with (j + S (fuel - j - 1))%nat at 1 by lia. by apply wait_rounds. }
  split.
  - intros Hfree. assert (Hok : wait_descriptor fuel env (now s) s = Ok (tt, w)).
    { rewrite Hwait. cbn [wait_descriptor]. unfold mbind, st_bind, gets. by rewrite (proj2 (Z.eqb_neq _ _)) by lia. }
    rewrite (send_after_wait fuel env dst et payload size s w) by (done || lia). apply send_frame_ok; (done || lia).
  - intros Hz Ht. unfold rtl8139_send_frame. rewrite (st_bind_Ok (ensure _) _ s tt s) by (apply ensure_true, Z.leb_le; lia).
    rewrite (st_bind_Ok (ensure _) _ s tt s) by (apply ensure_true, andb_true_iff; split; [apply Z.ltb_lt | apply Z.leb_le]; lia).
    change (gets now ≫= ?k) with (fun s => k (now s) s). cbn beta. unfold mbind, st_bind. rewrite Hwait.
    cbn [wait_descriptor]. unfold mbind, st_bind, gets. rewrite Hz. cbn [Z.eqb]. by rewrite (proj2 (Z.ltb_lt _ _)) by done.
Qed.

(** The copy out of the card's ring buffer: for a packet of at most 2048 bytes at any offset,
    wrapped or not, byte [k] of the copy is byte [(offset + k) mod 8192] of the ring and the rest
    of the packet buffer is left alone; the next offset is 4-aligned and inside the ring. *)
Theorem rx_ring_correct ring pb off n : zlen ring = RTL8139_RXBUFFER_SIZE -> zlen pb = 2048 -> 0 <= off < RTL8139_RXBUFFER_SIZE -> 0 <= n <= 2048 ->
  (exists b, rx_copy ring pb off n = Ok b /\ zlen b = 2048 /\
    (forall k, 0 <= k < n -> b !! Z.to_nat k = ring !! Z.to_nat ((off + k) mod RTL8139_RXBUFFER_SIZE)) /\
    (forall k, n <= k -> b !! Z.to_nat k = pb !! Z.to_nat k)) /\
  rx_next off n = (off + n + 4 + 3) / 4 * 4 mod RTL8139_RXBUFFER_SIZE /\ 0 <= rx_next off n < RTL8139_RXBUFFER_SIZE /\ rx_next off n mod 4 = 0.
Proof. intros. split; [by apply rx_copy_ok | by apply rx_next_ok]. Qed.

(** C18: A network worker loses and repeats nothing.  In every state that the interrupt handler
    and the worker's task can reach, in any interleaving, the packets accepted are, up to order,
    those the worker's function was given followed by those still in a buffer, each with exactly
    the bytes that arrived; and from there the task can empty all buffers, after which every accepted packet has been processed exactly once.  Packets have 1 to 1536 bytes, the size of
    a buffer; one that arrives while no buffer is empty is not accepted. *)
Theorem nethandler_exactly_once s : rtc nstep nethandler_create s ->
  accepted s ≡ₚ processed s ++ pending (bufs s) /\
  exists s', rtc nstep s s' /\ accepted s' = accepted s /\ processed s' ≡ₚ accepted s.
Proof.
  intros Hr. assert (Hs : nsys_wf s).
  { remember nethandler_create as s0. assert (H0 : nsys_wf s0) by (subst; apply create_wf). clear Heqs0.
    induction Hr as [|x y z Hxy _ IH]; [done|]. apply IH. by eapply nstep_wf. }
  split; [apply Hs|]. destruct (drain _ s Hs (le_n _)) as (s' & Hr' & Ha & He). exists s'. split; [done|]. split; [done|].
  assert (Hs' : nsys_wf s') by (clear - Hr' Hs; induction Hr' as [|x y z Hxy _ IH]; [done|]; apply IH; by eapply nstep_wf).
  rewrite <- Ha, (nw_perm _ Hs'), He. by rewrite app_nil_r.
Qed.

(** ** process_frame on an IPv4 packet *)
Lemma checksum_test h1 c1 c2 h2 : zlen h1 = 10 -> zlen h2 = 8 -> Forall byte_ok (h1 ++ c1 :: c2 :: h2) ->
  exists r, (forall k, Forall byte_ok k -> internet_checksum ((h1 ++ 0 :: 0 :: h2) ++ k) 20 = Ok r) /\
    (r = c1 + 256 * c2 -> rfc_valid (h1 ++ c1 :: c2 :: h2)) /\
    (rfc_valid (h1 ++ c1 :: c2 :: h2) -> c1 + 256 * c2 <> 0xffff -> r = c1 + 256 * c2).
Proof.
  intros L1 L2 HF. pose proof HF as [F1 F2]%Forall_app. rewrite !Forall_cons in F2. destruct F2 as (C1 & C2 & F2).
  assert (F0 : Forall byte_ok (h1 ++ 0 :: 0 :: h2)) by (apply Forall_app; split; [done|]; repeat (constructor; [done|]); done).
  assert (E1 : Nat.even (length h1) = true) by (unfold zlen in L1; by replace (length h1) with 10%nat by lia).
  set (S := le_sum h1 + le_sum h2). assert (HS : 0 <= S) by (pose proof (le_sum_nonneg h1 F1); pose proof (le_sum_nonneg h2 F2); lia).
  assert (Es : le_sum (h1 ++ 0 :: 0 :: h2) = S) by (rewrite le_sum_app by done; cbn [le_sum]; unfold S; lia).
  assert (Ec : le_sum (h1 ++ c1 :: c2 :: h2) = S + (c1 + 256 * c2)) by (rewrite le_sum_app by done; cbn [le_sum]; unfold S; lia).
  exists (0xffff - ones_sum S). unfold byte_ok in C1, C2.
  assert (HO : S = 0 /\ ones_sum S = 0 \/ 0 < S /\ 0 < ones_sum S <= 0xffff /\ ones_sum S mod 0xffff = S mod 0xffff).
  { unfold ones_sum. destruct (Z.eqb_spec S 0); [by left|]. right. pose proof (Z.mod_pos_bound S 0xffff ltac:(done)) as Hb.
    destruct (Z.eqb_spec (S mod 0xffff) 0) as [->|]; [split_and!; (done || lia)|]. rewrite Z.mod_mod by done. lia. }
  assert (Hz : forall x, x mod 0xffff = 0 -> 0 < x <= 0xffff -> x = 0xffff) by (intros x; Z.to_euclidean_division_equations; lia).
  split_and!.
  - intros k Hk. change 20 with (Z.of_nat (2 * 10)). rewrite internet_checksum_even; [|lia | unfold zlen in *; rewrite !length_app; cbn; lia | by apply Forall_app].
    rewrite take_app_length' by (unfold zlen in *; rewrite length_app; cbn; lia). by rewrite Es.
  - intros Hr. apply rfc_valid_le; [done | rewrite Ec; lia|]. rewrite Ec, <- Hr. destruct HO as [[-> ->] | (_ & _ & Hm)]; [done|].
    rewrite Z.add_sub_assoc, Zminus_mod, Hm, <- (Zplus_mod_idemp_r 0xffff), Z_mod_same_full, Z.add_0_r, Z.sub_diag. done.
  - intros [Hpos Hv] Hc. apply le_sum_pos in Hpos; [|done]. rewrite be_le_sum, Ec in Hv. rewrite Ec in Hpos.
    assert (Hv' : (S + (c1 + 256 * c2)) mod 0xffff = 0).
    { rewrite <- (Z.mul_1_l (S + _)), <- Z.mul_mod_idemp_l by done. change (1 mod 0xffff) with ((256 * 256) mod 0xffff).
      rewrite Z.mul_mod_idemp_l, <- Z.mul_assoc, <- Z.mul_mod_idemp_r, Hv by done. done. }
    destruct HO as [[H0 H1] | (Hp & Ho & Hm)]; [rewrite H1, H0 in *; Z.to_euclidean_division_equations; lia|].
    rewrite <- Zplus_mod_idemp_l, <- Hm, Zplus_mod_idemp_l in Hv'. clear Hm Hv.
    assert (Hq : ones_sum S + (c1 + 256 * c2) = 0xffff \/ ones_sum S + (c1 + 256 * c2) = 2 * 0xffff) by (Z.to_euclidean_division_equations; lia). lia.
Qed.

Definition eth_ipv4 (rxhdr eth h1 : list Z) (c1 c2 : Z) (h2 rest : list Z) : list Z := rxhdr ++ eth ++ [8; 0] ++ h1 ++ c1 :: c2 :: h2 ++ rest.

(** What the receive path does with an IPv4 frame.  The packet goes to the ICMP worker exactly
    when its protocol is ICMP, with the checksum field zeroed; a header that fails the checksum
    test of RFC 1071 (a corrupted frame) makes the kernel panic in interrupt context, and a valid
    one (other than with a stored checksum of 0xffff) is accepted. *)
Theorem process_ipv4_correct rxhdr eth h1 c1 c2 h2 rest n s : packetBuffer s = eth_ipv4 rxhdr eth h1 c1 c2 h2 rest ->
  zlen rxhdr = 4 -> zlen eth = 12 -> zlen h1 = 10 -> zlen h2 = 8 -> Forall byte_ok (h1 ++ c1 :: c2 :: h2) -> Forall byte_ok rest ->
  18 < n <= 18 + NETHANDLER_BUFFER_SIZE -> n <= zlen (packetBuffer s) -> Forall buf_wf (nethandler_icmp s) ->
  let pkt := (h1 ++ 0 :: 0 :: h2) ++ rest in
  let icmp := h1 !! 9%nat = Some IPV4_PROTO_ICMP in
  (rfc_valid (h1 ++ c1 :: c2 :: h2) -> c1 + 256 * c2 <> 0xffff -> exists s', process_frame n s = Ok s' /\
     nethandler_arp s' = nethandler_arp s /\ rxOffset s' = rxOffset s /\
     Ok (nethandler_icmp s') = (if decide icmp then nethandler_add_packet pkt (n - 18) (nethandler_icmp s) else Ok (nethandler_icmp s)) /\
     next_task s' = if decide icmp then Some ICMP_WORKER else next_task s) /\
  (~ rfc_valid (h1 ++ c1 :: c2 :: h2) -> process_frame n s = Panic).
Proof.
  intros Hpb Lr Le L1 L2 HF Hrest Hn Hnl Hw pkt icmp. destruct (checksum_test h1 c1 c2 h2 L1 L2 HF) as (r & Hr & Hr1 & Hr2).
  pose proof HF as [F1 F2]%Forall_app. rewrite !Forall_cons in F2. destruct F2 as (C1 & C2 & F2). unfold byte_ok in C1, C2.
  set (pre := rxhdr ++ eth). assert (Lp : zlen pre = 16) by (unfold pre; rewrite zlen_app; lia).
  set (pre2 := pre ++ [0; 8]). assert (Lp2 : zlen pre2 = 18) by (unfold pre2; rewrite zlen_app, Lp; done).
  assert (G16 : get16 (packetBuffer s) 16 = Ok 8).
  { rewrite Hpb. unfold eth_ipv4. rewrite app_assoc. apply (get16_at 16 8 pre); [done | lia]. }
  assert (P16 : put16 (packetBuffer s) 16 0x0800 = Ok (pre2 ++ h1 ++ c1 :: c2 :: h2 ++ rest)).
  { rewrite Hpb. unfold eth_ipv4. rewrite app_assoc. unfold pre2. rewrite <- (app_assoc pre). by apply (put16_at 16 pre). }
  assert (G28 : get16 (pre2 ++ h1 ++ c1 :: c2 :: h2 ++ rest) 28 = Ok (c1 + 256 * c2)).
  { unfold get16. rewrite app_assoc, (aget_at 28 c1) by (rewrite zlen_app; lia). cbn [mbind res_bind]. rewrite cons_middle, app_assoc.
    rewrite (aget_at (28 + 1) c2) by (autorewrite with kernel_rw; lia). done. }
  assert (P28 : put16 (pre2 ++ h1 ++ c1 :: c2 :: h2 ++ rest) 28 0 = Ok (pre2 ++ pkt)).
  { unfold pkt. rewrite app_assoc, (put16_at 28) by (rewrite zlen_app; lia). rewrite <- !app_assoc. done. }
  assert (D18 : drop 18 (pre2 ++ pkt) = pkt) by (apply drop_app_length'; unfold zlen in Lp2; lia).
  assert (exists proto, h1 !! 9%nat = Some proto) as [proto Hproto] by (apply lookup_lt_is_Some_2; unfold zlen in L1; lia).
  assert (A27 : aget (pre2 ++ pkt) 27 = Ok proto).
  { apply aget_Ok. split; [lia|]. unfold pkt. rewrite <- app_assoc, lookup_app_r, lookup_app_l by (unfold zlen in *; lia). replace (Z.to_nat 27 - length pre2)%nat with 9%nat by (unfold zlen in *; lia). done. }
  assert (Hadd : exists w, nethandler_add_packet pkt (n - 18) (nethandler_icmp s) = Ok w).
  { eexists. apply add_packet_ok; [done | lia|]. rewrite Hpb in Hnl. unfold pkt. unfold eth_ipv4 in Hnl. autorewrite with kernel_rw in *. lia. }
  destruct Hadd as [w Hadd]. assert (Hu : u32 (n - 18) = n - 18) by (apply u32_small; unfold NETHANDLER_BUFFER_SIZE in Hn; lia).
  assert (Hic : icmp <-> proto = IPV4_PROTO_ICMP) by (unfold icmp; rewrite Hproto; naive_solver).
  unfold process_frame. change (4 + 12) with 16. change (18 + 10) with 28. change (18 + 9) with 27. rewrite G16. rewrite bind_ok.
  cbv zeta. change (BSWAP16 8) with 0x0800. rewrite P16, bind_ok. change (0x0800 =? 0x8100) with false. change (0x0800 =? ETHERTYPE_ARP) with false.
  change (0x0800 =? ETHERTYPE_IPV4) with true. cbv iota. rewrite G28, bind_ok, P28, bind_ok, A27, bind_ok, D18, Hu, Hadd, !bind_ok.
  assert (Hck : internet_checksum pkt 20 = Ok r) by (by apply Hr).
  destruct (Z.eqb_spec proto IPV4_PROTO_ICMP) as [Hp|Hp]; rewrite bind_ok, Hck, bind_ok; split.
  - intros Hv Hc. rewrite (Hr2 Hv Hc), Z.eqb_refl. eexists. split; [done|]. rewrite !decide_True by tauto. done.
  - intros Hv. destruct (Z.eqb_spec r (c1 + 256 * c2)); [tauto | done].
  - intros Hv Hc. rewrite (Hr2 Hv Hc), Z.eqb_refl. eexists. split; [done|]. rewrite !decide_False by tauto. done.
  - intros Hv. destruct (Z.eqb_spec r (c1 + 256 * c2)); [tauto | done].
Qed.

(** ** Witnesses *)
(** All four descriptors are in flight and done; the interrupt comes after one round of waiting. *)
Definition demo_full : net :=
  mk_net (Some [demo_old]) 200 [2; 0; 0; 0; 0; 2] (replicate 4 (mk_tx (replicate 2048 0) 0)) 0 0 0 (replicate 4 RTL_TSD_BOTH) [].
Definition demo_interrupt (s : net) : net := match rtl8139_tx_handler s with Ok (_, s') => s' | _ => s end.
Lemma driver_state_witness : exists s', rtl8139_send_frame 2 demo_interrupt (replicate 6 0xff) ETHERTYPE_ARP (replicate 28 1) 28 demo_full = Ok (tt, s') /\ zlen (wire s') = 1.
Proof.
  assert (Hwf : net_wf demo_full).
  { constructor; cbn; [|done | done | done|]; [split; [done|]; repeat constructor|]. eexists. split; [done|]. split; [by apply Forall_singleton | apply NoDup_singleton]. }
  destruct (driver_state_wf demo_full Hwf) as [(s1 & H1 & Hw1 & _) Hs].
  assert (Hi : rounds demo_interrupt 1 demo_full = s1) by (change (rounds demo_interrupt 1 demo_full) with (demo_interrupt demo_full); unfold demo_interrupt; by rewrite H1).
  destruct (Hs (replicate 6 0xff) ETHERTYPE_ARP (replicate 28 1) 28 demo_interrupt 1%nat 2%nat) as [Ha _]; [done | done | done | done | | by rewrite Hi | lia |].
  - intros i Hlt. destruct i as [|i]; [split; vm_compute; done | lia].
  - destruct Ha as (s' & Hr & _ & Hw & _); [vm_compute; reflexivity|]. exists s'. split; [exact Hr|]. rewrite Hw. vm_compute. reflexivity.
Defined.

Lemma rx_ring_witness : exists b, rx_copy (replicate (Z.to_nat RTL8139_RXBUFFER_SIZE) 7) (replicate 2048 0) 8180 60 = Ok b /\ zlen b = 2048.
Proof.
  destruct (rx_ring_correct (replicate (Z.to_nat RTL8139_RXBUFFER_SIZE) 7) (replicate 2048 0) 8180 60) as [(b & H & Hl & _) _]; [done.. |].
  exists b. exact (conj H Hl).
Defined.

Lemma nethandler_witness : exists s, rtc nstep nethandler_create s /\ accepted s = [[1; 2; 3]] /\ accepted s ≡ₚ processed s ++ pending (bufs s).
Proof.
  destruct (nethandler_add_packet [1; 2; 3; 4] 3 (bufs nethandler_create)) as [w| | |] eqn:E; [|discriminate E..].
  assert (H : rtc nstep nethandler_create (mk_nsys w None [[1; 2; 3]] [])).
  { apply rtc_once. apply (n_arrive nethandler_create [1; 2; 3; 4] 3 w); [by vm_compute | by vm_compute | exact E]. }
  exists (mk_nsys w None [[1; 2; 3]] []). split; [exact H|]. split; [reflexivity|]. exact (proj1 (nethandler_exactly_once _ H)).
Defined.

Definition demo_rx (c1 : Z) : rx :=
  mk_rx (eth_ipv4 [0; 0; 0; 0] (replicate 12 0) [0x45; 0; 0; 0x24; 0; 0; 0; 0; 64; 1] c1 0x7d (gateway ++ ip_address) (replicate 64 0)) 0 [] [empty_buffer] None.
Lemma process_ipv4_witness : (exists s', process_frame 60 (demo_rx 0xe5) = Ok s' /\ next_task s' = Some ICMP_WORKER) /\ process_frame 60 (demo_rx 0xe4) = Panic.
Proof.
  assert (Hr : Forall byte_ok (replicate 64 0)) by (by apply Forall_replicate).
  assert (Hw : Forall buf_wf [empty_buffer]) by (repeat constructor; done).
  split.
  - destruct (process_ipv4_correct [0; 0; 0; 0] (replicate 12 0) [0x45; 0; 0; 0x24; 0; 0; 0; 0; 64; 1] 0xe5 0x7d (gateway ++ ip_address) (replicate 64 0) 60 (demo_rx 0xe5)) as [H _];
      [done | done | done | done | done | repeat constructor; done | done | done | done | done|].
    destruct H as (s' & Hs & _ & _ & _ & Hn); [done | done|]. exists s'. exact (conj Hs Hn).
  - apply (process_ipv4_correct [0; 0; 0; 0] (replicate 12 0) [0x45; 0; 0; 0x24; 0; 0; 0; 0; 64; 1] 0xe4 0x7d (gateway ++ ip_address) (replicate 64 0) 60 (demo_rx 0xe4));
      [done | done | done | done | done | repeat constructor; done | done | done | done | done|].
    intros [_ H]. vm_compute in H. discriminate.
Defined.
