(* ===== verification/Ata.v ===== *)
(** * Disks: transfers (src/src/kernel/ata.c) and the partition table (partition.c)

    A device is its sectors, [media], one byte list.  [ata_read] and [ata_write] cut a request
    into chunks that one READ/WRITE MULTIPLE command can move; a chunk is a copy between the
    medium and the caller's buffer (the register accesses around it and the wait for the
    interrupt are the hardware's side).  An access outside of the buffer is [Undef]. *)
From S2P Require Import Prelude CString Net NetSum NetSend.

Definition u64 (x : Z) : Z := x mod 2 ^ 64.

Record partition := mk_part { p_exists : bool; p_bootable : bool; p_type : Z; start_lba : Z; total_sectors : Z }.
Record ata_device := mk_dev {
  dev_exists : bool; is_atapi : bool;
  dev_size : Z;                   (** in sectors *)
  max_sectors_multiple : Z;       (** [uint8] *)
  partitions : list partition;
  media : list Z
}.
Definition set_media (m : list Z) (d : ata_device) : ata_device :=
  mk_dev (dev_exists d) (is_atapi d) (dev_size d) (max_sectors_multiple d) (partitions d) m.
Definition set_partitions (l : list partition) (d : ata_device) : ata_device :=
  mk_dev (dev_exists d) (is_atapi d) (dev_size d) (max_sectors_multiple d) l (media d).

(** The 28 bits of an LBA that the registers take. *)
Definition lba28 (lba : Z) : Z :=
  Z.lor (Z.shiftl (Z.land (Z.shiftr lba 24) 0x0f) 24)
    (Z.lor (Z.shiftl (Z.land (Z.shiftr lba 16) 0xff) 16) (Z.lor (Z.shiftl (Z.land (Z.shiftr lba 8) 0xff) 8) (Z.land lba 0xff))).

(** ** Reading *)
(** [buffer + off] receives the sectors. *)
Definition ata_read_int (dev : ata_device) (lba : Z) (buffer : list Z) (off sectors : Z) : res (list Z) :=
  assert (dev_exists dev) ;;
  assert (u64 (lba + (sectors - 1)) <=? u64 (dev_size dev - 1)) ;;
  blit buffer off (media dev) (512 * lba28 lba) (512 * sectors).

(** [while (sectors_to_read < (sectors_total - sectors_read) && sectors_to_read < max) sectors_to_read *= 2] *)
Fixpoint double_chunk (fuel : nat) (remaining max s : Z) : res Z :=
  match fuel with
  | O => NoFuel
  | S fuel => if (s <? remaining) && (s <? max) then double_chunk fuel remaining max (s * 2) else Ok s
  end.
(** [while (sectors_to_read > max || sectors_to_read > sectors_total) sectors_to_read /= 2] *)
Fixpoint halve_chunk (fuel : nat) (total max s : Z) : res Z :=
  match fuel with
  | O => NoFuel
  | S fuel => if (max <? s) || (total <? s) then halve_chunk fuel total max (s / 2) else Ok s
  end.

(** Chunks have at most 256 sectors: ten rounds are enough to find one. *)
Fixpoint read_loop (fuel : nat) (dev : ata_device) (lba : Z) (buffer : list Z) (off sectors_total sectors_read : Z) : res (list Z) :=
  if sectors_read <? sectors_total then
    match fuel with
    | O => NoFuel
    | S fuel =>
        k ← double_chunk 10 (sectors_total - sectors_read) (max_sectors_multiple dev) 1;
        k ← halve_chunk 10 sectors_total (max_sectors_multiple dev) k;
        assert (0 <? k) ;;
        buffer ← ata_read_int dev (lba + sectors_read) buffer (off + sectors_read * 512) k;
        read_loop fuel dev lba buffer off sectors_total (sectors_read + k)
    end
  else Ok buffer.
Definition ata_read (dev : ata_device) (lba : Z) (buffer : list Z) (off sectors_total : Z) : res (list Z) :=
  assert (0 <? sectors_total) ;;
  assert (dev_exists dev) ;;
  assert (u64 (lba + (sectors_total - 1)) <=? u64 (dev_size dev - 1)) ;;
  read_loop (Z.to_nat sectors_total) dev lba buffer off sectors_total 0.

(** ** Writing *)
Definition ata_write_int (dev : ata_device) (lba : Z) (buffer : list Z) (off sectors : Z) : res ata_device :=
  assert (dev_exists dev) ;;
  assert (u64 lba <=? u64 (dev_size dev - 1)) ;;
  m ← blit (media dev) (512 * lba28 lba) buffer off (512 * sectors);
  Ok (set_media m dev).
Fixpoint write_loop (fuel : nat) (dev : ata_device) (lba : Z) (buffer : list Z) (off sectors_total sectors_written : Z) : res ata_device :=
  if sectors_written <? sectors_total then
    match fuel with
    | O => NoFuel
    | S fuel =>
        k ← double_chunk 10 (sectors_total - sectors_written) (max_sectors_multiple dev) 1;
        let k := if max_sectors_multiple dev <? k then k / 2 else k in
        assert (0 <? k) ;;
        dev ← ata_write_int dev (lba + sectors_written) buffer (off + sectors_written * 512) k;
        write_loop fuel dev lba buffer off sectors_total (sectors_written + k)
    end
  else Ok dev.
Definition ata_write (dev : ata_device) (lba : Z) (buffer : list Z) (off sectors_total : Z) : res ata_device :=
  assert (0 <? sectors_total) ;;
  assert (dev_exists dev) ;;
  assert (u64 (lba + (sectors_total - 1)) <=? u64 (dev_size dev - 1)) ;;
  write_loop (Z.to_nat sectors_total) dev lba buffer off sectors_total 0.

(** ** Buffers of any size *)
Definition sectors_of (bytes : Z) : Z := if negb (bytes mod 512 =? 0) then bytes / 512 + 1 else bytes / 512.
Definition disk_read (dev : ata_device) (start_lba bytes : Z) (buffer : list Z) (off : Z) : res (list Z) :=
  assert (dev_exists dev && negb (is_atapi dev)) ;;
  assert (u64 (start_lba + sectors_of bytes) <=? u64 (dev_size dev - 1)) ;;
  ata_read dev start_lba buffer off (sectors_of bytes).
Definition disk_write (dev : ata_device) (start_lba bytes : Z) (buffer : list Z) (off : Z) : res ata_device :=
  assert (dev_exists dev && negb (is_atapi dev)) ;;
  assert (u64 (start_lba + sectors_of bytes) <=? u64 (dev_size dev - 1)) ;;
  ata_write dev start_lba buffer off (sectors_of bytes).

(** ** partition.c *)
Definition get32 (l : list Z) (o : Z) : res Z := lo ← get16 l o; hi ← get16 l (o + 2); Ok (lo + 65536 * hi).
Definition no_partition : partition := mk_part false false 0 0 0.

(** Entry [i] of the table in the MBR. *)
Definition parse_entry (buf : list Z) (i : Z) : res partition :=
  let o := 446 + 16 * i in
  system_id ← aget buf (o + 4);
  rel_sector ← get32 buf (o + 8);
  total ← get32 buf (o + 12);
  Ok (if (system_id =? 0) || (total =? 0) then no_partition
      else mk_part true (negb (Z.land system_id 0x80 =? 0)) system_id rel_sector total).
Definition parse_mbr (dev : ata_device) : res ata_device :=
  let none := replicate 4 no_partition in
  if negb (dev_exists dev) || is_atapi dev then Ok (set_partitions none dev)
  else
    buf ← ata_read dev 0 (replicate 512 0) 0 1;
    sig ← get16 buf 510;
    if negb (sig =? 0xAA55) then Ok (set_partitions none dev)
    else
      p0 ← parse_entry buf 0; p1 ← parse_entry buf 1; p2 ← parse_entry buf 2;
      Ok (set_partitions [p0; p1; p2; no_partition] dev).

(** ** Chunk sizes *)
(** A number of sectors that the loops split exactly: a power of two. *)
Lemma double_chunk_pow (b : nat) fuel rem max (j : nat) : (j <= b)%nat -> (b - j < fuel)%nat ->
  (forall i : nat, (i < b)%nat -> 2 ^ Z.of_nat i < rem /\ 2 ^ Z.of_nat i < max) ->
  rem <= 2 ^ Z.of_nat b \/ max <= 2 ^ Z.of_nat b -> double_chunk fuel rem max (2 ^ Z.of_nat j) = Ok (2 ^ Z.of_nat b).
Proof.
  revert j. induction fuel as [|fuel IH]; intros j Hj Hf Hlt Hge; [lia|]. cbn [double_chunk]. destruct (decide (j = b)) as [->|Hne].
  - assert ((2 ^ Z.of_nat b <? rem) && (2 ^ Z.of_nat b <? max) = false) as ->; [|done].
    apply andb_false_iff. rewrite !Z.ltb_ge. tauto.
  - destruct (Hlt j) as [H1 H2]; [lia|]. rewrite (proj2 (Z.ltb_lt _ rem)), (proj2 (Z.ltb_lt _ max)) by done. cbn [andb].
    replace (2 ^ Z.of_nat j * 2) with (2 ^ Z.of_nat (S j)) by (rewrite Nat2Z.inj_succ, Z.pow_succ_r by lia; lia). apply IH; (done || lia).
Qed.

(** The chunk for a request that is a multiple of [2 ^ b], where [2 ^ b] is the largest power of
    two the device and the request allow. *)
Record chunk (b : nat) (total max : Z) : Prop := {
  ch_max : 2 ^ Z.of_nat b <= max;
  ch_total : 2 ^ Z.of_nat b <= total;
  ch_largest : max < 2 ^ Z.of_nat (S b) \/ total = 2 ^ Z.of_nat b;
  ch_small : (b <= 7)%nat
}.

Lemma pow2_mono i j : (i <= j)%nat -> 2 ^ Z.of_nat i <= 2 ^ Z.of_nat j.
Proof. intros. apply Z.pow_le_mono_r; lia. Qed.
Lemma pow2_pos i : 0 < 2 ^ Z.of_nat i.
Proof. apply Z.pow_pos_nonneg; lia. Qed.
Lemma pow2_S i : 2 ^ Z.of_nat (S i) = 2 * 2 ^ Z.of_nat i.
Proof. rewrite Nat2Z.inj_succ, Z.pow_succ_r by lia. done. Qed.

(** What the doubling loop stops at. *)
Lemma double_chunk_ok b total max rem : chunk b total max -> 2 ^ Z.of_nat b <= rem <= total -> (rem = 2 ^ Z.of_nat b \/ 2 ^ Z.of_nat b < rem) ->
  exists c : nat, double_chunk 10 rem max 1 = Ok (2 ^ Z.of_nat c) /\ (c = b \/ c = S b /\ max < 2 ^ Z.of_nat c).
Proof.
  intros [H1 H2 H3 H4] Hr Hm. change 1 with (2 ^ Z.of_nat 0).
  assert (Hlow : forall i : nat, (i < b)%nat -> 2 ^ Z.of_nat i < 2 ^ Z.of_nat b) by (intros; apply Z.pow_lt_mono_r; lia).
  destruct (decide (rem <= 2 ^ Z.of_nat b \/ max <= 2 ^ Z.of_nat b)) as [Hs|Hs].
  - exists b. split; [|by left]. apply double_chunk_pow; [lia | lia | | done]. intros i Hi. specialize (Hlow i Hi). lia.
  - exists (S b). assert (max < 2 ^ Z.of_nat (S b)) by (destruct H3; [done | lia]). split; [|by right].
    apply double_chunk_pow; [lia | lia | | right; lia]. intros i Hi. assert (2 ^ Z.of_nat i <= 2 ^ Z.of_nat b) by (apply pow2_mono; lia). lia.
Qed.
Lemma halve_chunk_ok b total max c : chunk b total max -> c = b \/ c = S b /\ max < 2 ^ Z.of_nat c -> halve_chunk 10 total max (2 ^ Z.of_nat c) = Ok (2 ^ Z.of_nat b).
Proof.
  intros [H1 H2 H3 H4] Hc.
  assert (Hend : forall f, halve_chunk (S f) total max (2 ^ Z.of_nat b) = Ok (2 ^ Z.of_nat b)).
  { intros f. cbn [halve_chunk]. by rewrite (proj2 (Z.ltb_ge max _)), (proj2 (Z.ltb_ge total _)) by done. }
  destruct Hc as [-> | [-> Hlt]]; [apply Hend|]. cbn [halve_chunk]. rewrite (proj2 (Z.ltb_lt max _)) by done. cbn [orb].
  rewrite pow2_S, Z.mul_comm, Z.div_mul by done. apply (Hend 8%nat).
Qed.

(** ** Transfers *)
Lemma land_ones_split x a b : 0 <= a -> 0 <= b ->
  Z.lor (Z.shiftl (Z.land (Z.shiftr x a) (Z.ones b)) a) (Z.land x (Z.ones a)) = Z.land x (Z.ones (a + b)).
Proof.
  intros Ha Hb. apply Z.bits_inj'. intros n Hn. rewrite Z.lor_spec, Z.shiftl_spec, !Z.land_spec by done. destruct (decide (n < a)).
  - rewrite !(Z.testbit_neg_r _ (n - a)), !Z.ones_spec_low by lia. done.
  - rewrite (Z.ones_spec_high a), andb_false_r, orb_false_r, Z.shiftr_spec, Z.sub_add by lia. f_equal. destruct (decide (n < a + b)).
    + rewrite !Z.ones_spec_low by lia. done.
    + rewrite !Z.ones_spec_high by lia. done.
Qed.
Lemma lba28_small lba : 0 <= lba < 2 ^ 28 -> lba28 lba = lba.
Proof.
  intros H. unfold lba28. change 0xff with (Z.ones 8). change 0x0f with (Z.ones 4).
  rewrite !land_ones_split by lia. rewrite Z.land_ones by lia. by apply Z.mod_small.
Qed.

Definition dev_wf (d : ata_device) : Prop :=
  dev_exists d = true /\ 0 < dev_size d < 2 ^ 28 /\ zlen (media d) = 512 * dev_size d /\ 1 <= max_sectors_multiple d < 256.
(** The bytes of [n] sectors. *)
Definition sectors_at (m : list Z) (lba n : Z) : list Z := take (Z.to_nat (512 * n)) (drop (Z.to_nat (512 * lba)) m).

Lemma read_int_ok d lba buffer off n : dev_wf d -> 0 <= lba -> 0 < n -> lba + n <= dev_size d -> 0 <= off -> off + 512 * n <= zlen buffer ->
  ata_read_int d lba buffer off n = Ok (take (Z.to_nat off) buffer ++ sectors_at (media d) lba n ++ drop (Z.to_nat (off + 512 * n)) buffer).
Proof.
  intros (He & Hs & Hm & Hx) Hl Hn Hle Ho Hb. unfold ata_read_int, u64. rewrite He, !Z.mod_small, (proj2 (Z.leb_le _ _)) by lia. cbn [assert mbind res_bind].
  rewrite lba28_small by lia. apply blit_Ok; lia.
Qed.
Lemma write_int_ok d lba buffer off n : dev_wf d -> 0 <= lba -> 0 < n -> lba + n <= dev_size d -> 0 <= off -> off + 512 * n <= zlen buffer ->
  ata_write_int d lba buffer off n = Ok (set_media (take (Z.to_nat (512 * lba)) (media d) ++ take (Z.to_nat (512 * n)) (drop (Z.to_nat off) buffer)
    ++ drop (Z.to_nat (512 * lba + 512 * n)) (media d)) d).
Proof.
  intros (He & Hs & Hm & Hx) Hl Hn Hle Ho Hb. unfold ata_write_int, u64. rewrite He, !Z.mod_small, (proj2 (Z.leb_le _ _)) by lia. cbn [assert mbind res_bind].
  rewrite lba28_small, blit_Ok by lia. done.
Qed.

(** Two adjacent pieces written one after the other. *)
Lemma splice_adjacent {A} (l x y : list A) o : (o + length x + length y <= length l)%nat ->
  let l1 := take o l ++ x ++ drop (o + length x) l in
  take (o + length x) l1 ++ y ++ drop (o + length x + length y) l1 = take o l ++ (x ++ y) ++ drop (o + length (x ++ y)) l.
Proof.
  intros H l1. unfold l1. assert (Lt : length (take o l) = o) by (rewrite length_take; lia).
  assert (Lo : (o + length x)%nat = length (take o l ++ x)) by (rewrite length_app; lia).
  rewrite (app_assoc (take o l) x). rewrite (take_app_length' _ _ (o + length x)) by done. rewrite <- !app_assoc. do 3 f_equal.
  rewrite (app_assoc (take o l) x), drop_app_ge, drop_drop by lia. f_equal. rewrite <- Lo, length_app. lia.
Qed.
Lemma splice_at {A} (l x y : list A) o n m : 0 <= o -> 0 <= n -> 0 <= m -> length x = Z.to_nat n -> length y = Z.to_nat m -> o + n + m <= zlen l ->
  let l1 := take (Z.to_nat o) l ++ x ++ drop (Z.to_nat (o + n)) l in
  take (Z.to_nat (o + n)) l1 ++ y ++ drop (Z.to_nat (o + n + m)) l1 = take (Z.to_nat o) l ++ (x ++ y) ++ drop (Z.to_nat (o + n + m)) l.
Proof.
  intros Ho Hn Hm Lx Ly Hl. pose proof (splice_adjacent l x y (Z.to_nat o)) as H. cbv zeta in *. rewrite length_app, Lx, Ly in H. unfold zlen in Hl.
  replace (Z.to_nat (o + n)) with (Z.to_nat o + Z.to_nat n)%nat by lia. replace (Z.to_nat (o + n + m)) with (Z.to_nat o + Z.to_nat n + Z.to_nat m)%nat by lia.
  rewrite H by lia. do 3 f_equal. lia.
Qed.
Lemma sectors_at_app m lba a b : 0 <= lba -> 0 <= a -> 0 <= b -> sectors_at m lba (a + b) = sectors_at m lba a ++ sectors_at m (lba + a) b.
Proof.
  intros. unfold sectors_at. replace (Z.to_nat (512 * (a + b))) with (Z.to_nat (512 * a) + Z.to_nat (512 * b))%nat by lia.
  rewrite <- take_take_drop. f_equal. rewrite drop_drop. do 2 f_equal. lia.
Qed.
Lemma sectors_at_len m lba n : 0 <= lba -> 0 <= n -> 512 * (lba + n) <= zlen m -> length (sectors_at m lba n) = Z.to_nat (512 * n).
Proof. intros. unfold sectors_at, zlen in *. rewrite length_take, length_drop. lia. Qed.

Lemma read_loop_ok b d lba off total : dev_wf d -> chunk b total (max_sectors_multiple d) -> 0 <= lba -> lba + total <= dev_size d -> 0 <= off ->
  forall fuel done buffer (k : Z), 0 <= done <= total -> total - done = k * 2 ^ Z.of_nat b -> off + 512 * total <= zlen buffer -> (Z.to_nat (total - done) <= fuel)%nat ->
  read_loop fuel d lba buffer off total done =
    Ok (take (Z.to_nat (off + 512 * done)) buffer ++ sectors_at (media d) (lba + done) (total - done) ++ drop (Z.to_nat (off + 512 * total)) buffer).
Proof.
  intros Hd Hc Hl Hle Ho fuel. pose proof (pow2_pos b) as Hp. induction fuel as [|fuel IH]; intros dn buffer k Hdn Hk Hb Hf.
  { assert (dn = total) as -> by lia. unfold read_loop. rewrite Z.ltb_irrefl, Z.sub_diag. unfold sectors_at. by rewrite take_0, app_nil_l, take_drop. }
  cbn [read_loop]. destruct (Z.ltb_spec dn total) as [Hlt|Hge].
  2:{ assert (dn = total) as -> by lia. rewrite Z.sub_diag. unfold sectors_at. by rewrite take_0, app_nil_l, take_drop. }
  assert (Hk1 : 1 <= k) by nia. assert (Hrem : 2 ^ Z.of_nat b <= total - dn) by nia.
  destruct (double_chunk_ok b total (max_sectors_multiple d) (total - dn)) as (c & -> & Hcb); [done | lia | lia|]. cbn [mbind res_bind].
  rewrite (halve_chunk_ok b) by done. cbn [mbind res_bind]. rewrite (proj2 (Z.ltb_lt 0 _)) by done. cbn [assert mbind res_bind].
  rewrite read_int_ok by (done || lia). cbn [mbind res_bind]. set (s := 2 ^ Z.of_nat b) in *.
  pose proof Hd as (_ & _ & Hm & _).
  assert (L1 : length (sectors_at (media d) (lba + dn) s) = Z.to_nat (512 * s)) by (apply sectors_at_len; lia).
  assert (L2 : length (sectors_at (media d) (lba + (dn + s)) (total - (dn + s))) = Z.to_nat (512 * (total - (dn + s)))) by (apply sectors_at_len; lia).
  erewrite (IH (dn + s) _ (k - 1)); [|lia | lia | unfold zlen in *; rewrite !length_app, length_take, length_drop, L1; lia | lia].
  f_equal. replace (total - dn) with (s + (total - (dn + s))) by lia. rewrite sectors_at_app by lia.
  replace (lba + dn + s) with (lba + (dn + s)) by lia.
  set (x := sectors_at (media d) (lba + dn) s) in *. set (y := sectors_at (media d) (lba + (dn + s)) (total - (dn + s))) in *.
  replace (off + 512 * total) with (off + 512 * dn + 512 * s + 512 * (total - (dn + s))) by lia.
  rewrite <- (splice_at buffer x y (off + 512 * dn) (512 * s) (512 * (total - (dn + s)))) by (unfold zlen in *; lia).
  replace (off + dn * 512) with (off + 512 * dn) by lia. replace (off + 512 * (dn + s)) with (off + 512 * dn + 512 * s) by lia. done.
Qed.

(** The chunk of a request for a power of two. *)
Lemma chunk_exists (a : nat) max : 1 <= max < 256 -> exists b, chunk b (2 ^ Z.of_nat a) max /\ (b <= a)%nat.
Proof.
  intros Hm. induction a as [|a (b & [C1 C2 C3 C4] & Hb)].
  - exists O. split; [|lia]. split; [done || lia | done | by right | lia].
  - pose proof (pow2_S a). destruct (decide (max < 2 ^ Z.of_nat (S b))) as [Hlt|Hge].
    + exists b. split; [|lia]. split; [done | rewrite pow2_S; pose proof (pow2_pos a); lia | by left | done].
    + assert (2 ^ Z.of_nat a = 2 ^ Z.of_nat b) by (destruct C3; [lia | done]). assert (a = b) as -> by (apply Nat2Z.inj, (Z.pow_inj_r 2); lia).
      exists (S b). split; [|lia]. split; [lia | done | by right|]. destruct (decide (b = 7)%nat) as [->|]; [cbn in Hge; lia | lia].
Qed.
Lemma pow2_divides (a b : nat) : (b <= a)%nat -> 2 ^ Z.of_nat a = 2 ^ Z.of_nat (a - b) * 2 ^ Z.of_nat b.
Proof. intros. rewrite <- Z.pow_add_r by lia. f_equal. lia. Qed.

(** A number of sectors that the loops cut exactly into chunks: a power of two, or a multiple of the largest power of
    two that the device moves with one command. *)
Definition whole (d : ata_device) (n : Z) : Prop := 0 < n /\ exists b, chunk b n (max_sectors_multiple d) /\ (2 ^ Z.of_nat b | n).
Lemma whole_pow2 d (a : nat) : dev_wf d -> whole d (2 ^ Z.of_nat a).
Proof.
  intros (_ & _ & _ & Hx). split; [apply pow2_pos|]. destruct (chunk_exists a _ Hx) as (b & Hc & Hba).
  exists b. split; [done|]. exists (2 ^ Z.of_nat (a - b)). by apply pow2_divides.
Qed.
Lemma whole_multiple d (b : nat) k : dev_wf d -> 2 ^ Z.of_nat b <= max_sectors_multiple d < 2 ^ Z.of_nat (S b) -> 0 < k -> whole d (k * 2 ^ Z.of_nat b).
Proof.
  intros (_ & _ & _ & Hx) Hb Hk. pose proof (pow2_pos b). split; [nia|]. exists b. split; [|by exists k].
  split; [lia | nia | left; lia|]. destruct (decide (b <= 7)%nat); [done|]. assert (2 ^ Z.of_nat 8 <= 2 ^ Z.of_nat b) by (apply pow2_mono; lia). cbn in *. lia.
Qed.

Lemma ata_read_whole n d lba buffer off : dev_wf d -> whole d n -> 0 <= lba -> lba + n <= dev_size d -> 0 <= off -> off + 512 * n <= zlen buffer ->
  ata_read d lba buffer off n = Ok (take (Z.to_nat off) buffer ++ sectors_at (media d) lba n ++ drop (Z.to_nat (off + 512 * n)) buffer).
Proof.
  intros Hd (Hp & b & Hc & k & Hk) Hl Hle Ho Hb. pose proof Hd as (He & Hs & Hm & Hx).
  unfold ata_read, u64. rewrite (proj2 (Z.ltb_lt 0 _)), He, !Z.mod_small, (proj2 (Z.leb_le _ _)) by lia. cbn [assert mbind res_bind].
  rewrite (read_loop_ok b _ _ _ _ Hd Hc) with (k := k); [|lia..]. by rewrite Z.mul_0_r, !Z.add_0_r, Z.sub_0_r.
Qed.
Lemma ata_read_ok (a : nat) d lba buffer off : dev_wf d -> 0 <= lba -> lba + 2 ^ Z.of_nat a <= dev_size d -> 0 <= off ->
  off + 512 * 2 ^ Z.of_nat a <= zlen buffer ->
  ata_read d lba buffer off (2 ^ Z.of_nat a) =
    Ok (take (Z.to_nat off) buffer ++ sectors_at (media d) lba (2 ^ Z.of_nat a) ++ drop (Z.to_nat (off + 512 * 2 ^ Z.of_nat a)) buffer).
Proof. intros. apply ata_read_whole; try done. by apply whole_pow2. Qed.

(** Reading a power of two of sectors.  [ata_read] fills exactly the part of the buffer it was
    given with exactly the sectors asked for, whatever the device's limit for one command, and
    leaves the rest of the buffer alone. *)
Theorem ata_read_correct (a : nat) d lba buffer off : dev_wf d -> 0 <= lba -> lba + 2 ^ Z.of_nat a <= dev_size d -> 0 <= off ->
  off + 512 * 2 ^ Z.of_nat a <= zlen buffer ->
  ata_read d lba buffer off (2 ^ Z.of_nat a) =
    Ok (take (Z.to_nat off) buffer ++ sectors_at (media d) lba (2 ^ Z.of_nat a) ++ drop (Z.to_nat (off + 512 * 2 ^ Z.of_nat a)) buffer).
Proof. apply ata_read_ok. Qed.

(** ** Writing *)
Lemma set_media_wf m d : dev_wf d -> zlen m = zlen (media d) -> dev_wf (set_media m d).
Proof. intros (? & ? & ? & ?) ?. unfold dev_wf. cbn. split_and!; (done || lia). Qed.

Lemma write_loop_ok b lba buffer off total : 0 <= lba -> 0 <= off -> off + 512 * total <= zlen buffer ->
  forall fuel d done (k : Z), dev_wf d -> chunk b total (max_sectors_multiple d) -> lba + total <= dev_size d ->
  0 <= done <= total -> total - done = k * 2 ^ Z.of_nat b -> (Z.to_nat (total - done) <= fuel)%nat ->
  write_loop fuel d lba buffer off total done =
    Ok (set_media (take (Z.to_nat (512 * lba + 512 * done)) (media d) ++ take (Z.to_nat (512 * (total - done))) (drop (Z.to_nat (off + 512 * done)) buffer)
                     ++ drop (Z.to_nat (512 * lba + 512 * total)) (media d)) d).
Proof.
  intros Hl Ho Hb fuel. pose proof (pow2_pos b) as Hp.
  assert (Hend : forall d dn, 0 <= dn -> dn = total ->
    set_media (take (Z.to_nat (512 * lba + 512 * dn)) (media d) ++ take (Z.to_nat (512 * (total - dn))) (drop (Z.to_nat (off + 512 * dn)) buffer)
      ++ drop (Z.to_nat (512 * lba + 512 * total)) (media d)) d = d).
  { intros d dn _ ->. rewrite Z.sub_diag, take_0, app_nil_l, take_drop. by destruct d. }
  induction fuel as [|fuel IH]; intros d dn k Hd Hc Hle Hdn Hk Hf.
  { assert (dn = total) by lia. unfold write_loop. rewrite (proj2 (Z.ltb_ge _ _)), Hend by lia. done. }
  cbn [write_loop]. destruct (Z.ltb_spec dn total) as [Hlt|Hge]; [|rewrite Hend by lia; done].
  assert (Hk1 : 1 <= k) by nia. assert (Hrem : 2 ^ Z.of_nat b <= total - dn) by nia.
  destruct (double_chunk_ok b total (max_sectors_multiple d) (total - dn)) as (c & -> & Hcb); [done | lia | lia|]. cbn [mbind res_bind].
  assert ((if max_sectors_multiple d <? 2 ^ Z.of_nat c then 2 ^ Z.of_nat c / 2 else 2 ^ Z.of_nat c) = 2 ^ Z.of_nat b) as ->.
  { destruct Hcb as [-> | [-> Hx]]; [rewrite (proj2 (Z.ltb_ge _ _)) by apply Hc; done|]. rewrite (proj2 (Z.ltb_lt _ _)) by done.
    by rewrite pow2_S, Z.mul_comm, Z.div_mul by done. }
  rewrite (proj2 (Z.ltb_lt 0 _)) by done. cbn [assert mbind res_bind]. rewrite write_int_ok by (done || lia). cbn [mbind res_bind].
  set (s := 2 ^ Z.of_nat b) in *. pose proof Hd as (_ & _ & Hm & _). unfold zlen in Hb, Hm.
  set (x := take (Z.to_nat (512 * s)) (drop (Z.to_nat (off + dn * 512)) buffer)).
  assert (Lx : length x = Z.to_nat (512 * s)) by (unfold x; rewrite length_take, length_drop; lia).
  rewrite (IH _ (dn + s) (k - 1)); [|apply set_media_wf; [done|]; unfold zlen; rewrite !length_app, length_take, length_drop, Lx; lia | done | done | lia | lia | lia].
  cbn [set_media media]. f_equal. set (y := take (Z.to_nat (512 * (total - (dn + s)))) _).
  assert (Ly : length y = Z.to_nat (512 * (total - (dn + s)))) by (unfold y; rewrite length_take, length_drop; lia).
  assert (Exy : take (Z.to_nat (512 * (total - dn))) (drop (Z.to_nat (off + 512 * dn)) buffer) = x ++ y).
  { unfold x, y. replace (Z.to_nat (512 * (total - dn))) with (Z.to_nat (512 * s) + Z.to_nat (512 * (total - (dn + s))))%nat by lia.
    rewrite <- take_take_drop, drop_drop. f_equal; [do 2 f_equal; lia|]. do 2 f_equal. lia. }
  rewrite Exy. replace (512 * (lba + dn)) with (512 * lba + 512 * dn) by lia.
  replace (512 * lba + 512 * total) with (512 * lba + 512 * dn + 512 * s + 512 * (total - (dn + s))) by lia.
  rewrite <- (splice_at (media d) x y (512 * lba + 512 * dn) (512 * s) (512 * (total - (dn + s)))) by (unfold zlen; lia).
  replace (512 * lba + 512 * (dn + s)) with (512 * lba + 512 * dn + 512 * s) by lia. done.
Qed.

Lemma ata_write_ok n d lba buffer off : dev_wf d -> whole d n -> 0 <= lba -> lba + n <= dev_size d -> 0 <= off -> off + 512 * n <= zlen buffer ->
  ata_write d lba buffer off n =
    Ok (set_media (take (Z.to_nat (512 * lba)) (media d) ++ take (Z.to_nat (512 * n)) (drop (Z.to_nat off) buffer) ++ drop (Z.to_nat (512 * lba + 512 * n)) (media d)) d).
Proof.
  intros Hd (Hp & b & Hc & k & Hk) Hl Hle Ho Hb. pose proof Hd as (He & Hs & Hm & Hx).
  unfold ata_write, u64. rewrite (proj2 (Z.ltb_lt 0 _)), He, !Z.mod_small, (proj2 (Z.leb_le _ _)) by lia. cbn [assert mbind res_bind].
  rewrite (write_loop_ok b) with (k := k); [|done || lia..]. by rewrite Z.mul_0_r, !Z.add_0_r, Z.sub_0_r.
Qed.

(** C35: Data survive the disk, for requests that the loops cut exactly into chunks (a power of two of sectors, or a multiple
    of the largest power of two the device moves with one command): what [ata_write] stored is what a later [ata_read] of the same
    sectors returns, nothing of the reader's buffer outside of its part changes, and no byte of any other sector has changed.  For other
    numbers of sectors [ata_write_extra_sector] and [ata_read_overruns] show that the loops go too far. *)
Theorem ata_write_read n d lba buffer off out ooff : dev_wf d -> whole d n -> 0 <= lba -> lba + n <= dev_size d -> 0 <= off ->
  off + 512 * n <= zlen buffer -> 0 <= ooff -> ooff + 512 * n <= zlen out ->
  exists d', ata_write d lba buffer off n = Ok d' /\ dev_wf d' /\
    ata_read d' lba out ooff n = Ok (take (Z.to_nat ooff) out ++ take (Z.to_nat (512 * n)) (drop (Z.to_nat off) buffer) ++ drop (Z.to_nat (ooff + 512 * n)) out) /\
    (forall i, (i < Z.to_nat (512 * lba))%nat \/ (Z.to_nat (512 * (lba + n)) <= i)%nat -> media d' !! i = media d !! i).
Proof.
  intros Hd Hn Hl Hle Ho Hb Hoo Hob. rewrite ata_write_ok by done. assert (0 < n) by apply Hn.
  pose proof Hd as (_ & _ & Hm & _). unfold zlen in Hb, Hm, Hob. set (x := take (Z.to_nat (512 * n)) (drop (Z.to_nat off) buffer)).
  assert (Lx : length x = Z.to_nat (512 * n)) by (unfold x; rewrite length_take, length_drop; lia).
  set (d' := set_media _ d). assert (Hd' : dev_wf d').
  { apply set_media_wf; [done|]. unfold zlen. rewrite !length_app, length_take, length_drop, Lx. lia. }
  exists d'. split; [done|]. split; [done|]. split.
  - rewrite ata_read_whole by (done || unfold zlen; lia). f_equal. f_equal. f_equal. unfold sectors_at, d'. cbn [set_media media].
    rewrite drop_app_length' by (rewrite length_take; lia). apply take_app_length'. done.
  - intros i Hi. unfold d'. cbn [set_media media]. destruct Hi as [Hi|Hi].
    + rewrite lookup_app_l, lookup_take_lt by (rewrite ?length_take; lia). done.
    + rewrite lookup_app_r, lookup_app_r, lookup_drop by (rewrite ?length_take, ?Lx; lia). f_equal. rewrite length_take, Lx. lia.
Qed.

(** A request that is not a power of two: reading 7 sectors with a device that can move 16 at a
    time goes past the end of a buffer of 7 sectors (the second chunk is 4 sectors, since it is
    compared with the total and not with what is left). *)
Definition demo_dev : ata_device := mk_dev true false 16 16 (replicate 4 no_partition) (replicate (Z.to_nat 8192) 7).
Theorem ata_read_overruns : ata_read demo_dev 0 (replicate (7 * 512) 0) 0 7 = Undef.
Proof. by vm_compute. Qed.
(** Writing 3 sectors writes 4: the sector after them is overwritten with what follows the data. *)
Theorem ata_write_extra_sector : exists d', ata_write demo_dev 0 (replicate (3 * 512) 1 ++ replicate 512 9) 0 3 = Ok d' /\
  media demo_dev !! 1600%nat = Some 7 /\ media d' !! 1600%nat = Some 9.
Proof. eexists. split; [vm_compute; reflexivity | by vm_compute]. Qed.

Lemma demo_dev_wf : dev_wf demo_dev.
Proof. repeat split; by vm_compute. Qed.
Lemma ata_read_witness : ata_read demo_dev 3 (replicate 4096 0) 512 (2 ^ Z.of_nat 2) = Ok (replicate 512 0 ++ replicate 2048 7 ++ replicate 1536 0).
Proof.
  rewrite (ata_read_correct 2 demo_dev 3 (replicate 4096 0) 512 demo_dev_wf); [by vm_compute | lia | by vm_compute | lia | by vm_compute].
Defined.
(** The device of two sectors at a time: six sectors are three chunks. *)
Definition demo_dev2 : ata_device := mk_dev true false 16 2 (replicate 4 no_partition) (replicate (Z.to_nat 8192) 7).
Lemma ata_write_witness : exists d', ata_write demo_dev2 3 (replicate 4096 1) 0 6 = Ok d' /\ media d' !! 1535%nat = media demo_dev2 !! 1535%nat.
Proof.
  assert (Hw : dev_wf demo_dev2) by (repeat split; by vm_compute).
  assert (H6 : whole demo_dev2 6) by (apply (whole_multiple demo_dev2 1 3 Hw); by vm_compute).
  destruct (ata_write_read 6 demo_dev2 3 (replicate 4096 1) 0 (replicate 3072 0) 0 Hw H6) as (d' & H1 & _ & _ & H2); [lia | by vm_compute | lia | by vm_compute | lia | by vm_compute|].
  exists d'. split; [exact H1|]. apply H2. left. change (Z.to_nat (512 * 3)) with 1536%nat. lia.
Defined.

(** ** The partition table *)
Lemma get16_some l o : 0 <= o -> o + 2 <= zlen l -> exists v, get16 l o = Ok v.
Proof.
  intros. unfold get16. destruct (aget_is_Ok l o) as (a & -> & _); [lia|]. destruct (aget_is_Ok l (o + 1)) as (b & -> & _); [lia|]. cbn. eauto.
Qed.
Lemma get32_some l o : 0 <= o -> o + 4 <= zlen l -> exists v, get32 l o = Ok v.
Proof.
  intros. unfold get32. destruct (get16_some l o) as [a ->]; [lia.. |]. destruct (get16_some l (o + 2)) as [b ->]; [lia.. |]. cbn. eauto.
Qed.
Lemma parse_entry_some buf i : zlen buf = 512 -> 0 <= i < 4 -> exists p, parse_entry buf i = Ok p.
Proof.
  intros Hl Hi. unfold parse_entry. destruct (aget_is_Ok buf (446 + 16 * i + 4)) as (a & -> & _); [lia|]. cbn [mbind res_bind].
  destruct (get32_some buf (446 + 16 * i + 8)) as [b ->]; [lia.. |]. destruct (get32_some buf (446 + 16 * i + 12)) as [c ->]; [lia.. |]. cbn. eauto.
Qed.

(** [parse_mbr] of a disk: with the boot signature, the first three entries of the table are the
    device's first three partitions; without it there are none.  In every case the fourth
    partition is missing, although a table has four. *)
Theorem parse_mbr_correct d : dev_wf d -> is_atapi d = false ->
  exists d', parse_mbr d = Ok d' /\ media d' = media d /\ partitions d' !! 3%nat = Some no_partition /\
    let mbr := take 512 (media d) in
    (get16 mbr 510 = Ok 0xAA55 -> forall i : nat, (i < 3)%nat -> exists p, parse_entry mbr (Z.of_nat i) = Ok p /\ partitions d' !! i = Some p) /\
    (get16 mbr 510 <> Ok 0xAA55 -> partitions d' = replicate 4 no_partition).
Proof.
  intros Hd Ha. pose proof Hd as (He & Hs & Hm & _). unfold parse_mbr. rewrite He, Ha. cbn [negb orb].
  change (ata_read d 0 (replicate 512 0) 0 1) with (ata_read d 0 (replicate 512 0) 0 (2 ^ Z.of_nat 0)).
  rewrite ata_read_ok by (done || lia). cbn [mbind res_bind]. change (2 ^ Z.of_nat 0) with 1.
  change (Z.to_nat 0) with O. rewrite take_0, app_nil_l, (drop_ge (replicate 512 0)), app_nil_r by (rewrite length_replicate; lia).
  change (sectors_at (media d) 0 1) with (take 512 (media d)). set (mbr := take 512 (media d)).
  assert (Hl : zlen mbr = 512) by (unfold mbr, zlen in *; rewrite length_take; lia).
  destruct (get16_some mbr 510) as [v ->]; [lia.. |]. cbn [mbind res_bind]. destruct (Z.eqb_spec v 0xAA55) as [->|Hv]; cbn [negb].
  - destruct (parse_entry_some mbr 0 Hl) as [p0 E0]; [lia|]. destruct (parse_entry_some mbr 1 Hl) as [p1 E1]; [lia|]. destruct (parse_entry_some mbr 2 Hl) as [p2 E2]; [lia|].
    rewrite E0, E1, E2. cbn [mbind res_bind]. eexists. split; [done|]. split; [done|]. split; [done|]. split; [|done].
    intros _ i Hi. destruct i as [|[|[|i]]]; [by exists p0 | by exists p1 | by exists p2 | lia].
  - eexists. split; [done|]. split; [done|]. split; [done|]. split; [by intros [=]|done].
Qed.
(** The bootable flag is taken from the type byte and not from the boot indicator. *)
Theorem parse_entry_bootable : exists buf, parse_entry buf 0 = Ok (mk_part true true 0x83 1 1) /\ aget buf 446 = Ok 0.
Proof. exists (replicate 450 0 ++ [0x83; 0; 0; 0; 1; 0; 0; 0; 1; 0; 0; 0]). by vm_compute. Qed.
