(* ===== verification/Ext2.v ===== *)
(** * ext2: inodes and file contents (src/src/kernel/ext2.c)

    The structures on disk are bytes, read through [ata_read]; an inode is its 128 bytes with
    accessors for the fields the code uses.  A buffer of [kmalloc] is a byte list: access
    outside of it is [Undef], a failed [assert] is [Panic]. *)
From S2P Require Import Prelude CString Net NetSum NetSend Ata.

Definition EXT2_ROOT_INO : Z := 2.

(** [ext2_partition_t]: the superblock fields the code uses, the partition's first sector, the
    block group descriptors and the mount point. *)
Record ext2_partition := mk_ext2 {
  dev : ata_device;
  part_start : Z;
  s_blocks_count : Z; s_log_block_size : Z; s_blocks_per_group : Z; s_inodes_per_group : Z;
  bgdt : list Z;
  blocksize : Z;
  mp_path : list Z; mp_depth : Z
}.

(** ** Fields *)
(** The [uint32]s of a block. *)
Fixpoint words32 (l : list Z) : list Z :=
  match l with
  | a :: b :: c :: d :: l => a + 256 * b + 65536 * (c + 256 * d) :: words32 l
  | _ => []
  end.
Definition i_mode (inode : list Z) : res Z := get16 inode 0.
Definition i_size (inode : list Z) : res Z := get32 inode 4.
Definition i_atime (inode : list Z) : res Z := get32 inode 8.
Definition i_ctime (inode : list Z) : res Z := get32 inode 12.
Definition i_mtime (inode : list Z) : res Z := get32 inode 16.
Definition i_links_count (inode : list Z) : res Z := get16 inode 26.
Definition i_blocks (inode : list Z) : res Z := get32 inode 28.
Definition i_direct (inode : list Z) : list Z := words32 (take 48 (drop 40 inode)).
Definition i_singly (inode : list Z) : res Z := get32 inode 88.
Definition i_doubly (inode : list Z) : res Z := get32 inode 92.
Definition i_triply (inode : list Z) : res Z := get32 inode 96.

Definition EXT2_ISDIR (mode : Z) : bool := Z.land mode 0x4000 =? 0x4000.
Definition EXT2_ISLNK (mode : Z) : bool := Z.land mode 0xA000 =? 0xA000.

(** ** Addresses *)
Definition block_to_abs_lba (part : ext2_partition) (block : Z) : Z :=
  let sectors_per_block := Z.shiftl 1024 (s_log_block_size part) / 512 in
  u32 (part_start part + block * sectors_per_block).
Definition bgrp_for_inode (part : ext2_partition) (inode : Z) : res Z :=
  if s_inodes_per_group part =? 0 then Undef else Ok (u32 (inode - 1) / s_inodes_per_group part).
Definition local_index_for_inode (part : ext2_partition) (inode : Z) : res Z :=
  if s_inodes_per_group part =? 0 then Undef else Ok (u32 (inode - 1) mod s_inodes_per_group part).

Definition ext2_read_inode (part : ext2_partition) (inode : Z) : res (list Z) :=
  assert (EXT2_ROOT_INO <=? inode) ;;
  bgrp ← bgrp_for_inode part inode;
  index ← local_index_for_inode part inode;
  inode_table_block ← get32 (bgdt part) (bgrp * 32 + 8);
  let offset := u32 (index * 128) in
  if blocksize part =? 0 then Undef else
  let block_offset := offset / blocksize part in
  let offset := offset mod blocksize part in
  assert (offset mod 128 =? 0) ;;
  inode_buf ← ata_read (dev part) (u32 (block_to_abs_lba part (u32 (inode_table_block + block_offset)) + offset / 512)) (replicate 512 0) 0 1;
  bytes inode_buf (offset mod 512) 128.

(** A block read into a new buffer of the size of one. *)
Definition read_block (part : ext2_partition) (block : Z) : res (list Z) :=
  ata_read (dev part) (block_to_abs_lba part block) (replicate (Z.to_nat (blocksize part)) 0) 0 (blocksize part / 512).

(** ** File contents *)
Fixpoint direct_loop (part : ext2_partition) (blocklist : list Z) (n : nat) (i : Z) (buf : list Z) (off : Z) : res (list Z) :=
  match n with
  | O => Ok buf
  | S n =>
      b ← aget blocklist i;
      buf ← (if b =? 0 then Ok buf
             else ata_read (dev part) (block_to_abs_lba part b) buf (off + i * blocksize part) (blocksize part / 512));
      direct_loop part blocklist n (i + 1) buf off
  end.
(** [buf + off] receives the blocks. *)
Definition read_direct_blocks (part : ext2_partition) (blocklist : list Z) (num : Z) (buf : list Z) (off : Z) : res (list Z) :=
  b0 ← aget blocklist 0;
  assert (negb (b0 =? 0)) ;;
  assert (0 <? num) ;;
  direct_loop part blocklist (Z.to_nat num) 0 buf off.

Definition read_singly_indirect_blocks (part : ext2_partition) (singly_block max_num : Z) (buf : list Z) (off : Z) : res (list Z) :=
  assert (EXT2_ROOT_INO <? singly_block) ;;
  assert (max_num <=? blocksize part / 4) ;;
  blocklist ← read_block part singly_block;
  read_direct_blocks part (words32 blocklist) max_num buf off.

(** [for (i = 0; num > read_data_blocks && i < blocksize/4; i++)] over the blocks of singly
    indirect pointers: how many data blocks were read, and the buffer. *)
Fixpoint doubly_loop (part : ext2_partition) (singly_blocks : list Z) (num read_data_blocks : Z) (buf : list Z) (off : Z) : res (Z * list Z) :=
  match singly_blocks with
  | [] => Ok (read_data_blocks, buf)
  | singly :: rest =>
      if num <=? read_data_blocks then Ok (read_data_blocks, buf)
      else if singly =? 0 then doubly_loop part rest num read_data_blocks buf off
      else
        let n := Z.min (num - read_data_blocks) (blocksize part / 4) in
        buf ← read_singly_indirect_blocks part singly n buf (off + read_data_blocks * blocksize part);
        doubly_loop part rest num (read_data_blocks + n) buf off
  end.
Definition read_doubly_indirect_blocks (part : ext2_partition) (doubly_block num : Z) (buf : list Z) (off : Z) : res (Z * list Z) :=
  assert (EXT2_ROOT_INO <? doubly_block) ;;
  assert (num <=? (blocksize part / 4) * (blocksize part / 4)) ;;
  singly_blocks ← read_block part doubly_block;
  doubly_loop part (words32 singly_blocks) num 0 buf off.

Fixpoint triply_loop (part : ext2_partition) (doubly_blocks : list Z) (num read_data_blocks : Z) (buf : list Z) (off : Z) : res (Z * list Z) :=
  match doubly_blocks with
  | [] => Ok (read_data_blocks, buf)
  | doubly :: rest =>
      if num <=? read_data_blocks then Ok (read_data_blocks, buf)
      else if doubly =? 0 then triply_loop part rest num read_data_blocks buf off
      else
        let n := Z.min (num - read_data_blocks) (blocksize part / 4 * blocksize part / 4) in
        '(k, buf) ← read_doubly_indirect_blocks part doubly n buf (off + read_data_blocks * blocksize part);
        triply_loop part rest num (read_data_blocks + k) buf off
  end.
Definition read_triply_indirect_blocks (part : ext2_partition) (triply_block num : Z) (buf : list Z) (off : Z) : res (Z * list Z) :=
  assert (EXT2_ROOT_INO <? triply_block) ;;
  doubly_blocks ← read_block part triply_block;
  triply_loop part (words32 doubly_blocks) num 0 buf off.

(** [ext2_read_file]: the data and the size. *)
Definition ext2_read_file (part : ext2_partition) (inode_num : Z) : res (list Z * Z) :=
  assert (EXT2_ROOT_INO <=? inode_num) ;;
  inode ← ext2_read_inode part inode_num;
  blocks ← i_blocks inode;
  let num_blocks := blocks / Z.shiftl 2 (s_log_block_size part) in
  assert (0 <? num_blocks) ;;
  size ← i_size inode;
  let bs := blocksize part in
  let file_data := replicate (Z.to_nat (u32 (num_blocks * bs))) 0 in
  let n := Z.min 12 num_blocks in
  file_data ← read_direct_blocks part (i_direct inode) n file_data 0;
  let read_blocks := n in
  '(read_blocks, file_data) ←
    (if read_blocks <? num_blocks then
       let n := Z.min (num_blocks - read_blocks) (bs / 4) in
       singly ← i_singly inode;
       file_data ← read_singly_indirect_blocks part singly n file_data (read_blocks * bs);
       Ok (read_blocks + n, file_data)
     else Ok (read_blocks, file_data));
  '(read_blocks, file_data) ←
    (if read_blocks <? num_blocks then
       let n := Z.min (num_blocks - read_blocks) (bs / 4 * bs / 4) in
       doubly ← i_doubly inode;
       '(_, file_data) ← read_doubly_indirect_blocks part doubly n file_data (read_blocks * bs);
       Ok (read_blocks + n, file_data)
     else Ok (read_blocks, file_data));
  '(_, file_data) ←
    (if read_blocks <? num_blocks then
       triply ← i_triply inode;
       '(_, file_data) ← read_triply_indirect_blocks part triply (num_blocks - read_blocks) file_data (read_blocks * bs);
       Ok (num_blocks, file_data)
     else Ok (read_blocks, file_data));
  Ok (file_data, size).

(** ** Mounting *)
Definition PART_LINUX : Z := 0x83.
(** [ext2_detect]: the partition's entry; its mount point is set later. *)
Definition ext2_detect (d : ata_device) (part : Z) : res ext2_partition :=
  assert (dev_exists d) ;;
  assert (negb (is_atapi d)) ;;
  assert (part <=? 3) ;;
  p ← aget (partitions d) part;
  assert (p_exists p) ;;
  assert (p_type p =? PART_LINUX) ;;
  buf ← ata_read d (u32 (start_lba p + 2)) (replicate 1024 0) 0 2;
  blocks_count ← get32 buf 4; log_block_size ← get32 buf 24; blocks_per_group ← get32 buf 32; inodes_per_group ← get32 buf 40;
  let info := mk_ext2 d (start_lba p) blocks_count log_block_size blocks_per_group inodes_per_group [] (u32 (Z.shiftl 1024 log_block_size)) [] 0 in
  if blocks_per_group =? 0 then Undef else
  let bgdt_size := u32 (u32 (blocks_count / blocks_per_group + 1) * 32) in
  let num_bgdt_sectors := if bgdt_size mod 512 =? 0 then bgdt_size / 512 else bgdt_size / 512 + 1 in
  bgd ← ata_read d (block_to_abs_lba info (if log_block_size =? 0 then 2 else 1)) (replicate (Z.to_nat (num_bgdt_sectors * 512)) 0) 0 num_bgdt_sectors;
  Ok (mk_ext2 d (start_lba p) blocks_count log_block_size blocks_per_group inodes_per_group bgd (u32 (Z.shiftl 1024 log_block_size)) [] 0).

(** ** Symbolic links *)
(** [ext2_readlink_inode]: the buffer and the length, or an error and no change. *)
Definition ext2_readlink_inode (part : ext2_partition) (inode_num : Z) (inode link_path : list Z) (bufsize : Z) : res (list Z * ret) :=
  assert (EXT2_ROOT_INO <=? inode_num) ;;
  assert (negb (bufsize =? 0)) ;;
  mode ← i_mode inode; size ← i_size inode; blocks ← i_blocks inode;
  if negb (EXT2_ISLNK mode) then Ok (link_path, Err EINVAL)
  else if bufsize <? u32 (size + 1) then Ok (link_path, Err ENAMETOOLONG)
  else if (size <=? 60) && (blocks =? 0) then
    l ← blit link_path 0 inode 40 size;
    l ← aset l size 0;
    Ok (l, Val size)
  else
    assert (0 <? blocks) ;;
    d0 ← aget (i_direct inode) 0;
    assert (EXT2_ROOT_INO <? d0) ;;
    '(buf, fsize) ← ext2_read_file part inode_num;
    assert (size =? fsize) ;;
    l ← blit link_path 0 buf 0 size;
    l ← aset l size 0;
    Ok (l, Val size).
