(* ===== verification/Ext2File.v ===== *)
(** * ext2: what [ext2_read_file] reads

    The block list of a file, as the on-disk format defines it, is the direct pointers followed
    by those that one, two and three levels of indirection give ([file_blocks]); a file's data
    is the concatenation of its blocks, a hole being zeroes ([content]).  The loops over direct,
    singly, doubly and triply indirect blocks read exactly that. *)
From S2P Require Import Prelude CString Net NetSum NetSend Ata Ext2.

(** ** Specification *)
Record part_wf (part : ext2_partition) : Prop := {
  pw_dev : dev_wf (dev part);
  pw_log : 0 <= s_log_block_size part <= 5;
  pw_bs : blocksize part = 1024 * 2 ^ s_log_block_size part;
  pw_start : 0 <= part_start part
}.

Section file.
Context (part : ext2_partition) (Hw : part_wf part).
Local Abbreviation bs := (blocksize part).

(** Sectors per block and pointers per block. *)
Definition spb : Z := bs / 512.
Definition ppb : Z := bs / 4.
Definition on_disk (b : Z) : Prop := 0 <= b /\ part_start part + (b + 1) * spb <= dev_size (dev part).
Definition block (b : Z) : list Z := sectors_at (media (dev part)) (part_start part + b * spb) spb.
Definition ptrs (b : Z) : list Z := words32 (block b).
Definition zeros (k : Z) : list Z := replicate (Z.to_nat k) 0.
Definition content (b : Z) : list Z := if b =? 0 then zeros bs else block b.

Definition blk_ok (b : Z) : Prop := b = 0 \/ on_disk b.
(** A pointer to a block of pointers of which [k] are needed; the code insists that the first
    of them is not a hole. *)
Definition single_ok (s k : Z) : Prop :=
  2 < s /\ on_disk s /\ (exists b, head (ptrs s) = Some b /\ b <> 0) /\ Forall blk_ok (take (Z.to_nat k) (ptrs s)).
(** Pointers through which [m] data blocks are needed, at one and at two levels. *)
Fixpoint singles_ok (l : list Z) (m : Z) : Prop :=
  match l with
  | [] => m <= 0
  | s :: l => m <= 0 \/ single_ok s (Z.min m ppb) /\ singles_ok l (m - ppb)
  end.
Fixpoint doubles_ok (l : list Z) (m : Z) : Prop :=
  match l with
  | [] => m <= 0
  | d :: l => m <= 0 \/ (2 < d /\ on_disk d /\ singles_ok (ptrs d) (Z.min m (ppb * ppb))) /\ doubles_ok l (m - ppb * ppb)
  end.

(** The pointers of an inode. *)
Record inode_ptrs := mk_ptrs { direct : list Z; singly : Z; doubly : Z; triply : Z }.
Definition file_blocks (p : inode_ptrs) : list Z :=
  direct p ++ ptrs (singly p) ++ (ptrs (doubly p) ≫= ptrs) ++ ((ptrs (triply p) ≫= ptrs) ≫= ptrs).
Record file_ok (p : inode_ptrs) (n : Z) : Prop := {
  fo_direct : length (direct p) = 12%nat /\ (exists b, head (direct p) = Some b /\ b <> 0) /\ Forall blk_ok (take (Z.to_nat n) (direct p));
  fo_singly : 12 < n -> single_ok (singly p) (Z.min (n - 12) ppb);
  fo_doubly : 12 + ppb < n -> 2 < doubly p /\ on_disk (doubly p) /\ singles_ok (ptrs (doubly p)) (Z.min (n - 12 - ppb) (ppb * ppb));
  fo_triply : 12 + ppb + ppb * ppb < n -> 2 < triply p /\ on_disk (triply p) /\ doubles_ok (ptrs (triply p)) (n - 12 - ppb - ppb * ppb)
}.

(** ** Sizes *)
Lemma log_nat : exists k : nat, s_log_block_size part = Z.of_nat k /\ (k <= 5)%nat.
Proof using Hw. pose proof (pw_log _ Hw). exists (Z.to_nat (s_log_block_size part)). lia. Qed.
Lemma bs_spb : bs = 512 * spb /\ exists k : nat, spb = 2 ^ Z.of_nat k.
Proof using Hw.
  destruct log_nat as (k & Hk & _). unfold spb. rewrite (pw_bs _ Hw), Hk. replace (1024 * 2 ^ Z.of_nat k) with (2 ^ Z.of_nat (S k) * 512) by (rewrite pow2_S; lia).
  rewrite Z.div_mul by done. split; [lia | by exists (S k)].
Qed.
Lemma spb_pos : 0 < spb.
Proof using Hw. destruct bs_spb as [_ [k ->]]. apply pow2_pos. Qed.
Lemma bs_pos : 0 < bs.
Proof using Hw. destruct bs_spb as [-> _]. pose proof spb_pos. lia. Qed.
Lemma bs_ppb : bs = 4 * ppb /\ 0 < ppb.
Proof using Hw. destruct bs_spb as [E _]. pose proof spb_pos. unfold ppb. rewrite E at 1 2 3. replace (512 * spb) with (128 * spb * 4) by lia. rewrite Z.div_mul by done. lia. Qed.
Lemma lba_block b : block_to_abs_lba part b = u32 (part_start part + b * spb).
Proof using Hw.
  unfold block_to_abs_lba, spb. rewrite Z.shiftl_mul_pow2 by apply (pw_log _ Hw). by rewrite (pw_bs _ Hw).
Qed.
Lemma lba_ok b : on_disk b -> block_to_abs_lba part b = part_start part + b * spb.
Proof using Hw.
  intros [Hb Hd]. rewrite lba_block. pose proof (pw_dev _ Hw) as (_ & Hs & _). pose proof (pw_start _ Hw). pose proof spb_pos. apply u32_small. nia.
Qed.
Lemma block_len b : on_disk b -> length (block b) = Z.to_nat bs.
Proof using Hw.
  intros [Hb Hd]. unfold block. pose proof (pw_dev _ Hw) as (_ & Hs & Hm & _). pose proof (pw_start _ Hw). pose proof spb_pos.
  rewrite sectors_at_len by nia. destruct bs_spb as [-> _]. done.
Qed.
Lemma content_len b : blk_ok b -> length (content b) = Z.to_nat bs.
Proof using Hw.
  unfold content. intros [-> | Hd]; [by apply length_replicate|]. destruct (b =? 0); [apply length_replicate | by apply block_len].
Qed.
Lemma words32_len l : forall n, length l = (4 * n)%nat -> length (words32 l) = n.
Proof.
  intros n. revert l. induction n as [|n IH]; intros l Hl; [by destruct l|]. destruct l as [|a [|b [|c [|d l]]]]; cbn in Hl; try lia.
  cbn. f_equal. apply IH. lia.
Qed.
Lemma ptrs_len b : on_disk b -> length (ptrs b) = Z.to_nat ppb.
Proof using Hw. intros Hb. apply words32_len. rewrite block_len by done. destruct bs_ppb. lia. Qed.

(** ** Reads *)
Lemma ata_block b buf off : on_disk b -> 0 <= off -> off + bs <= zlen buf ->
  ata_read (dev part) (block_to_abs_lba part b) buf off (bs / 512) = Ok (take (Z.to_nat off) buf ++ block b ++ drop (Z.to_nat (off + bs)) buf).
Proof using Hw.
  intros Hb Ho Hl. rewrite lba_ok by done. pose proof Hb as [Hb0 Hd]. fold spb. unfold block. destruct bs_spb as [E [k Hk]].
  pose proof (pw_start _ Hw). pose proof spb_pos. rewrite E in Hl |- *. rewrite Hk in *. apply ata_read_ok; try lia; try nia. apply (pw_dev _ Hw).
Qed.
Lemma read_block_ok b : on_disk b -> read_block part b = Ok (block b).
Proof using Hw.
  intros Hb. unfold read_block. pose proof bs_pos. rewrite ata_block by (done || unfold zlen; rewrite ?length_replicate; lia).
  rewrite Z.add_0_l, drop_ge by (rewrite length_replicate; lia). by rewrite app_nil_r.
Qed.

(** Writing the next block of a buffer whose rest is still zero. *)
Lemma zeros_app a b : 0 <= a -> 0 <= b -> zeros (a + b) = zeros a ++ zeros b.
Proof. intros. unfold zeros. rewrite Z2Nat.inj_add, replicate_add by done. done. Qed.
Lemma zeros_len a : 0 <= a -> zlen (zeros a) = a.
Proof. intros. unfold zeros, zlen. rewrite length_replicate. lia. Qed.
Lemma next_block pre b m : on_disk b -> 0 <= m -> 
  ata_read (dev part) (block_to_abs_lba part b) (pre ++ zeros (bs + m)) (zlen pre) (bs / 512) = Ok (pre ++ block b ++ zeros m).
Proof using Hw.
  intros Hb Hm. pose proof bs_pos. rewrite ata_block by (done || rewrite ?zlen_app, ?zeros_len; pose proof (zlen_nonneg pre); lia).
  rewrite zeros_app by lia. f_equal. unfold zlen. rewrite Nat2Z.id, take_app_length. do 2 f_equal.
  rewrite app_assoc, drop_app_length'; [done|]. unfold zeros. rewrite length_app, length_replicate. lia.
Qed.

Definition data (l : list Z) : list Z := mjoin (content <$> l).
Lemma data_cons b l : data (b :: l) = content b ++ data l.
Proof. done. Qed.
Lemma data_app l k : data (l ++ k) = data l ++ data k.
Proof. unfold data. by rewrite fmap_app, join_app. Qed.
Lemma data_len l : Forall blk_ok l -> zlen (data l) = zlen l * bs.
Proof using Hw.
  pose proof bs_pos. induction 1 as [|b l Hb Hl IH]; [done|]. rewrite data_cons, zlen_app, IH, zlen_cons. unfold zlen at 1. rewrite content_len by done. lia.
Qed.

Lemma direct_loop_ok l : forall l0 rest pre off m, Forall blk_ok l -> zlen pre = off + zlen l0 * bs -> 0 <= m ->
  direct_loop part (l0 ++ l ++ rest) (length l) (zlen l0) (pre ++ zeros (zlen l * bs + m)) off = Ok (pre ++ data l ++ zeros m).
Proof using Hw.
  pose proof bs_pos as Hbs. induction l as [|b l IH]; intros l0 rest pre off m HF Hp Hm; [done|]. apply Forall_cons in HF as [Hb HF].
  cbn [length direct_loop]. cbn [app]. rewrite aget_mid. cbn [mbind res_bind].
  pose proof (zlen_nonneg l). rewrite zlen_cons. replace ((1 + zlen l) * bs + m) with (bs + (zlen l * bs + m)) by lia.
  assert ((if b =? 0 then Ok (pre ++ zeros (bs + (zlen l * bs + m)))
           else ata_read (dev part) (block_to_abs_lba part b) (pre ++ zeros (bs + (zlen l * bs + m))) (off + zlen l0 * bs) (bs / 512))
          = Ok ((pre ++ content b) ++ zeros (zlen l * bs + m))) as ->.
  { unfold content. destruct (Z.eqb_spec b 0) as [->|Hne].
    - rewrite zeros_app by nia. by rewrite app_assoc.
    - assert (Hd : on_disk b) by (by destruct Hb). rewrite <- Hp, next_block by (done || nia). by rewrite app_assoc. }
  cbn [mbind res_bind]. replace (l0 ++ b :: l ++ rest) with ((l0 ++ [b]) ++ l ++ rest) by (by rewrite <- app_assoc).
  replace (zlen l0 + 1) with (zlen (l0 ++ [b])) by apply zlen_snoc. rewrite IH; [|done | | done].
  - rewrite data_cons, <- !app_assoc. done.
  - rewrite zlen_app, zlen_snoc, Hp. unfold zlen at 2. rewrite content_len by done. lia.
Qed.

(** A request for the first [k] blocks of a list, into the next place of the buffer. *)
Lemma read_direct_ok blocklist k pre m : 0 < k <= zlen blocklist -> (exists b, head blocklist = Some b /\ b <> 0) ->
  Forall blk_ok (take (Z.to_nat k) blocklist) -> 0 <= m ->
  read_direct_blocks part blocklist k (pre ++ zeros (k * bs + m)) (zlen pre) = Ok (pre ++ data (take (Z.to_nat k) blocklist) ++ zeros m).
Proof using Hw.
  intros Hk (b & Hb & Hne) HF Hm. unfold read_direct_blocks. destruct blocklist as [|b' bl]; [done|]. injection Hb as ->.
  change (aget (b :: bl) 0) with (Ok b). cbn [mbind res_bind]. rewrite (proj2 (Z.eqb_neq _ _)), (proj2 (Z.ltb_lt _ _)) by (done || lia). cbn [negb assert mbind res_bind].
  set (l := take (Z.to_nat k) (b :: bl)) in *. assert (Ll : zlen l = k) by (unfold l, zlen in *; rewrite length_take; lia).
  pose proof (direct_loop_ok l [] (drop (Z.to_nat k) (b :: bl)) pre (zlen pre) m HF) as H. cbn [app] in H. change (zlen (@nil Z)) with 0 in H; rewrite Ll in H.
  unfold l in H at 1. rewrite take_drop in H. replace (Z.to_nat k) with (length l) at 1 by (unfold zlen in Ll; lia). apply H; lia.
Qed.

Lemma read_singly_ok s k pre m : single_ok s k -> 0 < k <= ppb -> 0 <= m ->
  read_singly_indirect_blocks part s k (pre ++ zeros (k * bs + m)) (zlen pre) = Ok (pre ++ data (take (Z.to_nat k) (ptrs s)) ++ zeros m).
Proof using Hw.
  intros (H2 & Hd & Hh & HF) Hk Hm. unfold read_singly_indirect_blocks, EXT2_ROOT_INO. fold ppb. rewrite (proj2 (Z.ltb_lt _ _)), (proj2 (Z.leb_le _ _)) by lia.
  cbn [assert mbind res_bind]. rewrite read_block_ok by done. cbn [mbind res_bind]. apply read_direct_ok; try done.
  fold (ptrs s). unfold zlen. rewrite ptrs_len by done. lia.
Qed.

Lemma take_bind_cons m s L : 0 <= m -> on_disk s ->
  take (Z.to_nat m) ((s :: L) ≫= ptrs) = take (Z.to_nat (Z.min m ppb)) (ptrs s) ++ take (Z.to_nat (m - ppb)) (L ≫= ptrs).
Proof using Hw.
  intros Hm Hs. rewrite bind_cons, take_app, ptrs_len by done. destruct bs_ppb as [_ Hp]. f_equal; [|f_equal; lia].
  destruct (decide (m <= ppb)); [f_equal; lia|]. rewrite !take_ge by (rewrite ptrs_len by done; lia). done.
Qed.

Lemma doubly_loop_ok L : forall num dn pre off m, singles_ok L (num - dn) -> zlen pre = off + dn * bs -> 0 <= m -> 0 <= dn <= num ->
  doubly_loop part L num dn (pre ++ zeros ((num - dn) * bs + m)) off = Ok (num, pre ++ data (take (Z.to_nat (num - dn)) (L ≫= ptrs)) ++ zeros m).
Proof using Hw.
  destruct bs_ppb as [Ebs Hp]. pose proof bs_pos as Hbs.
  induction L as [|s L IH]; intros num dn pre off m Hok Hpre Hm Hdn.
  - cbn in Hok. assert (dn = num) as -> by lia. cbn [doubly_loop]. rewrite Z.sub_diag. done.
  - cbn [doubly_loop]. destruct (Z.leb_spec num dn) as [Hle|Hlt].
    { assert (dn = num) as -> by lia. rewrite Z.sub_diag. done. }
    destruct Hok as [?|[Hs HL]]; [lia|]. rewrite (proj2 (Z.eqb_neq s 0)) by (destruct Hs; lia). fold ppb.
    set (n := Z.min (num - dn) ppb) in *. replace ((num - dn) * bs + m) with (n * bs + ((num - dn - n) * bs + m)) by lia.
    rewrite <- Hpre, read_singly_ok by (done || nia). cbn [mbind res_bind]. set (x := data (take (Z.to_nat n) (ptrs s))).
    pose proof Hs as (_ & Hsd & _ & HF).
    assert (Lx : zlen x = n * bs).
    { unfold x. rewrite data_len by done. f_equal. unfold zlen. rewrite length_take, ptrs_len by done. lia. }
    rewrite app_assoc. replace (num - dn - n) with (num - (dn + n)) by lia. rewrite IH; [| |rewrite zlen_app; lia | done | lia].
    + do 2 f_equal. rewrite take_bind_cons by (done || lia). fold n. rewrite data_app, <- !app_assoc. fold x. replace (Z.to_nat (num - dn - ppb)) with (Z.to_nat (num - (dn + n))) by lia. done.
    + destruct (decide (num - dn <= ppb)); [replace (num - (dn + n)) with 0 by lia; clear; induction L; cbn; [lia | left; lia]|].
      replace (num - (dn + n)) with (num - dn - ppb) by lia. done.
Qed.
Lemma read_doubly_ok d k pre m : 2 < d -> on_disk d -> singles_ok (ptrs d) k -> 0 < k <= ppb * ppb -> 0 <= m ->
  read_doubly_indirect_blocks part d k (pre ++ zeros (k * bs + m)) (zlen pre) = Ok (k, pre ++ data (take (Z.to_nat k) (ptrs d ≫= ptrs)) ++ zeros m).
Proof using Hw.
  intros H2 Hd Hs Hk Hm. unfold read_doubly_indirect_blocks, EXT2_ROOT_INO. fold ppb. rewrite (proj2 (Z.ltb_lt _ _)), (proj2 (Z.leb_le _ _)) by lia.
  cbn [assert mbind res_bind]. rewrite read_block_ok by done. cbn [mbind res_bind]. fold (ptrs d).
  pose proof (doubly_loop_ok (ptrs d) k 0 pre (zlen pre) m) as H. rewrite Z.sub_0_r in H. apply H; (done || lia).
Qed.

Lemma ppb_square : bs / 4 * bs / 4 = ppb * ppb.
Proof using Hw. destruct bs_ppb as [E _]. fold ppb. rewrite E at 1. replace (ppb * (4 * ppb)) with (ppb * ppb * 4) by lia. by rewrite Z.div_mul. Qed.
Lemma words32_le l : (4 * length (words32 l) <= length l)%nat.
Proof.
  remember (length l) as n eqn:E. revert l E. induction n as [n IH] using (well_founded_induction lt_wf). intros [|a [|b [|c [|d l]]]] ->; cbn; try lia.
  specialize (IH (length l) ltac:(cbn; lia) l eq_refl). lia.
Qed.
Lemma bind_ptrs_le (L : list Z) : (length (L ≫= ptrs) <= length L * Z.to_nat ppb)%nat.
Proof using Hw.
  destruct bs_spb as [E1 _], bs_ppb as [E2 _]. induction L as [|b L IH]; [done|]. rewrite bind_cons, length_app.
  assert (length (ptrs b) <= Z.to_nat ppb)%nat; [|cbn; lia]. unfold ptrs. pose proof (words32_le (block b)) as H. unfold block, sectors_at in H |- *. rewrite length_take in H. lia.
Qed.
Lemma singles_ok_neg L m : m <= 0 -> singles_ok L m.
Proof. destruct L; cbn; auto. Qed.
Lemma doubles_ok_neg L m : m <= 0 -> doubles_ok L m.
Proof. destruct L; cbn; auto. Qed.

(** What [m] data blocks need of a list of singly indirect pointers. *)
Lemma singles_take L m : 0 <= m -> singles_ok L m -> Forall blk_ok (take (Z.to_nat m) (L ≫= ptrs)) /\ (Z.to_nat m <= length (L ≫= ptrs))%nat.
Proof using Hw.
  destruct bs_ppb as [_ Hp]. revert m. induction L as [|s L IH]; intros m Hm Hok.
  - cbn in Hok. replace m with 0 by lia. split; [constructor | lia].
  - destruct Hok as [?|[Hs HL]]; [replace m with 0 by lia; split; [constructor | lia]|]. pose proof Hs as (_ & Hd & _ & HF).
    destruct (decide (m <= ppb)).
    + rewrite take_bind_cons, (Z2Nat.nonpos (m - ppb)), take_0, app_nil_r by (done || lia). split; [done|]. rewrite bind_cons, length_app, ptrs_len by done. lia.
    + destruct (IH (m - ppb)) as [H1 H2]; [lia | done|]. rewrite take_bind_cons by (done || lia). split; [by apply Forall_app|].
      rewrite bind_cons, length_app, ptrs_len by done. lia.
Qed.

Lemma take_bind2_cons n d L : 0 <= n -> on_disk d -> singles_ok (ptrs d) (Z.min n (ppb * ppb)) ->
  take (Z.to_nat n) (((d :: L) ≫= ptrs) ≫= ptrs) =
    take (Z.to_nat (Z.min n (ppb * ppb))) (ptrs d ≫= ptrs) ++ take (Z.to_nat (n - ppb * ppb)) ((L ≫= ptrs) ≫= ptrs).
Proof using Hw.
  intros Hn Hd Hs. destruct bs_ppb as [_ Hp]. assert (Hmin : 0 <= Z.min n (ppb * ppb)) by (apply Z.min_glb; nia). destruct (singles_take _ _ Hmin Hs) as [_ Hge].
  rewrite bind_cons, bind_app. destruct (decide (n <= ppb * ppb)) as [Hle|Hgt].
  - rewrite Z.min_l in * by done. rewrite take_app_le, (Z2Nat.nonpos (n - _)), take_0, app_nil_r by lia. done.
  - rewrite Z.min_r in * by lia. pose proof (bind_ptrs_le (ptrs d)) as Hup. rewrite ptrs_len in Hup by done.
    assert (Hl : length (ptrs d ≫= ptrs) = Z.to_nat (ppb * ppb)) by nia.
    rewrite take_app, Hl, !(take_ge (ptrs d ≫= ptrs)) by lia. do 2 f_equal. nia.
Qed.

Lemma triply_loop_ok L : forall num dn pre off m, doubles_ok L (num - dn) -> zlen pre = off + dn * bs -> 0 <= m -> 0 <= dn <= num ->
  triply_loop part L num dn (pre ++ zeros ((num - dn) * bs + m)) off =
    Ok (num, pre ++ data (take (Z.to_nat (num - dn)) ((L ≫= ptrs) ≫= ptrs)) ++ zeros m).
Proof using Hw.
  destruct bs_ppb as [Ebs Hp]. pose proof bs_pos as Hbs.
  induction L as [|d L IH]; intros num dn pre off m Hok Hpre Hm Hdn.
  - cbn in Hok. assert (dn = num) as -> by lia. cbn [triply_loop]. rewrite Z.sub_diag. done.
  - cbn [triply_loop]. destruct (Z.leb_spec num dn) as [Hle|Hlt].
    { assert (dn = num) as -> by lia. rewrite Z.sub_diag. done. }
    destruct Hok as [?|[(H2 & Hd & Hs) HL]]; [lia|]. rewrite (proj2 (Z.eqb_neq d 0)) by lia. rewrite ppb_square.
    rewrite take_bind2_cons by (done || lia). set (n := Z.min (num - dn) (ppb * ppb)) in *.
    replace ((num - dn) * bs + m) with (n * bs + ((num - dn - n) * bs + m)) by lia.
    rewrite <- Hpre, read_doubly_ok by (done || nia). cbn [mbind res_bind]. set (xb := take (Z.to_nat n) (ptrs d ≫= ptrs)).
    destruct (singles_take (ptrs d) n) as [HF HL']; [nia | done|]. fold xb in HF.
    assert (Lx : zlen (data xb) = n * bs) by (rewrite data_len by done; f_equal; unfold xb, zlen; rewrite length_take; nia).
    rewrite app_assoc. replace (num - dn - n) with (num - (dn + n)) by lia. rewrite IH; [| |rewrite zlen_app; lia | done | nia].
    + do 2 f_equal. rewrite data_app, <- !app_assoc. replace (Z.to_nat (num - dn - ppb * ppb)) with (Z.to_nat (num - (dn + n))) by nia. done.
    + destruct (decide (num - dn <= ppb * ppb)); [apply doubles_ok_neg; lia|]. replace (num - (dn + n)) with (num - dn - ppb * ppb) by lia. done.
Qed.
Lemma read_triply_ok t k pre m : 2 < t -> on_disk t -> doubles_ok (ptrs t) k -> 0 < k -> 0 <= m ->
  read_triply_indirect_blocks part t k (pre ++ zeros (k * bs + m)) (zlen pre) = Ok (k, pre ++ data (take (Z.to_nat k) ((ptrs t ≫= ptrs) ≫= ptrs)) ++ zeros m).
Proof using Hw.
  intros H2 Ht Hs Hk Hm. unfold read_triply_indirect_blocks, EXT2_ROOT_INO. rewrite (proj2 (Z.ltb_lt _ _)) by lia.
  cbn [assert mbind res_bind]. rewrite read_block_ok by done. cbn [mbind res_bind]. fold (ptrs t).
  pose proof (triply_loop_ok (ptrs t) k 0 pre (zlen pre) m) as H. rewrite Z.sub_0_r in H. apply H; (done || lia).
Qed.

(** ** The whole file *)
(** The block pointers of an inode's bytes. *)
Definition inode_has (inode : list Z) (p : inode_ptrs) (blocks size : Z) : Prop :=
  i_direct inode = direct p /\ i_singly inode = Ok (singly p) /\ i_doubly inode = Ok (doubly p) /\ i_triply inode = Ok (triply p) /\
  i_blocks inode = Ok blocks /\ i_size inode = Ok size.

(** The parts of a file's block list. *)
Lemma take_parts (a b c d : list Z) (na nb nc n : Z) : 0 <= n -> length a = Z.to_nat na -> 0 <= na -> 0 <= nb -> 0 <= nc ->
  (na < n -> (Z.to_nat (Z.min (n - na) nb) <= length b)%nat /\ (length b <= Z.to_nat nb)%nat) ->
  (na + nb < n -> (Z.to_nat (Z.min (n - na - nb) nc) <= length c)%nat /\ (length c <= Z.to_nat nc)%nat) ->
  take (Z.to_nat n) (a ++ b ++ c ++ d) =
    take (Z.to_nat (Z.min na n)) a ++ take (Z.to_nat (Z.min (n - na) nb)) b ++ take (Z.to_nat (Z.min (n - na - nb) nc)) c ++ take (Z.to_nat (n - na - nb - nc)) d.
Proof.
  intros Hn La Ha Hb Hc Lb Lc. rewrite take_app, La. f_equal.
  { destruct (decide (n <= na)); [f_equal; lia|]. rewrite !take_ge by lia. done. }
  destruct (decide (na < n)) as [H1|H1].
  2:{ replace (Z.to_nat n - Z.to_nat na)%nat with O by lia. rewrite !(Z2Nat.nonpos (Z.min _ _)), (Z2Nat.nonpos (n - na - nb - nc)), !take_0 by lia. done. }
  destruct (Lb H1) as [Lb1 Lb2]. rewrite take_app. replace (Z.to_nat n - Z.to_nat na)%nat with (Z.to_nat (n - na)) by lia.
  destruct (decide (na + nb < n)) as [H2|H2].
  2:{ rewrite Z.min_l in * by lia. rewrite (Z2Nat.nonpos (Z.min _ _)), (Z2Nat.nonpos (n - na - nb - nc)) by lia.
      replace (Z.to_nat (n - na) - length b)%nat with O by lia. rewrite !take_0. done. }
  rewrite Z.min_r in * by lia. assert (length b = Z.to_nat nb) as -> by lia. destruct (Lc H2) as [Lc1 Lc2].
  rewrite !(take_ge b) by lia. f_equal. replace (Z.to_nat (n - na) - Z.to_nat nb)%nat with (Z.to_nat (n - na - nb)) by lia. rewrite take_app.
  destruct (decide (n - na - nb <= nc)).
  - rewrite Z.min_l in * by lia. f_equal. rewrite (Z2Nat.nonpos (n - na - nb - nc)) by lia. by replace (Z.to_nat (n - na - nb) - length c)%nat with O by lia.
  - rewrite Z.min_r in * by lia. rewrite !(take_ge c) by lia. do 2 f_equal. lia.
Qed.

(** The block list cut into the parts the code reads one after the other. *)
Lemma file_parts p n : file_ok p n -> 0 < n ->
  data (take (Z.to_nat n) (file_blocks p)) =
    data (take (Z.to_nat (Z.min 12 n)) (direct p)) ++ data (take (Z.to_nat (Z.min (n - 12) ppb)) (ptrs (singly p))) ++
    data (take (Z.to_nat (Z.min (n - 12 - ppb) (ppb * ppb))) (ptrs (doubly p) ≫= ptrs)) ++
    data (take (Z.to_nat (n - 12 - ppb - ppb * ppb)) ((ptrs (triply p) ≫= ptrs) ≫= ptrs)).
Proof using Hw.
  intros [(Hd & _) Hs Hdb _] Hn. destruct bs_ppb as [_ Hp]. rewrite <- !data_app. f_equal. unfold file_blocks. apply take_parts; [lia | done | lia | lia | nia | |].
  - intros Hlt. destruct (Hs Hlt) as (_ & Hon & _). rewrite ptrs_len by done. lia.
  - intros Hlt. destruct (Hdb Hlt) as (_ & Hon & Hsi). assert (Hmin : 0 <= Z.min (n - 12 - ppb) (ppb * ppb)) by (apply Z.min_glb; nia).
    destruct (singles_take _ _ Hmin Hsi) as [_ Hge]. pose proof (bind_ptrs_le (ptrs (doubly p))) as Hup. rewrite ptrs_len in Hup by done. split; [done | nia].
Qed.

(** One stage of [ext2_read_file]: the buffer so far, and what it gets. *)
Lemma stage_len l k : Forall blk_ok (take (Z.to_nat k) l) -> 0 <= k -> (Z.to_nat k <= length l)%nat -> zlen (data (take (Z.to_nat k) l)) = k * bs.
Proof using Hw. intros HF Hk Hl. rewrite data_len by done. f_equal. unfold zlen. rewrite length_take. lia. Qed.


Section stages.
Context (inode : list Z) (p : inode_ptrs) (blocks size n : Z) (Hi : inode_has inode p blocks size) (Hn : 0 < n).
Local Abbreviation q := ppb.
Context (Hd : length (direct p) = 12%nat /\ (exists b, head (direct p) = Some b /\ b <> 0) /\ Forall blk_ok (take (Z.to_nat n) (direct p))).
Context (Hs : 12 < n -> single_ok (singly p) (Z.min (n - 12) ppb)).

Lemma stage_direct : read_direct_blocks part (i_direct inode) (Z.min 12 n) (zeros (n * bs)) 0 =
  Ok (data (take (Z.to_nat (Z.min 12 n)) (direct p)) ++ zeros ((n - Z.min 12 n) * bs)) /\ zlen (data (take (Z.to_nat (Z.min 12 n)) (direct p))) = Z.min 12 n * bs.
Proof using Hw Hi Hd Hn.
  destruct Hi as (-> & _). destruct Hd as (Hdl & Hh & HF). pose proof bs_pos. set (n0 := Z.min 12 n).
  assert (HF0 : Forall blk_ok (take (Z.to_nat n0) (direct p))).
  { destruct (decide (n <= 12)); [replace n0 with n by lia; done|]. rewrite take_ge in HF |- * by lia. done. }
  split; [|apply stage_len; [done | lia | lia]]. replace (n * bs) with (n0 * bs + (n - n0) * bs) by lia.
  apply (read_direct_ok (direct p) n0 []); [unfold zlen; lia | done | done | nia].
Qed.

Lemma stage_singly pre : zlen pre = Z.min 12 n * bs ->
  (if Z.min 12 n <? n then
     let k := Z.min (n - Z.min 12 n) (bs / 4) in
     s ← i_singly inode; fd ← read_singly_indirect_blocks part s k (pre ++ zeros ((n - Z.min 12 n) * bs)) (Z.min 12 n * bs); Ok (Z.min 12 n + k, fd)
   else Ok (Z.min 12 n, pre ++ zeros ((n - Z.min 12 n) * bs))) =
  Ok (Z.min (12 + q) n, pre ++ data (take (Z.to_nat (Z.min (n - 12) q)) (ptrs (singly p))) ++ zeros ((n - Z.min (12 + q) n) * bs)) /\
  (12 < n -> zlen (data (take (Z.to_nat (Z.min (n - 12) q)) (ptrs (singly p)))) = Z.min (n - 12) q * bs).
Proof using Hw Hi Hs Hn.
  clear Hd. intros Hpre. destruct Hi as (_ & -> & _). destruct bs_ppb as [_ Hp]. pose proof bs_pos. fold q. cbn [mbind res_bind].
  destruct (Z.ltb_spec (Z.min 12 n) n) as [H1|H1].
  - rewrite Z.min_l in * by lia. pose proof (Hs ltac:(lia)) as Hso. pose proof Hso as (_ & Hon & _ & HF). set (k := Z.min (n - 12) q) in *.
    replace ((n - 12) * bs) with (k * bs + (n - 12 - k) * bs) by lia. rewrite <- Hpre, read_singly_ok by (done || nia). cbn [mbind res_bind].
    replace (12 + k) with (Z.min (12 + q) n) by lia. replace (n - 12 - k) with (n - Z.min (12 + q) n) by lia. split; [done|].
    intros _. apply stage_len; [done | lia | rewrite ptrs_len by done; lia].
  - rewrite (Z2Nat.nonpos (Z.min (n - 12) q)), take_0 by lia. replace (Z.min 12 n) with n by lia. replace (Z.min (12 + q) n) with n by lia. split; [done | lia].
Qed.

Context (Hdb : 12 + ppb < n -> 2 < doubly p /\ on_disk (doubly p) /\ singles_ok (ptrs (doubly p)) (Z.min (n - 12 - ppb) (ppb * ppb))).
Lemma stage_doubly pre : zlen pre = Z.min (12 + q) n * bs ->
  (if Z.min (12 + q) n <? n then
     let k := Z.min (n - Z.min (12 + q) n) (bs / 4 * bs / 4) in
     d ← i_doubly inode; '(_, fd) ← read_doubly_indirect_blocks part d k (pre ++ zeros ((n - Z.min (12 + q) n) * bs)) (Z.min (12 + q) n * bs); Ok (Z.min (12 + q) n + k, fd)
   else Ok (Z.min (12 + q) n, pre ++ zeros ((n - Z.min (12 + q) n) * bs))) =
  Ok (Z.min (12 + q + q * q) n, pre ++ data (take (Z.to_nat (Z.min (n - 12 - q) (q * q))) (ptrs (doubly p) ≫= ptrs)) ++ zeros ((n - Z.min (12 + q + q * q) n) * bs)) /\
  (12 + q < n -> zlen (data (take (Z.to_nat (Z.min (n - 12 - q) (q * q))) (ptrs (doubly p) ≫= ptrs))) = Z.min (n - 12 - q) (q * q) * bs).
Proof using Hw Hi Hn Hdb.
  clear Hd Hs. intros Hpre. destruct Hi as (_ & _ & -> & _). destruct bs_ppb as [_ Hp]. pose proof bs_pos. rewrite ppb_square. cbn [mbind res_bind].
  assert (Hq : 0 < q * q) by nia. destruct (Z.ltb_spec (Z.min (12 + q) n) n) as [H1|H1].
  - rewrite (Z.min_l (12 + q)) in * by lia. destruct (Hdb ltac:(lia)) as (H2 & Hon & Hsi). replace (n - (12 + q)) with (n - 12 - q) by lia. set (k := Z.min (n - 12 - q) (q * q)) in *.
    assert (Hm : 0 <= (n - 12 - q - k) * bs) by (apply Z.mul_nonneg_nonneg; lia).
    replace ((n - 12 - q) * bs) with (k * bs + (n - 12 - q - k) * bs) by lia. rewrite <- Hpre, read_doubly_ok by (done || lia). cbn [mbind res_bind].
    destruct (singles_take (ptrs (doubly p)) k) as [HF HL]; [lia | done|].
    replace (12 + q + k) with (Z.min (12 + q + q * q) n) by lia. replace (n - 12 - q - k) with (n - Z.min (12 + q + q * q) n) by lia. split; [done|].
    intros _. apply stage_len; [done | lia | lia].
  - rewrite (Z2Nat.nonpos (Z.min (n - 12 - q) (q * q))), take_0 by lia. replace (Z.min (12 + q) n) with n by lia. replace (Z.min (12 + q + q * q) n) with n by lia. split; [done | lia].
Qed.

Context (Ht : 12 + ppb + ppb * ppb < n -> 2 < triply p /\ on_disk (triply p) /\ doubles_ok (ptrs (triply p)) (n - 12 - ppb - ppb * ppb)).
Lemma stage_triply pre : zlen pre = Z.min (12 + q + q * q) n * bs -> let r := Z.min (12 + q + q * q) n in
  exists k, (if r <? n then
     t ← i_triply inode; '(_, fd) ← read_triply_indirect_blocks part t (n - r) (pre ++ zeros ((n - r) * bs)) (r * bs); Ok (n, fd)
   else Ok (r, pre ++ zeros ((n - r) * bs))) =
  Ok (k, pre ++ data (take (Z.to_nat (n - 12 - q - q * q)) ((ptrs (triply p) ≫= ptrs) ≫= ptrs))).
Proof using Hw Hi Hn Ht.
  clear Hd Hs Hdb. intros Hpre. cbv zeta. destruct Hi as (_ & _ & _ & -> & _). cbn [mbind res_bind].
  destruct (Z.ltb_spec (Z.min (12 + q + q * q) n) n) as [H1|H1].
  - destruct (Ht ltac:(lia)) as (H2 & Hon & Hsi). exists n. rewrite Z.min_l in * by lia. replace (n - (12 + q + q * q)) with (n - 12 - q - q * q) by lia.
    rewrite <- Hpre. replace ((n - 12 - q - q * q) * bs) with ((n - 12 - q - q * q) * bs + 0) by lia. rewrite read_triply_ok by (done || lia). cbn [mbind res_bind]. by rewrite app_nil_r.
  - eexists. rewrite (Z2Nat.nonpos (n - 12 - q - q * q)), take_0 by lia. replace (Z.min (12 + q + q * q) n) with n by lia. by rewrite Z.sub_diag.
Qed.
End stages.

Lemma read_file_ok ino inode p blocks size : ext2_read_inode part ino = Ok inode -> inode_has inode p blocks size ->
  let n := blocks / Z.shiftl 2 (s_log_block_size part) in
  2 <= ino -> 0 < n -> n * bs < 2 ^ 32 -> file_ok p n ->
  ext2_read_file part ino = Ok (data (take (Z.to_nat n) (file_blocks p)), size).
Proof using Hw.
  intros Hino Hi n Hin Hn Hfit Hok. rewrite (file_parts p n Hok Hn). pose proof Hi as (E1 & E2 & E3 & E4 & E5 & E6). pose proof bs_pos as Hbs. destruct bs_ppb as [_ Hp].
  unfold ext2_read_file, EXT2_ROOT_INO. rewrite (proj2 (Z.leb_le 2 ino)) by lia. change (assert true) with (Ok tt). rewrite bind_ok, Hino, bind_ok, E5, bind_ok.
  cbv zeta. fold n. rewrite (proj2 (Z.ltb_lt 0 n)) by lia. change (assert true) with (Ok tt). rewrite bind_ok, E6, bind_ok, u32_small by nia. fold (zeros (n * bs)).
  destruct (stage_direct inode p blocks size n Hi Hn (fo_direct _ _ Hok)) as [-> L0]. rewrite bind_ok. set (d0 := data (take _ (direct p))) in *.
  destruct (stage_singly inode p blocks size n Hi Hn (fo_singly _ _ Hok) d0 L0) as [S1 L1]. cbv zeta in S1. rewrite S1. rewrite bind_ok. set (d1 := data (take _ (ptrs (singly p)))) in *.
  assert (L01 : zlen (d0 ++ d1) = Z.min (12 + ppb) n * bs).
  { rewrite zlen_app, L0. destruct (decide (12 < n)); [rewrite L1 by done; replace (Z.min (12 + ppb) n) with (Z.min 12 n + Z.min (n - 12) ppb) by lia; lia|]. unfold d1. rewrite (Z2Nat.nonpos (Z.min (n - 12) ppb)), take_0 by lia. change (zlen (data [])) with 0. replace (Z.min (12 + ppb) n) with (Z.min 12 n) by lia. lia. }
  rewrite app_assoc. destruct (stage_doubly inode p blocks size n Hi Hn (fo_doubly _ _ Hok) _ L01) as [S2 L2]. cbv zeta in S2. rewrite S2. rewrite bind_ok. set (d2 := data (take _ (ptrs (doubly p) ≫= ptrs))) in *.
  assert (L012 : zlen ((d0 ++ d1) ++ d2) = Z.min (12 + ppb + ppb * ppb) n * bs).
  { rewrite zlen_app, L01. destruct (decide (12 + ppb < n)); [rewrite L2 by done; replace (Z.min (12 + ppb + ppb * ppb) n) with (Z.min (12 + ppb) n + Z.min (n - 12 - ppb) (ppb * ppb)) by lia; lia|]. unfold d2. rewrite (Z2Nat.nonpos (Z.min (n - 12 - ppb) (ppb * ppb))), take_0 by lia. change (zlen (data [])) with 0. replace (Z.min (12 + ppb + ppb * ppb) n) with (Z.min (12 + ppb) n) by nia. lia. }
  rewrite (app_assoc _ d2). destruct (stage_triply inode p blocks size n Hi Hn (fo_triply _ _ Hok) _ L012) as [k Ek]. cbv zeta in Ek. rewrite Ek. rewrite bind_ok. by rewrite <- !app_assoc.
Qed.

(** ** Inodes *)
(** Inode [index] of an inode table that starts at block [tbl]. *)
Definition inode_bytes (tbl index : Z) : list Z :=
  take 128 (drop (Z.to_nat (512 * part_start part + bs * tbl + 128 * index)) (media (dev part))).

Lemma read_inode_ok ino tbl : let ipg := s_inodes_per_group part in let index := (ino - 1) mod ipg in
  2 <= ino < 2 ^ 32 -> 0 < ipg -> get32 (bgdt part) ((ino - 1) / ipg * 32 + 8) = Ok tbl -> 0 <= tbl -> on_disk (tbl + 128 * index / bs) -> 128 * ipg < 2 ^ 32 ->
  ext2_read_inode part ino = Ok (inode_bytes tbl index).
Proof using Hw.
  intros ipg index Hi Hg Ht Htp Hon Hfit. unfold ext2_read_inode, bgrp_for_inode, local_index_for_inode, EXT2_ROOT_INO. fold ipg.
  rewrite (proj2 (Z.leb_le 2 ino)), (proj2 (Z.eqb_neq ipg 0)), (u32_small (ino - 1)) by lia. change (assert true) with (Ok tt). rewrite !bind_ok. fold ipg. rewrite Ht, bind_ok.
  assert (Hix : 0 <= index < ipg) by (apply Z.mod_pos_bound; lia). fold index. rewrite (Z.mul_comm index), (u32_small (128 * index)) by lia.
  pose proof bs_pos as Hbs. rewrite (proj2 (Z.eqb_neq bs 0)) by lia. cbv zeta. destruct bs_spb as [Ebs [k Hk]]. pose proof spb_pos as Hsp.
  assert (Hr : 0 <= 128 * index mod bs < bs) by (apply Z.mod_pos_bound; lia). set (off := 128 * index mod bs) in *. set (bo := 128 * index / bs) in *.
  assert (Hd : 128 * index = bs * bo + off) by (apply Z.div_mod; lia).
  assert (Hk4 : exists j, bs = 128 * j) by (exists (4 * spb); lia). destruct Hk4 as [j Hj].
  assert (Ho : off = 128 * (index - j * bo)) by lia. set (o := index - j * bo) in *.
  rewrite (proj2 (Z.eqb_eq (off mod 128) 0)) by (rewrite Ho, Z.mul_comm; apply Z.mod_mul; lia). change (assert true) with (Ok tt). rewrite bind_ok.
  assert (Hbo : 0 <= bo) by (apply Z.div_pos; lia). pose proof Hon as [Hon1 Hon2]. pose proof (pw_dev _ Hw) as (_ & Hsz & Hm & _). pose proof (pw_start _ Hw).
  rewrite (u32_small (tbl + bo)) by nia. rewrite lba_ok by done.
  assert (Hs0 : 0 <= off / 512 < spb) by (split; [apply Z.div_pos; lia | apply Z.div_lt_upper_bound; lia]).
  rewrite u32_small by nia. set (sec := part_start part + (tbl + bo) * spb + off / 512).
  assert (Hsec : 0 <= sec /\ sec + 1 <= dev_size (dev part)) by (unfold sec; nia).
  change (ata_read (dev part) sec (replicate 512 0) 0 1) with (ata_read (dev part) sec (replicate 512 0) 0 (2 ^ Z.of_nat 0)).
  rewrite ata_read_ok by (apply (pw_dev _ Hw) || done || (change (2 ^ Z.of_nat 0) with 1; lia)). change (2 ^ Z.of_nat 0) with 1. rewrite bind_ok.
  change (Z.to_nat 0) with O. rewrite take_0, app_nil_l, (drop_ge (replicate 512 0)), app_nil_r by (rewrite length_replicate; lia).
  assert (Hom : 0 <= off mod 512 < 512) by (apply Z.mod_pos_bound; lia).
  assert (Hom2 : off mod 512 + 128 <= 512) by (Z.to_euclidean_division_equations; lia).
  assert (Hls : zlen (sectors_at (media (dev part)) sec 1) = 512) by (unfold zlen; rewrite sectors_at_len; lia).
  unfold bytes. rewrite !(proj2 (Z.leb_le _ _)) by lia. cbn [andb]. f_equal. unfold inode_bytes, sectors_at.
  rewrite skipn_firstn_comm, take_take.
  rewrite drop_drop. f_equal; [lia|]. f_equal. unfold sec. pose proof (Z.div_mod off 512 ltac:(lia)). nia.
Qed.
End file.

(** ** Theorems *)

(** The first block is a hole. *)
Lemma first_hole_panics part ino inode p blocks size : ext2_read_inode part ino = Ok inode -> inode_has inode p blocks size ->
  let n := blocks / Z.shiftl 2 (s_log_block_size part) in 2 <= ino -> 0 < n -> head (direct p) = Some 0 -> ext2_read_file part ino = Panic.
Proof.
  intros Hino Hi n Hin Hn H0. pose proof Hi as (E1 & _ & _ & _ & E5 & E6). unfold ext2_read_file, EXT2_ROOT_INO. rewrite (proj2 (Z.leb_le 2 ino)) by lia. change (assert true) with (Ok tt). rewrite bind_ok, Hino, bind_ok, E5, bind_ok.
  cbv zeta. fold n. rewrite (proj2 (Z.ltb_lt 0 n)) by lia. change (assert true) with (Ok tt). rewrite bind_ok, E6, bind_ok, E1. unfold read_direct_blocks. by destruct (direct p); [|injection H0 as ->].
Qed.
(** More blocks than the direct ones and those of the singly indirect block, and no doubly indirect one. *)
Lemma no_doubly_panics part ino inode p blocks size : part_wf part -> ext2_read_inode part ino = Ok inode -> inode_has inode p blocks size ->
  let n := blocks / Z.shiftl 2 (s_log_block_size part) in
  2 <= ino -> file_ok part p (12 + ppb part) -> doubly p = 0 -> 12 + ppb part < n -> n * blocksize part < 2 ^ 32 -> ext2_read_file part ino = Panic.
Proof.
  intros Hw Hino Hi n Hin [(D1 & D2 & D3) Hs _ _] H0 Hb Hfit. pose proof (bs_pos _ Hw) as Hbs. destruct (bs_ppb _ Hw) as [_ Hp]. pose proof Hi as (E1 & E2 & E3 & E4 & E5 & E6). assert (Hn : 0 < n) by lia.
  assert (Hd : length (direct p) = 12%nat /\ (exists b, head (direct p) = Some b /\ b <> 0) /\ Forall (blk_ok part) (take (Z.to_nat n) (direct p))).
  { split; [done|]. split; [done|]. rewrite take_ge in D3 |- * by lia. done. }
  assert (Hs' : 12 < n -> single_ok part (singly p) (Z.min (n - 12) (ppb part))) by (intros _; replace (Z.min (n - 12) (ppb part)) with (Z.min (12 + ppb part - 12) (ppb part)) by lia; apply Hs; lia).
  unfold ext2_read_file, EXT2_ROOT_INO. rewrite (proj2 (Z.leb_le 2 ino)) by lia. change (assert true) with (Ok tt). rewrite bind_ok, Hino, bind_ok, E5, bind_ok.
  cbv zeta. fold n. rewrite (proj2 (Z.ltb_lt 0 n)) by lia. change (assert true) with (Ok tt). rewrite bind_ok, E6, bind_ok, u32_small by nia. fold (zeros (n * blocksize part)).
  destruct (stage_direct part Hw inode p blocks size n Hi Hn Hd) as [-> L0]. rewrite bind_ok. set (d0 := data part (take _ (direct p))) in *.
  destruct (stage_singly part Hw inode p blocks size n Hi Hn Hs' d0 L0) as [S1 L1]. cbv zeta in S1. rewrite S1, bind_ok.
  rewrite (proj2 (Z.ltb_lt (Z.min (12 + ppb part) n) n)) by lia. rewrite E3, bind_ok, H0. done.
Qed.

(** C9: [ext2_read_file] reads the blocks of the file that the inode counts ([i_blocks], which leaves out holes and includes indirect blocks): its data are the
    blocks of the on-disk format in order, twelve direct ones, then those of the singly, doubly and triply indirect pointers, and the size is the inode's.  The inode
    itself is found at its place in the inode table of its block group.  This holds for pointers that lead to blocks of the disk, where a
    hole may be anywhere (it reads as zeroes) but at the first place of the inode's or an indirect block's list, and no indirect block needed for the blocks counted is missing ([file_ok]).
    Otherwise: a hole as the first block of the file panics; so does a file that counts more blocks than the direct ones and
    those of its singly indirect block have, without a doubly indirect block, which is the case for a full singly indirect block ([ext2_full_singly_panics]);
    a missing singly indirect block in the middle shifts the data ([ext2_missing_indirect_shifts]). *)
Theorem ext2_read_file_correct part ino tbl p blocks size : part_wf part ->
  let ipg := s_inodes_per_group part in let index := (ino - 1) mod ipg in let n := blocks / Z.shiftl 2 (s_log_block_size part) in
  2 <= ino < 2 ^ 32 -> 0 < ipg -> 128 * ipg < 2 ^ 32 -> get32 (bgdt part) ((ino - 1) / ipg * 32 + 8) = Ok tbl -> 0 <= tbl -> on_disk part (tbl + 128 * index / blocksize part) ->
  inode_has (inode_bytes part tbl index) p blocks size -> 0 < n -> n * blocksize part < 2 ^ 32 ->
  (file_ok part p n -> ext2_read_file part ino = Ok (mjoin (content part <$> take (Z.to_nat n) (file_blocks part p)), size)) /\
  (head (direct p) = Some 0 -> ext2_read_file part ino = Panic) /\
  (file_ok part p (12 + ppb part) -> 12 + ppb part < n -> doubly p = 0 -> ext2_read_file part ino = Panic).
Proof.
  intros Hw ipg index n Hi Hg Hf Ht Htp Hon Hin Hn Hfit. assert (Hino : ext2_read_inode part ino = Ok (inode_bytes part tbl index)) by (by apply read_inode_ok). split_and!.
  - intros Hok. eapply read_file_ok; try done; lia.
  - intros H0. eapply first_hole_panics; try done; lia.
  - intros Hok Hgt H0. eapply no_doubly_panics; try done; lia.
Qed.

(** A file whose blocks are exactly the twelve direct ones and all those of the singly indirect
    block.  Its inode counts the indirect block too ([12 + blocksize/4 + 1] blocks), so that the
    code goes on to the doubly indirect pointer, which is 0, and panics. *)
Theorem ext2_full_singly_panics part ino inode p blocks size : part_wf part -> ext2_read_inode part ino = Ok inode -> inode_has inode p blocks size ->
  2 <= ino -> file_ok part p (12 + ppb part) -> doubly p = 0 -> blocks / Z.shiftl 2 (s_log_block_size part) = 12 + ppb part + 1 ->
  (13 + ppb part) * blocksize part < 2 ^ 32 -> ext2_read_file part ino = Panic.
Proof. intros Hw Hino Hi Hin Hok H0 Hb Hfit. eapply no_doubly_panics; try done; rewrite Hb; [lia|]. by replace (12 + ppb part + 1) with (13 + ppb part) by lia. Qed.

(** The mode test takes block devices and sockets for directories. *)
Theorem ext2_isdir_blockdev : EXT2_ISDIR 0x6000 = true /\ EXT2_ISDIR 0xC000 = true /\ forall m, Z.land m 0xF000 = 0x4000 -> EXT2_ISDIR m = true.
Proof.
  split; [done|]. split; [done|]. intros m H. unfold EXT2_ISDIR. replace (Z.land m 0x4000) with (Z.land (Z.land m 0xF000) 0x4000) by (by rewrite <- Z.land_assoc).
  by rewrite H.
Qed.

(** ** A small file system *)
Definition le32 (v : Z) : list Z := [v mod 256; v / 256 mod 256; v / 65536 mod 256; v / 16777216 mod 256].
Definition demo_inode (mode size blocks : Z) (ptrs : list Z) : list Z :=
  le16 mode ++ [0; 0] ++ le32 size ++ replicate 20 0 ++ le32 blocks ++ replicate 8 0 ++ (ptrs ≫= le32) ++ replicate (88 - 4 * length ptrs) 0.
(** Twelve blocks after two sectors; the inode table is block 3, inode 2 has the blocks 5 and 7. *)
Definition demo_media : list Z :=
  replicate (1024 + 3 * 1024 + 128) 0 ++ demo_inode 0x81A4 1500 4 [5; 7] ++ replicate (1024 - 256 + 1024) 0 ++ replicate 1024 65 ++ replicate 1024 0 ++ replicate 1024 66 ++ replicate (4 * 1024) 0.
Definition demo_part : ext2_partition :=
  mk_ext2 (mk_dev true false 26 16 [] demo_media) 2 12 0 8192 8 (replicate 8 0 ++ le32 3 ++ replicate 20 0) 1024 [47] 0.
Definition demo_ptrs : inode_ptrs := mk_ptrs ([5; 7] ++ replicate 10 0) 0 0 0.

Lemma demo_part_wf : part_wf demo_part.
Proof. constructor; [repeat split; by vm_compute | by vm_compute | done | done]. Qed.
Lemma demo_file_ok : file_ok demo_part demo_ptrs 2.
Proof.
  constructor; [|intros H; by vm_compute in H ..]. split; [done|]. split; [by exists 5|]. change (take (Z.to_nat 2) (direct demo_ptrs)) with [5; 7].
  by repeat (apply Forall_cons; split; [right; by vm_compute|]).
Qed.
Lemma ext2_read_file_witness : ext2_read_file demo_part 2 = Ok (replicate 1024 65 ++ replicate 1024 66, 1500).
Proof.
  destruct (ext2_read_file_correct demo_part 2 3 demo_ptrs 4 1500 demo_part_wf) as [H _]; [lia | by vm_compute | by vm_compute | by vm_compute | lia | by vm_compute | repeat split; by vm_compute | done | by vm_compute |].
  rewrite (H demo_file_ok). by vm_compute.
Defined.

(** A doubly indirect block (number 3) whose first singly indirect block is missing and whose second one is number 4, with the data of block 5: the data
    are those of the blocks from number 256 on below it, and the code puts them in front. *)
Definition demo_gap : ext2_partition :=
  mk_ext2 (mk_dev true false 26 16 [] (replicate (1024 + 3 * 1024) 0 ++ le32 0 ++ le32 4 ++ replicate 1016 0 ++ le32 5 ++ replicate 1020 0 ++ replicate 1024 65 ++ replicate (6 * 1024) 0)) 2 12 0 8192 8 (replicate 8 0 ++ le32 3 ++ replicate 20 0) 1024 [47] 0.
Theorem ext2_missing_indirect_shifts : take 2 (ptrs demo_gap 3) = [0; 4] /\ head (ptrs demo_gap 4) = Some 5 /\ content demo_gap 5 = replicate 1024 65 /\
  read_doubly_indirect_blocks demo_gap 3 1 (zeros 1024) 0 = Ok (1, replicate 1024 65).
Proof. split_and!; vm_compute; reflexivity. Qed.
