(* ===== verification/Ext2Dir.v ===== *)
(** * ext2: directories, paths and the calls of the VFS (src/src/kernel/ext2.c)

    Directory data are the bytes [ext2_read_file] returns.  A string is its characters without the
    terminator.  The calls a symbolic link makes back into the VFS ([open], [stat],
    [resolve_actual_path] of vfs.c) are the operations of the class [Vfs]: whatever file system
    the link leads to answers them. *)
From S2P Require Import Prelude CString Path Net NetSum NetSend Ata Ext2.

(** ** Directory entries, at a position of the directory's data *)
Definition d_inode (dir : list Z) (i : Z) : res Z := get32 dir i.
Definition d_rec_len (dir : list Z) (i : Z) : res Z := get16 dir (i + 4).
Definition d_name_len (dir : list Z) (i : Z) : res Z := aget dir (i + 6).
Definition d_file_type (dir : list Z) (i : Z) : res Z := aget dir (i + 7).
Definition d_name (dir : list Z) (i n : Z) : res (list Z) := bytes dir (i + 8) n.

Definition EXT2_FT_SYMLINK : Z := 7.

(** The loop of [_inode_for_path] over a directory of [size] bytes: the entry with a name.  The
    position stays below the size of a buffer in memory plus one record, so it does not wrap. *)
Record found := mk_found { f_inode : Z; f_type : Z }.
Fixpoint search_dir (fuel : nat) (bs : Z) (cur_entry dir : list Z) (size i : Z) : res (option found) :=
  match fuel with
  | O => NoFuel
  | S fuel =>
      if size <=? i then Panic
      else
      ino ← d_inode dir i;
      if ino =? 0 then
        assert (i mod bs =? 0) ;;
        if i + bs <? size then search_dir fuel bs cur_entry dir size (i + bs) else Ok None
      else
        n ← d_name_len dir i;
        same ← (if zlen cur_entry =? n then nm ← d_name dir i n; Ok (bool_decide (nm = cur_entry)) else Ok false);
        if same : bool then t ← d_file_type dir i; Ok (Some (mk_found ino t))
        else
          rl ← d_rec_len dir i;
          if i + rl <? size then search_dir fuel bs cur_entry dir size (i + rl) else Ok None
  end.

(** ** Paths *)
(** [strchr(s, '/')]: what comes before it and, if there is one, what comes after it. *)
Fixpoint split_slash (s : list Z) : list Z * option (list Z) :=
  match s with
  | [] => ([], None)
  | c :: s => if c =? SLASH then ([], Some s) else let '(a, b) := split_slash s in (c :: a, b)
  end.

(** [calculate_parent]: the first [n] components of a full path; [strchr] finding nothing is NULL. *)
Fixpoint parent_scan (n : nat) (before rest : list Z) : res (list Z) :=
  match n with
  | O => Ok before
  | S n =>
      match rest with
      | [] => Panic
      | c :: rest =>
          match split_slash rest with
          | (a, Some b) => parent_scan n (before ++ c :: a) (SLASH :: b)
          | (_, None) => Panic
          end
      end
  end.
Definition calculate_parent (depth : Z) (full_path : list Z) : res (list Z) :=
  parent_scan (Z.to_nat depth) [] (take (Z.to_nat PATH_MAX) full_path).

Definition zero_path : list Z := replicate (Z.to_nat (PATH_MAX + 1)) 0.
(** The text of a buffer up to its terminator. *)
Fixpoint text (l : list Z) : list Z :=
  match l with [] => [] | c :: l => if c =? 0 then [] else c :: text l end.

(** [path_join] in a buffer of [PATH_MAX + 1] bytes, and the text it leaves there. *)
Definition joined (a b : list Z) : res (list Z) :=
  '(p, _) ← path_join (a ++ replicate (Z.to_nat (PATH_MAX + 1) - length a) 0) (b ++ [0]);
  Ok (text p).

Inductive inode_ret := TYPE_INODE (value : Z) | TYPE_RETVAL (value : ret).
Inductive operation := OPERATION_OPEN (mode : Z) | OPERATION_STAT | OPERATION_LSTAT | OPERATION_READLINK.

(** [struct stat]: the fields [ext2_stat_inode] sets. *)
Record stat := mk_stat {
  st_dev : Z; st_ino : Z; st_mode : Z; st_nlink : Z; st_size : Z;
  st_mtime : Z; st_ctime : Z; st_atime : Z; st_blksize : Z; st_blocks : Z
}.

(** What the file system promises to and needs of the VFS: the state has the count of links
    being followed and the caller's [struct stat]. *)
Class Vfs (St : Type) := {
  link_count : St -> Z;
  set_link_count : Z -> St -> St;
  stat_buf : St -> stat;
  set_stat : stat -> St -> St;
  vfs_open : list Z -> Z -> ST St ret;
  vfs_stat : list Z -> ST St ret;
  resolve_actual_path : list Z -> ST St (option (list Z));   (** [None] for -ELOOP *)
  dev_of : ext2_partition -> St -> option Z                   (** the index in [devtable] *)
}.

Section ops.
Context {St : Type} `{Vfs St}.

Definition ext2_stat_inode (part : ext2_partition) (inode_num : Z) : ST St ret :=
  ensure (EXT2_ROOT_INO <=? inode_num) ;;
  inode ← lift (ext2_read_inode part inode_num);
  d ← gets (dev_of part);
  ensure (match d with Some _ => true | None => false end) ;;
  d ← lift (deref d);
  mode ← lift (i_mode inode); links ← lift (i_links_count inode); size ← lift (i_size inode);
  mtime ← lift (i_mtime inode); ctime ← lift (i_ctime inode); atime ← lift (i_atime inode); blocks ← lift (i_blocks inode);
  modify (set_stat (mk_stat d inode_num mode links size mtime ctime atime (blocksize part) blocks)) ;;
  mret (Val 0).

Definition ext2_handle_operation (part : ext2_partition) (full_path : list Z) (inode_num : Z) (op : operation) : ST St inode_ret :=
  ensure (EXT2_ROOT_INO <=? inode_num) ;;
  n ← gets link_count;
  if 6 <=? n then mret (TYPE_RETVAL (Err ELOOP))
  else
    match op with
    | OPERATION_OPEN mode =>
        modify (fun s => set_link_count (link_count s + 1) s) ;;
        r ← vfs_open full_path mode;
        modify (fun s => set_link_count (link_count s - 1) s) ;;
        mret (TYPE_RETVAL r)
    | OPERATION_STAT =>
        modify (fun s => set_link_count (link_count s + 1) s) ;;
        r ← vfs_stat full_path;
        modify (fun s => set_link_count (link_count s - 1) s) ;;
        mret (TYPE_RETVAL r)
    | OPERATION_LSTAT => r ← ext2_stat_inode part inode_num; mret (TYPE_RETVAL r)
    | OPERATION_READLINK => mret (TYPE_INODE inode_num)
    end.

(** [full_path] in terms of a link at a [depth] below the mount point. *)
Definition ext2_handle_symlink_in_path (part : ext2_partition) (path link_path full : list Z) (depth parent_inode_num : Z) (op : operation) : ST St inode_ret :=
  ensure (match link_path with [] => false | _ => true end) ;;
  ensure (match full with [] => false | _ => true end) ;;
  parent_dir ← lift (calculate_parent (depth + mp_depth part) full);
  ensure (match parent_dir with c :: _ => c =? SLASH | [] => false end) ;;
  let full_path := match link_path with c :: _ => if c =? SLASH then link_path else parent_dir | [] => parent_dir end in
  r ← resolve_actual_path full_path;
  match r with
  | None => mret (TYPE_RETVAL (Err ELOOP))
  | Some p => p ← lift (joined p path); ext2_handle_operation part p parent_inode_num op
  end.

(** The final component is a symbolic link, [ino]: where it leads. *)
Definition follow_last (part : ext2_partition) (full : list Z) (depth ino : Z) (op : operation) : ST St inode_ret :=
  tmp_inode ← lift (ext2_read_inode part ino);
  '(path_buf, _) ← lift (ext2_readlink_inode part ino tmp_inode zero_path (PATH_MAX + 1));
  let target := text path_buf in
  if (match target with c :: _ => c =? SLASH | [] => false end) then ext2_handle_operation part target ino op
  else
    parent_dir ← lift (calculate_parent (depth + mp_depth part) full);
    ensure (match parent_dir with c :: _ => c =? SLASH | [] => false end) ;;
    r ← resolve_actual_path parent_dir;
    match r with
    | None => mret (TYPE_RETVAL (Err ELOOP))
    | Some p => p ← lift (joined p target); ext2_handle_operation part p ino op
    end.

Fixpoint inode_for_path_rec (fuel : nat) (part : ext2_partition) (path full : list Z) (depth parent_inode_num : Z) (op : operation) : ST St inode_ret :=
  match fuel with
  | O => lift NoFuel
  | S fuel =>
      ensure (EXT2_ROOT_INO <=? parent_inode_num) ;;
      n ← gets link_count; ensure (0 <=? n) ;;
      let cur_entry := (split_slash (take (Z.to_nat PATH_MAX) path)).1 in
      parent_inode ← lift (ext2_read_inode part parent_inode_num);
      mode ← lift (i_mode parent_inode);
      if EXT2_ISLNK mode then
        '(link_path, _) ← lift (ext2_readlink_inode part parent_inode_num parent_inode zero_path (PATH_MAX + 1));
        ext2_handle_symlink_in_path part path (text link_path) full depth parent_inode_num op
      else if negb (EXT2_ISDIR mode) then mret (TYPE_RETVAL (Err ENOTDIR))
      else
        '(dir, size) ← lift (ext2_read_file part parent_inode_num);
        r ← lift (search_dir (Z.to_nat size + 1) (blocksize part) cur_entry dir size 0);
        match r with
        | None => mret (TYPE_INODE 0)
        | Some e =>
            if bool_decide (path = cur_entry) then
              if f_type e =? EXT2_FT_SYMLINK then follow_last part full depth (f_inode e) op
              else mret (TYPE_INODE (f_inode e))
            else
              match (split_slash path).2 with
              | Some rest => inode_for_path_rec fuel part rest full (depth + 1) (f_inode e) op
              | None => lift Panic
              end
        end
  end.
Definition inode_for_path (part : ext2_partition) (path : list Z) (op : operation) : ST St inode_ret :=
  match path with
  | c :: rest =>
      if c =? SLASH then
        if bool_decide (rest = []) then mret (TYPE_INODE EXT2_ROOT_INO)
        else full ← lift (joined (mp_path part) path); inode_for_path_rec (length path) part rest full 0 EXT2_ROOT_INO op
      else lift Panic
  | [] => lift Panic
  end.

(** ** The calls *)
Definition stat_with (op : operation) (part : ext2_partition) (path : list Z) : ST St ret :=
  r ← inode_for_path part path op;
  match r with
  | TYPE_INODE v => if v =? 0 then mret (Err ENOENT) else ext2_stat_inode part v
  | TYPE_RETVAL v => mret v
  end.
Definition ext2_stat : ext2_partition -> list Z -> ST St ret := stat_with OPERATION_STAT.
Definition ext2_lstat : ext2_partition -> list Z -> ST St ret := stat_with OPERATION_LSTAT.

(** [ext2_readlink]: the bytes copied to the caller, or an error. *)
Definition ext2_readlink (part : ext2_partition) (path : list Z) (bufsiz : Z) : ST St (list Z + ret) :=
  ensure (0 <? bufsiz) ;;
  r ← inode_for_path part path OPERATION_READLINK;
  match r with
  | TYPE_RETVAL v => mret (inr v)
  | TYPE_INODE v =>
      if v <? EXT2_ROOT_INO then mret (inr (Err ENOENT))
      else
        inode ← lift (ext2_read_inode part v);
        '(link, r) ← lift (ext2_readlink_inode part v inode zero_path PATH_MAX);
        match r with
        | Err e => mret (inr (Err e))
        | Val size => l ← lift (bytes link 0 (Z.min size bufsiz)); mret (inl l)
        end
  end.

(** [ext2_open] after [new_filp]: an error (the descriptor is given back) or the inode and the
    size for the new open file. *)
Definition O_DIRECTORY : Z := 0x10000.
Definition ext2_open (part : ext2_partition) (path : list Z) (mode : Z) : ST St (ret + Z * Z) :=
  r ← inode_for_path part path (OPERATION_OPEN mode);
  match r with
  | TYPE_RETVAL v => mret (inl v)
  | TYPE_INODE v =>
      if v <? EXT2_ROOT_INO then mret (inl (Err ENOENT))
      else
        inode ← lift (ext2_read_inode part v);
        m ← lift (i_mode inode);
        if negb (Z.land mode O_DIRECTORY =? 0) && negb (EXT2_ISDIR m) then mret (inl (Err ENOTDIR))
        else size ← lift (i_size inode); mret (inr (v, size))
  end.

(** [ext2_read] of an open file: the data copied are never any. *)
Definition ext2_read (part : ext2_partition) (ino offset fsize : Z) : ST St ret :=
  r ← ext2_stat_inode part ino;
  st ← gets stat_buf;
  if Z.land (st_mode st) 0xf000 =? 0x4000 then mret (Err EISDIR)
  else if st_size st =? 0 then mret (Val 0)
  else if fsize <=? offset then mret (Val 0)
  else ensure (0 <=? offset) ;; mret (Val 0).
End ops.

(** ** getdents and readdir *)
(** [struct dirent]. *)
Record dirent := mk_dirent { d_ino : Z; d_dev : Z; d_reclen : Z; d_type : Z; d_namlen : Z; d_nm : list Z }.
Definition dt_of (file_type : Z) : Z :=
  if file_type =? 1 then 8 else if file_type =? 2 then 4 else if file_type =? 3 then 2 else if file_type =? 4 then 6
  else if file_type =? 5 then 1 else if file_type =? 6 then 12 else if file_type =? 7 then 10 else 0.

(** [sizeof(struct dirent) - MAXNAMLEN]: the inode (4), device (2), padding (2), record length
    (2), type and name length (1 each). *)
Definition dirent_fixed : Z := 12.

Definition entry_len (written name_len : Z) : Z :=
  let l := dirent_fixed + name_len + 1 in
  if negb (Z.land (written + l) 3 =? 0) then Z.land l (Z.lnot 3) + 4 else l.

(** [while (dir->inode == 0)]: the next used entry at or after [pos], or the end. *)
Fixpoint skip_unused (fuel : nat) (bs : Z) (dir_buf : list Z) (len pos : Z) : res (option Z * Z) :=
  match fuel with
  | O => NoFuel
  | S fuel =>
      ino ← d_inode dir_buf pos;
      if ino =? 0 then
        if len <=? pos then Ok (None, pos)
        else
          assert (pos mod bs =? 0) ;;
          if len <=? pos + bs then Ok (None, pos + bs) else skip_unused fuel bs dir_buf len (pos + bs)
      else Ok (Some ino, pos)
  end.

(** The main loop; the dirents written to [dp] so far are [out], [written] bytes in all.  Returns
    the result, the new position and the dirents. *)
Fixpoint getdents_loop (fuel : nat) (bs dev : Z) (dir_buf : list Z) (len pos count written : Z) (out : list dirent) : res (ret * Z * list dirent) :=
  if pos <? len then
    match fuel with
    | O => NoFuel
    | S fuel =>
        '(o, pos) ← skip_unused (S (Z.to_nat len)) bs dir_buf len pos;
        match o with
        | None => Ok (Val written, pos, out)
        | Some ino =>
            assert (pos <? len) ;;
            n ← d_name_len dir_buf pos; assert (negb (n =? 0)) ;;
            rl ← d_rec_len dir_buf pos; assert (8 <? rl) ;;
            let l := entry_len written n in
            assert (written + l - (written + (dirent_fixed + n + 1)) <=? 3) ;;
            assert (Z.land (written + l) 3 =? 0) ;;
            if count <? written + l then
              if count <? l then Ok (Err EINVAL, pos, out) else Ok (Val written, pos, out)
            else
              nm ← d_name dir_buf pos n;
              t ← d_file_type dir_buf pos;
              getdents_loop fuel bs dev dir_buf len (pos + rl) count (written + l) (out ++ [mk_dirent ino dev l (dt_of t) n nm])
        end
    end
  else Ok (Val written, pos, out).

(** [struct ext2_getdents_info] of an open directory. *)
Record getdents_info := mk_info { dir_buf : list Z; info_len : Z; info_pos : Z }.
(** [ext2_getdents] of inode [ino] on device [dev] whose mode is [mode]; [data] is the open
    file's [data] pointer. *)
Definition ext2_getdents (part : ext2_partition) (dev ino mode : Z) (data : option getdents_info) (count : Z) : res (ret * option getdents_info * list dirent) :=
  if count <? 128 then Ok (Err EINVAL, data, [])
  else
    data ← match data with
           | Some i => Ok (Some i)
           | None =>
               if negb (Z.land mode 0xf000 =? 0x4000) then Ok None
               else '(buf, len) ← ext2_read_file part ino; assert (0 <? len) ;; Ok (Some (mk_info buf len 0))
           end;
    match data with
    | None => Ok (Err ENOTDIR, None, [])
    | Some i =>
        if negb (info_len i =? 0) && (info_len i <=? info_pos i) then Ok (Val 0, Some i, [])
        else
          assert (info_pos i <? info_len i) ;;
          '(r, pos, out) ← getdents_loop (Z.to_nat (info_len i)) (blocksize part) dev (dir_buf i) (info_len i) (info_pos i) count 0 [];
          Ok (r, Some (mk_info (dir_buf i) (info_len i) pos), out)
    end.

(** [DIR]: the buffer of [readdir], as the dirents in it. *)
Record DIR := mk_DIR { dbuf : option (list dirent); dlen : Z; dpos : Z; dinfo : option getdents_info }.
Fixpoint dirent_at (l : list dirent) (pos : Z) : res dirent :=
  match l with
  | [] => Undef
  | d :: l => if pos =? 0 then Ok d else if pos <? d_reclen d then Undef else dirent_at l (pos - d_reclen d)
  end.
Definition ext2_readdir (part : ext2_partition) (dev ino mode : Z) (dir : DIR) : res (option dirent * DIR) :=
  let buflen := 2048 in
  let b := default [] (dbuf dir) in
  '(stop, dir) ←
    (if (dlen dir =? 0) || (dlen dir <=? dpos dir) then
       assert (dpos dir =? dlen dir) ;;
       '(r, i, out) ← ext2_getdents part dev ino mode (dinfo dir) buflen;
       match r with
       | Val n => Ok ((n =? 0), mk_DIR (Some out) n 0 i)
       | Err _ => Ok (true, mk_DIR (Some out) (-1) 0 i)
       end
     else Ok (false, mk_DIR (Some b) (dlen dir) (dpos dir) (dinfo dir)));
  if stop : bool then Ok (None, dir)
  else
    assert (dlen dir <=? buflen) ;;
    assert (0 <=? dpos dir) ;;
    assert (dpos dir <? dlen dir) ;;
    dent ← dirent_at (default [] (dbuf dir)) (dpos dir);
    Ok (Some dent, mk_DIR (dbuf dir) (dlen dir) (dpos dir + d_reclen dent) (dinfo dir)).
