(* ===== verification/Ext2Path.v ===== *)
(** * ext2: looking up paths and listing directories

    [records] is the on-disk format of directories, a list of records of which some are unused; [search_dir] finds in
    a directory whose unused records take up whole blocks ([unused_whole]) what a linear search of the list of entries finds.  A path without symbolic links is then a walk from the root
    along these lists ([walks]), and [inode_for_path] takes it.  Symbolic links go through
    the operations of [Vfs]; the nesting of these calls is bounded and the count is restored. *)
From S2P Require Import Prelude CString Path Net NetSum NetSend Ata Ext2 Ext2File Ext2Dir.
From stdpp Require Import strings.
#[local] Open Scope Z_scope.

(** ** Directories *)
Record entry := mk_entry { e_inode : Z; e_type : Z; e_name : list Z }.

Section format.
Context (bs size : Z) (dir : list Z).

(** An entry at a position, and how long its record is. *)
Record entry_at (i : Z) (e : entry) (rl : Z) : Prop := {
  ea_inode : d_inode dir i = Ok (e_inode e);
  ea_used : e_inode e <> 0;
  ea_len : d_name_len dir i = Ok (zlen (e_name e));
  ea_name : d_name dir i (zlen (e_name e)) = Ok (e_name e);
  ea_type : d_file_type dir i = Ok (e_type e);
  ea_rec : d_rec_len dir i = Ok rl;
  ea_min : 8 < rl;
  ea_named : e_name e <> []
}.
(** The format: the records from a position on, each with its position and length.  An unused record has the inode 0; a block without
    any record (all zeroes) is one too. *)
Inductive records : Z -> list (Z * Z * option entry) -> Prop :=
  | r_end : records size []
  | r_used i e rl rs : i < size -> entry_at i e rl -> records (i + rl) rs -> records i ((i, rl, Some e) :: rs)
  | r_unused i rl rs : i < size -> d_inode dir i = Ok 0 -> d_rec_len dir i = Ok rl -> 0 < rl -> records (i + rl) rs -> records i ((i, rl, None) :: rs)
  | r_zero i rs : i < size -> i mod bs = 0 -> d_inode dir i = Ok 0 -> d_rec_len dir i = Ok 0 -> records (i + bs) rs -> records i ((i, bs, None) :: rs).
Definition used (rs : list (Z * Z * option entry)) : list entry := omap snd rs.
(** No block has both an unused record and others. *)
Definition unused_whole (rs : list (Z * Z * option entry)) : Prop := Forall (fun r => r.2 = None -> r.1.1 mod bs = 0 /\ r.1.2 = bs) rs.
(** What the code goes through: it skips the block that an unused record starts. *)
Inductive walked_at : Z -> list entry -> Prop :=
  | da_end : walked_at size []
  | da_hole i es : i < size -> d_inode dir i = Ok 0 -> i mod bs = 0 -> walked_at (i + bs) es -> walked_at i es
  | da_entry i e rl es : i < size -> entry_at i e rl -> walked_at (i + rl) es -> walked_at i (e :: es).

Fixpoint find_entry (name : list Z) (es : list entry) : option entry :=
  match es with
  | [] => None
  | e :: es => if decide (e_name e = name) then Some e else find_entry name es
  end.
Definition found_of (e : entry) : found := mk_found (e_inode e) (e_type e).

Context (Hbs : 0 < bs).
Lemma records_walked i rs : records i rs -> unused_whole rs -> walked_at i (used rs).
Proof using.
  induction 1 as [|i e rl rs Hi He _ IH|i rl rs Hi Hz Hr H0 _ IH|i rs Hi Hm Hz Hr _ IH]; intros Hu; [apply da_end|..]; apply Forall_cons in Hu as [Hu1 Hu]; specialize (IH Hu).
  - by apply (da_entry _ e rl).
  - destruct (Hu1 eq_refl) as [H1 H2]. cbn in H1, H2. subst rl. by apply da_hole.
  - by apply da_hole.
Qed.
Lemma walked_at_le i es : walked_at i es -> i <= size.
Proof using. induction 1; lia. Qed.

(** The comparison of one entry with a name. *)
Lemma same_name i e rl name : entry_at i e rl ->
  (if zlen name =? zlen (e_name e) then nm ← d_name dir i (zlen (e_name e)); Ok (bool_decide (nm = name)) else Ok false) = Ok (bool_decide (e_name e = name)).
Proof using.
  intros He. destruct (Z.eqb_spec (zlen name) (zlen (e_name e))) as [_|Hne]; [by rewrite (ea_name _ _ _ He)|].
  rewrite bool_decide_eq_false_2; [done | congruence].
Qed.

Lemma search_dir_ok name i es : walked_at i es -> i < size -> forall fuel, (Z.to_nat (size - i) < fuel)%nat ->
  search_dir fuel bs name dir size i = Ok (found_of <$> find_entry name es).
Proof using Hbs.
  induction 1 as [|i es Hi Hz Hm Hd IH|i e rl es Hi He Hd IH]; intros Hlt [|fuel] Hf; try lia; cbn [search_dir]; rewrite (proj2 (Z.leb_gt _ _)) by lia.
  - rewrite Hz, bind_ok, Hm. cbn [Z.eqb assert]. rewrite bind_ok. destruct (Z.ltb_spec (i + bs) size); [apply IH; lia|].
    inversion Hd; subst; [done | lia..].
  - rewrite (ea_inode _ _ _ He), bind_ok, (proj2 (Z.eqb_neq _ _)) by apply (ea_used _ _ _ He). rewrite (ea_len _ _ _ He), bind_ok, (same_name _ _ _ _ He), bind_ok. cbn [find_entry].
    case_bool_decide; [rewrite decide_True by done; by rewrite (ea_type _ _ _ He)|]. rewrite decide_False by done. rewrite (ea_rec _ _ _ He), bind_ok.
    pose proof (ea_min _ _ _ He). destruct (Z.ltb_spec (i + rl) size); [apply IH; lia|]. inversion Hd; subst; [done | lia..].
Qed.
End format.

(** ** Paths *)
Lemma split_slash_none c : (SLASH ∉ c) -> split_slash c = (c, None).
Proof.
  induction c as [|x c IH]; [done|]. intros Hn. cbn [split_slash]. rewrite (proj2 (Z.eqb_neq _ _)) by set_solver. rewrite IH by set_solver. done.
Qed.
Lemma split_slash_some c r : (SLASH ∉ c) -> split_slash (c ++ SLASH :: r) = (c, Some r).
Proof.
  induction c as [|x c IH]; [done|]. intros Hn. cbn [split_slash app]. rewrite (proj2 (Z.eqb_neq _ _)) by set_solver. rewrite IH by set_solver. done.
Qed.

(** A path without its leading slash. *)
Definition rel (comps : list (list Z)) : list Z := drop 1 (concat (map (cons SLASH) comps)).
Lemma render_rel comps : comps <> [] -> render comps = SLASH :: rel comps.
Proof. by destruct comps. Qed.
Lemma rel_one c : rel [c] = c.
Proof. unfold rel. cbn. by rewrite app_nil_r. Qed.
Lemma rel_more c c' cs : rel (c :: c' :: cs) = c ++ SLASH :: rel (c' :: cs).
Proof. done. Qed.

Section walk.
Context (part : ext2_partition).

(** What the inode of a path component is: a directory with the entries [es], its unused records whole blocks; or no directory. *)
Definition is_dir (ino : Z) (es : list entry) : Prop :=
  exists inode mode dir size, ext2_read_inode part ino = Ok inode /\ i_mode inode = Ok mode /\ EXT2_ISLNK mode = false /\ EXT2_ISDIR mode = true /\
    ext2_read_file part ino = Ok (dir, size) /\ 0 < size /\ exists rs, records (blocksize part) size dir 0 rs /\ unused_whole (blocksize part) rs /\ es = used rs.
Definition is_file (ino : Z) : Prop :=
  exists inode mode, ext2_read_inode part ino = Ok inode /\ i_mode inode = Ok mode /\ EXT2_ISLNK mode = false /\ EXT2_ISDIR mode = false.

(** Following the components of a path from a directory, no symbolic link on the way: the
    inode, 0 if a name is missing, or ENOTDIR. *)
Inductive walks : Z -> list (list Z) -> inode_ret -> Prop :=
  | w_missing d es c cs : is_dir d es -> find_entry c es = None -> walks d (c :: cs) (TYPE_INODE 0)
  | w_last d es c e : is_dir d es -> find_entry c es = Some e -> e_type e <> EXT2_FT_SYMLINK -> walks d [c] (TYPE_INODE (e_inode e))
  | w_down d es c e c' cs r : is_dir d es -> find_entry c es = Some e -> EXT2_ROOT_INO <= e_inode e -> walks (e_inode e) (c' :: cs) r -> walks d (c :: c' :: cs) r
  | w_notdir d c cs : is_file d -> walks d (c :: cs) (TYPE_RETVAL (Err ENOTDIR)).

Context {St : Type} `{Vfs St} (Hbs : 0 < blocksize part).

(** What a step of [_inode_for_path] in a directory does. *)
Lemma step_dir fuel path full depth d op es s : is_dir d es -> EXT2_ROOT_INO <= d -> 0 <= link_count s -> zlen path <= PATH_MAX ->
  inode_for_path_rec (S fuel) part path full depth d op s =
    (let cur := (split_slash path).1 in
     match find_entry cur es with
     | None => mret (TYPE_INODE 0)
     | Some e =>
         if bool_decide (path = cur) then
           if e_type e =? EXT2_FT_SYMLINK then follow_last part full depth (e_inode e) op else mret (TYPE_INODE (e_inode e))
         else match (split_slash path).2 with
              | Some rest => inode_for_path_rec fuel part rest full (depth + 1) (e_inode e) op
              | None => lift Panic
              end
     end) s.
Proof using Hbs.
  intros (inode & mode & dir & size & Hi & Hm & Hl & Hd & Hf & Hs & rs & Hrs & Hu & ->) Hd2 Hc Hp. pose proof (records_walked _ _ _ _ _ Hrs Hu) as Hda. cbn [inode_for_path_rec].
  rewrite (take_ge path) by (unfold zlen in Hp; lia). cbv zeta.
  erewrite st_bind_Ok by (by apply ensure_true, Z.leb_le). erewrite st_bind_Ok by reflexivity.
  erewrite st_bind_Ok by (by apply ensure_true, Z.leb_le). rewrite Hi. erewrite st_bind_Ok by reflexivity. rewrite Hm. erewrite st_bind_Ok by reflexivity.
  rewrite Hl, Hd. cbn [negb]. rewrite Hf. erewrite st_bind_Ok by reflexivity. cbv beta iota.
  rewrite (search_dir_ok _ _ _ Hbs _ _ _ Hda) by lia. erewrite st_bind_Ok by reflexivity. by destruct (find_entry _ (used rs)).
Qed.
Lemma step_file fuel path full depth d op s : is_file d -> EXT2_ROOT_INO <= d -> 0 <= link_count s -> zlen path <= PATH_MAX ->
  inode_for_path_rec (S fuel) part path full depth d op s = Ok (TYPE_RETVAL (Err ENOTDIR), s).
Proof using Hbs.
  intros (inode & mode & Hi & Hm & Hl & Hd) Hd2 Hc Hp. cbn [inode_for_path_rec].
  erewrite st_bind_Ok by (by apply ensure_true, Z.leb_le). erewrite st_bind_Ok by reflexivity.
  erewrite st_bind_Ok by (by apply ensure_true, Z.leb_le). rewrite Hi. erewrite st_bind_Ok by reflexivity. rewrite Hm. erewrite st_bind_Ok by reflexivity.
  by rewrite Hl, Hd.
Qed.

Lemma walk_ok d comps r : walks d comps r -> forall fuel full depth op s, Forall name_ok comps -> EXT2_ROOT_INO <= d -> 0 <= link_count s ->
  zlen (rel comps) <= PATH_MAX -> (length comps <= fuel)%nat ->
  inode_for_path_rec fuel part (rel comps) full depth d op s = Ok (r, s).
Proof using Hbs.
  assert (Hcur : forall c cs, name_ok c -> (split_slash (rel (c :: cs))).1 = c).
  { intros c [|c' cs] (_ & _ & Hn & _); [by rewrite rel_one, split_slash_none | by rewrite rel_more, split_slash_some]. }
  induction 1 as [d es c cs Hd Hf|d es c e Hd Hf Ht|d es c e c' cs r Hd Hf He Hw IH|d c cs Hd]; intros [|fuel] full depth op s Hn H2 Hc Hl Hfu; cbn in Hfu; try lia; inversion Hn as [|? ? Hn1 Hn2]; subst.
  - rewrite (step_dir _ _ _ _ _ _ es) by done. cbv zeta. by rewrite Hcur, Hf.
  - rewrite (step_dir _ _ _ _ _ _ es) by done. cbv zeta. rewrite Hcur, Hf by done. rewrite rel_one, bool_decide_eq_true_2 by done.
    by rewrite (proj2 (Z.eqb_neq _ _)).
  - rewrite (step_dir _ _ _ _ _ _ es) by done. cbv zeta. rewrite Hcur, Hf by done. destruct Hn1 as (_ & _ & Hns & _). rewrite rel_more, split_slash_some by done. cbn [snd].
    rewrite bool_decide_eq_false_2.
    2:{ intros E. apply (f_equal length) in E. rewrite length_app in E. cbn in E. lia. }
    rewrite rel_more, zlen_app, zlen_cons in Hl. pose proof (zlen_nonneg c). apply IH; [done | done | done | lia | cbn in *; lia].
  - by apply step_file.
Qed.
End walk.

(** ** Symbolic links *)
Lemma text_cstr b t : cstr b t -> text b = t.
Proof.
  intros (r & -> & Hok). induction Hok as [|c t Hc _ IH]; [done|]. cbn [text app]. rewrite (proj2 (Z.eqb_neq c 0)) by (unfold char_ok in Hc; lia). by rewrite IH.
Qed.
Lemma render_chars comps : Forall name_ok comps -> Forall char_ok (render comps).
Proof.
  intros Hn. assert (Hs : char_ok SLASH) by (unfold char_ok, SLASH; lia). destruct comps as [|c comps]; [by repeat constructor|]. unfold render. induction Hn as [|t l (_ & Ht & _) _ IH]; [constructor|].
  cbn [map concat]. apply Forall_app. split; [by constructor|]. exact IH.
Qed.
Lemma render_len comps : zlen (render comps) <= Path.size comps + 1.
Proof. destruct comps; [done|]. unfold Path.size, render. lia. Qed.

(** [path_join] of texts: components resolved one after the other. *)
Lemma path_join_ok comps t : Forall name_ok comps -> Forall char_ok t -> Forall (fun c => zlen c <= 255) (Path.split t) -> Path.size comps + zlen t + 1 < PATH_MAX ->
  joined (render comps) t = Ok (render (Path.resolve comps (Path.split t))).
Proof.
  intros Hn Ht Hl Hsz. unfold joined. pose proof (render_len comps) as Hr. pose proof (zlen_nonneg t).
  set (pad := (Z.to_nat (PATH_MAX + 1) - length (render comps))%nat). assert (Hpad : exists k, pad = S k) by (exists (pred pad); unfold pad, zlen in *; lia). destruct Hpad as [k Hk].
  destruct (path_join_spec (render comps ++ replicate pad 0) comps (t ++ [0]) t) as (b' & -> & Hc & _).
  - exists (replicate k 0). rewrite Hk. split; [done | by apply render_chars].
  - done.
  - rewrite zlen_app. unfold zlen, pad in *. rewrite length_replicate. lia.
  - by exists [].
  - by apply split_names.
  - pose proof (size_nonneg comps). lia.
  - pose proof (split_size t). lia.
  - rewrite bind_ok. cbv beta iota. by rewrite (text_cstr _ _ Hc).
Qed.

Lemma parent_scan_ok cs : forall n before, Forall name_ok cs -> (n < length cs)%nat ->
  parent_scan n before (concat (map (cons SLASH) cs)) = Ok (before ++ concat (map (cons SLASH) (take n cs))).
Proof.
  induction cs as [|c cs IH]; intros [|n] before Hn Hl; cbn in Hl; try lia; [by rewrite app_nil_r|].
  destruct cs as [|c' cs]; [cbn in Hl; lia|]. inversion Hn as [|? ? (_ & _ & Hc & _) Hn2]; subst.
  cbn [map concat app parent_scan]. cbn [app]. rewrite split_slash_some by done.
  specialize (IH n (before ++ SLASH :: c) Hn2 ltac:(lia)). cbn [map concat app] in IH. rewrite IH. rewrite <- app_assoc. done.
Qed.

(** The parent of a link: the components of the full path up to the link's own. *)
Lemma calculate_parent_ok cs c : Forall name_ok (cs ++ [c]) -> zlen (render (cs ++ [c])) <= PATH_MAX ->
  calculate_parent (zlen cs) (render (cs ++ [c])) = Ok (concat (map (cons SLASH) cs)).
Proof.
  intros Hn Hl. unfold calculate_parent. rewrite take_ge by (unfold zlen in Hl; lia). rewrite render_snoc.
  pose proof (parent_scan_ok (cs ++ [c]) (length cs) [] Hn) as H. rewrite length_app in H. cbn [length app] in H.
  rewrite take_app_length in H. rewrite map_app, concat_app in H. cbn [map concat] in H. rewrite app_nil_r in H. unfold zlen. rewrite Nat2Z.id. apply H. lia.
Qed.

(** [ext2_readlink_inode] of a link whose target is in the inode, and of one with data blocks. *)
Lemma readlink_fast part ino inode mode size b bufsize : 2 <= ino -> i_mode inode = Ok mode -> EXT2_ISLNK mode = true -> i_size inode = Ok size -> i_blocks inode = Ok 0 ->
  0 <= size <= 60 -> length inode = 128%nat -> size < bufsize -> bufsize <= zlen b ->
  ext2_readlink_inode part ino inode b bufsize = Ok (take (Z.to_nat size) (drop 40 inode) ++ 0 :: drop (S (Z.to_nat size)) b, Val size).
Proof.
  intros Hi Hm Hl Hs Hb Hsz Hin Hbuf Hbl. unfold ext2_readlink_inode, EXT2_ROOT_INO. rewrite (proj2 (Z.leb_le 2 ino)), (proj2 (Z.eqb_neq bufsize 0)) by lia.
  cbn [negb assert]. rewrite !bind_ok, Hm, bind_ok, Hs, bind_ok, Hb, bind_ok, Hl. cbn [negb]. rewrite u32_small by lia.
  rewrite (proj2 (Z.ltb_ge _ _)), (proj2 (Z.leb_le size 60)) by lia. cbn [andb Z.eqb]. rewrite blit_Ok by (unfold zlen in *; lia). rewrite bind_ok.
  change (Z.to_nat 0) with O. rewrite take_0, app_nil_l. rewrite aset_in by (unfold zlen in *; rewrite length_app, length_take, !length_drop; lia). rewrite bind_ok. do 2 f_equal.
  change (Z.to_nat 40) with 40%nat. set (t := take (Z.to_nat size) (drop 40 inode)).
  assert (Lt : length t = Z.to_nat size) by (unfold t; rewrite length_take, length_drop; lia).
  replace (Z.to_nat size) with (length t + 0)%nat at 1 by lia. rewrite insert_app_r. f_equal.
  replace (Z.to_nat (0 + size)) with (Z.to_nat size) by lia. destruct (drop (Z.to_nat size) b) as [|x l] eqn:E.
  { apply (f_equal length) in E. rewrite length_drop in E. unfold zlen in *. cbn in E. lia. }
  cbn. f_equal. replace (S (Z.to_nat size)) with (Z.to_nat size + 1)%nat by lia. rewrite <- drop_drop, E. done.
Qed.
Lemma readlink_not_link part ino inode mode size blocks b bufsize : 2 <= ino -> i_mode inode = Ok mode -> EXT2_ISLNK mode = false -> i_size inode = Ok size -> i_blocks inode = Ok blocks ->
  bufsize <> 0 -> ext2_readlink_inode part ino inode b bufsize = Ok (b, Err EINVAL).
Proof.
  intros Hi Hm Hl Hs Hb Hbuf. unfold ext2_readlink_inode, EXT2_ROOT_INO. rewrite (proj2 (Z.leb_le 2 ino)), (proj2 (Z.eqb_neq bufsize 0)) by lia.
  cbn [negb assert]. rewrite !bind_ok, Hm, bind_ok, Hs, bind_ok, Hb, bind_ok, Hl. done.
Qed.

Section links.
Context (part : ext2_partition) {St : Type} `{Vfs St} (Hbs : 0 < blocksize part).

(** The entry of a path whose other components are directories. *)
Inductive reaches : Z -> list (list Z) -> entry -> Prop :=
  | r_last d es c e : is_dir part d es -> find_entry c es = Some e -> reaches d [c] e
  | r_down d es c e c' cs e' : is_dir part d es -> find_entry c es = Some e -> EXT2_ROOT_INO <= e_inode e -> reaches (e_inode e) (c' :: cs) e' -> reaches d (c :: c' :: cs) e'.

Lemma reaches_ok d comps e : reaches d comps e -> forall fuel full depth op s, Forall name_ok comps -> EXT2_ROOT_INO <= d -> 0 <= link_count s ->
  zlen (rel comps) <= PATH_MAX -> (length comps <= fuel)%nat ->
  inode_for_path_rec fuel part (rel comps) full depth d op s =
    (if e_type e =? EXT2_FT_SYMLINK then follow_last part full (depth + zlen comps - 1) (e_inode e) op else mret (TYPE_INODE (e_inode e))) s.
Proof using Hbs.
  induction 1 as [d es c e Hd Hf|d es c e c' cs e' Hd Hf He Hw IH]; intros [|fuel] full depth op s Hn H2 Hc Hl Hfu; cbn in Hfu; try lia; inversion Hn as [|? ? (_ & _ & Hns & _) Hn2]; subst.
  - rewrite (step_dir _ Hbs _ _ _ _ _ _ es) by done. cbv zeta. rewrite rel_one, split_slash_none by done. cbn [fst]. rewrite Hf, bool_decide_eq_true_2 by done.
    by rewrite (Z.add_simpl_r depth 1 : depth + zlen [c] - 1 = depth).
  - rewrite (step_dir _ Hbs _ _ _ _ _ _ es) by done. cbv zeta. rewrite rel_more, split_slash_some by done. cbn [fst snd]. rewrite Hf, bool_decide_eq_false_2.
    2:{ intros E. apply (f_equal length) in E. rewrite length_app in E. cbn in E. lia. }
    rewrite rel_more, zlen_app, zlen_cons in Hl. pose proof (zlen_nonneg c). rewrite IH by (done || lia || (cbn in *; lia)).
    rewrite (zlen_cons c). by replace (depth + (1 + zlen (c' :: cs)) - 1) with (depth + 1 + zlen (c' :: cs) - 1) by lia.
Qed.

Definition links_to (ino : Z) (t : list Z) : Prop :=
  EXT2_ROOT_INO <= ino /\ exists inode buf r, ext2_read_inode part ino = Ok inode /\ ext2_readlink_inode part ino inode zero_path (PATH_MAX + 1) = Ok (buf, r) /\ text buf = t.

(** The path a link with target [t] in the directory with components [cs] stands for: an
    absolute target as it is, a relative one below the directory. *)
Inductive leads_to (cs : list (list Z)) (t : list Z) (s : St) : list Z -> St -> Prop :=
  | lt_abs : head t = Some SLASH -> leads_to cs t s t s
  | lt_rel pc s' : head t <> Some SLASH -> cs <> [] -> resolve_actual_path (render cs) s = Ok (Some (render pc), s') -> Forall name_ok pc ->
      Forall char_ok t -> Forall (fun c => zlen c <= 255) (Path.split t) -> Path.size pc + zlen t + 1 < PATH_MAX ->
      leads_to cs t s (render (Path.resolve pc (Path.split t))) s'.

Lemma render_concat cs : cs <> [] -> concat (map (cons SLASH) cs) = render cs.
Proof. by destruct cs. Qed.

Lemma head_slash (t : list Z) : (match t with c :: _ => c =? SLASH | [] => false end) = bool_decide (head t = Some SLASH).
Proof. destruct t as [|c t]; [done|]. cbn. destruct (Z.eqb_spec c SLASH) as [->|?]; [done|]. rewrite bool_decide_eq_false_2; [done | congruence]. Qed.

Lemma follow_last_ok cs c t ino op s p s' : Forall name_ok (cs ++ [c]) -> zlen (render (cs ++ [c])) <= PATH_MAX -> links_to ino t -> leads_to cs t s p s' ->
  follow_last part (render (cs ++ [c])) (zlen cs - mp_depth part) ino op s = ext2_handle_operation part p ino op s'.
Proof.
  intros Hn Hl (H2 & inode & buf & r & Hi & Hr & Ht) Hlt. unfold follow_last. rewrite Hi. erewrite st_bind_Ok by reflexivity. rewrite Hr. erewrite st_bind_Ok by reflexivity. cbv beta iota zeta.
  rewrite Ht, head_slash. destruct Hlt as [Ha | pc s' Ha Hc Hres Hpc Htc Htl Hsz].
  - by rewrite bool_decide_eq_true_2.
  - rewrite bool_decide_eq_false_2 by done. rewrite Z.sub_add, calculate_parent_ok by done. erewrite st_bind_Ok by reflexivity.
    rewrite render_concat by done. rewrite head_slash, bool_decide_eq_true_2 by (by destruct cs).
    erewrite st_bind_Ok by reflexivity. erewrite st_bind_Ok by done. cbv beta iota. rewrite path_join_ok by done. erewrite st_bind_Ok by reflexivity. done.
Qed.

(** A relative link in the root directory of a file system mounted on the root. *)
Lemma follow_last_root c t ino op s : mp_depth part = 0 -> name_ok c -> links_to ino t -> head t <> Some SLASH ->
  follow_last part (render [c]) 0 ino op s = Panic.
Proof.
  intros Hm Hn (H2 & inode & buf & r & Hi & Hr & Ht) Ha. unfold follow_last. rewrite Hi. erewrite st_bind_Ok by reflexivity. rewrite Hr. erewrite st_bind_Ok by reflexivity. cbv beta iota zeta.
  rewrite Ht, head_slash, bool_decide_eq_false_2, Hm by done. done.
Qed.

(** The full path of a path below the mount point. *)
Lemma join_mount ms comps : Forall name_ok ms -> Forall name_ok comps -> Forall no_dots comps -> Path.size ms + Path.size comps + 2 < PATH_MAX ->
  joined (render ms) (render comps) = Ok (render (ms ++ comps)).
Proof.
  intros Hms Hc Hd Hsz. pose proof (render_len comps). rewrite path_join_ok; [| done | by apply render_chars | | lia].
  - rewrite split_render by done. by rewrite resolve_app.
  - rewrite split_render by done. eapply Forall_impl; [exact Hc | by intros u (_ & _ & _ & ?)].
Qed.
End links.

(** ** Theorems *)
Section theorems.
Context {St : Type} `{Vfs St}.

(** The start of every lookup: the full path for [_inode_for_path]. *)
Lemma inode_for_path_start part ms comps op s : mp_path part = render ms -> Forall name_ok ms -> Forall name_ok comps -> Forall no_dots comps -> comps <> [] ->
  Path.size ms + Path.size comps + 2 < PATH_MAX ->
  inode_for_path part (render comps) op s = inode_for_path_rec (length (render comps)) part (rel comps) (render (ms ++ comps)) 0 EXT2_ROOT_INO op s.
Proof.
  intros Hm Hms Hc Hd Hne Hsz. unfold inode_for_path. rewrite Hm, join_mount by done. rewrite render_rel by done. change (SLASH =? SLASH) with true. cbv beta iota.
  rewrite bool_decide_eq_false_2.
  2:{ destruct comps as [|c [|c' cs]]; [done | rewrite rel_one; by inversion Hc as [|? ? (? & _)] | rewrite rel_more; by destruct c]. }
  erewrite st_bind_Ok by reflexivity. done.
Qed.
Lemma path_size_app a b : Path.size (a ++ b) = Path.size a + Path.size b.
Proof. unfold Path.size. by rewrite map_app, concat_app, zlen_app. Qed.
Lemma rel_len comps : zlen (rel comps) <= Path.size comps.
Proof. unfold rel, Path.size, zlen. rewrite length_drop. lia. Qed.
Lemma comps_len comps : (length comps <= length (concat (map (cons SLASH) comps)))%nat.
Proof. induction comps as [|c cs IH]; [done|]. cbn. rewrite length_app. lia. Qed.
Lemma comps_fuel comps : comps <> [] -> (length comps <= length (render comps))%nat.
Proof. destruct comps; [done|]. intros _. apply comps_len. Qed.

(** C22: [inode_for_path] takes the walk of the path.  For a path without symbolic links and dots,
    below any mount point, through directories in which an unused record takes up a whole block (the code skips the rest of its block,
    [ext2_unused_entry_hides]), it finds in each directory the first entry with the component's
    name and goes on in that inode; the result is the inode of the last component, 0 when a
    name is missing, and ENOTDIR when a component in the middle is not a directory.  [ext2_open]
    and [ext2_stat] return ENOENT for a missing name, and their state is untouched. *)
Theorem ext2_lookup_correct part ms comps r s : 0 < blocksize part -> mp_path part = render ms -> Forall name_ok ms -> Forall name_ok comps -> Forall no_dots comps -> comps <> [] ->
  Path.size ms + Path.size comps + 2 < PATH_MAX -> 0 <= link_count s -> walks part EXT2_ROOT_INO comps r ->
  (forall op, inode_for_path part (render comps) op s = Ok (r, s)) /\
  (r = TYPE_INODE 0 -> forall mode, ext2_open part (render comps) mode s = Ok (inl (Err ENOENT), s) /\ ext2_stat part (render comps) s = Ok (Err ENOENT, s)).
Proof.
  intros Hbs Hm Hms Hc Hd Hne Hsz Hl Hw.
  assert (Hi : forall op, inode_for_path part (render comps) op s = Ok (r, s)).
  { intros op. erewrite inode_for_path_start by done. pose proof (rel_len comps). pose proof (size_nonneg ms). apply (walk_ok part Hbs _ _ _ Hw); (done || lia || by apply comps_fuel). }
  split; [exact Hi|]. intros -> mode. unfold ext2_open, ext2_stat, stat_with. split; by erewrite st_bind_Ok by apply Hi.
Qed.

(** C24: Symbolic links.  When the last component is a link, [open] and [stat] are the VFS's
    own, called for the path the link stands for (an absolute target itself, a relative one
    resolved below the link's parent directory, mount point included) with one more link
    on the task's count, which is taken off again; [lstat] describes the link itself and
    [readlink] gets its inode.  At six nested links every operation is ELOOP.  The path of the link's parent is not the
    root of a file system mounted on / when the target is relative ([leads_to]; that case panics). *)
Theorem ext2_symlink_correct part ms cs c e t s p s' : 0 < blocksize part -> mp_path part = render ms -> mp_depth part = zlen ms -> Forall name_ok ms ->
  Forall name_ok (cs ++ [c]) -> Forall no_dots (cs ++ [c]) -> Path.size ms + Path.size (cs ++ [c]) + 2 < PATH_MAX -> 0 <= link_count s ->
  reaches part EXT2_ROOT_INO (cs ++ [c]) e -> e_type e = EXT2_FT_SYMLINK -> links_to part (e_inode e) t -> leads_to (ms ++ cs) t s p s' ->
  let path := render (cs ++ [c]) in
  let inside := set_link_count (link_count s' + 1) s' in
  let leave s := set_link_count (link_count s - 1) s in
  (6 <= link_count s' -> forall op, inode_for_path part path op s = Ok (TYPE_RETVAL (Err ELOOP), s')) /\
  (link_count s' < 6 ->
    (forall mode v s2, vfs_open p mode inside = Ok (v, s2) -> ext2_open part path mode s = Ok (inl v, leave s2)) /\
    (forall v s2, vfs_stat p inside = Ok (v, s2) -> ext2_stat part path s = Ok (v, leave s2)) /\
    (forall v s2, ext2_stat_inode part (e_inode e) s' = Ok (v, s2) -> ext2_lstat part path s = Ok (v, s2)) /\
    inode_for_path part path OPERATION_READLINK s = Ok (TYPE_INODE (e_inode e), s')).
Proof.
  intros Hbs Hm Hmd Hms Hc Hd Hsz Hl Hr Hty Hlk Hlt path inside leave.
  assert (Hi : forall op, inode_for_path part path op s = ext2_handle_operation part p (e_inode e) op s').
  { intros op. assert (Hne : cs ++ [c] <> []) by (by destruct cs). unfold path. erewrite inode_for_path_start by done. pose proof (rel_len (cs ++ [c])). pose proof (size_nonneg ms).
    rewrite (reaches_ok part Hbs _ _ _ Hr) by (done || lia || by apply comps_fuel). rewrite (proj2 (Z.eqb_eq _ _) Hty).
    replace (0 + zlen (cs ++ [c]) - 1) with (zlen (ms ++ cs) - mp_depth part) by (rewrite Hmd, !zlen_app; change (zlen [c]) with 1; lia). rewrite app_assoc.
    apply (follow_last_ok part (ms ++ cs) c t); [rewrite <- app_assoc; by apply Forall_app | | done | done].
    pose proof (render_len ((ms ++ cs) ++ [c])) as Hrl. rewrite <- app_assoc, path_size_app in Hrl. rewrite <- app_assoc. lia. }
  destruct Hlk as [H2 _]. unfold ext2_handle_operation in Hi. split; intros H6.
  - intros op. rewrite Hi. erewrite st_bind_Ok by (by apply ensure_true, Z.leb_le). erewrite st_bind_Ok by reflexivity. by rewrite (proj2 (Z.leb_le _ _)).
  - assert (Hi' : forall op, inode_for_path part path op s = _) by (intros op; rewrite Hi; erewrite st_bind_Ok by (by apply ensure_true, Z.leb_le); erewrite st_bind_Ok by reflexivity; rewrite (proj2 (Z.leb_gt _ _)) by done; reflexivity).
    split_and!; [| | |by rewrite Hi'].
    + intros mode v s2 Hv. unfold ext2_open. rewrite (st_bind_Ok _ _ _ (TYPE_RETVAL v) (leave s2)); [reflexivity|]. rewrite Hi'. erewrite st_bind_Ok by reflexivity. erewrite st_bind_Ok by exact Hv. done.
    + intros v s2 Hv. unfold ext2_stat, stat_with. rewrite (st_bind_Ok _ _ _ (TYPE_RETVAL v) (leave s2)); [reflexivity|]. rewrite Hi'. erewrite st_bind_Ok by reflexivity. erewrite st_bind_Ok by exact Hv. done.
    + intros v s2 Hv. unfold ext2_lstat, stat_with. rewrite (st_bind_Ok _ _ _ (TYPE_RETVAL v) s2); [reflexivity|]. rewrite Hi'. erewrite st_bind_Ok by exact Hv. done.
Qed.

(** A relative link in the root of a file system mounted on the root: the parent's text is
    empty, which the code takes for impossible. *)
Theorem ext2_root_link_panics part c e t s op : 0 < blocksize part -> mp_path part = render [] -> mp_depth part = 0 -> name_ok c -> no_dots c -> zlen c < 255 -> 0 <= link_count s ->
  reaches part EXT2_ROOT_INO [c] e -> e_type e = EXT2_FT_SYMLINK -> links_to part (e_inode e) t -> head t <> Some SLASH ->
  inode_for_path part (render [c]) op s = Panic.
Proof.
  intros Hbs Hm Hmd Hn Hd Hl Hk Hr Hty Hlk Ha. assert (Hsz : Path.size [c] = zlen c + 1) by (unfold Path.size; cbn [map concat]; rewrite app_nil_r, zlen_cons; lia).
  pose proof (rel_len [c]). assert (Hsz2 : Path.size [] + Path.size [c] + 2 < PATH_MAX) by (rewrite Hsz; change (Path.size []) with 0; unfold PATH_MAX; lia).
  rewrite (inode_for_path_start part [] [c] op s) by (done || by apply Forall_singleton || by apply Forall_nil). rewrite (reaches_ok part Hbs _ _ _ Hr); [|by apply Forall_singleton | done | done | unfold PATH_MAX; lia | by apply comps_fuel].
  rewrite (proj2 (Z.eqb_eq _ _) Hty). by apply (follow_last_root part c t).
Qed.

(** ** The count of links *)
(** What the file system relies on: the VFS calls return with the count they got. *)
Class VfsLaws : Prop := {
  link_set n s : link_count (set_link_count n s) = n;
  link_stat x s : link_count (set_stat x s) = link_count s;
  open_keeps p m s r s' : 1 <= link_count s <= 6 -> vfs_open p m s = Ok (r, s') -> link_count s' = link_count s;
  stat_keeps p s r s' : 1 <= link_count s <= 6 -> vfs_stat p s = Ok (r, s') -> link_count s' = link_count s;
  resolve_keeps p s r s' : 0 <= link_count s <= 6 -> resolve_actual_path p s = Ok (r, s') -> link_count s' = link_count s
}.
Context `{VfsLaws}.

(** [m] leaves the count of links as it is. *)
Definition keeps {A} (m : ST St A) : Prop := forall s a s', 0 <= link_count s <= 6 -> m s = Ok (a, s') -> link_count s' = link_count s.
Lemma keeps_bind {A B} (m : ST St A) (f : A -> ST St B) : keeps m -> (forall a, keeps (f a)) -> keeps (m ≫= f).
Proof using.
  intros Hm Hf s b s' Hs (a & s1 & E1 & E2)%st_bind_inv. pose proof (Hm _ _ _ Hs E1) as E. transitivity (link_count s1); [|exact E]. eapply Hf; [|exact E2]. lia.
Qed.
Lemma keeps_lift {A} (r : res A) : keeps (lift r).
Proof using. intros s a s' _. unfold lift. destruct r; [by intros [= <- <-] | done..]. Qed.
Lemma keeps_ret {A} (a : A) : keeps (mret a).
Proof using. by intros s b s' _ [= <- <-]. Qed.
Lemma keeps_gets {A} (f : St -> A) : keeps (gets f).
Proof using. by intros s b s' _ [= <- <-]. Qed.
Lemma keeps_ensure b : keeps (ensure b).
Proof using. apply keeps_lift. Qed.
Lemma keeps_resolve p : keeps (resolve_actual_path p).
Proof. intros s r s' Hs E. by eapply resolve_keeps. Qed.
Lemma keeps_set_stat x : keeps (modify (set_stat x)).
Proof. intros s a s' _ [= <- <-]. apply link_stat. Qed.
Lemma keeps_stat_inode part ino : keeps (ext2_stat_inode part ino).
Proof.
  unfold ext2_stat_inode. repeat (apply keeps_bind; [first [apply keeps_ensure | apply keeps_lift | apply keeps_gets | apply keeps_set_stat]|intros ?]). apply keeps_ret.
Qed.

(** A nested call, one more link deep. *)
Lemma keeps_nested (m : ST St ret) s r s' : (forall s r s', 1 <= link_count s <= 6 -> m s = Ok (r, s') -> link_count s' = link_count s) -> 0 <= link_count s < 6 ->
  (modify (fun s => set_link_count (link_count s + 1) s) ;; v ← m; modify (fun s => set_link_count (link_count s - 1) s) ;; mret (TYPE_RETVAL v)) s = Ok (r, s') -> link_count s' = link_count s.
Proof.
  intros Hm Hs. erewrite st_bind_Ok by reflexivity. intros (v & s1 & E1 & E2)%st_bind_inv. apply Hm in E1; [|rewrite link_set; lia]. rewrite link_set in E1.
  erewrite st_bind_Ok in E2 by reflexivity. injection E2 as <- <-. rewrite link_set. lia.
Qed.
Lemma keeps_operation part p ino op : keeps (ext2_handle_operation part p ino op).
Proof.
  unfold ext2_handle_operation. apply keeps_bind; [apply keeps_ensure|]. intros _ s r s' Hs. erewrite st_bind_Ok by reflexivity.
  destruct (Z.leb_spec 6 (link_count s)); [by intros [= <- <-]|]. destruct op as [mode| | |].
  - apply keeps_nested; [intros *; apply open_keeps | lia].
  - apply keeps_nested; [intros *; apply stat_keeps | lia].
  - apply (keeps_bind _ _ (keeps_stat_inode part ino) (fun r => keeps_ret (TYPE_RETVAL r))). lia.
  - by intros [= <- <-].
Qed.
Local Ltac keep :=
  repeat match goal with
    | |- keeps (_ ≫= _) => apply keeps_bind; [|intros ?]
    | |- keeps (lift _) => apply keeps_lift
    | |- keeps (mret _) => apply keeps_ret
    | |- keeps (gets _) => apply keeps_gets
    | |- keeps (ensure _) => apply keeps_ensure
    | |- keeps (resolve_actual_path _) => apply keeps_resolve
    | |- keeps (ext2_handle_operation _ _ _ _) => apply keeps_operation
    | |- keeps (let '(_, _) := ?x in _) => destruct x
    | |- keeps (if ?b then _ else _) => destruct b
    | |- keeps (match ?x with _ => _ end) => destruct x
    | |- keeps (let x := _ in _) => cbv zeta
    end.
Lemma keeps_rec part fuel : forall path full depth ino op, keeps (inode_for_path_rec fuel part path full depth ino op).
Proof.
  induction fuel as [|fuel IH]; intros path full depth ino op; cbn [inode_for_path_rec]; unfold ext2_handle_symlink_in_path, follow_last; [apply keeps_lift|]. keep; apply IH.
Qed.

(** The count of links.  Nested calls into the VFS happen only with one to six links on the
    count, so the recursion through symbolic links is bounded, and every lookup, on every
    path and for every operation, returns with the count it started with; [open], [stat] and
    [lstat] of the file system themselves then keep the promise they rely on. *)
Theorem ext2_link_count part path op mode : keeps (inode_for_path part path op) /\ keeps (ext2_open part path mode) /\ keeps (ext2_stat part path) /\ keeps (ext2_lstat part path).
Proof.
  assert (Hi : forall op, keeps (inode_for_path part path op)).
  { intros o. unfold inode_for_path. destruct path as [|c p]; [apply keeps_lift|]. keep; apply keeps_rec. }
  split; [apply Hi|]. unfold ext2_open, ext2_stat, ext2_lstat, stat_with. split_and!; (apply keeps_bind; [apply Hi|intros ?]); keep; apply keeps_stat_inode.
Qed.
End theorems.

(** ** A small file system: [/a/f], and [/l], a link to [a/f], mounted on [/mnt] *)
Definition demo_dirent (ino rl type : Z) (name : list Z) : list Z :=
  le32 ino ++ le16 rl ++ [zlen name; type] ++ name ++ replicate (Z.to_nat (rl - 8 - zlen name)) 0.
Definition demo_root : list Z := demo_dirent 3 12 2 (chars "a") ++ demo_dirent 4 1012 7 (chars "l").
Definition demo_a : list Z := demo_dirent 5 1024 1 (chars "f").
Definition demo_link : list Z := le16 0xA1FF ++ [0; 0] ++ le32 3 ++ replicate 32 0 ++ chars "a/f" ++ replicate 85 0.
Definition demo_tree : list Z :=
  replicate (1024 + 3 * 1024 + 128) 0 ++ demo_inode 0x41ED 1024 2 [5] ++ demo_inode 0x41ED 1024 2 [6] ++ demo_link ++ demo_inode 0x81A4 0 0 [] ++ replicate (1024 - 640 + 1024) 0 ++ demo_root ++ demo_a.
Definition demo_fs : ext2_partition :=
  mk_ext2 (mk_dev true false 16 16 [] demo_tree) 2 12 0 8192 8 (replicate 8 0 ++ le32 3 ++ replicate 20 0) 1024 (chars "/mnt") 1.
Definition demo_state : Type := Z * stat.
#[local] Instance demo_vfs : Vfs demo_state := {
  link_count := fst; set_link_count n s := (n, s.2); stat_buf := snd; set_stat x s := (s.1, x);
  vfs_open p m s := Ok (Val (zlen p), s); vfs_stat p s := Ok (Val 0, s); resolve_actual_path p s := Ok (Some p, s); dev_of _ _ := Some 1
}.
#[local] Instance demo_laws : VfsLaws.
Proof. constructor; try done; by intros * _ [= _ <-]. Qed.
Definition demo_start : demo_state := (0, mk_stat 0 0 0 0 0 0 0 0 0 0).

Lemma demo_name c : (0 <? zlen c) && forallb (fun x => (0 <? x) && (x <? 256) && negb (x =? SLASH)) c && (zlen c <=? 255) = true -> name_ok c.
Proof.
  intros [[H1 H2]%andb_prop H3]%andb_prop. bool_to_prop. rewrite forallb_forall in H2. split_and!; [by intros -> | | |done].
  - apply Forall_forall. intros x Hx. apply list_elem_of_In, H2 in Hx. unfold char_ok. bool_to_prop. lia.
  - intros Hx. apply list_elem_of_In, H2 in Hx. bool_to_prop. done.
Qed.
Lemma demo_root_dir : is_dir demo_fs 2 [mk_entry 3 2 (chars "a"); mk_entry 4 7 (chars "l")].
Proof.
  eexists _, 0x41ED, demo_root, 1024. split_and!; [vm_compute; reflexivity | by vm_compute | done | done | by vm_compute | done|].
  exists [(0, 12, Some (mk_entry 3 2 (chars "a"))); (12, 1012, Some (mk_entry 4 7 (chars "l")))]. split; [|split; [by repeat constructor|done]].
  apply r_used; [done | by constructor|]. apply r_used; [done | by constructor|]. apply r_end.
Qed.
Lemma demo_a_dir : is_dir demo_fs 3 [mk_entry 5 1 (chars "f")].
Proof.
  eexists _, 0x41ED, demo_a, 1024. split_and!; [vm_compute; reflexivity | by vm_compute | done | done | by vm_compute | done|].
  exists [(0, 1024, Some (mk_entry 5 1 (chars "f")))]. split; [|split; [by repeat constructor|done]]. apply r_used; [done | by constructor|]. apply r_end.
Qed.
Lemma ext2_lookup_witness : inode_for_path demo_fs (render [chars "a"; chars "f"]) OPERATION_STAT demo_start = Ok (TYPE_INODE 5, demo_start).
Proof.
  apply (ext2_lookup_correct demo_fs [chars "mnt"] [chars "a"; chars "f"] (TYPE_INODE 5) demo_start); try done.
  - apply Forall_singleton. by apply demo_name.
  - repeat (apply Forall_cons; split; [by apply demo_name|]). by apply Forall_nil.
  - by repeat constructor.
  - eapply (w_down _ _ _ _ (mk_entry 3 2 (chars "a"))); [exact demo_root_dir | done | done|]. eapply (w_last _ _ _ _ (mk_entry 5 1 (chars "f"))); [exact demo_a_dir | done | done].
Defined.
Lemma ext2_symlink_witness : ext2_open demo_fs (render [chars "l"]) 0 demo_start = Ok (inl (Val 8), demo_start).
Proof.
  refine (proj1 (proj2 (ext2_symlink_correct demo_fs [chars "mnt"] [] (chars "l") (mk_entry 4 7 (chars "l")) (chars "a/f") demo_start (chars "/mnt/a/f") demo_start _ _ _ _ _ _ _ _ _ _ _ _) _) 0 (Val 8) (set_link_count 1 demo_start) _); try done.
  - apply Forall_singleton. by apply demo_name.
  - apply Forall_singleton. by apply demo_name.
  - by repeat constructor.
  - eapply r_last; [exact demo_root_dir | done].
  - split; [done|]. eexists _, _, _. split_and!; [vm_compute; reflexivity | vm_compute; reflexivity | by vm_compute].
  - apply (lt_rel [chars "mnt"] (chars "a/f") demo_start [chars "mnt"]); try done; [apply Forall_singleton; by apply demo_name | by repeat constructor | by repeat constructor].
Defined.
Lemma ext2_link_count_witness : keeps (ext2_open demo_fs (render [chars "l"]) 0).
Proof. apply (ext2_link_count demo_fs (render [chars "l"]) OPERATION_STAT 0). Defined.
