(* ===== verification/Ext2Dents.v ===== *)
(** * ext2: getdents and readdir list every entry once, in order *)
From S2P Require Import Prelude CString Path Net NetSum NetSend Ata Ext2 Ext2File Ext2Dir Ext2Path.
From stdpp Require Import strings.
#[local] Open Scope Z_scope.

(** ** Records *)
(** The length of a record: the fixed part, the name and its terminator, rounded up to 4. *)
Definition reclen (n : Z) : Z := (n + 16) / 4 * 4.
Definition to_dirent (dev : Z) (e : entry) : dirent :=
  mk_dirent (e_inode e) dev (reclen (zlen (e_name e))) (dt_of (e_type e)) (zlen (e_name e)) (e_name e).
Fixpoint total (es : list entry) : Z :=
  match es with [] => 0 | e :: es => reclen (zlen (e_name e)) + total es end.

Lemma land_3 x : Z.land x 3 = x mod 4.
Proof. change 3 with (Z.ones 2). by rewrite Z.land_ones. Qed.
Lemma entry_len_ok w n : w mod 4 = 0 -> entry_len w n = reclen n.
Proof.
  intros Hw. unfold entry_len, dirent_fixed, reclen. rewrite land_3, <- Z.ldiff_land. change 3 with (Z.ones 2). rewrite Z.ldiff_ones_r, Z.shiftl_mul_pow2, Z.shiftr_div_pow2 by done. change (2 ^ 2) with 4.
  destruct (Z.eqb_spec ((w + (12 + n + 1)) mod 4) 0); cbn [negb]; Z.to_euclidean_division_equations; lia.
Qed.
Lemma reclen_bounds n : 0 <= n -> n + 13 <= reclen n <= n + 16 /\ reclen n mod 4 = 0.
Proof. intros Hn. unfold reclen. rewrite Z.mod_mul by done. split; [Z.to_euclidean_division_equations; lia | done]. Qed.
Lemma reclen_name e : 13 <= reclen (zlen (e_name e)) /\ reclen (zlen (e_name e)) mod 4 = 0.
Proof. pose proof (zlen_nonneg (e_name e)). pose proof (reclen_bounds (zlen (e_name e))). lia. Qed.
Lemma add_mod4 a b : a mod 4 = 0 -> b mod 4 = 0 -> (a + b) mod 4 = 0.
Proof. intros. Z.to_euclidean_division_equations; lia. Qed.
Lemma total_app a b : total (a ++ b) = total a + total b.
Proof. induction a as [|e a IH]; [done|]. cbn [total app]. rewrite IH. lia. Qed.
Lemma total_nonneg es : 0 <= total es.
Proof. induction es as [|e es IH]; [done|]. cbn [total]. pose proof (reclen_name e). lia. Qed.

Section listing.
Context (bs dev size : Z) (dir : list Z) (Hbs : 0 < bs).
Local Abbreviation dirs := (walked_at bs size dir).

Lemma skip_unused_ok i es : dirs i es -> i < size -> forall fuel, (Z.to_nat (size - i) < fuel)%nat ->
  (es = [] /\ skip_unused fuel bs dir size i = Ok (None, size)) \/
  (exists pos e rl es', es = e :: es' /\ skip_unused fuel bs dir size i = Ok (Some (e_inode e), pos) /\ i <= pos < size /\ entry_at dir pos e rl /\ dirs (pos + rl) es').
Proof using Hbs.
  induction 1 as [|i es Hi Hz Hm Hd IH|i e rl es Hi He Hd IH]; intros Hlt [|fuel] Hf; try lia; cbn [skip_unused].
  - rewrite Hz, bind_ok. change (0 =? 0) with true. cbv iota. rewrite (proj2 (Z.leb_gt size i)), Hm by lia. change (assert (0 =? 0)) with (Ok tt). rewrite bind_ok.
    destruct (Z.leb_spec size (i + bs)) as [Hge|Hl].
    + pose proof (walked_at_le _ _ _ _ _ Hd). left. assert (i + bs = size) as -> by lia. split; [|done]. inversion Hd; [done | lia..].
    + destruct (IH Hl fuel ltac:(lia)) as [?|(pos & e & rl & es' & H1 & H2 & H3 & H4)]; [by left|]. right. exists pos, e, rl, es'. split_and!; (done || lia || apply H4).
  - right. exists i, e, rl, es. rewrite (ea_inode _ _ _ _ He), bind_ok, (proj2 (Z.eqb_neq _ _)) by apply (ea_used _ _ _ _ He). split_and!; (done || lia).
Qed.

(** One call: the entries that fit, from a position to a position. *)
Definition fits (count w : Z) (pre post : list entry) : Prop :=
  w + total pre <= count /\ match post with [] => True | e :: _ => count < w + total pre + reclen (zlen (e_name e)) end.
Lemma no_entry es : dirs size es -> es = [].
Proof using. intros Hd. inversion Hd; [done | lia..]. Qed.

Lemma getdents_loop_ok count : forall fuel i es w out, dirs i es -> 0 <= i -> (Z.to_nat (size - i) <= fuel)%nat -> 0 <= w <= count -> w mod 4 = 0 ->
  Forall (fun e => reclen (zlen (e_name e)) <= count) es ->
  exists pre post i', es = pre ++ post /\ dirs i' post /\ i <= i' /\ fits count w pre post /\
    getdents_loop fuel bs dev dir size i count w out = Ok (Val (w + total pre), i', out ++ (to_dirent dev <$> pre)).
Proof using Hbs.
  assert (Hstop : forall i w (out : list dirent), dirs i [] -> 0 <= w <= count -> i <= size ->
    exists pre post i', [] = pre ++ post /\ dirs i' post /\ i <= i' /\ fits count w pre post /\ Ok (Val w, size, out) = Ok (Val (w + total pre), i', out ++ (to_dirent dev <$> pre))).
  { intros i w out Hd Hw Hi. exists [], [], size. cbn [total]. rewrite Z.add_0_r. change (to_dirent dev <$> []) with (@nil dirent). rewrite (app_nil_r out).
    unfold fits. cbn [total]. split_and!; (done || lia || apply da_end). }
  induction fuel as [|fuel IH]; intros i es w out Hd Hi0 Hf Hw Hm HF; pose proof (walked_at_le _ _ _ _ _ Hd) as Hle.
  { assert (i = size) as -> by lia. cbn [getdents_loop]. rewrite (proj2 (Z.ltb_ge size size)) by lia. assert (es = []) as -> by (by apply no_entry). apply Hstop; (done || lia). }
  cbn [getdents_loop]. destruct (Z.ltb_spec i size) as [Hi|Hi].
  2:{ assert (i = size) as -> by lia. assert (es = []) as -> by (by apply no_entry). apply Hstop; (done || lia). }
  destruct (skip_unused_ok i es Hd Hi (S (Z.to_nat size)) ltac:(lia)) as [[-> ->]|(pos & e & rl & es' & -> & -> & Hp & He & Hd')].
  { rewrite bind_ok. apply Hstop; (done || lia). }
  inversion HF as [|? ? HF1 HF2]; subst. pose proof (reclen_name e) as [Hr Hr4].
  rewrite bind_ok. cbv beta iota. rewrite (proj2 (Z.ltb_lt pos size)) by lia. change (assert true) with (Ok tt). rewrite bind_ok, (ea_len _ _ _ _ He), bind_ok.
  rewrite (proj2 (Z.eqb_neq (zlen (e_name e)) 0)) by (intros E0; destruct (ea_named _ _ _ _ He); by destruct (e_name e)). change (assert (negb false)) with (Ok tt). rewrite bind_ok, (ea_rec _ _ _ _ He), bind_ok.
  pose proof (ea_min _ _ _ _ He) as Hrl. rewrite (proj2 (Z.ltb_lt 8 rl)) by lia. change (assert true) with (Ok tt). rewrite bind_ok. cbv zeta. rewrite entry_len_ok by done.
  pose proof (reclen_bounds (zlen (e_name e)) (zlen_nonneg _)) as [Hrb _].
  rewrite (proj2 (Z.leb_le _ 3)), land_3, add_mod4 by (done || unfold dirent_fixed; lia). change (assert true) with (Ok tt). change (assert (0 =? 0)) with (Ok tt). rewrite !bind_ok.
  destruct (Z.ltb_spec count (w + reclen (zlen (e_name e)))) as [Hbig|Hfit].
  - rewrite (proj2 (Z.ltb_ge count (reclen _))) by lia. exists [], (e :: es'), pos. cbn [total]. rewrite Z.add_0_r. change (to_dirent dev <$> []) with (@nil dirent). rewrite (app_nil_r out).
    unfold fits. cbn [total]. split_and!; try (done || lia). by eapply da_entry; [lia | |].
  - rewrite (ea_name _ _ _ _ He), bind_ok, (ea_type _ _ _ _ He), bind_ok.
    destruct (IH (pos + rl) es' (w + reclen (zlen (e_name e))) (out ++ [to_dirent dev e]) Hd') as (pre & post & i' & -> & Hd2 & Hi2 & [Hf1 Hf2] & E); [lia | lia | lia | by apply add_mod4 | done|].
    exists (e :: pre), post, i'. unfold fits. cbn [total]. split_and!; [done | done | lia | lia | destruct post; [done | lia] |]. etransitivity; [exact E|]. rewrite <- app_assoc. do 2 f_equal. f_equal. f_equal. lia.
Qed.
End listing.

Section calls.
Context (part : ext2_partition) (dev ino mode : Z) (Hbs : 0 < blocksize part).

(** The open directory [data] has the entries [es] left. *)
Definition remains (data : option getdents_info) (es : list entry) : Prop :=
  match data with
  | Some i => 0 < info_len i /\ 0 <= info_pos i /\ walked_at (blocksize part) (info_len i) (dir_buf i) (info_pos i) es
  | None => Z.land mode 0xf000 = 0x4000 /\ exists dir size, ext2_read_file part ino = Ok (dir, size) /\ 0 < size /\ walked_at (blocksize part) size dir 0 es
  end.

Lemma getdents_info_ok i es count : remains (Some i) es -> 128 <= count -> Forall (fun e => reclen (zlen (e_name e)) <= count) es ->
  exists pre post i', es = pre ++ post /\ remains (Some i') post /\ fits count 0 pre post /\
    ext2_getdents part dev ino mode (Some i) count = Ok (Val (total pre), Some i', to_dirent dev <$> pre).
Proof using Hbs.
  intros (Hl & Hp & Hd) Hc HF. unfold ext2_getdents. rewrite (proj2 (Z.ltb_ge _ _)), bind_ok, (proj2 (Z.eqb_neq (info_len i) 0)) by lia. cbn [negb andb].
  destruct (Z.leb_spec (info_len i) (info_pos i)) as [Hge|Hlt].
  - pose proof (walked_at_le _ _ _ _ _ Hd). assert (E : info_pos i = info_len i) by lia. exists [], [], i. rewrite E in Hd. apply no_entry in Hd as ->. unfold fits. cbn [total]. split_and!; (done || lia || idtac).
    split_and!; [done | done|]. rewrite E. apply da_end.
  - rewrite (proj2 (Z.ltb_lt _ _)) by done. change (assert true) with (Ok tt). rewrite bind_ok.
    destruct (getdents_loop_ok (blocksize part) dev (info_len i) (dir_buf i) Hbs count (Z.to_nat (info_len i)) (info_pos i) es 0 []) as (pre & post & i' & -> & Hd' & Hi' & Hf & ->); try (done || lia).
    exists pre, post, (mk_info (dir_buf i) (info_len i) i'). split_and!; [done | | done | done]. split_and!; [done | cbn; lia | done].
Qed.

Lemma getdents_ok data es count : remains data es -> 128 <= count -> Forall (fun e => reclen (zlen (e_name e)) <= count) es ->
  exists pre post i', es = pre ++ post /\ remains (Some i') post /\ fits count 0 pre post /\
    ext2_getdents part dev ino mode data count = Ok (Val (total pre), Some i', to_dirent dev <$> pre).
Proof using Hbs.
  destruct data as [i|]; [apply getdents_info_ok|]. intros (Hm & dir & size & Hr & Hs & Hd) Hc HF.
  destruct (getdents_info_ok (mk_info dir size 0) es count) as (pre & post & i' & H1 & H2 & H3 & E); [by split_and! | done | done|].
  exists pre, post, i'. split_and!; try done. rewrite <- E. unfold ext2_getdents. destruct (Z.ltb_spec count 128); [lia|]. rewrite Hm, Z.eqb_refl. cbn [negb]. rewrite Hr, bind_ok. cbv beta iota.
  rewrite (proj2 (Z.ltb_lt 0 size)) by done. done.
Qed.

(** A program that calls getdents until it returns 0. *)
Fixpoint getdents_all (n : nat) (data : option getdents_info) (count : Z) : res (list dirent) :=
  match n with
  | O => NoFuel
  | S n =>
      '(r, data, out) ← ext2_getdents part dev ino mode data count;
      match r with
      | Val 0 => Ok []
      | Val _ => rest ← getdents_all n data count; Ok (out ++ rest)
      | Err _ => Panic
      end
  end.
Lemma getdents_all_ok count : 128 <= count -> forall n data es, remains data es -> Forall (fun e => reclen (zlen (e_name e)) <= count) es -> (length es < n)%nat ->
  getdents_all n data count = Ok (to_dirent dev <$> es).
Proof using Hbs.
  intros Hc. induction n as [|n IH]; intros data es Hr HF Hn; [lia|]. cbn [getdents_all].
  destruct (getdents_ok data es count Hr Hc HF) as (pre & post & i' & -> & Hr' & [Hf1 Hf2] & ->). rewrite bind_ok. cbv beta iota. apply Forall_app in HF as [HF1 HF2].
  rewrite length_app in Hn. destruct pre as [|e pre].
  - destruct post as [|e post]; [done|]. apply Forall_cons in HF2 as [HF2 _]. cbn [total] in Hf2. lia.
  - pose proof (reclen_name e). pose proof (total_nonneg pre). cbn [total]. rewrite (IH _ post Hr' HF2) by (cbn in Hn; lia).
    destruct (reclen (zlen (e_name e)) + total pre) eqn:E; [lia | | lia]. rewrite bind_ok. by rewrite fmap_app.
Qed.

(** ** readdir *)
(** The directory stream [D] has the entries [es] left: some in its buffer, the others to
    be fetched. *)
Definition stream (D : DIR) (es : list entry) : Prop :=
  exists past pre post, es = pre ++ post /\ default [] (dbuf D) = (to_dirent dev <$> past) ++ (to_dirent dev <$> pre) /\
    dpos D = total past /\ dlen D = total past + total pre /\ dlen D <= 2048 /\ remains (dinfo D) post.

Lemma dirent_at_ok past : forall e pre, dirent_at ((to_dirent dev <$> past) ++ (to_dirent dev <$> e :: pre)) (total past) = Ok (to_dirent dev e).
Proof using.
  induction past as [|e0 past IH]; intros e pre; [done|]. cbn [total fmap list_fmap app dirent_at]. pose proof (reclen_name e0). pose proof (total_nonneg past).
  rewrite (proj2 (Z.eqb_neq _ 0)) by lia. cbn [to_dirent d_reclen]. rewrite (proj2 (Z.ltb_ge _ _)) by lia. rewrite Z.add_simpl_l. apply IH.
Qed.
Lemma total_pos e es : 0 < total (e :: es).
Proof using. cbn [total]. pose proof (reclen_name e). pose proof (total_nonneg es). lia. Qed.

(** Taking the next entry out of the buffer. *)
Lemma readdir_buffer D past e pre post : dpos D = total past -> dlen D = total past + total (e :: pre) -> dlen D <= 2048 ->
  default [] (dbuf D) = (to_dirent dev <$> past) ++ (to_dirent dev <$> e :: pre) -> remains (dinfo D) post ->
  exists D', (assert (dlen D <=? 2048) ;; assert (0 <=? dpos D) ;; assert (dpos D <? dlen D) ;; dent ← dirent_at (default [] (dbuf D)) (dpos D);
    Ok (Some dent, mk_DIR (dbuf D) (dlen D) (dpos D + d_reclen dent) (dinfo D))) = Ok (Some (to_dirent dev e), D') /\ stream D' (pre ++ post).
Proof using.
  intros H1 H2 H3 H4 H5. pose proof (total_pos e pre). pose proof (total_nonneg past). rewrite (proj2 (Z.leb_le _ 2048)), (proj2 (Z.leb_le 0 _)), (proj2 (Z.ltb_lt _ _)) by lia.
  change (assert true) with (Ok tt). rewrite !bind_ok, H4, H1, dirent_at_ok, bind_ok. eexists. split; [done|]. exists (past ++ [e]), pre, post. cbn [dbuf dlen dpos dinfo].
  rewrite total_app, H2, H4. cbn [total to_dirent d_reclen] in *. split_and!; (done || lia || idtac). by rewrite fmap_app, <- app_assoc.
Qed.

Lemma readdir_ok D es : stream D es -> Forall (fun e => zlen (e_name e) <= 255) es ->
  match es with
  | [] => exists D', ext2_readdir part dev ino mode D = Ok (None, D') /\ stream D' []
  | e :: es => exists D', ext2_readdir part dev ino mode D = Ok (Some (to_dirent dev e), D') /\ stream D' es
  end.
Proof using Hbs.
  intros (past & pre & post & -> & Hb & Hp & Hl & Hm & Hr) HF. pose proof (total_nonneg past) as Hpast. unfold ext2_readdir. cbv zeta.
  destruct pre as [|e pre].
  - cbn [total app] in Hl |- *. assert (E : (dlen D =? 0) || (dlen D <=? dpos D) = true) by (apply orb_true_iff; right; apply Z.leb_le; lia). rewrite E.
    rewrite (proj2 (Z.eqb_eq (dpos D) (dlen D))) by lia. change (assert true) with (Ok tt). rewrite bind_ok.
    assert (HF' : Forall (fun e => reclen (zlen (e_name e)) <= 2048) post).
    { eapply Forall_impl; [exact HF|]. cbn. intros x Hx. pose proof (reclen_bounds _ (zlen_nonneg (e_name x))). lia. }
    destruct (getdents_ok (dinfo D) post 2048 Hr ltac:(lia) HF') as (pre & post' & i' & -> & Hr' & [Hf1 Hf2] & ->). rewrite bind_ok. cbv beta iota.
    destruct pre as [|e pre].
    + destruct post' as [|e post']; [|apply Forall_cons in HF' as [HF' _]; cbn [total] in Hf2; lia]. rewrite bind_ok. cbv beta iota. cbn [app].
      eexists. split; [done|]. exists [], [], []. by split_and!.
    + pose proof (total_pos e pre). rewrite (proj2 (Z.eqb_neq (total (e :: pre)) 0)), bind_ok by lia. cbv beta iota. cbn [app]. apply (readdir_buffer _ []); (done || lia).
  - pose proof (total_pos e pre). rewrite (proj2 (Z.eqb_neq (dlen D) 0)), (proj2 (Z.leb_gt (dlen D) (dpos D))) by lia. cbn [orb]. rewrite bind_ok. cbv beta iota. cbn [app].
    apply (readdir_buffer _ past); done.
Qed.

(** A program that calls readdir until it returns NULL. *)
Fixpoint readdir_all (n : nat) (D : DIR) : res (list dirent) :=
  match n with
  | O => NoFuel
  | S n =>
      '(o, D) ← ext2_readdir part dev ino mode D;
      match o with Some d => rest ← readdir_all n D; Ok (d :: rest) | None => Ok [] end
  end.
(** The stream [ext2_opendir] makes. *)
Definition opendir_stream : DIR := mk_DIR None 0 0 None.
Lemma readdir_all_ok : forall es n D, stream D es -> Forall (fun e => zlen (e_name e) <= 255) es -> (length es < n)%nat -> readdir_all n D = Ok (to_dirent dev <$> es).
Proof using Hbs.
  induction es as [|e es IH]; intros [|n] D HD HF Hn; cbn in Hn; try lia; cbn [readdir_all]; destruct (readdir_ok D _ HD HF) as (D' & -> & HD'); rewrite bind_ok; cbv beta iota; [done|].
  apply Forall_cons in HF as [_ HF]. rewrite (IH n D' HD' HF) by lia. done.
Qed.
End calls.

(** ** Theorems *)

(** C25: Listing a directory is complete, when its unused records take up whole blocks (the code skips the rest of a block with one,
    [ext2_unused_entry_hides]).  With a buffer of at least 128 bytes and the length of the longest
    record (a shorter one loses entries, [ext2_getdents_drops]), calling [getdents] until it returns 0 delivers every entry of the directory exactly
    once and in order, in at most one call per entry and one more; [readdir] after [opendir] delivers the same entries one by one and then NULL. *)
Theorem ext2_listing_complete part dev ino mode dir size rs count : 0 < blocksize part -> Z.land mode 0xf000 = 0x4000 ->
  ext2_read_file part ino = Ok (dir, size) -> 0 < size -> records (blocksize part) size dir 0 rs -> unused_whole (blocksize part) rs ->
  let es := used rs in Forall (fun e => zlen (e_name e) <= 255) es ->
  128 <= count -> Forall (fun e => reclen (zlen (e_name e)) <= count) es ->
  getdents_all part dev ino mode (S (length es)) None count = Ok (to_dirent dev <$> es) /\
  readdir_all part dev ino mode (S (length es)) opendir_stream = Ok (to_dirent dev <$> es).
Proof.
  intros Hbs Hm Hr Hs Hrs Hu es Hn Hc HF. pose proof (records_walked _ _ _ _ _ Hrs Hu) as Hd. fold es in Hd. split; [apply getdents_all_ok | apply readdir_all_ok]; try done; try lia; [split; [done|]; by exists dir, size|].
  exists [], [], es. split_and!; try done. split; [done|]. by exists dir, size.
Qed.

(** A block whose first entry is unused is skipped as a whole: the names after it in the block
    are not found. *)
Theorem ext2_unused_entry_hides part dir name fuel : 0 < blocksize part -> d_inode dir 0 = Ok 0 ->
  search_dir (S fuel) (blocksize part) name dir (blocksize part) 0 = Ok None.
Proof.
  intros Hbs Hz. cbn [search_dir]. rewrite (proj2 (Z.leb_gt _ _)) by lia. rewrite Hz, bind_ok. change (0 =? 0) with true. cbv iota. rewrite Z.mod_0_l by lia.
  change (assert (0 =? 0)) with (Ok tt). rewrite bind_ok. by rewrite (proj2 (Z.ltb_ge _ _)) by lia.
Qed.

(** An entry longer than the buffer after one that was written: the call fails, although it has
    moved past the entry that it wrote, which the caller never gets. *)
Definition demo_long : list Z := demo_dirent 3 12 2 (chars "a") ++ demo_dirent 4 1012 1 (replicate 200 98).
Theorem ext2_getdents_drops : exists i,
  ext2_getdents demo_fs 1 2 0x41ED (Some (mk_info demo_long 1024 0)) 128 = Ok (Err EINVAL, Some i, [mk_dirent 3 1 16 4 1 (chars "a")]) /\ info_pos i = 12.
Proof. eexists. split; [vm_compute; reflexivity | done]. Qed.

(** [ext2_read] never returns any data. *)
Theorem ext2_read_no_data {St} `{Vfs St} part ino offset fsize s r s' : ext2_read part ino offset fsize s = Ok (r, s') -> r = Val 0 \/ r = Err EISDIR.
Proof.
  unfold ext2_read. intros (v & s1 & _ & E)%st_bind_inv. erewrite st_bind_Ok in E by reflexivity.
  destruct (_ =? 0x4000); [injection E; auto|]. destruct (_ =? 0); [injection E; auto|]. destruct (_ <=? _); [injection E; auto|].
  apply st_bind_inv in E as (u & s2 & _ & E). injection E; auto.
Qed.

Lemma ext2_listing_witness :
  getdents_all demo_fs 1 2 0x41ED 3 None 128 = Ok [mk_dirent 3 1 16 4 1 (chars "a"); mk_dirent 4 1 16 10 1 (chars "l")].
Proof.
  refine (proj1 (ext2_listing_complete demo_fs 1 2 0x41ED demo_root 1024 [(0, 12, Some (mk_entry 3 2 (chars "a"))); (12, 1012, Some (mk_entry 4 7 (chars "l")))] 128 _ _ _ _ _ _ _ _ _)); try done.
  - apply r_used; [done | by constructor|]. apply r_used; [done | by constructor|]. apply r_end.
  - by repeat constructor.
  - by repeat constructor.
  - by repeat constructor.
Defined.
