(* ===== verification/DirBuf.v ===== *)
(** * Directory buffers (fat_readdir, fat_getdents, initrd_readdir, initrd_getdents)

    The FAT and initrd drivers write the [struct dirent]s of a directory one after the other to
    [dir->buf] and deliver them from there.  The buffer is the list of the entries in it; [db_len] is the
    number of bytes they take and [db_buflen] the size of the allocation. *)
From S2P Require Import Prelude CString Path Net Ext2 Ext2Dir Ext2Dents.

(** [sizeof(struct dirent)]: the fixed fields and the [MAXNAMLEN] (256) bytes of [d_name]. *)
Definition MAXNAMLEN : Z := 256.
Definition DIRENT_SIZE : Z := dirent_fixed + MAXNAMLEN.
Definition DT_DIR : Z := 4.
Definition DT_REG : Z := 8.

(** [DIR], of these drivers; [db_buf] is [None] for NULL. *)
Record dirbuf := mk_dirbuf { db_ino : Z; db_dev : Z; db_buf : option (list dirent); db_pos : Z; db_len : Z; db_buflen : Z }.
Definition set_pos (pos : Z) (d : dirbuf) : dirbuf := mk_dirbuf (db_ino d) (db_dev d) (db_buf d) pos (db_len d) (db_buflen d).

(** The record length of a name, padded to a multiple of 4. *)
Definition dent_reclen (namlen : Z) : Z :=
  let l := dirent_fixed + namlen + 1 in
  if negb (Z.land l 3 =? 0) then Z.land l (Z.lnot 3) + 4 else l.

(** The end of [readdir]: the entry at [pos]. *)
Definition take_dirent (d : dirbuf) : res (dirent * dirbuf) :=
  assert (db_pos d <? db_len d) ;;
  assert (Z.land (db_pos d) 3 =? 0) ;;
  assert (db_len d <? db_buflen d) ;;
  buf ← deref (db_buf d);
  dent ← dirent_at buf (db_pos d);
  assert (negb (d_reclen dent =? 0)) ;;
  assert (db_pos d + DIRENT_SIZE <? db_buflen d) ;;
  let pos := db_pos d + d_reclen dent in
  assert (Z.land pos 3 =? 0) ;;
  Ok (dent, set_pos pos d).

(** The loop of [getdents]: copies entries as long as they fit in [count] bytes. *)
Fixpoint copy_dirents (fuel : nat) (d : dirbuf) (count written : Z) (out : list dirent) : res (ret * dirbuf * list dirent) :=
  if db_pos d <? db_len d then
    match fuel with
    | O => NoFuel
    | S fuel =>
        buf ← deref (db_buf d);
        dent ← dirent_at buf (db_pos d);
        if count <? written + d_reclen dent then
          if count <? d_reclen dent then Ok (Err EINVAL, d, out) else Ok (Val written, d, out)
        else
          let d := set_pos (db_pos d + d_reclen dent) d in
          assert (Z.land (db_pos d) 3 =? 0) ;;
          copy_dirents fuel d count (written + d_reclen dent) (out ++ [dent])
    end
  else
    assert (negb (written =? 0)) ;;
    assert (db_pos d =? db_len d) ;;
    Ok (Val written, d, out).
(** The part of [getdents] on a buffer that has been filled. *)
Definition getdents_from (d : dirbuf) (count : Z) : res (ret * dirbuf * list dirent) :=
  assert (db_pos d <? db_len d) ;;
  assert (Z.land (db_pos d) 3 =? 0) ;;
  assert (db_len d <? db_buflen d) ;;
  copy_dirents (Z.to_nat (db_len d)) d count 0 [].

Lemma strcmp_is b1 b2 s t : cstr b1 s -> cstr b2 t -> exists c, strcmp b1 b2 = Ok c /\ (c =? 0) = bool_decide (s = t).
Proof. intros Hs Ht. rewrite (strcmp_eq_0 _ _ _ _ Hs Ht). eexists. split; [done|]. case_decide; [by rewrite bool_decide_true|rewrite bool_decide_false by done]. by destruct (lex s t). Qed.
(** Names that can be components of a path, by evaluation. *)
Lemma names_check l : forallb (fun c => (0 <? zlen c) && forallb (fun x => (0 <? x) && (x <? 256) && negb (x =? SLASH)) c && (zlen c <=? 255)) l = true -> Forall name_ok l.
Proof.
  intros H. apply Forall_forall. intros c Hc. rewrite forallb_forall in H. specialize (H c ltac:(by apply list_elem_of_In)). apply andb_true_iff in H as [[H1 H2]%andb_true_iff H3]. rewrite forallb_forall in H2.
  split_and!; [by intros ->| | |by apply Z.leb_le].
  - apply Forall_forall. intros x Hx. specialize (H2 x ltac:(by apply list_elem_of_In)). unfold char_ok. lia.
  - intros Hx. specialize (H2 SLASH ltac:(by apply list_elem_of_In)). by rewrite Z.eqb_refl, andb_false_r in H2.
Qed.

(** ** Entries and their lengths *)
Definition dent_ok (d : dirent) : Prop := 0 < d_reclen d <= DIRENT_SIZE /\ d_reclen d mod 4 = 0.
Definition dents_len (l : list dirent) : Z := foldr (fun d n => d_reclen d + n) 0 l.
Lemma dent_reclen_eq n : 0 <= n -> dent_reclen n = 4 * ((n + 16) / 4).
Proof.
  intros Hn. unfold dent_reclen, dirent_fixed. rewrite land_3. assert (Z.land (12 + n + 1) (Z.lnot 3) = 4 * ((12 + n + 1) / 4)) as ->.
  { change 3 with (Z.ones 2). rewrite <- Z.ldiff_land, Z.ldiff_ones_r, Z.shiftl_mul_pow2, Z.shiftr_div_pow2 by lia. change (2 ^ 2) with 4. lia. }
  pose proof (Z.div_mod (12 + n + 1) 4 ltac:(lia)). pose proof (Z.mod_pos_bound (12 + n + 1) 4 ltac:(lia)). pose proof (Z.div_mod (n + 16) 4 ltac:(lia)). pose proof (Z.mod_pos_bound (n + 16) 4 ltac:(lia)). destruct (Z.eqb_spec ((12 + n + 1) mod 4) 0); cbn [negb]; lia.
Qed.
Lemma dent_reclen_ok n : 0 <= n <= 255 -> 0 < dent_reclen n <= DIRENT_SIZE /\ dent_reclen n mod 4 = 0.
Proof.
  intros Hn. rewrite dent_reclen_eq by lia. unfold DIRENT_SIZE, dirent_fixed, MAXNAMLEN. pose proof (Z.div_mod (n + 16) 4 ltac:(lia)). pose proof (Z.mod_pos_bound (n + 16) 4 ltac:(lia)). split; [lia|]. rewrite Z.mul_comm. by apply Z.mod_mul.
Qed.
Lemma dents_len_app l k : dents_len (l ++ k) = dents_len l + dents_len k.
Proof. induction l as [|d l IH]; [done|]. cbn. unfold dents_len in *. rewrite IH. lia. Qed.
Lemma dents_len_nonneg l : Forall dent_ok l -> 0 <= dents_len l.
Proof. induction 1 as [|d l [Hd _] _ IH]; [done|]. cbn. unfold dents_len in *. lia. Qed.

(** ** Delivering the entries *)
Lemma dirbuf_at_ok l : Forall dent_ok l -> forall k x, l !! k = Some x -> dirent_at l (dents_len (take k l)) = Ok x.
Proof.
  induction 1 as [|d l [Hd _] Hl IH]; intros k x Hk; [done|]. destruct k as [|k]; cbn in Hk |- *; [by injection Hk as ->|].
  pose proof (dents_len_nonneg (take k l) (Forall_take _ _ _ Hl)) as Ht. unfold dents_len in Ht, IH |- *. destruct (Z.eqb_spec (d_reclen d + foldr (fun d n => d_reclen d + n) 0 (take k l)) 0); [lia|]. rewrite (proj2 (Z.ltb_ge _ _)) by lia.
  rewrite <- (IH k x Hk). f_equal. lia.
Qed.
Lemma dents_len_mod4 l : Forall dent_ok l -> dents_len l mod 4 = 0.
Proof. induction 1 as [|d l [_ Hd] _ IH]; [done|]. cbn. fold (dents_len l). rewrite Z.add_mod, Hd, IH by lia. done. Qed.
(** A filled buffer of which [k] entries have been delivered. *)
Definition reading (d : dirbuf) (l : list dirent) (k : nat) : Prop :=
  db_buf d = Some l /\ db_pos d = dents_len (take k l) /\ db_len d = dents_len l /\ l <> [] /\ Forall dent_ok l /\ dents_len l < db_buflen d.
(** Each entry could have had the greatest length. *)
Definition slack (B : Z) (l : list dirent) : Prop := forall k, (k < length l)%nat -> dents_len (take k l) + DIRENT_SIZE < B.
Lemma dents_len_take l k x : l !! k = Some x -> dents_len (take (S k) l) = dents_len (take k l) + d_reclen x.
Proof. intros Hk. rewrite (take_S_r _ _ x Hk), dents_len_app. change (dents_len [x]) with (d_reclen x + 0). lia. Qed.
Lemma dents_len_take_lt l k : Forall dent_ok l -> (k < length l)%nat -> dents_len (take k l) < dents_len l.
Proof.
  intros Hl Hk. destruct (lookup_lt_is_Some_2 l k Hk) as [x Hx]. rewrite <- (take_drop (S k) l) at 2. rewrite dents_len_app, (dents_len_take l k x Hx). pose proof (dents_len_nonneg _ (Forall_drop _ (S k) _ Hl)).
  assert (dent_ok x) as [? _] by (by eapply Forall_lookup_1). lia.
Qed.
Lemma slack_len B l : slack B l -> Forall dent_ok l -> l <> [] -> dents_len l < B.
Proof.
  intros HB Hok Hne. destruct (exists_last_or_nil l) as [->|(l' & x & ->)]; [done|]. specialize (HB (length l')). rewrite length_app, take_app_length in HB. specialize (HB ltac:(cbn; lia)). apply Forall_app in Hok as [_ Hx]. inversion Hx as [|? ? [Hr _] _]; subst. rewrite dents_len_app. change (dents_len [x]) with (d_reclen x + 0). lia.
Qed.
Lemma reading_len d l k : reading d l k -> (k < length l)%nat -> db_pos d < db_len d /\ db_len d < db_buflen d /\ db_pos d mod 4 = 0.
Proof. intros (Hb & Hp & Hn & Hne & Hok & HB) Hk. rewrite Hp, Hn. split; [by apply dents_len_take_lt|]. split; [done|by apply dents_len_mod4, Forall_take]. Qed.
Lemma take_dirent_ok d l k x : reading d l k -> slack (db_buflen d) l -> l !! k = Some x -> exists d', take_dirent d = Ok (x, d') /\ reading d' l (S k) /\ db_buflen d' = db_buflen d.
Proof.
  intros Hr Hsl Hk. pose proof (lookup_lt_Some _ _ _ Hk) as Hlt. pose proof (reading_len d l k Hr Hlt) as (H1 & H2 & H3). destruct Hr as (Hb & Hp & Hn & Hne & Hok & HB). unfold take_dirent.
  rewrite (proj2 (Z.ltb_lt _ _) H1), land_3, H3, (proj2 (Z.ltb_lt _ _) H2), Hb. cbn [Z.eqb assert mbind res_bind deref]. rewrite Hp, (dirbuf_at_ok l Hok k x Hk). cbn [mbind res_bind].
  assert (Hx : dent_ok x) by (by eapply Forall_lookup_1). destruct Hx as [Hx1 Hx2]. rewrite (proj2 (Z.eqb_neq (d_reclen x) 0)) by lia. cbn [negb assert mbind res_bind]. rewrite (proj2 (Z.ltb_lt _ _) (Hsl k Hlt)). cbn [assert mbind res_bind].
  rewrite <- (dents_len_take l k x Hk), land_3, dents_len_mod4 by (by apply Forall_take). cbn [Z.eqb assert mbind res_bind]. eexists. split; [done|]. split_and!; done.
Qed.
Lemma reading_end d l : reading d l (length l) -> db_pos d = db_len d /\ 0 < db_len d.
Proof.
  intros (_ & Hp & Hn & Hne & Hok & _). rewrite Hp, Hn, firstn_all. split; [done|]. destruct l as [|x l]; [done|]. apply (dents_len_take_lt (x :: l) 0 Hok). cbn. lia.
Qed.
Lemma dents_len_len l : Forall dent_ok l -> zlen l <= dents_len l.
Proof. unfold zlen. induction 1 as [|d l [Hd _] _ IH]; [done|]. cbn. unfold dents_len in *. lia. Qed.
(** The loop of [getdents] goes on to some later entry. *)
Lemma copy_dirents_ok l count : Forall (fun x => d_reclen x <= count) l -> forall fuel d k written out, reading d l k -> (k <= length l)%nat -> (length l - k <= fuel)%nat -> 0 <= written -> (k = length l -> 0 < written) ->
  exists j d', copy_dirents fuel d count written out = Ok (Val (written + dents_len (take (j - k) (drop k l))), d', out ++ take (j - k) (drop k l)) /\ reading d' l j /\ (k <= j <= length l)%nat /\ (written = 0 -> (k < j)%nat).
Proof.
  intros Hc. induction fuel as [|fuel IH]; intros d k written out Hr Hk Hf Hw Hw0; destruct (decide (k = length l)) as [->|Hne].
  1, 3: (pose proof (reading_end d l Hr) as [He Hpos]; cbn [copy_dirents]; rewrite He, Z.ltb_irrefl, Z.eqb_refl; specialize (Hw0 eq_refl); rewrite (proj2 (Z.eqb_neq written 0)) by lia; cbn [negb assert mbind res_bind];
    exists (length l), d; rewrite Nat.sub_diag, Z.add_0_r, app_nil_r; split_and!; [done|done|lia|lia|lia]).
  - lia.
  - destruct (lookup_lt_is_Some_2 l k) as [x Hx]; [lia|]. pose proof (reading_len d l k Hr ltac:(lia)) as (Hlt & _ & _). pose proof Hr as (Hb & Hp & Hn & Hnil & Hok & HB). cbn [copy_dirents]. rewrite (proj2 (Z.ltb_lt _ _) Hlt), Hb. cbn [deref mbind res_bind].
    rewrite Hp, (dirbuf_at_ok l Hok k x Hx). cbn [mbind res_bind]. assert (Hdx : dent_ok x) by (by eapply Forall_lookup_1). destruct Hdx as [Hx1 _]. assert (Hxc : d_reclen x <= count) by (by eapply (Forall_lookup_1 (fun x => d_reclen x <= count))). destruct (Z.ltb_spec count (written + d_reclen x)).
    + rewrite (proj2 (Z.ltb_ge count (d_reclen x))) by lia. exists k, d. rewrite Nat.sub_diag, Z.add_0_r, app_nil_r. split_and!; [done|done|lia|lia|lia].
    + rewrite <- (dents_len_take l k x Hx). cbn [set_pos db_pos]. rewrite land_3, dents_len_mod4 by (by apply Forall_take). cbn [Z.eqb assert mbind res_bind].
      destruct (IH (set_pos (dents_len (take (S k) l)) d) (S k) (written + d_reclen x) (out ++ [x])) as (j & d' & Hrun & Hr' & Hj & _); [split_and!; done|lia|lia|lia|lia|]. exists j, d'. rewrite Hrun.
      assert (E : take (j - k) (drop k l) = x :: take (j - S k) (drop (S k) l)) by (rewrite (drop_S l x k Hx); replace (j - k)%nat with (S (j - S k)) by lia; done). rewrite E. split_and!; [|done|lia|lia|lia].
      change (dents_len (x :: take (j - S k) (drop (S k) l))) with (d_reclen x + dents_len (take (j - S k) (drop (S k) l))). rewrite <- app_assoc, Z.add_assoc. done.
Qed.
Lemma getdents_from_ok d l k count : Forall (fun x => d_reclen x <= count) l -> reading d l k -> (k < length l)%nat ->
  exists j d', getdents_from d count = Ok (Val (dents_len (take (j - k) (drop k l))), d', take (j - k) (drop k l)) /\ reading d' l j /\ (k < j <= length l)%nat.
Proof.
  intros Hc Hr Hk. pose proof (reading_len d l k Hr Hk) as (H1 & H2 & H3). unfold getdents_from. rewrite (proj2 (Z.ltb_lt _ _) H1), land_3, H3, (proj2 (Z.ltb_lt _ _) H2). cbn [Z.eqb assert mbind res_bind].
  pose proof Hr as (_ & _ & Hn & _ & Hok & _). pose proof (dents_len_len l Hok) as Hl. destruct (copy_dirents_ok l count Hc (Z.to_nat (db_len d)) d k 0 [] Hr) as (j & d' & Hrun & Hr' & Hj & Hj0); [lia|unfold zlen in *; lia|lia|lia|]. exists j, d'. rewrite Hrun, Z.add_0_l. split_and!; [done|done|auto|lia].
Qed.
