(* ===== verification/FileSpec.v ===== *)
(** * Reading a file: the specification the file systems share

    A file is its data and a position.  A file system promises ([FileSys]) that each of its operations is that of
    this file; then so is every sequence of them ([run_refines]). *)
From S2P Require Import Prelude.

Inductive file_op := Read (length : Z) | Seek (offset whence : Z).
(** The position [lseek] asks for, [None] for an unknown [whence] or one before the start. *)
Definition seek_to (size pos offset whence : Z) : option Z :=
  p ← (if whence =? 0 then Some offset else if whence =? 1 then Some (pos + offset) else if whence =? 2 then Some (size + offset) else None);
  if p <? 0 then None else Some p.
Definition spec_op (data : list Z) (pos : Z) (o : file_op) : ret * list Z * Z :=
  match o with
  | Read n => let out := take (Z.to_nat n) (drop (Z.to_nat pos) data) in (Val (zlen out), out, pos + zlen out)
  | Seek offset whence => match seek_to (zlen data) pos offset whence with Some p => (Val p, [], p) | None => (Err EINVAL, [], pos) end
  end.
(** Lengths that the file system can read at a position are given by [R]; offsets fit an [off_t] and do not lead beyond 2^31. *)
Definition op_ok (R : Z -> Z -> Prop) (data : list Z) (pos : Z) (o : file_op) : Prop :=
  match o with
  | Read n => R pos n
  | Seek offset whence => - 2 ^ 31 <= offset < 2 ^ 31 /\ pos + offset < 2 ^ 31 /\ zlen data + offset < 2 ^ 31
  end.
(** A seek from the end to before the start, which should be EINVAL. *)
Definition before_start (data : list Z) (o : file_op) : bool :=
  match o with Seek offset whence => (whence =? 2) && (zlen data + offset <? 0) | Read _ => false end.
Fixpoint spec_run (data : list Z) (pos : Z) (ops : list file_op) : list (ret * list Z) :=
  match ops with [] => [] | o :: ops => let '(r, out, pos) := spec_op data pos o in (r, out) :: spec_run data pos ops end.
Fixpoint ops_ok (R : Z -> Z -> Prop) (data : list Z) (pos : Z) (ops : list file_op) : Prop :=
  match ops with [] => True | o :: ops => op_ok R data pos o /\ ops_ok R data (spec_op data pos o).2 ops end.

(** The promise of a file system: [rep data pos f] says that the open file [f] has the data and the position.  Both file systems
    have the same flaw, which is part of the promise: a seek from the end to before the start panics. *)
Class FileSys {F : Type} (op : F -> file_op -> res (ret * list Z * F)) (rep : list Z -> Z -> F -> Prop) (R : Z -> Z -> Prop) : Prop :=
  filesys_step : forall data pos f o, rep data pos f -> op_ok R data pos o ->
    if before_start data o then op f o = Panic
    else exists f', op f o = Ok ((spec_op data pos o).1, f') /\ rep data (spec_op data pos o).2 f'.

Section run.
Context {F : Type} (op : F -> file_op -> res (ret * list Z * F)).
Fixpoint run (f : F) (ops : list file_op) : res (list (ret * list Z)) :=
  match ops with [] => Ok [] | o :: ops => '(r, out, f) ← op f o; l ← run f ops; Ok ((r, out) :: l) end.
End run.

(** The client's side: a sequence of operations gives what the specification does, unless it has a seek from the end to before the
    start, with which it panics. *)
Lemma run_refines {F} {op : F -> file_op -> res (ret * list Z * F)} {rep R} (fs : FileSys op rep R) data ops : forall pos f, rep data pos f -> ops_ok R data pos ops ->
  run op f ops = if existsb (before_start data) ops then Panic else Ok (spec_run data pos ops).
Proof.
  induction ops as [|o ops IH]; intros pos f Hf Hok; [done|]. destruct Hok as [Hok Hoks]. cbn [run spec_run existsb]. pose proof (fs data pos f o Hf Hok) as Hs.
  destruct (before_start data o); [by rewrite Hs|]. destruct Hs as (f' & -> & Hf').
  destruct (spec_op data pos o) as [[r out] pos']. cbn in Hf', Hoks |- *. rewrite (IH pos' f') by done. by destruct (existsb _ ops).
Qed.
