(* ===== verification/Fat.v ===== *)
(** * FAT32: files (src/src/kernel/fat/fat.c)

    The FAT is a table of the next cluster of each cluster, on disk or cached; a file is the chain that
    starts at its first cluster.  Disks are read with [disk_read] (Ata.v).  The open file is Fd.v's;
    the result of [fat_fstat], which looks the file up by its path, is an argument of the calls that use
    it ([None] for an error). *)
From S2P Require Import Prelude CString Net NetSum NetSend Ata Ext2 Ext2Dir Fd.

(** [fat32_partition_t]: [fat_dev] is the device number, the index in [devtable]; [fat_mp] is the [dev]
    of the mount point [mp] points to, [None] for NULL. *)
Record fat32_partition := mk_fat {
  fdisk : ata_device;
  fat_start_lba : Z; end_lba : Z; cluster_start_lba : Z;
  sectors_per_cluster : Z; root_dir_first_cluster : Z; cluster_size : Z;
  sectors_per_fat : Z;
  cached_fat : option (list Z);
  fat_dev : Z;
  fat_mp : option Z
}.

(** The partition from its first sector, on the entry [p] of the partition table; [free] is
    [pmm_bytes_free()]. *)
Definition fat_detect (d : ata_device) (p : partition) (free dev : Z) : res fat32_partition :=
  assert (dev_exists d && negb (is_atapi d)) ;;
  assert (p_exists p && ((Ata.p_type p =? 0xb) || (Ata.p_type p =? 0xc))) ;;
  buf ← ata_read d (start_lba p) (replicate 512 0) 0 1;
  sig ← get16 buf 510; assert (sig =? 0xAA55) ;;
  s ← aget buf 66; assert ((s =? 0x28) || (s =? 0x29)) ;;
  bps ← get16 buf 11; assert (bps =? 512) ;;
  spc ← aget buf 13; reserved ← get16 buf 14; nfats ← aget buf 16; total ← get32 buf 32; spf ← get32 buf 36; root ← get32 buf 44;
  let fat_start := u32 (start_lba p + reserved) in
  let fat_bytes := u32 (spf * 512) in
  let fat_bytes := if negb (fat_bytes mod 512 =? 0) then fat_bytes mod 512 + 512 else fat_bytes in
  fat ← (if fat_bytes <? free / 2 then f ← disk_read d fat_start fat_bytes (replicate (Z.to_nat fat_bytes) 0) 0; Ok (Some f) else Ok None);
  Ok (mk_fat d fat_start (u32 (start_lba p + total)) (u32 (fat_start + u32 (nfats * spf))) spc root (spc * bps) spf fat dev None).

Definition fat_lba_from_cluster (part : fat32_partition) (cluster_num : Z) : Z :=
  u32 (cluster_start_lba part + u32 ((cluster_num - 2) * sectors_per_cluster part)).

(** ** Chains *)
Definition fat_next_cluster (part : fat32_partition) (cur_cluster : Z) : res Z :=
  assert (2 <=? cur_cluster) ;;
  val ← match cached_fat part with
        | Some fat => get32 fat (4 * cur_cluster)
        | None =>
            let fat_offset := u32 (cur_cluster * 4) in
            let fat_sector := u32 (fat_start_lba part + fat_offset / 512) in
            let entry_offset := fat_offset mod 512 in
            assert ((fat_start_lba part <=? fat_sector) && (fat_sector <=? u32 (fat_start_lba part + sectors_per_fat part))) ;;
            fat ← disk_read (fdisk part) fat_sector 512 (replicate 512 0) 0;
            get32 fat entry_offset
        end;
  Ok (Z.land val 0x0fffffff).
Definition fat_read_cluster (part : fat32_partition) (cluster : Z) (buffer : list Z) : res (list Z) :=
  disk_read (fdisk part) (fat_lba_from_cluster part cluster) (cluster_size part) buffer 0.
(** The next cluster's number and data, [None] at the end of the chain. *)
Definition fat_read_next_cluster (part : fat32_partition) (buffer : list Z) (cur_cluster : Z) : res (option (Z * list Z)) :=
  next_cluster ← fat_next_cluster part cur_cluster;
  if next_cluster =? 0x0ffffff7 then Panic
  else if 0x0ffffff8 <=? next_cluster then Ok None
  else
    assert ((2 <=? next_cluster) && (next_cluster <? 0x0ffffff7)) ;;
    buffer ← fat_read_cluster part next_cluster buffer;
    Ok (Some (next_cluster, buffer)).

(** ** Reading *)
Definition S_ISDIR (m : Z) : bool := Z.land m 0xf000 =? 0x4000.
Definition with_pos (blk off sz : Z) (f : open_file) : open_file :=
  mk_open_file (fcount f) (fdev f) (fino f) blk off sz (fmode f) (fmp f) (fpath f) (fops f) (fdata f).
Definition max_clusters : Z := 32.

(** The search for clusters that follow each other on disk; at most 32 rounds. *)
Fixpoint count_continuous (fuel : nat) (part : fat32_partition) (cur continuous_clusters length : Z) : res Z :=
  next ← fat_next_cluster part cur;
  if (next =? u32 (cur + 1)) && (u32 (continuous_clusters * cluster_size part) <? length) && (continuous_clusters <? max_clusters) then
    match fuel with O => NoFuel | S fuel => count_continuous fuel part next (continuous_clusters + 1) length end
  else Ok continuous_clusters.

(** The loop of [fat_read]; each round copies at least a byte unless it is the last. *)
Fixpoint read_clusters (fuel : nat) (part : fat32_partition) (cluster_buf buf : list Z) (f : open_file) (length bytes_read local_offset continuous_clusters : Z)
  : res (Z * list Z * open_file) :=
  match fuel with
  | O => NoFuel
  | S fuel =>
      continuous_clusters ← (if cluster_size part <? length then count_continuous (Z.to_nat max_clusters) part (fcur_block f) continuous_clusters length else Ok continuous_clusters);
      let nbytes := u32 (continuous_clusters * cluster_size part) in
      cluster_buf ← disk_read (fdisk part) (fat_lba_from_cluster part (fcur_block f)) nbytes cluster_buf 0;
      let cur := fcur_block f + (continuous_clusters - 1) in
      let m := Z.min (fsize f - foffset f) (s32 length) in
      let bytes_copied := if u32 m <? nbytes then u32 m else nbytes in
      let bytes_copied := if u32 (nbytes - local_offset) <=? bytes_copied then u32 (nbytes - local_offset) else bytes_copied in
      buf ← blit buf bytes_read cluster_buf local_offset bytes_copied;
      let bytes_read := u32 (bytes_read + bytes_copied) in
      let off := foffset f + bytes_copied in
      let local_offset := u32 (local_offset + bytes_copied) in
      assert (off <=? fsize f) ;;
      assert (bytes_copied <=? length) ;;
      let length := length - bytes_copied in
      '(stop, cur) ← (if cluster_size part <=? local_offset then
                        next ← fat_next_cluster part cur;
                        if (0x0ffffff8 <=? cur) || (cur <? 2) then assert (off =? fsize f) ;; Ok (true, cur) else Ok (false, next)
                      else Ok (false, cur));
      let f := with_pos cur off (fsize f) f in
      if stop : bool then Ok (bytes_read, buf, f)
      else if (length =? 0) || (fsize f <=? off) then Ok (bytes_read, buf, f)
      else read_clusters fuel part cluster_buf buf f length bytes_read (local_offset mod cluster_size part) continuous_clusters
  end.

Definition fat_read (part : fat32_partition) (st : option stat) (f : open_file) (buf : list Z) (length : Z) : res (ret * list Z * open_file) :=
  if (fino f =? 0) && negb (fcount f =? 0) then
    match st with Some s => if st_size s =? 0 then Ok (Val 0, buf, f) else Panic | None => Panic end
  else
    '(dir, f) ← (if fsize f =? 0 then
                   s ← deref st;
                   assert (st_dev s =? fdev f) ;; assert (st_ino s =? fino f) ;;
                   if S_ISDIR (st_mode s) then Ok (true, f) else Ok (false, with_pos (fcur_block f) (foffset f) (st_size s) f)
                 else Ok (false, f));
    if dir : bool then Ok (Err EISDIR, buf, f)
    else if fsize f <=? foffset f then Ok (Val 0, buf, f)
    else
      assert (0 <=? foffset f) ;;
      if cluster_size part =? 0 then Undef else
      let local_offset := foffset f mod cluster_size part in
      '(n, buf, f) ← read_clusters (S (Z.to_nat length)) part (replicate (Z.to_nat (cluster_size part * max_clusters)) 0) buf f length 0 local_offset 1;
      Ok (Val n, buf, f).

(** ** Seeking *)
(** The walk along the chain; a round for each cluster. *)
Fixpoint seek_clusters (fuel : nat) (part : fat32_partition) (cur local_offset : Z) : res Z :=
  if cluster_size part <=? local_offset then
    match fuel with
    | O => NoFuel
    | S fuel =>
        cur ← fat_next_cluster part cur;
        if 0x0ffffff8 <=? cur then Panic else seek_clusters fuel part cur (local_offset - cluster_size part)
    end
  else Ok cur.
(** SEEK_SET is 0, SEEK_CUR 1, SEEK_END 2; [file_size] is a [uint32], an [off_t] 32 bits. *)
Definition new_offset (file_size offset cur whence : Z) : option Z :=
  if whence =? 0 then if offset <? 0 then None else Some offset
  else if whence =? 1 then if s32 (offset + cur) <? 0 then None else Some (s32 (cur + offset))
  else if whence =? 2 then if u32 (file_size + offset) <? 0 then None else Some (s32 (file_size + offset))
  else None.
Definition fat_lseek (part : fat32_partition) (st : option stat) (f : open_file) (offset whence : Z) : res (ret * open_file) :=
  assert (2 <=? fino f) ;; assert (0 <? fcount f) ;;
  match st with
  | None => Ok (Err EINVAL, f)
  | Some s =>
      let file_size := u32 (st_size s) in
      match new_offset file_size offset (foffset f) whence with
      | None => Ok (Err EINVAL, f)
      | Some off =>
          assert (0 <=? off) ;;
          if u32 off <? file_size then
            assert (st_dev s =? fdev f) ;; assert (st_ino s =? fino f) ;;
            blk ← seek_clusters (Z.to_nat off) part (fino f) (u32 off);
            Ok (Val off, with_pos blk off (fsize f) f)
          else Ok (Val off, with_pos (fcur_block f) off (fsize f) f)
      end
  end.
