(* ===== verification/FatRead.v ===== *)
(** * FAT32: what [fat_read] reads

    The clusters of a file are a chain in the FAT ([chain_of]); its data are the clusters' sectors in that
    order ([content]), cut to the size in the directory. *)
From S2P Require Import Prelude CString Net NetSum NetSend Ata Ext2 Ext2File Ext2Dir Fd Fat FileSpec.

(** ** The partition *)
(** A cluster has 512 * 2^a bytes. *)
Record fat_wf (part : fat32_partition) (a : nat) : Prop := {
  fw_disk : dev_wf (fdisk part) /\ is_atapi (fdisk part) = false;
  fw_spc : sectors_per_cluster part = 2 ^ Z.of_nat a;
  fw_size : cluster_size part = 512 * 2 ^ Z.of_nat a;
  fw_small : (a <= 7)%nat;
  fw_start : 0 <= cluster_start_lba part
}.
(** A cluster that is on the disk, not in its last sector, which [disk_read] does not read. *)
Definition cluster_ok (part : fat32_partition) (c : Z) : Prop :=
  2 <= c < 0x0ffffff7 /\ cluster_start_lba part + (c - 2) * sectors_per_cluster part + sectors_per_cluster part < dev_size (fdisk part).
Definition cluster_data (part : fat32_partition) (c : Z) : list Z :=
  sectors_at (media (fdisk part)) (cluster_start_lba part + (c - 2) * sectors_per_cluster part) (sectors_per_cluster part).
(** The clusters [cs], each linked to the next in the FAT, whose last entry can be read too. *)
Fixpoint chain_of (part : fat32_partition) (cs : list Z) : Prop :=
  match cs with
  | [] => True
  | c :: cs' => cluster_ok part c /\ (exists n, fat_next_cluster part c = Ok n /\ match cs' with [] => True | c' :: _ => n = c' end) /\ chain_of part cs'
  end.
Definition content (part : fat32_partition) (cs : list Z) : list Z := concat (cluster_data part <$> cs).

Section read.
Context (part : fat32_partition) (a : nat) (Hwf : fat_wf part a).
Let S := cluster_size part.

Lemma cluster_size_pos : 512 <= S <= 65536 /\ S = 512 * sectors_per_cluster part /\ 1 <= sectors_per_cluster part.
Proof using Hwf.
  destruct Hwf as [_ Hs Hc Ha _]. assert (1 <= 2 ^ Z.of_nat a <= 128) as Hp.
  { split; [pose proof (pow2_pos a); lia|]. change 128 with (2 ^ 7). apply Z.pow_le_mono_r; lia. }
  unfold S. lia.
Qed.
Lemma lba_of c : cluster_ok part c -> dev_size (fdisk part) < 2 ^ 28 -> fat_lba_from_cluster part c = cluster_start_lba part + (c - 2) * sectors_per_cluster part.
Proof using Hwf.
  intros [Hc Hd] Hsz. destruct Hwf as [_ _ _ _ H0]. pose proof cluster_size_pos as (_ & _ & Hp). unfold fat_lba_from_cluster. assert (0 <= (c - 2) * sectors_per_cluster part) by nia. rewrite (u32_small ((c - 2) * sectors_per_cluster part)) by lia. apply u32_small; lia.
Qed.
Lemma cluster_data_len c : cluster_ok part c -> length (cluster_data part c) = Z.to_nat S.
Proof using Hwf.
  intros [Hc Hd]. pose proof cluster_size_pos as (_ & HS & Hp). destruct Hwf as [[(He & Hs & Hm & _) _] _ _ _ H0]. unfold cluster_data. rewrite sectors_at_len; [unfold S in *; lia|..]; unfold zlen in *; try nia; lia.
Qed.
(** One cluster into a buffer. *)
Lemma read_one c buf : cluster_ok part c -> S <= zlen buf -> disk_read (fdisk part) (fat_lba_from_cluster part c) S buf 0 = Ok (cluster_data part c ++ drop (Z.to_nat S) buf).
Proof using Hwf.
  intros Hc Hb. pose proof Hwf as [[Hd Ha] Hs Hcs Hsm H0]. pose proof cluster_size_pos as (HS & HS2 & Hp). pose proof Hd as (He & Hsz & Hm & Hx).
  rewrite lba_of by (done || lia). destruct Hc as [Hc Hlt]. assert (0 <= (c - 2) * sectors_per_cluster part) by nia.
  unfold disk_read. rewrite He, Ha. cbn [negb andb assert mbind res_bind]. assert (sectors_of S = 2 ^ Z.of_nat a) as ->.
  { unfold sectors_of. rewrite HS2, (Z.mul_comm 512), Z.mod_mul, Z.div_mul by lia. cbn. done. }
  unfold u64. rewrite !Z.mod_small, (proj2 (Z.leb_le _ _)) by lia. cbn [assert mbind res_bind].
  rewrite ata_read_ok by (done || lia). unfold cluster_data. rewrite Hs. cbn [Z.to_nat take app]. by rewrite Z.add_0_l, <- Hs, <- HS2.
Qed.

(** ** Positions *)
Lemma chain_at cs : forall (q : nat) c, chain_of part cs -> cs !! q = Some c ->
  cluster_ok part c /\ exists n, fat_next_cluster part c = Ok n /\ forall c', cs !! Datatypes.S q = Some c' -> n = c'.
Proof.
  induction cs as [|x cs IH]; intros q c Hch Hq; [done|]. destruct Hch as (Hok & (n & Hn & Hnext) & Hch). destruct q as [|q].
  - injection Hq as <-. split; [done|]. exists n. split; [done|]. intros c' Hc'. destruct cs; [done|]. cbn in Hc'. by injection Hc' as <-.
  - by apply IH.
Qed.
Lemma chain_ok cs : chain_of part cs -> Forall (cluster_ok part) cs.
Proof. induction cs as [|x cs IH]; intros H; [done|]. destruct H as (Hok & _ & H). constructor; auto. Qed.
Lemma fat_content_len cs : chain_of part cs -> zlen (content part cs) = S * zlen cs.
Proof using Hwf.
  intros H%chain_ok. unfold content, zlen. induction H as [|c cs Hc _ IH]; [cbn; lia|]. rewrite fmap_cons. cbn [concat length]. rewrite length_app, cluster_data_len by done. pose proof cluster_size_pos. lia.
Qed.
Lemma content_drop cs : forall (q : nat) c, chain_of part cs -> cs !! q = Some c -> drop (q * Z.to_nat S) (content part cs) = cluster_data part c ++ content part (drop (Datatypes.S q) cs).
Proof using Hwf.
  induction cs as [|x cs IH]; intros q c Hch Hq; [done|]. destruct Hch as (Hok & _ & Hch). change (content part (x :: cs)) with (cluster_data part x ++ content part cs). destruct q as [|q].
  - injection Hq as <-. done.
  - cbn in Hq. change (drop (Datatypes.S (Datatypes.S q)) (x :: cs)) with (drop (Datatypes.S q) cs). rewrite <- (IH q c Hch Hq). rewrite drop_app_ge by (rewrite cluster_data_len by done; lia). rewrite cluster_data_len by done. f_equal. lia.
Qed.
(** A part of a cluster is a part of the file. *)
Lemma slice cs off c k rest : chain_of part cs -> 0 <= off -> cs !! Z.to_nat (off / S) = Some c -> 0 <= k <= S - off mod S ->
  take (Z.to_nat k) (drop (Z.to_nat off) (content part cs)) = take (Z.to_nat k) (drop (Z.to_nat (off mod S)) (cluster_data part c ++ rest)).
Proof using Hwf.
  intros Hch Hoff Hc Hk. pose proof cluster_size_pos as (HS & _). assert (Hok : cluster_ok part c) by (eapply Forall_lookup_1; [by apply chain_ok|done]).
  assert (Hdiv : Z.to_nat off = (Z.to_nat (off / S) * Z.to_nat S + Z.to_nat (off mod S))%nat).
  { pose proof (Z.div_mod off S). pose proof (Z.mod_pos_bound off S). pose proof (Z.div_pos off S). nia. }
  rewrite Hdiv, <- drop_drop, (content_drop cs _ c) by done. pose proof (Z.mod_pos_bound off S).
  rewrite !drop_app_le by (rewrite cluster_data_len by done; lia). rewrite !take_app_le by (rewrite length_drop, cluster_data_len by done; lia). done.
Qed.

(** ** One call *)
(** An open file of [sz] bytes at the clusters [cs], somewhere before its end. *)
Definition file_at (cs : list Z) (sz : Z) (f : open_file) : Prop :=
  fsize f = sz /\ 0 <= foffset f <= sz /\ (foffset f < sz -> cs !! Z.to_nat (foffset f / S) = Some (fcur_block f)).

(** One round of the loop, for a request of at most a cluster. *)
Definition bite (L off sz : Z) : Z := Z.min (Z.min (sz - off) L) (S - off mod S).

Lemma read_clusters_ok cs sz : chain_of part cs -> sz <= S * zlen cs -> sz < 2 ^ 31 ->
  forall fuel cbuf buf f L r, file_at cs sz f -> foffset f < sz -> 0 <= L <= S -> 0 <= r -> r + L <= zlen buf -> r + L < 2 ^ 31 -> S <= zlen cbuf -> (Z.to_nat L < fuel)%nat ->
  let n := Z.min L (sz - foffset f) in
  exists f', read_clusters fuel part cbuf buf f L r (foffset f mod S) 1 =
      Ok (r + n, take (Z.to_nat r) buf ++ take (Z.to_nat n) (drop (Z.to_nat (foffset f)) (content part cs)) ++ drop (Z.to_nat (r + n)) buf, f') /\
    file_at cs sz f' /\ f' = with_pos (fcur_block f') (foffset f + n) sz f.
Proof using Hwf.
  intros Hch Hsz Hs31. pose proof cluster_size_pos as (HS & _). pose proof (fat_content_len cs Hch) as Hlen.
  induction fuel as [|fuel IH]; intros cbuf buf f L r (Efs & Hoff & Hcur) Hlt HL Hr Hbuf Hr31 Hcb Hf n; [lia|].
  specialize (Hcur Hlt). destruct (chain_at cs _ _ Hch Hcur) as (Hok & nx & Hnx & Hnext). set (off := foffset f) in *.
  pose proof (Z.mod_pos_bound off S ltac:(lia)) as Hm. cbn [read_clusters]. fold S off. rewrite (proj2 (Z.ltb_ge S L)) by lia. cbn [mbind res_bind].
  rewrite Z.mul_1_l, (u32_small S) by lia. rewrite (read_one (fcur_block f) cbuf Hok Hcb). cbn [mbind res_bind].
  rewrite Efs. assert (s32 L = L) as -> by (apply s32_small; lia). rewrite (u32_small (Z.min (sz - off) L)), (u32_small (S - off mod S)) by lia.
  assert (Ek : (if S - off mod S <=? (if Z.min (sz - off) L <? S then Z.min (sz - off) L else S) then S - off mod S else if Z.min (sz - off) L <? S then Z.min (sz - off) L else S) = bite L off sz).
  { unfold bite. destruct (Z.ltb_spec (Z.min (sz - off) L) S); [destruct (Z.leb_spec (S - off mod S) (Z.min (sz - off) L))|destruct (Z.leb_spec (S - off mod S) S)]; lia. }
  rewrite Ek. clear Ek. set (k := bite L off sz). assert (Hk : 0 <= k <= L /\ k <= sz - off /\ k <= S - off mod S /\ k = Z.min (Z.min (sz - off) L) (S - off mod S)) by (unfold k, bite; lia).
  rewrite blit_Ok by (first [lia | unfold zlen in *; rewrite length_app, cluster_data_len, length_drop by done; lia]). cbn [mbind res_bind].
  rewrite (u32_small (r + k)), (u32_small (off mod S + k)) by lia. rewrite (proj2 (Z.leb_le (off + k) sz)), (proj2 (Z.leb_le k L)) by lia. cbn [assert mbind res_bind].
  rewrite Z.sub_diag, Z.add_0_r. set (cur := if S <=? off mod S + k then nx else fcur_block f).
  assert (Estep : (if S <=? off mod S + k then next ← fat_next_cluster part (fcur_block f);
      if (0x0ffffff8 <=? fcur_block f) || (fcur_block f <? 2) then assert (off + k =? sz) ;; Ok (true, fcur_block f) else Ok (false, next) else Ok (false, fcur_block f)) = Ok (false, cur)).
  { unfold cur. destruct (S <=? off mod S + k); [|done]. rewrite Hnx. cbn [mbind res_bind]. destruct Hok as [Hc _]. rewrite (proj2 (Z.leb_gt _ _)), (proj2 (Z.ltb_ge _ _)) by lia. done. }
  rewrite Estep. clear Estep. cbn [mbind res_bind]. set (f1 := with_pos cur (off + k) sz f).
  assert (Hf1 : file_at cs sz f1).
  { split; [done|]. split; [cbn; lia|]. cbn. intros Hlt'. pose proof (Z.div_mod off S ltac:(lia)) as Hdm. unfold cur. destruct (Z.leb_spec S (off mod S + k)) as [Hge|Hlt1].
    - assert ((off + k) / S = off / S + 1) as Eq by (symmetry; apply Z.div_unique with 0; lia). rewrite Eq. pose proof (Z.div_pos off S).
      replace (Z.to_nat (off / S + 1)) with (Datatypes.S (Z.to_nat (off / S))) by lia. destruct (lookup_lt_is_Some_2 cs (Datatypes.S (Z.to_nat (off / S)))) as [c' Hc']; [|rewrite Hc'; f_equal; symmetry; by apply Hnext].
      assert (off / S + 1 < zlen cs) by (apply (Z.mul_lt_mono_pos_l S); nia). unfold zlen in *. lia.
    - assert ((off + k) / S = off / S) as -> by (symmetry; apply Z.div_unique with (off mod S + k); lia). done. }
  assert (Eslice := slice cs off (fcur_block f) k (drop (Z.to_nat S) cbuf) Hch ltac:(lia) Hcur ltac:(lia)). rewrite <- Eslice. clear Eslice.
  set (C := content part cs) in *. set (buf1 := take (Z.to_nat r) buf ++ take (Z.to_nat k) (drop (Z.to_nat off) C) ++ drop (Z.to_nat (r + k)) buf).
  change (fsize f1) with sz. destruct ((L - k =? 0) || (sz <=? off + k)) eqn:Estop.
  - assert (k = n) as <-. { unfold n. apply orb_prop in Estop as [E|E]; [apply Z.eqb_eq in E|apply Z.leb_le in E]; lia. }
    by exists f1.
  - apply orb_false_iff in Estop as [E1%Z.eqb_neq E2%Z.leb_gt]. assert (Hk1 : k = S - off mod S) by lia.
    assert (Hlk : length (take (Z.to_nat k) (drop (Z.to_nat off) C)) = Z.to_nat k) by (rewrite length_take, length_drop; unfold zlen in *; lia).
    assert (Hb1 : zlen buf1 = zlen buf) by (unfold buf1, zlen in *; rewrite !length_app, Hlk, length_take, length_drop; lia).
    destruct (IH (cluster_data part (fcur_block f) ++ drop (Z.to_nat S) cbuf) buf1 f1 (L - k) (r + k) Hf1) as (f2 & Hrun & Hf2 & Eo); cbn [foffset f1 with_pos]; try lia.
    { unfold zlen in *. rewrite length_app, cluster_data_len, length_drop by done. lia. }
    cbn [foffset f1 with_pos] in Hrun. rewrite Z.add_mod_idemp_l by lia. fold f1 in Hrun. rewrite Hrun. exists f2. cbn [foffset f1 with_pos] in Eo.
    assert (Hn : n = k + Z.min (L - k) (sz - (off + k))) by (unfold n; lia). split; [|split; [done|rewrite Eo; unfold f1, with_pos; cbn; f_equal; lia]].
    rewrite Hn. set (j := Z.min (L - k) (sz - (off + k))) in *. assert (0 <= j) by lia. rewrite (Z.add_assoc r k j). do 3 f_equal.
    unfold buf1. replace (Z.to_nat (k + j)) with (Z.to_nat k + Z.to_nat j)%nat by lia. rewrite <- (take_take_drop (drop (Z.to_nat off) C)).
    rewrite drop_drop. replace (Z.to_nat off + Z.to_nat k)%nat with (Z.to_nat (off + k)) by lia.
    assert (Hlr : length (take (Z.to_nat r) buf) = Z.to_nat r) by (rewrite length_take; unfold zlen in *; lia).
    assert (Hpt : length (take (Z.to_nat r) buf ++ take (Z.to_nat k) (drop (Z.to_nat off) C)) = Z.to_nat (r + k)) by (rewrite length_app, Hlr, Hlk; lia).
    rewrite (app_assoc (take (Z.to_nat r) buf)), take_app_length' by done. rewrite drop_app_ge by (rewrite Hpt; lia). rewrite drop_drop, Hpt, <- !app_assoc. repeat f_equal. lia.
Qed.

(** ** Open files *)
(** An open file on the chain [cs] whose directory entry is [st]; its size is stored by the first read. *)
Record fat_file (cs : list Z) (st : stat) (f : open_file) : Prop := {
  ff_chain : chain_of part cs /\ head cs = Some (fino f);
  ff_stat : st_dev st = fdev f /\ st_ino st = fino f /\ S_ISDIR (st_mode st) = false;
  ff_size : 0 < st_size st < 2 ^ 31 /\ st_size st <= S * zlen cs;
  ff_count : 0 < fcount f;
  ff_fsize : fsize f = st_size st \/ fsize f = 0;
  ff_pos : 0 <= foffset f /\ (foffset f < st_size st -> cs !! Z.to_nat (foffset f / S) = Some (fcur_block f))
}.

Lemma fat_file_ino cs st f : fat_file cs st f -> 2 <= fino f.
Proof. intros [[Hc Hh] _ _ _ _ _]. destruct cs as [|c cs]; [done|]. injection Hh as <-. destruct Hc as ([? _] & _). lia. Qed.
Lemma read_step cs st f buf L : fat_file cs st f -> 0 <= L <= S -> L <= zlen buf ->
  let n := Z.max 0 (Z.min L (st_size st - foffset f)) in
  exists f', fat_read part (Some st) f buf L = Ok (Val n, take (Z.to_nat n) (drop (Z.to_nat (foffset f)) (content part cs)) ++ drop (Z.to_nat n) buf, f') /\
    fat_file cs st f' /\ foffset f' = foffset f + n.
Proof using Hwf.
  intros Hf HL Hbuf n. pose proof (fat_file_ino _ _ _ Hf) as Hino. destruct Hf as [[Hch Hh] (Hdev & Hsi & Hnd) [Hsz Hsz2] Hct Hfs [Hp0 Hp]]. pose proof cluster_size_pos as (HS & _).
  set (f1 := with_pos (fcur_block f) (foffset f) (st_size st) f).
  assert (Hff : fat_file cs st f1) by (constructor; cbn; eauto).
  assert (Hdo : fat_read part (Some st) f buf L = (if st_size st <=? foffset f then Ok (Val 0, buf, if fsize f =? 0 then f1 else f) else
    '(m, buf, f') ← read_clusters (Datatypes.S (Z.to_nat L)) part (replicate (Z.to_nat (S * max_clusters)) 0) buf f1 L 0 (foffset f mod S) 1; Ok (Val m, buf, f'))).
  { unfold fat_read. rewrite (proj2 (Z.eqb_neq (fino f) 0)) by lia. cbn [andb]. destruct (Z.eqb_spec (fsize f) 0) as [E|E].
    - cbn [deref mbind res_bind]. rewrite Hdev, Hsi, !Z.eqb_refl, Hnd. cbn [assert mbind res_bind]. fold f1. cbn [f1 with_pos fsize foffset]. destruct (Z.leb_spec (st_size st) (foffset f)); [done|].
      rewrite (proj2 (Z.leb_le _ _) Hp0). cbn [assert mbind res_bind]. fold S. rewrite (proj2 (Z.eqb_neq S 0)) by lia. done.
    - assert (fsize f = st_size st) as Es by (destruct Hfs; [done|lia]). cbn [mbind res_bind]. rewrite Es. assert (f1 = f) as -> by (unfold f1; rewrite <- Es; by destruct f). destruct (Z.leb_spec (st_size st) (foffset f)); [done|].
      rewrite (proj2 (Z.leb_le _ _) Hp0). cbn [assert mbind res_bind]. fold S. rewrite (proj2 (Z.eqb_neq S 0)) by lia. done. }
  rewrite Hdo. clear Hdo. destruct (Z.leb_spec (st_size st) (foffset f)) as [Hend|Hlt].
  - assert (n = 0) as -> by (unfold n; lia). exists (if fsize f =? 0 then f1 else f). split; [done|]. destruct (fsize f =? 0); (split; [|cbn; lia]); [done|by constructor].
  - destruct (read_clusters_ok cs (st_size st) Hch Hsz2 ltac:(lia) (Datatypes.S (Z.to_nat L)) (replicate (Z.to_nat (S * max_clusters)) 0) buf f1 L 0) as (f' & Hrun & Hat & Ho); cbn [f1 with_pos foffset] in *; try (lia || done).
    { split; [done|]. cbn. split; [lia|auto]. }
    { unfold zlen. rewrite length_replicate. unfold max_clusters. lia. }
    rewrite Hrun. cbn [mbind res_bind]. assert (Z.min L (st_size st - foffset f) = n) as En by (unfold n; lia). rewrite En in *. exists f'. split; [done|]. destruct Hat as (E1 & E2 & E3). rewrite Ho in E1, E2, E3 |- *. cbn in E1, E2, E3. split; [|done]. constructor; cbn; eauto. split; [lia|done].
Qed.
(** The walk of [fat_lseek] ends at the cluster of the offset. *)
Lemma seek_ok cs : chain_of part cs -> forall fuel c off (q : nat), 0 <= off -> (Z.to_nat off <= fuel)%nat -> cs !! q = Some c -> Z.of_nat q + off / S < zlen cs ->
  exists c', seek_clusters fuel part c off = Ok c' /\ cs !! (q + Z.to_nat (off / S))%nat = Some c'.
Proof using Hwf.
  intros Hch. pose proof cluster_size_pos as (HS & _). induction fuel as [|fuel IH]; intros c off q Hoff Hfuel Hq Hlen; cbn [seek_clusters]; fold S.
  - rewrite (proj2 (Z.leb_gt _ _)) by lia. exists c. split; [done|]. rewrite Z.div_small by lia. by rewrite Nat.add_0_r.
  - destruct (Z.leb_spec S off) as [Hge|Hlt].
    + assert (Ed : off / S = (off - S) / S + 1) by (rewrite <- (Z.div_add _ 1 S) by lia; f_equal; lia). pose proof (Z.div_pos (off - S) S).
      destruct (chain_at cs q c Hch Hq) as (_ & n & Hn & Hnext). destruct (lookup_lt_is_Some_2 cs (Datatypes.S q)) as [c1 Hc1]; [unfold zlen in *; lia|].
      rewrite Hn, (Hnext c1 Hc1). cbn [mbind res_bind]. destruct (chain_at cs _ c1 Hch Hc1) as ([Hc _] & _). rewrite (proj2 (Z.leb_gt _ _)) by lia.
      destruct (IH c1 (off - S) (Datatypes.S q)) as (c' & Hrun & Hc'); [lia..|done|lia|]. exists c'. split; [done|]. rewrite <- Hc'. f_equal. lia.
    + exists c. split; [done|]. rewrite Z.div_small by lia. by rewrite Nat.add_0_r.
Qed.
Lemma lseek_step cs st f p : fat_file cs st f -> 0 <= p < 2 ^ 31 -> forall offset whence,
  new_offset (st_size st) offset (foffset f) whence = Some p ->
  exists f', fat_lseek part (Some st) f offset whence = Ok (Val p, f') /\ fat_file cs st f' /\ foffset f' = p.
Proof using Hwf.
  intros Hf Hp offset whence Hnew. pose proof (fat_file_ino _ _ _ Hf) as Hino. destruct Hf as [[Hch Hh] (Hdev & Hsi & Hnd) [Hsz Hsz2] Hct Hfs [Hp0 Hpos]]. pose proof cluster_size_pos as (HS & _).
  unfold fat_lseek. rewrite (proj2 (Z.leb_le _ _) Hino), (proj2 (Z.ltb_lt _ _) Hct), (u32_small (st_size st)), Hnew, (proj2 (Z.leb_le 0 p)), (u32_small p) by lia. cbn [assert mbind res_bind].
  destruct (Z.ltb_spec p (st_size st)) as [Hlt|Hge].
  - rewrite Hdev, Hsi, !Z.eqb_refl. cbn [assert mbind res_bind]. assert (Hl : p / S < zlen cs) by (apply Z.div_lt_upper_bound; lia).
    destruct (seek_ok cs Hch (Z.to_nat p) (fino f) p 0) as (c' & Hrun & Hc'); [lia..|by destruct cs|cbn; lia|]. rewrite Hrun. cbn [mbind res_bind].
    eexists. split; [done|]. split; [|done]. constructor; cbn; eauto. split; [lia|by intros _].
  - eexists. split; [done|]. split; [|done]. constructor; cbn; eauto. split; [lia|lia].
Qed.
Lemma lseek_fails cs st f offset whence : fat_file cs st f -> new_offset (st_size st) offset (foffset f) whence = None -> fat_lseek part (Some st) f offset whence = Ok (Err EINVAL, f).
Proof.
  intros Hf Hn. pose proof (fat_file_ino _ _ _ Hf) as Hino. destruct Hf as [_ _ [Hsz _] Hct _ _]. unfold fat_lseek. by rewrite (proj2 (Z.leb_le _ _) Hino), (proj2 (Z.ltb_lt _ _) Hct), (u32_small (st_size st)), Hn by lia.
Qed.
End read.

(** ** A file as its data and a position *)
Lemma new_offset_spec size pos offset whence : 0 <= size < 2 ^ 31 -> 0 <= pos -> - 2 ^ 31 <= offset -> offset < 2 ^ 31 -> - 2 ^ 31 <= pos + offset < 2 ^ 31 -> size + offset < 2 ^ 31 -> (whence = 2 -> 0 <= size + offset) ->
  new_offset size offset pos whence = seek_to size pos offset whence /\ forall p, seek_to size pos offset whence = Some p -> 0 <= p < 2 ^ 31.
Proof.
  intros Hs Hp Ho1 Ho2 Hpo Hso Hw. unfold new_offset, seek_to. destruct (Z.eqb_spec whence 0) as [->|N0]; [|destruct (Z.eqb_spec whence 1) as [->|N1]; [|destruct (Z.eqb_spec whence 2) as [->|N2]; [|done]]]; cbn [mbind option_bind].
  - destruct (Z.ltb_spec offset 0); split; try done; intros p [= <-]; lia.
  - rewrite (Z.add_comm offset), s32_small by lia. destruct (Z.ltb_spec (pos + offset) 0); split; try done; intros p [= <-]; lia.
  - specialize (Hw eq_refl). rewrite u32_small, s32_small by lia. destruct (Z.ltb_spec (size + offset) 0); [lia|]. split; [done|]. intros p [= <-]; lia.
Qed.

(** [read] and [lseek] on a file whose directory entry is [st]; the buffer of a read has just its length. *)
Definition fat_op (part : fat32_partition) (st : stat) (f : open_file) (o : file_op) : res (ret * list Z * open_file) :=
  match o with
  | Read n => '(r, buf, f) ← fat_read part (Some st) f (replicate (Z.to_nat n) 0) n; Ok (r, match r with Val k => take (Z.to_nat k) buf | Err _ => [] end, f)
  | Seek offset whence => '(r, f) ← fat_lseek part (Some st) f offset whence; Ok (r, [], f)
  end.
Definition fat_rep (part : fat32_partition) (cs : list Z) (st : stat) (data : list Z) (pos : Z) (f : open_file) : Prop :=
  fat_file part cs st f /\ foffset f = pos /\ data = take (Z.to_nat (st_size st)) (content part cs).
(** The lengths of which [fat_read] reads the right clusters: up to a cluster. *)
Definition fat_reads (part : fat32_partition) (pos n : Z) : Prop := 0 <= n <= cluster_size part.
(** A seek to before the start of the file, from its end, panics: the test for it is unsigned. *)
Theorem fat_lseek_end_panics part cs st f offset : fat_file part cs st f -> st_size st + offset < 0 -> - 2 ^ 31 <= offset -> fat_lseek part (Some st) f offset 2 = Panic.
Proof.
  intros Hf Ho1 Ho2. pose proof (fat_file_ino _ _ _ _ Hf) as Hino. destruct Hf as [_ _ [Hs _] Hct _ _]. unfold fat_lseek. rewrite (proj2 (Z.leb_le _ _) Hino), (proj2 (Z.ltb_lt _ _) Hct), (u32_small (st_size st)) by lia. cbn [assert mbind res_bind].
  unfold new_offset. cbn [Z.eqb Pos.eqb]. rewrite (proj2 (Z.ltb_ge _ _)) by (apply Z.mod_pos_bound; lia). rewrite s32_small by lia. by rewrite (proj2 (Z.leb_gt _ _)) by lia.
Qed.

Lemma fat_op_ok part a cs st f o : fat_wf part a -> fat_file part cs st f ->
  let data := take (Z.to_nat (st_size st)) (content part cs) in
  op_ok (fat_reads part) data (foffset f) o -> before_start data o = false ->
  exists f', fat_op part st f o = Ok ((spec_op data (foffset f) o).1, f') /\ fat_file part cs st f' /\ foffset f' = (spec_op data (foffset f) o).2.
Proof.
  intros Hwf Hf data Hok Hbs. pose proof Hf as [[Hch _] _ [Hsz Hsz2] _ _ [Hp0 _]]. pose proof (fat_content_len part a Hwf cs Hch) as Hlen. pose proof (cluster_size_pos part a Hwf) as (HS & _).
  assert (Hdata : zlen data = st_size st) by (unfold data, zlen in *; rewrite length_take; lia). destruct o as [n|offset whence]; cbn [fat_op spec_op op_ok] in *.
  - destruct (read_step part a Hwf cs st f (replicate (Z.to_nat n) 0) n Hf) as (f' & Hrun & Hf' & Ho); [done|unfold zlen; rewrite length_replicate; lia|].
    rewrite Hrun. cbn [mbind res_bind]. exists f'. set (k := Z.max 0 (Z.min n (st_size st - foffset f))) in *.
    assert (Ht : take (Z.to_nat n) (drop (Z.to_nat (foffset f)) data) = take (Z.to_nat k) (drop (Z.to_nat (foffset f)) (content part cs))).
    { unfold data. rewrite skipn_firstn_comm, take_take. f_equal. unfold k. lia. }
    assert (Hk : length (take (Z.to_nat k) (drop (Z.to_nat (foffset f)) (content part cs))) = Z.to_nat k) by (rewrite length_take, length_drop; unfold zlen in *; lia).
    rewrite Ht. assert (zlen (take (Z.to_nat k) (drop (Z.to_nat (foffset f)) (content part cs))) = k) as -> by (unfold zlen; rewrite Hk; lia).
    rewrite take_app_length' by done. done.
  - cbn [before_start] in Hbs. rewrite Hdata in *. destruct Hok as (H1 & H3 & H4). destruct (new_offset_spec (st_size st) (foffset f) offset whence) as [En Hr]; try (done || lia).
    destruct (seek_to (st_size st) (foffset f) offset whence) as [p|] eqn:E; rewrite ?E.
    + destruct (lseek_step part a Hwf cs st f p Hf (Hr p eq_refl) offset whence En) as (f' & Hrun & Hf' & Ho). rewrite Hrun. by exists f'.
    + rewrite (lseek_fails part cs st f offset whence Hf En). by exists f.
Qed.
#[export] Instance fat_filesys part a cs st : fat_wf part a -> FileSys (fat_op part st) (fat_rep part cs st) (fat_reads part).
Proof.
  intros Hwf data pos f o (Hf & <- & ->) Hok. destruct (before_start _ o) eqn:Eb.
  - destruct o as [|offset whence]; [done|]. cbn [before_start] in Eb. apply andb_true_iff in Eb as [->%Z.eqb_eq Hlt%Z.ltb_lt].
    cbn [fat_op]. rewrite (fat_lseek_end_panics part cs); [done|done| |apply Hok].
    pose proof Hf as [[Hch _] _ [Hsz Hsz2] _ _ _]. pose proof (fat_content_len part a Hwf cs Hch) as Hlen. unfold zlen in *. rewrite length_take in Hlt. lia.
  - destruct (fat_op_ok part a cs st f o Hwf Hf Hok Eb) as (f' & Hrun & Hf' & Ho). by exists f'.
Qed.

(** ** Theorems *)
(** C10: Refinement of a file by FAT32: for any sequence of reads of at most a cluster each and of seeks that a
    program makes on an open file, the results and the bytes are those of a file that is just its data,
    the clusters of its chain in order cut to the size in the directory, and a position: reads across the
    borders of clusters, at the end of the file and beyond it, and seeks with every [whence], EINVAL for an unknown one and for a
    place before the start.  The one exception is a seek from the end to before the start: a sequence with one panics.  Positions stay
    below 2^31.  The FAT may be cached or on disk, and the clusters in any order. *)
Theorem fat_file_refines part a cs st f ops : fat_wf part a -> fat_file part cs st f ->
  let data := take (Z.to_nat (st_size st)) (content part cs) in
  ops_ok (fat_reads part) data (foffset f) ops ->
  run (fat_op part st) f ops = if existsb (before_start data) ops then Panic else Ok (spec_run data (foffset f) ops).
Proof. intros Hwf Hf data Hok. apply (run_refines (fat_filesys part a cs st Hwf)); done. Qed.

(** ** Concrete disks *)
(** 512-byte clusters from sector 1 on, cluster [c] full of [c]s; the FAT is in memory. *)
Definition demo_fat (links : list Z) : fat32_partition :=
  mk_fat (mk_dev true false 16 16 [] (replicate 512 0 ++ concat ((fun c => replicate 512 c) <$> seqZ 2 15))) 0 16 1 1 2 512 1 (Some (concat (le32 <$> links))) 0 (Some 0).
Definition demo_file (size : Z) : open_file := mk_open_file 1 0 2 2 0 size 0 0 None (mk_fops 0 0 0 0 0 0) 0.
Definition demo_stat (size : Z) : stat := mk_stat 0 2 0x81FF 1 size 0 0 0 16384 1.
Definition EOC : Z := 0x0fffffff.

(** A read of four clusters of the chain 2, 3, 5, 7 gives data of cluster 6, which is not in the file: the
    count of continuous clusters is not set back to 1 for the next round. *)
Theorem fat_read_wrong_cluster : exists f, fat_read (demo_fat [0; 0; 3; 5; 0; 7; 0; EOC]) None (demo_file 2048) (replicate 2048 0) 2048 =
  Ok (Val 2048, replicate 512 2 ++ replicate 512 3 ++ replicate 512 5 ++ replicate 512 6, f).
Proof. eexists. vm_compute. reflexivity. Qed.
(** After a read of 700 bytes of the chain 2, 3, 4 the file is at cluster 4 instead of 3: the next bytes
    read are those of the wrong cluster. *)
Theorem fat_read_skips_cluster : exists f f', fat_read (demo_fat [0; 0; 3; 4; EOC]) None (demo_file 1536) (replicate 700 0) 700 = Ok (Val 700, replicate 512 2 ++ replicate 188 3, f) /\
  foffset f = 700 /\ fcur_block f = 4 /\ fat_read (demo_fat [0; 0; 3; 4; EOC]) None f (replicate 100 0) 100 = Ok (Val 100, replicate 100 4, f').
Proof. eexists _, _. split; [vm_compute; reflexivity|]. split; [reflexivity|]. split; [reflexivity|]. vm_compute. reflexivity. Qed.
Lemma demo_fat_wf l : fat_wf (demo_fat l) 0.
Proof. constructor; [split; [|done]|done|done|lia|cbn; lia]. repeat split; done || (vm_compute; lia || done). Qed.
Lemma fat_file_witness :
  (run (fat_op (demo_fat [0; 0; 4; EOC; 3]) (demo_stat 1200)) (demo_file 0) [Read 400; Read 300; Seek (-10) 2; Read 512; Read 1; Seek (-5) 0] =
   Ok [(Val 400, replicate 400 2); (Val 300, replicate 112 2 ++ replicate 188 4); (Val 1190, []); (Val 10, replicate 10 3); (Val 0, []); (Err EINVAL, [])]) /\
  run (fat_op (demo_fat [0; 0; 4; EOC; 3]) (demo_stat 1200)) (demo_file 0) [Read 400; Seek (-1300) 2] = Panic.
Proof.
  assert (Hf : fat_file (demo_fat [0; 0; 4; EOC; 3]) [2; 4; 3] (demo_stat 1200) (demo_file 0)).
  { constructor; [|done|split; [cbn; lia|by vm_compute]|done|by right|done].
    split; [|done]. repeat split; try (vm_compute; done || lia); eexists; (split; [vm_compute; reflexivity|done]). }
  split; rewrite (fat_file_refines (demo_fat [0; 0; 4; EOC; 3]) 0 [2; 4; 3] (demo_stat 1200) (demo_file 0) _ (demo_fat_wf _) Hf); try by vm_compute.
  all: vm_compute; repeat split; try done; lia.
Defined.
