(* ===== verification/FatDir.v ===== *)
(** * FAT32: directories (src/src/kernel/fat/dir.c and the lookups of fat.c)

    A directory is a file of 32-byte entries.  The state that survives a call is the [static] buffer
    of the long file name that is being collected ([lfn_state]).  A callback of [fat_parse_dir] is a
    function of the entry, the long name ([None] for NULL) and the data it changes; it returns whether
    to go on. *)
From S2P Require Import Prelude CString Path Net NetSum NetSend Ata Ext2 Ext2Dir Time Fd DirBuf Fat.
From stdpp Require Import strings.
#[local] Open Scope Z_scope.

Definition ATTRIB_VOLUME_ID : Z := 0x8.
Definition ATTRIB_DIR : Z := 0x10.
Definition ATTRIB_LFN : Z := 0xf.

(** ** Names *)
(** The loop over the UTF-16 characters from [i] on. *)
Fixpoint parse_lfn_from (n : nat) (lfn_buf ascii_buf : list Z) (i : Z) : res (list Z) :=
  match n with
  | O => aset ascii_buf i 0
  | S n =>
      c ← aget lfn_buf i;
      if (c =? 0) || (c =? 0xffff) then ascii_buf ← aset ascii_buf i 0; aset ascii_buf i 0
      else
        ascii_buf ← aset ascii_buf i (if Z.land c 0xff80 =? 0 then Z.land c 0xff else 95);
        parse_lfn_from n lfn_buf ascii_buf (i + 1)
  end.
Definition parse_lfn (lfn_buf ascii_buf : list Z) : res (list Z) := parse_lfn_from 256 lfn_buf ascii_buf 0.

(** The extension: [ext] from byte [8 + i] on. *)
Fixpoint parse_ext (n : nat) (buf ext : list Z) (i : Z) : res (list Z) :=
  match n with
  | O => Ok ext
  | S n =>
      c ← aget buf (8 + i);
      if 0x20 <? schar c then ext ← aset ext i c; parse_ext n buf ext (i + 1)
      else aset ext i 0
  end.
(** Steps back over the padding before [p]. *)
Fixpoint unpad (buf : list Z) (p : nat) : res Z :=
  match p with
  | O => Undef
  | S q => c ← aget buf (Z.of_nat q); if c =? 0x20 then unpad buf q else Ok (Z.of_nat p)
  end.
Definition fat_parse_short_name (buf name : list Z) : res (list Z) :=
  c ← aget name 0;
  if c =? 0 then Ok buf
  else
    assert ((0x20 <? schar c) || (c =? 0x05)) ;;
    buf ← blit buf 0 name 0 11;
    buf ← blit buf 11 [0; 0] 0 2;
    c ← aget buf 0;
    buf ← (if c =? 0x05 then aset buf 0 0xe5 else Ok buf);
    ext ← parse_ext 3 buf [0; 0; 0; 0] 0;
    p ← unpad buf 8;
    e ← aget ext 0;
    if 0x20 <? schar e then
      buf ← aset buf p 46;
      buf ← aset buf (p + 1) 0;
      store_at buf p (fun b => '(b, _) ← strlcat b ext 5; Ok b)
    else aset buf p 0.

(** ** Reading a directory *)
Record lfn_state := mk_lfn { lfn_buf : list Z; have_lfn : bool; lfn_entry_num : Z }.
Definition lfn_start : lfn_state := mk_lfn (replicate 256 0) false 0.

(** [n] UTF-16 characters from byte [o] on. *)
Fixpoint utf16_at (n : nat) (data : list Z) (o : Z) : res (list Z) :=
  match n with O => Ok [] | S n => c ← get16 data o; l ← utf16_at n data (o + 2); Ok (c :: l) end.
Definition lfn_entry (e : list Z) (l : lfn_state) : res lfn_state :=
  entry ← aget e 0;
  let l := if negb (Z.land entry 0x40 =? 0) then mk_lfn (replicate 256 0) true (lfn_entry_num l) else l in
  let num := Z.land entry 0x3f in
  n1 ← utf16_at 5 e 1; n2 ← utf16_at 6 e 14; n3 ← utf16_at 2 e 28;
  let offset := u32 ((num - 1) * 13) in
  buf ← blit (lfn_buf l) offset (n1 ++ n2 ++ n3) 0 13;
  Ok (mk_lfn buf (have_lfn l) num).

Section parse.
Context {A : Type} (callback : list Z -> option (list Z) -> A -> res (bool * A)).

(** One entry; [true] when the callback stops the loop. *)
Definition parse_direntry (e : list Z) (l : lfn_state) (a : A) : res (bool * lfn_state * A) :=
  c ← aget e 0; attrib ← aget e 11;
  if c =? 0xe5 then Ok (false, l, a)
  else if negb (Z.land attrib ATTRIB_VOLUME_ID =? 0) && negb (attrib =? ATTRIB_LFN) then Ok (false, l, a)
  else if attrib =? ATTRIB_LFN then l ← lfn_entry e l; Ok (false, l, a)
  else
    name ← (if have_lfn l then n ← parse_lfn (lfn_buf l) (replicate 256 0); Ok (Some n) else Ok None);
    '(go, a) ← callback e name a;
    if go : bool then Ok (false, mk_lfn (lfn_buf l) false (lfn_entry_num l), a) else Ok (true, l, a).

(** The loop; [i] is the offset of [disk_direntry] in [disk_data]. *)
Fixpoint parse_entries (fuel : nat) (part : fat32_partition) (disk_data : list Z) (i cur_cluster : Z) (l : lfn_state) (a : A) : res (lfn_state * A) :=
  match fuel with
  | O => NoFuel
  | S fuel =>
      e ← bytes disk_data i 32;
      c ← aget e 0;
      if c =? 0 then Ok (l, a)
      else
        '(stop, l, a) ← parse_direntry e l a;
        if stop : bool then Ok (l, a)
        else if cluster_size part <=? i + 32 then
          r ← fat_read_next_cluster part disk_data cur_cluster;
          match r with
          | None => Ok (l, a)
          | Some (cur_cluster, disk_data) => parse_entries fuel part disk_data 0 cur_cluster l a
          end
        else parse_entries fuel part disk_data (i + 32) cur_cluster l a
  end.
(** [fat_parse_dir] of the directory at cluster [ino]; [fuel] is the number of entries it may look at. *)
Definition fat_parse_dir (fuel : nat) (part : fat32_partition) (d : dirbuf) (l : lfn_state) (a : A) : res (lfn_state * A) :=
  assert (match db_buf d with None => true | _ => false end) ;;
  assert (db_pos d =? 0) ;; assert (db_len d =? 0) ;; assert (2 <=? db_ino d) ;;
  disk_data ← fat_read_cluster part (db_ino d) (replicate (Z.to_nat (cluster_size part)) 0);
  parse_entries fuel part disk_data 0 (db_ino d) l a.
End parse.

(** ** Listing *)
Definition fat_opendir_cluster (cluster : Z) (mp : option Z) : res dirbuf :=
  assert (2 <=? cluster) ;;
  assert (match mp with Some _ => true | None => false end) ;;
  dev ← deref mp;
  Ok (mk_dirbuf cluster dev None 0 0 0).

(** Appending an entry to the buffer; [d_namlen] is a [uint8]. *)
Definition put_dirent (ino dev type rl : Z) (name : list Z) (d : dirbuf) : dirbuf :=
  mk_dirbuf (db_ino d) (db_dev d) (Some (default [] (db_buf d) ++ [mk_dirent ino dev rl type (u8 (zlen name)) name])) (db_pos d) (db_len d + rl) (db_buflen d).
Definition direntry_cluster (e : list Z) : res Z := hi ← get16 e 20; lo ← get16 e 26; Ok (Z.lor (Z.shiftl hi 16) lo).

Definition fat_callback_create_dentries (part : fat32_partition) (e : list Z) (lfn : option (list Z)) (d : dirbuf) : res (bool * dirbuf) :=
  let d := if db_buflen d =? 0 then mk_dirbuf (db_ino d) (db_dev d) (Some []) (db_pos d) (db_len d) (DIRENT_SIZE * 2) else d in
  let dev := fat_dev part in
  let root := root_dir_first_cluster part in
  let d := if (db_len d =? 0) && (db_ino d =? root)
           then put_dirent root dev DT_DIR 16 (chars "..") (put_dirent root dev DT_DIR 16 (chars ".") d) else d in
  let d := if db_buflen d <=? db_len d + DIRENT_SIZE then mk_dirbuf (db_ino d) (db_dev d) (db_buf d) (db_pos d) (db_len d) (db_buflen d + 2 * DIRENT_SIZE) else d in
  data_cluster ← direntry_cluster e;
  short_name ← fat_parse_short_name (replicate 13 0) e;
  attrib ← aget e 11;
  let type := if negb (Z.land attrib ATTRIB_DIR =? 0) then DT_DIR else DT_REG in
  dots ← (if data_cluster =? 0 then c ← strcmp short_name (lit ".."); Ok (c =? 0) else Ok false);
  let ino := if dots : bool then root else data_cluster in
  '(d_name, _) ← strlcpy (replicate (Z.to_nat MAXNAMLEN) 0) (match lfn with Some n => n | None => short_name end) MAXNAMLEN;
  name ← read_str d_name;
  let rl := dent_reclen (u8 (zlen name)) in
  assert (rl <=? DIRENT_SIZE) ;;
  Ok (true, put_dirent ino dev type rl name d).

Definition fat_fill (fuel : nat) (part : fat32_partition) (d : dirbuf) (l : lfn_state) : res (dirbuf * lfn_state) :=
  match db_buf d with
  | Some _ => Ok (d, l)
  | None => '(l, d) ← fat_parse_dir (fat_callback_create_dentries part) fuel part d l d; Ok (d, l)
  end.
Definition fat_readdir (fuel : nat) (part : fat32_partition) (d : dirbuf) (l : lfn_state) : res (option dirent * dirbuf * lfn_state) :=
  if negb (db_len d =? 0) && (db_len d <=? db_pos d) then
    assert (db_pos d =? db_len d) ;; Ok (None, d, l)
  else
    '(d, l) ← fat_fill fuel part d l;
    match db_buf d with
    | None => Ok (None, d, l)
    | Some _ => '(dent, d) ← take_dirent d; Ok (Some dent, d, l)
    end.
(** [data] is the open file's [data] pointer, [mode] the [st_mode] that [fstat] gives. *)
Definition fat_getdents (fuel : nat) (part : fat32_partition) (f : open_file) (mp : option Z) (mode : Z) (data : option dirbuf) (l : lfn_state) (count : Z)
  : res (ret * list dirent * option dirbuf * lfn_state) :=
  if count <? 128 then Ok (Err EINVAL, [], data, l)
  else if (match data with None => negb (S_ISDIR mode) | Some _ => false end) then Ok (Err ENOTDIR, [], data, l)
  else
    d ← match data with Some d => Ok d | None => fat_opendir_cluster (fino f) mp end;
    if negb (db_len d =? 0) && (db_len d <=? db_pos d) then
      assert (db_pos d =? db_len d) ;; Ok (Val 0, [], None, l)
    else
      '(d, l) ← fat_fill fuel part d l;
      match db_buf d with
      | None => Ok (Err EPERM, [], Some d, l)
      | Some _ => '(r, d, out) ← getdents_from d count; Ok (r, out, Some d, l)
      end.

(** ** Lookups *)
(** The search of a directory for [token]; [n] is the number of entries it may look at. *)
Fixpoint find_token (n fuel : nat) (part : fat32_partition) (token : list Z) (d : dirbuf) (l : lfn_state) : res (option dirent * lfn_state) :=
  match n with
  | O => NoFuel
  | S n =>
      '(o, d, l) ← fat_readdir fuel part d l;
      match o with
      | None => Ok (None, l)
      | Some dent => c ← stricmp (d_nm dent ++ [0]) token; if c =? 0 then Ok (Some dent, l) else find_token n fuel part token d l
      end
  end.
(** The loop over the tokens of the path: a cluster, or an error code cast to [uint32]. *)
Fixpoint walk_tokens (n fuel : nat) (part : fat32_partition) (type : Z) (path : list Z) (tok : option Z) (tmp : tokptr) (cur_cluster : Z) (l : lfn_state) : res (Z * lfn_state) :=
  match n with
  | O => NoFuel
  | S n =>
      '(path, token, tmp) ← strtok_r path tok (lit "/") tmp;
      match token with
      | None => Ok (cur_cluster, l)
      | Some t =>
          d ← fat_opendir_cluster cur_cluster (fat_mp part);
          '(o, l) ← find_token (3 + fuel) fuel part (padd path t) d l;
          match o with
          | None => Ok (0xffffffff, l)
          | Some dent =>
              if (type =? DT_DIR) && negb (d_type dent =? DT_DIR) then Ok (u32 (-20), l)
              else walk_tokens n fuel part type path None tmp (d_ino dent) l
          end
      end
  end.
Definition fat_cluster_for_path (fuel : nat) (part : fat32_partition) (in_path : list Z) (type : Z) (l : lfn_state) : res (Z * lfn_state) :=
  n ← strlen in_path; assert (1 <=? n) ;;
  c ← strcmp in_path (lit "/");
  if c =? 0 then Ok (root_dir_first_cluster part, l)
  else
    '(path, _) ← strlcpy (replicate 256 0) in_path 256;
    walk_tokens 256 fuel part type path (Some 0) PEmpty (root_dir_first_cluster part) l.

Definition fat_opendir (fuel : nat) (part : fat32_partition) (mp : Z) (path : list Z) (l : lfn_state) : res (option dirbuf * lfn_state) :=
  n ← strlen path; assert (0 <? n) ;;
  '(cluster, l) ← fat_cluster_for_path fuel part path DT_DIR l;
  if (cluster =? 0) || (0x0fffffff <=? cluster) then Ok (None, l)
  else d ← fat_opendir_cluster cluster (Some mp); Ok (Some d, l).

(** [fat_open] with the [struct open_file] that [new_filp] returned ([mp] is the mount point of the device in
    the list, [fops] the driver's functions): the file it fills, [None] for ENOENT. *)
Definition fat_open (fuel : nat) (part : fat32_partition) (dev : Z) (path : list Z) (file : open_file) (mp : option Z) (fops : open_file_ops) (l : lfn_state) : res (option open_file * lfn_state) :=
  '(cluster, l) ← fat_cluster_for_path fuel part path 0 l;
  if cluster <=? 0x0ffffff6 then
    p ← read_str path;
    assert (fcount file + 1 =? 1) ;;
    assert (match mp with Some _ => true | None => false end) ;;
    m ← deref mp;
    Ok (Some (mk_open_file (fcount file + 1) dev cluster cluster 0 0 (fmode file) m (Some p) fops (fdata file)), l)
  else Ok (None, l).

(** ** stat *)
Inductive fat_time := FAT_MTIME | FAT_CTIME | FAT_ATIME.
Definition fat_calc_time (e : list Z) (type : fat_time) : res Z :=
  fdate ← get16 e (match type with FAT_MTIME => 24 | FAT_CTIME => 16 | FAT_ATIME => 18 end);
  ftime ← match type with FAT_MTIME => get16 e 22 | FAT_CTIME => get16 e 14 | FAT_ATIME => Ok 0 end;
  let bits x o n := Z.land (Z.shiftr x o) (2 ^ n - 1) in
  '(t, _) ← kern_mktime (mk_time (u16 (1980 + bits fdate 9 7 - 1900)) (u8 (bits fdate 5 4 - 1)) (bits fdate 0 5) (bits ftime 11 5) (bits ftime 5 6) (u8 (bits ftime 0 5 * 2)));
  Ok t.
(** [struct stat_callback_data]: [st] is [Some] on success. *)
Definition fat_callback_stat (part : fat32_partition) (file : list Z) (e : list Z) (lfn : option (list Z)) (st : option stat) : res (bool * option stat) :=
  name ← match lfn with
         | Some n => '(b, _) ← strlcpy (replicate 256 0) n 256; Ok b
         | None => fat_parse_short_name (replicate 256 0) e
         end;
  c ← stricmp name file;
  if c =? 0 then
    ino ← direntry_cluster e; attrib ← aget e 11; lo ← get16 e 28; hi ← get16 e 30;
    let file_size := lo + 65536 * hi in
    let dir := negb (Z.land attrib ATTRIB_DIR =? 0) in
    mt ← fat_calc_time e FAT_MTIME; ct ← fat_calc_time e FAT_CTIME; at_ ← fat_calc_time e FAT_ATIME;
    let blksize := if 16384 <? cluster_size part then cluster_size part else 16384 in
    let num_blocks := file_size / blksize + (if negb (file_size mod blksize =? 0) then 1 else 0) in
    Ok (false, Some (mk_stat (fat_dev part) ino (Z.lor 0x1ff (if dir then 0x4000 else 0x8000)) 1 (if dir then 0 else s32 file_size) mt ct at_ blksize (if dir then 1 else num_blocks)))
  else Ok (true, st).
(** [None] for ENOENT; [mp] is the [dev] of the mount point. *)
Definition fat_stat (fuel : nat) (part : fat32_partition) (mp : Z) (in_path : list Z) (l : lfn_state) : res (option stat * lfn_state) :=
  path ← path_dirname in_path; base ← path_basename in_path;
  c1 ← strcmp path (lit "/"); c2 ← (if c1 =? 0 then strcmp base (lit "/") else Ok 1);
  if (c1 =? 0) && (c2 =? 0) then Ok (Some (mk_stat mp 2 (Z.lor 0x1ff 0x4000) 1 0 0 0 0 4096 1), l)
  else
    '(o, l) ← fat_opendir fuel part mp path l;
    match o with
    | None => Ok (None, l)
    | Some d => '(l, st) ← fat_parse_dir (fat_callback_stat part base) fuel part d l None; Ok (st, l)
    end.
