(* ===== verification/FatEntries.v ===== *)
(** * FAT32: the entries of a directory

    The format of a directory ([item_entries]): 32-byte entries, of which a file has one with its short name
    and, before it and in reverse order, those with the pieces of its long name.  [fat_parse_dir] over a chain
    of clusters visits the files of the directory in order, with their names. *)
From S2P Require Import Prelude CString Path Net NetSum NetSend Ata Ext2 Ext2File Ext2Dir Time Fd DirBuf Fat FatRead FatDir.
From stdpp Require Import strings.
#[local] Open Scope Z_scope.

(** ** The format *)
(** A UTF-16 character of a long name as it is shown. *)
Definition ascii (c : Z) : Z := if c <? 128 then c else 95.
Definition unit_ok (c : Z) : Prop := 0 < c < 0xffff.
Definition le16s (l : list Z) : list Z := concat (le16 <$> l).

(** The number of pieces of 13 characters, and the name padded to that many. *)
Definition pieces (long : list Z) : nat := ((length long + 12) / 13)%nat.
Definition padded (long : list Z) : list Z := long ++ take (13 * pieces long - length long) (0 :: replicate 12 0xffff).
Definition piece (long : list Z) (m : nat) : list Z := take 13 (drop (13 * m) (padded long)).
Definition lfn_bytes (num sum : Z) (p : list Z) : list Z :=
  num :: le16s (take 5 p) ++ [ATTRIB_LFN; 0; sum] ++ le16s (take 6 (drop 5 p)) ++ [0; 0] ++ le16s (drop 11 p).
(** The entries of the pieces below [m], the last one first. *)
Fixpoint lfn_low (long : list Z) (sum : Z) (m : nat) : list (list Z) :=
  match m with O => [] | S m => lfn_bytes (Z.of_nat m + 1) sum (piece long m) :: lfn_low long sum m end.
Definition lfn_entries (long : list Z) (sum : Z) : list (list Z) :=
  match pieces long with
  | O => []
  | S m => lfn_bytes (0x40 + (Z.of_nat m + 1)) sum (piece long m) :: lfn_low long sum m
  end.

(** A file or directory; [f_dates] are the bytes 12 to 19 of its entry, [f_mod] the bytes 22 to 25. *)
Record fat_item := mk_item {
  f_long : list Z; f_sum : Z;                  (** the long name, [[]] for none, and its checksum *)
  f_base : list Z; f_ext : list Z; f_attr : Z;
  f_dates : list Z; f_mod : list Z; f_cluster : Z; f_bytes : Z
}.
Definition pad (n : nat) (s : list Z) : list Z := s ++ replicate (n - length s) 32.
Definition short_entry (x : fat_item) : list Z :=
  pad 8 (f_base x) ++ pad 3 (f_ext x) ++ [f_attr x] ++ f_dates x ++ le16 (f_cluster x / 65536) ++ f_mod x ++ le16 (f_cluster x mod 65536) ++ le32 (f_bytes x).
Inductive item := Unused (e : list Z) | Label (e : list Z) | File (x : fat_item).
Definition item_entries (i : item) : list (list Z) :=
  match i with Unused e | Label e => [e] | File x => lfn_entries (f_long x) (f_sum x) ++ [short_entry x] end.

(** The name of a file: the long one, or the short one with its dot. *)
Definition short_name (x : fat_item) : list Z :=
  (match f_base x with c :: b => (if c =? 5 then 0xe5 else c) :: b | [] => [] end) ++ (match f_ext x with [] => [] | e => 46 :: e end).
Definition item_name (x : fat_item) : list Z := match f_long x with [] => short_name x | l => ascii <$> l end.

(** A long name has at most 19 pieces; the bytes of a short name are printable, those of its base may be others. *)
Record item_wf (x : fat_item) : Prop := {
  iw_long : Forall unit_ok (f_long x) /\ (length (f_long x) <= 247)%nat;
  iw_base : Forall char_ok (f_base x) /\ (length (f_base x) <= 8)%nat /\ last (f_base x) <> Some 32;
  iw_first : match f_base x with c :: _ => 0x20 < c < 0x80 \/ c = 5 | [] => False end;
  iw_ext : Forall (fun c => 0x20 < c < 0x80) (f_ext x) /\ (length (f_ext x) <= 3)%nat;
  iw_attr : 0 <= f_attr x < 256 /\ Z.land (f_attr x) ATTRIB_VOLUME_ID = 0;
  iw_fields : length (f_dates x) = 8%nat /\ length (f_mod x) = 4%nat /\ 0 <= f_cluster x < 2 ^ 28 /\ 0 <= f_bytes x < 2 ^ 32
}.
Definition item_ok (i : item) : Prop :=
  match i with
  | Unused e => length e = 32%nat /\ head e = Some 0xe5
  | Label e => length e = 32%nat /\ (exists c, head e = Some c /\ c <> 0) /\ exists a, e !! 11%nat = Some a /\ Z.land a ATTRIB_VOLUME_ID <> 0 /\ a <> ATTRIB_LFN
  | File x => item_wf x
  end.

(** ** Long names *)
Lemma lfn_char_ascii c : unit_ok c -> (if Z.land c 0xff80 =? 0 then Z.land c 0xff else 95) = ascii c.
Proof.
  intros Hc. unfold unit_ok in Hc. unfold ascii. assert (H7 : Z.land c 0x7f = c mod 128) by (change 0x7f with (Z.ones 7); by rewrite Z.land_ones). destruct (Z.ltb_spec c 128) as [Hlt|Hge].
  - assert (Z.land c 0xff80 = 0) as -> by (rewrite <- (Z.mod_small c 128), <- H7, <- Z.land_assoc by lia; apply Z.land_0_r).
    change 0xff with (Z.ones 8). rewrite Z.land_ones by lia. apply Z.mod_small. lia.
  - destruct (Z.eqb_spec (Z.land c 0xff80) 0) as [E|E]; [|done]. exfalso. assert (Hs : Z.land c 0xffff = Z.lor (Z.land c 0xff80) (Z.land c 0x7f)) by (by rewrite <- Z.land_lor_distr_r).
    rewrite E, Z.lor_0_l, H7 in Hs. change 0xffff with (Z.ones 16) in Hs. rewrite Z.land_ones, Z.mod_small in Hs by lia. pose proof (Z.mod_pos_bound c 128). lia.
Qed.
(** The characters before the first terminator, in ASCII. *)
Lemma parse_lfn_ok u c rest : Forall unit_ok u -> c = 0 \/ c = 0xffff -> length (u ++ c :: rest) = 256%nat ->
  parse_lfn (u ++ c :: rest) (replicate 256 0) = Ok ((ascii <$> u) ++ replicate (256 - length u) 0).
Proof.
  intros Hu Hc Hlen. rewrite length_app in Hlen. cbn [length] in Hlen. unfold parse_lfn.
  assert (Hgen : forall u2 u1 n, u = u1 ++ u2 -> (length u2 < n)%nat ->
    parse_lfn_from n (u ++ c :: rest) ((ascii <$> u1) ++ replicate (256 - length u1) 0) (zlen u1) = Ok ((ascii <$> u) ++ replicate (256 - length u) 0)).
  { induction u2 as [|x u2 IH]; intros u1 n E Hn; (destruct n as [|n]; [cbn in Hn; lia|]); cbn [parse_lfn_from].
    - rewrite app_nil_r in E. subst u1. rewrite aget_mid. cbn [mbind res_bind]. replace ((c =? 0) || (c =? 0xffff)) with true by (destruct Hc as [-> | ->]; done).
      replace (256 - length u)%nat with (S (255 - length u)) by lia. cbn [replicate]. assert (Hz : zlen u = zlen (ascii <$> u)) by (unfold zlen; by rewrite length_fmap).
      rewrite Hz, aset_mid. cbn [mbind res_bind]. by rewrite aset_mid.
    - assert (Hx : unit_ok x) by (rewrite E in Hu; apply Forall_app in Hu as [_ Hu]; by inversion Hu).
      assert (Hl : (length u1 + S (length u2) <= 255)%nat) by (rewrite E, length_app in Hlen; cbn in Hlen; lia).
      replace (u ++ c :: rest) with (u1 ++ x :: u2 ++ c :: rest) at 1 by (by rewrite E, <- app_assoc). rewrite aget_mid. cbn [mbind res_bind].
      rewrite (lfn_char_ascii x Hx). unfold unit_ok in Hx. destruct (Z.eqb_spec x 0); [lia|]. destruct (Z.eqb_spec x 0xffff); [lia|]. cbn [orb].
      replace (256 - length u1)%nat with (S (255 - length u1)) by lia. cbn [replicate]. assert (Hz : zlen u1 = zlen (ascii <$> u1)) by (unfold zlen; by rewrite length_fmap).
      rewrite Hz at 1. rewrite aset_mid. cbn [mbind res_bind]. rewrite <- (IH (u1 ++ [x]) n); [|by rewrite E, <- app_assoc|cbn in Hn; lia].
      rewrite zlen_snoc, fmap_app, length_app. cbn [length]. rewrite <- app_assoc. do 4 f_equal. lia. }
  apply (Hgen u [] 256%nat); [done|lia].
Qed.

Lemma pieces_spec long : (length long <= 13 * pieces long < length long + 13)%nat.
Proof. unfold pieces. pose proof (Nat.div_mod_eq (length long + 12) 13). pose proof (Nat.mod_upper_bound (length long + 12) 13). lia. Qed.
Lemma padded_len long : length (padded long) = (13 * pieces long)%nat.
Proof. pose proof (pieces_spec long). unfold padded. rewrite length_app, length_take. cbn [length]. rewrite length_replicate. lia. Qed.
Lemma piece_len long m : (m < pieces long)%nat -> length (piece long m) = 13%nat.
Proof. intros Hm. unfold piece. rewrite length_take, length_drop, padded_len. lia. Qed.
Lemma padded_units long : Forall unit_ok long -> Forall (fun c => 0 <= c < 65536) (padded long).
Proof.
  intros H. unfold padded. apply Forall_app. split; [eapply Forall_impl; [done|]; intros c; cbn; unfold unit_ok; lia|]. apply Forall_take. constructor; [lia|]. apply Forall_replicate. lia.
Qed.

(** Reading back characters. *)
Lemma utf16_read l : forall pre post, Forall (fun c => 0 <= c < 65536) l -> utf16_at (length l) (pre ++ le16s l ++ post) (zlen pre) = Ok l.
Proof.
  induction l as [|c l IH]; intros pre post Hl; [done|]. inversion Hl as [|? ? Hc Hl']; subst. cbn [length utf16_at]. change (le16s (c :: l)) with (c mod 256 :: c / 256 mod 256 :: le16s l). cbn [app].
  unfold get16. rewrite aget_mid. cbn [mbind res_bind]. rewrite (cons_middle (c mod 256)), app_assoc. replace (zlen pre + 1) with (zlen (pre ++ [c mod 256])) by (rewrite zlen_snoc; lia). rewrite aget_mid. cbn [mbind res_bind].
  rewrite (cons_middle (c / 256 mod 256)), app_assoc. replace (zlen pre + 2) with (zlen ((pre ++ [c mod 256]) ++ [c / 256 mod 256])) by (rewrite !zlen_snoc; lia). rewrite IH by done. cbn [mbind res_bind].
  do 2 f_equal. pose proof (Z.div_mod c 256 ltac:(lia)). rewrite (Z.mod_small (c / 256)) by (split; [apply Z.div_pos; lia|apply Z.div_lt_upper_bound; lia]). lia.
Qed.
Lemma le16s_len l : length (le16s l) = (2 * length l)%nat.
Proof. unfold le16s. induction l as [|c l IH]; [done|]. rewrite fmap_cons. cbn [concat]. rewrite length_app, IH. cbn. lia. Qed.
Lemma lfn_bytes_len num sum p : length p = 13%nat -> length (lfn_bytes num sum p) = 32%nat.
Proof. intros Hp. unfold lfn_bytes. cbn [length]. rewrite !length_app, !le16s_len, !length_take, !length_drop, Hp. done. Qed.

(** One piece of a long name goes to its place in the buffer. *)
Lemma lfn_entry_ok num sum p l : length p = 13%nat -> Forall (fun c => 0 <= c < 65536) p -> length (lfn_buf l) = 256%nat -> 0 <= num < 128 -> 1 <= Z.land num 0x3f <= 19 ->
  let o := Z.to_nat ((Z.land num 0x3f - 1) * 13) in
  let buf := if negb (Z.land num 0x40 =? 0) then replicate 256 0 else lfn_buf l in
  lfn_entry (lfn_bytes num sum p) l = Ok (mk_lfn (take o buf ++ p ++ drop (o + 13) buf) (negb (Z.land num 0x40 =? 0) || have_lfn l) (Z.land num 0x3f)).
Proof.
  intros Hp Hu Hl Hn Hk o buf. unfold lfn_entry. set (e := lfn_bytes num sum p).
  assert (aget e 0 = Ok num) as -> by done. cbn [mbind res_bind].
  assert (H5 : length (take 5 p) = 5%nat) by (rewrite length_take; lia). assert (H6 : length (take 6 (drop 5 p)) = 6%nat) by (rewrite length_take, length_drop; lia). assert (H2 : length (drop 11 p) = 2%nat) by (rewrite length_drop; lia).
  assert (utf16_at 5 e 1 = Ok (take 5 p)) as ->.
  { pose proof (utf16_read (take 5 p) [num] ([ATTRIB_LFN; 0; sum] ++ le16s (take 6 (drop 5 p)) ++ [0; 0] ++ le16s (drop 11 p))) as H. rewrite H5 in H. apply H. by apply Forall_take. }
  cbn [mbind res_bind].
  assert (utf16_at 6 e 14 = Ok (take 6 (drop 5 p))) as ->.
  { pose proof (utf16_read (take 6 (drop 5 p)) (num :: le16s (take 5 p) ++ [ATTRIB_LFN; 0; sum]) ([0; 0] ++ le16s (drop 11 p))) as H. rewrite H6 in H.
    rewrite <- H by (by apply Forall_take, Forall_drop). unfold e, lfn_bytes. cbn [app]. rewrite <- !app_assoc. f_equal. rewrite zlen_cons, zlen_app. unfold zlen. rewrite le16s_len, H5. done. }
  cbn [mbind res_bind].
  assert (utf16_at 2 e 28 = Ok (drop 11 p)) as ->.
  { pose proof (utf16_read (drop 11 p) (num :: le16s (take 5 p) ++ [ATTRIB_LFN; 0; sum] ++ le16s (take 6 (drop 5 p)) ++ [0; 0]) []) as H. rewrite H2 in H.
    rewrite <- H by (by apply Forall_drop). unfold e, lfn_bytes. cbn [app]. rewrite app_nil_r, <- !app_assoc. cbn [app]. rewrite <- app_assoc. f_equal. rewrite zlen_cons, !zlen_app, !zlen_cons, zlen_app. unfold zlen. rewrite !le16s_len, H5, H6. done. }
  cbn [mbind res_bind]. rewrite u32_small by lia.
  assert (Ep : take 5 p ++ take 6 (drop 5 p) ++ drop 11 p = p). { rewrite <- (take_drop 5 p) at 4. f_equal. rewrite <- (take_drop 6 (drop 5 p)) at 2. by rewrite drop_drop. }
  rewrite Ep. assert (Eb : lfn_buf (if negb (Z.land num 0x40 =? 0) then mk_lfn (replicate 256 0) true (lfn_entry_num l) else l) = buf) by (unfold buf; by destruct (negb _)).
  rewrite Eb. assert (Hbl : length buf = 256%nat) by (unfold buf; destruct (negb _); [apply length_replicate|done]).
  rewrite blit_Ok by (unfold zlen; lia). cbn [mbind res_bind]. do 2 f_equal.
  - unfold o. rewrite drop_0, (take_ge p) by lia. do 3 f_equal. lia.
  - by destruct (negb _).
Qed.
(** The pieces below [m] fill the front of the buffer. *)
Section entries.
Context {A : Type} (callback : list Z -> option (list Z) -> A -> res (bool * A)).

(** [fat_parse_dir] on a list of entries. *)
Fixpoint parse_list (es : list (list Z)) (l : lfn_state) (a : A) : res (lfn_state * A) :=
  match es with
  | [] => Ok (l, a)
  | e :: es =>
      c ← aget e 0;
      if c =? 0 then Ok (l, a)
      else '(stop, l, a) ← parse_direntry callback e l a; if stop : bool then Ok (l, a) else parse_list es l a
  end.
Lemma parse_lfn_entry num sum p l a es : length p = 13%nat -> 0 < num < 0xe5 ->
  parse_list (lfn_bytes num sum p :: es) l a = (l ← lfn_entry (lfn_bytes num sum p) l; parse_list es l a).
Proof.
  intros Hp Hn. cbn [parse_list]. assert (aget (lfn_bytes num sum p) 0 = Ok num) as E0 by done. rewrite E0. cbn [mbind res_bind]. destruct (Z.eqb_spec num 0); [lia|].
  unfold parse_direntry. rewrite E0. cbn [mbind res_bind].
  assert (aget (lfn_bytes num sum p) 11 = Ok ATTRIB_LFN) as ->.
  { assert (zlen (num :: le16s (take 5 p)) = 11) as <- by (rewrite zlen_cons; unfold zlen; rewrite le16s_len, length_take, Hp; done). apply (aget_mid (num :: le16s (take 5 p))). }
  cbn [mbind res_bind]. destruct (Z.eqb_spec num 0xe5); [lia|]. rewrite Z.eqb_refl. cbn [negb andb]. rewrite andb_false_r. by destruct (lfn_entry (lfn_bytes num sum p) l).
Qed.
Lemma parse_low long sum m : forall l a es, Forall unit_ok long -> (m <= pieces long)%nat -> (m <= 19)%nat -> length (lfn_buf l) = 256%nat ->
  exists n, parse_list (lfn_low long sum m ++ es) l a = parse_list es (mk_lfn (take (13 * m) (padded long) ++ drop (13 * m) (lfn_buf l)) (have_lfn l) n) a.
Proof.
  induction m as [|m IH]; intros l a es Hu Hm H19 Hl; cbn [lfn_low app].
  - exists (lfn_entry_num l). cbn. rewrite drop_0. by destruct l.
  - rewrite parse_lfn_entry by (try apply piece_len; lia). assert (Hlow : Z.land (Z.of_nat m + 1) 0x3f = Z.of_nat m + 1) by (change 0x3f with (Z.ones 6); rewrite Z.land_ones, Z.mod_small by lia; done).
    assert (Hhi : Z.land (Z.of_nat m + 1) 0x40 = 0). { rewrite <- Hlow, <- Z.land_assoc. apply Z.land_0_r. }
    rewrite lfn_entry_ok; rewrite ?Hlow, ?Hhi; [|apply piece_len; lia|apply Forall_take, Forall_drop; by apply padded_units|done|lia|lia]. cbn [mbind res_bind Z.eqb negb orb].
    replace (Z.to_nat ((Z.of_nat m + 1 - 1) * 13)) with (13 * m)%nat by lia. set (l1 := mk_lfn _ _ _). destruct (IH l1 a es Hu) as (n & Hn); [lia..| |].
    { cbn [l1 lfn_buf]. rewrite !length_app, length_take, length_drop, piece_len by lia. lia. }
    exists n. rewrite Hn. f_equal. f_equal. cbn [lfn_buf l1]. rewrite drop_app_length' by (rewrite length_take; lia).
    replace (13 * S m)%nat with (13 * m + 13)%nat by lia. rewrite <- (take_take_drop (padded long) (13 * m) 13), <- app_assoc. done.
Qed.
(** All of them leave the long name to be used for the next entry. *)
Lemma parse_long long sum l a es : Forall unit_ok long -> long <> [] -> (length long <= 247)%nat -> length (lfn_buf l) = 256%nat ->
  exists l', parse_list (lfn_entries long sum ++ es) l a = parse_list es l' a /\ have_lfn l' = true /\ length (lfn_buf l') = 256%nat /\
    parse_lfn (lfn_buf l') (replicate 256 0) = Ok ((ascii <$> long) ++ replicate (256 - length long) 0).
Proof.
  intros Hu Hne Hlen Hl. pose proof (pieces_spec long) as Hp. unfold lfn_entries. destruct (pieces long) as [|m] eqn:Em; [destruct long; [done|cbn in Hp; lia]|]. cbn [app].
  rewrite parse_lfn_entry by (try apply piece_len; lia). set (num := 0x40 + (Z.of_nat m + 1)).
  assert (H64 : num = Z.lor 0x40 (Z.of_nat m + 1)) by (do 19 (destruct m as [|m]; [done|]); lia).
  assert (Hlow : Z.land num 0x3f = Z.of_nat m + 1) by (do 19 (destruct m as [|m]; [done|]); lia). assert (Hhi : Z.land num 0x40 = 0x40) by (do 19 (destruct m as [|m]; [done|]); lia).
  rewrite lfn_entry_ok; rewrite ?Hlow, ?Hhi; [|apply piece_len; lia|apply Forall_take, Forall_drop; by apply padded_units|done|unfold num; lia|lia]. cbn [mbind res_bind Z.eqb negb orb].
  replace (Z.to_nat ((Z.of_nat m + 1 - 1) * 13)) with (13 * m)%nat by lia. set (l1 := mk_lfn _ _ _). 
  assert (Hl1 : length (lfn_buf l1) = 256%nat). { cbn [l1 lfn_buf]. rewrite !length_app, length_take, length_drop, length_replicate, piece_len by lia. lia. }
  destruct (parse_low long sum m l1 a es Hu) as (n & Hrun); [lia..|done|]. exists (mk_lfn (take (13 * m) (padded long) ++ drop (13 * m) (lfn_buf l1)) (have_lfn l1) n).
  assert (Eb : take (13 * m) (padded long) ++ drop (13 * m) (lfn_buf l1) = padded long ++ replicate (256 - 13 * pieces long) 0).
  { cbn [lfn_buf l1]. rewrite drop_app_length' by (rewrite length_take, length_replicate; lia). rewrite drop_replicate, app_assoc. f_equal; [|f_equal; lia]. unfold piece. rewrite take_take_drop. apply take_ge. rewrite padded_len. lia. }
  split_and!; [done|done| |].
  - cbn [lfn_buf]. rewrite Eb, length_app, padded_len, length_replicate. lia.
  - cbn [lfn_buf]. rewrite Eb. unfold padded. rewrite <- app_assoc.
    destruct (take (13 * pieces long - length long) (0 :: replicate 12 0xffff)) as [|c r] eqn:Er.
    + cbn [app]. destruct (256 - 13 * pieces long)%nat as [|k] eqn:Ek; [lia|]. cbn [replicate]. rewrite (parse_lfn_ok long 0); [done|done|by left|]. rewrite length_app. cbn [length]. rewrite length_replicate.
      apply (f_equal length) in Er. rewrite length_take in Er. cbn [length] in Er. rewrite length_replicate in Er. lia.
    + cbn [app]. assert (Hlr : length (c :: r) = (13 * pieces long - length long)%nat) by (rewrite <- Er, length_take; cbn [length]; rewrite length_replicate; lia).
      rewrite (parse_lfn_ok long c); [done|done| |rewrite length_app; cbn [length] in *; rewrite length_app, length_replicate; lia].
      left. destruct (13 * pieces long - length long)%nat; [done|]. cbn in Er. by injection Er as <- _.
Qed.
End entries.

(** ** Short names *)
Lemma aget_app_r {A} (p q : list A) i : 0 <= i -> aget (p ++ q) (zlen p + i) = aget q i.
Proof. intros Hi. unfold aget, zlen. rewrite !(proj2 (Z.ltb_ge _ _)) by lia. f_equal. rewrite lookup_app_r by lia. f_equal. lia. Qed.
Lemma unpad_ok b k r : b <> [] -> last b <> Some 32 -> unpad (b ++ replicate k 32 ++ r) (length b + k) = Ok (zlen b).
Proof.
  intros Hne Hlast. induction k as [|k IH] in r |- *.
  - rewrite Nat.add_0_r. destruct (exists_last_or_nil b) as [->|(b' & c & ->)]; [done|]. rewrite last_snoc in Hlast. rewrite length_app, Nat.add_comm. cbn [length Nat.add unpad replicate app].
    rewrite <- app_assoc. cbn [app]. fold (zlen b'). rewrite aget_mid. cbn [mbind res_bind]. destruct (Z.eqb_spec c 32) as [->|_]; [done|]. f_equal. rewrite zlen_snoc. unfold zlen. lia.
  - rewrite Nat.add_succ_r. cbn [unpad]. rewrite replicate_S_end, <- app_assoc. pose proof (IH ([32] ++ r)) as IH'.
    assert (aget (b ++ replicate k 32 ++ [32] ++ r) (Z.of_nat (length b + k)) = Ok 32) as ->. { rewrite app_assoc. cbn [app]. rewrite <- (aget_mid (b ++ replicate k 32) r 32). f_equal. unfold zlen. rewrite length_app, length_replicate. lia. }
    cbn [mbind res_bind Z.eqb Pos.eqb]. done.
Qed.
Lemma parse_ext_ok p ext r : zlen p = 8 -> Forall (fun c => 0x20 < c < 0x80) ext -> (length ext <= 3)%nat ->
  parse_ext 3 (p ++ pad 3 ext ++ r) [0; 0; 0; 0] 0 = Ok (ext ++ replicate (4 - length ext) 0).
Proof.
  intros Hp He Hl. assert (Hget : forall i, 0 <= i -> aget (p ++ pad 3 ext ++ r) (8 + i) = aget (pad 3 ext ++ r) i) by (intros i Hi; rewrite <- Hp; by apply aget_app_r).
  assert (Hch : forall c, 0x20 < c < 0x80 -> (0x20 <? schar c) = true) by (intros c Hc; apply Z.ltb_lt; unfold schar; rewrite Z.mod_small; lia).
  assert (Hsp : (0x20 <? schar 32) = false) by done. cbn [parse_ext]. rewrite !Hget by lia.
  destruct ext as [|c0 [|c1 [|c2 [|]]]]; [| | | |cbn in Hl; lia]; repeat match goal with H : Forall _ (_ :: _) |- _ => inversion H; clear H; subst end;
  repeat first [rewrite Hch by done | rewrite Hsp | progress cbn [mbind res_bind] | match goal with |- context [aget ?l ?i] => let v := eval cbv in (aget l i) in change (aget l i) with v | |- context [aset ?l ?i ?x] => let v := eval cbv in (aset l i x) in change (aset l i x) with v end]; done.
Qed.
Lemma dot_ext B ext rest : (5 <= length rest)%nat -> Forall char_ok B -> Forall (fun c => 0x20 < c < 0x80) ext -> (length ext <= 3)%nat ->
  exists b, (e ← aget (ext ++ replicate (4 - length ext) 0) 0;
    if 0x20 <? schar e then
      buf ← aset (B ++ rest) (zlen B) 46; buf ← aset buf (zlen B + 1) 0; store_at buf (zlen B) (fun b => '(b, _) ← strlcat b (ext ++ replicate (4 - length ext) 0) 5; Ok b)
    else aset (B ++ rest) (zlen B) 0) = Ok b /\ cstr b (B ++ match ext with [] => [] | e => 46 :: e end) /\ length b = length (B ++ rest).
Proof.
  intros Hr HB He Hl. destruct rest as [|x0 [|x1 rest]]; [cbn in Hr; lia..|]. assert (Hc : forall c, 0x20 < c < 0x80 -> (0x20 <? schar c) = true) by (intros c Hc; apply Z.ltb_lt; unfold schar; rewrite Z.mod_small; lia).
  assert (Hext : cstr (ext ++ replicate (4 - length ext) 0) ext). { destruct (4 - length ext)%nat as [|k] eqn:E; [lia|]. exists (replicate k 0). split; [done|]. eapply Forall_impl; [done|]. unfold char_ok. cbn. lia. }
  destruct ext as [|e ext].
  - change (aget ([] ++ replicate (4 - length []) 0) 0) with (Ok 0 : res Z). cbn [mbind res_bind]. change (0x20 <? schar 0) with false. cbv iota. rewrite aset_mid. eexists. split; [done|]. split; [by exists (x1 :: rest); rewrite app_nil_r|rewrite !length_app; done].
  - change (aget ((e :: ext) ++ replicate (4 - length (e :: ext)) 0) 0) with (Ok e : res Z). cbn [mbind res_bind]. rewrite Hc by (by inversion He). rewrite aset_mid. cbn [mbind res_bind].
    rewrite (cons_middle 46), app_assoc. replace (zlen B + 1) with (zlen (B ++ [46])) by (by rewrite zlen_snoc). rewrite aset_mid. cbn [mbind res_bind].
    unfold store_at, padd. replace (Z.to_nat (zlen B)) with (length B) by (unfold zlen; lia). rewrite <- app_assoc, drop_app_length, take_app_length.
    rewrite (strlcat_spec [46] rest _ (e :: ext) 5); [|repeat constructor; lia|done|unfold zlen; cbn [length] in *; rewrite length_app; cbn [length] in *; lia]. cbn [mbind res_bind].
    change (Z.to_nat (5 - 1 - zlen [46])) with 3%nat. rewrite (take_ge (e :: ext)) by done. eexists. split; [done|]. split.
    + eexists. split; [rewrite <- !app_assoc; cbn [app]; done|]. apply Forall_app. split; [done|]. constructor; [unfold char_ok; lia|]. by eapply cstr_chars.
    + rewrite !length_app. cbn [length app]. rewrite length_drop. cbn [length] in *. lia.
Qed.
Lemma short_ok x n : item_wf x -> (13 <= n)%nat -> exists b, fat_parse_short_name (replicate n 0) (short_entry x) = Ok b /\ cstr b (short_name x) /\ length b = n.
Proof.
  intros [_ (Hb & Hbl & Hlast) Hfirst [He Hel] _ _] Hn. destruct (f_base x) as [|c base] eqn:Ebase; [done|].
  set (tail := [f_attr x] ++ f_dates x ++ le16 (f_cluster x / 65536) ++ f_mod x ++ le16 (f_cluster x mod 65536) ++ le32 (f_bytes x)).
  assert (Eentry : short_entry x = pad 8 (c :: base) ++ pad 3 (f_ext x) ++ tail) by (unfold short_entry; by rewrite Ebase).
  assert (H8 : length (pad 8 (c :: base)) = 8%nat) by (unfold pad; rewrite length_app, length_replicate; lia). assert (H3 : length (pad 3 (f_ext x)) = 3%nat) by (unfold pad; rewrite length_app, length_replicate; lia).
  unfold fat_parse_short_name. rewrite Eentry. assert (aget (pad 8 (c :: base) ++ pad 3 (f_ext x) ++ tail) 0 = Ok c) as -> by done. cbn [mbind res_bind].
  destruct (Z.eqb_spec c 0); [lia|]. assert ((0x20 <? schar c) || (c =? 5) = true) as -> by (destruct Hfirst as [Hc| ->]; [apply orb_true_iff; left; apply Z.ltb_lt; unfold schar; rewrite Z.mod_small; lia|done]). cbn [assert mbind res_bind].
  rewrite blit_Ok by (unfold zlen; rewrite ?length_app, ?length_replicate; lia). cbn [mbind res_bind]. change (Z.to_nat 0) with 0%nat. rewrite take_0, drop_0. cbn [app]. change (Z.to_nat (0 + 11)) with 11%nat. change (Z.to_nat 11) with 11%nat.
  rewrite app_assoc, take_app_length' by (rewrite length_app; lia). rewrite drop_replicate.
  rewrite blit_Ok by (unfold zlen; rewrite ?length_app, ?length_replicate; cbn [length]; lia). cbn [mbind res_bind]. change (Z.to_nat (0 + 2)) with 2%nat. change (Z.to_nat (11 + 2)) with 13%nat. change (Z.to_nat 11) with 11%nat. change (Z.to_nat 2) with 2%nat. change (Z.to_nat 0) with 0%nat. rewrite drop_0. cbn [take].
  rewrite take_app_length' by (rewrite length_app; lia). rewrite drop_app_ge, drop_replicate by (rewrite length_app; lia). rewrite length_app, H8, H3.
  set (z := [0; 0] ++ replicate (n - 11 - (13 - (8 + 3))) 0). rewrite <- app_assoc.
  set (c' := if c =? 5 then 0xe5 else c). set (B := c' :: base).
  assert (Efix : forall q, (if c =? 5 then aset (pad 8 (c :: base) ++ q) 0 0xe5 else Ok (pad 8 (c :: base) ++ q)) = Ok (pad 8 B ++ q)) by (intros q; unfold B, c'; by destruct (c =? 5)).
  assert (aget (pad 8 (c :: base) ++ pad 3 (f_ext x) ++ z) 0 = Ok c) as -> by done. cbn [mbind res_bind]. rewrite Efix. cbn [mbind res_bind].
  assert (HB : length B = length (c :: base)) by done. assert (HBok : Forall char_ok B). { inversion Hb; subst. constructor; [|done]. unfold c', char_ok in *. destruct (c =? 5); lia. }
  assert (HBlast : last B <> Some 32). { unfold B, c'. destruct base; [cbn; destruct (Z.eqb_spec c 5); cbn in Hlast; congruence|by cbn in *]. }
  rewrite parse_ext_ok by (try done; unfold pad, zlen; rewrite length_app, length_replicate; lia). cbn [mbind res_bind].
  assert (pad 8 B ++ pad 3 (f_ext x) ++ z = B ++ replicate (8 - length B) 32 ++ pad 3 (f_ext x) ++ z) as -> by (unfold pad at 1; by rewrite <- app_assoc). assert (Hun : unpad (B ++ replicate (8 - length B) 32 ++ pad 3 (f_ext x) ++ z) 8 = Ok (zlen B)). { rewrite <- (unpad_ok B (8 - length B) (pad 3 (f_ext x) ++ z)) by done. f_equal. lia. }
  rewrite Hun. cbn [mbind res_bind]. destruct (dot_ext B (f_ext x) (replicate (8 - length B) 32 ++ pad 3 (f_ext x) ++ z)) as (b & Hrun & Hcs & Hlb); [rewrite !length_app, H3, length_replicate; cbn [length] in *; unfold z; rewrite length_app; cbn; lia|done..|].
  exists b. split; [exact Hrun|]. split; [unfold short_name; rewrite Ebase; clear -Hcs; by destruct (f_ext x)|]. rewrite Hlb, !length_app, H3. unfold z. rewrite length_app, !length_replicate. cbn [length] in *. lia.
Qed.

(** ** Fields of an entry *)
Lemma pad_len n s : (length s <= n)%nat -> length (pad n s) = n.
Proof. intros H. unfold pad. rewrite length_app, length_replicate. lia. Qed.
Lemma le_cluster x : 0 <= x < 2 ^ 32 -> Z.lor (Z.shiftl (x / 65536) 16) (x mod 65536) = x.
Proof.
  intros Hx. apply Z.bits_inj'. intros k Hk. rewrite Z.lor_spec. change 65536 with (2 ^ 16). destruct (Z.lt_ge_cases k 16).
  - rewrite Z.shiftl_spec_low, Z.mod_pow2_bits_low by lia. done.
  - rewrite Z.shiftl_spec, Z.div_pow2_bits, Z.mod_pow2_bits_high by lia. rewrite orb_false_r. f_equal. lia.
Qed.
Lemma get16_mid p v q : 0 <= v < 65536 -> get16 (p ++ le16 v ++ q) (zlen p) = Ok v.
Proof.
  intros Hv. unfold get16. rewrite <- (Z.add_0_r (zlen p)) at 1. rewrite !aget_app_r by lia. change (aget (le16 v ++ q) 0) with (Ok (v mod 256)). change (aget (le16 v ++ q) 1) with (Ok (v / 256 mod 256)). cbn [mbind res_bind]. f_equal.
  pose proof (Z.div_mod v 256 ltac:(lia)). rewrite (Z.mod_small (v / 256)) by (split; [apply Z.div_pos; lia|apply Z.div_lt_upper_bound; lia]). lia.
Qed.
Section fields.
Context (x : fat_item) (Hx : item_wf x).

Lemma entry_parts : short_entry x = (pad 8 (f_base x) ++ pad 3 (f_ext x)) ++ f_attr x :: (f_dates x ++ le16 (f_cluster x / 65536) ++ f_mod x ++ le16 (f_cluster x mod 65536) ++ le32 (f_bytes x)) /\
  zlen (pad 8 (f_base x) ++ pad 3 (f_ext x)) = 11.
Proof using Hx. destruct Hx as [_ (_ & Hb & _) _ [_ He] _ _]. split; [unfold short_entry; by rewrite <- app_assoc|]. unfold zlen. rewrite length_app, !pad_len by done. done. Qed.
Lemma entry_len32 : length (short_entry x) = 32%nat.
Proof using Hx. destruct entry_parts as [-> Hz]. destruct Hx as [_ _ _ _ _ (Hd & Hm & _)]. unfold zlen in Hz. rewrite length_app. replace (length (pad 8 (f_base x) ++ pad 3 (f_ext x))) with 11%nat by lia. cbn [length]. rewrite !length_app, Hd, Hm. cbn [length le16 le32]. lia. Qed.
Lemma entry_first : exists c, aget (short_entry x) 0 = Ok c /\ c <> 0 /\ c <> 0xe5.
Proof using Hx. destruct Hx as [_ _ Hf _ _ _]. unfold short_entry. destruct (f_base x) as [|c b]; [done|]. exists c. split; [done|lia]. Qed.
Lemma entry_attr : aget (short_entry x) 11 = Ok (f_attr x).
Proof using Hx. destruct entry_parts as [-> <-]. apply aget_mid. Qed.
Lemma entry_cluster : direntry_cluster (short_entry x) = Ok (f_cluster x).
Proof using Hx.
  pose proof entry_parts as [E Hz]. destruct Hx as [_ _ _ _ _ (Hd & Hm & Hc & _)]. unfold direntry_cluster.
  assert (get16 (short_entry x) 20 = Ok (f_cluster x / 65536)) as ->.
  { pose proof (get16_mid ((pad 8 (f_base x) ++ pad 3 (f_ext x)) ++ f_attr x :: f_dates x) (f_cluster x / 65536) (f_mod x ++ le16 (f_cluster x mod 65536) ++ le32 (f_bytes x))) as H. rewrite <- app_assoc in H. cbn [app] in H.
    rewrite E, <- H by (split; [apply Z.div_pos; lia|apply Z.div_lt_upper_bound; lia]). f_equal. rewrite zlen_app, zlen_cons, Hz. unfold zlen. lia. }
  cbn [mbind res_bind].
  assert (get16 (short_entry x) 26 = Ok (f_cluster x mod 65536)) as ->.
  { set (pre := (pad 8 (f_base x) ++ pad 3 (f_ext x)) ++ f_attr x :: f_dates x ++ le16 (f_cluster x / 65536) ++ f_mod x).
    assert (short_entry x = pre ++ le16 (f_cluster x mod 65536) ++ le32 (f_bytes x)) as -> by (rewrite E; unfold pre; repeat (rewrite <- ?app_assoc; cbn [app]); done).
    rewrite <- (get16_mid pre (f_cluster x mod 65536) (le32 (f_bytes x))) by (apply Z.mod_pos_bound; lia). f_equal. unfold pre. rewrite zlen_app, Hz, zlen_cons, !zlen_app. unfold zlen. rewrite Hd, Hm. done. }
  cbn [mbind res_bind]. by rewrite le_cluster by lia.
Qed.
End fields.

(** ** Visiting the files *)
(** The long name as it is passed to the callback. *)
Definition long_arg (x : fat_item) : option (list Z) :=
  match f_long x with [] => None | l => Some ((ascii <$> l) ++ replicate (256 - length l) 0) end.
Section visit.
Context {A : Type} (callback : list Z -> option (list Z) -> A -> res (bool * A)).

(** The calls of the callback, in order; the result says whether one with a long name stopped them. *)
Fixpoint visit (items : list item) (a : A) : res (bool * A) :=
  match items with
  | [] => Ok (false, a)
  | File x :: items =>
      '(go, a) ← callback (short_entry x) (long_arg x) a;
      if go : bool then visit items a else Ok (match f_long x with [] => false | _ => true end, a)
  | _ :: items => visit items a
  end.
Definition dir_end (es : list (list Z)) : Prop := match es with [] => True | e :: _ => aget e 0 = Ok 0 end.

Lemma parse_file x l a es : item_wf x -> have_lfn l = false -> length (lfn_buf l) = 256%nat ->
  exists l1 l2, parse_list callback (item_entries (File x) ++ es) l a = ('(go, a) ← callback (short_entry x) (long_arg x) a; if go : bool then parse_list callback es l2 a else Ok (l1, a)) /\
    have_lfn l1 = (match f_long x with [] => false | _ => true end) /\ have_lfn l2 = false /\ length (lfn_buf l1) = 256%nat /\ length (lfn_buf l2) = 256%nat.
Proof.
  intros Hx Hl Hlen.
  assert (Hpre : exists l1, parse_list callback (item_entries (File x) ++ es) l a = parse_list callback (short_entry x :: es) l1 a /\ have_lfn l1 = (match f_long x with [] => false | _ => true end) /\ length (lfn_buf l1) = 256%nat /\
    (if have_lfn l1 then n ← parse_lfn (lfn_buf l1) (replicate 256 0); Ok (Some n) else Ok None) = Ok (long_arg x)).
  { unfold long_arg. cbn [item_entries]. rewrite <- app_assoc. cbn [app]. destruct (iw_long x Hx) as [Hu Hn]. destruct (f_long x) as [|u us] eqn:E.
    - exists l. cbn. rewrite Hl. done.
    - destruct (parse_long callback (u :: us) (f_sum x) l a (short_entry x :: es) Hu) as (l1 & -> & Hh & Hl1 & Hp); [done..|]. exists l1. split; [done|]. split; [done|]. split; [done|]. rewrite Hh, Hp. done. }
  destruct Hpre as (l1 & -> & Hh & Hl1 & Hname). exists l1, (mk_lfn (lfn_buf l1) false (lfn_entry_num l1)). split_and!; try done.
  cbn [parse_list]. destruct (entry_first x Hx) as (c & Hc & Hc0 & Hce5). rewrite Hc. cbn [mbind res_bind]. rewrite (proj2 (Z.eqb_neq c 0) Hc0). unfold parse_direntry. rewrite Hc, (entry_attr x Hx). cbn [mbind res_bind].
  rewrite (proj2 (Z.eqb_neq _ _) Hce5). destruct (iw_attr x Hx) as [_ Ha]. rewrite Ha. cbn [Z.eqb negb andb]. destruct (Z.eqb_spec (f_attr x) ATTRIB_LFN) as [E|_]; [by rewrite E in Ha|]. rewrite Hname. cbn [mbind res_bind].
  destruct (callback (short_entry x) (long_arg x) a) as [[go a']| | |]; cbn [mbind res_bind]; [|done..]. by destruct go.
Qed.
Lemma parse_skip e l a es : length e = 32%nat -> (exists c at_, aget e 0 = Ok c /\ c <> 0 /\ aget e 11 = Ok at_ /\ (c = 0xe5 \/ (Z.land at_ ATTRIB_VOLUME_ID <> 0 /\ at_ <> ATTRIB_LFN))) ->
  parse_list callback (e :: es) l a = parse_list callback es l a.
Proof.
  intros _ (c & at_ & Hc & Hc0 & Ha & Hcase). cbn [parse_list]. rewrite Hc. cbn [mbind res_bind]. rewrite (proj2 (Z.eqb_neq _ _) Hc0). unfold parse_direntry. rewrite Hc, Ha. cbn [mbind res_bind].
  destruct (Z.eqb_spec c 0xe5) as [_|N]; [done|]. destruct Hcase as [?|[H1 H2]]; [done|]. by rewrite (proj2 (Z.eqb_neq _ _) H1), (proj2 (Z.eqb_neq _ _) H2).
Qed.
Lemma parse_items items : Forall item_ok items -> forall l a es b a', have_lfn l = false -> length (lfn_buf l) = 256%nat -> dir_end es -> visit items a = Ok (b, a') ->
  exists l', parse_list callback (concat (item_entries <$> items) ++ es) l a = Ok (l', a') /\ have_lfn l' = b /\ length (lfn_buf l') = 256%nat.
Proof.
  induction 1 as [|i items Hi _ IH]; intros l a es b a' Hl Hlen He Hv.
  - injection Hv as <- <-. cbn [fmap list_fmap concat app]. exists l. destruct es as [|e es]; [done|]. cbn [parse_list]. cbn [dir_end] in He. rewrite He. done.
  - rewrite fmap_cons. cbn [concat]. rewrite <- app_assoc. destruct i as [e|e|x]; cbn [visit] in Hv.
    + cbn [item_entries app]. rewrite parse_skip; [by eapply IH|apply Hi|]. destruct Hi as [Hlen32 Hh]. destruct e as [|c e]; [done|]. injection Hh as ->. destruct (aget_is_Ok (0xe5 :: e) 11) as [at_ Ha]; [unfold zlen; lia|]. exists 0xe5, at_. split_and!; [done|lia|apply Ha|by left].
    + cbn [item_entries app]. rewrite parse_skip; [by eapply IH|apply Hi|]. destruct Hi as (Hlen32 & (c & Hh & Hc) & at_ & Ha & H1 & H2). destruct e as [|c' e]; [done|]. injection Hh as ->. exists c, at_. split_and!; [done|exact Hc|apply (proj2 (deref_Ok _ _) Ha)|by right].
    + destruct (parse_file x l a (concat (item_entries <$> items) ++ es) Hi Hl Hlen) as (l1 & l2 & -> & H1 & H2 & H3 & H4). destruct (callback (short_entry x) (long_arg x) a) as [[go a1]| | |]; cbn [mbind res_bind] in *; try done.
      destruct go; [by eapply IH|]. injection Hv as <- <-. by exists l1.
Qed.
End visit.
