(* ===== verification/FatTree.v ===== *)
(** * FAT32: directories and paths

    What a directory on disk holds ([is_fat_dir]), what [fat_readdir] and [fat_getdents] deliver of it, and the
    walk of a path from the root. *)
From S2P Require Import Prelude CString Path Net NetSum NetSend Ata Ext2 Ext2File Ext2Dir Ext2Dents Time Fd DirBuf Fat FatRead FatDir FatEntries.
From stdpp Require Import strings.
#[local] Open Scope Z_scope.

(** ** Directories on disk *)
(** The chain [cs] ends in the FAT. *)
Definition chain_ends (part : fat32_partition) (cs : list Z) : Prop :=
  chain_of part cs /\ exists c n, last cs = Some c /\ fat_next_cluster part c = Ok n /\ 0x0ffffff8 <= n.
Definition cluster_entries (part : fat32_partition) (c : Z) : list (list Z) :=
  (fun i => take 32 (drop (32 * i) (cluster_data part c))) <$> seq 0 (Z.to_nat (cluster_size part) / 32).
Definition dir_entries (part : fat32_partition) (cs : list Z) : list (list Z) := concat (cluster_entries part <$> cs).

(** The directory at cluster [ino] holds [items], in less than [fuel] entries. *)
Definition is_fat_dir (part : fat32_partition) (fuel : nat) (ino : Z) (items : list item) : Prop :=
  exists cs es, chain_ends part cs /\ head cs = Some ino /\ dir_entries part cs = concat (item_entries <$> items) ++ es /\ dir_end es /\ Forall item_ok items /\ (length (dir_entries part cs) < fuel)%nat.

Section chain.
Context (part : fat32_partition) (a : nat) (Hwf : fat_wf part a).
Let S := cluster_size part.
Context {A : Type} (callback : list Z -> option (list Z) -> A -> res (bool * A)).

Lemma entries_size : exists k, Z.to_nat S = (32 * k)%nat /\ (0 < k)%nat /\ (Z.to_nat S / 32 = k)%nat.
Proof using Hwf.
  destruct (cluster_size_pos part a Hwf) as (HS & HS2 & Hp). exists (16 * Z.to_nat (sectors_per_cluster part))%nat. assert (E : Z.to_nat S = (32 * (16 * Z.to_nat (sectors_per_cluster part)))%nat) by (unfold S; lia).
  split; [done|]. split; [lia|]. rewrite E, Nat.mul_comm. by apply Nat.div_mul.
Qed.
Lemma cluster_entries_len c : length (cluster_entries part c) = (Z.to_nat S / 32)%nat.
Proof. unfold cluster_entries. rewrite length_fmap, length_seq. done. Qed.
Lemma cluster_entry c (j : nat) : cluster_ok part c -> (j < Z.to_nat S / 32)%nat ->
  exists e, cluster_entries part c !! j = Some e /\ length e = 32%nat /\ bytes (cluster_data part c) (32 * Z.of_nat j) 32 = Ok e.
Proof using Hwf.
  intros Hc Hj. destruct entries_size as (k & Ek & Hk0 & Hk). rewrite Hk in Hj. pose proof (cluster_data_len part a Hwf c Hc) as Hl. fold S in Hl.
  exists (take 32 (drop (32 * j) (cluster_data part c))). split; [unfold cluster_entries; fold S; rewrite list_lookup_fmap, lookup_seq_lt by lia; done|]. split; [rewrite length_take, length_drop; lia|].
  unfold bytes. unfold zlen. rewrite !(proj2 (Z.leb_le _ _)) by lia. cbn [andb]. do 2 f_equal. f_equal. lia.
Qed.
Lemma chain_tail c c' cs : chain_ends part (c :: c' :: cs) -> chain_ends part (c' :: cs) /\ fat_next_cluster part c = Ok c' /\ cluster_ok part c'.
Proof. intros [(Hc & (n & Hn & ->) & Hrest) Hlast]. split; [split; [done|exact Hlast]|]. split; [done|apply Hrest]. Qed.
(** Reading the clusters of a chain one after the other gives their entries. *)
Lemma parse_chain fuel : forall cs c j l st, chain_ends part (c :: cs) -> (j < Z.to_nat S / 32)%nat -> (length (cluster_entries part c) - j + length (dir_entries part cs) < fuel)%nat ->
  parse_entries callback fuel part (cluster_data part c) (32 * Z.of_nat j) c l st = parse_list callback (drop j (cluster_entries part c) ++ dir_entries part cs) l st.
Proof using Hwf.
  pose proof entries_size as (k & Ek & Hk0 & Hk). induction fuel as [|fuel IH]; intros cs c j l st Hch Hj Hf; [lia|].
  assert (Hok : cluster_ok part c) by (destruct Hch as [[? _] _]; done). destruct (cluster_entry c j Hok Hj) as (e & He & Hel & Hb).
  rewrite (drop_S _ e j He). cbn [parse_entries app parse_list]. rewrite Hb. cbn [mbind res_bind]. destruct (aget e 0) as [x| | |]; cbn [mbind res_bind]; [|done..]. destruct (x =? 0); [done|].
  destruct (parse_direntry callback e l st) as [[[stop l1] st1]| | |]; cbn [mbind res_bind]; [|done..]. destruct stop; [done|]. fold S. rewrite cluster_entries_len in Hf.
  destruct (Z.leb_spec S (32 * Z.of_nat j + 32)) as [Hge|Hlt].
  - rewrite drop_ge by (rewrite cluster_entries_len; lia). cbn [app]. unfold fat_read_next_cluster. destruct cs as [|c' cs].
    + destruct Hch as [_ (cl & n & Hlast & Hn & Hn8)]. injection Hlast as <-. rewrite Hn. cbn [mbind res_bind]. destruct (Z.eqb_spec n 0x0ffffff7); [lia|]. by rewrite (proj2 (Z.leb_le _ _) Hn8).
    + destruct (chain_tail _ _ _ Hch) as (Hch' & Hn & Hok'). rewrite Hn. cbn [mbind res_bind]. pose proof Hok' as [Hr _]. destruct (Z.eqb_spec c' 0x0ffffff7); [lia|]. rewrite (proj2 (Z.leb_gt _ _)), (proj2 (Z.leb_le _ _)), (proj2 (Z.ltb_lt _ _)) by lia. cbn [andb assert mbind res_bind].
      unfold fat_read_cluster. rewrite (read_one part a Hwf c' _ Hok') by (unfold zlen; rewrite (cluster_data_len part a Hwf c Hok); lia). cbn [mbind res_bind]. rewrite drop_ge by (rewrite (cluster_data_len part a Hwf c Hok); done). rewrite app_nil_r.
      change 0 with (32 * Z.of_nat 0). rewrite (IH cs); [by rewrite drop_0|done|lia|]. unfold dir_entries in *. rewrite fmap_cons in Hf. cbn [concat] in Hf. rewrite length_app, cluster_entries_len in Hf. rewrite cluster_entries_len. lia.
  - replace (32 * Z.of_nat j + 32) with (32 * Z.of_nat (Datatypes.S j)) by lia. apply IH; [done|lia|rewrite cluster_entries_len; lia].
Qed.
(** The directory read is visited file by file. *)
Lemma parse_dir_visit d items fuel l st b st' : is_fat_dir part fuel (db_ino d) items -> db_buf d = None -> db_pos d = 0 -> db_len d = 0 -> have_lfn l = false -> length (lfn_buf l) = 256%nat ->
  visit callback items st = Ok (b, st') -> exists l', fat_parse_dir callback fuel part d l st = Ok (l', st') /\ have_lfn l' = b /\ length (lfn_buf l') = 256%nat.
Proof using Hwf.
  intros (cs & es & Hch & Hh & Hes & Hend & Hok & Hfuel) Hb Hp Hl Hhl Hlb Hv. pose proof entries_size as (k & Ek & Hk0 & Hk). destruct cs as [|c cs]; [done|]. injection Hh as Hc. assert (Hcok : cluster_ok part c) by (destruct Hch as [[? _] _]; done).
  unfold fat_parse_dir. rewrite Hb, Hp, Hl, <- Hc, (proj2 (Z.leb_le 2 c)) by (destruct Hcok; lia). cbn [assert Z.eqb mbind res_bind]. unfold fat_read_cluster. fold S.
  rewrite (read_one part a Hwf c _ Hcok) by (unfold zlen; rewrite length_replicate; pose proof (cluster_size_pos part a Hwf); lia). cbn [mbind res_bind]. rewrite drop_ge by (rewrite length_replicate; lia). rewrite app_nil_r.
  change 0 with (32 * Z.of_nat 0). rewrite (parse_chain fuel cs); [|done|lia|unfold dir_entries in *; rewrite fmap_cons in Hfuel; cbn [concat] in Hfuel; rewrite length_app in Hfuel; lia].
  rewrite drop_0. change (cluster_entries part c ++ dir_entries part cs) with (dir_entries part (c :: cs)). rewrite Hes. by apply parse_items.
Qed.
End chain.

(** ** Listing *)
Definition files (items : list item) : list fat_item := omap (fun i => match i with File x => Some x | _ => None end) items.
Definition is_dir_item (x : fat_item) : bool := negb (Z.land (f_attr x) ATTRIB_DIR =? 0).
Definition item_ino (part : fat32_partition) (x : fat_item) : Z :=
  if (f_cluster x =? 0) && bool_decide (short_name x = chars "..") then root_dir_first_cluster part else f_cluster x.
Definition dirent_of (part : fat32_partition) (x : fat_item) : dirent :=
  mk_dirent (item_ino part x) (fat_dev part) (dent_reclen (zlen (item_name x))) (if is_dir_item x then DT_DIR else DT_REG) (zlen (item_name x)) (item_name x).
(** The root directory, which has no entries for them, gets [.] and [..]. *)
Definition dots (part : fat32_partition) : list dirent :=
  let root := root_dir_first_cluster part in [mk_dirent root (fat_dev part) 16 DT_DIR 1 (chars "."); mk_dirent root (fat_dev part) 16 DT_DIR 2 (chars "..")].
Definition add_dirent (part : fat32_partition) (ino : Z) (l : list dirent) (x : fat_item) : list dirent :=
  (if (match l with [] => true | _ => false end) && (ino =? root_dir_first_cluster part) then dots part else l) ++ [dirent_of part x].
Definition listing (part : fat32_partition) (ino : Z) (items : list item) : list dirent :=
  match files items with
  | [] => []
  | fs => (if ino =? root_dir_first_cluster part then dots part else []) ++ (dirent_of part <$> fs)
  end.
Lemma listing_fold part ino items : foldl (add_dirent part ino) [] (files items) = listing part ino items.
Proof.
  unfold listing. assert (H : forall fs l, l <> [] -> foldl (add_dirent part ino) l fs = l ++ (dirent_of part <$> fs)).
  { induction fs as [|x fs IH]; intros l Hl; cbn [foldl]; [by rewrite app_nil_r|]. destruct l as [|y l]; [done|]. unfold add_dirent at 2. cbn [andb]. rewrite IH by done. by rewrite fmap_cons, <- app_assoc. }
  destruct (files items) as [|x fs]; [done|]. cbn [foldl]. unfold add_dirent at 2. cbn [andb]. rewrite H by (by destruct (if ino =? _ then _ else _)). by rewrite fmap_cons, <- app_assoc.
Qed.
Lemma listing_len part ino items : (length (listing part ino items) <= 2 + length (concat (item_entries <$> items)))%nat.
Proof.
  assert (Hf : (length (files items) <= length (concat (item_entries <$> items)))%nat).
  { induction items as [|i items IH]; [done|]. rewrite fmap_cons. cbn [concat]. rewrite length_app. destruct i as [e|e|x]; cbn [item_entries]; [change (files (_ :: items)) with (files items); lia..|]. change (files (File x :: items)) with (x :: files items). rewrite length_app. cbn [length]. lia. }
  unfold listing. destruct (files items) as [|x fs] eqn:E; [cbn; lia|]. rewrite length_app, length_fmap. destruct (ino =? _); cbn [dots length] in *; lia.
Qed.

Lemma ascii_ok u : unit_ok u -> char_ok (ascii u).
Proof. unfold unit_ok, char_ok, ascii. destruct (Z.ltb_spec u 128); lia. Qed.
Lemma item_name_ok x : item_wf x -> Forall char_ok (item_name x) /\ zlen (item_name x) <= 247.
Proof.
  intros Hx. pose proof Hx as [[Hu Hn] _ _ _ _ _]. unfold item_name. destruct (f_long x) as [|u us] eqn:E.
  - destruct (short_ok x 13 Hx) as (b & _ & Hcs & Hl); [lia|]. split; [by eapply cstr_chars|]. apply cstr_len in Hcs. unfold zlen. lia.
  - split; [|unfold zlen; rewrite length_fmap; lia]. apply Forall_fmap. eapply Forall_impl; [done|]. apply ascii_ok.
Qed.
Lemma dirent_of_ok part x : item_wf x -> dent_ok (dirent_of part x).
Proof. intros [_ Hn]%item_name_ok. pose proof (zlen_nonneg (item_name x)). apply dent_reclen_ok. lia. Qed.
(** The buffer has the entries [l]; each of them could have had the greatest length. *)
Record filled (ino dev : Z) (d : dirbuf) (l : list dirent) : Prop := {
  fl_ids : db_ino d = ino /\ db_dev d = dev /\ db_pos d = 0;
  fl_len : db_len d = dents_len l;
  fl_ok : Forall dent_ok l;
  fl_buf : match l with [] => db_buf d = None /\ db_buflen d = 0 | _ => db_buf d = Some l /\ forall k, (k < length l)%nat -> dents_len (take k l) + DIRENT_SIZE < db_buflen d end
}.
(** What the callback does with the name. *)
Lemma callback_name x : item_wf x -> exists b, fat_parse_short_name (replicate 13 0) (short_entry x) = Ok b /\ cstr b (short_name x) /\
  cstr (match long_arg x with Some n => n | None => b end) (item_name x).
Proof.
  intros Hx. destruct (short_ok x 13 Hx) as (b & Hb & Hcs & _); [lia|]. exists b. split; [done|]. split; [done|]. unfold long_arg, item_name. pose proof Hx as [[Hu Hn] _ _ _ _ _]. destruct (f_long x) as [|u us] eqn:E; [done|].
  destruct (256 - length (u :: us))%nat as [|k] eqn:Ek; [lia|]. exists (replicate k 0). split; [done|]. apply Forall_fmap. eapply Forall_impl; [done|]. apply ascii_ok.
Qed.

(** The room for the next entry: the buffer grows when one of the greatest length would not fit. *)
Lemma room_ok l B : Forall dent_ok l -> l <> [] -> (forall k, (k < length l)%nat -> dents_len (take k l) + DIRENT_SIZE < B) ->
  let B' := if B <=? dents_len l + DIRENT_SIZE then B + 2 * DIRENT_SIZE else B in B <= B' /\ dents_len l + DIRENT_SIZE < B'.
Proof.
  intros Hl Hne HB B'. destruct (exists_last_or_nil l) as [->|(l' & x & ->)]; [done|]. apply Forall_app in Hl as [Hl' Hx]. assert (Hk : (length l' < length (l' ++ [x]))%nat) by (rewrite length_app; cbn; lia). specialize (HB _ Hk). rewrite take_app_length in HB.
  inversion Hx as [|? ? [Hr _] _]; subst. assert (Et : dents_len (l' ++ [x]) = dents_len l' + d_reclen x) by (rewrite dents_len_app; cbn; lia). assert (0 < DIRENT_SIZE) by done. unfold B'. clear B'. rewrite Et in *. destruct (Z.leb_spec B (dents_len l' + d_reclen x + DIRENT_SIZE)); lia.
Qed.
Section listing.
Context (part : fat32_partition).

Definition fits (l : list dirent) (B : Z) : Prop := forall k, (k <= length l)%nat -> dents_len (take k l) + DIRENT_SIZE < B.
Lemma put_filled ino dev l x B : Forall dent_ok l -> fits l B -> dent_ok x ->
  filled ino dev (mk_dirbuf ino dev (Some (l ++ [x])) 0 (dents_len l + d_reclen x) B) (l ++ [x]).
Proof.
  intros Hok Hfit Hx. constructor; [done| | |].
  - cbn. rewrite dents_len_app. cbn. lia.
  - by apply Forall_snoc.
  - assert (H : Some (l ++ [x]) = Some (l ++ [x]) /\ forall k, (k < length (l ++ [x]))%nat -> dents_len (take k (l ++ [x])) + DIRENT_SIZE < B).
    { split; [done|]. intros k Hk. rewrite length_app in Hk. cbn in Hk. rewrite take_app_le by lia. apply Hfit. lia. }
    destruct l; exact H.
Qed.
(** The buffer before an entry is written: allocated, with the entries of the root, and grown. *)
Lemma prepared ino dev d l : filled ino dev d l ->
  let d1 := if db_buflen d =? 0 then mk_dirbuf (db_ino d) (db_dev d) (Some []) (db_pos d) (db_len d) (DIRENT_SIZE * 2) else d in
  let root := root_dir_first_cluster part in
  let d2 := if (db_len d1 =? 0) && (db_ino d1 =? root) then put_dirent root (fat_dev part) DT_DIR 16 (chars "..") (put_dirent root (fat_dev part) DT_DIR 16 (chars ".") d1) else d1 in
  let L := if (match l with [] => true | _ => false end) && (ino =? root) then dots part else l in
  exists B, (if db_buflen d2 <=? db_len d2 + DIRENT_SIZE then mk_dirbuf (db_ino d2) (db_dev d2) (db_buf d2) (db_pos d2) (db_len d2) (db_buflen d2 + 2 * DIRENT_SIZE) else d2) = mk_dirbuf ino dev (Some L) 0 (dents_len L) B /\
    Forall dent_ok L /\ fits L B.
Proof.
  intros [(Hi & Hd & Hp) Hlen Hok Hbuf]. destruct d as [i v b p n B]. cbn in *. subst i v p n. destruct l as [|y l].
  - destruct Hbuf as [-> ->]. cbn [Z.eqb]. cbn. destruct (Z.eqb_spec ino (root_dir_first_cluster part)); cbn.
    + exists (DIRENT_SIZE * 2). split; [done|]. split; [repeat constructor; done|]. intros [|[|[|k]]] Hk; [done..|cbn in Hk; lia].
    + exists (DIRENT_SIZE * 2). split; [done|]. split; [done|]. intros [|k] Hk; [done|cbn in Hk; lia].
  - destruct Hbuf as [-> HB]. pose proof (HB 0%nat ltac:(cbn; lia)) as HB0. cbn [take dents_len foldr] in HB0. assert (0 < DIRENT_SIZE) by done. rewrite (proj2 (Z.eqb_neq B 0)) by lia. cbn [db_len db_ino db_buflen db_dev db_pos db_buf].
    assert (Hpos : 0 < dents_len (y :: l)) by (inversion Hok as [|? ? [? _] Hl]; subst; pose proof (dents_len_nonneg l Hl); cbn; unfold dents_len in *; lia).
    rewrite (proj2 (Z.eqb_neq (dents_len (y :: l)) 0)) by lia. cbn [andb db_len db_ino db_buflen db_dev db_pos db_buf]. destruct (room_ok (y :: l) B Hok) as [H1 H2]; [done|done|].
    set (B' := if B <=? dents_len (y :: l) + DIRENT_SIZE then B + 2 * DIRENT_SIZE else B) in *. exists B'. split; [unfold B'; by destruct (B <=? dents_len (y :: l) + DIRENT_SIZE)|]. split; [done|].
    intros k Hk. destruct (decide (k = length (y :: l))) as [->|]; [by rewrite take_ge|]. pose proof (HB k ltac:(cbn in *; lia)). lia.
Qed.
(** An entry is appended to the buffer. *)
Lemma callback_step ino dev d l x : item_wf x -> filled ino dev d l ->
  exists d', fat_callback_create_dentries part (short_entry x) (long_arg x) d = Ok (true, d') /\ filled ino dev d' (add_dirent part ino l x).
Proof.
  intros Hx Hf. pose proof (dirent_of_ok part x Hx) as Hdx. destruct (callback_name x Hx) as (b & Hb & Hcs & Hname). destruct (item_name_ok x Hx) as [Hchars Hnl]. pose proof (zlen_nonneg (item_name x)) as Hn0.
  unfold fat_callback_create_dentries. set (d1 := if db_buflen d =? 0 then _ else _). set (d2 := if (db_len d1 =? 0) && _ then _ else _). set (d3 := if db_buflen d2 <=? _ then _ else _).
  rewrite (entry_cluster x Hx), Hb, (entry_attr x Hx). cbn [mbind res_bind].
  assert (Hdots : (if f_cluster x =? 0 then c ← strcmp b (lit ".."); Ok (c =? 0) else Ok false) = Ok ((f_cluster x =? 0) && bool_decide (short_name x = chars ".."))).
  { destruct (f_cluster x =? 0); [|done]. destruct (strcmp_is b (lit "..") (short_name x) (chars "..") Hcs) as (c & -> & Hc); [by apply lit_check|]. cbn [mbind res_bind]. by rewrite Hc. }
  rewrite Hdots. cbn [mbind res_bind]. rewrite (strlcpy_spec _ _ (item_name x) MAXNAMLEN Hname) by (unfold MAXNAMLEN, zlen; rewrite length_replicate; lia). cbn [mbind res_bind].
  rewrite (take_ge (item_name x)) by (unfold MAXNAMLEN, zlen in *; lia). rewrite (read_str_spec _ (item_name x)) by (eexists; split; done). cbn [mbind res_bind].
  assert (u8 (zlen (item_name x)) = zlen (item_name x)) as Eu by (apply Z.mod_small; lia). rewrite Eu. rewrite (proj2 (Z.leb_le _ _)) by (apply dent_reclen_ok; lia). cbn [assert mbind res_bind]. eexists. split; [done|].
  destruct (prepared ino dev d l Hf) as (B & Hd3 & Hok & Hfit). unfold d3, d2, d1. rewrite Hd3. unfold put_dirent. rewrite Eu. exact (put_filled ino dev _ (dirent_of part x) B Hok Hfit Hdx).
Qed.
Lemma visit_fill ino dev items : Forall item_ok items -> forall d l, filled ino dev d l ->
  exists d', visit (fat_callback_create_dentries part) items d = Ok (false, d') /\ filled ino dev d' (foldl (add_dirent part ino) l (files items)).
Proof.
  induction 1 as [|i items Hi _ IH]; intros d l Hf; [by exists d|]. destruct i as [e|e|x]; cbn [visit]; try by apply IH.
  destruct (callback_step ino dev d l x Hi Hf) as (d1 & -> & Hf1). cbn [mbind res_bind]. destruct (IH d1 _ Hf1) as (d' & Hrun & Hf'). by exists d'.
Qed.
(** Nothing collected of a long name. *)
Definition lfn_clean (l : lfn_state) : Prop := have_lfn l = false /\ length (lfn_buf l) = 256%nat.

Lemma filled_reading ino dev d l : filled ino dev d l -> l <> [] -> reading d l 0 /\ slack (db_buflen d) l.
Proof. intros [(_ & _ & Hp) Hlen Hok Hbuf] Hne. destruct l as [|y l]; [done|]. destruct Hbuf as [Hb HB]. split; [|exact HB]. split_and!; try done. by apply slack_len. Qed.
End listing.

Section dir.
Context (part : fat32_partition) (a : nat) (Hwf : fat_wf part a) (fuel : nat) (dev : Z).
Definition new_dir (ino : Z) : dirbuf := mk_dirbuf ino dev None 0 0 0.

Lemma fat_fill_ok ino items l : is_fat_dir part fuel ino items -> lfn_clean l ->
  exists d' l', fat_fill fuel part (new_dir ino) l = Ok (d', l') /\ filled ino dev d' (listing part ino items) /\ lfn_clean l'.
Proof using Hwf.
  intros Hdir [Hl Hlb]. assert (Hf : filled ino dev (new_dir ino) []) by (constructor; done). assert (Hok : Forall item_ok items) by (by destruct Hdir as (cs & es & _ & _ & _ & _ & ? & _)).
  destruct (visit_fill part ino dev items Hok (new_dir ino) [] Hf) as (d' & Hv & Hf'). rewrite listing_fold in Hf'. destruct (parse_dir_visit part a Hwf (fat_callback_create_dentries part) (new_dir ino) items fuel l (new_dir ino) false d') as (l' & Hrun & Hh & Hlen); [done..|].
  unfold fat_fill. cbn [new_dir db_buf]. fold (new_dir ino). rewrite Hrun. cbn [mbind res_bind]. by exists d', l'.
Qed.
(** Repeated calls of [fat_readdir] give the entries of [es] and then NULL. *)
Fixpoint delivers (d : dirbuf) (l : lfn_state) (es : list dirent) : Prop :=
  match es with
  | [] => exists d' l', fat_readdir fuel part d l = Ok (None, d', l') /\ lfn_clean l'
  | x :: es => exists d' l', fat_readdir fuel part d l = Ok (Some x, d', l') /\ lfn_clean l' /\ delivers d' l' es
  end.
Lemma reading_delivers es l : lfn_clean l -> forall n k d, (n = length es - k)%nat -> (k <= length es)%nat -> reading d es k -> slack (db_buflen d) es -> delivers d l (drop k es).
Proof.
  intros Hl. induction n as [|n IH]; intros k d Hn Hk Hr Hsl.
  - assert (k = length es) as -> by lia. rewrite drop_all. pose proof (reading_end d es Hr) as [He Hpos]. exists d, l. split; [|done]. unfold fat_readdir. rewrite He, Z.leb_refl, (proj2 (Z.eqb_neq _ _)) by lia. cbn [negb andb]. by rewrite Z.eqb_refl.
  - destruct (lookup_lt_is_Some_2 es k) as [x Hx]; [lia|]. rewrite (drop_S es x k Hx). pose proof (reading_len d es k Hr ltac:(lia)) as (Hlt & _ & _). destruct (take_dirent_ok d es k x Hr Hsl Hx) as (d' & Ht & Hr' & Eb).
    exists d', l. split; [|split; [done|apply IH; try (done || lia); by rewrite Eb]]. unfold fat_readdir. rewrite (proj2 (Z.leb_gt _ _)), andb_false_r by lia. unfold fat_fill. pose proof Hr as (Hb & _). rewrite Hb. cbn [mbind res_bind]. rewrite Hb, Ht. done.
Qed.
Lemma dir_delivers ino items l : is_fat_dir part fuel ino items -> lfn_clean l -> delivers (new_dir ino) l (listing part ino items).
Proof using Hwf.
  intros Hdir Hl. destruct (fat_fill_ok ino items l Hdir Hl) as (d & l' & Hfill & Hf & Hl'). destruct (listing part ino items) as [|x es] eqn:E; cbn [delivers].
  - destruct Hf as [_ _ _ [Hb _]]. exists d, l'. split; [|done]. unfold fat_readdir. cbn [new_dir db_len Z.eqb negb andb]. fold (new_dir ino). rewrite Hfill. cbn [mbind res_bind]. by rewrite Hb.
  - pose proof (filled_reading _ _ _ _ Hf ltac:(done)) as [Hr Hsl]. destruct (take_dirent_ok d (x :: es) 0 x Hr Hsl) as (d' & Ht & Hr' & Eb); [done|]. exists d', l'. split; [|split; [done|]].
    + unfold fat_readdir. cbn [new_dir db_len Z.eqb negb andb]. fold (new_dir ino). rewrite Hfill. cbn [mbind res_bind]. destruct Hr as (Hb & _). by rewrite Hb, Ht.
    + apply (reading_delivers (x :: es) l' Hl' (length es) 1 d'); [cbn; lia|cbn; lia|done|by rewrite Eb].
Qed.

(** All entries of a directory, as [readdir] and [getdents] give them. *)
Fixpoint readdir_all (n : nat) (d : dirbuf) (l : lfn_state) : res (list dirent) :=
  match n with
  | O => NoFuel
  | S n => '(o, d, l) ← fat_readdir fuel part d l; match o with None => Ok [] | Some x => r ← readdir_all n d l; Ok (x :: r) end
  end.
Fixpoint getdents_all (n : nat) (f : open_file) (mp : option Z) (mode : Z) (data : option dirbuf) (l : lfn_state) (count : Z) : res (list dirent) :=
  match n with
  | O => NoFuel
  | S n => '(r, out, data, l) ← fat_getdents fuel part f mp mode data l count; match r with Val k => if k =? 0 then Ok [] else rest ← getdents_all n f mp mode data l count; Ok (out ++ rest) | Err _ => Panic end
  end.
Lemma fat_readdir_all_ok es : forall n d l, delivers d l es -> (length es < n)%nat -> readdir_all n d l = Ok es.
Proof.
  induction es as [|x es IH]; intros [|n] d l H Hn; cbn in Hn; try lia; cbn [readdir_all].
  - destruct H as (d' & l' & -> & _). done.
  - destruct H as (d' & l' & -> & _ & H). cbn [mbind res_bind]. rewrite (IH n d' l' H) by lia. done.
Qed.
Lemma getdents_rest f mp mode count es l : 128 <= count -> Forall (fun x => d_reclen x <= count) es -> forall n k d, reading d es k -> (length es - k < n)%nat -> (k <= length es)%nat -> getdents_all n f mp mode (Some d) l count = Ok (drop k es).
Proof.
  intros Hc Hfit. induction n as [|n IH]; intros k d Hr Hn Hk; [lia|]. cbn [getdents_all]. unfold fat_getdents. rewrite (proj2 (Z.ltb_ge count 128)) by lia. cbn [mbind res_bind].
  destruct (decide (k = length es)) as [->|Hne].
  - pose proof (reading_end d es Hr) as [He Hpos]. rewrite He, Z.leb_refl, (proj2 (Z.eqb_neq _ _)) by lia. cbn [negb andb]. rewrite Z.eqb_refl. cbn [assert mbind res_bind Z.eqb]. by rewrite drop_all.
  - pose proof (reading_len d es k Hr ltac:(lia)) as (Hlt & _ & _). rewrite (proj2 (Z.leb_gt _ _)), andb_false_r by lia. unfold fat_fill. pose proof Hr as (Hb & _ & _ & _ & Hok & _). rewrite Hb. cbn [mbind res_bind]. rewrite Hb.
    destruct (getdents_from_ok d es k count Hfit Hr) as (j & d' & -> & Hr' & Hj); [lia|]. cbn [mbind res_bind].
    assert (Hpos : 0 < dents_len (take (j - k) (drop k es))). { apply (dents_len_take_lt _ 0); [by apply Forall_take, Forall_drop|]. rewrite length_take, length_drop. lia. }
    rewrite (proj2 (Z.eqb_neq _ _)) by lia. rewrite (IH j d' Hr') by lia. cbn [mbind res_bind]. f_equal. rewrite <- (take_drop (j - k) (drop k es)) at 2. rewrite drop_drop. do 2 f_equal. lia.
Qed.
End dir.

(** ** Theorems *)
(** [getdents] of a directory without files fails, with -1, instead of giving 0. *)
Theorem fat_getdents_empty part a fuel dev ino items l f mode count : fat_wf part a -> is_fat_dir part fuel ino items -> lfn_clean l -> files items = [] -> fino f = ino -> S_ISDIR mode = true -> 128 <= count ->
  exists d l', fat_getdents fuel part f (Some dev) mode None l count = Ok (Err EPERM, [], Some d, l').
Proof.
  intros Hwf Hdir Hl He Hino Hmode Hc. assert (H2 : 2 <= ino). { destruct Hdir as ([|c cs] & es & [Hch _] & Hh & _); [done|]. injection Hh as <-. destruct Hch as ([? _] & _). lia. }
  destruct (fat_fill_ok part a Hwf fuel dev ino items l Hdir Hl) as (d & l' & Hfill & Hf & _). unfold listing in Hf. rewrite He in Hf. destruct Hf as [_ _ _ [Hb _]].
  exists d, l'. unfold fat_getdents. rewrite (proj2 (Z.ltb_ge count 128)), Hmode by lia. cbn [negb]. rewrite Hino. unfold fat_opendir_cluster. rewrite (proj2 (Z.leb_le _ _) H2). cbn [assert mbind res_bind deref]. fold (new_dir dev ino). cbn [new_dir db_len Z.eqb negb andb]. fold (new_dir dev ino). rewrite Hfill. cbn [mbind res_bind]. by rewrite Hb.
Qed.

(** [getdents] until it gives 0. *)
Lemma getdents_listing part a fuel dev ino items l f mode count : fat_wf part a -> is_fat_dir part fuel ino items -> lfn_clean l -> files items <> [] -> (length (listing part ino items) < 2 + fuel)%nat ->
  fino f = ino -> S_ISDIR mode = true -> 128 <= count -> Forall (fun x => d_reclen x <= count) (listing part ino items) -> getdents_all part fuel (3 + fuel) f (Some dev) mode None l count = Ok (listing part ino items).
Proof.
  intros Hwf Hdir Hl Hne Hn Hino Hmode Hc Hfit.
  assert (H2 : 2 <= ino). { destruct Hdir as ([|c cs] & es & [Hch _] & Hh & _); [done|]. injection Hh as <-. destruct Hch as ([? _] & _). lia. }
  destruct (fat_fill_ok part a Hwf fuel dev ino items l Hdir Hl) as (d & l' & Hfill & Hf & Hl'). assert (Hnil : listing part ino items <> []). { unfold listing. destruct (files items); [done|]. by destruct (if ino =? _ then _ else _). }
  pose proof (filled_reading _ _ _ _ Hf Hnil) as [Hr _]. assert (Hlen0 : (0 < length (listing part ino items))%nat) by (destruct (listing part ino items); [done|cbn; lia]).
  change (3 + fuel)%nat with (S (2 + fuel)). cbn [getdents_all]. unfold fat_getdents. rewrite (proj2 (Z.ltb_ge count 128)), Hmode by lia. cbn [negb]. rewrite Hino. unfold fat_opendir_cluster. rewrite (proj2 (Z.leb_le _ _) H2). cbn [assert mbind res_bind deref].
  fold (new_dir dev ino). cbn [new_dir db_len Z.eqb negb andb]. fold (new_dir dev ino). rewrite Hfill. cbn [mbind res_bind]. pose proof Hr as (Hb & _ & _ & _ & Hok & _). rewrite Hb.
  destruct (getdents_from_ok d (listing part ino items) 0 count Hfit Hr Hlen0) as (j & d' & -> & Hr' & Hj). cbn [mbind res_bind]. rewrite drop_0, Nat.sub_0_r.
  assert (Hpos : 0 < dents_len (take j (listing part ino items))). { apply (dents_len_take_lt _ 0); [by apply Forall_take|]. rewrite length_take. lia. }
  rewrite (proj2 (Z.eqb_neq _ _)) by lia. rewrite (getdents_rest part fuel f (Some dev) mode count (listing part ino items) l' Hc Hfit (2 + fuel) j d' Hr') by lia. cbn [mbind res_bind]. by rewrite take_drop.
Qed.
(** What a listing should be: [.] and [..] in the root (other directories have them as files), and the files. *)
Definition full_listing (part : fat32_partition) (ino : Z) (items : list item) : list dirent :=
  (if ino =? root_dir_first_cluster part then dots part else []) ++ (dirent_of part <$> files items).
Lemma full_listing_eq part ino items : files items <> [] -> listing part ino items = full_listing part ino items.
Proof. unfold listing, full_listing. by destruct (files items). Qed.

