(* ===== verification/FatLookup.v ===== *)
(** * FAT32: the walk of a path, open and stat

    A path is looked up component by component from the root; names are compared without case.  [dirs] gives
    the items of each directory by its first cluster. *)
From S2P Require Import Prelude CString Path Net NetSum NetSend Ata Ext2 Ext2File Ext2Dir Ext2Dents Time Fd DirBuf Fat FatRead FatDir FatEntries FatTree.
From stdpp Require Import strings.
#[local] Open Scope Z_scope.

Definition same_name (s t : list Z) : bool := bool_decide (map tolower s = map tolower t).
Definition find_name (t : list Z) (es : list dirent) : option dirent := List.find (fun d => same_name (d_nm d) t) es.

Lemma stricmp_same b1 b2 s t : cstr b1 s -> cstr b2 t -> exists c, stricmp b1 b2 = Ok c /\ (c =? 0) = same_name s t.
Proof. intros Hs Ht. destruct (stricmp_zero b1 b2 s t Hs Ht) as (c & Hc & Hiff). exists c. split; [done|]. unfold same_name. destruct (Z.eqb_spec c 0) as [E|E]; symmetry; [apply bool_decide_eq_true|apply bool_decide_eq_false]; tauto. Qed.

Section lookup.
Context (part : fat32_partition) (a : nat) (Hwf : fat_wf part a) (fuel : nat) (dirs : Z -> list item).

(** The cluster a path leads to, or the error code. *)
Fixpoint walk (type ino : Z) (comps : list (list Z)) : Z :=
  match comps with
  | [] => ino
  | c :: comps =>
      match find_name c (listing part ino (dirs ino)) with
      | None => 0xffffffff
      | Some d => if (type =? DT_DIR) && negb (d_type d =? DT_DIR) then u32 (-20) else walk type (d_ino d) comps
      end
  end.
(** Every component but the last is a directory. *)
Fixpoint walk_ok (type ino : Z) (comps : list (list Z)) : Prop :=
  match comps with
  | [] => True
  | c :: comps =>
      is_fat_dir part fuel ino (dirs ino) /\
      match find_name c (listing part ino (dirs ino)) with
      | None => True
      | Some d => if (type =? DT_DIR) && negb (d_type d =? DT_DIR) then True else walk_ok type (d_ino d) comps
      end
  end.

Lemma listing_names ino items : Forall item_ok items -> Forall (fun d => Forall char_ok (d_nm d)) (listing part ino items).
Proof.
  intros Hok. unfold listing. assert (Hf : Forall item_wf (files items)).
  { induction Hok as [|i items Hi _ IH]; [done|]. destruct i as [e|e|x]; [exact IH|exact IH|]. change (files (File x :: items)) with (x :: files items). by constructor. }
  destruct (files items) as [|x fs]; [done|]. apply Forall_app. split.
  - destruct (ino =? _); [|done]. repeat constructor; cbn; lia.
  - apply Forall_fmap. eapply Forall_impl; [exact Hf|]. intros y Hy. by apply item_name_ok.
Qed.
Lemma find_token_ok tok t es : cstr tok t -> Forall (fun d => Forall char_ok (d_nm d)) es -> forall n d l, delivers part fuel d l es -> (length es < n)%nat ->
  exists l', find_token n fuel part tok d l = Ok (find_name t es, l') /\ lfn_clean l'.
Proof.
  intros Ht. induction 1 as [|x es Hx _ IH]; intros [|n] d l Hd Hn; cbn [length] in Hn; try lia; cbn [find_token].
  - destruct Hd as (d' & l' & -> & Hl'). by exists l'.
  - destruct Hd as (d' & l' & -> & Hl' & Hd). cbn [mbind res_bind]. destruct (stricmp_same (d_nm x ++ [0]) tok (d_nm x) t) as (c & -> & Hc); [by exists []|done|]. cbn [mbind res_bind]. rewrite Hc. unfold find_name. cbn [List.find].
    destruct (same_name (d_nm x) t); [by exists l'|]. apply (IH n d' l' Hd). lia.
Qed.
Lemma walk_tokens_ok m type : fat_mp part = Some m -> forall n comps path tok tmp s ino l, pending path (match tok with Some o => PBuf o | None => tmp end) s -> fields [SLASH] s = comps -> walk_ok type ino comps -> lfn_clean l -> (length comps < n)%nat ->
  exists l', walk_tokens n fuel part type path tok tmp ino l = Ok (walk type ino comps, l') /\ lfn_clean l'.
Proof using Hwf.
  intros Hm. induction n as [|n IH]; intros comps path tok tmp s ino l Hp Hfs Hok Hl Hn; [lia|]. cbn [walk_tokens]. pose proof (strtok_r_step path tok (lit "/") [SLASH] tmp s slash_lit Hp) as Hs. rewrite Hfs in Hs. destruct comps as [|c comps].
  - destruct Hs as (b & t & -> & _). cbn [mbind res_bind]. by exists l.
  - destruct Hs as (b & o & t & s' & -> & Hc & Hp' & Hfs' & _). cbn [mbind res_bind walk walk_ok] in *. destruct Hok as [Hdir Hok].
    assert (H2 : 2 <= ino). { destruct Hdir as ([|c0 cs] & es & [Hch _] & Hh & _); [done|]. injection Hh as <-. destruct Hch as ([? _] & _). lia. }
    unfold fat_opendir_cluster. rewrite Hm, (proj2 (Z.leb_le _ _) H2). cbn [assert deref mbind res_bind]. fold (new_dir m ino).
    assert (Hlen : (length (listing part ino (dirs ino)) < 3 + fuel)%nat). { pose proof (listing_len part ino (dirs ino)). destruct Hdir as (cs & es & _ & _ & E & _ & _ & Hf). rewrite E, length_app in Hf. lia. }
    assert (Hnames : Forall (fun d => Forall char_ok (d_nm d)) (listing part ino (dirs ino))) by (apply listing_names; by destruct Hdir as (? & ? & _ & _ & _ & _ & ? & _)).
    destruct (find_token_ok (padd b o) c (listing part ino (dirs ino)) ltac:(apply Hc) Hnames (3 + fuel) (new_dir m ino) l) as (l' & Hft & Hl'); [by apply (dir_delivers part a)|done|]. rewrite Hft. cbn [mbind res_bind].
    destruct (find_name c (listing part ino (dirs ino))) as [d|]; [|by exists l']. destruct ((type =? DT_DIR) && negb (d_type d =? DT_DIR)); [by exists l'|]. apply (IH comps b None t s'); try done. cbn [length] in Hn. lia.
Qed.
(** A component in the middle is a file without clusters. *)
Fixpoint through_empty (ino : Z) (comps : list (list Z)) : Prop :=
  match comps with
  | [] => False
  | c :: comps =>
      is_fat_dir part fuel ino (dirs ino) /\
      match find_name c (listing part ino (dirs ino)) with
      | None => False
      | Some d => comps <> [] /\ (d_ino d < 2 \/ through_empty (d_ino d) comps)
      end
  end.
Lemma walk_tokens_panics m : fat_mp part = Some m -> forall n comps path tok tmp s ino l, pending path (match tok with Some o => PBuf o | None => tmp end) s -> fields [SLASH] s = comps -> comps <> [] -> ino < 2 \/ through_empty ino comps -> lfn_clean l -> (length comps < n)%nat ->
  walk_tokens n fuel part 0 path tok tmp ino l = Panic.
Proof using Hwf.
  intros Hm. induction n as [|n IH]; intros comps path tok tmp s ino l Hp Hfs Hne Hok Hl Hn; [lia|]. cbn [walk_tokens]. pose proof (strtok_r_step path tok (lit "/") [SLASH] tmp s slash_lit Hp) as Hs. rewrite Hfs in Hs. destruct comps as [|c comps]; [done|].
  destruct Hs as (b & o & t & s' & -> & Hc & Hp' & Hfs' & _). cbn [mbind res_bind]. unfold fat_opendir_cluster. destruct Hok as [Hlt|Hok]; [by rewrite (proj2 (Z.leb_gt 2 ino) Hlt)|]. cbn [through_empty] in Hok. destruct Hok as [Hdir Hok].
  assert (H2 : 2 <= ino). { destruct Hdir as ([|c0 cs] & es & [Hch _] & Hh & _); [done|]. injection Hh as <-. destruct Hch as ([? _] & _). lia. }
  rewrite Hm, (proj2 (Z.leb_le _ _) H2). cbn [assert deref mbind res_bind]. fold (new_dir m ino).
  assert (Hlen : (length (listing part ino (dirs ino)) < 3 + fuel)%nat). { pose proof (listing_len part ino (dirs ino)). destruct Hdir as (cs & es & _ & _ & E & _ & _ & Hf). rewrite E, length_app in Hf. lia. }
  assert (Hnames : Forall (fun d => Forall char_ok (d_nm d)) (listing part ino (dirs ino))) by (apply listing_names; by destruct Hdir as (? & ? & _ & _ & _ & _ & ? & _)).
  destruct (find_token_ok (padd b o) c (listing part ino (dirs ino)) ltac:(apply Hc) Hnames (3 + fuel) (new_dir m ino) l) as (l' & Hft & Hl'); [by apply (dir_delivers part a)|done|]. rewrite Hft. cbn [mbind res_bind].
  destruct (find_name c (listing part ino (dirs ino))) as [d|]; [|done]. destruct Hok as [Hne' Hok]. cbn [Z.eqb andb]. apply (IH comps b None t s'); try done. cbn [length] in Hn. lia.
Qed.
End lookup.

Lemma render_pos comps : 1 <= zlen (render comps).
Proof. destruct comps as [|t comps]; [done|]. cbn [render map concat]. rewrite zlen_app, zlen_cons. pose proof (zlen_nonneg t). pose proof (zlen_nonneg (concat (map (cons SLASH) comps))). lia. Qed.
(** The path is copied and cut into its components. *)
Lemma cluster_tokens part fuel m comps path type l : fat_mp part = Some m -> cstr path (render comps) -> Forall name_ok comps -> comps <> [] -> zlen (render comps) <= 255 ->
  exists b, fat_cluster_for_path fuel part path type l = walk_tokens 256 fuel part type b (Some 0) PEmpty (root_dir_first_cluster part) l /\ pending b (PBuf 0) (render comps) /\ fields [SLASH] (render comps) = comps /\ (length comps < 256)%nat.
Proof.
  intros Hm Hp Hn Hnil Hlen. unfold fat_cluster_for_path. rewrite (strlen_spec _ _ Hp). cbn [mbind res_bind]. rewrite (proj2 (Z.leb_le _ _) (render_pos comps)). cbn [assert mbind res_bind].
  destruct (strcmp_is path (lit "/") (render comps) [SLASH] Hp slash_lit) as (c & -> & Hc0). cbn [mbind res_bind]. rewrite Hc0.
  assert (render comps <> [SLASH]) as Hne. { destruct comps as [|t comps]; [done|]. inversion Hn as [|? ? (Ht & _) _]; subst. destruct t as [|x t]; done. }
  rewrite bool_decide_false by done. rewrite (strlcpy_spec _ _ _ 256 Hp) by (unfold zlen; rewrite length_replicate; lia). cbn [mbind res_bind]. rewrite (take_ge (render comps)) by (unfold zlen in *; lia).
  eexists. split; [done|]. split; [split; [done|]; rewrite drop_0; eexists; split; [done|]; by apply render_ok|]. split; [by apply split_render|].
  pose proof (fields_len [SLASH] (render comps)) as H. change (fields [SLASH] (render comps)) with (Path.split (render comps)) in H. rewrite split_render in H by done. unfold zlen in *. lia.
Qed.

Lemma lookup_ok part a fuel dirs m comps path type l : fat_wf part a -> fat_mp part = Some m -> cstr path (render comps) -> Forall name_ok comps -> zlen (render comps) <= 255 ->
  walk_ok part fuel dirs type (root_dir_first_cluster part) comps -> lfn_clean l ->
  exists l', fat_cluster_for_path fuel part path type l = Ok (walk part dirs type (root_dir_first_cluster part) comps, l') /\ lfn_clean l'.
Proof.
  intros Hwf Hm Hp Hn Hlen Hok Hl. destruct comps as [|t comps].
  - unfold fat_cluster_for_path. rewrite (strlen_spec _ _ Hp). cbn [mbind res_bind]. rewrite (proj2 (Z.leb_le _ _) (render_pos [])). cbn [assert mbind res_bind].
    destruct (strcmp_is path (lit "/") (render []) [SLASH] Hp slash_lit) as (c & -> & Hc0). cbn [mbind res_bind]. rewrite Hc0, bool_decide_true by done. by exists l.
  - destruct (cluster_tokens part fuel m (t :: comps) path type l Hm Hp Hn ltac:(done) Hlen) as (b & -> & Hb & Hf & H256). by apply (walk_tokens_ok part a Hwf fuel dirs m type Hm 256 (t :: comps) _ (Some 0) PEmpty (render (t :: comps))).
Qed.

Lemma opendir_ok part a fuel dirs m comps path l : fat_wf part a -> fat_mp part = Some m -> cstr path (render comps) -> Forall name_ok comps -> zlen (render comps) <= 255 -> lfn_clean l ->
  walk_ok part fuel dirs DT_DIR (root_dir_first_cluster part) comps -> let c := walk part dirs DT_DIR (root_dir_first_cluster part) comps in 0 <= c -> c <> 1 ->
  exists l', fat_opendir fuel part m path l = Ok (if (c =? 0) || (0x0fffffff <=? c) then None else Some (new_dir m c), l') /\ lfn_clean l'.
Proof.
  intros Hwf Hm Hp Hn Hlen Hl Hok c Hc0 Hc1. destruct (lookup_ok part a fuel dirs m comps path DT_DIR l) as (l' & Hrun & Hl'); try done. exists l'. split; [|done]. unfold fat_opendir. rewrite (strlen_spec _ _ Hp). cbn [mbind res_bind].
  rewrite (proj2 (Z.ltb_lt _ _)) by (pose proof (render_pos comps); lia). rewrite Hrun. cbn [assert mbind res_bind]. fold c. destruct ((c =? 0) || (0x0fffffff <=? c)) eqn:E; [done|]. apply orb_false_iff in E as [E%Z.eqb_neq _].
  unfold fat_opendir_cluster. rewrite (proj2 (Z.leb_le 2 c)) by lia. done.
Qed.

(** ** stat *)
Definition find_item (t : list Z) (items : list item) : option fat_item := List.find (fun x => same_name (item_name x) t) (files items).
Definition stat_of (part : fat32_partition) (x : fat_item) : res stat :=
  mt ← fat_calc_time (short_entry x) FAT_MTIME; ct ← fat_calc_time (short_entry x) FAT_CTIME; at_ ← fat_calc_time (short_entry x) FAT_ATIME;
  let blksize := Z.max (cluster_size part) 16384 in
  let d := is_dir_item x in
  Ok (mk_stat (fat_dev part) (f_cluster x) (Z.lor 0x1ff (if d then 0x4000 else 0x8000)) 1 (if d then 0 else s32 (f_bytes x)) mt ct at_ blksize (if d then 1 else (f_bytes x + blksize - 1) / blksize)).

Lemma le32_parts v : le32 v = le16 (v mod 65536) ++ le16 (v / 65536).
Proof.
  assert (E1 : v mod 65536 = v mod 256 + 256 * (v / 256 mod 256)) by (change 65536 with (256 * 256); by rewrite Z.rem_mul_r).
  assert (E2 : v / 16777216 = v / 65536 / 256) by (change 16777216 with (65536 * 256); by rewrite Z.div_div).
  unfold le32, le16. cbn [app]. rewrite E2, E1, (Z.mul_comm 256), Z.mod_add, Z.div_add, (Z.div_small (v mod 256)), Z.add_0_l, !Z.mod_mod by (try apply Z.mod_pos_bound; lia). done.
Qed.
Lemma entry_bytes x : item_wf x -> get16 (short_entry x) 28 = Ok (f_bytes x mod 65536) /\ get16 (short_entry x) 30 = Ok (f_bytes x / 65536).
Proof.
  intros Hx. destruct (entry_parts x Hx) as [E Hz]. destruct Hx as [_ _ _ _ _ (Hd & Hm & _ & Hb)].
  set (pre := (pad 8 (f_base x) ++ pad 3 (f_ext x)) ++ f_attr x :: f_dates x ++ le16 (f_cluster x / 65536) ++ f_mod x ++ le16 (f_cluster x mod 65536)).
  assert (Hpre : short_entry x = pre ++ le16 (f_bytes x mod 65536) ++ le16 (f_bytes x / 65536)) by (rewrite E, le32_parts; unfold pre; repeat (rewrite <- ?app_assoc; cbn [app]); done).
  assert (Hp28 : zlen pre = 28) by (unfold pre; rewrite zlen_app, Hz, zlen_cons, !zlen_app; unfold zlen; rewrite Hd, Hm; done). split.
  - rewrite Hpre, <- Hp28. apply get16_mid. apply Z.mod_pos_bound. lia.
  - rewrite Hpre, app_assoc, <- (app_nil_r (le16 (f_bytes x / 65536))). assert (30 = zlen (pre ++ le16 (f_bytes x mod 65536))) as -> by (rewrite zlen_app, Hp28; done). apply get16_mid. split; [apply Z.div_pos; lia|apply Z.div_lt_upper_bound; lia].
Qed.
Lemma blocks_up n b : 0 <= n -> 0 < b -> n / b + (if negb (n mod b =? 0) then 1 else 0) = (n + b - 1) / b.
Proof.
  intros Hn Hb. pose proof (Z.div_mod n b ltac:(lia)) as Hd. pose proof (Z.mod_pos_bound n b Hb). destruct (Z.eqb_spec (n mod b) 0) as [E|E]; cbn [negb].
  - apply Z.div_unique with (b - 1); [left; lia|lia].
  - apply Z.div_unique with (n mod b - 1); [left; lia|lia].
Qed.
Lemma callback_stat_ok part x base t st : item_wf x -> cstr base t ->
  fat_callback_stat part base (short_entry x) (long_arg x) st = (if same_name (item_name x) t then s ← stat_of part x; Ok (false, Some s) else Ok (true, st)).
Proof.
  intros Hx Ht. unfold fat_callback_stat.
  assert (Hname : exists b, (match long_arg x with Some n => '(b, _) ← strlcpy (replicate 256 0) n 256; Ok b | None => fat_parse_short_name (replicate 256 0) (short_entry x) end) = Ok b /\ cstr b (item_name x)).
  { destruct (callback_name x Hx) as (b0 & _ & _ & Hcs). destruct (item_name_ok x Hx) as [Hch Hl]. destruct (long_arg x) as [n|] eqn:El.
    - rewrite (strlcpy_spec _ _ _ 256 Hcs) by (unfold zlen; rewrite length_replicate; lia). cbn [mbind res_bind]. eexists. split; [done|]. rewrite take_ge by (unfold zlen in *; lia). by eexists.
    - destruct (short_ok x 256 Hx) as (b & -> & Hb & _); [lia|]. exists b. split; [done|]. unfold long_arg in El. unfold item_name. by destruct (f_long x). }
  destruct Hname as (b & -> & Hb). cbn [mbind res_bind]. destruct (stricmp_same b base _ _ Hb Ht) as (c & -> & Hc0). cbn [mbind res_bind]. rewrite Hc0. destruct (same_name (item_name x) t); [|done].
  rewrite (entry_cluster x Hx), (entry_attr x Hx). destruct (entry_bytes x Hx) as [-> ->]. cbn [mbind res_bind]. unfold stat_of.
  destruct (fat_calc_time (short_entry x) FAT_MTIME); cbn [mbind res_bind]; [|done..]. destruct (fat_calc_time (short_entry x) FAT_CTIME); cbn [mbind res_bind]; [|done..]. destruct (fat_calc_time (short_entry x) FAT_ATIME); cbn [mbind res_bind]; [|done..].
  destruct Hx as [_ _ _ _ _ (_ & _ & _ & Hby)]. assert (f_bytes x mod 65536 + 65536 * (f_bytes x / 65536) = f_bytes x) as -> by (pose proof (Z.div_mod (f_bytes x) 65536); lia).
  assert ((if 16384 <? cluster_size part then cluster_size part else 16384) = Z.max (cluster_size part) 16384) as -> by (destruct (Z.ltb_spec 16384 (cluster_size part)); lia).
  unfold is_dir_item. by rewrite blocks_up by lia.
Qed.
Lemma visit_stat part base t items : Forall item_ok items -> cstr base t ->
  visit (fat_callback_stat part base) items None = match find_item t items with None => Ok (false, None) | Some x => s ← stat_of part x; Ok (match f_long x with [] => false | _ => true end, Some s) end.
Proof.
  intros Hok Ht. unfold find_item. induction Hok as [|i items Hi _ IH]; [done|]. destruct i as [e|e|x]; cbn [visit]; [exact IH|exact IH|]. change (files (File x :: items)) with (x :: files items). cbn [List.find].
  rewrite (callback_stat_ok part x base t None Hi Ht). destruct (same_name (item_name x) t); [|exact IH]. by destruct (stat_of part x).
Qed.

(** A file just opened on the chain of its entry is an open file of the refinement of FatRead.v. *)
Lemma opened_file part cs st c dev f mp p fops : chain_of part cs -> head cs = Some c -> st_dev st = dev -> st_ino st = c -> S_ISDIR (st_mode st) = false -> 0 < st_size st < 2 ^ 31 -> st_size st <= cluster_size part * zlen cs -> 0 < cluster_size part ->
  fat_file part cs st (mk_open_file 1 dev c c 0 0 (fmode f) mp p fops (fdata f)).
Proof. intros. constructor; cbn; auto with lia. split; [lia|]. rewrite Z.div_0_l by lia. intros _. by destruct cs. Qed.

(** [fat_stat] finds the entry of the last component in the directory of the others, by its name, and fills the [struct stat]
    from it: cluster, type, size (0 for a directory), times and blocks; ENOENT when there is no such entry or no such directory. *)
Theorem fat_stat_correct part a fuel dirs m comps t path l : fat_wf part a -> fat_mp part = Some m -> cstr path (render (comps ++ [t])) -> Forall name_ok comps -> name_ok t -> zlen (render comps) <= 255 -> lfn_clean l ->
  walk_ok part fuel dirs DT_DIR (root_dir_first_cluster part) comps -> let c := walk part dirs DT_DIR (root_dir_first_cluster part) comps in 2 <= c -> (c < 0x0fffffff -> is_fat_dir part fuel c (dirs c)) ->
  if c <? 0x0fffffff then
    match find_item t (dirs c) with
    | None => exists l', fat_stat fuel part m path l = Ok (None, l') /\ lfn_clean l'
    | Some x => forall st, stat_of part x = Ok st -> exists l', fat_stat fuel part m path l = Ok (Some st, l') /\ have_lfn l' = (match f_long x with [] => false | _ => true end)
    end
  else exists l', fat_stat fuel part m path l = Ok (None, l') /\ lfn_clean l'.
Proof.
  intros Hwf Hm Hp Hn Ht Hlen Hl Hok c H2 Hdir. destruct (path_dirname_basename path comps t Hp Hn Ht) as ((pb & Hpd & Hpc & _) & (bb & Hpb & Hbc & _) & _).
  destruct (opendir_ok part a fuel dirs m comps pb l Hwf Hm Hpc Hn Hlen Hl Hok) as (l1 & Hrun & Hl1); [fold c; lia|fold c; lia|]. fold c in Hrun. rewrite (proj2 (Z.eqb_neq c 0)) in Hrun by lia. cbn [orb] in Hrun. assert ((if 0x0fffffff <=? c then None else Some (new_dir m c)) = (if c <? 0x0fffffff then Some (new_dir m c) else None)) as Ec by (destruct (Z.leb_spec 0x0fffffff c), (Z.ltb_spec c 0x0fffffff); done || lia). rewrite Ec in Hrun.
  assert (Hst : fat_stat fuel part m path l = ('(o, l) ← fat_opendir fuel part m pb l; match o with None => Ok (None, l) | Some d => '(l, st) ← fat_parse_dir (fat_callback_stat part bb) fuel part d l None; Ok (st, l) end)).
  { unfold fat_stat. rewrite Hpd, Hpb. cbn [mbind res_bind]. destruct (strcmp_is pb (lit "/") (render comps) [SLASH] Hpc slash_lit) as (c1 & -> & E1). cbn [mbind res_bind]. destruct (strcmp_is bb (lit "/") t [SLASH] Hbc slash_lit) as (c2 & E2 & E2').
    rewrite bool_decide_false in E2' by (intros ->; destruct Ht as (_ & _ & Hs & _); apply Hs; left). destruct (c1 =? 0); rewrite ?E2; cbn [mbind res_bind]; rewrite ?E2'; done. }
  rewrite Hst, Hrun. cbn [mbind res_bind]. destruct (Z.ltb_spec c 0x0fffffff) as [Hlt|Hge]; [|by exists l1]. destruct Hl1 as [Hh Hb].
  assert (Hitems : Forall item_ok (dirs c)) by (by destruct (Hdir Hlt) as (? & ? & _ & _ & _ & _ & ? & _)). pose proof (visit_stat part bb t (dirs c) Hitems Hbc) as Hv. destruct (find_item t (dirs c)) as [x|].
  - intros st Hs. rewrite Hs in Hv. cbn [mbind res_bind] in Hv. destruct (parse_dir_visit part a Hwf (fat_callback_stat part bb) (new_dir m c) (dirs c) fuel l1 None _ _ (Hdir Hlt) eq_refl eq_refl eq_refl Hh Hb Hv) as (l2 & -> & H & _). cbn [mbind res_bind]. by exists l2.
  - destruct (parse_dir_visit part a Hwf (fat_callback_stat part bb) (new_dir m c) (dirs c) fuel l1 None _ _ (Hdir Hlt) eq_refl eq_refl eq_refl Hh Hb Hv) as (l2 & -> & H & H'). cbn [mbind res_bind]. by exists l2.
Qed.

(** ** A disk *)
(** 512-byte clusters from sector 1 on; the root directory is cluster 2, [SUB] cluster 3. *)
Definition demo_item (long base ext : list Z) (attr cluster size : Z) : fat_item :=
  mk_item long 0 base ext attr ([0; 0; 0; 0] ++ le16 0x4a21 ++ le16 0x4a21) (le16 0x6000 ++ le16 0x4a21) cluster size.
Definition demo_x : fat_item := demo_item [] (chars "X") (chars "TXT") 0x20 5 100.
Definition demo_l : fat_item := demo_item (chars "a longer name") (chars "ALONGE~1") [] 0x20 6 600.
Definition demo_sub : fat_item := demo_item [] (chars "SUB") [] 0x10 3 0.
Definition demo_rootdir : list item := [Unused (0xe5 :: replicate 31 65); File demo_x; File demo_l; File demo_sub].
Definition demo_subdir : list item := [File (demo_item [] (chars ".") [] 0x10 3 0); File (demo_item [] (chars "..") [] 0x10 0 0); File (demo_item (chars "f") (chars "F") [] 0x20 7 10); File (demo_item [] (chars "E") [] 0x20 0 0)].
Definition sector (data : list Z) : list Z := take 512 (data ++ replicate 512 0).
Definition demo_disk : fat32_partition :=
  let dir items := sector (concat (concat (item_entries <$> items))) in
  mk_fat (mk_dev true false 16 16 [] (replicate 512 0 ++ dir demo_rootdir ++ dir demo_subdir ++ replicate (13 * 512) 1)) 0 16 1 1 2 512 1 (Some (concat (le32 <$> [0; 0; EOC; EOC; EOC; EOC; 8; EOC; EOC]))) 0 (Some 0).
Definition demo_dirs (c : Z) : list item := if c =? 2 then demo_rootdir else if c =? 3 then demo_subdir else [].

Ltac item_tac := constructor; cbn; split_and?; try (repeat constructor; unfold char_ok, unit_ok; lia); try done; try lia.
Lemma demo_disk_wf : fat_wf demo_disk 0.
Proof. constructor; [split; [|done]|done|done|lia|cbn; lia]. repeat split; done || (vm_compute; lia || done). Qed.
Lemma demo_root_ok : is_fat_dir demo_disk 100 2 (demo_dirs 2).
Proof.
  exists [2], (drop 5 (dir_entries demo_disk [2])). split_and!.
  - split; [|exists 2, EOC; split_and!; vm_compute; done]. split; [|split; [|done]]; [split; [lia|by vm_compute]|exists EOC; split; [by vm_compute|done]].
  - done.
  - vm_compute. reflexivity.
  - vm_compute. reflexivity.
  - repeat apply Forall_cons_2; [done|item_tac..|constructor].
  - vm_compute. lia.
Qed.
Lemma demo_sub_ok : is_fat_dir demo_disk 100 3 (demo_dirs 3).
Proof.
  exists [3], (drop 5 (dir_entries demo_disk [3])). split_and!.
  - split; [|exists 3, EOC; split_and!; vm_compute; done]. split; [|split; [|done]]; [split; [lia|by vm_compute]|exists EOC; split; [by vm_compute|done]].
  - done.
  - vm_compute. reflexivity.
  - vm_compute. reflexivity.
  - repeat apply Forall_cons_2; [item_tac..|constructor].
  - vm_compute. lia.
Qed.
Lemma lfn_start_clean : lfn_clean lfn_start.
Proof. done. Qed.
Lemma walk_last part fuel dirs type ino c : is_fat_dir part fuel ino (dirs ino) -> walk_ok part fuel dirs type ino [c].
Proof. intros H. split; [done|]. destruct (find_name c _) as [d|]; [|done]. by destruct (_ && _). Qed.
Lemma demo_fat_walk : walk_ok demo_disk 100 demo_dirs 0 2 [chars "sub"; chars "F"].
Proof.
  split; [exact demo_root_ok|]. assert (E : find_name (chars "sub") (listing demo_disk 2 (demo_dirs 2)) = Some (dirent_of demo_disk demo_sub)) by (vm_compute; reflexivity). rewrite E.
  change (walk_ok demo_disk 100 demo_dirs 0 3 [chars "F"]). apply walk_last, demo_sub_ok.
Qed.

Lemma fat_stat_witness : exists l' st, fat_stat 100 demo_disk 0 (lit "/A Longer NAME") lfn_start = Ok (Some st, l') /\ st_ino st = 6 /\ st_size st = 600 /\ have_lfn l' = true.
Proof.
  pose proof (fat_stat_correct demo_disk 0 100 demo_dirs 0 [] (chars "A Longer NAME") (lit "/A Longer NAME") lfn_start demo_disk_wf) as H. cbn [walk] in H. change (root_dir_first_cluster demo_disk) with 2 in H.
  specialize (H eq_refl ltac:(by apply lit_check) ltac:(constructor) (Forall_inv (names_check [chars "A Longer NAME"] eq_refl)) ltac:(by vm_compute) lfn_start_clean I ltac:(lia) (fun _ => demo_root_ok)).
  change (2 <? 0x0fffffff) with true in H. cbv iota in H. assert (E : find_item (chars "A Longer NAME") (demo_dirs 2) = Some demo_l) by (vm_compute; reflexivity). rewrite E in H.
  destruct (stat_of demo_disk demo_l) as [st| | |] eqn:Est; [|by vm_compute in Est..]. destruct (H st eq_refl) as (l' & Hl & Hh). exists l', st. split; [exact Hl|]. vm_compute in Est. injection Est as <-. split; [reflexivity|]. split; [reflexivity|exact Hh].
Defined.

(** ** What does not hold *)
(** After a file with a long name has been found by [stat], the name is still pending: the first file of the next directory that is
    read gets it, so that X.TXT, which is there, is not found. *)
Theorem fat_stat_stale_name : exists l st st', fat_stat 100 demo_disk 0 (lit "/x.txt") lfn_start = Ok (Some st, lfn_start) /\
  fat_stat 100 demo_disk 0 (lit "/a longer name") lfn_start = Ok (Some st', l) /\ exists l', fat_stat 100 demo_disk 0 (lit "/x.txt") l = Ok (None, l').
Proof. eexists _, _, _. split; [vm_compute; reflexivity|]. split; [vm_compute; reflexivity|]. eexists. vm_compute. reflexivity. Qed.
(** A path that goes through an empty file, whose cluster is 0, panics instead of failing with ENOTDIR. *)
Theorem fat_lookup_empty_file_panics : fat_cluster_for_path 100 demo_disk (lit "/sub/e/z") 0 lfn_start = Panic.
Proof. vm_compute. reflexivity. Qed.
(** The twentieth piece of a long name, of 248 characters or more, is written past the end of the buffer. *)
Theorem fat_long_name_overflows sum p l : length p = 13%nat -> Forall (fun c => 0 <= c < 65536) p -> lfn_entry (lfn_bytes 0x54 sum p) l = Undef.
Proof.
  intros Hp Hu. do 13 (destruct p as [|? p]; [done|]). destruct p; [|done]. unfold lfn_entry, lfn_bytes, utf16_at, get16. cbn. done.
Qed.
(** A short name that starts with a byte of 0x80 or more, such as an accented letter, panics. *)
Theorem fat_short_name_panics c rest buf : 0x80 <= c < 0x100 -> fat_parse_short_name buf (c :: rest) = Panic.
Proof.
  intros Hc. unfold fat_parse_short_name. change (aget (c :: rest) 0) with (Ok c). cbn [mbind res_bind]. rewrite (proj2 (Z.eqb_neq c 0)), (proj2 (Z.eqb_neq c 5)) by lia. rewrite (proj2 (Z.ltb_ge 32 (schar c))); [done|].
  unfold schar. rewrite <- (Z.mod_add _ (-1)), Z.mod_small by lia. lia.
Qed.
