(* ===== verification/Initrd.v ===== *)
(** * The initial ramdisk (src/src/kernel/initrd.c)

    The image is in memory at [location]: a count, a table of headers of 88 bytes, and the files' data.
    An address is an offset in the image plus [location].  Inode numbers are indices of the table; the
    root directory is number 1.  [fs_mount], which reads /etc/mounts from the image, is here too. *)
From S2P Require Import Prelude CString Path Net NetSum NetSend Ata Ext2 Ext2Dir Ext2Dents Fd DirBuf Fat.
From stdpp Require Import strings.
#[local] Open Scope Z_scope.

Definition INITRD_ROOT_INODE : Z := 1.

(** [initrd_file_header_t]; [h_name] are its 64 bytes. *)
Record initrd_file_header := mk_header { h_parent : Z; h_inode : Z; h_mtime : Z; h_name : list Z; h_mode : Z; h_offset : Z; h_length : Z }.
(** [initrd_header], [initrd_files] and the memory they point to. *)
Record initrd := mk_initrd { location : Z; image : list Z; initrd_files : list initrd_file_header }.
Definition nfiles (r : initrd) : Z := zlen (initrd_files r).

Definition HEADER_SIZE : Z := 88.
Definition load_header (image : list Z) (o : Z) : res initrd_file_header :=
  p ← get32 image o; i ← get32 image (o + 4); t ← get32 image (o + 8); n ← bytes image (o + 12) 64; m ← get32 image (o + 76); f ← get32 image (o + 80); l ← get32 image (o + 84);
  Ok (mk_header (s32 p) (s32 i) (s32 t) n m f l).
Fixpoint load_headers (n : nat) (image : list Z) (o : Z) : res (list initrd_file_header) :=
  match n with O => Ok [] | S n => h ← load_header image o; l ← load_headers n image (o + HEADER_SIZE); Ok (h :: l) end.
Definition relocate (location : Z) (h : initrd_file_header) : initrd_file_header :=
  mk_header (h_parent h) (h_inode h) (h_mtime h) (h_name h) (h_mode h) (u32 (h_offset h + location)) (h_length h).
(** [init_initrd]: the offsets become addresses, but for the first header, which is not used. *)
Definition init_initrd (location : Z) (image : list Z) : res initrd :=
  n ← get32 image 0;
  l ← load_headers (Z.to_nat n) image 4;
  Ok (mk_initrd location image (match l with [] => [] | h :: l => h :: (relocate location <$> l) end)).

(** ** Files *)
Definition S_ISREG (m : Z) : bool := Z.land m 0xf000 =? 0x8000.
Definition set_offset (off : Z) (f : open_file) : open_file := with_pos (fcur_block f) off (fsize f) f.

Definition initrd_read (r : initrd) (f : open_file) (buf : list Z) (length : Z) : res (ret * list Z * open_file) :=
  header ← aget (initrd_files r) (fino f);
  if S_ISDIR (h_mode header) then Ok (Err EISDIR, buf, f)
  else if h_length header <=? u32 (foffset f) then Ok (Val 0, buf, f)
  else
    let length := if h_length header <? u32 (foffset f + length) then u32 (h_length header - foffset f) else length in
    if length =? 0 then Ok (Val 0, buf, f)
    else
      assert (0 <=? foffset f) ;;
      buf ← blit buf 0 (image r) (u32 (h_offset header + foffset f) - location r) length;
      Ok (Val length, buf, set_offset (foffset f + length) f).

Definition initrd_lseek (r : initrd) (f : open_file) (offset whence : Z) : res (ret * open_file) :=
  assert (fino f <? nfiles r) ;;
  header ← aget (initrd_files r) (fino f);
  if negb (S_ISREG (h_mode header)) then Ok (Err EINVAL, f)
  else
    match new_offset (h_length header) offset (foffset f) whence with
    | None => Ok (Err EINVAL, f)
    | Some off => assert (0 <=? off) ;; Ok (Val off, set_offset off f)
    end.

(** ** Directories *)
(** The first header from number [i] on with the parent [dir] and the name [token]. *)
Fixpoint find_child (dir : Z) (token : list Z) (l : list initrd_file_header) (i : Z) : res (option (Z * initrd_file_header)) :=
  match l with
  | [] => Ok None
  | h :: l =>
      found ← (if h_parent h =? dir then c ← strcmp (h_name h) token; Ok (c =? 0) else Ok false);
      if found : bool then Ok (Some (i, h)) else find_child dir token l (i + 1)
  end.
(** The headers from [INITRD_ROOT_INODE] on. *)
Definition entries (r : initrd) : list initrd_file_header := drop (Z.to_nat INITRD_ROOT_INODE) (initrd_files r).
(** The loop over the tokens: the inodes of the directory and of its parent, [None] for an error. *)
Fixpoint walk_dirs (fuel : nat) (r : initrd) (path : list Z) (tok : option Z) (tmp : tokptr) (dir_inode parent_inode : Z) : res (option (Z * Z)) :=
  match fuel with
  | O => NoFuel
  | S fuel =>
      '(path, token, tmp) ← strtok_r path tok (lit "/") tmp;
      match token with
      | None => Ok (Some (dir_inode, parent_inode))
      | Some t =>
          o ← find_child dir_inode (padd path t) (entries r) INITRD_ROOT_INODE;
          match o with
          | None => Ok None
          | Some (_, h) => if S_ISDIR (h_mode h) then walk_dirs fuel r path None tmp (h_inode h) (h_parent h) else Ok None
          end
      end
  end.
(** Writing a dirent at the end of the buffer. *)
Definition write_dirent (ino type : Z) (name : list Z) (d : dirbuf) : res dirbuf :=
  let rl := dent_reclen (u8 (zlen name)) in
  assert (rl <=? DIRENT_SIZE) ;;
  if db_buflen d <? db_len d + dirent_fixed + zlen name + 1 then Undef
  else Ok (mk_dirbuf (db_ino d) (db_dev d) (Some (default [] (db_buf d) ++ [mk_dirent ino (db_dev d) rl type (u8 (zlen name)) name])) (db_pos d) (db_len d + rl) (db_buflen d)).
(** The loop over the files of the directory. *)
Fixpoint write_children (l : list initrd_file_header) (i dir_inode : Z) (d : dirbuf) : res dirbuf :=
  match l with
  | [] => Ok d
  | h :: l =>
      d ← (if negb (h_parent h =? dir_inode) then Ok d
           else '(b, _) ← strlcpy (replicate (Z.to_nat MAXNAMLEN) 0) (h_name h) 64; name ← read_str b;
                write_dirent i (if S_ISDIR (h_mode h) then DT_DIR else DT_REG) name d);
      write_children l (i + 1) dir_inode d
  end.
(** [mp] is the [dev] of the mount point; [None] for NULL. *)
Definition initrd_opendir (r : initrd) (mp : Z) (in_path : list Z) : res (option dirbuf) :=
  '(path, _) ← strlcpy (replicate (Z.to_nat (PATH_MAX + 1)) 0) in_path (PATH_MAX + 1);
  o ← walk_dirs (Z.to_nat (PATH_MAX + 1)) r path (Some 0) PEmpty INITRD_ROOT_INODE INITRD_ROOT_INODE;
  match o with
  | None => Ok None
  | Some (dir_inode, parent_inode) =>
      h ← aget (initrd_files r) dir_inode;
      let d := mk_dirbuf dir_inode mp (Some []) 0 0 (u32 (h_length h * (DIRENT_SIZE - MAXNAMLEN + 64 + 4 + 32) + DIRENT_SIZE)) in
      d ← write_dirent dir_inode DT_DIR (chars ".") d;
      d ← write_dirent parent_inode DT_DIR (chars "..") d;
      d ← write_children (drop (Z.to_nat (INITRD_ROOT_INODE + 1)) (initrd_files r)) (INITRD_ROOT_INODE + 1) dir_inode d;
      Ok (Some d)
  end.
Definition initrd_readdir (d : dirbuf) : res (option dirent * dirbuf) :=
  if negb (db_len d =? 0) && (db_len d <=? db_pos d) then
    assert (db_pos d =? db_len d) ;; Ok (None, d)
  else
    assert (match db_buf d with Some _ => true | None => false end) ;;
    '(dent, d) ← take_dirent d; Ok (Some dent, d).
(** [data] is the open file's [data] pointer. *)
Definition initrd_getdents (r : initrd) (mp : Z) (f : open_file) (data : option dirbuf) (count : Z) : res (ret * list dirent * option dirbuf) :=
  if count <? 128 then Ok (Err EINVAL, [], data)
  else
    data ← match data with
           | Some d => Ok (Some d)
           | None => assert (match fpath f with Some (_ :: _) => true | _ => false end) ;; p ← deref (fpath f); initrd_opendir r mp (p ++ [0])
           end;
    assert (match data with Some _ => true | None => false end) ;;
    d ← deref data;
    if (match db_buf d with Some _ => true | None => false end) && (db_len d <=? db_pos d) then
      assert (db_pos d =? db_len d) ;; Ok (Val 0, [], None)
    else
      match db_buf d with
      | None => Ok (Err EPERM, [], Some d)
      | Some _ => '(ret, d, out) ← getdents_from d count; Ok (ret, out, Some d)
      end.

(** [initrd_open] with the file of [new_filp] ([mp] is [initrd_mp], [fops] the functions of a file, [dops] those of a directory);
    [None] for ENOENT. *)
Definition initrd_open (r : initrd) (mp dev : Z) (path : list Z) (file : open_file) (fops dops : open_file_ops) : res (option open_file) :=
  '(dirname, _) ← strlcpy (replicate (Z.to_nat (PATH_MAX + 1)) 0) path (PATH_MAX + 1);
  '(basename, _) ← strlcpy (replicate (Z.to_nat (PATH_MAX + 1)) 0) path (PATH_MAX + 1);
  dirname ← path_dirname dirname; basename ← path_basename basename;
  o ← initrd_opendir r mp dirname;
  match o with
  | None => Ok None
  | Some d =>
      assert (db_ino d <? nfiles r) ;;
      c ← find_child (db_ino d) basename (entries r) INITRD_ROOT_INODE;
      match c with
      | None => Ok None
      | Some (i, h) =>
          p ← read_str path;
          Ok (Some (mk_open_file (fcount file + 1) dev i i 0 (s32 (h_length h)) (h_mode h) mp (Some p) (if S_ISDIR (h_mode h) then dops else fops) (fdata file)))
      end
  end.

(** ** stat *)
(** The size of a directory: room for the dirents of its files. *)
Fixpoint dir_size (l : list initrd_file_header) (i size : Z) : res Z :=
  match l with
  | [] => Ok size
  | h :: l =>
      n ← (if h_parent h =? i then len ← strlen (h_name h);
             let s := DIRENT_SIZE - MAXNAMLEN + len + 8 in Ok (if negb (Z.land s 3 =? 0) then Z.land s (Z.lnot 3) + 4 else s)
           else Ok 0);
      dir_size l i (size + n)
  end.
(** [initrd_stat]; [dev] is the initrd's number in [devtable], [file] what [new_filp] gives. *)
Definition initrd_stat (r : initrd) (mp dev : Z) (path : list Z) (file : open_file) (fops dops : open_file_ops) : res (option stat) :=
  o ← initrd_open r mp 0xffff path file fops dops;
  match o with
  | None => Ok None
  | Some f =>
      let i := fino f in
      h ← aget (initrd_files r) i;
      size ← (if S_ISDIR (h_mode h) then
                s ← dir_size (drop (Z.to_nat (INITRD_ROOT_INODE + 1)) (initrd_files r)) i 0;
                let s := s + DIRENT_SIZE in
                assert (Z.land s 3 =? 0) ;; Ok (if s <? 4096 then 4096 else s)
              else Ok (s32 (h_length h)));
      let blocks := if Z.rem size 4096 =? 0 then Z.quot size 4096 else Z.quot size 4096 + 1 in
      Ok (Some (mk_stat dev i (h_mode h) 1 size (h_mtime h) (h_mtime h) (h_mtime h) 4096 blocks))
  end.
