(* ===== verification/FsMount.v ===== *)
(** * Mounting the file systems (fs_mount in src/src/kernel/initrd.c)

    [fs_mount] reads /etc/mounts from the initrd: lines of a file system and a path.  The mount points are the
    list [mountpoints], whose order is that of detection; what [devtable] has for the device of each of them is [m_dev]. *)
From S2P Require Import Prelude CString Path Net NetSum NetSend Ata Ext2 Ext2Dir Ext2Dents Fd DirBuf Fat Initrd.
From stdpp Require Import strings.
#[local] Open Scope Z_scope.

(** [devtable[mp->dev]]: 0, the mark of the initrd (0xffffffff) or a partition. *)
Inductive device := NoDevice | InitrdDevice | FatDevice | Ext2Device.
#[export] Instance device_eq_dec : EqDecision device.
Proof. solve_decision. Defined.
(** A mount point: [m_part] says whether the [mp] of its partition points back to it. *)
Record mountp := mk_mountp { m_dev : device; m_path : list Z; m_depth : Z; m_part : bool }.
(** The state of [fs_mount]: the list, [root_mounted] and [initrd_mp]. *)
Record mounts := mk_mounts { mpoints : list mountp; root_mounted : bool; initrd_mp : bool }.

(** [devtable[mp->dev]] is neither 0 nor 0xffffffff. *)
Definition is_partition (d : device) : bool := match d with FatDevice | Ext2Device => true | _ => false end.
(** The loop over the mount points for a line with the file system [fs]. *)
Fixpoint mount_on (fs path : list Z) (depth : Z) (l : list mountp) : res (list mountp * option bool) :=
  match l with
  | [] => Ok ([], None)
  | m :: l =>
      let m := mk_mountp (m_dev m) (m_path m) depth (m_part m) in
      c1 ← strcmp fs (lit "fat"); c2 ← strcmp fs (lit "ext2"); c3 ← strcmp fs (lit "initrd");
      p ← read_str path;
      if (c1 =? 0) || (c2 =? 0) then
        if is_partition (m_dev m) then Ok (mk_mountp (m_dev m) p depth true :: l, Some false)
        else '(l, r) ← mount_on fs path depth l; Ok (m :: l, r)
      else if c3 =? 0 then
        if decide (m_dev m = InitrdDevice) then Ok (mk_mountp (m_dev m) p depth (m_part m) :: l, Some true)
        else '(l, r) ← mount_on fs path depth l; Ok (m :: l, r)
      else '(l, r) ← mount_on fs path depth l; Ok (m :: l, r)
  end.
Definition mount_line (fs path : list Z) (depth : Z) (s : mounts) : res mounts :=
  '(l, r) ← mount_on fs path depth (mpoints s);
  c ← strcmp path (lit "/");
  Ok (mk_mounts l (root_mounted s || (match r with Some _ => c =? 0 | None => false end)) (initrd_mp s || match r with Some i => i | None => false end)).

(** ** The text *)
(** White space and other junk; a [char] is signed. *)
Definition junk (c : Z) : bool := (schar c <=? 32) && negb (c =? 0).
Fixpoint skip_while (f : Z -> bool) (p : list Z) : res (list Z) :=
  match p with [] => Undef | c :: p' => if f c then skip_while f p' else Ok p end.
(** Copies while [f] holds to [buf] from [ap] on, and terminates it. *)
Fixpoint copy_while (f : Z -> bool) (p buf : list Z) (ap : Z) : res (list Z * list Z) :=
  match p with
  | [] => Undef
  | c :: p' => if f c then buf ← aset buf ap c; copy_while f p' buf (ap + 1) else buf ← aset buf ap 0; Ok (p, buf)
  end.
(** The number of components: a round for each slash but the first. *)
Fixpoint path_depth (fuel : nat) (depth_p : list Z) (depth : Z) : res Z :=
  match fuel with
  | O => NoFuel
  | S fuel =>
      c ← load depth_p;
      if c =? 0 then Ok depth
      else
        o ← strchr depth_p SLASH;
        match o with None => Ok (depth + 1) | Some k => path_depth fuel (padd depth_p (k + 1)) (depth + 1) end
  end.
Definition word_char (c : Z) : bool := 32 <? schar c.
Definition path_char (c : Z) : bool := negb (c =? 10) && negb (c =? 13) && negb (c =? 0).

(** The loop of [fs_mount] from [p] on; [mount] and [path] are its buffers. *)
Fixpoint mount_loop (fuel : nat) (p mount path : list Z) (s : mounts) : res mounts :=
  match fuel with
  | O => NoFuel
  | S fuel =>
      p ← skip_while junk p;
      c ← load p;
      p ← (if c =? 35 then p ← skip_while (fun c => negb (c =? 0) && negb (c =? 10)) p; Ok (padd p 1) else Ok p);
      c ← load p;
      if c =? 0 then Ok s
      else
        '(p, mount) ← copy_while word_char p mount 0;
        p ← skip_while junk p;
        c ← load p; assert (negb (c =? 0)) ;;
        '(p, path) ← copy_while path_char p path 0;
        p ← skip_while junk p;
        depth ← path_depth 256 (padd path 1) 0;
        s ← mount_line mount path depth s;
        c ← load p;
        if c =? 0 then Ok s else mount_loop fuel p mount path s
  end.
(** The inode of /etc/mounts, from number [i] on. *)
Fixpoint find_mounts (all l : list initrd_file_header) (i : Z) : res (option Z) :=
  match l with
  | [] => Ok None
  | h :: l =>
      c ← strcmp (h_name h) (lit "mounts");
      found ← (if c =? 0 then
                 p ← aget all (h_parent h);
                 if h_parent p =? INITRD_ROOT_INODE then c ← strcmp (h_name p) (lit "etc"); Ok (c =? 0) else Ok false
               else Ok false);
      if found : bool then Ok (Some i) else find_mounts all l (i + 1)
  end.
Definition fs_mount (r : initrd) (l : list mountp) : res mounts :=
  assert (negb (zlen l =? 0)) ;;
  o ← find_mounts (initrd_files r) (initrd_files r) 0;
  match o with
  | None => Panic
  | Some ino =>
      header ← aget (initrd_files r) ino;
      text ← bytes (image r) (h_offset header - location r) (h_length header);
      let buf := text ++ [0] in
      c ← load buf; assert (negb (c =? 0)) ;;
      s ← mount_loop (S (length buf)) buf (replicate 16 0) (replicate 256 0) (mk_mounts l false false);
      assert (root_mounted s) ;; assert (initrd_mp s) ;;
      Ok s
  end.
