(* ===== verification/InitrdSpec.v ===== *)
(** * The initial ramdisk: files, directories and /etc/mounts

    A file of the initrd is the part of the image its header points to; a directory is the headers that have it
    as their parent. *)
From S2P Require Import Prelude CString Path Net NetSum NetSend Ata Ext2 Ext2File Ext2Dir Ext2Dents Fd DirBuf Fat FileSpec FatRead Initrd FsMount.
From stdpp Require Import strings.
#[local] Open Scope Z_scope.

(** ** Files *)
Definition file_data (r : initrd) (h : initrd_file_header) : list Z :=
  take (Z.to_nat (h_length h)) (drop (Z.to_nat (h_offset h - location r)) (image r)).
(** The header [h] points into the image. *)
Definition header_wf (r : initrd) (h : initrd_file_header) : Prop :=
  0 <= location r <= h_offset h /\ 0 <= h_length h < 2 ^ 31 /\ h_offset h - location r + h_length h <= zlen (image r) /\ h_offset h + h_length h < 2 ^ 32.
(** An open regular file at [pos]. *)
Definition initrd_rep (r : initrd) (h : initrd_file_header) (data : list Z) (pos : Z) (f : open_file) : Prop :=
  header_wf r h /\ S_ISREG (h_mode h) = true /\ 0 <= fino f /\ initrd_files r !! Z.to_nat (fino f) = Some h /\ data = file_data r h /\ foffset f = pos /\ 0 <= pos < 2 ^ 31.
Definition initrd_op (r : initrd) (f : open_file) (o : file_op) : res (ret * list Z * open_file) :=
  match o with
  | Read n => '(ret, buf, f) ← initrd_read r f (replicate (Z.to_nat n) 0) n; Ok (ret, match ret with Val k => take (Z.to_nat k) buf | Err _ => [] end, f)
  | Seek offset whence => '(ret, f) ← initrd_lseek r f offset whence; Ok (ret, [], f)
  end.

Lemma reg_not_dir m : S_ISREG m = true -> S_ISDIR m = false.
Proof. unfold S_ISREG, S_ISDIR. intros H%Z.eqb_eq. by rewrite H. Qed.
Lemma file_data_len r h : header_wf r h -> zlen (file_data r h) = h_length h.
Proof. intros (H1 & H2 & H3 & H4). unfold file_data, zlen in *. rewrite length_take, length_drop. lia. Qed.
Lemma initrd_read_ok r h f n : initrd_rep r h (file_data r h) (foffset f) f -> 0 <= n /\ foffset f + n < 2 ^ 32 ->
  exists f', initrd_op r f (Read n) = Ok ((spec_op (file_data r h) (foffset f) (Read n)).1, f') /\ initrd_rep r h (file_data r h) (spec_op (file_data r h) (foffset f) (Read n)).2 f'.
Proof.
  intros (Hh & Hreg & Hi & Hf & _ & _ & Hp) Hn. pose proof (file_data_len r h Hh) as Hlen. pose proof Hh as (H1 & H2 & H3 & H4). cbn [initrd_op spec_op fst snd]. unfold initrd_read, aget. rewrite (proj2 (Z.ltb_ge _ _) Hi), Hf. cbn [deref mbind res_bind]. rewrite (reg_not_dir _ Hreg), (u32_small (foffset f)) by lia.
  set (D := file_data r h) in *. set (out := take (Z.to_nat n) (drop (Z.to_nat (foffset f)) D)).
  assert (Hout : zlen out = Z.max 0 (Z.min n (h_length h - foffset f))) by (unfold out, zlen in *; rewrite length_take, length_drop; lia).
  destruct (Z.leb_spec (h_length h) (foffset f)) as [Hend|Hlt].
  { cbn [mbind res_bind]. assert (out = []) as -> by (apply nil_length_inv; unfold zlen in Hout; lia). exists f. split; [done|]. split_and!; try done; cbn; lia. }
  rewrite (u32_small (foffset f + n)), (u32_small (h_length h - foffset f)) by lia. set (k := if h_length h <? foffset f + n then h_length h - foffset f else n). assert (Hk : k = Z.min n (h_length h - foffset f)) by (unfold k; destruct (Z.ltb_spec (h_length h) (foffset f + n)); lia). clearbody k.
  destruct (Z.eqb_spec k 0) as [E0|N0].
  { cbn [mbind res_bind]. assert (out = []) as -> by (apply nil_length_inv; unfold zlen in Hout; lia). exists f. split; [done|]. split_and!; try done; cbn; lia. }
  rewrite (proj2 (Z.leb_le 0 (foffset f))), (u32_small (h_offset h + foffset f)) by lia. cbn [assert mbind res_bind]. rewrite blit_Ok by (unfold zlen in *; rewrite ?length_replicate; lia). cbn [mbind res_bind].
  assert (Eout : take (Z.to_nat k) (drop (Z.to_nat (h_offset h + foffset f - location r)) (image r)) = out).
  { unfold out, D, file_data. rewrite skipn_firstn_comm, take_take, drop_drop. f_equal; [lia|]. f_equal. lia. }
  rewrite Eout. change (Z.to_nat 0) with 0%nat. rewrite take_0. cbn [app]. rewrite take_app_length' by (unfold zlen in Hout; lia).
  assert (Ek : zlen out = k) by lia. rewrite Ek. eexists. split; [done|]. split_and!; try done; cbn; lia.
Qed.
(** As on FAT, a seek to before the start from the end panics. *)
Theorem initrd_lseek_end_panics r h f offset : initrd_rep r h (file_data r h) (foffset f) f -> h_length h + offset < 0 -> - 2 ^ 31 <= offset -> initrd_lseek r f offset 2 = Panic.
Proof.
  intros (Hh & Hreg & Hi & Hf & _) Ho1 Ho2. pose proof Hh as (_ & H2 & _). assert (Hlt : fino f < nfiles r) by (apply lookup_lt_Some in Hf; unfold nfiles, zlen; lia). unfold initrd_lseek, aget. rewrite (proj2 (Z.ltb_lt _ _) Hlt), (proj2 (Z.ltb_ge _ _) Hi), Hf. cbn [assert deref mbind res_bind]. rewrite Hreg. cbn [negb].
  unfold new_offset. cbn [Z.eqb Pos.eqb]. rewrite (proj2 (Z.ltb_ge _ _)) by (apply Z.mod_pos_bound; lia). rewrite s32_small by lia. by rewrite (proj2 (Z.leb_gt _ _)) by lia.
Qed.
(** The lengths that do not wrap around with the position. *)
Definition initrd_reads (pos n : Z) : Prop := 0 <= n /\ pos + n < 2 ^ 32.
#[export] Instance initrd_filesys r h : FileSys (initrd_op r) (initrd_rep r h) initrd_reads.
Proof.
  intros data pos f o Hrep Hok. pose proof Hrep as (Hh & Hreg & Hi & Hf & -> & <- & Hp). pose proof (file_data_len r h Hh) as Hlen.
  destruct o as [n|offset whence]; cbn [op_ok before_start] in *; [by apply initrd_read_ok|].
  pose proof Hh as (H1 & H2 & H3 & H4). cbn [initrd_op spec_op]. rewrite Hlen in *. destruct Hok as (Ho1 & Ho3 & Ho4). destruct ((whence =? 2) && _) eqn:Eb.
  - apply andb_true_iff in Eb as [->%Z.eqb_eq Hlt%Z.ltb_lt]. by rewrite (initrd_lseek_end_panics r h) by (done || lia).
  - assert (Hlt : fino f < nfiles r) by (apply lookup_lt_Some in Hf; unfold nfiles, zlen; lia). unfold initrd_lseek, aget. rewrite (proj2 (Z.ltb_lt _ _) Hlt), (proj2 (Z.ltb_ge _ _) Hi), Hf. cbn [assert deref mbind res_bind]. rewrite Hreg. cbn [negb].
    destruct (new_offset_spec (h_length h) (foffset f) offset whence) as [-> Hr]; [lia..| |]. { intros ->. cbn [Z.eqb andb] in Eb. apply Z.ltb_ge in Eb. lia. }
    destruct (seek_to (h_length h) (foffset f) offset whence) as [p|] eqn:E; cbn [fst snd]; [|by exists f]. specialize (Hr p eq_refl). rewrite (proj2 (Z.leb_le _ _)) by lia. cbn [assert mbind res_bind].
    eexists. split; [done|]. split_and!; try done; cbn; lia.
Qed.

(** ** Directories *)
Definition hname (h : initrd_file_header) : list Z := text (h_name h).
Definition is_child (dir : Z) (h : initrd_file_header) : bool := h_parent h =? dir.
(** An image as the build script writes it: names end within their 64 bytes, the inode numbers are the indices, the root is a
    directory, and the length of a directory is (at least) the number of its files. *)
Record initrd_wf (r : initrd) : Prop := {
  iw_names : Forall (fun h => cstr (h_name h) (hname h) /\ length (h_name h) = 64%nat) (initrd_files r);
  iw_inodes : forall (i : nat) h, (1 <= i)%nat -> initrd_files r !! i = Some h -> h_inode h = Z.of_nat i;
  iw_root : exists h, initrd_files r !! 1%nat = Some h /\ S_ISDIR (h_mode h) = true;
  iw_dirs : forall (i : nat) h, initrd_files r !! i = Some h -> S_ISDIR (h_mode h) = true -> Z.of_nat (length (filter (fun x => is_child (Z.of_nat i) x) (drop 2 (initrd_files r)))) <= h_length h < 2 ^ 20
}.
(** The first file of a directory with a name, and the walk of a path. *)
Fixpoint child (l : list initrd_file_header) (i dir : Z) (t : list Z) : option (Z * initrd_file_header) :=
  match l with
  | [] => None
  | h :: l => if is_child dir h && bool_decide (hname h = t) then Some (i, h) else child l (i + 1) dir t
  end.
Fixpoint iwalk (r : initrd) (comps : list (list Z)) (dir parent : Z) : option (Z * Z) :=
  match comps with
  | [] => Some (dir, parent)
  | c :: comps =>
      match child (entries r) INITRD_ROOT_INODE dir c with
      | Some (_, h) => if S_ISDIR (h_mode h) then iwalk r comps (h_inode h) (h_parent h) else None
      | None => None
      end
  end.
Definition initrd_dirent (dev i : Z) (h : initrd_file_header) : dirent :=
  mk_dirent i dev (dent_reclen (zlen (hname h))) (if S_ISDIR (h_mode h) then DT_DIR else DT_REG) (zlen (hname h)) (hname h).
Fixpoint kids (l : list initrd_file_header) (i dir dev : Z) : list dirent :=
  match l with [] => [] | h :: l => (if is_child dir h then [initrd_dirent dev i h] else []) ++ kids l (i + 1) dir dev end.
Definition initrd_listing (r : initrd) (dir parent dev : Z) : list dirent :=
  mk_dirent dir dev 16 DT_DIR 1 (chars ".") :: mk_dirent parent dev 16 DT_DIR 2 (chars "..") :: kids (drop 2 (initrd_files r)) 2 dir dev.

Lemma kids_len l dev dir : forall i, length (kids l i dir dev) = length (filter (fun x => is_child dir x) l).
Proof. induction l as [|h l IH]; intros i; [done|]. cbn [kids]. rewrite length_app, IH, filter_cons. destruct (is_child dir h) eqn:E; cbn; case_decide as D; cbn; try done; by destruct D. Qed.
Lemma find_child_ok dir tok t l : cstr tok t -> Forall (fun h => cstr (h_name h) (hname h) /\ length (h_name h) = 64%nat) l -> forall i, find_child dir tok l i = Ok (child l i dir t).
Proof.
  intros Ht. induction 1 as [|h l [Hh _] _ IH]; intros i; [done|]. cbn [find_child child]. unfold is_child. destruct (h_parent h =? dir); cbn [andb]; [|apply IH].
  destruct (strcmp_is (h_name h) tok (hname h) t Hh Ht) as (c & -> & E). cbn [mbind res_bind]. rewrite E. destruct (bool_decide (hname h = t)); [done|apply IH].
Qed.
Lemma child_lookup l dir t : forall i j h, child l i dir t = Some (j, h) -> exists k : nat, l !! k = Some h /\ j = i + Z.of_nat k.
Proof.
  induction l as [|x l IH]; intros i j h; cbn [child]; [done|]. destruct (is_child dir x && bool_decide (hname x = t)); [intros [= <- <-]; exists 0%nat; split; [done|lia]|].
  intros (k & Hk & ->)%IH. exists (S k). split; [done|lia].
Qed.

Section dirs.
Context (r : initrd) (Hwf : initrd_wf r).
(** [dir] is the inode of a directory. *)
Definition dir_inode_ok (dir : Z) : Prop := exists (i : nat) h, (1 <= i)%nat /\ dir = Z.of_nat i /\ initrd_files r !! i = Some h /\ S_ISDIR (h_mode h) = true.
Lemma entries_names : Forall (fun h => cstr (h_name h) (hname h) /\ length (h_name h) = 64%nat) (entries r).
Proof using Hwf. apply Forall_drop, (iw_names r Hwf). Qed.
Lemma child_ok dir t j h : child (entries r) INITRD_ROOT_INODE dir t = Some (j, h) -> exists i : nat, (1 <= i)%nat /\ j = Z.of_nat i /\ initrd_files r !! i = Some h /\ h_inode h = j.
Proof using Hwf.
  intros (k & Hk & ->)%child_lookup. unfold entries in Hk. rewrite lookup_drop in Hk. change (Z.to_nat INITRD_ROOT_INODE) with 1%nat in Hk. exists (1 + k)%nat. unfold INITRD_ROOT_INODE. pose proof (iw_inodes r Hwf (1 + k) h ltac:(lia) Hk). split_and!; [lia|lia|done|lia].
Qed.
Lemma iwalk_ok comps : forall dir parent d p, dir_inode_ok dir -> iwalk r comps dir parent = Some (d, p) -> dir_inode_ok d.
Proof using Hwf.
  induction comps as [|c comps IH]; intros dir parent d p Hd; cbn [iwalk]; [by intros [= <- <-]|]. destruct (child _ _ dir c) as [[j h]|] eqn:E; [|done]. destruct (S_ISDIR (h_mode h)) eqn:Ed; [|done].
  apply IH. destruct (child_ok dir c j h E) as (i & Hi & -> & Hl & Hino). rewrite Hino. by exists i, h.
Qed.
Lemma walk_dirs_ok comps : forall fuel path tok tmp s dir parent, pending path (match tok with Some o => PBuf o | None => tmp end) s -> fields [SLASH] s = comps -> (length comps < fuel)%nat ->
  walk_dirs fuel r path tok tmp dir parent = Ok (iwalk r comps dir parent).
Proof using Hwf.
  induction comps as [|c comps IH]; intros [|fuel] path tok tmp s dir parent Hp Hfs Hf; cbn [length] in Hf; try lia; cbn [walk_dirs]; pose proof (strtok_r_step path tok (lit "/") [SLASH] tmp s slash_lit Hp) as Hs; rewrite Hfs in Hs.
  - by destruct Hs as (b & t & -> & _).
  - destruct Hs as (b & o & t & s' & -> & Hc & Hp' & Hfs' & _). cbn [mbind res_bind iwalk]. rewrite (find_child_ok dir _ c _ (proj2 Hc) entries_names). cbn [mbind res_bind]. destruct (child (entries r) INITRD_ROOT_INODE dir c) as [[j h]|]; [|done].
    destruct (S_ISDIR (h_mode h)); [|done]. apply (IH fuel b None t s'); done || lia.
Qed.
(** A buffer that has the entries [L], delivered none of them. *)
Definition holds (d : dirbuf) (dir dev B : Z) (L : list dirent) : Prop :=
  d = mk_dirbuf dir dev (Some L) 0 (dents_len L) B /\ Forall dent_ok L.
Lemma write_dirent_ok d dir dev B L ino type name : holds d dir dev B L -> zlen name <= 63 -> dents_len L + 76 <= B ->
  let x := mk_dirent ino dev (dent_reclen (zlen name)) type (zlen name) name in
  exists d', write_dirent ino type name d = Ok d' /\ holds d' dir dev B (L ++ [x]) /\ d_reclen x <= 76.
Proof.
  intros [-> Hok] Hn HB x. pose proof (zlen_nonneg name) as H0. assert (Hr : 0 < dent_reclen (zlen name) <= 76 /\ dent_reclen (zlen name) mod 4 = 0).
  { rewrite dent_reclen_eq by done. pose proof (Z.div_mod (zlen name + 16) 4 ltac:(lia)). pose proof (Z.mod_pos_bound (zlen name + 16) 4 ltac:(lia)). split; [lia|]. rewrite Z.mul_comm. by apply Z.mod_mul. }
  unfold write_dirent. assert (u8 (zlen name) = zlen name) as -> by (apply Z.mod_small; lia). rewrite (proj2 (Z.leb_le _ _)) by (unfold DIRENT_SIZE, dirent_fixed, MAXNAMLEN; lia). cbn [assert mbind res_bind db_buflen db_len db_ino db_dev db_buf db_pos default]. rewrite (proj2 (Z.ltb_ge _ _)) by (unfold dirent_fixed; lia).
  eexists. split; [done|]. split; [|cbn; lia]. split; [f_equal; rewrite dents_len_app; change (dents_len [x]) with (dent_reclen (zlen name) + 0); lia|]. apply Forall_snoc; [done|]. split; [cbn; unfold DIRENT_SIZE, dirent_fixed, MAXNAMLEN; lia|apply Hr].
Qed.
Lemma write_children_ok dir dev B l : Forall (fun h => cstr (h_name h) (hname h) /\ length (h_name h) = 64%nat) l -> forall i d L, holds d dir dev B L -> dents_len L + 76 * Z.of_nat (length (kids l i dir dev)) <= B ->
  exists d', write_children l i dir d = Ok d' /\ holds d' dir dev B (L ++ kids l i dir dev) /\ Forall (fun x => d_reclen x <= 76) (kids l i dir dev).
Proof.
  induction 1 as [|h l [Hh H64] _ IH]; intros i d L Hd HB; [exists d; rewrite app_nil_r; done|]. cbn [write_children kids] in *. unfold is_child in *. destruct (h_parent h =? dir); cbn [negb app].
  - assert (Hn : zlen (hname h) <= 63) by (apply cstr_len in Hh; unfold zlen; lia). rewrite (strlcpy_spec _ _ (hname h) 64 Hh) by (unfold zlen; rewrite length_replicate; unfold MAXNAMLEN; lia). cbn [mbind res_bind]. rewrite (take_ge (hname h)) by (unfold zlen in Hn; lia).
    rewrite (read_str_spec _ (hname h)) by (eexists; split; [done|by eapply cstr_chars]). cbn [mbind res_bind]. cbn [app length] in HB.
    destruct (write_dirent_ok d dir dev B L i (if S_ISDIR (h_mode h) then DT_DIR else DT_REG) (hname h) Hd Hn ltac:(lia)) as (d1 & -> & Hd1 & Hx). cbn [mbind res_bind]. set (x := mk_dirent _ _ _ _ _ _) in *.
    destruct (IH (i + 1) d1 (L ++ [x]) Hd1) as (d' & Hrun & Hd' & Hall). { rewrite dents_len_app. change (dents_len [x]) with (d_reclen x + 0). lia. }
    exists d'. split; [done|]. split; [by rewrite <- app_assoc in Hd'|by constructor].
  - cbn [mbind res_bind]. by apply IH.
Qed.
Lemma opendir_initrd mp comps path : cstr path (render comps) -> Forall name_ok comps -> zlen (render comps) <= PATH_MAX ->
  match iwalk r comps INITRD_ROOT_INODE INITRD_ROOT_INODE with
  | None => initrd_opendir r mp path = Ok None
  | Some (dir, parent) => exists d B h, initrd_opendir r mp path = Ok (Some d) /\ holds d dir mp B (initrd_listing r dir parent mp) /\ Forall (fun x => d_reclen x <= 76) (initrd_listing r dir parent mp) /\
      initrd_files r !! Z.to_nat dir = Some h /\ dir < nfiles r /\ B = 112 * h_length h + 268 /\ Z.of_nat (length (kids (drop 2 (initrd_files r)) 2 dir mp)) <= h_length h
  end.
Proof using Hwf.
  intros Hp Hn Hlen. unfold initrd_opendir. rewrite (strlcpy_spec _ _ _ (PATH_MAX + 1) Hp) by (unfold zlen; rewrite length_replicate; unfold PATH_MAX; lia). cbn [mbind res_bind]. rewrite (take_ge (render comps)) by (unfold PATH_MAX, zlen in *; lia).
  assert (Hroot : dir_inode_ok INITRD_ROOT_INODE) by (destruct (iw_root r Hwf) as (h & Hh & Hd); by exists 1%nat, h).
  rewrite (walk_dirs_ok comps) with (s := render comps).
  2: { split; [done|]. rewrite drop_0. eexists. split; [done|]. by apply render_ok. }
  2: by apply split_render.
  2: { pose proof (fields_len [SLASH] (render comps)) as H. change (fields [SLASH] (render comps)) with (Path.split (render comps)) in H. rewrite split_render in H by done. unfold zlen, PATH_MAX in *. lia. }
  cbn [mbind res_bind]. destruct (iwalk r comps INITRD_ROOT_INODE INITRD_ROOT_INODE) as [[dir parent]|] eqn:Ew; [|done].
  destruct (iwalk_ok comps _ _ _ _ Hroot Ew) as (i & h & Hi & -> & Hl & Hd). pose proof (iw_dirs r Hwf i h Hl Hd) as Hc. pose proof (lookup_lt_Some _ _ _ Hl) as Hlt.
  unfold aget. rewrite (proj2 (Z.ltb_ge _ _)), Nat2Z.id, Hl by lia. cbn [deref mbind res_bind]. rewrite u32_small by (unfold DIRENT_SIZE, dirent_fixed, MAXNAMLEN; lia). set (B := h_length h * _ + _). assert (HB : B = 112 * h_length h + 268) by (unfold B, DIRENT_SIZE, dirent_fixed, MAXNAMLEN; lia).
  set (d0 := mk_dirbuf _ _ _ _ _ _). assert (Hd0 : holds d0 (Z.of_nat i) mp B []) by done. destruct (write_dirent_ok d0 _ _ _ _ (Z.of_nat i) DT_DIR (chars ".") Hd0) as (d1 & -> & Hd1 & Hx1); [by vm_compute|cbn; lia|]. cbn [mbind res_bind].
  destruct (write_dirent_ok d1 _ _ _ _ parent DT_DIR (chars "..") Hd1) as (d2 & -> & Hd2 & Hx2); [by vm_compute|match goal with |- ?x + 76 <= _ => change x with 16 end; lia|]. cbn [mbind res_bind]. pose proof (kids_len (drop 2 (initrd_files r)) mp (Z.of_nat i) 2) as Hk.
  destruct (write_children_ok (Z.of_nat i) mp B (drop 2 (initrd_files r)) (Forall_drop _ 2 _ (iw_names r Hwf)) 2 d2 _ Hd2) as (d3 & Hrun & Hd3 & Hall). { rewrite Hk. match goal with |- ?x + _ <= _ => change x with 32 end. lia. }
  exists d3, B, h. change (Z.to_nat (INITRD_ROOT_INODE + 1)) with 2%nat. change (INITRD_ROOT_INODE + 1) with 2. rewrite Hrun. split; [done|]. split; [exact Hd3|]. split; [constructor; [exact Hx1|constructor; [exact Hx2|exact Hall]]|]. split_and!; [done|unfold nfiles, zlen; lia|done|rewrite Hk; lia].
Qed.
End dirs.

(** All entries of a directory, as [getdents] and [readdir] give them. *)
Fixpoint igetdents_all (n : nat) (r : initrd) (mp : Z) (f : open_file) (data : option dirbuf) (count : Z) : res (list dirent) :=
  match n with
  | O => NoFuel
  | S n => '(ret, out, data) ← initrd_getdents r mp f data count; match ret with Val k => if k =? 0 then Ok [] else rest ← igetdents_all n r mp f data count; Ok (out ++ rest) | Err _ => Panic end
  end.
Fixpoint ireaddir_all (n : nat) (d : dirbuf) : res (list dirent) :=
  match n with
  | O => NoFuel
  | S n => '(o, d) ← initrd_readdir d; match o with None => Ok [] | Some x => rest ← ireaddir_all n d; Ok (x :: rest) end
  end.
Lemma holds_reading d dir dev B L : holds d dir dev B L -> L <> [] -> dents_len L < B -> reading d L 0.
Proof. intros [-> Hok] Hne HB. split_and!; done. Qed.
Lemma igetdents_rest r mp f count es : 128 <= count -> Forall (fun x => d_reclen x <= 76) es -> forall n k d, reading d es k -> (length es - k < n)%nat -> (k <= length es)%nat -> igetdents_all n r mp f (Some d) count = Ok (drop k es).
Proof.
  intros Hc H76. induction n as [|n IH]; intros k d Hr Hn Hk; [lia|]. cbn [igetdents_all]. unfold initrd_getdents. rewrite (proj2 (Z.ltb_ge count 128)) by lia. cbn [mbind res_bind assert deref]. pose proof Hr as (Hb & _ & _ & _ & Hok & _). rewrite Hb. cbn [andb].
  destruct (decide (k = length es)) as [->|Hne].
  - pose proof (reading_end d es Hr) as [He Hpos]. rewrite He, Z.leb_refl, Z.eqb_refl. cbn [assert mbind res_bind Z.eqb]. by rewrite drop_all.
  - pose proof (reading_len d es k Hr ltac:(lia)) as (Hlt & _ & _). rewrite (proj2 (Z.leb_gt _ _)) by lia.
    destruct (getdents_from_ok d es k count) as (j & d' & -> & Hr' & Hj); [eapply Forall_impl; [exact H76|]; intros x Hx; cbn in *; lia|done|lia|]. cbn [mbind res_bind].
    assert (Hpos : 0 < dents_len (take (j - k) (drop k es))). { apply (dents_len_take_lt _ 0); [by apply Forall_take, Forall_drop|]. rewrite length_take, length_drop. lia. }
    rewrite (proj2 (Z.eqb_neq _ _)) by lia. rewrite (IH j d' Hr') by lia. cbn [mbind res_bind]. f_equal. rewrite <- (take_drop (j - k) (drop k es)) at 2. rewrite drop_drop. do 2 f_equal. lia.
Qed.
Lemma ireaddir_rest es : forall n k d, reading d es k -> slack (db_buflen d) es -> (length es - k < n)%nat -> (k <= length es)%nat -> ireaddir_all n d = Ok (drop k es).
Proof.
  induction n as [|n IH]; intros k d Hr Hsl Hn Hk; [lia|]. cbn [ireaddir_all]. unfold initrd_readdir. destruct (decide (k = length es)) as [->|Hne].
  - pose proof (reading_end d es Hr) as [He Hpos]. rewrite He, Z.leb_refl, (proj2 (Z.eqb_neq _ _)) by lia. cbn [negb andb]. rewrite Z.eqb_refl. cbn [assert mbind res_bind]. by rewrite drop_all.
  - pose proof (reading_len d es k Hr ltac:(lia)) as (Hlt & _ & _). rewrite (proj2 (Z.leb_gt _ _)), andb_false_r by lia. pose proof Hr as (Hb & _). rewrite Hb. cbn [assert mbind res_bind]. destruct (lookup_lt_is_Some_2 es k) as [x Hx]; [lia|].
    destruct (take_dirent_ok d es k x Hr Hsl Hx) as (d' & -> & Hr' & Eb). cbn [mbind res_bind]. rewrite (IH (S k) d' Hr') by (rewrite ?Eb; done || lia). cbn [mbind res_bind]. by rewrite (drop_S es x k Hx).
Qed.
(** Entries of at most 76 bytes leave room for a longer one. *)
Lemma small_slack es n : Forall (fun x => d_reclen x <= 76) es -> zlen es <= n + 2 -> 1 <= n -> match es with x :: y :: _ => d_reclen x = 16 /\ d_reclen y = 16 | _ => True end -> slack (112 * n + 268) es.
Proof.
  intros H76 Hlen Hn Hd k Hk. unfold DIRENT_SIZE, dirent_fixed, MAXNAMLEN. assert (Hs : forall l, Forall (fun x => d_reclen x <= 76) l -> dents_len l <= 76 * zlen l) by (unfold zlen; induction 1 as [|x l Hx _ IH]; [done|]; cbn; unfold dents_len in *; lia).
  destruct es as [|x [|y es]]; [cbn in Hk; lia|destruct k; [cbn; lia|cbn in Hk; lia]|]. destruct Hd as [Hx Hy]. destruct k as [|[|k]]; [cbn; lia|cbn; lia|].
  change (dents_len (take (S (S k)) (x :: y :: es))) with (d_reclen x + (d_reclen y + dents_len (take k es))). inversion H76 as [|? ? _ H76']; subst. inversion H76' as [|? ? _ H76'']; subst. pose proof (Hs (take k es) (Forall_take _ _ _ H76'')). unfold zlen in *. cbn [length] in *. rewrite length_take in *. lia.
Qed.

(** Opening a file, the root directory; reading a directory. *)
Section tree.
Context (r : initrd) (Hwf : initrd_wf r) (mp dev : Z) (f : open_file) (fops dops : open_file_ops).
Lemma path_copy path s : cstr path s -> zlen s <= PATH_MAX -> exists b, strlcpy (replicate (Z.to_nat (PATH_MAX + 1)) 0) path (PATH_MAX + 1) = Ok (b, zlen s) /\ cstr b s.
Proof using Type.
  intros Hp Hl. rewrite (strlcpy_spec _ _ _ (PATH_MAX + 1) Hp) by (unfold zlen; rewrite length_replicate; unfold PATH_MAX; lia). rewrite (take_ge s) by (unfold PATH_MAX, zlen in *; lia). eexists. split; [done|]. eexists. split; [done|by eapply cstr_chars].
Qed.
Lemma initrd_open_ok comps t path : cstr path (render (comps ++ [t])) -> Forall name_ok comps -> name_ok t -> zlen (render comps) <= PATH_MAX -> zlen (render (comps ++ [t])) <= PATH_MAX ->
  initrd_open r mp dev path f fops dops = Ok (
    '(dir, _) ← iwalk r comps INITRD_ROOT_INODE INITRD_ROOT_INODE; '(i, h) ← child (entries r) INITRD_ROOT_INODE dir t;
    Some (mk_open_file (fcount f + 1) dev i i 0 (s32 (h_length h)) (h_mode h) mp (Some (render (comps ++ [t]))) (if S_ISDIR (h_mode h) then dops else fops) (fdata f))).
Proof using Hwf.
  intros Hp Hn Ht Hlen Hl. unfold initrd_open. destruct (path_copy path _ Hp Hl) as (b & -> & Hb). cbn [mbind res_bind].
  destruct (path_dirname_basename b comps t Hb Hn Ht) as ((pb & -> & Hpc & _) & (bb & -> & Hbc & _) & _). cbn [mbind res_bind].
  pose proof (opendir_initrd r Hwf mp comps pb Hpc Hn Hlen) as Ho. destruct (iwalk r comps INITRD_ROOT_INODE INITRD_ROOT_INODE) as [[dir parent]|]; [|by rewrite Ho]. destruct Ho as (d & B & h0 & -> & [-> _] & _ & _ & Hlt & _). cbn [mbind res_bind option_bind db_ino]. rewrite (proj2 (Z.ltb_lt _ _) Hlt). cbn [assert mbind res_bind].
  rewrite (find_child_ok dir bb t _ Hbc (entries_names r Hwf)). cbn [mbind res_bind]. destruct (child (entries r) INITRD_ROOT_INODE dir t) as [[i h]|]; [|done]. by rewrite (read_str_spec _ _ Hp).
Qed.
Lemma initrd_open_root path h : cstr path [SLASH] -> initrd_files r !! 1%nat = Some h -> h_parent h = INITRD_ROOT_INODE -> hname h = [SLASH] ->
  initrd_open r mp dev path f fops dops = Ok (Some (mk_open_file (fcount f + 1) dev INITRD_ROOT_INODE INITRD_ROOT_INODE 0 (s32 (h_length h)) (h_mode h) mp (Some [SLASH]) dops (fdata f))).
Proof using Hwf.
  intros Hp Hh Hpar Hname. unfold initrd_open. destruct (path_copy path _ Hp ltac:(by vm_compute)) as (b & -> & Hb). cbn [mbind res_bind]. destruct (dirname_spec b [] Hb (Forall_nil_2 _)) as (pb & -> & Hpc & _). cbn [mbind res_bind].
  assert (path_basename b = Ok b) as -> by (by destruct Hb as (rest & -> & _)). cbn [mbind res_bind]. pose proof (opendir_initrd r Hwf mp [] pb Hpc (Forall_nil_2 _) ltac:(by vm_compute)) as Ho. cbn [iwalk] in Ho. destruct Ho as (d & B & h0 & -> & [-> _] & _ & _ & Hlt & _).
  cbn [mbind res_bind db_ino]. rewrite (proj2 (Z.ltb_lt _ _) Hlt). cbn [assert mbind res_bind]. rewrite (find_child_ok _ b [SLASH] _ Hb (entries_names r Hwf)). cbn [mbind res_bind]. unfold entries. change (Z.to_nat INITRD_ROOT_INODE) with 1%nat. rewrite (drop_S _ h 1 Hh). cbn [child]. unfold is_child.
  rewrite Hpar, Hname, Z.eqb_refl, bool_decide_true by done. cbn [andb]. rewrite (read_str_spec _ _ Hp). cbn [mbind res_bind]. destruct (iw_root r Hwf) as (h1 & Hh1 & Hd). assert (h1 = h) as -> by congruence. by rewrite Hd.
Qed.
Lemma listing_fits dir parent B n : Forall (fun x => d_reclen x <= 76) (initrd_listing r dir parent mp) -> B = 112 * n + 268 -> Z.of_nat (length (kids (drop 2 (initrd_files r)) 2 dir mp)) <= n -> dents_len (initrd_listing r dir parent mp) < B.
Proof using Type.
  intros H76 HB Hk. assert (Hs : dents_len (kids (drop 2 (initrd_files r)) 2 dir mp) <= 76 * zlen (kids (drop 2 (initrd_files r)) 2 dir mp)). { inversion H76 as [|? ? _ H']; subst. inversion H' as [|? ? _ H'']; subst. clear -H''. unfold zlen. induction H'' as [|x l Hx _ IH]; [done|]. cbn. unfold dents_len in *. lia. }
  change (dents_len (initrd_listing r dir parent mp)) with (16 + (16 + dents_len (kids (drop 2 (initrd_files r)) 2 dir mp))). unfold zlen in Hs. lia.
Qed.
Lemma igetdents_initrd comps dir parent count : Forall name_ok comps -> zlen (render comps) <= PATH_MAX -> iwalk r comps INITRD_ROOT_INODE INITRD_ROOT_INODE = Some (dir, parent) -> fpath f = Some (render comps) -> 128 <= count ->
  let es := initrd_listing r dir parent mp in igetdents_all (S (S (length es))) r mp f None count = Ok es.
Proof using Hwf.
  intros Hn Hlen Hw Hf Hc es. pose proof (opendir_initrd r Hwf mp comps (render comps ++ [0])) as Ho. rewrite Hw in Ho. destruct Ho as (d & B & h0 & Hod & Hd & H76 & Hl & Hlt & HB & Hk); [by exists []; split; [done|apply render_ok]|done|done|]. fold es in Hd, H76.
  pose proof (holds_reading d dir mp B es Hd ltac:(done) (listing_fits dir parent B (h_length h0) H76 HB Hk)) as Hr. pose proof (igetdents_rest r mp f count es Hc H76 (S (S (length es))) 0 d Hr ltac:(lia) ltac:(lia)) as Hrest. rewrite drop_0 in Hrest.
  rewrite <- Hrest. cbn [igetdents_all]. f_equal. unfold initrd_getdents. rewrite (proj2 (Z.ltb_ge count 128)), Hf by lia. assert (render comps <> []) as Hrn by (by destruct comps). destruct (render comps) as [|c0 cr] eqn:Er; [done|]. cbn [assert mbind res_bind deref]. by rewrite Hod.
Qed.
Lemma ireaddir_initrd dir parent d B h : let es := initrd_listing r dir parent mp in holds d dir mp B es -> Forall (fun x => d_reclen x <= 76) es -> B = 112 * h_length h + 268 -> Z.of_nat (length (kids (drop 2 (initrd_files r)) 2 dir mp)) <= h_length h ->
  if h_length h =? 0 then initrd_readdir d = Panic else ireaddir_all (S (length es)) d = Ok es.
Proof using Type.
  intros es Hd H76 HB Hk. pose proof Hd as [Ed Hok]. destruct (Z.eqb_spec (h_length h) 0) as [E0|Hne].
  - assert (Ek : kids (drop 2 (initrd_files r)) 2 dir mp = []) by (destruct (kids _ _ _ _); [done|cbn [length] in Hk; lia]). unfold es, initrd_listing in Ed. rewrite Ek in Ed. rewrite Ed, HB, E0. done.
  - assert (Hlen2 : length es = S (S (length (kids (drop 2 (initrd_files r)) 2 dir mp)))) by done. assert (Hsl : slack B es) by (rewrite HB; apply small_slack; [done|unfold zlen; lia|lia|done]).
    pose proof (ireaddir_rest es (S (length es)) 0 d) as H. rewrite drop_0 in H. apply H; [apply (holds_reading d dir mp B); [done|done|by apply slack_len]|by rewrite Ed|lia|lia].
Qed.
End tree.

(** ** Theorems *)
(** C28: Reads and seeks on a file of the initrd, in any sequence, give the results and bytes of a file that is just its data (the part of the image
    its header points to) and a position, at the end of the file and beyond, EINVAL for an unknown [whence] and for a place before the start.  The one
    exception is a seek from the end to before the start: a sequence with one panics.  Positions stay below 2^31, and the
    length of a read does not lead the position beyond 2^32, where the code wraps around ([initrd_read_wraps]). *)
Theorem initrd_file_refines r h f ops : let data := file_data r h in initrd_rep r h data (foffset f) f -> ops_ok initrd_reads data (foffset f) ops ->
  run (initrd_op r) f ops = if existsb (before_start data) ops then Panic else Ok (spec_run data (foffset f) ops).
Proof. apply (run_refines (initrd_filesys r h)). Qed.
(** C29: Paths of the initrd: [initrd_open] takes the walk of the path through the headers and opens the file or directory of the last
    component, NULL when a component is missing or one on the way is not a directory; the path [/] opens the root directory.  [initrd_opendir] gives NULL for a path whose walk
    fails.  Of a directory it opens, [getdents], whatever its buffer of at least 128 bytes, gives [.], [..] with the parent, and every file of the
    directory exactly once, in the order of the headers; [readdir] gives the same when the header of the directory counts at least one file, and panics at the first entry
    of a directory whose header counts none. *)
Theorem initrd_tree_correct r mp dev comps path f fops dops : initrd_wf r -> Forall name_ok comps -> zlen (render comps) <= PATH_MAX ->
  (forall t, cstr path (render (comps ++ [t])) -> name_ok t -> zlen (render (comps ++ [t])) <= PATH_MAX ->
     initrd_open r mp dev path f fops dops = Ok (
       '(dir, _) ← iwalk r comps INITRD_ROOT_INODE INITRD_ROOT_INODE; '(i, h) ← child (entries r) INITRD_ROOT_INODE dir t;
       Some (mk_open_file (fcount f + 1) dev i i 0 (s32 (h_length h)) (h_mode h) mp (Some (render (comps ++ [t]))) (if S_ISDIR (h_mode h) then dops else fops) (fdata f)))) /\
  (forall h, cstr path [SLASH] -> initrd_files r !! 1%nat = Some h -> h_parent h = INITRD_ROOT_INODE -> hname h = [SLASH] ->
     initrd_open r mp dev path f fops dops = Ok (Some (mk_open_file (fcount f + 1) dev INITRD_ROOT_INODE INITRD_ROOT_INODE 0 (s32 (h_length h)) (h_mode h) mp (Some [SLASH]) dops (fdata f)))) /\
  match iwalk r comps INITRD_ROOT_INODE INITRD_ROOT_INODE with
  | None => cstr path (render comps) -> initrd_opendir r mp path = Ok None
  | Some (dir, parent) =>
     let es := initrd_listing r dir parent mp in
     (forall count, fpath f = Some (render comps) -> 128 <= count -> igetdents_all (S (S (length es))) r mp f None count = Ok es) /\
     (cstr path (render comps) -> exists d h, initrd_opendir r mp path = Ok (Some d) /\ initrd_files r !! Z.to_nat dir = Some h /\
        if h_length h =? 0 then initrd_readdir d = Panic else ireaddir_all (S (length es)) d = Ok es)
  end.
Proof.
  intros Hwf Hn Hlen. split_and!.
  - intros t Hp Ht Hl. by apply initrd_open_ok.
  - intros h Hp Hh Hpar Hname. by apply initrd_open_root.
  - pose proof (opendir_initrd r Hwf mp comps) as Ho. destruct (iwalk r comps INITRD_ROOT_INODE INITRD_ROOT_INODE) as [[dir parent]|] eqn:Hw; [|intros Hp; by apply Ho]. split.
    + intros count Hf Hc. by apply (igetdents_initrd r Hwf mp f comps).
    + intros Hp. destruct (Ho path Hp Hn Hlen) as (d & B & h & Hod & Hd & H76 & Hl & Hlt & HB & Hk). exists d, h. split; [done|]. split; [done|]. by apply (ireaddir_initrd r mp dir parent d B h).
Qed.

(** ** /etc/mounts *)
(** A line: the file system and the components of the path. *)
Definition mline : Type := list Z * list (list Z).
Definition line_text (l : mline) : list Z := l.1 ++ [32] ++ render l.2 ++ [10].
Definition line_ok (l : mline) : Prop :=
  l.1 <> [] /\ Forall (fun c => 32 < c < 128) l.1 /\ (length l.1 <= 15)%nat /\ head l.1 <> Some 35 /\
  Forall name_ok l.2 /\ Forall (fun c => path_char c = true) (render l.2) /\ zlen (render l.2) <= 255.
(** What the code does with a line: the mount point it takes, and what becomes of the list. *)
Definition target (fs : list Z) (m : mountp) : bool :=
  if bool_decide (fs = chars "fat") || bool_decide (fs = chars "ext2") then is_partition (m_dev m)
  else bool_decide (fs = chars "initrd") && bool_decide (m_dev m = InitrdDevice).
Fixpoint mounted (l : mline) (ms : list mountp) : list mountp :=
  match ms with
  | [] => []
  | m :: ms =>
      if target l.1 m then mk_mountp (m_dev m) (render l.2) (zlen l.2) (m_part m || is_partition (m_dev m)) :: ms
      else mk_mountp (m_dev m) (m_path m) (zlen l.2) (m_part m) :: mounted l ms
  end.
Definition apply_line (s : mounts) (l : mline) : mounts :=
  let hit := existsb (target l.1) (mpoints s) in
  mk_mounts (mounted l (mpoints s)) (root_mounted s || (hit && bool_decide (l.2 = []))) (initrd_mp s || (hit && bool_decide (l.1 = chars "initrd"))).

Lemma word_ok c : 32 < c < 128 -> junk c = false /\ word_char c = true.
Proof. intros Hc. unfold junk, word_char, schar. rewrite Z.mod_small by lia. split; [rewrite (proj2 (Z.leb_gt _ _)) by lia; done|apply Z.ltb_lt; lia]. Qed.
Lemma skip_junk u p : Forall (fun c => junk c = true) u -> (match p with c :: _ => junk c = false | [] => False end) -> skip_while junk (u ++ p) = Ok p.
Proof. induction 1 as [|c u Hc _ IH]; intros Hp; [destruct p as [|c p]; [done|]; cbn; by rewrite Hp|]. cbn. rewrite Hc. by apply IH. Qed.
Lemma copy_while_ok f u p : Forall (fun c => f c = true) u -> (match p with c :: _ => f c = false | [] => False end) -> forall b1 b2, (length u < length b2)%nat ->
  exists rest, copy_while f (u ++ p) (b1 ++ b2) (zlen b1) = Ok (p, b1 ++ u ++ 0 :: rest) /\ length (u ++ 0 :: rest) = length b2.
Proof.
  induction 1 as [|c u Hc _ IH]; intros Hp b1 [|x b2] Hl; cbn [length] in Hl; try lia; cbn [app copy_while].
  - destruct p as [|c p]; [done|]. cbn [copy_while]. rewrite Hp, aset_mid. exists b2. done.
  - rewrite Hc, aset_mid. cbn [mbind res_bind]. destruct (IH Hp (b1 ++ [c]) b2 ltac:(lia)) as (rest & Hrun & Hlr). rewrite <- app_assoc in Hrun. cbn [app] in Hrun. rewrite zlen_snoc in Hrun. rewrite Hrun. exists rest. rewrite <- app_assoc. split; [done|]. cbn. by f_equal.
Qed.
Lemma index_app t w c : c ∉ t -> forall k, index_of (t ++ w) c k = index_of w c (k + zlen t).
Proof.
  induction t as [|x t IH]; intros Hc k; [by rewrite Z.add_0_r|]. apply not_elem_of_cons in Hc as [Hx Hc]. cbn [app index_of]. rewrite (proj2 (Z.eqb_neq x c)) by congruence. rewrite IH by done. f_equal. rewrite zlen_cons. lia.
Qed.
Lemma depth_ok comps : Forall name_ok comps -> forall fuel b n, (length comps < fuel)%nat -> cstr b (tail (render comps)) -> path_depth fuel b n = Ok (n + zlen comps).
Proof.
  induction 1 as [|t comps Ht Hc IH]; intros [|fuel] b n Hf Hb; cbn [length] in Hf; try lia; cbn [path_depth].
  - destruct Hb as (r & -> & _). change (load (tail (render []) ++ 0 :: r)) with (Ok 0). cbn [mbind res_bind Z.eqb]. f_equal. unfold zlen. cbn. lia.
  - destruct Ht as (Htne & Htok & Hns & _). assert (Htl : tail (render (t :: comps)) = t ++ concat (map (cons SLASH) comps)) by done. rewrite Htl in Hb.
    assert (Hload : exists c, load b = Ok c /\ c <> 0). { destruct Hb as (r & -> & _). destruct t as [|c t]; [done|]. exists c. split; [done|]. inversion Htok; unfold char_ok in *; lia. }
    destruct Hload as (c & -> & Hc0). cbn [mbind res_bind]. rewrite (proj2 (Z.eqb_neq _ _) Hc0), (strchr_spec b _ SLASH ltac:(unfold char_ok, SLASH; lia) Hb), index_app by done. cbn [mbind res_bind].
    destruct comps as [|u comps]; cbn [map concat index_of]; [f_equal; rewrite zlen_cons, zlen_nil; lia|]. cbn [app index_of]. rewrite Z.eqb_refl.
    rewrite IH; [f_equal; rewrite !zlen_cons; lia|lia|]. apply cstr_drop in Hb. unfold padd. rewrite Z.add_0_l.
    assert (Hd : drop (Z.to_nat (zlen t + 1)) b = drop 1 (drop (length t) b)) by (rewrite drop_drop; f_equal; unfold zlen; lia). rewrite Hd. change (concat (map (cons SLASH) (u :: comps))) with ([SLASH] ++ tail (render (u :: comps))) in Hb. apply (cstr_drop _ [SLASH]) in Hb. exact Hb.
Qed.
Lemma mount_on_ok fs path l ms : cstr fs l.1 -> cstr path (render l.2) ->
  mount_on fs path (zlen l.2) ms = Ok (mounted l ms, if existsb (target l.1) ms then Some (bool_decide (l.1 = chars "initrd")) else None).
Proof.
  intros Hfs Hp. destruct (strcmp_is fs (lit "fat") _ (chars "fat") Hfs) as (c1 & E1 & H1); [by apply lit_check|]. destruct (strcmp_is fs (lit "ext2") _ (chars "ext2") Hfs) as (c2 & E2 & H2); [by apply lit_check|]. destruct (strcmp_is fs (lit "initrd") _ (chars "initrd") Hfs) as (c3 & E3 & H3); [by apply lit_check|].
  induction ms as [|m ms IH]; [done|]. cbn [mount_on mounted existsb m_dev m_part m_path]. rewrite E1, E2, E3, (read_str_spec _ _ Hp). cbn [mbind res_bind]. rewrite H1, H2, H3. unfold target in *. destruct (bool_decide (l.1 = chars "fat") || bool_decide (l.1 = chars "ext2")) eqn:Ed.
  - assert (bool_decide (l.1 = chars "initrd") = false) as Ei by (apply bool_decide_eq_false; intros E; rewrite E in Ed; done). destruct (is_partition (m_dev m)) eqn:Ep; cbn [orb]; [by rewrite Ei, orb_true_r|]. rewrite IH. done.
  - destruct (bool_decide (l.1 = chars "initrd")); cbn [andb]; [|rewrite IH; done]. destruct (decide (m_dev m = InitrdDevice)) as [D|D]; [rewrite bool_decide_true by done; cbn [orb]; rewrite D, orb_false_r; done|]. rewrite bool_decide_false by done. cbn [orb]. rewrite IH. done.
Qed.
Lemma mount_line_ok fs path l s : cstr fs l.1 -> cstr path (render l.2) -> Forall name_ok l.2 -> mount_line fs path (zlen l.2) s = Ok (apply_line s l).
Proof.
  intros Hfs Hp Hn. unfold mount_line. rewrite (mount_on_ok fs path l _ Hfs Hp). cbn [mbind res_bind]. destruct (strcmp_is path (lit "/") _ [SLASH] Hp slash_lit) as (c & -> & E). cbn [mbind res_bind]. unfold apply_line.
  assert (Er : bool_decide (render l.2 = [SLASH]) = bool_decide (l.2 = [])). { destruct l.2 as [|t comps] eqn:E2; [done|]. rewrite (bool_decide_false (t :: comps = [])) by done. apply bool_decide_eq_false. inversion Hn as [|? ? (Ht & _) _]; subst. by destruct t. }
  rewrite E, Er. by destruct (existsb _ _).
Qed.
Lemma path_comps_len comps : Forall name_ok comps -> (length comps <= length (render comps))%nat.
Proof. intros Hn. pose proof (fields_len [SLASH] (render comps)) as H. change (fields [SLASH] (render comps)) with (Path.split (render comps)) in H. by rewrite split_render in H by done. Qed.
Definition lines_text (ls : list mline) : list Z := concat (line_text <$> ls) ++ [0].
Lemma lines_head ls : Forall line_ok ls -> exists c p, lines_text ls = c :: p /\ junk c = false /\ (c =? 0) = (match ls with [] => true | _ => false end).
Proof.
  intros H. destruct H as [|[fs comps] ls (Hne & Hfs & _) _]; [by exists 0, []|]. cbn in Hne, Hfs. destruct fs as [|c fs]; [done|]. inversion Hfs as [|? ? Hc _]; subst. exists c. eexists. split; [done|]. split; [by apply word_ok|]. apply Z.eqb_neq. cbn in Hc. lia.
Qed.
(** One line. *)
Lemma mount_step fuel l ls mount path s : line_ok l -> Forall line_ok ls -> length mount = 16%nat -> length path = 256%nat ->
  exists mount' path', length mount' = 16%nat /\ length path' = 256%nat /\
    mount_loop (S fuel) (line_text l ++ lines_text ls) mount path s = (match ls with [] => Ok (apply_line s l) | _ => mount_loop fuel (lines_text ls) mount' path' (apply_line s l) end).
Proof.
  intros (Hne & Hfs & H15 & Hhash & Hn & Hpc & Hlen) Hls Hm Hp. destruct l as [fs comps]. cbn [fst snd] in *. unfold line_text. cbn [fst snd]. rewrite <- !app_assoc. set (q := lines_text ls).
  destruct (lines_head ls Hls) as (c0 & q' & Eq & Hj & Hz). fold q in Eq.
  destruct (copy_while_ok word_char fs ([32] ++ render comps ++ [10] ++ q)) with (b1 := @nil Z) (b2 := mount) as (r1 & Hc1 & Hl1); [eapply Forall_impl; [exact Hfs|]; intros c Hc; by apply word_ok|done|lia|].
  destruct (copy_while_ok path_char (render comps) ([10] ++ q) Hpc) with (b1 := @nil Z) (b2 := path) as (r2 & Hc2 & Hl2); [done|unfold zlen in Hlen; lia|]. cbn [app] in Hc1, Hc2. change (zlen (@nil Z)) with 0 in Hc1, Hc2.
  exists (fs ++ 0 :: r1), (render comps ++ 0 :: r2). split; [by rewrite Hl1|]. split; [by rewrite Hl2|].
  destruct fs as [|c fs]; [done|]. inversion Hfs as [|? ? Hc Hfs']; subst. assert (Hcj : junk c = false) by (by apply word_ok).
  cbn [mount_loop]. change ((c :: fs) ++ [32] ++ render comps ++ [10] ++ q) with (c :: fs ++ [32] ++ render comps ++ [10] ++ q) in *. assert (skip_while junk (c :: fs ++ [32] ++ render comps ++ [10] ++ q) = Ok (c :: fs ++ [32] ++ render comps ++ [10] ++ q)) as -> by (by apply (skip_junk [])) . cbn [mbind res_bind load head deref].
  rewrite (proj2 (Z.eqb_neq c 35)) by (intros ->; by apply Hhash). cbn [mbind res_bind load head deref]. rewrite (proj2 (Z.eqb_neq c 0)) by lia. cbn [app] in Hc1. cbn [app]. rewrite Hc1. cbn [mbind res_bind].
  assert (Hr0 : exists w, render comps = 47 :: w) by (destruct comps; by eexists). destruct Hr0 as (w & Ew).
  assert (skip_while junk (32 :: render comps ++ 10 :: q) = Ok (render comps ++ 10 :: q)) as -> by (apply (skip_junk [32]); [repeat constructor|by rewrite Ew]). cbn [mbind res_bind].
  assert (load (render comps ++ 10 :: q) = Ok 47) as -> by (by rewrite Ew). cbn [mbind res_bind Z.eqb negb assert]. rewrite Hc2. cbn [mbind res_bind].
  assert (skip_while junk (10 :: q) = Ok q) as -> by (apply (skip_junk [10]); [repeat constructor|by rewrite Eq]). cbn [mbind res_bind].
  assert (Hcp : cstr (render comps ++ 0 :: r2) (render comps)) by (eexists; split; [done|by apply render_ok]). assert (Hcm : cstr (c :: fs ++ 0 :: r1) (c :: fs)) by (exists r1; split; [done|eapply Forall_impl; [exact Hfs|]; unfold char_ok; cbn; lia]).
  assert (Htl : cstr (padd (render comps ++ 0 :: r2) 1) (tail (render comps))) by (rewrite Ew in Hcp |- *; exact (cstr_drop _ [47] w Hcp)).
  rewrite (depth_ok comps Hn 256 _ 0) by (try done; pose proof (path_comps_len comps Hn); unfold zlen in Hlen; lia). cbn [mbind res_bind]. rewrite Z.add_0_l. pose proof (mount_line_ok _ _ (c :: fs, comps) s Hcm Hcp Hn) as Hml. cbn [snd] in Hml. rewrite Hml. cbn [mbind res_bind]. rewrite Eq. cbn [load head deref mbind res_bind]. rewrite Hz. by destruct ls.
Qed.
Lemma mount_loop_ok ls : forall l fuel mount path s, line_ok l -> Forall line_ok ls -> length mount = 16%nat -> length path = 256%nat -> (length ls < fuel)%nat ->
  mount_loop fuel (lines_text (l :: ls)) mount path s = Ok (foldl apply_line s (l :: ls)).
Proof.
  induction ls as [|l' ls IH]; intros l [|fuel] mount path s Hl Hls Hm Hp Hf; cbn [length] in Hf; try lia.
  - destruct (mount_step fuel l [] mount path s Hl Hls Hm Hp) as (m' & p' & _ & _ & E). unfold lines_text in *. rewrite fmap_cons. cbn [concat]. rewrite <- app_assoc. exact E.
  - destruct (mount_step fuel l (l' :: ls) mount path s Hl Hls Hm Hp) as (m' & p' & Hm' & Hp' & E). inversion Hls; subst. assert (Et : lines_text (l :: l' :: ls) = line_text l ++ lines_text (l' :: ls)) by (unfold lines_text; rewrite (fmap_cons _ l); cbn [concat]; by rewrite <- app_assoc).
    rewrite Et, E. change (foldl apply_line s (l :: l' :: ls)) with (foldl apply_line (apply_line s l) (l' :: ls)). by apply IH; [..|lia].
Qed.
Lemma find_mounts_ok all pre h post d e : Forall (fun x => cstr (h_name x) (hname x)) all -> all = pre ++ h :: post -> Forall (fun x => hname x <> chars "mounts") pre -> hname h = chars "mounts" ->
  0 <= h_parent h -> d = Z.to_nat (h_parent h) -> all !! d = Some e -> hname e = chars "etc" -> h_parent e = INITRD_ROOT_INODE -> find_mounts all all 0 = Ok (Some (zlen pre)).
Proof.
  intros Hall Eall Hpre Hh Hp0 Hd He Hen Hep. assert (Hc : forall x, x ∈ all -> exists c, strcmp (h_name x) (lit "mounts") = Ok c /\ (c =? 0) = bool_decide (hname x = chars "mounts")).
  { intros x Hx. rewrite Forall_forall in Hall. apply strcmp_is; [by apply Hall|by apply lit_check]. }
  rewrite Eall at 2. assert (Hsub : forall x, x ∈ pre ++ h :: post -> x ∈ all) by (by rewrite Eall). clear Eall. change (zlen pre) with (0 + zlen pre). generalize 0 at 1 2 as i. revert Hsub. induction Hpre as [|x pre Hx _ IH]; intros Hsub i; cbn [app find_mounts].
  - destruct (Hc h) as (c & -> & E); [apply Hsub; left|]. cbn [mbind res_bind]. rewrite E, bool_decide_true by done. unfold aget. rewrite (proj2 (Z.ltb_ge _ _) Hp0), <- Hd, He. cbn [deref mbind res_bind]. rewrite Hep, Z.eqb_refl.
    destruct (strcmp_is (h_name e) (lit "etc") (hname e) (chars "etc")) as (c' & -> & E'); [rewrite Forall_forall in Hall; apply Hall; by eapply list_elem_of_lookup_2|by apply lit_check|]. cbn [mbind res_bind]. rewrite E', bool_decide_true by done. do 2 f_equal. unfold zlen. cbn. lia.
  - destruct (Hc x) as (c & -> & E); [apply Hsub; left|]. cbn [mbind res_bind]. rewrite E, bool_decide_false by done. cbn [mbind res_bind]. rewrite IH; [do 2 f_equal; rewrite zlen_cons; lia|]. intros y Hy. apply Hsub. by right.
Qed.
Lemma lines_count ls : (length ls <= length (concat (line_text <$> ls)))%nat.
Proof. induction ls as [|l ls IH]; [done|]. rewrite fmap_cons. cbn [concat length]. rewrite length_app. unfold line_text at 1. rewrite !length_app. cbn [length]. lia. Qed.
(** The code carries out the lines in order. *)
Lemma fs_mount_runs r ms pre h post e l ls : ms <> [] -> Forall (fun x => cstr (h_name x) (hname x)) (initrd_files r) -> initrd_files r = pre ++ h :: post -> Forall (fun x => hname x <> chars "mounts") pre ->
  hname h = chars "mounts" -> 0 <= h_parent h -> initrd_files r !! Z.to_nat (h_parent h) = Some e -> hname e = chars "etc" -> h_parent e = INITRD_ROOT_INODE ->
  header_wf r h -> file_data r h = concat (line_text <$> (l :: ls)) -> line_ok l -> Forall line_ok ls ->
  let s := foldl apply_line (mk_mounts ms false false) (l :: ls) in
  fs_mount r ms = if root_mounted s && initrd_mp s then Ok s else Panic.
Proof.
  intros Hms Hall Eall Hpre Hh Hp0 He Hen Hep Hhw Hdata Hl Hls s. unfold fs_mount. assert (negb (zlen ms =? 0) = true) as -> by (destruct ms; [done|]; rewrite zlen_cons; pose proof (zlen_nonneg ms); apply negb_true_iff, Z.eqb_neq; lia). cbn [assert mbind res_bind].
  rewrite (find_mounts_ok _ pre h post _ e Hall Eall Hpre Hh Hp0 eq_refl He Hen Hep). cbn [mbind res_bind]. assert (aget (initrd_files r) (zlen pre) = Ok h) as -> by (rewrite Eall; apply aget_mid). cbn [mbind res_bind].
  assert (bytes (image r) (h_offset h - location r) (h_length h) = Ok (file_data r h)) as ->. { pose proof Hhw as (H1 & H2 & H3 & H4). unfold bytes. rewrite !(proj2 (Z.leb_le _ _)) by lia. done. }
  cbn [mbind res_bind]. rewrite Hdata. fold (lines_text (l :: ls)). destruct (lines_head (l :: ls)) as (c & p & E & _ & Hz); [by constructor|]. rewrite E at 1. cbn [load head deref mbind res_bind]. rewrite Hz. cbn [negb assert mbind res_bind].
  rewrite mount_loop_ok; [|done|done|done|done|pose proof (lines_count (l :: ls)) as Hc; unfold lines_text; rewrite length_app; cbn [length] in *; lia]. cbn [mbind res_bind]. fold s. destruct (root_mounted s); [|done]. by destruct (initrd_mp s).
Qed.

(** What the lines are meant to do: a line asks for the file system of its name. *)
Definition asks (l : mline) (d : device) : bool :=
  match d with
  | FatDevice => bool_decide (l.1 = chars "fat") | Ext2Device => bool_decide (l.1 = chars "ext2") | InitrdDevice => bool_decide (l.1 = chars "initrd") | NoDevice => false
  end.
Definition asked (ls : list mline) (d : device) : option mline := last (filter (fun l => asks l d = true) ls).
(** At most one partition and one initrd; the lines for a partition name its kind. *)
Definition table_ok (ds : list device) (ls : list mline) : Prop :=
  (length (filter (fun d => is_partition d = true) ds) <= 1)%nat /\ (length (filter (fun d => d = InitrdDevice) ds) <= 1)%nat /\
  Forall (fun l => (l.1 = chars "fat" -> Ext2Device ∉ ds) /\ (l.1 = chars "ext2" -> FatDevice ∉ ds)) ls.

Lemma mounted_devs l ms : m_dev <$> mounted l ms = m_dev <$> ms.
Proof. induction ms as [|m ms IH]; [done|]. cbn [mounted]. destruct (target l.1 m); cbn; [done|]. by f_equal. Qed.
Lemma target_asks ds ls l m : table_ok ds ls -> l ∈ ls -> m_dev m ∈ ds -> target l.1 m = asks l (m_dev m).
Proof.
  intros (_ & _ & Hk) Hl Hm. rewrite Forall_forall in Hk. destruct (Hk l Hl) as [Hf He]. unfold target, asks. destruct (m_dev m) eqn:E; cbn [is_partition]; repeat case_bool_decide; cbn [orb andb]; try done; exfalso; first [congruence|by apply Hf|by apply He|match goal with A : l.1 = _, B : l.1 = _ |- _ => rewrite A in B; vm_compute in B; discriminate B end].
Qed.
Lemma existsb_asks ds ls l ms : table_ok ds ls -> l ∈ ls -> m_dev <$> ms = ds -> existsb (target l.1) ms = existsb (asks l) ds.
Proof.
  intros Ht Hl <-. assert (Hin : Forall (fun m => m_dev m ∈ m_dev <$> ms) ms) by (apply Forall_forall; intros m Hm; by apply list_elem_of_fmap_2). revert Hin Ht. generalize (m_dev <$> ms) at 1 2. intros ds Hin Ht.
  induction Hin as [|m ms Hm _ IH]; [done|]. cbn. by rewrite (target_asks ds ls l m), IH.
Qed.
Lemma filter_weaken {A} (P Q : A -> Prop) `{!forall x, Decision (P x)} `{!forall x, Decision (Q x)} l : (forall x, P x -> Q x) -> (length (filter P l) <= length (filter Q l))%nat.
Proof. intros HPQ. induction l as [|x l IH]; [done|]. rewrite !filter_cons. destruct (decide (P x)) as [Hp|]; [rewrite decide_True by auto; cbn; lia|]. destruct (decide (Q x)); cbn; lia. Qed.
Lemma filter_take {A} (P : A -> Prop) `{!forall x, Decision (P x)} l n : (length (filter P (take n l)) <= length (filter P l))%nat.
Proof. rewrite <- (take_drop n l) at 2. rewrite filter_app, length_app. lia. Qed.
(** A line asks for at most one mount point. *)
Lemma asks_once ds ls l : table_ok ds ls -> (length (filter (fun d => asks l d = true) ds) <= 1)%nat.
Proof.
  intros (Hp & Hi & _). destruct (decide (l.1 = chars "initrd")) as [E|Hn].
  - etransitivity; [|exact Hi]. apply filter_weaken. intros []; cbn; rewrite ?E; done.
  - etransitivity; [|exact Hp]. apply filter_weaken. intros []; unfold asks; cbn; try done. by rewrite bool_decide_false.
Qed.
(** A line at the mount point number [i]. *)
Lemma mounted_at l ms : (length (filter (fun m => target l.1 m = true) ms) <= 1)%nat -> forall i m, ms !! i = Some m ->
  exists m', mounted l ms !! i = Some m' /\ m_dev m' = m_dev m /\ m_path m' = (if target l.1 m then render l.2 else m_path m) /\ m_part m' = m_part m || (target l.1 m && is_partition (m_dev m)) /\
    m_depth m' = (if existsb (target l.1) (take i ms) then m_depth m else zlen l.2).
Proof.
  induction ms as [|x ms IH]; intros H1 i m Hi; [done|]. rewrite filter_cons in H1. cbn [mounted]. destruct (target l.1 x) eqn:Ex.
  - rewrite decide_True in H1 by done. cbn [length] in H1. destruct i as [|i]; [injection Hi as <-; rewrite Ex; eexists; split; [done|]; cbn; done|]. exists m. split; [done|]. cbn [take existsb]. rewrite Ex. cbn [orb].
    assert (target l.1 m = false) as ->. { destruct (target l.1 m) eqn:Em; [|done]. assert (Hin : m ∈ filter (fun m => target l.1 m = true) ms) by (apply list_elem_of_filter; split; [done|by eapply list_elem_of_lookup_2]). destruct (filter _ ms); [by apply not_elem_of_nil in Hin|cbn in H1; lia]. }
    cbn [andb]. by rewrite orb_false_r.
  - rewrite decide_False in H1 by congruence. destruct i as [|i]; [injection Hi as <-; rewrite Ex; eexists; split; [done|]; cbn; by rewrite orb_false_r|]. cbn [take existsb]. rewrite Ex. cbn [orb]. by apply IH.
Qed.

Section table.
Context (ms : list mountp) (L : list mline) (Hok : table_ok (m_dev <$> ms) L).
Definition after (ls : list mline) : mounts := foldl apply_line (mk_mounts ms false false) ls.
Lemma after_snoc ls l : after (ls ++ [l]) = apply_line (after ls) l.
Proof using Type. unfold after. by rewrite foldl_app. Qed.
Lemma after_devs ls : m_dev <$> mpoints (after ls) = m_dev <$> ms.
Proof using Type. induction ls as [|l ls IH] using rev_ind; [done|]. rewrite after_snoc. cbn. by rewrite mounted_devs. Qed.
Lemma after_flags ls : ls ⊆ L -> root_mounted (after ls) = existsb (fun l => bool_decide (l.2 = []) && existsb (asks l) (m_dev <$> ms)) ls /\ initrd_mp (after ls) = existsb (fun l => bool_decide (l.1 = chars "initrd") && existsb (asks l) (m_dev <$> ms)) ls.
Proof using Hok.
  induction ls as [|l ls IH] using rev_ind; intros Hs; [done|]. destruct (IH ltac:(set_solver)) as [E1 E2]. rewrite after_snoc, !existsb_app. cbn [apply_line root_mounted initrd_mp existsb]. rewrite !orb_false_r.
  rewrite E1, E2, (existsb_asks _ L l _ Hok ltac:(set_solver) (after_devs ls)). split; f_equal; apply andb_comm.
Qed.
(** A line after some: what it does to the mount point number [i]. *)
Lemma after_step ls l i m : ls ++ [l] ⊆ L -> mpoints (after ls) !! i = Some m ->
  exists m', mpoints (after (ls ++ [l])) !! i = Some m' /\ m_dev m' = m_dev m /\ m_path m' = (if asks l (m_dev m) then render l.2 else m_path m) /\ m_part m' = m_part m || (asks l (m_dev m) && is_partition (m_dev m)) /\
    m_depth m' = (if existsb (asks l) (take i (m_dev <$> ms)) then m_depth m else zlen l.2).
Proof using Hok.
  intros Hs Hi. rewrite after_snoc. assert (Hl : l ∈ L) by set_solver. pose proof (after_devs ls) as Hd. assert (Hin : forall x, x ∈ mpoints (after ls) -> m_dev x ∈ m_dev <$> ms) by (intros x Hx; rewrite <- Hd; by apply list_elem_of_fmap_2).
  pose proof (mounted_at l (mpoints (after ls))) as H. destruct (H) with (i := i) (m := m) as (m' & H1 & H2 & H3 & H4 & H5); [|done|].
  - etransitivity; [|apply (asks_once _ L l Hok)]. rewrite <- Hd. clear -Hin Hok Hl. revert Hin. induction (mpoints (after ls)) as [|x xs IH]; intros Hin; [done|]. cbn [fmap list_fmap]. rewrite !filter_cons, (target_asks _ L l x Hok Hl) by (apply Hin; by left). destruct (decide _); cbn; [apply le_n_S|]; apply IH; intros y Hy; apply Hin; by right.
  - exists m'. rewrite (target_asks _ L l m Hok Hl) in H3, H4 by (apply Hin; by eapply list_elem_of_lookup_2). split_and!; try done. rewrite H5, <- Hd, <- fmap_take.
    rewrite (existsb_asks (m_dev <$> take i (mpoints (after ls))) L l); [done| |done|done]. destruct Hok as (O1 & O2 & O3). rewrite <- Hd in O1, O2, O3. split_and!.
    + etransitivity; [|exact O1]. rewrite fmap_take. apply filter_take.
    + etransitivity; [|exact O2]. rewrite fmap_take. apply filter_take.
    + eapply Forall_impl; [exact O3|]. intros y [Hy1 Hy2]. split; intros E; [specialize (Hy1 E)|specialize (Hy2 E)]; intros Hx; [apply Hy1|apply Hy2]; eapply elem_of_sublist; [exact Hx| |exact Hx|]; apply fmap_sublist, sublist_take.
Qed.
Lemma after_at ls i m : ls ⊆ L -> ms !! i = Some m -> exists m', mpoints (after ls) !! i = Some m' /\ m_dev m' = m_dev m /\ m_path m' = (match asked ls (m_dev m) with Some l => render l.2 | None => m_path m end) /\
  m_part m' = m_part m || (is_partition (m_dev m) && bool_decide (is_Some (asked ls (m_dev m)))).
Proof using Hok.
  intros Hs Hi. induction ls as [|l ls IH] using rev_ind; [exists m; split_and!; [done..|]; cbn; by rewrite andb_false_r, orb_false_r|]. destruct IH as (m1 & H1 & H2 & H3 & H4); [set_solver|]. destruct (after_step ls l i m1 Hs H1) as (m' & G1 & G2 & G3 & G4 & _).
  exists m'. split; [done|]. split; [congruence|]. unfold asked in *. rewrite filter_app, filter_cons, filter_nil, H2 in *. destruct (asks l (m_dev m)) eqn:Ea.
  - rewrite decide_True, last_snoc by done. split; [done|]. rewrite G4, H4. cbn [andb]. rewrite (bool_decide_true (is_Some (Some l))) by done. by destruct (m_part m), (is_partition (m_dev m)), (bool_decide _).
  - rewrite decide_False, app_nil_r by done. split; [congruence|]. rewrite G4, H4. cbn [andb]. by rewrite orb_false_r.
Qed.
Lemma after_depth L1 l0 L2 i m m' : L = L1 ++ l0 :: L2 -> ms !! i = Some m -> asks l0 (m_dev m) = true -> Forall (fun l => existsb (asks l) (take i (m_dev <$> ms)) = true) L2 -> mpoints (after L) !! i = Some m' -> m_depth m' = zlen l0.2.
Proof using Hok.
  intros EL Hi Ha H2 Hm'. enough (exists x, mpoints (after (L1 ++ l0 :: L2)) !! i = Some x /\ m_depth x = zlen l0.2) as (x & Hx & Ex) by (rewrite EL in Hm'; congruence). assert (Hsub : L1 ++ l0 :: L2 ⊆ L) by (by rewrite EL). clear EL Hm'. induction L2 as [|l L2 IH] using rev_ind.
  - destruct (after_at L1 i m ltac:(set_solver) Hi) as (m1 & H1 & Hd & _). destruct (after_step L1 l0 i m1 Hsub H1) as (x & G1 & _ & _ & _ & G5). exists x. split; [done|]. rewrite G5. destruct (existsb (asks l0) (take i (m_dev <$> ms))) eqn:Ex; [|done]. exfalso.
    apply existsb_exists in Ex as (d & Hd1 & Hd2). apply list_elem_of_In, list_elem_of_lookup in Hd1 as (j & Hj). apply lookup_take_Some in Hj as [Hj Hlt]. pose proof (asks_once _ L l0 Hok) as Hone. rewrite <- (take_drop_middle (m_dev <$> ms) j d Hj), filter_app, filter_cons, decide_True, length_app in Hone by done. cbn [length] in Hone.
    assert (Hin : m_dev m ∈ filter (fun d => asks l0 d = true) (drop (S j) (m_dev <$> ms))). { apply list_elem_of_filter. split; [done|]. apply (list_elem_of_lookup_2 _ (i - S j)). rewrite lookup_drop. replace (S j + (i - S j))%nat with i by lia. by rewrite list_lookup_fmap, Hi. }
    destruct (filter _ (drop _ _)); [by apply not_elem_of_nil in Hin|cbn [length] in Hone; lia].
  - apply Forall_app in H2 as [H2 Hl]. destruct IH as (x & Hx & Ex); [done|set_solver|]. rewrite app_comm_cons, app_assoc in *. destruct (after_step (L1 ++ l0 :: L2) l i x Hsub Hx) as (y & G1 & _ & _ & _ & G5). exists y. split; [done|]. rewrite G5, (Forall_inv Hl). done.
Qed.
End table.

(** C31: Mounting: with /etc/mounts a list of lines of a file system and an absolute path, at most one partition and one initrd among the mount points, and lines for a partition
    that name its kind (with two partitions, or the other kind, a line goes to the first one, [fs_mount_first_partition]): [fs_mount] gives each mount point the path of the last line for its
    file system; its depth is the number of components of that path when all lines after it are for mount points in front of it in the list (a line overwrites the depth of those
    it passes over, [fs_mount_depth_lost]); and it panics unless a line puts a file system on / and a line mounts the initrd. *)
Theorem fs_mount_correct r ms pre h post e l ls : ms <> [] -> Forall (fun x => cstr (h_name x) (hname x)) (initrd_files r) -> initrd_files r = pre ++ h :: post -> Forall (fun x => hname x <> chars "mounts") pre ->
  hname h = chars "mounts" -> 0 <= h_parent h -> initrd_files r !! Z.to_nat (h_parent h) = Some e -> hname e = chars "etc" -> h_parent e = INITRD_ROOT_INODE ->
  header_wf r h -> file_data r h = concat (line_text <$> (l :: ls)) -> line_ok l -> Forall line_ok ls ->
  let L := l :: ls in let ds := m_dev <$> ms in table_ok ds L ->
  if existsb (fun l => bool_decide (l.2 = []) && existsb (asks l) ds) L && existsb (fun l => bool_decide (l.1 = chars "initrd") && existsb (asks l) ds) L then
    exists t, fs_mount r ms = Ok (mk_mounts t true true) /\ m_dev <$> t = ds /\
      forall i m, ms !! i = Some m -> exists m', t !! i = Some m' /\
        m_path m' = (match asked L (m_dev m) with Some l => render l.2 | None => m_path m end) /\
        m_part m' = m_part m || (is_partition (m_dev m) && bool_decide (is_Some (asked L (m_dev m)))) /\
        forall L1 l0 L2, L = L1 ++ l0 :: L2 -> asks l0 (m_dev m) = true -> Forall (fun l => existsb (asks l) (take i ds) = true) L2 -> m_depth m' = zlen l0.2
  else fs_mount r ms = Panic.
Proof.
  intros Hms Hall Eall Hpre Hh Hp0 He Hen Hep Hhw Hdata Hl Hls L ds Hok. rewrite (fs_mount_runs r ms pre h post e l ls) by done. fold L. fold (after ms L). destruct (after_flags ms L Hok L ltac:(done)) as [-> ->]. fold ds. destruct (_ && _) eqn:Ef; [|done].
  exists (mpoints (after ms L)). apply andb_true_iff in Ef as [E1 E2]. destruct (after_flags ms L Hok L ltac:(done)) as [F1 F2]. fold ds in F1, F2. rewrite E1 in F1. rewrite E2 in F2. split; [destruct (after ms L); cbn in *; by subst|]. split; [apply after_devs|].
  intros i m Hi. destruct (after_at ms L Hok L i m ltac:(done) Hi) as (m' & H1 & H2 & H3 & H4). exists m'. split_and!; [done..|]. intros L1 l0 L2 EL Ha HL2. by apply (after_depth ms L Hok L1 l0 L2 i m m').
Qed.

(** ** An image *)
Definition header_bytes (parent ino : Z) (name : list Z) (mode off len : Z) : list Z :=
  le32 parent ++ le32 ino ++ le32 1000 ++ take 64 (name ++ replicate 64 0) ++ le32 mode ++ le32 off ++ le32 len.
Definition nl : list Z := [10].
Definition demo_mounts : list Z := chars "initrd /" ++ nl ++ chars "ext2 /mnt/ext2" ++ nl.
Definition demo_image : list Z :=
  le32 5 ++ header_bytes 0 0 [] 0x4000 0 0 ++ header_bytes 1 1 (chars "/") 0x41ed 0 3 ++ header_bytes 1 2 (chars "etc") 0x41ed 0 1 ++
  header_bytes 2 3 (chars "mounts") 0x8124 444 (zlen demo_mounts) ++ header_bytes 1 4 (chars "empty") 0x41ed 0 0 ++ demo_mounts.
Definition demo_initrd : initrd := match init_initrd 0x100000 demo_image with Ok r => r | _ => mk_initrd 0 [] [] end.
Definition demo_header : initrd_file_header := mk_header 2 3 1000 (take 64 (chars "mounts" ++ replicate 64 0)) 0x8124 (0x100000 + 444) (zlen demo_mounts).

Lemma demo_initrd_wf : initrd_wf demo_initrd.
Proof.
  constructor.
  - repeat apply Forall_cons_2; try apply Forall_nil_2; (split; [|by vm_compute]); eexists; (split; [vm_compute; reflexivity|vm_compute; repeat constructor]).
  - intros [|[|[|[|[|i]]]]] h Hi H; try lia; vm_compute in H; by injection H as <- || done.
  - eexists. split; [vm_compute; reflexivity|by vm_compute].
  - intros [|[|[|[|[|i]]]]] h H Hd; vm_compute in H; try (injection H as <-); try done; vm_compute; split; done.
Qed.
Lemma demo_rep : initrd_rep demo_initrd demo_header (file_data demo_initrd demo_header) 0 (mk_open_file 1 0 3 3 0 0 0 0 None (mk_fops 0 0 0 0 0 0) 0).
Proof. split_and!; try done; vm_compute; done. Qed.
Lemma initrd_file_witness : run (initrd_op demo_initrd) (mk_open_file 1 0 3 3 0 0 0 0 None (mk_fops 0 0 0 0 0 0) 0) [Read 6; Seek 1 1; Read 1; Seek (-5) 2; Read 100; Read 7; Seek 3 9] =
  Ok [(Val 6, chars "initrd"); (Val 7, []); (Val 1, chars "/"); (Val 19, []); (Val 5, chars "ext2" ++ nl); (Val 0, []); (Err EINVAL, [])].
Proof.
  rewrite (initrd_file_refines demo_initrd demo_header _ _ demo_rep); [vm_compute; reflexivity|]. vm_compute. repeat split; done.
Defined.
Lemma initrd_tree_witness : (exists f, initrd_open demo_initrd 0 0 (lit "/etc/mounts") zero_file (mk_fops 1 0 1 1 1 0) (mk_fops 1 0 1 1 1 1) = Ok (Some f) /\ fino f = 3 /\ fsize f = 24) /\
  (exists f, initrd_open demo_initrd 0 0 (lit "/") zero_file (mk_fops 1 0 1 1 1 0) (mk_fops 1 0 1 1 1 1) = Ok (Some f) /\ fino f = 1) /\
  (exists d, initrd_opendir demo_initrd 0 (lit "/etc") = Ok (Some d) /\ ireaddir_all 4 d = Ok [mk_dirent 2 0 16 4 1 (chars "."); mk_dirent 1 0 16 4 2 (chars ".."); mk_dirent 3 0 20 8 6 (chars "mounts")]) /\
  (exists d, initrd_opendir demo_initrd 0 (lit "/empty") = Ok (Some d) /\ initrd_readdir d = Panic) /\
  initrd_opendir demo_initrd 0 (lit "/etc/mounts") = Ok None.
Proof.
  pose proof (fun comps path Hc Hl => initrd_tree_correct demo_initrd 0 0 comps path zero_file (mk_fops 1 0 1 1 1 0) (mk_fops 1 0 1 1 1 1) demo_initrd_wf (names_check comps Hc) Hl) as T. split_and!.
  - destruct (T [chars "etc"] (lit "/etc/mounts") eq_refl ltac:(by vm_compute)) as [H _].
    eexists. split; [apply (H (chars "mounts")); [by apply lit_check|by apply (Forall_inv (names_check [chars "mounts"] eq_refl))|by vm_compute]|split; vm_compute; reflexivity].
  - destruct (T [] (lit "/") eq_refl ltac:(by vm_compute)) as (_ & H & _). eexists. split; [eapply H; [by apply lit_check|vm_compute; reflexivity..]|done].
  - destruct (T [chars "etc"] (lit "/etc") eq_refl ltac:(by vm_compute)) as (_ & _ & H). set (es := initrd_listing demo_initrd 2 1 0). change (iwalk demo_initrd [chars "etc"] INITRD_ROOT_INODE INITRD_ROOT_INODE) with (Some (2, 1)) in H. destruct H as [_ H].
    destruct H as (d & h & Hd & Hh & Hr); [by apply lit_check|]. exists d. split; [exact Hd|]. vm_compute in Hh. injection Hh as <-. cbn [h_length Z.eqb] in Hr. etransitivity; [exact Hr|]. vm_compute. reflexivity.
  - destruct (T [chars "empty"] (lit "/empty") eq_refl ltac:(by vm_compute)) as (_ & _ & H). change (iwalk demo_initrd [chars "empty"] INITRD_ROOT_INODE INITRD_ROOT_INODE) with (Some (4, 1)) in H. destruct H as [_ H].
    destruct H as (d & h & Hd & Hh & Hr); [by apply lit_check|]. exists d. split; [exact Hd|]. vm_compute in Hh. injection Hh as <-. exact Hr.
  - destruct (T [chars "etc"; chars "mounts"] (lit "/etc/mounts") eq_refl ltac:(by vm_compute)) as (_ & _ & H). change (iwalk demo_initrd [chars "etc"; chars "mounts"] INITRD_ROOT_INODE INITRD_ROOT_INODE) with (@None (Z * Z)) in H. apply H. by apply lit_check.
Defined.
Lemma fs_mount_witness : exists t, fs_mount demo_initrd [mk_mountp Ext2Device [] 0 false; mk_mountp InitrdDevice [] 0 false] = Ok (mk_mounts t true true) /\
  (exists m, t !! 0%nat = Some m /\ m_path m = chars "/mnt/ext2" /\ m_depth m = 2) /\ exists m, t !! 1%nat = Some m /\ m_path m = chars "/" /\ m_depth m = 0.
Proof.
  assert (Hok : Forall line_ok [(chars "initrd", []); (chars "ext2", [chars "mnt"; chars "ext2"])]).
  { repeat apply Forall_cons_2; try apply Forall_nil_2; (split_and!; [done|cbn; repeat constructor; lia|cbn; lia|done|by apply names_check|cbn; repeat constructor|by vm_compute]). }
  pose proof (fs_mount_correct demo_initrd [mk_mountp Ext2Device [] 0 false; mk_mountp InitrdDevice [] 0 false] (take 3 (initrd_files demo_initrd)) demo_header (drop 4 (initrd_files demo_initrd)) (mk_header 1 2 1000 (take 64 (chars "etc" ++ replicate 64 0)) 0x41ed 0x100000 1) (chars "initrd", []) [(chars "ext2", [chars "mnt"; chars "ext2"])]) as T.
  match type of T with _ -> _ -> _ -> _ -> _ -> _ -> _ -> _ -> _ -> _ -> _ -> _ -> _ -> ?P => enough P as T' end.
  - destruct T' as (t & Ht & _ & Hm).
    + split_and!; [vm_compute; lia|vm_compute; lia|]. repeat apply Forall_cons_2; try apply Forall_nil_2; split; cbn; try done; intros _ H; inversion H as [|? ? ? H']; subst; inversion H' as [|? ? ? H'']; subst; inversion H''.
    + exists t. split; [exact Ht|]. split.
      * destruct (Hm 0%nat _ eq_refl) as (m & H1 & H2 & _ & H3). exists m. split; [exact H1|]. split; [rewrite H2; vm_compute; reflexivity|]. apply (H3 [(chars "initrd", [])] (chars "ext2", [chars "mnt"; chars "ext2"]) []); [done|by vm_compute|constructor].
      * destruct (Hm 1%nat _ eq_refl) as (m & H1 & H2 & _ & H3). exists m. split; [exact H1|]. split; [rewrite H2; vm_compute; reflexivity|]. apply (H3 [] (chars "initrd", []) [(chars "ext2", [chars "mnt"; chars "ext2"])]); [done|by vm_compute|repeat constructor].
  - apply T; clear T.
    + done.
    + eapply Forall_impl; [apply (iw_names _ demo_initrd_wf)|]. by intros x [Hx _].
    + vm_compute. reflexivity.
    + repeat apply Forall_cons_2; try apply Forall_nil_2; vm_compute; done.
    + vm_compute. reflexivity.
    + vm_compute. done.
    + vm_compute. reflexivity.
    + vm_compute. reflexivity.
    + vm_compute. reflexivity.
    + apply demo_rep.
    + vm_compute. reflexivity.
    + apply (Forall_inv Hok).
    + apply (Forall_inv_tail Hok).
Defined.

(** ** What does not hold *)
(** [readdir] of an empty directory panics: the buffer has no room to spare for the entry [.]. *)
Theorem initrd_empty_dir_panics : exists d, initrd_opendir demo_initrd 0 (lit "/empty") = Ok (Some d) /\ initrd_readdir d = Panic.
Proof. eexists. split; vm_compute; reflexivity. Qed.
(** A read of a length so large that it wraps around with the offset is not cut to the file: it copies beyond the image and the buffer. *)
Theorem initrd_read_wraps : exists f, foffset f = 10 /\ initrd_read demo_initrd f (replicate 512 0) 0xffffffff = Undef.
Proof. exists (mk_open_file 1 0 3 3 10 0 0 0 None (mk_fops 0 0 0 0 0 0) 0). split; [done|]. vm_compute. reflexivity. Qed.
Definition demo_points : mounts := mk_mounts [mk_mountp InitrdDevice [] 0 false; mk_mountp Ext2Device [] 0 false; mk_mountp FatDevice [] 0 false] false false.
(** Only the first partition can be mounted: a line for FAT takes the ext2 partition again, although there is a FAT partition. *)
Theorem fs_mount_first_partition : mount_loop 100 (chars "ext2 /" ++ nl ++ chars "fat /fat" ++ nl ++ [0]) (replicate 16 0) (replicate 256 0) demo_points =
  Ok (mk_mounts [mk_mountp InitrdDevice [] 1 false; mk_mountp Ext2Device (chars "/fat") 1 true; mk_mountp FatDevice [] 0 false] true false).
Proof. vm_compute. reflexivity. Qed.
(** A comment followed by an empty line swallows the line after it. *)
Theorem fs_mount_comment_swallows : mount_loop 100 (chars "# c" ++ nl ++ nl ++ chars "initrd /" ++ nl ++ [0]) (replicate 16 0) (replicate 256 0) demo_points =
  Ok (mk_mounts [mk_mountp InitrdDevice [] 1 false; mk_mountp Ext2Device [] 1 false; mk_mountp FatDevice [] 1 false] false false).
Proof. vm_compute. reflexivity. Qed.
(** A comment at the end of the file without a newline is read past its end; a second line of comment is taken for a file system and
    overruns the 16 bytes for its name. *)
Theorem fs_mount_comment_overruns :
  mount_loop 100 (chars "initrd /" ++ nl ++ chars "# c" ++ [0]) (replicate 16 0) (replicate 256 0) demo_points = Undef /\
  mount_loop 100 (chars "# c" ++ nl ++ chars "#----------------" ++ nl ++ chars "initrd /" ++ nl ++ [0]) (replicate 16 0) (replicate 256 0) demo_points = Undef.
Proof. split; vm_compute; reflexivity. Qed.
(** A line overwrites the depth of the mount points it passes over: the initrd on / is left with the depth 2 of /mnt/ext2. *)
Theorem fs_mount_depth_lost : mount_loop 100 (chars "initrd /" ++ nl ++ chars "ext2 /mnt/ext2" ++ nl ++ [0]) (replicate 16 0) (replicate 256 0) demo_points =
  Ok (mk_mounts [mk_mountp InitrdDevice (chars "/") 2 false; mk_mountp Ext2Device (chars "/mnt/ext2") 2 true; mk_mountp FatDevice [] 0 false] true true).
Proof. vm_compute. reflexivity. Qed.
