(* ===== verification/Elf.v ===== *)
(** * The program loader (src/src/kernel/elf.c)

    [elf_load_int] reads an ELF executable into the address space of a task: it checks the
    header, allocates the pages of the segments with [vmm_alloc_user] (Vmm.v), copies them through
    the task's page tables, and builds the arguments, the reentrancy structure of the C library
    and the symbol table.  The file is the bytes that [read] returned; an access outside of
    them is [Undef].  The bytes that the C library's [_REENT_INIT_PTR] writes are an argument.  The
    reading of the file is in ElfFile.v. *)
From S2P Require Import Prelude Pmm Vmm VmmInv.
From S2P Require Import CString Net Ata.

(** ** Access to the current address space *)
(** CR0.WP is clear: the kernel writes to read-only pages too. *)
Definition store (v b : Z) : VM () :=
  d ← gets current_directory;
  s ← gets id;
  let p := walk s d v in
  ensure (negb (frame p =? 0) && (present p =? 1)) ;;
  modify (fun s => set_pm (set_ram (pm s) (upd (ram (pm s)) (frame p * PAGE_SIZE + v mod PAGE_SIZE) (u8 b))) s).
Definition load (v : Z) : VM Z :=
  d ← gets current_directory;
  s ← gets id;
  let p := walk s d v in
  ensure (negb (frame p =? 0) && (present p =? 1)) ;;
  mret (ram (pm s) (frame p * PAGE_SIZE + v mod PAGE_SIZE)).
(** [memcpy(v, l, ...)] *)
Fixpoint store_bytes (v : Z) (l : list Z) : VM () :=
  match l with
  | [] => mret tt
  | b :: l => store v b ;; store_bytes (v + 1) l
  end.
Definition user_memset (v n : Z) : VM () := store_bytes v (replicate (Z.to_nat n) 0).
(** The bytes of a [uint32]. *)
Definition word (x : Z) : list Z := [x mod 256; x / 256 mod 256; x / 65536 mod 256; x / 16777216 mod 256].
Definition load32 (v : Z) : VM Z :=
  a ← load v; b ← load (v + 1); c ← load (v + 2); d ← load (v + 3); mret (a + 256 * b + 65536 * c + 16777216 * d).
Fixpoint load_str (fuel : nat) (v : Z) : VM (list Z) :=
  match fuel with
  | O => lift NoFuel
  | S fuel => b ← load v; if b =? 0 then mret [] else l ← load_str fuel (v + 1); mret (b :: l)
  end.

(** ** The file *)
Definition e_type (data : list Z) : res Z := get16 data 16.
Definition e_machine (data : list Z) : res Z := get16 data 18.
Definition e_entry (data : list Z) : res Z := get32 data 24.
Definition e_phoff (data : list Z) : res Z := get32 data 28.
Definition e_shoff (data : list Z) : res Z := get32 data 32.
Definition e_phentsize (data : list Z) : res Z := get16 data 42.
Definition e_phnum (data : list Z) : res Z := get16 data 44.
Definition e_shentsize (data : list Z) : res Z := get16 data 46.
Definition e_shnum (data : list Z) : res Z := get16 data 48.

(** [Elf32_Phdr] at an offset of the file. *)
Record Elf32_Phdr := mk_phdr { p_type : Z; p_offset : Z; p_vaddr : Z; p_filesz : Z; p_memsz : Z; p_flags : Z }.
Definition phdr_at (data : list Z) (o : Z) : res Elf32_Phdr :=
  t ← get32 data o; off ← get32 data (o + 4); va ← get32 data (o + 8); fs ← get32 data (o + 16); ms ← get32 data (o + 20); fl ← get32 data (o + 24);
  Ok (mk_phdr t off va fs ms fl).
Definition phdr (data : list Z) (i : Z) : res Elf32_Phdr :=
  phoff ← e_phoff data; sz ← e_phentsize data; phdr_at data (u32 (phoff + sz * i)).

Definition PT_LOAD : Z := 1.
Definition PF_W : Z := 2.
Definition ELF_IDENT : list Z := [0x7f; 69; 76; 70].

(** The tests of the header, [false] for ENOEXEC. *)
Definition valid_header (data : list Z) : res bool :=
  mag ← bytes data 0 4;
  if negb (bool_decide (mag = ELF_IDENT)) then Ok false
  else
    cl ← aget data 4; enc ← aget data 5; ver ← aget data 6; mach ← e_machine data; t ← e_type data;
    Ok ((cl =? 1) && (enc =? 1) && (ver =? 1) && (mach =? 3) && (t =? 2)).

(** ** Segments *)
Definition page_up (z : Z) : Z := if IS_PAGE_ALIGNED z then z else u32 (Z.land z 0xfffff000 + PAGE_SIZE).
Definition with_brks (b c : Z) (x : task_mm) : task_mm :=
  mk_mm (areas x) (text_start x) (text_end x) b c (initial_brk x) (mm_directory x) (user_stack_guard_page x) (frames_used x).
Definition with_initial_brk (b : Z) (x : task_mm) : task_mm :=
  mk_mm (areas x) (text_start x) (text_end x) (brk_start x) (brk x) b (mm_directory x) (user_stack_guard_page x) (frames_used x).

Section load.
Context `{KernelAlloc}.

(** One program header of type [PT_LOAD]. *)
Definition load_segment (data : list Z) (i : Z) (h : Elf32_Phdr) (mm : Z) : VM () :=
  let writable := negb (Z.land (p_flags h) PF_W =? 0) in
  ensure (if i =? 0 then p_vaddr h =? 0x10000000 else 0x10000000 <? p_vaddr h) ;;
  let start_addr := p_vaddr h in
  let start_addr_aligned := Z.land start_addr 0xfffff000 in
  let end_addr := page_up (u32 (start_addr + p_memsz h)) in
  x ← get_mm mm;
  (if brk_start x <? end_addr then put_mm mm (with_brks (page_up end_addr) (page_up end_addr) x) else mret tt) ;;
  vmm_alloc_user start_addr_aligned end_addr mm writable ;;
  old_dir ← gets current_directory;
  switch_page_directory (mm_directory x) ;;
  user_memset start_addr_aligned (u32 (end_addr - start_addr_aligned)) ;;
  src ← lift (bytes data (p_offset h) (p_filesz h));
  store_bytes start_addr src ;;
  switch_page_directory old_dir.

Fixpoint load_segments (n : nat) (i : Z) (data : list Z) (mm : Z) : VM () :=
  match n with
  | O => mret tt
  | S n =>
      h ← lift (phdr data i);
      (if p_type h =? PT_LOAD then load_segment data i h mm else mret tt) ;;
      load_segments n (i + 1) data mm
  end.

(** ** Arguments *)
Fixpoint argv_len (argv : list (list Z)) : Z :=
  match argv with [] => 4 | a :: argv => 4 + (zlen a + 1) + argv_len argv end.
(** The loop that copies the strings: [new_argv] is the address of the next pointer, [addr] of the next string. *)
Fixpoint copy_strings (argv : list (list Z)) (new_argv addr : Z) : VM () :=
  match argv with
  | [] => mret tt
  | a :: argv => store_bytes addr (a ++ [0]) ;; store_bytes new_argv (word addr) ;; copy_strings argv (new_argv + 4) (addr + (zlen a + 1))
  end.
(** Returns the new [argv]. *)
Definition copy_argv_env_to_task (argv : list (list Z)) (argc mm : Z) : VM Z :=
  let len := u32 (argv_len argv) in
  x ← get_mm mm;
  ensure (negb (brk_start x =? 0)) ;;
  let size := if negb (Z.land len 0xfff =? 0) then u32 (Z.land len 0xfffff000 + PAGE_SIZE) else len in
  let addr := brk_start x in
  vmm_alloc_user addr (u32 (addr + size)) mm true ;;
  x ← get_mm mm;
  put_mm mm (with_brks (u32 (brk_start x + size)) (u32 (brk x + size)) x) ;;
  user_memset addr size ;;
  copy_strings argv addr (addr + (argc + 1) * 4) ;;
  mret addr.

(** ** Symbols *)
(** [struct symbol]: the name is an offset in the string table, or ["N/A"]. *)
Record symbol := mk_symbol { eip : Z; sym_name : option Z }.
Fixpoint load_symbols (n : nat) (data : list Z) (o : Z) : res (list symbol) :=
  match n with
  | O => Ok []
  | S n =>
      let o := o + 16 in
      info ← aget data (o + 12);
      if negb (Z.land info 0xf =? 2) then load_symbols n data o
      else
        nm ← get32 data o; v ← get32 data (o + 4);
        rest ← load_symbols n data o;
        Ok (mk_symbol v (if negb (nm =? 0) then Some nm else None) :: rest)
  end.

(** The search for a symbol table: its offset, number of symbols, and the string table. *)
Fixpoint find_symtab (n : nat) (i : Z) (data : list Z) : res (option (Z * Z * list Z)) :=
  match n with
  | O => Ok None
  | S n =>
      shoff ← e_shoff data; sz ← e_shentsize data;
      let o := u32 (shoff + sz * i) in
      t ← get32 data (o + 4);
      if t =? 2 then
        so ← get32 data (o + 16); ss ← get32 data (o + 20); es ← get32 data (o + 36); link ← get32 data (o + 24);
        if es =? 0 then Undef else
        let o2 := u32 (shoff + link * sz) in
        sto ← get32 data (o2 + 16); sts ← get32 data (o2 + 20);
        tab ← bytes data sto sts;
        Ok (Some (so, ss / es, tab))
      else find_symtab n (i + 1) data
  end.

(** ** The loader *)
(** The fields of [task_t] the loader sets; [entry] is the value [set_entry_point] puts in the
    task's initial stack frame. *)
Record task := mk_task { name : list Z; reent : Z; symbols : list symbol; symbol_string_table : list Z; new_entry : Z; entry : Z }.
Definition TASK_NAME_LEN : Z := 64.

(** The reentrancy structure of the C library, on the pages at the break; the task's directory
    becomes the current one.  Returns the directory before and the address of the structure. *)
Definition load_reent (reent_bytes : list Z) (mm : Z) : VM (Z * Z) :=
  let reent_size := let z := zlen reent_bytes in if negb (Z.land z 0xfff =? 0) then u32 (Z.land z 0xfffff000 + PAGE_SIZE) else z in
  x ← get_mm mm;
  vmm_alloc_user (brk x) (u32 (brk x + reent_size)) mm true ;;
  old_dir ← gets current_directory;
  switch_page_directory (mm_directory x) ;;
  let r := brk x in
  store_bytes r reent_bytes ;;
  x ← get_mm mm;
  put_mm mm (with_brks (u32 (brk_start x + reent_size)) (u32 (brk x + reent_size)) x) ;;
  x ← get_mm mm;
  ensure (IS_PAGE_ALIGNED (brk x)) ;;
  ensure (brk x =? brk_start x) ;;
  put_mm mm (with_initial_brk (brk_start x) x) ;;
  mret (old_dir, r).

(** Arguments, environment and the words at the top of the stack.  Returns the task's new name, which is
    read back from the task's memory: one of the arguments, so no longer than all of them. *)
Definition load_args (argv envp : list (list Z)) (mm : Z) : VM (list Z) :=
  new_argv ← copy_argv_env_to_task argv (zlen argv) mm;
  new_envp ← copy_argv_env_to_task envp (zlen envp) mm;
  store_bytes USER_STACK_START (word new_envp) ;;
  store_bytes (USER_STACK_START - 4) (word new_argv) ;;
  store_bytes (USER_STACK_START - 8) (word (zlen argv)) ;;
  a0 ← load32 new_argv;
  nm ← load_str (S (Z.to_nat (argv_len argv))) a0;
  mret (take (Z.to_nat (TASK_NAME_LEN - 1)) nm).

(** The image; the loader stays in the task's directory unless it was called in the kernel's. *)
Definition build_image (reent_bytes data : list Z) (argv envp : list (list Z)) (mm : Z) : VM (list Z * Z) :=
  n ← lift (e_phnum data);
  load_segments (Z.to_nat n) 0 data mm ;;
  '(old_dir, r) ← load_reent reent_bytes mm;
  nm ← load_args argv envp mm;
  k ← gets kernel_directory;
  (if negb (old_dir =? k) then mret tt else switch_page_directory old_dir) ;;
  mret (nm, r).

(** The task's symbols and string table after loading; without a table they stay as they are. *)
Definition symbols_of (data : list Z) (t : task) : res (list symbol * list Z) :=
  shnum ← e_shnum data;
  o ← find_symtab (Z.to_nat (shnum - 1)) 1 data;
  match o with
  | Some (so, num_syms, tab) =>
      if num_syms <? 1 then Ok (symbols t, symbol_string_table t) else syms ← load_symbols (Z.to_nat num_syms) data so; Ok (syms, tab)
  | None => Ok (symbols t, symbol_string_table t)
  end.

(** [elf_load_int] from the header checks on, for a file with the contents [data]. *)
Definition load_program (reent_bytes data : list Z) (argv envp : list (list Z)) (mm : Z) (t : task) : VM (ret * task) :=
  ok ← lift (valid_header data);
  if negb ok then mret (Err ENOEXEC, t)
  else
    entry ← lift (e_entry data);
    ensure (0x10000000 <=? entry) ;;
    ensure (entry <? 0x11000000) ;;
    '(nm, r) ← build_image reent_bytes data argv envp mm;
    '(syms, tab) ← lift (symbols_of data t);
    mret (Val 0, mk_task nm r syms tab entry entry).

(** The end of [execve] after [elf_load_int] returned [r]: one of the two address spaces is destroyed.  On success
    the task starts over with a new stack and does not return. *)
Definition execve_finish (r : ret) (old_mm new_mm : Z) : VM ret :=
  x ← get_mm old_mm;
  match r with
  | Val _ =>
      destroy_user_page_dir (mm_directory x) ;;
      vmm_destroy_task_mm old_mm ;;
      mret r
  | Err e =>
      switch_page_directory (mm_directory x) ;;
      y ← get_mm new_mm;
      destroy_user_page_dir (mm_directory y) ;;
      vmm_destroy_task_mm new_mm ;;
      mret (Err e)
  end.
End load.
