(* ===== verification/ElfLoad.v ===== *)
(** * The program loader: what it builds in the task's memory

    The memory of the task is a function from addresses to pages and bytes ([space] of
    VmmUser.v); each operation of the loader changes it as a pure function says ([alloc_mem],
    [put_mem]), and the state stays well-formed ([ready]). *)
From S2P Require Import Prelude Pmm Vmm VmmInv VmmUser VmmSpec VmmBrk VmmClone.
From S2P Require Import CString Net NetSum Ata Elf.

(** ** Relations that code preserves *)
Definition preserves {S A} (R : S -> S -> Prop) (m : ST S A) : Prop := forall s a s', m s = Ok (a, s') -> R s s'.
Section preserve.
Context {St : Type} (R : St -> St -> Prop) `{!PreOrder R}.
Lemma pres_bind {A B} (m : ST St A) (f : A -> ST St B) : preserves R m -> (forall a, preserves R (f a)) -> preserves R (m ≫= f).
Proof. intros Hm Hf s b s' (a & s1 & E1 & E2)%st_bind_inv. transitivity s1; [by eapply Hm | by eapply Hf]. Qed.
Lemma pres_lift {A} (r : res A) : preserves R (lift r).
Proof. intros s a s'. unfold lift. destruct r; [by intros [= <- <-] | done..]. Qed.
Lemma pres_ret {A} (a : A) : preserves R (mret a).
Proof. by intros s b s' [= <- <-]. Qed.
Lemma pres_gets {A} (f : St -> A) : preserves R (gets f).
Proof. by intros s b s' [= <- <-]. Qed.
Lemma pres_ensure b : preserves R (ensure b).
Proof. apply pres_lift. Qed.
Lemma pres_modify f : (forall s, R s (f s)) -> preserves R (modify f).
Proof. intros Hf s a s' [= <- <-]. apply Hf. Qed.
End preserve.
Ltac pres :=
  repeat match goal with
    | |- preserves _ (_ ≫= _) => apply pres_bind; [try exact _ | | intros ?]
    | |- preserves _ (lift _) => apply pres_lift; exact _
    | |- preserves _ (mret _) => apply pres_ret; exact _
    | |- preserves _ (gets _) => apply pres_gets; exact _
    | |- preserves _ (ensure _) => apply pres_ensure; exact _
    | |- preserves _ (if ?b then _ else _) => destruct b
    | |- preserves _ (match ?x with _ => _ end) => destruct x
    end.

(** Directories keep their physical addresses. *)
Definition phys_kept (s s' : vmm) : Prop := forall d pd, dirs s !! d = Some pd -> exists pd', dirs s' !! d = Some pd' /\ physical_address pd' = physical_address pd.
#[export] Instance phys_kept_preorder : PreOrder phys_kept.
Proof.
  split; [by intros s d pd Hd; exists pd|]. intros s1 s2 s3 H1 H2 d pd Hd. destruct (H1 d pd Hd) as (p1 & D1 & E1), (H2 d p1 D1) as (p2 & D2 & E2).
  exists p2. split; [done | congruence].
Qed.
Lemma phys_same_dirs s s' : dirs s' = dirs s -> phys_kept s s'.
Proof. intros E d pd Hd. exists pd. by rewrite E. Qed.

Section kept.
Context `{KernelAlloc}.
Lemma pres_on_pmm {A} (f : pmm -> res (A * pmm)) : preserves phys_kept (on_pmm f).
Proof. intros s a s'. unfold on_pmm. destruct (f (pm s)) as [[b p]| | |]; [intros [= <- <-]; by apply phys_same_dirs | done..]. Qed.
Lemma pres_get_dir d : preserves phys_kept (get_dir d).
Proof. unfold get_dir. pres. Qed.
Lemma pres_get_mm d : preserves phys_kept (get_mm d).
Proof. unfold get_mm. pres. Qed.
Lemma pres_put_mm d x : preserves phys_kept (put_mm d x).
Proof. apply pres_modify. intros s. by apply phys_same_dirs. Qed.
Lemma pres_get_page p : preserves phys_kept (get_page p).
Proof. unfold get_page, get_table. pres. Qed.
Lemma pres_put_page p x : preserves phys_kept (put_page p x).
Proof. unfold put_page, get_table. pres. apply pres_modify. intros s. by apply phys_same_dirs. Qed.
Lemma pres_vlocked {A} (body : VM A) : preserves phys_kept body -> preserves phys_kept (vlocked body).
Proof.
  intros Hb. unfold vlocked, interrupts_enabled, set_interrupts. pres; try done; apply pres_modify; intros s; by apply phys_same_dirs.
Qed.
Lemma pres_create_table i d : preserves phys_kept (vmm_create_page_table i d).
Proof.
  unfold vmm_create_page_table, interrupts_enabled. apply pres_bind; [exact _ | pres | intros b]. apply pres_bind; [exact _ | pres | intros _].
  intros s a s' (pd & s1 & E1 & E2)%st_bind_inv. unfold get_dir in E1. apply st_bind_inv in E1 as (m & s2 & [= <- <-] & E1). unfold lift in E1.
  destruct (dirs s !! d) as [pd0|] eqn:Hd; [|done]. injection E1 as <- <-.
  apply st_bind_inv in E2 as (? & ? & [_ ->]%ensure_inv & E2). apply st_bind_inv in E2 as (t & ? & [= <- <-] & E2). apply st_bind_inv in E2 as (ph & ? & [= <- <-] & E2).
  apply st_bind_inv in E2 as (? & s3 & [= <- <-] & E2). apply st_bind_inv in E2 as (? & s4 & [= <- <-] & E2).
  match type of E2 with ?m ?s4 = _ => transitivity s4; [|assert (Hm : preserves phys_kept m) by pres; by eapply Hm] end.
  intros d' q Hq. cbn. destruct (decide (d = d')) as [<-|]; [|rewrite lookup_insert_ne by done; by exists q]. rewrite lookup_insert_eq. eexists. split; [done|].
  cbn. congruence.
Qed.
Lemma pres_vmm_get_page v d : preserves phys_kept (vmm_get_page v d).
Proof. unfold vmm_get_page. pres; [apply pres_vlocked; pres; [apply pres_get_dir | apply pres_create_table] | apply pres_get_dir]. Qed.
Lemma pres_vmm_map v p d k w : preserves phys_kept (vmm_map v p d k w).
Proof. unfold vmm_map. pres; [apply pres_vmm_get_page | apply pres_vlocked; pres; [apply pres_get_page | apply pres_put_page]]. Qed.
Lemma pres_map_user n : forall v mm w, preserves phys_kept (map_user n v mm w).
Proof.
  induction n as [|n IH]; intros v mm w; cbn [map_user]; pres; [apply pres_on_pmm | apply pres_get_mm | apply pres_put_mm | apply pres_vmm_map | apply IH].
Qed.
Lemma pres_alloc_user lo hi mm w : preserves phys_kept (vmm_alloc_user lo hi mm w).
Proof.
  unfold vmm_alloc_user. pres; [apply pres_map_user|]. unfold vmm_store_area. pres; try apply pres_vlocked; pres; first [apply pres_get_mm | apply pres_put_mm].
Qed.
End kept.

(** ** Memory as a function *)
Definition memory : Type := Z -> option (page_t * Z).
(** Fresh pages. *)
Definition alloc_mem (lo hi : Z) (wr : bool) (f : memory) : memory := fun w => if decide (lo <= w < hi) then Some (user_page 0 wr, 0) else f w.
(** Bytes written. *)
Definition put_mem (v : Z) (l : list Z) (f : memory) : memory := fun w =>
  if decide (v <= w < v + zlen l) then (fun p => (p.1, u8 (nth (Z.to_nat (w - v)) l 0))) <$> f w else f w.
(** Writing is possible: pages of user memory, not guarded. *)
Definition mapped (f : memory) (lo hi : Z) : Prop := forall w, lo <= w < hi -> exists wr b, f w = Some (user_page 0 wr, b).

Definition mem_is (s : vmm) (d : Z) (f : memory) : Prop := forall w, IS_USER_SPACE w = true -> space s d w = f w.
Definition aligned (s : vmm) (d : Z) : Prop := exists pd, dirs s !! d = Some pd /\ Z.land (physical_address pd) 0xfff = 0.

(** Loading into the memory of [mm]; [home] is the directory the loader was called in. *)
Record ready (home : Z) (s : vmm) (mm : Z) (x : task_mm) (l : list vm_area) (f : memory) : Prop := {
  rd_wf : vm_wf s;
  rd_mm : mms s !! mm = Some x;
  rd_areas : mm_wf s x l;
  rd_dir : aligned s (mm_directory x);
  rd_home : aligned s home;
  rd_mem : mem_is s (mm_directory x) f
}.
(** Nothing but the memory and the [task_mm] of [mm] changes. *)
Record only (mm d : Z) (s s' : vmm) : Prop := {
  on_mms m : m <> mm -> mms s' !! m = mms s !! m;
  on_space d' w : d' <> d -> IS_USER_SPACE w = true -> space s' d' w = space s d' w;
  on_intr : intr (pm s') = intr (pm s);
  on_kernel : kernel_directory s' = kernel_directory s
}.
#[export] Instance only_preorder mm d : PreOrder (only mm d).
Proof.
  split; [by intros s|]. intros s1 s2 s3 [A1 A2 A3 A4] [B1 B2 B3 B4]. split; [intros m Hm; by rewrite B1, A1 | intros d' w Hd Hw; by rewrite B2, A2 | congruence | congruence].
Qed.
Lemma others_off_range d lo hi v (d' : Z) : d' <> d -> ~ (d' = d /\ lo <= v < hi).
Proof. tauto. Qed.

Section steps.
Context `{KernelAlloc} (home : Z).

Lemma image_alloc s mm x l f lo hi wr : ready home s mm x l f -> lo mod PAGE_SIZE = 0 -> hi mod PAGE_SIZE = 0 -> 0x10000000 <= lo < hi -> hi <= 0xc0000000 ->
  Forall (fun a => hi <= a_start a \/ a_stop a <= lo) l -> (hi - lo) / PAGE_SIZE <= frames_with false (pm s) ->
  exists s' l', let x' := with_areas l' (add_frames ((hi - lo) / PAGE_SIZE) x) in
    vmm_alloc_user lo hi mm wr s = Ok (tt, s') /\ ready home s' mm x' l' (alloc_mem lo hi wr f) /\ only mm (mm_directory x) s s' /\
    (forall v b, covers l' v b <-> covers l v b \/ (lo <= v < hi /\ b = wr)) /\
    current_directory s' = current_directory s /\ frames_with false (pm s') = frames_with false (pm s) - (hi - lo) / PAGE_SIZE.
Proof.
  intros [W Hx M D C Hm] A1 A2 B1 B2 Hap Hfree. destruct (vmm_alloc_user_ok s mm x l lo hi wr W Hx M A1 A2 B1 B2 Hap Hfree) as (s' & l' & R & W' & E & M' & Cov & _ & G).
  pose proof (wf_frames _ W) as F. pose proof (g_dirs _ _ _ _ _ _ G) as SD. exists s', l'. cbv zeta. pose proof (pres_alloc_user lo hi mm wr s tt s' R) as Ph.
  assert (Hal : forall d, aligned s d -> aligned s' d) by (intros d (pd & Hd & Hp); destruct (Ph d pd Hd) as (pd' & Hd' & <-) in Hp; by exists pd').
  split_and!; [done | | | done | apply SD | apply G].
  - split; [done | by rewrite E, lookup_insert_eq | done | by apply Hal | by apply Hal|]. intros w Hw. cbn. unfold alloc_mem. case_decide.
    + by apply (grown_space_new _ _ _ _ s s' w F G).
    + rewrite (grown_space _ _ _ _ s s' _ w F G) by (done || tauto). by apply Hm.
  - split; [intros m Hne; by rewrite E, lookup_insert_ne | intros d' w Hd Hw; apply (grown_space _ _ _ _ s s' d' w F G); (done || tauto) | apply G | apply SD].
Qed.

Lemma mm_wf_ram s r x l : mm_wf s x l -> mm_wf (set_pm (set_ram (pm s) r) s) x l.
Proof. by intros []. Qed.
Lemma vm_wf_ram s r : vm_wf s -> vm_wf (set_pm (set_ram (pm s) r) s).
Proof.
  intros [[] [[] ? ? ? ?] ?]. split; [by split | | done]. split; [by split | done..].
Qed.

Lemma user_entry s d w wr b : space s d w = Some (user_page 0 wr, b) -> frame (walk s d w) <> 0 /\ present (walk s d w) = 1.
Proof. unfold space. destruct (Z.eqb_spec (frame (walk s d w)) 0); [done|]. intros E%(f_equal (option_map (fun q => present q.1))). by injection E. Qed.

Lemma store_step s mm x l f v b : ready home s mm x l f -> current_directory s = mm_directory x -> IS_USER_SPACE v = true -> (exists wr c, f v = Some (user_page 0 wr, c)) ->
  exists s', store v b s = Ok (tt, s') /\ ready home s' mm x l (put_mem v [b] f) /\ only mm (mm_directory x) s s' /\ current_directory s' = current_directory s /\
    frames_with false (pm s') = frames_with false (pm s).
Proof.
  intros [W Hx M D C Hm] Hc Hv (wr & c & Hf). pose proof (wf_frames _ W) as F. rewrite <- (Hm v Hv) in Hf. destruct (user_entry _ _ _ _ _ Hf) as [Hfr Hp].
  exists (VmmClone.poke s (mm_directory x) v (u8 b)). split_and!.
  - unfold store. erewrite st_bind_Ok by done. erewrite st_bind_Ok by done. cbv zeta. rewrite Hc. erewrite st_bind_Ok.
    2:{ apply ensure_true. rewrite (proj2 (Z.eqb_neq _ _)), (proj2 (Z.eqb_eq _ _)) by done. done. }
    done.
  - split; [by apply vm_wf_ram | done | by apply mm_wf_ram | done | done|]. intros w Hw. unfold put_mem. change (zlen [b]) with 1. rewrite <- (Hm w Hw). unfold space, VmmClone.poke.
    change (walk (set_pm _ s)) with (walk s). cbn [pm set_pm ram set_ram]. unfold upd. case_decide as Hd.
    + assert (w = v) as -> by lia. rewrite (proj2 (Z.eqb_neq _ _)), Z.eqb_refl by done. cbn. by rewrite Z.sub_diag.
    + destruct (Z.eqb_spec (frame (walk s (mm_directory x) w)) 0) as [|Hf2]; [done|]. destruct (Z.eqb_spec (frame (walk s (mm_directory x) w) * PAGE_SIZE + w mod PAGE_SIZE) (frame (walk s (mm_directory x) v) * PAGE_SIZE + v mod PAGE_SIZE)) as [E|]; [|done].
      exfalso. assert (Ef : frame (walk s (mm_directory x) w) = frame (walk s (mm_directory x) v)) by (rewrite <- (page_byte _ w), E; apply page_byte).
      destruct (fw_inj _ F _ _ _ _ Hw Hv Ef Hf2) as [_ Evp]. rewrite Ef in E. unfold vpn, PAGE_SIZE in *. apply Hd. Z.to_euclidean_division_equations; lia.
  - split; [done | intros d' w Hd Hw; apply poke_isolated; done | done | done].
  - done.
  - done.
Qed.
Lemma mapped_put f v l lo hi : mapped f lo hi -> mapped (put_mem v l f) lo hi.
Proof. intros Hf w Hw. destruct (Hf w Hw) as (wr & b & E). unfold put_mem. case_decide; [rewrite E; cbn; eauto | eauto]. Qed.
Lemma put_mem_cons v b l f w : put_mem (v + 1) l (put_mem v [b] f) w = put_mem v (b :: l) f w.
Proof.
  unfold put_mem. rewrite (zlen_cons b l). change (zlen [b]) with 1. pose proof (zlen_nonneg l). repeat case_decide; try lia; destruct (f w) as [[p c]|] eqn:E; cbn; try done; do 2 f_equal; f_equal.
  - replace (Z.to_nat (w - v)) with (S (Z.to_nat (w - (v + 1)))) by lia. done.
  - assert (w = v) as -> by lia. by rewrite Z.sub_diag.
Qed.
Lemma ready_ext s mm x l f g : ready home s mm x l f -> (forall w, f w = g w) -> ready home s mm x l g.
Proof. intros [] E. split; try done. intros w Hw. rewrite <- E. auto. Qed.

Lemma store_bytes_step bs : forall s mm x l f v, ready home s mm x l f -> current_directory s = mm_directory x -> 0x10000000 <= v -> v + zlen bs <= 0xc0000000 -> mapped f v (v + zlen bs) ->
  exists s', store_bytes v bs s = Ok (tt, s') /\ ready home s' mm x l (put_mem v bs f) /\ only mm (mm_directory x) s s' /\ current_directory s' = current_directory s /\
    frames_with false (pm s') = frames_with false (pm s).
Proof.
  induction bs as [|b bs IH]; intros s mm x l f v R Hc Hlo Hhi Hf; cbn [store_bytes].
  - exists s. split_and!; [done | | done | done | done]. eapply ready_ext; [exact R|]. intros w. unfold put_mem. rewrite zlen_nil. case_decide; [lia | done].
  - rewrite zlen_cons in *. pose proof (zlen_nonneg bs). destruct (store_step s mm x l f v b R Hc) as (s1 & E1 & R1 & O1 & C1 & F1); [apply user_space; lia | apply Hf; lia|].
    destruct (IH s1 mm x l (put_mem v [b] f) (v + 1) R1) as (s2 & E2 & R2 & O2 & C2 & F2); [congruence | lia | lia | apply mapped_put; intros w Hw; apply Hf; lia|].
    exists s2. split_and!; [by erewrite st_bind_Ok by exact E1 | | by transitivity s1 | congruence | congruence]. eapply ready_ext; [exact R2|]. intros w. apply put_mem_cons.
Qed.

Lemma switch_step s mm x l f d : ready home s mm x l f -> aligned s d ->
  exists s', switch_page_directory d s = Ok (tt, s') /\ ready home s' mm x l f /\ only mm (mm_directory x) s s' /\ current_directory s' = d /\
    frames_with false (pm s') = frames_with false (pm s) /\ (forall d', aligned s d' -> aligned s' d').
Proof.
  intros [W Hx M D C Hm] (pd & Hd & Hp). exists (set_current d (physical_address pd) s). split_and!; [|split|split| done | done | done]; try done.
  - unfold switch_page_directory. assert (E : (x ← get_dir d; c ← gets cr3; modify (set_current d c) ;; ensure (Z.land (physical_address x) 0xfff =? 0) ;; modify (set_current d (physical_address x))) (irq false s) = Ok (tt, set_current d (physical_address pd) (irq false s))).
    { unfold get_dir. erewrite st_bind_Ok by (erewrite st_bind_Ok by done; cbn; by rewrite Hd). erewrite st_bind_Ok by done. erewrite st_bind_Ok by done.
      erewrite st_bind_Ok by (apply ensure_true; by rewrite Hp). done. }
    erewrite vlocked_ok by (exact E || done). do 2 f_equal. by destruct s as [[] ?????????].
  - destruct W as [[] [[] ? ? ? ?] ?]. split; [by split | | done]. split; [by split | done..].
  - by destruct M.
Qed.
Lemma put_step s mm x l f y : ready home s mm x l f -> areas y = areas x -> mm_directory y = mm_directory x ->
  exists s', put_mm mm y s = Ok (tt, s') /\ ready home s' mm y l f /\ only mm (mm_directory x) s s' /\ current_directory s' = current_directory s /\
    frames_with false (pm s') = frames_with false (pm s).
Proof.
  intros [W Hx M D C Hm] Ha Hd. pose proof (mm_not_null s mm x W Hx) as Hn. exists (set_mms (insert mm y) s). split_and!; try done.
  - split; [by apply wf_set_mms; [|rewrite lookup_insert_ne; [apply W|]] | cbn; by rewrite lookup_insert_eq | | by rewrite Hd | done | by rewrite Hd].
    apply mm_wf_mms. destruct M as [M1 M2 M3 M4 M5 M6]. split; rewrite ?Ha, ?Hd; done.
  - split; [intros m Hne; cbn; by rewrite lookup_insert_ne | done..].
Qed.
Lemma get_step s mm x l f : ready home s mm x l f -> get_mm mm s = Ok (x, s).
Proof. intros R. apply get_mm_ok, R. Qed.
End steps.

(** ** Segments *)
Definition seg_lo (h : Elf32_Phdr) : Z := p_vaddr h / PAGE_SIZE * PAGE_SIZE.
Definition seg_hi (h : Elf32_Phdr) : Z := round_page (p_vaddr h + p_memsz h).
Definition seg_wr (h : Elf32_Phdr) : bool := negb (Z.land (p_flags h) PF_W =? 0).
Definition seg_bytes (data : list Z) (h : Elf32_Phdr) : list Z := take (Z.to_nat (p_filesz h)) (drop (Z.to_nat (p_offset h)) data).
Definition seg_mem (data : list Z) (h : Elf32_Phdr) (f : memory) : memory := put_mem (p_vaddr h) (seg_bytes data h) (alloc_mem (seg_lo h) (seg_hi h) (seg_wr h) f).
Definition seg_pages (h : Elf32_Phdr) : Z := (seg_hi h - seg_lo h) / PAGE_SIZE.

(** A segment inside the file and the program area; the first header's is at its start. *)
Record seg_ok (data : list Z) (i : Z) (h : Elf32_Phdr) : Prop := {
  so_start : if i =? 0 then p_vaddr h = 0x10000000 else 0x10000000 < p_vaddr h;
  so_end : p_vaddr h + p_memsz h <= 0xb0000000;
  so_size : 0 <= p_filesz h <= p_memsz h /\ 0 < p_memsz h;
  so_file : 0 <= p_offset h /\ p_offset h + p_filesz h <= zlen data
}.
Lemma round_page_ok z : z <= round_page z < z + PAGE_SIZE /\ round_page z mod PAGE_SIZE = 0.
Proof. unfold round_page, PAGE_SIZE. Z.to_euclidean_division_equations; lia. Qed.
Lemma seg_bounds data i h : seg_ok data i h -> 0x10000000 <= seg_lo h <= p_vaddr h /\ p_vaddr h + p_memsz h <= seg_hi h <= 0xb0000000 /\
  seg_lo h mod PAGE_SIZE = 0 /\ seg_hi h mod PAGE_SIZE = 0 /\ 0x10000000 <= p_vaddr h.
Proof.
  intros [H1 H2 H3 H4]. assert (0x10000000 <= p_vaddr h) by (destruct (i =? 0); lia). unfold seg_lo, seg_hi, round_page, PAGE_SIZE in *. Z.to_euclidean_division_equations; lia.
Qed.
Lemma page_up_aligned z : 0 <= z < 2 ^ 32 -> z mod PAGE_SIZE = 0 -> page_up z = z.
Proof. intros Hz Ha. unfold page_up. by rewrite IS_PAGE_ALIGNED_true. Qed.

Lemma nth_zeros n : forall k, nth k (replicate n 0) 0 = 0.
Proof. induction n as [|n IH]; intros [|k]; [done.. | apply IH]. Qed.
Lemma zero_fresh lo hi wr f w : put_mem lo (replicate (Z.to_nat (hi - lo)) 0) (alloc_mem lo hi wr f) w = alloc_mem lo hi wr f w.
Proof.
  unfold put_mem, alloc_mem, zlen. rewrite length_replicate. repeat case_decide; try done; [|lia]. cbn. do 2 f_equal.
  assert (E : nth (Z.to_nat (w - lo)) (replicate (Z.to_nat (hi - lo)) 0) 0 = 0) by apply nth_zeros. by rewrite E.
Qed.
Lemma mapped_alloc f lo hi wr a b : (lo <= a /\ b <= hi) \/ mapped f a b -> mapped (alloc_mem lo hi wr f) a b.
Proof. intros Hab w Hw. unfold alloc_mem. case_decide; [eauto|]. destruct Hab as [|Hm]; [lia | by apply Hm]. Qed.

Ltac chain := repeat first [eassumption | etransitivity; [eassumption|]].

Section segments.
Context `{KernelAlloc} (home : Z).

Lemma load_segment_ok s mm x l f data i h : ready home s mm x l f -> seg_ok data i h -> current_directory s = home ->
  Forall (fun a => seg_hi h <= a_start a \/ a_stop a <= seg_lo h) l -> seg_pages h <= frames_with false (pm s) ->
  exists s' x' l', load_segment data i h mm s = Ok (tt, s') /\ ready home s' mm x' l' (seg_mem data h f) /\ only mm (mm_directory x) s s' /\ current_directory s' = home /\
    mm_directory x' = mm_directory x /\ frames_with false (pm s') = frames_with false (pm s) - seg_pages h /\
    (forall v b, covers l' v b <-> covers l v b \/ (seg_lo h <= v < seg_hi h /\ b = seg_wr h)) /\
    (brk_start x', brk x') = (if brk_start x <? seg_hi h then (seg_hi h, seg_hi h) else (brk_start x, brk x)).
Proof.
  intros R Hok Hcur Hap Hfr. destruct (seg_bounds _ _ _ Hok) as (B1 & B2 & A1 & A2 & B3). pose proof Hok as [H1 H2 H3 H4]. unfold load_segment. fold (seg_wr h).
  erewrite st_bind_Ok by (apply ensure_true; destruct (i =? 0); [by apply Z.eqb_eq | by apply Z.ltb_lt]). rewrite land_page by lia. fold (seg_lo h).
  assert (E : page_up (u32 (p_vaddr h + p_memsz h)) = seg_hi h) by (apply round_up; unfold seg_hi in *; lia). rewrite E. erewrite st_bind_Ok by (by eapply get_step).
  set (x1 := if brk_start x <? seg_hi h then with_brks (seg_hi h) (seg_hi h) x else x).
  assert (S1 : exists s1, (if brk_start x <? seg_hi h then put_mm mm (with_brks (page_up (seg_hi h)) (page_up (seg_hi h)) x) else mret tt) s = Ok (tt, s1) /\ ready home s1 mm x1 l f /\
    only mm (mm_directory x) s s1 /\ current_directory s1 = current_directory s /\ frames_with false (pm s1) = frames_with false (pm s)).
  { rewrite page_up_aligned by (done || lia). unfold x1. destruct (brk_start x <? seg_hi h); [by apply (put_step home s mm x l f) | by exists s]. }
  destruct S1 as (s1 & E1 & R1 & O1 & C1 & F1). erewrite st_bind_Ok by exact E1.
  assert (Ed : mm_directory x1 = mm_directory x) by (unfold x1; by destruct (_ <? _)).
  destruct (image_alloc home s1 mm x1 l f (seg_lo h) (seg_hi h) (seg_wr h) R1) as (s2 & l2 & E2 & R2 & O2 & Cov & C2 & F2); [done | done | lia | lia | done | rewrite F1; exact Hfr|].
  erewrite st_bind_Ok by exact E2. erewrite st_bind_Ok by done. rewrite C2, C1, Hcur. set (x2 := with_areas _ _) in *. assert (Ed2 : mm_directory x2 = mm_directory x) by done.
  destruct (switch_step home s2 mm x2 l2 _ (mm_directory x) R2) as (s3 & E3 & R3 & O3 & C3 & F3 & Al3); [rewrite <- Ed2; apply R2|]. erewrite st_bind_Ok by exact E3.
  unfold user_memset. rewrite u32_small by lia.
  destruct (store_bytes_step home (replicate (Z.to_nat (seg_hi h - seg_lo h)) 0) s3 mm x2 l2 _ (seg_lo h) R3) as (s4 & E4 & R4 & O4 & C4 & F4);
    [congruence | lia | unfold zlen; rewrite length_replicate; lia | apply mapped_alloc; left; unfold zlen; rewrite length_replicate; lia|].
  erewrite st_bind_Ok by exact E4. apply (ready_ext home _ _ _ _ _ (alloc_mem (seg_lo h) (seg_hi h) (seg_wr h) f)) in R4; [|intros w; apply zero_fresh].
  unfold bytes. rewrite !(proj2 (Z.leb_le _ _)) by lia. cbn [andb]. erewrite st_bind_Ok by done. fold (seg_bytes data h).
  assert (Lb : zlen (seg_bytes data h) = p_filesz h) by (unfold seg_bytes, zlen in *; rewrite length_take, length_drop; lia).
  destruct (store_bytes_step home (seg_bytes data h) s4 mm x2 l2 _ (p_vaddr h) R4) as (s5 & E5 & R5 & O5 & C5 & F5); [congruence | lia | lia | apply mapped_alloc; left; lia|].
  erewrite st_bind_Ok by exact E5. destruct (switch_step home s5 mm x2 l2 _ home R5) as (s6 & E6 & R6 & O6 & C6 & F6 & _); [apply R5|].
  rewrite Ed in *. exists s6, x2, l2. split_and!; [exact E6 | exact R6 | rewrite Ed2 in *; by chain | done | done | unfold seg_pages; lia | done|]. unfold x2, x1. by destruct (_ <? _).
Qed.
End segments.

(** No address of a range belongs to an area. *)
Definition free (l : list vm_area) (lo hi : Z) : Prop := forall v b, covers l v b -> ~ (lo <= v < hi).
Lemma free_areas_apart l lo hi : Forall area_wf l -> lo < hi -> free l lo hi -> Forall (fun a => hi <= a_start a \/ a_stop a <= lo) l.
Proof.
  intros Hw Hlt Hf. apply Forall_forall. intros a Ha. rewrite Forall_forall in Hw. destruct (Hw a Ha) as (_ & _ & Hs & _).
  destruct (decide (hi <= a_start a \/ a_stop a <= lo)) as [|Hn]; [done|]. exfalso. apply (Hf (Z.max lo (a_start a)) (a_writable a)); [|lia]. exists a. unfold in_area. split_and!; [done | lia | lia | done].
Qed.

Fixpoint segs_mem (data : list Z) (hs : list Elf32_Phdr) (f : memory) : memory :=
  match hs with [] => f | h :: hs => segs_mem data hs (if p_type h =? PT_LOAD then seg_mem data h f else f) end.
Fixpoint segs_pages (hs : list Elf32_Phdr) : Z :=
  match hs with [] => 0 | h :: hs => (if p_type h =? PT_LOAD then seg_pages h else 0) + segs_pages hs end.
Fixpoint segs_top (hs : list Elf32_Phdr) (b : Z) : Z :=
  match hs with [] => b | h :: hs => segs_top hs (if p_type h =? PT_LOAD then Z.max b (seg_hi h) else b) end.
(** Valid segments on separate pages. *)
Definition seg_apart (h h' : Elf32_Phdr) : Prop := p_type h = PT_LOAD -> p_type h' = PT_LOAD -> seg_hi h <= seg_lo h' \/ seg_hi h' <= seg_lo h.
Fixpoint segs_ok (data : list Z) (i : Z) (hs : list Elf32_Phdr) : Prop :=
  match hs with
  | [] => True
  | h :: hs => (p_type h = PT_LOAD -> seg_ok data i h) /\ Forall (seg_apart h) hs /\ segs_ok data (i + 1) hs
  end.
Definition segs_free (l : list vm_area) (hs : list Elf32_Phdr) : Prop := Forall (fun h => p_type h = PT_LOAD -> free l (seg_lo h) (seg_hi h)) hs.
(** The headers of the file from number [i] on. *)
Definition headers (data : list Z) (i : Z) (hs : list Elf32_Phdr) : Prop := forall k h, hs !! k = Some h -> phdr data (i + Z.of_nat k) = Ok h.

Lemma headers_tail data i h hs : headers data i (h :: hs) -> phdr data i = Ok h /\ headers data (i + 1) hs.
Proof.
  intros Hh. split; [rewrite <- (Z.add_0_r i); by apply (Hh O)|]. intros k h' Hk. replace (i + 1 + Z.of_nat k) with (i + Z.of_nat (S k)) by lia. by apply Hh.
Qed.
Lemma segs_pages_nonneg data hs : forall i, segs_ok data i hs -> 0 <= segs_pages hs.
Proof.
  induction hs as [|h hs IH]; intros i; [done|]. intros (H1 & _ & H3). specialize (IH _ H3). cbn [segs_pages]. destruct (Z.eqb_spec (p_type h) PT_LOAD) as [Ht|]; [|lia].
  destruct (seg_bounds _ _ _ (H1 Ht)) as (? & ? & _). unfold seg_pages. pose proof (so_size _ _ _ (H1 Ht)). assert (0 <= (seg_hi h - seg_lo h) / PAGE_SIZE) by (apply Z.div_pos; [lia | done]). lia.
Qed.

Section all_segments.
Context `{KernelAlloc} (home : Z).

Lemma load_segments_ok data hs : forall i s mm x l f, ready home s mm x l f -> headers data i hs -> segs_ok data i hs -> segs_free l hs -> current_directory s = home ->
  brk_start x = brk x -> segs_pages hs <= frames_with false (pm s) ->
  exists s' x' l', load_segments (length hs) i data mm s = Ok (tt, s') /\ ready home s' mm x' l' (segs_mem data hs f) /\ only mm (mm_directory x) s s' /\ current_directory s' = home /\
    mm_directory x' = mm_directory x /\ frames_with false (pm s') = frames_with false (pm s) - segs_pages hs /\ brk_start x' = segs_top hs (brk x) /\ brk x' = segs_top hs (brk x) /\
    (forall v b, covers l' v b -> covers l v b \/ exists h, h ∈ hs /\ p_type h = PT_LOAD /\ seg_lo h <= v < seg_hi h).
Proof.
  induction hs as [|h hs IH]; intros i s mm x l f R Hh Hok Hfree Hcur Hbrk Hfr; cbn [load_segments length].
  { exists s, x, l. split_and!; try done; [cbn; lia | by left]. }
  destruct (headers_tail _ _ _ _ Hh) as [-> Hh']. erewrite st_bind_Ok by done. destruct Hok as (Hok & Hap & Hok'). apply Forall_cons in Hfree as [Hf1 Hf2]. pose proof (segs_pages_nonneg _ _ _ Hok') as Hpos.
  cbn [segs_mem segs_pages segs_top] in *. destruct (Z.eqb_spec (p_type h) PT_LOAD) as [Ht|Ht].
  - specialize (Hok Ht). destruct (seg_bounds _ _ _ Hok) as (B1 & B2 & _). pose proof (so_size _ _ _ Hok) as B3.
    destruct (load_segment_ok home s mm x l f data i h R Hok Hcur) as (s1 & x1 & l1 & E1 & R1 & O1 & C1 & D1 & F1 & Cov1 & Bk);
      [apply free_areas_apart; [apply R | lia | by apply Hf1] | lia|]. erewrite st_bind_Ok by exact E1.
    assert (Eb : brk_start x1 = Z.max (brk x) (seg_hi h) /\ brk x1 = Z.max (brk x) (seg_hi h)) by (rewrite Hbrk in Bk; destruct (Z.ltb_spec (brk x) (seg_hi h)); injection Bk as -> ->; lia).
    destruct Eb as [Eb1 Eb2].
    assert (Hf2' : segs_free l1 hs).
    { unfold segs_free in *. rewrite Forall_forall in *. intros h' Hin Ht' v b [Hc|[Hr _]]%Cov1; [by apply (Hf2 h' Hin Ht' v b)|]. destruct (Hap h' Hin Ht Ht'); lia. }
    destruct (IH (i + 1) s1 mm x1 l1 _ R1 Hh' Hok' Hf2' C1) as (s2 & x2 & l2 & E2 & R2 & O2 & C2 & D2 & F2 & K1 & K2 & Cov2); [congruence | lia|].
    exists s2, x2, l2. rewrite Eb2 in *. rewrite D1 in *. split_and!; try done; [by chain | lia|]. intros v b [Hc|(h' & Hin & Ht' & Hr)]%Cov2.
    + apply Cov1 in Hc as [Hc|[Hr _]]; [by left|]. right. exists h. split_and!; [by left | done | lia | lia].
    + right. exists h'. split_and!; [by right | done | lia | lia].
  - erewrite st_bind_Ok by done. destruct (IH (i + 1) s mm x l f R Hh' Hok' Hf2 Hcur Hbrk ltac:(lia)) as (s2 & x2 & l2 & E2 & R2 & O2 & C2 & D2 & F2 & K1 & K2 & Cov2).
    exists s2, x2, l2. split_and!; try done. intros v b [Hc|(h' & Hin & Ht' & Hr)]%Cov2; [by left|]. right. exists h'. split_and!; [by right | done | lia | lia].
Qed.
End all_segments.

(** ** Arguments *)
Fixpoint strs_len (argv : list (list Z)) : Z := match argv with [] => 0 | a :: argv => zlen a + 1 + strs_len argv end.
Fixpoint strs_mem (argv : list (list Z)) (p a : Z) (f : memory) : memory :=
  match argv with [] => f | s :: argv => strs_mem argv (p + 4) (a + (zlen s + 1)) (put_mem p (word a) (put_mem a (s ++ [0]) f)) end.
Definition argv_size (argv : list (list Z)) : Z := round_page (argv_len argv).
Definition args_mem (argv : list (list Z)) (base : Z) (f : memory) : memory :=
  strs_mem argv base (base + (zlen argv + 1) * 4) (alloc_mem base (base + argv_size argv) true f).

Lemma strs_len_nonneg argv : 0 <= strs_len argv.
Proof. induction argv as [|a argv IH]; [done|]. cbn [strs_len]. pose proof (zlen_nonneg a). lia. Qed.
Lemma argv_len_eq argv : argv_len argv = (zlen argv + 1) * 4 + strs_len argv.
Proof. induction argv as [|a argv IH]; [done|]. cbn [argv_len strs_len]. rewrite IH, zlen_cons. lia. Qed.
Lemma size_up z : 0 <= z -> round_page z < 2 ^ 32 -> (if negb (Z.land z 0xfff =? 0) then u32 (Z.land z 0xfffff000 + PAGE_SIZE) else z) = round_page z.
Proof.
  intros H0 H1. pose proof (round_page_ok z). rewrite <- round_up by done. rewrite (u32_small z) by lia. unfold IS_PAGE_ALIGNED. by destruct (Z.land z 0xfff =? 0).
Qed.
Lemma strs_mapped argv : forall p a f lo hi, mapped f lo hi -> mapped (strs_mem argv p a f) lo hi.
Proof. induction argv as [|s argv IH]; intros p a f lo hi Hf; [done|]. cbn [strs_mem]. by do 1 apply IH; do 2 apply mapped_put. Qed.

Section arguments.
Context `{KernelAlloc} (home : Z).

Lemma copy_strings_ok argv : forall s mm x l f p a, ready home s mm x l f -> current_directory s = mm_directory x -> 0x10000000 <= p -> p + 4 * zlen argv <= a -> a + strs_len argv <= 0xc0000000 ->
  mapped f p (a + strs_len argv) ->
  exists s', copy_strings argv p a s = Ok (tt, s') /\ ready home s' mm x l (strs_mem argv p a f) /\ only mm (mm_directory x) s s' /\ current_directory s' = current_directory s /\
    frames_with false (pm s') = frames_with false (pm s).
Proof.
  induction argv as [|c argv IH]; intros s mm x l f p a R Hc Hp Ha Hhi Hf; cbn [copy_strings strs_mem]; [by exists s|].
  cbn [strs_len] in *. rewrite (zlen_cons c) in Ha. pose proof (zlen_nonneg c). pose proof (zlen_nonneg argv). pose proof (strs_len_nonneg argv).
  destruct (store_bytes_step home (c ++ [0]) s mm x l f a R Hc) as (s1 & E1 & R1 & O1 & C1 & F1); [lia | rewrite zlen_snoc; lia | rewrite zlen_snoc; intros w Hw; apply Hf; lia|].
  erewrite st_bind_Ok by exact E1.
  destruct (store_bytes_step home (word a) s1 mm x l _ p R1) as (s2 & E2 & R2 & O2 & C2 & F2); [congruence | lia | change (zlen (word a)) with 4; lia | change (zlen (word a)) with 4; apply mapped_put; intros w Hw; apply Hf; lia|].
  erewrite st_bind_Ok by exact E2.
  destruct (IH s2 mm x l _ (p + 4) (a + (zlen c + 1)) R2) as (s3 & E3 & R3 & O3 & C3 & F3); [congruence | lia | lia | lia | do 2 apply mapped_put; intros w Hw; apply Hf; lia|].
  exists s3. split_and!; [done | done | by chain | congruence | congruence].
Qed.

Lemma copy_argv_ok argv s mm x l f : ready home s mm x l f -> current_directory s = mm_directory x -> brk_start x = brk x -> brk x mod PAGE_SIZE = 0 -> 0x10000000 <= brk x ->
  brk x + argv_size argv <= 0xb0000000 -> free l (brk x) (brk x + argv_size argv) -> argv_size argv / PAGE_SIZE <= frames_with false (pm s) ->
  exists s' x' l', copy_argv_env_to_task argv (zlen argv) mm s = Ok (brk x, s') /\ ready home s' mm x' l' (args_mem argv (brk x) f) /\ only mm (mm_directory x) s s' /\
    current_directory s' = current_directory s /\ mm_directory x' = mm_directory x /\ frames_with false (pm s') = frames_with false (pm s) - argv_size argv / PAGE_SIZE /\
    brk_start x' = brk x + argv_size argv /\ brk x' = brk x + argv_size argv /\ initial_brk x' = initial_brk x /\
    (forall v b, covers l' v b <-> covers l v b \/ (brk x <= v < brk x + argv_size argv /\ b = true)).
Proof.
  intros R Hc Hb Hal Hlo Hhi Hfree Hfr. pose proof (argv_len_eq argv) as El. pose proof (strs_len_nonneg argv). pose proof (zlen_nonneg argv). pose proof (round_page_ok (argv_len argv)) as [Hr Hr0]. fold (argv_size argv) in Hr, Hr0.
  unfold copy_argv_env_to_task. rewrite (u32_small (argv_len argv)) by lia. cbv zeta. rewrite size_up by (fold (argv_size argv); lia). fold (argv_size argv).
  erewrite st_bind_Ok by (by eapply get_step). rewrite Hb. erewrite st_bind_Ok by (apply ensure_true; rewrite (proj2 (Z.eqb_neq _ _)); [done | lia]).
  rewrite (u32_small (brk x + argv_size argv)) by lia.
  destruct (image_alloc home s mm x l f (brk x) (brk x + argv_size argv) true R) as (s1 & l1 & E1 & R1 & O1 & Cov & C1 & F1);
    [done | unfold PAGE_SIZE in *; Z.to_euclidean_division_equations; lia | lia | lia | apply free_areas_apart; [apply R | lia | done] | by replace (brk x + argv_size argv - brk x) with (argv_size argv) by lia|].
  replace (brk x + argv_size argv - brk x) with (argv_size argv) in * by lia. erewrite st_bind_Ok by exact E1. set (x1 := with_areas _ _) in *. erewrite st_bind_Ok by (by eapply get_step).
  change (brk_start x1) with (brk_start x). change (brk x1) with (brk x). rewrite Hb. rewrite u32_small by lia. set (x2 := with_brks _ _ x1).
  destruct (put_step home s1 mm x1 l1 _ x2 R1) as (s2 & E2 & R2 & O2 & C2 & F2); [done | done|]. erewrite st_bind_Ok by exact E2. change (mm_directory x1) with (mm_directory x) in *.
  destruct (store_bytes_step home (replicate (Z.to_nat (argv_size argv)) 0) s2 mm x2 l1 _ (brk x) R2) as (s3 & E3 & R3 & O3 & C3 & F3);
    [change (mm_directory x2) with (mm_directory x); congruence | lia | unfold zlen at 1; rewrite length_replicate; lia | apply mapped_alloc; left; unfold zlen; rewrite length_replicate; lia|].
  unfold user_memset. erewrite st_bind_Ok by exact E3. change (mm_directory x2) with (mm_directory x) in *.
  apply (ready_ext home _ _ _ _ _ (alloc_mem (brk x) (brk x + argv_size argv) true f)) in R3.
  2:{ intros w. pose proof (zero_fresh (brk x) (brk x + argv_size argv) true f w) as Ez. by replace (brk x + argv_size argv - brk x) with (argv_size argv) in Ez by lia. }
  destruct (copy_strings_ok argv s3 mm x2 l1 _ (brk x) (brk x + (zlen argv + 1) * 4) R3) as (s4 & E4 & R4 & O4 & C4 & F4); [change (mm_directory x2) with (mm_directory x); congruence | lia | lia | lia | apply mapped_alloc; left; lia|].
  erewrite st_bind_Ok by exact E4. change (mm_directory x2) with (mm_directory x) in *. exists s4, x2, l1. split_and!; try done; [by chain | congruence | lia].
Qed.
End arguments.

(** ** What is in memory *)
Definition holds (f : memory) (v : Z) (l : list Z) : Prop := forall k b, l !! k = Some b -> exists wr, f (v + Z.of_nat k) = Some (user_page 0 wr, b).
Lemma u8_byte b : byte_ok b -> u8 b = b.
Proof. unfold byte_ok, u8. intros. apply Z.mod_small. lia. Qed.
Lemma put_holds f v l : mapped f v (v + zlen l) -> Forall byte_ok l -> holds (put_mem v l f) v l.
Proof.
  intros Hm Hb k b Hk. pose proof (lookup_lt_Some _ _ _ Hk) as Hl. destruct (Hm (v + Z.of_nat k)) as (wr & c & E); [unfold zlen; lia|]. exists wr. unfold put_mem.
  rewrite decide_True by (unfold zlen; lia). rewrite E. cbn. replace (Z.to_nat (v + Z.of_nat k - v)) with k by lia. rewrite (nth_lookup_Some _ _ _ _ Hk), u8_byte; [done|].
  rewrite Forall_forall in Hb. apply Hb. by eapply list_elem_of_lookup_2.
Qed.
Lemma holds_ext f g v l : holds f v l -> (forall w, v <= w < v + zlen l -> g w = f w) -> holds g v l.
Proof. intros Hf E k b Hk. rewrite E; [by apply Hf|]. pose proof (lookup_lt_Some _ _ _ Hk). unfold zlen. lia. Qed.
Lemma put_out f v l w : ~ (v <= w < v + zlen l) -> put_mem v l f w = f w.
Proof. intros. unfold put_mem. by rewrite decide_False. Qed.
Lemma word_bytes a : Forall byte_ok (word a).
Proof. unfold word, byte_ok. repeat (apply Forall_cons; split; [apply Z.mod_pos_bound; lia|]). by apply Forall_nil. Qed.

Lemma strs_out argv : forall p a f w, p + 4 * zlen argv <= a -> ~ (p <= w < p + 4 * zlen argv) -> ~ (a <= w < a + strs_len argv) -> strs_mem argv p a f w = f w.
Proof.
  induction argv as [|c argv IH]; intros p a f w Hp H1 H2; [done|]. cbn [strs_mem strs_len] in *. rewrite (zlen_cons c) in *. pose proof (zlen_nonneg c). pose proof (zlen_nonneg argv). pose proof (strs_len_nonneg argv).
  rewrite IH by lia. rewrite put_out by (change (zlen (word a)) with 4; lia). apply put_out. rewrite zlen_snoc. lia.
Qed.
(** Pointer and text of argument [i]. *)
Lemma strs_at argv : forall p a f i c, mapped f p (a + strs_len argv) -> p + 4 * zlen argv <= a -> argv !! i = Some c -> Forall (Forall byte_ok) argv ->
  holds (strs_mem argv p a f) (p + 4 * Z.of_nat i) (word (a + strs_len (take i argv))) /\ holds (strs_mem argv p a f) (a + strs_len (take i argv)) (c ++ [0]).
Proof.
  induction argv as [|c0 argv IH]; intros p a f i c Hm Hp Hi Hb; [done|]. cbn [strs_mem strs_len] in *. rewrite (zlen_cons c0) in *. pose proof (zlen_nonneg c0). pose proof (zlen_nonneg argv). pose proof (strs_len_nonneg argv).
  apply Forall_cons in Hb as [Hb0 Hb]. destruct i as [|i].
  - injection Hi as <-. cbn [take strs_len]. rewrite Z.add_0_r. change (4 * Z.of_nat 0) with 0. rewrite Z.add_0_r. split.
    + apply (holds_ext (put_mem p (word a) (put_mem a (c0 ++ [0]) f))); [apply put_holds; [apply mapped_put; intros w Hw; apply Hm; change (zlen (word a)) with 4 in Hw; lia | apply word_bytes]|].
      change (zlen (word a)) with 4. intros w Hw. apply strs_out; lia.
    + assert (Lc : zlen (c0 ++ [0]) = zlen c0 + 1) by apply zlen_snoc.
      apply (holds_ext (put_mem a (c0 ++ [0]) f)); [apply put_holds; [rewrite Lc; intros w Hw; apply Hm; lia | apply Forall_snoc; [done | unfold byte_ok; lia]]|].
      rewrite Lc. intros w Hw. rewrite strs_out by lia. apply put_out. change (zlen (word a)) with 4. lia.
  - cbn [take strs_len]. replace (p + 4 * Z.of_nat (S i)) with (p + 4 + 4 * Z.of_nat i) by lia. replace (a + (zlen c0 + 1 + strs_len (take i argv))) with (a + (zlen c0 + 1) + strs_len (take i argv)) by lia.
    apply IH; [|lia | done | done]. do 2 apply mapped_put. intros w Hw. apply Hm. lia.
Qed.
