(* ===== verification/ElfImage.v ===== *)
(** * The program loader: the image of a program

    [image_mem] is the memory of a task after loading, as a function of its memory before, the
    file and the arguments.  [build_image] makes exactly that, and what the program needs of
    it follows: its segments, its arguments and environment, and the words on its stack. *)
From S2P Require Import Prelude Pmm Vmm VmmInv VmmUser VmmSpec VmmBrk VmmClone.
From S2P Require Import CString Net NetSum Ata Elf ElfLoad.

(** ** Reading back *)
Section reading.
Context `{KernelAlloc} (home : Z).
Lemma load_ok s mm x l f v wr b : ready home s mm x l f -> current_directory s = mm_directory x -> IS_USER_SPACE v = true -> f v = Some (user_page 0 wr, b) -> load v s = Ok (b, s).
Proof.
  intros [W Hx M D C Hm] Hc Hv Hf. rewrite <- (Hm v Hv) in Hf. destruct (user_entry _ _ _ _ _ Hf) as [Hfr Hp]. unfold load. erewrite st_bind_Ok by done. erewrite st_bind_Ok by done. cbv zeta. rewrite Hc.
  erewrite st_bind_Ok by (apply ensure_true; change (id s) with s; rewrite (proj2 (Z.eqb_neq _ _) Hfr), (proj2 (Z.eqb_eq _ _) Hp); done).
  unfold space in Hf. rewrite (proj2 (Z.eqb_neq _ _) Hfr) in Hf. injection Hf as _ _ _ _ _ _ _ _ _ _ _ Hf. unfold mret, st_ret. change (id s) with s. by rewrite Hf.
Qed.
Lemma load32_ok s mm x l f v a : ready home s mm x l f -> current_directory s = mm_directory x -> 0x10000000 <= v -> v + 4 <= 0xc0000000 -> 0 <= a < 2 ^ 32 -> holds f v (word a) ->
  load32 v s = Ok (a, s).
Proof.
  intros R Hc H1 H2 Ha Hh. destruct (Hh 0%nat _ eq_refl) as (w0 & F0), (Hh 1%nat _ eq_refl) as (w1 & F1), (Hh 2%nat _ eq_refl) as (w2 & F2), (Hh 3%nat _ eq_refl) as (w3 & F3). cbn [Z.of_nat] in *. rewrite Z.add_0_r in F0.
  unfold load32. erewrite st_bind_Ok by (eapply load_ok; [done | done | apply user_space; lia | exact F0]).
  erewrite st_bind_Ok by (eapply load_ok; [done | done | apply user_space; lia | exact F1]). erewrite st_bind_Ok by (eapply load_ok; [done | done | apply user_space; lia | exact F2]).
  erewrite st_bind_Ok by (eapply load_ok; [done | done | apply user_space; lia | exact F3]). unfold mret, st_ret. do 2 f_equal. Z.to_euclidean_division_equations; lia.
Qed.
Lemma load_str_ok s mm x l f c : forall fuel v, ready home s mm x l f -> current_directory s = mm_directory x -> 0x10000000 <= v -> v + zlen c + 1 <= 0xc0000000 -> holds f v (c ++ [0]) ->
  (0 ∉ c) -> (length c < fuel)%nat -> load_str fuel v s = Ok (c, s).
Proof.
  induction c as [|b c IH]; intros [|fuel] v R Hc H1 H2 Hh Hz Hf; cbn in Hf; try lia; cbn [load_str]; destruct (Hh 0%nat _ eq_refl) as (wr & F0); cbn [Z.of_nat] in F0; rewrite Z.add_0_r in F0.
  - rewrite zlen_nil in H2. erewrite st_bind_Ok by (eapply load_ok; [done | done | apply user_space; lia | exact F0]). done.
  - rewrite zlen_cons in H2. pose proof (zlen_nonneg c). erewrite st_bind_Ok by (eapply load_ok; [done | done | apply user_space; lia | exact F0]).
    rewrite (proj2 (Z.eqb_neq b 0)) by set_solver. erewrite st_bind_Ok; [done|]. apply IH; try done; [lia | lia | | set_solver | lia].
    intros k x0 Hk. destruct (Hh (S k) x0 Hk) as (wr' & E). exists wr'. by replace (v + 1 + Z.of_nat k) with (v + Z.of_nat (S k)) by lia.
Qed.
End reading.

(** ** The image *)
Section image.
Context (reent_bytes data : list Z) (hs : list Elf32_Phdr) (argv envp : list (list Z)).

(** The layout above the segments, which end at [top]: the C library's structure, the arguments, the environment. *)
Definition reent_size : Z := round_page (zlen reent_bytes).
Definition argv_at (top : Z) : Z := top + reent_size.
Definition envp_at (top : Z) : Z := argv_at top + argv_size argv.
Definition image_end (top : Z) : Z := envp_at top + argv_size envp.
Definition image_pages : Z := segs_pages hs + reent_size / PAGE_SIZE + argv_size argv / PAGE_SIZE + argv_size envp / PAGE_SIZE.

Definition upper_mem (top : Z) (f : memory) : memory :=
  args_mem envp (envp_at top) (args_mem argv (argv_at top) (put_mem top reent_bytes (alloc_mem top (argv_at top) true f))).
Definition stack_mem (a e : Z) (f : memory) : memory :=
  put_mem (USER_STACK_START - 8) (word (zlen argv)) (put_mem (USER_STACK_START - 4) (word a) (put_mem USER_STACK_START (word e) f)).
Definition image_mem (top : Z) (f : memory) : memory := stack_mem (argv_at top) (envp_at top) (upper_mem top (segs_mem data hs f)).

(** A file and arguments that fit in a task's memory with areas [l]. *)
Record loadable (l : list vm_area) (f : memory) : Prop := {
  la_headers : headers data 0 hs;
  la_segs : segs_ok data 0 hs;
  la_free : segs_free l hs;
  la_above : free l (segs_top hs 0) (image_end (segs_top hs 0));
  la_top : 0x10000000 <= segs_top hs 0;
  la_end : image_end (segs_top hs 0) <= 0xb0000000;
  la_reent : 0 < zlen reent_bytes;
  la_stack : mapped f (USER_STACK_START - 8) (USER_STACK_START + 4);
  la_argv : Forall (Forall byte_ok) argv /\ Forall (Forall byte_ok) envp;
  la_name : exists c, head argv = Some c /\ (0 ∉ c)
}.
End image.

Lemma top_ge hs : forall b, b <= segs_top hs b /\ forall h, h ∈ hs -> p_type h = PT_LOAD -> seg_hi h <= segs_top hs b.
Proof.
  induction hs as [|h hs IH]; intros b; cbn [segs_top]; [split; [lia | set_solver]|]. destruct (IH (if p_type h =? PT_LOAD then Z.max b (seg_hi h) else b)) as [H1 H2]. split.
  - destruct (p_type h =? PT_LOAD); lia.
  - intros h' [->|Hin]%elem_of_cons Ht; [rewrite (proj2 (Z.eqb_eq _ _) Ht) in *; lia | by apply H2].
Qed.
Lemma top_aligned data hs : forall i b, segs_ok data i hs -> b mod PAGE_SIZE = 0 -> segs_top hs b mod PAGE_SIZE = 0.
Proof.
  induction hs as [|h hs IH]; intros i b; [done|]. intros (H1 & _ & H3) Hb. cbn [segs_top]. apply (IH (i + 1)); [done|]. destruct (Z.eqb_spec (p_type h) PT_LOAD) as [Ht|]; [|done].
  destruct (seg_bounds _ _ _ (H1 Ht)) as (_ & _ & _ & Ha & _). destruct (Z.max_spec b (seg_hi h)) as [[_ ->]|[_ ->]]; done.
Qed.
Lemma argv_size_ok argv : 0 < argv_size argv /\ argv_size argv mod PAGE_SIZE = 0 /\ argv_len argv <= argv_size argv.
Proof.
  pose proof (round_page_ok (argv_len argv)) as [? ?]. fold (argv_size argv) in *. rewrite argv_len_eq in *. pose proof (strs_len_nonneg argv). pose proof (zlen_nonneg argv). lia.
Qed.
Lemma add_aligned a b : a mod PAGE_SIZE = 0 -> b mod PAGE_SIZE = 0 -> (a + b) mod PAGE_SIZE = 0.
Proof. unfold PAGE_SIZE. intros. Z.to_euclidean_division_equations; lia. Qed.
Lemma args_out argv base f w : ~ (base <= w < base + argv_size argv) -> args_mem argv base f w = f w.
Proof.
  intros Hw. pose proof (argv_size_ok argv) as (_ & _ & Hl). rewrite argv_len_eq in Hl. pose proof (strs_len_nonneg argv). pose proof (zlen_nonneg argv). unfold args_mem. rewrite strs_out by lia. unfold alloc_mem. by rewrite decide_False.
Qed.
Lemma args_mapped argv base f lo hi : mapped f lo hi -> mapped (args_mem argv base f) lo hi.
Proof. intros Hm. unfold args_mem. apply strs_mapped, mapped_alloc. by right. Qed.

Section build.
Context `{KernelAlloc} (home : Z) (reent_bytes data : list Z) (hs : list Elf32_Phdr) (argv envp : list (list Z)).
Local Abbreviation top := (segs_top hs 0).
Local Abbreviation rsize := (reent_size reent_bytes).
Local Abbreviation A := (argv_at reent_bytes top).
Local Abbreviation E := (envp_at reent_bytes argv top).
Local Abbreviation END := (image_end reent_bytes argv envp top).

Lemma layout l f : loadable reent_bytes data hs argv envp l f ->
  0 < rsize /\ rsize mod PAGE_SIZE = 0 /\ zlen reent_bytes <= rsize /\ top mod PAGE_SIZE = 0 /\ A mod PAGE_SIZE = 0 /\ E mod PAGE_SIZE = 0 /\
  A = top + rsize /\ E = A + argv_size argv /\ END = E + argv_size envp /\ 0 < argv_size argv /\ 0 < argv_size envp.
Proof.
  intros L. pose proof (la_reent _ _ _ _ _ _ _ L) as Hr. pose proof (round_page_ok (zlen reent_bytes)) as [R1 R2]. fold rsize in R1, R2. pose proof (top_aligned _ _ _ 0 (la_segs _ _ _ _ _ _ _ L) eq_refl) as Ht.
  pose proof (argv_size_ok argv) as (S1 & S2 & _). pose proof (argv_size_ok envp) as (S3 & _). unfold END, E, argv_at. split_and!; try done; try lia; repeat apply add_aligned; done.
Qed.

Lemma load_reent_ok s mm x l f : ready home s mm x l f -> current_directory s = home -> brk_start x = top -> brk x = top -> top mod PAGE_SIZE = 0 -> 0x10000000 <= top ->
  top + rsize <= 0xb0000000 -> 0 < zlen reent_bytes -> free l top (top + rsize) -> rsize / PAGE_SIZE <= frames_with false (pm s) ->
  exists s' x' l', load_reent reent_bytes mm s = Ok ((home, top), s') /\ ready home s' mm x' l' (put_mem top reent_bytes (alloc_mem top (top + rsize) true f)) /\ only mm (mm_directory x) s s' /\
    current_directory s' = mm_directory x /\ mm_directory x' = mm_directory x /\ brk_start x' = top + rsize /\ brk x' = top + rsize /\ initial_brk x' = top + rsize /\
    frames_with false (pm s') = frames_with false (pm s) - rsize / PAGE_SIZE /\ (forall v b, covers l' v b <-> covers l v b \/ (top <= v < top + rsize /\ b = true)).
Proof.
  intros R1 C1 K1 K2 Z4 L5 L6 L7 Hf1 Hfr. pose proof (round_page_ok (zlen reent_bytes)) as [Z3 Z2]. fold rsize in Z2, Z3. unfold load_reent. cbv zeta. rewrite size_up by (fold rsize; lia). fold rsize.
  erewrite st_bind_Ok by (by eapply get_step). rewrite K2, (u32_small (top + rsize)) by lia.
  destruct (image_alloc home s mm x l f top (top + rsize) true R1) as (s2 & l2 & E2 & R2 & O2 & Cov2 & C2 & F2);
    [done | by apply add_aligned | lia | lia | apply free_areas_apart; [apply R1 | lia | done] | replace (top + rsize - top) with rsize by lia; lia|].
  replace (top + rsize - top) with rsize in * by lia. erewrite st_bind_Ok by exact E2. set (x2 := with_areas _ _) in *. erewrite st_bind_Ok by done. rewrite C2, C1.
  destruct (switch_step home s2 mm x2 l2 _ (mm_directory x) R2) as (s3 & E3 & R3 & O3 & C3 & F3 & Al3); [apply R2|]. erewrite st_bind_Ok by exact E3. change (mm_directory x2) with (mm_directory x) in *.
  destruct (store_bytes_step home reent_bytes s3 mm x2 l2 _ top R3) as (s4 & E4 & R4 & O4 & C4 & F4); [done | lia | lia | apply mapped_alloc; left; lia|]. erewrite st_bind_Ok by exact E4.
  erewrite st_bind_Ok by (by eapply get_step). change (brk_start x2) with (brk_start x). change (brk x2) with (brk x). rewrite K1, K2, u32_small by lia. set (x3 := with_brks _ _ x2).
  destruct (put_step home s4 mm x2 l2 _ x3 R4) as (s5 & E5 & R5 & O5 & C5 & F5); [done | done|]. erewrite st_bind_Ok by exact E5. erewrite st_bind_Ok by (by eapply get_step).
  erewrite st_bind_Ok by (apply ensure_true, IS_PAGE_ALIGNED_true; by apply add_aligned). erewrite st_bind_Ok by (apply ensure_true, Z.eqb_refl). set (x4 := with_initial_brk _ x3).
  destruct (put_step home s5 mm x3 l2 _ x4 R5) as (s6 & E6 & R6 & O6 & C6 & F6); [done | done|]. erewrite st_bind_Ok by exact E6. change (mm_directory x3) with (mm_directory x) in *. change (mm_directory x2) with (mm_directory x) in *.
  exists s6, x4, l2. split_and!; try done; [by chain | congruence | lia].
Qed.

(** The first argument, through its pointer. *)
Lemma args_at cs a f i c : Forall (Forall byte_ok) cs -> cs !! i = Some c ->
  let p := a + (zlen cs + 1) * 4 + strs_len (take i cs) in
  holds (args_mem cs a f) (a + 4 * Z.of_nat i) (word p) /\ holds (args_mem cs a f) p (c ++ [0]).
Proof.
  intros Hb Hi. pose proof (argv_size_ok cs) as (S1 & _ & S3). rewrite argv_len_eq in S3. pose proof (strs_len_nonneg cs). pose proof (zlen_nonneg cs).
  apply strs_at; [|lia | done | done]. apply mapped_alloc. left. lia.
Qed.
Lemma strs_take cs i c : cs !! i = Some c -> 0 <= strs_len (take i cs) /\ strs_len (take i cs) + zlen c + 1 <= strs_len cs.
Proof.
  revert i. induction cs as [|c0 cs IH]; intros [|i] Hi; [done | done | |].
  - injection Hi as ->. cbn. pose proof (strs_len_nonneg cs). lia.
  - cbn [take strs_len]. destruct (IH i Hi). pose proof (zlen_nonneg c0). lia.
Qed.
Lemma holds_args cs base f v l : holds f v l -> v + zlen l <= base \/ base + argv_size cs <= v -> holds (args_mem cs base f) v l.
Proof. intros Hh Hv. eapply holds_ext; [exact Hh|]. intros w Hw. apply args_out. lia. Qed.
Lemma stack_out cs a e f w : w < USER_STACK_START - 8 -> stack_mem cs a e f w = f w.
Proof. intros Hw. unfold stack_mem. rewrite !put_out by (unfold USER_STACK_START, word, zlen in *; cbn [length]; lia). done. Qed.

Lemma load_args_ok s mm x l f c : ready home s mm x l f -> current_directory s = mm_directory x -> brk_start x = brk x -> brk x mod PAGE_SIZE = 0 -> 0x10000000 <= brk x ->
  let e := brk x + argv_size argv in let z := e + argv_size envp in
  z <= 0xb0000000 -> free l (brk x) z -> argv_size argv / PAGE_SIZE + argv_size envp / PAGE_SIZE <= frames_with false (pm s) -> mapped f (USER_STACK_START - 8) (USER_STACK_START + 4) ->
  Forall (Forall byte_ok) argv -> head argv = Some c -> (0 ∉ c) ->
  exists s' x' l', load_args argv envp mm s = Ok (take (Z.to_nat (TASK_NAME_LEN - 1)) c, s') /\ ready home s' mm x' l' (stack_mem argv (brk x) e (args_mem envp e (args_mem argv (brk x) f))) /\
    only mm (mm_directory x) s s' /\ current_directory s' = mm_directory x /\ mm_directory x' = mm_directory x /\ brk_start x' = z /\ brk x' = z /\ initial_brk x' = initial_brk x /\
    frames_with false (pm s') = frames_with false (pm s) - argv_size argv / PAGE_SIZE - argv_size envp / PAGE_SIZE.
Proof.
  intros R6 C6 B6 A6 L6 e z Hz Hf1 Hfr Hst Hb Hc Hc0. pose proof (argv_size_ok argv) as (S1 & S2 & S2'). pose proof (argv_size_ok envp) as (S3 & S4 & _).
  assert (Hd : forall z, 0 < z -> 0 <= z / PAGE_SIZE) by (intros; apply Z.div_pos; (lia || done)). pose proof (Hd _ S1). pose proof (Hd _ S3). unfold load_args.
  assert (Ee : e = brk x + argv_size argv) by done. assert (Ez : z = e + argv_size envp) by done. clearbody z e.
  destruct (copy_argv_ok home argv s mm x l f R6 C6 B6 A6 L6) as (s7 & x7 & l7 & E7 & R7 & O7 & C7 & D7 & F7 & B7 & B7' & I7 & Cov7); [lia | intros v b Hv; specialize (Hf1 v b Hv); lia | lia|]. erewrite st_bind_Ok by exact E7.
  rewrite <- Ee in B7, B7', Cov7.
  destruct (copy_argv_ok home envp s7 mm x7 l7 _ R7) as (s8 & x8 & l8 & E8 & R8 & O8 & C8 & D8 & F8 & B8 & B8' & I8 & Cov8);
    [congruence | congruence | rewrite B7', Ee; by apply add_aligned | rewrite B7'; lia | rewrite B7'; lia
    | rewrite B7'; intros v b [Hv|[Hv _]]%Cov7; [specialize (Hf1 v b Hv); lia | lia] | lia|]. erewrite st_bind_Ok by exact E8. rewrite B7' in *. rewrite <- Ez in B8, B8'.
  assert (Hm8 : mapped (args_mem envp e (args_mem argv (brk x) f)) (USER_STACK_START - 8) (USER_STACK_START + 4)) by (by do 2 apply args_mapped).
  assert (Lw : forall a, zlen (word a) = 4) by done. unfold USER_STACK_START in *.
  destruct (store_bytes_step home (word e) s8 mm x8 l8 _ 0xbffff000 R8) as (s9 & E9 & R9 & O9 & C9 & F9); [congruence | lia | rewrite Lw; lia | intros w Hw; rewrite Lw in Hw; apply Hm8; lia|]. erewrite st_bind_Ok by exact E9.
  destruct (store_bytes_step home (word (brk x)) s9 mm x8 l8 _ (0xbffff000 - 4) R9) as (s10 & E10 & R10 & O10 & C10 & F10); [congruence | lia | rewrite Lw; lia | apply mapped_put; intros w Hw; rewrite Lw in Hw; apply Hm8; lia|]. erewrite st_bind_Ok by exact E10.
  destruct (store_bytes_step home (word (zlen argv)) s10 mm x8 l8 _ (0xbffff000 - 8) R10) as (s11 & E11 & R11 & O11 & C11 & F11); [congruence | lia | rewrite Lw; lia | do 2 apply mapped_put; intros w Hw; rewrite Lw in Hw; apply Hm8; lia|]. erewrite st_bind_Ok by exact E11.
  assert (Hi : argv !! 0%nat = Some c) by (by destruct argv). destruct (args_at argv (brk x) f 0 c Hb Hi) as [P1 P2]. destruct (strs_take argv 0 c Hi) as [T1 T2]. cbn [take strs_len] in *. change (4 * Z.of_nat 0) with 0 in P1. rewrite Z.add_0_r in P1, P2. rewrite Z.add_0_r in P1.
  rewrite argv_len_eq in S2'. pose proof (zlen_nonneg argv). pose proof (zlen_nonneg c).
  assert (Hkeep : forall v l0, holds (args_mem argv (brk x) f) v l0 -> v + zlen l0 <= e -> holds (stack_mem argv (brk x) e (args_mem envp e (args_mem argv (brk x) f))) v l0).
  { intros v l0 Hh Hv. eapply holds_ext; [apply (holds_args envp e _ _ _ Hh); by left|]. intros w Hw. apply stack_out. unfold USER_STACK_START. lia. }
  change (put_mem (0xbffff000 - 8) _ _) with (stack_mem argv (brk x) e (args_mem envp e (args_mem argv (brk x) f))) in R11.
  erewrite st_bind_Ok by (eapply load32_ok; [exact R11 | congruence | lia | lia | |apply Hkeep; [exact P1 | rewrite Lw; lia]]; lia).
  erewrite st_bind_Ok by (eapply (load_str_ok home s11 mm x8 l8 _ c); [exact R11 | congruence | lia | lia | apply Hkeep; [exact P2 | rewrite zlen_snoc; lia] | done | unfold zlen in *; rewrite argv_len_eq; unfold zlen; pose proof (strs_len_nonneg argv); lia]).
  rewrite D8 in *. rewrite D7 in *. exists s11, x8, l8. split_and!; try done; [by chain | congruence | congruence | lia].
Qed.

Lemma segs_mapped : forall f lo hi, mapped f lo hi -> mapped (segs_mem data hs f) lo hi.
Proof.
  induction hs as [|h t IH]; intros f lo hi Hm; cbn [segs_mem]; [done|]. apply IH. destruct (_ =? _); [|done]. unfold seg_mem. apply mapped_put, mapped_alloc. by right.
Qed.

Lemma build_image_ok s mm x l f : ready home s mm x l f -> loadable reent_bytes data hs argv envp l f -> current_directory s = home -> brk_start x = 0 -> brk x = 0 ->
  e_phnum data = Ok (zlen hs) -> image_pages reent_bytes hs argv envp <= frames_with false (pm s) ->
  exists s' x' l' c, head argv = Some c /\ build_image reent_bytes data argv envp mm s = Ok ((take (Z.to_nat (TASK_NAME_LEN - 1)) c, top), s') /\
    ready home s' mm x' l' (image_mem reent_bytes data hs argv envp top f) /\ only mm (mm_directory x) s s' /\
    current_directory s' = (if decide (home = kernel_directory s) then home else mm_directory x) /\ mm_directory x' = mm_directory x /\
    brk x' = END /\ brk_start x' = END /\ initial_brk x' = A /\ frames_with false (pm s') = frames_with false (pm s) - image_pages reent_bytes hs argv envp.
Proof.
  intros R L Hcur Hb1 Hb2 Hn Hfr. destruct (layout l f L) as (Z1 & Z2 & Z3 & Z4 & Z5 & Z6 & EA & EE & EEND & Z7 & Z8). pose proof L as [L1 L2 L3 L4 L5 L6 L7 L8 [L9 L10] (c & Hc & Hc0)].
  unfold image_pages in *. pose proof (segs_pages_nonneg _ _ _ L2) as Hp0. assert (Hd : forall z, 0 < z -> 0 <= z / PAGE_SIZE) by (intros; apply Z.div_pos; (lia || done)).
  pose proof (Hd _ Z1). pose proof (Hd _ Z7). pose proof (Hd _ Z8). unfold build_image. rewrite Hn. erewrite st_bind_Ok by done. replace (Z.to_nat (zlen hs)) with (length hs) by (unfold zlen; lia).
  destruct (load_segments_ok home data hs 0 s mm x l f R L1 L2 L3 Hcur ltac:(congruence) ltac:(lia)) as (s1 & x1 & l1 & E1 & R1 & O1 & C1 & D1 & F1 & K1 & K2 & Cov1). rewrite Hb2 in *. erewrite st_bind_Ok by exact E1.
  assert (Hf1 : free l1 top END).
  { intros v b [Hv|(h & Hin & Ht & Hr)]%Cov1; [by apply (L4 v b)|]. pose proof (proj2 (top_ge hs 0) h Hin Ht). lia. }
  destruct (load_reent_ok s1 mm x1 l1 _ R1 C1 K1 K2 Z4 L5) as (s2 & x2 & l2 & E2 & R2 & O2 & C2 & D2 & B2 & B2' & I2 & F2 & Cov2); [lia | lia | intros v b Hv; specialize (Hf1 v b Hv); lia | lia|]. erewrite st_bind_Ok by exact E2. cbv beta iota.
  rewrite <- EA in *.
  destruct (load_args_ok s2 mm x2 l2 _ c R2) as (s3 & x3 & l3 & E3 & R3 & O3 & C3 & D3 & B3 & B3' & I3 & F3);
    [congruence | congruence | congruence | lia | lia | rewrite B2'; intros v b [Hv|[Hv _]]%Cov2; [specialize (Hf1 v b Hv); lia | lia] | lia | apply mapped_put, mapped_alloc; right; by apply segs_mapped | done | done | done|].
  rewrite B2' in *. rewrite <- EE in *. rewrite <- EEND in *. rewrite D1 in *. rewrite D2 in *. erewrite st_bind_Ok by exact E3. erewrite st_bind_Ok by done. pose proof (only_preorder mm (mm_directory x)) as PO.
  assert (O13 : only mm (mm_directory x) s s3) by (by chain). rewrite (on_kernel _ _ _ _ O13). destruct (Z.eqb_spec home (kernel_directory s)) as [Hk|Hk]; cbn [negb].
  - destruct (switch_step home s3 mm x3 l3 _ home R3) as (s4 & E4 & R4 & O4 & C4 & F4 & _); [apply R3|]. erewrite st_bind_Ok by exact E4. rewrite D3 in *. exists s4, x3, l3, c. rewrite decide_True by done.
    split_and!; try done; [by chain | congruence | lia].
  - erewrite st_bind_Ok by done. exists s3, x3, l3, c. rewrite decide_False by done. split_and!; try done; [congruence | lia].
Qed.
End build.

(** ** What the program finds *)
(** The byte of a segment: the file's, or zero past its end. *)
Definition seg_byte (data : list Z) (h : Elf32_Phdr) (w : Z) : Z :=
  if decide (p_vaddr h <= w < p_vaddr h + p_filesz h) then nth (Z.to_nat (p_offset h + (w - p_vaddr h))) data 0 else 0.

Lemma nth_take_drop (l : list Z) n o k : (k < n)%nat -> nth k (take n (drop o l)) 0 = nth (o + k) l 0.
Proof. intros Hk. rewrite !nth_lookup, lookup_take_lt by done. by rewrite lookup_drop. Qed.
Lemma nth_byte (l : list Z) k : Forall byte_ok l -> byte_ok (nth k l 0).
Proof. intros Hl. rewrite nth_lookup. destruct (l !! k) as [b|] eqn:E; [|unfold byte_ok; cbn; lia]. rewrite Forall_forall in Hl. apply Hl. by eapply list_elem_of_lookup_2. Qed.

Lemma seg_mem_at data i h f w : seg_ok data i h -> Forall byte_ok data -> seg_lo h <= w < seg_hi h -> seg_mem data h f w = Some (user_page 0 (seg_wr h), seg_byte data h w).
Proof.
  intros Hok Hb Hw. pose proof Hok as [_ _ H3 H4]. unfold seg_mem, put_mem, alloc_mem, seg_byte. assert (Lb : zlen (seg_bytes data h) = p_filesz h) by (unfold seg_bytes, zlen in *; rewrite length_take, length_drop; lia).
  rewrite Lb. rewrite (decide_True (P := seg_lo h <= w < seg_hi h)) by done. case_decide; [|done]. cbn. do 2 f_equal. unfold seg_bytes. rewrite nth_take_drop by lia. replace (Z.to_nat (p_offset h) + Z.to_nat (w - p_vaddr h))%nat with (Z.to_nat (p_offset h + (w - p_vaddr h))) by lia.
  by apply u8_byte, nth_byte.
Qed.
Lemma segs_out data hs : forall i f w, segs_ok data i hs -> (forall h, h ∈ hs -> p_type h = PT_LOAD -> ~ (seg_lo h <= w < seg_hi h)) -> segs_mem data hs f w = f w.
Proof.
  induction hs as [|h hs IH]; intros i f w; [done|]. intros (H1 & _ & H3) Hw. cbn [segs_mem]. rewrite (IH (i + 1)) by (done || (intros h' Hin; apply Hw; by right)).
  destruct (Z.eqb_spec (p_type h) PT_LOAD) as [Ht|]; [|done]. specialize (H1 Ht). destruct (seg_bounds _ _ _ H1) as (B1 & B2 & _). pose proof H1 as [_ _ S3 S4]. specialize (Hw h ltac:(by left) Ht).
  unfold seg_mem. rewrite put_out; [unfold alloc_mem; by rewrite decide_False|]. unfold seg_bytes, zlen in *. rewrite length_take, length_drop. lia.
Qed.
Lemma segs_at data hs : forall i f w h, segs_ok data i hs -> Forall byte_ok data -> h ∈ hs -> p_type h = PT_LOAD -> seg_lo h <= w < seg_hi h ->
  segs_mem data hs f w = Some (user_page 0 (seg_wr h), seg_byte data h w).
Proof.
  induction hs as [|h0 hs IH]; intros i f w h; [set_solver|]. intros (H1 & H2 & H3) Hb Hin Ht Hw. cbn [segs_mem]. apply elem_of_cons in Hin as [->|Hin]; [|by apply (IH (i + 1))].
  rewrite (proj2 (Z.eqb_eq _ _) Ht). rewrite (segs_out _ _ (i + 1)); [by apply (seg_mem_at _ i); [apply H1 | ..] | done|].
  intros h' Hin' Ht'. rewrite Forall_forall in H2. destruct (H2 h' Hin' Ht Ht'); lia.
Qed.

Section found.
Context (reent_bytes data : list Z) (hs : list Elf32_Phdr) (argv envp : list (list Z)) (l : list vm_area) (f : memory).
Local Abbreviation top := (segs_top hs 0).
Local Abbreviation A := (argv_at reent_bytes top).
Local Abbreviation E := (envp_at reent_bytes argv top).
Local Abbreviation image := (image_mem reent_bytes data hs argv envp top f).
Context (L : loadable reent_bytes data hs argv envp l f).

Lemma image_segment h w : Forall byte_ok data -> h ∈ hs -> p_type h = PT_LOAD -> seg_lo h <= w < seg_hi h -> image w = Some (user_page 0 (seg_wr h), seg_byte data h w).
Proof.
  intros Hb Hin Ht Hw. destruct (layout _ _ _ _ _ _ _ L) as (Z1 & Z2 & Z3 & _ & _ & _ & EA & EE & EEND & Z7 & Z8). pose proof (proj2 (top_ge hs 0) h Hin Ht). pose proof (la_end _ _ _ _ _ _ _ L).
  unfold image_mem. rewrite stack_out by (unfold USER_STACK_START; lia). unfold upper_mem. rewrite !args_out by lia. rewrite put_out by lia. unfold alloc_mem. rewrite decide_False by lia.
  by apply (segs_at data hs 0); [apply L | ..].
Qed.
(** Argument or variable [i] of a block. *)
Lemma image_block_argv i c : argv !! i = Some c -> exists p, holds image (A + 4 * Z.of_nat i) (word p) /\ holds image p (c ++ [0]) /\ A + 4 * Z.of_nat i + 4 <= E /\ A <= p /\ p + zlen c + 1 <= E.
Proof.
  intros Hi. destruct (layout _ _ _ _ _ _ _ L) as (Z1 & Z2 & Z3 & _ & _ & _ & EA & EE & EEND & Z7 & Z8). pose proof (la_end _ _ _ _ _ _ _ L). destruct (la_argv _ _ _ _ _ _ _ L) as [Hb _].
  destruct (args_at argv A (put_mem top reent_bytes (alloc_mem top A true (segs_mem data hs f))) i c Hb Hi) as [P1 P2]. destruct (strs_take _ _ _ Hi) as [T1 T2]. pose proof (argv_size_ok argv) as (_ & _ & S3). rewrite argv_len_eq in S3.
  pose proof (lookup_lt_Some _ _ _ Hi) as Hlt. pose proof (zlen_nonneg c). pose proof (zlen_nonneg argv). exists (A + (zlen argv + 1) * 4 + strs_len (take i argv)). split_and!; [| |unfold zlen in *; lia | lia | lia].
  - eapply holds_ext; [apply (holds_args envp E _ _ _ P1); left; change (zlen (word _)) with 4; unfold zlen in *; lia|]. intros w Hw. apply stack_out. change (zlen (word _)) with 4 in Hw. unfold USER_STACK_START, zlen in *; lia.
  - eapply holds_ext; [apply (holds_args envp E _ _ _ P2); left; rewrite zlen_snoc; lia|]. intros w Hw. apply stack_out. rewrite zlen_snoc in Hw. unfold USER_STACK_START. lia.
Qed.
Lemma image_block_envp i c : envp !! i = Some c -> exists p, holds image (E + 4 * Z.of_nat i) (word p) /\ holds image p (c ++ [0]) /\ E + 4 * Z.of_nat i + 4 <= image_end reent_bytes argv envp top /\ E <= p /\ p + zlen c + 1 <= image_end reent_bytes argv envp top.
Proof.
  intros Hi. destruct (layout _ _ _ _ _ _ _ L) as (Z1 & Z2 & Z3 & _ & _ & _ & EA & EE & EEND & Z7 & Z8). pose proof (la_end _ _ _ _ _ _ _ L). destruct (la_argv _ _ _ _ _ _ _ L) as [_ Hb].
  destruct (args_at envp E (args_mem argv A (put_mem top reent_bytes (alloc_mem top A true (segs_mem data hs f)))) i c Hb Hi) as [P1 P2]. destruct (strs_take _ _ _ Hi) as [T1 T2]. pose proof (argv_size_ok envp) as (_ & _ & S3). rewrite argv_len_eq in S3.
  pose proof (lookup_lt_Some _ _ _ Hi) as Hlt. pose proof (zlen_nonneg c). pose proof (zlen_nonneg envp). exists (E + (zlen envp + 1) * 4 + strs_len (take i envp)). split_and!; [| |unfold zlen in *; lia | lia | lia].
  - eapply holds_ext; [exact P1|]. intros w Hw. apply stack_out. change (zlen (word _)) with 4 in Hw. unfold USER_STACK_START, zlen in *; lia.
  - eapply holds_ext; [exact P2|]. intros w Hw. apply stack_out. rewrite zlen_snoc in Hw. unfold USER_STACK_START. lia.
Qed.
Lemma image_stack : holds image (USER_STACK_START - 8) (word (zlen argv)) /\ holds image (USER_STACK_START - 4) (word A) /\ holds image USER_STACK_START (word E).
Proof.
  pose proof (la_stack _ _ _ _ _ _ _ L) as Hm. set (g := upper_mem reent_bytes argv envp top (segs_mem data hs f)).
  assert (Hg : mapped g (USER_STACK_START - 8) (USER_STACK_START + 4)) by (apply args_mapped, args_mapped, mapped_put, mapped_alloc; right; by apply segs_mapped).
  assert (Lw : forall a, zlen (word a) = 4) by done. unfold image_mem. fold g. unfold stack_mem. split_and!.
  - apply put_holds; [|apply word_bytes]. rewrite Lw. do 2 apply mapped_put. intros w Hw. apply Hg. unfold USER_STACK_START in *. lia.
  - apply (holds_ext (put_mem (USER_STACK_START - 4) (word A) (put_mem USER_STACK_START (word E) g))); [|intros w Hw; rewrite Lw in Hw; apply put_out; rewrite Lw; lia].
    apply put_holds; [|apply word_bytes]. rewrite Lw. apply mapped_put. intros w Hw. apply Hg. unfold USER_STACK_START in *. lia.
  - apply (holds_ext (put_mem USER_STACK_START (word E) g)); [|intros w Hw; rewrite Lw in Hw; rewrite put_out by (rewrite Lw; lia); apply put_out; rewrite Lw; lia].
    apply put_holds; [|apply word_bytes]. rewrite Lw. intros w Hw. apply Hg. unfold USER_STACK_START in *. lia.
Qed.
End found.
