(* ===== verification/ElfFile.v ===== *)
(** * The program loader: the file (src/src/kernel/elf.c)

    [elf_load_int] as a whole, over the file system and the memory: [stat] and [open] through the mount
    points (Mount.v), whose file systems add to the descriptor tables (Fd.v), [read] and
    [close] through the descriptor, and then the loading of what was read (Elf.v). *)
From S2P Require Import Prelude CString Fd Mount.
From S2P Require Import Pmm Vmm VmmInv Net Ata Elf.

Section files.
Context `{KernelAlloc} {D : Type} `{FileSystems D} `{MountOps (Fd.vfs D)}.

(** The mount points and the files, as seen by the running task, and the memory. *)
Definition system : Type := Mount.vfs (Fd.vfs D) * vmm.
Definition on_fs {A} (m : ST (Mount.vfs (Fd.vfs D)) A) : ST system A := fun '(g, s) => '(x, g') ← m g; Ok (x, (g', s)).
Definition on_fd {A} (m : ST (Fd.vfs D) A) : ST (Mount.vfs (Fd.vfs D)) A :=
  fun g => '(x, r) ← m (rest g); Ok (x, Mount.mk_vfs (mountpoints g) (pwd g) (link_count g) r).
Definition on_memory {A} (m : VM A) : ST system A := fun '(g, s) => '(x, s') ← m s; Ok (x, (g, s')).

(** What [kmalloc(PATH_MAX+1)] and [kmalloc(file_size)] give, and [st] before the call of [stat]. *)
Context (block : list Z) (data_block : Z -> list Z) (st0 : stat_buf).

Definition elf_load_int (path : list Z) (reent_bytes : list Z) (argv envp : list (list Z)) (mm : Z) (t : task) : ST system (ret * task) :=
  b ← on_memory interrupts_enabled; ensure (negb b) ;;
  '(r, st) ← on_fs (Mount.stat block (Some path) (Some st0));
  match r with
  | Err e => mret (Err e, t)
  | Val r =>
      ensure (r =? 0) ;;
      st ← lift (deref st);
      let file_size := u32 (st_size st) in
      fd ← on_fs (Mount.open block path O_RDONLY);
      match fd with
      | Err e => mret (Err e, t)
      | Val fd =>
          '(r, data) ← on_fs (on_fd (Fd.read fd (data_block file_size) file_size));
          match r with
          | Err e => mret (Err e, t)
          | Val n =>
              ensure (n =? s32 file_size) ;;
              on_fs (on_fd (Fd.close fd)) ;;
              on_memory (load_program reent_bytes data argv envp mm t)
          end
      end
  end.
End files.

(** ** The file header *)
(** A 32-bit ([ELFCLASS32]), little-endian ([ELFDATA2LSB]) ELF file of version 1 that is an
    executable ([ET_EXEC]) for the 386 ([EM_386]), as the ELF specification lays it out. *)
Definition i386_executable (data : list Z) : Prop :=
  exists pad rest, length pad = 9%nat /\ data = [0x7f; 69; 76; 70; 1; 1; 1] ++ pad ++ [2; 0; 3; 0] ++ rest.

Lemma le_pair a b v : byte_ok a -> byte_ok b -> 0 <= v < 256 -> (a + 256 * b = v <-> a = v /\ b = 0).
Proof. unfold byte_ok. lia. Qed.
Lemma header_spec data : 20 <= zlen data -> Forall byte_ok data -> exists b, valid_header data = Ok b /\ (b = true <-> i386_executable data).
Proof.
  intros Hlen Hb. assert (Hmag : bytes data 0 4 = Ok (take 4 data)) by (unfold bytes; rewrite !(proj2 (Z.leb_le _ _)) by lia; done).
  unfold valid_header. rewrite Hmag. cbn [mbind res_bind]. clear Hmag. unfold zlen in Hlen. do 20 (destruct data as [|? data]; [cbn in Hlen; lia|]). rewrite !Forall_cons in Hb. destruct_and! Hb.
  cbn [take]. unfold ELF_IDENT. case_bool_decide as Hm; cbn [negb].
  2:{ exists false. split; [done|]. split; [done|]. intros (pad & r & Hp & E). injection E. intros _ _ _ _ -> -> -> ->. done. }
  injection Hm as -> -> -> ->. unfold e_machine, e_type, get16. cbn -[Z.mul Z.add]. eexists. split; [done|].
  rewrite !andb_true_iff, !Z.eqb_eq, !le_pair by done. split.
  - intros ((((-> & ->) & ->) & -> & ->) & -> & ->). match goal with |- i386_executable (_ :: _ :: _ :: _ :: _ :: _ :: _ :: ?a :: ?b :: ?c :: ?d :: ?e :: ?f :: ?g :: ?h :: ?i :: _ :: _ :: _ :: _ :: ?r) => by exists [a; b; c; d; e; f; g; h; i], r end.
  - intros (pad & r & Hp & E). do 9 (destruct pad as [|? pad]; [done|]). destruct pad; [|done]. by injection E as -> -> -> -> -> -> -> -> -> -> -> -> -> -> -> -> ->.
Qed.

(** ** Reading the file *)
Section reading.
Context `{KernelAlloc} {D : Type} `{FileSystems D} `{MountOps (Fd.vfs D)} (block : list Z) (data_block : Z -> list Z) (st0 : stat_buf).
Implicit Types (g : Mount.vfs (Fd.vfs D)) (s : vmm).
Abbreviation load_file := (elf_load_int block data_block st0).
Abbreviation fs_stat path := (Mount.stat block (Some path) (Some st0)).
Abbreviation fs_open path := (Mount.open block path O_RDONLY).
Abbreviation fd_read fd size := (on_fd (Fd.read fd (data_block size) size)).

(** [path] names a file of [size] bytes that opens as descriptor [fd]. *)
Definition opens (path : list Z) (size fd : Z) g g' : Prop :=
  exists st g1, fs_stat path g = Ok ((Val 0, Some st), g1) /\ st_size st = size /\ 0 <= size < 2 ^ 31 /\ fs_open path g1 = Ok (Val fd, g').
(** It has the contents [data]. *)
Definition reads (path data : list Z) (fd : Z) g g' : Prop :=
  exists g1, opens path (zlen data) fd g g1 /\ fd_read fd (zlen data) g1 = Ok ((Val (zlen data), data), g').
(** Descriptor [fd] is free again, and no other one has changed. *)
Definition closed (fd : Z) g g' : Prop :=
  fd_wf (rest g') /\ exists tb, fdtables (rest g) !! current_task (rest g) = Some tb /\
    fdtables (rest g') = <[current_task (rest g) := <[Z.to_nat fd := 0]> tb]> (fdtables (rest g)) /\
    mountpoints g' = mountpoints g /\ pwd g' = pwd g /\ link_count g' = link_count g.

Lemma on_fs_bind {A B} (m : ST (Mount.vfs (Fd.vfs D)) A) (f : A -> ST system B) g s x g' : m g = Ok (x, g') -> (on_fs m ≫= f) (g, s) = f x (g', s).
Proof. intros E. unfold mbind, st_bind, on_fs. by rewrite E. Qed.
Lemma load_start path reent_bytes argv envp mm t g s : intr (pm s) = false ->
  load_file path reent_bytes argv envp mm t (g, s) =
    ('(r, st) ← on_fs (fs_stat path);
     match r with
     | Err e => mret (Err e, t)
     | Val r => ensure (r =? 0) ;; st ← lift (deref st); fd ← on_fs (fs_open path);
         match fd with
         | Err e => mret (Err e, t)
         | Val fd => '(r, data) ← on_fs (fd_read fd (u32 (st_size st)));
             match r with
             | Err e => mret (Err e, t)
             | Val n => ensure (n =? s32 (u32 (st_size st))) ;; on_fs (on_fd (Fd.close fd)) ;; on_memory (load_program reent_bytes data argv envp mm t)
             end
         end
     end) (g, s).
Proof. intros Hi. unfold elf_load_int, mbind at 1, st_bind at 1, on_memory at 1. cbn. by rewrite Hi. Qed.
Lemma load_opened path reent_bytes argv envp mm t g s size fd g2 : intr (pm s) = false -> opens path size fd g g2 ->
  load_file path reent_bytes argv envp mm t (g, s) =
    ('(r, data) ← on_fs (fd_read fd size);
     match r with
     | Err e => mret (Err e, t)
     | Val n => ensure (n =? size) ;; on_fs (on_fd (Fd.close fd)) ;; on_memory (load_program reent_bytes data argv envp mm t)
     end) (g2, s).
Proof.
  intros Hi (st & g1 & Hst & Hsz & Hsize & Hop). rewrite load_start by done. rewrite (on_fs_bind _ _ _ _ _ _ Hst). cbv beta iota.
  erewrite st_bind_Ok by done. erewrite st_bind_Ok by done. rewrite (on_fs_bind _ _ _ _ _ _ Hop). cbv beta iota. rewrite Hsz.
  assert (u32 size = size) as -> by (unfold u32; rewrite Z.mod_small by lia; done). assert (s32 size = size) as -> by (unfold s32; rewrite Z.mod_small by lia; lia). done.
Qed.
(** The descriptor is closed before the contents are looked at. *)
Lemma load_read path reent_bytes argv envp mm t g s data fd g3 p : intr (pm s) = false -> reads path data fd g g3 -> fd_wf (rest g3) -> refers (rest g3) fd p ->
  exists g4, closed fd g3 g4 /\ load_file path reent_bytes argv envp mm t (g, s) = on_memory (load_program reent_bytes data argv envp mm t) (g4, s).
Proof.
  intros Hi (g2 & Hop & Hrd) Hwf Hr. destruct (refers_view _ _ _ Hwf Hr) as (n & o & Hv & _). destruct (close_ok _ fd p n o Hwf Hr Hv) as (r4 & tb & Hc & Hwf4 & _ & Htb & Htb4 & _).
  exists (Mount.mk_vfs (mountpoints g3) (pwd g3) (link_count g3) r4). split; [split; [done|]; by exists tb|].
  rewrite (load_opened _ _ _ _ _ _ _ _ _ _ _ Hi Hop). rewrite (on_fs_bind _ _ _ _ _ _ Hrd). cbv beta iota. erewrite st_bind_Ok by (apply ensure_true, Z.eqb_refl).
  rewrite (on_fs_bind _ _ _ _ (Val 0) (Mount.mk_vfs (mountpoints g3) (pwd g3) (link_count g3) r4)); [done|]. unfold on_fd. by rewrite Hc.
Qed.
End reading.
