(* ===== verification/ElfCorrect.v ===== *)
(** * The program loader: theorems *)
From stdpp Require Import infinite.
From S2P Require Import Prelude CString Fd Mount Pmm Vmm VmmInv VmmUser VmmSpec VmmBrk VmmClone.
From S2P Require Import Net NetSum Ata Elf ElfLoad ElfImage ElfFile.
From stdpp Require Import strings.
#[local] Open Scope Z_scope.

Lemma holds_space s d f v l : mem_is s d f -> holds f v l -> 0x10000000 <= v -> v + zlen l <= 0xc0000000 -> holds (space s d) v l.
Proof.
  intros Hm Hh H1 H2 k b Hk. pose proof (lookup_lt_Some _ _ _ Hk). rewrite Hm by (apply user_space; unfold zlen in *; lia). by apply Hh.
Qed.
Lemma holds_app f v a b : holds f v a -> holds f (v + zlen a) b -> holds f v (a ++ b).
Proof.
  intros Ha Hb k x. rewrite lookup_app_Some. intros [Hk|[Hk Hx]]; [by apply Ha|]. destruct (Hb _ _ Hx) as (wr & E). exists wr. rewrite <- E. f_equal. unfold zlen. lia.
Qed.
Lemma seg_in data hs : forall i h, segs_ok data i hs -> h ∈ hs -> p_type h = PT_LOAD -> exists j, seg_ok data j h.
Proof.
  induction hs as [|h0 hs IH]; intros i h; [set_solver|]. intros (H1 & _ & H3) [->|Hin]%elem_of_cons Ht; [exists i; auto | by apply (IH (i + 1))].
Qed.

Lemma i386_length data : i386_executable data -> 20 <= zlen data.
Proof. intros (pad & r & Hp & ->). unfold zlen. rewrite !length_app, Hp. cbn. lia. Qed.
Lemma st_bind_Panic {S A B} (m : ST S A) (f : A -> ST S B) s : m s = Panic -> (m ≫= f) s = Panic.
Proof. intros E. unfold mbind, st_bind. by rewrite E. Qed.

Section theorems.
Context `{KA : KernelAlloc} {D : Type} `{FS : FileSystems D} `{MO : MountOps (Fd.vfs D)} (block : list Z) (data_block : Z -> list Z) (st0 : stat_buf).
Implicit Types g : Mount.vfs (Fd.vfs D).

(** C13: Loading a program.  For a file that is read without an error and is a 386 executable whose segments lie in the file, on separate pages
    of the program area, and arguments that fit, [elf_load_int] returns 0 and the task's memory
    is the program's: every page of a segment has the segment's access, and its bytes are
    those of the file, with zeroes up to the end of its pages; [argc], [argv] and [envp] are on
    the stack, and the pointers they lead to point to the texts of the arguments and
    the environment; the break is on the page after them.  The name and the entry point are set, no other
    task's memory changes, and the descriptor of the file is closed again. *)
Theorem elf_load_correct home s mm x l f reent_bytes data hs argv envp fd t entry0 syms tab path g g3 file : ready home s mm x l f -> loadable reent_bytes data hs argv envp l f ->
  current_directory s = home -> intr (pm s) = false -> brk_start x = 0 -> brk x = 0 -> i386_executable data -> e_entry data = Ok entry0 -> 0x10000000 <= entry0 < 0x11000000 ->
  e_phnum data = Ok (zlen hs) -> symbols_of data t = Ok (syms, tab) -> Forall byte_ok data -> image_pages reent_bytes hs argv envp <= frames_with false (pm s) ->
  reads block data_block st0 path data fd g g3 -> fd_wf (rest g3) -> refers (rest g3) fd file ->
  let top := segs_top hs 0 in let A := argv_at reent_bytes top in let E := envp_at reent_bytes argv top in
  exists g' s' x' c, head argv = Some c /\ closed fd g3 g' /\
    elf_load_int block data_block st0 path reent_bytes argv envp mm t (g, s) = Ok ((Val 0, mk_task (take 63 c) top syms tab entry0 entry0), (g', s')) /\
    vm_wf s' /\ mms s' !! mm = Some x' /\ brk x' = image_end reent_bytes argv envp top /\ brk_start x' = brk x' /\
    (forall h w, h ∈ hs -> p_type h = PT_LOAD -> seg_lo h <= w < seg_hi h -> space s' (mm_directory x) w = Some (user_page 0 (seg_wr h), seg_byte data h w)) /\
    (forall i c, argv !! i = Some c -> exists p, holds (space s' (mm_directory x)) (A + 4 * Z.of_nat i) (word p) /\ holds (space s' (mm_directory x)) p (c ++ [0])) /\
    (forall i c, envp !! i = Some c -> exists p, holds (space s' (mm_directory x)) (E + 4 * Z.of_nat i) (word p) /\ holds (space s' (mm_directory x)) p (c ++ [0])) /\
    holds (space s' (mm_directory x)) (USER_STACK_START - 8) (word (zlen argv) ++ word A ++ word E) /\
    (forall d w, d <> mm_directory x -> IS_USER_SPACE w = true -> space s' d w = space s d w).
Proof.
  intros R L Hcur Hi Hb1 Hb2 Hh He He2 Hn Hsy Hby Hfr Hrd Hwf Href top A E. destruct (load_read block data_block st0 path reent_bytes argv envp mm t g s data fd g3 file Hi Hrd Hwf Href) as (g' & Hcl & Hrun).
  destruct (header_spec data (i386_length data Hh) Hby) as (b & Hv & Hb). apply Hb in Hh as ->. destruct (build_image_ok home reent_bytes data hs argv envp s mm x l f R L Hcur Hb1 Hb2 Hn Hfr) as (s' & x' & l' & c & Hc & Eb & R' & O & C & DM & B & B' & I & F).
  exists g', s', x', c. pose proof R' as [W' Hx' _ _ _ M']. rewrite DM in M'. destruct (layout _ _ _ _ _ _ _ L) as (Z1 & Z2 & Z3 & Z4 & Z5 & Z6 & EA & EE & EEND & Z7 & Z8). pose proof (la_top _ _ _ _ _ _ _ L). pose proof (la_end _ _ _ _ _ _ _ L) as Hend.
  fold top in EA, EE, EEND, Hend. fold A in EA, EE. fold E in EE, EEND.
  assert (Hblk : forall v w c0, holds (image_mem reent_bytes data hs argv envp top f) v (word w) -> holds (image_mem reent_bytes data hs argv envp top f) w (c0 ++ [0]) -> 0x10000000 <= v -> v + 4 <= 0xc0000000 -> 0x10000000 <= w -> w + zlen c0 + 1 <= 0xc0000000 ->
    holds (space s' (mm_directory x)) v (word w) /\ holds (space s' (mm_directory x)) w (c0 ++ [0])).
  { intros v w c0 H1 H2 B1 B2 B3 B4. split; eapply holds_space; try done; rewrite zlen_snoc; lia. }
  split_and!; [done | done | | done | done | done | congruence | | | | |].
  - rewrite Hrun. unfold on_memory, load_program. rewrite Hv. erewrite st_bind_Ok by done. cbn [negb]. rewrite He. erewrite st_bind_Ok by done. erewrite st_bind_Ok by (apply ensure_true, Z.leb_le; lia). erewrite st_bind_Ok by (apply ensure_true, Z.ltb_lt; lia).
    erewrite st_bind_Ok by exact Eb. cbv beta iota. rewrite Hsy. erewrite st_bind_Ok by done. done.
  - intros h w Hin Ht Hw. destruct (seg_in _ _ _ _ (la_segs _ _ _ _ _ _ _ L) Hin Ht) as [i Hok]. destruct (seg_bounds _ _ _ Hok) as (B1 & B2 & _). rewrite M' by (apply user_space; lia). by eapply image_segment.
  - intros i c0 Hi0. destruct (image_block_argv reent_bytes data hs argv envp l f L i c0 Hi0) as (p & H1 & H2 & H3 & H4 & H5). exists p. fold top A E in H1, H2, H3, H4, H5. apply Hblk; (done || lia).
  - intros i c0 Hi0. destruct (image_block_envp reent_bytes data hs argv envp l f L i c0 Hi0) as (p & H1 & H2 & H3 & H4 & H5). exists p. fold top E in H1, H2, H3, H4, H5. apply Hblk; (done || lia).
  - destruct (image_stack reent_bytes data hs argv envp l f L) as (H1 & H2 & H3). fold top A E in H1, H2, H3. unfold USER_STACK_START in *.
    apply holds_app; [eapply holds_space; [done | done | lia | done]|]. change (zlen (word (zlen argv))) with 4. apply holds_app; [eapply holds_space; [done | done | lia | done]|]. change (zlen (word A)) with 4.
    eapply holds_space; [done | done | lia | done].
  - intros d w Hd Hw. by apply (on_space _ _ _ _ O).
Qed.

(** C39: What is not a program is refused, with interrupts off.  An error of [stat], [open] or [read] is returned as it
    is; on an error of [read] the file's descriptor stays open, since the loader does not close it;
    a [read] of fewer bytes than [stat] counted is a panic.  A file of at least 20 bytes that is
    not a 32-bit little-endian ELF executable for the 386, version 1, gives ENOEXEC, with the descriptor closed and every
    other one as it was; a 386 executable whose entry point is outside of the program area fails an
    assertion.  When an error is returned, the task and all memory are as they were.  (A shorter
    file is compared past the end of its buffer: [Elf.valid_header].) *)
Theorem elf_load_errors path reent_bytes argv envp mm t g s : intr (pm s) = false ->
  (forall e st g1, Mount.stat block (Some path) (Some st0) g = Ok ((Err e, st), g1) ->
    elf_load_int block data_block st0 path reent_bytes argv envp mm t (g, s) = Ok ((Err e, t), (g1, s))) /\
  (forall st g1 e g2, Mount.stat block (Some path) (Some st0) g = Ok ((Val 0, Some st), g1) -> Mount.open block path O_RDONLY g1 = Ok (Err e, g2) ->
    elf_load_int block data_block st0 path reent_bytes argv envp mm t (g, s) = Ok ((Err e, t), (g2, s))) /\
  (forall size fd g2 r l g3 p, opens block st0 path size fd g g2 -> on_fd (Fd.read fd (data_block size) size) g2 = Ok ((r, l), g3) -> refers (rest g3) fd p ->
    match r with
    | Err e => exists g', elf_load_int block data_block st0 path reent_bytes argv envp mm t (g, s) = Ok ((Err e, t), (g', s)) /\ refers (rest g') fd p
    | Val n => n <> size -> elf_load_int block data_block st0 path reent_bytes argv envp mm t (g, s) = Panic
    end) /\
  (forall data fd g3 p, reads block data_block st0 path data fd g g3 -> fd_wf (rest g3) -> refers (rest g3) fd p -> 20 <= zlen data -> Forall byte_ok data ->
    (~ i386_executable data ->
     exists g', elf_load_int block data_block st0 path reent_bytes argv envp mm t (g, s) = Ok ((Err ENOEXEC, t), (g', s)) /\ closed fd g3 g') /\
    (i386_executable data -> forall entry0, e_entry data = Ok entry0 -> ~ (0x10000000 <= entry0 < 0x11000000) ->
     elf_load_int block data_block st0 path reent_bytes argv envp mm t (g, s) = Panic)).
Proof.
  intros Hi. split_and!.
  - intros e st g1 Hst. rewrite load_start by done. by rewrite (on_fs_bind _ _ _ _ _ _ Hst).
  - intros st g1 e g2 Hst Hop. rewrite load_start by done. rewrite (on_fs_bind _ _ _ _ _ _ Hst). cbv beta iota. erewrite st_bind_Ok by done. erewrite st_bind_Ok by done. by rewrite (on_fs_bind _ _ _ _ _ _ Hop).
  - intros size fd g2 r d g3 p Hop Hrd Href. destruct r as [n|e].
    + intros Hn. rewrite (load_opened _ _ _ _ _ _ _ _ _ _ _ _ _ _ Hi Hop), (on_fs_bind _ _ _ _ _ _ Hrd). cbv beta iota. apply st_bind_Panic. unfold ensure. by rewrite (proj2 (Z.eqb_neq _ _) Hn).
    + exists g3. split; [|done]. rewrite (load_opened _ _ _ _ _ _ _ _ _ _ _ _ _ _ Hi Hop). by rewrite (on_fs_bind _ _ _ _ _ _ Hrd).
  - intros data fd g3 p Hrd Hwf Href Hlen Hby. destruct (load_read block data_block st0 path reent_bytes argv envp mm t g s data fd g3 p Hi Hrd Hwf Href) as (g' & Hcl & Hrun).
    destruct (header_spec data Hlen Hby) as (b & Hv & Hb). rewrite Hrun. unfold on_memory, load_program. rewrite Hv. split.
    + intros Hno. destruct b; [by destruct Hno; apply Hb|]. exists g'. done.
    + intros Hyes entry0 He Hout. apply Hb in Hyes as ->. erewrite st_bind_Ok by done. cbn [negb]. rewrite He. erewrite st_bind_Ok by done.
      destruct (Z.leb_spec 0x10000000 entry0) as [H1|H1]; [|done]. erewrite st_bind_Ok by done. rewrite (proj2 (Z.ltb_ge entry0 _)) by lia. done.
Qed.

Lemma st_bind_Undef {A B} (m : VM A) (f : A -> VM B) s : m s = Undef -> (m ≫= f) s = Undef.
Proof. intros E. unfold mbind, st_bind. by rewrite E. Qed.
Lemma free_tables_mms n : forall i d k, preserves (fun s s' => mms s' = mms s) (free_tables n i d k).
Proof.
  assert (PreOrder (fun s s' : vmm => mms s' = mms s)) by (split; [done | intros ???; congruence]).
  induction n as [|n IH]; intros i d k; cbn [free_tables]; pres; try apply IH; [unfold get_table; pres | by apply pres_modify].
Qed.
Lemma destroy_facts d s s' : destroy_user_page_dir d s = Ok (tt, s') -> dirs s' !! d = None /\ mms s' = mms s /\ d <> 0.
Proof.
  unfold destroy_user_page_dir, vlocked, interrupts_enabled, set_interrupts. intros (? & ? & [Hd ->]%ensure_inv & E)%st_bind_inv. apply negb_true_iff, Z.eqb_neq in Hd.
  apply st_bind_inv in E as (? & ? & [= <- <-] & E). apply st_bind_inv in E as (? & ? & [_ ->]%ensure_inv & E). apply st_bind_inv in E as (b & ? & [= <- <-] & E).
  apply st_bind_inv in E as (? & ? & [= <- <-] & E). apply st_bind_inv in E as (? & s3 & B & E).
  apply st_bind_inv in B as (pd & s4 & G1 & B). unfold get_dir in G1. apply st_bind_inv in G1 as (? & ? & [= <- <-] & G1). unfold lift in G1. destruct (deref _); [|done..]. injection G1 as <- <-.
  apply st_bind_inv in B as (kd & s5 & G2 & B). unfold get_dir in G2. apply st_bind_inv in G2 as (? & ? & [= <- <-] & G2). unfold lift in G2. destruct (deref _); [|done..]. injection G2 as <- <-.
  apply st_bind_inv in B as (? & s6 & G3%free_tables_mms & B). apply st_bind_inv in B as (? & s7 & [= <- <-] & B). injection B as <- <-.
  apply st_bind_inv in E as (? & s8 & G4 & E). injection E as <-. assert (Es : dirs s8 = delete d (dirs s6) /\ mms s8 = mms s6) by (destruct (intr (pm s)); injection G4 as <- <-; done). destruct Es as [-> ->].
  split_and!; [apply lookup_delete_eq | exact G3 | done].
Qed.
Lemma free_no_dir v d s : dirs s !! d = None -> d <> 0 -> vmm_free v d s = Undef.
Proof.
  intros Hd H0. unfold vmm_free, vmm_get_phys, vmm_get_page, vlocked, interrupts_enabled, set_interrupts, get_dir. assert (Hz : negb (d =? 0) = true) by (by rewrite (proj2 (Z.eqb_neq _ _))). rewrite Hz.
  erewrite st_bind_Ok by done. apply st_bind_Undef. erewrite st_bind_Ok by done. apply st_bind_Undef. erewrite st_bind_Ok by done. apply st_bind_Undef. erewrite st_bind_Ok by done. erewrite st_bind_Ok by done. apply st_bind_Undef.
  apply st_bind_Undef. erewrite st_bind_Ok by done. unfold lift. cbn. by rewrite Hd.
Qed.

(** [execve] destroys the page directory of the old address space and then frees its pages
    through that directory. *)
Theorem execve_uses_freed_directory old_mm new_mm n x a l s : mms s !! old_mm = Some x -> areas x = Some (a :: l) -> a_start a < a_stop a -> old_mm <> 0 ->
  forall s1, destroy_user_page_dir (mm_directory x) s = Ok (tt, s1) -> execve_finish (Val n) old_mm new_mm s = Undef.
Proof.
  intros Hx Ha Hlt Hm s1 E1. unfold execve_finish. erewrite st_bind_Ok by (by apply get_mm_ok). destruct (destroy_facts _ _ _ E1) as (D1 & M1 & Hd). erewrite st_bind_Ok by exact E1.
  apply st_bind_Undef. unfold vmm_destroy_task_mm. erewrite st_bind_Ok by (apply ensure_true; by rewrite (proj2 (Z.eqb_neq _ _))). unfold vlocked, interrupts_enabled, set_interrupts.
  erewrite st_bind_Ok by done. erewrite st_bind_Ok by done. apply st_bind_Undef. erewrite st_bind_Ok by (apply get_mm_ok; cbn; by rewrite M1). rewrite Ha. apply st_bind_Undef. cbn [free_areas]. apply st_bind_Undef.
  assert (Hn : exists k, pages_between (a_start a) (a_stop a) = S k) by (exists (pred (pages_between (a_start a) (a_stop a))); unfold pages_between, PAGE_SIZE; Z.to_euclidean_division_equations; lia). destruct Hn as [k ->].
  cbn [unmap_user]. apply st_bind_Undef. by apply free_no_dir.
Qed.
End theorems.

(** ** A small program and a new task *)
Definition demo_elf : list Z :=
  [0x7f; 69; 76; 70; 1; 1; 1] ++ replicate 9 0 ++ le16 2 ++ le16 3 ++ word 1 ++ word 0x10000000 ++ word 52 ++ word 0 ++ word 0 ++ le16 52 ++ le16 32 ++ le16 1 ++ le16 40 ++ le16 0 ++ le16 0 ++
  word 1 ++ word 84 ++ word 0x10000000 ++ word 0 ++ word 4 ++ word 8 ++ word 5 ++ word 0x1000 ++ [10; 20; 30; 40].
Definition demo_phdr : Elf32_Phdr := mk_phdr 1 84 0x10000000 4 8 5.

Definition stack_lo : Z := 0xbfffe000.
Definition new_dir : page_directory := mk_pd (fun _ => 0) (upd (upd (fun _ => 0) 0 6) 767 4) 0.
Definition new_mm : task_mm := mk_mm (Some [mk_area stack_lo 0xc0000000 true]) 0 0 0 0 0 2 0 2.
(** A task with nothing but two pages of stack; the kernel's directory is the current one. *)
Definition new_state : vmm := mk_vmm (mk_pmm [7; 0; 0; 0] 96 FULL (96 * PAGE_SIZE) false (fun x => x mod 251))
  {[1 := demo_kernel; 2 := new_dir]}
  {[4 := upd (upd (fun _ => page0) 1022 (user_page 1 true)) 1023 (user_page 2 true); 6 := upd (fun _ => page0) 0 (guarded_page true (mapped_page 0 true false 0 page0))]}
  [1; 2] {[5 := new_mm]} 1 1 0 5 3.

Lemma new_dirs d pd : dirs new_state !! d = Some pd -> (d = 1 /\ pd = demo_kernel) \/ (d = 2 /\ pd = new_dir).
Proof. cbn. rewrite lookup_insert_Some, lookup_singleton_Some. intros [[<- <-]|[_ [<- <-]]]; auto. Qed.
Lemma new_tables i : (i = 767 /\ tables new_dir i = 4) \/ (i = 0 /\ tables new_dir i = 6) \/ (i <> 767 /\ i <> 0 /\ tables new_dir i = 0).
Proof. cbn. unfold upd. destruct (Z.eqb_spec i 767), (Z.eqb_spec i 0); subst; tauto || lia. Qed.
Lemma new_walk d v : IS_USER_SPACE v = true -> walk new_state d v = if decide (d = 2 /\ vpn v = 0xbfffe) then user_page 1 true
  else if decide (d = 2 /\ vpn v = 0xbffff) then user_page 2 true else page0.
Proof.
  intros Hu%user_space. assert (Hv : PT v * 1024 + PO v = vpn v /\ 0 <= PO v < 1024 /\ 0x10000 <= vpn v) by (unfold PT, PO, vpn, PAGE_SIZE; Z.to_euclidean_division_equations; lia).
  unfold walk. destruct (dirs new_state !! d) as [pd|] eqn:Hd.
  - apply new_dirs in Hd as [[-> ->]|[-> ->]].
    + destruct (demo_kernel_tables (PT v)) as [[E _]|[_ ->]]; [lia|]. by rewrite !decide_False by lia.
    + destruct (new_tables (PT v)) as [[E ->]|[[E ->]|(N1 & N3 & ->)]]; [|lia|].
      * change (ptables new_state !! 4) with (Some (upd (upd (fun _ => page0) 1022 (user_page 1 true)) 1023 (user_page 2 true))). unfold upd.
        destruct (Z.eqb_spec (PO v) 1023); [rewrite decide_False, decide_True by lia; done|]. destruct (Z.eqb_spec (PO v) 1022); [by rewrite decide_True by lia | by rewrite !decide_False by lia].
      * by rewrite !decide_False by lia.
  - rewrite !decide_False; [done | intros [-> _]; done | intros [-> _]; done].
Qed.
Lemma new_vm_wf : vm_wf new_state.
Proof.
  assert (Hk : forall kd, dirs new_state !! kernel_directory new_state = Some kd -> kd = demo_kernel) by (intros kd [[_ ->]|[? _]]%new_dirs; done).
  split; [split|split|done].
  - done.
  - intros d pd i Hd. apply new_dirs in Hd as [[-> ->]|[-> ->]].
    + destruct (demo_kernel_tables i) as [[_ ->]|[_ ->]]; [right; by eexists | by left].
    + destruct (new_tables i) as [[_ ->]|[[_ ->]|(_ & _ & ->)]]; [right; by eexists | right; by eexists | by left].
  - by eexists.
  - intros d pd kd i Hd ->%Hk _ Hi. apply new_dirs in Hd as [[-> ->]|[-> ->]]; [done|].
    destruct (new_tables i) as [[-> _]|[[-> _]|(_ & ? & ->)]]; [by destruct Hi | done |]. destruct (demo_kernel_tables i) as [[? _]|[_ ->]]; done.
  - intros kd i ->%Hk Hi. destruct (demo_kernel_tables i) as [[-> _]|[_ ->]]; [|done]. by destruct Hi.
  - intros d1 p1 i1 d2 p2 i2 H1 H2. apply new_dirs in H1 as [[-> ->]|[-> ->]], H2 as [[-> ->]|[-> ->]];
      [destruct (demo_kernel_tables i1) as [[-> ->]|[_ ->]], (demo_kernel_tables i2) as [[-> ->]|[_ ->]]
      |destruct (demo_kernel_tables i1) as [[-> ->]|[_ ->]], (new_tables i2) as [[-> ->]|[[-> ->]|(_ & _ & ->)]]
      |destruct (new_tables i1) as [[-> ->]|[[-> ->]|(_ & _ & ->)]], (demo_kernel_tables i2) as [[-> ->]|[_ ->]]
      |destruct (new_tables i1) as [[-> ->]|[[-> ->]|(_ & _ & ->)]], (new_tables i2) as [[-> ->]|[[-> ->]|(_ & _ & ->)]]];
      try done; intros _ _; (split; [done|]); try (by left); by right.
  - split; [done | done | done | by repeat constructor | by left].
  - done.
  - intros d v Hu. rewrite new_walk by done. repeat case_decide; [split; done.. | done].
  - intros d1 v1 d2 v2 H1 H2. rewrite !new_walk by done. repeat case_decide; cbn; try done; intros; destruct_and!; split; congruence.
  - intros d v Hu. rewrite new_walk by done. by repeat case_decide.
Qed.
Lemma new_vpn v : stack_lo <= v < 0xc0000000 -> vpn v = 0xbfffe \/ vpn v = 0xbffff.
Proof. unfold stack_lo, vpn, PAGE_SIZE. intros. Z.to_euclidean_division_equations; lia. Qed.
Lemma new_ready : ready 1 new_state 5 new_mm [mk_area stack_lo 0xc0000000 true] (space new_state 2).
Proof.
  split; [exact new_vm_wf | done | | by exists new_dir | by exists demo_kernel | done]. split.
  - done.
  - split; [done | by eexists].
  - apply Forall_singleton. by unfold area_wf, stack_lo, PAGE_SIZE.
  - done.
  - intros v b (a & Ha & Hin & <-). apply list_elem_of_singleton in Ha as ->. unfold in_area in Hin. cbn in Hin. change (mm_directory new_mm) with 2. rewrite new_walk by (apply user_space; unfold stack_lo in Hin; lia).
    destruct (new_vpn v Hin) as [E|E]; [rewrite decide_True by done | rewrite decide_False, decide_True by lia]; (split; [split; [done | by left] | done]).
  - intros v Hu Hf. rewrite new_walk in Hf by done. exists true, (mk_area stack_lo 0xc0000000 true). split_and!; [by left | | done]. unfold in_area, stack_lo, vpn, PAGE_SIZE in *. cbn in *.
    repeat case_decide; cbn in Hf; try done; destruct_and!; Z.to_euclidean_division_equations; lia.
Qed.
Lemma demo_loadable : loadable [1; 2; 3] demo_elf [demo_phdr] [[97]] [] [mk_area stack_lo 0xc0000000 true] (space new_state 2).
Proof.
  assert (Hf : forall lo hi, hi <= stack_lo -> free [mk_area stack_lo 0xc0000000 true] lo hi).
  { intros lo hi Hh v b (a & Ha & Hin & _). apply list_elem_of_singleton in Ha as ->. unfold in_area in Hin. cbn in Hin. lia. }
  split.
  - intros [|k] h Hk; [|done]. injection Hk as <-. by vm_compute.
  - split_and!; [|by apply Forall_nil | done]. intros _. split; [done | by vm_compute | done | by vm_compute].
  - apply Forall_singleton. intros _. apply Hf. by vm_compute.
  - apply Hf. by vm_compute.
  - by vm_compute.
  - by vm_compute.
  - done.
  - intros w Hw. unfold USER_STACK_START in Hw. unfold space. rewrite new_walk by (apply user_space; lia). destruct (new_vpn w) as [E|E]; [unfold stack_lo; lia | |].
    + rewrite decide_True by done. exists true. by eexists.
    + rewrite decide_False, decide_True by lia. exists true. by eexists.
  - split; [|by apply Forall_nil]. apply Forall_singleton, Forall_singleton. by unfold byte_ok.
  - exists [97]. split; [done|]. by intros ?%list_elem_of_singleton.
Qed.
Definition demo_task : task := mk_task [] 0 [] [] 0 0.

(** A disk with one file, [data], that every path names; the descriptors are those of Fd.v's sample task. *)
Definition disk_files (data : list Z) : FileSystems pipes := {|
  Fd.kmalloc_file := fresh_file;
  Fd.call_read := fun _ _ buf n => mret (Val (Z.min n (zlen data)), take (Z.to_nat n) data ++ drop (length data) buf);
  Fd.call_write := @Fd.call_write _ kernel_files; Fd.call_close := @Fd.call_close _ kernel_files; Fd.call_lseek := @Fd.call_lseek _ kernel_files;
  Fd.call_fstat := @Fd.call_fstat _ kernel_files; Fd.call_getdents := @Fd.call_getdents _ kernel_files; Fd.make_pipe := @Fd.make_pipe _ kernel_files; Fd.pipe_ops := @Fd.pipe_ops _ kernel_files;
  Fd.usable := @Fd.usable _ kernel_files; Fd.fs_ok := @Fd.fs_ok _ kernel_files; Fd.kmalloc_not_null := @Fd.kmalloc_not_null _ kernel_files; Fd.kmalloc_fresh := @Fd.kmalloc_fresh _ kernel_files;
  Fd.usable_close := @Fd.usable_close _ kernel_files; Fd.usable_pipe := @Fd.usable_pipe _ kernel_files; Fd.fs_ok_counts := @Fd.fs_ok_counts _ kernel_files; Fd.close_usable := @Fd.close_usable _ kernel_files; Fd.make_pipe_ok := @Fd.make_pipe_ok _ kernel_files
|}.
Definition disk_ops : open_file_ops := mk_fops 1 0 FAT_CLOSE 0 0 0.
Definition disk_mount (data : list Z) : MountOps (Fd.vfs pipes) := {|
  call_open := fun _ _ _ _ => on_fd ('(fd, p) ← @new_filp _ (disk_files data); set_file p (mk_open_file 1 0 0 0 0 (zlen data) 0 0 None disk_ops 0) ;; mret (Val fd));
  call_opendir := fun _ _ _ => mret 1;
  call_stat := fun _ _ _ _ => mret (Val 0, mk_stat 0x8000 (zlen data));
  call_readlink := fun _ _ _ buf _ => mret (Err EINVAL, buf)
|}.
Definition disk_start : Mount.vfs (Fd.vfs pipes) := Mount.mk_vfs (Some sample_mts.*1) (Some (block_of "/")) 0 (sample 3 130).
Definition disk_opened : Mount.vfs (Fd.vfs pipes) := Mount.mk_vfs (Some sample_mts.*1) (Some (block_of "/")) 0
  (Fd.mk_vfs (<[fresh_file (sample 3 130) := mk_open_file 1 0 0 0 0 88 0 0 None disk_ops 0]> (files (sample 3 130)))
    {[1 := replicate 3 100 ++ fresh_file (sample 3 130) :: replicate 129 0]} 1 true ∅).
Definition prog_path : list Z := lit "/initrd/prog".
Definition disk_block (n : Z) : list Z := replicate (Z.to_nat n) 0.
(** A text file of the same size. *)
Definition no_elf : list Z := 0x23 :: tail demo_elf.
Ltac disk_run := eexists; split; [do 2 eexists; split; [by vm_compute|split; [by vm_compute|split; [by vm_compute|by vm_compute]]]|by vm_compute].
Lemma disk_reads_elf : @reads pipes (disk_files demo_elf) (disk_mount demo_elf) path_buf disk_block (mk_stat 0 0) prog_path demo_elf 3 disk_start disk_opened.
Proof. disk_run. Qed.
Lemma disk_reads_text : @reads pipes (disk_files no_elf) (disk_mount no_elf) path_buf disk_block (mk_stat 0 0) prog_path no_elf 3 disk_start disk_opened.
Proof. disk_run. Qed.
Lemma disk_wf data : @fd_wf pipes (disk_files data) (rest disk_opened).
Proof.
  pose proof (sample_wf 3 130 ltac:(lia) ltac:(lia)) as (Hl & _ & Hfs). assert (Hv : view (rest disk_opened) = <[fresh_file (sample 3 130) := (1, (disk_ops, 0))]> (view (sample 3 130))) by (by vm_compute).
  assert (Ht : fdtables (rest disk_opened) = <[1 := <[3%nat := fresh_file (sample 3 130)]> (replicate 3 100 ++ replicate 130 0)]> (fdtables (sample 3 130))) by (by vm_compute).
  split; [|split; [by eexists|]].
  - rewrite Hv, Ht. apply linked_new; [destruct Hl; by split|done|done|lia|by vm_compute|by vm_compute|done].
  - rewrite Hv. intros p n o. rewrite lookup_insert_Some. intros [[<- [= <- <-]]|[_ Hp]]; [done|]. by apply (Hfs p n o).
Qed.
Lemma disk_refers : refers (rest disk_opened) 3 (fresh_file (sample 3 130)).
Proof. split; [done|]. split; [by vm_compute|]. eexists. split; [done|by vm_compute]. Qed.

Lemma elf_load_witness : exists g' s', @elf_load_int demo_alloc pipes (disk_files demo_elf) (disk_mount demo_elf) path_buf disk_block (mk_stat 0 0) prog_path [1; 2; 3] [[97]] [] 5 demo_task (disk_start, new_state) =
    Ok ((Val 0, mk_task [97] 0x10001000 [] [] 0x10000000 0x10000000), (g', s')) /\
  space s' 2 0x10000002 = Some (user_page 0 false, 30) /\ space s' 2 0x10000007 = Some (user_page 0 false, 0) /\ holds (space s' 2) 0xbfffeff8 (word 1 ++ word 0x10002000 ++ word 0x10003000).
Proof.
  destruct (@elf_load_correct demo_alloc pipes (disk_files demo_elf) (disk_mount demo_elf) path_buf disk_block (mk_stat 0 0) 1 new_state 5 new_mm _ _ [1; 2; 3] demo_elf [demo_phdr] [[97]] [] 3 demo_task 0x10000000 [] []
      prog_path disk_start disk_opened (fresh_file (sample 3 130)) new_ready demo_loadable) as (g' & s' & x' & c & Hc & _ & E & _ & _ & _ & _ & Hs & _ & _ & Hst & _);
    [done | done | done | done | by exists (replicate 9 0), (drop 20 demo_elf) | by vm_compute | done | by vm_compute | by vm_compute | repeat (apply Forall_cons; split; [by vm_compute|]); by apply Forall_nil | by vm_compute | exact disk_reads_elf | apply disk_wf | exact disk_refers|].
  injection Hc as <-. exists g', s'. split_and!; [exact E | | |exact Hst].
  - clear E Hst. etransitivity; [apply (Hs demo_phdr 0x10000002); [by left | done | by vm_compute] | by vm_compute].
  - clear E Hst. etransitivity; [apply (Hs demo_phdr 0x10000007); [by left | done | by vm_compute] | by vm_compute].
Defined.
Lemma elf_load_errors_witness : exists g', @elf_load_int demo_alloc pipes (disk_files no_elf) (disk_mount no_elf) path_buf disk_block (mk_stat 0 0) prog_path [1; 2; 3] [[97]] [] 5 demo_task (disk_start, new_state) =
    Ok ((Err ENOEXEC, demo_task), (g', new_state)) /\ @closed pipes (disk_files no_elf) 3 disk_opened g'.
Proof.
  destruct (@elf_load_errors demo_alloc pipes (disk_files no_elf) (disk_mount no_elf) path_buf disk_block (mk_stat 0 0) prog_path [1; 2; 3] [[97]] [] 5 demo_task disk_start new_state eq_refl) as (_ & _ & _ & H).
  apply (H no_elf 3 disk_opened (fresh_file (sample 3 130))); [exact disk_reads_text | apply disk_wf | exact disk_refers | by vm_compute | repeat (apply Forall_cons; split; [by vm_compute|]); by apply Forall_nil|].
  intros (pad & r & _ & E). discriminate E.
Defined.
