(* ===== verification/Backtrace.v ===== *)
(** * Names for addresses (src/src/kernel/backtrace.c: addr_to_func)

    A symbol table is an array that ends at the first entry without an address or a name; the
    kernel's and the task's are searched for the function an address lies in. *)
From S2P Require Import Prelude.

Record symbol := mk_sym { eip : Z; sname : option (list Z) }.
#[export] Instance symbol_eq_dec : EqDecision symbol.
Proof. solve_decision. Defined.

(** [while (symp->eip && symp->name)] over one array; the best match so far and its distance. *)
Fixpoint scan_symbols (addr : Z) (syms : list symbol) (best_match : symbol) (min_diff : Z) : res (symbol * Z) :=
  match syms with
  | [] => Undef
  | symp :: syms =>
      if negb (eip symp =? 0) && bool_decide (is_Some (sname symp)) then
        if (eip symp <=? addr) && (u32 (addr - eip symp) <? min_diff) then scan_symbols addr syms symp (u32 (addr - eip symp))
        else scan_symbols addr syms best_match min_diff
      else Ok (best_match, min_diff)
  end.
(** [all_syms]: the tables up to the first NULL. *)
Fixpoint scan_tables (addr : Z) (all_syms : list (option (list symbol))) (best_match : symbol) (min_diff : Z) : res (symbol * Z) :=
  match all_syms with
  | Some syms :: all_syms => '(best_match, min_diff) ← scan_symbols addr syms best_match min_diff; scan_tables addr all_syms best_match min_diff
  | _ => Ok (best_match, min_diff)
  end.
Definition possible (addr : Z) : bool :=
  ((0x100000 <=? addr) && (addr <=? 0x200000)) || ((0x10000000 <=? addr) && (addr <=? 0x20000000)).
Definition addr_to_func (kernel_syms symbols : option (list symbol)) (addr : Z) : res (option symbol) :=
  if negb (possible addr) then Ok None
  else
    '(best_match, _) ← scan_tables addr [kernel_syms; symbols] (mk_sym 0xffffffff None) 0xffffffff;
    Ok (if (eip best_match =? 0xffffffff) || bool_decide (sname best_match = None \/ sname best_match = Some []) then None
        else if 0x200000 <? u32 (addr - eip best_match) then None
        else Some best_match).

(** ** The nearest symbol *)
(** A table with its terminator. *)
Definition table (l : list symbol) : list symbol := l ++ [mk_sym 0 None].
Definition entry_ok (y : symbol) : Prop := 0 < eip y < 2 ^ 32 - 1 /\ is_Some (sname y) /\ sname y <> Some [].
(** [y] is the last symbol of [l] at or before the address, the first one of them if several
    are equally near. *)
Definition nearest (addr : Z) (l : list symbol) (y : symbol) : Prop :=
  exists l1 l2, l = l1 ++ y :: l2 /\ eip y <= addr /\ (forall z, z ∈ l1 -> eip z <= addr -> eip z < eip y) /\ (forall z, z ∈ l2 -> eip z <= addr -> eip z <= eip y).
Definition before (addr : Z) (l : list symbol) : Prop := exists y, y ∈ l /\ eip y <= addr.

(** The state of the search after the symbols [l]. *)
Definition best (addr : Z) (l : list symbol) (b : symbol) (d : Z) : Prop :=
  (b = mk_sym 0xffffffff None /\ d = 0xffffffff /\ forall z, z ∈ l -> addr < eip z) \/ (nearest addr l b /\ d = addr - eip b).

Lemma scan_symbols_ok addr t : 0 <= addr < 2 ^ 32 - 1 -> forall l b d, best addr l b d -> Forall entry_ok t ->
  exists b' d', scan_symbols addr (table t) b d = Ok (b', d') /\ best addr (l ++ t) b' d'.
Proof.
  intros Ha. induction t as [|y t IH]; intros l b d Hb HF; [exists b, d; by rewrite app_nil_r|].
  apply Forall_cons in HF as [(Hy & Hs & Hne) HF]. unfold table. cbn [app scan_symbols]. rewrite (proj2 (Z.eqb_neq _ _)), bool_decide_eq_true_2 by (done || lia). cbn [negb andb].
  replace (l ++ y :: t) with ((l ++ [y]) ++ t) by (by rewrite <- app_assoc). destruct (Z.leb_spec (eip y) addr) as [Hle|Hgt]; cbn [andb].
  - rewrite u32_small by lia. destruct (Z.ltb_spec (addr - eip y) d) as [Hlt|Hge].
    + apply IH; [|done]. right. split; [|done]. exists l, []. split_and!; [done | done | | set_solver]. intros z Hz Hza. destruct Hb as [(_ & _ & Hb)|[(l1 & l2 & -> & Hbe & H1 & H2) ->]]; [by specialize (Hb z Hz); lia|].
      rewrite elem_of_app, elem_of_cons in Hz. destruct Hz as [Hz|[->|Hz]]; [specialize (H1 z Hz Hza) | | specialize (H2 z Hz Hza)]; lia.
    + apply IH; [|done]. destruct Hb as [(-> & -> & _)|[(l1 & l2 & -> & Hbe & H1 & H2) ->]]; [lia|]. right. split; [|done]. exists l1, (l2 ++ [y]). split_and!; [by rewrite <- app_assoc | done | done|].
      intros z [Hz|Hz%list_elem_of_singleton]%elem_of_app Hza; [by apply H2 | subst; lia].
  - apply IH; [|done]. destruct Hb as [(-> & -> & Hb)|[(l1 & l2 & -> & Hbe & H1 & H2) ->]].
    + left. split_and!; [done | done|]. intros z [Hz|Hz%list_elem_of_singleton]%elem_of_app; [by apply Hb | subst; lia].
    + right. split; [|done]. exists l1, (l2 ++ [y]). split_and!; [by rewrite <- app_assoc | done | done|]. intros z [Hz|Hz%list_elem_of_singleton]%elem_of_app Hza; [by apply H2 | subst; lia].
Qed.

(** [addr_to_func] names the function an address lies in: the symbol nearest below it in the
    kernel's table and the task's together, if there is one within 2 MiB. *)
Theorem addr_to_func_correct addr ks us : possible addr = true -> Forall entry_ok ks -> Forall entry_ok us ->
  match addr_to_func (Some (table ks)) (Some (table us)) addr with
  | Ok (Some y) => nearest addr (ks ++ us) y /\ addr - eip y <= 0x200000
  | Ok None => forall y, y ∈ ks ++ us -> eip y <= addr -> 0x200000 < addr - eip y
  | _ => False
  end.
Proof.
  intros Hp Hk Hu. assert (Ha : 0 <= addr < 2 ^ 32 - 1) by (unfold possible in Hp; apply orb_true_iff in Hp as [Hp|Hp]; bool_to_prop; lia).
  unfold addr_to_func. rewrite Hp. cbn [negb scan_tables].
  destruct (scan_symbols_ok addr ks Ha [] (mk_sym 0xffffffff None) 0xffffffff) as (b1 & d1 & -> & B1); [left; split_and!; [done | done | set_solver] | done|]. cbn [mbind res_bind].
  destruct (scan_symbols_ok addr us Ha _ b1 d1 B1 Hu) as (b2 & d2 & -> & B2). cbn [mbind res_bind]. cbn [app] in B2.
  destruct B2 as [(-> & _ & B2)|[B2 _]]; [cbn; intros y Hy Hle; specialize (B2 y Hy); lia|].
  pose proof B2 as (l1 & l2 & E & Hle & H1 & H2). assert (Hin : b2 ∈ ks ++ us) by (rewrite E; set_solver). assert (Hok : entry_ok b2) by (apply elem_of_app in Hin; rewrite !Forall_forall in *; naive_solver).
  destruct Hok as (Hr & [nm Hn] & Hne). rewrite (proj2 (Z.eqb_neq _ _)) by lia. rewrite bool_decide_eq_false_2 by (intros [?|?]; congruence). cbn [orb]. rewrite u32_small by lia.
  destruct (Z.ltb_spec 0x200000 (addr - eip b2)) as [Hfar|Hnear]; [|by split].
  intros y Hy Hya. rewrite E, elem_of_app, elem_of_cons in Hy. destruct Hy as [Hy|[->|Hy]]; [specialize (H1 y Hy Hya) | | specialize (H2 y Hy Hya)]; lia.
Qed.
Lemma addr_to_func_witness : match addr_to_func (Some (table [mk_sym 0x100000 (Some [97]); mk_sym 0x100100 (Some [98])])) (Some (table [])) 0x100123 with
  | Ok (Some y) => nearest 0x100123 [mk_sym 0x100000 (Some [97]); mk_sym 0x100100 (Some [98])] y | _ => False end.
Proof.
  pose proof (addr_to_func_correct 0x100123 [mk_sym 0x100000 (Some [97]); mk_sym 0x100100 (Some [98])] []) as H. cbn [app] in H.
  destruct (addr_to_func _ _ _) as [[y|]| | |] eqn:E; [|vm_compute in E; discriminate..]. apply H; [done | by repeat constructor | by repeat constructor].
Defined.
