(* ===== verification/Console.v ===== *)
(** * Consoles (src/src/kernel/console.c)

    A console keeps its screen and scrollback in a ring buffer of lines; what is displayed is copied to
    the video memory.  Buffers of characters with colours are functions from an index, every
    access checked against the buffer's size.  A task is a number, and so is a console;
    [kernel_console] is number 0.  The status bar, a row of its own above the screen, is left out. *)
From S2P Require Import Prelude.

Definition NUM_SCROLLBACK : Z := 150.
Definition MAX_SCROLLBACK : Z := 24 * NUM_SCROLLBACK - 1.
Definition CONSOLE_BUFFER_SIZE : Z := 80 * 24 * (NUM_SCROLLBACK + 1).
Definition SCREEN : Z := 80 * 24.
Definition KEYBUFFER_SIZE : Z := 256.
Definition blank : Z := Z.lor (Z.shiftl 7 8) 0x20.

(** [read_ptr] and [write_ptr] are indexes in [data]. *)
Record ringbuffer := mk_ring { data : list Z; read_ptr : Z; write_ptr : Z; counter : Z }.
Record console := mk_con {
  tasks : list Z;
  active : bool;
  cursor_x : Z; cursor_y : Z;
  keybuffer : ringbuffer;
  buffer : Z -> Z;
  bufferptr : Z;                 (** index in [buffer] *)
  current_position : Z;
  text_color : Z; back_color : Z
}.
Record video := mk_video {
  consoles : gmap Z console;
  current_console : Z;
  virtual_consoles : list (option Z);
  current_console_number : Z;
  console_task : Z;
  task_console : Z -> option Z;  (** [task->console] *)
  videoram : Z -> Z;
  vram_buffer : Z -> Z;
  hw_cursor : Z;                 (** the location in the cursor registers *)
  serial : list Z                (** what was sent to the serial port *)
}.
Abbreviation CON := (ST video).

(** ** Access *)
Definition set_consoles (m : gmap Z console) (s : video) : video :=
  mk_video m (current_console s) (virtual_consoles s) (current_console_number s) (console_task s) (task_console s) (videoram s) (vram_buffer s) (hw_cursor s) (serial s).
Definition set_screen (v b : Z -> Z) (s : video) : video :=
  mk_video (consoles s) (current_console s) (virtual_consoles s) (current_console_number s) (console_task s) (task_console s) v b (hw_cursor s) (serial s).
Definition set_hw_cursor (c : Z) (s : video) : video :=
  mk_video (consoles s) (current_console s) (virtual_consoles s) (current_console_number s) (console_task s) (task_console s) (videoram s) (vram_buffer s) c (serial s).
Definition set_current_console (c n : Z) (s : video) : video :=
  mk_video (consoles s) c (virtual_consoles s) n (console_task s) (task_console s) (videoram s) (vram_buffer s) (hw_cursor s) (serial s).
Definition set_console_task (t : Z) (s : video) : video :=
  mk_video (consoles s) (current_console s) (virtual_consoles s) (current_console_number s) t (task_console s) (videoram s) (vram_buffer s) (hw_cursor s) (serial s).
Definition send_serial (c : Z) (s : video) : video :=
  mk_video (consoles s) (current_console s) (virtual_consoles s) (current_console_number s) (console_task s) (task_console s) (videoram s) (vram_buffer s) (hw_cursor s) (serial s ++ [c]).
Definition get_con (c : Z) : CON console := m ← gets consoles; lift (deref (m !! c)).
Definition put_con (c : Z) (x : console) : CON () := modify (fun s => set_consoles (<[c := x]> (consoles s)) s).
Definition with_cursor (x y : Z) (c : console) : console :=
  mk_con (tasks c) (active c) x y (keybuffer c) (buffer c) (bufferptr c) (current_position c) (text_color c) (back_color c).
Definition with_buffer (b : Z -> Z) (p : Z) (c : console) : console :=
  mk_con (tasks c) (active c) (cursor_x c) (cursor_y c) (keybuffer c) b p (current_position c) (text_color c) (back_color c).
Definition with_position (n : Z) (c : console) : console :=
  mk_con (tasks c) (active c) (cursor_x c) (cursor_y c) (keybuffer c) (buffer c) (bufferptr c) n (text_color c) (back_color c).
Definition with_colors (t b : Z) (c : console) : console :=
  mk_con (tasks c) (active c) (cursor_x c) (cursor_y c) (keybuffer c) (buffer c) (bufferptr c) (current_position c) t b.
Definition with_active (a : bool) (c : console) : console :=
  mk_con (tasks c) a (cursor_x c) (cursor_y c) (keybuffer c) (buffer c) (bufferptr c) (current_position c) (text_color c) (back_color c).
Definition with_keys (k : ringbuffer) (c : console) : console :=
  mk_con (tasks c) (active c) (cursor_x c) (cursor_y c) k (buffer c) (bufferptr c) (current_position c) (text_color c) (back_color c).

(** [memsetw] and [memcpy] in buffers of [size] elements. *)
Definition within (size i n : Z) : bool := (0 <=? i) && (0 <=? n) && (i + n <=? size).
Definition fill (size i n v : Z) (b : Z -> Z) : res (Z -> Z) :=
  if within size i n then Ok (fun j => if (i <=? j) && (j <? i + n) then v else b j) else Undef.
Definition copy (dsize : Z) (d : Z -> Z) (di ssize : Z) (src : Z -> Z) (si n : Z) : res (Z -> Z) :=
  if within dsize di n && within ssize si n then Ok (fun j => if (di <=? j) && (j <? di + n) then src (si + (j - di)) else d j) else Undef.

(** ** Display *)
Definition cur_screen (con : console) : Z := bufferptr con + 80 * 24 * NUM_SCROLLBACK.
Definition cur_visible (con : console) : Z := cur_screen con - 80 * current_position con.

Definition redraw_screen : CON () :=
  c ← gets current_console;
  con ← get_con c;
  vb ← gets vram_buffer; vr ← gets videoram;
  let cur_vis := cur_visible con in
  let cur_vis := if CONSOLE_BUFFER_SIZE <=? cur_vis then cur_vis - CONSOLE_BUFFER_SIZE else cur_vis in
  vb ← lift (if CONSOLE_BUFFER_SIZE <=? cur_vis + SCREEN then
               let copied := CONSOLE_BUFFER_SIZE - cur_vis in
               vb ← copy SCREEN vb 0 CONSOLE_BUFFER_SIZE (buffer con) cur_vis copied;
               copy SCREEN vb copied CONSOLE_BUFFER_SIZE (buffer con) 0 (SCREEN - copied)
             else copy SCREEN vb 0 CONSOLE_BUFFER_SIZE (buffer con) cur_vis SCREEN);
  vr ← lift (copy SCREEN vr 0 SCREEN vb 0 SCREEN);
  modify (set_screen vr vb).

(** Both versions write the location, 16 bits, to the registers. *)
Definition force_update_cursor : CON () :=
  c ← gets current_console;
  con ← get_con c;
  let y := cursor_y con + current_position con in
  modify (set_hw_cursor (u16 (y * 80 + cursor_x con + 80))).
(** [list_find_first(current_console->tasks, console_task) != NULL] *)
Definition displayed : CON bool :=
  c ← gets current_console; con ← get_con c; t ← gets console_task; mret (bool_decide (t ∈ tasks con)).
Definition update_cursor : CON () := d ← displayed; if d : bool then force_update_cursor else mret tt.

(** The console of the task that writes, the kernel's if it has none. *)
Definition own_console : CON Z := t ← gets console_task; f ← gets task_console; mret (default 0 (f t)).

(** [assert(console_task->console != NULL)] *)
Definition task_own_console : CON Z := t ← gets console_task; f ← gets task_console; ensure (bool_decide (is_Some (f t))) ;; lift (deref (f t)).

(** ** Output *)
Definition scroll : CON () :=
  c ← own_console;
  con ← get_con c;
  if cursor_y con <=? 23 then mret tt
  else
    let con := if negb (current_position con =? 0) then with_position (Z.min (u16 (current_position con + 1)) MAX_SCROLLBACK) con else con in
    let p := bufferptr con + 80 in
    let p := if CONSOLE_BUFFER_SIZE <=? p then 0 else p in
    let con := with_buffer (buffer con) p con in
    b ← lift (if cur_screen con + 80 * 23 + 80 <=? CONSOLE_BUFFER_SIZE then fill CONSOLE_BUFFER_SIZE (cur_screen con + 80 * 23) 80 blank (buffer con)
              else fill CONSOLE_BUFFER_SIZE (cur_screen con + 80 * 23 + 80 - CONSOLE_BUFFER_SIZE) 80 blank (buffer con));
    put_con c (with_buffer b p con) ;;
    redraw_screen ;;
    con ← get_con c;
    put_con c (with_cursor (cursor_x con) 23 con).

(** The printable case: the character in the console's buffer and, if it is on display, on the screen. *)
Definition put_visible (c : Z) (ch : Z) : CON () :=
  con ← get_con c;
  let cy := Z.min (cursor_y con) 23 in
  let cx := Z.min (cursor_x con) 79 in
  let offset := cy * 80 + cx in
  let color := u16 (Z.lor (Z.shiftl (back_color con) 12) (Z.shiftl (text_color con) 8)) in
  let v := Z.lor (u8 ch) color in
  let addr := cur_screen con + offset in
  let addr := if CONSOLE_BUFFER_SIZE <=? addr then addr - CONSOLE_BUFFER_SIZE else addr in
  b ← lift (fill CONSOLE_BUFFER_SIZE addr 1 v (buffer con));
  put_con c (with_buffer b (bufferptr con) (with_cursor cx cy con)) ;;
  d ← displayed;
  (if (d : bool) && (current_position con <? 24) && (cy <? 24 - current_position con) then
     vr ← gets videoram; vb ← gets vram_buffer;
     vr ← lift (fill SCREEN (offset + 80 * current_position con) 1 v vr);
     vb ← lift (fill SCREEN (offset + 80 * current_position con) 1 v vb);
     modify (set_screen vr vb)
   else mret tt) ;;
  con ← get_con c;
  put_con c (if cx + 1 =? 80 then with_cursor 0 (cy + 1) con else with_cursor (cx + 1) cy con).

Definition putchar (ch : Z) : CON Z :=
  c ← own_console;
  con ← get_con c;
  modify (send_serial (u8 ch)) ;;
  (if ch =? 10 then put_con c (with_cursor 0 (cursor_y con + 1) con)
   else if ch =? 8 then
     if 0 <? cursor_x con then put_con c (with_cursor (cursor_x con - 1) (cursor_y con) con)
     else if 0 <? cursor_y con then put_con c (with_cursor 79 (cursor_y con - 1) con)
     else mret tt
   else if 0x20 <=? ch then put_visible c ch
   else mret tt) ;;
  scroll ;;
  mret ch.

Fixpoint putchars (l : list Z) : CON () :=
  match l with [] => mret tt | ch :: l => putchar ch ;; putchars l end.
(** [puts], and [printk] after formatting. *)
Definition puts (l : list Z) : CON Z := putchars l ;; update_cursor ;; mret (zlen l).

Definition set_text_color (color : Z) : CON () :=
  c ← task_own_console; con ← get_con c;
  if (0 <=? color) && (color <=? 15) then put_con c (with_colors color (back_color con) con) else mret tt.
Definition set_back_color (color : Z) : CON () :=
  c ← task_own_console; con ← get_con c;
  if (0 <=? color) && (color <=? 15) then put_con c (with_colors (text_color con) color con) else mret tt.
(** [printc]: the text in other colours. *)
Definition printc (back text : Z) (l : list Z) : CON Z :=
  c ← task_own_console; con ← get_con c;
  set_text_color text ;; set_back_color back ;;
  puts l ;;
  set_text_color (text_color con) ;; set_back_color (back_color con) ;;
  mret (zlen l).

Definition clrscr : CON () :=
  task_own_console ;;
  (** 23 calls of [printk] with a newline *)
  (fix go (n : nat) : CON () := match n with O => mret tt | S n => puts [10] ;; go n end) 23%nat ;;
  d ← displayed;
  (if d : bool then
     vr ← gets videoram; vb ← gets vram_buffer;
     vb ← lift (fill SCREEN 0 SCREEN blank vb); vr ← lift (fill SCREEN 0 SCREEN blank vr);
     modify (set_screen vr vb)
   else mret tt) ;;
  c ← own_console; con ← get_con c;
  put_con c (with_cursor 0 0 con) ;;
  update_cursor.

(** ** Cursor *)
(** [get_cursor] *)
Definition get_cursor : CON (Z * Z) := c ← task_own_console; con ← get_con c; mret (cursor_x con, cursor_y con).
Definition cursor_left : CON () :=
  c ← task_own_console; con ← get_con c;
  (if negb (cursor_x con =? 0) then put_con c (with_cursor (cursor_x con - 1) (cursor_y con) con) else mret tt) ;;
  update_cursor.
Definition cursor_right : CON () :=
  c ← task_own_console; con ← get_con c;
  (if cursor_x con <? 79 then put_con c (with_cursor (cursor_x con + 1) (cursor_y con) con)
   else put_con c (with_cursor 0 (cursor_y con + 1) con) ;; scroll) ;;
  update_cursor.
Definition set_cursor (x y : Z) : CON bool :=
  c ← task_own_console; con ← get_con c;
  if (x <? 0) || (79 <? x) then mret false
  else if (y <? 0) || (23 <? y) then mret false
  else put_con c (with_cursor x y con) ;; update_cursor ;; mret true.
(** ** Scrollback *)
Definition scroll_to (f : Z -> option Z) : CON () :=
  c ← gets current_console; con ← get_con c;
  match f (current_position con) with
  | None => mret tt
  | Some n => put_con c (with_position n con) ;; redraw_screen ;; force_update_cursor
  end.
Definition scrollback_up : CON () := scroll_to (fun n => if MAX_SCROLLBACK <=? n then None else Some (n + 1)).
Definition scrollback_pgup : CON () :=
  scroll_to (fun n => if MAX_SCROLLBACK <=? n then None else if MAX_SCROLLBACK <=? n + 24 then Some MAX_SCROLLBACK else Some (n + 24)).
Definition scrollback_down : CON () := scroll_to (fun n => if n =? 0 then None else Some (n - 1)).
Definition scrollback_pgdown : CON () := scroll_to (fun n => if n =? 0 then None else if n <? 24 then Some 0 else Some (n - 24)).
Definition scrollback_reset : CON () :=
  c ← gets current_console; con ← get_con c; put_con c (with_position 0 con) ;; redraw_screen.

(** ** Switching and creating *)
Fixpoint find_console (new : Z) (l : list (option Z)) (i : Z) : option Z :=
  match l with [] => None | x :: l => if decide (x = Some new) then Some i else find_console new l (i + 1) end.
Definition console_switch (new : Z) : CON () :=
  cur ← gets current_console;
  if new =? cur then mret tt
  else
    vc ← gets virtual_consoles; n ← gets current_console_number;
    let n := default n (find_console new vc 0) in
    old ← get_con cur; put_con cur (with_active false old) ;;
    con ← get_con new; put_con new (with_active true con) ;;
    modify (set_current_console new n) ;;
    redraw_screen ;;
    force_update_cursor.
Definition empty_ring : ringbuffer := mk_ring (replicate (Z.to_nat KEYBUFFER_SIZE) 0) 0 0 0.
(** [console_create] with [console_init], at the address [new]. *)
Definition console_create (new : Z) : CON () :=
  vc ← gets virtual_consoles;
  last ← lift (aget vc 3); ensure (bool_decide (last = None)) ;;
  cur ← gets current_console; con ← get_con cur;
  put_con new (mk_con [] false (cursor_x con) (cursor_y con) empty_ring (buffer con) (bufferptr con) (current_position con) (text_color con) (back_color con)).
