(* ===== verification/ConsoleSpec.v ===== *)
(** * Consoles: the terminal they implement

    [cell con i] is character [i] of a console, from the oldest line of its scrollback on; the
    last 24 lines are its screen.  The invariant of the display is that the video memory shows the
    lines the console is scrolled to. *)
From S2P Require Import Prelude Console.

Definition wrap (z : Z) : Z := if CONSOLE_BUFFER_SIZE <=? z then z - CONSOLE_BUFFER_SIZE else z.
Definition cell (con : console) (i : Z) : Z := buffer con (wrap (bufferptr con + i)).
(** The first cell of the screen. *)
Definition TOP : Z := 80 * 24 * NUM_SCROLLBACK.
Definition scr (con : console) (y x : Z) : Z := cell con (TOP + 80 * y + x).

(** The ring buffer of a console: unless it has just wrapped, the line that the next scroll brings in at
    the bottom, which is out of reach of the scrollback until then, is blank. *)
Record ring_wf (con : console) : Prop := {
  cw_ptr : 0 <= bufferptr con < CONSOLE_BUFFER_SIZE;
  cw_line : bufferptr con mod 80 = 0;
  cw_pos : 0 <= current_position con <= MAX_SCROLLBACK;
  cw_next : bufferptr con <> 0 -> forall k, 0 <= k < 80 -> cell con k = blank
}.
Record con_wf (con : console) : Prop := {
  cw_ring : ring_wf con;
  cw_x : 0 <= cursor_x con <= 79;
  cw_y : 0 <= cursor_y con <= 23;
  cw_colors : 0 <= text_color con <= 15 /\ 0 <= back_color con <= 15
}.
Record video_wf (s : video) : Prop := {
  vw_cons c con : consoles s !! c = Some con -> con_wf con;
  vw_current : is_Some (consoles s !! current_console s);
  vw_task : exists c, task_console s (console_task s) = Some c /\ is_Some (consoles s !! c);
  vw_tasks c con t : consoles s !! c = Some con -> t ∈ tasks con <-> task_console s t = Some c
}.
(** The screen shows the current console. *)
Definition shows (s : video) : Prop := forall con, consoles s !! current_console s = Some con -> forall k, 0 <= k < SCREEN ->
  videoram s k = cell con (TOP - 80 * current_position con + k) /\ vram_buffer s k = cell con (TOP - 80 * current_position con + k).

Ltac sizes := unfold SCREEN, TOP, CONSOLE_BUFFER_SIZE, MAX_SCROLLBACK, NUM_SCROLLBACK in *.

Lemma get_con_ok s c con : consoles s !! c = Some con -> get_con c s = Ok (con, s).
Proof. intros Hc. unfold get_con. erewrite st_bind_Ok by done. unfold lift. by rewrite Hc. Qed.
Lemma within_true size i n : 0 <= i -> 0 <= n -> i + n <= size -> within size i n = true.
Proof. intros. unfold within. by rewrite !(proj2 (Z.leb_le _ _)). Qed.
Lemma fill_ok size i n v b : 0 <= i -> 0 <= n -> i + n <= size -> fill size i n v b = Ok (fun j => if (i <=? j) && (j <? i + n) then v else b j).
Proof. intros. unfold fill. by rewrite within_true. Qed.
Lemma copy_ok ds d di ss src si n : 0 <= di -> 0 <= si -> 0 <= n -> di + n <= ds -> si + n <= ss ->
  copy ds d di ss src si n = Ok (fun j => if (di <=? j) && (j <? di + n) then src (si + (j - di)) else d j).
Proof. intros. unfold copy. by rewrite !within_true. Qed.

(** [redraw_screen] makes the screen show the current console, whatever it showed before. *)
Lemma redraw_ok s con : consoles s !! current_console s = Some con -> ring_wf con ->
  exists vr vb, redraw_screen s = Ok (tt, set_screen vr vb s) /\ shows (set_screen vr vb s).
Proof.
  intros Hc [Hp _ Hpos _]. unfold redraw_screen. erewrite st_bind_Ok by done. erewrite st_bind_Ok by (by apply get_con_ok). erewrite st_bind_Ok by done. erewrite st_bind_Ok by done. cbv zeta.
  set (v := if CONSOLE_BUFFER_SIZE <=? cur_visible con then cur_visible con - CONSOLE_BUFFER_SIZE else cur_visible con).
  assert (Hv : 0 <= v < CONSOLE_BUFFER_SIZE /\ v = wrap (bufferptr con + (TOP - 80 * current_position con))).
  { unfold v, cur_visible, cur_screen, wrap. sizes. replace (bufferptr con + 80 * 24 * 150 - 80 * current_position con) with (bufferptr con + (80 * 24 * 150 - 80 * current_position con)) by lia.
    destruct (Z.leb_spec (80 * 24 * (150 + 1)) (bufferptr con + (80 * 24 * 150 - 80 * current_position con))); lia. }
  destruct Hv as [Hv Ev].
  assert (Hcell : forall k, 0 <= k < SCREEN -> cell con (TOP - 80 * current_position con + k) = buffer con (wrap (v + k))).
  { intros k Hk. unfold cell. f_equal. rewrite Ev. unfold wrap in *. sizes. repeat match goal with |- context [?a <=? ?b] => destruct (Z.leb_spec a b) end; lia. }
  set (m := if CONSOLE_BUFFER_SIZE <=? v + SCREEN then _ else _).
  assert (Hm : exists vb, m = Ok vb /\ forall k, 0 <= k < SCREEN -> vb k = buffer con (wrap (v + k))).
  { unfold m. destruct (Z.leb_spec CONSOLE_BUFFER_SIZE (v + SCREEN)) as [Hge|Hlt].
    - rewrite copy_ok by (sizes; lia). cbn [mbind res_bind]. rewrite copy_ok by (sizes; lia). eexists. split; [done|]. intros k Hk. cbn beta. unfold wrap.
      repeat match goal with |- context [?a <=? ?b] => destruct (Z.leb_spec a b) end; cbn [andb]; repeat match goal with |- context [?a <? ?b] => destruct (Z.ltb_spec a b) end; cbn [andb]; sizes; try lia; f_equal; lia.
    - rewrite copy_ok by (sizes; lia). eexists. split; [done|]. intros k Hk. cbn beta. rewrite (proj2 (Z.leb_le 0 k)), (proj2 (Z.ltb_lt k _)) by (sizes; lia). cbn [andb]. f_equal. unfold wrap. rewrite (proj2 (Z.leb_gt _ _)) by lia. lia. }
  destruct Hm as (vb & -> & Hvb). erewrite st_bind_Ok by done. rewrite copy_ok by (sizes; lia). erewrite st_bind_Ok by done. eexists _, vb. split; [done|]. intros con' Hc' k Hk. cbn in Hc'. assert (con' = con) as -> by congruence. cbn [videoram vram_buffer set_screen].
  rewrite (proj2 (Z.leb_le 0 k)), (proj2 (Z.ltb_lt k _)) by (sizes; lia). cbn [andb]. rewrite Z.add_0_l, Z.sub_0_r, Hvb, Hcell by done. done.
Qed.

(** ** What the operations do to a console *)
Definition next_ptr (p : Z) : Z := if CONSOLE_BUFFER_SIZE <=? p + 80 then 0 else p + 80.
Definition next_pos (n : Z) : Z := if n =? 0 then 0 else Z.min (n + 1) MAX_SCROLLBACK.
(** The line [scroll] blanks. *)
Definition blanked (p : Z) : Z := if p =? 0 then CONSOLE_BUFFER_SIZE - 80 else p.
Definition set_cells (i n v : Z) (b : Z -> Z) : Z -> Z := fun j => if (i <=? j) && (j <? i + n) then v else b j.
Definition advanced (con : console) : console :=
  with_buffer (set_cells (blanked (next_ptr (bufferptr con))) 80 blank (buffer con)) (next_ptr (bufferptr con)) (with_position (next_pos (current_position con)) con).
Definition scrolled (con : console) : console :=
  if cursor_y con <=? 23 then con else with_cursor (cursor_x con) 23 (advanced con).

Lemma next_ptr_ok con : ring_wf con -> 0 <= next_ptr (bufferptr con) < CONSOLE_BUFFER_SIZE /\ next_ptr (bufferptr con) mod 80 = 0 /\
  (bufferptr con = CONSOLE_BUFFER_SIZE - 80 /\ next_ptr (bufferptr con) = 0 \/ bufferptr con < CONSOLE_BUFFER_SIZE - 80 /\ next_ptr (bufferptr con) = bufferptr con + 80).
Proof. intros [Hp Hl _ _]. unfold next_ptr. sizes. destruct (Z.leb_spec (80 * 24 * (150 + 1)) (bufferptr con + 80)); Z.to_euclidean_division_equations; lia. Qed.

(** A line is lost at the far end, a line appears at the bottom. *)
Lemma advanced_cell con i : ring_wf con -> 80 <= i < CONSOLE_BUFFER_SIZE ->
  cell (advanced con) i = if i <? CONSOLE_BUFFER_SIZE - 80 then cell con (i + 80) else if bufferptr con =? 0 then cell con (i - (CONSOLE_BUFFER_SIZE - 80)) else blank.
Proof.
  intros H Hi. destruct (next_ptr_ok con H) as (Hn & _ & Hc). destruct H as [Hp Hl _ Hb].
  unfold cell at 1. unfold advanced. cbn [buffer bufferptr with_buffer with_position]. unfold set_cells, blanked.
  assert (Hblank : forall k, 0 <= k < 80 -> bufferptr con <> 0 -> buffer con (bufferptr con + k) = blank).
  { intros k Hk Hnz. rewrite <- (Hb Hnz k Hk). unfold cell, wrap. rewrite (proj2 (Z.leb_gt _ _)); [done|]. sizes. Z.to_euclidean_division_equations; lia. }
  destruct Hc as [[E En]|[E En]]; rewrite En.
  - cbn [Z.eqb]. destruct (Z.ltb_spec i (CONSOLE_BUFFER_SIZE - 80)).
    + assert (wrap (0 + i) = i) as -> by (unfold wrap; rewrite (proj2 (Z.leb_gt _ _)); sizes; lia).
      rewrite (proj2 (Z.leb_gt _ _)) by lia. cbn [andb]. unfold cell, wrap. rewrite (proj2 (Z.leb_le _ _)) by (sizes; lia). f_equal. lia.
    + assert (wrap (0 + i) = i) as -> by (unfold wrap; rewrite (proj2 (Z.leb_gt _ _)); sizes; lia).
      rewrite (proj2 (Z.leb_le _ _)), (proj2 (Z.ltb_lt _ _)), (proj2 (Z.eqb_neq _ _)) by (sizes; lia). done.
  - rewrite (proj2 (Z.eqb_neq _ 0)) by lia. destruct (Z.ltb_spec i (CONSOLE_BUFFER_SIZE - 80)).
    + assert (Hw : wrap (bufferptr con + 80 + i) = wrap (bufferptr con + (i + 80))) by (f_equal; lia). rewrite Hw.
      assert (Hout : wrap (bufferptr con + (i + 80)) < bufferptr con + 80 \/ bufferptr con + 160 <= wrap (bufferptr con + (i + 80))).
      { unfold wrap. destruct (Z.leb_spec CONSOLE_BUFFER_SIZE (bufferptr con + (i + 80))); sizes; lia. }
      replace ((_ <=? _) && _) with false; [done|]. symmetry. apply andb_false_iff. rewrite Z.leb_gt, Z.ltb_ge. lia.
    + assert (Hw : wrap (bufferptr con + 80 + i) = bufferptr con + (i - (CONSOLE_BUFFER_SIZE - 80))).
      { unfold wrap. rewrite (proj2 (Z.leb_le _ _)) by (sizes; lia). sizes; lia. }
      rewrite Hw, (proj2 (Z.leb_gt _ _)) by (sizes; lia). cbn [andb]. destruct (Z.eqb_spec (bufferptr con) 0) as [E0|E0].
      * unfold cell, wrap. rewrite E0, (proj2 (Z.leb_gt _ _)); [done|]. sizes; lia.
      * apply Hblank; sizes; lia.
Qed.
Lemma advanced_ring con : ring_wf con -> ring_wf (advanced con).
Proof.
  intros H. destruct (next_ptr_ok con H) as (Hn & Hl & Hc). pose proof (cw_pos _ H) as Hpos. split; cbn [advanced bufferptr current_position with_buffer with_position].
  - done.
  - done.
  - unfold next_pos. destruct (Z.eqb_spec (current_position con) 0); sizes; lia.
  - intros Hnz k Hk. unfold cell, advanced. cbn [buffer bufferptr with_buffer with_position]. unfold set_cells, blanked.
    rewrite (proj2 (Z.eqb_neq _ _)) by done. assert (wrap (next_ptr (bufferptr con) + k) = next_ptr (bufferptr con) + k) as ->.
    { unfold wrap. rewrite (proj2 (Z.leb_gt _ _)); [done|]. sizes. Z.to_euclidean_division_equations; lia. }
    rewrite (proj2 (Z.leb_le _ _)), (proj2 (Z.ltb_lt _ _)) by lia. done.
Qed.

(** ** The screen *)
(** The cursor does not matter to what is shown. *)
Definition same_cells (a b : console) : Prop := current_position a = current_position b /\ forall i, 0 <= i < CONSOLE_BUFFER_SIZE -> cell a i = cell b i.
Lemma shows_same s s' con con' : consoles s !! current_console s = Some con -> consoles s' !! current_console s' = Some con' ->
  videoram s' = videoram s -> vram_buffer s' = vram_buffer s -> ring_wf con -> same_cells con con' -> shows s -> shows s'.
Proof.
  intros Hc Hc' Ev Eb [_ _ Hpos _] [Epos Hcell] Hs x Hx k Hk. assert (x = con') as -> by congruence. rewrite Ev, Eb.
  destruct (Hs con Hc k Hk) as [-> ->]. rewrite <- Epos, Hcell; [done|]. sizes; lia.
Qed.
Lemma same_cells_refl con : same_cells con con.
Proof. done. Qed.
Lemma shows_cursor s c con x y : (forall con, consoles s !! current_console s = Some con -> ring_wf con) ->
  is_Some (consoles s !! current_console s) -> consoles s !! c = Some con -> shows s -> shows (set_consoles (<[c := with_cursor x y con]> (consoles s)) s).
Proof.
  intros Hw [con0 Hc0] Hc Hs. destruct (decide (c = current_console s)) as [->|Hne].
  - refine (shows_same s _ con (with_cursor x y con) Hc _ _ _ (Hw _ Hc) _ Hs); try done. cbn. by rewrite lookup_insert_eq.
  - refine (shows_same s _ con0 con0 Hc0 _ _ _ (Hw _ Hc0) _ Hs); try done. cbn. by rewrite lookup_insert_ne.
Qed.

Lemma scroll_ok s c con : default 0 (task_console s (console_task s)) = c -> consoles s !! c = Some con -> ring_wf con ->
  (forall con, consoles s !! current_console s = Some con -> ring_wf con) -> is_Some (consoles s !! current_console s) ->
  exists vr vb, let s' := set_screen vr vb (set_consoles (<[c := scrolled con]> (consoles s)) s) in scroll s = Ok (tt, s') /\ (shows s -> shows s').
Proof.
  intros Hown Hc Hr Hw Hcur. unfold scroll. rewrite (st_bind_Ok _ _ s c s) by (by rewrite <- Hown). erewrite st_bind_Ok by (by apply get_con_ok). unfold scrolled.
  destruct (Z.leb_spec (cursor_y con) 23) as [Hy|Hy].
  { exists (videoram s), (vram_buffer s). cbv zeta. rewrite insert_id by done. by destruct s. }
  cbv zeta. pose proof (cw_pos _ Hr) as Hpos.
  assert (Ecur : (if negb (current_position con =? 0) then with_position (Z.min (u16 (current_position con + 1)) MAX_SCROLLBACK) con else con) = with_position (next_pos (current_position con)) con).
  { unfold next_pos. destruct (Z.eqb_spec (current_position con) 0) as [E|E]; cbn [negb]; [rewrite <- E; by destruct con|].
    unfold u16. rewrite Z.mod_small by (sizes; lia). done. }
  rewrite Ecur. clear Ecur. cbn [bufferptr with_position]. change (if CONSOLE_BUFFER_SIZE <=? bufferptr con + 80 then 0 else bufferptr con + 80) with (next_ptr (bufferptr con)).
  destruct (next_ptr_ok con Hr) as (Hn & Hl & _). set (p := next_ptr (bufferptr con)) in *. cbn [buffer with_buffer with_position].
  assert (Hfill : (if cur_screen (with_buffer (buffer con) p (with_position (next_pos (current_position con)) con)) + 80 * 23 + 80 <=? CONSOLE_BUFFER_SIZE
      then fill CONSOLE_BUFFER_SIZE (cur_screen (with_buffer (buffer con) p (with_position (next_pos (current_position con)) con)) + 80 * 23) 80 blank (buffer con)
      else fill CONSOLE_BUFFER_SIZE (cur_screen (with_buffer (buffer con) p (with_position (next_pos (current_position con)) con)) + 80 * 23 + 80 - CONSOLE_BUFFER_SIZE) 80 blank (buffer con))
    = Ok (set_cells (blanked p) 80 blank (buffer con))).
  { unfold cur_screen. cbn [bufferptr with_buffer]. unfold blanked. destruct (Z.eqb_spec p 0) as [E|E].
    - rewrite E, fill_ok by (sizes; lia). rewrite (proj2 (Z.leb_le _ _)) by (sizes; lia). unfold set_cells. do 2 f_equal.
    - rewrite (proj2 (Z.leb_gt _ _)) by (sizes; lia). replace (p + 80 * 24 * NUM_SCROLLBACK + 80 * 23 + 80 - CONSOLE_BUFFER_SIZE) with p by (sizes; lia).
      rewrite fill_ok by (sizes; Z.to_euclidean_division_equations; lia). done. }
  rewrite Hfill. clear Hfill. erewrite st_bind_Ok by done. change (with_buffer (set_cells (blanked p) 80 blank (buffer con)) p (with_buffer (buffer con) p (with_position (next_pos (current_position con)) con))) with (advanced con).
  set (s1 := set_consoles (<[c := advanced con]> (consoles s)) s). rewrite (st_bind_Ok _ _ s tt s1) by done.
  assert (Hcur1 : exists con1, consoles s1 !! current_console s1 = Some con1 /\ ring_wf con1).
  { cbn. destruct (decide (c = current_console s)) as [->|Hne]; [rewrite lookup_insert_eq; eexists; split; [done|by apply advanced_ring]|].
    destruct Hcur as [x Hx]. rewrite lookup_insert_ne by done. eauto. }
  destruct Hcur1 as (con1 & Hc1 & Hr1). destruct (redraw_ok s1 con1 Hc1 Hr1) as (vr & vb & Hre & Hsh). erewrite st_bind_Ok by exact Hre.
  erewrite st_bind_Ok by (apply get_con_ok; cbn; apply lookup_insert_eq). exists vr, vb. split.
  - unfold put_con, modify. cbn. do 2 f_equal. unfold set_consoles, set_screen. cbn. by rewrite insert_insert_eq.
  - intros _. assert (Hs2 : shows (set_consoles (<[c := with_cursor (cursor_x con) 23 (advanced con)]> (consoles (set_screen vr vb s1))) (set_screen vr vb s1))).
    { apply shows_cursor; [|cbn in *; by eauto|cbn; by rewrite lookup_insert_eq|done]. cbn in *. intros x Hx. by assert (x = con1) as -> by congruence. }
    cbn in Hs2. unfold set_consoles, set_screen in *. cbn in *. by rewrite insert_insert_eq in Hs2.
Qed.

(** ** A character *)
(** A character with the console's colours. *)
Definition char_cell (con : console) (ch : Z) : Z := Z.lor (u8 ch) (u16 (Z.lor (Z.shiftl (back_color con) 12) (Z.shiftl (text_color con) 8))).
Definition written (con : console) (o v : Z) : console := with_buffer (set_cells (wrap (bufferptr con + o)) 1 v (buffer con)) (bufferptr con) con.
Definition printed (ch : Z) (con : console) : console :=
  let con' := written con (TOP + 80 * cursor_y con + cursor_x con) (char_cell con ch) in
  if cursor_x con =? 79 then with_cursor 0 (cursor_y con + 1) con' else with_cursor (cursor_x con + 1) (cursor_y con) con'.

Lemma written_cell con o v i : 0 <= bufferptr con < CONSOLE_BUFFER_SIZE -> 0 <= o < CONSOLE_BUFFER_SIZE -> 0 <= i < CONSOLE_BUFFER_SIZE ->
  cell (written con o v) i = if i =? o then v else cell con i.
Proof.
  intros Hp Ho Hi. unfold cell, written. cbn [buffer bufferptr with_buffer]. unfold set_cells.
  destruct (Z.eqb_spec i o) as [->|Hne]; [rewrite (proj2 (Z.leb_le _ _)), (proj2 (Z.ltb_lt _ _)) by lia; done|].
  replace ((_ <=? _) && _) with false; [done|]. symmetry. apply andb_false_iff. rewrite Z.leb_gt, Z.ltb_ge.
  unfold wrap. destruct (Z.leb_spec CONSOLE_BUFFER_SIZE (bufferptr con + i)), (Z.leb_spec CONSOLE_BUFFER_SIZE (bufferptr con + o)); lia.
Qed.
Lemma written_ring con o v : ring_wf con -> 80 <= o < CONSOLE_BUFFER_SIZE -> ring_wf (written con o v).
Proof.
  intros [Hp Hl Hpos Hb] Ho. split; try done. intros Hnz k Hk. rewrite written_cell by (sizes; lia). rewrite (proj2 (Z.eqb_neq _ _)) by lia. by apply Hb.
Qed.

(** The state in which a task writes to its console [c]. *)
Record writes (s : video) (c : Z) (con : console) : Prop := {
  wr_own : default 0 (task_console s (console_task s)) = c;
  wr_con : consoles s !! c = Some con;
  wr_wf : con_wf con;
  wr_rings x : consoles s !! current_console s = Some x -> ring_wf x /\ (console_task s ∈ tasks x <-> c = current_console s);
  wr_current : is_Some (consoles s !! current_console s)
}.

Lemma displayed_eq s x : consoles s !! current_console s = Some x -> displayed s = Ok (bool_decide (console_task s ∈ tasks x), s).
Proof. intros Hx. unfold displayed. erewrite st_bind_Ok by done. erewrite st_bind_Ok by (by apply get_con_ok). done. Qed.
(** Updating the writer's console leaves its tasks alone. *)
Lemma displayed_put s c con con' : writes s c con -> tasks con' = tasks con ->
  displayed (set_consoles (<[c := con']> (consoles s)) s) = Ok (bool_decide (c = current_console s), set_consoles (<[c := con']> (consoles s)) s).
Proof.
  intros [_ Hc _ Hr [x Hx]] Ht. destruct (Hr x Hx) as [_ Hd]. rewrite <- (bool_decide_ext _ _ Hd). destruct (decide (c = current_console s)) as [Ec|Ec].
  - rewrite (displayed_eq _ con') by (cbn; rewrite Ec; apply lookup_insert_eq). assert (x = con) as -> by congruence. cbn. by rewrite Ht.
  - by rewrite (displayed_eq _ x) by (cbn; by rewrite lookup_insert_ne).
Qed.

(** Writing the character on the screen as well, if it is on display. *)
Lemma screen_written s c con con1 v : writes s c con -> same_cells con1 (written con (TOP + 80 * cursor_y con + cursor_x con) v) ->
  let at_ := cursor_y con * 80 + cursor_x con + 80 * current_position con in
  let s1 := set_consoles (<[c := con1]> (consoles s)) s in
  exists vr vb, (if bool_decide (c = current_console s) && (current_position con <? 24) && (cursor_y con <? 24 - current_position con) then vr ← gets videoram; vb ← gets vram_buffer;
     vr ← lift (fill SCREEN at_ 1 v vr); vb ← lift (fill SCREEN at_ 1 v vb); modify (set_screen vr vb) else mret tt : CON ()) s1 = Ok (tt, set_screen vr vb s1) /\ (shows s -> shows (set_screen vr vb s1)).
Proof.
  intros [_ Hc [Hr Hx Hy Hcol] _ _] [Epos Hcell1] at_ s1. pose proof (cw_ptr _ Hr) as Hp. pose proof (cw_pos _ Hr) as Hpos. cbn [current_position written with_buffer] in Epos.
  assert (Hcells : forall k, 0 <= k < SCREEN -> cell con1 (TOP - 80 * current_position con + k) = if k =? at_ then v else cell con (TOP - 80 * current_position con + k)).
  { intros k Hk. rewrite Hcell1, written_cell by (sizes; lia). destruct (Z.eqb_spec (TOP - 80 * current_position con + k) (TOP + 80 * cursor_y con + cursor_x con)), (Z.eqb_spec k at_); unfold at_ in *; done || lia. }
  destruct (bool_decide (c = current_console s) && _ && _) eqn:Es.
  - apply andb_prop in Es as [[Ec Ep]%andb_prop Ey]. apply bool_decide_eq_true in Ec. apply Z.ltb_lt in Ep, Ey.
    assert (0 <= at_ < SCREEN) by (unfold at_; sizes; lia). clearbody at_.
    erewrite !st_bind_Ok by done. rewrite !fill_ok by (sizes; lia). erewrite !st_bind_Ok by done. eexists _, _. split; [done|].
    intros Hs x Hx' k Hk. cbn in Hx'. rewrite Ec, lookup_insert_eq in Hx'. injection Hx' as <-. rewrite Epos, Hcells by done.
    rewrite Ec in Hc. destruct (Hs con Hc k Hk) as [Ev Eb]. cbn. rewrite Ev, Eb. destruct (Z.eqb_spec k at_) as [->|Hne].
    + by rewrite Z.leb_refl, (proj2 (Z.ltb_lt _ _)) by lia.
    + replace ((_ <=? k) && _) with false; [done|]. symmetry. apply andb_false_iff. rewrite Z.leb_gt, Z.ltb_ge. lia.
  - exists (videoram s1), (vram_buffer s1). split; [by destruct s|]. intros Hs x Hx' k Hk. cbn in Hx' |- *. destruct (decide (c = current_console s)) as [Ec|Ec].
    + rewrite Ec, lookup_insert_eq in Hx'. injection Hx' as <-. rewrite Epos, Hcells by done. rewrite Ec in Hc.
      rewrite (proj2 (Z.eqb_neq _ _)); [by apply Hs|]. rewrite bool_decide_true in Es by done. cbn [andb] in Es.
      apply andb_false_iff in Es. rewrite !Z.ltb_ge in Es. unfold at_; sizes; lia.
    + rewrite lookup_insert_ne in Hx' by done. by apply Hs.
Qed.

Lemma put_visible_ok s c con ch : writes s c con ->
  exists vr vb, let s' := set_screen vr vb (set_consoles (<[c := printed ch con]> (consoles s)) s) in put_visible c ch s = Ok (tt, s') /\ (shows s -> shows s').
Proof.
  intros Hwr. pose proof Hwr as [Hown Hc [Hr Hx Hy Hcol] Hrs Hcur]. unfold put_visible. erewrite st_bind_Ok by (by apply get_con_ok). cbv zeta. rewrite !Z.min_l by lia.
  set (o := TOP + 80 * cursor_y con + cursor_x con). fold (char_cell con ch). set (v := char_cell con ch).
  assert (Ea : (if CONSOLE_BUFFER_SIZE <=? cur_screen con + (cursor_y con * 80 + cursor_x con) then cur_screen con + (cursor_y con * 80 + cursor_x con) - CONSOLE_BUFFER_SIZE else cur_screen con + (cursor_y con * 80 + cursor_x con)) = wrap (bufferptr con + o)).
  { replace (bufferptr con + o) with (cur_screen con + (cursor_y con * 80 + cursor_x con)) by (unfold o, cur_screen; sizes; lia). done. }
  rewrite Ea. clear Ea. pose proof (cw_ptr _ Hr) as Hp.
  rewrite fill_ok by (unfold wrap, o in *; destruct (Z.leb_spec CONSOLE_BUFFER_SIZE (bufferptr con + (TOP + 80 * cursor_y con + cursor_x con))); sizes; lia).
  erewrite st_bind_Ok by done.
  change (with_buffer _ (bufferptr con) (with_cursor (cursor_x con) (cursor_y con) con)) with (with_cursor (cursor_x con) (cursor_y con) (written con o v)).
  set (con1 := with_cursor _ _ (written con o v)). set (s1 := set_consoles (<[c := con1]> (consoles s)) s). rewrite (st_bind_Ok _ _ s tt s1) by done.
  erewrite st_bind_Ok by (by apply displayed_put with con). change (current_position con1) with (current_position con).
  destruct (screen_written s c con con1 v Hwr) as (vr & vb & Hput & Hsh); [done|]. fold s1 in Hput, Hsh.
  erewrite st_bind_Ok by exact Hput. erewrite st_bind_Ok by (apply get_con_ok; cbn; apply lookup_insert_eq).
  exists vr, vb. assert (Ep : (if cursor_x con + 1 =? 80 then with_cursor 0 (cursor_y con + 1) con1 else with_cursor (cursor_x con + 1) (cursor_y con) con1) = printed ch con).
  { unfold printed. fold o v. destruct (Z.eqb_spec (cursor_x con) 79), (Z.eqb_spec (cursor_x con + 1) 80); done || lia. }
  rewrite Ep. split; [unfold put_con, modify; cbn; unfold set_consoles, set_screen; cbn; by rewrite insert_insert_eq|]. intros Hs. specialize (Hsh Hs).
  assert (Hs2 : exists x y, printed ch con = with_cursor x y con1) by (unfold printed; fold o v; destruct (cursor_x con =? 79); eauto).
  destruct Hs2 as (x & y & ->). assert (Hs3 : shows (set_consoles (<[c := with_cursor x y con1]> (consoles (set_screen vr vb s1))) (set_screen vr vb s1))).
  { apply shows_cursor; [| |cbn; apply lookup_insert_eq|done]; cbn.
    - intros z Hz. destruct (decide (c = current_console s)) as [Ec|Ec]; [|rewrite lookup_insert_ne in Hz by done; by apply Hrs].
      rewrite Ec, lookup_insert_eq in Hz. injection Hz as <-. change (ring_wf (written con o v)). apply written_ring; [done|unfold o; sizes; lia].
    - destruct (decide (c = current_console s)) as [Ec|Ec]; [rewrite Ec, lookup_insert_eq; eauto|by rewrite lookup_insert_ne]. }
  cbn in Hs3. unfold set_consoles, set_screen in *. cbn in *. by rewrite insert_insert_eq in Hs3.
Qed.

(** The console after a character. *)
Definition typed (ch : Z) (con : console) : console :=
  scrolled (if ch =? 10 then with_cursor 0 (cursor_y con + 1) con
            else if ch =? 8 then
              if 0 <? cursor_x con then with_cursor (cursor_x con - 1) (cursor_y con) con
              else if 0 <? cursor_y con then with_cursor 79 (cursor_y con - 1) con else con
            else if 0x20 <=? ch then printed ch con else con).

Lemma ring_cursor x y con : ring_wf con -> ring_wf (with_cursor x y con).
Proof. intros [Hp Hl Hpos Hb]. by split. Qed.
Lemma printed_ring ch con : con_wf con -> ring_wf (printed ch con).
Proof.
  intros [Hr Hx Hy Hcol]. unfold printed. assert (ring_wf (written con (TOP + 80 * cursor_y con + cursor_x con) (char_cell con ch))) by (apply written_ring; [done|sizes; lia]).
  destruct (cursor_x con =? 79); by apply ring_cursor.
Qed.
Lemma scrolled_wf con : ring_wf con -> 0 <= cursor_x con <= 79 -> 0 <= cursor_y con -> 0 <= text_color con <= 15 /\ 0 <= back_color con <= 15 -> con_wf (scrolled con).
Proof. intros Hr Hx Hy Hcol. unfold scrolled. destruct (Z.leb_spec (cursor_y con) 23); [done|]. split; [|done|cbn; lia|done]. by apply ring_cursor, advanced_ring. Qed.
Lemma printed_cursor ch con : con_wf con -> 0 <= cursor_x (printed ch con) <= 79 /\ 0 <= cursor_y (printed ch con).
Proof. intros [_ Hx Hy _]. unfold printed. destruct (Z.eqb_spec (cursor_x con) 79); cbn; lia. Qed.
Lemma typed_wf ch con : con_wf con -> con_wf (typed ch con).
Proof.
  intros H. pose proof H as [Hr Hx Hy Hcol]. unfold typed. destruct (ch =? 10); [apply scrolled_wf; cbn; (by apply ring_cursor) || lia|]. destruct (ch =? 8).
  - destruct (Z.ltb_spec 0 (cursor_x con)); [apply scrolled_wf; cbn; (by apply ring_cursor) || lia|]. destruct (Z.ltb_spec 0 (cursor_y con)); apply scrolled_wf; cbn; (done || (by apply ring_cursor) || lia).
  - destruct (0x20 <=? ch); [|apply scrolled_wf; (done || lia)]. destruct (printed_cursor ch con H). apply scrolled_wf; [by apply printed_ring|done..|]. unfold printed. by case_match.
Qed.
Lemma typed_tasks ch con : tasks (typed ch con) = tasks con.
Proof. unfold typed, scrolled, printed. by repeat case_match. Qed.

Lemma writes_put s c con con' vr vb : writes s c con -> con_wf con' -> tasks con' = tasks con ->
  writes (set_screen vr vb (set_consoles (<[c := con']> (consoles s)) s)) c con'.
Proof.
  intros [Hown Hc _ Hr Hcur] Hwf Ht. split; [done|cbn; apply lookup_insert_eq|done| |].
  - cbn. intros x Hx. destruct (decide (c = current_console s)) as [Ec|Ec]; [|rewrite lookup_insert_ne in Hx by done; by apply Hr].
    rewrite Ec, lookup_insert_eq in Hx. injection Hx as <-. rewrite Ec in Hc. destruct (Hr con Hc) as [_ Hd]. rewrite Ht. split; [apply Hwf|done].
  - cbn. destruct (decide (c = current_console s)) as [->|Hne]; [rewrite lookup_insert_eq; eauto|by rewrite lookup_insert_ne].
Qed.

Lemma putchar_ok s c con ch : writes s c con ->
  exists vr vb, let s' := set_screen vr vb (set_consoles (<[c := typed ch con]> (consoles s)) (send_serial (u8 ch) s)) in
    putchar ch s = Ok (ch, s') /\ (shows s -> shows s') /\ writes s' c (typed ch con).
Proof.
  intros Hw. unfold putchar. rewrite (st_bind_Ok _ _ s c s) by (by rewrite <- (wr_own _ _ _ Hw)). erewrite st_bind_Ok by (apply get_con_ok, Hw). set (s0 := send_serial (u8 ch) s). rewrite (st_bind_Ok _ _ s tt s0) by done.
  assert (Hw0 : writes s0 c con) by (destruct Hw; by split).
  change (consoles s) with (consoles s0). change (shows s) with (shows s0). clearbody s0. clear Hw s. rename s0 into s. pose proof Hw0 as [Hown Hc Hwf Hr Hcur]. pose proof Hwf as [Hring Hx Hy _].
  set (act := if ch =? 10 then _ else _). set (con1 := if ch =? 10 then with_cursor 0 (cursor_y con + 1) con
            else if ch =? 8 then
              if 0 <? cursor_x con then with_cursor (cursor_x con - 1) (cursor_y con) con
              else if 0 <? cursor_y con then with_cursor 79 (cursor_y con - 1) con else con
            else if 0x20 <=? ch then printed ch con else con).
  assert (Hact : ring_wf con1 /\ tasks con1 = tasks con /\ exists vr vb, act s = Ok (tt, set_screen vr vb (set_consoles (<[c := con1]> (consoles s)) s)) /\ (shows s -> shows (set_screen vr vb (set_consoles (<[c := con1]> (consoles s)) s)))).
  { assert (Hmove : forall x y, let con' := with_cursor x y con in ring_wf con' /\ tasks con' = tasks con /\ exists vr vb,
      put_con c con' s = Ok (tt, set_screen vr vb (set_consoles (<[c := con']> (consoles s)) s)) /\ (shows s -> shows (set_screen vr vb (set_consoles (<[c := con']> (consoles s)) s)))).
    { intros x y. split; [by apply ring_cursor|]. split; [done|]. exists (videoram s), (vram_buffer s). split; [done|]. intros Hs.
      pose proof (shows_cursor s c con x y) as Hsc. apply Hsc; try done. intros z Hz. by apply Hr. }
    assert (Hstay : ring_wf con /\ tasks con = tasks con /\ exists vr vb, (mret tt : CON ()) s = Ok (tt, set_screen vr vb (set_consoles (<[c := con]> (consoles s)) s)) /\
      (shows s -> shows (set_screen vr vb (set_consoles (<[c := con]> (consoles s)) s)))).
    { split; [done|]. split; [done|]. exists (videoram s), (vram_buffer s). rewrite insert_id by done. by destruct s. }
    unfold act, con1. destruct (ch =? 10); [by apply Hmove|]. destruct (ch =? 8); [destruct (0 <? cursor_x con); [by apply Hmove|]; destruct (0 <? cursor_y con); [by apply Hmove|done]|].
    destruct (0x20 <=? ch); [|done]. split; [by apply printed_ring|]. split; [unfold printed; by case_match|]. by apply put_visible_ok. }
  destruct Hact as (Hring1 & Ht1 & vr & vb & Hrun & Hsh). erewrite st_bind_Ok by exact Hrun. set (s1 := set_screen vr vb _) in *.
  destruct (scroll_ok s1 c con1) as (vr' & vb' & Hscr & Hsh'); try done.
  - cbn. apply lookup_insert_eq.
  - cbn. intros x. destruct (decide (c = current_console s)) as [->|Hne]; [rewrite lookup_insert_eq; congruence|rewrite lookup_insert_ne by done; intros Hz; by apply Hr].
  - cbn. destruct (decide (c = current_console s)) as [->|Hne]; [rewrite lookup_insert_eq; eauto|by rewrite lookup_insert_ne].
  - erewrite st_bind_Ok by exact Hscr. exists vr', vb'. subst s1. cbn in Hsh' |- *. unfold set_screen, set_consoles in *. cbn in *. rewrite insert_insert_eq in *.
    split; [done|split; [tauto|]]. apply (writes_put s c con (typed ch con) vr' vb' Hw0); [by apply typed_wf|apply typed_tasks].
Qed.
