(* ===== verification/ConsoleTerm.v ===== *)
(** * Consoles: the refinement of a terminal

    A console is a terminal of 24 rows of 80 characters with the last 3599 lines that left its screen.
    [putchar] and [puts] refine it, the video memory follows, and moving through the scrollback or
    to another console keeps the display right. *)
From S2P Require Import Prelude Console ConsoleSpec.

(** ** The terminal *)
(** Rows 0 to 23 are on the screen, row [-n] left it as the [n]th last. *)
Record term := mk_term { t_cell : Z -> Z -> Z; t_x : Z; t_y : Z }.
Definition t_scroll (t : term) : term :=
  if 23 <? t_y t then mk_term (fun r x => if r =? 23 then blank else t_cell t (r + 1) x) (t_x t) 23 else t.
Definition t_print (v : Z) (t : term) : term :=
  let cells r x := if (r =? t_y t) && (x =? t_x t) then v else t_cell t r x in
  if t_x t =? 79 then mk_term cells 0 (t_y t + 1) else mk_term cells (t_x t + 1) (t_y t).
(** A character, and its cell in the colours [text] and [back]. *)
Definition t_char (text back ch : Z) (t : term) : term :=
  t_scroll (if ch =? 10 then mk_term (t_cell t) 0 (t_y t + 1)
            else if ch =? 8 then
              if 0 <? t_x t then mk_term (t_cell t) (t_x t - 1) (t_y t)
              else if 0 <? t_y t then mk_term (t_cell t) 79 (t_y t - 1) else t
            else if 32 <=? ch then t_print (ch mod 256 + 256 * (text + 16 * back)) t else t).
Definition t_chars (text back : Z) (l : list Z) (t : term) : term := fold_left (fun t ch => t_char text back ch t) l t.

Definition MAX_HISTORY : Z := 3599.
(** [con] implements [t]. *)
Definition like (con : console) (t : term) : Prop := cursor_x con = t_x t /\ cursor_y con = t_y t /\
  forall r x, - MAX_HISTORY <= r <= 23 -> 0 <= x < 80 -> scr con r x = t_cell t r x.
Definition term_of (con : console) : term := mk_term (scr con) (cursor_x con) (cursor_y con).

Lemma lor_shift a b n : 0 <= n -> 0 <= a < 2 ^ n -> Z.lor a (Z.shiftl b n) = a + b * 2 ^ n.
Proof.
  intros Hn Ha. rewrite <- Z.shiftl_mul_pow2 by done. rewrite <- Z.add_lor_land. assert (Z.land a (Z.shiftl b n) = 0) as ->; [|lia].
  apply Z.bits_inj'. intros m Hm. rewrite Z.land_spec, Z.bits_0. destruct (decide (m < n)).
  - rewrite Z.shiftl_spec_low by done. apply andb_false_r.
  - rewrite <- (Z.mod_small a (2 ^ n)), Z.mod_pow2_bits_high by lia. done.
Qed.
Lemma char_cell_eq con ch : con_wf con -> char_cell con ch = ch mod 256 + 256 * (text_color con + 16 * back_color con).
Proof.
  intros [_ _ _ [Ht Hb]]. unfold char_cell, u8, u16. replace (Z.shiftl (back_color con) 12) with (Z.shiftl (Z.shiftl (back_color con) 4) 8) by (rewrite Z.shiftl_shiftl; done || lia).
  rewrite <- Z.shiftl_lor, (Z.lor_comm _ (text_color con)), (lor_shift (text_color con)) by lia. rewrite (Z.mod_small (Z.shiftl _ _)) by (rewrite Z.shiftl_mul_pow2; lia).
  rewrite lor_shift by (first [lia | apply Z.mod_pos_bound; lia]). change (2 ^ 8) with 256. change (2 ^ 4) with 16. lia.
Qed.

Lemma like_scroll con t : ring_wf con -> bufferptr con <> 0 -> cursor_y con <= 24 -> like con t -> like (scrolled con) (t_scroll t).
Proof.
  intros Hr Hnz Hy (Ex & Ey & Hc). unfold scrolled, t_scroll. rewrite <- Ey. destruct (Z.leb_spec (cursor_y con) 23), (Z.ltb_spec 23 (cursor_y con)); try lia; [done|].
  split; [done|]. split; [done|]. intros r x Hrow Hx. change (scr (with_cursor _ _ ?k) r x) with (scr k r x). unfold scr, MAX_HISTORY in *. rewrite advanced_cell by (done || (sizes; lia)).
  cbn [t_cell]. rewrite (proj2 (Z.eqb_neq (bufferptr con) 0)) by done. destruct (Z.eqb_spec r 23) as [->|Hne].
  - rewrite (proj2 (Z.ltb_ge _ _)) by (sizes; lia). done.
  - rewrite (proj2 (Z.ltb_lt _ _)) by (sizes; lia). rewrite <- Hc by lia. f_equal. lia.
Qed.
Lemma like_print con t ch : con_wf con -> like con t -> like (printed ch con) (t_print (ch mod 256 + 256 * (text_color con + 16 * back_color con)) t).
Proof.
  intros Hw (Ex & Ey & Hc). pose proof Hw as [Hr Hx Hy Hcol]. rewrite <- char_cell_eq by done. unfold printed, t_print. rewrite <- Ex, <- Ey.
  assert (Hcells : forall r x, - MAX_HISTORY <= r <= 23 -> 0 <= x < 80 -> scr (written con (TOP + 80 * cursor_y con + cursor_x con) (char_cell con ch)) r x =
    if (r =? cursor_y con) && (x =? cursor_x con) then char_cell con ch else t_cell t r x).
  { intros r x Hrow Hcol'. unfold scr, MAX_HISTORY in *. pose proof (cw_ptr _ Hr). rewrite written_cell by (sizes; lia). rewrite <- Hc by lia. unfold scr.
    destruct (Z.eqb_spec (TOP + 80 * r + x) (TOP + 80 * cursor_y con + cursor_x con)), (Z.eqb_spec r (cursor_y con)), (Z.eqb_spec x (cursor_x con)); cbn [andb]; done || lia. }
  by destruct (cursor_x con =? 79).
Qed.

(** A scroll needs a line; the one at the end of the ring buffer is a stale one. *)
Definition no_wrap (con : console) (n : Z) : Prop := 0 < bufferptr con /\ bufferptr con + 80 * n < CONSOLE_BUFFER_SIZE.

Lemma like_typed con t ch : con_wf con -> bufferptr con <> 0 -> like con t -> like (typed ch con) (t_char (text_color con) (back_color con) ch t).
Proof.
  intros Hw Hnz Hl. pose proof Hw as [Hr Hx Hy _]. pose proof Hl as (Ex & Ey & Hc). unfold typed, t_char. rewrite <- Ex, <- Ey.
  assert (Hmove : forall x y, y <= 24 -> like (scrolled (with_cursor x y con)) (t_scroll (mk_term (t_cell t) x y))) by (intros; by apply like_scroll; [apply ring_cursor|..]).
  assert (Hstay : like (scrolled con) (t_scroll t)) by (apply like_scroll; (done || lia)).
  destruct (ch =? 10); [apply Hmove; lia|]. destruct (ch =? 8).
  { destruct (0 <? cursor_x con); [apply Hmove; lia|]. destruct (0 <? cursor_y con); [apply Hmove; lia|done]. }
  destruct (32 <=? ch); [|done]. apply like_scroll; [by apply printed_ring|unfold printed; by case_match| |by apply like_print].
  unfold printed. destruct (cursor_x con =? 79); cbn; lia.
Qed.
Lemma typed_ptr ch con : bufferptr (typed ch con) = bufferptr con \/ bufferptr (typed ch con) = next_ptr (bufferptr con).
Proof.
  unfold typed. assert (H : forall k, bufferptr k = bufferptr con -> bufferptr (scrolled k) = bufferptr con \/ bufferptr (scrolled k) = next_ptr (bufferptr con)).
  { intros k Hk. unfold scrolled. destruct (cursor_y k <=? 23); [by left|]. right. cbn. by rewrite Hk. }
  apply H. unfold printed. by repeat case_match.
Qed.
Lemma typed_colors ch con : text_color (typed ch con) = text_color con /\ back_color (typed ch con) = back_color con.
Proof. unfold typed, scrolled, printed. by repeat case_match. Qed.
Lemma typed_no_wrap ch con n : 0 <= n -> no_wrap con (n + 1) -> no_wrap (typed ch con) n.
Proof. intros Hn [H1 H2]. unfold no_wrap. destruct (typed_ptr ch con) as [->| ->]; [lia|]. unfold next_ptr. destruct (Z.leb_spec CONSOLE_BUFFER_SIZE (bufferptr con + 80)); lia. Qed.

(** ** Strings *)
(** What output to console [c] leaves alone. *)
Definition only_console (c : Z) (s s' : video) : Prop :=
  (forall d, d <> c -> consoles s' !! d = consoles s !! d) /\ current_console s' = current_console s /\ console_task s' = console_task s /\ task_console s' = task_console s /\ virtual_consoles s' = virtual_consoles s.

(** The console after [n] characters. *)
Definition continues (con con' : console) (n : Z) : Prop :=
  tasks con' = tasks con /\ text_color con' = text_color con /\ back_color con' = back_color con /\ forall m, 0 <= m -> no_wrap con (n + m) -> no_wrap con' m.

Lemma putchars_ok l : forall s c con t, writes s c con -> shows s -> no_wrap con (zlen l) -> like con t ->
  exists s' con', putchars l s = Ok (tt, s') /\ writes s' c con' /\ shows s' /\ like con' (t_chars (text_color con) (back_color con) l t) /\
    only_console c s s' /\ continues con con' (zlen l) /\ serial s' = serial s ++ (u8 <$> l) /\ hw_cursor s' = hw_cursor s.
Proof.
  induction l as [|ch l IH]; intros s c con t Hw Hs Hn Hl.
  - exists s, con. rewrite app_nil_r. done.
  - unfold zlen in *. cbn [length] in Hn. destruct (putchar_ok s c con ch Hw) as (vr & vb & Hput & Hs1 & Hw1). specialize (Hs1 Hs).
    destruct (IH _ c (typed ch con) (t_char (text_color con) (back_color con) ch t) Hw1 Hs1) as (s' & con' & Hrun & Hw' & Hs' & Hl' & (Ho1 & Ho2) & (Ht & Hc1 & Hc2 & Hm) & Hser & Hhw).
    + apply typed_no_wrap; [lia|]. replace (Z.of_nat (length l) + 1) with (Z.of_nat (S (length l))) by lia. done.
    + apply like_typed; [apply Hw| |done]. destruct Hn; lia.
    + destruct (typed_colors ch con) as [Et Eb]. rewrite Et, Eb in Hl'. exists s', con'. cbn [putchars]. erewrite st_bind_Ok by exact Hput.
      split; [done|]. split; [done|]. split; [done|]. split; [done|]. split.
      * split; [|done]. intros d Hd. rewrite Ho1 by done. cbn. by rewrite lookup_insert_ne.
      * split; [|rewrite Hser; cbn; by rewrite <- app_assoc]. split; [by rewrite Ht, typed_tasks|]. split; [congruence|]. split; [congruence|]. intros m Hm0 Hw0.
        apply Hm, typed_no_wrap; [done|unfold zlen; lia|]. unfold zlen in *. cbn [length] in Hw0. replace (Z.of_nat (length l) + m + 1) with (Z.of_nat (S (length l)) + m) by lia. done.
Qed.

(** ** The invariant of the display *)
Lemma wf_update s s' c con con' : video_wf s -> consoles s !! c = Some con -> con_wf con' -> tasks con' = tasks con ->
  consoles s' = <[c := con']> (consoles s) -> current_console s' = current_console s -> console_task s' = console_task s -> task_console s' = task_console s -> video_wf s'.
Proof.
  intros [Hw Hcur (d & Hd & Hdc) Ht] Hc Hwf Et Ec E1 E2 E3.
  assert (Hsome : forall k, is_Some (consoles s !! k) -> is_Some (consoles s' !! k)).
  { intros k Hk. rewrite Ec. destruct (decide (k = c)) as [->|Hne]; [rewrite lookup_insert_eq; eauto|by rewrite lookup_insert_ne]. }
  split.
  - intros k x. rewrite Ec. destruct (decide (k = c)) as [->|Hne]; [rewrite lookup_insert_eq; by intros [= <-]|rewrite lookup_insert_ne by done; apply Hw].
  - rewrite E1. by apply Hsome.
  - exists d. rewrite E2, E3. auto.
  - intros k x t. rewrite Ec, E3. destruct (decide (k = c)) as [->|Hne]; [rewrite lookup_insert_eq; intros [= <-]; rewrite Et; by apply Ht|rewrite lookup_insert_ne by done; apply Ht].
Qed.
Lemma wf_writes s c con : video_wf s -> task_console s (console_task s) = Some c -> consoles s !! c = Some con -> writes s c con.
Proof.
  intros [Hw Hcur _ Ht] Hc Hcon. split; [by rewrite Hc|done|by eapply Hw| |done]. intros x Hx. split; [by eapply Hw|]. rewrite (Ht _ _ _ Hx), Hc. split; congruence.
Qed.

(** The location the cursor registers are given, from the top of the display's 25 rows. *)
Definition cursor_loc (con : console) : Z := u16 ((cursor_y con + current_position con) * 80 + cursor_x con + 80).
Lemma force_cursor_ok s con : consoles s !! current_console s = Some con -> force_update_cursor s = Ok (tt, set_hw_cursor (cursor_loc con) s).
Proof. intros Hc. unfold force_update_cursor. erewrite st_bind_Ok by done. erewrite st_bind_Ok by (by apply get_con_ok). done. Qed.
Lemma update_cursor_ok s c con : writes s c con -> update_cursor s = Ok (tt, if decide (c = current_console s) then set_hw_cursor (cursor_loc con) s else s).
Proof.
  intros Hw. pose proof Hw as [_ Hc _ Hr [x Hx]]. destruct (Hr x Hx) as [_ Hd]. unfold update_cursor. erewrite st_bind_Ok by (by apply displayed_eq).
  rewrite (bool_decide_ext _ _ Hd). destruct (decide (c = current_console s)) as [E|E]; [|by rewrite bool_decide_false].
  rewrite bool_decide_true by done. apply force_cursor_ok. congruence.
Qed.

Lemma puts_ok s c con t l : video_wf s -> shows s -> task_console s (console_task s) = Some c -> consoles s !! c = Some con -> no_wrap con (zlen l) -> like con t ->
  exists s' con', puts l s = Ok (zlen l, s') /\ consoles s' !! c = Some con' /\
    like con' (t_chars (text_color con) (back_color con) l t) /\
    video_wf s' /\ shows s' /\ only_console c s s' /\ continues con con' (zlen l) /\ serial s' = serial s ++ (u8 <$> l) /\
    hw_cursor s' = if decide (c = current_console s) then cursor_loc con' else hw_cursor s.
Proof.
  intros Hv Hs Ht Hc Hn Hlike. destruct (putchars_ok l s c con t) as (s1 & con' & Hrun & Hw1 & Hs1 & Hl1 & Ho & Hcont & Hser & Hhw); [by apply wf_writes|done..|].
  pose proof Ho as (Ho1 & Ho2 & Ho3 & Ho4 & _). set (s' := if decide (c = current_console s1) then set_hw_cursor (cursor_loc con') s1 else s1).
  assert (Es : consoles s' = consoles s1 /\ current_console s' = current_console s1 /\ console_task s' = console_task s1 /\ task_console s' = task_console s1 /\ virtual_consoles s' = virtual_consoles s1 /\
    serial s' = serial s1 /\ (shows s1 -> shows s')) by (unfold s'; by case_decide).
  destruct Es as (E1 & E2 & E3 & E4 & E5 & E6 & Esh). exists s', con'. unfold puts. erewrite st_bind_Ok by exact Hrun. erewrite st_bind_Ok by (by apply update_cursor_ok).
  split; [done|]. split; [rewrite E1; apply Hw1|]. split; [done|]. split; [|split; [by apply Esh|split; [|split; [done|split; [congruence|]]]]].
  - apply (wf_update s s' c con con'); try done; try congruence; [apply Hw1|apply Hcont|]. rewrite E1. apply map_eq. intros d.
    destruct (decide (d = c)) as [->|Hne]; [rewrite lookup_insert_eq; apply Hw1|rewrite lookup_insert_ne by done; by apply Ho1].
  - unfold only_console in *. rewrite E1, E2, E3, E4, E5. done.
  - unfold s'. rewrite Ho2. by case_decide.
Qed.

(** C27: [puts] (and [printk] after formatting) to a console whose ring buffer is past its start and has
    80 characters left for each character of the string -- so it does not wrap meanwhile; on a console at
    the start of its ring, a fresh one included, a scroll brings up a stale line, as
    [scroll_brings_stale_line] shows --: the console behaves as a terminal with every character in turn -- printed in the console's colours at
    the cursor, lines wrapped at 80 columns, newline and backspace moving the cursor, the screen
    scrolled into the scrollback with a blank line at the bottom --, the characters are sent to the serial
    port, the other consoles are left alone, and the video memory still shows the displayed console
    at the position it is scrolled back to, the hardware cursor following if it is the writer's. *)
Theorem puts_correct s c con l : video_wf s -> shows s -> task_console s (console_task s) = Some c -> consoles s !! c = Some con -> no_wrap con (zlen l) ->
  exists s' con', puts l s = Ok (zlen l, s') /\ consoles s' !! c = Some con' /\
    like con' (t_chars (text_color con) (back_color con) l (term_of con)) /\
    video_wf s' /\ shows s' /\ only_console c s s' /\ serial s' = serial s ++ (u8 <$> l) /\
    hw_cursor s' = if decide (c = current_console s) then cursor_loc con' else hw_cursor s.
Proof.
  intros Hv Hs Ht Hc Hn. destruct (puts_ok s c con (term_of con) l Hv Hs Ht Hc Hn) as (s' & con' & H1 & H2 & H3 & H4 & H5 & H6 & _ & H8); [done|]. by exists s', con'.
Qed.
