(* ===== verification/ConsoleOps.v ===== *)
(** * Consoles: what every operation keeps

    Any sequence of output, cursor movements, colours, clearing, scrolling, switching and creating consoles
    runs, and the display shows the current console unless it was cleared; two cases where the screen is
    not what a terminal's would be. *)
From S2P Require Import Prelude Console ConsoleSpec ConsoleTerm.

(** ** Operations *)
Inductive con_op :=
  | OpPut (ch : Z) | OpPuts (l : list Z) | OpPrintc (back text : Z) (l : list Z)
  | OpLeft | OpRight | OpCursor (x y : Z) | OpText (color : Z) | OpBack (color : Z)
  | OpUp | OpPgup | OpDown | OpPgdown | OpReset
  | OpClear
  | OpSwitch (new : Z) | OpCreate (new : Z)
  | OpTask (t : Z).  (** another task writes *)
Definition run_op (o : con_op) : CON () :=
  match o with
  | OpPut ch => putchar ch ;; mret tt | OpPuts l => puts l ;; mret tt | OpPrintc back text l => printc back text l ;; mret tt
  | OpLeft => cursor_left | OpRight => cursor_right | OpCursor x y => set_cursor x y ;; mret tt
  | OpText color => set_text_color color | OpBack color => set_back_color color
  | OpUp => scrollback_up | OpPgup => scrollback_pgup | OpDown => scrollback_down | OpPgdown => scrollback_pgdown | OpReset => scrollback_reset
  | OpClear => clrscr
  | OpSwitch new => console_switch new | OpCreate new => console_create new
  | OpTask t => modify (set_console_task t)
  end.
Fixpoint run_ops (l : list con_op) : CON () := match l with [] => mret tt | o :: l => run_op o ;; run_ops l end.
(** The console switched to exists, and so does the one of the task that writes; a console is created
    at an address that no console is at. *)
Definition op_ok (tc : Z -> option Z) (o : con_op) (ids : gset Z) : Prop :=
  match o with
  | OpSwitch new => new ∈ ids
  | OpCreate new => (new ∉ ids) /\ forall t, tc t <> Some new
  | OpTask t => exists c, tc t = Some c /\ c ∈ ids
  | _ => True
  end.
Definition ids_after (o : con_op) (ids : gset Z) : gset Z := match o with OpCreate new => ({[ new ]} ∪ ids) | _ => ids end.
Fixpoint ops_ok (tc : Z -> option Z) (l : list con_op) (ids : gset Z) : Prop :=
  match l with [] => True | o :: l => op_ok tc o ids /\ ops_ok tc l (ids_after o ids) end.
(** Is what is displayed that of the console for sure?  Not after [clrscr], until the screen is redrawn. *)
Definition shown_after (o : con_op) (b : bool) : bool := match o with OpClear => false | OpReset => true | _ => b end.
(** No console is created once the last virtual console is set up. *)
Definition creates (o : con_op) : bool := match o with OpCreate _ => true | _ => false end.
Definition refused (vc : list (option Z)) (l : list con_op) : bool :=
  match vc !! 3%nat with Some None => false | _ => existsb creates l end.

(** The invariant, over a set of consoles, with fixed tasks and virtual consoles; the display is
    right if [b]. *)
Definition drawn (vc : list (option Z)) (tc : Z -> option Z) (ids : gset Z) (b : bool) (s : video) : Prop :=
  video_wf s /\ (b = true -> shows s) /\ dom (consoles s) = ids /\ task_console s = tc /\ virtual_consoles s = vc.
(** While the display is right. *)
Definition display (ids : gset Z) (tc : Z -> option Z) (s : video) : Prop :=
  video_wf s /\ shows s /\ dom (consoles s) = ids /\ task_console s = tc.
Lemma display_drawn ids tc s : display ids tc s <-> drawn (virtual_consoles s) tc ids true s.
Proof. unfold display, drawn. intuition. Qed.

(** The state after a change of console [c]. *)
Lemma drawn_put vc tc ids b s s' c con con' : drawn vc tc ids b s -> consoles s !! c = Some con -> con_wf con' -> tasks con' = tasks con ->
  consoles s' = <[c := con']> (consoles s) -> current_console s' = current_console s -> console_task s' = console_task s -> task_console s' = task_console s ->
  (b = true -> shows s') -> drawn (virtual_consoles s') tc ids b s'.
Proof.
  intros (Hv & _ & Hd & Ht & _) Hc Hwf Etk E1 E2 E3 E4 Hs. split; [by eapply wf_update|]. split; [done|]. split; [|split; [congruence|done]].
  rewrite E1, dom_insert_L. apply elem_of_dom_2 in Hc. set_solver.
Qed.
Lemma drawn_current vc tc ids b s : drawn vc tc ids b s -> exists con, consoles s !! current_console s = Some con /\ con_wf con.
Proof. intros (Hv & _). destruct (vw_current s Hv) as [con Hc]. exists con. split; [done|]. by eapply vw_cons. Qed.
(** Only the cursor and the colours of a console change. *)
Lemma drawn_same vc tc ids b s c con con' : drawn vc tc ids b s -> consoles s !! c = Some con -> con_wf con' -> tasks con' = tasks con -> same_cells con con' ->
  drawn vc tc ids b (set_consoles (<[c := con']> (consoles s)) s).
Proof.
  intros Hdisp Hc Hwf Htk Hsame. pose proof Hdisp as (Hv & Hs & _ & _ & <-). apply (drawn_put (virtual_consoles s) tc ids b s (set_consoles (<[c := con']> (consoles s)) s) c con con'); try done. intros Hb. specialize (Hs Hb). destruct (vw_current s Hv) as [x Hx].
  destruct (decide (c = current_console s)) as [->|Hne].
  - refine (shows_same s _ con con' Hc _ _ _ _ Hsame Hs); try done; [cbn; by rewrite lookup_insert_eq|apply (vw_cons s Hv _ _ Hc)].
  - refine (shows_same s _ x x Hx _ _ _ _ (same_cells_refl x) Hs); try done; [cbn; by rewrite lookup_insert_ne|apply (vw_cons s Hv _ _ Hx)].
Qed.

Lemma display_put ids tc s s' c con con' : display ids tc s -> consoles s !! c = Some con -> con_wf con' -> tasks con' = tasks con ->
  consoles s' = <[c := con']> (consoles s) -> current_console s' = current_console s -> console_task s' = console_task s -> task_console s' = task_console s -> shows s' -> display ids tc s'.
Proof. rewrite !display_drawn. intros. by eapply drawn_put. Qed.
Lemma display_current ids tc s : display ids tc s -> exists con, consoles s !! current_console s = Some con /\ con_wf con.
Proof. rewrite display_drawn. apply drawn_current. Qed.
Lemma display_same ids tc s c con con' : display ids tc s -> consoles s !! c = Some con -> con_wf con' -> tasks con' = tasks con -> same_cells con con' ->
  display ids tc (set_consoles (<[c := con']> (consoles s)) s).
Proof. rewrite !display_drawn. intros. by apply (drawn_same _ _ _ _ s c con). Qed.

Section ops.
Context (vc : list (option Z)) (tc : Z -> option Z) (ids : gset Z) (b : bool).
Abbreviation drawn_b := (drawn vc tc ids b).
Implicit Types s : video.

Lemma drawn_cursor s v : drawn_b s -> drawn_b (set_hw_cursor v s).
Proof. intros ([Hw Hcur Htk Ht] & Hs & Hd & Htc). by split; [split|]. Qed.
Lemma drawn_writes s : drawn_b s -> exists c con, task_console s (console_task s) = Some c /\ consoles s !! c = Some con /\ writes s c con.
Proof. intros (Hv & _). destruct (vw_task s Hv) as (c & Hc & con & Hcon). exists c, con. split; [done|]. split; [done|]. by apply wf_writes. Qed.
Lemma drawn_change s s' c con con' : drawn_b s -> consoles s !! c = Some con -> con_wf con' -> tasks con' = tasks con ->
  consoles s' = <[c := con']> (consoles s) -> current_console s' = current_console s -> console_task s' = console_task s -> task_console s' = task_console s ->
  virtual_consoles s' = virtual_consoles s -> (b = true -> shows s') -> drawn_b s'.
Proof. intros Hd Hc Hwf Ht E1 E2 E3 E4 E5 Hs. pose proof Hd as (_ & _ & _ & _ & Hvc). rewrite <- Hvc, <- E5. by eapply drawn_put. Qed.

(** What an operation has to show. *)
Abbreviation keeps m s := (exists v s', m s = Ok (v, s') /\ drawn_b s').

Lemma update_cursor_keeps s : drawn_b s -> keeps update_cursor s.
Proof.
  intros Hd. destruct (drawn_writes s Hd) as (c & con & _ & _ & Hw). exists tt, (if decide (c = current_console s) then set_hw_cursor (cursor_loc con) s else s).
  split; [by apply update_cursor_ok|]. case_decide; [by apply drawn_cursor|done].
Qed.
Lemma putchar_keeps ch s : drawn_b s -> keeps (putchar ch) s.
Proof.
  intros Hd. destruct (drawn_writes s Hd) as (c & con & _ & Hc & Hw). destruct (putchar_ok s c con ch Hw) as (vr & vb & Hp & Hs & Hw').
  eexists _, _. split; [exact Hp|]. apply (drawn_change s _ c con (typed ch con)); try done; [apply Hw'|apply typed_tasks|]. intros Hb. by apply Hs, Hd.
Qed.
Lemma putchars_keeps l s : drawn_b s -> keeps (putchars l) s.
Proof.
  revert s. induction l as [|ch l IH]; intros s Hd; [by exists tt, s|]. cbn [putchars]. destruct (putchar_keeps ch s Hd) as (v & s1 & H1 & Hd1). erewrite st_bind_Ok by exact H1. by apply IH.
Qed.
Lemma puts_keeps l s : drawn_b s -> keeps (puts l) s.
Proof.
  intros Hd. unfold puts. destruct (putchars_keeps l s Hd) as (v1 & s1 & H1 & Hd1). erewrite st_bind_Ok by exact H1.
  destruct (update_cursor_keeps s1 Hd1) as (v2 & s2 & H2 & Hd2). erewrite st_bind_Ok by exact H2. by eexists _, s2.
Qed.
Lemma own_ok s c : task_console s (console_task s) = Some c -> task_own_console s = Ok (c, s).
Proof. intros Hc. unfold task_own_console. erewrite st_bind_Ok by done. erewrite st_bind_Ok by done. rewrite Hc. done. Qed.
Lemma text_keeps color s : drawn_b s -> keeps (set_text_color color) s.
Proof.
  intros Hd. destruct (drawn_writes s Hd) as (c & con & Ht & Hc & Hw). pose proof (wr_wf _ _ _ Hw) as [Hr Hx Hy Hcol]. unfold set_text_color.
  erewrite st_bind_Ok by (by apply own_ok). erewrite st_bind_Ok by (by apply get_con_ok). destruct (_ && _) eqn:E; [|by exists tt, s].
  apply andb_prop in E as [E1%Z.leb_le E2%Z.leb_le]. eexists _, _. split; [done|]. apply (drawn_same _ _ _ _ s c con); try done. split; [destruct Hr; by split|done|done|cbn; lia].
Qed.
Lemma back_keeps color s : drawn_b s -> keeps (set_back_color color) s.
Proof.
  intros Hd. destruct (drawn_writes s Hd) as (c & con & Ht & Hc & Hw). pose proof (wr_wf _ _ _ Hw) as [Hr Hx Hy Hcol]. unfold set_back_color.
  erewrite st_bind_Ok by (by apply own_ok). erewrite st_bind_Ok by (by apply get_con_ok). destruct (_ && _) eqn:E; [|by exists tt, s].
  apply andb_prop in E as [E1%Z.leb_le E2%Z.leb_le]. eexists _, _. split; [done|]. apply (drawn_same _ _ _ _ s c con); try done. split; [destruct Hr; by split|done|done|cbn; lia].
Qed.
Lemma printc_keeps back text l s : drawn_b s -> keeps (printc back text l) s.
Proof.
  intros Hd. destruct (drawn_writes s Hd) as (c & con & Ht & Hc & Hw). unfold printc. erewrite st_bind_Ok by (by apply own_ok). erewrite st_bind_Ok by (by apply get_con_ok).
  destruct (text_keeps text s Hd) as (v1 & s1 & H1 & Hd1). erewrite st_bind_Ok by exact H1. destruct (back_keeps back s1 Hd1) as (v2 & s2 & H2 & Hd2). erewrite st_bind_Ok by exact H2.
  destruct (puts_keeps l s2 Hd2) as (v3 & s3 & H3 & Hd3). erewrite st_bind_Ok by exact H3. destruct (text_keeps (text_color con) s3 Hd3) as (v4 & s4 & H4 & Hd4). erewrite st_bind_Ok by exact H4.
  destruct (back_keeps (back_color con) s4 Hd4) as (v5 & s5 & H5 & Hd5). erewrite st_bind_Ok by exact H5. by eexists _, s5.
Qed.
Lemma scroll_keeps s c con x y : drawn_b s -> task_console s (console_task s) = Some c -> consoles s !! c = Some con -> 0 <= x <= 79 -> 0 <= y ->
  keeps (put_con c (with_cursor x y con) ;; scroll) s.
Proof.
  intros Hd Ht Hc Hx Hy. pose proof Hd as (Hv & Hs & _). set (con1 := with_cursor x y con). set (s1 := set_consoles (<[c := con1]> (consoles s)) s).
  rewrite (st_bind_Ok _ _ s tt s1) by done. pose proof (vw_cons s Hv _ _ Hc) as [Hring _ _ Hcol]. assert (Hr1 : ring_wf con1) by (by apply ring_cursor).
  destruct (scroll_ok s1 c con1) as (vr & vb & Hscr & Hs2); try done.
  - cbn. by rewrite Ht.
  - cbn. apply lookup_insert_eq.
  - cbn. intros z. destruct (decide (c = current_console s)) as [->|Hne]; [rewrite lookup_insert_eq; by intros [= <-]|rewrite lookup_insert_ne by done; intros Hz; apply (vw_cons s Hv _ _ Hz)].
  - cbn. destruct (decide (c = current_console s)) as [->|Hne]; [rewrite lookup_insert_eq; eauto|rewrite lookup_insert_ne by done; apply Hv].
  - eexists _, _. split; [exact Hscr|]. apply (drawn_change s _ c con (scrolled con1)); try done.
    + by apply scrolled_wf.
    + unfold scrolled. by case_match.
    + cbn. by rewrite insert_insert_eq.
    + intros Hb. apply Hs2, shows_cursor; [|apply Hv|done|by apply Hs]. intros z Hz. apply (vw_cons s Hv _ _ Hz).
Qed.
Lemma scroll_to_keeps f s : (forall n m, 0 <= n <= MAX_SCROLLBACK -> f n = Some m -> 0 <= m <= MAX_SCROLLBACK) -> drawn_b s -> keeps (scroll_to f) s.
Proof.
  intros Hf Hd. destruct (drawn_current _ _ _ _ s Hd) as (con & Hc & Hwf). unfold scroll_to. erewrite st_bind_Ok by done. erewrite st_bind_Ok by (by apply get_con_ok).
  destruct (f (current_position con)) as [m|] eqn:E; [|by exists tt, s]. pose proof Hwf as [[Hp Hl Hpos Hb] Hx Hy Hcol]. apply Hf in E; [|done].
  assert (Hr1 : ring_wf (with_position m con)) by done. set (s1 := set_consoles (<[current_console s := with_position m con]> (consoles s)) s). rewrite (st_bind_Ok _ _ s tt s1) by done.
  destruct (redraw_ok s1 (with_position m con)) as (vr & vb & Hre & Hs2); [cbn; apply lookup_insert_eq|done|]. erewrite st_bind_Ok by exact Hre.
  erewrite force_cursor_ok by (cbn; apply lookup_insert_eq). eexists _, _. split; [done|]. apply drawn_cursor.
  by apply (drawn_change s _ (current_console s) con (with_position m con)).
Qed.
Lemma reset_keeps s : drawn_b s -> exists s', scrollback_reset s = Ok (tt, s') /\ shows s' /\ drawn_b s'.
Proof.
  intros Hd. destruct (drawn_current _ _ _ _ s Hd) as (con & Hc & [[Hp Hl Hpos Hb] Hx Hy Hcol]). unfold scrollback_reset. erewrite st_bind_Ok by done. erewrite st_bind_Ok by (by apply get_con_ok).
  assert (Hr1 : ring_wf (with_position 0 con)) by done. set (s1 := set_consoles (<[current_console s := with_position 0 con]> (consoles s)) s). rewrite (st_bind_Ok _ _ s tt s1) by done.
  destruct (redraw_ok s1 (with_position 0 con)) as (vr & vb & Hre & Hs2); [cbn; apply lookup_insert_eq|done|]. eexists. split; [exact Hre|]. split; [done|].
  by apply (drawn_change s _ (current_console s) con (with_position 0 con)).
Qed.

(** [active] is nobody's business. *)
Lemma video_active s c con a : drawn_b s -> consoles s !! c = Some con -> drawn_b (set_consoles (<[c := with_active a con]> (consoles s)) s).
Proof. intros Hd Hc. apply (drawn_same _ _ _ _ s c con); try done. pose proof Hd as (Hv & _). destruct (vw_cons s Hv _ _ Hc) as [[Hp Hl Hpos Hb] Hx Hy Hcol]. done. Qed.
Lemma switch_keeps new s : new ∈ ids -> drawn_b s -> keeps (console_switch new) s.
Proof.
  intros Hin Hd. unfold console_switch. erewrite st_bind_Ok by done. destruct (Z.eqb_spec new (current_console s)) as [->|Hne]; [by exists tt, s|].
  erewrite st_bind_Ok by done. erewrite st_bind_Ok by done. cbv zeta. set (n := default _ _). clearbody n. destruct (drawn_current _ _ _ _ s Hd) as (old & Hold & _).
  erewrite st_bind_Ok by (by apply get_con_ok). set (s1 := set_consoles (<[current_console s := with_active false old]> (consoles s)) s). rewrite (st_bind_Ok _ _ s tt s1) by done.
  assert (Hd1 : drawn_b s1) by (by apply video_active). pose proof Hd1 as (Hv1 & _ & Hdom & _). rewrite <- Hdom in Hin. apply elem_of_dom in Hin as [con Hcon].
  erewrite st_bind_Ok by (by apply get_con_ok). set (s2 := set_consoles (<[new := with_active true con]> (consoles s1)) s1). rewrite (st_bind_Ok _ _ s1 tt s2) by done.
  assert (Hd2 : drawn_b s2) by (by apply video_active). rewrite (st_bind_Ok _ _ s2 tt (set_current_console new n s2)) by done.
  assert (Hnew : consoles s2 !! new = Some (with_active true con)) by (cbn; apply lookup_insert_eq).
  pose proof Hd2 as (Hv2 & _ & Hdom2 & Htc2). destruct (redraw_ok (set_current_console new n s2) (with_active true con)) as (vr & vb & Hre & Hs3); [done|apply (vw_cons s2 Hv2 _ _ Hnew)|].
  erewrite st_bind_Ok by exact Hre. rewrite (force_cursor_ok _ (with_active true con)) by done. eexists _, _. split; [done|]. apply drawn_cursor.
  split; [|done]. destruct Hv2 as [H1 H2 H3 H4]. split; try done.
Qed.

Lemma newlines_keeps n s : drawn_b s -> exists s', (fix go (n : nat) : CON () := match n with O => mret tt | S n => puts [10] ;; go n end) n s = Ok (tt, s') /\ drawn_b s'.
Proof.
  revert s. induction n as [|n IH]; intros s Hd; [by exists s|]. destruct (puts_keeps [10] s Hd) as (v & s1 & H1 & Hd1). erewrite st_bind_Ok by exact H1. by apply IH.
Qed.
(** A state that only differs in what is on the screen. *)
Lemma drawn_screen s vr vb : drawn_b s -> drawn vc tc ids false (set_screen vr vb s).
Proof. intros ([H1 H2 H3 H4] & _ & H). by split; [split|]. Qed.

Lemma create_keeps new s : new ∉ ids -> (forall t, tc t <> Some new) -> vc !! 3%nat = Some None -> drawn_b s ->
  exists s', console_create new s = Ok (tt, s') /\ drawn vc tc ({[ new ]} ∪ ids) b s'.
Proof.
  intros Hnew Htc Hlast Hd. pose proof Hd as (Hv & Hs & Hdom & Et & Evc). destruct (drawn_current _ _ _ _ s Hd) as (con & Hcon & Hwf).
  assert (Hfresh : consoles s !! new = None) by (apply not_elem_of_dom; by rewrite Hdom). assert (Hne : new <> current_console s) by congruence.
  unfold console_create. erewrite st_bind_Ok by done. rewrite Evc. erewrite st_bind_Ok by (unfold lift; by rewrite (proj2 (aget_Ok vc 3 None))).
  erewrite st_bind_Ok by done. erewrite st_bind_Ok by done. erewrite st_bind_Ok by (by apply get_con_ok). eexists. split; [done|]. destruct Hv as [H1 H2 H3 H4].
  assert (Hlook : forall c x, <[new := mk_con [] false (cursor_x con) (cursor_y con) empty_ring (buffer con) (bufferptr con) (current_position con) (text_color con) (back_color con)]> (consoles s) !! c = Some x ->
    c = new /\ tasks x = [] /\ con_wf x \/ c <> new /\ consoles s !! c = Some x).
  { intros c x. rewrite lookup_insert_Some. intros [[<- <-]|[Hc Hx]]; [left|right; split; [congruence|done]]. split; [done|]. split; [done|]. destruct Hwf as [[] Hx Hy Hcol]. by split; [split|..]. }
  split; [split; cbn|split; [|split; [cbn; by rewrite dom_insert_L, Hdom|done]]].
  - intros c x Hx. apply Hlook in Hx as [(_ & _ & Hx)|[_ Hx]]; [done|by eapply H1].
  - by rewrite lookup_insert_ne.
  - destruct H3 as (c & Hc & Hin). exists c. split; [done|]. destruct (decide (c = new)) as [->|Hc']; [rewrite lookup_insert_eq; eauto|by rewrite lookup_insert_ne].
  - intros c x t Hx. apply Hlook in Hx as [(-> & -> & _)|[_ Hx]]; [|by apply H4]. rewrite Et. split; [by intros ?%elem_of_nil|]. intros Hbad. by destruct (Htc t).
  - intros Hb x Hx k Hk. cbn in Hx |- *. rewrite lookup_insert_ne in Hx by done. by apply (Hs Hb).
Qed.
(** The assertion of [console_create]. *)
Lemma create_refused new s x : vc !! 3%nat = Some (Some x) -> drawn_b s -> console_create new s = Panic.
Proof.
  intros Hlast (_ & _ & _ & _ & Evc). unfold console_create. erewrite st_bind_Ok by done. rewrite Evc. erewrite st_bind_Ok by (unfold lift; by rewrite (proj2 (aget_Ok vc 3 (Some x)))). done.
Qed.
End ops.
Arguments update_cursor_keeps {vc tc ids b}.
Arguments newlines_keeps {vc tc ids b}.
Arguments drawn_screen {vc tc ids b}.
Arguments drawn_writes {vc tc ids b}.
Arguments drawn_cursor {vc tc ids b}.
Arguments putchar_keeps {vc tc ids b}.
Arguments puts_keeps {vc tc ids b}.
Arguments text_keeps {vc tc ids b}.
Arguments back_keeps {vc tc ids b}.
Arguments printc_keeps {vc tc ids b}.
Arguments scroll_keeps {vc tc ids b}.
Arguments scroll_to_keeps {vc tc ids b}.
Arguments reset_keeps {vc tc ids b}.
Arguments switch_keeps {vc tc ids b}.
Arguments create_keeps {vc tc ids b}.
Arguments create_refused {vc tc ids b}.

Lemma display_cursor ids tc s v : display ids tc s -> display ids tc (set_hw_cursor v s).
Proof. rewrite !display_drawn. apply drawn_cursor. Qed.
Lemma clear_keeps vc tc ids b s : drawn vc tc ids b s -> exists s', clrscr s = Ok (tt, s') /\ drawn vc tc ids false s'.
Proof.
  intros Hd. destruct (drawn_writes s Hd) as (c0 & con0 & Ht0 & _). unfold clrscr. erewrite st_bind_Ok by (by apply own_ok).
  destruct (newlines_keeps 23 s Hd) as (s1 & H1 & Hd1). erewrite st_bind_Ok by exact H1. destruct (drawn_current _ _ _ _ s1 Hd1) as (x & Hx & _). erewrite st_bind_Ok by (by apply displayed_eq).
  assert (Hfill : exists s2, (if bool_decide (console_task s1 ∈ tasks x) then vr ← gets videoram; vb ← gets vram_buffer;
     vb ← lift (fill SCREEN 0 SCREEN blank vb); vr ← lift (fill SCREEN 0 SCREEN blank vr); modify (set_screen vr vb) else mret tt : CON ()) s1 = Ok (tt, s2) /\ drawn vc tc ids false s2).
  { destruct (bool_decide _).
    - do 2 erewrite st_bind_Ok by done. rewrite !fill_ok by (sizes; lia). do 2 erewrite st_bind_Ok by done. eexists. split; [done|]. exact (drawn_screen s1 _ _ Hd1).
    - exists s1. split; [done|]. by destruct Hd1 as (? & _ & ?). }
  destruct Hfill as (s2 & H2 & Hd2). erewrite st_bind_Ok by exact H2. destruct (drawn_writes s2 Hd2) as (c & con & Ht & Hc & Hw). pose proof (wr_wf _ _ _ Hw) as [Hr _ _ Hcol].
  rewrite (st_bind_Ok _ _ s2 c s2) by (change (Ok (default 0 (task_console s2 (console_task s2)), s2) = Ok (c, s2)); by rewrite Ht). erewrite st_bind_Ok by (by apply get_con_ok).
  rewrite (st_bind_Ok _ _ s2 tt (set_consoles (<[c := with_cursor 0 0 con]> (consoles s2)) s2)) by done.
  assert (Hd3 : drawn vc tc ids false (set_consoles (<[c := with_cursor 0 0 con]> (consoles s2)) s2)).
  { apply (drawn_same _ _ _ _ s2 c con); try done. by split; [apply ring_cursor|..]. }
  destruct (update_cursor_keeps _ Hd3) as ([] & s3 & H3 & Hd3'). by exists s3.
Qed.

Lemma run_op_keeps vc tc ids b o s : op_ok tc o ids -> (creates o = true -> vc !! 3%nat = Some None) -> drawn vc tc ids b s ->
  exists s', run_op o s = Ok (tt, s') /\ drawn vc tc (ids_after o ids) (shown_after o b) s'.
Proof.
  intros Hok Hlast Hd. destruct (drawn_writes s Hd) as (c & con & Ht & Hc & Hw). pose proof (wr_wf _ _ _ Hw) as [Hr Hx Hy Hcol].
  assert (Hown := own_ok s c Ht). assert (Hget := get_con_ok s c con Hc).
  assert (Hmove : forall x y, 0 <= x <= 79 -> 0 <= y <= 23 -> drawn vc tc ids b (set_consoles (<[c := with_cursor x y con]> (consoles s)) s)).
  { intros x y Hx' Hy'. apply (drawn_same _ _ _ _ s c con); try done. split; [by apply ring_cursor|..]; done. }
  assert (Hunit : (exists v s', run_op o s = Ok (v, s') /\ drawn vc tc ids b s') -> exists s', run_op o s = Ok (tt, s') /\ drawn vc tc ids b s') by (intros ([] & s' & H & H'); by exists s').
  destruct o as [ch|l|back text l| | |x y|color|color| | | | | | |new|new|t]; cbn [ids_after shown_after];
    lazymatch goal with |- context [run_op OpReset] => idtac | |- context [run_op OpClear] => idtac | |- context [run_op (OpCreate _)] => idtac | _ => apply Hunit; clear Hunit end; cbn [run_op].
  - destruct (putchar_keeps ch s Hd) as (v & s' & H & Hd'). erewrite st_bind_Ok by exact H. by exists tt, s'.
  - destruct (puts_keeps l s Hd) as (v & s' & H & Hd'). erewrite st_bind_Ok by exact H. by exists tt, s'.
  - destruct (printc_keeps back text l s Hd) as (v & s' & H & Hd'). erewrite st_bind_Ok by exact H. by exists tt, s'.
  - unfold cursor_left. erewrite st_bind_Ok by exact Hown. erewrite st_bind_Ok by exact Hget. destruct (Z.eqb_spec (cursor_x con) 0); cbn [negb].
    + rewrite (st_bind_Ok _ _ s tt s) by done. by apply update_cursor_keeps.
    + erewrite st_bind_Ok by done. apply update_cursor_keeps, Hmove; lia.
  - unfold cursor_right. erewrite st_bind_Ok by exact Hown. erewrite st_bind_Ok by exact Hget. destruct (Z.ltb_spec (cursor_x con) 79).
    + erewrite st_bind_Ok by done. apply update_cursor_keeps, Hmove; lia.
    + destruct (scroll_keeps s c con 0 (cursor_y con + 1) Hd) as (v & s' & H' & Hd'); [done..|lia|lia|]. erewrite st_bind_Ok by exact H'. by apply update_cursor_keeps.
  - unfold set_cursor. assert (Hrun : exists v s', set_cursor x y s = Ok (v, s') /\ drawn vc tc ids b s').
    { unfold set_cursor. erewrite st_bind_Ok by exact Hown. erewrite st_bind_Ok by exact Hget. destruct (_ || _) eqn:Ex; [by eexists _, s|]. destruct ((y <? 0) || _) eqn:Ey; [by eexists _, s|].
      apply orb_false_iff in Ex as [Ex1%Z.ltb_ge Ex2%Z.ltb_ge]. apply orb_false_iff in Ey as [Ey1%Z.ltb_ge Ey2%Z.ltb_ge].
      erewrite st_bind_Ok by done. destruct (update_cursor_keeps _ (Hmove x y ltac:(lia) ltac:(lia))) as (v & s' & H & Hd'). erewrite st_bind_Ok by exact H. by eexists _, s'. }
    destruct Hrun as (v & s' & H & Hd'). erewrite st_bind_Ok by exact H. by exists tt, s'.
  - by apply text_keeps.
  - by apply back_keeps.
  - apply scroll_to_keeps; [|done]. intros n m Hn. destruct (Z.leb_spec MAX_SCROLLBACK n); [done|]. intros [= <-]. lia.
  - apply scroll_to_keeps; [|done]. intros n m Hn. destruct (Z.leb_spec MAX_SCROLLBACK n); [done|]. destruct (Z.leb_spec MAX_SCROLLBACK (n + 24)); intros [= <-]; lia.
  - apply scroll_to_keeps; [|done]. intros n m Hn. destruct (Z.eqb_spec n 0); [done|]. intros [= <-]. lia.
  - apply scroll_to_keeps; [|done]. intros n m Hn. destruct (Z.eqb_spec n 0); [done|]. destruct (Z.ltb_spec n 24); intros [= <-]; sizes; lia.
  - destruct (reset_keeps s Hd) as (s' & H & Hs & Hv & _ & Hd'). by exists s'.
  - by eapply clear_keeps.
  - by apply switch_keeps.
  - destruct Hok. by apply create_keeps; auto.
  - destruct Hok as (k & Hk & Hin). eexists _, _. split; [done|]. destruct Hd as ([H1 H2 _ H4] & Hs & Hdom & Htc & Hvc). rewrite <- Hdom in Hin. apply elem_of_dom in Hin.
    split; [|done]. split; try done. exists k. cbn. by rewrite Htc.
Qed.

(** The consoles there are, and whether the display is right for sure, after operations. *)
Definition ids_end (l : list con_op) (ids : gset Z) : gset Z := fold_left (fun ids o => ids_after o ids) l ids.
Definition shown_end (l : list con_op) (b : bool) : bool := fold_left (fun b o => shown_after o b) l b.

(** C34: any sequence of console operations -- characters and strings of any length, cursor movements and
    colours, [clrscr], moves through the scrollback, switches to existing consoles and the creation of
    new ones at addresses no console is at, by any tasks that have a console -- either runs without a
    failed assertion and within its buffers, and the consoles are well-formed after it, or it is stopped by the
    assertion of [console_create], which it is when a console is created while the last virtual console is set
    up.  The video memory then shows exactly the lines the current console is scrolled back to,
    unless [clrscr] was called and [scrollback_reset] has not redrawn the screen since (what
    [clrscr] leaves in the console is not what it displays: [clrscr_keeps_line]). *)
Theorem console_ops_correct vc tc ids b ops s : length vc = 4%nat -> drawn vc tc ids b s -> ops_ok tc ops ids ->
  if refused vc ops then run_ops ops s = Panic
  else exists s', run_ops ops s = Ok (tt, s') /\ drawn vc tc (ids_end ops ids) (shown_end ops b) s'.
Proof.
  intros Hlen. unfold refused. revert s ids b. induction ops as [|o ops IH]; intros s ids b Hd Hok.
  - destruct (vc !! 3%nat) as [[]|]; by exists s.
  - destruct Hok as [Ho Hok]. cbn [existsb run_ops]. destruct (vc !! 3%nat) as [[x|]|] eqn:Elast.
    3:{ apply lookup_ge_None in Elast. lia. }
    + destruct (creates o) eqn:Ec; [|].
      { destruct o; try done. unfold mbind, st_bind. cbn [run_op]. by erewrite create_refused. }
      destruct (run_op_keeps vc tc ids b o s Ho) as (s1 & H1 & Hd1); [congruence|done|]. erewrite st_bind_Ok by exact H1. exact (IH s1 _ _ Hd1 Hok).
    + destruct (run_op_keeps vc tc ids b o s Ho) as (s1 & H1 & Hd1); [done|done|]. specialize (IH s1 _ _ Hd1 Hok). erewrite st_bind_Ok by exact H1. exact IH.
Qed.

(** ** A concrete display *)
(** Two consoles, 0 of task 1 and 5 of task 2, blank and some lines on from the start. *)
Definition blank_console (ts : list Z) (y : Z) : console := mk_con ts true 0 y empty_ring (fun _ => blank) 800 0 7 0.
Definition two_consoles : video :=
  mk_video {[ 0 := blank_console [1] 23; 5 := blank_console [2] 0 ]} 0 [Some 0; Some 5; None; None] 0 1 (fun t => if t =? 1 then Some 0 else if t =? 2 then Some 5 else None)
    (fun _ => blank) (fun _ => blank) 0 [].
Lemma blank_console_wf ts y : 0 <= y <= 23 -> con_wf (blank_console ts y).
Proof. intros Hy. split; [split; done || (cbn; sizes; lia)|cbn; lia..]. Qed.
Lemma two_consoles_display : display {[ 0; 5 ]} (task_console two_consoles) two_consoles.
Proof.
  assert (Hlook : forall c con, consoles two_consoles !! c = Some con -> c = 0 /\ con = blank_console [1] 23 \/ c = 5 /\ con = blank_console [2] 0).
  { intros c con. cbn. rewrite lookup_insert_Some, lookup_singleton_Some. intuition congruence. }
  split; [split|split].
  - intros c con Hc. apply Hlook in Hc as [[-> ->]|[-> ->]]; apply blank_console_wf; lia.
  - by eexists.
  - exists 0. split; [done|by eexists].
  - intros c con t Hc. apply Hlook in Hc as [[-> ->]|[-> ->]]; cbn; rewrite list_elem_of_singleton; destruct (Z.eqb_spec t 1); subst; [done| |done|]; destruct (Z.eqb_spec t 2); subst; intuition congruence.
  - intros con Hc k Hk. apply Hlook in Hc as [[_ ->]|[E _]]; done.
  - split; [|done]. cbn. rewrite dom_insert_L, dom_singleton_L. set_solver.
Qed.

Lemma console_ops_witness : exists s', run_ops [OpPuts [72; 105; 10]; OpClear; OpUp; OpReset; OpCreate 9; OpSwitch 9; OpTask 2; OpPut 65; OpPgdown] two_consoles = Ok (tt, s') /\
  drawn [Some 0; Some 5; None; None] (task_console two_consoles) ({[ 9 ]} ∪ {[ 0; 5 ]}) true s'.
Proof.
  refine (console_ops_correct [Some 0; Some 5; None; None] (task_console two_consoles) {[ 0; 5 ]} true
    [OpPuts [72; 105; 10]; OpClear; OpUp; OpReset; OpCreate 9; OpSwitch 9; OpTask 2; OpPut 65; OpPgdown] two_consoles eq_refl (proj1 (display_drawn _ _ _) two_consoles_display) _).
  cbn [ops_ok op_ok ids_after]. split_and!; try done; try set_solver.
  intros t. cbn. by repeat case_match.
Defined.

Lemma puts_witness : exists s' con', puts [72; 105; 10] two_consoles = Ok (3, s') /\ consoles s' !! 0 = Some con' /\
  like con' (t_chars 7 0 [72; 105; 10] (term_of (blank_console [1] 23))) /\ video_wf s' /\ shows s' /\ only_console 0 two_consoles s' /\
  serial s' = [72; 105; 10] /\ hw_cursor s' = cursor_loc con'.
Proof. apply (puts_correct two_consoles 0 (blank_console [1] 23) [72; 105; 10]); [apply two_consoles_display..|done|done|split; vm_compute; done]. Defined.

(** ** Where it is not a terminal *)
(** Once in every revolution of the ring buffer, the line that scrolling brings in at the bottom is
    the oldest line of the buffer instead of a blank one. *)
Theorem scroll_brings_stale_line s c con : video_wf s -> task_console s (console_task s) = Some c -> consoles s !! c = Some con ->
  bufferptr con = 0 -> cursor_y con = 23 ->
  exists s' con', putchar 10 s = Ok (10, s') /\ consoles s' !! c = Some con' /\ forall x, 0 <= x < 80 -> scr con' 23 x = cell con x.
Proof.
  intros Hv Ht Hc Hp Hy. destruct (putchar_ok s c con 10 (wf_writes s c con Hv Ht Hc)) as (vr & vb & Hput & _ & Hw). eexists _, _. split; [exact Hput|]. split; [apply Hw|].
  intros x Hx. pose proof (vw_cons s Hv _ _ Hc) as [Hr _ _ _]. unfold typed, scrolled. change (10 =? 10) with true. cbn [cursor_y with_cursor]. rewrite Hy. change (23 + 1 <=? 23) with false.
  cbv iota. change (scr (with_cursor _ _ ?k) 23 x) with (cell k (TOP + 80 * 23 + x)). rewrite advanced_cell by (first [by apply ring_cursor | sizes; lia]). rewrite (proj2 (Z.ltb_ge _ _)) by (sizes; lia).
  cbn [bufferptr with_cursor]. rewrite Hp. change (0 =? 0) with true. change (cell (with_cursor _ _ ?k)) with (cell k). f_equal. sizes; lia.
Qed.

(** Lines of nothing scroll the terminal. *)
Lemma t_newlines text back n t r x : t_y t <= 23 -> r <= 23 -> t_y (t_chars text back (replicate n 10) t) = Z.min 23 (t_y t + Z.of_nat n) /\
  t_cell (t_chars text back (replicate n 10) t) r x = let d := Z.max 0 (t_y t + Z.of_nat n - 23) in if r + d <=? 23 then t_cell t (r + d) x else blank.
Proof.
  intros Hy Hr. revert t Hy. induction n as [|n IH]; intros t Hy.
  - cbn. split; [lia|]. rewrite Z.max_l by lia. rewrite Z.add_0_r, (proj2 (Z.leb_le _ _)) by lia. done.
  - cbn [replicate t_chars fold_left]. set (t1 := t_char text back 10 t). assert (Ht1 : t1 = t_scroll (mk_term (t_cell t) 0 (t_y t + 1))) by done. unfold t_scroll in Ht1. cbn [t_y t_cell t_x] in Ht1.
    destruct (IH t1) as [IHy IHc]; [rewrite Ht1; destruct (Z.ltb_spec 23 (t_y t + 1)); cbn; lia|]. unfold t_chars in *. rewrite IHy, IHc. cbv zeta.
    destruct (Z.ltb_spec 23 (t_y t + 1)); rewrite Ht1; cbn [t_y t_cell]; (split; [lia|]).
    + replace (Z.max 0 (23 + Z.of_nat n - 23)) with (Z.of_nat n) by lia. replace (Z.max 0 (t_y t + Z.of_nat (S n) - 23)) with (Z.of_nat n + 1) by lia.
      destruct (Z.leb_spec (r + Z.of_nat n) 23), (Z.leb_spec (r + (Z.of_nat n + 1)) 23), (Z.eqb_spec (r + Z.of_nat n) 23); try lia. f_equal; lia.
    + replace (t_y t + 1 + Z.of_nat n) with (t_y t + Z.of_nat (S n)) by lia. done.
Qed.
Lemma newlines_ok n : forall s c con t, video_wf s -> shows s -> task_console s (console_task s) = Some c -> consoles s !! c = Some con -> no_wrap con (Z.of_nat n) -> like con t ->
  exists s' con', (fix go (n : nat) : CON () := match n with O => mret tt | S n => puts [10] ;; go n end) n s = Ok (tt, s') /\
    consoles s' !! c = Some con' /\ like con' (t_chars (text_color con) (back_color con) (replicate n 10) t) /\ video_wf s' /\ only_console c s s'.
Proof.
  induction n as [|n IH]; intros s c con t Hv Hs Ht Hc Hn Hl; [by exists s, con|].
  destruct (puts_ok s c con t [10] Hv Hs Ht Hc) as (s1 & con1 & Hrun & Hc1 & Hl1 & Hv1 & Hs1 & (Ho1 & Ho2 & Ho3 & Ho4 & Ho5) & (_ & Et & Eb & Hn1) & _); [|done|].
  { destruct Hn. split; [done|]. unfold zlen. cbn [length]. lia. }
  destruct (IH s1 c con1 (t_chars (text_color con) (back_color con) [10] t)) as (s' & con' & Hrun' & Hc' & Hl' & Hv' & (Hp1 & Hp2)); try done.
  { by rewrite Ho3, Ho4. }
  { apply Hn1; [lia|]. destruct Hn. split; [done|]. unfold zlen. cbn [length]. lia. }
  rewrite Et, Eb in Hl'. exists s', con'. erewrite st_bind_Ok by exact Hrun. split; [exact Hrun'|]. split; [done|]. split; [done|]. split; [done|].
  split; [intros d Hd; rewrite Hp1 by done; by apply Ho1|]. destruct Hp2 as (-> & -> & -> & ->). done.
Qed.

(** [clrscr] blanks the screen and scrolls 23 lines, so that the line of the cursor stays in the
    console, at the top: the video memory does not show it, but the next redraw will. *)
Theorem clrscr_keeps_line s con : video_wf s -> shows s -> task_console s (console_task s) = Some (current_console s) -> consoles s !! current_console s = Some con -> no_wrap con 23 ->
  exists s' con', clrscr s = Ok (tt, s') /\ consoles s' !! current_console s' = Some con' /\ (forall k, 0 <= k < SCREEN -> videoram s' k = blank) /\
    cursor_x con' = 0 /\ cursor_y con' = 0 /\ forall x, 0 <= x < 80 -> scr con' 0 x = scr con (cursor_y con) x.
Proof.
  intros Hv Hs Ht Hc Hn. unfold clrscr. erewrite st_bind_Ok by (by apply own_ok).
  destruct (newlines_ok 23 s (current_console s) con (term_of con)) as (s1 & con1 & Hrun & Hc1 & (_ & _ & Hl1) & Hv1 & (Ho1 & Ho2 & Ho3 & Ho4 & Ho5)); [done..|].
  erewrite st_bind_Ok by exact Hrun. assert (Ht1 : task_console s1 (console_task s1) = Some (current_console s1)) by congruence. rewrite <- Ho2 in Hc1.
  assert (Hd : displayed s1 = Ok (true, s1)).
  { rewrite (displayed_eq _ con1) by done. rewrite bool_decide_true; [done|]. by apply (vw_tasks s1 Hv1 _ _ _ Hc1). }
  erewrite st_bind_Ok by exact Hd. rewrite (st_bind_Ok _ _ s1 tt (set_screen (set_cells 0 SCREEN blank (videoram s1)) (set_cells 0 SCREEN blank (vram_buffer s1)) s1)) by
    (cbv iota; do 2 erewrite st_bind_Ok by done; rewrite !fill_ok by (sizes; lia); done).
  set (s2 := set_screen _ _ s1). rewrite (st_bind_Ok _ _ s2 (current_console s1) s2) by (change (Ok (default 0 (task_console s1 (console_task s1)), s2) = Ok (current_console s1, s2)); by rewrite Ht1).
  erewrite st_bind_Ok by (apply get_con_ok; exact Hc1). set (s3 := set_consoles (<[current_console s1 := with_cursor 0 0 con1]> (consoles s2)) s2). rewrite (st_bind_Ok _ _ s2 tt s3) by done.
  assert (Hup : exists v, update_cursor s3 = Ok (tt, set_hw_cursor v s3)).
  { assert (Hc3 : consoles s3 !! current_console s3 = Some (with_cursor 0 0 con1)) by (cbn; apply lookup_insert_eq).
    unfold update_cursor. erewrite st_bind_Ok by (by apply displayed_eq). rewrite bool_decide_true by (by apply (vw_tasks s1 Hv1 _ _ _ Hc1)). eexists. by apply force_cursor_ok. }
  destruct Hup as (v & ->). exists (set_hw_cursor v s3), (with_cursor 0 0 con1). split; [done|]. split; [cbn; apply lookup_insert_eq|]. split.
  - intros k Hk. cbn. unfold set_cells. rewrite (proj2 (Z.leb_le _ _)), (proj2 (Z.ltb_lt _ _)) by lia. done.
  - split; [done|]. split; [done|]. intros x Hx. change (scr (with_cursor 0 0 con1) 0 x) with (scr con1 0 x). rewrite Hl1 by (unfold MAX_HISTORY; lia).
    pose proof (vw_cons s Hv _ _ Hc) as [_ _ Hy _]. destruct (t_newlines (text_color con) (back_color con) 23 (term_of con) 0 x) as [_ ->]; [cbn; lia..|]. cbv zeta. cbn [t_y term_of t_cell].
    replace (Z.max 0 (cursor_y con + Z.of_nat 23 - 23)) with (cursor_y con) by lia. rewrite (proj2 (Z.leb_le _ _)) by lia. done.
Qed.
