(* ===== verification/Keyboard.v ===== *)
(** * Keyboard and standard streams (src/src/kernel/keyboard.c, console.c, stdio.c, interrupts.c)

    The interrupt handler turns scan codes into characters of the current console's ring buffer, or
    into console switches and scrolling; [getchar] waits for characters of the task's console, and
    [stdio_read] makes lines of them, echoing as it goes. *)
From stdpp Require Import strings.
From S2P Require Import Prelude CString Format Console Fd.
#[local] Open Scope Z_scope.

Definition MOD_NONE : Z := 0.
Definition MOD_CTRL : Z := Z.shiftl 1 0.
Definition MOD_SHIFT : Z := Z.shiftl 1 1.
Definition MOD_ALT : Z := Z.shiftl 1 2.

(** [pending] is what is going to come from the keyboard: the scan codes that arrive in each of the
    coming sleeps of the waiting task.  [was_reset] is set when the machine is reset. *)
Record kb := mk_kb { vid : video; mod_keys : Z; pending : list (list Z); was_reset : bool }.
Abbreviation KB := (ST kb).
Definition set_vid (v : video) (k : kb) : kb := mk_kb v (mod_keys k) (pending k) (was_reset k).
Definition set_mods (m : Z) (k : kb) : kb := mk_kb (vid k) m (pending k) (was_reset k).
Definition set_pending (p : list (list Z)) (k : kb) : kb := mk_kb (vid k) (mod_keys k) p (was_reset k).
Definition reset (k : kb) : kb := mk_kb (vid k) (mod_keys k) (pending k) true.
(** Console code on its part of the state. *)
Definition on_video {A} (m : CON A) : KB A := fun k =>
  match m (vid k) with Ok (a, v) => Ok (a, set_vid v k) | Panic => Panic | Undef => Undef | NoFuel => NoFuel end.

(** The key maps. *)
Definition kbdmix : list Z :=
  [0; 27; 49; 50; 51; 52; 53; 54; 55; 56; 57; 48; 43; 0; 8; 9; 113; 119; 101; 114; 116; 121; 117; 105; 111; 112; 91; 93; 10; 0;
   97; 115; 100; 102; 103; 104; 106; 107; 108; 59; 39; 60; 0; 92; 122; 120; 99; 118; 98; 110; 109; 44; 46; 45; 0; 42; 0; 32; 0; 0;
   0; 0; 0; 0; 0; 0; 0; 0; 0; 0; 0; 0; 0; 0; 45; 0; 0; 0; 43; 0; 0; 0; 0; 0; 0; 0; 60; 0; 0; 0]
  ++ replicate 38 0.
Definition kbdse_shift : list Z :=
  [0; 27; 33; 34; 35; 0; 37; 38; 47; 40; 41; 61; 63; 96; 8; 9; 81; 87; 69; 82; 84; 89; 85; 73; 79; 80; 65; 65; 10; 0;
   65; 83; 68; 70; 71; 72; 74; 75; 76; 79; 39; 62; 0; 42; 90; 88; 67; 86; 66; 78; 77; 59; 58; 95; 0; 42; 0; 32; 0; 0;
   0; 0; 0; 0; 0; 0; 0; 0; 0; 0; 0; 0; 0; 0; 45; 0; 0; 0; 43; 0; 0; 0; 0; 0; 0; 0; 62; 0; 0; 0]
  ++ replicate 38 0.
Definition kbdse_alt : list Z :=
  [0; 27; 0; 64; 0; 36; 0; 0; 123; 91; 93; 125; 92; 61; 8; 9; 113; 119; 101; 114; 116; 121; 117; 105; 111; 112; 91; 93; 10; 0;
   97; 115; 100; 102; 103; 104; 106; 107; 108; 59; 39; 96; 0; 92; 122; 120; 99; 118; 98; 110; 109; 44; 46; 47; 0; 42; 0; 32; 0; 0;
   0; 0; 0; 0; 0; 0; 0; 0; 0; 0; 0; 0; 0; 0; 45; 0; 0; 0; 43; 0; 0; 0; 0; 0; 0; 0; 124; 0; 0; 0]
  ++ replicate 38 0.

(** ** The ring buffer *)
Definition ring_put (r : ringbuffer) (c : Z) : res ringbuffer :=
  if counter r =? KEYBUFFER_SIZE then Panic
  else
    d ← aset (data r) (write_ptr r) (u8 c);
    let w := write_ptr r + 1 in
    Ok (mk_ring d (read_ptr r) (if KEYBUFFER_SIZE <=? w then 0 else w) (u32 (counter r + 1))).
Definition ring_get (r : ringbuffer) : res (Z * ringbuffer) :=
  assert (negb (counter r =? 0)) ;;
  c ← aget (data r) (read_ptr r);
  let p := read_ptr r + 1 in
  Ok (c, mk_ring (data r) (if KEYBUFFER_SIZE <=? p then 0 else p) (write_ptr r) (u32 (counter r - 1))).

(** [printk]: the formatted text up to its end. *)
Fixpoint until_nul (l : list Z) : list Z :=
  match l with [] => [] | c :: l => if c =? 0 then [] else c :: until_nul l end.
Definition printk (fmt : list Z) (args : list arg) : CON Z :=
  f ← lift (format (S (length fmt)) fmt (mk_fstate [] args []));
  (if 0 <? zlen (fout f) then putchars (schar <$> until_nul (fout f)) else mret tt) ;;
  update_cursor ;;
  mret (zlen (fout f)).
Definition NOT_IMPLEMENTED : list Z := chars "Not implemented (scancode = 0x%02x)" ++ [10; 0].

(** ** The interrupt handler *)
(** The end of [keyboard_callback]: the key goes to the console on display. *)
Definition add_key (c : Z) : KB () :=
  if c =? 0 then mret tt
  else on_video (
    cur ← gets current_console; con ← get_con cur;
    r ← lift (ring_put (keybuffer con) c);
    put_con cur (with_keys r con)).

Definition keyboard_callback (scancode : Z) : KB () :=
  if scancode =? 0xe0 then mret tt
  else
    mods ← gets mod_keys;
    if (mods =? Z.lor MOD_CTRL MOD_ALT) && (scancode =? 0xd3) then modify reset
    else if (mods =? MOD_ALT) && ((0x3b <=? scancode) && (scancode <=? 0x3e)) then
      vc ← gets (fun k => virtual_consoles (vid k));
      virt ← lift (aget vc (scancode - 0x3b));
      match virt with None => mret tt | Some new => on_video (console_switch new) end
    else if (scancode =? 0x2a) || (scancode =? 0x36) then modify (set_mods (Z.lor mods MOD_SHIFT))
    else if (scancode =? 0xaa) || (scancode =? 0xb6) then modify (set_mods (Z.ldiff mods MOD_SHIFT))
    else if scancode =? 0x1d then modify (set_mods (Z.lor mods MOD_CTRL))
    else if scancode =? 0x9d then modify (set_mods (Z.ldiff mods MOD_CTRL))
    else if scancode =? 0x38 then modify (set_mods (Z.lor mods MOD_ALT))
    else if scancode =? 0xb8 then modify (set_mods (Z.ldiff mods MOD_ALT))
    else if (mods =? MOD_SHIFT) && (scancode =? 0x48) then on_video scrollback_up
    else if (mods =? MOD_SHIFT) && (scancode =? 0x50) then on_video scrollback_down
    else if (mods =? Z.lor MOD_SHIFT MOD_ALT) && (scancode =? 0x48) then on_video scrollback_pgup
    else if (mods =? Z.lor MOD_SHIFT MOD_ALT) && (scancode =? 0x50) then on_video scrollback_pgdown
    else
      let up := negb (Z.land scancode 0x80 =? 0) in
      if (mods =? MOD_NONE) && negb up then c ← lift (aget kbdmix scancode); add_key c
      else if (mods =? MOD_SHIFT) && negb up then c ← lift (aget kbdse_shift scancode); add_key c
      else if (mods =? MOD_ALT) && negb up then c ← lift (aget kbdse_alt scancode); add_key c
      else if (mods =? MOD_CTRL) && (scancode =? 0x20) then add_key 4
      else if negb up then on_video (printk NOT_IMPLEMENTED [AInt scancode]) ;; mret tt
      else mret tt.

(** [irq_handler] for the keyboard, interrupting [task]: output goes to the kernel's console. *)
Definition kernel_task : Z := 0.
Definition irq1 (task scancode : Z) : KB () :=
  on_video (modify (set_console_task kernel_task)) ;;
  keyboard_callback scancode ;;
  on_video (modify (set_console_task task)).

(** ** Waiting for a key *)
Fixpoint irqs (task : Z) (codes : list Z) : KB () :=
  match codes with [] => mret tt | c :: codes => irq1 task c ;; irqs task codes end.
(** [sleep(10)]; with nothing left to come the task sleeps for good. *)
Definition sleep10 (task : Z) : KB () :=
  p ← gets pending;
  match p with [] => lift NoFuel | codes :: p => modify (set_pending p) ;; irqs task codes end.
Fixpoint wait_key (fuel : nat) (task c : Z) : KB () :=
  con ← on_video (get_con c);
  if counter (keybuffer con) =? 0 then
    match fuel with O => lift NoFuel | S fuel => sleep10 task ;; wait_key fuel task c end
  else mret tt.
Definition getchar (task : Z) : KB Z :=
  o ← gets (fun k => task_console (vid k) task);
  ensure (bool_decide (is_Some o)) ;;
  c ← lift (deref o);
  fuel ← gets (fun k => length (pending k));
  wait_key fuel task c ;;
  con ← on_video (get_con c);
  '(ret, r) ← lift (ring_get (keybuffer con));
  on_video (put_con c (with_keys r con)) ;;
  mret (if ret =? 4 then -1 else ret).

(** ** The standard streams *)
Definition on_fs {A} (m : KB A) : ST (vfs kb) A := fun s =>
  match m (fs s) with
  | Ok (a, k) => Ok (a, mk_vfs (files s) (fdtables s) (current_task s) (irq s) k)
  | Panic => Panic | Undef => Undef | NoFuel => NoFuel
  end.
Definition echo (c : Z) : KB () := on_video (putchar c) ;; mret tt.

(** The loop of [stdio_read] at [p], which is also [ret]; each round takes a key. *)
Fixpoint read_loop (fuel : nat) (task : Z) (buf : list Z) (p length : Z) : KB (Z * list Z) :=
  if p <? length - 1 then
    match fuel with
    | O => lift NoFuel
    | S fuel =>
        c ← getchar task;
        let c := schar c in
        if (32 <=? c) || (c =? 10) then
          echo c ;; on_video update_cursor ;;
          buf ← lift (aset buf p (u8 c));
          if c =? 10 then buf ← lift (aset buf (p + 1) 0); mret (p + 1, buf)
          else read_loop fuel task buf (p + 1) length
        else if c =? 8 then
          if 0 <? p then
            echo c ;; echo 32 ;; echo c ;; on_video update_cursor ;;
            read_loop fuel task buf (p - 1) length
          else read_loop fuel task buf p length
        else if c =? -1 then
          if 0 <? p then read_loop fuel task buf p length
          else echo 94 ;; echo 68 ;; mret (0, buf)
        else
          buf ← lift (aset buf p (u8 c));
          if c =? 13 then buf ← lift (aset buf (p + 1) 0); mret (p + 1, buf)
          else read_loop fuel task buf (p + 1) length
    end
  else
    ensure (p <? length) ;;
    buf ← lift (aset buf p 0);
    mret (p, buf).

(** No more keys can come than this. *)
Definition keys_left (k : kb) : nat := Z.to_nat KEYBUFFER_SIZE + length (concat (pending k)).
Definition stdio_read (fd : Z) (buf : list Z) (length : Z) : ST (vfs kb) (ret * list Z) :=
  file ← get_filp fd;
  if file =? 0 then mret (Err EBADF, buf)
  else
    f ← get_file file;
    if negb (fino f =? 0) then ensure (fino f <=? 2) ;; mret (Val 0, buf)
    else if negb (fd =? 0) then mret (Val 0, buf)
    else
      t ← gets current_task;
      fuel ← gets (fun s => keys_left (fs s));
      '(n, buf) ← on_fs (read_loop fuel t buf 0 length);
      mret (Val n, buf).

Fixpoint write_loop (n : nat) (buf : list Z) (i : Z) : CON Z :=
  match n with
  | O => mret i
  | S n =>
      c ← lift (aget buf i);
      if c =? 0 then mret i else putchar (schar c) ;; write_loop n buf (i + 1)
  end.
Definition stdio_write (fd : Z) (buf : list Z) (length : Z) : ST (vfs kb) ret :=
  file ← get_filp fd;
  if file =? 0 then mret (Err EBADF)
  else
    f ← get_file file;
    if fino f =? 0 then mret (Val 0)
    else
      n ← on_fs (on_video (write_loop (Z.to_nat length) buf 0));
      on_fs (on_video update_cursor) ;;
      mret (Val n).
