(* ===== verification/KeyboardSpec.v ===== *)
(** * Keyboard: the ring buffer as a queue, scan codes as text *)
From S2P Require Import Prelude CString Format Console ConsoleSpec ConsoleTerm ConsoleOps Fd Keyboard.
#[local] Open Scope Z_scope.

(** ** The ring buffer is a queue *)
Definition slot (d : list Z) (i : Z) : Z := nth (Z.to_nat (i mod KEYBUFFER_SIZE)) d 0.
Definition queue (r : ringbuffer) : list Z := (fun i => slot (data r) (read_ptr r + i)) <$> seqZ 0 (counter r).
Record ring_ok (r : ringbuffer) : Prop := {
  ro_size : zlen (data r) = KEYBUFFER_SIZE;
  ro_read : 0 <= read_ptr r < KEYBUFFER_SIZE;
  ro_counter : 0 <= counter r <= KEYBUFFER_SIZE;
  ro_write : write_ptr r = (read_ptr r + counter r) mod KEYBUFFER_SIZE
}.

Lemma length_queue r : ring_ok r -> zlen (queue r) = counter r.
Proof. intros [_ _ Hc _]. unfold zlen, queue. rewrite length_fmap, length_seqZ. lia. Qed.
Lemma next_index i : 0 <= i < KEYBUFFER_SIZE -> (if KEYBUFFER_SIZE <=? i + 1 then 0 else i + 1) = (i + 1) mod KEYBUFFER_SIZE.
Proof. intros Hi. unfold KEYBUFFER_SIZE in *. destruct (Z.leb_spec 256 (i + 1)); Z.to_euclidean_division_equations; lia. Qed.
Lemma slot_put d i j c : zlen d = KEYBUFFER_SIZE -> 0 <= i < KEYBUFFER_SIZE ->
  slot (<[Z.to_nat i := c]> d) j = if j mod KEYBUFFER_SIZE =? i then c else slot d j.
Proof.
  intros Hd Hi. assert (Hj : 0 <= j mod KEYBUFFER_SIZE < KEYBUFFER_SIZE) by (apply Z.mod_pos_bound; done). unfold slot. rewrite !nth_lookup. unfold zlen in Hd. destruct (Z.eqb_spec (j mod KEYBUFFER_SIZE) i) as [E|E].
  - rewrite E, list_lookup_insert_eq by lia. done.
  - by rewrite list_lookup_insert_ne by lia.
Qed.

Lemma ring_put_ok r c : ring_ok r -> counter r < KEYBUFFER_SIZE -> 0 <= c < 256 ->
  exists r', ring_put r c = Ok r' /\ ring_ok r' /\ queue r' = queue r ++ [c].
Proof.
  intros [Hd Hr Hc Hw] Hlt Hc'. assert (Hw' : 0 <= write_ptr r < KEYBUFFER_SIZE) by (rewrite Hw; apply Z.mod_pos_bound; done).
  unfold ring_put. rewrite (proj2 (Z.eqb_neq _ _)) by lia. unfold aset. unfold zlen in Hd. rewrite (proj2 (Z.ltb_ge (write_ptr r) 0)), (proj2 (Z.leb_gt (Z.of_nat (length (data r))) (write_ptr r))) by (clear Hw; lia). cbn [orb mbind res_bind].
  assert (Hu : u32 (counter r + 1) = counter r + 1) by (apply u32_small; unfold KEYBUFFER_SIZE in *; lia). rewrite Hu, next_index by done. unfold u8. rewrite (Z.mod_small c) by lia.
  eexists. split; [done|]. split.
  - split; cbn [data read_ptr write_ptr counter]; [unfold zlen; by rewrite length_insert|done|lia|]. rewrite Hw. unfold KEYBUFFER_SIZE in *. Z.to_euclidean_division_equations; lia.
  - unfold queue. cbn [data read_ptr counter]. rewrite seqZ_app by lia. rewrite fmap_app. f_equal.
    + apply list_fmap_ext. intros i x Hx. apply lookup_seqZ in Hx as [-> Hi]. rewrite slot_put by done. rewrite (proj2 (Z.eqb_neq _ _)); [done|]. rewrite Hw. unfold KEYBUFFER_SIZE in *. Z.to_euclidean_division_equations; lia.
    + rewrite Z.add_0_l, seqZ_cons by lia. change (Z.pred 1) with 0. cbn. rewrite slot_put by done. rewrite (proj2 (Z.eqb_eq _ _)) by (by rewrite Hw). done.
Qed.
Lemma ring_put_full r c : counter r = KEYBUFFER_SIZE -> ring_put r c = Panic.
Proof. intros E. unfold ring_put. by rewrite E. Qed.
Lemma ring_get_ok r c q : ring_ok r -> queue r = c :: q -> exists r', ring_get r = Ok (c, r') /\ ring_ok r' /\ queue r' = q.
Proof.
  intros Hok Hq. pose proof (length_queue r Hok) as Hlen. rewrite Hq in Hlen. unfold zlen in Hlen. cbn [length] in Hlen. destruct Hok as [Hd Hr Hc Hw].
  unfold ring_get, assert. rewrite (proj2 (Z.eqb_neq _ _)) by lia. cbn [negb mbind res_bind]. unfold queue in Hq. rewrite seqZ_cons in Hq by lia. rewrite fmap_cons in Hq. injection Hq as Hhd Htl.
  rewrite Z.add_0_r in Hhd. unfold slot in Hhd. rewrite Z.mod_small in Hhd by done.
  unfold aget. rewrite (proj2 (Z.ltb_ge _ _)) by lia. unfold zlen in Hd. destruct (lookup_lt_is_Some_2 (data r) (Z.to_nat (read_ptr r))) as [x Hx]; [lia|].
  rewrite (nth_lookup_Some _ _ _ _ Hx) in Hhd. subst x. rewrite Hx. cbn [deref mbind res_bind]. rewrite next_index by done.
  assert (Hu : u32 (counter r - 1) = counter r - 1) by (apply u32_small; unfold KEYBUFFER_SIZE in *; lia). rewrite Hu. eexists. split; [done|]. split.
  - split; cbn [data read_ptr write_ptr counter]; [done|apply Z.mod_pos_bound; done|lia|]. rewrite Hw. unfold KEYBUFFER_SIZE in *. Z.to_euclidean_division_equations; lia.
  - rewrite <- Htl. unfold queue. cbn [data read_ptr counter]. replace (Z.pred (counter r)) with (counter r - 1) by lia. rewrite <- (fmap_add_seqZ 1 0), <- list_fmap_compose.
    apply list_fmap_ext. intros i x _. cbn. unfold slot. do 2 f_equal. unfold KEYBUFFER_SIZE. rewrite Zplus_mod_idemp_l. f_equal. lia.
Qed.

(** ** Scan codes as text *)
(** The modifiers and the characters after a scan code; [None] for the keys that do something else. *)
Definition key_table (mods : Z) : option (list Z) :=
  if mods =? MOD_NONE then Some kbdmix else if mods =? MOD_SHIFT then Some kbdse_shift else if mods =? MOD_ALT then Some kbdse_alt else None.
Definition decode1 (mods code : Z) : option (Z * list Z) :=
  if code =? 0xe0 then Some (mods, [])
  else if (code =? 0x2a) || (code =? 0x36) then Some (Z.lor mods MOD_SHIFT, [])
  else if (code =? 0xaa) || (code =? 0xb6) then Some (Z.ldiff mods MOD_SHIFT, [])
  else if code =? 0x1d then Some (Z.lor mods MOD_CTRL, [])
  else if code =? 0x9d then Some (Z.ldiff mods MOD_CTRL, [])
  else if code =? 0x38 then Some (Z.lor mods MOD_ALT, [])
  else if code =? 0xb8 then Some (Z.ldiff mods MOD_ALT, [])
  else if (0 <=? code) && (code <? 128) then
    (** the hot keys *)
    if (mods =? MOD_ALT) && (0x3b <=? code) && (code <=? 0x3e) || (mods =? MOD_SHIFT) && ((code =? 0x48) || (code =? 0x50)) then None
    else
      match key_table mods with
      | Some tb => c ← tb !! Z.to_nat code; Some (mods, if c =? 0 then [] else [c])
      | None => if (mods =? MOD_CTRL) && (code =? 0x20) then Some (mods, [4]) else None
      end
  else if (128 <=? code) && (code <? 256) && negb ((mods =? Z.lor MOD_CTRL MOD_ALT) && (code =? 0xd3)) then Some (mods, [])
  else None.
Fixpoint decode (mods : Z) (codes : list Z) : option (Z * list Z) :=
  match codes with
  | [] => Some (mods, [])
  | code :: codes => '(mods, l) ← decode1 mods code; '(mods, l') ← decode mods codes; Some (mods, l ++ l')
  end.
(** A character in the buffer. *)
Definition key_char (c : Z) : Prop := 1 <= c < 128.

Lemma high_bit code : 0 <= code < 256 -> negb (Z.land code 0x80 =? 0) = negb (code <? 128).
Proof.
  intros Hc. f_equal. assert (H : forallb (fun c => Bool.eqb (Z.land c 0x80 =? 0) (c <? 128)) (seqZ 0 256) = true) by (vm_compute; reflexivity).
  rewrite forallb_forall in H. apply Bool.eqb_prop, H, list_elem_of_In, elem_of_seqZ. lia.
Qed.
Lemma table_chars mods tb i c : key_table mods = Some tb -> tb !! i = Some c -> c <> 0 -> key_char c.
Proof.
  assert (H : forallb (forallb (fun c => (0 <=? c) && (c <? 128))) [kbdmix; kbdse_shift; kbdse_alt] = true) by (vm_compute; reflexivity).
  cbn [forallb] in H. apply andb_prop in H as [H1 [H2 [H3 _]%andb_prop]%andb_prop]. rewrite forallb_forall in H1, H2, H3.
  intros Ht Hi Hne. assert (Hin : List.In c tb) by (apply list_elem_of_In; by eapply list_elem_of_lookup_2). unfold key_table in Ht. unfold key_char.
  repeat case_match; try done; injection Ht as <-; [apply H1 in Hin|apply H2 in Hin|apply H3 in Hin]; lia.
Qed.
(** What the handler does with the keys that are text. *)
Definition text_key (mods : Z) (l : list Z) : KB () := modify (set_mods mods) ;; match l with [c] => add_key c | _ => mret tt end.
Lemma decode1_chars mods code m l : decode1 mods code = Some (m, l) -> l = [] \/ exists c, l = [c] /\ key_char c.
Proof.
  unfold decode1. intros H. repeat match type of H with (if ?b then _ else _) = _ => destruct b; try (injection H as _ <-; by left); try discriminate H end.
  destruct (key_table mods) as [tb|] eqn:Et.
  - destruct (tb !! Z.to_nat code) as [c|] eqn:Ec; [|done]. cbn in H. destruct (Z.eqb_spec c 0) as [E|E]; injection H as _ <-; [by left|]. right. exists c. split; [done|]. by eapply table_chars.
  - destruct (_ && _); [|done]. injection H as _ <-. right. exists 4. by split.
Qed.
Definition is_modifier (code : Z) : bool := existsb (Z.eqb code) [0x2a; 0x36; 0xaa; 0xb6; 0x1d; 0x9d; 0x38; 0xb8].
Lemma callback_modifier k code m l : is_modifier code = true -> decode1 (mod_keys k) code = Some (m, l) -> keyboard_callback code k = text_key m l k.
Proof.
  intros Hc H. unfold is_modifier in Hc. apply existsb_exists in Hc as (x & Hx & ->%Z.eqb_eq). destruct k as [v mods p rs]. unfold text_key, keyboard_callback.
  rewrite <- list_elem_of_In in Hx. repeat (apply elem_of_cons in Hx as [->|Hx]; [cbn [Z.eqb Pos.eqb]; erewrite st_bind_Ok by done; cbn [mod_keys] in *; rewrite !andb_false_r; cbn in H; injection H as <- <-; done|]).
  by apply not_elem_of_nil in Hx.
Qed.
Lemma text_add tb code k l : 0 <= code -> (c ← tb !! Z.to_nat code; Some (mod_keys k, if c =? 0 then [] else [c])) = Some l ->
  (c ← lift (aget tb code); add_key c) k = text_key l.1 l.2 k.
Proof.
  intros Hc H. destruct (tb !! Z.to_nat code) as [c|] eqn:E; [|done]. cbn in H. injection H as <-. rewrite (st_bind_Ok _ _ _ c k).
  - unfold text_key. cbn [fst snd]. rewrite (st_bind_Ok _ _ k tt k) by (by destruct k). destruct (c =? 0) eqn:E0; [|done]. unfold add_key. by rewrite E0.
  - unfold lift, aget. rewrite (proj2 (Z.ltb_ge code 0)) by lia. by rewrite E.
Qed.
Lemma callback_text k code m l : decode1 (mod_keys k) code = Some (m, l) -> keyboard_callback code k = text_key m l k.
Proof.
  intros H. destruct (is_modifier code) eqn:Hmod; [by apply callback_modifier|]. unfold keyboard_callback, text_key. unfold decode1 in H. destruct k as [v mods p rs]. cbn [mod_keys] in H.
  destruct (Z.eqb_spec code 0xe0) as [->|He0]; [by injection H as <- <-|]. erewrite st_bind_Ok by done. cbn [mod_keys].
  unfold is_modifier in Hmod. cbn [existsb] in Hmod. repeat (apply orb_false_iff in Hmod as [?Hm Hmod]). rewrite Hm, Hm0, Hm1, Hm2, Hm3, Hm4, Hm5, Hm6 in H. cbn [orb] in H.
  rewrite Hm, Hm0, Hm1, Hm2, Hm3, Hm4, Hm5, Hm6. cbn [orb]. clear Hmod Hm Hm0 Hm1 Hm2 Hm3 Hm4 Hm5 Hm6.
  destruct ((0 <=? code) && (code <? 128)) eqn:Hrange.
  - apply andb_prop in Hrange as [H0%Z.leb_le H1%Z.ltb_lt]. destruct (_ || _) eqn:Hhot in H; [done|]. apply orb_false_iff in Hhot as [Halt Hsh].
    rewrite high_bit, (proj2 (Z.ltb_lt code 128)) by lia. cbn [negb]. rewrite (proj2 (Z.eqb_neq code 0xd3)) by lia. rewrite !andb_false_r, !andb_true_r.
    rewrite andb_assoc, Halt. rewrite andb_orb_distrib_r in Hsh. apply orb_false_iff in Hsh as [Hs1 Hs2]. rewrite Hs1, Hs2.
    unfold key_table in H. destruct (Z.eqb_spec mods MOD_NONE) as [->|Hn]; [by apply (text_add kbdmix code (mk_kb v MOD_NONE p rs) (m, l))|].
    destruct (Z.eqb_spec mods MOD_SHIFT) as [->|Hs]; [by apply (text_add kbdse_shift code (mk_kb v MOD_SHIFT p rs) (m, l))|].
    destruct (Z.eqb_spec mods MOD_ALT) as [->|Ha]; [by apply (text_add kbdse_alt code (mk_kb v MOD_ALT p rs) (m, l))|].
    destruct (Z.eqb_spec mods MOD_CTRL) as [->|Hct]; [|done]. destruct (code =? 0x20); [|done]. by injection H as <- <-.
  - destruct (_ && negb _) eqn:Hup in H; [|done]. injection H as <- <-. apply andb_prop in Hup as [Hup Hdel%negb_true_iff]. rewrite Hdel.
    apply andb_prop in Hup as [H0%Z.leb_le H1%Z.ltb_lt]. rewrite high_bit, (proj2 (Z.ltb_ge code 128)) by lia. cbn [negb].
    rewrite (proj2 (Z.leb_gt code 0x3e)), (proj2 (Z.eqb_neq code 0x48)), (proj2 (Z.eqb_neq code 0x50)), (proj2 (Z.eqb_neq code 0x20)) by lia. rewrite !andb_false_r. done.
Qed.

(** ** A task at the keyboard *)
Section reader.
Context (ids : gset Z) (tc : Z -> option Z) (task c : Z).

Definition queued (k : kb) : list Z := match consoles (vid k) !! c with Some con => queue (keybuffer con) | None => [] end.
(** The task's console is on display. *)
Record at_keyboard (k : kb) : Prop := {
  ak_display : display ids tc (vid k);
  ak_task : console_task (vid k) = task;
  ak_console : tc task = Some c;
  ak_current : current_console (vid k) = c;
  ak_ring con : consoles (vid k) !! c = Some con -> ring_ok (keybuffer con);
  ak_chars : Forall key_char (queued k)
}.
(** What the keyboard leaves alone. *)
Definition keyboard_frame (k k' : kb) : Prop := serial (vid k') = serial (vid k) /\ was_reset k' = was_reset k.

Lemma keyboard_frame_trans k1 k2 k3 : keyboard_frame k1 k2 -> keyboard_frame k2 k3 -> keyboard_frame k1 k3.
Proof. unfold keyboard_frame. intros [] []. split; congruence. Qed.
Lemma at_console k : at_keyboard k -> exists con, consoles (vid k) !! c = Some con /\ con_wf con.
Proof. intros [Hd _ _ <- _ _]. by apply (display_current ids tc). Qed.

(** A change of the ring buffer only. *)
Lemma at_put_keys k con r : at_keyboard k -> consoles (vid k) !! c = Some con -> ring_ok r -> Forall key_char (queue r) ->
  let k' := set_vid (set_consoles (<[c := with_keys r con]> (consoles (vid k))) (vid k)) k in at_keyboard k' /\ queued k' = queue r.
Proof.
  intros [Hd Ht Hc Hcur Hr Hq] Hcon Hok Hch k'. assert (Hq' : queued k' = queue r) by (unfold queued; cbn; by rewrite lookup_insert_eq). split; [|done]. split; try done.
  - cbn. apply (display_same ids tc (vid k) c con); try done. destruct Hd as (Hv & _). destruct (vw_cons _ Hv _ _ Hcon) as [[] Hx Hy Hcol]. by split.
  - cbn. intros x. rewrite lookup_insert_eq. by intros [= <-].
  - by rewrite Hq'.
Qed.
Lemma at_mods k m : at_keyboard k -> at_keyboard (set_mods m k).
Proof. intros []. by split. Qed.
Lemma at_pending k p : at_keyboard k -> at_keyboard (set_pending p k).
Proof. intros []. by split. Qed.

Lemma irq1_ok k code m l : at_keyboard k -> decode1 (mod_keys k) code = Some (m, l) -> zlen (queued k) + zlen l <= KEYBUFFER_SIZE ->
  exists k', irq1 task code k = Ok (tt, k') /\ at_keyboard k' /\ queued k' = queued k ++ l /\ mod_keys k' = m /\ pending k' = pending k /\ keyboard_frame k k'.
Proof.
  intros Hk Hdec Hfit. destruct (at_console k Hk) as (con & Hcon & _). pose proof (ak_ring k Hk con Hcon) as Hring. assert (Hqd : queued k = queue (keybuffer con)) by (unfold queued; by rewrite Hcon).
  unfold irq1. set (k0 := set_vid (set_console_task kernel_task (vid k)) k). rewrite (st_bind_Ok _ _ k tt k0) by done.
  assert (Hcb : keyboard_callback code k0 = text_key m l k0) by (by apply callback_text).
  assert (Hback : forall k1, console_task (vid k1) = task -> set_vid (set_console_task task (set_console_task kernel_task (vid k1))) k1 = k1).
  { intros [v mo pe wa] E. unfold set_vid, set_console_task. destruct v. cbn in *. by subst. }
  destruct (decode1_chars _ _ _ _ Hdec) as [->|(ch & -> & Hch)].
  - exists (set_mods m k). rewrite (st_bind_Ok _ _ k0 tt (set_mods m k0)) by (by rewrite Hcb). split; [|split; [by apply at_mods|rewrite app_nil_r; done]].
    change (Ok (tt, set_vid (set_console_task task (set_console_task kernel_task (vid (set_mods m k)))) (set_mods m k)) = Ok (tt, set_mods m k)). rewrite Hback; [done|apply Hk].
  - destruct (ring_put_ok (keybuffer con) ch) as (r & Hput & Hr & Hq); [done|rewrite <- length_queue, <- Hqd by done; unfold zlen in *; cbn [length] in Hfit; lia|unfold key_char in Hch; lia|].
    assert (Hm : at_keyboard (set_mods m k)) by (by apply at_mods). destruct (at_put_keys (set_mods m k) con r Hm Hcon Hr) as [Hk' Hq'].
    { rewrite Hq, Forall_app, Forall_singleton. split; [|done]. rewrite <- Hqd. apply Hk. }
    set (k' := set_vid _ _) in Hk', Hq'. exists k'. rewrite (st_bind_Ok _ _ k0 tt (set_vid (set_console_task kernel_task (vid k')) k')).
    2:{ rewrite Hcb. unfold text_key. rewrite (st_bind_Ok _ _ k0 tt (set_mods m k0)) by done. unfold add_key. rewrite (proj2 (Z.eqb_neq ch 0)) by (unfold key_char in Hch; lia).
        unfold on_video. cbn [vid set_mods k0 set_vid]. erewrite st_bind_Ok by done. cbn [current_console set_console_task]. rewrite (ak_current k Hk).
        erewrite st_bind_Ok by (apply get_con_ok; exact Hcon). rewrite Hput. erewrite st_bind_Ok by done. done. }
    split; [|split; [done|split; [by rewrite Hq', Hq, Hqd|done]]].
    change (Ok (tt, set_vid (set_console_task task (set_console_task kernel_task (vid k'))) k') = Ok (tt, k')). rewrite Hback; [done|apply Hk'].
Qed.

Lemma irqs_ok codes : forall k m l, at_keyboard k -> decode (mod_keys k) codes = Some (m, l) -> zlen (queued k) + zlen l <= KEYBUFFER_SIZE ->
  exists k', irqs task codes k = Ok (tt, k') /\ at_keyboard k' /\ queued k' = queued k ++ l /\ mod_keys k' = m /\ pending k' = pending k /\ keyboard_frame k k'.
Proof.
  induction codes as [|code codes IH]; intros k m l Hk Hdec Hfit.
  - injection Hdec as <- <-. exists k. by rewrite app_nil_r.
  - cbn [decode] in Hdec. destruct (decode1 (mod_keys k) code) as [[m1 l1]|] eqn:E1; [|done]. cbn in Hdec. destruct (decode m1 codes) as [[m2 l2]|] eqn:E2; [|done]. cbn in Hdec. injection Hdec as <- <-.
    unfold zlen in *. rewrite length_app in Hfit. destruct (irq1_ok k code m1 l1 Hk E1) as (k1 & Hrun1 & Hk1 & Hq1 & Hm1 & Hp1 & Hf1); [unfold zlen; lia|].
    rewrite <- Hm1 in E2. destruct (IH k1 m2 l2 Hk1 E2) as (k2 & Hrun2 & Hk2 & Hq2 & Hm2 & Hp2 & Hf2); [rewrite Hq1, length_app; lia|].
    exists k2. cbn [irqs]. erewrite st_bind_Ok by exact Hrun1. split; [done|]. split; [done|]. split; [by rewrite Hq2, Hq1, <- app_assoc|]. split; [done|]. split; [congruence|by eapply keyboard_frame_trans].
Qed.

(** ** Waiting *)
(** The text of what is going to come, in no batch more than the ring buffer holds. *)
Fixpoint arrives (mods : Z) (batches : list (list Z)) : option (list Z) :=
  match batches with
  | [] => Some []
  | b :: bs => '(m, l) ← decode mods b; if zlen l <=? KEYBUFFER_SIZE then t ← arrives m bs; Some (l ++ t) else None
  end.
Definition input (k : kb) (text : list Z) : Prop := exists t, arrives (mod_keys k) (pending k) = Some t /\ text = queued k ++ t.

Lemma wait_key_ok fuel : forall k text, at_keyboard k -> input k text -> text <> [] -> (length (pending k) <= fuel)%nat ->
  exists k', wait_key fuel task c k = Ok (tt, k') /\ at_keyboard k' /\ input k' text /\ queued k' <> [] /\ keyboard_frame k k'.
Proof.
  induction fuel as [|fuel IH]; intros k text Hk (t & Ht & Htext) Hne Hfuel; destruct (at_console k Hk) as (con & Hcon & _);
    assert (Hqd : queued k = queue (keybuffer con)) by (unfold queued; by rewrite Hcon);
    pose proof (length_queue _ (ak_ring k Hk con Hcon)) as Hlen; rewrite <- Hqd in Hlen; cbn [wait_key];
    rewrite (st_bind_Ok _ _ k con k) by (unfold on_video; rewrite (get_con_ok _ _ _ Hcon); by destruct k);
    destruct (Z.eqb_spec (counter (keybuffer con)) 0) as [E0|E0].
  - assert (queued k = []) as Hq by (apply nil_length_inv; unfold zlen in Hlen; lia). destruct (pending k) as [|b bs] eqn:Ep; [|cbn in Hfuel; lia]. cbn in Ht. injection Ht as <-. by rewrite Hq in Htext.
  - exists k. split; [done|]. split; [done|]. split; [by exists t|]. split; [|done]. intros E. rewrite E in Hlen. done.
  - assert (queued k = []) as Hq by (apply nil_length_inv; unfold zlen in Hlen; lia). destruct (pending k) as [|b bs] eqn:Ep; [cbn in Ht; injection Ht as <-; by rewrite Hq in Htext|].
    cbn [arrives] in Ht. destruct (decode (mod_keys k) b) as [[m l]|] eqn:Ed; [|done]. cbn in Ht. destruct (Z.leb_spec (zlen l) KEYBUFFER_SIZE) as [Hfit|]; [|done].
    destruct (arrives m bs) as [t'|] eqn:Ea; [|done]. cbn in Ht. injection Ht as <-.
    destruct (irqs_ok b (set_pending bs k) m l) as (k1 & Hrun & Hk1 & Hq1 & Hm1 & Hp1 & Hf1); [by apply at_pending|done|change (queued (set_pending bs k)) with (queued k); by rewrite Hq|].
    change (queued (set_pending bs k)) with (queued k) in Hq1. rewrite Hq in Hq1, Htext. cbn [pending set_pending] in Hp1.
    destruct (IH k1 text Hk1) as (k2 & Hrun2 & Hk2 & Hin2 & Hq2 & Hf2); [exists t'; rewrite Hm1, Hp1, Hq1; by subst|done|rewrite Hp1; cbn in Hfuel; lia|].
    exists k2. rewrite (st_bind_Ok _ _ k tt k1).
    + split; [done|]. split; [done|]. split; [done|]. split; [done|]. by eapply keyboard_frame_trans.
    + unfold sleep10. rewrite (st_bind_Ok _ _ k (b :: bs) k) by (unfold gets; by rewrite Ep). rewrite (st_bind_Ok _ _ k tt (set_pending bs k)) by done. done.
  - exists k. split; [done|]. split; [done|]. split; [by exists t|]. split; [|done]. intros E. rewrite E in Hlen. done.
Qed.

(** [getchar] takes the first character, whether it is there already or still has to be typed. *)
Lemma getchar_ok k ch text : at_keyboard k -> input k (ch :: text) ->
  exists k', getchar task k = Ok (if ch =? 4 then -1 else ch, k') /\ at_keyboard k' /\ input k' text /\ keyboard_frame k k' /\ key_char ch.
Proof.
  intros Hk Hin. unfold getchar. assert (Ht : task_console (vid k) task = Some c) by (destruct (ak_display k Hk) as (_ & _ & _ & ->); apply Hk).
  rewrite (st_bind_Ok _ _ k (Some c) k) by (unfold gets; by rewrite Ht). rewrite (st_bind_Ok _ _ k tt k) by done. rewrite (st_bind_Ok _ _ k c k) by done. erewrite st_bind_Ok by done.
  destruct (wait_key_ok (length (pending k)) k (ch :: text) Hk Hin) as (k1 & Hw & Hk1 & (t & Ht1 & Htext) & Hq & Hf); [done..|]. erewrite st_bind_Ok by exact Hw.
  destruct (at_console k1 Hk1) as (con & Hcon & _). assert (Hqd : queued k1 = queue (keybuffer con)) by (unfold queued; by rewrite Hcon).
  rewrite (st_bind_Ok _ _ k1 con k1) by (unfold on_video; rewrite (get_con_ok _ _ _ Hcon); by destruct k1).
  destruct (queued k1) as [|x q] eqn:Eq; [done|]. cbn in Htext. injection Htext as <- Htext. pose proof (ak_chars k1 Hk1) as Hch. rewrite Eq in Hch. apply Forall_cons in Hch as [Hx Hch].
  destruct (ring_get_ok (keybuffer con) ch q (ak_ring k1 Hk1 con Hcon)) as (r & Hget & Hr & Hqr); [done|]. rewrite Hget. erewrite st_bind_Ok by done.
  destruct (at_put_keys k1 con r Hk1 Hcon Hr) as [Hk2 Hq2]; [by rewrite Hqr|]. set (k2 := set_vid _ _) in *. rewrite (st_bind_Ok _ _ k1 tt k2) by done.
  exists k2. split; [done|]. split; [done|]. split; [exists t; split; [done|by rewrite Hq2, Hqr]|]. split; [done|done].
Qed.
End reader.
