(* ===== verification/Stdio.v ===== *)
(** * Standard input: lines from the keyboard

    [stdio_read] is a line editor: [edit] is what it does with the text that is typed, a character at a
    time. *)
From S2P Require Import Prelude CString Format Console ConsoleSpec ConsoleTerm ConsoleOps Fd Keyboard KeyboardSpec.
#[local] Open Scope Z_scope.

(** The line so far and what was echoed; the result has the rest of the text too, and is [None] when
    the text ends before the line does.  A line is ended by a newline, by control-D if it is empty, or when it
    fills the buffer of [n] bytes. *)
Fixpoint edit (n : Z) (line out text : list Z) : option (list Z * list Z * list Z) :=
  if zlen line <? n - 1 then
    match text with
    | [] => None
    | ch :: text =>
        if ch =? 10 then Some (line ++ [10], out ++ [10], text)
        else if ch =? 8 then
          match line with [] => edit n [] out text | _ => edit n (removelast line) (out ++ [8; 32; 8]) text end
        else if ch =? 4 then
          match line with [] => Some ([], out ++ [94; 68], text) | _ => edit n line out text end
        else if ch =? 13 then Some (line ++ [13], out, text)
        else edit n (line ++ [ch]) (if 32 <=? ch then out ++ [ch] else out) text
    end
  else Some (line, out, text).

(** The line in a buffer, with its terminator unless it is the end of the file. *)
Definition holds_line (buf line : list Z) : Prop := take (length line) buf = line /\ (line <> [] -> buf !! length line = Some 0).

Section reader.
Context (ids : gset Z) (tc : Z -> option Z) (task c : Z).
Abbreviation at_keyboard := (at_keyboard ids tc task c).
Abbreviation input := (input c).

(** Output leaves the keyboard alone. *)
Lemma typed_keys ch con : keybuffer (typed ch con) = keybuffer con.
Proof. unfold typed, scrolled, printed. by repeat case_match. Qed.
Lemma echo_ok k ch text : at_keyboard k -> input k text ->
  exists k', echo ch k = Ok (tt, k') /\ at_keyboard k' /\ input k' text /\ serial (vid k') = serial (vid k) ++ [u8 ch] /\ was_reset k' = was_reset k.
Proof.
  intros Hk (t & Ht & Htext). pose proof Hk as [Hd Htask Hc Hcur Hr Hq]. destruct (at_console ids tc task c k Hk) as (con & Hcon & Hwf). pose proof Hd as (Hv & Hs & Hdom & Htc).
  assert (Hw : writes (vid k) c con) by (apply wf_writes; [done|congruence|done]). destruct (putchar_ok (vid k) c con ch Hw) as (vr & vb & Hp & Hs' & Hw'). specialize (Hs' Hs). set (v' := set_screen _ _ _) in *.
  assert (Hq' : queued c (set_vid v' k) = queued c k) by (unfold queued; cbn; by rewrite lookup_insert_eq, Hcon, typed_keys).
  exists (set_vid v' k). split; [unfold echo; rewrite (st_bind_Ok _ _ k ch (set_vid v' k)); [done|unfold on_video; by rewrite Hp]|]. split; [|split; [by exists t; rewrite Hq'|done]].
  split; try done.
  - apply (display_put ids tc (vid k) _ c con (typed ch con)); try done; [apply Hw'|apply typed_tasks].
  - cbn. intros x. rewrite lookup_insert_eq. intros [= <-]. rewrite typed_keys. by apply Hr.
  - by rewrite Hq'.
Qed.
Lemma cursor_ok k text : at_keyboard k -> input k text ->
  exists k', on_video update_cursor k = Ok (tt, k') /\ at_keyboard k' /\ input k' text /\ serial (vid k') = serial (vid k) /\ was_reset k' = was_reset k.
Proof.
  intros Hk Hin. pose proof Hk as [Hd Htask Hc Hcur Hr Hq]. destruct (at_console ids tc task c k Hk) as (con & Hcon & Hwf). pose proof Hd as (Hv & Hs & Hdom & Htc).
  assert (Hw : writes (vid k) c con) by (apply wf_writes; [done|congruence|done]). unfold on_video. rewrite (update_cursor_ok _ _ _ Hw). rewrite decide_True by done.
  eexists. split; [done|]. split; [|done]. split; try done. by apply display_cursor.
Qed.

(** [buf] has [line] at its start and room for [n] bytes. *)
Definition has_line (n : Z) (buf line : list Z) : Prop := n <= zlen buf /\ take (length line) buf = line.
Lemma has_line_put n buf line ch : has_line n buf line -> zlen line < n -> aset buf (zlen line) ch = Ok (<[length line := ch]> buf) /\ has_line n (<[length line := ch]> buf) (line ++ [ch]).
Proof.
  intros [Hn Ht] Hlt. unfold zlen in *. split.
  - unfold aset. rewrite (proj2 (Z.ltb_ge _ _)), (proj2 (Z.leb_gt _ _)) by lia. cbn [orb]. by rewrite Nat2Z.id.
  - split; [unfold zlen; by rewrite length_insert|]. rewrite length_app. cbn [length]. rewrite Nat.add_1_r.
    rewrite (take_S_r _ _ ch) by (apply list_lookup_insert_eq; lia). rewrite take_insert_ge by lia. by rewrite Ht.
Qed.
Lemma has_line_back n buf line ch : has_line n buf (line ++ [ch]) -> has_line n buf line.
Proof.
  intros [Hn Ht]. split; [done|]. assert (E : take (length line) (take (length (line ++ [ch])) buf) = take (length line) (line ++ [ch])) by (by rewrite Ht).
  rewrite take_take, length_app, take_app_length in E. replace (length line `min` (length line + length [ch]))%nat with (length line) in E by (cbn; lia). done.
Qed.
Lemma has_line_end n buf line : has_line n buf line -> zlen line < n -> exists buf', aset buf (zlen line) 0 = Ok buf' /\ zlen buf' = zlen buf /\ holds_line buf' line.
Proof.
  intros Hl Hlt. destruct (has_line_put n buf line 0 Hl Hlt) as [Ha Hl']. pose proof (has_line_back _ _ _ _ Hl') as [_ Ht]. destruct Hl as [Hn _]. eexists. split; [done|].
  unfold zlen in *. rewrite length_insert. split; [done|]. split; [done|]. intros _. apply list_lookup_insert_eq. lia.
Qed.

(** What the loop has to achieve. *)
Definition reads (m : KB (Z * list Z)) (k : kb) (buf out line' out' rest : list Z) : Prop :=
  exists k' buf', m k = Ok ((zlen line', buf'), k') /\ at_keyboard k' /\ input k' rest /\ zlen buf' = zlen buf /\ holds_line buf' line' /\
    (exists o, out' = out ++ o /\ serial (vid k') = serial (vid k) ++ o) /\ was_reset k' = was_reset k.
(** ... after an echo. *)
Lemma reads_after m k k1 (buf buf1 o1 out line' out' rest : list Z) : serial (vid k1) = serial (vid k) ++ o1 -> was_reset k1 = was_reset k -> zlen buf1 = zlen buf ->
  reads m k1 buf1 (out ++ o1) line' out' rest -> exists k' buf', m k1 = Ok ((zlen line', buf'), k') /\ at_keyboard k' /\ input k' rest /\ zlen buf' = zlen buf /\ holds_line buf' line' /\
    (exists o, out' = out ++ o /\ serial (vid k') = serial (vid k) ++ o) /\ was_reset k' = was_reset k.
Proof.
  intros Hs Hw Hb (k' & buf' & H1 & H2 & H3 & H4 & H5 & (o & H6 & H7) & H8). exists k', buf'. split; [done|]. split; [done|]. split; [done|]. split; [congruence|]. split; [done|].
  split; [|congruence]. exists (o1 ++ o). rewrite H7, Hs, !app_assoc. split; [by rewrite H6|done].
Qed.
(** The end of a line: the terminator. *)
Lemma reads_end n rest k buf out line : at_keyboard k -> input k rest -> has_line n buf line -> zlen line < n ->
  reads (buf ← lift (aset buf (zlen line) 0); mret (zlen line, buf)) k buf out line out rest.
Proof.
  intros Hk Hin Hl Hlt. destruct (has_line_end n buf line Hl Hlt) as (buf' & Ha & Hz & Hh). exists k, buf'. rewrite Ha. split; [done|]. split; [done|]. split; [done|]. split; [done|]. split; [done|].
  split; [|done]. exists []. by rewrite !app_nil_r.
Qed.

(** One key. *)
Lemma read_loop_key n fuel k buf (line : list Z) ch text : at_keyboard k -> input k (ch :: text) -> zlen line < n - 1 ->
  exists k1, at_keyboard k1 /\ input k1 text /\ serial (vid k1) = serial (vid k) /\ was_reset k1 = was_reset k /\ key_char ch /\
    read_loop (S fuel) task buf (zlen line) n k =
      (if ch =? 4 then if 0 <? zlen line then read_loop fuel task buf (zlen line) n k1 else (echo 94 ;; echo 68 ;; mret (0, buf)) k1
       else if (32 <=? ch) || (ch =? 10) then
         (echo ch ;; on_video update_cursor ;; buf ← lift (aset buf (zlen line) ch);
          if ch =? 10 then buf ← lift (aset buf (zlen line + 1) 0); mret (zlen line + 1, buf) else read_loop fuel task buf (zlen line + 1) n) k1
       else if ch =? 8 then
         if 0 <? zlen line then (echo ch ;; echo 32 ;; echo ch ;; on_video update_cursor ;; read_loop fuel task buf (zlen line - 1) n) k1 else read_loop fuel task buf (zlen line) n k1
       else (buf ← lift (aset buf (zlen line) ch);
             if ch =? 13 then buf ← lift (aset buf (zlen line + 1) 0); mret (zlen line + 1, buf) else read_loop fuel task buf (zlen line + 1) n) k1).
Proof.
  intros Hk Hin Hlt. destruct (getchar_ok ids tc task c k ch text Hk Hin) as (k1 & Hget & Hk1 & Hin1 & [Hs Hw] & Hch). exists k1. split; [done|]. split; [done|]. split; [done|]. split; [done|]. split; [done|].
  cbn [read_loop]. rewrite (proj2 (Z.ltb_lt _ _)) by done. erewrite st_bind_Ok by exact Hget. unfold key_char in Hch. cbv zeta. destruct (Z.eqb_spec ch 4) as [->|H4]; [by destruct (0 <? zlen line)|].
  assert (schar ch = ch) as -> by (unfold schar; rewrite Z.mod_small by lia; lia). assert (u8 ch = ch) as -> by (unfold u8; apply Z.mod_small; lia).
  destruct (_ || _); [done|]. destruct (ch =? 8); [by destruct (0 <? zlen line)|]. by rewrite (proj2 (Z.eqb_neq ch (-1))) by lia.
Qed.

(** Several echoes. *)
Fixpoint echoes (l : list Z) : KB () := match l with [] => mret tt | ch :: l => echo ch ;; echoes l end.
Lemma echoes_ok l : forall k text, at_keyboard k -> input k text -> Forall (fun ch => 0 <= ch < 256) l ->
  exists k', echoes l k = Ok (tt, k') /\ at_keyboard k' /\ input k' text /\ serial (vid k') = serial (vid k) ++ l /\ was_reset k' = was_reset k.
Proof.
  induction l as [|ch l IH]; intros k text Hk Hin Hl; [exists k; by rewrite app_nil_r|]. apply Forall_cons in Hl as [Hch Hl]. destruct (echo_ok k ch text Hk Hin) as (k1 & H1 & Hk1 & Hin1 & Hs1 & Hw1).
  destruct (IH k1 text Hk1 Hin1 Hl) as (k2 & H2 & Hk2 & Hin2 & Hs2 & Hw2). exists k2. cbn [echoes]. erewrite st_bind_Ok by exact H1. split; [done|]. split; [done|]. split; [done|].
  split; [|congruence]. rewrite Hs2, Hs1, <- app_assoc. unfold u8. by rewrite Z.mod_small by lia.
Qed.

Lemma echo_three {A} x y z (m : KB A) k k' : echoes [x; y; z] k = Ok (tt, k') -> (echo x ;; echo y ;; echo z ;; m) k = m k'.
Proof. cbn [echoes]. unfold mbind, st_bind. destruct (echo x k) as [[[] k1]| | |]; [|done..]. destruct (echo y k1) as [[[] k2]| | |]; [|done..]. destruct (echo z k2) as [[[] k3]| | |]; [|done..]. cbn. by intros [= ->]. Qed.
Lemma echo_two {A} x y (m : KB A) k k' : echoes [x; y] k = Ok (tt, k') -> (echo x ;; echo y ;; m) k = m k'.
Proof. cbn [echoes]. unfold mbind, st_bind. destruct (echo x k) as [[[] k1]| | |]; [|done..]. destruct (echo y k1) as [[[] k2]| | |]; [|done..]. cbn. by intros [= ->]. Qed.

Lemma stdin_loop_ok n text : 1 <= n -> forall fuel k buf line out line' out' rest, at_keyboard k -> input k text -> (length text <= fuel)%nat -> has_line n buf line -> zlen line <= n - 1 ->
  edit n line out text = Some (line', out', rest) -> reads (read_loop fuel task buf (zlen line) n) k buf out line' out' rest.
Proof.
  intros Hn. induction text as [|ch text IH]; intros fuel k buf line out line' out' rest Hk Hin Hfuel Hl Hle Hed.
  - cbn [edit] in Hed. destruct (Z.ltb_spec (zlen line) (n - 1)) as [Hlt|Hge]; [done|]. injection Hed as <- <- <-.
    assert (Hrd : reads (ensure (zlen line <? n) ;; buf ← lift (aset buf (zlen line) 0); mret (zlen line, buf)) k buf out line out []).
    { rewrite (proj2 (Z.ltb_lt _ _)) by lia. apply (reads_end n); (done || lia). }
    unfold reads in *. destruct fuel; cbn [read_loop]; rewrite (proj2 (Z.ltb_ge _ _)) by lia; exact Hrd.
  - cbn [edit] in Hed. destruct (Z.ltb_spec (zlen line) (n - 1)) as [Hlt|Hge].
    2:{ injection Hed as <- <- <-. assert (Hrd : reads (ensure (zlen line <? n) ;; buf ← lift (aset buf (zlen line) 0); mret (zlen line, buf)) k buf out line out (ch :: text)).
        { rewrite (proj2 (Z.ltb_lt _ _)) by lia. apply (reads_end n); (done || lia). }
        unfold reads in *. destruct fuel; cbn [read_loop]; rewrite (proj2 (Z.ltb_ge _ _)) by lia; exact Hrd. }
    destruct fuel as [|fuel]; [cbn in Hfuel; lia|]. cbn [length] in Hfuel. destruct (read_loop_key n fuel k buf line ch text Hk Hin Hlt) as (k1 & Hk1 & Hin1 & Hs1 & Hw1 & Hch & Hrun).
    unfold reads. rewrite Hrun. clear Hrun. unfold key_char in Hch. assert (Hs1' : serial (vid k1) = serial (vid k) ++ []) by (by rewrite app_nil_r).
    destruct (has_line_put n buf line ch Hl) as [Hput Hl1]; [lia|].
    assert (Hstep : forall k2 o1 buf1 line1, at_keyboard k2 -> input k2 text -> serial (vid k2) = serial (vid k) ++ o1 -> was_reset k2 = was_reset k -> zlen buf1 = zlen buf -> has_line n buf1 line1 ->
      zlen line1 <= n - 1 -> edit n line1 (out ++ o1) text = Some (line', out', rest) -> reads (read_loop fuel task buf1 (zlen line1) n) k2 buf1 (out ++ o1) line' out' rest).
    { intros. apply IH; (done || lia). }
    assert (Hbuf1 : zlen (<[length line := ch]> buf) = zlen buf) by (unfold zlen; by rewrite length_insert).
    destruct (Z.eqb_spec ch 10) as [->|H10].
    + injection Hed as <- <- <-. change (10 =? 4) with false. change ((32 <=? 10) || (10 =? 10)) with true. change (10 =? 10) with true. cbv iota.
      destruct (echo_ok k1 10 text Hk1 Hin1) as (k2 & He & Hk2 & Hin2 & Hs2 & Hw2). destruct (cursor_ok k2 text Hk2 Hin2) as (k3 & Hc3 & Hk3 & Hin3 & Hs3 & Hw3).
      erewrite st_bind_Ok by exact He. erewrite st_bind_Ok by exact Hc3. rewrite Hput. erewrite st_bind_Ok by done.
      apply (reads_after _ k k3 buf (<[length line := 10]> buf) [10] out); [by rewrite Hs3, Hs2, Hs1|congruence|done|]. rewrite <- zlen_snoc with (x := 10). apply (reads_end n); try done. rewrite zlen_snoc. lia.
    + rewrite orb_false_r. destruct (Z.eqb_spec ch 8) as [->|H8].
      { change (8 =? 4) with false. change (32 <=? 8) with false. cbv iota. destruct (decide (line = [])) as [->|Hne].
        - change (0 <? zlen []) with false. cbv iota. rewrite <- (app_nil_r out) in Hed. by apply (reads_after _ k k1 buf buf [] out), Hstep.
        - assert (Hed' : edit n (removelast line) (out ++ [8; 32; 8]) text = Some (line', out', rest)) by (by destruct line). clear Hed.
          destruct (exists_last Hne) as (l0 & x & ->). rewrite removelast_last in Hed'. rewrite zlen_snoc in *. rewrite (proj2 (Z.ltb_lt _ _)) by (unfold zlen; lia).
          destruct (echoes_ok [8; 32; 8] k1 text Hk1 Hin1) as (k2 & He & Hk2 & Hin2 & Hs2 & Hw2); [by repeat constructor|]. destruct (cursor_ok k2 text Hk2 Hin2) as (k3 & Hc3 & Hk3 & Hin3 & Hs3 & Hw3).
          rewrite (echo_three 8 32 8 _ k1 k2 He). erewrite st_bind_Ok by exact Hc3. replace (zlen l0 + 1 - 1) with (zlen l0) by lia.
          apply (reads_after _ k k3 buf buf [8; 32; 8] out); [by rewrite Hs3, Hs2, Hs1|congruence|done|]. apply Hstep; try done; [by rewrite Hs3, Hs2, Hs1|congruence|by eapply has_line_back|lia]. }
      destruct (Z.eqb_spec ch 4) as [->|H4].
      { destruct line as [|x line].
        - injection Hed as <- <- <-. change (0 <? zlen []) with false. cbv iota. destruct (echoes_ok [94; 68] k1 text Hk1 Hin1) as (k2 & He & Hk2 & Hin2 & Hs2 & Hw2); [by repeat constructor|].
          rewrite (echo_two 94 68 _ k1 k2 He). exists k2, buf. split; [done|]. split; [done|]. split; [done|]. split; [done|]. split; [done|]. split; [|congruence].
          exists [94; 68]. by rewrite Hs2, Hs1.
        - rewrite (proj2 (Z.ltb_lt 0 _)) by (unfold zlen; cbn; lia). rewrite <- (app_nil_r out) in Hed. by apply (reads_after _ k k1 buf buf [] out), Hstep. }
      destruct (Z.eqb_spec ch 13) as [->|H13].
      { injection Hed as <- <- <-. change (32 <=? 13) with false. cbv iota. rewrite Hput. erewrite st_bind_Ok by done.
        apply (reads_after _ k k1 buf (<[length line := 13]> buf) [] out); [done|done|done|]. rewrite app_nil_r. rewrite <- zlen_snoc with (x := 13). apply (reads_end n); try done. rewrite zlen_snoc. lia. }
      destruct (Z.leb_spec 32 ch) as [H32|H32].
      { destruct (echo_ok k1 ch text Hk1 Hin1) as (k2 & He & Hk2 & Hin2 & Hs2 & Hw2). destruct (cursor_ok k2 text Hk2 Hin2) as (k3 & Hc3 & Hk3 & Hin3 & Hs3 & Hw3).
        assert (Hs : serial (vid k3) = serial (vid k) ++ [ch]) by (rewrite Hs3, Hs2, Hs1; unfold u8; by rewrite Z.mod_small by lia).
        erewrite st_bind_Ok by exact He. erewrite st_bind_Ok by exact Hc3. rewrite Hput. erewrite st_bind_Ok by done. rewrite <- zlen_snoc with (x := ch).
        apply (reads_after _ k k3 buf (<[length line := ch]> buf) [ch] out); [done|congruence|done|]. apply Hstep; try done; [congruence|rewrite zlen_snoc; lia]. }
      rewrite Hput. erewrite st_bind_Ok by done. rewrite <- zlen_snoc with (x := ch). rewrite <- (app_nil_r out) in Hed.
      apply (reads_after _ k k1 buf (<[length line := ch]> buf) [] out); [done|done|done|]. apply Hstep; try done. rewrite zlen_snoc. lia.
Qed.
End reader.

(** ** Enough rounds *)
Lemma decode_length codes : forall mods m l, decode mods codes = Some (m, l) -> (length l <= length codes)%nat.
Proof.
  induction codes as [|code codes IH]; intros mods m l H; [injection H as <- <-; done|]. cbn [decode] in H. destruct (decode1 mods code) as [[m1 l1]|] eqn:E1; [|done]. cbn in H.
  destruct (decode m1 codes) as [[m2 l2]|] eqn:E2; [|done]. cbn in H. injection H as <- <-. rewrite length_app. apply IH in E2. cbn.
  destruct (decode1_chars _ _ _ _ E1) as [->|(x & -> & _)]; cbn; lia.
Qed.
Lemma arrives_length bs : forall mods t, arrives mods bs = Some t -> (length t <= length (concat bs))%nat.
Proof.
  induction bs as [|b bs IH]; intros mods t H; [injection H as <-; done|]. cbn [arrives] in H. destruct (decode mods b) as [[m l]|] eqn:E1; [|done]. cbn in H. destruct (_ <=? _); [|done].
  destruct (arrives m bs) as [t'|] eqn:E2; [|done]. cbn in H. injection H as <-. cbn. rewrite !length_app. apply IH in E2. apply decode_length in E1. lia.
Qed.
Lemma input_fuel ids tc task c k text : at_keyboard ids tc task c k -> input c k text -> (length text <= keys_left k)%nat.
Proof.
  intros Hk (t & Ht & ->). destruct (at_console ids tc task c k Hk) as (con & Hcon & _). pose proof (ak_ring _ _ _ _ _ Hk con Hcon) as Hr. pose proof (length_queue _ Hr) as Hl. destruct Hr as [_ _ Hc _].
  assert (Hqd : queued c k = queue (keybuffer con)) by (unfold queued; by rewrite Hcon). rewrite length_app, Hqd. apply arrives_length in Ht. unfold keys_left. unfold zlen in Hl. lia.
Qed.

(** ** Reading a line *)
(** The descriptor 0 of the running task is standard input. *)
Definition stdin_open (s : vfs kb) : Prop := exists p f, refers s 0 p /\ files s !! p = Some f /\ fino f = 0.

Lemma stdin_prefix s fd p f (buf : list Z) n : refers s fd p -> files s !! p = Some f -> fino f = 0 -> fd = 0 ->
  stdio_read fd buf n s = ('(n, buf) ← on_fs (read_loop (keys_left (fs s)) (current_task s) buf 0 n); mret (Val n, buf)) s.
Proof.
  intros Hr Hf Hi ->. unfold stdio_read. erewrite st_bind_Ok by (by apply refers_filp). destruct Hr as (_ & Hp & _). rewrite (proj2 (Z.eqb_neq p 0)) by done.
  rewrite (st_bind_Ok _ _ s f s) by (unfold get_file; erewrite st_bind_Ok by done; unfold lift; by rewrite Hf). rewrite Hi. cbn [Z.eqb negb]. erewrite st_bind_Ok by done. by erewrite st_bind_Ok by done.
Qed.

(** C17: a read from standard input by the task whose console is on display returns the line that is typed,
    edited as [edit] says, whatever part of it was already in the ring buffer and however the rest arrives
    while the task sleeps: printable characters and the newline echoed, backspace taking back
    the last character, control-D ending an empty line, the line ended by a newline or by the end of the
    buffer, and terminated in the buffer.  What was typed after it stays for the next read,
    and the display shows the console all along.  At least one byte is asked for and fits the buffer, and the
    keys arrive in batches of at most 256 characters between two looks at the ring buffer, which holds no more ([full_ring_panics]). *)
Theorem stdio_read_correct ids tc c s buf n text line out rest :
  stdin_open s -> at_keyboard ids tc (current_task s) c (fs s) -> input c (fs s) text -> 1 <= n <= zlen buf ->
  edit n [] [] text = Some (line, out, rest) ->
  exists s' buf', stdio_read 0 buf n s = Ok ((Val (zlen line), buf'), s') /\ zlen buf' = zlen buf /\ holds_line buf' line /\
    at_keyboard ids tc (current_task s) c (fs s') /\ input c (fs s') rest /\ serial (vid (fs s')) = serial (vid (fs s)) ++ out /\
    files s' = files s /\ fdtables s' = fdtables s /\ current_task s' = current_task s.
Proof.
  intros (p & f & Hr & Hf & Hi) Hk Hin Hn Hed. rewrite (stdin_prefix s 0 p f) by done.
  destruct (stdin_loop_ok ids tc (current_task s) c n text ltac:(lia) (keys_left (fs s)) (fs s) buf [] [] line out rest) as (k' & buf' & Hrun & Hk' & Hin' & Hz & Hh & (o & Ho & Hs) & _); try done.
  - by eapply input_fuel.
  - split; [lia|done].
  - unfold zlen; cbn; lia.
  - change (zlen []) with 0 in Hrun. cbn in Ho. subst o. exists (mk_vfs (files s) (fdtables s) (current_task s) (irq s) k'), buf'.
    rewrite (st_bind_Ok _ _ s (zlen line, buf') (mk_vfs (files s) (fdtables s) (current_task s) (irq s) k')) by (unfold on_fs; by rewrite Hrun). done.
Qed.

(** ** Typing *)
Fixpoint find_key (tb : list Z) (i c : Z) : option Z :=
  match tb with [] => None | x :: tb => if x =? c then Some i else find_key tb (i + 1) c end.
(** The scan codes of a character: the key pressed and released, with shift or alt held if need be. *)
Definition keystroke (c : Z) : option (list Z) :=
  if c =? 0 then None
  else match find_key kbdmix 0 c, find_key kbdse_shift 0 c, find_key kbdse_alt 0 c with
       | Some i, _, _ => Some [i; i + 128]
       | _, Some i, _ => Some [0x2a; i; i + 128; 0xaa]
       | _, _, Some i => Some [0x38; i; i + 128; 0xb8]
       | _, _, _ => None
       end.

Lemma find_key_in tb c : forall i j, find_key tb i c = Some j -> c ∈ tb.
Proof. induction tb as [|x tb IH]; intros i j H; [done|]. cbn in H. destruct (Z.eqb_spec x c) as [->|]; [left|right; by eapply IH]. Qed.
Lemma keystroke_range c codes : keystroke c = Some codes -> 1 <= c < 128.
Proof.
  unfold keystroke. intros H. destruct (Z.eqb_spec c 0) as [|Hne]; [done|].
  assert (Hin : exists m tb, key_table m = Some tb /\ c ∈ tb).
  { destruct (find_key kbdmix 0 c) eqn:E1; [exists MOD_NONE, kbdmix; split; [done|by eapply find_key_in]|]. destruct (find_key kbdse_shift 0 c) eqn:E2; [exists MOD_SHIFT, kbdse_shift; split; [done|by eapply find_key_in]|].
    destruct (find_key kbdse_alt 0 c) eqn:E3; [exists MOD_ALT, kbdse_alt; split; [done|by eapply find_key_in]|done]. }
  destruct Hin as (m & tb & Ht & [i Hi]%list_elem_of_lookup_1). apply (table_chars m tb i c Ht Hi Hne).
Qed.
(** Pressing the keys of a character gives that character, with the modifiers released again. *)
Lemma keystroke_decode c codes : keystroke c = Some codes -> decode MOD_NONE codes = Some (MOD_NONE, [c]).
Proof.
  intros H. pose proof (keystroke_range c codes H) as Hr.
  assert (Hall : forallb (fun c => match keystroke c with Some codes => bool_decide (decode MOD_NONE codes = Some (MOD_NONE, [c])) | None => true end) (seqZ 1 127) = true) by (vm_compute; reflexivity).
  rewrite forallb_forall in Hall. specialize (Hall c). rewrite H in Hall. eapply bool_decide_eq_true_1, Hall, list_elem_of_In, elem_of_seqZ. lia.
Qed.
(** Every character from space on can be typed but two, the circumflex and the tilde. *)
Lemma typable c : 32 <= c < 127 -> c <> 94 -> c <> 126 -> is_Some (keystroke c).
Proof.
  intros Hc H1 H2. assert (Hall : forallb (fun c => (c =? 94) || (c =? 126) || bool_decide (is_Some (keystroke c))) (seqZ 32 95) = true) by (vm_compute; reflexivity).
  rewrite forallb_forall in Hall. assert (Hin : List.In c (seqZ 32 95)) by (apply list_elem_of_In, elem_of_seqZ; lia). specialize (Hall c Hin). rewrite !orb_true_iff, bool_decide_eq_true in Hall. lia || (destruct Hall as [[?|?]|?]; [lia|lia|done]).
Qed.
Lemma decode_app l1 : forall mods m1 t1 l2 r, decode mods l1 = Some (m1, t1) -> decode m1 l2 = r -> decode mods (l1 ++ l2) = '(m, t) ← r; Some (m, t1 ++ t).
Proof.
  induction l1 as [|code l1 IH]; intros mods m1 t1 l2 r H1 H2.
  - injection H1 as <- <-. cbn [app]. rewrite H2. by destruct r as [[? ?]|].
  - cbn [decode app] in *. destruct (decode1 mods code) as [[m l]|]; [|done]. cbn in *. destruct (decode m l1) as [[m' l']|] eqn:E; [|done]. cbn in H1. injection H1 as <- <-.
    rewrite (IH m m' l' l2 r E H2). destruct r as [[? ?]|]; [|done]. cbn. by rewrite app_assoc.
Qed.
Lemma keystrokes_decode text : forall codes, mapM keystroke text = Some codes -> decode MOD_NONE (concat codes) = Some (MOD_NONE, text).
Proof.
  induction text as [|c text IH]; intros codes H; cbn in H; [by injection H as <-|]. destruct (keystroke c) as [k|] eqn:Ek; [|done]. cbn in H. destruct (mapM keystroke text) as [ks|] eqn:Em; [|done]. cbn in H. injection H as <-.
  cbn [concat]. rewrite (decode_app k MOD_NONE MOD_NONE [c] _ _ (keystroke_decode c k Ek) (IH ks eq_refl)). done.
Qed.

(** typing a text -- for each character its key pressed and released, with shift or alt pressed
    before and released after if the key map needs it -- appends exactly that text to the ring
    buffer of the console on display, if there is room, leaves no modifier held and changes nothing else. *)
Theorem typing_correct ids tc task c k text codes :
  at_keyboard ids tc task c k -> mod_keys k = MOD_NONE -> mapM keystroke text = Some codes -> zlen (queued c k) + zlen text <= KEYBUFFER_SIZE ->
  exists k', irqs task (concat codes) k = Ok (tt, k') /\ queued c k' = queued c k ++ text /\ mod_keys k' = MOD_NONE /\ at_keyboard ids tc task c k' /\ pending k' = pending k /\ keyboard_frame k k'.
Proof.
  intros Hk Hm Ht Hfit. apply keystrokes_decode in Ht. rewrite <- Hm in Ht at 1. destruct (irqs_ok ids tc task c (concat codes) k MOD_NONE text Hk Ht Hfit) as (k' & H1 & H2 & H3 & H4 & H5 & H6).
  by exists k'.
Qed.

(** ** Writing *)
Lemma write_loop_eq buf n : forall i v, 0 <= i -> i + Z.of_nat n <= zlen buf ->
  write_loop n buf i v = (putchars (schar <$> until_nul (take n (drop (Z.to_nat i) buf))) ;; mret (i + zlen (until_nul (take n (drop (Z.to_nat i) buf))))) v.
Proof.
  induction n as [|n IH]; intros i v Hi Hn; [cbn; by rewrite Z.add_0_r|]. unfold zlen in Hn. destruct (lookup_lt_is_Some_2 buf (Z.to_nat i)) as [x Hx]; [lia|]. rewrite (drop_S _ x) by done.
  cbn [write_loop take until_nul]. rewrite (st_bind_Ok _ _ v x v) by (unfold lift, aget; rewrite (proj2 (Z.ltb_ge _ _)) by lia; by rewrite Hx). destruct (x =? 0); [cbn; by rewrite Z.add_0_r|].
  cbn [fmap list_fmap putchars]. unfold mbind, st_bind at 1 2 3. destruct (putchar (schar x) v) as [[ch v1]| | |]; [|done..]. rewrite IH by (unfold zlen; lia).
  replace (Z.to_nat (i + 1)) with (S (Z.to_nat i)) by lia. unfold mbind, st_bind. destruct (putchars _ v1) as [[u v2]| | |]; [|done..].
  unfold mret, st_ret. do 2 f_equal. unfold zlen. cbn [length]. lia.
Qed.

(** a write to standard output or standard error prints the buffer, up to its first NUL byte, on the
    console of the writing task, as the terminal does, and returns the number of bytes printed. *)
Theorem stdio_write_correct s fd p f buf n c con :
  refers s fd p -> files s !! p = Some f -> fino f <> 0 -> 0 <= n <= zlen buf ->
  let v := vid (fs s) in let l := until_nul (take (Z.to_nat n) buf) in
  video_wf v -> shows v -> task_console v (console_task v) = Some c -> consoles v !! c = Some con -> no_wrap con n ->
  exists s' con', stdio_write fd buf n s = Ok (Val (zlen l), s') /\ consoles (vid (fs s')) !! c = Some con' /\
    like con' (t_chars (text_color con) (back_color con) (schar <$> l) (term_of con)) /\ shows (vid (fs s')) /\
    serial (vid (fs s')) = serial v ++ (u8 <$> (schar <$> l)).
Proof.
  intros Hr Hf Hi Hn v l Hv Hs Ht Hc Hw. unfold stdio_write. erewrite st_bind_Ok by (by apply refers_filp). destruct Hr as (_ & Hp & _). rewrite (proj2 (Z.eqb_neq p 0)) by done.
  rewrite (st_bind_Ok _ _ s f s) by (unfold get_file; erewrite st_bind_Ok by done; unfold lift; by rewrite Hf). rewrite (proj2 (Z.eqb_neq _ _)) by done.
  assert (Hlen : zlen l <= n).
  { assert (Hu : forall q, (length (until_nul q) <= length q)%nat) by (induction q as [|x q IHq]; cbn; [lia|]; case_match; cbn; lia). pose proof (Hu (take (Z.to_nat n) buf)) as Hu1.
    rewrite length_take in Hu1. unfold zlen, l. lia. }
  destruct (putchars_ok (schar <$> l) v c con (term_of con)) as (v1 & con1 & Hrun & Hw1 & Hs1 & Hl1 & _ & _ & Hser & _); [by apply wf_writes|done| |done|].
  { destruct Hw. split; [done|]. unfold zlen in *. rewrite length_fmap. lia. }
  set (s1 := mk_vfs (files s) (fdtables s) (current_task s) (irq s) (set_vid v1 (fs s))). rewrite (st_bind_Ok _ _ s (zlen l) s1).
  2:{ unfold on_fs, on_video. fold v. rewrite (write_loop_eq buf (Z.to_nat n) 0 v) by lia. change (drop (Z.to_nat 0) buf) with buf. fold l. erewrite st_bind_Ok by exact Hrun. done. }
  set (v2 := if decide (c = current_console v1) then set_hw_cursor (cursor_loc con1) v1 else v1).
  exists (mk_vfs (files s) (fdtables s) (current_task s) (irq s) (set_vid v2 (set_vid v1 (fs s)))), con1.
  erewrite st_bind_Ok by (unfold on_fs, on_video; cbn [vid set_vid fs s1]; rewrite (update_cursor_ok _ _ _ Hw1); done). split; [done|].
  cbn [fs vid set_vid]. assert (Hv2 : consoles v2 = consoles v1 /\ (shows v1 -> shows v2) /\ serial v2 = serial v1) by (unfold v2; by case_decide). destruct Hv2 as (E1 & E2 & E3).
  rewrite E1, E3. split; [apply Hw1|]. split; [done|]. split; [by apply E2|done].
Qed.

(** ** Errors *)
(** reading from a descriptor that is not open gives [-EBADF]; standard output and standard error, and any
    descriptor but 0, read as an empty file. *)
Theorem stdio_read_errors s fd buf n :
  (get_filp fd s = Ok (0, s) -> stdio_read fd buf n s = Ok ((Err EBADF, buf), s)) /\
  (forall p f, refers s fd p -> files s !! p = Some f -> 0 <= fino f <= 2 -> fino f <> 0 \/ fd <> 0 -> stdio_read fd buf n s = Ok ((Val 0, buf), s)).
Proof.
  split; [intros H; unfold stdio_read; by erewrite st_bind_Ok by exact H|]. intros p f Hr Hf Hi Hor. unfold stdio_read. erewrite st_bind_Ok by (by apply refers_filp). destruct Hr as (_ & Hp & _).
  rewrite (proj2 (Z.eqb_neq p 0)) by done. rewrite (st_bind_Ok _ _ s f s) by (unfold get_file; erewrite st_bind_Ok by done; unfold lift; by rewrite Hf).
  destruct (Z.eqb_spec (fino f) 0) as [E|E]; cbn [negb].
  - rewrite (proj2 (Z.eqb_neq fd 0)) by lia. done.
  - rewrite (proj2 (Z.leb_le _ _)) by lia. done.
Qed.
(** A read of no bytes from standard input panics the kernel. *)
Theorem stdio_read_nothing_panics s buf : stdin_open s -> stdio_read 0 buf 0 s = Panic.
Proof. intros (p & f & Hr & Hf & Hi). rewrite (stdin_prefix s 0 p f) by done. unfold mbind, st_bind, on_fs. by destruct (keys_left (fs s)). Qed.
(** So does a key when nobody has read the last 256. *)
Theorem full_ring_panics ids tc task c k : at_keyboard ids tc task c k -> mod_keys k = MOD_NONE -> zlen (queued c k) = KEYBUFFER_SIZE -> irq1 task 0x1e k = Panic.
Proof.
  intros Hk Hm Hq. destruct (at_console ids tc task c k Hk) as (con & Hcon & _). assert (Hqd : queued c k = queue (keybuffer con)) by (unfold queued; by rewrite Hcon).
  rewrite Hqd, length_queue in Hq by (by apply Hk). unfold irq1. set (k0 := set_vid (set_console_task kernel_task (vid k)) k). rewrite (st_bind_Ok _ _ k tt k0) by done.
  assert (Hcb : keyboard_callback 0x1e k0 = Panic); [|unfold mbind, st_bind; by rewrite Hcb]. rewrite (callback_text k0 0x1e MOD_NONE [97]) by (cbn [mod_keys k0 set_vid]; by rewrite Hm).
  unfold text_key. erewrite st_bind_Ok by done. unfold add_key. change (97 =? 0) with false. cbv iota. unfold on_video. cbn [vid set_mods k0 set_vid]. erewrite st_bind_Ok by done. cbn [current_console set_console_task].
  rewrite (ak_current _ _ _ _ _ Hk). erewrite st_bind_Ok by (apply get_con_ok; exact Hcon). by rewrite ring_put_full by done.
Qed.

(** ** A concrete keyboard *)
Lemma empty_ring_ok : ring_ok empty_ring.
Proof. split; [unfold zlen; cbn [data empty_ring]; by rewrite length_replicate|done..]. Qed.
(** Task 1 at console 0; the text typed while it waits is one character in each sleep. *)
Definition sample_kb (p : list (list Z)) : kb := mk_kb two_consoles MOD_NONE p false.
Lemma sample_at p : at_keyboard {[0; 5]} (task_console two_consoles) 1 0 (sample_kb p).
Proof.
  split; try done; [apply two_consoles_display|]. intros con. cbn. rewrite lookup_insert_eq. intros [= <-]. apply empty_ring_ok.
Qed.
Definition stdin_file : open_file := mk_open_file 1 0 0 0 0 0 0 0 None (mk_fops 1 1 1 0 1 0) 0.
Definition stdout_file : open_file := mk_open_file 1 0 1 0 0 0 0 0 None (mk_fops 1 1 1 0 1 0) 0.
Definition sample_vfs (p : list (list Z)) : vfs kb := mk_vfs {[100 := stdin_file; 200 := stdout_file]} {[1 := 100 :: 200 :: replicate 200 0]} 1 true (sample_kb p).
Lemma stdio_refers p i q : (100 :: 200 :: replicate 200 0) !! i = Some q -> q <> 0 -> (i < 128)%nat -> refers (sample_vfs p) (Z.of_nat i) q.
Proof. intros Hi Hq Hlt. split; [unfold MAX_OPEN_FILES; lia|]. split; [done|]. eexists. split; [cbn; apply lookup_singleton_eq|]. by rewrite Nat2Z.id. Qed.

(** "lz", a backspace, "s" and a newline *)
Definition sample_keys : list (list Z) := [[0x26; 0xa6]; [0x2c; 0xac]; [0x0e; 0x8e]; []; [0x1f; 0x9f; 0x1c; 0x9c]].
Lemma stdio_read_witness : exists s' buf', stdio_read 0 (replicate 80 7) 80 (sample_vfs sample_keys) = Ok ((Val 3, buf'), s') /\ zlen buf' = 80 /\ holds_line buf' [108; 115; 10] /\
  at_keyboard {[0; 5]} (task_console two_consoles) 1 0 (fs s') /\ input 0 (fs s') [] /\ serial (vid (fs s')) = [108; 122; 8; 32; 8; 115; 10] /\
  files s' = files (sample_vfs sample_keys) /\ fdtables s' = fdtables (sample_vfs sample_keys) /\ current_task s' = 1.
Proof.
  apply (stdio_read_correct {[0; 5]} (task_console two_consoles) 0 (sample_vfs sample_keys) (replicate 80 7) 80 [108; 122; 8; 115; 10] [108; 115; 10] [108; 122; 8; 32; 8; 115; 10] []).
  - exists 100, stdin_file. split; [apply (stdio_refers _ 0 100); [done|done|lia]|done].
  - apply sample_at.
  - exists [108; 122; 8; 115; 10]. split; [vm_compute; reflexivity|]. unfold queued. cbn. rewrite lookup_insert_eq. done.
  - unfold zlen. rewrite length_replicate. lia.
  - vm_compute. reflexivity.
Defined.
Lemma typing_witness : exists k', irqs 1 [0x2a; 0x23; 0xa3; 0xaa; 0x17; 0x97; 0x38; 3; 131; 0xb8] (sample_kb []) = Ok (tt, k') /\ queued 0 k' = [72; 105; 64] /\ mod_keys k' = MOD_NONE /\
  at_keyboard {[0; 5]} (task_console two_consoles) 1 0 k' /\ pending k' = [] /\ keyboard_frame (sample_kb []) k'.
Proof.
  apply (typing_correct {[0; 5]} (task_console two_consoles) 1 0 (sample_kb []) [72; 105; 64] [[0x2a; 0x23; 0xa3; 0xaa]; [0x17; 0x97]; [0x38; 3; 131; 0xb8]]).
  - apply sample_at.
  - done.
  - vm_compute. reflexivity.
  - unfold queued. cbn. rewrite lookup_insert_eq. done.
Defined.
Lemma stdio_write_witness : exists s' con', stdio_write 1 [72; 105; 0; 33] 4 (sample_vfs []) = Ok (Val 2, s') /\ consoles (vid (fs s')) !! 0 = Some con' /\
  like con' (t_chars 7 0 [72; 105] (term_of (blank_console [1] 23))) /\ shows (vid (fs s')) /\ serial (vid (fs s')) = [72; 105].
Proof.
  apply (stdio_write_correct (sample_vfs []) 1 200 stdout_file [72; 105; 0; 33] 4 0 (blank_console [1] 23)); try done.
  - apply (stdio_refers _ 1 200); [done|done|lia].
  - apply two_consoles_display.
  - apply two_consoles_display.
Defined.
Lemma stdio_read_errors_witness : stdio_read 7 [1] 1 (sample_vfs []) = Ok ((Err EBADF, [1]), sample_vfs []) /\ stdio_read 1 [1] 1 (sample_vfs []) = Ok ((Val 0, [1]), sample_vfs []).
Proof.
  split; [apply (proj1 (stdio_read_errors (sample_vfs []) 7 [1] 1)); reflexivity|]. apply (proj2 (stdio_read_errors (sample_vfs []) 1 [1] 1) 200 stdout_file); [apply (stdio_refers _ 1 200); [done|done|lia]|done..|by left].
Defined.
