(* ===== verification/Eshell.v ===== *)
(** * The shell (src/src/userspace/eshell/main.c, string.c)

    How a line is turned into a command: variables are replaced ([replace_variables]), the line is split into
    arguments ([parse_command_line]), redirections are taken out, built-in commands are carried out, and for
    another program the child expands its patterns, redirects its streams and executes it.

    The shell is linked with the C library, whose string functions are those of CString.v, but for [strstr],
    which here is the one of the C standard.  [malloc] gives a block of exactly the size asked for, with
    arbitrary contents.  The environment is a map; [chdir], [glob] and [freopen] are arguments. *)
From S2P Require Import Prelude CString Format.
From stdpp Require Import strings.
#[local] Open Scope Z_scope.

Definition SPACE : Z := 32.
Definition TAB : Z := 9.
Definition NEWLINE : Z := 10.
Definition QUOTE : Z := 34.
Definition HASH : Z := 35.
Definition DOLLAR : Z := 36.
Definition STAR : Z := 42.
Definition EQUALS : Z := 61.
Definition BACKSLASH : Z := 92.
Definition UNDERSCORE : Z := 95.

(** A block of [n] bytes of the C library's heap; [junk] is what it holds. *)
Definition malloc (junk n : Z) : list Z := replicate (Z.to_nat n) junk.

(** ** Replacing text in a buffer (string.c) *)

(** [strstr] of the C standard: the first place where [old] occurs. *)
Fixpoint find_sub (s old : list Z) (k : Z) : option Z :=
  if bool_decide (old `prefix_of` s) then Some k
  else match s with [] => None | _ :: s => find_sub s old (k + 1) end.
Definition std_strstr (haystack needle : list Z) : res (option Z) :=
  s ← read_str haystack;
  t ← read_str needle;
  Ok (find_sub s t 0).

Definition str_replace (junk : Z) (buf old new : list Z) (size : Z) : res (list Z) :=
  start ← std_strstr buf old;
  match start with
  | None => Ok buf
  | Some start =>
      buf_len ← strlen buf;
      old_len ← strlen old;
      new_len ← strlen new;
      if size - 1 <? buf_len + (new_len - old_len) then Ok buf
      else
        let end_ := start + old_len in
        '(ending, _) ← strlcpy (malloc junk (buf_len - end_ + 1)) (padd buf end_) (buf_len - end_ + 1);
        buf ← store_at buf start (fun d => fst <$> strlcpy d new (size - start));
        store_at buf (start + new_len) (fun d => fst <$> strlcat d ending (size - new_len))
  end.

(** ** Variables *)
Definition isalnum (c : Z) : bool :=
  isdigit c || ((65 <=? c) && (c <=? 90)) || ((97 <=? c) && (c <=? 122)).

(** The loop that fills [varname]: at most [n] characters from [c]; [prev] is [*(c - 1)], nothing at [c == p]. *)
Fixpoint read_varname (n : nat) (s : list Z) (prev : option Z) : res (list Z) :=
  match n with
  | O => Ok []
  | S n =>
      ch ← load s;
      if isalnum ch || (ch =? UNDERSCORE)
         || ((ch =? DOLLAR) && match prev with None => true | Some x => x =? DOLLAR end)
      then rest ← read_varname n (tail s) (Some ch); Ok (ch :: rest)
      else Ok []
  end.

(** [while ( *p != ' ' && *p != 0) p++] *)
Fixpoint skip_word (s : list Z) (p : Z) : res Z :=
  match s with
  | [] => Undef
  | c :: s => if negb (c =? SPACE) && negb (c =? 0) then skip_word s (p + 1) else Ok p
  end.

(** [size] is the size of [buf], [pid] the digits of the process id. *)
Fixpoint replace_loop (junk : Z) (pid : list Z) (env : gmap (list Z) (list Z)) (size : Z)
    (fuel : nat) (buf : list Z) (p : Z) : res (list Z) :=
  match fuel with
  | O => NoFuel
  | S fuel =>
      o ← strchr (padd buf p) DOLLAR;
      match o with
      | None => Ok buf
      | Some k =>
          let p := p + k in
          prev ← (if 0 <? p then aget buf (p - 1) else Ok 0);
          if (0 <? p) && (prev =? BACKSLASH) then
            buf ← blit buf (p - 1) buf p (size - p);
            p ← skip_word (padd buf p) p;
            replace_loop junk pid env size fuel buf p
          else
            varname ← read_varname 254 (padd buf p) None;
            if zlen varname =? 1 then replace_loop junk pid env size fuel buf (p + 1)
            else
              d ← std_strstr (varname ++ [0]) (lit "$$");
              buf ← (match d with
                     | Some _ => store_at buf p (fun b => str_replace junk b (lit "$$") (pid ++ [0]) (size - p))
                     | None =>
                         let val := default [] (env !! tail varname) in
                         store_at buf p (fun b => str_replace junk b (varname ++ [0]) (val ++ [0]) (size - p))
                     end);
              replace_loop junk pid env size fuel buf (p + 1)
      end
  end.
(** Every round advances [p], but for one after an escaped character. *)
Definition replace_variables (junk : Z) (pid : list Z) (env : gmap (list Z) (list Z)) (buf : list Z) (size : Z)
  : res (list Z) :=
  replace_loop junk pid env size (2 * length buf + 2) buf 0.

(** ** Arguments *)

(** [while (cmdline[i] == ' ' && i < len) i++] *)
Fixpoint skip_run (fuel : nat) (cmdline : list Z) (len i : Z) : res Z :=
  match fuel with
  | O => NoFuel
  | S fuel =>
      c ← aget cmdline i;
      if (c =? SPACE) && (i <? len) then skip_run fuel cmdline len (i + 1) else Ok i
  end.
(** The loop that counts [max_args] and [max_env]. *)
Fixpoint count_args (fuel : nat) (cmdline : list Z) (len i max_args max_env : Z) : res (Z * Z) :=
  match fuel with
  | O => NoFuel
  | S fuel =>
      if i <? len then
        c ← aget cmdline i;
        if c =? SPACE then
          i ← skip_run fuel cmdline len i;
          count_args fuel cmdline len (i + 1) (max_args + 1) max_env
        else if c =? EQUALS then count_args fuel cmdline len (i + 1) max_args (max_env + 1)
        else count_args fuel cmdline len (i + 1) max_args max_env
      else Ok (max_args, max_env)
  end.

(** [while ( *p == '\n' || *p == ' ') *p-- = 0] *)
Fixpoint trim_end (fuel : nat) (cmdline : list Z) (p : Z) : res (list Z) :=
  match fuel with
  | O => NoFuel
  | S fuel =>
      c ← aget cmdline p;
      if (c =? NEWLINE) || (c =? SPACE) then
        cmdline ← aset cmdline p 0;
        trim_end fuel cmdline (p - 1)
      else Ok cmdline
  end.

(** [while ( *c == ' ' || *c == '\t') c++] *)
Fixpoint skip_blank (fuel : nat) (cmdline : list Z) (c : Z) : res Z :=
  match fuel with
  | O => NoFuel
  | S fuel =>
      ch ← aget cmdline c;
      if (ch =? SPACE) || (ch =? TAB) then skip_blank fuel cmdline (c + 1) else Ok c
  end.

(** The loop that copies text to [arg]; a [char] is signed. *)
Definition is_text (quote : bool) (ch : Z) : bool :=
  ((SPACE <? schar ch) && negb (ch =? QUOTE) && negb (ch =? 0)) || ((ch =? SPACE) && quote).
Fixpoint copy_text (fuel : nat) (cmdline : list Z) (quote : bool) (c : Z) (arg : list Z) (ai : Z) (handled : bool)
  : res (Z * list Z * Z * bool) :=
  match fuel with
  | O => NoFuel
  | S fuel =>
      ch ← aget cmdline c;
      if is_text quote ch then
        arg ← aset arg ai ch;
        copy_text fuel cmdline quote (c + 1) arg (ai + 1) true
      else Ok (c, arg, ai, handled)
  end.

(** The variables of the main loop; [env] is NULL without an equals sign in the line. *)
Record parser := mk_parser {
  ps_c : Z; ps_quote : bool; ps_arg : list Z; ps_ai : Z;
  ps_argv : list (option (list Z)); ps_argc : Z;
  ps_env : option (list (option (list Z))); ps_env_i : Z; ps_env_done : bool }.

(** The end of an argument: it is a variable for the child or the next element of [argv].
    The boolean says whether it was a variable. *)
Definition save_arg (junk max_args max_env : Z) (st : parser) : res (parser * bool) :=
  arg ← aset (ps_arg st) (ps_ai st) 0;
  let ai := ps_ai st + 1 in
  p ← (if ps_env_done st then Ok None else strchr arg EQUALS);
  match p with
  | Some _ =>
      assert (ps_env_i st <? max_env);;
      n ← strlen (tail arg);
      env ← deref (ps_env st);
      v ← strcpy (malloc junk n) arg;
      env ← aset env (ps_env_i st) (Some v);
      Ok (mk_parser (ps_c st) (ps_quote st) arg 0 (ps_argv st) (ps_argc st) (Some env) (ps_env_i st + 1)
            (ps_env_done st), true)
  | None =>
      argv ← aset (ps_argv st) (ps_argc st) (Some (malloc junk ai));
      assert (ps_argc st <? max_args);;
      '(a, _) ← strlcpy (malloc junk ai) arg ai;
      argv ← aset argv (ps_argc st) (Some a);
      Ok (mk_parser (ps_c st) (ps_quote st) arg 0 argv (ps_argc st + 1) (ps_env st) (ps_env_i st) true, false)
  end.

Definition set_c (c : Z) (st : parser) : parser :=
  mk_parser c (ps_quote st) (ps_arg st) (ps_ai st) (ps_argv st) (ps_argc st) (ps_env st) (ps_env_i st) (ps_env_done st).
Definition set_quote (q : bool) (st : parser) : parser :=
  mk_parser (ps_c st) q (ps_arg st) (ps_ai st) (ps_argv st) (ps_argc st) (ps_env st) (ps_env_i st) (ps_env_done st).
Definition set_arg (arg : list Z) (ai : Z) (st : parser) : parser :=
  mk_parser (ps_c st) (ps_quote st) arg ai (ps_argv st) (ps_argc st) (ps_env st) (ps_env_i st) (ps_env_done st).

(** [while ( *c == ' ' || *c == '\t') c++] on the variables of the loop. *)
Definition skip_blanks (cmdline : list Z) (st : parser) : res parser :=
  c ← skip_blank (S (length cmdline)) cmdline (ps_c st);
  Ok (set_c c st).

(** What follows the quotation mark in the body of the loop. *)
Definition parse_end (junk : Z) (cmdline : list Z) (max_args max_env : Z) (handled : bool) (st : parser) : res parser :=
  ch ← aget cmdline (ps_c st);
  if ((ch =? SPACE) && negb (ps_quote st)) || (ch =? 0) then
    '(st, _) ← save_arg junk max_args max_env st;
    skip_blanks cmdline st
  else if negb handled then skip_blanks cmdline (set_c (ps_c st + 1) st)
  else skip_blanks cmdline st.

(** The body of the loop, after the test for a comment. *)
Definition parse_step (junk : Z) (cmdline : list Z) (max_args max_env : Z) (st : parser) : res parser :=
  '(c, arg, ai, handled) ← copy_text (S (length cmdline)) cmdline (ps_quote st) (ps_c st) (ps_arg st) (ps_ai st) false;
  let st := set_c c (set_arg arg ai st) in
  ch ← aget cmdline c;
  if ch =? QUOTE then
    let st := set_c (c + 1) (set_quote (negb (ps_quote st)) st) in
    ch ← aget cmdline (c + 1);
    if negb (ch =? 0) then Ok st
    else parse_end junk cmdline max_args max_env true st
  else parse_end junk cmdline max_args max_env handled st.

(** [while (c < cmdline + len)] *)
Fixpoint parse_loop (junk : Z) (cmdline : list Z) (len max_args max_env : Z) (fuel : nat) (st : parser) : res parser :=
  match fuel with
  | O => NoFuel
  | S fuel =>
      if ps_c st <? len then
        ch ← aget cmdline (ps_c st);
        if (ch =? HASH) && negb (ps_quote st) then Ok st
        else
          st ← parse_step junk cmdline max_args max_env st;
          parse_loop junk cmdline len max_args max_env fuel st
      else Ok st
  end.

(** [argv] with [argc] and [env_extras]; nothing is NULL, with which [argc] and [env_extras] stay as they were. *)
Definition parse_command_line (junk : Z) (cmdline : list Z)
  : res (option (list (option (list Z)) * Z * option (list (option (list Z))))) :=
  len ← strlen cmdline;
  '(max_args, max_env) ← count_args (S (length cmdline)) cmdline len 0 1 0;
  let argv := replicate (Z.to_nat (max_args + 1)) None in
  let env := if 0 <? max_env then Some (replicate (Z.to_nat (max_env + 1)) None) else None in
  cmdline ← trim_end (S (length cmdline)) cmdline (len - 1);
  len ← strlen cmdline;
  c ← skip_blank (S (length cmdline)) cmdline 0;
  ch ← aget cmdline c;
  if ch =? 0 then Ok None
  else
    st ← parse_loop junk cmdline len max_args max_env (S (length cmdline))
           (mk_parser c false (replicate 2048 0) 0 argv 0 env 0 false);
    env ← (match ps_env st with
           | Some e => e ← aset e (ps_env_i st) None; Ok (Some e)
           | None => Ok None
           end);
    Ok (Some (ps_argv st, ps_argc st, env)).

(** ** Redirections *)

(** [redir_stderr]: the hack of the code, [(char * )1], is [ToStdout]. *)
Inductive err_target := NoErr | ToStdout | ErrFile (path : list Z).
Record redirs := mk_redirs {
  redir_stdin : option (list Z); redir_stdout : option (list Z); redir_stderr : err_target;
  redir_append_stdout : bool; redir_append_stderr : bool }.
#[export] Instance err_target_eq_dec : EqDecision err_target.
Proof. solve_decision. Defined.
#[export] Instance redirs_eq_dec : EqDecision redirs.
Proof. solve_decision. Defined.
Definition no_redirs : redirs := mk_redirs None None NoErr false false.

(** [strcmp(s, t) == 0] with a literal. *)
Definition streq (s : list Z) (t : string) : res bool := c ← strcmp s (lit t); Ok (c =? 0).

Definition is_redir (a : list Z) : res bool :=
  b1 ← streq a ">"; b2 ← streq a ">>"; b3 ← streq a "<"; b4 ← streq a "2>"; b5 ← streq a "2>>";
  Ok (b1 || b2 || b3 || b4 || b5).

(** [strdup] of the C library. *)
Definition std_strdup (s : list Z) : res (list Z) := t ← read_str s; Ok (t ++ [0]).

(** The operator [op] with the argument [target] after it. *)
Definition set_redir (op target : list Z) (r : redirs) : res redirs :=
  c0 ← aget op 0;
  if c0 =? 62 (* '>' *) then
    t ← std_strdup target;
    c1 ← aget op 1;
    Ok (mk_redirs (redir_stdin r) (Some t) (redir_stderr r) (c1 =? 62) (redir_append_stderr r))
  else if c0 =? 60 (* '<' *) then
    t ← std_strdup target;
    Ok (mk_redirs (Some t) (redir_stdout r) (redir_stderr r) (redir_append_stdout r) (redir_append_stderr r))
  else if c0 =? 50 (* '2' *) then
    b ← streq target "&1";
    t ← (if b : bool then Ok ToStdout else ErrFile <$> std_strdup target);
    c2 ← aget op 2;
    Ok (mk_redirs (redir_stdin r) (redir_stdout r) t (redir_append_stdout r) (c2 =? 62))
  else Ok r.

(** [for (; i <= argc - 2; i++) argv[i] = argv[i + 2]], which runs [n] times. *)
Fixpoint shift_args (n : nat) (argv : list (option (list Z))) (i : Z) : res (list (option (list Z))) :=
  match n with
  | O => Ok argv
  | S n =>
      a ← aget argv (i + 2);
      argv ← aset argv i a;
      shift_args n argv (i + 1)
  end.

(** The loop over the arguments; [None] is the return with an error. *)
Fixpoint redir_loop (fuel : nat) (argv : list (option (list Z))) (argc i : Z) (r : redirs)
  : res (option (list (option (list Z)) * Z * redirs)) :=
  match fuel with
  | O => NoFuel
  | S fuel =>
      if i <? argc then
        a ← aget argv i;
        a ← (match a with Some a => Ok a | None => Panic end);
        b ← is_redir a;
        if b : bool then
          if i =? 0 then Ok None
          else if argc <=? i + 1 then Ok None
          else
            t ← aget argv (i + 1);
            t ← deref t;
            r ← set_redir a t r;
            argv ← shift_args (Z.to_nat (argc - 1 - i)) argv i;
            redir_loop fuel argv (argc - 2) 0 r
        else redir_loop fuel argv argc (i + 1) r
      else Ok (Some (argv, argc, r))
  end.
(** At most [argc / 2] operators are removed, with at most [argc] rounds before each. *)
Definition take_redirs (argv : list (option (list Z))) (argc : Z) :=
  redir_loop (S (Z.to_nat argc) * S (Z.to_nat argc)) argv argc 0 no_redirs.

(** ** Built-in commands *)

(** What the shell keeps, and what it printed: lines on the two streams. *)
Inductive line := Out (s : list Z) | ErrLine (s : list Z).
Record shell := mk_shell {
  environ : gmap (list Z) (list Z); cwd : list Z; last_wd : list Z; printed : list line }.
#[export] Instance line_eq_dec : EqDecision line.
Proof. solve_decision. Defined.
Definition print (l : line) (sh : shell) : shell := mk_shell (environ sh) (cwd sh) (last_wd sh) (printed sh ++ [l]).
Definition set_environ (e : gmap (list Z) (list Z)) (sh : shell) : shell := mk_shell e (cwd sh) (last_wd sh) (printed sh).

Section Builtins.
(** [chdir] to a path from the current directory: the new one, or an error. *)
Variable chdir : list Z -> list Z -> option (list Z).

Definition arg_at (argv : list (option (list Z))) (i : Z) : res (list Z) := a ← aget argv i; deref a.

(** [dir == NULL] when HOME is not set: then [last_wd] is the current directory all the same. *)
Definition builtin_cd (argv : list (option (list Z))) (argc : Z) (sh : shell) : res shell :=
  '(dir, sh) ← (if argc =? 1 then
                  match environ sh !! chars "HOME" with
                  | None => Ok (None, print (ErrLine (chars "eshell: cd: HOME not set")) sh)
                  | Some d => Ok (Some d, sh)
                  end
                else
                  a ← arg_at argv 1;
                  b ← streq a "-";
                  if b : bool then Ok (Some (last_wd sh), print (Out (last_wd sh)) sh)
                  else d ← read_str a; Ok (Some d, sh));
  let tmp := last_wd sh in
  let sh := mk_shell (environ sh) (cwd sh) (cwd sh) (printed sh) in
  match dir with
  | None => Ok sh
  | Some d =>
      match chdir (cwd sh) d with
      | None => Ok (print (ErrLine (chars "eshell: cd: " ++ d)) (mk_shell (environ sh) (cwd sh) tmp (printed sh)))
      | Some w => Ok (mk_shell (environ sh) w (last_wd sh) (printed sh))
      end
  end.

(** [strlcpy] to a buffer of [size] zeros, and the string in it. *)
Definition copy_field (size : Z) (src : list Z) : res (list Z) :=
  '(d, _) ← strlcpy (replicate (Z.to_nat size) 0) src size;
  read_str d.

(** [key=value] at a pointer: the equals sign is overwritten while the key is copied. *)
Definition assignment (a : list Z) : res (option (list Z * list Z)) :=
  p ← strchr a EQUALS;
  match p with
  | None => Ok None
  | Some p =>
      a0 ← aset a p 0;
      key ← copy_field 256 a0;
      value ← copy_field 512 (padd a0 (p + 1));
      Ok (Some (key, value))
  end.

(** [setenv] with an empty name is an error, which the callers do not look at. *)
Definition setenv (key value : list Z) (e : gmap (list Z) (list Z)) : gmap (list Z) (list Z) :=
  if decide (key = []) then e else <[key := value]> e.

Fixpoint export_loop (n : nat) (argv : list (option (list Z))) (i : Z) (sh : shell) : res shell :=
  match n with
  | O => Ok sh
  | S n =>
      a ← arg_at argv i;
      kv ← assignment a;
      export_loop n argv (i + 1)
        (match kv with None => sh | Some (k, v) => set_environ (setenv k v (environ sh)) sh end)
  end.
(** With no argument the environment is printed, a line for each variable. *)
Definition builtin_export (argv : list (option (list Z))) (argc : Z) (sh : shell) : res shell :=
  if argc =? 1 then
    Ok (foldl (fun sh kv => print (Out (chars "export " ++ kv.1 ++ [EQUALS] ++ kv.2)) sh) sh (map_to_list (environ sh)))
  else export_loop (Z.to_nat (argc - 1)) argv 1 sh.

(** [unsetenv(argv[1])]: not of [argv[i]]. *)
Fixpoint unset_loop (n : nat) (argv : list (option (list Z))) (i : Z) (sh : shell) : res shell :=
  match n with
  | O => Ok sh
  | S n =>
      a ← arg_at argv i;
      p ← strchr a EQUALS;
      name ← read_str a;
      match p with
      | Some _ =>
          unset_loop n argv (i + 1)
            (print (ErrLine (chars "eshell: unset: " ++ name ++ chars " is not a valid identifier")) sh)
      | None =>
          a1 ← arg_at argv 1;
          n1 ← read_str a1;
          if has n1 EQUALS || bool_decide (n1 = [])
          then unset_loop n argv (i + 1) (print (ErrLine (chars "eshell: unsetenv")) sh)
          else unset_loop n argv (i + 1) (set_environ (delete n1 (environ sh)) sh)
      end
  end.
Definition builtin_unset (argv : list (option (list Z))) (argc : Z) (sh : shell) : res shell :=
  if 1 <? argc then unset_loop (Z.to_nat (argc - 1)) argv 1 sh else Ok sh.

(** ** A line of input *)

(** How [process_input] ends: it returns, [exit]s the shell, or forks a child that runs a program. *)
Inductive outcome :=
| Return (n : Z)
| Exit (n : Z)
| Fork (argv : list (option (list Z))) (argc : Z) (r : redirs) (extra_env : option (list (option (list Z)))).

Definition run_command (argv : list (option (list Z))) (argc : Z) (extra_env : option (list (option (list Z))))
    (sh : shell) : res (outcome * shell) :=
  rd ← take_redirs argv argc;
  match rd with
  | None => Ok (Return 1, sh)
  | Some (argv, argc, r) =>
      a0 ← arg_at argv 0;
      b ← streq a0 "cd";
      if b : bool then sh ← builtin_cd argv argc sh; Ok (Return 0, sh)
      else
        b ← streq a0 "pwd";
        if b : bool then Ok (Return 0, print (Out (cwd sh)) sh)
        else
          b ← streq a0 "export";
          if b : bool then sh ← builtin_export argv argc sh; Ok (Return 0, sh)
          else
            b ← streq a0 "unset";
            if b : bool then sh ← builtin_unset argv argc sh; Ok (Return 0, sh)
            else Ok (Fork argv argc r extra_env, sh)
  end.

Definition process_input (junk : Z) (pid cmd : list Z) (sh : shell) : res (outcome * shell) :=
  len ← strlen cmd;
  let bufsize := Z.max (len * 3) 2048 in
  '(buf, _) ← strlcpy (malloc junk bufsize) cmd bufsize;
  buf ← replace_variables junk pid (environ sh) buf bufsize;
  p ← parse_command_line junk buf;
  match p with
  | None => Ok (Return 0, sh)
  | Some (argv, argc, extra_env) =>
      a0 ← aget argv 0;
      match a0 with
      | None => Ok (Return 0, sh)
      | Some a0 =>
          b ← streq a0 "exit";
          if b : bool then Ok (Exit 0, sh) else run_command argv argc extra_env sh
      end
  end.
End Builtins.

(** ** The child *)
Section Child.
(** [glob]: the paths a pattern stands for, [None] on an error or when it has none. *)
Variable glob : list Z -> option (list (list Z)).
Variable junk : Z.

(** Copies of the paths, from [argv[i]] on. *)
Fixpoint put_args (argv : list (option (list Z))) (i : Z) (l : list (list Z)) : res (list (option (list Z))) :=
  match l with
  | [] => Ok argv
  | x :: l => argv ← aset argv i (Some (x ++ [0])); put_args argv (i + 1) l
  end.

(** The matches [paths] (two or more) in place of argument [i]: [realloc], the arguments after it saved and
    copied back. *)
Definition glob_insert (argv : list (option (list Z))) (argc i : Z) (paths : list (list Z))
  : res (list (option (list Z))) :=
  let n := zlen paths in
  let newargs := argc + n in
  if zlen argv <? argc then Undef
  else
    let argv := take (Z.to_nat argc) argv ++ replicate (Z.to_nat (newargs + 1 - argc)) None in
    ending ← blit (replicate (Z.to_nat (argc - i)) None) 0 argv (i + 1) (argc - i);
    argv ← put_args argv i paths;
    blit argv (i + n) ending 0 (argc - i).

(** [for (i = 0; i < argc; i++)], one round for each argument of the command. *)
Fixpoint glob_loop (n : nat) (argv : list (option (list Z))) (argc i : Z) : res (list (option (list Z)) * Z) :=
  match n with
  | O => Ok (argv, argc)
  | S n =>
      a ← aget argv i;
      match a with
      | None => glob_loop n argv argc (i + 1)
      | Some a =>
          p ← strchr a STAR;
          match p with
          | None => glob_loop n argv argc (i + 1)
          | Some p =>
              prev ← (if 0 <? p then aget a (p - 1) else Ok 0);
              if (0 <? p) && (prev =? BACKSLASH) then
                len ← strlen a;
                a ← blit a (p - 1) a p (len - p + 1);
                argv ← aset argv i (Some a);
                glob_loop n argv argc (i + 1)
              else
                pat ← read_str a;
                match glob pat with
                | None | Some [] => glob_loop n argv argc (i + 1)
                | Some [x] =>
                    argv ← aset argv i (Some (x ++ [0]));
                    glob_loop n argv argc (i + 1)
                | Some paths =>
                    argv ← glob_insert argv argc i paths;
                    glob_loop n argv (argc + (zlen paths - 1)) (i + (zlen paths - 1) + 1)
                end
          end
      end
  end.

(** The calls that set the child up, up to [execvp] or the [exit] after a failure. *)
Inductive mode := Read | Write | Append.
Inductive call :=
| Freopen (path : list Z) (m : mode) (fd : Z)
| Dup2 (from to : Z)
| Setenv (key value : list Z)
| Execvp (argv : list (list Z))
| ExitChild.
(** Whether [freopen] succeeds. *)
Variable freopen : list Z -> mode -> bool.

(** A redirection to a file: the calls and whether the child goes on. *)
Definition reopen (path : option (list Z)) (m : mode) (fd : Z) : res (list call * bool) :=
  match path with
  | None => Ok ([], true)
  | Some path =>
      s ← read_str path;
      if freopen s m then Ok ([Freopen s m fd], true) else Ok ([Freopen s m fd; ExitChild], false)
  end.

Definition redirect_child (r : redirs) : res (list call * bool) :=
  '(c0, ok) ← reopen (redir_stdin r) Read 0;
  if negb ok then Ok (c0, false)
  else
    '(c1, ok) ← reopen (redir_stdout r) (if redir_append_stdout r then Append else Write) 1;
    if negb ok then Ok (c0 ++ c1, false)
    else
      match redir_stderr r with
      | NoErr => Ok (c0 ++ c1, true)
      | ToStdout => Ok (c0 ++ c1 ++ [Dup2 1 2], true)
      | ErrFile path =>
          '(c2, ok) ← reopen (Some path) (if redir_append_stderr r then Append else Write) 2;
          Ok (c0 ++ c1 ++ c2, ok)
      end.

(** The variables in front of the command, up to the NULL. *)
Fixpoint child_env (env : list (option (list Z))) : res (list call) :=
  match env with
  | [] => Undef
  | None :: _ => Ok []
  | Some v :: env =>
      kv ← assignment v;
      rest ← child_env env;
      Ok (match kv with Some (k, x) => Setenv k x :: rest | None => rest end)
  end.

(** The strings of [argv] up to the NULL. *)
Fixpoint exec_args (argv : list (option (list Z))) : res (list (list Z)) :=
  match argv with
  | [] => Undef
  | None :: _ => Ok []
  | Some a :: argv => s ← read_str a; l ← exec_args argv; Ok (s :: l)
  end.

Definition run_child (argv : list (option (list Z))) (argc : Z) (r : redirs)
    (extra_env : option (list (option (list Z)))) : res (list call) :=
  '(argv, argc) ← glob_loop (Z.to_nat argc) argv argc 0;
  '(calls, ok) ← redirect_child r;
  if negb ok then Ok calls
  else
    env ← (match extra_env with Some e => child_env e | None => Ok [] end);
    args ← exec_args argv;
    Ok (calls ++ env ++ [Execvp args]).
End Child.
