(* ===== verification/EshellParse.v ===== *)
(** * The shell: splitting a line into arguments

    [words] is what a line means: arguments separated by spaces, quotation marks that keep spaces, comments; [read_words] is what the
    parser reads, the same where no [#] follows a closing quotation mark.
    [parse_command_line] computes it on every line of printable characters, within the bounds of its arrays, and
    reads back any list of arguments that is written with quotation marks. *)
From S2P Require Import Prelude CString Format Eshell.
From stdpp Require Import strings.
#[local] Open Scope Z_scope.

(** ** The meaning of a line *)

(** Arguments are separated by spaces; spaces and [#] between quotation marks belong to an argument, and a [#] at the start of an argument makes the rest a comment.
    [quote]: inside quotation marks; [cur]: the argument being read. *)
Fixpoint words_from (quote : bool) (cur : option (list Z)) (s : list Z) : list (list Z) :=
  match s with
  | [] => match cur with Some w => [w] | None => [] end
  | c :: s =>
      if (c =? HASH) && negb quote && bool_decide (cur = None) then []
      else if c =? QUOTE then words_from (negb quote) (Some (default [] cur)) s
      else if (c =? SPACE) && negb quote then
        match cur with Some w => w :: words_from quote None s | None => words_from quote None s end
      else words_from quote (Some (default [] cur ++ [c])) s
  end.
Definition words (s : list Z) : list (list Z) := words_from false None s.
(** No [#] right after a closing quotation mark. *)
Fixpoint hash_ok (quote start after : bool) (s : list Z) : bool :=
  match s with
  | [] => true
  | c :: s =>
      if (c =? HASH) && negb quote && start then true
      else if c =? QUOTE then hash_ok (negb quote) false quote s
      else if (c =? SPACE) && negb quote then hash_ok quote true false s
      else negb ((c =? HASH) && negb quote && after) && hash_ok quote false false s
  end.
Definition no_hash_after_quote (s : list Z) : Prop := hash_ok false true false s = true.

(** What the parser reads: it takes a [#] after a quotation mark for the start of a comment, and the argument before it is lost.
    [quote]: inside quotation marks; [fresh]: where a [#] starts a comment; [cur]: the argument being read. *)
Fixpoint read_from (quote fresh : bool) (cur : option (list Z)) (s : list Z) : list (list Z) :=
  match s with
  | [] => match cur with Some w => [w] | None => [] end
  | c :: s =>
      if (c =? HASH) && negb quote && fresh then []
      else if c =? QUOTE then read_from (negb quote) true (Some (default [] cur)) s
      else if (c =? SPACE) && negb quote then
        match cur with Some w => w :: read_from quote true None s | None => read_from quote true None s end
      else read_from quote false (Some (default [] cur ++ [c])) s
  end.
Definition read_words (s : list Z) : list (list Z) := read_from false true None s.

Lemma read_from_words s : forall q f cur after, q = true \/ f = bool_decide (cur = None) || after -> hash_ok q (bool_decide (cur = None)) after s = true -> read_from q f cur s = words_from q cur s.
Proof.
  induction s as [|c s IH]; intros q f cur after Hf Hh; [done|]. cbn [read_from words_from hash_ok] in *. destruct (c =? HASH) eqn:Ec.
  - apply Z.eqb_eq in Ec as ->. change (HASH =? QUOTE) with false in *. change (HASH =? SPACE) with false in *. cbn [andb] in *. destruct q; cbn [negb andb] in *; [apply (IH _ _ _ false); [by left|done]|]. destruct Hf as [|Hf]; [done|]. subst f.
    destruct (bool_decide (cur = None)); [done|]. destruct after; [done|]. cbn in *. apply (IH _ _ _ false); [by right|done].
  - cbn [andb negb] in *. destruct (c =? QUOTE); [apply (IH _ _ _ q); [destruct q; [by right|by left]|done]|]. destruct ((c =? SPACE) && negb q) eqn:Es.
    + apply andb_true_iff in Es as [_ Hq%negb_true_iff]. subst q. destruct cur; [f_equal|]; (apply (IH _ _ _ false); [by right|done]).
    + apply (IH _ _ _ false); [by right|done].
Qed.
Lemma read_words_words s : no_hash_after_quote s -> read_words s = words s.
Proof. intros H. apply (read_from_words s false true None false); [by right|exact H]. Qed.

(** Spaces and the printable characters of ASCII. *)
Definition printable (c : Z) : Prop := 32 <= c < 128.
Definition is_space (c : Z) : bool := c =? SPACE.

(** An argument in quotation marks. *)
Definition quoted (w : list Z) : list Z := QUOTE :: w ++ [QUOTE].

(** The number of runs of spaces; [b] says whether the character before is a space. *)
Fixpoint runs (b : bool) (s : list Z) : Z :=
  match s with
  | [] => 0
  | c :: s => (if is_space c && negb b then 1 else 0) + runs (is_space c) s
  end.

(** ** Lemmas on the meaning *)
Lemma printable_char c : printable c -> char_ok c.
Proof. unfold printable, char_ok. lia. Qed.
Lemma printable_chars s : Forall printable s -> Forall char_ok s.
Proof. intros H. eapply Forall_impl; [done | apply printable_char]. Qed.

Lemma printable_check s : forallb (fun c => (32 <=? c) && (c <? 128)) s = true -> Forall printable s.
Proof.
  intros H. apply Forall_forall. intros c Hc. rewrite forallb_forall in H.
  specialize (H c (proj1 (list_elem_of_In _ _) Hc)). unfold printable. bool_to_prop. lia.
Qed.

Lemma runs_nonneg b s : 0 <= runs b s.
Proof. revert b. induction s as [|c s IH]; intros b; cbn; [lia|]. specialize (IH (is_space c)). case_match; lia. Qed.

Lemma runs_app b s t : runs b s <= runs b (s ++ t).
Proof.
  revert b. induction s as [|c s IH]; intros b; cbn; [apply runs_nonneg|].
  specialize (IH (is_space c)). lia.
Qed.

(** An argument ends at the start of a run of spaces or at the end. *)
Lemma words_runs q f cur b s :
  (b = true -> q = true \/ cur = None) -> zlen (read_from q f cur s) <= 1 + runs b s.
Proof.
  revert q f cur b. induction s as [|c s IH]; intros q f cur b Hb; cbn [read_from runs].
  { destruct cur; unfold zlen; cbn; lia. }
  pose proof (runs_nonneg (is_space c) s). unfold is_space in *.
  destruct ((c =? HASH) && negb q && f); cbn [read_from]. { unfold zlen. cbn [length]. destruct ((c =? SPACE) && negb b); lia. }
  destruct (c =? QUOTE) eqn:Eq.
  { replace (c =? SPACE) with false by (unfold QUOTE, SPACE in *; lia). cbn [andb].
    apply IH. done. }
  destruct (Z.eqb_spec c SPACE); cbn [andb].
  - destruct q; cbn [negb].
    + etrans; [apply (IH true _ _ true); auto|]. destruct b; cbn [negb]; lia.
    + destruct cur as [w|].
      * destruct b; [by destruct Hb|]. cbn [negb]. rewrite zlen_cons. specialize (IH false true None true (fun _ => or_intror eq_refl)). lia.
      * specialize (IH false true None true (fun _ => or_intror eq_refl)). destruct b; cbn [negb]; lia.
  - apply IH. done.
Qed.

Lemma words_space s : read_from false true None (drop_while is_space s) = read_from false true None s.
Proof.
  induction s as [|c s IH]; cbn [drop_while]; [done|].
  unfold is_space in *. destruct (Z.eqb_spec c SPACE) as [->|]; [|done]. rewrite IH. done.
Qed.

(** On printable characters the text that is copied is what does not end it. *)
Lemma is_text_printable q c :
  printable c -> is_text q c = negb (c =? QUOTE) && negb ((c =? SPACE) && negb q).
Proof.
  unfold printable, is_text, schar. intros H. rewrite Z.mod_small by lia.
  replace (c + 2 ^ 7 - 2 ^ 7) with c by lia. unfold SPACE, QUOTE in *.
  destruct (Z.ltb_spec 32 c), (Z.eqb_spec c 34), (Z.eqb_spec c 0), (Z.eqb_spec c 32), q; cbn; lia.
Qed.

Lemma words_text q x t cur f :
  Forall printable x -> Forall (fun c => is_text q c = true) x ->
  (match x with c :: _ => (c =? HASH) && negb q && f = false | [] => True end) ->
  read_from q f cur (x ++ t) =
  match x with [] => read_from q f cur t | _ => read_from q false (Some (default [] cur ++ x)) t end.
Proof.
  intros Hp. revert cur f. induction Hp as [|c x Hc Hx IH]; intros cur f Ht Hh; [done|].
  inversion_clear Ht as [|?? Hct Hxt]. rewrite is_text_printable in Hct by done. bool_to_prop.
  cbn [read_from app]. rewrite Hh.
  replace (c =? QUOTE) with false by lia.
  replace ((c =? SPACE) && negb q) with false by (symmetry; done).
  rewrite IH; [|done|].
  - destruct x; [done|]. cbn [from_option id]. by rewrite <- app_assoc.
  - destruct x; [done|]. by rewrite andb_false_r.
Qed.

(** ** The loops, at the position after [u] in the line *)
Lemma blank_printable c : printable c -> (c =? SPACE) || (c =? TAB) = is_space c.
Proof. unfold printable, is_space, TAB, SPACE. intros. replace (c =? 9) with false by lia. apply orb_false_r. Qed.

Lemma skip_blank_spec fuel u t r :
  Forall printable t -> (length t < fuel)%nat ->
  skip_blank fuel (u ++ t ++ 0 :: r) (zlen u) = Ok (zlen (u ++ take_while is_space t)).
Proof.
  intros Hp. revert fuel u. induction Hp as [|c t Hc Ht IH]; intros [|fuel] u Hf; cbn [length] in Hf; try lia;
    cbn [skip_blank app take_while]; rewrite aget_mid; cbn [mbind res_bind].
  - by rewrite app_nil_r.
  - rewrite blank_printable by done. destruct (is_space c).
    + specialize (IH fuel (u ++ [c]) ltac:(lia)). rewrite zlen_snoc in IH.
      rewrite <- !app_assoc in IH. cbn [app] in IH. exact IH.
    + by rewrite app_nil_r.
Qed.

Lemma is_text_0 q : is_text q 0 = false.
Proof. by destruct q. Qed.

Lemma copy_text_spec fuel u t r q w tl h :
  (length t < fuel)%nat -> (length t <= length tl)%nat ->
  let x := take_while (is_text q) t in
  copy_text fuel (u ++ t ++ 0 :: r) q (zlen u) (w ++ tl) (zlen w) h =
  Ok (zlen (u ++ x), (w ++ x) ++ drop (length x) tl, zlen (w ++ x), match x with [] => h | _ => true end).
Proof.
  revert fuel u w tl h. induction t as [|c t IH]; intros [|fuel] u w tl h Hf Ht; cbn [length] in *; try lia;
    cbn [copy_text app take_while]; rewrite aget_mid; cbn [mbind res_bind].
  - rewrite is_text_0. cbn [length]. by rewrite drop_0, !app_nil_r.
  - destruct (is_text q c); [|cbn [length]; by rewrite drop_0, !app_nil_r].
    destruct tl as [|y tl]; cbn [length] in Ht; [lia|]. rewrite aset_mid. cbn [mbind res_bind].
    specialize (IH fuel (u ++ [c]) (w ++ [c]) tl true ltac:(lia) ltac:(lia)). cbn zeta in IH.
    rewrite !zlen_snoc in IH. rewrite <- !app_assoc in IH. cbn [app] in IH. rewrite IH.
    cbn [length drop app]. rewrite <- !app_assoc. by destruct (take_while (is_text q) t).
Qed.

(** ** The main loop *)

(** The strings [ws] in [argv], followed by [k] NULLs. *)
Definition args_of (ws : list (list Z)) (k : nat) : list (option (list Z)) :=
  ((fun w => Some (w ++ [0])) <$> ws) ++ replicate k None.

Lemma args_of_zlen ws k : zlen (args_of ws k) = zlen ws + Z.of_nat k.
Proof. unfold args_of. rewrite zlen_app. unfold zlen. by rewrite length_fmap, length_replicate. Qed.

Lemma aset_args {A B} (f : A -> B) ws x l y : aset ((f <$> ws) ++ x :: l) (zlen ws) y = Ok ((f <$> ws) ++ y :: l).
Proof. pose proof (aset_mid (f <$> ws) l x y) as H. unfold zlen in *. by rewrite length_fmap in H. Qed.

Lemma malloc_zlen junk n : 0 <= n -> zlen (malloc junk n) = n.
Proof. intros. unfold malloc, zlen. rewrite length_replicate. lia. Qed.

(** [strlcpy] to a block that just holds the string. *)
Lemma strlcpy_exact junk src w :
  cstr src w -> strlcpy (malloc junk (zlen w + 1)) src (zlen w + 1) = Ok (w ++ [0], zlen w).
Proof.
  intros Hs. pose proof (zlen_nonneg w). rewrite (strlcpy_spec _ _ w) by (done || rewrite malloc_zlen; lia).
  replace (zlen w + 1 - 1) with (zlen w) by lia. unfold zlen at 1 2. rewrite Nat2Z.id, firstn_all, Nat.min_id.
  rewrite drop_ge; [done|]. unfold malloc. rewrite length_replicate. unfold zlen. lia.
Qed.

(** What the variables of the loop say: [saved] are the arguments so far and [w] the text of the current one. *)
Record reads (max_args : Z) (env : option (list (option (list Z)))) (saved : list (list Z)) (w : list Z) (st : parser)
  : Prop := mk_reads {
  rd_arg : exists tl, ps_arg st = w ++ tl /\ zlen (ps_arg st) = 2048;
  rd_ai : ps_ai st = zlen w;
  rd_argv : exists k, ps_argv st = args_of saved (S k) /\ zlen saved + Z.of_nat k = max_args;
  rd_argc : ps_argc st = zlen saved;
  rd_env : ps_env st = env /\ ps_env_i st = 0;
  rd_done : ps_env_done st = true \/ saved = [] }.

Lemma reads_set_c m env saved w st c : reads m env saved w st -> reads m env saved w (set_c c st).
Proof. intros []. by split. Qed.
Lemma reads_set_quote m env saved w st q : reads m env saved w st -> reads m env saved w (set_quote q st).
Proof. intros []. by split. Qed.

Lemma save_arg_spec junk m max_env env saved w st :
  reads m env saved w st -> Forall char_ok w -> zlen w < 2048 -> zlen saved < m ->
  (saved = [] -> has w EQUALS = false) ->
  exists st', save_arg junk m max_env st = Ok (st', false) /\
    reads m env (saved ++ [w]) [] st' /\ ps_c st' = ps_c st /\ ps_quote st' = ps_quote st.
Proof.
  intros [(tl & Ha & Hl) Hai (k & Hv & Hk) Hc [He Hi] Hd] Hw Hlen Hm Heq. unfold save_arg.
  rewrite Hai, Ha, Hc, Hv in *. destruct tl as [|y tl]; [rewrite app_nil_r in Hl; lia|].
  rewrite aset_mid. cbn [mbind res_bind].
  assert (Hs : cstr (w ++ 0 :: tl) w) by (by exists tl).
  replace (if ps_env_done st then Ok None else strchr (w ++ 0 :: tl) EQUALS) with (Ok (A := option Z) None).
  2: { destruct (ps_env_done st); [done|]. destruct Hd as [|Hd]; [done|].
       rewrite (strchr_spec _ w) by done. specialize (Heq Hd). apply (index_of_has _ _ 0) in Heq. by rewrite Heq. }
  cbn [mbind res_bind]. destruct k as [|k]; [lia|].
  unfold args_of. cbn [replicate].
  rewrite aset_args. cbn [mbind res_bind]. unfold assert.
  destruct (Z.ltb_spec (zlen saved) m); [|lia]. cbn [mbind res_bind].
  rewrite (strlcpy_exact junk _ w Hs). cbn [mbind res_bind].
  rewrite aset_args. cbn [mbind res_bind]. eexists. split; [done|]. split; [|by destruct st].
  split; cbn [ps_arg ps_ai ps_argv ps_argc ps_env ps_env_i ps_env_done].
  - exists (w ++ 0 :: tl). split; [done|]. rewrite zlen_app, zlen_cons in *. lia.
  - done.
  - exists k. split; [|rewrite zlen_snoc; lia]. unfold args_of. rewrite fmap_app, <- app_assoc. done.
  - by rewrite zlen_snoc.
  - done.
  - by left.
Qed.

Section Loop.
Context (junk m max_env : Z) (env : option (list (option (list Z)))).

(** At the end of an argument it is saved and the spaces after it are skipped. *)
Lemma parse_end_spec u t r saved w h st :
  ps_c st = zlen u -> reads m env saved w st -> Forall printable t ->
  match t with [] => True | c :: _ => c = SPACE /\ ps_quote st = false end ->
  Forall char_ok w -> zlen w < 2048 -> zlen saved < m -> (saved = [] -> has w EQUALS = false) ->
  exists st', parse_end junk (u ++ t ++ 0 :: r) m max_env h st = Ok st' /\ reads m env (saved ++ [w]) [] st' /\
    ps_c st' = zlen (u ++ take_while is_space t) /\ ps_quote st' = ps_quote st.
Proof.
  intros Hc Hst Ht Hend Hw Hlen Hm Heq. unfold parse_end. rewrite Hc.
  destruct (save_arg_spec junk m max_env env saved w st Hst Hw Hlen Hm Heq) as (st' & Hs & Hr & Hc' & Hq').
  assert (Hk : skip_blanks (u ++ t ++ 0 :: r) st' = Ok (set_c (zlen (u ++ take_while is_space t)) st')).
  { unfold skip_blanks. rewrite Hc', Hc, skip_blank_spec; [done..|]. rewrite !length_app. lia. }
  exists (set_c (zlen (u ++ take_while is_space t)) st'). split_and!; [|by apply reads_set_c|done|done].
  destruct t as [|c t]; cbn [app]; rewrite aget_mid; cbn [mbind res_bind].
  - rewrite orb_true_r, Hs. done.
  - destruct Hend as [-> Hq]. rewrite Hq. cbn [negb andb orb Z.eqb SPACE]. rewrite Hs. done.
Qed.

(** One round: the variables afterwards describe the rest [t'] of the line. *)
Definition at_line (u t r : list Z) (saved : list (list Z)) (cur : option (list Z)) (st : parser) : Prop :=
  ps_c st = zlen u /\ reads m env saved (default [] cur) st /\ Forall printable t /\
  Forall char_ok (default [] cur) /\ zlen (default [] cur) + zlen t < 2048 /\ (t = [] -> cur = None) /\
  (cur = None -> t = [] \/ ps_quote st = false /\ head t <> Some SPACE).

Lemma head_drop_space t : head (drop_while is_space t) <> Some SPACE.
Proof. pose proof (drop_while_head is_space t) as H. destruct (drop_while is_space t); [done|]. intros [= ->]. done. Qed.

(** The words a line still gives start with [w]: there is room for it, and it is not a variable. *)
Lemma next_word saved w rest :
  zlen (saved ++ w :: rest) <= m -> (forall v, head (saved ++ w :: rest) = Some v -> has v EQUALS = false) ->
  zlen saved < m /\ (saved = [] -> has w EQUALS = false).
Proof.
  rewrite zlen_app, zlen_cons. intros Hm Heq. pose proof (zlen_nonneg rest). split; [lia|].
  intros ->. by apply Heq.
Qed.

(** The text up to the next quotation mark, space or end is copied. *)
Lemma parse_copy u t r saved cur st :
  at_line u t r saved cur st -> (head t = Some HASH -> ps_quote st = true) ->
  let q := ps_quote st in
  let x := take_while (is_text q) t in
  let t' := drop_while (is_text q) t in
  exists arg ai h,
    copy_text (S (length (u ++ t ++ 0 :: r))) (u ++ t ++ 0 :: r) q (ps_c st) (ps_arg st) (ps_ai st) false =
      Ok (zlen (u ++ x), arg, ai, h) /\
    reads m env saved (default [] cur ++ x) (set_c (zlen (u ++ x)) (set_arg arg ai st)) /\
    Forall char_ok (default [] cur ++ x) /\
    exists f, read_from q true cur t =
      read_from q f (match x with [] => cur | _ => Some (default [] cur ++ x) end) t'.
Proof.
  intros (Hc & Hst & Hp & Hw & Hlen & _ & _) Hh q x t'.
  assert (Hxt : t = x ++ t') by (symmetry; apply take_drop_while).
  assert (Forall printable x) as Hpx by (rewrite Hxt, Forall_app in Hp; apply Hp).
  destruct Hst as [(tl & Ha & Hl) Hai Hv Hac He Hd].
  rewrite Ha, zlen_app in Hl. eexists _, _, _. split_and!.
  - rewrite Hc, Ha, Hai. apply copy_text_spec; [rewrite !length_app; cbn; lia|]. unfold zlen in *. lia.
  - split; try done. exists (drop (length x) tl). split; [done|]. cbn [set_c set_arg ps_arg].
    rewrite !zlen_app. rewrite Hxt, zlen_app in Hlen. unfold zlen in *. rewrite length_drop. fold x. lia.
  - apply Forall_app. split; [done|]. by apply printable_chars.
  - pose proof (take_while_all (is_text q) t : Forall _ x) as Htx. clearbody x t'. subst t. rewrite words_text; [|done..|].
    { destruct x; eauto. }
    destruct x as [|c x']; [done|]. destruct (Z.eqb_spec c HASH) as [->|]; [|done].
    fold q in Hh. by rewrite Hh.
Qed.

Lemma not_text q c : printable c -> is_text q c = false -> c = QUOTE \/ c = SPACE /\ q = false.
Proof.
  intros Hc. rewrite is_text_printable by done. unfold QUOTE, SPACE.
  destruct (Z.eqb_spec c 34), (Z.eqb_spec c 32), q; cbn; auto; done.
Qed.

Lemma save_step u t r saved w h st :
  ps_c st = zlen u -> reads m env saved w st -> Forall printable t -> zlen t < 2048 ->
  match t with [] => True | c :: _ => c = SPACE /\ ps_quote st = false end ->
  Forall char_ok w -> zlen w < 2048 ->
  let ws := saved ++ w :: read_from (ps_quote st) true None t in
  zlen ws <= m -> (forall w, head ws = Some w -> has w EQUALS = false) ->
  exists st', parse_end junk (u ++ t ++ 0 :: r) m max_env h st = Ok st' /\
    at_line (u ++ take_while is_space t) (drop_while is_space t) r (saved ++ [w]) None st' /\
    (saved ++ [w]) ++ read_from (ps_quote st') true None (drop_while is_space t) = ws.
Proof.
  intros Hc Hst Hp Hlt Hend Hw Hl ws Hm Heq. destruct (next_word _ _ _ Hm Heq) as [Hm1 Heq1].
  destruct (parse_end_spec u t r saved w h st Hc Hst Hp Hend Hw Hl Hm1 Heq1) as (st' & He & Hr & Hc' & Hq').
  exists st'. split; [done|]. rewrite Hq'.
  assert (Hdl : zlen (drop_while is_space t) < 2048).
  { pose proof (take_drop_while is_space t) as H. apply (f_equal zlen) in H. rewrite zlen_app in H.
    pose proof (zlen_nonneg (take_while is_space t)). lia. }
  split.
  - split_and!; try done.
    + rewrite <- (take_drop_while is_space t), Forall_app in Hp. apply Hp.
    + intros _. destruct t as [|c t]; [by left | right]. split; [|apply head_drop_space]. rewrite Hq'. apply Hend.
  - subst ws. rewrite <- app_assoc. cbn [app]. do 2 f_equal. destruct t as [|c t]; [done|].
    destruct Hend as [_ ->]. apply words_space.
Qed.

(** After a quotation mark. *)
Lemma quote_step u t r saved w st :
  ps_c st = zlen u -> reads m env saved w st -> Forall printable t -> Forall char_ok w -> zlen w + zlen t < 2048 ->
  let line := u ++ t ++ 0 :: r in
  let ws := saved ++ read_from (ps_quote st) true (Some w) t in
  zlen ws <= m -> (forall w, head ws = Some w -> has w EQUALS = false) ->
  exists st' saved' cur',
    (ch ← aget line (zlen u); if negb (ch =? 0) then Ok st else parse_end junk line m max_env true st) = Ok st' /\
    at_line u t r saved' cur' st' /\ saved' ++ read_from (ps_quote st') true cur' t = ws.
Proof.
  intros Hc Hst Hp Hw Hl line ws Hm Heq. subst line ws. destruct t as [|d t]; cbn [app]; rewrite aget_mid; cbn [mbind res_bind].
  - rewrite zlen_nil in Hl. cbn [Z.eqb negb].
    destruct (save_step u [] r saved w true st) as (st' & He & Ha & Hws); try done; [lia|].
    exists st', (saved ++ [w]), None. cbn [take_while drop_while] in *. by rewrite app_nil_r in Ha.
  - apply Forall_cons in Hp as Hd. destruct Hd as [Hd _].
    replace (d =? 0) with false by (unfold printable in Hd; lia). cbn [negb].
    exists st, saved, (Some w). by split_and!.
Qed.

(** One round, at a character that does not start a comment. *)
Lemma words_step u t r saved cur st :
  at_line u t r saved cur st -> t <> [] -> (head t = Some HASH -> ps_quote st = true) ->
  let ws := saved ++ read_from (ps_quote st) true cur t in
  zlen ws <= m -> (forall w, head ws = Some w -> has w EQUALS = false) ->
  exists st' x t' saved' cur', t = x ++ t' /\ x <> [] /\
    parse_step junk (u ++ t ++ 0 :: r) m max_env st = Ok st' /\
    at_line (u ++ x) t' r saved' cur' st' /\ saved' ++ read_from (ps_quote st') true cur' t' = ws.
Proof.
  intros Hat Ht Hh ws Hm Heq. destruct (parse_copy u t r saved cur st Hat Hh) as (arg & ai & h & Hcp & Hst & Hw & f & Hf).
  subst ws. rewrite Hf in Hm, Heq |- *. clear Hf. unfold parse_step. rewrite Hcp. cbn [mbind res_bind]. clear Hcp.
  destruct Hat as (_ & _ & Hp & _ & Hlen & _ & Hsp).
  set (q := ps_quote st) in *. set (w0 := default [] cur) in *.
  pose proof (take_drop_while (is_text q) t) as Hxt. pose proof (drop_while_head (is_text q) t) as Hd.
  set (x := take_while (is_text q) t) in *. set (t' := drop_while (is_text q) t) in *. clearbody x t'.
  rewrite <- Hxt, Forall_app in Hp. destruct Hp as [_ Hp]. rewrite <- Hxt, zlen_app in Hlen.
  assert (Hl : zlen (w0 ++ x) < 2048 /\ zlen t' < 2048 - zlen (w0 ++ x)) by
    (rewrite zlen_app; pose proof (zlen_nonneg t'); lia). destruct Hl as [Hl Hlt].
  replace (u ++ t ++ 0 :: r) with ((u ++ x) ++ t' ++ 0 :: r) by (rewrite <- Hxt, <- !app_assoc; done).
  set (st1 := set_c (zlen (u ++ x)) (set_arg arg ai st)) in *. pose proof (zlen_nonneg (w0 ++ x)).
  destruct t' as [|c t'].
  { cbn [app]. rewrite aget_mid. cbn [mbind res_bind Z.eqb QUOTE].
    destruct x as [|y x]; [by rewrite app_nil_r in Hxt|].
    destruct (save_step (u ++ y :: x) [] r saved (w0 ++ y :: x) h st1) as (st' & He & Ha & Hws); try done.
    exists st', (y :: x), [], (saved ++ [w0 ++ y :: x]), None. cbn [take_while drop_while] in *.
    rewrite app_nil_r in Ha. split_and!; try done.  }
  cbn [app]. rewrite aget_mid. cbn [mbind res_bind]. rewrite zlen_cons in Hlt.
  apply Forall_cons in Hp as Hp'. destruct Hp' as [Hpc Hpt]. destruct (not_text q c Hpc Hd) as [->|[-> Hq]].
  - replace (read_from q f _ (QUOTE :: t')) with (read_from (negb q) true (Some (w0 ++ x)) t') in Hm, Heq |- * by
      (cbn [read_from]; destruct x; [by rewrite app_nil_r | done]).
    replace ((u ++ x) ++ QUOTE :: t' ++ 0 :: r) with ((u ++ x ++ [QUOTE]) ++ t' ++ 0 :: r) by (by rewrite <- !app_assoc).
    rewrite Z.eqb_refl. replace (zlen (u ++ x) + 1) with (zlen (u ++ x ++ [QUOTE])) by (rewrite app_assoc; by rewrite zlen_snoc).
    set (st2 := set_c (zlen (u ++ x ++ [QUOTE])) (set_quote (negb (ps_quote st1)) st1)).
    assert (Hst2 : reads m env saved (w0 ++ x) st2) by (by apply reads_set_c, reads_set_quote).
    destruct (quote_step (u ++ x ++ [QUOTE]) t' r saved (w0 ++ x) st2) as (st' & saved' & cur' & He & Ha & Hws);
      try done; [lia|]. exists st', (x ++ [QUOTE]), t', saved', cur'.
    split_and!; try done; [by rewrite <- app_assoc | by destruct x].
  - assert (Hcur : match x with [] => cur | _ => Some (w0 ++ x) end = Some (w0 ++ x)).
    { destruct x; [|done]. rewrite app_nil_r. subst w0. destruct cur; [done|]. subst t. by destruct Hsp as [|[_ ?]]. }
    rewrite Hcur in Hm, Heq |- *. rewrite Hq in *. cbn [read_from SPACE Z.eqb HASH QUOTE andb negb] in Hm, Heq |- *.
    destruct (save_step (u ++ x) (SPACE :: t') r saved (w0 ++ x) h st1) as (st' & He & Ha & Hws); try done;
      [rewrite zlen_cons; lia | by change (ps_quote st1) with q; rewrite Hq..|].
    exists st', (x ++ take_while is_space (SPACE :: t')), (drop_while is_space (SPACE :: t')), (saved ++ [w0 ++ x]), None.
    split_and!; [|by destruct x| | |].
    + by rewrite <- app_assoc, take_drop_while.
    + exact He.
    + by rewrite app_assoc.
    + rewrite Hws. change (ps_quote st1) with q. rewrite Hq. done.
Qed.
Lemma parse_loop_spec fuel u t r saved cur st :
  at_line u t r saved cur st -> (length t < fuel)%nat ->
  let ws := saved ++ read_from (ps_quote st) true cur t in
  zlen ws <= m -> (forall w, head ws = Some w -> has w EQUALS = false) ->
  exists st' w', parse_loop junk (u ++ t ++ 0 :: r) (zlen (u ++ t)) m max_env fuel st = Ok st' /\ reads m env ws w' st'.
Proof.
  revert u t saved cur st. induction fuel as [|fuel IH]; intros u t saved cur st Hat Hf ws Hm Heq; [lia|].
  cbn [parse_loop]. pose proof Hat as (Hc & Hst & Hp & _ & _ & Hne & _). rewrite Hc. destruct t as [|c t].
  { rewrite app_nil_r, Z.ltb_irrefl. subst ws. rewrite (Hne eq_refl) in *. cbn [read_from]. rewrite app_nil_r. eauto. }
  replace (zlen u <? zlen (u ++ c :: t)) with true by (rewrite zlen_app, zlen_cons; pose proof (zlen_nonneg t); lia).
  cbn [app]. rewrite aget_mid. cbn [mbind res_bind].
  destruct ((c =? HASH) && negb (ps_quote st)) eqn:Eh.
  { subst ws. cbn [read_from]. rewrite Eh. cbn [andb]. rewrite app_nil_r. eauto. }
  destruct (words_step u (c :: t) r saved cur st Hat) as (st' & x & t' & saved' & cur' & Hx & Hxn & Hs & Hat' & Hws); try done.
  { intros [= ->]. by apply negb_false_iff. }
  cbn [app] in Hs. rewrite Hs. cbn [mbind res_bind]. subst ws. rewrite <- Hws in Hm, Heq |- *.
  destruct (IH (u ++ x) t' saved' cur' st' Hat') as (st'' & w' & Hl & Hr); try done.
  { rewrite Hx in Hf. rewrite length_app in Hf. destruct x; [done|]. cbn in Hf. lia. }
  exists st'', w'. split; [|done]. rewrite <- Hl. f_equal; rewrite <- !app_assoc; [|by rewrite Hx].
  change (c :: t ++ 0 :: r) with ((c :: t) ++ 0 :: r). by rewrite Hx, <- app_assoc.
Qed.
End Loop.

(** ** Counting and trimming *)
Lemma skip_run_spec fuel u t r :
  Forall char_ok t -> (length t < fuel)%nat ->
  skip_run fuel (u ++ t ++ 0 :: r) (zlen (u ++ t)) (zlen u) = Ok (zlen (u ++ take_while is_space t)).
Proof.
  intros Hp. revert fuel u. induction Hp as [|c t Hc Ht IH]; intros [|fuel] u Hf; cbn [length] in Hf; try lia;
    cbn [skip_run app take_while]; rewrite aget_mid; cbn [mbind res_bind].
  - by rewrite app_nil_r.
  - replace (zlen u <? zlen (u ++ c :: t)) with true by (rewrite zlen_app, zlen_cons; pose proof (zlen_nonneg t); lia).
    rewrite andb_true_r. unfold is_space at 1. destruct (c =? SPACE).
    + specialize (IH fuel (u ++ [c]) ltac:(lia)). rewrite zlen_snoc, <- !app_assoc in IH. exact IH.
    + by rewrite app_nil_r.
Qed.

Lemma runs_drop t : runs true (drop_while is_space t) = runs true t.
Proof. induction t as [|c t IH]; cbn; [done|]. destruct (is_space c) eqn:E; cbn; [done|]. by rewrite E. Qed.

Lemma count_args_spec fuel u t r a e :
  Forall char_ok t -> (S (length t) < fuel)%nat ->
  exists e', count_args fuel (u ++ t ++ 0 :: r) (zlen (u ++ t)) (zlen u) a e = Ok (a + runs false t, e') /\ e <= e'.
Proof.
  revert u t a e. induction fuel as [|fuel IH]; intros u t a e Hp Hf; [lia|]. cbn [count_args].
  destruct t as [|c t].
  { rewrite app_nil_r, Z.ltb_irrefl. exists e. cbn. by rewrite Z.add_0_r. }
  replace (zlen u <? zlen (u ++ c :: t)) with true by (rewrite zlen_app, zlen_cons; pose proof (zlen_nonneg t); lia).
  cbn [app]. rewrite aget_mid. cbn [mbind res_bind length] in *.
  assert (Hnext : forall v d t' a e, c :: t = v ++ d :: t' ->
    exists e', count_args fuel (u ++ c :: t ++ 0 :: r) (zlen (u ++ c :: t)) (zlen (u ++ v) + 1) a e
                 = Ok (a + runs false t', e') /\ e <= e').
  { intros v d t' a' e1 Hv. change (c :: t ++ 0 :: r) with ((c :: t) ++ 0 :: r). rewrite Hv in *.
    apply Forall_app in Hp as [_ [_ Hp]%Forall_cons]. apply (f_equal length) in Hv. rewrite length_app in Hv. cbn in Hv.
    destruct (IH (u ++ v ++ [d]) t' a' e1 Hp) as (e' & He & Hle); [lia|]. exists e'. split; [|done].
    rewrite <- He. f_equal; rewrite <- ?app_assoc; try done. by rewrite (app_assoc u v [d]), zlen_snoc. }
  unfold is_space in *. cbn [runs]. unfold is_space at 1 2. destruct (Z.eqb_spec c SPACE) as [->|].
  - pose proof (skip_run_spec fuel u (SPACE :: t) r Hp) as Hk. cbn [app] in Hk. rewrite Hk by (cbn; lia).
    cbn [mbind res_bind andb negb]. rewrite <- runs_drop.
    pose proof (take_drop_while is_space t) as Htd. pose proof (drop_while_head is_space t) as Hd.
    destruct (drop_while is_space t) as [|d t'].
    + destruct fuel as [|fuel]; [lia|]. cbn [count_args take_while]. change (is_space SPACE) with true. cbn iota.
      rewrite app_nil_r in Htd. rewrite Htd.
      replace (zlen (u ++ SPACE :: t) + 1 <? zlen (u ++ SPACE :: t)) with false by lia.
      exists e. cbn. split; [f_equal; f_equal; lia | lia].
    + destruct (Hnext (take_while is_space (SPACE :: t)) d t' (a + 1) e) as (e' & He & Hle).
      { cbn [take_while]. change (is_space SPACE) with true. cbn. by rewrite Htd. }
      exists e'. split; [|done]. rewrite He. cbn [runs]. rewrite Hd. do 2 f_equal. cbn. lia.
  - pose proof (Hnext [] c t) as Hn. rewrite app_nil_r in Hn. cbn [andb]. rewrite Z.add_0_l.
    destruct (c =? EQUALS).
    + destruct (Hn a (e + 1) eq_refl) as (e' & He & ?). exists e'. split; [done|lia].
    + by apply Hn.
Qed.

Definition ends_line (c : Z) : Prop := c = SPACE \/ c = NEWLINE.

Lemma trim_end_spec fuel s x tr r :
  x <> SPACE -> x <> NEWLINE -> Forall ends_line tr -> (length tr < fuel)%nat ->
  trim_end fuel ((s ++ [x]) ++ tr ++ 0 :: r) (zlen ((s ++ [x]) ++ tr) - 1) = Ok ((s ++ [x]) ++ replicate (length tr) 0 ++ 0 :: r).
Proof.
  intros Hx1 Hx2. revert fuel r. induction tr as [|c tr IH] using rev_ind; intros [|fuel] r Ht Hf; try (cbn in Hf; lia).
  - rewrite app_nil_r, zlen_snoc. cbn [trim_end app length replicate].
    replace (zlen s + 1 - 1) with (zlen s) by lia. rewrite <- app_assoc. cbn [app]. rewrite aget_mid. cbn [mbind res_bind].
    replace (x =? NEWLINE) with false by lia. replace (x =? SPACE) with false by lia. done.
  - apply Forall_app in Ht as [Ht [Hc _]%Forall_cons]. rewrite length_app in Hf. cbn [length] in Hf.
    rewrite (app_assoc _ tr), zlen_snoc. cbn [trim_end].
    replace (zlen ((s ++ [x]) ++ tr) + 1 - 1) with (zlen ((s ++ [x]) ++ tr)) by lia.
    rewrite <- (app_assoc tr), (app_assoc (s ++ [x]) tr). cbn [app].
    rewrite aget_mid, aset_mid. cbn [mbind res_bind].
    replace ((c =? NEWLINE) || (c =? SPACE)) with true by (unfold ends_line, SPACE, NEWLINE in *; lia).
    rewrite <- (app_assoc (s ++ [x]) tr), IH by (done || lia).
    rewrite length_app, replicate_add, <- (app_assoc (replicate _ _)). done.
Qed.

(** ** The theorems *)

(** No variable for the child: [env_extras] is NULL or an array of NULLs. *)
Definition no_env (env : option (list (option (list Z)))) : Prop :=
  env = None \/ exists n, env = Some (replicate (S n) None).

(** The part after the trailing spaces are cut off. *)
Lemma parse_text junk s r m e env0 :
  Forall printable s -> s <> [] -> last s <> Some SPACE -> zlen s < 2048 -> zlen (read_words s) <= m -> no_env env0 ->
  (forall w, head (read_words s) = Some w -> has w EQUALS = false) ->
  exists k,
    (ch ← aget (s ++ 0 :: r) (zlen (take_while is_space s));
     if ch =? 0 then Ok None
     else
       st ← parse_loop junk (s ++ 0 :: r) (zlen s) m e (S (length (s ++ 0 :: r)))
              (mk_parser (zlen (take_while is_space s)) false (replicate 2048 0) 0 (replicate (Z.to_nat (m + 1)) None) 0 env0 0 false);
       env ← (match ps_env st with Some e => e ← aset e (ps_env_i st) None; Ok (Some e) | None => Ok None end);
       Ok (Some (ps_argv st, ps_argc st, env))) =
    Ok (Some (args_of (read_words s) (S k), zlen (read_words s), env0)).
Proof.
  intros Hp Hne Hlast Hlen Hm Hn Heq. pose proof (take_drop_while is_space s) as Hs.
  set (u := take_while is_space s) in *. set (t := drop_while is_space s) in *.
  assert (Hw : read_words s = read_from false true None t) by (symmetry; apply words_space).
  assert (Htp : Forall printable t) by (rewrite <- Hs, Forall_app in Hp; apply Hp).
  assert (Ht : t <> []).
  { intros Et. destruct (exists_last_or_nil s) as [->|(s0 & x & Hx)]; [done|]. apply Hlast.
    pose proof (take_while_all is_space s) as Hall. fold u in Hall. rewrite Et, app_nil_r in Hs.
    rewrite Hs, Hx, Forall_app in Hall. rewrite Hx, last_snoc.
    destruct Hall as [_ [Hxs _]%Forall_cons]. unfold is_space in Hxs. f_equal. lia. }
  pose proof (head_drop_space s : head t <> _) as Hh. clearbody u t. subst s. rewrite <- app_assoc.
  assert (Hat : at_line m env0 u t r [] None
    (mk_parser (zlen u) false (replicate 2048 0) 0 (replicate (Z.to_nat (m + 1)) None) 0 env0 0 false)).
  { split_and!; try done; [|rewrite zlen_app in Hlen; change (default [] None) with (@nil Z); rewrite zlen_nil; pose proof (zlen_nonneg u); lia |
      by right]. pose proof (zlen_nonneg (read_words (u ++ t))).
    split; try done; [by exists (replicate 2048 0) | | by right]. exists (Z.to_nat m). cbn [ps_argv].
    split; [|rewrite zlen_nil; lia]. change (args_of [] (S (Z.to_nat m))) with (replicate (A := option (list Z)) (S (Z.to_nat m)) None). f_equal. lia. }
  destruct (parse_loop_spec junk m e env0 (S (length (u ++ t ++ 0 :: r))) u t r [] None _ Hat) as (st' & w' & Hl & Hr);
    [rewrite !length_app; lia | by rewrite Hw in * ..|]. rewrite Hl. clear Hl Hat.
  destruct Hr as [_ _ (k & Hv & _) Hac [He Hi] _]. exists k.
  destruct t as [|c t]; [done|]. cbn [app]. rewrite aget_mid. cbn [mbind res_bind].
  apply Forall_cons in Htp as [Hc _]. replace (c =? 0) with false by (unfold printable in Hc; lia).
  rewrite Hv, Hac, He, Hi, Hw. cbn [app ps_quote]. destruct Hn as [->|(n & ->)]; done.
Qed.

Lemma parse_line junk s tr r :
  Forall printable s -> s <> [] -> last s <> Some SPACE -> Forall ends_line tr -> zlen s < 2048 ->
  (forall w, head (read_words s) = Some w -> has w EQUALS = false) ->
  exists k env, no_env env /\ parse_command_line junk (s ++ tr ++ 0 :: r) = Ok (Some (args_of (read_words s) (S k), zlen (read_words s), env)).
Proof.
  intros Hp Hne Hlast Htr Hlen Heq. destruct (exists_last_or_nil s) as [->|(s0 & x & Hs)]; [done|].
  rewrite Hs, last_snoc in Hlast.
  assert (Hpx : printable x) by (rewrite Hs, Forall_app in Hp; destruct Hp as [_ Hp]; by inversion Hp).
  assert (Hok : Forall char_ok (s ++ tr)).
  { apply Forall_app. split; [by apply printable_chars|]. eapply Forall_impl; [done|]. intros c [->| ->]; done. }
  assert (Hc : cstr (s ++ tr ++ 0 :: r) (s ++ tr)) by (exists r; by rewrite <- app_assoc).
  unfold parse_command_line. rewrite (strlen_spec _ _ Hc). cbn [mbind res_bind].
  destruct (count_args_spec (S (length (s ++ tr ++ 0 :: r))) [] (s ++ tr) r 1 0 Hok) as (e & He & Hle).
  { rewrite !length_app. cbn. lia. }
  cbn [app] in He. rewrite <- app_assoc in He. change (zlen []) with 0 in He. rewrite He. cbn [mbind res_bind]. clear He.
  set (m := 1 + runs false (s ++ tr)). set (env0 := if 0 <? e then Some _ else None).
  pose proof (trim_end_spec (S (length (s ++ tr ++ 0 :: r))) s0 x tr r) as Ht. rewrite <- Hs in Ht. rewrite Ht;
    [|congruence|unfold printable, NEWLINE in *; lia|done|rewrite !length_app; lia]. cbn [mbind res_bind]. clear Ht.
  set (r' := tail (replicate (length tr) 0 ++ 0 :: r)).
  replace (replicate (length tr) 0 ++ 0 :: r) with (0 :: r') by (subst r'; by destruct tr).
  rewrite (strlen_spec _ s) by (exists r'; split; [done | by apply printable_chars]). cbn [mbind res_bind].
  rewrite (skip_blank_spec _ [] s r') by (done || rewrite length_app; cbn; lia). cbn [mbind res_bind app].
  assert (Hw : zlen (read_words s) <= m).
  { etrans; [apply (words_runs false true None false); done|]. subst m. pose proof (runs_app false s tr). lia. }
  assert (Hn : no_env env0).
  { subst env0. destruct (0 <? e); [right; exists (Z.to_nat e); do 2 f_equal; lia | by left]. }
  destruct (parse_text junk s r' m e env0) as (k & Hk); try done; [by rewrite Hs, last_snoc|]. by exists k, env0.
Qed.

(** Splitting a line: on a line of printable characters of less than 2048 bytes, with no [#] right after a closing quotation mark (the argument before it
    would be lost, [eshell_hash_drops]), whatever spaces and newlines end it,
    [parse_command_line] gives the arguments the line means, each in a string of its own, with their number and NULL
    after the last; no assertion fails and nothing outside of the arrays is used.  The first argument must not be an
    assignment to a variable. *)
Theorem parse_command_line_correct junk s tr r :
  Forall printable s -> s <> [] -> last s <> Some SPACE -> Forall ends_line tr -> zlen s < 2048 -> no_hash_after_quote s ->
  (forall w, head (words s) = Some w -> has w EQUALS = false) ->
  exists k env, no_env env /\
    parse_command_line junk (s ++ tr ++ 0 :: r) = Ok (Some (args_of (words s) (S k), zlen (words s), env)).
Proof. intros Hp Hne Hlast Htr Hlen Hh. rewrite <- (read_words_words s Hh). by apply parse_line. Qed.

(** A line with quotation marks around a space and around nothing, and a comment. *)
Definition demo_line : list Z := chars "ls " ++ quoted (chars "a b") ++ chars " c#d " ++ quoted [] ++ chars " # e".

Lemma parse_command_line_witness :
  words demo_line = [chars "ls"; chars "a b"; chars "c#d"; []] /\
  exists k env, no_env env /\
    parse_command_line 0 (demo_line ++ [NEWLINE] ++ [0]) = Ok (Some (args_of (words demo_line) (S k), zlen (words demo_line), env)).
Proof.
  split; [reflexivity|]. apply (parse_command_line_correct 0 demo_line [NEWLINE] []).
  - apply printable_check. vm_compute. reflexivity.
  - vm_compute. discriminate.
  - vm_compute. discriminate.
  - constructor; [by right | constructor].
  - vm_compute. reflexivity.
  - vm_compute. reflexivity.
  - intros w. vm_compute. intros [= <-]. reflexivity.
Defined.

(** ** Writing arguments down *)
(** The arguments in quotation marks, separated by spaces. *)
Fixpoint unparse (ws : list (list Z)) : list Z :=
  match ws with
  | [] => []
  | [w] => quoted w
  | w :: ws => quoted w ++ SPACE :: unparse ws
  end.

Lemma words_quoted w t : Forall printable w -> has w QUOTE = false ->
  read_from false true None (quoted w ++ t) = read_from false true (Some w) t.
Proof.
  intros Hp Hq. unfold quoted. cbn [app read_from QUOTE Z.eqb HASH negb andb from_option]. rewrite <- app_assoc.
  rewrite words_text; [..|destruct w as [|c w]; [done | by rewrite andb_false_r]]; [|done|].
  - destruct w; cbn [app read_from QUOTE Z.eqb HASH negb andb from_option id]; done.
  - apply Forall_forall. intros c Hc. rewrite Forall_forall in Hp. rewrite is_text_printable by auto.
    cbn [negb]. rewrite andb_false_r. cbn. rewrite andb_true_r. apply negb_true_iff, Z.eqb_neq. intros ->.
    apply has_elem in Hc. congruence.
Qed.

Lemma words_unparse ws : Forall (fun w => Forall printable w /\ has w QUOTE = false) ws -> read_words (unparse ws) = ws.
Proof.
  unfold read_words. induction 1 as [|w ws [Hp Hq] Hws IH]; [done|]. destruct ws as [|v ws].
  - cbn [unparse]. rewrite <- (app_nil_r (quoted w)), words_quoted by done. done.
  - change (unparse (w :: v :: ws)) with (quoted w ++ SPACE :: unparse (v :: ws)). rewrite words_quoted by done.
    cbn [read_from SPACE Z.eqb HASH QUOTE negb andb]. by rewrite IH.
Qed.

Lemma unparse_printable ws : Forall (fun w => Forall printable w /\ has w QUOTE = false) ws -> Forall printable (unparse ws).
Proof.
  assert (Hq : forall w, Forall printable w -> Forall printable (quoted w)).
  { intros w Hw. unfold quoted. constructor; [done|]. apply Forall_app. split; [done|]. by repeat constructor. }
  induction 1 as [|w ws [Hp _] Hws IH]; [constructor|]. destruct ws as [|v ws]; [by apply Hq|].
  apply Forall_app. split; [by apply Hq|]. by constructor.
Qed.

Lemma unparse_last ws : ws <> [] -> exists u, unparse ws = u ++ [QUOTE].
Proof.
  induction ws as [|w ws IH]; [done|]. intros _. destruct ws as [|v ws].
  - by exists (QUOTE :: w).
  - destruct IH as [u Hu]; [done|]. exists (quoted w ++ SPACE :: u).
    change (unparse (w :: v :: ws)) with (quoted w ++ SPACE :: unparse (v :: ws)). by rewrite Hu, <- app_assoc.
Qed.

(** C33: Arguments of printable characters without quotation marks, spaces and [#] included, can be passed to a program: written
    in quotation marks, [parse_command_line] reads them back.  The first one has no [=] (it would be an assignment), and all of them, as written, take less than 2048 bytes. *)
Theorem parse_quoted_roundtrip junk ws r :
  ws <> [] -> Forall (fun w => Forall printable w /\ has w QUOTE = false) ws ->
  (forall w, head ws = Some w -> has w EQUALS = false) -> zlen (unparse ws) < 2048 ->
  exists k env, no_env env /\
    parse_command_line junk (unparse ws ++ 0 :: r) = Ok (Some (args_of ws (S k), zlen ws, env)).
Proof.
  intros Hne Hws Heq Hlen. destruct (unparse_last ws Hne) as [u Hu].
  destruct (parse_line junk (unparse ws) [] r) as (k & env & He & Hk); rewrite ?words_unparse in * by done; eauto using unparse_printable.
  - rewrite Hu. by destruct u.
  - by rewrite Hu, last_snoc.
Qed.

Lemma parse_quoted_witness :
  exists k env, no_env env /\
    parse_command_line 0 (unparse [chars "echo"; chars "#a  b"; []] ++ [0]) =
      Ok (Some (args_of [chars "echo"; chars "#a  b"; []] (S k), 3, env)).
Proof.
  apply (parse_quoted_roundtrip 0 [chars "echo"; chars "#a  b"; []] []).
  - discriminate.
  - repeat (constructor; [split; [by apply printable_check | reflexivity]|]). constructor.
  - intros w. vm_compute. intros [= <-]. reflexivity.
  - vm_compute. reflexivity.
Defined.

(** ** Where the code leaves its arrays *)

(** [A=1 ls]: the block for a variable of the child is allocated with [strlen(arg + 1)] bytes, two too few. *)
Theorem eshell_variable_overflows : parse_command_line 0 (lit "A=1 ls") = Undef.
Proof. vm_compute. reflexivity. Qed.
(** A line of spaces or an empty one (the return key): the loop that trims the end looks at the byte before the line. *)
Theorem eshell_empty_line : parse_command_line 0 (lit " ") = Undef /\ parse_command_line 0 (lit "") = Undef.
Proof. vm_compute. split; reflexivity. Qed.
(** An equals sign after a run of spaces is not counted, so that the assertion on the number of variables fails. *)
Theorem eshell_equals_not_counted : parse_command_line 0 (lit " =x") = Panic.
Proof. vm_compute. reflexivity. Qed.
(** An argument of 2048 characters does not fit [arg]. *)
Theorem eshell_long_argument : parse_command_line 0 (replicate 2048 97 ++ [0]) = Undef.
Proof. vm_compute. reflexivity. Qed.
(** A [#] after a quotation mark drops the argument before it. *)
Theorem eshell_hash_drops :
  parse_command_line 0 (chars "echo " ++ quoted (chars "a") ++ lit "#b") = Ok (Some ([Some (lit "echo"); None; None], 1, None)).
Proof. vm_compute. reflexivity. Qed.
