(* ===== verification/EshellRun.v ===== *)
(** * The shell: from a line to a running program

    Redirections are taken out in one pass over the arguments ([redir_spec]); variables are replaced by their values
    ([expand]); the child opens the files, sets the variables and executes the arguments.  [eshell_command_correct] puts
    the parts together. *)
From S2P Require Import Prelude CString Format Eshell EshellParse.
From stdpp Require Import strings.
#[local] Open Scope Z_scope.

(** ** Redirections *)
Definition is_op (w : list Z) : bool :=
  bool_decide (w = chars ">") || bool_decide (w = chars ">>") || bool_decide (w = chars "<")
  || bool_decide (w = chars "2>") || bool_decide (w = chars "2>>").

(** [op target] added to the redirections so far. *)
Definition apply_redir (op t : list Z) (r : redirs) : redirs :=
  if decide (op = chars ">") then mk_redirs (redir_stdin r) (Some (t ++ [0])) (redir_stderr r) false (redir_append_stderr r)
  else if decide (op = chars ">>") then mk_redirs (redir_stdin r) (Some (t ++ [0])) (redir_stderr r) true (redir_append_stderr r)
  else if decide (op = chars "<") then
    mk_redirs (Some (t ++ [0])) (redir_stdout r) (redir_stderr r) (redir_append_stdout r) (redir_append_stderr r)
  else
    mk_redirs (redir_stdin r) (redir_stdout r) (if decide (t = chars "&1") then ToStdout else ErrFile (t ++ [0]))
      (redir_append_stdout r) (bool_decide (op = chars "2>>")).

(** One pass over the arguments: an operator takes the argument after it along; [kept] are the arguments so far. *)
Fixpoint redir_spec (kept ws : list (list Z)) (r : redirs) : option (list (list Z) * redirs) :=
  match ws with
  | [] => Some (kept, r)
  | w :: ws =>
      if is_op w then
        match kept, ws with
        | _ :: _, t :: ws => redir_spec kept ws (apply_redir w t r)
        | _, _ => None
        end
      else redir_spec (kept ++ [w]) ws r
  end.

Lemma streq_spec w t : Forall char_ok w -> cstr (lit t) (chars t) -> streq (w ++ [0]) t = Ok (bool_decide (w = chars t)).
Proof.
  intros Hw Ht. unfold streq. rewrite (strcmp_eq_0 _ _ w (chars t)) by (done || by exists []). cbn [mbind res_bind].
  case_bool_decide; case_decide; try done. by destruct (lex w (chars t)).
Qed.

Lemma read_term w : Forall char_ok w -> read_str (w ++ [0]) = Ok w.
Proof. intros. apply read_str_spec. by exists []. Qed.

Lemma is_redir_spec w : Forall char_ok w -> is_redir (w ++ [0]) = Ok (is_op w).
Proof. intros. unfold is_redir. rewrite !streq_spec by (done || by apply lit_check). done. Qed.

Lemma set_redir_spec op t r :
  is_op op = true -> Forall char_ok t -> set_redir (op ++ [0]) (t ++ [0]) r = Ok (apply_redir op t r).
Proof.
  intros Hop Ht. assert (Hd : std_strdup (t ++ [0]) = Ok (t ++ [0])) by (unfold std_strdup; by rewrite read_term).
  unfold is_op in Hop. rewrite !orb_true_iff, !bool_decide_eq_true in Hop.
  destruct Hop as [[[[->| ->]| ->]| ->]| ->]; unfold set_redir; cbn [chars app aget Z.ltb Z.compare deref Z.to_nat];
    cbn; rewrite ?streq_spec by (done || by apply lit_check); rewrite Hd; cbn [mbind res_bind fmap res_fmap]; try done.
  all: by destruct (bool_decide_reflect (t = chars "&1")) as [->|]; unfold apply_redir; cbn; rewrite ?decide_True by done; rewrite ?decide_False by done.
Qed.

(** The arguments after the two that are removed move down, with the NULL that ends them. *)
Lemma shift_args_spec pre a b l R :
  exists R', shift_args (length l) (pre ++ a :: b :: l ++ R) (zlen pre) = Ok (pre ++ l ++ R').
Proof.
  revert pre a b. induction l as [|x l IH]; intros pre a b; cbn [shift_args length app]; [by exists (a :: b :: R)|].
  replace (aget (pre ++ a :: b :: x :: l ++ R) (zlen pre + 2)) with (Ok x).
  2: { pose proof (aget_mid (pre ++ [a; b]) (l ++ R) x) as H. rewrite zlen_app, <- app_assoc in H. symmetry. exact H. }
  cbn [mbind res_bind]. rewrite aset_mid. cbn [mbind res_bind].
  destruct (IH (pre ++ [x]) b x) as [R' HR]. rewrite zlen_snoc, <- !app_assoc in HR. exists R'. exact HR.
Qed.

(** [argv] holds [ws] and a NULL; what is behind it does not matter. *)
Definition holds (argv : list (option (list Z))) (ws : list (list Z)) : Prop := exists R, argv = args_of ws 1 ++ R.

Lemma holds_get argv pre w ws :
  holds argv (pre ++ w :: ws) -> aget argv (zlen pre) = Ok (Some (w ++ [0])).
Proof.
  intros [R ->]. unfold args_of. rewrite fmap_app, fmap_cons, <- !app_assoc. cbn [app].
  set (f := fun w : list Z => Some (w ++ [0])). pose proof (aget_mid (f <$> pre) ((f <$> ws) ++ replicate 1 None ++ R) (f w)) as H.
  unfold zlen in *. by rewrite length_fmap in H.
Qed.

Lemma holds_shift argv kept op t ws :
  holds argv (kept ++ op :: t :: ws) ->
  exists argv', shift_args (S (length ws)) argv (zlen kept) = Ok argv' /\ holds argv' (kept ++ ws).
Proof.
  intros [R ->]. unfold args_of, holds. rewrite fmap_app, !fmap_cons, <- !app_assoc. cbn [app replicate].
  set (f := fun w : list Z => Some (w ++ [0])).
  destruct (shift_args_spec (f <$> kept) (f op) (f t) ((f <$> ws) ++ [None]) R) as [R' H].
  rewrite length_app, length_fmap, Nat.add_1_r in H. unfold zlen in *. rewrite length_fmap in H.
  rewrite <- (app_assoc _ [None] R) in H. cbn [app] in H. eexists. split; [exact H|].
  exists R'. unfold args_of. rewrite fmap_app, <- !app_assoc. done.
Qed.

(** Arguments that are no operators are passed over. *)
Lemma redir_scan fuel argv pre mid ws r :
  holds argv (pre ++ mid ++ ws) -> Forall (Forall char_ok) mid -> Forall (fun w => is_op w = false) mid ->
  redir_loop (length mid + fuel) argv (zlen (pre ++ mid ++ ws)) (zlen pre) r =
  redir_loop fuel argv (zlen (pre ++ mid ++ ws)) (zlen (pre ++ mid)) r.
Proof.
  revert pre. induction mid as [|w mid IH]; intros pre Hh Hc Ho; [by rewrite app_nil_r|].
  apply Forall_cons in Hc as [Hw Hc]. apply Forall_cons in Ho as [How Ho]. cbn [length Nat.add redir_loop app].
  replace (zlen pre <? zlen (pre ++ w :: mid ++ ws)) with true
    by (rewrite zlen_app, zlen_cons; pose proof (zlen_nonneg (mid ++ ws)); lia).
  rewrite (holds_get argv pre w (mid ++ ws)) by done. cbn [mbind res_bind].
  rewrite is_redir_spec by done. cbn [mbind res_bind]. rewrite How.
  specialize (IH (pre ++ [w])). rewrite zlen_snoc, <- !app_assoc in IH. cbn [app] in IH. by apply IH.
Qed.

Lemma redir_loop_spec N fuel argv kept ws r :
  holds argv (kept ++ ws) -> Forall (Forall char_ok) (kept ++ ws) -> Forall (fun w => is_op w = false) kept ->
  (length (kept ++ ws) < N)%nat -> (length ws * N < fuel)%nat ->
  match redir_spec kept ws r with
  | None => redir_loop fuel argv (zlen (kept ++ ws)) (zlen kept) r = Ok None
  | Some (ws', r') => exists argv', holds argv' ws' /\
      redir_loop fuel argv (zlen (kept ++ ws)) (zlen kept) r = Ok (Some (argv', zlen ws', r'))
  end.
Proof.
  remember (length ws) as n eqn:Hn. revert fuel argv kept ws r Hn.
  induction n as [n IH] using lt_wf_ind. intros fuel argv kept ws r -> Hh Hc Hk HN Hf.
  destruct fuel as [|fuel]; [lia|]. destruct ws as [|w ws]; cbn [redir_spec].
  { exists argv. cbn [redir_loop]. rewrite app_nil_r in *. by rewrite Z.ltb_irrefl. }
  pose proof (zlen_nonneg ws). pose proof (zlen_nonneg kept).
  apply Forall_app in Hc as Hc'. destruct Hc' as [Hck [Hw Hcw]%Forall_cons].
  cbn [redir_loop]. replace (zlen kept <? zlen (kept ++ w :: ws)) with true by (rewrite zlen_app, zlen_cons; lia).
  rewrite (holds_get argv kept w ws) by done. cbn [mbind res_bind]. rewrite is_redir_spec by done. cbn [mbind res_bind].
  destruct (is_op w) eqn:Ew.
  - destruct kept as [|k0 kept]; [done|]. replace (zlen (k0 :: kept) =? 0) with false by (rewrite zlen_cons; pose proof (zlen_nonneg kept); lia).
    destruct ws as [|t ws].
    { replace (zlen ((k0 :: kept) ++ [w]) <=? zlen (k0 :: kept) + 1) with true by (rewrite zlen_snoc; lia). done. }
    replace (zlen ((k0 :: kept) ++ w :: t :: ws) <=? zlen (k0 :: kept) + 1) with false
      by (rewrite zlen_app, !zlen_cons in *; pose proof (zlen_nonneg ws); lia).
    pose proof (holds_get argv ((k0 :: kept) ++ [w]) t ws) as Ht. rewrite zlen_snoc, <- app_assoc in Ht.
    rewrite Ht by done. cbn [mbind res_bind deref]. apply Forall_cons in Hcw as [Hct Hcw]. rewrite set_redir_spec by done.
    destruct (holds_shift argv (k0 :: kept) w t ws Hh) as (argv' & Hs & Hh').
    replace (Z.to_nat (zlen ((k0 :: kept) ++ w :: t :: ws) - 1 - zlen (k0 :: kept))) with (S (length ws))
      by (rewrite zlen_app, !zlen_cons; unfold zlen; lia).
    cbn [mbind res_bind]. rewrite Hs. cbn [mbind res_bind].
    replace (zlen ((k0 :: kept) ++ w :: t :: ws) - 2) with (zlen ((k0 :: kept) ++ ws)) by (rewrite !zlen_app, !zlen_cons; lia).
    rewrite !length_app in *. cbn [length] in *.
    replace fuel with (length (k0 :: kept) + (fuel - length (k0 :: kept)))%nat by (cbn [length]; nia).
    pose proof (redir_scan (fuel - length (k0 :: kept)) argv' [] (k0 :: kept) ws (apply_redir w t r) Hh' Hck Hk) as Hscan.
    cbn [app] in Hscan. change (zlen []) with 0 in Hscan. cbn [app]. rewrite Hscan.
    apply (IH (length ws)); try done; [lia | by apply Forall_app | rewrite length_app; cbn [length]; lia | cbn [length]; nia].
  - replace (zlen kept + 1) with (zlen (kept ++ [w])) by (by rewrite zlen_snoc).
    replace (kept ++ w :: ws) with ((kept ++ [w]) ++ ws) in * by (by rewrite <- app_assoc). cbn [length] in *.
    apply (IH (length ws)); try done; [lia | by apply Forall_snoc | nia].
Qed.

(** Redirections: the loop that starts over after every operator computes what one pass over the arguments gives. *)
Lemma take_redirs_spec argv ws :
  holds argv ws -> Forall (Forall char_ok) ws ->
  match redir_spec [] ws no_redirs with
  | None => take_redirs argv (zlen ws) = Ok None
  | Some (ws', r) => exists argv', holds argv' ws' /\ take_redirs argv (zlen ws) = Ok (Some (argv', zlen ws', r))
  end.
Proof.
  intros Hh Hc. unfold take_redirs.
  apply (redir_loop_spec (S (length ws)) _ argv [] ws no_redirs); try done; cbn [app]; unfold zlen; [lia|]. rewrite Nat2Z.id. lia.
Qed.

(** ** Replacing text *)

(** [strlcat] to an empty string that has room for all of [s]. *)
Lemma strlcat_empty r src s size :
  cstr src s -> zlen s < size -> zlen s <= zlen r -> exists r', strlcat (0 :: r) src size = Ok (s ++ 0 :: r', zlen s) /\ zlen r' = zlen r - zlen s.
Proof.
  intros Hs Hsz Hr. unfold strlcat. cbn [strlen strlen_from Z.eqb]. rewrite (strlen_spec _ _ Hs). cbn [mbind res_bind strlen strlen_from Z.eqb].
  pose proof (zlen_nonneg s). replace (0 <? size) with true by lia. cbn [andb]. rewrite Z.sub_0_r, Z.add_0_l.
  destruct (Z.ltb_spec 0 (size - 1)).
  - replace (size <=? zlen s) with false by lia. pose proof (cstr_len _ _ Hs). unfold zlen in *.
    unfold store_at, padd. change (Z.to_nat 0) with 0%nat. rewrite drop_0, Nat2Z.id, memcpy_spec by (cbn [length]; lia).
    cbn [mbind res_bind app take]. rewrite ?Z.add_0_l.
    rewrite (take_cstr src s), firstn_all by (done || lia).
    destruct (drop (length s) (0 :: r)) as [|x r'] eqn:E.
    { apply (f_equal length) in E. rewrite length_drop in E. cbn [length] in E. lia. }
    pose proof (aset_mid s r' x 0) as Ha. unfold zlen in Ha. rewrite Ha. cbn [mbind res_bind].
    exists r'. split; [done|]. apply (f_equal length) in E. rewrite length_drop in E. cbn [length] in E. lia.
  - destruct s; [|rewrite zlen_cons in *; pose proof (zlen_nonneg s); lia]. exists r. cbn. by rewrite Z.sub_0_r.
Qed.

Lemma find_sub_0 old t : find_sub (old ++ t) old 0 = Some 0.
Proof. destruct (old ++ t) eqn:E; cbn; rewrite bool_decide_true by (rewrite <- E; by apply prefix_app_r); done. Qed.

(** What stands at the start of the buffer is replaced, if the result fits. *)
Lemma str_replace_spec junk bo bn old new t r size :
  cstr bo old -> cstr bn new -> Forall char_ok t -> size <= zlen (old ++ t ++ 0 :: r) -> zlen new + zlen t <= size - 1 ->
  exists r', str_replace junk (old ++ t ++ 0 :: r) bo bn size = Ok (new ++ t ++ 0 :: r') /\
    zlen (new ++ t ++ 0 :: r') = zlen (old ++ t ++ 0 :: r).
Proof.
  intros Ho Hn Ht Hsz Hfit. pose proof (cstr_chars _ _ Ho) as Hoc. pose proof (zlen_nonneg new). pose proof (zlen_nonneg t).
  assert (Hb : cstr (old ++ t ++ 0 :: r) (old ++ t)) by (exists r; rewrite <- app_assoc; split; [done | by apply Forall_app]).
  unfold str_replace, std_strstr. rewrite (read_str_spec _ _ Hb), (read_str_spec _ _ Ho). cbn [mbind res_bind].
  rewrite find_sub_0. rewrite (strlen_spec _ _ Hb), (strlen_spec _ _ Ho), (strlen_spec _ _ Hn). cbn [mbind res_bind].
  rewrite zlen_app. destruct (Z.ltb_spec (size - 1) (zlen old + zlen t + (zlen new - zlen old))); [lia|].
  replace (zlen old + zlen t - (0 + zlen old) + 1) with (zlen t + 1) by lia. rewrite !Z.add_0_l.
  replace (padd (old ++ t ++ 0 :: r) (zlen old)) with (t ++ 0 :: r) by (unfold padd, zlen; by rewrite Nat2Z.id, drop_app_length).
  rewrite (strlcpy_exact junk _ t) by (by exists r). cbn [mbind res_bind].
  replace (store_at (old ++ t ++ 0 :: r) 0 _) with (Ok (new ++ 0 :: drop (S (length new)) (old ++ t ++ 0 :: r))).
  2: { unfold store_at, padd. change (Z.to_nat 0) with 0%nat. rewrite drop_0, Z.sub_0_r, (strlcpy_spec _ bn new) by (done || lia).
       cbn [fmap res_fmap mbind res_bind fst app take]. rewrite take_0, (take_ge new), Nat.min_r by (unfold zlen in *; lia). done. }
  cbn [mbind res_bind].
  set (rest := drop (S (length new)) (old ++ t ++ 0 :: r)).
  assert (Hrest : zlen rest = zlen (old ++ t ++ 0 :: r) - zlen new - 1) by (unfold rest, zlen in *; rewrite length_drop; lia).
  unfold store_at, padd. replace (Z.to_nat (zlen new)) with (length new) by (unfold zlen; lia). rewrite drop_app_length, take_app_length.
  destruct (strlcat_empty rest (t ++ [0]) t (size - zlen new)) as (r' & -> & Hr'); [by exists [] | lia | lia |].
  cbn [fmap res_fmap mbind res_bind fst]. exists r'. split; [done|]. rewrite zlen_app, zlen_app, zlen_cons. lia.
Qed.

(** ** Variables *)

(** A line before its variables are replaced: text and [$name]s. *)
Inductive item := Text (t : list Z) | Var (n : list Z).
Definition spell_item (i : item) : list Z := match i with Text t => t | Var n => DOLLAR :: n end.
Definition spell (l : list item) : list Z := concat (spell_item <$> l).
(** What it stands for. *)
Definition expand_item (env : gmap (list Z) (list Z)) (i : item) : list Z :=
  match i with Text t => t | Var n => default [] (env !! n) end.
Definition expand (env : gmap (list Z) (list Z)) (l : list item) : list Z := concat (expand_item env <$> l).
(** The room it needs. *)
Fixpoint width (env : gmap (list Z) (list Z)) (l : list item) : Z :=
  match l with
  | [] => 0
  | i :: l => Z.max (zlen (spell_item i)) (zlen (expand_item env i)) + width env l
  end.

Definition name_char (c : Z) : bool := isalnum c || (c =? UNDERSCORE).
(** Text and values have no [$] of their own and do not end in a backslash. *)
Definition plain (s : list Z) : Prop := Forall char_ok s /\ has s DOLLAR = false /\ last s <> Some BACKSLASH.
(** Variables are set, to values that are not empty, and their names end where the next item starts. *)
Fixpoint template_ok (env : gmap (list Z) (list Z)) (l : list item) : Prop :=
  match l with
  | [] => True
  | Text t :: l => plain t /\ template_ok env l
  | Var n :: l =>
      n <> [] /\ Forall (fun c => name_char c = true) n /\ zlen n <= 253 /\
      (exists v, env !! n = Some v /\ v <> [] /\ plain v) /\
      (forall c, head (spell l) = Some c -> name_char c = false) /\ template_ok env l
  end.

Lemma name_char_ok c : name_char c = true -> char_ok c /\ c <> DOLLAR.
Proof.
  unfold name_char, isalnum, isdigit, char_ok, UNDERSCORE, DOLLAR. intros H.
  repeat match goal with H : _ || _ = true |- _ => apply orb_true_iff in H as [H|H] end; bool_to_prop; lia.
Qed.

Lemma names_ok n : Forall (fun c => name_char c = true) n -> Forall char_ok n /\ has n DOLLAR = false.
Proof.
  intros H. split.
  - eapply Forall_impl; [done|]. intros c Hc. by apply name_char_ok.
  - destruct (has n DOLLAR) eqn:E; [|done]. apply has_elem in E. rewrite Forall_forall in H.
    by destruct (name_char_ok _ (H _ E)).
Qed.

Lemma read_name k n c rest prev :
  Forall (fun c => name_char c = true) n -> name_char c = false -> (n = [] -> prev <> Some DOLLAR /\ prev <> None) ->
  (length n <= k)%nat -> read_varname k (n ++ c :: rest) prev = Ok n.
Proof.
  intros Hn Hc. revert k prev. induction Hn as [|x n Hx Hn IH]; intros [|k] prev Hp Hk; cbn [length] in Hk; try done; try lia;
    cbn [read_varname app load head deref tail mbind res_bind].
  - change (isalnum c || (c =? UNDERSCORE)) with (name_char c). rewrite Hc. cbn [orb].
    destruct (Hp eq_refl) as [Hp1 Hp2]. destruct prev as [p|]; [|done].
    replace (p =? DOLLAR) with false by (symmetry; apply Z.eqb_neq; congruence). by rewrite andb_false_r.
  - change (isalnum x || (x =? UNDERSCORE)) with (name_char x). rewrite Hx. cbn [orb]. rewrite IH; [done| |lia].
    intros _. destruct (name_char_ok x Hx). split; [congruence|done].
Qed.

Lemma read_varname_spec k n c rest :
  Forall (fun c => name_char c = true) n -> n <> [] -> name_char c = false -> (length n <= k)%nat ->
  read_varname (S k) (DOLLAR :: n ++ c :: rest) None = Ok (DOLLAR :: n).
Proof.
  intros Hn Hne Hc Hl. cbn [read_varname load head deref tail mbind res_bind]. change (isalnum DOLLAR || (DOLLAR =? UNDERSCORE)) with false.
  cbn [orb andb Z.eqb DOLLAR]. by rewrite read_name.
Qed.

Lemma no_pid n : has n DOLLAR = false -> Forall char_ok n -> std_strstr ((DOLLAR :: n) ++ [0]) (lit "$$") = Ok None.
Proof.
  intros Hd Hn. unfold std_strstr. rewrite read_term by (by constructor). cbn [mbind res_bind].
  change (read_str (lit "$$")) with (Ok [DOLLAR; DOLLAR]). cbn [mbind res_bind]. f_equal.
  assert (Hno : forall k, find_sub n [DOLLAR; DOLLAR] k = None).
  { clear Hn. induction n as [|x n IH]; intros k; cbn; rewrite bool_decide_false; try done.
    - by intros [l [=]].
    - apply IH. unfold has in *. cbn [existsb] in Hd. by apply orb_false_iff in Hd as [_ ?].
    - intros [l [= Hx _]]. subst x. discriminate Hd. }
  cbn [find_sub]. rewrite bool_decide_false; [apply Hno|]. intros [l [= Hl]]. subst n. done.
Qed.

Lemma spell_char_ok env l : template_ok env l -> Forall char_ok (spell l).
Proof.
  induction l as [|[t|n] l IH]; cbn; [by constructor| |]; rewrite ?Forall_cons, Forall_app.
  - intros [[? _] ?]. auto.
  - intros (_ & Hn & _ & _ & _ & ?). split; [done|]. split; [by apply names_ok | auto].
Qed.
Lemma spell_width env l : zlen (spell l) <= width env l.
Proof. induction l as [|i l IH]; cbn [width]; [done|]. change (spell (i :: l)) with (spell_item i ++ spell l). rewrite zlen_app. lia. Qed.

Lemma last_app_ne s t : last s <> Some BACKSLASH -> last t <> Some BACKSLASH -> last (s ++ t) <> Some BACKSLASH.
Proof. intros Hs Ht. rewrite last_app. by destruct (last t). Qed.

Lemma has_app s t c : has (s ++ t) c = has s c || has t c.
Proof. unfold has. apply existsb_app. Qed.

(** The first [$] after [d1] is the one after [d2]. *)
Lemma strchr_dollar d1 d2 l r :
  has d2 DOLLAR = false -> Forall char_ok (d2 ++ l) ->
  strchr (padd (d1 ++ d2 ++ l ++ 0 :: r) (zlen d1)) DOLLAR =
  Ok (index_of l DOLLAR (zlen d2)).
Proof.
  intros Hd Hok. unfold padd, zlen at 1. rewrite Nat2Z.id, drop_app_length.
  rewrite (strchr_spec _ (d2 ++ l)) by (done || (exists r; by rewrite <- app_assoc)). f_equal.
  change (zlen d2) with (0 + Z.of_nat (length d2)). generalize 0. clear Hok. induction d2 as [|x d2 IH]; intros k; cbn [app index_of length].
  - by rewrite Z.add_0_r.
  - unfold has in Hd. cbn [existsb] in Hd. apply orb_false_iff in Hd as [Hx Hd]. rewrite Z.eqb_sym in Hx. rewrite Hx, IH by done.
    f_equal. lia.
Qed.

(** The character before a [$] is not a backslash. *)
Lemma not_escaped d rest :
  last d <> Some BACKSLASH ->
  exists prev, (if 0 <? zlen d then aget (d ++ rest) (zlen d - 1) else Ok 0) = Ok prev /\ (0 <? zlen d) && (prev =? BACKSLASH) = false.
Proof.
  intros Hl. destruct (exists_last_or_nil d) as [->|(k & x & ->)]; [by exists 0|]. rewrite last_snoc in Hl.
  pose proof (zlen_nonneg k). rewrite zlen_snoc. replace (0 <? zlen k + 1) with true by lia.
  replace (zlen k + 1 - 1) with (zlen k) by lia. rewrite <- app_assoc. cbn [app]. rewrite aget_mid.
  exists x. split; [done|]. apply Z.eqb_neq. congruence.
Qed.

(** One round: the variable after [d1 ++ d2] is replaced by its value. *)
Lemma replace_var junk pid env size fuel d1 d2 n v rest r :
  has d2 DOLLAR = false -> last (d1 ++ d2) <> Some BACKSLASH -> Forall char_ok d2 -> Forall char_ok rest ->
  n <> [] -> Forall (fun c => name_char c = true) n -> zlen n <= 253 -> env !! n = Some v -> Forall char_ok v ->
  (forall c, head rest = Some c -> name_char c = false) ->
  zlen (d1 ++ d2 ++ (DOLLAR :: n) ++ rest ++ 0 :: r) = size -> zlen (d1 ++ d2) + zlen v + zlen rest <= size - 1 ->
  exists r', replace_loop junk pid env size (S fuel) (d1 ++ d2 ++ (DOLLAR :: n) ++ rest ++ 0 :: r) (zlen d1) =
      replace_loop junk pid env size fuel (d1 ++ d2 ++ v ++ rest ++ 0 :: r') (zlen (d1 ++ d2) + 1) /\
    zlen (d1 ++ d2 ++ v ++ rest ++ 0 :: r') = size.
Proof.
  intros Hd Hbs Hd2 Hrest Hne Hn Hl Hv Hvok Hnext Hsz Hfit. destruct (names_ok n Hn) as [Hnok Hnd].
  cbn [replace_loop]. pose proof (strchr_dollar d1 d2 ((DOLLAR :: n) ++ rest) r Hd) as Hs.
  rewrite <- (app_assoc (DOLLAR :: n)) in Hs. rewrite Hs.
  2: { rewrite !Forall_app, Forall_cons. split_and!; done. }
  cbn [mbind res_bind index_of app]. rewrite Z.eqb_refl. rewrite <- zlen_app.
  set (rest0 := rest ++ 0 :: r). destruct (not_escaped (d1 ++ d2) (DOLLAR :: n ++ rest0) Hbs) as (prev & Hp & Hpb).
  replace (d1 ++ d2 ++ DOLLAR :: n ++ rest0) with ((d1 ++ d2) ++ DOLLAR :: n ++ rest0) by (by rewrite app_assoc).
  rewrite Hp. cbn [mbind res_bind]. rewrite Hpb.
  unfold store_at. replace (padd ((d1 ++ d2) ++ DOLLAR :: n ++ rest0) (zlen (d1 ++ d2))) with (DOLLAR :: n ++ rest0)
    by (unfold padd, zlen; by rewrite Nat2Z.id, drop_app_length).
  replace (take (Z.to_nat (zlen (d1 ++ d2))) ((d1 ++ d2) ++ DOLLAR :: n ++ rest0)) with (d1 ++ d2)
    by (unfold zlen; by rewrite Nat2Z.id, take_app_length).
  assert (Hvn : read_varname 254 (DOLLAR :: n ++ rest0) None = Ok (DOLLAR :: n)).
  { unfold rest0. destruct rest as [|c rest]; cbn [app]; apply read_varname_spec; try done; try (unfold zlen in Hl; lia). by apply Hnext. }
  rewrite Hvn. cbn [mbind res_bind]. replace (zlen (DOLLAR :: n) =? 1) with false
    by (destruct n; [done|]; rewrite !zlen_cons; pose proof (zlen_nonneg n); lia).
  rewrite (no_pid n Hnd Hnok). cbn [mbind res_bind tail]. rewrite Hv. cbn [from_option id].
  rewrite app_assoc, zlen_app in Hsz.
  destruct (str_replace_spec junk ((DOLLAR :: n) ++ [0]) (v ++ [0]) (DOLLAR :: n) v rest r (size - zlen (d1 ++ d2)))
    as (r' & Hr & Hz); [by exists []; split; [|constructor] | by exists [] | done | lia | lia |].
  unfold rest0. change (DOLLAR :: n ++ rest ++ 0 :: r) with ((DOLLAR :: n) ++ rest ++ 0 :: r). rewrite Hr. cbn [mbind res_bind].
  exists r'. rewrite <- !app_assoc. split; [done|]. rewrite (app_assoc d1 d2), zlen_app. lia.
Qed.

Lemma replace_loop_spec junk pid env size l : forall fuel d1 d2 r,
  template_ok env l -> has d2 DOLLAR = false -> last (d1 ++ d2) <> Some BACKSLASH -> Forall char_ok (d1 ++ d2) ->
  zlen (d1 ++ d2 ++ spell l ++ 0 :: r) = size -> zlen (d1 ++ d2) + width env l <= size - 1 -> (length (spell l) < fuel)%nat ->
  exists r', replace_loop junk pid env size fuel (d1 ++ d2 ++ spell l ++ 0 :: r) (zlen d1) =
      Ok (d1 ++ d2 ++ expand env l ++ 0 :: r') /\ zlen (d1 ++ d2 ++ expand env l ++ 0 :: r') = size.
Proof.
  induction l as [|[t|n] l IH]; intros fuel d1 d2 r Hl Hd Hbs Hok Hsz Hw Hf.
  - destruct fuel as [|fuel]; [lia|]. cbn [replace_loop spell expand fmap list_fmap concat app] in *. exists r.
    pose proof (strchr_dollar d1 d2 [] r Hd) as Hs. cbn [app] in Hs. rewrite Hs; [done|].
    rewrite app_nil_r. by apply Forall_app in Hok as [_ ?].
  - destruct Hl as [(Htok & Htd & Htb) Hl]. change (spell (Text t :: l)) with (t ++ spell l) in *. rewrite length_app in Hf.
    change (expand env (Text t :: l)) with (t ++ expand env l). cbn [width spell_item expand_item] in Hw. rewrite Z.max_id in Hw.
    rewrite <- app_assoc in Hsz |- *. rewrite (app_assoc d2 t) in Hsz |- *.
    destruct (IH fuel d1 (d2 ++ t) r) as (r' & Hr & Hz); try done.
    + by rewrite has_app, Hd.
    + rewrite app_assoc. by apply last_app_ne.
    + rewrite app_assoc. by apply Forall_app.
    + rewrite app_assoc, zlen_app. lia.
    + lia.
    + exists r'. rewrite <- !app_assoc in *. done.
  - destruct Hl as (Hne & Hn & Hnl & (v & Hv & Hvne & Hvok & Hvd & Hvb) & Hnext & Hl). destruct fuel as [|fuel]; [lia|].
    change (spell (Var n :: l)) with ((DOLLAR :: n) ++ spell l) in *. rewrite length_app in Hf. cbn [length] in Hf.
    assert (He : expand env (Var n :: l) = v ++ expand env l) by (unfold expand; cbn; by rewrite Hv). rewrite He.
    cbn [width spell_item expand_item] in Hw. rewrite Hv in Hw. cbn [from_option id] in Hw.
    pose proof (spell_width env l). pose proof (spell_char_ok env l Hl). apply Forall_app in Hok as Hok'. destruct Hok' as [Hok1 Hok2].
    rewrite <- app_assoc in Hsz |- *.
    destruct (replace_var junk pid env size fuel d1 d2 n v (spell l) r) as (r1 & -> & Hsz1); try done; [lia|].
    destruct v as [|v0 v]; [done|].
    destruct (IH fuel (d1 ++ d2 ++ [v0]) v r1) as (r' & Hr & Hz); try done.
    + unfold has in *. cbn [existsb] in Hvd. by apply orb_false_iff in Hvd as [_ ?].
    + rewrite <- !app_assoc. cbn [app]. rewrite app_assoc. by apply last_app_ne.
    + rewrite <- !app_assoc. cbn [app]. rewrite app_assoc. by apply Forall_app.
    + rewrite <- !app_assoc. done.
    + rewrite <- !app_assoc. cbn [app]. rewrite app_assoc, zlen_app. lia.
    + lia.
    + exists r'. rewrite <- (app_assoc (v0 :: v)). rewrite (app_assoc d1 d2 [v0]), zlen_snoc in Hr.
      repeat rewrite <- app_assoc in Hr. repeat rewrite <- app_assoc in Hz. exact (conj Hr Hz).
Qed.

Lemma replace_variables_spec junk pid env size l r :
  template_ok env l -> zlen (spell l ++ 0 :: r) = size -> width env l <= size - 1 ->
  exists r', replace_variables junk pid env (spell l ++ 0 :: r) size = Ok (expand env l ++ 0 :: r').
Proof.
  intros Hl Hsz Hw. destruct (replace_loop_spec junk pid env size l (2 * length (spell l ++ 0 :: r) + 2) [] [] r)
    as (r' & Hr & _); try done. { rewrite length_app. lia. } by exists r'.
Qed.

(** ** The files of the redirections *)
Definition contents (b : list Z) : list Z := match read_str b with Ok s => s | _ => [] end.
(** The files to open, in order. *)
Definition open_calls (r : redirs) : list call :=
  match redir_stdin r with Some p => [Freopen (contents p) Read 0] | None => [] end
  ++ match redir_stdout r with
     | Some p => [Freopen (contents p) (if redir_append_stdout r then Append else Write) 1] | None => [] end
  ++ match redir_stderr r with
     | NoErr => []
     | ToStdout => [Dup2 1 2]
     | ErrFile p => [Freopen (contents p) (if redir_append_stderr r then Append else Write) 2]
     end.
Definition is_string (b : list Z) : Prop := exists w, b = w ++ [0] /\ Forall char_ok w.
Record redirs_ok (r : redirs) : Prop := mk_redirs_ok {
  ro_stdin : forall p, redir_stdin r = Some p -> is_string p;
  ro_stdout : forall p, redir_stdout r = Some p -> is_string p;
  ro_stderr : forall p, redir_stderr r = ErrFile p -> is_string p }.

Lemma apply_redir_ok op t r : Forall char_ok t -> redirs_ok r -> redirs_ok (apply_redir op t r).
Proof.
  intros Ht [H1 H2 H3]. assert (is_string (t ++ [0])) by (by exists t).
  unfold apply_redir. repeat case_decide; split; cbn; naive_solver.
Qed.

Lemma redir_spec_ok kept ws r ws' r' :
  redir_spec kept ws r = Some (ws', r') -> Forall (Forall char_ok) (kept ++ ws) -> redirs_ok r ->
  redirs_ok r' /\ Forall (Forall char_ok) ws' /\ exists l, ws' = kept ++ l.
Proof.
  remember (length ws) as n eqn:Hn. revert kept ws r Hn. induction n as [n IH] using lt_wf_ind. intros kept ws r -> Hs Hc Hr.
  destruct ws as [|w ws]; cbn [redir_spec] in Hs. { injection Hs as <- <-. rewrite app_nil_r in Hc. split_and!; [done..|]. exists []. by rewrite app_nil_r. }
  destruct (is_op w).
  - destruct kept as [|k kept]; [done|]. destruct ws as [|t ws]; [done|]. apply Forall_app in Hc as [Hk [_ [Ht Hw]%Forall_cons]%Forall_cons].
    apply (IH (length ws) ltac:(cbn; lia) _ _ _ eq_refl Hs); [by apply Forall_app | by apply apply_redir_ok].
  - destruct (IH (length ws) ltac:(cbn; lia) _ _ _ eq_refl Hs) as (? & ? & l & ->); [by rewrite <- app_assoc | done |].
    split_and!; try done. rewrite <- app_assoc. eauto.
Qed.

Lemma read_string b : is_string b -> read_str b = Ok (contents b).
Proof. intros (w & -> & Hw). unfold contents. by rewrite read_term. Qed.

(** ** The child *)
Section ChildSpec.
Context (glob : list Z -> option (list (list Z))) (freopen : list Z -> mode -> bool).

(** What an argument becomes: the paths it matches; itself if there are none; without the backslash in front of its
    first star if it has one. *)
Definition glob_arg (w : list Z) : list (list Z) :=
  match index_of w STAR 0 with
  | None => [w]
  | Some p =>
      if (0 <? p) && bool_decide (w !! Z.to_nat (p - 1) = Some BACKSLASH) then [take (Z.to_nat (p - 1)) w ++ drop (Z.to_nat p) w]
      else match glob w with None | Some [] => [w] | Some l => l end
  end.

(** [argv] with the blocks [bs] and a NULL. *)
Definition argv_of (bs : list (list Z)) (R : list (option (list Z))) : list (option (list Z)) := (Some <$> bs) ++ None :: R.
Definition term (w : list Z) : list Z := w ++ [0].

Lemma argv_of_get pre b bs R : aget (argv_of (pre ++ b :: bs) R) (zlen pre) = Ok (Some b).
Proof.
  unfold argv_of. rewrite fmap_app, fmap_cons, <- app_assoc. pose proof (aget_mid (Some <$> pre) ((Some <$> bs) ++ None :: R) (Some b)) as H.
  unfold zlen in *. by rewrite length_fmap in H.
Qed.

Lemma argv_of_set pre b bs R x : aset (argv_of (pre ++ b :: bs) R) (zlen pre) (Some x) = Ok (argv_of (pre ++ x :: bs) R).
Proof. unfold argv_of. rewrite !fmap_app, !fmap_cons, <- !app_assoc. cbn [app]. by rewrite aset_args. Qed.

Lemma put_args_spec u old l post :
  length old = length l -> put_args (u ++ old ++ post) (zlen u) l = Ok (u ++ (Some <$> (term <$> l)) ++ post).
Proof.
  revert u old. induction l as [|x l IH]; intros u [|o old'] Ho; try done. cbn [put_args fmap list_fmap app]. rewrite aset_mid.
  cbn [mbind res_bind]. specialize (IH (u ++ [Some (term x)]) old' ltac:(cbn in Ho; lia)).
  rewrite zlen_snoc, <- !app_assoc in IH. exact IH.
Qed.

(** The arguments after the pattern are saved, with the NULL. *)
Lemma ending_spec {A} (junk : list A) pre x ws y rep :
  length junk = S (length ws) ->
  blit junk 0 (pre ++ x :: ws ++ y :: rep) (zlen pre + 1) (1 + zlen ws) = Ok (ws ++ [y]).
Proof.
  intros Hj. replace (pre ++ x :: ws ++ y :: rep) with ((pre ++ [x]) ++ (ws ++ [y]) ++ rep) by (by rewrite <- !app_assoc).
  pose proof (zlen_nonneg pre). pose proof (zlen_nonneg ws). pose proof (zlen_nonneg rep).
  rewrite blit_Ok; [|lia..| | lia |].
  - change (Z.to_nat 0) with 0%nat. rewrite take_0, (drop_ge junk), app_nil_r by (unfold zlen; lia).
    rewrite drop_app_length', take_app_length'; [done|..]; rewrite length_app; cbn; unfold zlen; lia.
  - unfold zlen in *. lia.
  - rewrite !zlen_app, !zlen_cons, !zlen_nil. lia.
Qed.

Lemma glob_insert_spec pre w ws R paths :
  exists R', glob_insert (argv_of (pre ++ w :: ws) R) (zlen (pre ++ w :: ws)) (zlen pre) paths =
    Ok (argv_of (pre ++ (term <$> paths) ++ ws) R').
Proof.
  unfold argv_of.
  pose proof (zlen_nonneg R). pose proof (zlen_nonneg ws). pose proof (zlen_nonneg pre).
  assert (Hf : forall l : list (list Z), zlen (Some <$> l) = zlen l) by (intros; unfold zlen; by rewrite length_fmap).
  unfold glob_insert. rewrite !zlen_app, Hf, zlen_app. rewrite !zlen_cons.
  set (argc := zlen pre + (1 + zlen ws)). destruct (Z.ltb_spec (argc + (1 + zlen R)) argc); [lia|].
  rewrite take_app_length' by (rewrite length_fmap, length_app; unfold argc, zlen; cbn; lia).
  replace (Z.to_nat (argc + zlen paths + 1 - argc)) with (S (length paths)) by (unfold zlen; lia). cbn [replicate].
  replace (argc - zlen pre) with (1 + zlen ws) by lia.
  rewrite fmap_app, fmap_cons, <- !app_assoc. cbn [app].
  pose proof (ending_spec (replicate (Z.to_nat (1 + zlen ws)) None) (Some <$> pre) (Some w) (Some <$> ws) None (replicate (length paths) None)) as He.
  rewrite !Hf, length_fmap in He. rewrite He by (rewrite length_replicate; unfold zlen; lia). cbn [mbind res_bind]. clear He.
  set (Y := Some w :: (Some <$> ws) ++ None :: replicate (length paths) None).
  assert (HY : length Y = (2 + length ws + length paths)%nat) by (unfold Y; cbn; rewrite length_app, length_fmap; cbn; rewrite length_replicate; lia).
  pose proof (put_args_spec (Some <$> pre) (take (length paths) Y) paths (drop (length paths) Y)) as Hp.
  rewrite take_drop, Hf in Hp. rewrite Hp by (rewrite length_take; lia). cbn [mbind res_bind]. clear Hp.
  rewrite app_assoc, <- fmap_app. rewrite blit_Ok; [|try lia..].
  - eexists. rewrite take_app_length' by (rewrite length_fmap, length_app, length_fmap; unfold zlen; lia).
    change (Z.to_nat 0) with 0%nat. rewrite drop_0.
    rewrite (take_ge (_ ++ [None])) by (rewrite length_app, length_fmap; cbn; unfold zlen; lia).
    rewrite !fmap_app, <- !app_assoc. done.
  - unfold zlen. lia.
  - rewrite zlen_app, Hf, zlen_app. unfold zlen in *. rewrite length_fmap, length_drop. lia.
  - rewrite zlen_app, Hf. change (zlen [@None (list Z)]) with 1. lia.
Qed.
Lemma index_of_bound w c k p : index_of w c k = Some p -> k <= p < k + zlen w.
Proof.
  revert k. induction w as [|x w IH]; intros k; cbn [index_of]; [done|]. rewrite zlen_cons. pose proof (zlen_nonneg w).
  destruct (x =? c); [intros [= ->]; lia|]. intros ?%IH. lia.
Qed.

(** The backslash at [p - 1] is removed. *)
Lemma unescape_spec b w p :
  cstr b w -> 0 < p < zlen w ->
  exists b', blit b (p - 1) b p (zlen w - p + 1) = Ok b' /\ cstr b' (take (Z.to_nat (p - 1)) w ++ drop (Z.to_nat p) w).
Proof.
  intros Hb Hp. pose proof (cstr_len _ _ Hb) as Hl. assert (zlen w < zlen b) by (unfold zlen; lia).
  rewrite blit_Ok by lia. eexists. split; [done|]. destruct Hb as (r & -> & Hw).
  replace (p - 1 + (zlen w - p + 1)) with (zlen w) by lia. unfold zlen in *.
  rewrite take_app_le, drop_app_le by lia.
  replace (take (Z.to_nat (Z.of_nat (length w) - p + 1)) (drop (Z.to_nat p) w ++ 0 :: r)) with (drop (Z.to_nat p) w ++ [0]).
  2: { change (0 :: r) with ([0] ++ r). rewrite app_assoc, take_app_length'; [done|]. rewrite length_app, length_drop. cbn. lia. }
  rewrite <- !app_assoc, app_assoc. eexists. split; [done|]. apply Forall_app. split; [by apply Forall_take | by apply Forall_drop].
Qed.

Lemma star_escaped b w p :
  cstr b w -> 0 <= p < zlen w ->
  exists prev, (if 0 <? p then aget b (p - 1) else Ok 0) = Ok prev /\
    (0 <? p) && bool_decide (w !! Z.to_nat (p - 1) = Some BACKSLASH) = (0 <? p) && (prev =? BACKSLASH).
Proof.
  intros (r & -> & Hw) Hp. destruct (Z.ltb_spec 0 p); [|by exists 0].
  destruct (aget_is_Ok w (p - 1)) as (x & Hx & Hx'); [lia|].
  exists x. split.
  - apply aget_Ok. split; [lia|]. by apply lookup_app_l_Some.
  - rewrite Hx'. cbn [andb]. case_bool_decide as E; [by injection E as -> | symmetry; apply Z.eqb_neq; congruence].
Qed.

Hypothesis glob_ok : forall w l, glob w = Some l -> Forall (Forall char_ok) l.

Lemma glob_loop_spec bs ws : Forall2 cstr bs ws -> forall pre R,
  exists bs' R', glob_loop glob (length bs) (argv_of (pre ++ bs) R) (zlen (pre ++ bs)) (zlen pre) =
      Ok (argv_of (pre ++ bs') R', zlen (pre ++ bs')) /\ Forall2 cstr bs' (concat (glob_arg <$> ws)).
Proof.
  induction 1 as [|b w bs ws Hb Hbs IH]; intros pre R; [by exists [], R|]. cbn [glob_loop length].
  rewrite argv_of_get. cbn [mbind res_bind]. rewrite (strchr_spec b w) by done. cbn [mbind res_bind].
  (* the argument stands for the blocks [xs] *)
  assert (Hnext : forall xs R1, Forall2 cstr xs (glob_arg w) ->
    exists bs' R', glob_loop glob (length bs) (argv_of (pre ++ xs ++ bs) R1) (zlen (pre ++ xs ++ bs)) (zlen (pre ++ xs)) =
      Ok (argv_of (pre ++ bs') R', zlen (pre ++ bs')) /\ Forall2 cstr bs' (glob_arg w ++ concat (glob_arg <$> ws))).
  { intros xs R1 Hx. destruct (IH (pre ++ xs) R1) as (bs' & R' & Hl & Hc). exists (xs ++ bs'), R'.
    rewrite <- !app_assoc in Hl. split; [done | by apply Forall2_app]. }
  assert (Hone : forall x R1, glob_arg w = [x] -> forall b', cstr b' x ->
    exists bs' R', glob_loop glob (length bs) (argv_of (pre ++ b' :: bs) R1) (zlen (pre ++ b :: bs)) (zlen pre + 1) =
      Ok (argv_of (pre ++ bs') R', zlen (pre ++ bs')) /\ Forall2 cstr bs' (glob_arg w ++ concat (glob_arg <$> ws))).
  { intros x R1 Hx b' Hb'. destruct (Hnext [b'] R1) as (bs' & R' & Hl & Hc); [rewrite Hx; by repeat constructor|].
    exists bs', R'. split; [|done]. rewrite <- Hl. f_equal; [|by rewrite zlen_snoc]. rewrite !zlen_app. cbn [app]. by rewrite !zlen_cons. }
  cbn [fmap list_fmap concat]. destruct (index_of w STAR 0) as [p|] eqn:Ei.
  2: { apply (Hone w R); [|done]. unfold glob_arg. by rewrite Ei. }
  apply index_of_bound in Ei as Hp. rewrite Z.add_0_l in Hp.
  destruct (star_escaped b w p Hb Hp) as (prev & Hprev & Hesc). rewrite Hprev. cbn [mbind res_bind].
  assert (Hg : glob_arg w = if (0 <? p) && (prev =? BACKSLASH) then [take (Z.to_nat (p - 1)) w ++ drop (Z.to_nat p) w]
                            else match glob w with None | Some [] => [w] | Some l => l end) by (unfold glob_arg; by rewrite Ei, Hesc).
  destruct ((0 <? p) && (prev =? BACKSLASH)) eqn:Eb.
  { apply andb_true_iff in Eb as [Hp0%Z.ltb_lt _]. rewrite (strlen_spec _ _ Hb). cbn [mbind res_bind].
    destruct (unescape_spec b w p Hb) as (b' & -> & Hb'); [lia|]. cbn [mbind res_bind]. rewrite argv_of_set. by eapply Hone. }
  rewrite (read_str_spec _ _ Hb). cbn [mbind res_bind]. destruct (glob w) as [[|x [|y l]]|] eqn:Eg; try by apply (Hone w R).
  - rewrite argv_of_set. cbn [mbind res_bind]. apply (Hone x R); [done|]. apply glob_ok in Eg.
    exists []. split; [done|]. by inversion Eg.
  - destruct (glob_insert_spec pre b bs R (x :: y :: l)) as (R1 & ->). cbn [mbind res_bind].
    destruct (Hnext (term <$> (x :: y :: l)) R1) as (bs' & R' & Hl & Hc).
    + rewrite Hg. apply glob_ok in Eg. apply Forall2_fmap_l, Forall_Forall2_diag. eapply Forall_impl; [done|]. intros v Hv. by exists [].
    + exists bs', R'. split; [|done]. rewrite <- Hl. rewrite !zlen_app, !zlen_cons. unfold zlen. rewrite length_fmap. cbn [length].
      f_equal; lia.
Qed.
Lemma exec_args_spec bs ws R : Forall2 cstr bs ws -> exec_args (argv_of bs R) = Ok ws.
Proof.
  unfold argv_of. induction 1 as [|b w bs ws Hb Hbs IH]; [done|]. cbn [fmap list_fmap app exec_args].
  rewrite (read_str_spec _ _ Hb). cbn [mbind res_bind]. by rewrite IH.
Qed.

(** The child ends at the first file that cannot be opened. *)
Fixpoint until_failure (l : list call) : list call * bool :=
  match l with
  | [] => ([], true)
  | Freopen p m fd :: l =>
      if freopen p m then (Freopen p m fd :: (until_failure l).1, (until_failure l).2) else ([Freopen p m fd; ExitChild], false)
  | c :: l => (c :: (until_failure l).1, (until_failure l).2)
  end.

Lemma until_failure_app l1 l2 :
  until_failure (l1 ++ l2) =
  if (until_failure l1).2 then ((until_failure l1).1 ++ (until_failure l2).1, (until_failure l2).2) else ((until_failure l1).1, false).
Proof.
  induction l1 as [|c l1 IH]; cbn; [by destruct (until_failure l2)|].
  destruct c; try (rewrite IH; by destruct (until_failure l1) as [? []]).
  destruct (freopen path m); [|done]. rewrite IH. by destruct (until_failure l1) as [? []].
Qed.

Lemma reopen_spec path m fd :
  (forall p, path = Some p -> is_string p) ->
  reopen freopen path m fd = Ok (until_failure (match path with Some p => [Freopen (contents p) m fd] | None => [] end)).
Proof.
  intros H. unfold reopen. destruct path as [p|]; [|done]. rewrite (read_string p) by auto. cbn [mbind res_bind until_failure].
  by destruct (freopen (contents p) m).
Qed.

Lemma redirect_child_spec r : redirs_ok r -> redirect_child freopen r = Ok (until_failure (open_calls r)).
Proof.
  intros [H1 H2 H3]. unfold redirect_child, open_calls. rewrite (reopen_spec (redir_stdin r)) by done. rewrite !until_failure_app.
  set (l0 := match redir_stdin r with Some _ => _ | None => _ end). destruct (until_failure l0) as [c0 []]; cbn [mbind res_bind negb fst snd]; [|done].
  rewrite (reopen_spec (redir_stdout r)) by done.
  set (l1 := match redir_stdout r with Some _ => _ | None => _ end). destruct (until_failure l1) as [c1 []]; cbn [mbind res_bind negb fst snd]; [|done].
  destruct (redir_stderr r) as [| |e]; cbn [until_failure fst snd]; [by rewrite app_nil_r | done |].
  rewrite reopen_spec by (intros ? [= <-]; auto). cbn [mbind res_bind]. cbn [until_failure fst snd]. by destruct (freopen (contents e) _).
Qed.

(** The child opens the files of the redirections and executes the arguments, with their patterns replaced. *)
Lemma run_child_spec argv ws r env :
  holds argv ws -> Forall (Forall char_ok) ws -> redirs_ok r -> no_env env ->
  run_child glob freopen argv (zlen ws) r env =
  Ok (let (calls, ok) := until_failure (open_calls r) in
      if ok then calls ++ [Execvp (concat (glob_arg <$> ws))] else calls).
Proof.
  intros [R ->] Hws Hr Henv. unfold run_child.
  assert (Hb : Forall2 cstr (term <$> ws) ws).
  { apply Forall2_fmap_l, Forall_Forall2_diag. eapply Forall_impl; [done|]. intros v Hv. by exists []. }
  destruct (glob_loop_spec _ _ Hb [] R) as (bs & R' & Hl & Hbs). cbn [app] in Hl. rewrite length_fmap in Hl.
  replace (args_of ws 1 ++ R) with (argv_of (term <$> ws) R)
    by (unfold argv_of, args_of; rewrite <- list_fmap_compose, <- app_assoc; done).
  change (zlen []) with 0 in Hl. replace (zlen (term <$> ws)) with (zlen ws) in Hl by (unfold zlen; by rewrite length_fmap).
  replace (Z.to_nat (zlen ws)) with (length ws) by (unfold zlen; lia). rewrite Hl. cbn [mbind res_bind].
  rewrite redirect_child_spec by done. cbn [mbind res_bind]. destruct (until_failure (open_calls r)) as [calls []]; cbn [negb]; [|done].
  rewrite (exec_args_spec _ _ _ Hbs). destruct Henv as [->|(n & ->)]; done.
Qed.
End ChildSpec.

(** ** A line of input *)
Lemma words_char_ok q f cur s :
  Forall printable s -> Forall char_ok (default [] cur) -> Forall (Forall char_ok) (read_from q f cur s).
Proof.
  intros Hs. revert q f cur. induction Hs as [|c s Hc Hs IH]; intros q f cur Hcur; cbn [read_from].
  - destruct cur; by repeat constructor.
  - destruct (_ && _ && _); [constructor|]. destruct (c =? QUOTE); [by apply IH|].
    destruct (_ && _); [destruct cur; [constructor; [done|]|]; by apply IH|].
    apply IH. cbn. apply Forall_snoc; [done | by apply printable_char].
Qed.

Lemma args_of_holds ws k : holds (args_of ws (S k)) ws.
Proof. exists (replicate k None). unfold args_of. by rewrite <- app_assoc. Qed.

(** The copy of the command that [process_input] works on. *)
Lemma input_copy junk cmd s :
  cstr cmd s ->
  let size := Z.max (zlen s * 3) 2048 in
  exists r n, strlcpy (malloc junk size) cmd size = Ok (s ++ 0 :: r, n) /\ zlen (s ++ 0 :: r) = size.
Proof.
  intros Hs size. pose proof (zlen_nonneg s). assert (Hm : zlen (malloc junk size) = size) by (apply malloc_zlen; lia).
  rewrite (strlcpy_spec _ _ s) by (done || lia). rewrite take_ge, Nat.min_r by (unfold zlen in *; lia).
  eexists _, _. split; [done|]. rewrite zlen_app, zlen_cons. unfold zlen in *. rewrite length_drop. lia.
Qed.

Definition built_in (w : list Z) : bool :=
  bool_decide (w = chars "exit") || bool_decide (w = chars "cd") || bool_decide (w = chars "pwd")
  || bool_decide (w = chars "export") || bool_decide (w = chars "unset").

(** A command that is not built in runs with its redirections taken out. *)
Lemma run_command_spec chdir argv ws env sh w :
  holds argv ws -> Forall (Forall char_ok) ws -> head ws = Some w -> built_in w = false ->
  match redir_spec [] ws no_redirs with
  | None => run_command chdir argv (zlen ws) env sh = Ok (Return 1, sh)
  | Some (ws', r) => exists argv', holds argv' ws' /\ redirs_ok r /\ Forall (Forall char_ok) ws' /\
      run_command chdir argv (zlen ws) env sh = Ok (Fork argv' (zlen ws') r env, sh)
  end.
Proof.
  intros Hh Hc Hw Hb. unfold run_command. pose proof (take_redirs_spec argv ws Hh Hc) as Ht.
  destruct (redir_spec [] ws no_redirs) as [[ws' r]|] eqn:Er; [|by rewrite Ht].
  destruct Ht as (argv' & Hh' & Ht). rewrite Ht. cbn [mbind res_bind].
  destruct ws as [|w0 ws]; [done|]. injection Hw as ->.
  assert (Hws' : exists l, ws' = w :: l).
  { cbn [redir_spec] in Er. destruct (is_op w); [done|].
    destruct (redir_spec_ok [w] ws no_redirs ws' r) as (_ & _ & l & ->); eauto. by split. }
  destruct Hws' as [l ->]. destruct (redir_spec_ok [] (w :: ws) no_redirs (w :: l) r Er) as (Hr & Hl & _); [done | by split |].
  pose proof (holds_get argv' [] w l Hh') as Hg. change (zlen []) with 0 in Hg. unfold arg_at. rewrite Hg. cbn [mbind res_bind deref].
  apply Forall_cons in Hc as [Hwc _]. rewrite !streq_spec by (done || by apply lit_check). cbn [mbind res_bind].
  unfold built_in in Hb. rewrite !orb_false_iff in Hb. destruct Hb as [[[[_ ->] ->] ->] ->]. eauto 10.
Qed.

(** C26: From a line to the program: the variables of the line are replaced by their values, the result is split into arguments, the redirections
    are taken out, and the child opens their files in order and executes the program with the remaining arguments, patterns replaced by the
    paths they match; where a file cannot be opened it ends.  An operator without a command before it or a file after it is an error, with which
    nothing is run.  The shell stays as it was.  The line, after the replacement, is printable and shorter than 2048 bytes, its variables are set and not empty ([template_ok]; after others a character is passed over,
    [eshell_empty_variable_skips]), it has no [#] right after a closing quotation mark (the argument before would be lost, [eshell_hash_drops]), the command is not built in, and no assignment comes before it. *)
Theorem eshell_command_correct chdir glob freopen junk pid cmd sh l s tr w :
  cstr cmd (spell l) -> template_ok (environ sh) l -> width (environ sh) l < Z.max (zlen (spell l) * 3) 2048 ->
  expand (environ sh) l = s ++ tr -> Forall printable s -> s <> [] -> last s <> Some SPACE -> Forall ends_line tr -> zlen s < 2048 -> no_hash_after_quote s ->
  head (words s) = Some w -> has w EQUALS = false -> built_in w = false ->
  (forall p paths, glob p = Some paths -> Forall (Forall char_ok) paths) ->
  match redir_spec [] (words s) no_redirs with
  | None => process_input chdir junk pid cmd sh = Ok (Return 1, sh)
  | Some (args, r) => exists argv env,
      process_input chdir junk pid cmd sh = Ok (Fork argv (zlen args) r env, sh) /\
      run_child glob freopen argv (zlen args) r env =
        Ok (let (calls, ok) := until_failure freopen (open_calls r) in
            if ok then calls ++ [Execvp (concat (glob_arg glob <$> args))] else calls)
  end.
Proof.
  intros Hcmd Hl Hwd Hexp Hp Hne Hlast Htr Hlen Hhash Hw Heq Hb Hglob. rewrite <- (read_words_words s Hhash) in *. unfold process_input. rewrite (strlen_spec _ _ Hcmd). cbn [mbind res_bind].
  destruct (input_copy junk cmd _ Hcmd) as (r & n & -> & Hsz). cbn [mbind res_bind].
  destruct (replace_variables_spec junk pid (environ sh) _ l r Hl Hsz) as (r' & ->); [lia|]. cbn [mbind res_bind].
  rewrite Hexp, <- app_assoc.
  destruct (parse_line junk s tr r' Hp Hne Hlast Htr Hlen) as (k & env & Henv & ->). { rewrite Hw. by intros ? [= <-]. }
  cbn [mbind res_bind]. pose proof (args_of_holds (read_words s) k) as Hh. pose proof (words_char_ok false true None s Hp (Forall_nil_2 _)) as Hc.
  fold (read_words s) in Hc. destruct (read_words s) as [|w0 ws] eqn:Ews; [done|]. injection Hw as ->.
  pose proof (holds_get _ [] w ws Hh) as Hg. change (zlen []) with 0 in Hg. rewrite Hg. cbn [mbind res_bind].
  apply Forall_cons in Hc as Hwc. destruct Hwc as [Hwc _]. rewrite streq_spec by (done || by apply lit_check). cbn [mbind res_bind].
  assert (bool_decide (w = chars "exit") = false) as -> by (unfold built_in in Hb; rewrite !orb_false_iff in Hb; tauto).
  pose proof (run_command_spec chdir _ _ env sh w Hh Hc eq_refl Hb) as Hrun.
  destruct (redir_spec [] (w :: ws) no_redirs) as [[args rd]|]; [|done].
  destruct Hrun as (argv' & Hh' & Hr & Hc' & ->). exists argv', env. split; [done|]. by apply run_child_spec.
Qed.

(** A shell with [$F] set, in a directory with two files that match [*.c]. *)
Definition demo_shell : shell := mk_shell {[chars "F" := chars "/etc/a"]} (chars "/") (chars "/") [].
Definition demo_glob (p : list Z) : option (list (list Z)) := if decide (p = chars "*.c") then Some [chars "a.c"; chars "b.c"] else None.
(** [cat $F > out *.c 2> &1], as typed *)
Definition demo_items : list item := [Text (chars "cat "); Var (chars "F"); Text (chars " > out *.c 2> &1" ++ [NEWLINE])].

Lemma eshell_command_witness :
  exists argv r env,
    process_input (fun _ d => Some d) 0 (chars "7") (spell demo_items ++ [0]) demo_shell = Ok (Fork argv 3 r env, demo_shell) /\
    run_child demo_glob (fun _ _ => true) argv 3 r env =
      Ok [Freopen (chars "out") Write 1; Dup2 1 2; Execvp [chars "cat"; chars "/etc/a"; chars "a.c"; chars "b.c"]].
Proof.
  pose proof (eshell_command_correct (fun _ d => Some d) demo_glob (fun _ _ => true) 0 (chars "7") (spell demo_items ++ [0]) demo_shell
                demo_items (chars "cat /etc/a > out *.c 2> &1") [NEWLINE] (chars "cat")) as H.
  destruct H as (argv & env & Hp & Hr).
  - exists []. split; [reflexivity|]. repeat (constructor; [done|]). constructor.
  - cbn [template_ok demo_items]. unfold plain.
    assert (Hch : forall t, forallb (fun c => (0 <? c) && (c <? 256)) t = true -> Forall char_ok t).
    { intros t Ht. apply Forall_forall. intros c Hc. rewrite forallb_forall in Ht.
      specialize (Ht c (proj1 (list_elem_of_In _ _) Hc)). unfold char_ok. bool_to_prop. lia. }
    split_and!; try (by apply Hch); try reflexivity; try discriminate; try exact I.
    + by repeat constructor.
    + exists (chars "/etc/a"). split_and!; try (by apply Hch); try reflexivity; discriminate.
    + intros c [= <-]. reflexivity.
  - vm_compute. reflexivity.
  - vm_compute. reflexivity.
  - by apply printable_check.
  - discriminate.
  - vm_compute. discriminate.
  - constructor; [by right | constructor].
  - vm_compute. reflexivity.
  - vm_compute. reflexivity.
  - vm_compute. reflexivity.
  - vm_compute. reflexivity.
  - vm_compute. reflexivity.
  - intros p paths. unfold demo_glob. destruct (decide (p = chars "*.c")); [|discriminate]. intros [= <-]. by repeat constructor.
  - exists argv, (mk_redirs None (Some (lit "out")) ToStdout false false), env. exact (conj Hp Hr).
Defined.

(** Redirections: the loop of [process_input], which removes an operator and its file from [argv] in place and starts over, computes what one
    pass over the arguments gives; [argv] holds the other arguments in their order, ended by NULL, and the last redirection of a stream counts.  It
    ends, and fails exactly when an operator is the first argument or the last. *)
Theorem take_redirs_correct ws k :
  Forall (Forall char_ok) ws ->
  match redir_spec [] ws no_redirs with
  | None => take_redirs (args_of ws (S k)) (zlen ws) = Ok None
  | Some (ws', r) => exists argv, holds argv ws' /\ take_redirs (args_of ws (S k)) (zlen ws) = Ok (Some (argv, zlen ws', r))
  end.
Proof. intros Hc. apply take_redirs_spec; [apply args_of_holds | done]. Qed.

Lemma take_redirs_witness :
  exists argv, holds argv [chars "a"; chars "b"] /\
    take_redirs (args_of [chars "a"; chars "<"; chars "f"; chars "b"; chars ">>"; chars ">"] 1) 6 =
      Ok (Some (argv, 2, mk_redirs (Some (lit "f")) (Some (lit ">")) NoErr true false)).
Proof.
  apply (take_redirs_correct [chars "a"; chars "<"; chars "f"; chars "b"; chars ">>"; chars ">"] 0).
  by repeat constructor.
Defined.

(** ** Built-in commands *)

(** [cd dir] and then [cd -] end where they started, with [dir] as the last directory. *)
Theorem eshell_cd_back chdir sh d w :
  Forall char_ok d -> d <> chars "-" -> chdir (cwd sh) d = Some w -> chdir w (cwd sh) = Some (cwd sh) ->
  exists sh1 sh2, builtin_cd chdir (args_of [chars "cd"; d] 1) 2 sh = Ok sh1 /\ cwd sh1 = w /\
    builtin_cd chdir (args_of [chars "cd"; chars "-"] 1) 2 sh1 = Ok sh2 /\ cwd sh2 = cwd sh /\ last_wd sh2 = w /\ environ sh2 = environ sh.
Proof.
  intros Hd Hne H1 H2. assert (Ha : forall x, arg_at (args_of [chars "cd"; x] 1) 1 = Ok (x ++ [0])) by done.
  unfold builtin_cd. change (2 =? 1) with false. cbn iota. rewrite !Ha. cbn [mbind res_bind].
  rewrite !streq_spec by (done || by apply lit_check). rewrite bool_decide_false by done. cbn [mbind res_bind].
  rewrite read_term by done. cbn [mbind res_bind cwd]. rewrite H1. eexists. eexists. split; [done|]. split; [done|].
  rewrite streq_spec by (by repeat constructor || by apply lit_check).
  rewrite bool_decide_true by done. cbn. rewrite H2. eauto 10.
Qed.

(** [unset A B] removes only [A]: [unsetenv] is called with [argv[1]] each time. *)
Theorem eshell_unset_first_only sh :
  builtin_unset (args_of [chars "unset"; chars "A"; chars "B"] 1) 3 sh = Ok (set_environ (delete (chars "A") (delete (chars "A") (environ sh))) sh).
Proof. reflexivity. Qed.

(** After a variable that is empty or not set, [p++] passes over the character that follows: a variable there is not replaced. *)
Theorem eshell_empty_variable_skips :
  replace_variables 0 (chars "7") {[chars "A" := chars "x"]} (chars "$N$A" ++ replicate 12 0) 16 = Ok (chars "$A" ++ [0; 65] ++ replicate 12 0).
Proof. vm_compute. reflexivity. Qed.
